(* ===== verification/_CoqProject ===== *)
-Q . S2P
Prelude.v
Stateful.v
GoStrings.v
Regex.v
GoPath.v
SqlFence.v
SqlPlan.v
SqlStream.v
SqlFailure.v
SqlExecutor.v
EnvStore.v
JsonFile.v
BootstrapStore.v
KvStores.v
PvcPlan.v
PvcArchive.v
PvcLocal.v
PvcExecutor.v
PvcHelper.v
HelmName.v
OrchTypes.v
HelmValues.v
HelmCli.v
HelmDirect.v
Orchestrator.v
Backends.v
RunnerConfig.v
RunnerCommand.v
RunnerDispatch.v
RunnerProtocol.v
RunnerCapture.v
RunnerMain.v
GitPaths.v
GitWriter.v
GitRepository.v
Json.v
PvcKube.v
PvcDomain.v
PvcFence.v
PvcRunner.v
SqlHelper.v
SqlManifest.v
SqlDriver.v
SqlKube.v
SqlCopy.v
SqlRunner.v
RunnerWhole.v
