(* ===== verification/Prelude.v ===== *)
(** * Verification library of the EnvPlane runner

    The runner executes the jobs of a control plane in a customer's cluster:
    it deploys and deletes preview environments with helm or through a GitOps
    repository, copies databases and volumes into them, and keeps the
    records of environments, projects and bootstrap sessions.  This library
    models the parts of the Go code under [src/] that decide whether such a job
    is safe and complete, and proves them correct.

    ** Parts and files

    - Prelude: errors as values ([result]), programs over an environment
      ([prog]), the automation and [sort.Slice]; Stateful: methods that keep a
      state, and the rules of what a program does ([wp]); GoStrings, Regex, GoPath: the
      pieces of Go's strings, regexp, path, io/fs and sort packages that the
      code uses, over the bytes of a string.
    - [internal/mysqlcopy]: a logical copy of a MySQL database.  SqlPlan has the
      plan ([plan.go]); SqlStream the validation of a dump while it streams
      ([stream.go], [reader.go], [schema.go], [catalog.go]); SqlFailure the
      sanitising of errors ([failure.go]); SqlExecutor the whole
      [ExecuteDomain] ([executor.go]); SqlHelper the command that prepares a
      helper and claims the target volume ([helper.go]).  In the cluster:
      SqlManifest the objects and the comparison of a Pod with what it was
      created as, SqlDriver the driver of helpers, target, receipt and admission
      fence ([driver.go], [admission.go]), SqlKube the transport with the
      credentials, the queries and the lock ([kube.go]), SqlCopy the execution
      on that transport, down to the runs of kubectl, SqlFence the references to
      the fences that runner and driver share.  SqlRunner is the runner's command
      ([internal/runner/mysql_restore.go]), which composes all of them.
    - [internal/store]: EnvStore the environments ([store.go],
      [environment_record.go], [sql_store.go]) with the interface both
      implementations refine; JsonFile what the other JSON files share;
      BootstrapStore sessions and the claim of a bootstrap token; KvStores the
      projects, products, configurations and settings, a Module each.
    - [internal/pvccopy]: a copy of a volume.  PvcPlan has the plan, markers and
      the local policy ([plan.go]); PvcArchive export, relay, consumption and
      restoring of the archive ([archive.go]); PvcLocal the durable protocol on
      a volume ([local.go]); PvcExecutor the whole [Execute] ([executor.go]);
      PvcHelper the command that the helper pods run ([cli.go]) and an execution
      composed with helpers that run it on the two volumes.  Json is a decoded
      JSON value; PvcKube the transport over kubectl and the controllers of a
      volume ([kubectl.go], [controllers.go]); PvcDomain the copy of a plan's
      items ([domain.go]); PvcFence the admission fence of the sources
      ([fence.go], [fence_reviewed.go], the runner's [source_fence_profile.go]);
      PvcRunner the runner's command ([internal/runner/pvc_copy.go]), which
      composes all of them down to the runs of kubectl.
    - [internal/orchestrator/orchestrator.go]: OrchTypes what the files share;
      HelmName release names; HelmValues the configuration of the Helm backend
      and its values; HelmCli the executor that runs helm and kubectl, with
      the ownership of Secrets; HelmDirect that backend; Orchestrator
      [Create], [Delete], [UpdateStatus] over store, backend and writer, with the
      abstract life of a cleanup that deletion refines; Backends the manifests
      compiled from templates, the Flux and the manifest backend, and the
      orchestrator with its backends.
    - [internal/gitops]: GitPaths the paths under a root ([writer.go]); GitWriter
      the file writer and the commit service ([writer.go], [commit.go]);
      GitRepository the repository writer and proposals
      ([repository_writer.go], [proposal.go]).
    - [internal/runner/runtime.go]: RunnerConfig the configuration, the preflight
      and the token files; RunnerCommand the validation of a command against its
      release plan; RunnerDispatch the execution of a command, composed with
      the Helm backend; RunnerProtocol the protocol with the control plane:
      registration, polls, results, heartbeats, the health endpoint, and the two
      loops on the state they share, as a step relation; RunnerCapture the probe of
      the endpoint and the capture of storage ([storage_cleanup_capture.go]);
      RunnerWhole a command with its copies and its capture in place, down to
      the calls that leave the process; RunnerMain the command line
      ([cmd/envplane-runner]), the connectivity check and [internal/sandbox].

    A file requires the Prelude and the components its code calls.

    ** How the code is modelled

    A Go value is a Record or an Inductive with the source's names; strings and
    byte slices are their bytes; [int] and [int64] are Z: the code's own bounds
    (at most 2^40 bytes, 10^8 rows, 10^5 entries) keep every sum far below 2^63;
    where they do not, the wrap-around is written out ([RunnerConfig.retry_delay]).
    A fallible function returns [result]; a method that changes its receiver
    returns the new one.  A map that is enumerated appears as an arbitrary
    enumeration of it, so that every order Go may pick is covered.  Time is an
    integer read from the caller, 0 is the zero time.

    A handler that calls a transport is a [prog]: a tree of calls and their
    responses.  A statement about all its executions ([exec]) holds for every
    behaviour of the transport, failures included; [run] executes it against an
    oracle, and [handle] carries out the calls of one program by another, which
    is how the orchestrator, the runner and their backends are composed.  A
    method of a component that keeps a state is a function from the state to a
    program ([stateful]); [threaded] composes the MySQL copy with its transport.
    Concurrent pieces that are joined before anything else happens (the
    dump and the restore, the two ends of a relay) are one call whose response
    says what each of them did.  The two loops of the runner, which are not joined,
    interleave: each of their atomic sections is a step of [RunnerProtocol.sys_step].

    Locks make every method of a store one step.  A database table is a map
    with the effect of the statement that the code sends.  A volume is a map
    from paths to nodes, and every file operation that writes takes its outcome
    from a list, so that theorems cover each failure point.  A tar stream is the
    entries that its reader yields and the bytes after the last one, from which
    the end that archive/tar finds and [archiveReader.complete] are computed.
    Letters are folded as in ASCII, where Go folds Unicode.

    Parameters: SHA-256 ([Sha256]); the texts of encoding/json ([PlanJson],
    [PvcPlanJson], [MarkerJson], [AnswerJson], [HelperJson], [KubeJson],
    [ConfigJson], [RunnerJson], [ProposalJson], [ReceiptJson]), where a value is not looked at,
    and else the value behind a text ([JsonText], [JsonMarshal]), of YAML ([ManifestYaml],
    [ManifestCodec]) and of RFC 3339 times ([TimeText]); [net/url] ([GoNet]), %q
    ([Quote]), text/template ([Templates], [CompiledTemplates]) and x509 ([Certificates]); what the
    code takes from github.com/envplane/contracts and its siblings, whose
    source is not here ([Contracts], [CopyContracts], [CopyCommands],
    [RestoreContracts], [ChartRefs], [Statuses], [EnvFiles], [Inference],
    [Renderer], [SandboxSpecs], the payload types).  Of the hash, some theorems
    assume the form of its digests; where a text is read back, that it
    decodes to what was written is a hypothesis.

    Fuel: the walks over an error tree are bounded by 64 nodes in the code
    itself; [drop_spaces] by the length of its text, which decreases; the
    automaton of Regex is structural on the text.  The preflight runs as many
    attempts as it is configured to; the runner's loops end only with their
    context, and are sequences of steps of any length.  The loops of the MySQL
    driver end with a context: a pause takes 250 ms of the plan's timeout
    ([pauses_within]), and 100 ms of the 45 s of a cleanup ([deletion_pauses]).
    Numbers of the cluster's objects are float64, in units of 2^-1074.

    ** What is shown

    - A MySQL copy: what is forwarded to the target is a validated prefix of the
      dump, for every chunking and every buffer size; the tracker stays within
      the plan's bounds; a successful execution has the shape that the
      documentation promises, every execution orders its steps safely, cleans up
      once and reports sanitised errors only.  The helper's option files hold no
      injected option, and a target volume is claimed at most once.  In the
      cluster: every run of kubectl is justified by what came before it, in a
      helper that was validated directly before it; a helper that is accepted is
      the one that was asked for, and its arguments suit the helper's command;
      a copy that succeeds has recorded or found its receipt and proven it on the
      target's data; a lock is held by a session that answers in a helper that was
      validated directly before, on the server that was asked, and released by
      its acknowledgment; a cleanup without failures has deleted every helper.
      The runner's command copies nothing before the request was accepted and the
      namespace was seen to be owned, and a success has a receipt for every item.
      One cluster in which a whole command runs is evaluated.
    - A volume copy: whatever [consume] accepts is a safe tree whose stream ends in
      zero bytes, which are not always the end blocks
      ([PvcArchive.cut_archive_accepted]); export, relay and
      restore round-trip; a target is never taken for empty or complete without
      its marker; a successful execution verified source and target; helpers are
      created read-only on the source, and exactly those created are deleted;
      and when the helpers run their command on the two volumes, a success means
      that the target holds the source's payload under its marker.  Over
      kubectl: every call is justified by what was read just before it, a
      helper or a claim that the API server admits unchanged passes the runner's
      own checks, and the controllers of a source are at rest.  The fence is the
      same for all plans of the same sources, a check of it has seen it
      installed and enforced, and nothing is written before that.  The calls of a
      command that succeeds are those of a whole copy of every item, in the
      plan's order.
    - The stores: both implementations keep the newest state and refuse an older
      one; a restart restores the state; of the claims of a bootstrap token at
      most one succeeds, each all or nothing; the
      lists and lookups return what they should; and where the implementations
      differ or a failed write leaves a trace in memory, a theorem says so.
    - Deployment: release names are valid; helm runs only after a chart's
      Secrets were found to be its own or absent; a namespace is deleted only
      when it was just seen to be owned; a deletion refines the life of a
      cleanup, and failures are recorded in the environment that is saved; a
      project with templates has exactly their manifests, in the order of their
      paths, a creation applies what it has written, and a project of Flux or of
      manifests never has helm run for it.
    - The GitOps writer: files change under the workspace only, the workspace is
      removed only when it holds no repository, git gets no injected option,
      the token reaches only remote commands, a workspace is prepared once, and
      the result of a commit says exactly what succeeded.
    - The runner: the preflight is bounded and succeeds exactly after a healthy
      answer; a command runs only with a verified
      release plan, in a permitted namespace, and each backend call is justified
      by the command; everything that leaves the process is justified when it
      leaves, and a copy that is reported as verified was complete down to the
      runs of kubectl; a result is consistent with what was observed; a poll
      executes at most one command and posts its result to that command's address;
      degradation and staleness
      stick and are reported, however the two loops interleave, and the races
      and the unreachable recovery of the code are theorems as well; the probe
      sends the token to a healthy endpoint only, and a capture of storage asks at
      most once, at an allowed endpoint, with the token of the runtime and without
      following a redirect, and reports fixed words only.

    ** Not modelled

    The injected runners of kubectl (tests only), the renewal of a lease
    beside an execution, symbolic links below a writer's root, the system call
    and the stubs for extended attributes, the shutdown of the health server,
    signals, logging and HTTP encoding stay out. *)

From stdpp Require Export base list gmap strings sorting.
From Stdlib Require Export ZArith Lia.

(** Fallible Go functions: a value or an error. *)
Inductive result (E A : Type) : Type :=
| Ok (a : A)
| Err (e : E).
Arguments Ok {E A} a.
Arguments Err {E A} e.

Definition is_ok {E A} (r : result E A) : bool :=
  match r with Ok _ => true | Err _ => false end.

Definition rbind {E A B} (r : result E A) (f : A -> result E B) : result E B :=
  match r with Ok a => f a | Err e => Err e end.

Declare Scope go_scope.
Delimit Scope go_scope with go.
Open Scope go_scope.

Notation "x <-? c ;; k" := (rbind c (fun x => k))
  (at level 100, c at next level, right associativity) : go_scope.
(** [if bad { return err }] *)
Notation "'refuse' b 'with' e ;; k" := (if b then Err e else k)
  (at level 100, b at next level, e at next level, right associativity) : go_scope.

Lemma rbind_ok {E A B} (r : result E A) (f : A -> result E B) b :
  rbind r f = Ok b <-> exists a, r = Ok a /\ f a = Ok b.
Proof. destruct r; simpl; naive_solver. Qed.

Lemma refuse_ok {E A} (b : bool) (e : E) (k : result E A) a :
  (if b then Err e else k) = Ok a <-> b = false /\ k = Ok a.
Proof. destruct b; naive_solver. Qed.

(** ** Programs over an environment

    A handler that calls a transport, a store or a command runner is a tree of
    calls: [E R] is a call whose response has type [R]; the environment picks
    the response.  [exec p t a] says that [p] can return [a] after exactly the
    calls and responses of the trace [t]; a property of all [exec]s holds for
    every behaviour of the environment. *)
Inductive prog (E : Type -> Type) (A : Type) : Type :=
| Ret (a : A)
| Vis (R : Type) (e : E R) (k : R -> prog E A).
Arguments Ret {E A} a.
Arguments Vis {E A R} e k.

Inductive event (E : Type -> Type) : Type :=
| Event (R : Type) (e : E R) (r : R).
Arguments Event {E R} e r.

Section Programs.
Context {E : Type -> Type}.

Fixpoint bind {A B} (p : prog E A) (f : A -> prog E B) : prog E B :=
  match p with
  | Ret a => f a
  | Vis e k => Vis e (fun r => bind (k r) f)
  end.

Definition call {R} (e : E R) : prog E R := Vis e Ret.

Fixpoint exec {A} (p : prog E A) (t : list (event E)) (a : A) : Prop :=
  match p with
  | Ret a' => t = [] /\ a = a'
  | Vis e k => exists r t', t = Event e r :: t' /\ exec (k r) t' a
  end.

(** Running against an oracle that sees the calls made so far. *)
Fixpoint run {A} (o : forall R, list (event E) -> E R -> R)
    (h : list (event E)) (p : prog E A) : list (event E) * A :=
  match p with
  | Ret a => ([], a)
  | Vis e k =>
      let r := o _ h e in
      let '(t, a) := run o (h ++ [Event e r]) (k r) in
      (Event e r :: t, a)
  end.

(** The same against an oracle that may have no answer: the process ends. *)
Fixpoint try_run {A} (o : forall R, list (event E) -> E R -> option R)
    (h : list (event E)) (p : prog E A) : option (list (event E) * A) :=
  match p with
  | Ret a => Some ([], a)
  | Vis e k =>
      match o _ h e with
      | None => None
      | Some r =>
          match try_run o (h ++ [Event e r]) (k r) with
          | Some (t, a) => Some (Event e r :: t, a)
          | None => None
          end
      end
  end.

(** The events a program can still make, as a predicate on each of them. *)
Fixpoint only {A} (P : forall R, E R -> Prop) (p : prog E A) : Prop :=
  match p with
  | Ret _ => True
  | Vis e k => P _ e /\ forall r, only P (k r)
  end.

Lemma exec_call {R} (e : E R) t r : exec (call e) t r <-> t = [Event e r].
Proof. simpl. split; [naive_solver|]. intros ->. eauto. Qed.

Lemma exec_bind {A B} (p : prog E A) (f : A -> prog E B) t b :
  exec (bind p f) t b <->
  exists t1 t2 a, t = t1 ++ t2 /\ exec p t1 a /\ exec (f a) t2 b.
Proof.
  revert t. induction p as [a|R e k IH]; intros t; simpl; split.
  - intros H. exists [], t, a. auto.
  - intros (t1 & t2 & a' & -> & [-> ->] & H). exact H.
  - intros (r & t' & -> & H). apply IH in H as (t1 & t2 & a & -> & H1 & H2).
    exists (Event e r :: t1), t2, a. naive_solver.
  - intros (t1 & t2 & a & -> & (r & t' & -> & H1) & H2).
    exists r, (t' ++ t2). split; [done|]. apply IH. eauto 10.
Qed.

Lemma exec_bind_call {R B} (e : E R) (f : R -> prog E B) t b :
  exec (bind (call e) f) t b -> exists r t', t = Event e r :: t' /\ exec (f r) t' b.
Proof. done. Qed.

Lemma run_exec {A} o (p : prog E A) h : exec p (run o h p).1 (run o h p).2.
Proof.
  revert h. induction p as [a|R e k IH]; intros h; simpl; [done|].
  specialize (IH (o R h e) (h ++ [Event e (o R h e)])).
  destruct (run o _ (k _)) as [t a]. simpl in *. eauto.
Qed.

Lemma run_bind {A B} o (p : prog E A) (f : A -> prog E B) h :
  run o h (bind p f)
  = ((run o h p).1 ++ (run o (h ++ (run o h p).1) (f (run o h p).2)).1, (run o (h ++ (run o h p).1) (f (run o h p).2)).2).
Proof.
  revert h. induction p as [a|R e k IH]; intros h; cbn [bind run fst snd app].
  - rewrite app_nil_r. by destruct (run o h (f a)).
  - rewrite IH. destruct (run o _ (k _)) as [t a]. cbn [fst snd]. by rewrite <- app_assoc.
Qed.
Lemma try_run_exec {A} o (p : prog E A) : forall h t a, try_run o h p = Some (t, a) -> exec p t a.
Proof.
  induction p as [a'|R e k IH]; intros h t a; cbn [try_run exec]; [by intros [= <- <-]|].
  destruct (o R h e) as [r|]; [|done]. destruct (try_run o _ (k r)) as [[t' a']|] eqn:E'; [|done].
  intros [= <- <-]. exists r, t'. split; [done|]. by eapply IH.
Qed.

Lemma exec_only {A} P (p : prog E A) t a :
  only P p -> exec p t a ->
  Forall (fun ev => match ev with @Event _ R e _ => P R e end) t.
Proof.
  revert t. induction p as [a'|R e k IH]; simpl; intros t.
  - intros _ [-> _]. constructor.
  - intros [HP Hk] (r & t' & -> & H). constructor; [done|]. eapply IH; eauto.
Qed.

Lemma only_impl {A} (P Q : forall R, E R -> Prop) (p : prog E A) : (forall R e, P R e -> Q R e) -> only P p -> only Q p.
Proof. intros HPQ. induction p as [a|R e k IH]; [done|]. intros [HP Hk]. split; [by apply HPQ|]. intros r. by apply IH. Qed.

(** [guarded P h p]: after the history [h], every call [p] can make satisfies
    [P] of the calls and responses before it. *)
Fixpoint guarded {A} (P : forall R, list (event E) -> E R -> Prop)
    (h : list (event E)) (p : prog E A) : Prop :=
  match p with
  | Ret _ => True
  | Vis e k => P _ h e /\ forall r, guarded P (h ++ [Event e r]) (k r)
  end.

Lemma guarded_exec {A} (P : forall R, list (event E) -> E R -> Prop) h (p : prog E A) t a
    t1 R (e : E R) r t2 :
  guarded P h p -> exec p t a -> t = t1 ++ Event e r :: t2 -> P R (h ++ t1) e.
Proof.
  revert h t t1. induction p as [a'|R' e' k IH]; intros h t t1; cbn [guarded exec].
  - intros _ [-> _] Ht. by destruct t1.
  - intros [HP Hk] (r' & t' & -> & Hx) Ht. destruct t1 as [|ev t1].
    + rewrite app_nil_r.
      apply (f_equal (fun l => match l with ev :: _ => ev | [] => Event e r end)) in Ht.
      change (match Event e r with @Event _ R0 e0 _ => P R0 h e0 end). simpl in Ht. by rewrite <- Ht.
    + assert (ev = Event e' r' /\ t' = t1 ++ Event e r :: t2) as [-> Ht'].
      { simpl in Ht. by inversion Ht. }
      specialize (IH r' _ _ t1 (Hk r') Hx Ht'). by rewrite <- app_assoc in IH.
Qed.

Lemma guarded_bind {A B} (P : forall R, list (event E) -> E R -> Prop) h
    (p : prog E A) (f : A -> prog E B) :
  guarded P h p -> (forall t a, exec p t a -> guarded P (h ++ t) (f a)) ->
  guarded P h (bind p f).
Proof.
  revert h. induction p as [a|R e k IH]; intros h Hp Hf; cbn [guarded bind] in *.
  - specialize (Hf [] a). rewrite app_nil_r in Hf. by apply Hf.
  - destruct Hp as [HP Hk]. split; [done|]. intros r. apply IH; [done|].
    intros t a Hx. specialize (Hf (Event e r :: t) a).
    rewrite <- app_assoc. apply Hf. simpl. eauto.
Qed.

Lemma guarded_impl {A} (P Q : forall R, list (event E) -> E R -> Prop) h (p : prog E A) :
  (forall R h (e : E R), P R h e -> Q R h e) -> guarded P h p -> guarded Q h p.
Proof.
  intros HPQ. revert h. induction p as [a|R e k IH]; intros h; simpl; [done|].
  intros [? ?]. auto.
Qed.

Lemma guarded_only {A} (P : forall R, E R -> Prop) h (p : prog E A) :
  only P p -> guarded (fun R _ e => P R e) h p.
Proof.
  revert h. induction p as [a|R e k IH]; intros h; simpl; [done|]. intros [? ?]. auto.
Qed.

Lemma only_bind {A B} P (p : prog E A) (f : A -> prog E B) :
  only P p -> (forall a, only P (f a)) -> only P (bind p f).
Proof.
  intros Hp Hf. induction p as [a|R e k IH]; simpl in *; [apply Hf|].
  destruct Hp as [HP Hk]. split; [done|]. auto.
Qed.

End Programs.

(** Carrying out the calls of a program by programs over another environment. *)
Fixpoint handle {E F : Type -> Type} {A} (f : forall R, E R -> prog F R) (p : prog E A) : prog F A :=
  match p with
  | Ret a => Ret a
  | Vis e k => bind (f _ e) (fun r => handle f (k r))
  end.

Lemma handle_bind {E F : Type -> Type} {A B} (f : forall R, E R -> prog F R) (p : prog E A)
    (q : A -> prog E B) t b :
  exec (handle f (bind p q)) t b <-> exec (bind (handle f p) (fun a => handle f (q a))) t b.
Proof.
  revert t. induction p as [a|R e k IH]; intros t; [done|].
  cbn [bind handle]. rewrite !exec_bind. setoid_rewrite exec_bind. setoid_rewrite IH.
  setoid_rewrite exec_bind. split.
  - intros (t1 & t2 & r & -> & H1 & t3 & t4 & a & -> & H2 & H3).
    exists (t1 ++ t3), t4, a. rewrite <- app_assoc. eauto 10.
  - intros (t1 & t2 & a & -> & (t3 & t4 & r & -> & H1 & H2) & H3).
    exists t3, (t4 ++ t2), r. rewrite <- app_assoc. eauto 10.
Qed.

Lemma handle_handle {E F G : Type -> Type} {A} (f : forall R, E R -> prog F R) (g : forall R, F R -> prog G R)
    (p : prog E A) t a :
  exec (handle (fun R e => handle g (f R e)) p) t a <-> exec (handle g (handle f p)) t a.
Proof.
  revert t. induction p as [a'|R e k IH]; intros t; [done|]. cbn [handle].
  rewrite handle_bind, !exec_bind. by setoid_rewrite IH.
Qed.
(** Calls that are passed on one by one. *)
Definition rename_event {E F : Type -> Type} (f : forall R, E R -> F R) (ev : event E) : event F :=
  match ev with @Event _ R e r => Event (f R e) r end.
Lemma exec_rename {E F : Type -> Type} {A} (f : forall R, E R -> F R) (p : prog E A) t a :
  exec p t a -> exec (handle (fun R e => call (f R e)) p) (map (rename_event f) t) a.
Proof.
  revert t. induction p as [a'|R e k IH]; intros t; cbn [exec handle bind call].
  - intros [-> ->]. done.
  - intros (r & t' & -> & Hx). exists r, (map (rename_event f) t'). split; [done|]. by apply IH.
Qed.

Lemma exec_renamed {E F : Type -> Type} {A} (f : forall R, E R -> F R) (p : prog E A) t a :
  exec (handle (fun R e => call (f R e)) p) t a -> exists t0, t = map (rename_event f) t0 /\ exec p t0 a.
Proof.
  revert t. induction p as [a'|R e k IH]; intros t; cbn [exec handle bind call].
  - intros [-> ->]. by exists [].
  - intros (r & t' & -> & (t0 & -> & Hx)%IH). exists (Event e r :: t0). split; [done|]. by exists r, t0.
Qed.
(** A call of a program whose calls are passed on. *)
Lemma renamed_at {E F : Type -> Type} {A} (f : forall R, E R -> F R) (p : prog E A) t a t1 ev t2 :
  exec (handle (fun R e => call (f R e)) p) t a -> t = t1 ++ ev :: t2 ->
  exists u1 R (e : E R) r u2, exec p (u1 ++ Event e r :: u2) a /\ t1 = map (rename_event f) u1 /\ ev = Event (f R e) r.
Proof.
  intros (t0 & -> & Hx)%exec_renamed Ht. apply map_eq_app in Ht as (u1 & l & -> & <- & Hl).
  apply map_eq_cons in Hl as ([R e r] & u2 & -> & <- & _). by exists u1, R, e, r, u2.
Qed.

Lemma only_handle {E F : Type -> Type} {A} (P : forall R, E R -> Prop) (Q : forall R, F R -> Prop)
    (f : forall R, E R -> prog F R) (p : prog E A) :
  (forall R (e : E R), P R e -> only Q (f R e)) -> only P p -> only Q (handle f p).
Proof.
  intros Hf. induction p as [a|R e k IH]; cbn [handle only]; [done|].
  intros [HP Hk]. apply only_bind; [by apply Hf|]. intros r. by apply IH.
Qed.

Lemma guarded_handle_only {E F : Type -> Type} {A} (Q : forall R, E R -> Prop) (P : forall R, list (event F) -> F R -> Prop)
    (f : forall R, E R -> prog F R) (p : prog E A) :
  only Q p -> (forall R h (e : E R), Q R e -> guarded P h (f R e)) -> forall h, guarded P h (handle f p).
Proof.
  intros Hq Hf. induction p as [a|R e k IH]; intros h; cbn [handle]; [done|]. destruct Hq as [He Hk].
  apply guarded_bind; [by apply Hf|]. intros t r _. by apply IH.
Qed.
Lemma guarded_and {E : Type -> Type} {A} (P Q : forall R, list (event E) -> E R -> Prop) h (p : prog E A) :
  guarded P h p -> guarded Q h p -> guarded (fun R h e => P R h e /\ Q R h e) h p.
Proof. revert h. induction p as [a|R e k IH]; intros h; cbn; [done|]. intros [? ?] [? ?]. split; [done|]. auto. Qed.
(** What holds of a history and is never lost holds at every call. *)
Lemma guarded_keeps {E : Type -> Type} {A} (I : list (event E) -> Prop) h (p : prog E A) :
  (forall h ev, I h -> I (h ++ [ev])) -> I h -> guarded (fun R h e => I h) h p.
Proof. intros HI. revert h. induction p as [a|R e k IH]; intros h Hh; cbn; [done|]. split; [done|]. auto. Qed.
(** The calls of [p] behind a trace of [handle f p], each with what carried it out. *)
Inductive carried {E F : Type -> Type} (f : forall R, E R -> prog F R) : list (event E) -> list (event F) -> Prop :=
| carried_nil : carried f [] []
| carried_call R (e : E R) r t1 t0 t2 : exec (f R e) t1 r -> carried f t0 t2 -> carried f (Event e r :: t0) (t1 ++ t2).
Lemma exec_handle {E F : Type -> Type} {A} (f : forall R, E R -> prog F R) (p : prog E A) t a :
  exec (handle f p) t a -> exists t0, exec p t0 a /\ carried f t0 t.
Proof.
  revert t. induction p as [a'|R e k IH]; intros t Hx; cbn [handle] in Hx.
  - destruct Hx as [-> ->]. exists []. split; [done|constructor].
  - apply exec_bind in Hx as (t1 & t2 & r & -> & H1 & H2). apply IH in H2 as (t0 & H2 & Hc).
    exists (Event e r :: t0). split; [cbn; by exists r, t0|]. by constructor.
Qed.

(** What carried out a call, and the calls before an event. *)
Lemma carried_in {E F : Type -> Type} (f : forall R, E R -> prog F R) t0 t R (e : E R) r :
  carried f t0 t -> In (Event e r) t0 -> exists t', incl t' t /\ exec (f R e) t' r.
Proof.
  induction 1 as [|R' e' r' t1 t0 t2 Hx _ IH]; [done|]. intros [Heq|Hin].
  - exists t1. split; [apply incl_appl, incl_refl|].
    apply (f_equal (fun ev => match ev with @Event _ R e r => exec (f R e) t1 r end)) in Heq. cbv beta iota in Heq. by rewrite <- Heq.
  - destruct (IH Hin) as (t' & Hi & He). exists t'. split; [by apply incl_appr|done].
Qed.
Lemma carried_before {E F : Type -> Type} (f : forall R, E R -> prog F R) t0 t : carried f t0 t ->
  forall t1 ev t2, t = t1 ++ ev :: t2 ->
  exists ta R (e : E R) r tb t1' t1'' t2', t0 = ta ++ Event e r :: tb /\ carried f ta t1' /\ t1 = t1' ++ t1''
    /\ exec (f R e) (t1'' ++ ev :: t2') r.
Proof.
  induction 1 as [|R e r u t0 u' Hx Hc IH]; intros t1 ev t2 Ht; [by destruct t1|].
  symmetry in Ht. apply app_eq_app in Ht as [l [[-> Hl]|[-> Hl]]].
  - destruct (IH l ev t2 Hl) as (ta & R' & e' & r' & tb & v & v' & t2' & -> & Hca & -> & He).
    exists (Event e r :: ta), R', e', r', tb, (u ++ v), v', t2'. rewrite <- app_assoc. split_and!; try done. by constructor.
  - destruct l as [|ev' l]; cbn [app] in Hl.
    + destruct (IH [] ev t2 (eq_sym Hl)) as (ta & R' & e' & r' & tb & v & v' & t2' & -> & Hca & Hv & He).
      exists (Event e r :: ta), R', e', r', tb, (t1 ++ []), v', t2'. symmetry in Hv. apply app_eq_nil in Hv as [-> ->].
      rewrite !app_nil_r in *. split_and!; try done. rewrite <- (app_nil_r t1). by constructor.
    + injection Hl as -> ->. exists [], R, e, r, t0, [], t1, l. split_and!; try done. constructor.
Qed.

(** Traces of calls that were carried out, split where the calls are. *)
Lemma carried_app {E F : Type -> Type} (f : forall R, E R -> prog F R) a b t : carried f (a ++ b) t ->
  exists t1 t2, t = t1 ++ t2 /\ carried f a t1 /\ carried f b t2.
Proof.
  revert t. induction a as [|ev a IH]; intros t Hc; [exists [], t; by repeat constructor|].
  inversion Hc as [|R e r u t0 u' Hx Hc']; subst. apply IH in Hc' as (t1 & t2 & -> & H1 & H2).
  exists (u ++ t1), t2. rewrite app_assoc. split; [done|]. split; [by constructor|done].
Qed.
Lemma carried_concat {E F : Type -> Type} (f : forall R, E R -> prog F R) hs t : carried f (concat hs) t ->
  exists ts, t = concat ts /\ Forall2 (carried f) hs ts.
Proof.
  revert t. induction hs as [|h hs IH]; intros t Hc; cbn [concat] in Hc.
  - inversion Hc; subst. exists []. by split.
  - apply carried_app in Hc as (t1 & t2 & -> & Hh & (ts & -> & Hf)%IH). exists (t1 :: ts). split; [done|by constructor].
Qed.
Lemma carried_one {E F : Type -> Type} (f : forall R, E R -> prog F R) R (e : E R) r t : carried f [Event e r] t -> exec (f R e) t r.
Proof.
  intros Hc. remember [Event e r] as l eqn:El. destruct Hc as [|R' e' r' u t0 u' Hx Hc]; [done|].
  assert (t0 = []) as -> by (by injection El). inversion Hc; subst. rewrite app_nil_r.
  apply (f_equal (fun l => match l with @Event _ R e r :: _ => exec (f R e) u r | [] => False end)) in El.
  cbv beta iota in El. by rewrite <- El.
Qed.

(** Every result a program can return. *)
Fixpoint returns {E : Type -> Type} {A} (Q : A -> Prop) (p : prog E A) : Prop :=
  match p with
  | Ret a => Q a
  | Vis e k => forall r, returns Q (k r)
  end.
Lemma returns_exec {E : Type -> Type} {A} (Q : A -> Prop) (p : prog E A) t a : returns Q p -> exec p t a -> Q a.
Proof.
  revert t. induction p as [a'|R e k IH]; intros t; cbn [returns exec]; [by intros ? [_ ->]|].
  intros Hk (r & t' & _ & Hx). by eapply IH.
Qed.
Lemma returns_bind {E : Type -> Type} {A B} (Q : B -> Prop) (p : prog E A) (f : A -> prog E B) :
  (forall a, returns Q (f a)) -> returns Q (bind p f).
Proof. intros Hf. induction p as [a|R e k IH]; cbn [bind returns]; [apply Hf|]. intros r. apply IH. Qed.

(** Go's [x, err := f(); if err != nil { return err }]. *)
Definition pbind {E Er A B} (p : prog E (result Er A)) (f : A -> prog E (result Er B))
    : prog E (result Er B) :=
  bind p (fun r => match r with Ok a => f a | Err e => Ret (Err e) end).

Notation "x <-- p ;; q" := (bind p (fun x => q))
  (at level 100, p at next level, right associativity) : go_scope.
Notation "x <-! p ;; q" := (pbind p (fun x => q))
  (at level 100, p at next level, right associativity) : go_scope.
(** [if bad { return err }] inside a program. *)
Notation "'stop' b 'with' e ;; k" := (if b then Ret (Err e) else k)
  (at level 100, b at next level, e at next level, right associativity) : go_scope.

Section ProgramResults.
Context {E : Type -> Type} {Er : Type}.

Lemma exec_pbind_ok {A B} (p : prog E (result Er A)) (f : A -> prog E (result Er B)) t b :
  exec (pbind p f) t (Ok b) <->
  exists t1 t2 a, t = t1 ++ t2 /\ exec p t1 (Ok a) /\ exec (f a) t2 (Ok b).
Proof.
  unfold pbind. rewrite exec_bind. split.
  - intros (t1 & t2 & [a|e] & -> & H1 & H2); simpl in H2; [|naive_solver].
    eauto 10.
  - intros (t1 & t2 & a & -> & H1 & H2). exists t1, t2, (Ok a). auto.
Qed.

(** [x, err := f()] of a pure [f]. *)
Lemma exec_pret {A B} (r : result Er A) (f : A -> prog E (result Er B)) t b :
  exec (pbind (Ret r) f) t (Ok b) <-> exists a, r = Ok a /\ exec (f a) t (Ok b).
Proof.
  rewrite exec_pbind_ok. split.
  - intros (t1 & t2 & a & -> & [-> <-] & Hf). by exists a.
  - intros (a & -> & Hf). exists [], t, a. done.
Qed.

Lemma exec_pbind_err {A B} (p : prog E (result Er A)) (f : A -> prog E (result Er B)) t e :
  exec (pbind p f) t (Err e) <->
  exec p t (Err e) \/
  exists t1 t2 a, t = t1 ++ t2 /\ exec p t1 (Ok a) /\ exec (f a) t2 (Err e).
Proof.
  unfold pbind. rewrite exec_bind. split.
  - intros (t1 & t2 & [a|e'] & -> & H1 & H2); simpl in H2; [eauto 10|].
    destruct H2 as [-> [= ->]]. rewrite app_nil_r. auto.
  - intros [H|(t1 & t2 & a & -> & H1 & H2)].
    + exists t, [], (Err e). rewrite app_nil_r. simpl. auto.
    + exists t1, t2, (Ok a). auto.
Qed.

Lemma guarded_pbind {A B} (P : forall R, list (event E) -> E R -> Prop) h
    (p : prog E (result Er A)) (f : A -> prog E (result Er B)) :
  guarded P h p -> (forall t a, exec p t (Ok a) -> guarded P (h ++ t) (f a)) ->
  guarded P h (pbind p f).
Proof. intros Hp Hf. apply guarded_bind; [done|]. intros t [a|e] Hx; [auto|done]. Qed.

Lemma guarded_stop {A} (P : forall R, list (event E) -> E R -> Prop) h (b : bool) e
    (k : prog E (result Er A)) :
  (b = false -> guarded P h k) -> guarded P h (if b then Ret (Err e) else k).
Proof. destruct b; simpl; auto. Qed.

Lemma only_pbind {A B} (P : forall R, E R -> Prop) (p : prog E (result Er A))
    (f : A -> prog E (result Er B)) :
  only P p -> (forall a, only P (f a)) -> only P (pbind p f).
Proof. intros Hp Hf. apply only_bind; [done|]. by intros [a|e]. Qed.

Lemma only_stop {A} (P : forall R, E R -> Prop) (b : bool) e (k : prog E (result Er A)) :
  only P k -> only P (if b then Ret (Err e) else k).
Proof. by destruct b. Qed.

Lemma exec_stop_ok {A} (b : bool) e (k : prog E (result Er A)) t a :
  exec (if b then Ret (Err e) else k) t (Ok a) <-> b = false /\ exec k t (Ok a).
Proof. destruct b; simpl; naive_solver. Qed.

Lemma exec_ret_ok {A} (a b : A) t :
  exec (E := E) (Ret (Ok (E := Er) a)) t (Ok b) <-> t = [] /\ a = b.
Proof. simpl. naive_solver. Qed.

Lemma exec_ret_err {A} (e : Er) (b : A) t :
  exec (E := E) (Ret (Err e)) t (Ok b) <-> False.
Proof. simpl. naive_solver. Qed.
End ProgramResults.

(** Decompose a successful execution along the handler's own structure. *)
Ltac exec_step :=
  match goal with
  | H : exec (Ret (Ok _)) _ (Ok _) |- _ => apply exec_ret_ok in H as [? ?]; subst
  | H : exec (Ret (Err _)) _ (Ok _) |- _ => apply exec_ret_err in H; destruct H
  | H : exec (Ret _) _ _ |- _ => destruct H as [? ?]; simplify_eq
  | H : exec (if _ then Ret (Err _) else _) _ (Ok _) |- _ =>
      apply exec_stop_ok in H as [? H]
  | H : exec (pbind _ _) _ (Ok _) |- _ =>
      apply exec_pbind_ok in H as (? & ? & ? & ? & ? & H); subst
  | H : exec (bind _ _) _ _ |- _ =>
      apply exec_bind in H as (? & ? & ? & ? & ? & H); subst
  | H : exec (call _) _ _ |- _ => apply exec_call in H; subst
  | H : exec (Vis _ _) _ _ |- _ => destruct H as (? & ? & ? & H); subst
  end.
Ltac exec_steps := repeat exec_step.

(** [only] of a program, along its structure. *)
Ltac only_step :=
  match goal with
  | |- only _ (let _ := _ in _) => cbv zeta
  | |- only _ (pbind _ _) => apply only_pbind; [|intros ?]
  | |- only _ (bind _ _) => apply only_bind; [|intros ?]
  | |- only _ (if _ then Ret _ else _) => apply only_stop
  | |- only _ (if ?b then _ else _) => destruct b
  | |- only _ (match ?x with _ => _ end) => destruct x
  | |- only _ (call _) => split; [exact I|intros ?; exact I]
  | |- only _ (Ret _) => exact I
  end.

(** [returns] of a program, along its structure. *)
Ltac returns_step :=
  match goal with
  | |- returns _ (let _ := _ in _) => cbv zeta
  | |- returns _ (bind _ _) => apply returns_bind; intros ?
  | |- returns _ (if ?b then _ else _) => destruct b eqn:?
  | |- returns _ (match ?x with _ => _ end) => destruct x
  end.

(** Boolean conditions of the code as propositions. *)
Create HintDb go_bool.
#[export] Hint Rewrite andb_true_iff andb_false_iff orb_true_iff orb_false_iff
  negb_true_iff negb_false_iff Z.leb_le Z.leb_gt Z.ltb_lt Z.ltb_ge Z.eqb_eq Z.eqb_neq
  Nat.leb_le Nat.leb_gt Nat.ltb_lt Nat.ltb_ge Nat.eqb_eq Nat.eqb_neq
  bool_decide_eq_true bool_decide_eq_false : go_bool.
Ltac go_bool := autorewrite with go_bool in *.

(** ** [sort.Slice]

    Go's sort is not stable and Go's maps are iterated in an arbitrary order:
    a stable sort of an arbitrary enumeration of the map covers every outcome. *)
Section SortSlice.
Context {A : Type} (less : A -> A -> bool).

Fixpoint insert_sorted (x : A) (l : list A) : list A :=
  match l with
  | [] => [x]
  | y :: l' => if less y x then y :: insert_sorted x l' else x :: l
  end.
Definition sort_slice (l : list A) : list A := foldr insert_sorted [] l.

Lemma insert_sorted_perm x l : insert_sorted x l ≡ₚ x :: l.
Proof.
  induction l as [|y l IH]; simpl; [done|]. destruct (less y x); [|done].
  rewrite IH. apply Permutation_swap.
Qed.
Lemma sort_slice_perm l : sort_slice l ≡ₚ l.
Proof.
  induction l as [|x l IH]; simpl; [done|]. by rewrite insert_sorted_perm, IH.
Qed.

(** A strict weak order. *)
Hypothesis less_irrefl : forall x, less x x = false.
Hypothesis less_trans : forall x y z, less x y = true -> less y z = true -> less x z = true.
Hypothesis less_negtrans : forall x y z,
  less x y = false -> less y z = false -> less x z = false.

Lemma less_asym x y : less x y = true -> less y x = false.
Proof.
  intros Hxy. destruct (less y x) eqn:E; [|done].
  pose proof (less_irrefl x) as Hi. by rewrite (less_trans _ _ _ Hxy E) in Hi.
Qed.

Definition in_order (x y : A) : Prop := less y x = false.

Lemma insert_sorted_sorted x l :
  StronglySorted in_order l -> StronglySorted in_order (insert_sorted x l).
Proof.
  induction 1 as [|y l Hl IH Hy]; simpl; [by repeat constructor|].
  destruct (less y x) eqn:E.
  - constructor; [done|]. rewrite insert_sorted_perm.
    constructor; [by apply less_asym|done].
  - constructor; [by constructor|]. constructor; [done|].
    eapply Forall_impl; [exact Hy|]. intros z Hz. unfold in_order in *.
    by apply (less_negtrans z y x).
Qed.
Lemma sort_slice_sorted l : StronglySorted in_order (sort_slice l).
Proof. induction l as [|x l IH]; simpl; [constructor|]. by apply insert_sorted_sorted. Qed.

(** The first element after sorting precedes or ties every other. *)
Lemma sort_slice_head l x l' : sort_slice l = x :: l' ->
  x ∈ l /\ forall y, y ∈ l -> less y x = false.
Proof.
  intros E. pose proof (sort_slice_sorted l) as Hs. pose proof (sort_slice_perm l) as Hp.
  rewrite E in Hs, Hp. split; [rewrite <- Hp; left|].
  intros y Hy. rewrite <- Hp in Hy. inversion Hs as [|? ? _ Hf]; subst.
  rewrite elem_of_cons in Hy. destruct Hy as [-> | Hy]; [by apply less_irrefl|]. rewrite Forall_forall in Hf. by apply Hf.
Qed.
End SortSlice.
