(* ===== verification/Stateful.v ===== *)
(** * Methods that keep a state

    A method of a component with a state of its own is a function from the state
    to a program; [threaded] carries out the calls of a program by such methods.
    [wp] is what a program does from a history on: every call it can make is
    justified by what came before it, and its result satisfies a postcondition;
    its rules follow the structure of the program. *)

From stdpp Require Import base list.
From S2P Require Import Prelude.

(** ** Methods *)

Definition stateful (E : Type -> Type) (S Er A : Type) : Type := S -> prog E (S * result Er A).

Section Stateful.
Context {E : Type -> Type} {S Er : Type}.
Notation method := (stateful E S Er).

Definition mret {A} (a : A) : method A := fun s => Ret (s, Ok a).
Definition merr {A} (e : Er) : method A := fun s => Ret (s, Err e).
Definition mbind {A B} (m : method A) (f : A -> method B) : method B :=
  fun s => bind (m s) (fun x => match x.2 with Ok a => f a x.1 | Err e => Ret (x.1, Err e) end).
(** What does not touch the state. *)
Definition lift {A} (q : prog E (result Er A)) : method A := fun s => bind q (fun r => Ret (s, r)).
Definition state_of : method S := fun s => Ret (s, Ok s).
Definition set_state (f : S -> S) : method unit := fun s => Ret (f s, Ok tt).
(** [err := m()] of a method whose error is not returned. *)
Definition attempt {Er' A} (m : stateful E S Er' A) : method (result Er' A) := fun s => bind (m s) (fun x => Ret (x.1, Ok x.2)).
(** [if m() != nil { return e }] *)
Definition or_error {Er' A} (e : Er) (m : stateful E S Er' A) : method A :=
  fun s => bind (m s) (fun x => Ret (x.1, match x.2 with Ok a => Ok a | Err _ => Err e end)).
End Stateful.

Notation "x <~ m ;; k" := (mbind m (fun x => k))
  (at level 100, m at next level, right associativity) : go_scope.
Notation "'deny' b 'with' e ;; k" := (if b then merr e else k)
  (at level 100, b at next level, e at next level, right associativity) : go_scope.

(** Carrying out the calls of a program with a state that they keep. *)
Fixpoint threaded {S : Type} {E F : Type -> Type} {A} (f : forall R, E R -> S -> prog F (S * R)) (q : prog E A) (s : S) : prog F (S * A) :=
  match q with
  | Ret a => Ret (s, a)
  | Vis e k => bind (f _ e s) (fun x => threaded f (k x.2) x.1)
  end.

Lemma exec_threaded_bind {S : Type} {E F : Type -> Type} {A B} (f : forall R, E R -> S -> prog F (S * R)) (q : prog E A) (g : A -> prog E B) :
  forall s t x, exec (threaded f (bind q g) s) t x ->
  exists t1 t2 s1 a, t = t1 ++ t2 /\ exec (threaded f q s) t1 (s1, a) /\ exec (threaded f (g a) s1) t2 x.
Proof.
  induction q as [a|R e k IH]; intros s t x; cbn [bind threaded]; [intros Hx; by exists [], t, s, a|].
  intros (t1 & t2 & [s1 r] & -> & He & (t3 & t4 & s2 & a & -> & Hk & Hg)%IH)%exec_bind.
  exists (t1 ++ t3), t4, s2, a. rewrite app_assoc. split; [done|]. split; [|done]. apply exec_bind. by exists t1, t3, (s1, r).
Qed.

(** ** What programs do *)

Section Wp.
Context {E : Type -> Type}.
Notation history := (list (event E)).
Variable P : forall R, history -> E R -> Prop.

Fixpoint wp {A} (h : history) (p : prog E A) (Q : history -> A -> Prop) : Prop :=
  match p with
  | Ret a => Q h a
  | Vis e k => P _ h e /\ forall r, wp (h ++ [Event e r]) (k r) Q
  end.

Lemma wp_mono {A} h (p : prog E A) (Q Q' : history -> A -> Prop) : (forall h a, Q h a -> Q' h a) -> wp h p Q -> wp h p Q'.
Proof. intros HQ. revert h. induction p as [a|R e k IH]; intros h; cbn; [apply HQ|]. intros [HP Hk]. split; [done|]. auto. Qed.
Lemma wp_bind {A B} h (p : prog E A) (f : A -> prog E B) Q : wp h p (fun h a => wp h (f a) Q) -> wp h (bind p f) Q.
Proof. revert h. induction p as [a|R e k IH]; intros h; cbn; [done|]. intros [HP Hk]. split; [done|]. auto. Qed.
Lemma wp_guarded {A} h (p : prog E A) Q : wp h p Q -> guarded P h p.
Proof. revert h. induction p as [a|R e k IH]; intros h; cbn; [done|]. intros [HP Hk]. split; [done|]. auto. Qed.
(** The postcondition also knows the execution. *)
Lemma wp_trace {A} h (p : prog E A) (Q : history -> A -> Prop) :
  wp h p Q -> wp h p (fun h' a => Q h' a /\ exists t, h' = h ++ t /\ exec p t a).
Proof.
  revert h. induction p as [a|R e k IH]; intros h; cbn.
  - intros HQ. split; [done|]. exists []. by rewrite app_nil_r.
  - intros [HP Hk]. split; [done|]. intros r. eapply wp_mono; [|apply IH, Hk]. intros h' a [HQ (t & -> & Hx)]. split; [done|].
    exists (Event e r :: t). rewrite <- app_assoc. split; [done|]. by exists r, t.
Qed.
Lemma wp_exec {A} h (p : prog E A) (Q : history -> A -> Prop) t a : wp h p Q -> exec p t a -> Q (h ++ t) a.
Proof.
  revert h t. induction p as [a'|R e k IH]; intros h t; cbn.
  - intros HQ [-> ->]. by rewrite app_nil_r.
  - intros [_ Hk] (r & t' & -> & Hx). specialize (IH r _ _ (Hk r) Hx). by rewrite <- app_assoc in IH.
Qed.
Lemma wp_only {A} h (p : prog E A) (P' : forall R, E R -> Prop) :
  (forall R h e, P' R e -> P R h e) -> only P' p -> wp h p (fun h' _ => exists t, h' = h ++ t).
Proof.
  intros HP. revert h. induction p as [a|R e k IH]; intros h; cbn; [intros _; exists []; by rewrite app_nil_r|].
  intros [He Hk]. split; [by apply HP|]. intros r. eapply wp_mono; [|apply IH, Hk].
  intros h' _ [t ->]. exists (Event e r :: t). by rewrite <- app_assoc.
Qed.

(** *** Methods *)

Context {S Er : Type}.
Lemma wp_mbind {A B} h (s : S) (m : stateful E S Er A) (f : A -> stateful E S Er B) Q :
  wp h (m s) (fun h x => match x.2 with Ok a => wp h (f a x.1) Q | Err e => Q h (x.1, Err e) end) -> wp h (mbind m f s) Q.
Proof. intros Hm. apply wp_bind. eapply wp_mono; [|exact Hm]. by intros h' [s' [a|e]]. Qed.
Lemma wp_lift {A} h (s : S) (q : prog E (result Er A)) Q : wp h q (fun h r => Q h (s, r)) -> wp h (lift q s) Q.
Proof. intros Hq. apply wp_bind. exact Hq. Qed.
Lemma wp_attempt {Er' A} h (s : S) (m : stateful E S Er' A) Q :
  wp h (m s) (fun h x => Q h (x.1, Ok x.2)) -> wp h (attempt (Er := Er) m s) Q.
Proof. intros Hm. apply wp_bind. exact Hm. Qed.
Lemma wp_or_error {Er' A} h (s : S) (e : Er) (m : stateful E S Er' A) Q :
  wp h (m s) (fun h x => Q h (x.1, match x.2 with Ok a => Ok a | Err _ => Err e end)) -> wp h (or_error e m s) Q.
Proof. intros Hm. apply wp_bind. exact Hm. Qed.
Lemma wp_deny {A} h (s : S) (b : bool) e (m : stateful E S Er A) Q : Q h (s, Err e) -> (b = false -> wp h (m s) Q) ->
  wp h ((if b then merr e else m) s) Q.
Proof. destruct b; auto. Qed.
Lemma wp_threaded {F : Type -> Type} {A} (f : forall R, F R -> S -> prog E (S * R)) (q : prog F A) (I : history -> S -> Prop) :
  (forall R (c : F R) h s, I h s -> wp h (f R c s) (fun h x => I h x.1)) ->
  forall h s, I h s -> wp h (threaded f q s) (fun h x => I h x.1).
Proof.
  intros Hf. induction q as [a|R c k IH]; intros h s Hs; cbn [threaded]; [done|]. apply wp_bind.
  eapply wp_mono; [|by apply Hf]. intros h' [s' r] Hs'. by apply IH.
Qed.
(** The calls behind a threaded program, each at a state the invariant allows. *)
Lemma exec_threaded_at {F : Type -> Type} {A} (f : forall R, F R -> S -> prog E (S * R)) (q : prog F A) (I : history -> S -> Prop) :
  (forall R (c : F R) h s, I h s -> wp h (f R c s) (fun h x => I h x.1)) ->
  forall h s t s' a, I h s -> exec (threaded f q s) t (s', a) ->
  exists t0, exec q t0 a /\ forall R (e : F R) r, In (Event e r) t0 ->
    exists h1 s1 t1 s2, I (h ++ h1) s1 /\ exec (f R e s1) t1 (s2, r) /\ incl (h1 ++ t1) t.
Proof.
  intros Hf. induction q as [a'|R e k IH]; intros h s t s' a Hs; cbn [threaded].
  - intros [-> [= -> ->]]. by exists [].
  - intros (t1 & t2 & [s1 r] & -> & H1 & H2)%exec_bind.
    destruct (IH _ (h ++ t1) s1 t2 s' a (wp_exec h _ _ _ _ (Hf R e h s Hs) H1) H2) as (t0 & H0 & Hin).
    exists (Event e r :: t0). split; [by exists r, t0|]. intros R' e' r' [Heq|Hi].
    + exists [], s, t1. apply (f_equal (fun ev => match ev with @Event _ R e r => exists s2, exec (f R e s) t1 (s2, r) end)) in Heq.
      cbv beta iota in Heq. assert (Hx : exists s2, exec (f R' e' s) t1 (s2, r')) by (rewrite <- Heq; by exists s1).
      destruct Hx as [s2 Hx]. exists s2. rewrite app_nil_r. split_and!; [done|done|by apply incl_appl, incl_refl].
    + destruct (Hin R' e' r' Hi) as (h1 & s3 & t3 & s2 & HI & Hx & Hc). exists (t1 ++ h1), s3, t3, s2.
      rewrite app_assoc. split_and!; [done|done|]. rewrite <- app_assoc. by apply incl_app; [apply incl_appl, incl_refl|apply incl_appr].
Qed.
End Wp.

Lemma wp_weaken {E : Type -> Type} {A} (P P' : forall R, list (event E) -> E R -> Prop) h (p : prog E A) Q :
  (forall R h e, P R h e -> P' R h e) -> wp P h p Q -> wp P' h p Q.
Proof. intros HP. revert h. induction p as [a|R e k IH]; intros h; cbn; [done|]. intros [He Hk]. split; [by apply HP|]. auto. Qed.

(** ** Executions of methods *)

Section MethodExec.
Context {E : Type -> Type} {S Er : Type}.
Lemma exec_mbind_ok {A B} (m : stateful E S Er A) (f : A -> stateful E S Er B) s t s' b :
  exec (mbind m f s) t (s', Ok b) <->
  exists t1 t2 s1 a, t = t1 ++ t2 /\ exec (m s) t1 (s1, Ok a) /\ exec (f a s1) t2 (s', Ok b).
Proof.
  unfold mbind. rewrite exec_bind. split.
  - intros (t1 & t2 & [s1 [a|e]] & -> & Hm & Hf); [|by destruct Hf]. by exists t1, t2, s1, a.
  - intros (t1 & t2 & s1 & a & -> & Hm & Hf). by exists t1, t2, (s1, Ok a).
Qed.
Lemma exec_lift {A} (q : prog E (result Er A)) (s : S) t s' r : exec (lift q s) t (s', r) <-> s' = s /\ exec q t r.
Proof.
  unfold lift. rewrite exec_bind. split.
  - intros (t1 & t2 & a & -> & Hq & [-> [= -> ->]]). by rewrite app_nil_r.
  - intros [-> Hq]. exists t, [], r. by rewrite app_nil_r.
Qed.
Lemma exec_attempt {Er' A} (m : stateful E S Er' A) s t s' r :
  exec (attempt (Er := Er) m s) t (s', Ok r) <-> exec (m s) t (s', r).
Proof.
  unfold attempt. rewrite exec_bind. split.
  - intros (t1 & t2 & [s1 a] & -> & Hm & [-> [= -> ->]]). by rewrite app_nil_r.
  - intros Hm. exists t, [], (s', r). by rewrite app_nil_r.
Qed.
Lemma exec_or_error_ok {Er' A} (e : Er) (m : stateful E S Er' A) s t s' a :
  exec (or_error e m s) t (s', Ok a) <-> exec (m s) t (s', Ok a).
Proof.
  unfold or_error. rewrite exec_bind. split.
  - intros (t1 & t2 & [s1 [a'|e']] & -> & Hm & [-> [= -> ->]]). by rewrite app_nil_r.
  - intros Hm. exists t, [], (s', Ok a). by rewrite app_nil_r.
Qed.
Lemma exec_deny_ok {A} (b : bool) e (m : stateful E S Er A) s t s' a :
  exec ((if b then merr e else m) s) t (s', Ok a) <-> b = false /\ exec (m s) t (s', Ok a).
Proof. destruct b; [|naive_solver]. split; [by intros [_ ?]|by intros [? _]]. Qed.
End MethodExec.
