(* ===== verification/GoStrings.v ===== *)
(** * Go's strings

    A Go string is a sequence of bytes: Rocq's [string].  The functions of the
    package [strings] that the runner uses are defined on the list of bytes and
    lifted.  [trim_space] removes every white-space rune of Unicode (the bytes
    09-0D and 20, and the UTF-8 encodings of U+0085, U+00A0, U+1680,
    U+2000-U+200A, U+2028, U+2029, U+202F, U+205F and U+3000).  [to_lower],
    [to_upper] and [equal_fold] map the letters of ASCII and leave the other
    bytes alone: the runner folds the case of host names, modes, chart
    references, command output and SQL key words. *)

From stdpp Require Import base list strings.
From Stdlib Require Import ZArith Lia Ascii String.
From S2P Require Import Prelude.

Notation bytes := (list ascii).
Notation chars := list_ascii_of_string.
Notation text := string_of_list_ascii.

Definition byte_of (n : nat) : ascii := ascii_of_nat n.
Definition code (c : ascii) : N := N_of_ascii c.
Definition between (lo hi : N) (c : ascii) : bool := (lo <=? code c)%N && (code c <=? hi)%N.
Definition char_eq (a b : ascii) : bool := Ascii.eqb a b.

Definition is_digit (c : ascii) : bool := between 48 57 c.
Definition is_lower (c : ascii) : bool := between 97 122 c.
Definition is_upper (c : ascii) : bool := between 65 90 c.

(** The length of the white-space rune at the head, 0 if there is none. *)
Definition space1 (c : ascii) : bool := between 9 13 c || (code c =? 32)%N.
Definition space2 (c d : ascii) : bool :=
  (code c =? 194)%N && ((code d =? 133)%N || (code d =? 160)%N).
Definition space3 (c d e : ascii) : bool :=
  ((code c =? 225)%N && (code d =? 154)%N && (code e =? 128)%N)
  || ((code c =? 226)%N && (code d =? 128)%N
      && (between 128 138 e || (code e =? 168)%N || (code e =? 169)%N || (code e =? 175)%N))
  || ((code c =? 226)%N && (code d =? 129)%N && (code e =? 159)%N)
  || ((code c =? 227)%N && (code d =? 128)%N && (code e =? 128)%N).

Definition leading_space (rev2 : bool) (l : bytes) : nat :=
  match l with
  | c :: l1 =>
      if space1 c then 1 else
      match l1 with
      | d :: l2 =>
          if (if rev2 then space2 d c else space2 c d) then 2 else
          match l2 with
          | e :: _ => if (if rev2 then space3 e d c else space3 c d e) then 3 else 0
          | [] => 0
          end
      | [] => 0
      end
  | [] => 0
  end.

Fixpoint drop_spaces (fuel : nat) (rev2 : bool) (l : bytes) : bytes :=
  match fuel with
  | 0 => l
  | S fuel =>
      match leading_space rev2 l with
      | 0 => l
      | n => drop_spaces fuel rev2 (skipn n l)
      end
  end.
Definition trim_left_bytes (l : bytes) : bytes := drop_spaces (length l) false l.
Definition trim_right_bytes (l : bytes) : bytes := rev (drop_spaces (length l) true (rev l)).
Definition trim_bytes (l : bytes) : bytes := trim_right_bytes (trim_left_bytes l).
Definition trim_space (s : string) : string := text (trim_bytes (chars s)).
Definition blank (s : string) : bool := bool_decide (trim_space s = ""%string).

Definition lower_char (c : ascii) : ascii :=
  if is_upper c then ascii_of_N (code c + 32) else c.
Definition upper_char (c : ascii) : ascii :=
  if is_lower c then ascii_of_N (code c - 32) else c.
Definition map_string (f : ascii -> ascii) (s : string) : string := text (map f (chars s)).
Definition to_lower : string -> string := map_string lower_char.
Definition to_upper : string -> string := map_string upper_char.
Definition equal_fold (a b : string) : bool := bool_decide (to_lower a = to_lower b).

(** Go's [==] and [!=] on strings. *)
Definition str_eq (a b : string) : bool := bool_decide (a = b).
Definition str_ne (a b : string) : bool := negb (str_eq a b).

(** A duration of [n] seconds, in nanoseconds. *)
Definition seconds (n : Z) : Z := (n * 1000000000)%Z.
(** What 64 bits keep of an integer. *)
Definition wrap64 (z : Z) : Z := ((z + 2 ^ 63) mod 2 ^ 64 - 2 ^ 63)%Z.

Definition str_len (s : string) : Z := Z.of_nat (String.length s).

Fixpoint prefix_of (p l : bytes) : bool :=
  match p, l with
  | [], _ => true
  | a :: p', b :: l' => char_eq a b && prefix_of p' l'
  | _, [] => false
  end.
Fixpoint contains_bytes (p l : bytes) : bool :=
  prefix_of p l || match l with [] => false | _ :: l' => contains_bytes p l' end.
Definition has_prefix (s p : string) : bool := prefix_of (chars p) (chars s).
Definition has_suffix (s p : string) : bool := prefix_of (rev (chars p)) (rev (chars s)).
Definition contains (s sub : string) : bool := contains_bytes (chars sub) (chars s).
Definition trim_prefix (s p : string) : string :=
  if has_prefix s p then text (skipn (String.length p) (chars s)) else s.

(** [strings.Split] for a separator of one byte, [strings.SplitN(s, sep, 2)]. *)
Fixpoint split_bytes (sep : ascii) (l : bytes) : list bytes :=
  match l with
  | [] => [[]]
  | c :: l' =>
      if char_eq c sep then [] :: split_bytes sep l'
      else match split_bytes sep l' with
           | w :: ws => (c :: w) :: ws
           | [] => [[c]]
           end
  end.
Definition split_on (sep : ascii) (s : string) : list string :=
  map text (split_bytes sep (chars s)).
Fixpoint cut_bytes (sep l : bytes) : option (bytes * bytes) :=
  if prefix_of sep l then Some ([], skipn (length sep) l)
  else match l with
       | [] => None
       | c :: l' => match cut_bytes sep l' with
                    | Some (a, b) => Some (c :: a, b)
                    | None => None
                    end
       end.
(** [SplitN(s, sep, 2)]: [Some (a, b)] if there are two parts. *)
Definition split2 (sep s : string) : option (string * string) :=
  match cut_bytes (chars sep) (chars s) with
  | Some (a, b) => Some (text a, text b)
  | None => None
  end.

(** [strings.FieldsFunc]: the maximal runs of bytes that are not separators. *)
Fixpoint fields_bytes (is_sep : ascii -> bool) (word l : bytes) : list bytes :=
  match l with
  | [] => match word with [] => [] | _ => [rev word] end
  | c :: l' =>
      if is_sep c
      then match word with
           | [] => fields_bytes is_sep [] l'
           | _ => rev word :: fields_bytes is_sep [] l'
           end
      else fields_bytes is_sep (c :: word) l'
  end.

Fixpoint join (sep : string) (l : list string) : string :=
  match l with
  | [] => ""
  | [x] => x
  | x :: l' => x ++ sep ++ join sep l'
  end%string.

(** [strings.Trim] and [strings.TrimRight] for a set of bytes. *)
Fixpoint drop_while (f : ascii -> bool) (l : bytes) : bytes :=
  match l with
  | c :: l' => if f c then drop_while f l' else l
  | [] => []
  end.
Definition trim_right_bytes_of (f : ascii -> bool) (l : bytes) : bytes :=
  rev (drop_while f (rev l)).
Definition trim_bytes_of (f : ascii -> bool) (l : bytes) : bytes :=
  trim_right_bytes_of f (drop_while f l).

(** ** Equality *)

Lemma str_eq_true a b : str_eq a b = true <-> a = b.
Proof. apply bool_decide_eq_true. Qed.
Lemma str_eq_false a b : str_eq a b = false <-> a <> b.
Proof. apply bool_decide_eq_false. Qed.
Lemma str_ne_true a b : str_ne a b = true <-> a <> b.
Proof. unfold str_ne. by rewrite negb_true_iff, str_eq_false. Qed.
Lemma str_ne_false a b : str_ne a b = false <-> a = b.
Proof. unfold str_ne. by rewrite negb_false_iff, str_eq_true. Qed.
Lemma existsb_str s l : existsb (str_eq s) l = true <-> In s l.
Proof.
  rewrite existsb_exists. split.
  - intros (x & Hx & ->%str_eq_true). done.
  - intros Hs. exists s. split; [done|]. by apply str_eq_true.
Qed.
#[export] Hint Rewrite str_eq_true str_eq_false str_ne_true str_ne_false existsb_str : go_bool.

(** ** White space *)

Lemma leading_space_le r l : leading_space r l <= length l.
Proof. unfold leading_space. repeat case_match; simpl; lia. Qed.

Lemma drop_spaces_done r fuel l :
  length l <= fuel -> leading_space r (drop_spaces fuel r l) = 0.
Proof.
  revert l. induction fuel as [|fuel IH]; intros l Hl; simpl.
  - destruct l; [done|simpl in Hl; lia].
  - destruct (leading_space r l) as [|n] eqn:E; [done|].
    apply IH. rewrite length_skipn. lia.
Qed.

Lemma drop_spaces_id r fuel l : leading_space r l = 0 -> drop_spaces fuel r l = l.
Proof. intros H. destruct fuel; simpl; [done|]. by rewrite H. Qed.

Lemma drop_spaces_suffix r fuel l : exists p, l = p ++ drop_spaces fuel r l.
Proof.
  revert l. induction fuel as [|fuel IH]; intros l; simpl; [by exists []|].
  destruct (leading_space r l) as [|n]; [by exists []|].
  destruct (IH (skipn (S n) l)) as [p Hp].
  exists (firstn (S n) l ++ p). rewrite <- app_assoc, <- Hp.
  by rewrite firstn_skipn.
Qed.

Lemma leading_space_prefix r p q : leading_space r (p ++ q) = 0 -> leading_space r p = 0.
Proof.
  destruct p as [|a [|b [|c p]]]; simpl; [done| | |done].
  - by destruct (space1 a).
  - destruct (space1 a); [done|].
    destruct q as [|d q]; [done|].
    destruct (if r then space2 b a else space2 a b); [done|]. done.
Qed.

(** Neither end of a trimmed byte string is a white-space rune. *)
Definition trimmed (l : bytes) : Prop :=
  leading_space false l = 0 /\ leading_space true (rev l) = 0.

Lemma trim_bytes_trimmed l : trimmed (trim_bytes l).
Proof.
  unfold trim_bytes, trim_right_bytes. split.
  - destruct (drop_spaces_suffix true (length (trim_left_bytes l)) (rev (trim_left_bytes l)))
      as [p Hp].
    apply (leading_space_prefix _ _ (rev p)).
    rewrite <- rev_app_distr, <- Hp, rev_involutive.
    by apply drop_spaces_done.
  - rewrite rev_involutive. apply drop_spaces_done. by rewrite length_rev.
Qed.

Lemma trim_bytes_id l : trimmed l -> trim_bytes l = l.
Proof.
  intros [H1 H2]. unfold trim_bytes, trim_left_bytes, trim_right_bytes.
  rewrite (drop_spaces_id false), (drop_spaces_id true) by done.
  by rewrite rev_involutive.
Qed.

Lemma prefix_of_skipn p l : prefix_of p l = true -> l = p ++ skipn (length p) l.
Proof.
  revert l. induction p as [|a p IH]; intros l; simpl; [done|]. destruct l as [|b l]; [done|].
  intros [E ?%IH]%andb_true_iff. apply Ascii.eqb_eq in E as ->. simpl. by f_equal.
Qed.

Lemma cut_bytes_app sep l a b : cut_bytes sep l = Some (a, b) -> l = a ++ sep ++ b.
Proof.
  revert a b. induction l as [|c l IH]; intros a b; simpl.
  - destruct (prefix_of sep []) eqn:E; [|done]. intros [= <- <-].
    apply prefix_of_skipn in E. done.
  - destruct (prefix_of sep (c :: l)) eqn:E.
    + intros [= <- <-]. by apply prefix_of_skipn in E.
    + destruct (cut_bytes sep l) as [[a' b']|]; [|done]. intros [= <- <-].
      simpl. f_equal. by apply IH.
Qed.

Lemma chars_text l : chars (text l) = l.
Proof. apply list_ascii_of_string_of_list_ascii. Qed.
Lemma text_chars s : text (chars s) = s.
Proof. apply string_of_list_ascii_of_string. Qed.

Lemma chars_app a b : chars (a +:+ b) = chars a ++ chars b.
Proof. induction a as [|c a IH]; simpl; [done|]. by rewrite IH. Qed.
Lemma text_app a b : text (a ++ b) = text a +:+ text b.
Proof. induction a as [|c a IH]; simpl; [done|]. by rewrite IH. Qed.
Lemma chars_inj a b : chars a = chars b -> a = b.
Proof. intros H. by rewrite <- (text_chars a), <- (text_chars b), H. Qed.
Lemma length_chars s : length (chars s) = String.length s.
Proof. induction s; simpl; congruence. Qed.

Create HintDb go_str.
#[export] Hint Rewrite chars_text text_chars chars_app : go_str.

Lemma trim_space_idem s : trim_space (trim_space s) = trim_space s.
Proof.
  unfold trim_space. rewrite chars_text. f_equal.
  apply trim_bytes_id, trim_bytes_trimmed.
Qed.
#[export] Hint Rewrite trim_space_idem : go_str.

(** A trimmed string survives a trailing newline. *)
Lemma trim_space_newline s :
  trim_space (trim_space s ++ String (byte_of 10) "")%string = trim_space s.
Proof.
  unfold trim_space.
  set (l := trim_bytes (chars s)).
  assert (Ht : trimmed l) by apply trim_bytes_trimmed.
  rewrite chars_app, chars_text. change (chars (String (byte_of 10) "")) with [byte_of 10]. f_equal.
  destruct Ht as [H1 H2].
  destruct (decide (l = [])) as [->|Hne]; [done|].
  unfold trim_bytes, trim_left_bytes.
  rewrite (drop_spaces_id false).
  - unfold trim_right_bytes. rewrite rev_app_distr.
    change (rev [byte_of 10] ++ rev l) with (byte_of 10 :: rev l).
    rewrite length_app, Nat.add_comm. change (length [byte_of 10] + length l) with (S (length l)).
    cbn [drop_spaces leading_space]. change (space1 (byte_of 10)) with true. cbn match.
    change (skipn 1 (byte_of 10 :: rev l)) with (rev l).
    rewrite (drop_spaces_id true) by done. by rewrite rev_involutive.
  - destruct l as [|a [|b [|c l]]]; [done| | |done]; simpl in *.
    + destruct (space1 a); [done|].
      assert (E : space2 a (byte_of 10) = false).
      { unfold space2. simpl. by rewrite andb_false_r. }
      by rewrite E.
    + destruct (space1 a); [done|]. destruct (space2 a b); [done|].
      assert (E : space3 a b (byte_of 10) = false).
      { unfold space3, between. simpl. by rewrite !andb_false_r. }
      by rewrite E.
Qed.

Lemma lower_char_idem c : lower_char (lower_char c) = lower_char c.
Proof. destruct c as [[] [] [] [] [] [] [] []]; reflexivity. Qed.

Lemma to_lower_idem s : to_lower (to_lower s) = to_lower s.
Proof.
  unfold to_lower, map_string. rewrite chars_text, map_map. f_equal.
  apply map_ext. apply lower_char_idem.
Qed.
#[export] Hint Rewrite to_lower_idem : go_str.

Lemma leading_space_lower r l : leading_space r (map lower_char l) = leading_space r l.
Proof.
  assert (H1 : forall c, space1 (lower_char c) = space1 c)
    by (intros [[] [] [] [] [] [] [] []]; reflexivity).
  assert (H2 : forall c k, (128 <= k)%N -> (code (lower_char c) =? k)%N = (code c =? k)%N).
  { intros c k Hk. unfold lower_char. destruct (is_upper c) eqn:E; [|done].
    unfold is_upper, between in E. apply andb_true_iff in E as [E1 E2].
    apply N.leb_le in E1, E2.
    assert (code (ascii_of_N (code c + 32)) = code c + 32)%N as ->
      by (apply N_ascii_embedding; lia).
    transitivity false; [|symmetry]; apply N.eqb_neq; lia. }
  assert (H3 : forall c lo hi, (128 <= lo)%N -> between lo hi (lower_char c) = between lo hi c).
  { intros c lo hi Hk. unfold between, lower_char. destruct (is_upper c) eqn:E; [|done].
    unfold is_upper, between in E. apply andb_true_iff in E as [E1 E2].
    apply N.leb_le in E1, E2.
    assert (code (ascii_of_N (code c + 32)) = code c + 32)%N as ->
      by (apply N_ascii_embedding; lia).
    transitivity false; [|symmetry]; apply andb_false_iff; left; apply N.leb_gt; lia. }
  assert (H4 : forall c d, space2 (lower_char c) (lower_char d) = space2 c d)
    by (intros; unfold space2; rewrite !H2 by lia; done).
  assert (H5 : forall c d e, space3 (lower_char c) (lower_char d) (lower_char e) = space3 c d e)
    by (intros; unfold space3; rewrite !H2, !H3 by lia; done).
  destruct l as [|a [|b [|c l]]]; simpl; rewrite ?H1, ?H4, ?H5; done.
Qed.

Lemma trim_lower_trimmed s : trim_space (to_lower (trim_space s)) = to_lower (trim_space s).
Proof.
  unfold to_lower, map_string, trim_space. rewrite !chars_text. f_equal.
  apply trim_bytes_id. destruct (trim_bytes_trimmed (chars s)) as [H1 H2].
  split; [by rewrite leading_space_lower|].
  by rewrite <- map_rev, leading_space_lower.
Qed.
#[export] Hint Rewrite trim_lower_trimmed : go_str.

(** [crypto/sha256] as a parameter: the lower-case hex digest of a byte string.
    A [hash.Hash] that is written piecewise is the bytes written so far. *)
Class Sha256 := sha256_hex : bytes -> string.
