(* ===== verification/Regex.v ===== *)
(** * Regular expressions

    The anchored patterns that the runner compiles with [regexp.MustCompile],
    as syntax, with a matcher by derivatives and its correctness against the
    language of the pattern.  The patterns themselves are in the file of the
    component that declares them. *)

From stdpp Require Import base list strings.
From Stdlib Require Import Ascii String Lia.
From S2P Require Import Prelude GoStrings.

Inductive re : Type :=
| RNone
| REps
| RChr (p : ascii -> bool)
| RSeq (a b : re)
| RAlt (a b : re)
| RStar (a : re).

Inductive lang : re -> bytes -> Prop :=
| lang_eps : lang REps []
| lang_chr p c : p c = true -> lang (RChr p) [c]
| lang_seq a b s t : lang a s -> lang b t -> lang (RSeq a b) (s ++ t)
| lang_alt_l a b s : lang a s -> lang (RAlt a b) s
| lang_alt_r a b s : lang b s -> lang (RAlt a b) s
| lang_star_nil a : lang (RStar a) []
| lang_star_cons a s t : lang a s -> lang (RStar a) t -> lang (RStar a) (s ++ t).

(** Smart constructors keep the derivatives small. *)
Definition seq_re (a b : re) : re :=
  match a with RNone => RNone | REps => b | _ => RSeq a b end.
Definition alt_re (a b : re) : re :=
  match a, b with RNone, _ => b | _, RNone => a | _, _ => RAlt a b end.

Fixpoint nullable (r : re) : bool :=
  match r with
  | RNone | RChr _ => false
  | REps | RStar _ => true
  | RSeq a b => nullable a && nullable b
  | RAlt a b => nullable a || nullable b
  end.

Fixpoint deriv (c : ascii) (r : re) : re :=
  match r with
  | RNone | REps => RNone
  | RChr p => if p c then REps else RNone
  | RSeq a b =>
      if nullable a then alt_re (seq_re (deriv c a) b) (deriv c b)
      else seq_re (deriv c a) b
  | RAlt a b => alt_re (deriv c a) (deriv c b)
  | RStar a => seq_re (deriv c a) (RStar a)
  end.

Fixpoint match_bytes (r : re) (l : bytes) : bool :=
  match l with
  | [] => nullable r
  | c :: l' => match_bytes (deriv c r) l'
  end.
Definition match_string (r : re) (s : string) : bool := match_bytes r (chars s).

(** Pattern syntax: character sets, [r?], [r{n}], [r{0,n}], [r+], literals. *)
Definition chr (c : ascii) : re := RChr (char_eq c).
Definition opt (r : re) : re := RAlt r REps.
Definition plus (r : re) : re := RSeq r (RStar r).
Fixpoint times (n : nat) (r : re) : re :=
  match n with 0 => REps | S n => RSeq r (times n r) end.
Fixpoint up_to (n : nat) (r : re) : re :=
  match n with 0 => REps | S n => opt (RSeq r (up_to n r)) end.
Fixpoint lit (l : bytes) : re :=
  match l with [] => REps | c :: l' => RSeq (chr c) (lit l') end.
Definition one_of (s : string) (c : ascii) : bool := existsb (char_eq c) (chars s).
Definition alnum_lower (c : ascii) : bool := is_lower c || is_digit c.
Definition alnum (c : ascii) : bool := is_lower c || is_upper c || is_digit c.
Definition hex_lower (c : ascii) : bool := between 97 102 c || is_digit c.

(** ** Correctness of the matcher *)

Lemma lang_seq_inv a b w : lang (RSeq a b) w -> exists s t, w = s ++ t /\ lang a s /\ lang b t.
Proof. inversion 1; subst; eauto. Qed.
Lemma lang_alt_inv a b w : lang (RAlt a b) w -> lang a w \/ lang b w.
Proof. inversion 1; subst; eauto. Qed.
#[local] Hint Constructors lang : go_re.

Lemma lang_seq_re a b w : lang (seq_re a b) w <-> lang (RSeq a b) w.
Proof.
  destruct a; simpl; try done; split; intros H.
  - inversion H.
  - apply lang_seq_inv in H as (? & ? & _ & H & _). inversion H.
  - apply (lang_seq REps b [] w); auto with go_re.
  - apply lang_seq_inv in H as (s & t & -> & H & ?). inversion H; subst. done.
Qed.

Lemma lang_alt_re a b w : lang (alt_re a b) w <-> lang (RAlt a b) w.
Proof.
  assert (N : ~ lang RNone w) by (inversion 1).
  destruct a, b; simpl; try done; split; intros H; auto with go_re;
    apply lang_alt_inv in H as [H|H]; done.
Qed.

Lemma nullable_lang r : nullable r = true <-> lang r [].
Proof.
  induction r as [| |p|a IHa b IHb|a IHa b IHb|a IHa]; simpl; split; intros H;
    try done; auto with go_re; try (inversion H; fail).
  - apply andb_true_iff in H as [H1 H2].
    apply (lang_seq a b [] []); [by apply IHa|by apply IHb].
  - apply lang_seq_inv in H as (s & t & E & H1 & H2).
    symmetry in E. apply app_eq_nil in E as [-> ->].
    apply andb_true_iff. split; [by apply IHa|by apply IHb].
  - apply orb_true_iff in H as [H|H]; [apply lang_alt_l, IHa|apply lang_alt_r, IHb]; done.
  - apply orb_true_iff. apply lang_alt_inv in H as [H|H]; [left; by apply IHa|right; by apply IHb].
Qed.

Lemma star_cons_inv a c w :
  lang (RStar a) (c :: w) -> exists s t, w = s ++ t /\ lang a (c :: s) /\ lang (RStar a) t.
Proof.
  intros H. remember (RStar a) as r eqn:Er. remember (c :: w) as v eqn:Ev.
  revert a c w Er Ev. induction H; intros a' c' w' Er Ev; try discriminate.
  injection Er as ->. destruct s as [|d s]; simpl in Ev.
  - eapply IHlang2; eauto.
  - injection Ev as -> <-. eauto.
Qed.

Lemma deriv_lang c r w : lang (deriv c r) w <-> lang r (c :: w).
Proof.
  revert w. induction r as [| |p|a IHa b IHb|a IHa b IHb|a IHa]; intros w; simpl.
  - split; inversion 1.
  - split; inversion 1.
  - destruct (p c) eqn:E; split; inversion 1; subst; auto with go_re; congruence.
  - assert (S1 : lang (RSeq (deriv c a) b) w -> lang (RSeq a b) (c :: w)).
    { intros (s & t & -> & H1 & H2)%lang_seq_inv.
      apply (lang_seq a b (c :: s) t); [by apply IHa|done]. }
    assert (S2 : lang (RSeq a b) (c :: w) ->
        lang (RSeq (deriv c a) b) w \/ nullable a = true /\ lang (deriv c b) w).
    { intros ([|d s] & t & E & H1 & H2)%lang_seq_inv; simpl in E.
      - right. split; [by apply nullable_lang|]. apply IHb. by rewrite E.
      - left. injection E as -> ->. apply lang_seq; [by apply IHa|done]. }
    destruct (nullable a) eqn:N.
    + rewrite lang_alt_re. split.
      * intros [H|H]%lang_alt_inv; [by apply S1, lang_seq_re|].
        apply (lang_seq a b [] (c :: w)); [by apply nullable_lang|by apply IHb].
      * intros [H|[_ H]]%S2; [apply lang_alt_l, lang_seq_re|apply lang_alt_r]; done.
    + rewrite lang_seq_re. split; [done|]. intros [H|[? _]]%S2; done.
  - rewrite lang_alt_re. split.
    + intros [H|H]%lang_alt_inv; [apply lang_alt_l, IHa|apply lang_alt_r, IHb]; done.
    + intros [H|H]%lang_alt_inv; [apply lang_alt_l, IHa|apply lang_alt_r, IHb]; done.
  - rewrite lang_seq_re. split.
    + intros (s & t & -> & H1 & H2)%lang_seq_inv.
      apply (lang_star_cons a (c :: s) t); [by apply IHa|done].
    + intros (s & t & -> & H1 & H2)%star_cons_inv.
      apply lang_seq; [by apply IHa|done].
Qed.

Lemma match_lang r l : match_bytes r l = true <-> lang r l.
Proof.
  revert r. induction l as [|c l IH]; intros r; simpl.
  - apply nullable_lang.
  - by rewrite IH, deriv_lang.
Qed.

Lemma match_string_lang r s : match_string r s = true <-> lang r (chars s).
Proof. apply match_lang. Qed.

(** ** Consequences for the patterns of the runner *)

Lemma lang_chr_inv p w : lang (RChr p) w -> exists c, w = [c] /\ p c = true.
Proof. inversion 1; subst; eauto. Qed.

Lemma lang_star_chr p w : lang (RStar (RChr p)) w -> Forall (fun c => p c = true) w.
Proof.
  intros H. remember (RStar (RChr p)) as r eqn:E. induction H; try discriminate; [done|].
  injection E as ->. apply lang_chr_inv in H as (c & -> & ?). simpl. auto.
Qed.

Lemma star_chr_lang p w : Forall (fun c => p c = true) w -> lang (RStar (RChr p)) w.
Proof.
  induction 1 as [|c w Hc Hw IH]; [constructor|].
  apply (lang_star_cons (RChr p) [c] w); [by constructor|done].
Qed.

Lemma lang_times_chr p n w :
  lang (times n (RChr p)) w -> length w = n /\ Forall (fun c => p c = true) w.
Proof.
  revert w. induction n as [|n IH]; simpl; intros w H.
  - inversion H. done.
  - apply lang_seq_inv in H as (s & t & -> & (c & -> & Hc)%lang_chr_inv & Ht).
    apply IH in Ht as [<- Ht]. simpl. auto.
Qed.

Lemma lang_up_to_chr p n w :
  lang (up_to n (RChr p)) w -> length w <= n /\ Forall (fun c => p c = true) w.
Proof.
  revert w. induction n as [|n IH]; simpl; intros w H.
  - inversion H. simpl. split; [lia|done].
  - apply lang_alt_inv in H as [H|H].
    + apply lang_seq_inv in H as (s & t & -> & (c & -> & Hc)%lang_chr_inv & Ht).
      apply IH in Ht as [? Ht]. simpl. split; [lia|auto].
    + inversion H. simpl. split; [lia|done].
Qed.
