(* ===== verification/GoPath.v ===== *)
(** * Paths and the order of strings

    Go's [path] and [io/fs] on slash-separated paths: [path.Clean], [path.Dir],
    [fs.ValidPath], and the order in which [sort.Strings] puts strings. *)

From stdpp Require Import base list strings sorting.
From Stdlib Require Import ZArith Lia Ascii String.
From S2P Require Import Prelude GoStrings.

Local Open Scope string_scope.
Local Open Scope list_scope.

(** ** The order of strings *)

Fixpoint bytes_ltb (a b : bytes) : bool :=
  match a, b with
  | _, [] => false
  | [], _ => true
  | x :: a', y :: b' => (code x <? code y)%N || (char_eq x y && bytes_ltb a' b')
  end.
Definition str_ltb (a b : string) : bool := bytes_ltb (chars a) (chars b).

Lemma char_eq_true a b : char_eq a b = true <-> a = b.
Proof. apply Ascii.eqb_eq. Qed.
Lemma code_inj a b : code a = code b -> a = b.
Proof. intros H. rewrite <- (ascii_N_embedding a), <- (ascii_N_embedding b). by f_equal. Qed.

(** The head of two different strings decides, or the tails do. *)
Lemma bytes_ltb_cons x a y b :
  bytes_ltb (x :: a) (y :: b) = true <-> (code x < code y)%N \/ x = y /\ bytes_ltb a b = true.
Proof. cbn [bytes_ltb]. by rewrite orb_true_iff, andb_true_iff, N.ltb_lt, char_eq_true. Qed.

Lemma bytes_ltb_irrefl a : bytes_ltb a a = false.
Proof.
  induction a as [|x a IH]; [done|]. apply not_true_is_false. rewrite bytes_ltb_cons, IH.
  intros [?|[_ ?]]; [lia|done].
Qed.
Lemma bytes_ltb_trans a b c : bytes_ltb a b = true -> bytes_ltb b c = true -> bytes_ltb a c = true.
Proof.
  revert b c. induction a as [|x a IH]; intros [|y b] [|z c]; try done.
  rewrite !bytes_ltb_cons. intros [?|[-> ?]] [?|[<- ?]]; [left; lia|by left|by left|right].
  split; [done|]. by apply (IH b).
Qed.
Lemma bytes_ltb_total a b : bytes_ltb a b = false -> a = b \/ bytes_ltb b a = true.
Proof.
  revert b. induction a as [|x a IH]; intros [|y b]; [by left|done|by right|].
  intros Hf. apply not_true_iff_false in Hf. rewrite bytes_ltb_cons in Hf. rewrite bytes_ltb_cons.
  destruct (N.lt_trichotomy (code x) (code y)) as [?|[Hc|?]]; [tauto| |auto].
  apply code_inj in Hc as ->. destruct (bytes_ltb a b) eqn:E; [tauto|].
  destruct (IH _ E) as [->|?]; auto.
Qed.
Lemma bytes_ltb_negtrans a b c :
  bytes_ltb a b = false -> bytes_ltb b c = false -> bytes_ltb a c = false.
Proof.
  intros Hab Hbc. apply not_true_is_false. intros Hac.
  destruct (bytes_ltb_total _ _ Hab) as [->|H1]; [congruence|].
  pose proof (bytes_ltb_trans _ _ _ H1 Hac) as H2. congruence.
Qed.
Lemma bytes_ltb_prefix a x b : bytes_ltb a (a ++ x :: b) = true.
Proof. induction a as [|y a IH]; [done|]. simpl app. apply bytes_ltb_cons. auto. Qed.

Lemma str_ltb_irrefl a : str_ltb a a = false.
Proof. apply bytes_ltb_irrefl. Qed.
Lemma str_ltb_trans a b c : str_ltb a b = true -> str_ltb b c = true -> str_ltb a c = true.
Proof. apply bytes_ltb_trans. Qed.
Lemma str_ltb_negtrans a b c : str_ltb a b = false -> str_ltb b c = false -> str_ltb a c = false.
Proof. apply bytes_ltb_negtrans. Qed.
Lemma str_ltb_total a b : str_ltb a b = false -> a = b \/ str_ltb b a = true.
Proof. intros [?|?]%bytes_ltb_total; [left; by apply chars_inj|by right]. Qed.

(** [sort.Strings] *)
Definition sort_strings : list string -> list string := sort_slice str_ltb.

(** Sorted strings without repetition increase strictly. *)
Lemma sort_strings_increasing l : NoDup l ->
  StronglySorted (fun a b => str_ltb a b = true) (sort_strings l).
Proof.
  intros Hn.
  assert (Hs : StronglySorted (in_order str_ltb) (sort_strings l))
    by (apply sort_slice_sorted; [apply str_ltb_irrefl|apply str_ltb_trans|apply str_ltb_negtrans]).
  assert (Hd : NoDup (sort_strings l)) by (by unfold sort_strings; rewrite sort_slice_perm).
  induction Hs as [|x m Hm IH Hx]; [constructor|]. apply NoDup_cons in Hd as [Hxm Hd].
  constructor; [by apply IH|]. rewrite Forall_forall in Hx |- *. intros y Hy.
  specialize (Hx y Hy). unfold in_order in Hx.
  destruct (str_ltb_total _ _ Hx) as [->|?]; [done|done].
Qed.

Lemma sort_strings_unique l l' : l ≡ₚ l' -> sort_strings l = sort_strings l'.
Proof.
  intros Hp.
  assert (Hs : forall m, StronglySorted (in_order str_ltb) (sort_strings m))
    by (intros m; apply sort_slice_sorted; [apply str_ltb_irrefl|apply str_ltb_trans|apply str_ltb_negtrans]).
  apply (StronglySorted_unique_strong (in_order str_ltb)); [|apply Hs|apply Hs|].
  - unfold in_order. intros x y _ _ H1 H2. destruct (str_ltb_total _ _ H1) as [?|?]; congruence.
  - unfold sort_strings. by rewrite !sort_slice_perm.
Qed.

(** ** UTF-8 *)

Definition continuation (c : ascii) : bool := between 128 191 c.
(** [utf8.ValidString] *)
Fixpoint utf8_valid (l : bytes) : bool :=
  match l with
  | [] => true
  | c :: l1 =>
      if (code c <? 128)%N then utf8_valid l1 else
      match l1 with
      | d :: l2 =>
          if between 194 223 c then continuation d && utf8_valid l2 else
          match l2 with
          | e :: l3 =>
              if (code c =? 224)%N then between 160 191 d && continuation e && utf8_valid l3
              else if (code c =? 237)%N then between 128 159 d && continuation e && utf8_valid l3
              else if between 225 239 c then continuation d && continuation e && utf8_valid l3
              else
              match l3 with
              | f :: l4 =>
                  if (code c =? 240)%N
                  then between 144 191 d && continuation e && continuation f && utf8_valid l4
                  else if between 241 243 c
                  then continuation d && continuation e && continuation f && utf8_valid l4
                  else if (code c =? 244)%N
                  then between 128 143 d && continuation e && continuation f && utf8_valid l4
                  else false
              | [] => false
              end
          | [] => false
          end
      | [] => false
      end
  end.

(** ** Paths *)

Definition slash : ascii := byte_of 47.
Definition elements (s : string) : list string := split_on slash s.
Definition slash_s : string := String slash "".
Definition is_abs (s : string) : bool := has_prefix s slash_s.

(** [path.Clean] over the elements, with the result so far in reverse. *)
Fixpoint clean_elements (rooted : bool) (out : list string) (l : list string) : list string :=
  match l with
  | [] => rev out
  | e :: l' =>
      if str_eq e "" || str_eq e "." then clean_elements rooted out l'
      else if str_eq e ".." then
        match out with
        | o :: out' =>
            if str_eq o ".." then clean_elements rooted (e :: out) l'
            else clean_elements rooted out' l'
        | [] => clean_elements rooted (if rooted then [] else [e]) l'
        end
      else clean_elements rooted (e :: out) l'
  end.
Definition path_clean (s : string) : string :=
  let rooted := is_abs s in
  let out := join slash_s (clean_elements rooted [] (elements s)) in
  if rooted then slash_s +:+ out else if str_eq out "" then "." else out.

(** What [path.Split] gives as the directory: all up to the last slash. *)
Definition up_to_slash (s : string) : string :=
  text (rev (drop_while (fun c => negb (char_eq c slash)) (rev (chars s)))).
Definition path_dir (s : string) : string := path_clean (up_to_slash s).

(** [fs.ValidPath] *)
Definition good_element (e : string) : bool := str_ne e "" && str_ne e "." && str_ne e "..".
Definition fs_valid_path (s : string) : bool :=
  utf8_valid (chars s) && (str_eq s "." || forallb good_element (elements s)).

(** [path.Join] of nonempty and empty parts. *)
Definition path_join (l : list string) : string :=
  match List.filter (fun e => str_ne e "") l with
  | [] => ""
  | l' => path_clean (join slash_s l')
  end.

(** *** Splitting and joining *)

Lemma split_bytes_nonempty sep l : split_bytes sep l <> [].
Proof.
  destruct l as [|c l]; simpl; [done|]. destruct (char_eq c sep); [done|].
  by destruct (split_bytes sep l).
Qed.

Lemma split_bytes_no_sep sep w :
  Forall (fun c => c <> sep) w -> split_bytes sep w = [w].
Proof.
  induction 1 as [|c w Hc Hw IH]; [done|]. simpl.
  destruct (char_eq c sep) eqn:E; [by apply char_eq_true in E|]. by rewrite IH.
Qed.

Lemma split_bytes_app sep w l :
  Forall (fun c => c <> sep) w -> split_bytes sep (w ++ sep :: l) = w :: split_bytes sep l.
Proof.
  induction 1 as [|c w Hc Hw IH]; simpl.
  - by rewrite (proj2 (char_eq_true sep sep) eq_refl).
  - destruct (char_eq c sep) eqn:E; [by apply char_eq_true in E|]. by rewrite IH.
Qed.

Lemma split_bytes_elements sep l :
  Forall (Forall (fun c => c <> sep)) (split_bytes sep l).
Proof.
  induction l as [|c l IH]; simpl; [by repeat constructor|].
  destruct (char_eq c sep) eqn:E; [by constructor|].
  destruct (split_bytes sep l) as [|w ws].
  - constructor; [|done]. constructor; [|done]. intros ->.
    by rewrite (proj2 (char_eq_true sep sep) eq_refl) in E.
  - apply Forall_cons in IH as [Hw Hws]. constructor; [|done]. constructor; [|done]. intros ->.
    by rewrite (proj2 (char_eq_true sep sep) eq_refl) in E.
Qed.

Lemma join_elements s : join slash_s (elements s) = s.
Proof.
  unfold elements, split_on. apply chars_inj. generalize (chars s). clear s.
  induction l as [|c l IH]; simpl; [done|].
  pose proof (split_bytes_nonempty slash l) as Hn.
  destruct (char_eq c slash) eqn:E.
  - apply char_eq_true in E as ->. destruct (split_bytes slash l) as [|w ws]; [done|].
    cbn [map]. change (join slash_s (text [] :: text w :: map text ws))
      with ("" +:+ slash_s +:+ join slash_s (map text (w :: ws))).
    by rewrite !chars_app, IH.
  - destruct (split_bytes slash l) as [|w ws]; [done|]. cbn [map] in *.
    destruct ws as [|w' ws]; simpl in *; rewrite ?chars_app in *; simpl in *; by rewrite IH.
Qed.

Lemma elements_join l : l <> [] ->
  Forall (fun e => Forall (fun c => c <> slash) (chars e)) l -> elements (join slash_s l) = l.
Proof.
  intros Hn Hl. unfold elements, split_on.
  induction Hl as [|e l He Hl IH]; [done|].
  destruct l as [|e' l].
  - simpl. rewrite split_bytes_no_sep by done. simpl. by rewrite text_chars.
  - change (join slash_s (e :: e' :: l)) with (e +:+ slash_s +:+ join slash_s (e' :: l)).
    rewrite !chars_app. change (chars slash_s ++ ?x) with (slash :: x).
    rewrite split_bytes_app by done. cbn [map]. rewrite text_chars.
    f_equal. by apply IH.
Qed.

Lemma elements_no_slash s : Forall (fun e => Forall (fun c => c <> slash) (chars e)) (elements s).
Proof.
  unfold elements, split_on. apply Forall_map. eapply Forall_impl; [apply split_bytes_elements|].
  intros w Hw. by rewrite chars_text.
Qed.

Lemma clean_elements_good rooted out l :
  forallb good_element l = true -> clean_elements rooted out l = rev out ++ l.
Proof.
  revert out. induction l as [|e l IH]; intros out; simpl; [by rewrite app_nil_r|].
  unfold good_element at 1. rewrite !andb_true_iff, !str_ne_true. intros [[[H1 H2] H3] Hl].
  rewrite (proj2 (str_eq_false _ _) H1), (proj2 (str_eq_false _ _) H2),
    (proj2 (str_eq_false _ _) H3). simpl. rewrite IH by done. simpl. by rewrite <- app_assoc.
Qed.

Lemma good_not_abs s : forallb good_element (elements s) = true -> is_abs s = false.
Proof.
  intros Hg. destruct (is_abs s) eqn:E; [|done]. exfalso.
  unfold is_abs, has_prefix in E. unfold elements, split_on in Hg.
  assert (chars slash_s = [slash]) as Hs by reflexivity. rewrite Hs in E.
  destruct (chars s) as [|c l]; [done|]. cbn [prefix_of] in E. rewrite andb_true_r in E.
  apply char_eq_true in E as <-. cbn [split_bytes] in Hg.
  rewrite (proj2 (char_eq_true slash slash) eq_refl) in Hg. done.
Qed.

(** A valid path is clean. *)
Lemma clean_valid s : fs_valid_path s = true -> path_clean s = s.
Proof.
  unfold fs_valid_path. rewrite andb_true_iff, orb_true_iff, str_eq_true.
  intros [_ [->|Hg]]; [done|]. unfold path_clean. rewrite (good_not_abs _ Hg).
  rewrite clean_elements_good by done. simpl. rewrite join_elements.
  destruct (str_eq s "") eqn:E; [|done]. by apply str_eq_true in E as ->.
Qed.

(** *** Directories of valid paths *)

Lemma drop_while_app_stop f l c m :
  Forall (fun x => f x = true) l -> f c = false -> drop_while f (l ++ c :: m) = c :: m.
Proof. intros Hl Hc. induction Hl as [|x l Hx Hl IH]; simpl; [by rewrite Hc|by rewrite Hx]. Qed.
Lemma drop_while_all f l : Forall (fun x => f x = true) l -> drop_while f l = [].
Proof. induction 1 as [|x l Hx Hl IH]; simpl; [done|by rewrite Hx]. Qed.

Lemma up_to_slash_none e : Forall (fun c => c <> slash) (chars e) -> up_to_slash e = "".
Proof.
  intros He. unfold up_to_slash. rewrite drop_while_all; [done|].
  apply Forall_rev. eapply Forall_impl; [exact He|]. intros c Hc.
  apply negb_true_iff, not_true_is_false. by rewrite char_eq_true.
Qed.
Lemma up_to_slash_some a e : Forall (fun c => c <> slash) (chars e) ->
  up_to_slash (a +:+ slash_s +:+ e) = a +:+ slash_s.
Proof.
  intros He. unfold up_to_slash. rewrite !chars_app, !rev_app_distr, <- app_assoc.
  assert (chars slash_s = [slash]) as -> by reflexivity. change (rev [slash] ++ ?x) with (slash :: x).
  rewrite drop_while_app_stop.
  - simpl. rewrite rev_involutive. apply chars_inj.
    by rewrite chars_text, chars_app.
  - apply Forall_rev. eapply Forall_impl; [exact He|]. intros c Hc.
    apply negb_true_iff, not_true_is_false. by rewrite char_eq_true.
  - apply negb_false_iff. by apply char_eq_true.
Qed.

Lemma join_snoc l e : l <> [] -> join slash_s (l ++ [e]) = join slash_s l +:+ slash_s +:+ e.
Proof.
  intros Hl. induction l as [|x l IH]; [done|]. destruct l as [|y l]; [done|].
  change (join slash_s ((x :: y :: l) ++ [e])) with (x +:+ slash_s +:+ join slash_s ((y :: l) ++ [e])).
  rewrite IH by done.
  change (join slash_s (x :: y :: l)) with (x +:+ slash_s +:+ join slash_s (y :: l)).
  apply chars_inj. rewrite !chars_app. by rewrite <- !app_assoc.
Qed.

Lemma good_app l e :
  forallb good_element (l ++ [e]) = true <-> forallb good_element l = true /\ good_element e = true.
Proof. rewrite forallb_app, andb_true_iff. simpl. by rewrite andb_true_r. Qed.

(** The directory of a path with good elements. *)
Lemma path_dir_good s l e : elements s = l ++ [e] -> forallb good_element (elements s) = true ->
  path_dir s = if decide (l = []) then "." else join slash_s l.
Proof.
  intros Hs Hg. pose proof (elements_no_slash s) as Hn. rewrite Hs in Hn, Hg.
  apply Forall_app in Hn as [Hnl [Hne _]%Forall_cons]. apply good_app in Hg as [Hgl Hge].
  rewrite <- (join_elements s), Hs. unfold path_dir.
  destruct (decide (l = [])) as [->|Hl]; [by simpl; rewrite up_to_slash_none|].
  rewrite join_snoc, up_to_slash_some by done.
  assert (Hel : elements (join slash_s l +:+ slash_s) = l ++ [""]).
  { assert (join slash_s l +:+ slash_s = join slash_s (l ++ [""])) as ->.
    { rewrite join_snoc by done. apply chars_inj. rewrite !chars_app. simpl. done. }
    apply elements_join; [by destruct l|]. apply Forall_app. split; [done|].
    by repeat constructor. }
  assert (Hns : elements (join slash_s l) = l) by by apply elements_join.
  assert (Habs : is_abs (join slash_s l +:+ slash_s) = false).
  { assert (is_abs (join slash_s l) = false) as Ha by (apply good_not_abs; by rewrite Hns).
    unfold is_abs, has_prefix in *. assert (chars slash_s = [slash]) as Hsl by reflexivity.
    rewrite chars_app, Hsl in *.
    destruct (chars (join slash_s l)) as [|c m] eqn:Ec; [|done].
    exfalso. destruct l as [|x l]; [done|]. simpl in Hgl.
    apply andb_true_iff in Hgl as [Hx _]. unfold good_element in Hx.
    rewrite !andb_true_iff, str_ne_true in Hx. destruct Hx as [[Hx _] _]. apply Hx.
    apply chars_inj. simpl. destruct l as [|y l]; [done|].
    change (join slash_s (x :: y :: l)) with (x +:+ slash_s +:+ join slash_s (y :: l)) in Ec.
    rewrite !chars_app in Ec. by apply app_eq_nil in Ec as [-> _]. }
  unfold path_clean. rewrite Habs, Hel.
  assert (Hce : forall out, clean_elements false out (l ++ [""]) = rev out ++ l).
  { clear -Hgl. induction l as [|x l IH]; intros out; simpl; [by rewrite app_nil_r|].
    simpl in Hgl. apply andb_true_iff in Hgl as [Hx Hgl]. unfold good_element in Hx.
    rewrite !andb_true_iff, !str_ne_true in Hx. destruct Hx as [[H1 H2] H3].
    rewrite (proj2 (str_eq_false _ _) H1), (proj2 (str_eq_false _ _) H2),
      (proj2 (str_eq_false _ _) H3). simpl. rewrite IH by done. simpl. by rewrite <- app_assoc. }
  rewrite Hce. simpl. destruct (str_eq (join slash_s l) "") eqn:E; [|done].
  apply str_eq_true in E. rewrite E in Hns. destruct l as [|x [|y l]]; [done| |done].
  injection Hns as <-. done.
Qed.

(** A valid path is greater than its directory. *)
Lemma path_dir_ltb s : fs_valid_path s = true -> path_dir s <> "." -> str_ltb (path_dir s) s = true.
Proof.
  unfold fs_valid_path. rewrite andb_true_iff, orb_true_iff, str_eq_true.
  intros [_ [->|Hg]]; [done|]. destruct (elements s) as [|x m] eqn:E using rev_ind.
  - apply map_eq_nil in E. by apply split_bytes_nonempty in E.
  - clear IHm. rewrite (path_dir_good s _ _ E) by by rewrite E.
    destruct (decide (m = [])) as [|Hm]; [done|]. intros _.
    rewrite <- (join_elements s), E, join_snoc by done. unfold str_ltb.
    rewrite !chars_app. assert (chars slash_s = [slash]) as -> by reflexivity.
    apply bytes_ltb_prefix.
Qed.
