(* ===== verification/SqlFence.v ===== *)
(** * References to admission fences

    [AdmissionFenceRef] of [internal/mysqlcopy/admission.go], which the
    configuration of the runner holds and the MySQL driver checks. *)

From Stdlib Require Import String.

Record AdmissionFenceRef := {
  Af_Namespace : string; Af_PolicyName : string; Af_PolicyUID : string; Af_PolicySpecSHA256 : string;
  Af_BindingName : string; Af_BindingUID : string; Af_BindingSpecSHA256 : string }.
