(* ===== verification/SqlPlan.v ===== *)
(** * MySQL copy plans

    [internal/mysqlcopy/plan.go]: the data of a plan, the patterns of its
    fields, and [Plan.Validate].  Durations are nanoseconds and times are
    nanoseconds since Go's zero time, so [IsZero] is [= 0]. *)

From stdpp Require Import base list strings.
From Stdlib Require Import ZArith Lia Ascii String.
From S2P Require Import Prelude GoStrings Regex.

Local Open Scope string_scope.
Local Open Scope Z_scope.

Inductive sql_error : Type := ErrUnsafe | ErrPartial | ErrOperation | ErrCanceled | ErrDeadline.
#[export] Instance sql_error_eq_dec : EqDecision sql_error.
Proof. solve_decision. Defined.

(** [^[A-Za-z][A-Za-z0-9_]{0,63}$] *)
Definition letter (c : ascii) : bool := is_lower c || is_upper c.
Definition ident_char (c : ascii) : bool := alnum c || one_of "_" c.
Definition identifier : re := RSeq (RChr letter) (up_to 63 (RChr ident_char)).
(** [^[a-z0-9]([a-z0-9.-]*[a-z0-9])?$] *)
Definition name_char (c : ascii) : bool := alnum_lower c || one_of ".-" c.
Definition name : re :=
  RSeq (RChr alnum_lower) (opt (RSeq (RStar (RChr name_char)) (RChr alnum_lower))).
(** [^[a-z0-9][a-z0-9./:_-]*@sha256:[0-9a-f]{64}$] *)
Definition image : re :=
  RSeq (RChr alnum_lower)
    (RSeq (RStar (RChr (fun c => alnum_lower c || one_of "./:_-" c)))
       (RSeq (lit (chars "@sha256:")) (times 64 (RChr hex_lower)))).
(** [^[A-Za-z0-9_][A-Za-z0-9_.-]{0,252}$] *)
Definition secretKey : re :=
  RSeq (RChr ident_char) (up_to 252 (RChr (fun c => ident_char c || one_of ".-" c))).
(** [^sha256:[0-9a-f]{64}$] *)
Definition contractDigest : re := RSeq (lit (chars "sha256:")) (times 64 (RChr hex_lower)).
(** [^[A-Za-z0-9][A-Za-z0-9-]{0,127}$] *)
Definition uidPattern : re :=
  RSeq (RChr alnum) (up_to 127 (RChr (fun c => alnum c || one_of "-" c))).

Record Ref := { Ref_Namespace : string; Ref_Name : string; Ref_UID : string }.
Record CredentialRef := {
  Cred_Ref : Ref; Cred_Username : string; Cred_UsernameKey : string; Cred_PasswordKey : string }.
Record Source := {
  Src_PVC : Ref; Src_StatefulSet : Ref;
  Src_Container : string; Src_Image : string; Src_Service : string; Src_ServiceUID : string;
  Src_Database : string; Src_Port : Z;
  Src_Credentials : CredentialRef; Src_BackupAdminSecretRef : CredentialRef;
  Src_TLSCASecret : Ref; Src_TLSCAKey : string; Src_TLSServerName : string }.
Record Target := {
  Tgt_Namespace : string; Tgt_PVCName : string; Tgt_StorageClass : string;
  Tgt_Image : string; Tgt_Database : string; Tgt_RootPasswordKey : string;
  Tgt_RequestedBytes : Z; Tgt_Credentials : CredentialRef }.
Record Plan := {
  Binding : string; Tenant : string; Project : string; Environment : string;
  EnvironmentCreatedAt : Z;
  DomainPlanDigest : string; SecretMaterializationPlanDigest : string;
  PSource : Source; PTarget : Target;
  ConfigImage : string; DDLMode : string; QuiescenceRef : string;
  MaxBytes : Z; MaxStatementBytes : Z; MaxTables : Z; MaxRows : Z; Timeout : Z }.

#[export] Instance Ref_eq_dec : EqDecision Ref.
Proof. solve_decision. Defined.

Definition validRef (r : Ref) : bool :=
  match_string uidPattern (Ref_UID r)
  && match_string name (Ref_Namespace r) && (str_len (Ref_Namespace r) <=? 63)
  && match_string name (Ref_Name r) && (str_len (Ref_Name r) <=? 253).

Definition validCredentials (r : CredentialRef) : bool :=
  match_string secretKey (Cred_PasswordKey r)
  && ((match_string identifier (Cred_Username r) && bool_decide (Cred_UsernameKey r = ""))
      || (bool_decide (Cred_Username r = "") && match_string secretKey (Cred_UsernameKey r))).

(** [Plan.Validate]; every refusal is [ErrUnsafe]. *)
Definition Validate (p : Plan) : result sql_error unit :=
  let s := PSource p in
  let t := PTarget p in
  refuse existsb (fun v => str_eq v "" || (256 <? str_len v))
    [Binding p; Tenant p; Project p; Environment p] with ErrUnsafe;;
  refuse existsb (fun r => negb (validRef r))
    [Src_PVC s; Src_StatefulSet s; Cred_Ref (Src_Credentials s); Cred_Ref (Tgt_Credentials t)]
    with ErrUnsafe;;
  refuse str_ne (Ref_Namespace (Src_PVC s)) (Ref_Namespace (Src_StatefulSet s))
    || str_ne (Ref_Namespace (Src_PVC s)) (Ref_Namespace (Cred_Ref (Src_Credentials s)))
    || str_eq (Ref_Namespace (Src_PVC s)) (Tgt_Namespace t)
    || str_ne (Ref_Namespace (Cred_Ref (Tgt_Credentials t))) (Tgt_Namespace t) with ErrUnsafe;;
  refuse existsb (fun v => negb (match_string name v) || (253 <? str_len v))
    [Tgt_Namespace t; Tgt_PVCName t; Tgt_StorageClass t; Src_Container s; Src_Service s]
    with ErrUnsafe;;
  refuse negb (match_string uidPattern (Src_ServiceUID s))
    || (Src_Port s <? 1) || (65535 <? Src_Port s)
    || negb (match_string identifier (Src_Database s))
    || str_ne (Tgt_Database t) (Src_Database s) with ErrUnsafe;;
  refuse existsb (str_eq (to_lower (Src_Database s)))
    ["mysql"; "sys"; "information_schema"; "performance_schema"] with ErrUnsafe;;
  refuse negb (match_string image (Src_Image s)) || str_ne (Tgt_Image t) (Src_Image s)
    || negb (match_string image (ConfigImage p)) with ErrUnsafe;;
  refuse negb (validCredentials (Src_Credentials s))
    || negb (validCredentials (Tgt_Credentials t)) with ErrUnsafe;;
  refuse negb (match_string secretKey (Tgt_RootPasswordKey t))
    || str_eq (Tgt_RootPasswordKey t) (Cred_PasswordKey (Tgt_Credentials t)) with ErrUnsafe;;
  refuse negb (validRef (Src_TLSCASecret s))
    || str_ne (Ref_Namespace (Src_TLSCASecret s)) (Ref_Namespace (Src_PVC s))
    || negb (match_string secretKey (Src_TLSCAKey s)) with ErrUnsafe;;
  let dns := Src_Service s ++ "." ++ Ref_Namespace (Src_PVC s) ++ ".svc" in
  refuse str_ne (Src_TLSServerName s) dns
    && str_ne (Src_TLSServerName s) (dns ++ ".cluster.local") with ErrUnsafe;;
  refuse equal_fold (Cred_Username (Src_Credentials s)) "root"
    || equal_fold (Cred_Username (Tgt_Credentials t)) "root" with ErrUnsafe;;
  refuse (EnvironmentCreatedAt p =? 0)
    || negb (match_string contractDigest (DomainPlanDigest p))
    || negb (match_string contractDigest (SecretMaterializationPlanDigest p)) with ErrUnsafe;;
  refuse (if str_eq (DDLMode p) "backup_lock" then
       negb (validRef (Cred_Ref (Src_BackupAdminSecretRef s)))
       || negb (validCredentials (Src_BackupAdminSecretRef s))
       || str_ne (Ref_Namespace (Cred_Ref (Src_BackupAdminSecretRef s))) (Ref_Namespace (Src_PVC s))
       || bool_decide (Cred_Ref (Src_BackupAdminSecretRef s) = Cred_Ref (Src_Credentials s))
     else if str_eq (DDLMode p) "quiescence" then
       str_eq (QuiescenceRef p) "" || (256 <? str_len (QuiescenceRef p))
     else true) with ErrUnsafe;;
  refuse (MaxBytes p <=? 0) || (Z.shiftl 1 40 <? MaxBytes p)
    || (MaxStatementBytes p <? 1024) || (Z.shiftl 16 20 <? MaxStatementBytes p)
    || (MaxTables p <? 1) || (1000 <? MaxTables p)
    || (MaxRows p <? 1) || (100000000 <? MaxRows p)
    || (Timeout p <=? 0) || (seconds (6 * 3600) <? Timeout p)
    || (Tgt_RequestedBytes t <? MaxBytes p) || (Z.shiftl 1 40 <? Tgt_RequestedBytes t)
    with ErrUnsafe;;
  Ok tt.

(** ** A plan that validates, for the witnesses of this library *)

Definition zeros64 : string :=
  "0000000000000000000000000000000000000000000000000000000000000000".
Definition sample_ref (ns n : string) : Ref :=
  {| Ref_Namespace := ns; Ref_Name := n; Ref_UID := "uid-1" |}.
Definition sample_credentials (ns n : string) : CredentialRef :=
  {| Cred_Ref := sample_ref ns n; Cred_Username := "app"; Cred_UsernameKey := "";
     Cred_PasswordKey := "password" |}.
Definition sample_image : string := "mysql@sha256:" ++ zeros64.
Definition sample_runner : string := "ghcr.io/envplane/runner@sha256:" ++ zeros64.
Definition sample_plan : Plan :=
  {| Binding := "r/b"; Tenant := "t"; Project := "p"; Environment := "e";
     EnvironmentCreatedAt := 1;
     DomainPlanDigest := "sha256:" ++ zeros64;
     SecretMaterializationPlanDigest := "sha256:" ++ zeros64;
     PSource :=
       {| Src_PVC := sample_ref "prod" "data"; Src_StatefulSet := sample_ref "prod" "db";
          Src_Container := "mysql"; Src_Image := sample_image; Src_Service := "db";
          Src_ServiceUID := "uid-2"; Src_Database := "shop"; Src_Port := 3306;
          Src_Credentials := sample_credentials "prod" "db";
          Src_BackupAdminSecretRef := sample_credentials "prod" "admin";
          Src_TLSCASecret := sample_ref "prod" "ca"; Src_TLSCAKey := "ca.crt";
          Src_TLSServerName := "db.prod.svc" |};
     PTarget :=
       {| Tgt_Namespace := "env-1"; Tgt_PVCName := "data"; Tgt_StorageClass := "fast";
          Tgt_Image := sample_image; Tgt_Database := "shop"; Tgt_RootPasswordKey := "MYSQL_ROOT_PASSWORD";
          Tgt_RequestedBytes := 10000; Tgt_Credentials := sample_credentials "env-1" "db" |};
     ConfigImage := sample_runner; DDLMode := "backup_lock"; QuiescenceRef := "";
     MaxBytes := 10000; MaxStatementBytes := 2000; MaxTables := 10; MaxRows := 10;
     Timeout := seconds 60 |}.

Lemma sample_plan_valid : Validate sample_plan = Ok tt.
Proof. vm_compute. reflexivity. Qed.

(** The limits of a validated plan. *)
Lemma Validate_limits p : Validate p = Ok tt ->
  1 <= MaxBytes p <= 2 ^ 40 /\ 1024 <= MaxStatementBytes p <= 2 ^ 24
  /\ 1 <= MaxTables p <= 1000 /\ 1 <= MaxRows p <= 100000000
  /\ 0 < Timeout p <= seconds 21600 /\ MaxBytes p <= Tgt_RequestedBytes (PTarget p) <= 2 ^ 40.
Proof.
  unfold Validate. cbv zeta. rewrite !refuse_ok.
  intros (_ & _ & _ & _ & _ & _ & _ & _ & _ & _ & _ & _ & _ & _ & Hl & _).
  change (Z.shiftl 1 40) with (2 ^ 40) in Hl. change (Z.shiftl 16 20) with (2 ^ 24) in Hl.
  rewrite !orb_false_iff in Hl. go_bool. change (6 * 3600) with 21600 in Hl. lia.
Qed.
