(* ===== verification/SqlStream.v ===== *)
(** * The validated SQL stream of a MySQL copy

    [internal/mysqlcopy/stream.go], [reader.go], [schema.go], [catalog.go]: the
    statement tracker, the reader that forwards whole validated statements
    only, the schema normal form and the catalog authority check. *)

From stdpp Require Import base list gmap strings sorting.
From Stdlib Require Import ZArith Lia Ascii String.
From S2P Require Import Prelude GoStrings Regex SqlPlan.

Local Open Scope string_scope.
Local Open Scope Z_scope.
Local Open Scope list_scope.

(** ** Quoting

    The quote byte and the escape flag that [tracker.Write],
    [singleValuesTuple], [normalizeSchema] and [validatedSQLReader.Read] keep;
    the second component says that the byte is outside every quotation. *)
Record quoting := { q_quote : option ascii; q_escape : bool }.
Definition unquoted : quoting := {| q_quote := None; q_escape := false |}.

Definition squote : ascii := byte_of 39.
Definition dquote : ascii := byte_of 34.
Definition bquote : ascii := byte_of 96.
Definition backslash : ascii := byte_of 92.
Definition semicolon : ascii := byte_of 59.
Definition lparen : ascii := byte_of 40.
Definition rparen : ascii := byte_of 41.
Definition blank_char : ascii := byte_of 32.
Definition tick : string := String bquote "".

Definition quote_step (q : quoting) (c : ascii) : quoting * bool :=
  if q_escape q then ({| q_quote := q_quote q; q_escape := false |}, false)
  else match q_quote q with
       | Some b =>
           if char_eq c backslash then ({| q_quote := Some b; q_escape := true |}, false)
           else if char_eq c b then (unquoted, false)
           else (q, false)
       | None =>
           if char_eq c squote || char_eq c dquote || char_eq c bquote
           then ({| q_quote := Some c; q_escape := false |}, false)
           else (q, true)
       end.

(** ** Schema normal form *)

Definition auto_increment : bytes := chars "AUTO_INCREMENT=".

Fixpoint take_while (f : ascii -> bool) (l : bytes) : bytes :=
  match l with c :: l' => if f c then c :: take_while f l' else [] | [] => [] end.

(** The loop of [normalizeSchema] at index [length before]; [before] holds the
    bytes already passed, last first. *)
Fixpoint normalize_from (q : quoting) (depth : Z) (before l : bytes) : bytes :=
  match l with
  | [] => rev before
  | c :: l' =>
      let '(q', plain) := quote_step q c in
      if negb plain then normalize_from q' depth (c :: before) l'
      else if char_eq c lparen then normalize_from q' (depth + 1) (c :: before) l'
      else if char_eq c rparen then normalize_from q' (depth - 1) (c :: before) l'
      else
        let continue := normalize_from q' depth (c :: before) l' in
        match before with
        | b :: before' =>
            if negb (depth =? 0) || negb (char_eq b blank_char)
               || negb (prefix_of auto_increment l)
            then continue
            else
              let rest := skipn (List.length auto_increment) l in
              let tail := drop_while is_digit rest in
              if match take_while is_digit rest with [] => true | _ => false end
                 || match tail with
                    | d :: _ => negb (char_eq d blank_char) && negb (char_eq d semicolon)
                    | [] => false
                    end
              then continue
              else rev before' ++ tail
        | [] => continue
        end
  end.
Definition normalizeSchema (s : bytes) : bytes := normalize_from unquoted 0 [] s.

(** ** One INSERT row *)

Fixpoint tuple_from (q : quoting) (depth : Z) (l : bytes) : bool :=
  match l with
  | [] => false
  | c :: l' =>
      let '(q', plain) := quote_step q c in
      if negb plain then tuple_from q' depth l'
      else if char_eq c lparen then tuple_from q' (depth + 1) l'
      else if char_eq c rparen then
        if depth - 1 =? 0 then bool_decide (trim_bytes l' = [semicolon])
        else if depth - 1 <? 0 then false
        else tuple_from q' (depth - 1) l'
      else tuple_from q' depth l'
  end.
Definition singleValuesTuple (s : bytes) : bool := tuple_from unquoted 0 s.

(** ** Statements *)

(** [^/\*![0-9]{5} SET (?:@saved_cs_client\s+=\s+@@character_set_client|
    character_set_client\s+=\s+(?:utf8mb4|@saved_cs_client)) \*/;$] *)
Definition re_space (c : ascii) : bool := one_of " " c || between 9 10 c || between 12 13 c.
Definition spaces : re := plus (RChr re_space).
Definition sessionSet : re :=
  RSeq (lit (chars "/*!")) (RSeq (times 5 (RChr is_digit)) (RSeq (lit (chars " SET "))
    (RSeq
      (RAlt
        (RSeq (lit (chars "@saved_cs_client")) (RSeq spaces (RSeq (lit (chars "="))
          (RSeq spaces (lit (chars "@@character_set_client"))))))
        (RSeq (lit (chars "character_set_client")) (RSeq spaces (RSeq (lit (chars "="))
          (RSeq spaces (RAlt (lit (chars "utf8mb4")) (lit (chars "@saved_cs_client"))))))))
      (lit (chars " */;"))))).

(** [^<keyword> `([A-Za-z][A-Za-z0-9_]{0,63})` ]: the captured name. *)
Definition quoted_name (keyword s : bytes) : option string :=
  if prefix_of (keyword ++ [bquote]) s then
    let rest := skipn (List.length (keyword ++ [bquote])) s in
    let n := take_while ident_char rest in
    if match_bytes identifier n
       && prefix_of [bquote; blank_char] (skipn (List.length n) rest)
    then Some (text n) else None
  else None.
Definition createTable : bytes -> option string := quoted_name (chars "CREATE TABLE ").
Definition insertTable : bytes -> option string := quoted_name (chars "INSERT INTO ").

Record tableTrack := { tt_schema : string; tt_rows : Z; tt_hash : bytes }.
Record tracker := {
  t_plan : Plan;
  t_bytes : Z;
  t_hash : bytes;
  t_pending : bytes;
  t_quote : quoting;
  t_tables : gmap string tableTrack;
  t_rows : Z;
  t_failed : bool }.

Definition newTracker (p : Plan) : tracker :=
  {| t_plan := p; t_bytes := 0; t_hash := []; t_pending := []; t_quote := unquoted;
     t_tables := ∅; t_rows := 0; t_failed := false |}.

Record TableProof := {
  TP_Name : string; TP_Rows : Z; TP_SchemaSHA256 : string; TP_RowsSHA256 : string }.
Record Proof := { Pr_Bytes : Z; Pr_SHA256 : string; Pr_Tables : list TableProof }.
#[export] Instance TableProof_eq_dec : EqDecision TableProof.
Proof. solve_decision. Defined.

Definition forbidden_in_create : list string :=
  ["DATA DIRECTORY"; "INDEX DIRECTORY"; "TABLESPACE"; "DEFINER"; "SELECT "; "/*"].

Definition engine_allowed (p : Plan) (u : string) : bool :=
  contains u "ENGINE=INNODB"
  || (str_eq (DDLMode p) "quiescence"
      && (contains u "ENGINE=MYISAM" || contains u "ENGINE=MEMORY")).

Section Tracker.
Context `{Sha256}.

Definition set_tables (t : tracker) (m : gmap string tableTrack) (rows : Z) : tracker :=
  {| t_plan := t_plan t; t_bytes := t_bytes t; t_hash := t_hash t;
     t_pending := t_pending t; t_quote := t_quote t;
     t_tables := m; t_rows := rows; t_failed := t_failed t |}.

(** [tracker.statement] *)
Definition statement (t : tracker) (raw : bytes) : result sql_error tracker :=
  let s := trim_bytes raw in
  if prefix_of (chars "/*!") s then
    if match_bytes sessionSet s then Ok t else Err ErrUnsafe
  else
  match createTable s with
  | Some n =>
      refuse (MaxTables (t_plan t) <=? Z.of_nat (size (t_tables t)))
        || bool_decide (is_Some (t_tables t !! n)) with ErrUnsafe;;
      let u := to_upper (text s) in
      refuse existsb (contains u) forbidden_in_create with ErrUnsafe;;
      refuse negb (engine_allowed (t_plan t) u) with ErrUnsafe;;
      Ok (set_tables t
            (<[n := {| tt_schema := sha256_hex (normalizeSchema s); tt_rows := 0;
                       tt_hash := [] |}]> (t_tables t)) (t_rows t))
  | None =>
  match insertTable s with
  | Some n =>
      match t_tables t !! n with
      | None => Err ErrUnsafe
      | Some v =>
          refuse MaxRows (t_plan t) <=? t_rows t with ErrUnsafe;;
          match cut_bytes (chars " VALUES (") s with
          | None => Err ErrUnsafe
          | Some (_, rest) =>
              refuse negb (singleValuesTuple (lparen :: rest)) with ErrUnsafe;;
              Ok (set_tables t
                    (<[n := {| tt_schema := tt_schema v; tt_rows := tt_rows v + 1;
                               tt_hash := tt_hash v ++ s |}]> (t_tables t))
                    (t_rows t + 1))
          end
      end
  | None => Err ErrUnsafe
  end
  end.

Definition set_scan (t : tracker) (pending : bytes) (q : quoting) : tracker :=
  {| t_plan := t_plan t; t_bytes := t_bytes t; t_hash := t_hash t;
     t_pending := pending; t_quote := q;
     t_tables := t_tables t; t_rows := t_rows t; t_failed := t_failed t |}.
Definition fail (t : tracker) : tracker :=
  {| t_plan := t_plan t; t_bytes := t_bytes t; t_hash := t_hash t;
     t_pending := t_pending t; t_quote := t_quote t;
     t_tables := t_tables t; t_rows := t_rows t; t_failed := true |}.
Definition count (t : tracker) (b : bytes) : tracker :=
  {| t_plan := t_plan t; t_bytes := t_bytes t + Z.of_nat (List.length b);
     t_hash := t_hash t ++ b;
     t_pending := t_pending t; t_quote := t_quote t;
     t_tables := t_tables t; t_rows := t_rows t; t_failed := t_failed t |}.

(** The body of the loop of [tracker.Write]: the tracker after byte [c], and
    whether the loop goes on. *)
Definition write_byte (t : tracker) (c : ascii) : tracker * bool :=
  if MaxStatementBytes (t_plan t) <=? Z.of_nat (List.length (t_pending t))
  then (fail t, false)
  else
    let pending := t_pending t ++ [c] in
    let '(q, plain) := quote_step (t_quote t) c in
    let t1 := set_scan t pending q in
    if plain && char_eq c semicolon then
      match statement t1 pending with
      | Ok t2 => (set_scan t2 [] q, true)
      | Err _ => (fail t1, false)
      end
    else (t1, true).

Fixpoint write_bytes (t : tracker) (b : bytes) : tracker * bool :=
  match b with
  | [] => (t, true)
  | c :: b' =>
      let '(t', go) := write_byte t c in
      if go then write_bytes t' b' else (t', false)
  end.

(** [tracker.Write]: the tracker afterwards and the error, if any. *)
Definition Write (t : tracker) (b : bytes) : tracker * option sql_error :=
  if t_failed t || (MaxBytes (t_plan t) - t_bytes t <? Z.of_nat (List.length b))
  then (fail t, Some ErrUnsafe)
  else
    let '(t', go) := write_bytes t b in
    if go then (count t' b, None) else (t', Some ErrUnsafe).

Definition str_le (a b : string) : Prop := String.leb a b = true.
#[global] Instance str_le_dec a b : Decision (str_le a b).
Proof. unfold str_le. apply _. Defined.

(** [tracker.Finish] *)
Definition Finish (t : tracker) : result sql_error Proof :=
  refuse t_failed t || bool_decide (is_Some (q_quote (t_quote t)))
    || negb (bool_decide (trim_bytes (t_pending t) = []))
    || bool_decide (t_tables t = ∅) with ErrUnsafe;;
  let names := merge_sort str_le (map fst (map_to_list (t_tables t))) in
  Ok {| Pr_Bytes := t_bytes t;
        Pr_SHA256 := sha256_hex (t_hash t);
        Pr_Tables := omap (fun n =>
          v ← t_tables t !! n;
          Some {| TP_Name := n; TP_Rows := tt_rows v; TP_SchemaSHA256 := tt_schema v;
                  TP_RowsSHA256 := sha256_hex (tt_hash v) |}) names |}.
End Tracker.

(** ** The validated reader *)

Inductive read_error : Type := EOF | Failed (e : sql_error).

Record reader := {
  v_input : bytes;                (** what the pipe will still deliver *)
  v_end : option sql_error;       (** how the pipe ends: [None] is [io.EOF] *)
  v_tracker : tracker;
  v_ready : bytes;                (** the validated statement being forwarded *)
  v_done : bool }.

Definition validateReader (input : bytes) (ending : option sql_error) (t : tracker) : reader :=
  {| v_input := input; v_end := ending; v_tracker := t; v_ready := []; v_done := false |}.

Definition exhausted (v : reader) : bool := v_done v && bool_decide (v_ready v = []).

Inductive scanned : Type :=
| Complete (statement rest : bytes)
| Ended (statement : bytes)
| Refused (rest : bytes).

(** The loop of [Read] up to the next unquoted semicolon. *)
Fixpoint scan_statement (p : Plan) (used : Z) (stmt : bytes) (q : quoting) (input : bytes)
    : scanned :=
  match input with
  | [] => Ended stmt
  | c :: input' =>
      let n := Z.of_nat (List.length stmt) in
      if (MaxStatementBytes p <=? n) || (MaxBytes p - used <=? n) then Refused input'
      else
        let '(q', plain) := quote_step q c in
        if plain && char_eq c semicolon then Complete (stmt ++ [c]) input'
        else scan_statement p used (stmt ++ [c]) q' input'
  end.

Section Reader.
Context `{Sha256}.

Definition set_reader (v : reader) (input : bytes) (t : tracker) (ready : bytes)
    (done : bool) : reader :=
  {| v_input := input; v_end := v_end v; v_tracker := t; v_ready := ready; v_done := done |}.

(** [bytes.Reader.Read] of at most [n] bytes of a nonempty statement. *)
Definition serve (v : reader) (n : nat) : bytes * option read_error * reader :=
  (firstn n (v_ready v), None,
   set_reader v (v_input v) (v_tracker v) (skipn n (v_ready v)) (v_done v)).

(** [validatedSQLReader.Read] with a buffer of [n] bytes. *)
Definition Read (v : reader) (n : nat) : bytes * option read_error * reader :=
  if (n =? 0)%nat then ([], None, v)
  else if negb (bool_decide (v_ready v = [])) then serve v n
  else if v_done v then ([], Some EOF, v)
  else
    let t := v_tracker v in
    match scan_statement (t_plan t) (t_bytes t) [] unquoted (v_input v) with
    | Refused rest => ([], Some (Failed ErrUnsafe), set_reader v rest t [] false)
    | Complete stmt rest =>
        let '(t', err) := Write t stmt in
        match err with
        | Some e => ([], Some (Failed e), set_reader v rest t' [] false)
        | None => serve (set_reader v rest t' stmt false) n
        end
    | Ended stmt =>
        match v_end v with
        | Some e => ([], Some (Failed e), set_reader v [] t [] false)
        | None =>
            let '(t', err) := match stmt with [] => (t, None) | _ => Write t stmt end in
            match err with
            | Some e => ([], Some (Failed e), set_reader v [] t' [] true)
            | None =>
                match Finish t' with
                | Err e => ([], Some (Failed e), set_reader v [] t' [] true)
                | Ok _ =>
                    match stmt with
                    | [] => ([], Some EOF, set_reader v [] t' [] true)
                    | _ => serve (set_reader v [] t' stmt true) n
                    end
                end
            end
        end
    end.

(** A client that reads with buffers of the given sizes until an error. *)
Fixpoint reads (v : reader) (sizes : list nat) : bytes * option read_error * reader :=
  match sizes with
  | [] => ([], None, v)
  | n :: sizes' =>
      match Read v n with
      | (out, Some e, v') => (out, Some e, v')
      | (out, None, v') =>
          let '(out', e, v'') := reads v' sizes' in (out ++ out', e, v'')
      end
  end.
End Reader.

(** ** Catalog authority *)

Definition grant_line (db line : string) : option (bool * list string) :=
  if negb (has_prefix line "GRANT ") then None else
  match split2 " ON " (trim_prefix line "GRANT ") with
  | None => None
  | Some (privs, target) =>
      match split2 " TO " target with
      | None => None
      | Some (scope, _) =>
          let global := str_eq scope "*.*" in
          if negb global && str_ne scope (tick +:+ db +:+ tick +:+ ".*") then None
          else Some (global, map trim_space (split_on "," privs))
      end
  end.

Definition grant_priv (global : bool) (st : gset string * bool) (priv : string)
    : gset string * bool :=
  let '(permissions, routine) := st in
  if str_eq priv "ALL PRIVILEGES" then
    (permissions ∪ {["SELECT"; "SHOW VIEW"; "TRIGGER"; "EVENT"]}, routine || global)
  else (permissions ∪ {[priv]}, routine || (global && str_eq priv "SHOW_ROUTINE")).

Definition catalogAuthority (db grants : string) : bool :=
  let '(permissions, routine) :=
    fold_left (fun st line =>
      match grant_line db line with
      | None => st
      | Some (global, privs) => fold_left (grant_priv global) privs st
      end) (split_on (byte_of 10) grants) (∅, false) in
  routine && forallb (fun k => bool_decide (k ∈ permissions))
    ["SELECT"; "SHOW VIEW"; "TRIGGER"; "EVENT"].

(** ** Lemmas on the tracker *)

(** Follow every branch of [statement] without evaluating its conditions. *)
Ltac branch :=
  match goal with
  | |- context [if ?b then _ else _] => destruct b
  | |- context [match ?x with Some _ => _ | None => _ end] => destruct x
  | |- context [let (_, _) := ?p in _] => destruct p
  end.
Ltac statement_cases :=
  unfold statement;
  cbn [t_plan t_bytes t_hash t_pending t_quote t_tables t_rows t_failed
       count set_scan set_tables];
  cbv zeta; repeat (branch; try reflexivity).

Section TrackerLemmas.
Context `{Sha256}.

Lemma statement_count t a raw :
  statement (count t a) raw =
  match statement t raw with Ok t' => Ok (count t' a) | Err e => Err e end.
Proof. statement_cases. Qed.

Lemma statement_scan t p q raw :
  statement (set_scan t p q) raw =
  match statement t raw with Ok t' => Ok (set_scan t' p q) | Err e => Err e end.
Proof. statement_cases. Qed.

Lemma write_byte_count t a c :
  write_byte (count t a) c = ((count (write_byte t c).1 a), (write_byte t c).2).
Proof.
  unfold write_byte. simpl. case_match; [done|].
  destruct (quote_step (t_quote t) c) as [q plain].
  destruct (plain && char_eq c semicolon); [|done].
  change (set_scan (count t a) (t_pending t ++ [c]) q)
    with (count (set_scan t (t_pending t ++ [c]) q) a).
  rewrite statement_count. by destruct (statement _ _).
Qed.

Lemma write_bytes_count t a b :
  write_bytes (count t a) b = ((count (write_bytes t b).1 a), (write_bytes t b).2).
Proof.
  revert t. induction b as [|c b IH]; intros t; [done|]. cbn [write_bytes].
  rewrite write_byte_count. destruct (write_byte t c) as [t' []]; simpl; [apply IH|done].
Qed.

Lemma write_bytes_app t a b :
  write_bytes t (a ++ b) =
  (let '(t', go) := write_bytes t a in if go then write_bytes t' b else (t', false)).
Proof.
  revert t. induction a as [|c a IH]; intros t; simpl.
  - by destruct (write_bytes t b) as [? []].
  - destruct (write_byte t c) as [t' []]; [apply IH|done].
Qed.

Lemma count_app t a b : count (count t a) b = count t (a ++ b).
Proof.
  unfold count. simpl. rewrite length_app, Nat2Z.inj_add, Z.add_assoc, app_assoc. done.
Qed.

Lemma statement_keeps t raw t' :
  statement t raw = Ok t' ->
  t_plan t' = t_plan t /\ t_bytes t' = t_bytes t /\ t_hash t' = t_hash t
  /\ t_pending t' = t_pending t /\ t_quote t' = t_quote t /\ t_failed t' = t_failed t.
Proof. unfold statement. intros Hs. repeat case_match; simplify_eq; done. Qed.

Lemma write_byte_keeps t c t' b :
  write_byte t c = (t', b) ->
  t_plan t' = t_plan t /\ t_bytes t' = t_bytes t /\ t_hash t' = t_hash t
  /\ (b = true -> t_failed t' = t_failed t).
Proof.
  unfold write_byte. intros Hw. case_match; simplify_eq; [done|].
  destruct (quote_step _ _) as [q plain].
  destruct (plain && _); simplify_eq; [|done].
  case_match; simplify_eq; simpl; [|done].
  match goal with E : statement _ _ = Ok _ |- _ => apply statement_keeps in E end.
  simpl in *. naive_solver.
Qed.

Lemma write_bytes_keeps t b t' go :
  write_bytes t b = (t', go) ->
  t_plan t' = t_plan t /\ t_bytes t' = t_bytes t /\ t_hash t' = t_hash t
  /\ (go = true -> t_failed t' = t_failed t).
Proof.
  revert t. induction b as [|c b IH]; intros t; simpl; [by intros [= <- <-]|].
  destruct (write_byte t c) as [t1 []] eqn:E; apply write_byte_keeps in E.
  - intros Hw%IH. naive_solver congruence.
  - intros [= <- <-]. naive_solver.
Qed.

Lemma Write_ok t b t' :
  Write t b = (t', None) <->
  t_failed t = false /\ Z.of_nat (List.length b) <= MaxBytes (t_plan t) - t_bytes t
  /\ exists t1, write_bytes t b = (t1, true) /\ t' = count t1 b.
Proof.
  unfold Write. destruct (t_failed t) eqn:Ef; simpl; [naive_solver|].
  destruct (MaxBytes (t_plan t) - t_bytes t <? Z.of_nat (List.length b)) eqn:E;
    go_bool; [naive_solver lia|].
  destruct (write_bytes t b) as [t1 []]; naive_solver.
Qed.

(** Writing in pieces is writing at once. *)
Lemma Write_app t a b t' :
  Write t (a ++ b) = (t', None) <->
  exists t1, Write t a = (t1, None) /\ Write t1 b = (t', None).
Proof.
  setoid_rewrite Write_ok. split.
  - intros (Hf & Hl & t1 & Hw & ->). rewrite write_bytes_app in Hw.
    destruct (write_bytes t a) as [ta []] eqn:Ea; [|done].
    pose proof (write_bytes_keeps _ _ _ _ Ea) as (Hp & Hb & _ & Hfa).
    rewrite length_app in Hl. exists (count ta a).
    split; [split_and!; [done|lia|by exists ta]|].
    simpl. rewrite Hp, Hb, Hfa by done. split_and!; [done|lia|].
    exists (count t1 a). rewrite write_bytes_count, Hw. simpl.
    by rewrite count_app.
  - intros (t1 & (Hf & Hl & ta & Ea & ->) & Hf' & Hl' & t2 & Hw & ->).
    pose proof (write_bytes_keeps _ _ _ _ Ea) as (Hp & Hb & _ & Hfa).
    simpl in Hf', Hl'. rewrite Hp, Hb in Hl'. rewrite length_app.
    split_and!; [done|lia|]. rewrite write_bytes_app, Ea.
    rewrite write_bytes_count in Hw. destruct (write_bytes ta b) as [t3 []]; simplify_eq/=.
    exists t3. by rewrite count_app.
Qed.
End TrackerLemmas.

(** ** Chunks and bounds *)

Section Chunks.
Context `{Sha256}.

(** The tracker after a sequence of writes, whatever they return. *)
Definition writes (t : tracker) (chunks : list bytes) : tracker :=
  fold_left (fun t b => (Write t b).1) chunks t.

Lemma Write_refused t b t' e : Write t b = (t', Some e) -> t_failed t' = true.
Proof.
  unfold Write. case_match; [by intros [= <- _]|].
  destruct (write_bytes t b) as [t1 []] eqn:E; [done|]. intros [= <- _].
  clear -E. revert t E. induction b as [|c b IH]; intros t; [done|]. cbn [write_bytes].
  destruct (write_byte t c) as [t2 []] eqn:E; [apply IH|]. intros [= <-].
  unfold write_byte in E. case_match; [by simplify_eq|].
  destruct (quote_step _ _) as [q plain]. destruct (plain && _); [|done].
  destruct (statement _ _); by simplify_eq.
Qed.

Lemma writes_failed chunks t : t_failed t = true -> t_failed (writes t chunks) = true.
Proof.
  revert t. induction chunks as [|b chunks IH]; intros t Ht; [done|]. apply IH.
  unfold Write. by rewrite Ht.
Qed.

Lemma Write_live t b t' : Write t b = (t', None) -> t_failed t = false /\ t_failed t' = false.
Proof.
  rewrite Write_ok. intros (Hf & _ & t1 & Hw & ->). simpl.
  apply write_bytes_keeps in Hw as (_ & _ & _ & Hl). by rewrite Hl.
Qed.

Lemma Write_nil t : t_failed t = false -> t_bytes t <= MaxBytes (t_plan t) ->
  Write t [] = (t, None).
Proof.
  intros Hf Hb. apply Write_ok. simpl. split_and!; [done|lia|]. exists t. split; [done|].
  destruct t; unfold count; simpl. by rewrite app_nil_r, Z.add_0_r.
Qed.

Lemma Write_room t b t' : Write t b = (t', None) ->
  t_bytes t' <= MaxBytes (t_plan t') /\ t_plan t' = t_plan t.
Proof.
  rewrite Write_ok. intros (_ & Hl & t1 & Hw & ->).
  apply write_bytes_keeps in Hw as (Hp & Hb & _). simpl. rewrite Hp, Hb. split; [lia|done].
Qed.

(** The bounds of the plan, as an invariant of a tracker. *)
Definition row_total (m : gmap string tableTrack) : Z :=
  map_fold (fun _ v n => tt_rows v + n) 0 m.
Record within (t : tracker) : Prop := {
  in_bytes : t_bytes t = Z.of_nat (List.length (t_hash t));
  in_max : t_bytes t <= MaxBytes (t_plan t);
  in_pending : Z.of_nat (List.length (t_pending t)) <= MaxStatementBytes (t_plan t);
  in_tables : Z.of_nat (size (t_tables t)) <= MaxTables (t_plan t);
  in_rows : t_rows t <= MaxRows (t_plan t);
  in_total : t_rows t = row_total (t_tables t) }.

Lemma row_total_insert m n v : row_total (<[n := v]> m)
  = tt_rows v + row_total (delete n m).
Proof.
  unfold row_total. rewrite <- insert_delete_eq.
  rewrite (map_fold_insert_L (fun _ v k => tt_rows v + k)); [done|lia|].
  apply lookup_delete_eq.
Qed.
Lemma row_total_lookup m n v : m !! n = Some v ->
  row_total m = tt_rows v + row_total (delete n m).
Proof. intros Hv. by rewrite <- row_total_insert, insert_id. Qed.

Lemma statement_within t raw t' : within t -> statement t raw = Ok t' -> within t'.
Proof.
  intros [H1 H2 H3 H4 H5 H6]. unfold statement.
  destruct (prefix_of _ _).
  { destruct (match_bytes _ _); [|done]. by intros [= <-]. }
  destruct (createTable _) as [n|].
  - destruct (_ || _) eqn:Ec; [done|]. destruct (existsb _ _); [done|].
    destruct (negb _); [done|]. intros [= <-].
    apply orb_false_iff in Ec as [Ec Hn]. apply Z.leb_gt in Ec.
    apply bool_decide_eq_false in Hn. rewrite <- eq_None_not_Some in Hn.
    split; simpl; [done|done|done| |done|].
    + rewrite map_size_insert_None by done. lia.
    + by rewrite row_total_insert, delete_id.
  - destruct (insertTable _) as [n|]; [|done].
    destruct (t_tables t !! n) as [v|] eqn:Ev; [|done].
    destruct (MaxRows _ <=? _) eqn:Er; [done|]. apply Z.leb_gt in Er.
    destruct (cut_bytes _ _) as [[]|]; [|done].
    destruct (negb _); [done|]. intros [= <-].
    split; simpl; [done|done|done| |lia|].
    + by rewrite map_size_insert_Some by eauto.
    + rewrite row_total_insert, H6, (row_total_lookup _ _ _ Ev). simpl. lia.
Qed.

Lemma write_byte_within t c : 0 <= MaxStatementBytes (t_plan t) ->
  within t -> within (write_byte t c).1 /\ t_plan (write_byte t c).1 = t_plan t.
Proof.
  intros H0 Ht. unfold write_byte. destruct (_ <=? _) eqn:El; [by destruct Ht|].
  apply Z.leb_gt in El. destruct (quote_step _ _) as [q plain].
  assert (Hs : within (set_scan t (t_pending t ++ [c]) q)).
  { destruct Ht. split; simpl; try done. rewrite length_app. simpl. lia. }
  destruct (plain && _); [|done].
  destruct (statement _ _) as [t2|e] eqn:E; simpl; [|by destruct Hs].
  pose proof (statement_within _ _ _ Hs E) as [].
  apply statement_keeps in E as (Hp & _). simpl in Hp. split; [|done].
  split; simpl; try done. by rewrite Hp.
Qed.

Lemma write_bytes_within b t : 0 <= MaxStatementBytes (t_plan t) ->
  within t -> within (write_bytes t b).1 /\ t_plan (write_bytes t b).1 = t_plan t.
Proof.
  revert t. induction b as [|c b IH]; intros t H0 Ht; [done|]. cbn [write_bytes].
  pose proof (write_byte_within t c H0 Ht) as [Hw Hp].
  destruct (write_byte t c) as [t1 []]; simpl in *; [|done].
  rewrite <- Hp. apply IH; [by rewrite Hp|done].
Qed.

Lemma Write_within t b : 0 <= MaxStatementBytes (t_plan t) ->
  within t -> within (Write t b).1 /\ t_plan (Write t b).1 = t_plan t.
Proof.
  intros H0 Ht. unfold Write. destruct (_ || _) eqn:Eg; [by destruct Ht|].
  apply orb_false_iff in Eg as [_ Eg]. apply Z.ltb_ge in Eg.
  pose proof (write_bytes_within b t H0 Ht) as [[] Hp].
  destruct (write_bytes t b) as [t1 []] eqn:E; simpl in *; [|done].
  pose proof (write_bytes_keeps _ _ _ _ E) as (_ & Hb & _).
  split; [|done]. split; simpl; try done.
  - rewrite in_bytes0, length_app, Nat2Z.inj_add. done.
  - rewrite Hp, Hb. lia.
Qed.

Lemma writes_within chunks t : 0 <= MaxStatementBytes (t_plan t) ->
  within t -> within (writes t chunks) /\ t_plan (writes t chunks) = t_plan t.
Proof.
  revert t. induction chunks as [|b chunks IH]; intros t H0 Ht; [done|]. simpl.
  pose proof (Write_within t b H0 Ht) as [Hw Hp].
  rewrite <- Hp in H0. destruct (IH _ H0 Hw) as [? E]. split; [done|]. by rewrite E.
Qed.
End Chunks.

(** ** The reader forwards validated statements only *)

Section ReaderLemmas.
Context `{Sha256}.

Lemma scan_input p used stmt q input :
  match scan_statement p used stmt q input with
  | Complete s rest => exists m, s = stmt ++ m /\ input = m ++ rest
  | Ended s => s = stmt ++ input
  | Refused _ => True
  end.
Proof.
  revert stmt q. induction input as [|c input IH]; intros stmt q; simpl.
  { by rewrite app_nil_r. }
  destruct (_ || _); [done|]. destruct (quote_step q c) as [q' plain].
  destruct (plain && _); [by exists [c]|].
  specialize (IH (stmt ++ [c]) q'). destruct (scan_statement _ _ _ _ _); [| |done].
  - destruct IH as (m & -> & ->). exists (c :: m). by rewrite <- app_assoc.
  - by rewrite IH, <- app_assoc.
Qed.

Lemma quote_plain q c q' : quote_step q c = (q', true) -> q = unquoted /\ q' = unquoted.
Proof.
  unfold quote_step. destruct q as [[b|] []]; simpl; try done.
  - destruct (char_eq c backslash); [done|]. by destruct (char_eq c b).
  - destruct (_ || _ || _); [done|]. by intros [= <-].
Qed.

(** The reader and the tracker follow the same quotation: a complete
    statement of the reader ends one of the tracker. *)
Lemma scan_lockstep p used acc m q input rest t t' :
  scan_statement p used acc q input = Complete (acc ++ m) rest ->
  input = m ++ rest ->
  t_quote t = q -> write_bytes t m = (t', true) ->
  t_pending t' = [] /\ t_quote t' = unquoted.
Proof.
  revert acc m q t. induction input as [|c input IH]; intros acc m q t; simpl; [done|].
  destruct (_ || _); [done|]. destruct (quote_step q c) as [q' plain] eqn:Eq.
  destruct (plain && _) eqn:Es.
  - intros [= Em Er] _ <-. apply (inj (app acc)) in Em as <-. cbn [write_bytes].
    unfold write_byte. destruct (_ <=? _); [done|]. rewrite Eq, Es.
    destruct (statement _ _); [|done]. intros [= <-]. simpl. split; [done|].
    apply andb_true_iff in Es as [-> _]. by apply quote_plain in Eq as [_ ->].
  - intros Hc Hi <-. destruct m as [|c' m].
    { pose proof (scan_input p used (acc ++ [c]) q' input) as Hs. rewrite Hc in Hs.
      destruct Hs as (m & Hm & _). rewrite <- app_assoc in Hm.
      apply (inj (app acc)) in Hm. done. }
    injection Hi as <- Hi. cbn [write_bytes].
    destruct (write_byte t c) as [t1 go] eqn:Ew.
    destruct go; [|done].
    intros Hw. refine (IH (acc ++ [c]) m q' t1 _ Hi _ Hw).
    + by rewrite Hc, <- app_assoc.
    + unfold write_byte in Ew. destruct (_ <=? _); [done|]. rewrite Eq, Es in Ew.
      by simplify_eq.
Qed.

(** What the reader has forwarded ([out]) and is about to forward is what the
    tracker accepted, in whole statements. *)
Record forwards (p : Plan) (input : bytes) (out : bytes) (v : reader) : Prop := {
  fw_written : Write (newTracker p) (out ++ v_ready v) = (v_tracker v, None);
  fw_input : input = out ++ v_ready v ++ v_input v;
  fw_whole : trim_bytes (t_pending (v_tracker v)) = [] /\ q_quote (t_quote (v_tracker v)) = None;
  fw_next : v_done v = false ->
            t_pending (v_tracker v) = [] /\ t_quote (v_tracker v) = unquoted;
  fw_done : v_done v = true -> v_input v = [] /\ exists pr, Finish (v_tracker v) = Ok pr }.

Lemma forwards_start p input e : 0 <= MaxBytes p ->
  forwards p input [] (validateReader input e (newTracker p)).
Proof. intros Hp. split; simpl; try done. by rewrite Write_nil. Qed.

Lemma Finish_whole t pr : Finish t = Ok pr ->
  trim_bytes (t_pending t) = [] /\ q_quote (t_quote t) = None.
Proof.
  unfold Finish. destruct (_ || _) eqn:Ef; [done|]. intros _.
  apply orb_false_iff in Ef as [Ef _]. apply orb_false_iff in Ef as [Ef Et].
  apply orb_false_iff in Ef as [_ Eq].
  apply negb_false_iff, bool_decide_eq_true in Et.
  apply bool_decide_eq_false in Eq. by rewrite <- eq_None_not_Some in Eq.
Qed.

Lemma forwards_serve p input out v n o e v' :
  forwards p input out v -> serve v n = (o, e, v') ->
  e = None /\ forwards p input (out ++ o) v'.
Proof.
  intros [H1 H2 H3 H4 H5] [= <- <- <-]. split; [done|].
  split; simpl; try done.
  - by rewrite <- app_assoc, firstn_skipn.
  - by rewrite <- app_assoc, (app_assoc (firstn n _)), firstn_skipn.
Qed.

Lemma forwards_complete p input out v stmt rest t' n o e v' :
  forwards p input out v -> v_ready v = [] -> v_done v = false ->
  scan_statement (t_plan (v_tracker v)) (t_bytes (v_tracker v)) [] unquoted (v_input v)
    = Complete stmt rest ->
  Write (v_tracker v) stmt = (t', None) ->
  serve (set_reader v rest t' stmt false) n = (o, e, v') ->
  e = None /\ forwards p input (out ++ o) v'.
Proof.
  intros [H1 H2 H3 H4 H5] Hr Hd Hs Hw. apply forwards_serve.
  destruct (H4 Hd) as [Hp Hq].
  pose proof (scan_input (t_plan (v_tracker v)) (t_bytes (v_tracker v)) [] unquoted (v_input v))
    as Hi. rewrite Hs in Hi. destruct Hi as (m & Em & Hi). simpl in Em. subst m.
  rewrite Hr, app_nil_r in H1. rewrite Hr in H2. simpl in H2.
  assert (Hpq : t_pending t' = [] /\ t_quote t' = unquoted).
  { apply Write_ok in Hw as (_ & _ & t1 & Hw & ->). simpl.
    by apply (scan_lockstep _ _ [] stmt unquoted _ _ _ _ Hs Hi Hq). }
  destruct Hpq as [Hpe Hqu].
  split; simpl; try done.
  - apply Write_app. eauto.
  - by rewrite H2, Hi.
  - by rewrite Hpe, Hqu.
Qed.

Lemma forwards_read p input out v n o e v' :
  forwards p input out v -> Read v n = (o, e, v') ->
  match e with
  | None => forwards p input (out ++ o) v'
  | Some e => o = [] /\ v_ready v = []
              /\ (e = EOF -> v_input v = [] /\ forwards p input out v'
                             /\ v_ready v' = [] /\ v_done v' = true)
  end.
Proof.
  intros Hf. unfold Read. destruct (n =? 0)%nat.
  { intros [= <- <- <-]. by rewrite app_nil_r. }
  destruct (bool_decide (v_ready v = [])) eqn:Er; simpl; cycle 1.
  { intros Hs. by apply (forwards_serve _ _ _ _ _ _ _ _ Hf) in Hs as [-> ?]. }
  apply bool_decide_eq_true in Er.
  destruct (v_done v) eqn:Ed.
  { intros [= <- <- <-]. split_and!; [done|done|]. intros _.
    split_and!; [by apply (fw_done _ _ _ _ Hf)|done|done|done]. }
  destruct (scan_statement _ _ _ _ _) as [stmt rest|stmt|rest] eqn:Es.
  - destruct (Write _ stmt) as [t' [err|]] eqn:Ew; [by intros [= <- <- <-]|].
    intros Hs. by apply (forwards_complete _ _ _ _ _ _ _ _ _ _ _ Hf Er Ed Es Ew) in Hs as [-> ?].
  - destruct (v_end v); [by intros [= <- <- <-]|].
    pose proof (scan_input (t_plan (v_tracker v)) (t_bytes (v_tracker v)) [] unquoted (v_input v))
      as Hi. rewrite Es in Hi. simpl in Hi.
    pose proof Hf as [H1 H2 H3 H4 H5]. rewrite Er in H1, H2. rewrite app_nil_r in H1.
    simpl in H2. rewrite <- Hi in H2.
    assert (Hw : match stmt with [] => (v_tracker v, None) | _ :: _ => Write (v_tracker v) stmt end
            = Write (v_tracker v) stmt).
    { destruct stmt; [|done]. symmetry. pose proof (Write_live _ _ _ H1) as [_ ?].
      pose proof (Write_room _ _ _ H1) as [? _]. by apply Write_nil. }
    rewrite Hw. destruct (Write _ stmt) as [t' [err|]] eqn:Ew; [by intros [= <- <- <-]|].
    destruct (Finish t') as [pr|err] eqn:Efin; [|by intros [= <- <- <-]].
    pose proof (Finish_whole _ _ Efin) as Hwhole.
    assert (Hn : forwards p input out (set_reader v [] t' stmt true)).
    { split; simpl; [|by rewrite app_nil_r|done|done|by eauto].
      apply Write_app. eauto. }
    destruct stmt as [|c stmt].
    + intros [= <- <- <-]. split_and!; [done|done|]. intros _. by split_and!.
    + intros Hs. by apply (forwards_serve _ _ _ _ _ _ _ _ Hn) in Hs as [-> ?].
  - by intros [= <- <- <-].
Qed.

Lemma forwards_reads p input sizes out v o e v' :
  forwards p input out v -> reads v sizes = (o, e, v') ->
  exists w, forwards p input (out ++ o) w
            /\ match e with
               | None => w = v'
               | Some e => v_ready w = [] /\ (e = EOF -> w = v' /\ v_done w = true)
               end.
Proof.
  revert out v o. induction sizes as [|n sizes IH]; intros out v o Hf; simpl.
  { intros [= <- <- <-]. exists v. by rewrite app_nil_r. }
  destruct (Read v n) as [[o1 e1] v1] eqn:E. pose proof (forwards_read _ _ _ _ _ _ _ _ Hf E) as Hr.
  destruct e1 as [e1|].
  - intros [= <- <- <-]. destruct Hr as (-> & Hnil & Hend).
    destruct e1 as [|e1].
    + destruct (Hend eq_refl) as (_ & Hv & Hn & Hd). exists v1. by rewrite app_nil_r.
    + exists v. by rewrite app_nil_r.
  - destruct (reads v1 sizes) as [[o2 e2] v2] eqn:E2. intros [= <- <- <-].
    destruct (IH _ _ _ Hr E2) as (w & Hw & He). exists w. by rewrite app_assoc.
Qed.

(** An end the tracker refuses is an end without a proof. *)
Lemma Read_failed_done v n o e v' :
  Read v n = (o, Some (Failed e), v') -> v_done v' = true ->
  forall pr, Finish (v_tracker v') <> Ok pr.
Proof.
  unfold Read. destruct (n =? 0)%nat; [done|]. destruct (negb _); [done|].
  destruct (v_done v); [done|].
  destruct (scan_statement _ _ _ _ _) as [stmt rest|stmt|rest].
  - destruct (Write _ stmt) as [t' [err|]]; [|done]. by intros [= _ _ <-].
  - destruct (v_end v); [by intros [= _ _ <-]|].
    destruct stmt as [|c stmt].
    + destruct (Finish (v_tracker v)) eqn:Ef; [done|]. intros [= _ _ <-] _ pr. simpl. congruence.
    + destruct (Write _ _) as [t' [err|]] eqn:Ew.
      * intros [= _ _ <-] _ pr. simpl. apply Write_refused in Ew. unfold Finish. by rewrite Ew.
      * destruct (Finish t') eqn:Ef; [done|]. intros [= _ _ <-] _ pr. simpl. congruence.
  - by intros [= _ _ <-].
Qed.

Lemma reads_failed_done v sizes o e v' :
  reads v sizes = (o, Some (Failed e), v') -> v_done v' = true ->
  forall pr, Finish (v_tracker v') <> Ok pr.
Proof.
  revert v o. induction sizes as [|n sizes IH]; intros v o; simpl; [done|].
  destruct (Read v n) as [[o1 [e1|]] v1] eqn:E.
  - intros [= -> -> ->]. by apply (Read_failed_done _ _ _ _ _ E).
  - destruct (reads v1 sizes) as [[o2 e2] v2] eqn:E2. intros [= _ -> ->]. by apply (IH _ _ E2).
Qed.

(** However the client stopped reading: an exhausted reader whose tracker
    finishes has forwarded the whole input, all of it accepted. *)
Lemma exhausted_complete p input e sizes o err v pr : 0 <= MaxBytes p ->
  reads (validateReader input e (newTracker p)) sizes = (o, err, v) ->
  exhausted v = true -> Finish (v_tracker v) = Ok pr ->
  o = input /\ Write (newTracker p) input = (v_tracker v, None).
Proof.
  intros Hp Hr [Hd Hn]%andb_true_iff Hf. apply bool_decide_eq_true in Hn.
  destruct (forwards_reads _ _ _ _ _ _ _ _ (forwards_start p input e Hp) Hr) as (w & Hw & He).
  assert (w = v) as ->.
  { destruct err as [[|x]|]; [by apply He| |done].
    by destruct (reads_failed_done _ _ _ _ _ Hr Hd pr). }
  destruct Hw as [H1 H2 _ _ H5]. destruct (H5 Hd) as [Hi _].
  rewrite Hn, app_nil_r in H1. rewrite Hn, Hi, !app_nil_r in H2. by subst input.
Qed.
End ReaderLemmas.

(** ** Normal form of a schema *)

(** The quotation and the parenthesis depth after a prefix. *)
Fixpoint position (q : quoting) (depth : Z) (l : bytes) : quoting * Z :=
  match l with
  | [] => (q, depth)
  | c :: l' =>
      let '(q', plain) := quote_step q c in
      position q' (if negb plain then depth
                   else if char_eq c lparen then depth + 1
                   else if char_eq c rparen then depth - 1 else depth) l'
  end.

(** One [" AUTO_INCREMENT=<digits>"] of [s] is gone. *)
Definition drops_counter (s s' : bytes) : Prop :=
  exists a ds b, s = a ++ blank_char :: auto_increment ++ ds ++ b /\ s' = a ++ b
    /\ ds <> [] /\ forallb is_digit ds = true.

Lemma char_eq_eq a b : char_eq a b = true <-> a = b.
Proof. apply Ascii.eqb_eq. Qed.
Lemma prefix_of_app p l : prefix_of p l = true <-> l = p ++ skipn (List.length p) l.
Proof.
  revert l. induction p as [|a p IH]; intros l; simpl; [done|]. destruct l as [|b l]; [done|].
  rewrite andb_true_iff, char_eq_eq, IH. simpl. split.
  - by intros [<- <-].
  - by intros [= -> <-].
Qed.
Lemma take_drop_while f l : l = take_while f l ++ drop_while f l.
Proof. induction l as [|c l IH]; [done|]. simpl. destruct (f c); [|done]. simpl. by f_equal. Qed.
Lemma take_while_all f l : forallb f (take_while f l) = true.
Proof. induction l as [|c l IH]; [done|]. simpl. destruct (f c) eqn:E; [|done]. simpl. by rewrite E. Qed.

Lemma normalize_from_spec q depth before l :
  normalize_from q depth before l = rev before ++ l
  \/ drops_counter (rev before ++ l) (normalize_from q depth before l).
Proof.
  revert q depth before. induction l as [|c l IH]; intros q depth before; cbn [normalize_from].
  { left. by rewrite app_nil_r. }
  destruct (quote_step q c) as [q' plain].
  assert (Hgo : forall d, normalize_from q' d (c :: before) l = rev before ++ c :: l
    \/ drops_counter (rev before ++ c :: l) (normalize_from q' d (c :: before) l)).
  { intros d. specialize (IH q' d (c :: before)). simpl in IH. by rewrite <- app_assoc in IH. }
  destruct (negb plain); [apply Hgo|]. destruct (char_eq c lparen); [apply Hgo|].
  destruct (char_eq c rparen); [apply Hgo|]. cbv zeta.
  destruct before as [|b before]; [apply Hgo|].
  destruct (negb _ || _ || _) eqn:E1; [apply Hgo|].
  destruct (match take_while _ _ with [] => _ | _ => _ end || _) eqn:E2; [apply Hgo|].
  right. apply orb_false_iff in E1 as [E1 Ep]. apply orb_false_iff in E1 as [_ Eb].
  apply negb_false_iff in Ep, Eb. apply char_eq_eq in Eb as ->. apply prefix_of_app in Ep.
  apply orb_false_iff in E2 as [E2 _].
  set (rest := skipn (List.length auto_increment) (c :: l)) in *.
  exists (rev before), (take_while is_digit rest), (drop_while is_digit rest).
  split_and!.
  - rewrite <- take_drop_while, <- Ep. simpl. by rewrite <- app_assoc.
  - done.
  - intros E. by rewrite E in E2.
  - apply take_while_all.
Qed.

(** No occurrence of the counter's name starts within [pre]. *)
Definition quiet (pre m : bytes) : Prop :=
  forall a b, pre = a ++ b -> b <> [] -> prefix_of auto_increment (b ++ m) = false.

Lemma normalize_pass pre q depth before m :
  quiet pre m ->
  normalize_from q depth before (pre ++ m)
  = (let '(q', depth') := position q depth pre in normalize_from q' depth' (rev pre ++ before) m).
Proof.
  revert q depth before. induction pre as [|c pre IH]; intros q depth before Hq; [done|].
  assert (Hq' : quiet pre m).
  { intros a b ->. apply (Hq (c :: a)). done. }
  assert (Hp : prefix_of auto_increment (c :: pre ++ m) = false) by (apply (Hq [] (c :: pre)); done).
  assert (Hr : rev (c :: pre) ++ before = rev pre ++ c :: before) by (simpl; by rewrite <- app_assoc).
  rewrite Hr. cbn [app normalize_from position]. destruct (quote_step q c) as [q' plain].
  rewrite Hp, <- !(IH _ _ _ Hq').
  destruct (negb plain); [by rewrite IH|]. destruct (char_eq c lparen); [by rewrite IH|].
  destruct (char_eq c rparen); [by rewrite IH|]. cbv zeta.
  destruct before as [|b before]; [by rewrite IH|]. rewrite orb_true_r. by rewrite IH.
Qed.

Lemma prefix_of_no_cross p b c m :
  Forall (fun a => a <> c) p -> prefix_of p (b ++ c :: m) = true -> prefix_of p b = true.
Proof.
  intros Hp. revert b. induction Hp as [|a p Ha Hp IH]; intros b; [done|].
  destruct b as [|d b]; simpl; rewrite !andb_true_iff, char_eq_eq; [naive_solver|].
  intros [? ?%IH]. done.
Qed.

Lemma contains_app p a b : prefix_of p b = true -> contains_bytes p (a ++ b) = true.
Proof.
  intros Hp. induction a as [|c a IH]; simpl.
  - destruct b; simpl; by rewrite Hp.
  - by rewrite IH, orb_true_r.
Qed.

Lemma quiet_blank pre m :
  contains_bytes auto_increment pre = false -> quiet pre (blank_char :: m).
Proof.
  intros Hc a b -> _. apply not_true_is_false. intros Hp. apply prefix_of_no_cross in Hp.
  - by rewrite (contains_app _ a b Hp) in Hc.
  - repeat (constructor; [discriminate|]). constructor.
Qed.

Lemma take_while_digits ds post :
  forallb is_digit ds = true ->
  match post with d :: _ => is_digit d = false | [] => True end ->
  take_while is_digit (ds ++ post) = ds /\ drop_while is_digit (ds ++ post) = post.
Proof.
  intros Hd Hp. induction ds as [|c ds IH]; simpl in *.
  - destruct post as [|d post]; [done|]. simpl. by rewrite Hp.
  - apply andb_true_iff in Hd as [-> Hd]. destruct (IH Hd) as [-> ->]. done.
Qed.

Lemma prefix_of_refl p l : prefix_of p (p ++ l) = true.
Proof.
  apply prefix_of_app. f_equal. by rewrite skipn_app, skipn_all, Nat.sub_diag.
Qed.

(** The loop at a byte outside quotations that is no parenthesis. *)
Lemma normalize_plain depth before c l :
  quote_step unquoted c = (unquoted, true) -> char_eq c lparen = false ->
  char_eq c rparen = false ->
  normalize_from unquoted depth before (c :: l) =
  (let go := normalize_from unquoted depth (c :: before) l in
   match before with
   | b :: before' =>
       if negb (depth =? 0) || negb (char_eq b blank_char) || negb (prefix_of auto_increment (c :: l))
       then go
       else
         let rest := skipn (List.length auto_increment) (c :: l) in
         let tail := drop_while is_digit rest in
         if match take_while is_digit rest with [] => true | _ => false end
            || match tail with
               | d :: _ => negb (char_eq d blank_char) && negb (char_eq d semicolon)
               | [] => false
               end
         then go else rev before' ++ tail
   | [] => go
   end).
Proof. intros H1 H2 H3. cbn [normalize_from]. rewrite H1, H2, H3. reflexivity. Qed.

Lemma normalize_blank depth before l :
  normalize_from unquoted depth before (blank_char :: l)
  = normalize_from unquoted depth (blank_char :: before) l.
Proof.
  rewrite normalize_plain by reflexivity. cbv zeta. destruct before as [|b before]; [done|].
  assert (prefix_of auto_increment (blank_char :: l) = false) as -> by reflexivity.
  by rewrite orb_true_r.
Qed.

Lemma normalize_hit before ds post :
  ds <> [] -> forallb is_digit ds = true ->
  match post with d :: _ => d = blank_char \/ d = semicolon | [] => True end ->
  normalize_from unquoted 0 (blank_char :: before) (auto_increment ++ ds ++ post)
  = rev before ++ post.
Proof.
  intros Hne Hd Hp.
  assert (exists c l, auto_increment ++ ds ++ post = c :: l /\ c = byte_of 65)
    as (c & l & E & Hc) by (do 2 eexists; split; reflexivity).
  rewrite E, normalize_plain by (subst c; reflexivity). rewrite <- E. cbv zeta.
  rewrite prefix_of_refl, drop_app_length, Z.eqb_refl.
  assert (char_eq blank_char blank_char = true) as -> by reflexivity. simpl.
  destruct (take_while_digits ds post Hd) as [-> ->].
  { destruct post as [|d post]; [done|]. by destruct Hp as [-> | ->]. }
  destruct ds as [|e ds]; [done|].
  destruct post as [|d post]; [done|]. by destruct Hp as [-> | ->].
Qed.

Lemma normalize_counter pre ds post :
  position unquoted 0 pre = (unquoted, 0) ->
  contains_bytes auto_increment pre = false ->
  ds <> [] -> forallb is_digit ds = true ->
  match post with d :: _ => d = blank_char \/ d = semicolon | [] => True end ->
  normalizeSchema (pre ++ blank_char :: auto_increment ++ ds ++ post) = pre ++ post.
Proof.
  intros Hpos Hc Hne Hd Hp. unfold normalizeSchema.
  rewrite normalize_pass by by apply quiet_blank. rewrite Hpos, app_nil_r, normalize_blank.
  by rewrite normalize_hit, rev_involutive.
Qed.

(** ** The authority a list of grants gives *)

Definition granted (db grants : string) (global : bool) (priv : string) : Prop :=
  exists line privs, In line (split_on (byte_of 10) grants)
    /\ grant_line db line = Some (global, privs) /\ In priv privs.

Definition four_privileges : list string := ["SELECT"; "SHOW VIEW"; "TRIGGER"; "EVENT"].

Lemma grant_priv_spec global st priv k :
  (k ∈ (grant_priv global st priv).1 <->
     k ∈ st.1 \/ k = priv \/ priv = "ALL PRIVILEGES" /\ In k four_privileges)
  \/ priv = "ALL PRIVILEGES" /\ k = priv.
Proof.
  destruct st as [perm rt]. unfold grant_priv, str_eq. case_bool_decide as E; simpl.
  - destruct (decide (k = priv)) as [->|Hk]; [by right|]. left. set_solver.
  - left. set_solver.
Qed.

Lemma grant_privs_permission global privs st k : In k four_privileges ->
  k ∈ (fold_left (grant_priv global) privs st).1 <->
  k ∈ st.1 \/ exists p, In p privs /\ (p = k \/ p = "ALL PRIVILEGES").
Proof.
  intros Hk. revert st. induction privs as [|p privs IH]; intros st; simpl; [naive_solver|].
  rewrite IH. destruct (grant_priv_spec global st p k) as [-> | [-> ->]]; [naive_solver|].
  exfalso. repeat destruct Hk as [Hk|Hk]; try discriminate Hk. destruct Hk.
Qed.

Lemma grant_priv_routine global st p :
  (grant_priv global st p).2 = true <->
  st.2 = true \/ global = true /\ (p = "ALL PRIVILEGES" \/ p = "SHOW_ROUTINE").
Proof.
  destruct st as [perm rt]. unfold grant_priv, str_eq.
  pose proof (bool_decide_eq_true (p = "ALL PRIVILEGES")) as Ha.
  pose proof (bool_decide_eq_true (p = "SHOW_ROUTINE")) as Hs.
  destruct (bool_decide (p = "ALL PRIVILEGES")), (bool_decide (p = "SHOW_ROUTINE")), rt, global;
    simpl; revert Ha Hs; generalize (p = "ALL PRIVILEGES") (p = "SHOW_ROUTINE"); clear;
    intros; intuition congruence.
Qed.

Lemma grant_privs_routine global privs st :
  (fold_left (grant_priv global) privs st).2 = true <->
  st.2 = true \/ global = true /\ exists p, In p privs /\ (p = "ALL PRIVILEGES" \/ p = "SHOW_ROUTINE").
Proof.
  revert st. induction privs as [|p privs IH]; intros st; cbn [fold_left].
  - split; [by left|]. by intros [?|[_ (p & [] & _)]].
  - rewrite IH, grant_priv_routine. split.
    + intros [[?|[? ?]]|[? (q & ? & ?)]]; [by left| |]; right; (split; [done|]);
        [exists p|exists q]; (split; [|done]); simpl; auto.
    + intros [?|[? (q & [<-|?] & ?)]]; [by left; left|by left; right|right]. eauto.
Qed.

Lemma catalog_fold db lines st :
  let out := fold_left (fun st line =>
      match grant_line db line with
      | None => st
      | Some (global, privs) => fold_left (grant_priv global) privs st
      end) lines st in
  (forall k, In k four_privileges ->
     (k ∈ out.1 <-> k ∈ st.1 \/ exists line g privs p, In line lines /\ grant_line db line = Some (g, privs)
        /\ In p privs /\ (p = k \/ p = "ALL PRIVILEGES")))
  /\ (out.2 = true <-> st.2 = true \/ exists line privs p, In line lines
        /\ grant_line db line = Some (true, privs)
        /\ In p privs /\ (p = "ALL PRIVILEGES" \/ p = "SHOW_ROUTINE")).
Proof.
  revert st. induction lines as [|line lines IH]; intros st; cbn [fold_left]; [naive_solver|].
  destruct (grant_line db line) as [[g privs]|] eqn:E.
  - destruct (IH (fold_left (grant_priv g) privs st)) as [IH1 IH2]. cbv zeta. split.
    + intros k Hk. rewrite (IH1 k Hk), grant_privs_permission by done. simpl. split.
      * intros [[?|(p & ? & ?)]|(l & g' & privs' & p & ? & ? & ? & ?)]; [by left| |]; right;
          [exists line, g, privs, p|exists l, g', privs', p]; auto.
      * intros [?|(l & g' & privs' & p & [->|?] & Hl & ? & ?)]; [auto| |].
        -- rewrite E in Hl. injection Hl as -> ->. eauto.
        -- right. exists l, g', privs', p. auto.
    + rewrite IH2, grant_privs_routine. simpl. split.
      * intros [[?|(-> & p & ? & ?)]|(l & privs' & p & ? & ? & ? & ?)]; [by left| |]; right;
          [exists line, privs, p|exists l, privs', p]; auto.
      * intros [?|(l & privs' & p & [->|?] & Hl & ? & ?)]; [auto| |].
        -- rewrite E in Hl. injection Hl as -> ->. eauto 10.
        -- right. exists l, privs', p. auto.
  - destruct (IH st) as [IH1 IH2]. cbv zeta. simpl. split.
    + intros k Hk. rewrite (IH1 k Hk). split.
      * intros [?|(l & g' & privs' & p & ? & ? & ? & ?)]; [auto|]. right. exists l, g', privs', p. auto.
      * intros [?|(l & g' & privs' & p & [->|?] & Hl & ? & ?)]; [auto|congruence|].
        right. exists l, g', privs', p. auto.
    + rewrite IH2. split.
      * intros [?|(l & privs' & p & ? & ? & ? & ?)]; [auto|]. right. exists l, privs', p. auto.
      * intros [?|(l & privs' & p & [->|?] & Hl & ? & ?)]; [auto|congruence|].
        right. exists l, privs', p. auto.
Qed.

(** ** Properties *)

(** A dump for the witnesses. *)
Definition sample_dump : bytes := chars ("CREATE TABLE `users` (`id` int) ENGINE=InnoDB AUTO_INCREMENT=7;
INSERT INTO `users` (`id`) VALUES ('a;b');
").

Section Properties.
Context `{Sha256}.

(** However the dump is cut into pieces for [tracker.Write], the pieces
    are all accepted exactly if the whole dump is, and the tracker (its byte
    count, its digests, its tables and rows) is then the same. *)
Theorem chunks_accepted p chunks t (Hp : Validate p = Ok tt) :
  Write (newTracker p) (concat chunks) = (t, None)
  <-> t_failed t = false /\ writes (newTracker p) chunks = t.
Proof.
  apply Validate_limits in Hp as [Hp _].
  assert (Hn : forall u, t_failed u = false -> t_bytes u <= MaxBytes (t_plan u) ->
    Write u (concat chunks) = (t, None) <-> t_failed t = false /\ writes u chunks = t).
  { clear Hp. induction chunks as [|b chunks IH]; intros u Hf Hb; simpl.
    - rewrite Write_nil by done. naive_solver.
    - rewrite Write_app. split.
      + intros (t1 & H1 & H2). rewrite H1. simpl.
        pose proof (Write_live _ _ _ H1) as [_ ?]. pose proof (Write_room _ _ _ H1) as [? _].
        by apply IH.
      + destruct (Write u b) as [t1 [e|]] eqn:E; simpl.
        * intros [Ht Hw]. pose proof (writes_failed chunks t1 (Write_refused _ _ _ _ E)).
          congruence.
        * pose proof (Write_live _ _ _ E) as [_ ?]. pose proof (Write_room _ _ _ E) as [? _].
          intros Hw. exists t1. split; [done|]. by apply IH. }
  apply Hn; simpl; [done|lia].
Qed.

(** C22: Whatever the dump, the buffer sizes and the way the pipe ends, the
    bytes the client has read (with the rest of the statement being served)
    are a prefix of the dump which the tracker has accepted and which ends
    outside any statement. *)
Theorem reader_forwards_validated p input e sizes out err v (Hp : Validate p = Ok tt)
  (Hr : reads (validateReader input e (newTracker p)) sizes = (out, err, v)) :
  exists ready t, Write (newTracker p) (out ++ ready) = (t, None)
    /\ trim_bytes (t_pending t) = [] /\ q_quote (t_quote t) = None
    /\ (exists rest, input = out ++ ready ++ rest)
    /\ ready = match err with Some _ => [] | None => v_ready v end.
Proof.
  apply Validate_limits in Hp as [Hp _].
  destruct (forwards_reads _ _ _ _ _ _ _ _ (forwards_start p input e ltac:(lia)) Hr)
    as (w & [H1 H2 [H3 H3'] H4 H5] & He).
  exists (v_ready w), (v_tracker w). split_and!; [done|done|done|by exists (v_input w)|].
  destruct err; [by destruct He|by subst].
Qed.

(** A client that reads to the end of file has read the whole dump, and
    the tracker that accepted all of it finishes with a proof. *)
Theorem reader_complete_copy p input e sizes out v (Hp : Validate p = Ok tt)
  (Hr : reads (validateReader input e (newTracker p)) sizes = (out, Some EOF, v)) :
  out = input /\ exists pr, Write (newTracker p) input = (v_tracker v, None)
                            /\ Finish (v_tracker v) = Ok pr.
Proof.
  apply Validate_limits in Hp as [Hp _].
  destruct (forwards_reads _ _ _ _ _ _ _ _ (forwards_start p input e ltac:(lia)) Hr)
    as (w & [H1 H2 _ _ H5] & Hn & Hv).
  destruct (Hv eq_refl) as [-> Hd]. destruct (H5 Hd) as [Hi [pr Hf]].
  rewrite Hn, app_nil_r in H1. rewrite Hn, Hi, !app_nil_r in H2.
  split; [done|]. exists pr. by rewrite H2.
Qed.

(** After any sequence of writes, refused ones included, the tracker
    holds the plan's limits on bytes, statement size, tables and rows, and
    its row count is the sum of its tables' row counts. *)
Theorem tracker_within_plan p chunks (Hp : Validate p = Ok tt) :
  within (writes (newTracker p) chunks) /\ t_plan (writes (newTracker p) chunks) = p.
Proof.
  apply Validate_limits in Hp as (? & ? & ? & ? & _).
  apply (writes_within chunks (newTracker p)); simpl; [lia|].
  split; simpl; try done; rewrite ?map_size_empty; lia.
Qed.

(** The table digest does not see the AUTO_INCREMENT counter: schemas
    that differ only in the counter of the table options have one normal
    form, and normalising never removes anything but such a counter. *)
Theorem normalize_ignores_counter pre ds post s
  (Hpos : position unquoted 0 pre = (unquoted, 0))
  (Hc : contains_bytes auto_increment pre = false)
  (Hne : ds <> []) (Hd : forallb is_digit ds = true)
  (Hp : match post with d :: _ => d = blank_char \/ d = semicolon | [] => True end) :
  normalizeSchema (pre ++ blank_char :: auto_increment ++ ds ++ post) = pre ++ post
  /\ (normalizeSchema s = s \/ drops_counter s (normalizeSchema s)).
Proof.
  split; [by apply normalize_counter|]. apply (normalize_from_spec unquoted 0 []).
Qed.

(** A statement the tracker accepts is a known session SET (and changes
    nothing), a CREATE TABLE of a new table within the table limit whose
    engine the plan's mode allows and which names none of the forbidden
    options, or an INSERT of exactly one tuple into a table created before,
    within the row limit. *)
Theorem statement_accepts t raw t' (Hs : statement t raw = Ok t') :
  let s := trim_bytes raw in
  match_bytes sessionSet s = true /\ t' = t
  \/ (exists n, createTable s = Some n /\ t_tables t !! n = None
        /\ Z.of_nat (size (t_tables t)) < MaxTables (t_plan t)
        /\ engine_allowed (t_plan t) (to_upper (text s)) = true
        /\ (forall w, In w forbidden_in_create -> contains (to_upper (text s)) w = false)
        /\ t_rows t' = t_rows t
        /\ t_tables t' = <[n := {| tt_schema := sha256_hex (normalizeSchema s);
                                   tt_rows := 0; tt_hash := [] |}]> (t_tables t))
  \/ (exists n v a b, insertTable s = Some n /\ t_tables t !! n = Some v
        /\ t_rows t < MaxRows (t_plan t) /\ t_rows t' = t_rows t + 1
        /\ s = a ++ chars " VALUES (" ++ b /\ singleValuesTuple (lparen :: b) = true
        /\ t_tables t' = <[n := {| tt_schema := tt_schema v; tt_rows := tt_rows v + 1;
                                   tt_hash := tt_hash v ++ s |}]> (t_tables t)).
Proof.
  cbv zeta. revert Hs. unfold statement. set (s := trim_bytes raw).
  destruct (prefix_of _ _).
  { destruct (match_bytes _ _) eqn:Em; [|done]. intros [= <-]. by left. }
  destruct (createTable _) as [n|].
  - destruct (_ || _) eqn:Ec; [done|]. destruct (existsb _ _) eqn:Ex; [done|].
    destruct (negb _) eqn:Ee; [done|]. intros [= <-]. right. left. exists n.
    apply orb_false_iff in Ec as [Ec Hn]. apply Z.leb_gt in Ec.
    apply bool_decide_eq_false in Hn. rewrite <- eq_None_not_Some in Hn.
    apply negb_false_iff in Ee. split_and!; try done.
    intros w Hw. apply not_true_is_false. intros Hc.
    rewrite (proj2 (existsb_exists _ _)) in Ex; [done|eauto].
  - destruct (insertTable _) as [n|]; [|done].
    destruct (t_tables t !! n) as [v|] eqn:Ev; [|done].
    destruct (MaxRows _ <=? _) eqn:Er; [done|]. apply Z.leb_gt in Er.
    destruct (cut_bytes _ _) as [[a b]|] eqn:Ecut; [|done].
    destruct (negb _) eqn:Et; [done|]. intros [= <-]. right. right. exists n, v, a, b.
    apply negb_false_iff in Et. split_and!; try done. by apply cut_bytes_app.
Qed.

(** [catalogAuthority] accepts the grants exactly if a global grant
    gives ALL PRIVILEGES or SHOW_ROUTINE and each of SELECT, SHOW VIEW,
    TRIGGER and EVENT is granted (by name or with ALL PRIVILEGES) globally
    or on the database. *)
Theorem catalogAuthority_spec db grants :
  catalogAuthority db grants = true
  <-> (exists p, granted db grants true p /\ (p = "ALL PRIVILEGES" \/ p = "SHOW_ROUTINE"))
      /\ forall k, In k four_privileges ->
           exists g p, granted db grants g p /\ (p = k \/ p = "ALL PRIVILEGES").
Proof.
  pose proof (catalog_fold db (split_on (byte_of 10) grants) (∅, false)) as [H1 H2].
  unfold catalogAuthority, granted. destruct (fold_left _ _ _) as [perm rt]. simpl in H1, H2.
  rewrite andb_true_iff, H2, forallb_forall. fold four_privileges.
  setoid_rewrite bool_decide_eq_true. split.
  - intros [[?|(l & privs & p & ? & ? & ? & ?)] Hk]; [done|]. split; [by eauto 10|].
    intros k Hin. destruct (proj1 (H1 k Hin) (Hk k Hin)) as [He|(l' & g & pr & q & ? & ? & ? & ?)]; [set_solver|].
    eauto 10.
  - intros [(p & (l & privs & ? & ? & ?) & ?) Hk]. split; [right; eauto 10|].
    intros k Hin. apply (H1 k Hin). right.
    destruct (Hk k Hin) as (g & q & (l' & pr & ? & ? & ?) & ?). eauto 10.
Qed.
End Properties.

(** ** Witnesses *)

Definition sample_hash : Sha256 := text.
Definition sample_run :=
  reads (H := sample_hash)
    (validateReader sample_dump None (newTracker sample_plan)) [200; 30; 200; 200; 200]%nat.

Lemma chunks_accepted_witness :
  Validate sample_plan = Ok tt
  /\ t_rows (writes (H := sample_hash) (newTracker sample_plan)
              [firstn 20 sample_dump; skipn 20 sample_dump]) = 1.
Proof.
  split; [exact sample_plan_valid|].
  destruct (chunks_accepted (H := sample_hash) sample_plan
    [firstn 20 sample_dump; skipn 20 sample_dump]
    (Write (H := sample_hash) (newTracker sample_plan) sample_dump).1 sample_plan_valid) as [Hc _].
  destruct Hc as [_ ->]; vm_compute; reflexivity.
Defined.

Lemma reader_forwards_validated_witness :
  exists ready t, Write (H := sample_hash) (newTracker sample_plan) (sample_run.1.1 ++ ready) = (t, None).
Proof.
  destruct (reader_forwards_validated (H := sample_hash) sample_plan sample_dump None
    [200; 30; 200; 200; 200]%nat sample_run.1.1 sample_run.1.2 sample_run.2 sample_plan_valid)
    as (ready & t & Hw & _).
  - vm_compute. reflexivity.
  - exists ready, t. exact Hw.
Defined.

Lemma reader_complete_copy_witness : sample_run.1.1 = sample_dump.
Proof.
  refine (proj1 (reader_complete_copy (H := sample_hash) sample_plan sample_dump None
    [200; 30; 200; 200; 200]%nat sample_run.1.1 sample_run.2 sample_plan_valid _)).
  vm_compute. reflexivity.
Defined.

Lemma tracker_within_plan_witness :
  within (writes (H := sample_hash) (newTracker sample_plan) [chars "garbage;"; sample_dump]).
Proof.
  exact (proj1 (tracker_within_plan (H := sample_hash) sample_plan [chars "garbage;"; sample_dump]
    sample_plan_valid)).
Defined.

Lemma normalize_ignores_counter_witness :
  normalizeSchema (chars "CREATE TABLE `t` (`a` int) ENGINE=InnoDB AUTO_INCREMENT=42 CHARSET=x;")
  = chars "CREATE TABLE `t` (`a` int) ENGINE=InnoDB CHARSET=x;".
Proof.
  refine (proj1 (normalize_ignores_counter
    (chars "CREATE TABLE `t` (`a` int) ENGINE=InnoDB") (chars "42") (chars " CHARSET=x;") []
    _ _ _ _ _)); [reflexivity|reflexivity|discriminate|reflexivity|left; reflexivity].
Defined.

Lemma statement_accepts_witness :
  t_rows (set_tables (newTracker sample_plan) ∅ 0) = 0
  /\ let raw := chars "/*!40101 SET character_set_client = utf8mb4 */;" in
     match_bytes sessionSet (trim_bytes raw) = true.
Proof.
  split; [reflexivity|].
  destruct (statement_accepts (H := sample_hash) (newTracker sample_plan)
    (chars "/*!40101 SET character_set_client = utf8mb4 */;") (newTracker sample_plan))
    as [[Hm _]|[(n & Hn & _)|(n & v & a & b & Hn & _)]].
  - vm_compute. reflexivity.
  - exact Hm.
  - vm_compute in Hn. discriminate Hn.
  - vm_compute in Hn. discriminate Hn.
Defined.
