(* ===== verification/SqlFailure.v ===== *)
(** * Diagnostics of a MySQL copy

    [internal/mysqlcopy/failure.go]: Go error trees, the reduction of any error
    to fixed phases and classes ([safeFailure]), and the bounded walks that
    read a phase back ([FailureInfo], [FailureStages], [StageOf]). *)

From stdpp Require Import base list strings.
From Stdlib Require Import ZArith Lia Ascii String.
From S2P Require Import Prelude GoStrings Regex SqlPlan.

Local Open Scope string_scope.
Local Open Scope list_scope.

Definition Stage := string.

Definition UnknownFailure : Stage := "unknown".
Definition ReadSource : Stage := "read_source".
Definition HoldDDL : Stage := "hold_ddl".
Definition ProvisionTarget : Stage := "provision_target".
Definition Transfer : Stage := "transfer".
Definition Verify : Stage := "verify".
Definition Complete : Stage := "complete".
Definition ValidatePlan : Stage := "validate_plan".
Definition CheckCredentials : Stage := "check_credentials".
Definition InspectTarget : Stage := "inspect_target".
Definition ShutdownTarget : Stage := "shutdown_target".
Definition CommitReceipt : Stage := "commit_receipt".
Definition ReleaseDDL : Stage := "release_ddl".
Definition CleanupHelpers : Stage := "cleanup_helpers".
Definition CleanupNamespace : Stage := "cleanup_namespace".
Definition DeleteSourceHelper : Stage := "delete_source_helper".
Definition WaitSourceHelperDeleted : Stage := "wait_source_helper_deleted".
Definition DeleteTargetHelper : Stage := "delete_target_helper".
Definition WaitTargetHelperDeleted : Stage := "wait_target_helper_deleted".

Definition defined_stages : list Stage :=
  [ReadSource; HoldDDL; ProvisionTarget; Transfer; Verify; Complete; ValidatePlan;
   CheckCredentials; InspectTarget; ShutdownTarget; CommitReceipt; ReleaseDDL;
   CleanupHelpers; CleanupNamespace; DeleteSourceHelper; WaitSourceHelperDeleted;
   DeleteTargetHelper; WaitTargetHelperDeleted; UnknownFailure].
Definition definedStage (s : Stage) : bool := existsb (str_eq s) defined_stages.

(** A Go [error]: [Nil] is the nil interface; [Opaque] an error of another
    package; [Wrapped] has [Unwrap() error]; [Group] has [Unwrap() []error]. *)
Inductive error : Type :=
| Nil
| Sentinel (s : sql_error)
| Opaque (message : string)
| Wrapped (message : string) (e : error)
| Group (l : list error)
| Failure (stage : Stage) (code : string) (cause : error).

Section ErrorInd.
Variable P : error -> Prop.
Hypothesis HNil : P Nil.
Hypothesis HSentinel : forall s, P (Sentinel s).
Hypothesis HOpaque : forall m, P (Opaque m).
Hypothesis HWrapped : forall m e, P e -> P (Wrapped m e).
Hypothesis HGroup : forall l, Forall P l -> P (Group l).
Hypothesis HFailure : forall s c e, P e -> P (Failure s c e).
Fixpoint error_tree_ind (e : error) : P e :=
  match e with
  | Nil => HNil
  | Sentinel s => HSentinel s
  | Opaque m => HOpaque m
  | Wrapped m e => HWrapped m e (error_tree_ind e)
  | Group l =>
      HGroup l ((fix go (l : list error) : Forall P l :=
        match l with
        | [] => Forall_nil_2 P
        | e :: l' => Forall_cons_2 P e l' (error_tree_ind e) (go l')
        end) l)
  | Failure s c e => HFailure s c e (error_tree_ind e)
  end.
End ErrorInd.

Definition is_nil (e : error) : bool := match e with Nil => true | _ => false end.

(** [errors.Is] for the sentinels, which are compared by identity. *)
Fixpoint errors_is (e : error) (target : sql_error) : bool :=
  match e with
  | Nil | Opaque _ => false
  | Sentinel s => bool_decide (s = target)
  | Wrapped _ e' => errors_is e' target
  | Group l => existsb (fun e' => errors_is e' target) l
  | Failure _ _ e' => errors_is e' target
  end.

(** [errors.As(err, &f)] for [*Failure]: the first failure in depth-first order. *)
Fixpoint as_failure (e : error) : option (Stage * string * error) :=
  match e with
  | Nil | Sentinel _ | Opaque _ => None
  | Wrapped _ e' => as_failure e'
  | Group l =>
      (fix first (l : list error) :=
         match l with
         | [] => None
         | e' :: l' => match as_failure e' with Some f => Some f | None => first l' end
         end) l
  | Failure s c e' => Some (s, c, e')
  end.

(** [errors.Join] *)
Definition errors_join (l : list error) : error :=
  match List.filter (fun e => negb (is_nil e)) l with [] => Nil | l' => Group l' end.

Definition safeCause (e : error) : error :=
  if errors_is e ErrCanceled then Sentinel ErrCanceled
  else if errors_is e ErrDeadline then Sentinel ErrDeadline
  else if errors_is e ErrPartial then Sentinel ErrPartial
  else if errors_is e ErrUnsafe then Sentinel ErrUnsafe
  else Sentinel ErrOperation.

Definition classify (e : error) : string * sql_error :=
  if errors_is e ErrCanceled then ("cancelled", ErrCanceled)
  else if errors_is e ErrDeadline then ("deadline_exceeded", ErrDeadline)
  else if errors_is e ErrPartial then ("partial_target", ErrPartial)
  else if errors_is e ErrUnsafe then ("safety_refusal", ErrUnsafe)
  else ("operation_failed", ErrOperation).

(** [safeFailure] on an error that is no group. *)
Definition safe_leaf (stage : Stage) (e : error) : error :=
  let fresh :=
    let '(code, cause) := classify e in
    Failure (if definedStage stage then stage else UnknownFailure) code (Sentinel cause) in
  match as_failure e with
  | Some (s, c, cause) => if str_ne s "" && str_ne c "" then Failure s c (safeCause cause) else fresh
  | None => fresh
  end.

Fixpoint safeFailure (stage : Stage) (e : error) : error :=
  match e with
  | Nil => Nil
  | Group l => errors_join (map (safeFailure stage) l)
  | _ => safe_leaf stage e
  end.

Definition known_codes : list string :=
  ["cancelled"; "deadline_exceeded"; "partial_target"; "safety_refusal"; "operation_failed"].

Definition children (e : error) : list error :=
  match e with
  | Group l => firstn 64 l
  | Wrapped _ e' | Failure _ _ e' => [e']
  | _ => []
  end.

(** The loop of [FailureInfo]; [fuel] is what is left of its 64 visits. *)
Fixpoint info_loop (fuel : nat) (queue : list error) : option (Stage * string) :=
  match fuel, queue with
  | S fuel', e :: queue' =>
      match e with
      | Nil => info_loop fuel' queue'
      | Failure s c _ =>
          Some (if definedStage s then s else UnknownFailure,
                if existsb (str_eq c) known_codes then c else "operation_failed")
      | _ => info_loop fuel' (children e ++ queue')
      end
  | _, _ => None
  end.
Definition FailureInfo (e : error) : Stage * string :=
  match info_loop 64 [e] with
  | Some r => r
  | None => if is_nil e then ("", "") else ("unknown", "operation_failed")
  end.

(** The loop of [FailureStages]: [seen] and [stages] hold the same stages. *)
Fixpoint stages_loop (fuel : nat) (queue : list error) (stages : list Stage) : list Stage :=
  match fuel, queue with
  | S fuel', e :: queue' =>
      if (20 <=? List.length stages)%nat then stages
      else match e with
      | Nil => stages_loop fuel' queue' stages
      | _ =>
          let stages' := match e with
            | Failure s _ _ =>
                if definedStage s && negb (existsb (str_eq s) stages) then stages ++ [s] else stages
            | _ => stages
            end in
          stages_loop fuel' (children e ++ queue') stages'
      end
  | _, _ => stages
  end.
Definition FailureStages (e : error) : list Stage := stages_loop 64 [e] [].

Definition StageOf (e : error) : Stage :=
  match FailureStages e with
  | s :: _ => s
  | [] => if is_nil e then "" else UnknownFailure
  end.

(** ** Lemmas *)

(** Only failures with constant causes, grouped. *)
Inductive safe : error -> Prop :=
| safe_nil : safe Nil
| safe_failure s c x : s <> "" -> c <> "" -> safe (Failure s c (Sentinel x))
| safe_group l : Forall safe l -> l <> [] -> Forall (fun e => e <> Nil) l -> safe (Group l).

Lemma definedStage_nonempty s : definedStage s = true -> s <> "".
Proof. intros Hs ->. vm_compute in Hs. discriminate Hs. Qed.

Lemma classify_nonempty e : (classify e).1 <> "".
Proof. unfold classify. repeat (destruct (errors_is _ _); [done|]). done. Qed.

Lemma classify_is e : (classify e).2 <> ErrOperation -> errors_is e (classify e).2 = true.
Proof.
  unfold classify. destruct (errors_is e ErrCanceled) eqn:E1; [intros _; exact E1|].
  destruct (errors_is e ErrDeadline) eqn:E2; [intros _; exact E2|].
  destruct (errors_is e ErrPartial) eqn:E3; [intros _; exact E3|].
  destruct (errors_is e ErrUnsafe) eqn:E4; [intros _; exact E4|]. by intros [].
Qed.

Lemma safeCause_is e : exists x, safeCause e = Sentinel x /\ (x <> ErrOperation -> errors_is e x = true).
Proof.
  unfold safeCause. destruct (errors_is e ErrCanceled) eqn:E1; [by eexists|].
  destruct (errors_is e ErrDeadline) eqn:E2; [by eexists|].
  destruct (errors_is e ErrPartial) eqn:E3; [by eexists|].
  destruct (errors_is e ErrUnsafe) eqn:E4; [by eexists|]. by eexists.
Qed.

Lemma as_failure_is e s c cause x :
  as_failure e = Some (s, c, cause) -> errors_is cause x = true -> errors_is e x = true.
Proof.
  revert s c cause. induction e as [| | |m e IH|l IH|s c e IH] using error_tree_ind; intros s' c' cause.
  - discriminate.
  - discriminate.
  - discriminate.
  - apply IH.
  - cbn [as_failure errors_is]. induction IH as [|e l He Hl IHl]; [discriminate|].
    intros Hf Hx. cbn [existsb]. apply orb_true_iff.
    destruct (as_failure e) as [[[s2 c2] cause2]|] eqn:E.
    + injection Hf as -> -> ->. left. by apply (He _ _ _ eq_refl).
    + right. by apply IHl.
  - cbn [as_failure errors_is]. by intros [= _ _ ->].
Qed.

Lemma safe_leaf_spec stage e : exists s c x, safe_leaf stage e = Failure s c (Sentinel x)
  /\ s <> "" /\ c <> ""
  /\ (x <> ErrOperation -> errors_is e x = true).
Proof.
  assert (Hfresh : exists s c x,
    (let '(code, cause) := classify e in
     Failure (if definedStage stage then stage else UnknownFailure) code (Sentinel cause))
      = Failure s c (Sentinel x) /\ s <> "" /\ c <> "" /\ (x <> ErrOperation -> errors_is e x = true)).
  { pose proof (classify_nonempty e) as Hc. pose proof (classify_is e) as Hx.
    destruct (classify e) as [code x]. do 3 eexists. split_and!; [reflexivity| |exact Hc|exact Hx].
    destruct (definedStage stage) eqn:E; [by apply definedStage_nonempty|discriminate]. }
  unfold safe_leaf. destruct (as_failure e) as [[[s c] cause]|] eqn:E; [|exact Hfresh].
  destruct (str_ne s "" && str_ne c "") eqn:Ene; [|exact Hfresh].
  apply andb_true_iff in Ene as [Hs%str_ne_true Hc%str_ne_true].
  destruct (safeCause_is cause) as (x & -> & Hx). exists s, c, x. split_and!; try assumption.
  - reflexivity.
  - intros Hn. by apply (as_failure_is _ _ _ _ _ E), Hx.
Qed.

Lemma errors_join_cases l :
  errors_join l = Nil /\ Forall (fun e => e = Nil) l
  \/ errors_join l = Group (List.filter (fun e => negb (is_nil e)) l)
     /\ List.filter (fun e => negb (is_nil e)) l <> [].
Proof.
  unfold errors_join. destruct (List.filter _ l) as [|e l'] eqn:E; [left|by right].
  split; [done|]. apply List.Forall_forall. intros x Hx.
  destruct x; try done; exfalso;
    eapply (in_nil (A := error)); rewrite <- E; apply filter_In; split; done.
Qed.

Lemma safeFailure_safe stage e : safe (safeFailure stage e).
Proof.
  assert (Hleaf : forall x, safe (safe_leaf stage x)).
  { intros x. destruct (safe_leaf_spec stage x) as (s & c & y & -> & ? & ? & _). by constructor. }
  induction e as [| | |m e IH|l IH|s c e IH] using error_tree_ind; cbn [safeFailure];
    try apply Hleaf; [constructor|].
  destruct (errors_join_cases (map (safeFailure stage) l)) as [[-> _]|[-> Hne]]; [constructor|].
  constructor; [|done|]; apply List.Forall_forall; intros x [Hx Hn]%filter_In.
  - apply in_map_iff in Hx as (y & <- & Hy). rewrite List.Forall_forall in IH. auto.
  - by destruct x.
Qed.

(** What [safeFailure] keeps of the classes of an error. *)
Lemma safeFailure_is stage e x :
  x <> ErrOperation -> errors_is (safeFailure stage e) x = true -> errors_is e x = true.
Proof.
  intros Hx.
  assert (Hleaf : forall y, errors_is (safe_leaf stage y) x = true -> errors_is y x = true).
  { intros y. destruct (safe_leaf_spec stage y) as (s & c & z & -> & _ & _ & Hz). simpl.
    intros <-%bool_decide_eq_true. auto. }
  induction e as [| | |m e IH|l IH|s c e IH] using error_tree_ind; try apply Hleaf; [done|].
  cbn [safeFailure errors_is].
  destruct (errors_join_cases (map (safeFailure stage) l)) as [[-> _]|[-> _]]; [done|].
  simpl. rewrite !existsb_exists. intros (y & [Hy _]%filter_In & Hi).
  apply in_map_iff in Hy as (z & <- & Hz). exists z. split; [done|].
  rewrite List.Forall_forall in IH. auto.
Qed.

Lemma stages_loop_spec fuel queue stages :
  NoDup stages -> Forall (fun s => definedStage s = true) stages -> List.length stages <= 20 ->
  let out := stages_loop fuel queue stages in
  NoDup out /\ Forall (fun s => definedStage s = true) out /\ List.length out <= 20.
Proof.
  revert queue stages. induction fuel as [|fuel IH]; intros queue stages Hn Hd Hl; [done|].
  destruct queue as [|e queue]; [done|]. cbn [stages_loop].
  destruct (20 <=? List.length stages)%nat eqn:E; [done|]. apply Nat.leb_gt in E.
  destruct e as [| | | | |s c e]; try by apply IH.
  cbv zeta. destruct (definedStage s && _) eqn:Es; [|by apply IH].
  apply andb_true_iff in Es as [Es Hi]. apply negb_true_iff in Hi.
  apply IH.
  - apply NoDup_app. split_and!; [done| |repeat constructor; set_solver].
    intros y Hy ->%list_elem_of_singleton. apply list_elem_of_In in Hy.
    apply existsb_str in Hy. congruence.
  - apply Forall_app. auto.
  - rewrite length_app. simpl. lia.
Qed.

(** ** Properties *)

(** Whatever error a phase ends with, what is reported is a tree of
    failures that carry a phase, a class and a constant, with no message of
    another error in it; a class it answers to ([errors.Is]) other than the
    general one is a class of the original error. *)
Theorem safeFailure_sanitises stage e :
  safe (safeFailure stage e)
  /\ (safeFailure stage e = Nil -> errors_is e ErrUnsafe = false)
  /\ forall x, x <> ErrOperation ->
       errors_is (safeFailure stage e) x = true -> errors_is e x = true.
Proof.
  split; [apply safeFailure_safe|]. split; [|intros x; apply safeFailure_is].
  assert (Hleaf : forall y, safe_leaf stage y <> Nil).
  { intros y. destruct (safe_leaf_spec stage y) as (? & ? & ? & -> & _). done. }
  induction e as [| | |m e IH|l IH|s c e IH] using error_tree_ind; cbn [safeFailure];
    try (intros Hn; by destruct (Hleaf _ Hn)); [done|].
  destruct (errors_join_cases (map (safeFailure stage) l)) as [[-> Hn]|[-> _]]; [|done].
  intros _. simpl. apply not_true_is_false. rewrite existsb_exists. intros (y & Hy & Hi).
  rewrite List.Forall_forall in IH, Hn. specialize (Hn _ (in_map _ _ _ Hy)).
  rewrite (IH _ Hy Hn) in Hi. done.
Qed.

(** The walk over an error tree reports at most 20 phases, each a defined
    one and none twice, and [StageOf] is the first of them, "unknown" for an
    error with none and empty only for no error. *)
Theorem FailureStages_bounded e :
  NoDup (FailureStages e) /\ Forall (fun s => definedStage s = true) (FailureStages e)
  /\ List.length (FailureStages e) <= 20
  /\ (definedStage (StageOf e) = true \/ e = Nil /\ StageOf e = "").
Proof.
  destruct (stages_loop_spec 64 [e] []) as (H1 & H2 & H3);
    [constructor|constructor|simpl; lia|].
  split_and!; try done. unfold StageOf, FailureStages in *.
  destruct (stages_loop 64 [e] []) as [|s l].
  - destruct e; [by right|..]; left; reflexivity.
  - left. by inversion H2.
Qed.

(** A failure of cleanup or release that is joined to a copy's failure
    never hides it: the phase and class reported are those of the first. *)
Theorem primary_failure_kept stage cleanup e x (Hs : definedStage stage = true)
  (Hg : forall l, e <> Group l) (Hn : as_failure e = None) (He : e <> Nil) :
  FailureInfo (errors_join [safeFailure stage e; safeFailure cleanup x])
  = (stage, (classify e).1)
  /\ StageOf (errors_join [safeFailure stage e; safeFailure cleanup x]) = stage.
Proof.
  assert (Hl : safeFailure stage e = Failure stage (classify e).1 (Sentinel (classify e).2)).
  { replace (safeFailure stage e) with (safe_leaf stage e)
      by (destruct e; [by destruct He|reflexivity..|by destruct (Hg l)|reflexivity]).
    unfold safe_leaf. rewrite Hn, Hs. by destruct (classify e). }
  assert (Hc : existsb (str_eq (classify e).1) known_codes = true).
  { unfold classify. repeat (destruct (errors_is e _); [done|]). done. }
  rewrite Hl.
  assert (Hj : errors_join [Failure stage (classify e).1 (Sentinel (classify e).2); safeFailure cleanup x]
    = Group (Failure stage (classify e).1 (Sentinel (classify e).2)
             :: List.filter (fun e => negb (is_nil e)) [safeFailure cleanup x])) by done.
  rewrite Hj. set (rest := List.filter _ _). split.
  - unfold FailureInfo. cbn [info_loop children firstn app]. by rewrite Hs, Hc.
  - assert (Hkeep : forall fuel q s l, exists l', stages_loop fuel q (s :: l) = s :: l').
    { clear. induction fuel as [|fuel IH]; intros q s l; [by exists l|].
      destruct q as [|y q]; [by exists l|]. cbn [stages_loop].
      destruct (20 <=? _)%nat; [by exists l|].
      destruct y as [| | | | |s' c' y]; try apply IH. cbv zeta.
      destruct (definedStage s' && _); apply IH. }
    assert (Hg2 : forall fuel f l, definedStage stage = true -> exists l',
      stages_loop (S (S fuel)) [Group (Failure stage f (Sentinel l) :: rest)] [] = stage :: l').
    { intros fuel f l Hd.
      destruct (Hkeep fuel ([Sentinel l] ++ firstn 63 rest ++ []) stage []) as [l' El].
      exists l'. rewrite <- El.
      assert (Hstep : forall n l q, stages_loop (S n) (Group l :: q) []
        = stages_loop n (firstn 64 l ++ q) []) by reflexivity.
      rewrite Hstep, firstn_cons. clear Hstep. cbn [app stages_loop children List.length Nat.leb].
      by rewrite Hd. }
    unfold StageOf, FailureStages.
    destruct (Hg2 62%nat (classify e).1 (classify e).2 Hs) as [l' ->]. reflexivity.
Qed.

Lemma primary_failure_kept_witness :
  FailureInfo (errors_join [safeFailure Transfer (Wrapped "restore" (Sentinel ErrPartial));
                            safeFailure CleanupHelpers (Opaque "pod gone")])
  = (Transfer, "partial_target").
Proof.
  exact (proj1 (primary_failure_kept Transfer CleanupHelpers
    (Wrapped "restore" (Sentinel ErrPartial)) (Opaque "pod gone")
    eq_refl (fun l H => match H with eq_refl => I end) eq_refl
    (fun H => match H with eq_refl => I end))).
Defined.
