(* ===== verification/SqlExecutor.v ===== *)
(** * Execution of a MySQL copy

    [internal/mysqlcopy/executor.go]: [DomainExecutor.ExecuteDomain] as a
    program over the calls of its [Transport], its [Authority] and its context.
    The dump goroutine and the restore run concurrently in the code, joined by a
    pipe that the validated reader guards: here they are one call whose response
    says what the dump wrote, how it ended, the buffer sizes of the restore's
    reads and how the restore ended; the reader and the tracker run on that. *)

From stdpp Require Import base list gmap strings.
From Stdlib Require Import ZArith Lia Ascii String.
From S2P Require Import Prelude GoStrings Regex SqlPlan SqlStream SqlFailure.

Local Open Scope string_scope.
Local Open Scope Z_scope.
Local Open Scope list_scope.

Record Table := { Tbl_Name : string; Tbl_Engine : string; Tbl_PrimaryKey : bool }.
Record SourceIdentity := {
  Si_PodUID : string; Si_ServerUUID : string; Si_Version : string; Si_Tables : list Table }.
Record TargetIdentity := { Ti_PVCUID : string; Ti_PodUID : string; Ti_SecretUID : string }.
Record Receipt := {
  Rc_Version : Z; Rc_PlanDigest : string; Rc_Binding : string;
  Rc_SourcePVCUID : string; Rc_SourceStatefulSetUID : string; Rc_SourceServerUUID : string;
  Rc_Target : TargetIdentity; Rc_Proof : Proof; Rc_ShutdownVerified : bool }.
(** A [[32]byte] is the string of its bytes. *)
Record CredentialCheck := {
  Cc_Source : string; Cc_Target : string; Cc_TargetRoot : string; Cc_Backup : string;
  Cc_CA : string; Cc_Principals : list string }.
Definition zero32 : string := text (repeat (byte_of 0) 32).

#[export] Instance Table_eq_dec : EqDecision Table.
Proof. solve_decision. Defined.
#[export] Instance CredentialCheck_eq_dec : EqDecision CredentialCheck.
Proof. solve_decision. Defined.

(** What the concurrent dump and restore did. *)
Record transfer := {
  tr_input : bytes;                  (** the bytes the dump wrote to the pipe *)
  tr_end : option sql_error;         (** how the pipe ended, [None] for end of file *)
  tr_sizes : list nat;               (** the buffer sizes of the restore's reads *)
  tr_restore : result error unit;
  tr_dump : result error unit }.
Record target_dump := { td_chunks : list bytes; td_error : result error unit }.

Inductive copy_call : Type -> Type :=
| CtxErr : copy_call error
| Authority (s : Stage) : copy_call (result error unit)
| CheckCredentialsCall : copy_call (result error CredentialCheck)
| SourceCall : copy_call (result error SourceIdentity)
| HoldCall : copy_call (result error bool)        (** the flag: the hold is not nil *)
| HoldCheck : copy_call (result error unit)
| HoldRelease : copy_call (result error unit)
| Inspect : copy_call (result error (option Receipt))
| Provision : copy_call (result error TargetIdentity)
| Stream (t : TargetIdentity) : copy_call transfer
| TargetDump (t : TargetIdentity) : copy_call target_dump
| Shutdown (t : TargetIdentity) : copy_call (result error unit)
| Commit (r : Receipt) : copy_call (result error unit)
| Cleanup : copy_call (result error unit).

Fixpoint tables_ok (p : Plan) (seen : list string) (l : list Table) : bool :=
  match l with
  | [] => true
  | t :: l' =>
      match_string identifier (Tbl_Name t) && negb (existsb (str_eq (Tbl_Name t)) seen)
      && Tbl_PrimaryKey t
      && (str_eq (Tbl_Engine t) "InnoDB"
          || str_eq (DDLMode p) "quiescence"
             && (str_eq (Tbl_Engine t) "MyISAM" || str_eq (Tbl_Engine t) "MEMORY"))
      && tables_ok p (Tbl_Name t :: seen) l'
  end.
Definition validateSource (p : Plan) (s : SourceIdentity) : result error unit :=
  refuse str_eq (Si_PodUID s) "" || str_eq (Si_ServerUUID s) "" || (128 <? str_len (Si_ServerUUID s))
    || (str_len (Si_Version s) <? 2) || negb (has_prefix (Si_Version s) "8.")
    || bool_decide (Si_Tables s = []) || (MaxTables p <? Z.of_nat (List.length (Si_Tables s)))
    || negb (tables_ok p [] (Si_Tables s)) with Sentinel ErrUnsafe;;
  Ok tt.
Definition sameIdentity (a b : SourceIdentity) : bool :=
  str_eq (Si_PodUID a) (Si_PodUID b) && str_eq (Si_ServerUUID a) (Si_ServerUUID b)
  && str_eq (Si_Version a) (Si_Version b) && bool_decide (Si_Tables a = Si_Tables b).
Definition sameProof (a b : Proof) : bool := bool_decide (Pr_Tables a = Pr_Tables b).

Definition unsafe : error := Sentinel ErrUnsafe.

(** [gate] *)
Definition gate (s : Stage) : prog copy_call (result error unit) :=
  c <-- call CtxErr;;
  stop negb (is_nil c) with c;;
  r <-- call (Authority s);;
  Ret (if is_ok r then Ok tt else Err unsafe).

(** [safeError] on an error. *)
Definition safeError (e : error) : prog copy_call error :=
  c <-- call CtxErr;;
  Ret (if negb (is_nil c) then c
       else if errors_is e ErrUnsafe then unsafe
       else if errors_is e ErrPartial then Sentinel ErrPartial
       else Sentinel ErrOperation).
(** [x, err := q(); if err != nil { return safeError(ctx, err) }] *)
Definition safely {A} (q : prog copy_call (result error A)) : prog copy_call (result error A) :=
  r <-- q;;
  match r with
  | Ok a => Ret (Ok a)
  | Err e => e' <-- safeError e;; Ret (Err e')
  end.

(** A phase: its errors carry the value of the variable [stage]. *)
Definition phase {A} (s : Stage) (q : prog copy_call (result error A))
    : prog copy_call (result (Stage * error) A) :=
  r <-- q;; Ret (match r with Ok a => Ok a | Err e => Err (s, e) end).

Definition outcome := result (Stage * error) (Stage * Receipt).
Definition stage_of (o : outcome) : Stage := match o with Ok (s, _) | Err (s, _) => s end.
Definition error_of (o : outcome) : error := match o with Ok _ => Nil | Err (_, e) => e end.
(** [defer func() { if err := f(); err != nil { retErr = errors.Join(...) } }()] *)
Definition deferred (step : Stage) (o : outcome) (r : result error unit) : outcome :=
  match r with
  | Ok _ => o
  | Err e => Err (stage_of o, errors_join [safeFailure (stage_of o) (error_of o); safeFailure step e])
  end.

Class PlanJson := plan_json : Plan -> bytes.

Section Executor.
Context `{Sha256} `{PlanJson}.

(** [Plan.Digest] *)
Definition Digest (p : Plan) : result error string :=
  match Validate p with
  | Ok _ => Ok (sha256_hex (plan_json p))
  | Err e => Err (Sentinel e)
  end.
Definition digest (p : Plan) : string := match Digest p with Ok d => d | Err _ => "" end.

(** The closure [check]. *)
Definition check (p : Plan) (credentials : CredentialCheck) (source : SourceIdentity) (s : Stage)
    : prog copy_call (result error unit) :=
  _ <-! gate s;;
  h <-- call HoldCheck;;
  stop negb (is_ok h) with unsafe;;
  fresh <-! safely (call CheckCredentialsCall);;
  stop negb (bool_decide (fresh = credentials)) with unsafe;;
  freshSource <-! safely (call SourceCall);;
  stop negb (is_ok (validateSource p freshSource)) || negb (sameIdentity source freshSource)
    with unsafe;;
  Ret (Ok tt).

Definition credentials_distinct (p : Plan) (c : CredentialCheck) : bool :=
  negb (str_eq (Cc_Source c) (Cc_Target c))
  && negb (str_eq (Cc_Source c) zero32 || str_eq (Cc_Target c) zero32 || str_eq (Cc_TargetRoot c) zero32)
  && negb (str_eq (Cc_Target c) (Cc_TargetRoot c) || str_eq (Cc_Source c) (Cc_TargetRoot c))
  && negb (str_eq (DDLMode p) "backup_lock"
           && (str_eq (Cc_Backup c) (Cc_Target c) || str_eq (Cc_Backup c) (Cc_TargetRoot c))).

(** The receipt found on the target is the one this plan would write. *)
Definition receipt_matches (p : Plan) (source : SourceIdentity) (r : Receipt) : bool :=
  (Rc_Version r =? 1) && str_eq (Rc_PlanDigest r) (digest p)
  && str_eq (Rc_Binding r) (Binding p)
  && str_eq (Rc_SourcePVCUID r) (Ref_UID (Src_PVC (PSource p)))
  && str_eq (Rc_SourceStatefulSetUID r) (Ref_UID (Src_StatefulSet (PSource p)))
  && str_eq (Rc_SourceServerUUID r) (Si_ServerUUID source)
  && Rc_ShutdownVerified r.

Definition target_ok (p : Plan) (t : TargetIdentity) : bool :=
  str_ne (Ti_PVCUID t) "" && str_ne (Ti_PodUID t) ""
  && str_eq (Ti_SecretUID t) (Ref_UID (Cred_Ref (Tgt_Credentials (PTarget p))))
  && str_ne (Ti_PVCUID t) (Ref_UID (Src_PVC (PSource p))).

(** [Restore] through the validated reader, then [tracker.Finish]. *)
Definition transferred (p : Plan) (x : transfer) : option (result sql_error Proof) :=
  let '(_, _, v) := reads (validateReader (tr_input x) (tr_end x) (newTracker p)) (tr_sizes x) in
  if is_ok (tr_restore x) && exhausted v && is_ok (tr_dump x)
  then Some (Finish (v_tracker v)) else None.

Definition covers (proof : Proof) (source : SourceIdentity) : bool :=
  Nat.eqb (List.length (Pr_Tables proof)) (List.length (Si_Tables source))
  && forallb (fun t => existsb (fun v => str_eq (TP_Name v) (Tbl_Name t)) (Pr_Tables proof))
       (Si_Tables source).

(** [ExecuteDomain] from [Provision] on. *)
Definition copy (p : Plan) (credentials : CredentialCheck) (source : SourceIdentity)
    : prog copy_call outcome :=
  target <-! phase ProvisionTarget (safely (call Provision));;
  stop negb (target_ok p target) with (ProvisionTarget, unsafe);;
  _ <-! phase Transfer (check p credentials source Transfer);;
  x <-- call (Stream target);;
  match transferred p x with
  | None => e <-- safeError (Sentinel ErrOperation);; Ret (Err (Transfer, e))
  | Some (Err _) => Ret (Err (Transfer, unsafe))
  | Some (Ok proof) =>
      stop negb (covers proof source) with (Transfer, unsafe);;
      _ <-! phase Verify (check p credentials source Verify);;
      d <-- call (TargetDump target);;
      _ <-! phase Verify (safely (Ret (td_error d)));;
      match Finish (writes (newTracker p) (td_chunks d)) with
      | Err _ => Ret (Err (Verify, unsafe))
      | Ok actual =>
          stop negb (sameProof proof actual) with (Verify, unsafe);;
          _ <-! phase Complete (check p credentials source Complete);;
          _ <-! phase ShutdownTarget (safely (call (Shutdown target)));;
          _ <-! phase Complete (check p credentials source Complete);;
          let result :=
            {| Rc_Version := 1; Rc_PlanDigest := digest p; Rc_Binding := Binding p;
               Rc_SourcePVCUID := Ref_UID (Src_PVC (PSource p));
               Rc_SourceStatefulSetUID := Ref_UID (Src_StatefulSet (PSource p));
               Rc_SourceServerUUID := Si_ServerUUID source;
               Rc_Target := target; Rc_Proof := proof; Rc_ShutdownVerified := true |} in
          _ <-! phase CommitReceipt (safely (call (Commit result)));;
          Ret (Ok (CommitReceipt, result))
      end
  end.

(** [ExecuteDomain] under the hold. *)
Definition held (p : Plan) (credentials : CredentialCheck) (source : SourceIdentity)
    : prog copy_call outcome :=
  _ <-! phase ProvisionTarget (check p credentials source ProvisionTarget);;
  i <-- call Inspect;;
  match i with
  | Err _ => Ret (Err (InspectTarget, Sentinel ErrPartial))
  | Ok (Some existing) =>
      stop negb (receipt_matches p source existing) with (InspectTarget, Sentinel ErrPartial);;
      _ <-! phase Complete (check p credentials source Complete);;
      Ret (Ok (Complete, existing))
  | Ok None => copy p credentials source
  end.

(** [ExecuteDomain] from the deferred cleanup's registration to [HoldDDL]. *)
Definition prepare (p : Plan)
    : prog copy_call (result (Stage * error) (CredentialCheck * SourceIdentity)) :=
  _ <-! phase ReadSource (gate ReadSource);;
  credentials <-! phase CheckCredentials (safely (call CheckCredentialsCall));;
  stop negb (credentials_distinct p credentials) with (CheckCredentials, unsafe);;
  source <-! phase ReadSource (safely (call SourceCall));;
  stop negb (is_ok (validateSource p source)) with (ReadSource, unsafe);;
  _ <-! phase HoldDDL (gate HoldDDL);;
  Ret (Ok (credentials, source)).

(** [ExecuteDomain] without its outer defers. *)
Definition body (p : Plan) : prog copy_call outcome :=
  cs <-! prepare p;;
  h <-- call HoldCall;;
  match h with
  | Ok true =>
      o <-- held p cs.1 cs.2;;
      released <-- call HoldRelease;;
      Ret (deferred ReleaseDDL o released)
  | _ => Ret (Err (HoldDDL, unsafe))
  end.

Definition ExecuteDomain (wired : bool) (p : Plan) : prog copy_call (result error Receipt) :=
  if negb (is_ok (Validate p)) || negb wired
  then Ret (Err (safeFailure ValidatePlan unsafe))
  else
    o <-- body p;;
    cleaned <-- call Cleanup;;
    Ret (match deferred CleanupHelpers o cleaned with
         | Ok (_, r) => Ok r
         | Err (s, e) => Err (safeFailure s e)
         end).
End Executor.

(** ** Executions *)

Section ExecutorLemmas.
Context `{Sha256} `{PlanJson}.
Implicit Types t : list (event copy_call).

Lemma phase_ok {A} s (q : prog copy_call (result error A)) t a :
  exec (phase s q) t (Ok a) <-> exec q t (Ok a).
Proof.
  unfold phase. rewrite exec_bind. split.
  - intros (t1 & t2 & [b|e] & -> & Hq & [-> [=]]); subst. by rewrite app_nil_r.
  - intros Hq. exists t, [], (Ok a). by rewrite app_nil_r.
Qed.

Lemma safely_ok {A} (q : prog copy_call (result error A)) t a :
  exec (safely q) t (Ok a) <-> exec q t (Ok a).
Proof.
  unfold safely. rewrite exec_bind. split.
  - intros (t1 & t2 & [b|e] & -> & Hq & Hr).
    + destruct Hr as [-> [= ->]]. by rewrite app_nil_r.
    + apply exec_bind in Hr as (? & ? & ? & _ & _ & [_ ?]). done.
  - intros Hq. exists t, [], (Ok a). by rewrite app_nil_r.
Qed.

Lemma gate_ok s t u : exec (gate s) t (Ok u) ->
  t = [Event CtxErr Nil; Event (Authority s) (Ok tt)].
Proof.
  unfold gate. intros Hx.
  apply exec_bind in Hx as (t1 & t2 & c & -> & ->%exec_call & Hx).
  apply exec_stop_ok in Hx as [Hn Hx].
  apply exec_bind in Hx as (t3 & t4 & r & -> & ->%exec_call & [-> Hu]).
  destruct c; try done. by destruct r as [[]|].
Qed.

(** The calls of a successful [check]. *)
Definition checked (s : Stage) (credentials : CredentialCheck) (fresh : SourceIdentity)
    : list (event copy_call) :=
  [Event CtxErr Nil; Event (Authority s) (Ok tt); Event HoldCheck (Ok tt);
   Event CheckCredentialsCall (Ok credentials); Event SourceCall (Ok fresh)].

Lemma check_ok p credentials source s t u : exec (check p credentials source s) t (Ok u) ->
  exists fresh, t = checked s credentials fresh /\ sameIdentity source fresh = true.
Proof.
  unfold check. intros Hx.
  apply exec_pbind_ok in Hx as (t1 & t2 & ? & -> & ->%gate_ok & Hx).
  apply exec_bind in Hx as (t3 & t4 & h & -> & ->%exec_call & Hx).
  apply exec_stop_ok in Hx as [Hh Hx].
  apply exec_pbind_ok in Hx as (t5 & t6 & fc & -> & Hf & Hx).
  rewrite safely_ok in Hf. apply exec_call in Hf as ->.
  apply exec_stop_ok in Hx as [Hc Hx].
  apply exec_pbind_ok in Hx as (t7 & t8 & fs & -> & Hf & Hx).
  rewrite safely_ok in Hf. apply exec_call in Hf as ->.
  apply exec_stop_ok in Hx as [Hs [-> _]].
  apply negb_false_iff, bool_decide_eq_true in Hc as ->.
  apply orb_false_iff in Hs as [_ Hs]. apply negb_false_iff in Hs.
  exists fs. split; [|done]. destruct h as [[]|]; [|done].
  reflexivity.
Qed.

Lemma transferred_proof p x proof : Validate p = Ok tt ->
  transferred p x = Some (Ok proof) ->
  tr_restore x = Ok tt /\ tr_dump x = Ok tt
  /\ exists tr, Write (newTracker p) (tr_input x) = (tr, None) /\ Finish tr = Ok proof.
Proof.
  intros Hp. apply Validate_limits in Hp as [Hp _]. unfold transferred.
  destruct (reads _ _) as [[o e] v] eqn:E.
  destruct (is_ok (tr_restore x)) eqn:E1; [|done].
  destruct (exhausted v) eqn:E2; [|done]. destruct (is_ok (tr_dump x)) eqn:E3; [|done].
  simpl. intros [= Hf]. split_and!; [by destruct (tr_restore x) as [[]|]|by destruct (tr_dump x) as [[]|]|].
  exists (v_tracker v). split; [|done].
  by destruct (exhausted_complete p _ _ _ _ _ _ _ ltac:(lia) E E2 Hf).
Qed.

Ltac exec_phase Hx t1 t2 a Hp :=
  apply exec_pbind_ok in Hx as (t1 & t2 & a & -> & Hp & Hx); rewrite phase_ok in Hp.

(** The part of the trace of a completed copy from [Provision] on. *)
Definition copied (p : Plan) (credentials : CredentialCheck) (source : SourceIdentity)
    (r : Receipt) (t : list (event copy_call)) : Prop :=
  exists target x d actual f1 f2 f3 f4,
    t = Event Provision (Ok target) :: checked Transfer credentials f1
        ++ Event (Stream target) x :: checked Verify credentials f2
        ++ Event (TargetDump target) d :: checked Complete credentials f3
        ++ Event (Shutdown target) (Ok tt) :: checked Complete credentials f4
        ++ [Event (Commit r) (Ok tt)]
    /\ target_ok p target = true
    /\ Forall (fun f => sameIdentity source f = true) [f1; f2; f3; f4]
    /\ tr_restore x = Ok tt /\ tr_dump x = Ok tt /\ td_error d = Ok tt
    /\ (exists tr, Write (newTracker p) (tr_input x) = (tr, None) /\ Finish tr = Ok (Rc_Proof r))
    /\ Finish (writes (newTracker p) (td_chunks d)) = Ok actual
    /\ Pr_Tables actual = Pr_Tables (Rc_Proof r)
    /\ covers (Rc_Proof r) source = true
    /\ Rc_Target r = target /\ receipt_matches p source r = true.

Lemma copy_ok p credentials source t s r : Validate p = Ok tt ->
  exec (copy p credentials source) t (Ok (s, r)) -> copied p credentials source r t.
Proof.
  intros Hv. unfold copy. intros Hx.
  exec_phase Hx t1 t2 target Hq. rewrite safely_ok in Hq. apply exec_call in Hq as ->.
  apply exec_stop_ok in Hx as [Ht Hx]. apply negb_false_iff in Ht.
  exec_phase Hx t3 t4 u1 Hq. apply check_ok in Hq as (f1 & -> & Hf1).
  apply exec_bind in Hx as (t5 & t6 & x & -> & ->%exec_call & Hx).
  destruct (transferred p x) as [[proof|e]|] eqn:Etr; [|by destruct Hx|].
  2: { apply exec_bind in Hx as (? & ? & ? & _ & _ & [_ ?]). done. }
  destruct (transferred_proof _ _ _ Hv Etr) as (Hr1 & Hr2 & tr & Htr & Hfin).
  apply exec_stop_ok in Hx as [Hc Hx]. apply negb_false_iff in Hc.
  exec_phase Hx t7 t8 u2 Hq. apply check_ok in Hq as (f2 & -> & Hf2).
  apply exec_bind in Hx as (t9 & t10 & d & -> & ->%exec_call & Hx).
  exec_phase Hx t11 t12 u3 Hq. rewrite safely_ok in Hq. destruct Hq as [-> Hd].
  destruct (Finish (writes _ _)) as [actual|] eqn:Ea; [|by destruct Hx].
  apply exec_stop_ok in Hx as [Hsame Hx].
  apply negb_false_iff, bool_decide_eq_true in Hsame.
  exec_phase Hx t13 t14 u4 Hq. apply check_ok in Hq as (f3 & -> & Hf3).
  exec_phase Hx t15 t16 u5 Hq. rewrite safely_ok in Hq. apply exec_call in Hq as ->.
  exec_phase Hx t17 t18 u6 Hq. apply check_ok in Hq as (f4 & -> & Hf4).
  exec_phase Hx t19 t20 u7 Hq. rewrite safely_ok in Hq. apply exec_call in Hq as ->.
  destruct Hx as [-> [= -> ->]]. destruct u3, u5, u7.
  exists target, x, d, actual, f1, f2, f3, f4. simpl.
  split_and!; try done.
  - by repeat constructor.
  - by exists tr.
  - unfold receipt_matches. simpl. by rewrite !(proj2 (str_eq_true _ _) eq_refl).
Qed.

Lemma held_ok p credentials source t s r : Validate p = Ok tt ->
  exec (held p credentials source) t (Ok (s, r)) ->
  exists f0 t', t = checked ProvisionTarget credentials f0 ++ t'
    /\ ((exists f, t' = Event Inspect (Ok (Some r)) :: checked Complete credentials f
           /\ receipt_matches p source r = true)
        \/ exists t'', t' = Event Inspect (Ok None) :: t'' /\ copied p credentials source r t'').
Proof.
  intros Hv. unfold held. intros Hx.
  exec_phase Hx t1 t2 u1 Hq. apply check_ok in Hq as (f0 & -> & Hf0).
  apply exec_bind in Hx as (t3 & t4 & i & -> & ->%exec_call & Hx).
  exists f0. eexists. split; [reflexivity|].
  destruct i as [[existing|]|e]; [| |by destruct Hx].
  - left. apply exec_stop_ok in Hx as [Hm Hx]. apply negb_false_iff in Hm.
    exec_phase Hx t5 t6 u2 Hq. apply check_ok in Hq as (f & -> & _).
    destruct Hx as [-> [= -> ->]]. exists f. by rewrite app_nil_r.
  - right. exists t4. split; [done|]. by apply (copy_ok _ _ _ _ s).
Qed.

Lemma deferred_ok step o r x : deferred step o r = Ok x <-> r = Ok tt /\ o = Ok x.
Proof. destruct r as [[]|e]; simpl; [naive_solver|]. split; [done|by intros [? _]]. Qed.

Lemma prepare_ok p t credentials source : exec (prepare p) t (Ok (credentials, source)) ->
  t = [Event CtxErr Nil; Event (Authority ReadSource) (Ok tt);
       Event CheckCredentialsCall (Ok credentials); Event SourceCall (Ok source);
       Event CtxErr Nil; Event (Authority HoldDDL) (Ok tt)]
  /\ credentials_distinct p credentials = true /\ is_ok (validateSource p source) = true.
Proof.
  unfold prepare. intros Hx.
  exec_phase Hx t1 t2 u1 Hq. apply gate_ok in Hq as ->.
  exec_phase Hx t3 t4 cr Hq. rewrite safely_ok in Hq. apply exec_call in Hq as ->.
  apply exec_stop_ok in Hx as [Hc Hx]. apply negb_false_iff in Hc.
  exec_phase Hx t5 t6 so Hq. rewrite safely_ok in Hq. apply exec_call in Hq as ->.
  apply exec_stop_ok in Hx as [Hs Hx]. apply negb_false_iff in Hs.
  exec_phase Hx t7 t8 u2 Hq. apply gate_ok in Hq as ->.
  destruct Hx as [-> [= -> ->]]. done.
Qed.

(** A copy that succeeds: prepared, held, released, cleaned up. *)
Lemma execute_ok wired p t r : exec (ExecuteDomain wired p) t (Ok r) ->
  Validate p = Ok tt /\ exists credentials source t1 t2 s,
    exec (prepare p) t1 (Ok (credentials, source)) /\ exec (held p credentials source) t2 (Ok (s, r))
    /\ t = t1 ++ [Event HoldCall (Ok true)] ++ t2 ++ [Event HoldRelease (Ok tt); Event Cleanup (Ok tt)].
Proof.
  unfold ExecuteDomain. destruct (Validate p) as [[]|e] eqn:Hv; [|by intros []]. destruct wired; [|by intros []].
  intros Hx. split; [done|]. cbn [is_ok negb orb] in Hx.
  apply exec_bind in Hx as (t1 & t2 & o & -> & Hb & Hx).
  apply exec_bind in Hx as (t3 & t4 & c & -> & ->%exec_call & [-> Hr]).
  assert (exists s, deferred CleanupHelpers o c = Ok (s, r)) as [s Hd].
  { destruct (deferred _ _ _) as [[s r']|[s e]]; [|done]. injection Hr as ->. by exists s. }
  apply deferred_ok in Hd as [-> ->]. clear Hr. unfold body in Hb.
  apply exec_pbind_ok in Hb as (t5 & t6 & [credentials source] & -> & Hp & Hb).
  apply exec_bind in Hb as (t7 & t8 & h & -> & ->%exec_call & Hb).
  destruct h as [[]|e]; [|by destruct Hb|by destruct Hb].
  apply exec_bind in Hb as (t9 & t10 & o & -> & Hh & Hb).
  apply exec_bind in Hb as (t11 & t12 & rel & -> & ->%exec_call & [-> Hd]).
  symmetry in Hd. apply deferred_ok in Hd as [-> ->].
  exists credentials, source, t5, t9, s. split_and!; [done|done|]. by rewrite <- !app_assoc.
Qed.

(** The calls that neither write the target nor hold or clean anything. *)
Definition reading (R : Type) (e : copy_call R) : Prop :=
  match e with
  | CtxErr | Authority _ | CheckCredentialsCall | SourceCall | HoldCheck => True
  | _ => False
  end.
(** The calls made under the hold. *)
Definition inside (R : Type) (e : copy_call R) : Prop :=
  match e with HoldCall | HoldRelease | Cleanup => False | _ => True end.

Lemma check_reading p credentials source s : only reading (check p credentials source s).
Proof. unfold check, gate, safely, safeError. repeat only_step. Qed.
Lemma check_inside p credentials source s : only inside (check p credentials source s).
Proof. unfold check, gate, safely, safeError. repeat only_step. Qed.
Lemma prepare_reading p : only reading (prepare p).
Proof. unfold prepare, gate, phase, safely, safeError. repeat only_step. Qed.
Lemma held_inside p credentials source : only inside (held p credentials source).
Proof.
  unfold held, copy, phase, safely, safeError.
  repeat first [only_step|match goal with |- only _ (check _ _ _ _) => apply check_inside end].
Qed.

(** ** Order of the calls *)

(** What must have happened ([h]) when a call is made. *)
Definition ordered (p : Plan) (R : Type) (h : list (event copy_call)) (e : copy_call R) : Prop :=
  match e with
  | Provision =>
      In (Event HoldCall (Ok true)) h /\ In (Event (Authority ProvisionTarget) (Ok tt)) h
      /\ In (Event HoldCheck (Ok tt)) h /\ In (Event Inspect (Ok None)) h
  | Stream target =>
      In (Event Provision (Ok target)) h /\ target_ok p target = true
      /\ In (Event (Authority Transfer) (Ok tt)) h
  | TargetDump target =>
      (exists x proof, In (Event (Stream target) x) h /\ transferred p x = Some (Ok proof))
      /\ In (Event (Authority Verify) (Ok tt)) h
  | Shutdown target =>
      (exists x proof d actual, In (Event (Stream target) x) h
         /\ transferred p x = Some (Ok proof) /\ In (Event (TargetDump target) d) h
         /\ Finish (writes (newTracker p) (td_chunks d)) = Ok actual
         /\ sameProof proof actual = true)
      /\ In (Event (Authority Complete) (Ok tt)) h
  | Commit r => In (Event (Shutdown (Rc_Target r)) (Ok tt)) h
      /\ (exists x, In (Event (Stream (Rc_Target r)) x) h /\ transferred p x = Some (Ok (Rc_Proof r)))
      /\ Rc_ShutdownVerified r = true
  | _ => True
  end.

Lemma reading_ordered {A} p h (q : prog copy_call A) : only reading q -> guarded (ordered p) h q.
Proof.
  intros Hq. apply (guarded_impl (fun R _ e => reading R e)); [|by apply guarded_only].
  intros R h' e. by destruct e.
Qed.

Lemma phase_guarded {A} P h s (q : prog copy_call (result error A)) :
  guarded P h q -> guarded P h (phase s q).
Proof. intros Hq. apply guarded_bind; [done|]. by intros. Qed.

Lemma safely_guarded {A} p h (q : prog copy_call (result error A)) :
  guarded (ordered p) h q -> guarded (ordered p) h (safely q).
Proof.
  intros Hq. apply guarded_bind; [done|]. intros t [a|e] _; [done|].
  apply reading_ordered. unfold safeError. repeat only_step.
Qed.

Lemma check_guarded p c source s s' h : guarded (ordered p) h (phase s' (check p c source s)).
Proof. apply phase_guarded, reading_ordered, check_reading. Qed.

Ltac guard_check f :=
  apply guarded_pbind; [apply check_guarded|]; intros ? ? Hx;
  rewrite phase_ok in Hx; apply check_ok in Hx as (f & -> & _).
Ltac guard_safely :=
  apply guarded_pbind; [apply phase_guarded, safely_guarded|intros ? ? Hx;
    rewrite phase_ok, safely_ok in Hx].
Ltac found := rewrite ?in_app_iff; simpl; auto 25.

Lemma copy_ordered p c source h :
  In (Event HoldCall (Ok true)) h -> In (Event (Authority ProvisionTarget) (Ok tt)) h ->
  In (Event HoldCheck (Ok tt)) h -> In (Event Inspect (Ok None)) h ->
  guarded (ordered p) h (copy p c source).
Proof.
  intros H1 H2 H3 H4. unfold copy.
  guard_safely; [by split|]. apply exec_call in Hx as ->.
  rename a into target. apply guarded_stop. intros Ht%negb_false_iff.
  guard_check f1.
  cbn [call bind guarded]. split; [split_and!; [found|done|found]|]. intros x.
  destruct (transferred p x) as [[proof|e]|] eqn:Etr; [|done|].
  2: { apply guarded_bind; [|by intros]. apply reading_ordered.
       unfold safeError. repeat only_step. }
  apply guarded_stop. intros _.
  guard_check f2.
  cbn [call bind guarded]. split; [split; [exists x, proof; split; [found|done]|found]|]. intros d.
  guard_safely; [done|]. destruct Hx as [-> _].
  destruct (Finish (writes _ _)) as [actual|] eqn:Ea; [|done].
  apply guarded_stop. intros Hsame%negb_false_iff.
  guard_check f3.
  guard_safely. { split; [|done]. split; [|found]. exists x, proof, d, actual.
    split_and!; [found|done|found|done|done]. }
  apply exec_call in Hx as ->.
  repeat match goal with u : () |- _ => destruct u end.
  guard_check f4. cbv zeta.
  guard_safely; [|done]. split; [|done]. split_and!; [found| |done].
  exists x. split; [found|done].
Qed.

Lemma body_ordered p h : guarded (ordered p) h (body p).
Proof.
  unfold body. apply guarded_pbind; [apply reading_ordered, prepare_reading|].
  intros t [c source] _. cbn [call bind guarded fst snd]. split; [done|]. intros [[]|e]; [|done|done].
  apply guarded_bind; [|intros ? ? _; simpl; split; done].
  unfold held. guard_check f0. cbn [call bind guarded]. split; [done|].
  intros [[existing|]|e]; [| |done].
  - apply guarded_stop. intros _. guard_check f. done.
  - apply copy_ordered; found.
Qed.

(** ** The shape of every execution *)

Definition is_cleanup (ev : event copy_call) : bool :=
  match ev with @Event _ _ Cleanup _ => true | _ => false end.
Definition is_release (ev : event copy_call) : bool :=
  match ev with @Event _ _ HoldRelease _ => true | _ => false end.
Definition is_held (ev : event copy_call) : bool :=
  match ev with
  | @Event _ R e r =>
      match e in copy_call R return R -> bool with
      | HoldCall => fun r => match r with Ok true => true | _ => false end
      | _ => fun _ => false
      end r
  end.

Lemma inside_events t :
  Forall (fun ev => match ev with @Event _ R e _ => inside R e end) t ->
  Forall (fun ev => is_cleanup ev = false /\ is_release ev = false /\ is_held ev = false) t.
Proof. intros Hq. eapply Forall_impl; [exact Hq|]. intros [R e r]. by destruct e. Qed.
Lemma reading_inside R (e : copy_call R) : reading R e -> inside R e.
Proof. by destruct e. Qed.

Definition quiet_events (t : list (event copy_call)) : Prop :=
  Forall (fun ev => is_cleanup ev = false /\ is_release ev = false /\ is_held ev = false) t.

(** The hold is taken at most once and then released at the end. *)
Definition hold_released (t : list (event copy_call)) : Prop :=
  quiet_events t
  \/ (exists t0 r, t = t0 ++ [Event HoldCall r] /\ quiet_events t0 /\ r <> Ok true)
  \/ exists t0 t1 r, t = t0 ++ Event HoldCall (Ok true) :: t1 ++ [Event HoldRelease r]
        /\ quiet_events t0 /\ quiet_events t1.

Lemma body_shape p t o : exec (body p) t o -> hold_released t.
Proof.
  unfold body, pbind. rewrite exec_bind. intros (t1 & t2 & r & -> & Hp & Hx).
  assert (Hq : quiet_events t1).
  { apply inside_events. eapply Forall_impl; [apply (exec_only _ _ _ _ (prepare_reading p) Hp)|].
    intros [R e x]. apply reading_inside. }
  destruct r as [[c source]|[s e]]; [|left; destruct Hx as [-> _]; by rewrite app_nil_r].
  apply exec_bind in Hx as (t3 & t4 & h & -> & ->%exec_call & Hx). right.
  destruct h as [[]|e]; [right|left|left];
    [|destruct Hx as [-> _]; by exists t1, (Ok false)|destruct Hx as [-> _]; by exists t1, (Err e)].
  apply exec_bind in Hx as (t5 & t6 & o' & -> & Hi & Hx).
  apply exec_bind in Hx as (t7 & t8 & rel & -> & ->%exec_call & [-> _]).
  exists t1, t5, rel. split; [by rewrite app_nil_r|]. split; [done|].
  apply inside_events, (exec_only _ _ _ _ (held_inside p c source) Hi).
Qed.
End ExecutorLemmas.

(** ** Properties *)

Section ExecutorProperties.
Context `{Sha256} `{PlanJson}.

(** C11: A copy that succeeds has checked the authority, the credentials and
    the source identity before and between its steps, and either returns a
    receipt the target already holds for exactly this plan, without any
    write, or has provisioned a fresh target, streamed a dump that the
    tracker accepted whole, compared its table proofs with those of the
    target's own dump, shut the target down cleanly and only then committed
    the receipt it returns; the hold and the helpers were released. *)
Theorem ExecuteDomain_success wired p t r (Hx : exec (ExecuteDomain wired p) t (Ok r)) :
  Validate p = Ok tt /\ exists credentials source f0 t1,
    credentials_distinct p credentials = true /\ is_ok (validateSource p source) = true
    /\ t = [Event CtxErr Nil; Event (Authority ReadSource) (Ok tt);
            Event CheckCredentialsCall (Ok credentials); Event SourceCall (Ok source);
            Event CtxErr Nil; Event (Authority HoldDDL) (Ok tt); Event HoldCall (Ok true)]
           ++ checked ProvisionTarget credentials f0 ++ t1
           ++ [Event HoldRelease (Ok tt); Event Cleanup (Ok tt)]
    /\ ((exists f, t1 = Event Inspect (Ok (Some r)) :: checked Complete credentials f
            /\ receipt_matches p source r = true)
        \/ exists t2, t1 = Event Inspect (Ok None) :: t2 /\ copied p credentials source r t2).
Proof.
  apply execute_ok in Hx as (Hv & credentials & source & t5 & t' & s & Hp & Hh & ->). split; [done|].
  apply prepare_ok in Hp as (-> & Hc & Hs). apply held_ok in Hh as (f0 & t1 & -> & Hcase); [|done].
  exists credentials, source, f0, t1. split_and!; [done|done| |done]. by rewrite <- !app_assoc.
Qed.

(** C12: In every execution, also one that fails later, the target is
    provisioned only under the hold, after the authority's permission and an
    inspection that found no receipt; it is written only when its identity
    is the planned one and the transfer is permitted; it is shut down only
    after its own dump gave the table proofs of the source; and a receipt is
    committed only after that shutdown, with the proof of that transfer. *)
Theorem ExecuteDomain_ordered wired p t a t1 R (e : copy_call R) x t2
  (Hx : exec (ExecuteDomain wired p) t a) (Ht : t = t1 ++ Event e x :: t2) :
  ordered p R t1 e.
Proof.
  apply (guarded_exec (ordered p) [] _ _ _ _ _ _ _ _) with (2 := Hx) (3 := Ht).
  unfold ExecuteDomain. destruct (_ || _); [done|].
  apply guarded_bind; [apply body_ordered|]. intros t' o _. simpl. by split.
Qed.

(** Every execution of a valid plan ends with exactly one cleanup,
    whatever failed before; a hold that was taken is released exactly once,
    just before that; and what is returned is a receipt or an error made of
    fixed phases and classes only. *)
Theorem ExecuteDomain_cleans_up p t a (Hv : Validate p = Ok tt)
  (Hx : exec (ExecuteDomain true p) t a) :
  exists t0 c, t = t0 ++ [Event Cleanup c] /\ hold_released t0
    /\ Forall (fun ev => is_cleanup ev = false) t0
    /\ match a with Ok _ => c = Ok tt | Err e => safe e end.
Proof.
  unfold ExecuteDomain in Hx. rewrite Hv in Hx. cbn [is_ok negb orb] in Hx.
  apply exec_bind in Hx as (t1 & t2 & o & -> & Hb & Hx).
  apply exec_bind in Hx as (t3 & t4 & c & -> & ->%exec_call & [-> Hr]).
  exists t1, c. pose proof (body_shape _ _ _ Hb) as Hs. split_and!; [done|done| |].
  - assert (Hq : forall u, quiet_events u -> Forall (fun ev => is_cleanup ev = false) u).
    { intros u Hu. eapply Forall_impl; [exact Hu|]. naive_solver. }
    destruct Hs as [Hs|[(u & r & -> & Hu & _)|(u & v & r & -> & Hu & Hw)]].
    + by apply Hq.
    + apply Forall_app. auto.
    + apply Forall_app. split; [auto|]. constructor; [done|]. apply Forall_app. auto.
  - destruct c as [[]|e']; simpl in Hr; [|subst a; apply safeFailure_safe].
    destruct o as [[s r]|[s e]]; subst a; [done|apply safeFailure_safe].
Qed.
End ExecutorProperties.

(** ** Witnesses *)

Definition sample_json : PlanJson := fun p => chars (Binding p).
Definition sample_checked : CredentialCheck :=
  {| Cc_Source := "s"; Cc_Target := "t"; Cc_TargetRoot := "r"; Cc_Backup := "b"; Cc_CA := "ca";
     Cc_Principals := [] |}.
Definition sample_source : SourceIdentity :=
  {| Si_PodUID := "pod"; Si_ServerUUID := "uuid"; Si_Version := "8.4.0";
     Si_Tables := [{| Tbl_Name := "users"; Tbl_Engine := "InnoDB"; Tbl_PrimaryKey := true |}] |}.
Definition sample_target : TargetIdentity :=
  {| Ti_PVCUID := "pvc"; Ti_PodUID := "target"; Ti_SecretUID := "uid-1" |}.

(** A cluster in which nothing fails; [inspect] is what the target holds. *)
Definition sample_oracle (inspect : result error (option Receipt)) (R : Type)
    (h : list (event copy_call)) (e : copy_call R) : R :=
  match e in copy_call R return R with
  | CtxErr => Nil
  | Authority _ => Ok tt
  | CheckCredentialsCall => Ok sample_checked
  | SourceCall => Ok sample_source
  | HoldCall => Ok true
  | HoldCheck => Ok tt
  | HoldRelease => Ok tt
  | Inspect => inspect
  | Provision => Ok sample_target
  | Stream _ =>
      {| tr_input := sample_dump; tr_end := None; tr_sizes := [200; 30; 200; 200; 200]%nat;
         tr_restore := Ok tt; tr_dump := Ok tt |}
  | TargetDump _ => {| td_chunks := [firstn 20 sample_dump; skipn 20 sample_dump]; td_error := Ok tt |}
  | Shutdown _ => Ok tt
  | Commit _ => Ok tt
  | Cleanup => Ok tt
  end.
Definition sample_copy (inspect : result error (option Receipt)) :=
  run (sample_oracle inspect) []
    (ExecuteDomain (H := sample_hash) (H0 := sample_json) true sample_plan).

Lemma sample_copy_exec inspect :
  exec (ExecuteDomain (H := sample_hash) (H0 := sample_json) true sample_plan)
    (sample_copy inspect).1 (sample_copy inspect).2.
Proof. apply run_exec. Qed.

Lemma ExecuteDomain_success_witness :
  exists r, (sample_copy (Ok None)).2 = Ok r /\ Validate sample_plan = Ok tt.
Proof.
  pose proof (sample_copy_exec (Ok None)) as Hx.
  destruct (sample_copy (Ok None)).2 as [r|e] eqn:E; [|vm_compute in E; discriminate E].
  exists r. split; [reflexivity|].
  exact (proj1 (ExecuteDomain_success (H := sample_hash) (H0 := sample_json) true sample_plan _ _ Hx)).
Defined.

Lemma ExecuteDomain_ordered_witness :
  exists t1 r, In (Event (Shutdown (Rc_Target r)) (Ok tt)) t1.
Proof.
  pose proof (sample_copy_exec (Ok None)) as Hx.
  destruct (sample_copy (Ok None)).2 as [r|e] eqn:E; [|vm_compute in E; discriminate E].
  exists (firstn 37 (sample_copy (Ok None)).1), r.
  refine (proj1 (ExecuteDomain_ordered (H := sample_hash) (H0 := sample_json) true sample_plan _ _
    (firstn 37 (sample_copy (Ok None)).1) _ (Commit r) (Ok tt)
    (skipn 38 (sample_copy (Ok None)).1) Hx _)).
  vm_compute in E. injection E as <-. vm_compute. reflexivity.
Defined.

Lemma ExecuteDomain_cleans_up_witness :
  exists t0 c, (sample_copy (Err (Opaque "down"))).1 = t0 ++ [Event Cleanup c].
Proof.
  destruct (ExecuteDomain_cleans_up (H := sample_hash) (H0 := sample_json) sample_plan
    (sample_copy (Err (Opaque "down"))).1 (sample_copy (Err (Opaque "down"))).2
    sample_plan_valid (sample_copy_exec _)) as (t0 & c & Ht & _).
  exists t0, c. exact Ht.
Defined.
