(* ===== verification/EnvStore.v ===== *)
(** * Environment stores

    [internal/store/store.go], [environment_record.go], [sql_store.go]: the
    environment as the runner persists it, the JSON file store, the SQL store,
    and the contract both give to the orchestrator ([EnvironmentStore]).

    The fields of [domain.Environment] that the stores do not look at are the
    type [X].  A map that the code enumerates is given by its enumeration. *)

From stdpp Require Import base list gmap strings sorting.
From Stdlib Require Import ZArith Lia Ascii String.
From S2P Require Import Prelude GoStrings SqlPlan SqlFailure.

Local Open Scope string_scope.
Local Open Scope Z_scope.
Local Open Scope list_scope.

Inductive store_error : Type :=
| ErrNotFound | ErrConflict | ErrIdRequired
| ErrIO                       (** of the file system, of JSON or of the database *)
| ErrBootstrapSessionNotFound | ErrProjectConfigNotFound
| ErrBootstrapTokenAlreadyUsed | ErrBootstrapTokenInvalid | ErrBootstrapTokenExpired
| ErrBootstrapIdentityMismatch (key : string)
| ErrProjectNotFound | ErrProductNotFound | ErrRequired (what : string).
#[export] Instance store_error_eq_dec : EqDecision store_error.
Proof. solve_decision. Defined.

(** What happens to [os.MkdirAll] and [os.WriteFile]: a write that fails may
    leave a truncated file. *)
Inductive disk : Type := DiskWrites | DiskRefuses | DiskTears.

Section Environments.
Context {X : Type}.

Record Environment := {
  E_TenantID : string; E_ID : string; E_Project : string;
  E_PullRequestID : string; E_Branch : string; E_Commit : string;
  E_Status : string; E_Mode : string; E_TTLHours : Z;
  E_CreatedAt : Z; E_UpdatedAt : Z; E_rest : X }.

Record EnvironmentRecord := {
  R_TenantID : string; R_ID : string; R_ProjectID : string; R_PRID : string;
  R_Branch : string; R_CommitSHA : string; R_Status : string; R_Type : string;
  R_TTL : Z; R_CreatedAt : Z; R_UpdatedAt : Z; R_Payload : Environment }.

Definition NewEnvironmentRecord (e : Environment) : EnvironmentRecord :=
  {| R_TenantID := E_TenantID e; R_ID := E_ID e; R_ProjectID := E_Project e;
     R_PRID := E_PullRequestID e; R_Branch := E_Branch e; R_CommitSHA := E_Commit e;
     R_Status := E_Status e; R_Type := E_Mode e; R_TTL := E_TTLHours e;
     R_CreatedAt := E_CreatedAt e; R_UpdatedAt := E_UpdatedAt e; R_Payload := e |}.

Definition or_str (a b : string) : string := if str_eq a "" then b else a.
Definition or_Z (a b : Z) : Z := if a =? 0 then b else a.

(** [EnvironmentRecord.Environment] *)
Definition record_environment (r : EnvironmentRecord) : Environment :=
  let e := R_Payload r in
  {| E_TenantID := or_str (E_TenantID e) (R_TenantID r);
     E_ID := or_str (E_ID e) (R_ID r);
     E_Project := or_str (E_Project e) (R_ProjectID r);
     E_PullRequestID := or_str (E_PullRequestID e) (R_PRID r);
     E_Branch := or_str (E_Branch e) (R_Branch r);
     E_Commit := or_str (E_Commit e) (R_CommitSHA r);
     E_Status := or_str (E_Status e) (R_Status r);
     E_Mode := or_str (E_Mode e) (R_Type r);
     E_TTLHours := or_Z (E_TTLHours e) (R_TTL r);
     E_CreatedAt := or_Z (E_CreatedAt e) (R_CreatedAt r);
     E_UpdatedAt := or_Z (E_UpdatedAt e) (R_UpdatedAt r);
     E_rest := E_rest e |}.

(** ** The JSON store *)

(** The file: absent, empty, not JSON, or its entries, each a record or an
    environment of an older version. *)
Inductive file : Type :=
| Absent | Empty | Corrupt
| Entries (l : list (string * (EnvironmentRecord + Environment))).

Record JSONStore := { js_data : gmap string EnvironmentRecord; js_file : file }.

Definition by_created (a b : EnvironmentRecord) : bool := R_CreatedAt b <? R_CreatedAt a.
Definition env_by_created (a b : Environment) : bool := E_CreatedAt b <? E_CreatedAt a.

Definition set_record_id (r : EnvironmentRecord) (id : string) : EnvironmentRecord :=
  {| R_TenantID := R_TenantID r; R_ID := id; R_ProjectID := R_ProjectID r; R_PRID := R_PRID r;
     R_Branch := R_Branch r; R_CommitSHA := R_CommitSHA r; R_Status := R_Status r;
     R_Type := R_Type r; R_TTL := R_TTL r; R_CreatedAt := R_CreatedAt r;
     R_UpdatedAt := R_UpdatedAt r; R_Payload := R_Payload r |}.
Definition set_record_payload (r : EnvironmentRecord) (e : Environment) : EnvironmentRecord :=
  {| R_TenantID := R_TenantID r; R_ID := R_ID r; R_ProjectID := R_ProjectID r; R_PRID := R_PRID r;
     R_Branch := R_Branch r; R_CommitSHA := R_CommitSHA r; R_Status := R_Status r;
     R_Type := R_Type r; R_TTL := R_TTL r; R_CreatedAt := R_CreatedAt r;
     R_UpdatedAt := R_UpdatedAt r; R_Payload := e |}.
Definition set_env_id (e : Environment) (id : string) : Environment :=
  {| E_TenantID := E_TenantID e; E_ID := id; E_Project := E_Project e;
     E_PullRequestID := E_PullRequestID e; E_Branch := E_Branch e; E_Commit := E_Commit e;
     E_Status := E_Status e; E_Mode := E_Mode e; E_TTLHours := E_TTLHours e;
     E_CreatedAt := E_CreatedAt e; E_UpdatedAt := E_UpdatedAt e; E_rest := E_rest e |}.

(** The body of the loop of [load]. *)
Definition load_entry (m : gmap string EnvironmentRecord)
    (entry : string * (EnvironmentRecord + Environment)) : gmap string EnvironmentRecord :=
  let '(id, item) := entry in
  match item with
  | inl r =>
      let r1 := if str_eq (R_ID r) "" then set_record_id r id else r in
      let r2 := if str_eq (E_ID (R_Payload r1)) ""
                then set_record_payload r1 (record_environment r1) else r1 in
      <[R_ID r2 := r2]> m
  | inr e =>
      let e1 := if str_eq (E_ID e) "" then set_env_id e id else e in
      <[E_ID e1 := NewEnvironmentRecord e1]> m
  end.
(** [JSONStore.load]; the entries in the order the map is iterated. *)
Definition load (f : file) : result store_error (gmap string EnvironmentRecord) :=
  match f with
  | Absent | Empty => Ok ∅
  | Corrupt => Err ErrIO
  | Entries l => Ok (fold_left load_entry l ∅)
  end.
Definition NewJSONStore (f : file) : result store_error JSONStore :=
  m <-? load f;; Ok {| js_data := m; js_file := f |}.

(** [persistLocked] *)
Definition persistLocked (s : JSONStore) (d : disk) : JSONStore * option store_error :=
  match d with
  | DiskWrites =>
      ({| js_data := js_data s;
          js_file := Entries (map (fun kv => (kv.1, inl kv.2)) (map_to_list (js_data s))) |}, None)
  | DiskRefuses => (s, Some ErrIO)
  | DiskTears => ({| js_data := js_data s; js_file := Corrupt |}, Some ErrIO)
  end.

(** [List] and [ListRecords] when the map is iterated as [values]. *)
Definition List (values : list EnvironmentRecord) : list Environment :=
  sort_slice env_by_created (map record_environment values).
Definition ListRecords (values : list EnvironmentRecord) : list EnvironmentRecord :=
  sort_slice by_created values.

Definition Get (s : JSONStore) (id : string) : result store_error Environment :=
  match js_data s !! id with Some r => Ok (record_environment r) | None => Err ErrNotFound end.
Definition GetRecord (s : JSONStore) (id : string) : result store_error EnvironmentRecord :=
  match js_data s !! id with Some r => Ok r | None => Err ErrNotFound end.

Definition Save (s : JSONStore) (d : disk) (e : Environment) : JSONStore * option store_error :=
  let record := NewEnvironmentRecord e in
  let stale := match js_data s !! E_ID e with
               | Some existing =>
                   (R_UpdatedAt record =? 0) || (R_UpdatedAt record <? R_UpdatedAt existing)
               | None => false
               end in
  if stale then (s, Some ErrConflict)
  else persistLocked {| js_data := <[E_ID e := record]> (js_data s); js_file := js_file s |} d.

Definition Delete (s : JSONStore) (d : disk) (id : string) : JSONStore * option store_error :=
  match js_data s !! id with
  | None => (s, Some ErrNotFound)
  | Some _ => persistLocked {| js_data := delete id (js_data s); js_file := js_file s |} d
  end.
(** ** The SQL store *)

(** A row of the table [environments]. *)
Record row := {
  c_project : string; c_pr : string; c_branch : string; c_commit : string;
  c_status : string; c_type : string; c_ttl : Z; c_payload : option Environment;
  c_created : Z; c_updated : Z }.
Notation table := (gmap string row).

(** [envFallbackRecord] *)
Definition envFallbackRecord (e : Environment) (id : string) (r : row) : Environment :=
  {| E_TenantID := E_TenantID e;
     E_ID := or_str (E_ID e) id;
     E_Project := or_str (E_Project e) (c_project r);
     E_PullRequestID := or_str (E_PullRequestID e) (c_pr r);
     E_Branch := or_str (E_Branch e) (c_branch r);
     E_Commit := or_str (E_Commit e) (c_commit r);
     E_Status := if blank (E_Status e) then c_status r else E_Status e;
     E_Mode := or_str (E_Mode e) (c_type r);
     E_TTLHours := or_Z (E_TTLHours e) (c_ttl r);
     E_CreatedAt := or_Z (E_CreatedAt e) (c_created r);
     E_UpdatedAt := or_Z (E_UpdatedAt e) (c_updated r);
     E_rest := E_rest e |}.

(** The zero [domain.Environment]. *)
Definition zero_environment (x0 : X) : Environment :=
  {| E_TenantID := ""; E_ID := ""; E_Project := ""; E_PullRequestID := ""; E_Branch := "";
     E_Commit := ""; E_Status := ""; E_Mode := ""; E_TTLHours := 0; E_CreatedAt := 0;
     E_UpdatedAt := 0; E_rest := x0 |}.

Section Sql.
(** [col] is what the column type keeps of a time. *)
Context (x0 : X) (col : Z -> Z).

(** [scanEnvironmentRecord] *)
Definition scanEnvironmentRecord (id : string) (r : row) : EnvironmentRecord :=
  let payload := match c_payload r with Some e => e | None => zero_environment x0 end in
  {| R_TenantID := ""; R_ID := id; R_ProjectID := c_project r; R_PRID := c_pr r;
     R_Branch := c_branch r; R_CommitSHA := c_commit r; R_Status := c_status r;
     R_Type := c_type r; R_TTL := c_ttl r; R_CreatedAt := c_created r;
     R_UpdatedAt := c_updated r; R_Payload := envFallbackRecord payload id r |}.

Definition sql_get (t : table) (up : bool) (id : string) : result store_error EnvironmentRecord :=
  let id := trim_space id in
  refuse str_eq id "" with ErrNotFound;;
  refuse negb up with ErrIO;;
  match t !! id with
  | Some r => Ok (scanEnvironmentRecord id r)
  | None => Err ErrNotFound
  end.
Definition sql_Get (t : table) (up : bool) (id : string) : result store_error Environment :=
  r <-? sql_get t up id;; Ok (record_environment r).

Definition set_created (e : Environment) (now : Z) : Environment :=
  {| E_TenantID := E_TenantID e; E_ID := E_ID e; E_Project := E_Project e;
     E_PullRequestID := E_PullRequestID e; E_Branch := E_Branch e; E_Commit := E_Commit e;
     E_Status := E_Status e; E_Mode := E_Mode e; E_TTLHours := E_TTLHours e;
     E_CreatedAt := now; E_UpdatedAt := E_UpdatedAt e; E_rest := E_rest e |}.
Definition set_updated (e : Environment) (now : Z) : Environment :=
  {| E_TenantID := E_TenantID e; E_ID := E_ID e; E_Project := E_Project e;
     E_PullRequestID := E_PullRequestID e; E_Branch := E_Branch e; E_Commit := E_Commit e;
     E_Status := E_Status e; E_Mode := E_Mode e; E_TTLHours := E_TTLHours e;
     E_CreatedAt := E_CreatedAt e; E_UpdatedAt := now; E_rest := E_rest e |}.
Definition stamped (e : Environment) (now1 now2 : Z) : Environment :=
  let e1 := if E_CreatedAt e =? 0 then set_created e now1 else e in
  if E_UpdatedAt e1 =? 0 then set_updated e1 now2 else e1.

(** [INSERT ... ON CONFLICT (id) DO UPDATE ... WHERE EXCLUDED.updated_at >=
    environments.updated_at]: the table and the number of rows affected. *)
Definition upsert (t : table) (id : string) (r : row) : table * Z :=
  match t !! id with
  | None => (<[id := r]> t, 1)
  | Some old =>
      if c_updated old <=? c_updated r
      then (<[id := {| c_project := c_project r; c_pr := c_pr r; c_branch := c_branch r;
                       c_commit := c_commit r; c_status := c_status r; c_type := c_type r;
                       c_ttl := c_ttl r; c_payload := c_payload r;
                       c_created := c_created old; c_updated := c_updated r |}]> t, 1)
      else (t, 0)
  end.

Definition sql_Save (t : table) (up : bool) (now1 now2 : Z) (e : Environment)
    : table * option store_error :=
  if blank (E_ID e) then (t, Some ErrIdRequired)
  else if negb up then (t, Some ErrIO)
  else
    let e := stamped e now1 now2 in
    let record := NewEnvironmentRecord e in
    let '(t', rows) := upsert t (R_ID record)
      {| c_project := R_ProjectID record; c_pr := R_PRID record; c_branch := R_Branch record;
         c_commit := R_CommitSHA record; c_status := R_Status record; c_type := R_Type record;
         c_ttl := R_TTL record; c_payload := Some (R_Payload record);
         c_created := col (R_CreatedAt record); c_updated := col (R_UpdatedAt record) |} in
    if (rows =? 0) && bool_decide (is_Some (t' !! R_ID record))
    then (t', Some ErrConflict) else (t', None).

Definition sql_Delete (t : table) (up : bool) (id : string) : table * option store_error :=
  if negb up then (t, Some ErrIO)
  else
    let id := trim_space id in
    match t !! id with
    | Some _ => (delete id t, None)
    | None => (t, Some ErrNotFound)
    end.

(** [ORDER BY created_at DESC], in the order [rows] the database finds them. *)
Definition sql_ListRecords (rows : list (string * row)) : list EnvironmentRecord :=
  sort_slice by_created (map (fun ir => scanEnvironmentRecord ir.1 ir.2) rows).
Definition sql_List (rows : list (string * row)) : list Environment :=
  map record_environment (sql_ListRecords rows).
End Sql.
End Environments.
Arguments Environment X : clear implicits.
Arguments EnvironmentRecord X : clear implicits.
Arguments JSONStore X : clear implicits.
Arguments file X : clear implicits.
Arguments row X : clear implicits.
Notation table X := (gmap string (row X)).

(** ** The contract of an environment store *)

(** [IO] is what the outside world does during one operation, [healthy] says
    that it does not fail; [version] is the update time the store compares. *)
Class EnvironmentStore (X S IO : Type) := {
  es_get : S -> IO -> string -> result store_error (Environment X);
  es_save : S -> IO -> Environment X -> S * option store_error;
  es_delete : S -> IO -> string -> S * option store_error;
  es_healthy : IO -> Prop;
  es_version : Z -> Z }.

(** The identifiers and times the callers give to a store. *)
Record es_good {X} (e : Environment X) : Prop := {
  good_id : E_ID e <> "";
  good_trimmed : trim_space (E_ID e) = E_ID e;
  good_created : E_CreatedAt e <> 0;
  good_updated : E_UpdatedAt e <> 0 }.

Class EnvironmentStoreLaws (X S IO : Type) `{EnvironmentStore X S IO} := {
  es_version_mono : forall a b, a <= b -> es_version a <= es_version b;
  (** the versions of the stored environments, by identifier *)
  es_stored : S -> gmap string Z;
  es_save_ok : forall s io e, es_good e -> es_healthy io ->
    (es_save s io e).2 = None <->
    match es_stored s !! E_ID e with Some v => v <= es_version (E_UpdatedAt e) | None => True end;
  es_save_conflict : forall s io e, es_good e -> es_healthy io ->
    (es_save s io e).2 <> None -> es_save s io e = (s, Some ErrConflict);
  es_save_stored : forall s io e, es_good e -> (es_save s io e).2 = None ->
    es_stored (es_save s io e).1 = <[E_ID e := es_version (E_UpdatedAt e)]> (es_stored s);
  es_get_save : forall s io io' e, es_good e -> es_healthy io' -> (es_save s io e).2 = None ->
    es_get (es_save s io e).1 io' (E_ID e) = Ok e;
  es_get_other : forall s io io' e id, es_good e -> (es_save s io e).2 = None ->
    trim_space id = id -> id <> E_ID e ->
    es_get (es_save s io e).1 io' id = es_get s io' id;
  es_delete_ok : forall s io id, trim_space id = id -> es_healthy io ->
    es_delete s io id =
    match es_stored s !! id with
    | Some _ => ((es_delete s io id).1, None)
    | None => (s, Some ErrNotFound)
    end;
  es_delete_stored : forall s io id, trim_space id = id -> (es_delete s io id).2 = None ->
    es_stored (es_delete s io id).1 = delete id (es_stored s);
  es_get_missing : forall s io id, id <> "" -> trim_space id = id -> es_healthy io ->
    es_stored s !! id = None -> es_get s io id = Err ErrNotFound;
  es_get_io : forall s io io' id, es_healthy io -> es_healthy io' -> es_get s io id = es_get s io' id }.

(** ** Lemmas *)

Section RecordLemmas.
Context {X : Type}.
Implicit Types e : Environment X.

Lemma or_str_same a : or_str a a = a.
Proof. unfold or_str. by destruct (str_eq a ""). Qed.
Lemma or_Z_same a : or_Z a a = a.
Proof. unfold or_Z. by destruct (a =? 0). Qed.
Lemma or_str_idem a b : or_str (or_str a b) b = or_str a b.
Proof. unfold or_str. destruct (str_eq a "") eqn:E; [|by rewrite E]. by destruct (str_eq b ""). Qed.
Lemma or_Z_idem a b : or_Z (or_Z a b) b = or_Z a b.
Proof. unfold or_Z. destruct (a =? 0) eqn:E; [|by rewrite E]. by destruct (b =? 0). Qed.

Lemma record_environment_new e : record_environment (NewEnvironmentRecord e) = e.
Proof. unfold record_environment. simpl. rewrite !or_str_same, !or_Z_same. by destruct e. Qed.

Lemma record_environment_filled (r : EnvironmentRecord X) :
  record_environment (set_record_payload r (record_environment r)) = record_environment r.
Proof. unfold record_environment. simpl. by rewrite !or_str_idem, !or_Z_idem. Qed.

(** The invariant of the data of a JSON store: an entry's key is its
    identifier, and an entry that does not carry one in its payload has
    nothing to fill in. *)
Definition entry_ok (id : string) (r : EnvironmentRecord X) : Prop :=
  R_ID r = id /\ (E_ID (R_Payload r) = "" -> record_environment r = R_Payload r).
Definition data_ok (m : gmap string (EnvironmentRecord X)) : Prop := map_Forall entry_ok m.

Lemma data_ok_new m e : data_ok m -> data_ok (<[E_ID e := NewEnvironmentRecord e]> m).
Proof.
  intros Hm. apply map_Forall_insert_2; [|done]. split; [done|].
  intros _. by rewrite record_environment_new.
Qed.

Lemma load_entry_ok m entry : data_ok m -> data_ok (load_entry m entry).
Proof.
  intros Hm. destruct entry as [id [r|e]]; [|by apply data_ok_new]. cbn [load_entry]. cbv zeta.
  set (r1 := if str_eq (R_ID r) "" then _ else r).
  apply map_Forall_insert_2; [|done]. split; [done|].
  destruct (str_eq (E_ID (R_Payload r1)) "") eqn:E.
  - intros _. by rewrite record_environment_filled.
  - apply str_eq_false in E. done.
Qed.

Lemma load_ok (f : file X) m : load f = Ok m -> data_ok m.
Proof.
  destruct f as [| | |l]; simpl; try done; try (intros [= <-]; apply map_Forall_empty).
  intros [= <-]. assert (Hl : forall m, data_ok m -> data_ok (fold_left load_entry l m)).
  { induction l as [|x l IH]; intros m Hm; simpl; [done|]. by apply IH, load_entry_ok. }
  apply Hl, map_Forall_empty.
Qed.

Lemma load_entry_stored m id r : entry_ok id r -> load_entry m (id, inl r) = <[id := r]> m.
Proof.
  intros [<- Hr]. cbn [load_entry]. cbv zeta.
  assert ((if str_eq (R_ID r) "" then set_record_id r (R_ID r) else r) = r) as ->.
  { destruct (str_eq _ _); [by destruct r|done]. }
  destruct (str_eq (E_ID (R_Payload r)) "") eqn:E; [|done].
  apply str_eq_true in E. rewrite (Hr E). by destruct r.
Qed.

Lemma fold_insert {A} (l : list (string * A)) (m : gmap string A) :
  NoDup l.*1 ->
  fold_left (fun m kv => <[kv.1 := kv.2]> m) l m = list_to_map l ∪ m.
Proof.
  revert m. induction l as [|[k v] l IH]; intros m; simpl; [by rewrite (left_id_L ∅ (∪))|].
  intros [Hk Hl]%NoDup_cons. rewrite IH by done. rewrite <- insert_union_r.
  - by rewrite insert_union_l.
  - by apply not_elem_of_list_to_map.
Qed.

(** Reading back what [persistLocked] wrote, in any order. *)
Lemma load_persisted (m : gmap string (EnvironmentRecord X)) l :
  data_ok m -> l ≡ₚ map (fun kv => (kv.1, inl kv.2)) (map_to_list m) ->
  load (Entries l) = Ok m.
Proof.
  intros Hm Hl. simpl. f_equal.
  assert (exists l', l = map (fun kv => (kv.1, inl kv.2)) l' /\ l' ≡ₚ map_to_list m) as (l' & -> & Hp).
  { apply Permutation_map_inv in Hl as (l' & -> & Hp). by exists l'. }
  assert (Hk : NoDup l'.*1) by (rewrite Hp; apply NoDup_fst_map_to_list).
  assert (Hf : Forall (fun kv => entry_ok kv.1 kv.2) l').
  { rewrite Hp. apply map_Forall_to_list in Hm. eapply Forall_impl; [exact Hm|]. by intros []. }
  assert (forall m0, fold_left load_entry (map (fun kv => (kv.1, inl kv.2)) l') m0
                = fold_left (fun m kv => <[kv.1 := kv.2]> m) l' m0) as ->.
  { clear -Hf. induction Hf as [|[k v] l' Hx Hf IH]; intros m0; [done|].
    cbn [map fold_left]. rewrite load_entry_stored by done. apply IH. }
  rewrite fold_insert by done. rewrite (right_id_L ∅ (∪)).
  rewrite <- (list_to_map_to_list m). apply list_to_map_proper; done.
Qed.
End RecordLemmas.

(** ** The two implementations keep the contract *)

Section JsonInstance.
Context {X : Type}.

#[export] Instance json_store : EnvironmentStore X (JSONStore X) disk := {|
  es_get s _ id := Get s id;
  es_save := Save;
  es_delete := Delete;
  es_healthy d := d = DiskWrites;
  es_version t := t |}.

Lemma persistLocked_data (s : JSONStore X) d : js_data (persistLocked s d).1 = js_data s.
Proof. by destruct d. Qed.
Lemma persistLocked_ok (s : JSONStore X) d : (persistLocked s d).2 = None <-> d = DiskWrites.
Proof. by destruct d. Qed.

(** [Save] replaces an environment exactly if the new one is not older. *)
Lemma Save_spec (s : JSONStore X) d e :
  Save s d e =
  if match js_data s !! E_ID e with
     | Some r => (E_UpdatedAt e =? 0) || (E_UpdatedAt e <? R_UpdatedAt r)
     | None => false
     end
  then (s, Some ErrConflict)
  else persistLocked {| js_data := <[E_ID e := NewEnvironmentRecord e]> (js_data s);
                        js_file := js_file s |} d.
Proof. done. Qed.

Lemma Save_data (s : JSONStore X) d e : (Save s d e).2 = None ->
  d = DiskWrites /\ js_data (Save s d e).1 = <[E_ID e := NewEnvironmentRecord e]> (js_data s).
Proof.
  rewrite Save_spec. destruct (match _ with Some _ => _ | None => _ end); [done|].
  intros Hd%persistLocked_ok. by rewrite persistLocked_data.
Qed.

#[export] Instance json_laws : EnvironmentStoreLaws X (JSONStore X) disk.
Proof.
  refine {| es_stored s := R_UpdatedAt <$> js_data s |}; simpl.
  - done.
  - intros s io e [] ->. rewrite Save_spec, lookup_fmap.
    destruct (js_data s !! E_ID e) as [r|]; simpl; [|done].
    destruct (Z.eqb_spec (E_UpdatedAt e) 0); [done|]. simpl.
    destruct (Z.ltb_spec (E_UpdatedAt e) (R_UpdatedAt r)); simpl; [|done].
    split; [done|lia].
  - intros s io e _ ->. rewrite Save_spec. by destruct (match _ with Some _ => _ | None => _ end).
  - intros s io e _ [_ ->]%Save_data. by rewrite fmap_insert.
  - intros s io io' e _ _ [_ Hs]%Save_data. unfold Get.
    by rewrite Hs, lookup_insert_eq, record_environment_new.
  - intros s io io' e id _ [_ Hs]%Save_data _ Hid. unfold Get. by rewrite Hs, lookup_insert_ne.
  - intros s io id _ ->. unfold Delete. rewrite lookup_fmap. by destruct (js_data s !! id).
  - intros s io id _. unfold Delete. destruct (js_data s !! id); [|done].
    intros _. rewrite persistLocked_data. simpl. by rewrite fmap_delete.
  - intros s io id _ _ _ Hn. rewrite lookup_fmap in Hn. unfold Get.
    by destruct (js_data s !! id).
  - done.
Defined.
End JsonInstance.

Section SqlInstance.
Context {X : Type} (x0 : X) (col : Z -> Z).

(** The clock readings and whether the database answers. *)
Record sql_io := { io_up : bool; io_now1 : Z; io_now2 : Z }.

Definition sql_store : EnvironmentStore X (table X) sql_io := {|
  es_get t io id := sql_Get x0 t (io_up io) id;
  es_save t io e := sql_Save col t (io_up io) (io_now1 io) (io_now2 io) e;
  es_delete t io id := sql_Delete t (io_up io) id;
  es_healthy io := io_up io = true;
  es_version := col |}.

Lemma blank_trimmed s : trim_space s = s -> blank s = str_eq s "".
Proof. intros Hs. unfold blank. by rewrite Hs. Qed.

Lemma stamped_good (e : Environment X) n1 n2 : es_good e -> stamped e n1 n2 = e.
Proof.
  intros []. unfold stamped. rewrite (proj2 (Z.eqb_neq _ _) good_created0).
  by rewrite (proj2 (Z.eqb_neq _ _) good_updated0).
Qed.

(** The row [sql_Save] asks the database to write. *)
Definition row_of (e : Environment X) : row X :=
  {| c_project := E_Project e; c_pr := E_PullRequestID e; c_branch := E_Branch e;
     c_commit := E_Commit e; c_status := E_Status e; c_type := E_Mode e; c_ttl := E_TTLHours e;
     c_payload := Some e; c_created := col (E_CreatedAt e); c_updated := col (E_UpdatedAt e) |}.

Lemma sql_Save_good t up n1 n2 (e : Environment X) : es_good e ->
  sql_Save col t up n1 n2 e =
  (if negb up then (t, Some ErrIO)
   else match t !! E_ID e with
        | Some old =>
            if c_updated old <=? col (E_UpdatedAt e)
            then ((upsert t (E_ID e) (row_of e)).1, None) else (t, Some ErrConflict)
        | None => (<[E_ID e := row_of e]> t, None)
        end).
Proof.
  intros Hg. pose proof Hg as [Hid Ht _ _]. unfold sql_Save.
  rewrite blank_trimmed by done. rewrite (proj2 (str_eq_false _ _) Hid).
  destruct up; [|done]. simpl. rewrite stamped_good by done.
  fold (row_of e). unfold upsert. destruct (t !! E_ID e) as [old|] eqn:Eo; [|done].
  simpl. destruct (c_updated old <=? col (E_UpdatedAt e)); [done|].
  simpl. by rewrite Eo, bool_decide_true by eauto.
Qed.

(** The row stored for an environment, whatever creation time it keeps. *)
Lemma upsert_lookup t (e : Environment X) : exists created,
  forall old, t !! E_ID e = Some old -> c_updated old <=? col (E_UpdatedAt e) = true ->
  (upsert t (E_ID e) (row_of e)).1 =
    <[E_ID e := {| c_project := E_Project e; c_pr := E_PullRequestID e; c_branch := E_Branch e;
                   c_commit := E_Commit e; c_status := E_Status e; c_type := E_Mode e;
                   c_ttl := E_TTLHours e; c_payload := Some e; c_created := created;
                   c_updated := col (E_UpdatedAt e) |}]> t.
Proof.
  destruct (t !! E_ID e) as [old|] eqn:Eo; [|by exists 0].
  exists (c_created old). intros old' [= <-] Hu. unfold upsert. by rewrite Eo; simpl; rewrite Hu.
Qed.

Lemma sql_Save_table t io (e : Environment X) : es_good e ->
  (sql_Save col t (io_up io) (io_now1 io) (io_now2 io) e).2 = None ->
  exists r, (sql_Save col t (io_up io) (io_now1 io) (io_now2 io) e).1 = <[E_ID e := r]> t
    /\ c_updated r = col (E_UpdatedAt e)
    /\ record_environment (scanEnvironmentRecord x0 (E_ID e) r) = e.
Proof.
  intros Hg. rewrite sql_Save_good by done. destruct (io_up io); [|done]. simpl.
  assert (Hr : forall created, record_environment (scanEnvironmentRecord x0 (E_ID e)
    {| c_project := E_Project e; c_pr := E_PullRequestID e; c_branch := E_Branch e;
       c_commit := E_Commit e; c_status := E_Status e; c_type := E_Mode e;
       c_ttl := E_TTLHours e; c_payload := Some e; c_created := created;
       c_updated := col (E_UpdatedAt e) |}) = e).
  { intros created. destruct Hg as [_ _ Hc Hu].
    unfold record_environment, scanEnvironmentRecord, envFallbackRecord. simpl.
    rewrite !or_str_same, !or_Z_same.
    assert ((if blank (E_Status e) then E_Status e else E_Status e) = E_Status e) as ->
      by (by destruct (blank _)).
    rewrite or_str_same. unfold or_Z at 1 2 3 4.
    rewrite (proj2 (Z.eqb_neq _ _) Hc), (proj2 (Z.eqb_neq _ _) Hu).
    rewrite (proj2 (Z.eqb_neq _ _) Hc), (proj2 (Z.eqb_neq _ _) Hu).
    assert (or_str (E_TenantID e) "" = E_TenantID e) as ->.
    { unfold or_str. destruct (str_eq _ _) eqn:E; [|done]. by apply str_eq_true in E as ->. }
    by destruct e. }
  destruct (t !! E_ID e) as [old|] eqn:Eo.
  - destruct (_ <=? _) eqn:El; [|done]. intros _.
    destruct (upsert_lookup t e) as [created Hup]. simpl.
    rewrite (Hup _ Eo El). eexists. split_and!; [reflexivity|reflexivity|apply Hr].
  - intros _. exists (row_of e). split_and!; [reflexivity|reflexivity|apply Hr].
Qed.

Hypothesis col_mono : forall a b, a <= b -> col a <= col b.

Definition sql_laws : @EnvironmentStoreLaws X (table X) sql_io sql_store.
Proof.
  refine {| es_stored (t : table X) := c_updated <$> t |}; simpl.
  - exact col_mono.
  - intros t io e Hg Hup. rewrite sql_Save_good, lookup_fmap, Hup by done. simpl.
    destruct (t !! E_ID e) as [old|]; simpl; [|done].
    destruct (Z.leb_spec (c_updated old) (col (E_UpdatedAt e))); simpl; [done|].
    split; [done|lia].
  - intros t io e Hg Hup. rewrite sql_Save_good, Hup by done. simpl.
    destruct (t !! E_ID e); [|by intros []]. destruct (_ <=? _); [by intros []|done].
  - intros t io e Hg Hs. destruct (sql_Save_table t io e Hg Hs) as (r & -> & Hr & _).
    by rewrite fmap_insert, Hr.
  - intros t io io' e Hg Hup Hs. destruct (sql_Save_table t io e Hg Hs) as (r & -> & _ & Hr).
    destruct Hg as [Hid Ht _ _]. unfold sql_Get, sql_get.
    rewrite Ht, (proj2 (str_eq_false _ _) Hid), Hup. simpl.
    by rewrite lookup_insert_eq; simpl; rewrite Hr.
  - intros t io io' e id Hg Hs Ht Hid. destruct (sql_Save_table t io e Hg Hs) as (r & -> & _ & _).
    unfold sql_Get, sql_get. by rewrite Ht, lookup_insert_ne.
  - intros t io id Ht Hup. unfold sql_Delete. rewrite Hup, Ht, lookup_fmap. simpl.
    by destruct (t !! id).
  - intros t io id Ht. unfold sql_Delete. destruct (io_up io); [|done]. simpl. rewrite Ht.
    destruct (t !! id); [|done]. intros _. simpl. by rewrite fmap_delete.
  - intros t io id Hid Ht Hup Hn. unfold sql_Get, sql_get.
    rewrite Ht, (proj2 (str_eq_false _ _) Hid), Hup. simpl.
    rewrite lookup_fmap in Hn. by destruct (t !! id).
  - intros t io io' id Hup Hup'. unfold sql_Get, sql_get. by rewrite Hup, Hup'.
Defined.
End SqlInstance.

(** ** Clients of the contract *)

Section Client.
Context {X S IO : Type} `{EnvironmentStoreLaws X S IO}.

(** The store after saves of one after the other, refused ones included. *)
Definition save_all (s : S) (l : list (IO * Environment X)) : S :=
  fold_left (fun s x => (es_save s x.1 x.2).1) l s.

(** [e] is the last of the newest environments of [l]. *)
Definition newest (l : list (Environment X)) (e : Environment X) : Prop :=
  exists pre post, l = pre ++ e :: post
    /\ Forall (fun x => es_version (E_UpdatedAt x) <= es_version (E_UpdatedAt e)) pre
    /\ Forall (fun x => es_version (E_UpdatedAt x) < es_version (E_UpdatedAt e)) post.

Lemma save_all_from s l id e0 :
  Forall (fun x => es_good x.2 /\ es_healthy x.1 /\ E_ID x.2 = id) l ->
  E_ID e0 = id -> es_good e0 ->
  es_stored s !! id = Some (es_version (E_UpdatedAt e0)) ->
  (forall io, es_healthy io -> es_get s io id = Ok e0) ->
  exists e, newest (e0 :: map snd l) e
    /\ es_stored (save_all s l) !! id = Some (es_version (E_UpdatedAt e))
    /\ forall io, es_healthy io -> es_get (save_all s l) io id = Ok e.
Proof.
  intros Hl. revert s e0. induction Hl as [|[io e1] l (Hg & Hh & Hid) Hl IH]; intros s e0 He0 Hg0 Hs Hget.
  { exists e0. split; [|by split]. exists [], []. by repeat constructor. }
  simpl in Hg, Hh, Hid. cbn [save_all fold_left map fst snd].
  pose proof (es_save_ok s io e1 Hg Hh) as Hok. rewrite Hid, Hs in Hok.
  destruct (Z.le_gt_cases (es_version (E_UpdatedAt e0)) (es_version (E_UpdatedAt e1))) as [Hle|Hgt].
  - apply Hok in Hle as Hn.
    destruct (IH (es_save s io e1).1 e1 Hid Hg) as (e & (pre & post & Hpre & Hf1 & Hf2) & Hfin).
    + rewrite es_save_stored, Hid by done. by rewrite lookup_insert_eq.
    + intros io' Hio'. rewrite <- Hid. by apply es_get_save.
    + exists e. split; [|done]. exists (e0 :: pre), post. rewrite Hpre. split_and!; [done| |done].
      constructor; [|done].
      destruct pre as [|x pre]; simplify_eq/=; [done|].
      apply Forall_cons in Hf1 as [Hx _]. lia.
  - assert (Hn : (es_save s io e1).2 <> None) by (intros Hn%Hok; lia).
    rewrite (es_save_conflict s io e1 Hg Hh Hn). cbn [fst].
    destruct (IH s e0 He0 Hg0 Hs Hget) as (e & (pre & post & Hpre & Hf1 & Hf2) & Hfin).
    exists e. split; [|done]. destruct pre as [|x pre]; simplify_eq/=.
    + exists [], (e1 :: map snd l). split_and!; [done|done|]. by constructor.
    + exists (x :: e1 :: pre), post. rewrite H2. split_and!; [done| |done].
      apply Forall_cons in Hf1 as [Hx Hf1]. constructor; [done|]. constructor; [lia|done].
Qed.

Lemma save_all_newest s l id :
  Forall (fun x => es_good x.2 /\ es_healthy x.1 /\ E_ID x.2 = id) l ->
  l <> [] -> es_stored s !! id = None ->
  exists e, newest (map snd l) e
    /\ es_stored (save_all s l) !! id = Some (es_version (E_UpdatedAt e))
    /\ forall io, es_healthy io -> es_get (save_all s l) io id = Ok e.
Proof.
  intros Hl Hne Hs. destruct Hl as [|[io e0] l (Hg & Hh & Hid) Hl]; [done|].
  simpl in Hg, Hh, Hid. cbn [save_all fold_left map fst snd].
  pose proof (es_save_ok s io e0 Hg Hh) as Hok. rewrite Hid, Hs in Hok.
  assert (Hn : (es_save s io e0).2 = None) by by apply Hok.
  apply save_all_from; [done|done|done| |].
  - rewrite es_save_stored, Hid by done. by rewrite lookup_insert_eq.
  - intros io' Hio'. rewrite <- Hid. by apply es_get_save.
Qed.

(** What a save after those of [l] answers: a conflict, and nothing is changed,
    exactly if one of them is newer. *)
Lemma save_all_verdict s l id io e :
  Forall (fun x => es_good x.2 /\ es_healthy x.1 /\ E_ID x.2 = id) l -> es_stored s !! id = None ->
  es_good e -> es_healthy io -> E_ID e = id ->
  (Forall (fun x => es_version (E_UpdatedAt x) <= es_version (E_UpdatedAt e)) (map snd l) ->
     (es_save (save_all s l) io e).2 = None)
  /\ (Exists (fun x => es_version (E_UpdatedAt e) < es_version (E_UpdatedAt x)) (map snd l) ->
     es_save (save_all s l) io e = (save_all s l, Some ErrConflict)).
Proof.
  intros Hl Hs Hg Hio Hid. pose proof (es_save_ok (save_all s l) io e Hg Hio) as Hok. rewrite Hid in Hok.
  destruct (decide (l = [])) as [->|Hne].
  { cbn [save_all fold_left map] in *. rewrite Hs in Hok. split; [by intros _; apply Hok|by intros Hx%Exists_nil]. }
  destruct (save_all_newest s l id Hl Hne Hs) as (e' & (pre & post & -> & Hf1 & Hf2) & Hst & _).
  rewrite Hst in Hok. split; intros Hf.
  - apply Hok. apply Forall_app in Hf as [_ Hf]. by inversion_clear Hf.
  - apply es_save_conflict; [done..|]. intros Hn%Hok. revert Hf. rewrite Exists_exists.
    intros (x & Hx & Hlt). rewrite Forall_forall in Hf1, Hf2.
    apply elem_of_app in Hx as [Hx|[->|Hx]%elem_of_cons]; [specialize (Hf1 _ Hx)|..|specialize (Hf2 _ Hx)]; lia.
Qed.
End Client.

(** ** Properties *)

(** The JSON stores a program can have: opened, saved to and deleted from,
    whatever the disk does. *)
Inductive json_reach {X} : JSONStore X -> Prop :=
| reach_open f s : NewJSONStore f = Ok s -> json_reach s
| reach_save s d e : json_reach s -> json_reach (Save s d e).1
| reach_delete s d id : json_reach s -> json_reach (Delete s d id).1.

Lemma json_reach_ok {X} (s : JSONStore X) : json_reach s -> data_ok (js_data s).
Proof.
  induction 1 as [f s Hs|s d e _ IH|s d id _ IH].
  - unfold NewJSONStore in Hs. apply rbind_ok in Hs as (m & Hm & [= <-]). by apply (load_ok f).
  - rewrite Save_spec. destruct (match _ with Some _ => _ | None => _ end); [done|].
    rewrite persistLocked_data. by apply data_ok_new.
  - unfold Delete. destruct (js_data s !! id); [|done]. rewrite persistLocked_data.
    by apply map_Forall_delete.
Qed.

Section StoreProperties.
Context {X : Type}.

(** The stores after saves of one after the other; the clock is read twice by a
    save to the database. *)
Definition json_saves (s : JSONStore X) (es : list (Environment X)) : JSONStore X :=
  fold_left (fun s e => (Save s DiskWrites e).1) es s.
Definition sql_saves (col : Z -> Z) (t : table X) (xs : list (sql_io * Environment X)) : table X :=
  fold_left (fun t x => (sql_Save col t (io_up x.1) (io_now1 x.1) (io_now2 x.1) x.2).1) xs t.
Lemma json_saves_all s es : save_all (H := json_store) s (map (fun e => (DiskWrites, e)) es) = json_saves s es.
Proof. revert s. induction es as [|e es IH]; intros s; [done|]. apply IH. Qed.
Lemma json_pairs es id : Forall (fun e : Environment X => es_good e /\ E_ID e = id) es ->
  Forall (fun x => es_good x.2 /\ @es_healthy X (JSONStore X) disk json_store x.1 /\ E_ID x.2 = id)
    (map (fun e => (DiskWrites, e)) es).
Proof. intros Hes. apply Forall_map. eapply Forall_impl; [exact Hes|]. by intros e []. Qed.

(** C40: Both stores keep, of environments saved one after the other under an
    identifier they do not hold yet, the newest by update time (the last of
    equally new ones), whatever the order of the saves; they accept a save exactly
    if none of the environments before is newer, and refuse an older one with a
    conflict that changes nothing.  The SQL store compares the times its column
    keeps.  The environments have identifier and times, and the disk and the
    database do not fail meanwhile. *)
Theorem stores_keep_newest (x0 : X) (col : Z -> Z) (Hcol : forall a b, a <= b -> col a <= col b)
  id (xs : list (sql_io * Environment X)) (Hne : xs <> [])
  (Hg : Forall (fun x => es_good x.2 /\ io_up x.1 = true /\ E_ID x.2 = id) xs)
  (s : JSONStore X) (Hs : js_data s !! id = None) (t : table X) (Ht : t !! id = None) :
  (exists e, newest (H := json_store) (map snd xs) e /\ Get (json_saves s (map snd xs)) id = Ok e)
  /\ (forall pre e post, map snd xs = pre ++ e :: post ->
       (Forall (fun x => E_UpdatedAt x <= E_UpdatedAt e) pre -> (Save (json_saves s pre) DiskWrites e).2 = None)
       /\ (Exists (fun x => E_UpdatedAt e < E_UpdatedAt x) pre ->
            Save (json_saves s pre) DiskWrites e = (json_saves s pre, Some ErrConflict)))
  /\ (exists e, newest (H := sql_store x0 col) (map snd xs) e /\ sql_Get x0 (sql_saves col t xs) true id = Ok e)
  /\ forall pre io e post, xs = pre ++ (io, e) :: post ->
       (Forall (fun x => col (E_UpdatedAt x) <= col (E_UpdatedAt e)) (map snd pre) ->
          (sql_Save col (sql_saves col t pre) true (io_now1 io) (io_now2 io) e).2 = None)
       /\ (Exists (fun x => col (E_UpdatedAt e) < col (E_UpdatedAt x)) (map snd pre) ->
            sql_Save col (sql_saves col t pre) true (io_now1 io) (io_now2 io) e
            = (sql_saves col t pre, Some ErrConflict)).
Proof.
  assert (Hs' : es_stored (EnvironmentStoreLaws := json_laws) s !! id = None) by (simpl; by rewrite lookup_fmap, Hs).
  assert (Ht' : es_stored (EnvironmentStoreLaws := sql_laws x0 col Hcol) t !! id = None)
    by (simpl; by rewrite lookup_fmap, Ht).
  assert (Hj : Forall (fun e => es_good e /\ E_ID e = id) (map snd xs)).
  { apply Forall_map. eapply Forall_impl; [exact Hg|]. by intros x (? & _ & ?). }
  split; [|split; [|split]].
  - destruct (save_all_newest (H0 := json_laws) s (map (fun e => (DiskWrites, e)) (map snd xs)) id)
      as (e & He & _ & Hget); [by apply json_pairs|by destruct xs|done|].
    exists e. rewrite map_map, map_id in He. split; [done|]. rewrite <- json_saves_all. by apply (Hget DiskWrites).
  - intros pre e post E. rewrite E in Hj. apply Forall_app in Hj as [Hpre [[Hge Hid] _]%Forall_cons].
    pose proof (save_all_verdict (H0 := json_laws) s (map (fun e => (DiskWrites, e)) pre) id DiskWrites e
      (json_pairs _ _ Hpre) Hs' Hge eq_refl Hid) as Hv.
    rewrite map_map, map_id in Hv. rewrite <- json_saves_all. exact Hv.
  - destruct (save_all_newest (H0 := sql_laws x0 col Hcol) t xs id) as (e & He & _ & Hget); [done..|].
    exists e. split; [done|]. apply (Hget {| io_up := true; io_now1 := 0; io_now2 := 0 |} eq_refl).
  - intros pre io e post E. rewrite E in Hg. apply Forall_app in Hg as [Hpre [(Hge & Hup & Hid) _]%Forall_cons].
    pose proof (save_all_verdict (H0 := sql_laws x0 col Hcol) t pre id io e Hpre Ht' Hge Hup Hid) as Hv.
    cbn in Hup, Hv. rewrite Hup in Hv. exact Hv.
Qed.

(** After a save or delete that reports success, opening the file again
    (its entries in any order) gives exactly the environments in memory. *)
Theorem json_restart (s s' : JSONStore X) (Hr : json_reach s)
  (Hop : (exists d e, Save s d e = (s', None)) \/ exists d id, Delete s d id = (s', None)) :
  exists entries, js_file s' = Entries entries
    /\ forall l, l ≡ₚ entries ->
         NewJSONStore (Entries l) = Ok {| js_data := js_data s'; js_file := Entries l |}.
Proof.
  assert (data_ok (js_data s') /\ js_file s'
    = Entries (map (fun kv => (kv.1, inl kv.2)) (map_to_list (js_data s')))) as [Hok Hfile].
  { destruct Hop as [(d & e & Ho)|(d & id & Ho)].
    - pose proof (json_reach_ok _ (reach_save s d e Hr)) as Hd. rewrite Ho in Hd. split; [done|].
      rewrite Save_spec in Ho. destruct (match _ with Some _ => _ | None => _ end); [done|].
      destruct d; by simplify_eq/=.
    - pose proof (json_reach_ok _ (reach_delete s d id Hr)) as Hd. rewrite Ho in Hd. split; [done|].
      unfold Delete in Ho. destruct (js_data s !! id); [|done]. destruct d; by simplify_eq/=. }
  rewrite Hfile. eexists. split; [reflexivity|]. intros l Hl. unfold NewJSONStore.
  by rewrite (load_persisted (js_data s')).
Qed.

(** A save whose file write fails reports the failure, but the new
    environment stays in memory and is what [Get] returns, while the file
    still holds what it held, or is torn so that the store does not open. *)
Theorem failed_persist_kept_in_memory (s : JSONStore X) d e (Hd : d <> DiskWrites)
  (Hs : js_data s !! E_ID e = None) :
  (Save s d e).2 = Some ErrIO /\ Get (Save s d e).1 (E_ID e) = Ok e
  /\ (js_file (Save s d e).1 = js_file s \/ NewJSONStore (js_file (Save s d e).1) = Err ErrIO).
Proof.
  rewrite Save_spec, Hs. unfold Get.
  destruct d; [done| |]; simpl; rewrite lookup_insert_eq, record_environment_new; auto.
Qed.

(** [List] returns every environment of the store once, newest creation
    first, whatever the order the map is iterated in. *)
Theorem List_sorted (s : JSONStore X) values (Hv : values ≡ₚ (map_to_list (js_data s)).*2) :
  List values ≡ₚ map record_environment ((map_to_list (js_data s)).*2)
  /\ StronglySorted (fun a b => E_CreatedAt b <= E_CreatedAt a) (List values).
Proof.
  unfold List. split; [by rewrite sort_slice_perm, Hv|].
  assert (Hs : StronglySorted (in_order env_by_created) (sort_slice env_by_created
                 (map record_environment values))).
  { apply sort_slice_sorted; unfold env_by_created; intros; go_bool; lia. }
  revert Hs. generalize (sort_slice env_by_created (map record_environment values)).
  induction 1 as [|x l Hl IH Hx]; constructor; [done|].
  eapply Forall_impl; [exact Hx|]. intros y Hy. unfold in_order, env_by_created in Hy. go_bool. lia.
Qed.
End StoreProperties.

(** ** Witnesses *)

Definition sample_env (id : string) (updated : Z) : Environment unit :=
  {| E_TenantID := "t"; E_ID := id; E_Project := "p"; E_PullRequestID := "7"; E_Branch := "main";
     E_Commit := "c0ffee"; E_Status := "ready"; E_Mode := "helm"; E_TTLHours := 4;
     E_CreatedAt := 5; E_UpdatedAt := updated; E_rest := tt |}.
Definition empty_store : JSONStore unit := {| js_data := ∅; js_file := Absent |}.

Lemma sample_env_good u : u <> 0 -> es_good (sample_env "env-1" u).
Proof. intros Hu. split; [discriminate|reflexivity|discriminate|exact Hu]. Qed.

Definition sample_saves : list (sql_io * Environment unit) :=
  map (pair {| io_up := true; io_now1 := 1; io_now2 := 1 |})
    [sample_env "env-1" 10000; sample_env "env-1" 30000; sample_env "env-1" 20000].
(** The last save is refused, the one before is kept. *)
Lemma stores_keep_newest_witness :
  Get (json_saves empty_store (map snd sample_saves)) "env-1" = Ok (sample_env "env-1" 30000)
  /\ (exists e, newest (H := json_store) (map snd sample_saves) e)
  /\ (sql_Save (fun t => t / 1000) (sql_saves (fun t => t / 1000) ∅ (firstn 2 sample_saves)) true 1 1
       (sample_env "env-1" 20000)).2 = Some ErrConflict.
Proof.
  split; [vm_compute; reflexivity|].
  destruct (stores_keep_newest tt (fun t => t / 1000)
    (fun a b H => Z.div_le_mono a b 1000 eq_refl H) "env-1" sample_saves
    ltac:(discriminate)
    ltac:(repeat (constructor; [split; [apply sample_env_good; discriminate|split; reflexivity]|]); constructor)
    empty_store (lookup_empty _) ∅ (lookup_empty _)) as ((e & He & _) & _ & _ & Hv).
  split; [exists e; exact He|].
  destruct (Hv (firstn 2 sample_saves) {| io_up := true; io_now1 := 1; io_now2 := 1 |} (sample_env "env-1" 20000) [] eq_refl)
    as [_ Hc].
  refine (f_equal snd (Hc _)). apply Exists_cons_tl, Exists_cons_hd. reflexivity.
Defined.

Lemma json_restart_witness :
  exists entries, js_file (Save empty_store DiskWrites (sample_env "env-1" 9)).1 = Entries entries.
Proof.
  destruct (json_restart empty_store (Save empty_store DiskWrites (sample_env "env-1" 9)).1
    (reach_open Absent _ eq_refl)
    (or_introl (ex_intro _ DiskWrites (ex_intro _ (sample_env "env-1" 9) eq_refl))))
    as (entries & He & _).
  exists entries. exact He.
Defined.

Lemma failed_persist_kept_in_memory_witness :
  Get (Save empty_store DiskTears (sample_env "env-1" 9)).1 "env-1" = Ok (sample_env "env-1" 9).
Proof.
  exact (proj1 (proj2 (failed_persist_kept_in_memory empty_store DiskTears (sample_env "env-1" 9)
    ltac:(discriminate) (lookup_empty _)))).
Defined.

Lemma List_sorted_witness :
  StronglySorted (fun a b => E_CreatedAt b <= E_CreatedAt a)
    (List [NewEnvironmentRecord (sample_env "env-1" 9)]).
Proof.
  refine (proj2 (List_sorted (Save empty_store DiskWrites (sample_env "env-1" 9)).1
    [NewEnvironmentRecord (sample_env "env-1" 9)] _)).
  vm_compute. reflexivity.
Defined.
