(* ===== verification/JsonFile.v ===== *)
(** * JSON files of the stores

    What the bootstrap, project, product and configuration stores of
    [internal/store] share: a map in memory and the file it is written to. *)

From stdpp Require Import base list gmap strings.
From Stdlib Require Import ZArith Lia.
From S2P Require Import Prelude GoStrings EnvStore.

Section JsonFile.
Context {A : Type}.

Inductive json_file : Type := NoFile | EmptyFile | BadFile | FileOf (l : list (string * A)).

Record kv_store := { kv_data : gmap string A; kv_file : json_file }.

(** [persistLocked] of a store with this data. *)
Definition persist (s : kv_store) (d : disk) : kv_store * option store_error :=
  match d with
  | DiskWrites => ({| kv_data := kv_data s; kv_file := FileOf (map_to_list (kv_data s)) |}, None)
  | DiskRefuses => (s, Some ErrIO)
  | DiskTears => ({| kv_data := kv_data s; kv_file := BadFile |}, Some ErrIO)
  end.

Definition with_data (s : kv_store) (m : gmap string A) : kv_store :=
  {| kv_data := m; kv_file := kv_file s |}.

(** [load] with the code's treatment of one entry. *)
Definition load_with (entry : gmap string A -> string * A -> gmap string A) (f : json_file)
    : result store_error (gmap string A) :=
  match f with
  | NoFile | EmptyFile => Ok ∅
  | BadFile => Err ErrIO
  | FileOf l => Ok (fold_left entry l ∅)
  end.

Lemma persist_data s d : kv_data (persist s d).1 = kv_data s.
Proof. by destruct d. Qed.
Lemma persist_ok s d : (persist s d).2 = None <-> d = DiskWrites.
Proof. by destruct d. Qed.
Lemma persist_err s d e : (persist s d).2 = Some e -> e = ErrIO /\ d <> DiskWrites.
Proof. destruct d; simpl; naive_solver. Qed.

(** A loader that stores every entry of [m] under its key reads [m] back. *)
Lemma load_with_persisted entry (P : string -> A -> Prop) (m : gmap string A) l :
  (forall m0 k v, P k v -> entry m0 (k, v) = <[k := v]> m0) ->
  map_Forall P m -> l ≡ₚ map_to_list m -> load_with entry (FileOf l) = Ok m.
Proof.
  intros He Hm Hp. simpl. f_equal.
  assert (Hf : Forall (fun kv => P kv.1 kv.2) l).
  { rewrite Hp. apply map_Forall_to_list in Hm. eapply Forall_impl; [exact Hm|]. by intros []. }
  assert (forall m0, fold_left entry l m0 = fold_left (fun m kv => <[kv.1 := kv.2]> m) l m0) as ->.
  { clear -He Hf. induction Hf as [|[k v] l Hx Hf IH]; intros m0; [done|].
    cbn [fold_left]. rewrite He by done. apply IH. }
  rewrite fold_insert by (rewrite Hp; apply NoDup_fst_map_to_list).
  rewrite (right_id_L ∅ (∪)), <- (list_to_map_to_list m).
  apply list_to_map_proper; [rewrite Hp; apply NoDup_fst_map_to_list|done].
Qed.
End JsonFile.
Arguments json_file A : clear implicits.
Arguments kv_store A : clear implicits.
