(* ===== verification/BootstrapStore.v ===== *)
(** * Bootstrap sessions

    [internal/store/bootstrap_session_store.go], [bootstrap_token_claim.go],
    [sql_bootstrap_session_store.go]: the sessions, the claim of a bootstrap
    token, and the JSON and SQL stores.  A nil [Data] map is the empty map. *)

From stdpp Require Import base list gmap strings sorting.
From Stdlib Require Import ZArith Lia Ascii String.
From S2P Require Import Prelude GoStrings SqlPlan SqlFailure EnvStore JsonFile.

Local Open Scope string_scope.
Local Open Scope Z_scope.
Local Open Scope list_scope.

(** The text of a time in the format [time.RFC3339Nano]. *)
Class TimeText := {
  parse_rfc3339 : string -> option Z;
  format_rfc3339 : Z -> string;
  format_visible : forall t, blank (format_rfc3339 t) = false }.

Section Bootstrap.
Context `{TimeText} {V : Type}.

(** A value of a [map[string]any]: a string or something else. *)
Inductive value : Type := VString (s : string) | VOther (v : V).

Record BootstrapSession := {
  S_ID : string; S_ProjectID : string; S_CurrentStep : Z; S_Status : string;
  S_CreatedBy : string; S_Data : gmap string value; S_CreatedAt : Z; S_UpdatedAt : Z }.

Record BootstrapTokenClaimRequest := {
  Q_ProjectID : string; Q_TokenProjectKey : string; Q_TokenHashKey : string;
  Q_TokenHash : string; Q_TokenUsedAtKey : string; Q_TokenExpiresKey : string;
  Q_Identity : list (string * string);      (** in the order the maps are iterated *)
  Q_StepData : list (string * value);
  Q_Now : Z }.

Definition asStoreString (v : option value) : string :=
  match v with Some (VString s) => trim_space s | _ => "" end.
(** [strings.TrimSpace(asStoreString(session.Data[key]))] *)
Definition field (data : gmap string value) (key : string) : string :=
  trim_space (asStoreString (data !! key)).

(** The loop over [request.Identity]: the first key that does not match. *)
Fixpoint identity_mismatch (data : gmap string value) (l : list (string * string)) : option string :=
  match l with
  | [] => None
  | (key, expected) :: l' =>
      let key := trim_space key in
      let expected := trim_space expected in
      if str_eq key "" || str_eq expected "" then identity_mismatch data l'
      else
        let existing := field data key in
        if str_ne existing "" && str_ne existing expected then Some key
        else identity_mismatch data l'
  end.

Definition step_data (data : gmap string value) (l : list (string * value)) : gmap string value :=
  fold_left (fun data kv =>
    let key := trim_space kv.1 in if str_eq key "" then data else <[key := kv.2]> data) l data.

Definition set_claimed (s : BootstrapSession) (data : gmap string value) (now : Z) : BootstrapSession :=
  {| S_ID := S_ID s; S_ProjectID := S_ProjectID s; S_CurrentStep := S_CurrentStep s;
     S_Status := S_Status s; S_CreatedBy := S_CreatedBy s; S_Data := data;
     S_CreatedAt := S_CreatedAt s; S_UpdatedAt := now |}.

(** [ApplyBootstrapTokenClaim]; [clock] is [time.Now().UTC()]. *)
Definition ApplyBootstrapTokenClaim (clock : Z) (session : BootstrapSession)
    (request : BootstrapTokenClaimRequest) : result store_error BootstrapSession :=
  let projectID := trim_space (Q_ProjectID request) in
  let data := S_Data session in
  refuse str_eq projectID "" || blank (Q_TokenHash request) with ErrBootstrapTokenInvalid;;
  refuse negb (equal_fold (trim_space (S_ProjectID session)) projectID)
    with ErrBootstrapSessionNotFound;;
  refuse str_ne (Q_TokenProjectKey request) ""
    && str_ne (field data (Q_TokenProjectKey request)) projectID with ErrBootstrapTokenInvalid;;
  let storedHash := field data (Q_TokenHashKey request) in
  refuse str_eq storedHash "" || str_ne storedHash (trim_space (Q_TokenHash request))
    with ErrBootstrapTokenInvalid;;
  refuse str_ne (field data (Q_TokenUsedAtKey request)) "" with ErrBootstrapTokenAlreadyUsed;;
  let expiresAt := field data (Q_TokenExpiresKey request) in
  refuse str_eq expiresAt "" with ErrBootstrapTokenExpired;;
  match parse_rfc3339 expiresAt with
  | None => Err ErrBootstrapTokenExpired
  | Some parsed =>
      refuse parsed <? clock with ErrBootstrapTokenExpired;;
      match identity_mismatch data (Q_Identity request) with
      | Some key => Err (ErrBootstrapIdentityMismatch key)
      | None =>
          let now := if Q_Now request =? 0 then clock else Q_Now request in
          let data1 := step_data data (Q_StepData request) in
          let data2 :=
            if str_ne (Q_TokenUsedAtKey request) "" && str_eq (field data1 (Q_TokenUsedAtKey request)) ""
            then <[Q_TokenUsedAtKey request := VString (format_rfc3339 now)]> data1 else data1 in
          Ok (set_claimed session data2 now)
      end
  end.

(** ** The JSON store *)

(** The comparison of [GetByProject]: [a] before [b]. *)
Definition session_before (a b : BootstrapSession) : bool :=
  if negb (S_UpdatedAt a =? 0) && negb (S_UpdatedAt b =? 0) then S_UpdatedAt b <? S_UpdatedAt a
  else if negb (S_UpdatedAt a =? 0) then true
  else if negb (S_UpdatedAt b =? 0) then false
  else if str_eq (S_Status a) (S_Status b) then S_CurrentStep b <? S_CurrentStep a
  else String.ltb (S_ID b) (S_ID a).

(** [GetByProject] and [getByProjectLocked], the map iterated as [values]. *)
Definition GetByProject (values : list BootstrapSession) (projectID : string)
    : result store_error BootstrapSession :=
  let projectID := trim_space projectID in
  refuse str_eq projectID "" with ErrBootstrapSessionNotFound;;
  let items := List.filter (fun s => equal_fold (trim_space (S_ProjectID s)) projectID) values in
  match sort_slice session_before items with
  | s :: _ => Ok s
  | [] => Err ErrBootstrapSessionNotFound
  end.

Definition normalized (clock : Z) (s : BootstrapSession) : BootstrapSession :=
  let updated := if S_UpdatedAt s =? 0 then clock else S_UpdatedAt s in
  {| S_ID := trim_space (S_ID s); S_ProjectID := trim_space (S_ProjectID s);
     S_CurrentStep := S_CurrentStep s; S_Status := S_Status s;
     S_CreatedBy := trim_space (S_CreatedBy s); S_Data := S_Data s;
     S_CreatedAt := if S_CreatedAt s =? 0 then updated else S_CreatedAt s;
     S_UpdatedAt := updated |}.

(** [JSONBootstrapSessionStore.Save] *)
Definition Save (clock : Z) (st : kv_store BootstrapSession) (d : disk) (s : BootstrapSession)
    : kv_store BootstrapSession * option store_error :=
  let s := normalized clock s in
  if str_eq (S_ID s) "" then (st, Some (ErrRequired "bootstrap session id"))
  else if str_eq (S_ProjectID s) "" then (st, Some (ErrRequired "project id"))
  else persist (with_data st (<[S_ID s := s]> (kv_data st))) d.

(** [JSONBootstrapSessionStore.ClaimBootstrapToken]; the rollback writes the
    previous value back, the zero session if there was none. *)
Definition zero_session : BootstrapSession :=
  {| S_ID := ""; S_ProjectID := ""; S_CurrentStep := 0; S_Status := ""; S_CreatedBy := "";
     S_Data := ∅; S_CreatedAt := 0; S_UpdatedAt := 0 |}.
Definition ClaimBootstrapToken (clock : Z) (st : kv_store BootstrapSession)
    (values : list BootstrapSession) (d : disk) (request : BootstrapTokenClaimRequest)
    : kv_store BootstrapSession * result store_error BootstrapSession :=
  match GetByProject values (Q_ProjectID request) with
  | Err e => (st, Err e)
  | Ok session =>
      match ApplyBootstrapTokenClaim clock session request with
      | Err e => (st, Err e)
      | Ok updated =>
          let previous := match kv_data st !! S_ID updated with
                          | Some s => s | None => zero_session end in
          let '(st', err) := persist (with_data st (<[S_ID updated := updated]> (kv_data st))) d in
          match err with
          | Some e => (with_data st' (<[S_ID updated := previous]> (kv_data st')), Err e)
          | None => (st', Ok updated)
          end
      end
  end.

Definition load_session (m : gmap string BootstrapSession) (entry : string * BootstrapSession)
    : gmap string BootstrapSession :=
  let id := trim_space entry.1 in
  let s := entry.2 in
  if str_eq id "" then m
  else
    let s' := if blank (S_ID s)
      then {| S_ID := id; S_ProjectID := S_ProjectID s; S_CurrentStep := S_CurrentStep s;
              S_Status := S_Status s; S_CreatedBy := S_CreatedBy s; S_Data := S_Data s;
              S_CreatedAt := S_CreatedAt s; S_UpdatedAt := S_UpdatedAt s |}
      else s in
    <[S_ID s' := s']> m.
Definition NewJSONBootstrapSessionStore (f : json_file BootstrapSession)
    : result store_error (kv_store BootstrapSession) :=
  m <-? load_with load_session f;; Ok {| kv_data := m; kv_file := f |}.

(** ** The SQL store *)

Section Sql.
(** [col]: what a time column keeps; [jsonb]: what a JSON column keeps of
    the data (its numbers, for instance, lose their Go type). *)
Context (col : Z -> Z) (jsonb : gmap string value -> gmap string value).

Definition newer_row (a b : BootstrapSession) : bool := S_UpdatedAt b <? S_UpdatedAt a.

(** [WHERE project_id = $1 ORDER BY updated_at DESC LIMIT 1] over [rows]. *)
Definition sql_latest (rows : list BootstrapSession) (projectID : string) : option BootstrapSession :=
  head (sort_slice newer_row
          (List.filter (fun s => str_eq (S_ProjectID s) projectID) rows)).

Definition sql_GetByProject (rows : list BootstrapSession) (up : bool) (projectID : string)
    : result store_error BootstrapSession :=
  let projectID := trim_space projectID in
  refuse str_eq projectID "" with ErrBootstrapSessionNotFound;;
  refuse negb up with ErrIO;;
  match sql_latest rows projectID with Some s => Ok s | None => Err ErrBootstrapSessionNotFound end.

Definition sql_Save (clock : Z) (t : gmap string BootstrapSession) (up : bool) (s : BootstrapSession)
    : gmap string BootstrapSession * option store_error :=
  let s := normalized clock s in
  if str_eq (S_ID s) "" then (t, Some (ErrRequired "bootstrap session id"))
  else if str_eq (S_ProjectID s) "" then (t, Some (ErrRequired "project id"))
  else if negb up then (t, Some ErrIO)
  else
    let created := match t !! S_ID s with Some old => S_CreatedAt old | None => col (S_CreatedAt s) end in
    (<[S_ID s := {| S_ID := S_ID s; S_ProjectID := S_ProjectID s; S_CurrentStep := S_CurrentStep s;
                    S_Status := S_Status s; S_CreatedBy := S_CreatedBy s; S_Data := jsonb (S_Data s);
                    S_CreatedAt := created; S_UpdatedAt := col (S_UpdatedAt s) |}]> t, None).

(** The transaction of [ClaimBootstrapToken]; [commits] says whether every
    statement and the commit succeed. *)
Definition sql_ClaimBootstrapToken (clock : Z) (t : gmap string BootstrapSession)
    (rows : list BootstrapSession) (begins commits : bool) (request : BootstrapTokenClaimRequest)
    : gmap string BootstrapSession * result store_error BootstrapSession :=
  if negb begins then (t, Err ErrIO)
  else match sql_latest rows (trim_space (Q_ProjectID request)) with
  | None => (t, Err ErrBootstrapSessionNotFound)
  | Some session =>
      match ApplyBootstrapTokenClaim clock session request with
      | Err e => (t, Err e)
      | Ok updated =>
          if negb commits then (t, Err ErrIO)
          else (match t !! S_ID updated with
                | Some old => <[S_ID updated :=
                    set_claimed old (jsonb (S_Data updated)) (col (S_UpdatedAt updated))]> t
                | None => t
                end, Ok updated)
      end
  end.
End Sql.
End Bootstrap.
Arguments value V : clear implicits.
Arguments BootstrapSession V : clear implicits.
Arguments BootstrapTokenClaimRequest V : clear implicits.

(** ** Lemmas *)

Section BootstrapLemmas.
Context `{TimeText} {V : Type}.
Implicit Types s : BootstrapSession V.
Implicit Types r : BootstrapTokenClaimRequest V.

(** Every key of [l] names a nonblank field or agrees with the data. *)
Definition identity_agrees (data : gmap string (value V)) (l : list (string * string)) : Prop :=
  Forall (fun kv => trim_space kv.1 <> "" -> trim_space kv.2 <> "" ->
            field data (trim_space kv.1) <> "" ->
            field data (trim_space kv.1) = trim_space kv.2) l.

Lemma identity_mismatch_none data l : identity_mismatch data l = None <-> identity_agrees data l.
Proof.
  unfold identity_agrees. induction l as [|[k e] l IH]; cbn [identity_mismatch]; [done|].
  rewrite Forall_cons, <- IH. cbn [fst snd].
  destruct (str_eq (trim_space k) "") eqn:E1; go_bool; [naive_solver|].
  destruct (str_eq (trim_space e) "") eqn:E2; go_bool; [naive_solver|].
  unfold str_ne. simpl.
  destruct (str_eq (field data (trim_space k)) "") eqn:E3; go_bool; [naive_solver|].
  destruct (str_eq (field data (trim_space k)) (trim_space e)) eqn:E4; go_bool; simpl; [naive_solver|].
  split; [done|]. intros [Hc _]. naive_solver.
Qed.

(** The conditions under which a token is accepted. *)
Record claimable (clock : Z) s r : Prop := {
  cl_project : trim_space (Q_ProjectID r) <> "" /\ blank (Q_TokenHash r) = false;
  cl_session : equal_fold (trim_space (S_ProjectID s)) (trim_space (Q_ProjectID r)) = true;
  cl_binding : Q_TokenProjectKey r = ""
               \/ field (S_Data s) (Q_TokenProjectKey r) = trim_space (Q_ProjectID r);
  cl_hash : field (S_Data s) (Q_TokenHashKey r) = trim_space (Q_TokenHash r);
  cl_unused : field (S_Data s) (Q_TokenUsedAtKey r) = "";
  cl_fresh : exists t, parse_rfc3339 (field (S_Data s) (Q_TokenExpiresKey r)) = Some t
               /\ clock <= t /\ field (S_Data s) (Q_TokenExpiresKey r) <> "";
  cl_identity : identity_agrees (S_Data s) (Q_Identity r) }.

(** The session after the claim. *)
Definition claimed (clock : Z) s r : BootstrapSession V :=
  let now := if Q_Now r =? 0 then clock else Q_Now r in
  let data := step_data (S_Data s) (Q_StepData r) in
  set_claimed s
    (if str_ne (Q_TokenUsedAtKey r) "" && str_eq (field data (Q_TokenUsedAtKey r)) ""
     then <[Q_TokenUsedAtKey r := VString (format_rfc3339 now)]> data else data) now.

Lemma claim_ok clock s r s' : ApplyBootstrapTokenClaim clock s r = Ok s' <->
  claimable clock s r /\ s' = claimed clock s r.
Proof.
  unfold ApplyBootstrapTokenClaim. cbv zeta. rewrite !refuse_ok. split.
  - intros (H1 & H2 & H3 & H4 & H5 & H6 & Hm).
    destruct (parse_rfc3339 _) as [t|] eqn:Et; [|done].
    apply refuse_ok in Hm as [Ht Hm].
    destruct (identity_mismatch _ _) eqn:Ei; [done|]. injection Hm as <-.
    rewrite orb_false_iff in H1, H4. rewrite andb_false_iff in H3.
    unfold str_ne in *. rewrite ?negb_false_iff in *. go_bool.
    split; [|done]. split.
    + done.
    + done.
    + tauto.
    + tauto.
    + done.
    + exists t. split_and!; [done|lia|done].
    + by apply identity_mismatch_none.
  - intros [[[H1 H1'] H2 H3 H4 H5 (t & Ht & Hc & He) H7] ->].
    rewrite Ht, refuse_ok. rewrite (proj2 (identity_mismatch_none _ _) H7). split_and!.
    + apply orb_false_iff. split; [by apply str_eq_false|done].
    + by rewrite H2.
    + apply andb_false_iff. destruct H3 as [H3|H3]; [left|right]; by apply str_ne_false.
    + apply orb_false_iff. split; [apply str_eq_false|by apply str_ne_false].
      rewrite H4. unfold blank in H1'. by apply bool_decide_eq_false in H1'.
    + by apply str_ne_false.
    + by apply str_eq_false.
    + by apply Z.ltb_ge.
    + done.
Qed.

Lemma trim_field (data : gmap string (value V)) k t :
  data !! k = Some (VString t) -> field data k = trim_space t.
Proof. intros Hk. unfold field. rewrite Hk. simpl. by rewrite trim_space_idem. Qed.

Lemma claimed_used clock s r : Q_TokenUsedAtKey r <> "" ->
  field (S_Data (claimed clock s r)) (Q_TokenUsedAtKey r) <> "".
Proof.
  intros Hk. unfold claimed. cbv zeta. cbn [S_Data set_claimed].
  rewrite (proj2 (str_ne_true _ _) Hk). simpl.
  destruct (str_eq _ _) eqn:E; [|by apply str_eq_false in E].
  rewrite (trim_field _ _ (format_rfc3339 (if Q_Now r =? 0 then clock else Q_Now r)))
    by apply lookup_insert_eq.
  intros Hf. pose proof (format_visible (if Q_Now r =? 0 then clock else Q_Now r)) as Hv.
  unfold blank in Hv. by apply bool_decide_eq_false in Hv.
Qed.

Lemma step_data_other (data : gmap string (value V)) l k :
  Forall (fun kv => trim_space kv.1 <> k) l -> step_data data l !! k = data !! k.
Proof.
  revert data. induction l as [|[k' v] l IH]; intros data; [done|].
  intros [Hk Hl]%Forall_cons. cbn [fst] in Hk.
  change (step_data data ((k', v) :: l)) with
    (step_data (if str_eq (trim_space k') "" then data else <[trim_space k' := v]> data) l).
  rewrite (IH _ Hl). destruct (str_eq _ _); [done|]. by rewrite lookup_insert_ne.
Qed.

(** The data of a session store: sessions under their identifiers. *)
Definition keyed (m : gmap string (BootstrapSession V)) : Prop :=
  map_Forall (fun id s => S_ID s = id) m.

Lemma keyed_values m values s : keyed m -> values ≡ₚ (map_to_list m).*2 -> s ∈ values ->
  m !! S_ID s = Some s.
Proof.
  intros Hm -> Hs. apply list_elem_of_fmap in Hs as ([id s'] & -> & Hin).
  apply elem_of_map_to_list in Hin. simpl. by rewrite (Hm _ _ Hin).
Qed.

Lemma GetByProject_in values id s : GetByProject values id = Ok s ->
  s ∈ values /\ equal_fold (trim_space (S_ProjectID s)) (trim_space id) = true
  /\ trim_space id <> "".
Proof.
  unfold GetByProject. rewrite refuse_ok. intros [Hid Hs]. apply str_eq_false in Hid.
  destruct (sort_slice _ _) as [|x l] eqn:E; [done|]. injection Hs as <-.
  assert (Hx : x ∈ x :: l) by left. rewrite <- E, sort_slice_perm in Hx.
  apply list_elem_of_In, filter_In in Hx as [Hx He]. by apply list_elem_of_In in Hx.
Qed.
(** A sequence of claims on the store, each with its request and result. *)
Inductive claim_runs : kv_store (BootstrapSession V) ->
    list (BootstrapTokenClaimRequest V * result store_error (BootstrapSession V)) ->
    kv_store (BootstrapSession V) -> Prop :=
  | claims_done st : claim_runs st [] st
  | claims_next clock st values d r st1 res l st2 :
      values ≡ₚ (map_to_list (kv_data st)).*2 ->
      ClaimBootstrapToken clock st values d r = (st1, res) ->
      claim_runs st1 l st2 -> claim_runs st ((r, res) :: l) st2.

(** The request [r] presents the digest under these keys. *)
Definition presents (used key digest : string) r : Prop :=
  Q_TokenUsedAtKey r = used /\ Q_TokenHashKey r = key
  /\ trim_space (Q_TokenHash r) = trim_space digest.

(** Every session of the store that carries the digest is marked as used. *)
Definition spent (used key digest : string) (m : gmap string (BootstrapSession V)) : Prop :=
  map_Forall (fun _ s => field (S_Data s) key = trim_space digest -> field (S_Data s) used <> "") m.

Lemma claim_step clock (st : kv_store (BootstrapSession V)) values d r st' res :
  keyed (kv_data st) -> values ≡ₚ (map_to_list (kv_data st)).*2 ->
  ClaimBootstrapToken clock st values d r = (st', res) ->
  match res with
  | Ok u => exists s, kv_data st !! S_ID u = Some s /\ claimable clock s r
      /\ kv_data st' = <[S_ID u := u]> (kv_data st) /\ u = claimed clock s r
  | Err e => kv_data st' = kv_data st
  end.
Proof.
  intros Hm Hv Hc. unfold ClaimBootstrapToken in Hc.
  destruct (GetByProject values _) as [s|e] eqn:Eg; [|by simplify_eq].
  apply GetByProject_in in Eg as (Hs & _ & _). pose proof (keyed_values _ _ _ Hm Hv Hs) as Hl.
  destruct (ApplyBootstrapTokenClaim clock s r) as [u|e] eqn:Ea; [|by simplify_eq].
  apply claim_ok in Ea as [Ha ->]. change (S_ID (claimed clock s r)) with (S_ID s) in Hc.
  rewrite Hl in Hc. destruct d; simpl in Hc; injection Hc as <- <-; simpl.
  - exists s. split_and!; done.
  - by rewrite insert_insert_eq, insert_id.
  - by rewrite insert_insert_eq, insert_id.
Qed.

(** The claim of the only session that carries the digest spends it. *)
Lemma claim_spends used key digest clock (m : gmap string (BootstrapSession V)) s r :
  used <> "" -> presents used key digest r ->
  (forall id1 id2 s1 s2, m !! id1 = Some s1 -> m !! id2 = Some s2 ->
     field (S_Data s1) key = trim_space digest -> field (S_Data s2) key = trim_space digest ->
     id1 = id2) ->
  m !! S_ID s = Some s -> claimable clock s r ->
  spent used key digest (<[S_ID s := claimed clock s r]> m).
Proof.
  intros Hk (Hr1 & Hr2 & Hr3) Hone Hs [_ _ _ Hh _ _ _] id x Hx Hf. rewrite Hr2, Hr3 in Hh.
  destruct (decide (id = S_ID s)) as [->|Hne].
  - rewrite lookup_insert_eq in Hx. injection Hx as <-. rewrite <- Hr1. apply claimed_used. by rewrite Hr1.
  - rewrite lookup_insert_ne in Hx by done. destruct Hne. by eapply Hone.
Qed.

(** A spent digest is refused for good. *)
Lemma spent_refuses used key digest (st : kv_store (BootstrapSession V)) l st' :
  keyed (kv_data st) -> spent used key digest (kv_data st) ->
  Forall (fun c => presents used key digest c.1) l -> claim_runs st l st' ->
  List.filter (fun c => is_ok c.2) l = [].
Proof.
  intros Hm Hsp Hl Hc. induction Hc as [st|clock st values d r st1 res l st2 Hv Hc Hrest IH]; [done|].
  apply Forall_cons in Hl as [(Hr1 & Hr2 & Hr3) Hl].
  pose proof (claim_step clock st values d r st1 res Hm Hv Hc) as Hs.
  cbn [List.filter snd fst] in *. destruct res as [u|e]; cbn [is_ok].
  - destruct Hs as (s & Hs & [_ _ _ Hh Hu _ _] & _). rewrite Hr1 in Hu. rewrite Hr2, Hr3 in Hh.
    by destruct (Hsp _ _ Hs Hh).
  - rewrite Hs in *. by apply IH.
Qed.
End BootstrapLemmas.

(** ** Properties *)

Section BootstrapProperties.
Context `{TimeText} {V : Type}.
Implicit Types s : BootstrapSession V.
Implicit Types r : BootstrapTokenClaimRequest V.

(** A token is accepted exactly if it is presented for the session's
    project, is bound to that project, has the stored digest, was not used,
    has not expired on the store's clock, and comes with no identity that
    contradicts the stored one; what is stored then differs from the session
    in the step data, the mark of use and the update time only. *)
Theorem claim_exact clock s r s' :
  (ApplyBootstrapTokenClaim clock s r = Ok s' <-> claimable clock s r /\ s' = claimed clock s r)
  /\ (forall k, Forall (fun kv => trim_space kv.1 <> k) (Q_StepData r) -> k <> Q_TokenUsedAtKey r ->
        S_Data (claimed clock s r) !! k = S_Data s !! k)
  /\ S_ID (claimed clock s r) = S_ID s /\ S_ProjectID (claimed clock s r) = S_ProjectID s
  /\ S_Status (claimed clock s r) = S_Status s /\ S_CurrentStep (claimed clock s r) = S_CurrentStep s.
Proof.
  split; [apply claim_ok|]. split_and!; try done. intros k Hk Hu.
  unfold claimed. cbv zeta. cbn [S_Data set_claimed].
  destruct (_ && _); [rewrite lookup_insert_ne by done|]; by apply step_data_other.
Qed.

(** A claimed session refuses every later claim that looks at the same
    mark of use, whatever else the request says and whenever it comes. *)
Theorem claim_single_use clock clock' s r s' r'
  (Hc : ApplyBootstrapTokenClaim clock s r = Ok s') (Hk : Q_TokenUsedAtKey r <> "")
  (Hk' : Q_TokenUsedAtKey r' = Q_TokenUsedAtKey r) :
  is_ok (ApplyBootstrapTokenClaim clock' s' r') = false.
Proof.
  destruct (ApplyBootstrapTokenClaim clock' s' r') as [s2|e] eqn:E; [|done].
  apply claim_ok in Hc as [_ ->]. apply claim_ok in E as [[_ _ _ _ Hu _ _] _].
  rewrite Hk' in Hu. by destruct (claimed_used clock s r Hk).
Qed.

(** A claim on the JSON store is all or nothing: if it succeeds the
    claimed session is the only change in memory and is in the file, and if
    it fails, at the disk too, memory is as before. *)
Theorem store_claim_atomic clock (st : kv_store (BootstrapSession V)) values d r st' res
  (Hm : keyed (kv_data st)) (Hv : values ≡ₚ (map_to_list (kv_data st)).*2)
  (Hc : ClaimBootstrapToken clock st values d r = (st', res)) :
  match res with
  | Ok u => exists s, kv_data st !! S_ID u = Some s /\ ApplyBootstrapTokenClaim clock s r = Ok u
      /\ kv_data st' = <[S_ID u := u]> (kv_data st)
      /\ kv_file st' = FileOf (map_to_list (kv_data st'))
  | Err e => kv_data st' = kv_data st
  end.
Proof.
  unfold ClaimBootstrapToken in Hc.
  destruct (GetByProject values _) as [s|e] eqn:Eg; [|by simplify_eq].
  apply GetByProject_in in Eg as (Hs & _ & _). pose proof (keyed_values _ _ _ Hm Hv Hs) as Hl.
  destruct (ApplyBootstrapTokenClaim clock s r) as [u|e] eqn:Ea; [|by simplify_eq].
  assert (Hid : S_ID u = S_ID s) by (apply claim_ok in Ea as [_ ->]; done).
  rewrite Hid, Hl in Hc.
  destruct d; simpl in Hc; injection Hc as <- <-; simpl; rewrite ?Hid.
  - exists s. split_and!; done.
  - by rewrite insert_insert_eq, insert_id.
  - by rewrite insert_insert_eq, insert_id.
Qed.

(** C26: In any sequence of claims on the JSON store that present one digest
    under one pair of keys, with nothing else written in between, at most one
    succeeds, whatever else the requests say, whenever they come, in whatever
    order the map is iterated and wherever the disk fails: if the key of the
    mark of use is not empty and at most one session of the store carries
    the digest. *)
Theorem token_claimed_once (used key digest : string) (st st' : kv_store (BootstrapSession V)) l
  (Hm : keyed (kv_data st)) (Hk : used <> "")
  (Hone : forall id1 id2 s1 s2, kv_data st !! id1 = Some s1 -> kv_data st !! id2 = Some s2 ->
     field (S_Data s1) key = trim_space digest -> field (S_Data s2) key = trim_space digest ->
     id1 = id2)
  (Hl : Forall (fun c => presents used key digest c.1) l) (Hc : claim_runs st l st') :
  (length (List.filter (fun c => is_ok c.2) l) <= 1)%nat.
Proof.
  induction Hc as [st|clock st values d r st1 res l st2 Hv Hc Hrest IH]; [simpl; lia|].
  apply Forall_cons in Hl as [Hr Hl].
  pose proof (claim_step clock st values d r st1 res Hm Hv Hc) as Hs.
  cbn [List.filter snd fst] in *. destruct res as [u|e]; cbn [is_ok].
  - destruct Hs as (s & Hs & Hcl & Hu & ->). change (S_ID (claimed clock s r)) with (S_ID s) in Hs, Hu.
    assert (Hsp : spent used key digest (kv_data st1)).
    { rewrite Hu. by apply claim_spends. }
    rewrite (spent_refuses used key digest st1 l st2); [simpl; lia|..|done|done|done].
    rewrite Hu. apply map_Forall_insert_2; done.
  - rewrite Hs in *. by apply IH.
Qed.

(** If every session has an update time, which [Save] sees to,
    [GetByProject] finds a session of the project exactly if there is one,
    and then one that no other session of the project is newer than,
    whatever the order the map is iterated in. *)
Theorem GetByProject_latest values id s
  (Hu : Forall (fun s => S_UpdatedAt s <> 0) values) (Hg : GetByProject values id = Ok s) :
  s ∈ values /\ equal_fold (trim_space (S_ProjectID s)) (trim_space id) = true
  /\ forall s', s' ∈ values -> equal_fold (trim_space (S_ProjectID s')) (trim_space id) = true ->
       S_UpdatedAt s' <= S_UpdatedAt s.
Proof.
  destruct (GetByProject_in _ _ _ Hg) as (Hin & He & Hid). split_and!; [done|done|].
  unfold GetByProject in Hg. rewrite (proj2 (str_eq_false _ _) Hid) in Hg.
  set (items := List.filter _ values) in Hg.
  assert (Hitems : Forall (fun s => S_UpdatedAt s <> 0) items).
  { rewrite Forall_forall in Hu |- *. intros x Hx%list_elem_of_In%filter_In. apply Hu.
    apply list_elem_of_In, (proj1 Hx). }
  assert (Hsort : sort_slice session_before items
                = sort_slice (fun a b : BootstrapSession V => S_UpdatedAt b <? S_UpdatedAt a) items).
  { assert (Hb : forall a b : BootstrapSession V, S_UpdatedAt a <> 0 -> S_UpdatedAt b <> 0 ->
              session_before a b = (S_UpdatedAt b <? S_UpdatedAt a)).
    { intros a b Ha Hb. unfold session_before.
      by rewrite (proj2 (Z.eqb_neq _ _) Ha), (proj2 (Z.eqb_neq _ _) Hb). }
    clear -Hitems Hb. induction Hitems as [|x l Hx Hl IH]; [done|]. simpl. rewrite IH.
    assert (Hl' : Forall (fun s => S_UpdatedAt s <> 0)
      (sort_slice (fun a b : BootstrapSession V => S_UpdatedAt b <? S_UpdatedAt a) l))
      by by rewrite sort_slice_perm.
    clear IH Hl. induction Hl' as [|y m Hy Hm IHm]; [done|]. simpl. rewrite Hb by done.
    by rewrite IHm. }
  rewrite Hsort in Hg. destruct (sort_slice _ items) as [|x l] eqn:E; [done|].
  injection Hg as <-. intros s' Hs' He'.
  apply sort_slice_head in E as [_ Hmax]; [|intros; go_bool; lia..].
  specialize (Hmax s'). go_bool. apply Hmax. apply list_elem_of_In, filter_In.
  by rewrite list_elem_of_In in Hs'.
Qed.

(** The comparison [GetByProject] sorts with is no order on sessions
    without an update time: three sessions can each come before the next. *)
Theorem session_before_cyclic (a b c : BootstrapSession V)
  (Hz : S_UpdatedAt a = 0 /\ S_UpdatedAt b = 0 /\ S_UpdatedAt c = 0)
  (Hs : S_Status a = S_Status b /\ S_Status c <> S_Status a)
  (Hstep : S_CurrentStep a < S_CurrentStep b)
  (Hid : String.ltb (S_ID b) (S_ID c) = true /\ String.ltb (S_ID c) (S_ID a) = true) :
  session_before b a = true /\ session_before a c = true /\ session_before c b = true.
Proof.
  destruct Hz as (Ha & Hb & Hc), Hs as [Hs1 Hs2], Hid as [Hi1 Hi2].
  unfold session_before. rewrite Ha, Hb, Hc, Hs1. simpl.
  rewrite (proj2 (str_eq_true _ _) eq_refl).
  rewrite (proj2 (str_eq_false (S_Status b) (S_Status c))) by congruence.
  rewrite (proj2 (str_eq_false (S_Status c) (S_Status b))) by congruence.
  split_and!; [by apply Z.ltb_lt|done|done].
Qed.
End BootstrapProperties.

(** ** Witnesses *)

#[export] Program Instance sample_time : TimeText :=
  {| parse_rfc3339 s := if str_eq s "" then None else Some 100; format_rfc3339 _ := "now" |}.
Next Obligation. reflexivity. Qed.

Definition sample_session : BootstrapSession unit :=
  {| S_ID := "s1"; S_ProjectID := "p1"; S_CurrentStep := 1; S_Status := "open"; S_CreatedBy := "me";
     S_Data := <["hash" := VString "abc"]> (<["expires" := VString "2030"]> ∅);
     S_CreatedAt := 1; S_UpdatedAt := 2 |}.
Definition sample_request : BootstrapTokenClaimRequest unit :=
  {| Q_ProjectID := "P1"; Q_TokenProjectKey := ""; Q_TokenHashKey := "hash"; Q_TokenHash := "abc";
     Q_TokenUsedAtKey := "used"; Q_TokenExpiresKey := "expires";
     Q_Identity := [("runner", "r1")]; Q_StepData := [("runner", VString "r1")]; Q_Now := 50 |}.
Definition sample_sessions : kv_store (BootstrapSession unit) :=
  {| kv_data := {["s1" := sample_session]}; kv_file := NoFile |}.
Definition sample_claim := ClaimBootstrapToken 60 sample_sessions [sample_session] DiskWrites sample_request.
Definition sample_claimed : BootstrapSession unit := claimed 60 sample_session sample_request.

Lemma sample_claim_eq : sample_claim = (sample_claim.1, Ok sample_claimed).
Proof. vm_compute. reflexivity. Qed.
Lemma sample_keyed : keyed (kv_data sample_sessions).
Proof. apply map_Forall_singleton. reflexivity. Qed.
Lemma sample_values : [sample_session] ≡ₚ (map_to_list (kv_data sample_sessions)).*2.
Proof. vm_compute. reflexivity. Qed.
Lemma sample_claimed_values : [sample_claimed] ≡ₚ (map_to_list (kv_data sample_claim.1)).*2.
Proof. vm_compute. reflexivity. Qed.

Lemma claim_single_use_witness :
  is_ok (ApplyBootstrapTokenClaim 61 sample_claimed sample_request) = false.
Proof.
  refine (claim_single_use 60 61 sample_session sample_request sample_claimed sample_request _ _ eq_refl).
  - vm_compute. reflexivity.
  - discriminate.
Defined.

Lemma store_claim_atomic_witness :
  kv_file sample_claim.1 = FileOf (map_to_list (kv_data sample_claim.1)).
Proof.
  destruct (store_claim_atomic 60 sample_sessions [sample_session] DiskWrites sample_request
    sample_claim.1 (Ok sample_claimed) sample_keyed sample_values sample_claim_eq)
    as (s & _ & _ & _ & Hf).
  exact Hf.
Defined.

(** The second claim that presents the digest is refused. *)
Definition sample_again :=
  ClaimBootstrapToken 70 sample_claim.1 [sample_claimed] DiskWrites sample_request.

Lemma token_claimed_once_witness :
  sample_claim.2 = Ok sample_claimed /\
  (length (List.filter (fun c => is_ok c.2)
     [(sample_request, sample_claim.2); (sample_request, sample_again.2)]) <= 1)%nat.
Proof.
  split; [vm_compute; reflexivity|].
  refine (token_claimed_once "used" "hash" "abc" sample_sessions sample_again.1 _ sample_keyed _ _ _ _).
  - discriminate.
  - intros id1 id2 s1 s2 H1 H2 _ _. cbn [kv_data sample_sessions] in H1, H2.
    apply lookup_singleton_Some in H1 as [<- _]. apply lookup_singleton_Some in H2 as [<- _]. reflexivity.
  - repeat constructor.
  - apply (claims_next 60 _ [sample_session] DiskWrites _ sample_claim.1); [exact sample_values| |].
    { exact (surjective_pairing sample_claim). }
    apply (claims_next 70 _ [sample_claimed] DiskWrites _ sample_again.1);
      [exact sample_claimed_values| |apply claims_done].
    exact (surjective_pairing sample_again).
Defined.

Lemma GetByProject_latest_witness :
  exists s, GetByProject [sample_session; sample_claimed] " p1" = Ok s
    /\ S_UpdatedAt sample_session <= S_UpdatedAt s.
Proof.
  exists sample_claimed. split; [vm_compute; reflexivity|].
  refine (proj2 (proj2 (GetByProject_latest [sample_session; sample_claimed] " p1" sample_claimed _ _))
    sample_session _ _).
  - repeat constructor; vm_compute; discriminate.
  - vm_compute. reflexivity.
  - left.
  - vm_compute. reflexivity.
Defined.

Definition unstamped (id status : string) (step : Z) : BootstrapSession unit :=
  {| S_ID := id; S_ProjectID := "p1"; S_CurrentStep := step; S_Status := status; S_CreatedBy := "";
     S_Data := ∅; S_CreatedAt := 0; S_UpdatedAt := 0 |}.

Lemma session_before_cyclic_witness :
  session_before (unstamped "1" "x" 2) (unstamped "3" "x" 1) = true.
Proof.
  refine (proj1 (session_before_cyclic (unstamped "3" "x" 1) (unstamped "1" "x" 2) (unstamped "2" "y" 0)
    _ _ _ _)).
  - repeat split.
  - split; [reflexivity|discriminate].
  - reflexivity.
  - split; reflexivity.
Defined.
