(* ===== verification/KvStores.v ===== *)
(** * Project, product, configuration and settings stores

    [internal/store/project_store.go], [product_store.go],
    [project_config_store.go], [settings_store.go] and their SQL versions.
    Fields the stores do not look at are the type [X] of each module.  A table
    of the database is a map from its key to the stored value; [jsonb] is what
    a JSON column gives back of a value written to it. *)

From stdpp Require Import base list gmap strings sorting.
From Stdlib Require Import ZArith Lia Ascii String.
From S2P Require Import Prelude GoStrings SqlPlan SqlFailure EnvStore JsonFile.

Local Open Scope string_scope.
Local Open Scope Z_scope.
Local Open Scope list_scope.

(** ** Projects *)
Module Projects.
Section Projects.
Context {X : Type}.

Record Project := {
  P_ID : string; P_ProductID : string; P_AppRepositoryID : string;
  P_GitOpsRepositoryID : string; P_ClusterID : string;
  P_CreatedAt : Z; P_UpdatedAt : Z; P_rest : X }.

(** [json.Unmarshal(content, &s.data)] *)
Definition load_project (m : gmap string Project) (e : string * Project) : gmap string Project :=
  <[e.1 := e.2]> m.

Definition seeded (defaults : list Project) : gmap string Project :=
  fold_left (fun m p => <[P_ID p := p]> m) defaults ∅.

(** [NewJSONProjectStore]: the store, or the error of opening or seeding it. *)
Definition NewJSONProjectStore (f : json_file Project) (defaults : list Project) (d : disk)
    : result store_error (kv_store Project) :=
  m <-? load_with load_project f;;
  let s := {| kv_data := m; kv_file := f |} in
  if bool_decide (m = ∅) then
    let s1 := with_data s (seeded defaults) in
    match defaults with
    | [] => Ok s1
    | _ => match persist s1 d with (s2, None) => Ok s2 | (_, Some e) => Err e end
    end
  else Ok s.

Definition by_id (a b : Project) : bool := String.ltb (P_ID a) (P_ID b).
Definition List (values : list Project) : list Project := sort_slice by_id values.

Definition Get (s : kv_store Project) (id : string) : result store_error Project :=
  match kv_data s !! id with Some p => Ok p | None => Err ErrProjectNotFound end.

Definition Save (s : kv_store Project) (d : disk) (p : Project) : kv_store Project * option store_error :=
  persist (with_data s (<[P_ID p := p]> (kv_data s))) d.

(** *** SQL *)
Record prow := {
  pc_product : string; pc_app : string; pc_gitops : string; pc_cluster : string;
  pc_payload : option Project; pc_created : Z; pc_updated : Z }.

Section Sql.
Context (x0 : X) (col : Z -> Z).

Definition zero_project : Project :=
  {| P_ID := ""; P_ProductID := ""; P_AppRepositoryID := ""; P_GitOpsRepositoryID := "";
     P_ClusterID := ""; P_CreatedAt := 0; P_UpdatedAt := 0; P_rest := x0 |}.

Definition scanProject (id : string) (r : prow) : Project :=
  let p := match pc_payload r with Some p => p | None => zero_project end in
  {| P_ID := or_str (P_ID p) id;
     P_ProductID := or_str (P_ProductID p) (pc_product r);
     P_AppRepositoryID := or_str (P_AppRepositoryID p) (pc_app r);
     P_GitOpsRepositoryID := or_str (P_GitOpsRepositoryID p) (pc_gitops r);
     P_ClusterID := or_str (P_ClusterID p) (pc_cluster r);
     P_CreatedAt := or_Z (P_CreatedAt p) (pc_created r);
     P_UpdatedAt := or_Z (P_UpdatedAt p) (pc_updated r);
     P_rest := P_rest p |}.

Definition sql_Get (t : gmap string prow) (up : bool) (id : string) : result store_error Project :=
  let id := trim_space id in
  refuse str_eq id "" with ErrProjectNotFound;;
  refuse negb up with ErrIO;;
  match t !! id with Some r => Ok (scanProject id r) | None => Err ErrProjectNotFound end.

Definition stamp (p : Project) (now1 now2 : Z) : Project :=
  {| P_ID := trim_space (P_ID p); P_ProductID := P_ProductID p;
     P_AppRepositoryID := P_AppRepositoryID p; P_GitOpsRepositoryID := P_GitOpsRepositoryID p;
     P_ClusterID := P_ClusterID p; P_CreatedAt := or_Z (P_CreatedAt p) now1;
     P_UpdatedAt := or_Z (P_UpdatedAt p) now2; P_rest := P_rest p |}.

Definition sql_Save (t : gmap string prow) (up : bool) (now1 now2 : Z) (p : Project)
    : gmap string prow * option store_error :=
  let p := stamp p now1 now2 in
  if str_eq (P_ID p) "" then (t, Some (ErrRequired "project id"))
  else if negb up then (t, Some ErrIO)
  else
    let created := match t !! P_ID p with
                   | Some old => pc_created old | None => col (P_CreatedAt p) end in
    (<[P_ID p := {| pc_product := P_ProductID p; pc_app := P_AppRepositoryID p;
                    pc_gitops := P_GitOpsRepositoryID p; pc_cluster := P_ClusterID p;
                    pc_payload := Some p; pc_created := created;
                    pc_updated := col (P_UpdatedAt p) |}]> t, None).

(** The loop of [NewSQLProjectStore] over the defaults. *)
Fixpoint sql_seed (t : gmap string prow) (up : bool) (now1 now2 : Z) (l : list Project)
    : gmap string prow * option store_error :=
  match l with
  | [] => (t, None)
  | p :: l' => match sql_Save t up now1 now2 p with
               | (t', None) => sql_seed t' up now1 now2 l'
               | (t', Some e) => (t', Some e)
               end
  end.
Definition NewSQLProjectStore (t : gmap string prow) (up : bool) (now1 now2 : Z) (defaults : list Project)
    : gmap string prow * option store_error :=
  if negb up then (t, Some ErrIO)
  else if bool_decide (t = ∅) then sql_seed t up now1 now2 defaults else (t, None).

Definition sql_by_id (a b : string * prow) : bool := String.ltb a.1 b.1.
Definition sql_List (rows : list (string * prow)) : list Project :=
  map (fun kr => scanProject kr.1 kr.2) (sort_slice sql_by_id rows).
End Sql.
End Projects.
Arguments Project X : clear implicits.
Arguments prow X : clear implicits.
End Projects.

(** ** Product templates *)
Module Products.
Section Products.
Context {X : Type}.

Record ProductTemplate := {
  T_Name : string; T_ManifestSourceID : string; T_BasePath : string; T_rest : X }.

Definition normalizeProductName (name : string) : string := to_lower (trim_space name).
Definition named (p : ProductTemplate) (n : string) : ProductTemplate :=
  {| T_Name := n; T_ManifestSourceID := T_ManifestSourceID p; T_BasePath := T_BasePath p;
     T_rest := T_rest p |}.

Definition load_product (m : gmap string ProductTemplate) (e : string * ProductTemplate)
    : gmap string ProductTemplate :=
  let n := normalizeProductName (T_Name e.2) in
  let n := if str_eq n "" then normalizeProductName e.1 else n in
  if str_eq n "" then m else <[n := named e.2 n]> m.

Definition seed_product (m : gmap string ProductTemplate) (p : ProductTemplate)
    : gmap string ProductTemplate :=
  let n := normalizeProductName (T_Name p) in
  if str_eq n "" then m else <[n := named p n]> m.

Definition NewJSONProductStore (f : json_file ProductTemplate) (defaults : list ProductTemplate)
    (d : disk) : result store_error (kv_store ProductTemplate) :=
  m <-? load_with load_product f;;
  let s := {| kv_data := m; kv_file := f |} in
  if bool_decide (m = ∅) then
    let s1 := with_data s (fold_left seed_product defaults ∅) in
    if bool_decide (kv_data s1 = ∅) then Ok s1
    else match persist s1 d with (s2, None) => Ok s2 | (_, Some e) => Err e end
  else Ok s.

Definition by_name (a b : ProductTemplate) : bool := String.ltb (T_Name a) (T_Name b).
Definition List (values : list ProductTemplate) : list ProductTemplate := sort_slice by_name values.

Definition Get (s : kv_store ProductTemplate) (name : string) : result store_error ProductTemplate :=
  match kv_data s !! normalizeProductName name with
  | Some p => Ok p | None => Err ErrProductNotFound end.

Definition Save (s : kv_store ProductTemplate) (d : disk) (p : ProductTemplate)
    : kv_store ProductTemplate * option store_error :=
  let n := normalizeProductName (T_Name p) in
  if str_eq n "" then (s, Some ErrProductNotFound)
  else persist (with_data s (<[n := named p n]> (kv_data s))) d.

Definition Delete (s : kv_store ProductTemplate) (d : disk) (name : string)
    : kv_store ProductTemplate * option store_error :=
  let n := normalizeProductName name in
  match kv_data s !! n with
  | None => (s, Some ErrProductNotFound)
  | Some _ => persist (with_data s (delete n (kv_data s))) d
  end.

(** *** SQL: a row is the manifest source and the payload. *)
Definition trow := (string * option ProductTemplate)%type.

Section Sql.
Context (x0 : X).

Definition scanProduct (name : string) (r : trow) : ProductTemplate :=
  let p := match r.2 with
           | Some p => p
           | None => {| T_Name := ""; T_ManifestSourceID := ""; T_BasePath := ""; T_rest := x0 |}
           end in
  {| T_Name := or_str (T_Name p) name;
     T_ManifestSourceID := or_str (T_ManifestSourceID p) r.1;
     T_BasePath := T_BasePath p; T_rest := T_rest p |}.

Definition sql_Get (t : gmap string trow) (up : bool) (name : string)
    : result store_error ProductTemplate :=
  refuse negb up with ErrIO;;
  match t !! normalizeProductName name with
  | Some r => Ok (scanProduct (normalizeProductName name) r)
  | None => Err ErrProductNotFound
  end.

Definition sql_Save (t : gmap string trow) (up : bool) (p : ProductTemplate)
    : gmap string trow * option store_error :=
  let p := named p (normalizeProductName (T_Name p)) in
  if str_eq (T_Name p) "" then (t, Some (ErrRequired "product name"))
  else if str_eq (T_ManifestSourceID p) "" && blank (T_BasePath p)
  then (t, Some (ErrRequired "manifestSourceId or basePath"))
  else if negb up then (t, Some ErrIO)
  else (<[T_Name p := (T_ManifestSourceID p, Some p)]> t, None).

Definition sql_Delete (t : gmap string trow) (up : bool) (name : string)
    : gmap string trow * option store_error :=
  if negb up then (t, Some ErrIO) else (delete (normalizeProductName name) t, None).

(** A default of [NewSQLProductStore]. *)
Definition default_base (p : ProductTemplate) : ProductTemplate :=
  if blank (T_ManifestSourceID p) && blank (T_BasePath p)
  then {| T_Name := T_Name p; T_ManifestSourceID := T_ManifestSourceID p;
          T_BasePath := ("common/apps/" ++ T_Name p)%string; T_rest := T_rest p |}
  else p.
Fixpoint sql_seed (t : gmap string trow) (up : bool) (l : list ProductTemplate)
    : gmap string trow * option store_error :=
  match l with
  | [] => (t, None)
  | p :: l' =>
      let p := named p (normalizeProductName (T_Name p)) in
      if str_eq (T_Name p) "" then sql_seed t up l'
      else match sql_Save t up (default_base p) with
           | (t', None) => sql_seed t' up l'
           | (t', Some e) => (t', Some e)
           end
  end.
Definition NewSQLProductStore (t : gmap string trow) (up : bool) (defaults : list ProductTemplate)
    : gmap string trow * option store_error :=
  if negb up then (t, Some ErrIO)
  else if bool_decide (t = ∅) then sql_seed t up defaults else (t, None).

Definition sql_by_name (a b : string * trow) : bool := String.ltb a.1 b.1.
Definition sql_List (rows : list (string * trow)) : list ProductTemplate :=
  map (fun kr => scanProduct kr.1 kr.2) (sort_slice sql_by_name rows).
End Sql.
End Products.
Arguments ProductTemplate X : clear implicits.
Arguments trow X : clear implicits.
End Products.

(** ** Project configurations *)
Module Configs.
Section Configs.
(** [X]: the maps [Config] and [Sensitive], nil and empty alike. *)
Context {X : Type}.

Record ProjectConfig := {
  C_ID : string; C_ProjectID : string; C_Version : Z; C_CreatedBy : string;
  C_CreatedAt : Z; C_maps : X }.

Definition newer (a b : ProjectConfig) : bool :=
  if C_Version a =? C_Version b then C_CreatedAt b <? C_CreatedAt a
  else C_Version b <? C_Version a.

(** [Latest], the map iterated as [values]. *)
Definition Latest (values : list ProjectConfig) (projectID : string) : result store_error ProjectConfig :=
  let projectID := trim_space projectID in
  refuse str_eq projectID "" with ErrProjectConfigNotFound;;
  match sort_slice newer (List.filter (fun c => str_eq (C_ProjectID c) projectID) values) with
  | c :: _ => Ok c
  | [] => Err ErrProjectConfigNotFound
  end.

Definition normalized (clock : Z) (c : ProjectConfig) : ProjectConfig :=
  {| C_ID := trim_space (C_ID c); C_ProjectID := trim_space (C_ProjectID c);
     C_Version := C_Version c; C_CreatedBy := C_CreatedBy c;
     C_CreatedAt := or_Z (C_CreatedAt c) clock; C_maps := C_maps c |}.

Definition invalid (c : ProjectConfig) : option store_error :=
  if str_eq (C_ID c) "" then Some (ErrRequired "project config id")
  else if str_eq (C_ProjectID c) "" then Some (ErrRequired "project id")
  else if C_Version c <=? 0 then Some (ErrRequired "project config version")
  else None.

Definition Save (clock : Z) (s : kv_store ProjectConfig) (d : disk) (c : ProjectConfig)
    : kv_store ProjectConfig * option store_error :=
  let c := normalized clock c in
  match invalid c with
  | Some e => (s, Some e)
  | None => persist (with_data s (<[C_ID c := c]> (kv_data s))) d
  end.

Definition load_config (m : gmap string ProjectConfig) (e : string * ProjectConfig)
    : gmap string ProjectConfig := <[e.1 := e.2]> m.
Definition NewJSONProjectConfigStore (f : json_file ProjectConfig)
    : result store_error (kv_store ProjectConfig) :=
  m <-? load_with load_config f;; Ok {| kv_data := m; kv_file := f |}.

(** *** SQL: the rows have the unique key (project, version); [id] is the
    primary key, so a row of another key with the same id is refused. *)
Section Sql.
Context (col : Z -> Z) (jsonb : X -> X).

Definition sql_row (c : ProjectConfig) : ProjectConfig :=
  {| C_ID := C_ID c; C_ProjectID := C_ProjectID c; C_Version := C_Version c;
     C_CreatedBy := C_CreatedBy c; C_CreatedAt := col (C_CreatedAt c); C_maps := jsonb (C_maps c) |}.

(** [accepts] is the database's answer to the statement. *)
Definition sql_Save (clock : Z) (t : gmap (string * Z) ProjectConfig) (accepts : bool) (c : ProjectConfig)
    : gmap (string * Z) ProjectConfig * option store_error :=
  let c := normalized clock c in
  match invalid c with
  | Some e => (t, Some e)
  | None =>
      if negb accepts then (t, Some ErrIO)
      else (<[(C_ProjectID c, C_Version c) := sql_row c]> t, None)
  end.

Definition sql_Latest (rows : list ProjectConfig) (up : bool) (projectID : string)
    : result store_error ProjectConfig :=
  let projectID := trim_space projectID in
  refuse str_eq projectID "" with ErrProjectConfigNotFound;;
  refuse negb up with ErrIO;;
  match sort_slice newer (List.filter (fun c => str_eq (C_ProjectID c) projectID) rows) with
  | c :: _ => Ok c
  | [] => Err ErrProjectConfigNotFound
  end.
End Sql.
End Configs.
Arguments ProjectConfig X : clear implicits.
End Configs.

(** ** Control plane settings *)
Module Settings.
Section Settings.
Context {X : Type}.

Record ControlPlaneSettings := { G_SchemaVersion : string; G_UpdatedAt : Z; G_rest : X }.
(** The file holds one value. *)
Inductive settings_file := NoSettings | EmptySettings | BadSettings | SettingsOf (g : ControlPlaneSettings).
Record JSONSettingsStore := { ss_data : ControlPlaneSettings; ss_file : settings_file }.

Definition persistLocked (s : JSONSettingsStore) (d : disk) : JSONSettingsStore * option store_error :=
  match d with
  | DiskWrites => ({| ss_data := ss_data s; ss_file := SettingsOf (ss_data s) |}, None)
  | DiskRefuses => (s, Some ErrIO)
  | DiskTears => ({| ss_data := ss_data s; ss_file := BadSettings |}, Some ErrIO)
  end.
(** [merge]: what unmarshalling a stored value into the defaults leaves. *)
Definition NewJSONSettingsStore
    (merge : ControlPlaneSettings -> ControlPlaneSettings -> ControlPlaneSettings)
    (f : settings_file) (defaults : ControlPlaneSettings) (d : disk)
    : result store_error JSONSettingsStore :=
  match f with
  | BadSettings => Err ErrIO
  | _ =>
      let data := match f with SettingsOf g => merge defaults g | _ => defaults end in
      if str_eq (G_SchemaVersion data) "" then
        match persistLocked {| ss_data := defaults; ss_file := f |} d with
        | (s, None) => Ok s | (_, Some e) => Err e end
      else Ok {| ss_data := data; ss_file := f |}
  end.
Definition Get (s : JSONSettingsStore) : ControlPlaneSettings := ss_data s.
Definition Save (s : JSONSettingsStore) (d : disk) (g : ControlPlaneSettings)
    : JSONSettingsStore * option store_error :=
  persistLocked {| ss_data := g; ss_file := ss_file s |} d.

(** *** SQL: the row [default]. *)
Section Sql.
Context (col : Z -> Z).
Definition updated_at (g : ControlPlaneSettings) (t : Z) : ControlPlaneSettings :=
  {| G_SchemaVersion := G_SchemaVersion g; G_UpdatedAt := t; G_rest := G_rest g |}.
(** A row is the payload and the column [updated_at]. *)
Definition sql_Get (t : option (ControlPlaneSettings * Z)) (up : bool)
    : result store_error ControlPlaneSettings :=
  refuse negb up with ErrIO;;
  match t with Some (g, u) => Ok (updated_at g u) | None => Err ErrNotFound end.
Definition sql_Save (clock : Z) (t : option (ControlPlaneSettings * Z)) (up : bool)
    (g : ControlPlaneSettings) : option (ControlPlaneSettings * Z) * option store_error :=
  if negb up then (t, Some ErrIO)
  else (Some (g, col (or_Z (G_UpdatedAt g) clock)), None).
Definition NewSQLSettingsStore (clock1 clock2 : Z) (t : option (ControlPlaneSettings * Z)) (up : bool)
    (defaults : ControlPlaneSettings) : option (ControlPlaneSettings * Z) * option store_error :=
  match sql_Get t up with
  | Ok _ => (t, None)
  | Err ErrNotFound =>
      sql_Save clock2 t up
        {| G_SchemaVersion := or_str (G_SchemaVersion defaults) "v1";
           G_UpdatedAt := or_Z (G_UpdatedAt defaults) clock1; G_rest := G_rest defaults |}
  | Err e => (t, Some e)
  end.
End Sql.
End Settings.
Arguments ControlPlaneSettings X : clear implicits.
Arguments JSONSettingsStore X : clear implicits.
End Settings.

(** ** Lemmas and properties *)

Lemma normalizeProductName_idem s :
  Products.normalizeProductName (Products.normalizeProductName s) = Products.normalizeProductName s.
Proof. unfold Products.normalizeProductName. by autorewrite with go_str. Qed.

Section KvProperties.
Context {X : Type}.
Import Products.

(** A product template that either store accepts is found under every
    spelling of its name that differs in case and outer white space only,
    with its name normalised and nothing else changed, and no other template
    is affected; saving it again under another spelling replaces it. *)
Theorem products_saved (x0 : X) (p : ProductTemplate X) name other
  (Hn : normalizeProductName name = normalizeProductName (T_Name p))
  (Ho : normalizeProductName other <> normalizeProductName (T_Name p)) :
  (forall (s : kv_store (ProductTemplate X)) d, (Save s d p).2 = None ->
     Get (Save s d p).1 name = Ok (named p (normalizeProductName (T_Name p)))
     /\ Get (Save s d p).1 other = Get s other)
  /\ (forall (t : gmap string (trow X)), (sql_Save t true p).2 = None ->
     sql_Get x0 (sql_Save t true p).1 true name = Ok (named p (normalizeProductName (T_Name p)))
     /\ sql_Get x0 (sql_Save t true p).1 true other = sql_Get x0 t true other).
Proof.
  split.
  - intros s d. unfold Save, Get. destruct (str_eq _ "") eqn:E; [done|].
    intros _. rewrite persist_data. simpl. rewrite Hn, lookup_insert_eq.
    by rewrite lookup_insert_ne.
  - intros t. unfold sql_Save, sql_Get. cbn [named T_Name].
    destruct (str_eq (normalizeProductName (T_Name p)) "") eqn:E; [done|].
    destruct (_ && _); [done|]. simpl. intros _. rewrite Hn, lookup_insert_eq.
    rewrite lookup_insert_ne by done. split; [|done].
    unfold scanProduct, named. simpl. unfold or_str. rewrite E.
    by destruct (str_eq (T_ManifestSourceID p) "") eqn:Em;
      [apply str_eq_true in Em; rewrite ?Em|].
Qed.

(** The two product stores do not agree on a template that is not there:
    the JSON store refuses to delete it, the SQL store reports success. *)
Theorem product_delete_missing (s : kv_store (ProductTemplate X)) (t : gmap string (trow X)) d name
  (Hs : kv_data s !! normalizeProductName name = None) (Ht : t !! normalizeProductName name = None) :
  Delete s d name = (s, Some ErrProductNotFound) /\ sql_Delete t true name = (t, None).
Proof. unfold Delete, sql_Delete. rewrite Hs. simpl. by rewrite delete_id. Qed.

(** [Latest] of the configuration stores returns a configuration of the
    project that no other of its configurations outranks by version or, at
    the same version, by creation time, whatever the order of enumeration;
    it fails only if the project has none. *)
Theorem config_latest (values : list (Configs.ProjectConfig X)) id (Hid : trim_space id <> "") :
  match Configs.Latest values id with
  | Ok c => c ∈ values /\ Configs.C_ProjectID c = trim_space id
      /\ (forall c', c' ∈ values -> Configs.C_ProjectID c' = trim_space id ->
            Configs.C_Version c' < Configs.C_Version c
            \/ Configs.C_Version c' = Configs.C_Version c
               /\ Configs.C_CreatedAt c' <= Configs.C_CreatedAt c)
  | Err e => e = ErrProjectConfigNotFound
      /\ forall c', c' ∈ values -> Configs.C_ProjectID c' <> trim_space id
  end
  /\ Configs.sql_Latest values true id = Configs.Latest values id.
Proof.
  unfold Configs.Latest, Configs.sql_Latest. rewrite (proj2 (str_eq_false _ _) Hid).
  cbn [negb]. split; [|done]. set (items := List.filter _ values).
  assert (Hin : forall c, c ∈ items <-> c ∈ values /\ Configs.C_ProjectID c = trim_space id).
  { intros c. unfold items. by rewrite list_elem_of_In, filter_In, str_eq_true, <- list_elem_of_In. }
  destruct (sort_slice Configs.newer items) as [|c l] eqn:E.
  - split; [done|]. intros c' Hc Hp. assert (Hi : c' ∈ items) by by apply Hin.
    rewrite <- (sort_slice_perm Configs.newer items), E in Hi. by apply elem_of_nil in Hi.
  - apply sort_slice_head in E as [Hc Hmax].
    + apply Hin in Hc as [? ?]. split_and!; [done|done|]. intros c' Hc' Hp.
      specialize (Hmax c' (proj2 (Hin c') (conj Hc' Hp))). unfold Configs.newer in Hmax.
      destruct (Z.eqb_spec (Configs.C_Version c') (Configs.C_Version c)); go_bool; lia.
    + intros x. unfold Configs.newer. rewrite Z.eqb_refl. go_bool. lia.
    + unfold Configs.newer. intros x y z.
      destruct (Z.eqb_spec (Configs.C_Version x) (Configs.C_Version y)),
        (Z.eqb_spec (Configs.C_Version y) (Configs.C_Version z)),
        (Z.eqb_spec (Configs.C_Version x) (Configs.C_Version z)); go_bool; lia.
    + unfold Configs.newer. intros x y z.
      destruct (Z.eqb_spec (Configs.C_Version x) (Configs.C_Version y)),
        (Z.eqb_spec (Configs.C_Version y) (Configs.C_Version z)),
        (Z.eqb_spec (Configs.C_Version x) (Configs.C_Version z)); go_bool; lia.
Qed.
End KvProperties.

(** ** Witnesses *)

Definition sample_product : Products.ProductTemplate unit :=
  {| Products.T_Name := " Shop "; Products.T_ManifestSourceID := "m"; Products.T_BasePath := "";
     Products.T_rest := tt |}.
Definition no_products : kv_store (Products.ProductTemplate unit) := {| kv_data := ∅; kv_file := NoFile |}.

Lemma products_saved_witness :
  Products.Get (Products.Save no_products DiskWrites sample_product).1 "SHOP"
  = Ok (Products.named sample_product "shop").
Proof.
  refine (proj1 (proj1 (products_saved tt sample_product "SHOP" "other" _ _) no_products DiskWrites eq_refl)).
  - vm_compute. reflexivity.
  - vm_compute. discriminate.
Defined.

Lemma product_delete_missing_witness :
  Products.Delete no_products DiskWrites "shop" = (no_products, Some ErrProductNotFound).
Proof.
  exact (proj1 (product_delete_missing no_products ∅ DiskWrites "shop"
    (lookup_empty _) (lookup_empty _))).
Defined.

Lemma config_latest_witness :
  Configs.sql_Latest (X := unit) [] true "p" = Configs.Latest [] "p".
Proof.
  refine (proj2 (config_latest [] "p" _)). vm_compute. discriminate.
Defined.
