(* ===== verification/PvcPlan.v ===== *)
(** * PVC copy plans

    [internal/pvccopy/plan.go] and the policy check of [executor.go]: plans,
    receipts and markers, [Plan.Validate], [Plan.Digest], [markerFor],
    [Policy.check] and [SourceHelperName]. *)

From stdpp Require Import base list strings sorting.
From Stdlib Require Import ZArith Lia Ascii String.
From S2P Require Import Prelude GoStrings Regex GoPath.

Local Open Scope string_scope.
Local Open Scope Z_scope.
Local Open Scope list_scope.

Definition MaxCopyBytes : Z := Z.shiftl 1 40.
Definition MaxCopyEntries : Z := 100000.
Definition MaxCopyTimeout : Z := seconds (6 * 3600).
Definition StateDirectory : string := ".envplane-pvccopy".

(** The sentinel errors of the package, and all others. *)
Inductive pvc_error : Type := ErrUnsafe | ErrPartial | ErrOther.
#[export] Instance pvc_error_eq_dec : EqDecision pvc_error.
Proof. solve_decision. Defined.

(** [^[a-z0-9]([a-z0-9.-]*[a-z0-9])?$] *)
Definition dnsName : re :=
  RSeq (RChr alnum_lower)
    (opt (RSeq (RStar (RChr (fun c => alnum_lower c || one_of ".-" c))) (RChr alnum_lower))).
(** [^[a-zA-Z0-9][a-zA-Z0-9._:/-]*@sha256:[a-f0-9]{64}$] *)
Definition imageRef : re :=
  RSeq (RChr alnum)
    (RSeq (RStar (RChr (fun c => alnum c || one_of "._:/-" c)))
       (RSeq (lit (chars "@sha256:")) (times 64 (RChr hex_lower)))).

Record PVCRef := { Pvc_Namespace : string; Pvc_Name : string; Pvc_UID : string }.
#[export] Instance PVCRef_eq_dec : EqDecision PVCRef.
Proof. solve_decision. Defined.

Record TargetBinding := {
  Tb_Tenant : string; Tb_Project : string; Tb_Environment : string; Tb_PVC : PVCRef }.
#[export] Instance TargetBinding_eq_dec : EqDecision TargetBinding.
Proof. solve_decision. Defined.

Record Plan := {
  ImmutablePlanDigest : string; ItemID : string;
  Tenant : string; Project : string; Environment : string;
  Source : PVCRef; Target : PVCRef;
  MaxBytes : Z; MaxEntries : Z; Timeout : Z; Image : string;
  AllowedSourceNamespaces : list string; AllowedTarget : TargetBinding;
  SourceQuiescedOffline : bool }.

Definition binding_of (p : Plan) : TargetBinding :=
  {| Tb_Tenant := Tenant p; Tb_Project := Project p; Tb_Environment := Environment p;
     Tb_PVC := Target p |}.

Definition Validate (p : Plan) : result pvc_error unit :=
  refuse existsb (fun s => str_eq s "" || (256 <? str_len s))
    [Tenant p; Project p; Environment p; Pvc_UID (Source p); Pvc_UID (Target p)] with ErrUnsafe;;
  refuse existsb (fun s => (253 <? str_len s) || negb (match_string dnsName s))
    [Pvc_Namespace (Source p); Pvc_Name (Source p); Pvc_Namespace (Target p); Pvc_Name (Target p)]
    with ErrUnsafe;;
  refuse negb (SourceQuiescedOffline p) with ErrUnsafe;;
  refuse str_eq (Pvc_UID (Source p)) (Pvc_UID (Target p))
    || (str_eq (Pvc_Namespace (Source p)) (Pvc_Namespace (Target p))
        && str_eq (Pvc_Name (Source p)) (Pvc_Name (Target p))) with ErrUnsafe;;
  refuse (MaxBytes p <=? 0) || (MaxCopyBytes <? MaxBytes p)
    || (MaxEntries p <=? 0) || (MaxCopyEntries <? MaxEntries p)
    || (Timeout p <=? 0) || (MaxCopyTimeout <? Timeout p) with ErrUnsafe;;
  refuse negb (match_string imageRef (Image p)) with ErrUnsafe;;
  refuse 1000 <? Z.of_nat (List.length (AllowedSourceNamespaces p)) with ErrUnsafe;;
  refuse negb (existsb (fun ns => str_eq ns (Pvc_Namespace (Source p))) (AllowedSourceNamespaces p))
    with ErrUnsafe;;
  refuse negb (bool_decide (AllowedTarget p = binding_of p)) with ErrUnsafe;;
  Ok tt.

Record RootReceipt := { Rt_UID : Z; Rt_GID : Z; Rt_Mode : Z }.
Record Receipt := { Rc_Root : RootReceipt; Rc_Bytes : Z; Rc_Entries : Z; Rc_SHA256 : string }.
Record Marker := {
  Mk_Version : Z; Mk_PlanDigest : string; Mk_SourceUID : string; Mk_TargetUID : string;
  Mk_Receipt : Receipt; Mk_ImmutablePlanDigest : string }.
#[export] Instance RootReceipt_eq_dec : EqDecision RootReceipt.
Proof. solve_decision. Defined.
#[export] Instance Receipt_eq_dec : EqDecision Receipt.
Proof. solve_decision. Defined.
#[export] Instance Marker_eq_dec : EqDecision Marker.
Proof. solve_decision. Defined.

Definition zero_receipt : Receipt :=
  {| Rc_Root := {| Rt_UID := 0; Rt_GID := 0; Rt_Mode := 0 |}; Rc_Bytes := 0; Rc_Entries := 0;
     Rc_SHA256 := "" |}.

(** [encoding/json]'s text of a plan. *)
Class PvcPlanJson := pvc_plan_json : Plan -> bytes.

Definition sorted_namespaces (p : Plan) : Plan :=
  {| ImmutablePlanDigest := ImmutablePlanDigest p; ItemID := ItemID p; Tenant := Tenant p;
     Project := Project p; Environment := Environment p; Source := Source p; Target := Target p;
     MaxBytes := MaxBytes p; MaxEntries := MaxEntries p; Timeout := Timeout p; Image := Image p;
     AllowedSourceNamespaces := sort_strings (AllowedSourceNamespaces p);
     AllowedTarget := AllowedTarget p; SourceQuiescedOffline := SourceQuiescedOffline p |}.

Section Digests.
Context `{Sha256} `{PvcPlanJson}.

Definition Digest (p : Plan) : result pvc_error string :=
  _ <-? Validate p;; Ok (sha256_hex (pvc_plan_json (sorted_namespaces p))).
(** [d, _ := p.Digest()] *)
Definition digest (p : Plan) : string := match Digest p with Ok d => d | Err _ => "" end.

Definition markerFor (p : Plan) (r : Receipt) : Marker :=
  {| Mk_Version := 1; Mk_PlanDigest := digest p; Mk_SourceUID := Pvc_UID (Source p);
     Mk_TargetUID := Pvc_UID (Target p); Mk_Receipt := r;
     Mk_ImmutablePlanDigest := ImmutablePlanDigest p |}.

Definition SourceHelperName (r : PVCRef) : string :=
  "pvccopy-source-" +:+
    String.substring 0 24 (sha256_hex (chars
      (Pvc_Namespace r +:+ "/" +:+ Pvc_Name r +:+ "/" +:+ Pvc_UID r))).
End Digests.

Record Policy := { Po_RunnerImage : string; Po_SourceNamespaces : list string; Po_Target : TargetBinding }.

(** [Policy.check] *)
Definition policy_check (policy : Policy) (p : Plan) : result pvc_error unit :=
  refuse negb (match_string imageRef (Po_RunnerImage policy))
    || str_ne (Image p) (Po_RunnerImage policy)
    || negb (bool_decide (Po_Target policy = binding_of p)) with ErrUnsafe;;
  refuse negb (existsb (fun ns => str_eq ns (Pvc_Namespace (Source p))) (Po_SourceNamespaces policy))
    with ErrUnsafe;;
  Ok tt.

(** ** Lemmas *)

Lemma Validate_bounds p : Validate p = Ok tt ->
  0 < MaxBytes p <= 2 ^ 40 /\ 0 < MaxEntries p <= 100000 /\ 0 < Timeout p <= seconds 21600
  /\ SourceQuiescedOffline p = true /\ Pvc_UID (Source p) <> Pvc_UID (Target p)
  /\ AllowedTarget p = binding_of p.
Proof.
  unfold Validate. rewrite !refuse_ok.
  intros (_ & _ & Hq & Hs & Hb & _ & _ & _ & Ht & _).
  unfold MaxCopyBytes, MaxCopyEntries, MaxCopyTimeout in Hb.
  change (Z.shiftl 1 40) with (2 ^ 40) in Hb. change (6 * 3600) with 21600 in Hb.
  rewrite !orb_false_iff in Hb. apply orb_false_iff in Hs as [Hs _].
  apply negb_false_iff in Hq, Ht. go_bool. split_and!; try lia; done.
Qed.

(** ** A plan that validates, for the witnesses *)

Definition zeros64 : string := text (repeat (byte_of 48) 64).
Definition sample_plan : Plan :=
  {| ImmutablePlanDigest := ""; ItemID := ""; Tenant := "t"; Project := "p"; Environment := "e";
     Source := {| Pvc_Namespace := "prod"; Pvc_Name := "data"; Pvc_UID := "u1" |};
     Target := {| Pvc_Namespace := "env"; Pvc_Name := "data"; Pvc_UID := "u2" |};
     MaxBytes := 1000; MaxEntries := 10; Timeout := seconds 60;
     Image := "ghcr.io/envplane/runner@sha256:" +:+ zeros64;
     AllowedSourceNamespaces := ["prod"; "base"];
     AllowedTarget := {| Tb_Tenant := "t"; Tb_Project := "p"; Tb_Environment := "e";
       Tb_PVC := {| Pvc_Namespace := "env"; Pvc_Name := "data"; Pvc_UID := "u2" |} |};
     SourceQuiescedOffline := true |}.

Lemma sample_copy_valid : Validate sample_plan = Ok tt.
Proof. vm_compute. reflexivity. Qed.

(** ** Property *)

Section PlanProperties.
Context `{Sha256} `{PvcPlanJson}.

(** The digest that binds claims, receipts and markers to a plan does
    not depend on the order in which the source namespaces are listed, and
    neither does a plan's validity. *)
Theorem Digest_order (p : Plan) l (Hl : l ≡ₚ AllowedSourceNamespaces p) :
  let p' := {| ImmutablePlanDigest := ImmutablePlanDigest p; ItemID := ItemID p;
     Tenant := Tenant p; Project := Project p; Environment := Environment p; Source := Source p;
     Target := Target p; MaxBytes := MaxBytes p; MaxEntries := MaxEntries p; Timeout := Timeout p;
     Image := Image p; AllowedSourceNamespaces := l; AllowedTarget := AllowedTarget p;
     SourceQuiescedOffline := SourceQuiescedOffline p |} in
  Validate p' = Validate p /\ Digest p' = Digest p.
Proof.
  cbv zeta. set (p' := Build_Plan _ _ _ _ _ _ _ _ _ _ _ _ _ _).
  assert (He : existsb (fun ns => str_eq ns (Pvc_Namespace (Source p))) l
             = existsb (fun ns => str_eq ns (Pvc_Namespace (Source p))) (AllowedSourceNamespaces p)).
  { apply eq_true_iff_eq. rewrite !existsb_exists. split; intros (x & Hx & Hn); exists x;
      (split; [|done]); apply list_elem_of_In; apply list_elem_of_In in Hx;
      [by rewrite <- Hl|by rewrite Hl]. }
  assert (Hv : Validate p' = Validate p).
  { unfold Validate, binding_of. simpl. by rewrite He, Hl. }
  split; [done|]. unfold Digest. rewrite Hv. destruct (Validate p); [|done]. simpl.
  unfold sorted_namespaces. simpl. by rewrite (sort_strings_unique _ _ Hl).
Qed.
End PlanProperties.

Lemma Digest_order_witness :
  exists p, AllowedSourceNamespaces p = ["base"; "prod"] /\ Validate p = Ok tt.
Proof.
  eexists. split; [|rewrite <- sample_copy_valid;
    exact (proj1 (Digest_order (H := text) (H0 := fun p => chars (Tenant p)) sample_plan
      ["base"; "prod"] (perm_swap _ _ [])))].
  reflexivity.
Defined.
