(* ===== verification/PvcArchive.v ===== *)
(** * The archive of a PVC copy

    [internal/pvccopy/archive.go], [links_unix.go], [metadata_linux.go]: the
    export of a volume as a tar subset, the relay and the receiver that accept
    that subset only, and the restoring of a target.

    A volume is a map from slash-separated paths to nodes; nobody else writes
    to it during one operation (the caller's fence).  The package archive/tar
    appears as the list of entries that its reader yields; what it can encode
    is [ustar_ok]. *)

From stdpp Require Import base list gmap strings sorting.
From Stdlib Require Import ZArith Lia Ascii String.
From S2P Require Import Prelude GoStrings Regex GoPath PvcPlan.

Local Open Scope string_scope.
Local Open Scope Z_scope.
Local Open Scope list_scope.

(** ** Paths of an archive *)

(** [validPath] *)
Definition validPath (s : string) : bool :=
  str_ne s "." && (0 <? str_len s) && (str_len s <=? 1024) && fs_valid_path s
  && str_eq (path_clean s) s
  && negb (existsb (fun c => char_eq c (byte_of 92) || char_eq c (byte_of 0)
                             || char_eq c (byte_of 13) || char_eq c (byte_of 10)) (chars s))
  && str_ne s StateDirectory && negb (has_prefix s (StateDirectory +:+ "/")).

(** ** Volumes *)

Record meta := {
  m_uid : Z; m_gid : Z;
  m_perm : Z;               (** the permission bits *)
  m_special : bool;         (** setuid, setgid or sticky *)
  m_xattrs : bool;          (** a visible extended attribute, or an error listing them *)
  m_links : Z }.
Inductive node : Type := NDir (m : meta) | NFile (m : meta) (content : bytes) | NOther (m : meta).
Definition node_meta (n : node) : meta := match n with NDir m | NFile m _ | NOther m => m end.
Definition is_dir (n : node) : bool := match n with NDir _ => true | _ => false end.
Notation tree := (gmap string node).

(** [ownership] and [singleLink] on unix *)
Definition ownership (m : meta) : bool :=
  (0 <=? m_uid m) && (m_uid m <=? 2 ^ 31 - 1) && (0 <=? m_gid m) && (m_gid m <=? 2 ^ 31 - 1).
Definition singleLink (m : meta) : bool := m_links m =? 1.

(** ** Entries *)

Definition TypeReg : ascii := byte_of 48.
Definition TypeDir : ascii := byte_of 53.
Record header := {
  h_name : string; h_type : ascii; h_size : Z; h_mode : Z; h_uid : Z; h_gid : Z;
  h_ustar : bool; h_linkname : string; h_pax : Z }.
Record entry := { en_header : header; en_content : bytes }.

(** The header that [export] and [consume] write. *)
Definition clean_header (n : string) (k : ascii) (size mode uid gid : Z) : header :=
  {| h_name := n; h_type := k; h_size := size; h_mode := mode; h_uid := uid; h_gid := gid;
     h_ustar := true; h_linkname := ""; h_pax := 0 |}.

(** [splitUSTARPath] and the field widths of a USTAR header in archive/tar. *)
Definition is_ascii (s : string) : bool := forallb (fun c => (code c <? 128)%N) (chars s).
Definition last_slash (l : bytes) : Z :=
  Z.of_nat (List.length (drop_while (fun c => negb (char_eq c slash)) (rev l))) - 1.
Definition split_ustar (s : string) : bool :=
  let len := str_len s in
  let cut := if 156 <? len then 156 else if has_suffix s "/" then len - 1 else len in
  let i := last_slash (firstn (Z.to_nat cut) (chars s)) in
  (100 <? len) && is_ascii s
  && (0 <? i) && (len - i - 1 <=? 100) && (0 <? len - i - 1) && (i <=? 155).
Definition ustar_ok (h : header) : bool :=
  ((str_len (h_name h) <=? 100) && is_ascii (h_name h) || split_ustar (h_name h))
  && (0 <=? h_mode h) && (h_mode h <? 2 ^ 21) && (0 <=? h_uid h) && (h_uid h <? 2 ^ 21)
  && (0 <=? h_gid h) && (h_gid h <? 2 ^ 21) && (0 <=? h_size h) && (h_size h <? 2 ^ 33).

(** [hashHeader] *)
Fixpoint big_endian (n : nat) (z : Z) : bytes :=
  match n with
  | O => []
  | S n' => ascii_of_N (Z.to_N (Z.shiftr z (8 * Z.of_nat n') mod 256)) :: big_endian n' z
  end.
Definition hashHeader (h : header) : bytes :=
  big_endian 4 (str_len (h_name h)) ++ chars (h_name h) ++ [h_type h]
  ++ flat_map (big_endian 8) [h_size h; h_mode h; h_uid h; h_gid h].

Section Archive.
Context `{Sha256}.

Definition hashed (es : list entry) : bytes :=
  flat_map (fun e => hashHeader (en_header e) ++ en_content e) es.
(** The receipt of the entries written or read. *)
Definition receipt_of (es : list entry) : Receipt :=
  {| Rc_Root := match es with
       | e :: _ => {| Rt_UID := h_uid (en_header e); Rt_GID := h_gid (en_header e);
                      Rt_Mode := h_mode (en_header e) |}
       | [] => {| Rt_UID := 0; Rt_GID := 0; Rt_Mode := 0 |}
       end;
     Rc_Bytes := foldr (fun e n => h_size (en_header e) + n) 0 es;
     Rc_Entries := Z.of_nat (List.length es);
     Rc_SHA256 := sha256_hex (hashed es) |}.

(** ** Export *)

(** What the walk accepts of an entry. *)
Definition walk_ok (nv : string * node) : bool :=
  validPath nv.1
  && match nv.2 with NDir m => negb (m_xattrs m) | NFile _ _ => true | NOther _ => false end.

(** The body of the loop over the sorted names. *)
Definition emit1 (p : Plan) (t : tree) (sent : Z) (n : string) : result pvc_error entry :=
  match t !! n with
  | None => Err ErrOther
  | Some nd =>
      let m := node_meta nd in
      let content := match nd with NFile _ c => c | _ => [] end in
      let size := Z.of_nat (List.length content) in
      refuse negb (is_dir nd) && (match nd with NFile _ _ => false | _ => true end || negb (singleLink m))
        with ErrUnsafe;;
      refuse MaxBytes p - sent <? size with ErrUnsafe;;
      refuse negb (ownership m) || m_special m with ErrUnsafe;;
      refuse m_xattrs m with ErrUnsafe;;
      let h := clean_header n (if is_dir nd then TypeDir else TypeReg) size
                 (Z.land (m_perm m) 511) (m_uid m) (m_gid m) in
      refuse negb (ustar_ok h) with ErrOther;;
      Ok {| en_header := h; en_content := content |}
  end.
Fixpoint emit (p : Plan) (t : tree) (sent : Z) (names : list string) : result pvc_error (list entry) :=
  match names with
  | [] => Ok []
  | n :: names' =>
      e <-? emit1 p t sent n;;
      es <-? emit p t (sent + h_size (en_header e)) names';;
      Ok (e :: es)
  end.

Definition entry_names (t : tree) : list string := (map_to_list (delete "." t)).*1.

(** [export] of the payload [t]; [state] says that the directory of the
    copy's own state is there. *)
Definition export (p : Plan) (t : tree) (state ignoreState : bool)
    : result pvc_error (list entry * Receipt) :=
  match t !! "." with
  | Some (NDir m) =>
      refuse m_xattrs m with ErrUnsafe;;
      refuse state && negb ignoreState with ErrUnsafe;;
      refuse negb (forallb walk_ok (map_to_list (delete "." t))) with ErrUnsafe;;
      refuse MaxEntries p <? 1 + Z.of_nat (size (delete "." t)) with ErrUnsafe;;
      es <-? emit p t 0 ("." :: sort_strings (entry_names t));;
      Ok (es, receipt_of es)
  | _ => Err ErrOther
  end.

(** [Export] *)
Definition Export (p : Plan) (t : tree) (state : bool) : result pvc_error (list entry * Receipt) :=
  _ <-? Validate p;; export p t state false.

(** ** Consume *)

(** What the loop of [consume] keeps between entries. *)
Record scan := { sc_last : string; sc_dirs : list string; sc_entries : Z; sc_bytes : Z }.
Definition scan0 : scan := {| sc_last := ""; sc_dirs := []; sc_entries := 0; sc_bytes := 0 |}.

Definition root_entry (s : scan) (h : header) : bool :=
  (sc_entries s =? 0) && str_eq (h_name h) "." && char_eq (h_type h) TypeDir.

Definition bad_entry (s : scan) (h : header) : bool :=
  (negb (root_entry s h) && (negb (validPath (h_name h)) || negb (str_ltb (sc_last s) (h_name h))))
  || ((sc_entries s =? 0) && negb (root_entry s h))
  || negb (h_ustar h) || str_ne (h_linkname h) "" || negb (h_pax h =? 0)
  || (h_mode h <? 0) || (511 <? h_mode h) || (h_uid h <? 0) || (h_gid h <? 0)
  || (2 ^ 31 - 1 <? h_uid h) || (2 ^ 31 - 1 <? h_gid h)
  || (negb (char_eq (h_type h) TypeReg) && negb (char_eq (h_type h) TypeDir))
  || (h_size h <? 0) || (char_eq (h_type h) TypeDir && negb (h_size h =? 0)).

Definition missing_parent (s : scan) (h : header) : bool :=
  str_ne (path_dir (h_name h)) "." && negb (existsb (str_eq (path_dir (h_name h))) (sc_dirs s)).

Definition over_limit (p : Plan) (s : scan) (h : header) : bool :=
  (MaxEntries p <=? sc_entries s) || (MaxBytes p - sc_bytes s <? h_size h).

Definition advance (s : scan) (h : header) : scan :=
  {| sc_last := if root_entry s h then sc_last s else h_name h;
     sc_dirs := if char_eq (h_type h) TypeDir then h_name h :: sc_dirs s else sc_dirs s;
     sc_entries := sc_entries s + 1; sc_bytes := sc_bytes s + h_size h |}.

Section Consume.
(** [open], the writes to the opened file and its [Close]: the state of the
    receiver afterwards and the error. *)
Context {R : Type} (open : R -> header -> bytes -> R * option pvc_error).

(** The loop of [consume]; [relay] says that an output is written. *)
Fixpoint consume_entries (p : Plan) (relay : bool) (s : scan) (r : R) (l : list entry)
    : R * result pvc_error (list entry) :=
  match l with
  | [] => (r, Ok [])
  | e :: l' =>
      let h := en_header e in
      if bad_entry s h || missing_parent s h || over_limit p s h then (r, Err ErrUnsafe)
      else
        let clean := clean_header (h_name h) (h_type h) (h_size h) (h_mode h) (h_uid h) (h_gid h) in
        if relay && negb (ustar_ok clean) then (r, Err ErrOther)
        else
          let content := firstn (Z.to_nat (h_size h)) (en_content e) in
          match open r clean content with
          | (r', Some err) => (r', Err err)
          | (r', None) =>
              if Z.of_nat (List.length (en_content e)) <? h_size h then (r', Err ErrOther)
              else match consume_entries p relay (advance s h) r' l' with
                   | (r'', Ok es) =>
                       (r'', Ok ({| en_header := clean; en_content := content |} :: es))
                   | (r'', Err err) => (r'', Err err)
                   end
          end
  end.

(** A tar stream: the entries that its reader yields; whether the reader then fails;
    and all the bytes after the content of the last entry (its padding, the end
    blocks, and whatever follows). *)
Record stream := { st_entries : list entry; st_broken : bool; st_tail : bytes }.

Definition block : nat := 512.
Definition is_zero (l : bytes) : bool := forallb (char_eq (byte_of 0)) l.
Definition padding (size : Z) : nat := Z.to_nat (- size mod 512).
Definition last_size (l : list entry) : Z := match last l with Some e => h_size (en_header e) | None => 0 end.
Definition last_content (l : list entry) : bytes :=
  match last l with Some e => firstn (Z.to_nat (h_size (en_header e))) (en_content e) | None => [] end.
(** How [tar.Reader.Next] ends after the last entry, with the bytes that it leaves: at the end of
    the input, a partial padding included, after one zero block there, or after two zero
    blocks; everything else is an error. *)
Definition tar_end (input : stream) : option bytes :=
  let rest := skipn (padding (last_size (st_entries input))) (st_tail input) in
  let after := skipn block rest in
  if st_broken input then None
  else if (List.length rest =? 0)%nat then Some []
  else if (List.length rest <? block)%nat || negb (is_zero (firstn block rest)) then None
  else if (List.length after =? 0)%nat then Some []
  else if (List.length after <? block)%nat || negb (is_zero (firstn block after)) then None
  else Some (skipn block after).
(** [archiveReader.complete], by the bytes after the last header: a header is a
    block that is not zero. *)
Definition st_data (input : stream) : bytes := last_content (st_entries input) ++ st_tail input.
Definition st_complete (input : stream) : bool :=
  let data := st_data input in
  (List.length data mod block =? 0)%nat && (1024 <=? List.length data)%nat && is_zero (skipn (List.length data - 1024) data).

(** The bytes of the entries and two end blocks, and those of the stream. *)
Definition wire_size (l : list entry) : Z :=
  foldr (fun e n => 512 + (h_size (en_header e) + 511) / 512 * 512 + n) 1024 l.
Definition wire_count (input : stream) : Z :=
  wire_size (st_entries input) - Z.of_nat (padding (last_size (st_entries input))) - 1024 + Z.of_nat (List.length (st_tail input)).

(** [consume] *)
Definition consume (p : Plan) (relay : bool) (r : R) (input : stream)
    : R * result pvc_error (list entry * Receipt) :=
  match Validate p with
  | Err e => (r, Err e)
  | Ok _ =>
      match consume_entries p relay scan0 r (st_entries input) with
      | (r', Err e) => (r', Err e)
      | (r', Ok es) =>
          match tar_end input with
          | None => (r', Err ErrOther)
          | Some extra =>
              if (MaxBytes p + MaxEntries p * 2048 + 2048 <=? wire_count input)
                  || negb (List.length extra =? 0)%nat || negb (st_complete input) || bool_decide (es = [])
              then (r', Err ErrUnsafe)
              else (r', Ok (es, receipt_of es))
          end
      end
  end.
End Consume.

(** [Relay]: nothing is opened. *)
Definition Relay (p : Plan) (input : stream) : result pvc_error (list entry * Receipt) :=
  (consume (fun (r : unit) _ _ => (r, None)) p true tt input).2.

(** ** The receiver of a target *)

(** [rv_io]: the outcomes of the next file operations, none fails once the
    list is empty. *)
Record receiver := { rv_tree : tree; rv_dirs : list header; rv_io : list bool }.

Definition works (r : receiver) : bool := match rv_io r with b :: _ => b | [] => true end.
Definition with_tree (r : receiver) (t : tree) (dirs : list header) : receiver :=
  {| rv_tree := t; rv_dirs := dirs; rv_io := tl (rv_io r) |}.

Definition restored (h : header) : meta :=
  {| m_uid := h_uid h; m_gid := h_gid h; m_perm := h_mode h; m_special := false;
     m_xattrs := false; m_links := 1 |}.
(** What the helper creates: its own user, and no permission for others. *)
Definition created (perm : Z) : meta :=
  {| m_uid := 0; m_gid := 0; m_perm := perm; m_special := false; m_xattrs := false; m_links := 1 |}.

Definition parent_dir (t : tree) (n : string) : bool :=
  match t !! path_dir n with Some nd => is_dir nd | None => false end.
Definition can_create (t : tree) (n : string) : bool :=
  parent_dir t n && bool_decide (t !! n = None).

(** [targetReceiver.open] and, for a file, its writes and [syncedFile.Close];
    a failing write leaves what was written. *)
Definition receive_entry (r : receiver) (h : header) (content : bytes) : receiver * option pvc_error :=
  if char_eq (h_type h) TypeDir then
    let dirs := rv_dirs r ++ [h] in
    if str_eq (h_name h) "." then
      ({| rv_tree := rv_tree r; rv_dirs := dirs; rv_io := rv_io r |}, None)
    else if negb (works r) || negb (can_create (rv_tree r) (h_name h))
    then (with_tree r (rv_tree r) dirs, Some ErrOther)
    else (with_tree r (<[h_name h := NDir (created 448)]> (rv_tree r)) dirs, None)
  else
    if negb (can_create (rv_tree r) (h_name h)) then (with_tree r (rv_tree r) (rv_dirs r), Some ErrOther)
    else if negb (works r)
    then (with_tree r (<[h_name h := NFile (created 384) (firstn (Nat.div2 (List.length content)) content)]>
                         (rv_tree r)) (rv_dirs r), Some ErrOther)
    else (with_tree r (<[h_name h := NFile (restored h) content]> (rv_tree r)) (rv_dirs r), None).

(** [targetReceiver.finish] over the directories, last first. *)
Fixpoint finish_dirs (r : receiver) (l : list header) : receiver * option pvc_error :=
  match l with
  | [] => (r, None)
  | h :: l' =>
      match rv_tree r !! h_name h with
      | Some nd =>
          if negb (ownership (node_meta nd)) then (r, Some ErrUnsafe)
          else if negb (works r) then (with_tree r (rv_tree r) (rv_dirs r), Some ErrOther)
          else
            let m := restored h in
            let nd' := match nd with
              | NDir _ => NDir m | NFile _ c => NFile m c | NOther _ => NOther m end in
            finish_dirs (with_tree r (<[h_name h := nd']> (rv_tree r)) (rv_dirs r)) l'
      | None => (r, Some ErrOther)
      end
  end.
Definition finish (r : receiver) : receiver * option pvc_error :=
  finish_dirs r (rev (rv_dirs r)).
End Archive.

(** ** The end of a stream *)

Record archiveReader := { ar_tail : bytes; ar_count : Z }.
Definition archiveReader0 : archiveReader := {| ar_tail := repeat (byte_of 0) 1024; ar_count := 0 |}.
(** [archiveReader.Read] after the underlying read returned [b]. *)
Definition ar_read (r : archiveReader) (b : bytes) : archiveReader :=
  let n := List.length b in
  {| ar_tail := if (1024 <=? n)%nat then skipn (n - 1024) b
                else if (0 <? n)%nat then skipn n (ar_tail r) ++ b
                else ar_tail r;
     ar_count := ar_count r + Z.of_nat n |}.
Definition ar_complete (r : archiveReader) : bool :=
  negb ((ar_count r <? 1024) || negb (ar_count r mod 512 =? 0))
  && forallb (char_eq (byte_of 0)) (ar_tail r).

(** ** Lemmas *)

Section ArchiveLemmas.
Context `{Sha256}.

(** Every check of the loop of [consume], entry by entry. *)
Fixpoint accepted (p : Plan) (relay : bool) (s : scan) (l : list entry) : bool :=
  match l with
  | [] => true
  | e :: l' =>
      let h := en_header e in
      negb (bad_entry s h || missing_parent s h || over_limit p s h)
      && negb (relay && negb (ustar_ok
           (clean_header (h_name h) (h_type h) (h_size h) (h_mode h) (h_uid h) (h_gid h))))
      && negb (Z.of_nat (List.length (en_content e)) <? h_size h)
      && accepted p relay (advance s h) l'
  end.
Definition cleaned (e : entry) : entry :=
  let h := en_header e in
  {| en_header := clean_header (h_name h) (h_type h) (h_size h) (h_mode h) (h_uid h) (h_gid h);
     en_content := firstn (Z.to_nat (h_size h)) (en_content e) |}.

(** The receiver after opening and writing these entries. *)
Fixpoint opened {R} (open : R -> header -> bytes -> R * option pvc_error) (r : R) (l : list entry)
    : option R :=
  match l with
  | [] => Some r
  | e :: l' => match open r (en_header e) (en_content e) with
               | (r', None) => opened open r' l'
               | (_, Some _) => None
               end
  end.

Lemma consume_entries_ok {R} (open : R -> header -> bytes -> R * option pvc_error) p relay s r l r' es :
  consume_entries open p relay s r l = (r', Ok es) <->
  accepted p relay s l = true /\ opened open r (map cleaned l) = Some r' /\ es = map cleaned l.
Proof.
  revert s r r' es. induction l as [|e l IH]; intros s r r' es; cbn [consume_entries accepted opened map].
  { split; [by intros [= <- <-]|by intros (_ & [= <-] & ->)]. }
  cbv zeta. destruct (bad_entry _ _ || _ || _); [simpl; naive_solver|].
  destruct (relay && _); [simpl; naive_solver|]. cbn [negb andb].
  change (en_header (cleaned e)) with
    (clean_header (h_name (en_header e)) (h_type (en_header e)) (h_size (en_header e))
       (h_mode (en_header e)) (h_uid (en_header e)) (h_gid (en_header e))).
  change (en_content (cleaned e)) with (firstn (Z.to_nat (h_size (en_header e))) (en_content e)).
  destruct (open r _ _) as [r1 [err|]]; [naive_solver|].
  destruct (_ <? _); [simpl; naive_solver|]. simpl.
  destruct (consume_entries open p relay (advance s (en_header e)) r1 l) as [r2 [es2|err]] eqn:E.
  - apply IH in E as (H1 & H2 & ->). rewrite H1, H2. split.
    + by intros [= <- <-].
    + by intros (_ & [= <-] & ->).
  - split; [done|]. intros (H1 & H2 & ->).
    assert (E2 : consume_entries open p relay (advance s (en_header e)) r1 l = (r', Ok (map cleaned l)))
      by by apply IH. congruence.
Qed.

Lemma advance_cleaned s e : advance s (en_header (cleaned e)) = advance s (en_header e).
Proof. done. Qed.

(** What the checks establish of a whole stream. *)
Record archive_ok (p : Plan) (es : list entry) : Prop := {
  ao_root : exists e es', es = e :: es' /\ h_name (en_header e) = "." /\ h_type (en_header e) = TypeDir
    /\ Forall (fun e => validPath (h_name (en_header e)) = true) es';
  ao_sorted : StronglySorted (fun a b => str_ltb (h_name (en_header a)) (h_name (en_header b)) = true) (tail es);
  ao_parents : forall pre e post, es = pre ++ e :: post -> path_dir (h_name (en_header e)) <> "." ->
    exists d, d ∈ pre /\ h_name (en_header d) = path_dir (h_name (en_header e))
              /\ h_type (en_header d) = TypeDir;
  ao_kinds : Forall (fun e => (h_type (en_header e) = TypeReg \/ h_type (en_header e) = TypeDir /\ en_content e = [])
    /\ Z.of_nat (List.length (en_content e)) = h_size (en_header e)
    /\ 0 <= h_mode (en_header e) <= 511 /\ h_linkname (en_header e) = "") es;
  ao_bytes : foldr (fun e n => h_size (en_header e) + n) 0 es <= MaxBytes p;
  ao_entries : Z.of_nat (List.length es) <= MaxEntries p }.

Record scanning (p : Plan) (s : scan) (done : list entry) : Prop := {
  si_entries : sc_entries s = Z.of_nat (List.length done);
  si_bytes : sc_bytes s = foldr (fun e n => h_size (en_header e) + n) 0 done;
  si_max_bytes : sc_bytes s <= MaxBytes p;
  si_max_entries : sc_entries s <= MaxEntries p;
  si_dirs : forall d, d ∈ sc_dirs s -> exists e, e ∈ done /\ h_name (en_header e) = d
              /\ h_type (en_header e) = TypeDir;
  si_last : Forall (fun e => h_name (en_header e) = sc_last s
               \/ str_ltb (h_name (en_header e)) (sc_last s) = true) (tail done) }.

Lemma sizes_app a b :
  foldr (fun e n => h_size (en_header e) + n) 0 (a ++ b)
  = foldr (fun e n => h_size (en_header e) + n) 0 a + foldr (fun e n => h_size (en_header e) + n) 0 b.
Proof. induction a as [|e a IH]; simpl; [done|]. rewrite IH. lia. Qed.

Lemma bad_entry_false s h : bad_entry s h = false ->
  (root_entry s h = true \/ (validPath (h_name h) = true /\ str_ltb (sc_last s) (h_name h) = true
                             /\ sc_entries s <> 0))
  /\ h_linkname h = "" /\ 0 <= h_mode h <= 511 /\ 0 <= h_size h
  /\ (h_type h = TypeReg \/ h_type h = TypeDir /\ h_size h = 0).
Proof.
  unfold bad_entry. rewrite !orb_false_iff.
  intros (((((((((((((H1 & H2) & H3) & H4) & H5) & H6) & H7) & H8) & H9) & H10) & H11) & H12) & H13) & H14).
  apply str_ne_false in H4. go_bool. split_and!; [|done|lia|lia|lia|].
  - destruct (root_entry s h); [by left|right]. simpl in H1, H2.
    destruct H2 as [H2|]; [|done]. destruct H1 as [|[H1 H1']]; [done|]. go_bool. done.
  - destruct (char_eq (h_type h) TypeReg) eqn:Er; [apply char_eq_true in Er; auto|].
    destruct (char_eq (h_type h) TypeDir) eqn:Ed; [apply char_eq_true in Ed|by destruct H12].
    right. split; [done|]. by destruct H14.
Qed.

Lemma checks_false p relay s e l : accepted p relay s (e :: l) = true ->
  bad_entry s (en_header e) = false /\ missing_parent s (en_header e) = false
  /\ over_limit p s (en_header e) = false
  /\ h_size (en_header e) <= Z.of_nat (List.length (en_content e))
  /\ accepted p relay (advance s (en_header e)) l = true.
Proof.
  cbn [accepted]. rewrite !andb_true_iff, !negb_true_iff, !orb_false_iff.
  intros [[[[[H1 H2] H3] _] H4] H5]. apply Z.ltb_ge in H4. done.
Qed.

Lemma cleaned_kind s e : bad_entry s (en_header e) = false ->
  h_size (en_header e) <= Z.of_nat (List.length (en_content e)) ->
  (h_type (en_header (cleaned e)) = TypeReg
   \/ h_type (en_header (cleaned e)) = TypeDir /\ en_content (cleaned e) = [])
  /\ Z.of_nat (List.length (en_content (cleaned e))) = h_size (en_header (cleaned e))
  /\ 0 <= h_mode (en_header (cleaned e)) <= 511 /\ h_linkname (en_header (cleaned e)) = "".
Proof.
  intros (_ & _ & Hm & Hs & Hk)%bad_entry_false Hl. simpl. rewrite length_firstn.
  split_and!; try lia; [|done]. destruct Hk as [?|[? ->]]; [by left|by right].
Qed.

Lemma accepted_step p s dn e : archive_ok p dn -> scanning p s dn ->
  bad_entry s (en_header e) = false -> missing_parent s (en_header e) = false ->
  over_limit p s (en_header e) = false ->
  h_size (en_header e) <= Z.of_nat (List.length (en_content e)) ->
  archive_ok p (dn ++ [cleaned e]) /\ scanning p (advance s (en_header e)) (dn ++ [cleaned e]).
Proof.
  intros [[r0 [dn' [Hdn [Hr1 [Hr2 Hr3]]]]] Hsort Hpar Hkind Hb He] [Se Sb Smb Sme Sd Sl] Hbad Hmiss Hover Hlen.
  pose proof (bad_entry_false _ _ Hbad) as (Hroot & _ & _ & Hsz & _).
  pose proof (cleaned_kind _ _ Hbad Hlen) as Hk.
  assert (Hnz : sc_entries s <> 0) by (rewrite Se, Hdn; simpl; lia).
  assert (Hnr : root_entry s (en_header e) = false).
  { unfold root_entry. by rewrite (proj2 (Z.eqb_neq _ _) Hnz). }
  destruct Hroot as [Hroot|(Hv & Hlt & _)]; [congruence|].
  unfold over_limit in Hover. apply orb_false_iff in Hover as [Ho1 Ho2]. go_bool.
  rewrite Hdn in Sl, Hsort. simpl in Sl, Hsort. split; split.
  - exists r0, (dn' ++ [cleaned e]). rewrite Hdn. split_and!; [done|done|done|].
    apply Forall_app. split; [done|]. by constructor.
  - rewrite Hdn. simpl. clear -Hsort Sl Hlt.
    induction Hsort as [|x l Hl IH Hx]; simpl; [by constructor; constructor|].
    apply Forall_cons in Sl as [Sx Sl]. constructor; [by apply IH|].
    apply Forall_app. split; [done|]. constructor; [|done]. simpl.
    destruct Sx as [->|Sx]; [done|]. by apply (str_ltb_trans _ (sc_last s)).
  - intros pre x post Heq Hdir. destruct post as [|y post _] using rev_ind.
    + apply app_inj_tail in Heq as [<- <-]. unfold missing_parent in Hmiss. simpl in Hdir.
      rewrite (proj2 (str_ne_true _ _) Hdir) in Hmiss. simpl in Hmiss.
      apply negb_false_iff, existsb_str, list_elem_of_In in Hmiss.
      by apply Sd in Hmiss as (d & ? & ? & ?); exists d.
    + assert (dn ++ [cleaned e] = (pre ++ x :: post) ++ [y]) as Heq2
        by (rewrite Heq, <- app_assoc; done).
      apply app_inj_tail in Heq2 as [-> _]. by apply (Hpar pre x post).
  - apply Forall_app. split; [done|]. by constructor.
  - rewrite sizes_app. simpl. lia.
  - rewrite length_app. simpl. lia.
  - simpl. rewrite length_app. simpl. lia.
  - simpl. rewrite sizes_app. simpl. lia.
  - simpl. lia.
  - simpl. lia.
  - simpl. intros d Hd. destruct (char_eq (h_type (en_header e)) TypeDir) eqn:Ek.
    + apply elem_of_cons in Hd as [->|Hd].
      * exists (cleaned e). split_and!; [set_solver|done|by apply char_eq_true in Ek].
      * apply Sd in Hd as (d' & ? & ? & ?). exists d'. set_solver.
    + apply Sd in Hd as (d' & ? & ? & ?). exists d'. set_solver.
  - unfold advance. rewrite Hnr, Hdn. simpl. apply Forall_app. split.
    + eapply Forall_impl; [exact Sl|]. intros x [->|Hx]; right; [done|].
      by apply (str_ltb_trans _ (sc_last s)).
    + constructor; [by left|done].
Qed.

Lemma accepted_rest p relay s dn l : archive_ok p dn -> scanning p s dn ->
  accepted p relay s l = true -> archive_ok p (dn ++ map cleaned l).
Proof.
  revert s dn. induction l as [|e l IH]; intros s dn Ho Hs Ha.
  { simpl. by rewrite app_nil_r. }
  apply checks_false in Ha as (H1 & H2 & H3 & H4 & Ha).
  destruct (accepted_step _ _ _ _ Ho Hs H1 H2 H3 H4) as [Ho' Hs'].
  simpl. change (cleaned e :: map cleaned l) with ([cleaned e] ++ map cleaned l).
  rewrite app_assoc. by apply (IH _ _ Ho' Hs').
Qed.

Lemma accepted_archive p relay l : l <> [] -> accepted p relay scan0 l = true ->
  archive_ok p (map cleaned l).
Proof.
  destruct l as [|e l]; [done|]. intros _ Ha.
  apply checks_false in Ha as (H1 & H2 & H3 & H4 & Ha).
  pose proof (bad_entry_false _ _ H1) as ([Hr|(_ & _ & Hn)] & _ & _ & Hsz & _); [|done].
  pose proof (cleaned_kind _ _ H1 H4) as Hk.
  unfold root_entry in Hr. rewrite !andb_true_iff in Hr. destruct Hr as [[_ Hn] Hd].
  apply str_eq_true in Hn. apply char_eq_true in Hd.
  unfold over_limit in H3. simpl in H3. apply orb_false_iff in H3 as [H3 H3']. go_bool.
  change (map cleaned (e :: l)) with ([cleaned e] ++ map cleaned l).
  apply (accepted_rest p relay (advance scan0 (en_header e))); [split|split|done]; simpl.
  - by exists (cleaned e), [].
  - constructor.
  - intros pre x post Heq Hdir. destruct pre as [|y pre]; simplify_eq/=.
    + rewrite Hn in Hdir. by destruct Hdir.
    + by destruct pre.
  - by constructor.
  - lia.
  - lia.
  - done.
  - lia.
  - lia.
  - lia.
  - rewrite Hd. simpl. intros d Hd'. apply list_elem_of_singleton in Hd' as ->.
    exists (cleaned e). split_and!; [set_solver|done|done].
  - constructor.
Qed.

(** ** From an export to an accepted and restored archive *)

Definition content_of (nd : node) : bytes := match nd with NFile _ c => c | _ => [] end.
Definition entry_of (n : string) (nd : node) : entry :=
  let m := node_meta nd in
  {| en_header := clean_header n (if is_dir nd then TypeDir else TypeReg)
       (Z.of_nat (List.length (content_of nd))) (Z.land (m_perm m) 511) (m_uid m) (m_gid m);
     en_content := content_of nd |}.
(** What a restored node keeps of the exported one. *)
Definition keep_meta (m : meta) : meta :=
  {| m_uid := m_uid m; m_gid := m_gid m; m_perm := Z.land (m_perm m) 511; m_special := false;
     m_xattrs := false; m_links := 1 |}.
Definition keep (nd : node) : node :=
  match nd with
  | NDir m => NDir (keep_meta m) | NFile m c => NFile (keep_meta m) c | NOther m => NOther (keep_meta m)
  end.
Definition exportable (nd : node) : Prop :=
  let m := node_meta nd in
  match nd with NDir _ => True | NFile m _ => m_links m = 1 | NOther _ => False end
  /\ ownership m = true /\ m_special m = false /\ m_xattrs m = false.

Lemma emit1_ok p t sent n e : emit1 p t sent n = Ok e ->
  exists nd, t !! n = Some nd /\ e = entry_of n nd /\ exportable nd
    /\ Z.of_nat (List.length (content_of nd)) <= MaxBytes p - sent /\ ustar_ok (en_header e) = true.
Proof.
  unfold emit1. destruct (t !! n) as [nd|]; [|done]. cbv zeta. rewrite !refuse_ok.
  intros (H1 & H2 & H3 & H4 & H5 & [= <-]).
  exists nd. split; [done|]. split; [done|]. apply orb_false_iff in H3 as [H3 H3'].
  apply negb_false_iff in H3, H5. apply Z.ltb_ge in H2. split; [|by split].
  split; [|done]. destruct nd as [m|m c|m]; simpl in *; [done| |done].
  apply negb_false_iff in H1. unfold singleLink in H1. lia.
Qed.

Lemma emit_cons p t sent n names es : emit p t sent (n :: names) = Ok es ->
  exists e es', es = e :: es' /\ emit1 p t sent n = Ok e
    /\ emit p t (sent + h_size (en_header e)) names = Ok es'.
Proof.
  simpl. rewrite rbind_ok. intros (e & He & Hr). rewrite rbind_ok in Hr.
  destruct Hr as (es' & Hes & [= <-]). eauto.
Qed.

Lemma land_perm z : 0 <= Z.land z 511 <= 511.
Proof.
  assert (Z.land z 511 = z mod 512) as -> by apply (Z.land_ones z 9 ltac:(lia)).
  pose proof (Z.mod_pos_bound z 512). lia.
Qed.

Lemma cleaned_entry n nd : cleaned (entry_of n nd) = entry_of n nd.
Proof. unfold cleaned, entry_of. simpl. by rewrite Nat2Z.id, firstn_all. Qed.

Lemma emitted_cleaned p t names : forall sent es, emit p t sent names = Ok es -> map cleaned es = es.
Proof.
  induction names as [|n names IH]; intros sent es He; [by simplify_eq/=|].
  apply emit_cons in He as (e & es' & -> & H1 & H2).
  apply emit1_ok in H1 as (nd & _ & -> & _). simpl map. rewrite cleaned_entry. f_equal. by eapply IH.
Qed.

Lemma entry_of_good s n nd : sc_entries s <> 0 -> validPath n = true -> str_ltb (sc_last s) n = true ->
  exportable nd -> bad_entry s (en_header (entry_of n nd)) = false.
Proof.
  intros Hn Hv Hl (Hk & Ho & _). pose proof (land_perm (m_perm (node_meta nd))) as Hp.
  unfold bad_entry. simpl. rewrite Hv, Hl. rewrite (proj2 (Z.eqb_neq _ _) Hn). simpl.
  rewrite andb_false_r. simpl. unfold ownership in Ho. rewrite !andb_true_iff in Ho.
  destruct Ho as [[[Ho1 Ho2] Ho3] Ho4]. rewrite !Z.leb_le in *.
  rewrite !orb_false_iff. destruct nd as [m|m c|m]; simpl in *; [| |done]; split_and!; try done; apply Z.ltb_ge; lia.
Qed.

Lemma root_entry_good nd : is_dir nd = true -> exportable nd ->
  bad_entry scan0 (en_header (entry_of "." nd)) = false.
Proof.
  intros Hd (_ & Ho & _). pose proof (land_perm (m_perm (node_meta nd))) as Hp.
  unfold ownership in Ho. rewrite !andb_true_iff in Ho. destruct Ho as [[[Ho1 Ho2] Ho3] Ho4].
  rewrite !Z.leb_le in *. destruct nd as [m|m c|m]; [|done|done].
  unfold bad_entry, root_entry. simpl in *. rewrite !orb_false_iff. split_and!; try done; lia.
Qed.

Definition below (a b : string) : Prop := str_ltb a b = true.

Lemma emitted_length p t names : forall sent es, emit p t sent names = Ok es ->
  List.length es = List.length names.
Proof.
  induction names as [|n names IH]; intros sent es He; [by simplify_eq/=|].
  apply emit_cons in He as (e & es' & -> & _ & H2). simpl. f_equal. by eapply IH.
Qed.

(** The rest of an exported list is accepted after what precedes it. *)
Lemma emitted_accepted p t names : forall s es, emit p t (sc_bytes s) names = Ok es ->
  0 < sc_entries s -> sc_entries s + Z.of_nat (List.length names) <= MaxEntries p ->
  StronglySorted below names -> Forall (below (sc_last s)) names ->
  Forall (fun n => validPath n = true) names ->
  Forall (fun n => path_dir n = "." \/ path_dir n ∈ sc_dirs s
    \/ path_dir n ∈ names /\ exists m, t !! path_dir n = Some (NDir m)) names ->
  accepted p true s es = true.
Proof.
  induction names as [|n names IH]; intros s es He Hs Hm Hsort Hlast Hv Hp; [by simplify_eq/=|].
  apply emit_cons in He as (e & es' & -> & H1 & H2).
  apply emit1_ok in H1 as (nd & Hnd & -> & Hx & Hsz & Hu).
  apply StronglySorted_inv in Hsort as [Hsort Hbelow]. apply Forall_cons in Hlast as [Hl Hlast].
  apply Forall_cons in Hv as [Hvn Hv]. apply Forall_cons in Hp as [Hpn Hp].
  simpl List.length in Hm. cbn [accepted]. cbv zeta.
  assert (Hr : root_entry s (en_header (entry_of n nd)) = false).
  { unfold root_entry. by rewrite (proj2 (Z.eqb_neq _ _)) by lia. }
  rewrite (entry_of_good s n nd) by (try done; lia).
  assert (missing_parent s (en_header (entry_of n nd)) = false) as ->.
  { unfold missing_parent. simpl. destruct (str_ne (path_dir n) ".") eqn:E; [|done]. simpl.
    apply str_ne_true in E. apply negb_false_iff, existsb_str, list_elem_of_In.
    destruct Hpn as [|[?|[Hin _]]]; [done|done|]. exfalso.
    assert (Hlt : str_ltb (path_dir n) n = true).
    { apply path_dir_ltb; [|done]. unfold validPath in Hvn. rewrite !andb_true_iff in Hvn. tauto. }
    apply elem_of_cons in Hin as [Heq|Hin]; [rewrite Heq in Hlt; by rewrite str_ltb_irrefl in Hlt|].
    rewrite Forall_forall in Hbelow. pose proof (str_ltb_trans _ _ _ (Hbelow _ Hin) Hlt) as Hc.
    by rewrite str_ltb_irrefl in Hc. }
  assert (over_limit p s (en_header (entry_of n nd)) = false) as ->.
  { unfold over_limit. simpl. apply orb_false_iff. split; lia. }
  change (clean_header _ _ _ _ _ _) with (en_header (entry_of n nd)). rewrite Hu.
  assert (Z.of_nat (List.length (en_content (entry_of n nd))) <? h_size (en_header (entry_of n nd)) = false)
    as -> by (simpl; lia). simpl negb. simpl andb.
  apply IH; try done; [simpl; lia|simpl; lia| |].
  - unfold advance. simpl in Hr. simpl. by rewrite Hr.
  - rewrite Forall_forall in Hp |- *. intros m Hin. specialize (Hp m Hin) as [?|[?|[Hd [dm Hdm]]]].
    + by left.
    + right. left. simpl. destruct (char_eq _ _); [by right|done].
    + apply elem_of_cons in Hd as [Heq|Hd].
      * right. left. rewrite Heq, Hnd in *. simplify_eq. simpl. by left.
      * right. right. split; [done|by exists dm].
Qed.

(** What the receiver writes for a node, before [finish]. *)
Definition raw (nd : node) : node :=
  match nd with NDir _ => NDir (created 448) | _ => keep nd end.
Definition dir_headers (es : list entry) : list header :=
  filter (fun h => char_eq (h_type h) TypeDir = true) (map en_header es).

Lemma receive_entry_ok t0 t dirs n nd : n <> "." -> exportable nd ->
  parent_dir t n = true -> t !! n = None -> t0 = <[n := raw nd]> t ->
  receive_entry {| rv_tree := t; rv_dirs := dirs; rv_io := [] |}
    (en_header (entry_of n nd)) (en_content (entry_of n nd))
  = ({| rv_tree := t0; rv_dirs := dirs ++ dir_headers [entry_of n nd]; rv_io := [] |}, None).
Proof.
  intros Hn (Hk & _) Hp Ht ->. unfold receive_entry, can_create, works, with_tree, dir_headers. simpl.
  rewrite Hp, bool_decide_true, (proj2 (str_eq_false _ _) Hn) by done.
  destruct nd as [m|m c|m]; [done| |done]. simpl. by rewrite app_nil_r.
Qed.

Lemma emitted_opened p t names : forall sent es rt dirs, emit p t sent names = Ok es ->
  StronglySorted below names -> Forall (fun n => n <> "." /\ rt !! n = None) names ->
  (exists m, rt !! "." = Some (NDir m)) ->
  Forall (fun n => fs_valid_path n = true /\ (path_dir n = "." \/ parent_dir rt n = true
    \/ path_dir n ∈ names /\ exists m, t !! path_dir n = Some (NDir m))) names ->
  exists rt', opened receive_entry {| rv_tree := rt; rv_dirs := dirs; rv_io := [] |} es
      = Some {| rv_tree := rt'; rv_dirs := dirs ++ dir_headers es; rv_io := [] |}
    /\ forall k, rt' !! k = if decide (k ∈ names) then raw <$> t !! k else rt !! k.
Proof.
  induction names as [|n names IH]; intros sent es rt dirs He Hsort Hnew Hroot Hp.
  { simplify_eq/=. exists rt. split; [by rewrite app_nil_r|done]. }
  apply emit_cons in He as (e & es' & -> & H1 & H2).
  apply emit1_ok in H1 as (nd & Hnd & -> & Hx & _ & _).
  apply StronglySorted_inv in Hsort as [Hsort Hbelow]. rewrite Forall_forall in Hbelow.
  apply Forall_cons in Hnew as [[Hn Hnone] Hnew]. apply Forall_cons in Hp as [[Hvn Hpn] Hp].
  assert (Hpd : parent_dir rt n = true).
  { destruct Hpn as [Heq|[?|[Hin _]]]; [|done|].
    - unfold parent_dir. rewrite Heq. by destruct Hroot as [m ->].
    - destruct (decide (path_dir n = ".")) as [Heq|Hne].
      { unfold parent_dir. rewrite Heq. by destruct Hroot as [m ->]. }
      pose proof (path_dir_ltb _ Hvn Hne) as Hlt. exfalso.
      apply elem_of_cons in Hin as [Heq|Hin]; [rewrite Heq in Hlt; by rewrite str_ltb_irrefl in Hlt|].
      pose proof (str_ltb_trans _ _ _ (Hbelow _ Hin) Hlt) as Hc. by rewrite str_ltb_irrefl in Hc. }
  destruct (IH (sent + h_size (en_header (entry_of n nd))) es' (<[n := raw nd]> rt)
    (dirs ++ dir_headers [entry_of n nd])) as (rt' & Ho & Hl); [done|done| | | |].
  - rewrite Forall_forall in Hnew |- *. intros m Hm. destruct (Hnew m Hm) as [? ?]. split; [done|].
    rewrite lookup_insert_ne; [done|]. intros ->. pose proof (Hbelow _ Hm) as Hc.
    unfold below in Hc. by rewrite str_ltb_irrefl in Hc.
  - destruct Hroot as [m Hm]. exists m. by rewrite lookup_insert_ne.
  - rewrite Forall_forall in Hp |- *. intros m Hm. destruct (Hp m Hm) as [Hvm [?|[Hq|[Hin Hq]]]];
      (split; [done|]); [by left| |].
    + right. left. unfold parent_dir in *. rewrite lookup_insert_ne; [done|].
      intros Heq. by rewrite <- Heq, Hnone in Hq.
    + apply elem_of_cons in Hin as [Heq|Hin]; [|by right; right].
      right. left. unfold parent_dir. rewrite Heq, lookup_insert_eq. destruct Hq as [dm Hdm].
      rewrite Heq, Hnd in Hdm. by simplify_eq/=.
  - exists rt'. split.
    + cbn [opened]. rewrite (receive_entry_ok _ _ _ _ _ Hn Hx Hpd Hnone eq_refl), Ho, <- app_assoc.
      unfold dir_headers. simpl map. by rewrite <- filter_app.
    + intros k. rewrite Hl. destruct (decide (k ∈ names)) as [Hk|Hk].
      * by rewrite decide_True by by right.
      * destruct (decide (k = n)) as [->|Hne].
        -- rewrite decide_True by by left. by rewrite lookup_insert_eq, Hnd.
        -- rewrite decide_False by (rewrite elem_of_cons; naive_solver). by rewrite lookup_insert_ne.
Qed.

(** [finish] over directories of the tree with distinct names. *)
Lemma finish_dirs_ok l : forall t dirs, NoDup (map h_name l) ->
  Forall (fun h => exists m, t !! h_name h = Some (NDir m) /\ ownership m = true) l ->
  exists t', finish_dirs {| rv_tree := t; rv_dirs := dirs; rv_io := [] |} l
      = ({| rv_tree := t'; rv_dirs := dirs; rv_io := [] |}, None)
    /\ Forall (fun h => t' !! h_name h = Some (NDir (restored h))) l
    /\ forall k, k ∉ map h_name l -> t' !! k = t !! k.
Proof.
  induction l as [|h l IH]; intros t dirs Hn Hd; [by exists t|].
  apply NoDup_cons in Hn as [Hh Hn]. apply Forall_cons in Hd as [[m [Hm Ho]] Hd].
  cbn [finish_dirs rv_tree]. rewrite Hm. simpl node_meta. rewrite Ho. simpl negb. cbv iota zeta.
  destruct (IH (<[h_name h := NDir (restored h)]> t) dirs) as (t' & Hf & Hr & Hk); [done| |].
  - rewrite Forall_forall in Hd |- *. intros x Hx. rewrite lookup_insert_ne; [by apply Hd|].
    intros Heq. apply Hh. rewrite Heq. by apply list_elem_of_fmap_2.
  - exists t'. split; [exact Hf|]. split.
    + constructor; [|done]. by rewrite Hk, lookup_insert_eq.
    + intros k Hin. simpl in Hin. rewrite not_elem_of_cons in Hin. rewrite Hk by tauto. apply lookup_insert_ne.
      naive_solver.
Qed.

(** The directories of a file system contain what is below them. *)
Definition rooted (t : tree) : Prop :=
  map_Forall (fun n _ => path_dir n = "." \/ exists m, t !! path_dir n = Some (NDir m)) t.

Lemma export_ok p t st ig es r : export p t st ig = Ok (es, r) ->
  exists m, t !! "." = Some (NDir m) /\ m_xattrs m = false /\ (st = false \/ ig = true)
    /\ (forall n nd, t !! n = Some nd -> n <> "." -> walk_ok (n, nd) = true)
    /\ 1 + Z.of_nat (size (delete "." t)) <= MaxEntries p
    /\ emit p t 0 ("." :: sort_strings (entry_names t)) = Ok es /\ r = receipt_of es.
Proof.
  unfold export. destruct (t !! ".") as [[m| |]|]; try done. rewrite !refuse_ok.
  intros (H1 & H2 & H3 & H4 & H5). apply rbind_ok in H5 as (es' & He & [= <- <-]).
  exists m. split_and!; try done.
  - destruct st; [right|by left]. by destruct ig.
  - apply negb_false_iff in H3. intros n nd Hnd Hn. rewrite forallb_forall in H3. apply H3.
    apply list_elem_of_In, elem_of_map_to_list. by rewrite lookup_delete_ne.
  - by apply Z.ltb_ge.
Qed.

Lemma entry_names_in t n : n ∈ sort_strings (entry_names t) <-> n <> "." /\ is_Some (t !! n).
Proof.
  unfold sort_strings. rewrite sort_slice_perm. unfold entry_names. rewrite list_elem_of_fmap. split.
  - intros ([k nd] & -> & Hk%elem_of_map_to_list). apply lookup_delete_Some in Hk as [? Hk].
    split; [by apply not_eq_sym|by exists nd].
  - intros [Hn [nd Hnd]]. exists (n, nd). split; [done|]. apply elem_of_map_to_list.
    by rewrite lookup_delete_ne.
Qed.

Lemma entry_names_sorted t : StronglySorted below (sort_strings (entry_names t)).
Proof. apply sort_strings_increasing, NoDup_fst_map_to_list. Qed.

Lemma entry_names_length t : List.length (sort_strings (entry_names t)) = size (delete "." t).
Proof.
  unfold sort_strings. rewrite (Permutation_length (sort_slice_perm _ _)). unfold entry_names.
  by rewrite length_fmap, length_map_to_list.
Qed.

(** Every exported entry passes the checks of [consume]. *)
Lemma exported_accepted p t st ig es r : rooted t -> Validate p = Ok tt ->
  export p t st ig = Ok (es, r) -> accepted p true scan0 es = true /\ map cleaned es = es.
Proof.
  intros Hr Hv (m & Hm & _ & _ & Hw & Hsz & He & _)%export_ok.
  pose proof (Validate_bounds _ Hv) as Hbounds.
  split; [|by eapply emitted_cleaned].
  pose proof (entry_names_length t) as Hlen. pose proof (entry_names_sorted t) as Hsort.
  assert (Hin : Forall (fun n => n <> "." /\ is_Some (t !! n)) (sort_strings (entry_names t))).
  { rewrite Forall_forall. intros n. apply entry_names_in. }
  apply emit_cons in He as (e & es' & -> & H1 & H2).
  apply emit1_ok in H1 as (nd & Hnd & -> & Hx & Hs & Hu). rewrite Hm in Hnd. simplify_eq.
  cbn [accepted]. cbv zeta. rewrite (root_entry_good (NDir m) eq_refl Hx).
  change (clean_header _ _ _ _ _ _) with (en_header (entry_of "." (NDir m))). rewrite Hu.
  assert (over_limit p scan0 (en_header (entry_of "." (NDir m))) = false) as ->
    by (apply orb_false_iff; simpl; split; [apply Z.leb_gt|apply Z.ltb_ge]; lia).
  change (accepted p true (advance scan0 (en_header (entry_of "." (NDir m)))) es' = true).
  apply (emitted_accepted p t (sort_strings (entry_names t))); [exact H2|simpl; lia|simpl; lia|done| | |].
  - rewrite Forall_forall in Hin |- *. intros n Hn. specialize (Hin n Hn) as [Hd [nd Hnd]].
    specialize (Hw n nd Hnd Hd). unfold walk_ok in Hw. simpl in Hw. apply andb_true_iff in Hw as [Hp _].
    unfold validPath in Hp. unfold below, str_ltb. destruct (chars n) eqn:E; [|done].
    exfalso. rewrite <- (text_chars n), E in Hp. by vm_compute in Hp.
  - rewrite Forall_forall in Hin |- *. intros n Hn. specialize (Hin n Hn) as [Hd [nd Hnd]].
    specialize (Hw n nd Hnd Hd). unfold walk_ok in Hw. by apply andb_true_iff in Hw as [Hp _].
  - rewrite Forall_forall in Hin |- *. intros n Hn. specialize (Hin n Hn) as [Hd [nd Hnd]].
    destruct (Hr n nd Hnd) as [|[dm Hdm]]; [by left|].
    destruct (decide (path_dir n = ".")) as [|Hne]; [by left|]. right. right.
    split; [|by exists dm]. apply entry_names_in. by split; [|exists (NDir dm)].
Qed.

Lemma headers_emitted p t names : forall sent es, emit p t sent names = Ok es ->
  map (fun e => h_name (en_header e)) es = names
  /\ Forall (fun e => exists nd, t !! h_name (en_header e) = Some nd /\ exportable nd
               /\ e = entry_of (h_name (en_header e)) nd) es.
Proof.
  induction names as [|n names IH]; intros sent es He; [by simplify_eq/=|].
  apply emit_cons in He as (e & es' & -> & H1 & H2).
  apply emit1_ok in H1 as (nd & Hnd & -> & Hx & _).
  apply IH in H2 as [H2 H3]. split; [simpl; by rewrite H2|]. constructor; [|done]. by exists nd.
Qed.

Lemma dir_headers_in es h : h ∈ dir_headers es <->
  h_type h = TypeDir /\ exists e, e ∈ es /\ h = en_header e.
Proof.
  unfold dir_headers. rewrite list_elem_of_filter, char_eq_true. f_equiv.
  change (map en_header es) with (en_header <$> es). rewrite list_elem_of_fmap. naive_solver.
Qed.

Lemma dir_headers_nodup es : NoDup (map (fun e => h_name (en_header e)) es) ->
  NoDup (map h_name (dir_headers es)).
Proof.
  induction es as [|e es IH]; intros Hn; [constructor|]. apply NoDup_cons in Hn as [Hx Hn].
  unfold dir_headers in *. simpl map at 2. rewrite filter_cons. case_decide as Hd; [|by apply IH].
  simpl. constructor; [|by apply IH]. intros Hin. apply Hx.
  apply list_elem_of_fmap in Hin as (h & Heq & [_ Hh]%list_elem_of_filter).
  apply list_elem_of_fmap in Hh as (e' & -> & He'). rewrite Heq.
  by apply (list_elem_of_fmap_2 (fun e => h_name (en_header e))).
Qed.

Lemma restored_header n nd : is_dir nd = true ->
  NDir (restored (en_header (entry_of n nd))) = keep nd.
Proof. by destruct nd. Qed.

(** [finish] on what the receiver wrote for the exported entries. *)
Lemma finished_nodes t names es m0 t1 dirs : ownership m0 = true ->
  map (fun e => h_name (en_header e)) es = "." :: names -> NoDup ("." :: names) ->
  Forall (fun e => exists nd, t !! h_name (en_header e) = Some nd /\ exportable nd
            /\ e = entry_of (h_name (en_header e)) nd) es ->
  (exists m, t !! "." = Some (NDir m)) -> (forall n, n ∈ names <-> n <> "." /\ is_Some (t !! n)) ->
  (forall k, t1 !! k = if decide (k ∈ names) then raw <$> t !! k
                       else ({[ "." := NDir m0 ]} : tree) !! k) ->
  finish_dirs {| rv_tree := t1; rv_dirs := dirs; rv_io := [] |} (rev (dir_headers es))
  = ({| rv_tree := keep <$> t; rv_dirs := dirs; rv_io := [] |}, None).
Proof.
  intros Hm0 Hnames Hnd Hes [m Hm] Hin Hl. rewrite Forall_forall in Hes.
  assert (Hdir : forall h, h ∈ dir_headers es -> exists nd, t !! h_name h = Some nd
            /\ is_dir nd = true /\ NDir (restored h) = keep nd /\ h_name h ∈ "." :: names).
  { intros h (Ht & e & He & ->)%dir_headers_in. destruct (Hes e He) as (nd & Hn & Hx & Heq).
    exists nd. split; [done|]. rewrite Heq in Ht.
    assert (is_dir nd = true) by (simpl in Ht; by destruct nd). split; [done|]. split.
    - rewrite Heq. by apply restored_header.
    - rewrite <- Hnames. by apply (list_elem_of_fmap_2 (fun e => h_name (en_header e))). }
  assert (Hback : forall k nd, k ∈ "." :: names -> t !! k = Some nd -> is_dir nd = true ->
            exists h, h ∈ dir_headers es /\ h_name h = k).
  { intros k nd Hk Hn Hd. rewrite <- Hnames in Hk.
    apply (list_elem_of_fmap_1 (fun e => h_name (en_header e))) in Hk as (e & -> & He).
    exists (en_header e). split; [|done]. apply dir_headers_in. split; [|by exists e].
    destruct (Hes e He) as (nd' & Hn' & _ & ->). simpl in *. rewrite Hn in Hn'. simplify_eq.
    by rewrite Hd. }
  destruct (finish_dirs_ok (rev (dir_headers es)) t1 dirs) as (t2 & -> & Hd2 & Hk2).
  { rewrite map_rev, <- Permutation_rev. apply dir_headers_nodup. by rewrite Hnames. }
  { rewrite <- Permutation_rev, Forall_forall. intros h Hh.
    destruct (Hdir h Hh) as (nd & Hn & Hd & _ & Hk). rewrite Hl. case_decide as Hc.
    - exists (created 448). rewrite Hn. by destruct nd.
    - apply elem_of_cons in Hk as [->|]; [|done]. exists m0. by rewrite lookup_singleton_eq. }
  do 2 f_equal. apply map_eq. intros k. rewrite lookup_fmap.
  rewrite <- Permutation_rev, Forall_forall in Hd2.
  destruct (decide (k ∈ map h_name (dir_headers es))) as [Hk|Hk].
  - apply (list_elem_of_fmap_1 h_name) in Hk as (h & -> & Hh).
    destruct (Hdir h Hh) as (nd & Hn & _ & Heq & _). by rewrite (Hd2 h Hh), Hn, Heq.
  - rewrite Hk2 by (by rewrite map_rev, <- Permutation_rev). rewrite Hl.
    assert (Hfile : forall nd, k ∈ "." :: names -> t !! k = Some nd -> raw nd = keep nd).
    { intros nd Hin' Hn. destruct nd as [m'| |]; [|done|done]. exfalso.
      destruct (Hback k _ Hin' Hn eq_refl) as (h & Hh & <-). apply Hk.
      by apply (list_elem_of_fmap_2 h_name). }
    case_decide as Hc.
    + destruct (t !! k) as [nd|] eqn:E; [|done]. simpl. f_equal. apply Hfile; [by right|done].
    + destruct (decide (k = ".")) as [->|Hne].
      { destruct (Hback "." _ ltac:(left) Hm eq_refl) as (h & Hh & Heq). destruct Hk.
        rewrite <- Heq. by apply (list_elem_of_fmap_2 h_name). }
      rewrite lookup_singleton_ne by (by apply not_eq_sym).
      destruct (t !! k) as [nd|] eqn:E; [|done]. destruct Hc. by apply Hin; split; [|exists nd].
Qed.

(** The exported entries, written to an empty volume, restore every node. *)
Lemma exported_restored p t st ig es r m0 : rooted t -> export p t st ig = Ok (es, r) ->
  ownership m0 = true ->
  exists rv, opened receive_entry
      {| rv_tree := {[ "." := NDir m0 ]}; rv_dirs := []; rv_io := [] |} es = Some rv
    /\ finish rv
      = ({| rv_tree := keep <$> t; rv_dirs := dir_headers es; rv_io := [] |}, None).
Proof.
  intros Hr (m & Hm & _ & _ & Hw & Hsz & He & _)%export_ok Hm0.
  pose proof (headers_emitted _ _ _ _ _ He) as [Hnames Hes].
  pose proof (entry_names_sorted t) as Hsort. pose proof (entry_names_in t) as Hin.
  apply emit_cons in He as (e & es' & -> & H1 & H2).
  apply emit1_ok in H1 as (nd & Hnd & -> & Hx & Hs & Hu). rewrite Hm in Hnd. simplify_eq.
  set (t0 := {[ "." := NDir m0 ]} : gmap string node).
  destruct (emitted_opened p t _ _ _ t0 [en_header (entry_of "." (NDir m))] H2 Hsort) as (t1 & Ho & Hl).
  { rewrite Forall_forall. intros n [Hn _]%Hin. split; [done|].
    apply lookup_singleton_ne. by apply not_eq_sym. }
  { exists m0. apply lookup_singleton_eq. }
  { rewrite Forall_forall. intros n [Hn [nd Hnd]]%Hin.
    specialize (Hw n nd Hnd Hn). unfold walk_ok in Hw. apply andb_true_iff in Hw as [Hp _].
    unfold validPath in Hp. simpl in Hp. rewrite !andb_true_iff in Hp. split; [tauto|].
    destruct (Hr n nd Hnd) as [|[dm Hdm]]; [by left|].
    destruct (decide (path_dir n = ".")) as [|Hne]; [by left|]. right. right.
    split; [|by exists dm]. apply Hin. by split; [|exists (NDir dm)]. }
  eexists. split.
  { cbn [opened].
    assert (receive_entry {| rv_tree := t0; rv_dirs := []; rv_io := [] |}
        (en_header (entry_of "." (NDir m))) (en_content (entry_of "." (NDir m)))
      = ({| rv_tree := t0; rv_dirs := [en_header (entry_of "." (NDir m))]; rv_io := [] |}, None))
      as -> by reflexivity.
    exact Ho. }
  apply (finished_nodes t (sort_strings (entry_names t)) (entry_of "." (NDir m) :: es') m0 t1
    (dir_headers (entry_of "." (NDir m) :: es'))); try done; [|by exists m].
  constructor; [by intros [? _]%Hin|].
  unfold sort_strings. rewrite sort_slice_perm. apply NoDup_fst_map_to_list.
Qed.

Lemma keep_entry n nd : entry_of n (keep nd) = entry_of n nd.
Proof.
  assert (Hl : forall z, Z.land (Z.land z 511) 511 = Z.land z 511)
    by (intros z; by rewrite <- Z.land_assoc).
  unfold entry_of. destruct nd; simpl; by rewrite Hl.
Qed.

Lemma emit1_intro p t sent n nd : t !! n = Some nd -> exportable nd ->
  Z.of_nat (List.length (content_of nd)) <= MaxBytes p - sent ->
  ustar_ok (en_header (entry_of n nd)) = true -> emit1 p t sent n = Ok (entry_of n nd).
Proof.
  intros Hn (Hk & Ho & Hsp & Hx) Hs Hu. unfold emit1. rewrite Hn. cbv zeta. rewrite !refuse_ok.
  change (ustar_ok (clean_header _ _ _ _ _ _)) with (ustar_ok (en_header (entry_of n nd))).
  change (Z.of_nat _) with (Z.of_nat (List.length (content_of nd))).
  rewrite Hu, Ho, Hsp, Hx. split_and!; try done; [|by apply Z.ltb_ge].
  unfold singleLink. by destruct nd; simpl in *; rewrite ?Hk.
Qed.

(** A restored volume exports as the original did. *)
Lemma emit_keep p t names : forall sent es, emit p t sent names = Ok es ->
  emit p (keep <$> t) sent names = Ok es.
Proof.
  induction names as [|n names IH]; intros sent es He; [done|].
  apply emit_cons in He as (e & es' & -> & H1 & H2).
  apply emit1_ok in H1 as (nd & Hnd & -> & (Hk & Ho & _) & Hs & Hu).
  cbn [emit]. rewrite <- keep_entry in Hu.
  rewrite (emit1_intro p (keep <$> t) sent n (keep nd)); [|by rewrite lookup_fmap, Hnd| |by destruct nd|done].
  - rewrite keep_entry. apply rbind_ok. exists (entry_of n nd). split; [done|].
    by rewrite (IH _ _ H2).
  - by destruct nd.
Qed.

Lemma names_keep t : sort_strings (entry_names (keep <$> t)) = sort_strings (entry_names t).
Proof.
  apply sort_strings_unique. unfold entry_names. rewrite <- fmap_delete, map_to_list_fmap, <- list_fmap_compose.
  apply fmap_Permutation. done.
Qed.

Lemma export_keep p t st ig es r : export p t st ig = Ok (es, r) ->
  export p (keep <$> t) true true = Ok (es, r).
Proof.
  intros (m & Hm & _ & _ & Hw & Hsz & He & ->)%export_ok.
  unfold export. rewrite lookup_fmap, Hm. simpl fmap. cbv iota. rewrite !refuse_ok. split_and!; try done.
  - apply negb_false_iff, forallb_forall. intros [n nd] Hin%list_elem_of_In%elem_of_map_to_list.
    rewrite <- fmap_delete, lookup_fmap in Hin.
    destruct (delete "." t !! n) as [nd'|] eqn:E; [|done]. injection Hin as <-.
    apply lookup_delete_Some in E as [Hn E]. specialize (Hw n nd' E (not_eq_sym Hn)).
    unfold walk_ok in *. simpl in *. rewrite andb_true_iff in *. by destruct nd', Hw.
  - rewrite <- fmap_delete, map_size_fmap. by apply Z.ltb_ge.
  - rewrite names_keep. by rewrite (emit_keep _ _ _ _ _ He).
Qed.

Lemma accepted_no_relay p s l : accepted p true s l = true -> accepted p false s l = true.
Proof.
  revert s. induction l as [|e l IH]; intros s; [done|]. cbn [accepted]. cbv zeta.
  rewrite !andb_true_iff. intros [[[H1 _] H3] H4]. split_and!; [done|done|done|by apply IH].
Qed.

Lemma wire_size_bound l : Forall (fun e => 0 <= h_size (en_header e)) l ->
  wire_size l <= 1024 + foldr (fun e n => h_size (en_header e) + n) 0 l
                 + 1023 * Z.of_nat (List.length l).
Proof.
  induction 1 as [|e l He _ IH]; [done|].
  change (wire_size (e :: l))
    with (512 + (h_size (en_header e) + 511) / 512 * 512 + wire_size l).
  pose proof (Z.mul_div_le (h_size (en_header e) + 511) 512). cbn [foldr List.length]. lia.
Qed.

(** [consume] on the archive of these entries and its end blocks. *)
Definition tar_of (es : list entry) : stream :=
  {| st_entries := es; st_broken := false; st_tail := repeat (byte_of 0) (padding (last_size es) + 1024) |}.

Lemma all_zero l : forallb (char_eq (byte_of 0)) l = true <-> l = repeat (byte_of 0) (List.length l).
Proof.
  induction l as [|c l IH]; [done|]. cbn [forallb repeat List.length].
  rewrite andb_true_iff, char_eq_true, IH.
  split; [intros [<- Hl]; by rewrite <- Hl|intros [= H1 H2]; by rewrite <- H2].
Qed.
Lemma skip_zeros n m : skipn n (repeat (byte_of 0) m) = repeat (byte_of 0) (m - n).
Proof. revert n. induction m as [|m IH]; intros [|n]; cbn; auto. Qed.
Lemma zero_block n : is_zero (repeat (byte_of 0) n) = true.
Proof. apply all_zero. by rewrite repeat_length. Qed.
Lemma tar_of_end es : tar_end (tar_of es) = Some [].
Proof.
  unfold tar_end, tar_of. cbn [st_entries st_broken st_tail]. rewrite skip_zeros. rewrite Nat.add_sub_swap, Nat.sub_diag by lia.
  vm_compute. reflexivity.
Qed.
Lemma tar_of_complete es : 0 <= last_size es -> List.length (last_content es) = Z.to_nat (last_size es) -> st_complete (tar_of es) = true.
Proof.
  intros Hs Hl. unfold st_complete, st_data. cbn [tar_of st_entries st_tail]. set (c := last_content es) in *. cbv zeta.
  rewrite length_app, repeat_length, Hl. rewrite !andb_true_iff, Nat.eqb_eq, Nat.leb_le. split_and!.
  - unfold padding, block. apply Nat2Z.inj. rewrite Nat2Z.inj_mod, !Nat2Z.inj_add, !Z2Nat.id by (try apply Z.mod_pos_bound; lia).
    change (Z.of_nat 512) with 512. change (Z.of_nat 1024) with (2 * 512). rewrite Z.add_assoc, Z.mod_add by lia.
    rewrite Z.add_mod_idemp_r, Z.add_opp_diag_r by lia. done.
  - lia.
  - rewrite skipn_app, Hl. rewrite (skipn_all2 c) by (rewrite Hl; lia). cbn [app]. rewrite skip_zeros. apply zero_block.
Qed.
Lemma tar_of_count es : wire_count (tar_of es) = wire_size es.
Proof. unfold wire_count. cbn [tar_of st_entries st_tail]. rewrite repeat_length. lia. Qed.

(** The last entry of entries that hold as many bytes as their headers say. *)
Lemma last_sized es : Forall (fun e => Z.of_nat (List.length (en_content e)) = h_size (en_header e)) es ->
  0 <= last_size es /\ List.length (last_content es) = Z.to_nat (last_size es).
Proof.
  intros Hf. unfold last_size, last_content. destruct (last es) as [e|] eqn:El; [|done].
  apply last_Some_elem_of in El. rewrite Forall_forall in Hf. specialize (Hf e El). rewrite firstn_all2 by lia. lia.
Qed.
Lemma consume_tar_of {R} (open : R -> header -> bytes -> R * option pvc_error) p relay r r' es :
  Validate p = Ok tt -> es <> [] -> accepted p relay scan0 es = true -> map cleaned es = es ->
  opened open r es = Some r' ->
  consume open p relay r (tar_of es) = (r', Ok (es, receipt_of es)).
Proof.
  intros Hv Hne Ha Hc Ho. unfold consume. rewrite Hv.
  assert (consume_entries open p relay scan0 r (st_entries (tar_of es)) = (r', Ok es)) as ->
    by (apply consume_entries_ok; cbn [st_entries tar_of]; rewrite Hc; done).
  pose proof (accepted_archive _ _ _ Hne Ha) as [_ _ _ Hk Hb He]. rewrite Hc in Hk, Hb, He.
  pose proof (wire_size_bound es) as Hw.
  assert (Hsz : Forall (fun e => 0 <= h_size (en_header e)) es)
    by (eapply Forall_impl; [exact Hk|]; intros e (_ & Hx & _); lia).
  specialize (Hw Hsz). pose proof (Validate_bounds _ Hv).
  rewrite tar_of_end, tar_of_count, bool_decide_false by done. destruct (last_sized es) as [Hs Hl].
  { eapply Forall_impl; [exact Hk|]. by intros e (_ & Hx & _). }
  rewrite tar_of_complete by done.
  replace (MaxBytes p + MaxEntries p * 2048 + 2048 <=? wire_size es) with false; [done|].
  symmetry. apply Z.leb_gt. nia.
Qed.

Lemma consume_ok {R} (open : R -> header -> bytes -> R * option pvc_error) p relay r r' input es rc :
  consume open p relay r input = (r', Ok (es, rc)) ->
  Validate p = Ok tt /\ accepted p relay scan0 (st_entries input) = true
  /\ es = map cleaned (st_entries input) /\ opened open r es = Some r' /\ es <> []
  /\ rc = receipt_of es /\ tar_end input = Some [] /\ st_complete input = true.
Proof.
  unfold consume. destruct (Validate p) as [[]|]; [|done].
  destruct (consume_entries _ _ _ _ _ _) as [r1 [es1|]] eqn:E; [|done].
  apply consume_entries_ok in E as (H1 & H2 & H3).
  destruct (tar_end input) as [extra|]; [|done]. destruct (_ || _ || _) eqn:Hc; [done|]. intros [= <- <- <-].
  rewrite !orb_false_iff, !negb_false_iff, bool_decide_eq_false, Nat.eqb_eq in Hc. subst es1.
  destruct Hc as [[[_ He%nil_length_inv] ?] ?]. by rewrite He.
Qed.

Lemma cleaned_again e : h_size (en_header e) <= Z.of_nat (List.length (en_content e)) ->
  cleaned (cleaned e) = cleaned e.
Proof.
  intros Hl. unfold cleaned. simpl. f_equal. apply firstn_all2. rewrite length_firstn. lia.
Qed.

Lemma accepted_cleaned p relay s l : accepted p relay s l = true ->
  accepted p relay s (map cleaned l) = true /\ map cleaned (map cleaned l) = map cleaned l.
Proof.
  revert s. induction l as [|e l IH]; intros s Ha; [done|].
  pose proof (checks_false _ _ _ _ _ Ha) as (H1 & H2 & H3 & H4 & H5).
  destruct (IH _ H5) as [IH1 IH2]. simpl map. split; [|by rewrite cleaned_again, IH2].
  cbn [accepted] in *. cbv zeta in *. rewrite !andb_true_iff in *. destruct Ha as [[[_ Hr] _] _].
  split_and!; [|exact Hr| |exact IH1].
  - change (missing_parent s (en_header (cleaned e))) with (missing_parent s (en_header e)).
    change (over_limit p s (en_header (cleaned e))) with (over_limit p s (en_header e)).
    rewrite H2, H3, orb_false_r, orb_false_r. apply negb_true_iff.
    revert H1. unfold bad_entry. change (root_entry s (en_header (cleaned e))) with (root_entry s (en_header e)).
    simpl. rewrite !orb_false_iff. tauto.
  - simpl. rewrite length_firstn. apply negb_true_iff, Z.ltb_ge.
    pose proof (bad_entry_false _ _ H1) as (_ & _ & _ & Hs & _). lia.
Qed.

Lemma receive_extends (p : Plan) (relay : bool) (r : receiver) (input : stream) :
  rv_tree r ⊆ rv_tree (consume receive_entry p relay r input).1.
Proof.
  assert (Hone : forall r h c, rv_tree r ⊆ rv_tree (receive_entry r h c).1).
  { intros r0 h c. unfold receive_entry, can_create.
    destruct (char_eq (h_type h) TypeDir).
    - destruct (str_eq _ _); [done|]. destruct (negb (works r0) || _) eqn:E; [done|].
      rewrite orb_false_iff, negb_false_iff, negb_false_iff, andb_true_iff, bool_decide_eq_true in E.
      apply insert_subseteq, E.
    - destruct (negb _) eqn:E; [done|]. rewrite negb_false_iff, andb_true_iff, bool_decide_eq_true in E.
      destruct (negb (works r0)); apply insert_subseteq, E. }
  assert (Hall : forall l s r, rv_tree r ⊆ rv_tree (consume_entries receive_entry p relay s r l).1).
  { induction l as [|e l IH]; intros s r0; [done|]. cbn [consume_entries]. cbv zeta.
    destruct (bad_entry _ _ || _ || _); [done|]. destruct (relay && _); [done|].
    pose proof (Hone r0 (clean_header (h_name (en_header e)) (h_type (en_header e))
      (h_size (en_header e)) (h_mode (en_header e)) (h_uid (en_header e)) (h_gid (en_header e)))
      (firstn (Z.to_nat (h_size (en_header e))) (en_content e))) as H1.
    destruct (receive_entry _ _ _) as [r1 [err|]]; [done|]. destruct (_ <? _); [done|].
    specialize (IH (advance s (en_header e)) r1).
    destruct (consume_entries _ _ _ _ r1 l) as [r2 [es|err]]; simpl in *; by etransitivity. }
  unfold consume. destruct (Validate p); [|done].
  pose proof (Hall (st_entries input) scan0 r) as Hr.
  destruct (consume_entries _ _ _ _ _ _) as [r1 [es|err]]; [|done].
  destruct (tar_end input); [|done]. by destruct (_ || _ || _).
Qed.

Lemma exported_received (p : Plan) (t : tree) (st : bool) es rc (m0 : meta)
    (Htree : rooted t) (Hex : Export p t st = Ok (es, rc)) (Hroot : ownership m0 = true) :
  exists rv rv',
    consume receive_entry p false
      {| rv_tree := {[ "." := NDir m0 ]}; rv_dirs := []; rv_io := [] |} (tar_of es)
    = (rv, Ok (es, rc))
    /\ finish rv = (rv', None) /\ rv_tree rv' = keep <$> t /\ rv_io rv' = []
    /\ export p (keep <$> t) true true = Ok (es, rc).
Proof.
  unfold Export in Hex. destruct (Validate p) as [[]|] eqn:Hv; [simpl in Hex|done].
  destruct (exported_accepted _ _ _ _ _ _ Htree Hv Hex) as [Ha Hc].
  destruct (exported_restored _ _ _ _ _ _ _ Htree Hex Hroot) as (rv & Ho & Hf).
  exists rv. eexists. split; [|split; [exact Hf|split; [done|split; [done|by eapply export_keep]]]].
  pose proof (export_ok _ _ _ _ _ _ Hex) as (m & _ & _ & _ & _ & _ & He & ->).
  apply consume_tar_of; try done; [|by apply accepted_no_relay].
  apply emit_cons in He as (e & es' & -> & _). done.
Qed.

Lemma archive_ok_nonempty p es : archive_ok p es -> es <> [].
Proof. intros [[e [es' [-> _]]] _ _ _ _ _]. done. Qed.
End ArchiveLemmas.


(** The last 1024 bytes of the zeros and what was read since. *)
Definition zeros : bytes := repeat (byte_of 0) 1024.
Lemma ar_read_tail chunks : forall r c, ar_tail r = skipn (List.length c) (zeros ++ c) ->
  ar_count r = Z.of_nat (List.length c) ->
  ar_tail (fold_left ar_read chunks r) = skipn (List.length (c ++ List.concat chunks)) (zeros ++ c ++ List.concat chunks)
  /\ ar_count (fold_left ar_read chunks r) = Z.of_nat (List.length (c ++ List.concat chunks)).
Proof.
  assert (Hz : List.length zeros = 1024%nat) by apply repeat_length.
  induction chunks as [|b chunks IH]; intros r c Ht Hc; simpl; [by rewrite app_nil_r|].
  rewrite (app_assoc c b). apply IH.
  - unfold ar_read. cbn [ar_tail]. rewrite length_app, app_assoc.
    destruct (Nat.leb_spec 1024 (List.length b)) as [Hb|Hb].
    + replace (List.length c + List.length b)%nat
        with (List.length (zeros ++ c) + (List.length b - 1024))%nat by (rewrite length_app; lia).
      by rewrite drop_app_add.
    + rewrite <- drop_drop, (drop_app_le (zeros ++ c)) by (rewrite length_app; lia). rewrite <- Ht.
      rewrite drop_app_le by (rewrite Ht, length_drop, length_app; lia).
      destruct (Nat.ltb_spec 0 (List.length b)) as [Hb'|Hb']; [done|].
      destruct b; [by rewrite app_nil_r|simpl in Hb'; lia].
  - unfold ar_read. cbn [ar_count]. rewrite Hc, length_app. lia.
Qed.

(** ** Properties *)

(** Whatever the sizes of the reads, a stream is complete for
    [archiveReader] exactly when it consists of whole 512-byte blocks, at
    least two of them, and the last two are zero: an archive cut at an entry
    boundary is taken for a whole one only if its last 1024 bytes are zero. *)
Theorem complete_archive (chunks : list bytes) :
  let l := List.concat chunks in
  ar_complete (fold_left ar_read chunks archiveReader0) = true
  <-> (1024 <= List.length l)%nat /\ (List.length l mod 512 = 0)%nat
      /\ skipn (List.length l - 1024) l = repeat (byte_of 0) 1024.
Proof.
  cbv zeta. set (l := List.concat chunks).
  destruct (ar_read_tail chunks archiveReader0 []) as [Ht Hc]; [done|done|]. rewrite app_nil_l in Ht, Hc.
  unfold ar_complete. rewrite Ht, Hc, andb_true_iff, negb_true_iff, orb_false_iff, negb_false_iff, all_zero.
  fold l. rewrite Z.eqb_eq, Z.ltb_ge. change 512 with (Z.of_nat 512). rewrite <- Nat2Z.inj_mod.
  assert (Hz : List.length zeros = 1024%nat) by apply repeat_length.
  split.
  - intros [[H1 H2] H3]. split; [lia|]. split; [lia|].
    rewrite drop_app_ge, Hz in H3 by lia. rewrite H3, length_drop. f_equal. lia.
  - intros (H1 & H2 & H3). split; [lia|]. rewrite drop_app_ge, Hz, H3 by lia. by rewrite repeat_length.
Qed.

Section ArchiveProperties.
Context `{Sha256}.


(** An archive without its end blocks is accepted like the whole one when the file
    that comes last, with its padding, ends in 1024 zero bytes: [archiveReader] looks at the last bytes
    only, and [archive/tar] accepts the raw end of the input. *)
Theorem cut_archive_accepted {R} (open : R -> header -> bytes -> R * option pvc_error) (p : Plan) (relay : bool) (r r' : R) es data x
    (Hok : consume open p relay r (tar_of es) = (r', Ok x))
    (Hz : last_content es ++ repeat (byte_of 0) (padding (last_size es)) = data ++ repeat (byte_of 0) 1024) :
  consume open p relay r {| st_entries := es; st_broken := false; st_tail := repeat (byte_of 0) (padding (last_size es)) |} = (r', Ok x).
Proof.
  unfold consume in *. destruct (Validate p) as [[]|]; [|done]. cbn [st_entries tar_of] in *.
  destruct (consume_entries _ _ _ _ _ _) as [r1 [es1|]]; [|done]. rewrite tar_of_end, tar_of_count in Hok.
  destruct (_ || _ || _) eqn:E in Hok; [done|]. rewrite !orb_false_iff, !negb_false_iff in E. destruct E as [[[Hw _] Hc] He].
  unfold tar_end. cbn [st_broken st_entries st_tail]. rewrite skip_zeros, Nat.sub_diag. cbn [repeat List.length Nat.eqb].
  rewrite He. replace (_ <=? wire_count _) with false; [|symmetry; apply Z.leb_gt; apply Z.leb_gt in Hw].
  2: { unfold wire_count. cbn [st_entries st_tail]. rewrite repeat_length. lia. }
  replace (st_complete _) with true; [done|]. symmetry. unfold st_complete, st_data in *. cbv zeta in *. cbn [st_entries st_tail tar_of] in *.
  rewrite repeat_app, app_assoc, Hz in Hc. rewrite Hz. rewrite !andb_true_iff, Nat.eqb_eq, Nat.leb_le in Hc. destruct Hc as [[Hm _] _].
  rewrite !andb_true_iff, Nat.eqb_eq, Nat.leb_le. rewrite !length_app, !repeat_length in *. split_and!; [|lia|].
  - unfold block in *. replace (List.length data + 1024 + 1024)%nat with (List.length data + 1024 + 2 * 512)%nat in Hm by lia.
    by rewrite Nat.Div0.mod_add in Hm.
  - replace (List.length data + 1024 - 1024)%nat with (List.length data) by lia. rewrite skipn_app, Nat.sub_diag, skipn_all. apply zero_block.
Qed.

(** What [Relay] writes is accepted again, by another relay and by a
    receiver that opens every entry, as the same entries with the same
    receipt: the receipt of the source helper, of the relay and of the
    target helper are of the same bytes. *)
Theorem relay_stable (p : Plan) (input : stream) es rc (Hok : Relay p input = Ok (es, rc)) :
  Relay p (tar_of es) = Ok (es, rc)
  /\ forall R (open : R -> header -> bytes -> R * option pvc_error) r r',
       opened open r es = Some r' -> consume open p false r (tar_of es) = (r', Ok (es, rc)).
Proof.
  unfold Relay in *. destruct (consume _ p true tt input) as [u res] eqn:E. simpl in Hok. subst res.
  apply consume_ok in E as (Hv & Ha & -> & Ho & Hne & -> & _ & _).
  destruct (accepted_cleaned _ _ _ _ Ha) as [Ha' Hcl]. split.
  - by rewrite (consume_tar_of _ p true tt u).
  - intros R open r r' Hr. apply consume_tar_of; try done. by apply accepted_no_relay.
Qed.

(** C23: An exported volume, received into an empty one, is accepted with
    the same entries and receipt, and restores every directory and file
    with its owner, permissions and content; exporting the restored volume
    yields the same receipt again, as [Receive] and [Complete] verify. *)
Theorem archive_round_trip (p : Plan) (t : tree) (st : bool) es rc (m0 : meta)
    (Htree : rooted t) (Hex : Export p t st = Ok (es, rc)) (Hroot : ownership m0 = true) :
  exists rv rv',
    consume receive_entry p false
      {| rv_tree := {[ "." := NDir m0 ]}; rv_dirs := []; rv_io := [] |} (tar_of es)
    = (rv, Ok (es, rc))
    /\ finish rv = (rv', None) /\ rv_tree rv' = keep <$> t /\ rv_io rv' = []
    /\ export p (keep <$> t) true true = Ok (es, rc).
Proof. by apply (exported_received p t st). Qed.

(** Receiving never replaces or alters what the volume already holds,
    whatever the stream and whichever file operation fails. *)
Theorem receive_keeps (p : Plan) (relay : bool) (r : receiver) (input : stream) :
  rv_tree r ⊆ rv_tree (consume receive_entry p relay r input).1.
Proof. apply receive_extends. Qed.
End ArchiveProperties.

(** ** Witnesses *)

Definition sample_meta : meta :=
  {| m_uid := 1000; m_gid := 1000; m_perm := 420; m_special := false; m_xattrs := false; m_links := 1 |}.
Definition sample_tree : tree :=
  {[ "." := NDir sample_meta; "a" := NDir sample_meta; "a/b" := NFile sample_meta (chars "data") ]}.
Definition sample_entries : list entry :=
  [entry_of "." (NDir sample_meta); entry_of "a" (NDir sample_meta);
   entry_of "a/b" (NFile sample_meta (chars "data"))].

Lemma sample_export : Export (H := text) sample_plan sample_tree false
  = Ok (sample_entries, receipt_of (H := text) sample_entries).
Proof. vm_compute. reflexivity. Qed.
Lemma sample_rooted : rooted sample_tree.
Proof.
  intros n nd Hn. unfold sample_tree in Hn.
  apply lookup_insert_Some in Hn as [[<- _]|[_ Hn]]; [by left|].
  apply lookup_insert_Some in Hn as [[<- _]|[_ Hn]]; [by left|].
  apply lookup_singleton_Some in Hn as [<- _]. right. exists sample_meta. reflexivity.
Qed.

Lemma complete_archive_witness :
  ar_complete (fold_left ar_read [repeat (byte_of 0) 700; repeat (byte_of 0) 324] archiveReader0) = true.
Proof. apply complete_archive. vm_compute. split; [|split]; [repeat constructor|reflexivity|reflexivity]. Defined.


(** A file of 1024 zeros, and no end blocks. *)
Definition large_plan : Plan :=
  {| ImmutablePlanDigest := ""; ItemID := ""; Tenant := "t"; Project := "p"; Environment := "e"; Source := Source sample_plan;
     Target := Target sample_plan; MaxBytes := 2000; MaxEntries := 10; Timeout := seconds 60; Image := Image sample_plan;
     AllowedSourceNamespaces := ["prod"; "base"]; AllowedTarget := AllowedTarget sample_plan; SourceQuiescedOffline := true |}.
Definition zero_entries : list entry :=
  [entry_of "." (NDir sample_meta); entry_of "a" (NFile sample_meta (repeat (byte_of 0) 1024))].
Lemma cut_archive_accepted_witness :
  Relay (H := text) large_plan {| st_entries := zero_entries; st_broken := false; st_tail := [] |}
  = Ok (zero_entries, receipt_of (H := text) zero_entries).
Proof.
  pose proof (cut_archive_accepted (H := text) (fun (r : unit) _ _ => (r, None)) large_plan true tt tt zero_entries []
    (zero_entries, receipt_of (H := text) zero_entries) ltac:(vm_compute; reflexivity) ltac:(vm_compute; reflexivity)) as E.
  assert (Hn : repeat (byte_of 0) (padding (last_size zero_entries)) = []) by (vm_compute; reflexivity). rewrite Hn in E.
  unfold Relay. rewrite E. reflexivity.
Defined.

Lemma relay_stable_witness :
  exists rc, Relay (H := text) sample_plan (tar_of sample_entries) = Ok (sample_entries, rc).
Proof.
  eexists. refine (proj1 (relay_stable (H := text) sample_plan (tar_of sample_entries) sample_entries _ _)).
  vm_compute. reflexivity.
Defined.

Lemma archive_round_trip_witness :
  export (H := text) sample_plan (keep <$> sample_tree) true true
  = Ok (sample_entries, receipt_of (H := text) sample_entries).
Proof.
  destruct (archive_round_trip (H := text) sample_plan sample_tree false sample_entries
    (receipt_of (H := text) sample_entries) (created 493) sample_rooted sample_export eq_refl)
    as (rv & rv' & _ & _ & _ & _ & He). exact He.
Defined.
