(* ===== verification/PvcLocal.v ===== *)
(** * The copy protocol on a volume

    [internal/pvccopy/local.go]: [Inspect], [Receive], [Complete] and
    [CopyLocal] with the durable claim, the received receipt and the completion
    marker in the state directory of the target.

    Every file operation that writes takes its outcome from a list, as in
    PvcArchive; reads of the volume succeed.  Nobody else writes to the two
    volumes (the caller's fence). *)

From stdpp Require Import base list gmap strings sorting.
From Stdlib Require Import ZArith Lia Ascii String.
From S2P Require Import Prelude GoStrings Regex GoPath PvcPlan PvcArchive.

Local Open Scope string_scope.
Local Open Scope Z_scope.
Local Open Scope list_scope.

(** The texts of encoding/json, and a decoder that refuses unknown fields and
    trailing data. *)
Class MarkerJson := {
  marker_text : Marker -> bytes; parse_marker : bytes -> option Marker;
  receipt_text : Receipt -> bytes; parse_receipt : bytes -> option Receipt }.

(** What is found under [StateDirectory]: not a directory, or its files
    ([None]: not a regular file). *)
Inductive state : Type := StateOther | StateDir (files : gmap string (option bytes)).
Record volume := { v_tree : tree; v_state : option state }.

Definition claim_json : string := "claim.json".
Definition received_json : string := "received.json".
Definition complete_json : string := "complete.json".

(** The next outcome of a file operation that writes. *)
Definition succeeds (io : list bool) : bool := match io with b :: _ => b | [] => true end.

Section Local.
Context `{Sha256} `{PvcPlanJson} `{MarkerJson}.

(** [readJSON] *)
Definition readJSON {A} (parse : bytes -> option A) (st : option state) (name : string)
    : result pvc_error A :=
  match st with
  | Some (StateDir files) =>
      match files !! name with
      | Some (Some b) =>
          if 16384 <? Z.of_nat (List.length b) then Err ErrPartial
          else match parse b with Some a => Ok a | None => Err ErrOther end
      | Some None => Err ErrPartial
      | None => Err ErrOther
      end
  | _ => Err ErrOther
  end.

(** [writeJSON]: nothing, a part of the text, or all of it. *)
Definition writeJSON (v : volume) (name : string) (b : bytes) (io : list bool)
    : volume * list bool * option pvc_error :=
  match v_state v with
  | Some (StateDir files) =>
      match files !! name with
      | Some _ => (v, tl io, Some ErrOther)
      | None =>
          if negb (succeeds io) then (v, tl io, Some ErrOther)
          else
            let put c := {| v_tree := v_tree v; v_state := Some (StateDir (<[name := Some c]> files)) |} in
            if negb (succeeds (tl io))
            then (put (firstn (Nat.div2 (List.length b)) b), tl (tl io), Some ErrOther)
            else (put b, tl (tl io), None)
      end
  | _ => (v, tl io, Some ErrOther)
  end.

Definition reads {A} `{EqDecision A} (parse : bytes -> option A) (st : option state)
    (name : string) (a : A) : bool :=
  match readJSON parse st name with Ok b => bool_decide (b = a) | Err _ => false end.

(** [Inspect]; a volume without a root directory cannot be opened. *)
Definition Inspect (p : Plan) (v : volume) : result pvc_error (option Marker) :=
  _ <-? Validate p;;
  match v_tree v !! "." with
  | Some (NDir m) =>
      refuse m_xattrs m with ErrUnsafe;;
      if bool_decide (delete "." (v_tree v) = ∅) && bool_decide (v_state v = None) then Ok None
      else
        refuse match v_state v with Some (StateDir _) => false | _ => true end with ErrPartial;;
        refuse negb (reads parse_marker (v_state v) claim_json (markerFor p zero_receipt))
          with ErrPartial;;
        match readJSON parse_marker (v_state v) complete_json with
        | Err _ => Err ErrPartial
        | Ok marker =>
            refuse negb (bool_decide (marker = markerFor p (Mk_Receipt marker))) with ErrPartial;;
            refuse match v_state v with
                   | Some (StateDir files) => negb (size files =? 3)%nat | _ => true end with ErrPartial;;
            refuse negb (reads parse_receipt (v_state v) received_json (Mk_Receipt marker))
              with ErrPartial;;
            er <-? export p (v_tree v) true true;;
            refuse negb (bool_decide (snd er = Mk_Receipt marker)) with ErrPartial;;
            Ok (Some marker)
        end
  | _ => Err ErrOther
  end.

(** The end of [Receive], once the receiver has finished. *)
Definition verify_received (p : Plan) (v : volume) (io : list bool) (r : Receipt)
    : volume * result pvc_error Receipt :=
  match export p (v_tree v) true true with
  | Err e => (v, Err e)
  | Ok (_, actual) =>
      if negb (bool_decide (actual = r)) then (v, Err ErrUnsafe)
      else match writeJSON v received_json (receipt_text r) io with
           | (v', _, Some e) => (v', Err e)
           | (v', io', None) => if negb (succeeds io') then (v', Err ErrOther) else (v', Ok r)
           end
  end.

Definition with_payload (v : volume) (t : tree) : volume := {| v_tree := t; v_state := v_state v |}.

(** [Receive] from its claim on. *)
Definition receive_claimed (p : Plan) (v : volume) (io : list bool) (input : stream)
    : volume * result pvc_error Receipt :=
  match writeJSON v claim_json (marker_text (markerFor p zero_receipt)) io with
  | (v1, _, Some e) => (v1, Err e)
  | (v1, io1, None) =>
      if negb (succeeds io1 && succeeds (tl io1)) then (v1, Err ErrOther)
      else
        match consume receive_entry p false
                {| rv_tree := v_tree v1; rv_dirs := []; rv_io := tl (tl io1) |} input with
        | (rv, Err e) => (with_payload v1 (rv_tree rv), Err e)
        | (rv, Ok (_, r)) =>
            match finish rv with
            | (rv', Some e) => (with_payload v1 (rv_tree rv'), Err e)
            | (rv', None) => verify_received p (with_payload v1 (rv_tree rv')) (rv_io rv') r
            end
        end
  end.

(** [Receive] *)
Definition Receive (p : Plan) (v : volume) (io : list bool) (input : stream)
    : volume * result pvc_error Receipt :=
  match Validate p with
  | Err e => (v, Err e)
  | Ok _ =>
      match Inspect p v with
      | Err e => (v, Err e)
      | Ok (Some _) => (v, Err ErrPartial)
      | Ok None =>
          if negb (succeeds io) || negb (bool_decide (v_state v = None)) then (v, Err ErrPartial)
          else receive_claimed p {| v_tree := v_tree v; v_state := Some (StateDir ∅) |} (tl io) input
      end
  end.

(** [syncTree] syncs every directory, the state directory among them: the
    outcomes of so many operations, up to the first that fails. *)
Definition dir_count (v : volume) : nat :=
  (size (filter (fun nv => is_dir nv.2 = true) (v_tree v))
   + match v_state v with Some (StateDir _) => 1 | _ => 0 end)%nat.
Definition syncTree (v : volume) (io : list bool) : list bool * option pvc_error :=
  if forallb id (firstn (dir_count v) io) then (skipn (dir_count v) io, None) else (io, Some ErrOther).

(** [Complete] *)
Definition Complete (p : Plan) (v : volume) (io : list bool) (expected : Receipt)
    : volume * result pvc_error Marker :=
  match v_tree v !! "." with
  | Some (NDir _) =>
      match Validate p with
      | Err e => (v, Err e)
      | Ok _ =>
          if negb (reads parse_marker (v_state v) claim_json (markerFor p zero_receipt))
          then (v, Err ErrPartial)
          else if negb (reads parse_receipt (v_state v) received_json expected)
          then (v, Err ErrPartial)
          else match export p (v_tree v) true true with
               | Err e => (v, Err e)
               | Ok (_, actual) =>
                   if negb (bool_decide (actual = expected)) then (v, Err ErrPartial)
                   else match syncTree v io with
                        | (_, Some e) => (v, Err e)
                        | (io1, None) =>
                            let marker := markerFor p actual in
                            match writeJSON v complete_json (marker_text marker) io1 with
                            | (v', _, Some e) => (v', Err e)
                            | (v', io2, None) =>
                                if negb (succeeds io2 && succeeds (tl io2)) then (v', Err ErrOther)
                                else (v', Ok marker)
                            end
                        end
               end
      end
  | _ => (v, Err ErrOther)
  end.

(** What the goroutine of [CopyLocal] writes to the pipe, and its error: an
    export that fails closes the pipe with its error after the entries
    before it. *)
Fixpoint emitted_before (p : Plan) (t : tree) (sent : Z) (names : list string) : list entry :=
  match names with
  | [] => []
  | n :: names' =>
      match emit1 p t sent n with
      | Ok e => e :: emitted_before p t (sent + h_size (en_header e)) names'
      | Err _ => []
      end
  end.
Definition exported (p : Plan) (source : volume) : stream * option pvc_error :=
  match Export p (v_tree source) (bool_decide (v_state source <> None)) with
  | Ok (es, _) => (tar_of es, None)
  | Err e =>
      let t := v_tree source in
      let walked :=
        match t !! "." with
        | Some (NDir m) =>
            negb (m_xattrs m) && bool_decide (v_state source = None)
            && forallb walk_ok (map_to_list (delete "." t))
            && (1 + Z.of_nat (size (delete "." t)) <=? MaxEntries p)
        | _ => false
        end in
      ({| st_entries := if walked
            then emitted_before p t 0 ("." :: sort_strings (entry_names t)) else [];
          st_broken := true; st_tail := [] |}, Some e)
  end.

(** [CopyLocal] of distinct volumes; of joined errors, the first.  [io] and
    [io'] are the outcomes for [Receive] and for [Complete]. *)
Definition CopyLocal (p : Plan) (source v : volume) (io io' : list bool)
    : volume * result pvc_error Marker :=
  match Validate p with
  | Err e => (v, Err e)
  | Ok _ =>
      match Inspect p v with
      | Err e => (v, Err e)
      | Ok (Some m) => (v, Ok m)
      | Ok None =>
          let '(input, source_err) := exported p source in
          match Receive p v io input, source_err with
          | (v', Err e), _ => (v', Err e)
          | (v', Ok _), Some e => (v', Err e)
          | (v', Ok r), None => Complete p v' io' r
          end
      end
  end.
End Local.

(** ** Lemmas *)

Section LocalLemmas.
Context `{Sha256} `{PvcPlanJson} `{MarkerJson}.

(** These texts are read back as written. *)
Definition readable {A} (parse : bytes -> option A) (text : A -> bytes) (a : A) : Prop :=
  parse (text a) = Some a /\ Z.of_nat (List.length (text a)) <= 16384.

Lemma readJSON_written {A} (parse : bytes -> option A) text files name a : readable parse text a ->
  files !! name = Some (Some (text a)) -> readJSON parse (Some (StateDir files)) name = Ok a.
Proof.
  intros [Hp Hl] Hf. unfold readJSON. rewrite Hf, Hp. by rewrite (proj2 (Z.ltb_ge _ _) Hl).
Qed.

Lemma reads_true {A} `{EqDecision A} (parse : bytes -> option A) st name a :
  reads parse st name a = true <-> readJSON parse st name = Ok a.
Proof.
  unfold reads. destruct (readJSON parse st name) as [b|]; [|done].
  rewrite bool_decide_eq_true. naive_solver.
Qed.

(** A claimed volume without a completion marker. *)
Definition unfinished (v : volume) : Prop :=
  exists m files, v_tree v !! "." = Some (NDir m) /\ m_xattrs m = false
    /\ v_state v = Some (StateDir files) /\ files !! complete_json = None.

Lemma unfinished_partial p v : Validate p = Ok tt -> unfinished v -> Inspect p v = Err ErrPartial.
Proof.
  intros Hv (m & files & Hm & Hx & Hs & Hc). unfold Inspect. rewrite Hv, Hm. simpl. rewrite Hx, Hs.
  rewrite andb_false_r. simpl. rewrite Hc. by destruct (negb _).
Qed.

Lemma unfinished_write v name b io v' io' res : name <> complete_json -> unfinished v ->
  writeJSON v name b io = (v', io', res) -> unfinished v'.
Proof.
  intros Hn (m & files & Hm & Hx & Hs & Hc). unfold writeJSON. rewrite Hs.
  assert (Hput : forall c, unfinished {| v_tree := v_tree v; v_state := Some (StateDir (<[name := c]> files)) |}).
  { intros c. exists m. eexists. split; [done|]. split; [done|]. split; [done|].
    by rewrite lookup_insert_ne. }
  assert (Hv : unfinished v) by (by exists m, files).
  destruct (files !! name); [by intros [= <- _ _]|].
  destruct (negb _); [by intros [= <- _ _]|]. destruct (negb _); intros [= <- _ _]; apply Hput.
Qed.

(** The root directory stays one without attributes. *)
Definition plain_root (t : tree) : Prop := exists m, t !! "." = Some (NDir m) /\ m_xattrs m = false.
Lemma finish_root l : forall r, plain_root (rv_tree r) -> plain_root (rv_tree (finish_dirs r l).1).
Proof.
  induction l as [|h l IH]; intros r Hr; [done|]. cbn [finish_dirs].
  destruct (rv_tree r !! h_name h) as [nd|] eqn:E; [|done].
  destruct (negb _); [done|]. destruct (negb _); [done|]. cbv zeta. apply IH. simpl.
  destruct (decide (h_name h = ".")) as [Heq|Hn].
  - destruct Hr as (m & Hm & _). rewrite Heq in *. rewrite Hm in E. injection E as <-.
    exists (restored h). by rewrite lookup_insert_eq.
  - destruct Hr as (m & Hm & Hx). exists m. by rewrite lookup_insert_ne.
Qed.

Lemma unfinished_payload v t : unfinished v -> plain_root t -> unfinished (with_payload v t).
Proof. intros (m & files & _ & _ & Hs & Hc) (m' & Hm & Hx). by exists m', files. Qed.

Lemma unfinished_root v : unfinished v -> plain_root (v_tree v).
Proof. intros (m & files & Hm & Hx & _). by exists m. Qed.

Lemma receive_claimed_unfinished p v io input : unfinished v ->
  unfinished (receive_claimed p v io input).1.
Proof.
  intros Hv. unfold receive_claimed.
  destruct (writeJSON v claim_json _ io) as [[v1 io1] e1] eqn:E1.
  assert (Hu1 : unfinished v1) by (eapply unfinished_write; [|exact Hv|exact E1]; done).
  destruct e1; [done|]. destruct (negb _); [done|].
  set (r0 := Build_receiver _ _ _).
  pose proof (receive_extends p false r0 input) as Hsub.
  destruct (consume receive_entry p false r0 input) as [rv [[es r]|e]]; simpl in Hsub.
  - assert (Hrv : plain_root (rv_tree rv)).
    { destruct (unfinished_root _ Hu1) as (m & Hm & Hx). exists m. split; [|done].
      by apply (lookup_weaken _ _ _ _ Hm). }
    pose proof (finish_root (rev (rv_dirs rv)) rv Hrv) as Hf. unfold finish.
    destruct (finish_dirs rv _) as [rv' [e|]]; simpl in Hf; [by apply unfinished_payload|].
    pose proof (unfinished_payload _ _ Hu1 Hf) as Hu2. unfold verify_received.
    destruct (export _ _ _ _) as [[es' actual]|]; [|done]. destruct (negb _); [done|].
    destruct (writeJSON _ received_json _ _) as [[v3 io3] e3] eqn:E3.
    assert (Hu3 : unfinished v3) by (eapply unfinished_write; [|exact Hu2|exact E3]; done).
    destruct e3; [done|]. by destruct (negb _).
  - apply unfinished_payload; [done|].
    destruct (unfinished_root _ Hu1) as (m & Hm & Hx). exists m. split; [|done].
    by apply (lookup_weaken _ _ _ _ Hm).
Qed.

Lemma Inspect_empty p v : Inspect p v = Ok None <->
  Validate p = Ok tt /\ plain_root (v_tree v) /\ delete "." (v_tree v) = ∅ /\ v_state v = None.
Proof.
  unfold Inspect, plain_root. split.
  - rewrite rbind_ok. intros ([] & Hv & Hi). split; [done|].
    destruct (v_tree v !! ".") as [[m| |]|]; try done. rewrite refuse_ok in Hi.
    destruct Hi as [Hx Hi]. destruct (_ && _) eqn:E.
    + rewrite andb_true_iff, !bool_decide_eq_true in E. split; [by exists m|done].
    + rewrite !refuse_ok in Hi. destruct Hi as (_ & _ & Hi).
      destruct (readJSON _ _ _); [|done]. rewrite !refuse_ok in Hi. destruct Hi as (_ & _ & _ & Hi).
      apply rbind_ok in Hi as (er & _ & Hi). rewrite refuse_ok in Hi. by destruct Hi.
  - intros (Hv & (m & Hm & Hx) & Hd & Hs). rewrite Hv, Hm. simpl. rewrite Hx, Hd, Hs. done.
Qed.

(** What [Inspect] has checked of a completed target. *)
Lemma Inspect_some p v m : Inspect p v = Ok (Some m) <->
  Validate p = Ok tt /\ plain_root (v_tree v)
  /\ exists files es, v_state v = Some (StateDir files) /\ size files = 3%nat
     /\ readJSON parse_marker (v_state v) claim_json = Ok (markerFor p zero_receipt)
     /\ readJSON parse_receipt (v_state v) received_json = Ok (Mk_Receipt m)
     /\ readJSON parse_marker (v_state v) complete_json = Ok m
     /\ m = markerFor p (Mk_Receipt m) /\ export p (v_tree v) true true = Ok (es, Mk_Receipt m).
Proof.
  unfold Inspect, plain_root. split.
  - rewrite rbind_ok. intros ([] & Hv & Hi). split; [done|].
    destruct (v_tree v !! ".") as [[rm| |]|]; try done. rewrite refuse_ok in Hi.
    destruct Hi as [Hx Hi]. split; [by exists rm|]. destruct (_ && _) eqn:E; [done|].
    rewrite !refuse_ok in Hi. destruct Hi as (Hs & Hc & Hi).
    destruct (v_state v) as [[|files]|]; [done| |done]. apply negb_false_iff, reads_true in Hc.
    destruct (readJSON parse_marker _ complete_json) as [mk|] eqn:Em; [|done].
    rewrite !refuse_ok in Hi. destruct Hi as (Hmk & Hsz & Hr & Hi).
    apply negb_false_iff, bool_decide_eq_true in Hmk. apply negb_false_iff, Nat.eqb_eq in Hsz.
    apply negb_false_iff, reads_true in Hr.
    apply rbind_ok in Hi as ([es rc] & He & Hi). rewrite refuse_ok in Hi. destruct Hi as [Hrc [= <-]].
    apply negb_false_iff, bool_decide_eq_true in Hrc. simpl in Hrc. subst rc.
    exists files, es. done.
  - intros (Hv & (rm & Hm & Hx) & files & es & Hs & Hsz & Hc & Hr & Hk & Hmk & He).
    rewrite Hv, Hm. simpl. rewrite Hx. rewrite (bool_decide_false (v_state v = None)) by by rewrite Hs.
    rewrite andb_false_r. simpl. rewrite (proj2 (reads_true _ _ _ _) Hc), Hk. rewrite Hs at 1.
    rewrite (bool_decide_true _ Hmk), (proj2 (reads_true _ _ _ _) Hr), He, Hs, Hsz. simpl.
    by rewrite bool_decide_true.
Qed.

Definition empty_target (m0 : meta) : volume :=
  {| v_tree := {[ "." := NDir m0 ]}; v_state := None |}.
Definition state_files (p : Plan) (rc : Receipt) : gmap string (option bytes) :=
  {[ complete_json := Some (marker_text (markerFor p rc)); received_json := Some (receipt_text rc);
     claim_json := Some (marker_text (markerFor p zero_receipt)) ]}.
Definition completed (p : Plan) (rc : Receipt) (t : tree) : volume :=
  {| v_tree := keep <$> t; v_state := Some (StateDir (state_files p rc)) |}.
Definition texts_readable (p : Plan) (rc : Receipt) : Prop :=
  readable parse_marker marker_text (markerFor p zero_receipt)
  /\ readable parse_marker marker_text (markerFor p rc) /\ readable parse_receipt receipt_text rc.

Lemma Inspect_completed p rc es t : Validate p = Ok tt -> texts_readable p rc ->
  plain_root (keep <$> t) -> export p (keep <$> t) true true = Ok (es, rc) ->
  Inspect p (completed p rc t) = Ok (Some (markerFor p rc)).
Proof.
  intros Hv (R1 & R2 & R3) Hr He. apply Inspect_some. split; [done|]. split; [done|].
  exists (state_files p rc), es.
  split_and!; try done.
  - by apply (readJSON_written _ marker_text).
  - by apply (readJSON_written _ receipt_text).
  - by apply (readJSON_written _ marker_text).
Qed.

Lemma Receive_exported p es rc m0 t : Validate p = Ok tt -> m_xattrs m0 = false ->
  (exists rv rv',
    consume receive_entry p false
      {| rv_tree := {[ "." := NDir m0 ]}; rv_dirs := []; rv_io := [] |} (tar_of es)
    = (rv, Ok (es, rc))
    /\ finish rv = (rv', None) /\ rv_tree rv' = keep <$> t /\ rv_io rv' = []
    /\ export p (keep <$> t) true true = Ok (es, rc)) ->
  Receive p (empty_target m0) [] (tar_of es)
  = ({| v_tree := keep <$> t; v_state := Some (StateDir
         {[ received_json := Some (receipt_text rc);
            claim_json := Some (marker_text (markerFor p zero_receipt)) ]}) |}, Ok rc).
Proof.
  intros Hv Hx (rv & rv' & Hc & Hf & Ht & Hio & He). unfold Receive. rewrite Hv.
  assert (Inspect p (empty_target m0) = Ok None) as ->.
  { apply Inspect_empty. split_and!; try done. exists m0. split; [apply lookup_singleton_eq|done]. }
  change (negb (succeeds []) || negb (bool_decide (v_state (empty_target m0) = None))) with false.
  cbv iota. unfold receive_claimed.
  assert (forall b, writeJSON {| v_tree := v_tree (empty_target m0); v_state := Some (StateDir ∅) |}
      claim_json b (tl [])
    = ({| v_tree := {[ "." := NDir m0 ]}; v_state := Some (StateDir {[ claim_json := Some b ]}) |},
       [], None)) as -> by done.
  change (negb (succeeds [] && succeeds (tl []))) with false. cbv iota. cbn [v_tree tl].
  rewrite Hc, Hf. unfold verify_received, with_payload. cbn [v_tree v_state].
  rewrite Ht, Hio, He. rewrite bool_decide_true by done. reflexivity.
Qed.
End LocalLemmas.

(** ** Properties *)

Section LocalProperties.
Context `{Sha256} `{PvcPlanJson} `{MarkerJson}.

(** C8: Copying an exportable volume to an empty one completes, when no
    file operation fails: the target holds every directory and file with its
    owner, permissions and content, its marker binds the plan, both volumes
    and the receipt of the source; [Inspect] accepts it, and copying again,
    from whatever source and with whatever failures, returns the same marker
    and leaves the target as it is. *)
Theorem copy_local_completes (p : Plan) (source : volume) (m0 : meta) es rc
    (Htree : rooted (v_tree source))
    (Hex : Export p (v_tree source) (bool_decide (v_state source <> None)) = Ok (es, rc))
    (Hm0 : ownership m0 = true) (Hx0 : m_xattrs m0 = false) (Htexts : texts_readable p rc) :
  let v' := completed p rc (v_tree source) in
  CopyLocal p source (empty_target m0) [] [] = (v', Ok (markerFor p rc))
  /\ Inspect p v' = Ok (Some (markerFor p rc))
  /\ forall source' io io', CopyLocal p source' v' io io' = (v', Ok (markerFor p rc)).
Proof.
  cbv zeta. assert (Hv : Validate p = Ok tt)
    by (unfold Export in Hex; by destruct (Validate p) as [[]|]).
  pose proof (exported_received _ _ _ _ _ _ Htree Hex Hm0) as Hrec.
  pose proof (Receive_exported _ _ _ _ (v_tree source) Hv Hx0 Hrec) as Hreceive.
  destruct Hrec as (_ & _ & _ & _ & _ & _ & He).
  assert (Hroot : plain_root (keep <$> v_tree source)).
  { pose proof (export_ok _ _ _ _ _ _ He) as (m & Hm & Hx & _). by exists m. }
  assert (Hins : Inspect p (completed p rc (v_tree source)) = Ok (Some (markerFor p rc)))
    by by apply (Inspect_completed p rc es).
  split; [|split; [done|]].
  - unfold CopyLocal. rewrite Hv.
    assert (Inspect p (empty_target m0) = Ok None) as ->.
    { apply Inspect_empty. split_and!; try done. exists m0. split; [apply lookup_singleton_eq|done]. }
    unfold exported. rewrite Hex, Hreceive. destruct Htexts as (R1 & R2 & R3).
    unfold Complete. cbn [v_tree v_state]. destruct Hroot as (m & -> & _). rewrite Hv.
    rewrite (proj2 (reads_true _ _ _ (markerFor p zero_receipt)))
      by by apply (readJSON_written _ marker_text).
    rewrite (proj2 (reads_true _ _ _ rc)) by by apply (readJSON_written _ receipt_text).
    rewrite He, bool_decide_true by done. simpl negb. cbv iota.
    unfold syncTree. rewrite firstn_nil, skipn_nil. reflexivity.
  - intros source' io io'. unfold CopyLocal. by rewrite Hv, Hins.
Qed.

(** C25: A target that [Receive] has touched without a completion marker is
    never taken for empty or for complete: whatever the peer sends and
    wherever a file operation fails, either nothing was written and the call
    failed, or [Inspect] reports a partial copy and every further [Receive]
    is refused and writes nothing. *)
Theorem received_stays_partial (p : Plan) (v v' : volume) io input res
    (Hempty : Inspect p v = Ok None) (Hrec : Receive p v io input = (v', res)) :
  (v' = v /\ exists e, res = Err e)
  \/ (Inspect p v' = Err ErrPartial
      /\ forall io2 input2, Receive p v' io2 input2 = (v', Err ErrPartial)).
Proof.
  pose proof (proj1 (Inspect_empty p v) Hempty) as (Hv & (m & Hm & Hx) & _ & Hs).
  unfold Receive in Hrec. rewrite Hv, Hempty in Hrec.
  destruct (negb _ || _); [left; injection Hrec as <- <-; eauto|]. right.
  assert (Hu : unfinished {| v_tree := v_tree v; v_state := Some (StateDir ∅) |})
    by by exists m, ∅.
  pose proof (receive_claimed_unfinished p _ (tl io) input Hu) as Hu'. rewrite Hrec in Hu'.
  pose proof (unfinished_partial p v' Hv Hu') as Hi. split; [done|].
  intros io2 input2. unfold Receive. by rewrite Hv, Hi.
Qed.

(** [Inspect] calls a target complete only when its payload, exported
    anew, has the receipt of its marker, the marker and the claim bind
    exactly this plan, and the received receipt agrees; to a plan with
    another digest the same target is a partial copy. *)
Theorem inspected_is_verified (p : Plan) (v : volume) (m : Marker)
    (Hins : Inspect p v = Ok (Some m)) :
  (exists es, export p (v_tree v) true true = Ok (es, Mk_Receipt m))
  /\ m = markerFor p (Mk_Receipt m)
  /\ readJSON parse_receipt (v_state v) received_json = Ok (Mk_Receipt m)
  /\ forall p', Validate p' = Ok tt -> digest p' <> digest p -> Inspect p' v = Err ErrPartial.
Proof.
  apply Inspect_some in Hins as (Hv & (rm & Hm & Hx) & files & es & Hs & Hsz & Hc & Hr & Hk & Hmk & He).
  split; [by exists es|]. split; [done|]. split; [done|]. intros p' Hv' Hd.
  unfold Inspect. rewrite Hv', Hm. simpl. rewrite Hx, Hs, andb_false_r. simpl. rewrite <- Hs.
  destruct (reads parse_marker (v_state v) claim_json (markerFor p' zero_receipt)) eqn:E; [|done].
  apply reads_true in E. rewrite Hc in E. injection E as Hdig _ _ _. by destruct Hd.
Qed.

(** [Complete] never touches the payload and never overwrites a file of
    the state directory; it answers with a marker only after the claim of
    this plan and the received receipt were read and the payload was exported
    again with the expected receipt, and only where no marker was there. *)
Theorem complete_publishes (p : Plan) (v v' : volume) io expected res
    (Hc : Complete p v io expected = (v', res)) :
  v_tree v' = v_tree v
  /\ (forall files, v_state v = Some (StateDir files) ->
       exists files', v_state v' = Some (StateDir files') /\ files ⊆ files')
  /\ forall m, res = Ok m ->
       m = markerFor p expected
       /\ readJSON parse_marker (v_state v) claim_json = Ok (markerFor p zero_receipt)
       /\ readJSON parse_receipt (v_state v) received_json = Ok expected
       /\ (exists es, export p (v_tree v) true true = Ok (es, expected))
       /\ exists files, v_state v = Some (StateDir files) /\ files !! complete_json = None
            /\ v_state v' = Some (StateDir (<[complete_json := Some (marker_text m)]> files)).
Proof.
  unfold Complete in Hc.
  assert (Hsame : forall e, (v, Err e) = (v', res) -> v_tree v' = v_tree v
    /\ (forall files, v_state v = Some (StateDir files) ->
         exists files', v_state v' = Some (StateDir files') /\ files ⊆ files')
    /\ forall m : Marker, res = Ok m -> False) by (intros e [= <- <-]; naive_solver).
  destruct (v_tree v !! ".") as [[rm| |]|]; try (by specialize (Hsame _ Hc); naive_solver).
  destruct (Validate p); [|by specialize (Hsame _ Hc); naive_solver].
  destruct (reads parse_marker _ _ _) eqn:E1; [|by specialize (Hsame _ Hc); naive_solver].
  destruct (reads parse_receipt _ _ _) eqn:E2; [|by specialize (Hsame _ Hc); naive_solver].
  destruct (export _ _ _ _) as [[es actual]|] eqn:E3; [|by specialize (Hsame _ Hc); naive_solver].
  simpl negb in Hc. case_bool_decide as Ea; [|by specialize (Hsame _ Hc); naive_solver].
  simpl negb in Hc. cbv iota in Hc. subst actual.
  destruct (syncTree v io) as [io1 [e|]]; [by specialize (Hsame _ Hc); naive_solver|].
  apply reads_true in E1, E2. unfold writeJSON in Hc.
  destruct (v_state v) as [[|files]|]; try (by specialize (Hsame _ Hc); naive_solver).
  destruct (files !! complete_json) eqn:Ef; [by specialize (Hsame _ Hc); naive_solver|].
  destruct (succeeds io1); [|by specialize (Hsame _ Hc); naive_solver].
  simpl negb in Hc. cbv iota zeta in Hc.
  destruct (succeeds (tl io1)); simpl negb in Hc; cbv iota in Hc.
  - destruct (negb _); injection Hc as <- <-; (split; [done|]); (split; [|done || intros m [= <-]]).
    + intros f [= <-]. eexists. split; [done|]. by apply insert_subseteq.
    + intros f [= <-]. eexists. split; [done|]. by apply insert_subseteq.
    + split_and!; try done; [by exists es|by exists files].
  - injection Hc as <- <-. split; [done|]. split; [|done].
    intros f [= <-]. eexists. split; [done|]. by apply insert_subseteq.
Qed.
End LocalProperties.

(** ** Witnesses *)

Definition sample_plan_json : PvcPlanJson := fun p => chars (Tenant p).
Definition sample_receipt : Receipt := receipt_of (H := text) sample_entries.
Definition sample_marker (rc : Receipt) : Marker :=
  markerFor (H := text) (H0 := sample_plan_json) sample_plan rc.
(** Texts of the two markers and the receipt of one copy. *)
Definition sample_texts : MarkerJson := {|
  marker_text := fun m => if decide (m = sample_marker zero_receipt) then [byte_of 49] else [byte_of 50];
  parse_marker := fun b => match b with
    | [c] => Some (sample_marker (if char_eq c (byte_of 49) then zero_receipt else sample_receipt))
    | _ => None end;
  receipt_text := fun _ => [byte_of 51];
  parse_receipt := fun _ => Some sample_receipt |}.
Definition sample_source : volume := {| v_tree := sample_tree; v_state := None |}.

Lemma sample_readable :
  texts_readable (H := text) (H0 := sample_plan_json) (H1 := sample_texts) sample_plan sample_receipt.
Proof. vm_compute. repeat split; discriminate. Qed.

Lemma copy_local_completes_witness :
  exists v', CopyLocal (H := text) (H0 := sample_plan_json) (H1 := sample_texts)
    sample_plan sample_source (empty_target (created 493)) [] [] = (v', Ok (sample_marker sample_receipt)).
Proof.
  eexists. exact (proj1 (copy_local_completes (H := text) (H0 := sample_plan_json) (H1 := sample_texts)
    sample_plan sample_source (created 493) sample_entries sample_receipt
    sample_rooted sample_export eq_refl eq_refl sample_readable)).
Defined.

(** The second write of the claim fails. *)
Lemma received_stays_partial_witness :
  let o := Receive (H := text) (H0 := sample_plan_json) (H1 := sample_texts) sample_plan
    (empty_target (created 493)) [true; true; false] (tar_of sample_entries) in
  Inspect (H := text) (H0 := sample_plan_json) (H1 := sample_texts) sample_plan o.1 = Err ErrPartial.
Proof.
  cbv zeta.
  destruct (received_stays_partial (H := text) (H0 := sample_plan_json) (H1 := sample_texts) sample_plan
    (empty_target (created 493)) _ [true; true; false] (tar_of sample_entries) _
    ltac:(vm_compute; reflexivity) (surjective_pairing _)) as [[Hv _]|[Hp _]]; [|exact Hp].
  exfalso. apply (f_equal v_state) in Hv. vm_compute in Hv. discriminate.
Defined.

Lemma inspected_is_verified_witness :
  exists es, export (H := text) sample_plan (keep <$> sample_tree) true true = Ok (es, sample_receipt).
Proof.
  destruct (inspected_is_verified (H := text) (H0 := sample_plan_json) (H1 := sample_texts) sample_plan
    (completed (H := text) (H0 := sample_plan_json) (H1 := sample_texts) sample_plan sample_receipt sample_tree)
    (sample_marker sample_receipt) ltac:(vm_compute; reflexivity)) as [He _]. exact He.
Defined.

Lemma complete_publishes_witness :
  let v := (Receive (H := text) (H0 := sample_plan_json) (H1 := sample_texts) sample_plan
    (empty_target (created 493)) [] (tar_of sample_entries)).1 in
  v_tree (Complete (H := text) (H0 := sample_plan_json) (H1 := sample_texts)
    sample_plan v [] sample_receipt).1 = v_tree v.
Proof.
  cbv zeta. exact (proj1 (complete_publishes (H := text) (H0 := sample_plan_json) (H1 := sample_texts)
    sample_plan _ _ _ _ _ (surjective_pairing _))).
Defined.
