(* ===== verification/PvcExecutor.v ===== *)
(** * Execution of a PVC copy

    [internal/pvccopy/executor.go]: [Executor.check] and [Executor.Execute] as
    a program over the calls of its [Transport], its [Permission], its context
    and the random source.  The two concurrent [Exec]s of a transfer and the
    relay between them are one call whose response says what the source wrote,
    what the target answered and how each of them and the pipes ended; likewise
    the second export.  An error is the list of the errors joined in it. *)

From stdpp Require Import base list gmap strings sorting.
From Stdlib Require Import ZArith Lia Ascii String.
From S2P Require Import Prelude GoStrings Regex GoPath PvcPlan PvcArchive PvcLocal.

Local Open Scope string_scope.
Local Open Scope Z_scope.
Local Open Scope list_scope.

Record PVC := {
  Pv_Ref : PVCRef; Pv_VolumeName : string; Pv_Filesystem : bool; Pv_Bound : bool;
  Pv_Deleting : bool; Pv_OfflineDeclared : bool; Pv_Pending : bool }.
Record Pod := {
  Pod_Namespace : string; Pod_Name : string; Pod_UID : string; Pod_Phase : string;
  Pod_Claims : list string }.
Record Helper := {
  He_Namespace : string; He_Name : string; He_UID : string; He_Owner : string;
  He_PVC : PVCRef; He_ReadOnly : bool; He_Image : string }.
Record HelperSpec := {
  Hs_Namespace : string; Hs_Name : string; Hs_Owner : string; Hs_PVC : PVCRef;
  Hs_ReadOnly : bool; Hs_Image : string; Hs_Timeout : Z }.

Definition HelperBinary : string := "/usr/local/bin/envplane-runner".

(** What a transfer did: the stream of the source helper and its error, an
    error of the pipe to the target, the target's (bounded) answer and error. *)
Record transfer := {
  tf_stream : stream; tf_source : option pvc_error; tf_write : option pvc_error;
  tf_response : bytes; tf_target : option pvc_error }.
Record reexport := { rx_stream : stream; rx_source : option pvc_error }.

Inductive pvc_call : Type -> Type :=
| CtxErr : pvc_call (result pvc_error unit)
| GetPVC (ref : PVCRef) : pvc_call (result pvc_error PVC)
| ListPods (ns : string) : pvc_call (result pvc_error (list Pod))
| CheckControllers (ref : PVCRef) : pvc_call (result pvc_error unit)
| PermissionCall (source target : PVC) : pvc_call (result pvc_error unit)
| RandRead : pvc_call (result pvc_error bytes)
| CreateHelper (s : HelperSpec) : pvc_call (Helper * option pvc_error)
| WaitReady (h : Helper) : pvc_call (result pvc_error unit)
| Exec (h : Helper) (args : list string) : pvc_call (result pvc_error bytes)
| Transfer (source target : Helper) (export import : list string) : pvc_call transfer
| Reexport (source : Helper) (export : list string) : pvc_call reexport
| DeleteHelper (h : Helper) : pvc_call (result pvc_error unit).

(** [decodeJSON] of the answers of a helper ([null] for no marker), and
    [json.Marshal] of a receipt without the encoder's newline. *)
Class AnswerJson := {
  decode_verify : bytes -> option (option Marker);
  decode_receipt : bytes -> option Receipt;
  decode_marker : bytes -> option Marker;
  receipt_arg : Receipt -> string }.

Section Executor.
Context `{Sha256} `{PvcPlanJson} `{AnswerJson}.

(** The closing checks of [check] on the two PVCs. *)
Definition pvc_ok (p : Plan) (helpers : list Helper) (is_target : bool) (got : PVC) (want : PVCRef) : bool :=
  let bindingOK := (Pv_Bound got && str_ne (Pv_VolumeName got) "")
    || (is_target && (List.length helpers <? 2)%nat && Pv_Pending got) in
  bool_decide (Pv_Ref got = want) && Pv_Filesystem got && bindingOK && negb (Pv_Deleting got).

Definition owns (h : Helper) (pod : Pod) : bool :=
  str_eq (He_UID h) (Pod_UID pod) && str_eq (He_Name h) (Pod_Name pod)
  && str_eq (He_Namespace h) (Pod_Namespace pod).

(** The body of the loop over the pods of a namespace. *)
Definition pod_ok (p : Plan) (helpers : list Helper) (ns : string) (pod : Pod) : bool :=
  str_eq (Pod_Namespace pod) ns && str_ne (Pod_UID pod) ""
  && (existsb (fun h => owns h pod) helpers
      || str_eq (Pod_Phase pod) "Succeeded" || str_eq (Pod_Phase pod) "Failed"
      || negb (existsb (fun claim =>
           (str_eq ns (Pvc_Namespace (Source p)) && str_eq claim (Pvc_Name (Source p)))
           || (str_eq ns (Pvc_Namespace (Target p)) && str_eq claim (Pvc_Name (Target p))))
           (Pod_Claims pod))).

Definition namespaces (p : Plan) : list string :=
  Pvc_Namespace (Source p) ::
    (if str_ne (Pvc_Namespace (Target p)) (Pvc_Namespace (Source p)) then [Pvc_Namespace (Target p)] else []).

Fixpoint check_pods (p : Plan) (helpers : list Helper) (l : list string)
    : prog pvc_call (result pvc_error unit) :=
  match l with
  | [] => Ret (Ok tt)
  | ns :: l' =>
      pods <-! call (ListPods ns);;
      stop negb (forallb (pod_ok p helpers ns) pods) with ErrUnsafe;;
      check_pods p helpers l'
  end.

(** [Executor.check] *)
Definition check (policy : Policy) (p : Plan) (helpers : list Helper)
    : prog pvc_call (result pvc_error unit) :=
  _ <-! Ret (policy_check policy p);;
  source <-! call (GetPVC (Source p));;
  target <-! call (GetPVC (Target p));;
  stop negb (pvc_ok p helpers false source (Source p)) || negb (pvc_ok p helpers true target (Target p))
    with ErrUnsafe;;
  stop str_ne (Pv_VolumeName target) "" && str_eq (Pv_VolumeName source) (Pv_VolumeName target)
    with ErrUnsafe;;
  stop negb (Pv_OfflineDeclared source) with ErrUnsafe;;
  _ <-! call (CheckControllers (Source p));;
  _ <-! call (PermissionCall source target);;
  _ <-! check_pods p helpers (namespaces p);;
  call CtxErr.

(** [helperArgs] *)
Definition helperArgs (command : string) (p : Plan) : list string :=
  [HelperBinary; command; text (pvc_plan_json p)].

(** [Executor.rpc] *)
Definition rpc {A} (h : Helper) (command : string) (p : Plan) (extra : list string)
    (decode : bytes -> option A) : prog pvc_call (result pvc_error A) :=
  b <-! call (Exec h (helperArgs command p ++ extra));;
  Ret (match decode b with Some a => Ok a | None => Err ErrOther end).

(** The specification of the helper on one of the two volumes. *)
Definition spec_of (p : Plan) (owner entropy : string) (is_source : bool) : HelperSpec :=
  let ref := if is_source then Source p else Target p in
  {| Hs_Namespace := Pvc_Namespace ref;
     Hs_Name := if is_source then SourceHelperName ref else "pvccopy-target-" +:+ entropy;
     Hs_Owner := owner; Hs_PVC := ref; Hs_ReadOnly := is_source; Hs_Image := Image p;
     Hs_Timeout := Timeout p |}.

(** The identity that makes a helper known, and the whole specification. *)
Definition known (s : HelperSpec) (h : Helper) : bool :=
  str_ne (He_UID h) "" && str_eq (He_Namespace h) (Hs_Namespace s)
  && str_eq (He_Name h) (Hs_Name s) && str_eq (He_Owner h) (Hs_Owner s).
Definition created_as (s : HelperSpec) (h : Helper) : bool :=
  known s h && bool_decide (He_PVC h = Hs_PVC s) && eqb (He_ReadOnly h) (Hs_ReadOnly s)
  && str_eq (He_Image h) (Hs_Image s).

(** The loop that creates the helpers: those to clean up, and the error. *)
Fixpoint acquire (policy : Policy) (p : Plan) (owner entropy : string) (helpers : list Helper)
    (l : list bool) : prog pvc_call (list Helper * option pvc_error) :=
  match l with
  | [] => Ret (helpers, None)
  | is_source :: l' =>
      let spec := spec_of p owner entropy is_source in
      c <-- call (CreateHelper spec);;
      match c with
      | (h, Some e) => Ret (if known spec h then helpers ++ [h] else helpers, Some e)
      | (h, None) =>
          if negb (created_as spec h) then Ret (helpers, Some ErrUnsafe)
          else
            let helpers := helpers ++ [h] in
            w <-- call (WaitReady h);;
            match w with
            | Err e => Ret (helpers, Some e)
            | Ok _ =>
                k <-- check policy p helpers;;
                match k with
                | Err e => Ret (helpers, Some e)
                | Ok _ => acquire policy p owner entropy helpers l'
                end
            end
      end
  end.

Definition errs_of (l : list (option pvc_error)) : list pvc_error := omap id l.
Definition relay_error (r : result pvc_error (list entry * Receipt)) : option pvc_error :=
  match r with Ok _ => None | Err e => Some e end.
Definition one {A} (r : result pvc_error A) : result (list pvc_error) A :=
  match r with Ok a => Ok a | Err e => Err [e] end.
Definition lift {A} (q : prog pvc_call (result pvc_error A)) : prog pvc_call (result (list pvc_error) A) :=
  r <-- q;; Ret (one r).

(** The relay between the two helpers and its receipt. *)
Definition transferred (p : Plan) (x : transfer) : result (list pvc_error) Receipt :=
  let r := Relay p (tf_stream x) in
  match errs_of [relay_error r; tf_write x; tf_source x; tf_target x], r with
  | [], Ok (_, receipt) => Ok receipt
  | errs, _ => Err errs
  end.
Definition reexported (p : Plan) (x : reexport) : result (list pvc_error) Receipt :=
  let r := Relay p (rx_stream x) in
  match errs_of [relay_error r; rx_source x], r with
  | [], Ok (_, receipt) => Ok receipt
  | errs, _ => Err errs
  end.

(** [Execute] from the transfer on. *)
Definition copy (policy : Policy) (p : Plan) (source target : Helper)
    : prog pvc_call (result (list pvc_error) Marker) :=
  let helpers := [source; target] in
  x <-- call (Transfer source target (helperArgs "pvc-export" p) (helperArgs "pvc-import" p));;
  receipt <-! Ret (transferred p x);;
  received <-! Ret (one (match decode_receipt (tf_response x) with
                         | Some r => Ok r | None => Err ErrOther end));;
  stop negb (bool_decide (received = receipt)) with [ErrUnsafe];;
  _ <-! lift (check policy p helpers);;
  y <-- call (Reexport source (helperArgs "pvc-export" p));;
  verified <-! Ret (reexported p y);;
  stop negb (bool_decide (verified = receipt)) with [ErrUnsafe];;
  _ <-! lift (check policy p helpers);;
  marker <-! lift (rpc target "pvc-complete" p [receipt_arg receipt] decode_marker);;
  stop negb (bool_decide (marker = markerFor p receipt)) with [ErrPartial];;
  _ <-! lift (check policy p helpers);;
  Ret (Ok marker).

(** [Execute] with both helpers. *)
Definition with_helpers (policy : Policy) (p : Plan) (source target : Helper)
    : prog pvc_call (result (list pvc_error) Marker) :=
  let helpers := [source; target] in
  _ <-! lift (check policy p helpers);;
  existing <-! lift (rpc target "pvc-verify" p [] decode_verify);;
  match existing with
  | Some marker =>
      stop negb (bool_decide (marker = markerFor p (Mk_Receipt marker))) with [ErrPartial];;
      _ <-! lift (check policy p helpers);;
      Ret (Ok marker)
  | None =>
      _ <-! lift (check policy p helpers);;
      copy policy p source target
  end.

(** The deferred cleanup, last helper first: the errors joined. *)
Fixpoint cleanup (l : list Helper) : prog pvc_call (list pvc_error) :=
  match l with
  | [] => Ret []
  | h :: l' =>
      r <-- call (DeleteHelper h);;
      errs <-- cleanup l';;
      Ret (match r with Ok _ => errs | Err e => e :: errs end)
  end.

Definition hex_text (b : bytes) : string :=
  let digit n := if (n <? 10)%N then ascii_of_N (48 + n) else ascii_of_N (87 + n) in
  text (flat_map (fun c => [digit (N_of_ascii c / 16)%N; digit (N_of_ascii c mod 16)%N]) b).

(** [Executor.Execute]; [wired]: the transport and the permission are there. *)
Definition Execute (wired : bool) (policy : Policy) (p : Plan)
    : prog pvc_call (result (list pvc_error) Marker) :=
  _ <-! Ret (one (Validate p));;
  stop negb wired with [ErrOther];;
  _ <-! Ret (one (policy_check policy p));;
  _ <-! lift (check policy p []);;
  entropy <-! lift (call RandRead);;
  let owner := digest p +:+ "-" +:+ hex_text entropy in
  a <-- acquire policy p owner (hex_text entropy) [] [true; false];;
  r <-- match a with
        | (_, Some e) => Ret (Err [e])
        | ([source; target], None) => with_helpers policy p source target
        | (_, None) => Ret (Err [ErrOther])
        end;;
  errs <-- cleanup (rev a.1);;
  Ret (match r, errs with
       | Ok m, [] => Ok m
       | Ok _, _ => Err errs
       | Err es, _ => Err (es ++ errs)
       end).
End Executor.

(** ** Executions *)

Section ExecutorLemmas.
Context `{Sha256} `{PvcPlanJson} `{AnswerJson}.
Implicit Types t : list (event pvc_call).

Definition listed (l : list (string * list Pod)) : list (event pvc_call) :=
  map (fun x => Event (ListPods x.1) (Ok x.2)) l.

(** What a successful [check] with these helpers has seen. *)
Record safe_pvcs (policy : Policy) (p : Plan) (helpers : list Helper) (source target : PVC)
    (pods : list (string * list Pod)) : Prop := {
  sp_policy : policy_check policy p = Ok tt;
  sp_source : pvc_ok p helpers false source (Source p) = true;
  sp_target : pvc_ok p helpers true target (Target p) = true;
  sp_distinct : Pv_VolumeName target = "" \/ Pv_VolumeName source <> Pv_VolumeName target;
  sp_offline : Pv_OfflineDeclared source = true;
  sp_namespaces : map fst pods = namespaces p;
  sp_pods : Forall (fun x => forallb (pod_ok p helpers x.1) x.2 = true) pods }.
Definition passed (policy : Policy) (p : Plan) (helpers : list Helper) t : Prop :=
  exists source target pods, safe_pvcs policy p helpers source target pods
    /\ t = [Event (GetPVC (Source p)) (Ok source); Event (GetPVC (Target p)) (Ok target);
            Event (CheckControllers (Source p)) (Ok tt);
            Event (PermissionCall source target) (Ok tt)]
           ++ listed pods ++ [Event CtxErr (Ok tt)].

Lemma check_pods_ok p helpers l t u : exec (check_pods p helpers l) t (Ok u) ->
  exists pods, t = listed pods /\ map fst pods = l
    /\ Forall (fun x => forallb (pod_ok p helpers x.1) x.2 = true) pods.
Proof.
  revert t. induction l as [|ns l IH]; intros t Hx; cbn [check_pods] in Hx.
  { destruct Hx as [-> _]. by exists []. }
  apply exec_pbind_ok in Hx as (t1 & t2 & pods & -> & ->%exec_call & Hx).
  apply exec_stop_ok in Hx as [Hok%negb_false_iff Hx].
  apply IH in Hx as (rest & -> & <- & Hrest).
  exists ((ns, pods) :: rest). split; [done|]. split; [done|]. by constructor.
Qed.

Lemma pvc_check_ok policy p helpers t u : exec (check policy p helpers) t (Ok u) ->
  passed policy p helpers t.
Proof.
  unfold check. intros Hx. apply exec_pret in Hx as ([] & Hp & Hx).
  apply exec_pbind_ok in Hx as (t1 & t2 & source & -> & ->%exec_call & Hx).
  apply exec_pbind_ok in Hx as (t3 & t4 & target & -> & ->%exec_call & Hx).
  apply exec_stop_ok in Hx as [Hs Hx]. apply exec_stop_ok in Hx as [Hv Hx].
  apply exec_stop_ok in Hx as [Ho%negb_false_iff Hx].
  apply exec_pbind_ok in Hx as (t5 & t6 & [] & -> & ->%exec_call & Hx).
  apply exec_pbind_ok in Hx as (t7 & t8 & [] & -> & ->%exec_call & Hx).
  apply exec_pbind_ok in Hx as (t9 & t10 & [] & -> & Hpods & ->%exec_call).
  apply check_pods_ok in Hpods as (pods & -> & Hns & Hall).
  rewrite orb_false_iff, !negb_false_iff in Hs. destruct Hs as [Hs1 Hs2].
  destruct u. exists source, target, pods. split; [|done]. split; try done.
  apply andb_false_iff in Hv as [Hv|Hv].
  - left. by apply str_ne_false in Hv.
  - right. by apply str_eq_false in Hv.
Qed.

Lemma lift_ok {A} (q : prog pvc_call (result pvc_error A)) t a :
  exec (lift q) t (Ok a) <-> exec q t (Ok a).
Proof.
  unfold lift. rewrite exec_bind. split.
  - intros (t1 & t2 & [b|e] & -> & Hq & [-> [=]]); subst. by rewrite app_nil_r.
  - intros Hq. exists t, [], (Ok a). by rewrite app_nil_r.
Qed.

Lemma rpc_ok {A} h command p extra (decode : bytes -> option A) t a :
  exec (rpc h command p extra decode) t (Ok a) ->
  exists b, t = [Event (Exec h (helperArgs command p ++ extra)) (Ok b)] /\ decode b = Some a.
Proof.
  unfold rpc. intros Hx. apply exec_pbind_ok in Hx as (t1 & t2 & b & -> & ->%exec_call & [-> Hd]).
  exists b. split; [done|]. by destruct (decode b) as [a'|]; [injection Hd as ->|].
Qed.

Lemma transferred_ok p x rc : transferred p x = Ok rc ->
  (exists es, Relay p (tf_stream x) = Ok (es, rc))
  /\ tf_write x = None /\ tf_source x = None /\ tf_target x = None.
Proof.
  unfold transferred. destruct (Relay p (tf_stream x)) as [[es r]|e]; [|done].
  destruct (tf_write x), (tf_source x), (tf_target x); try done.
  simpl. intros [= <-]. eauto.
Qed.
Lemma reexported_ok p x rc : reexported p x = Ok rc ->
  (exists es, Relay p (rx_stream x) = Ok (es, rc)) /\ rx_source x = None.
Proof.
  unfold reexported. destruct (Relay p (rx_stream x)) as [[es r]|e]; [|done].
  destruct (rx_source x); [done|]. simpl. intros [= <-]. eauto.
Qed.

(** The events of a successful copy. *)
Definition copied (policy : Policy) (p : Plan) (h0 h1 : Helper) (m : Marker) t : Prop :=
  exists rc x y b es es' t1 t2 t3,
    Relay p (tf_stream x) = Ok (es, rc) /\ tf_write x = None /\ tf_source x = None
    /\ tf_target x = None /\ decode_receipt (tf_response x) = Some rc
    /\ Relay p (rx_stream y) = Ok (es', rc) /\ rx_source y = None
    /\ decode_marker b = Some m /\ m = markerFor p rc
    /\ passed policy p [h0; h1] t1 /\ passed policy p [h0; h1] t2 /\ passed policy p [h0; h1] t3
    /\ t = [Event (Transfer h0 h1 (helperArgs "pvc-export" p) (helperArgs "pvc-import" p)) x]
           ++ t1 ++ [Event (Reexport h0 (helperArgs "pvc-export" p)) y]
           ++ t2 ++ [Event (Exec h1 (helperArgs "pvc-complete" p ++ [receipt_arg rc])) (Ok b)]
           ++ t3.

Lemma one_ok {A} (r : result pvc_error A) a : one r = Ok a <-> r = Ok a.
Proof. destruct r; simpl; naive_solver. Qed.

Lemma pvc_copy_ok policy p h0 h1 t m : exec (copy policy p h0 h1) t (Ok m) ->
  copied policy p h0 h1 m t.
Proof.
  unfold copy. intros Hx. apply exec_bind in Hx as (t1 & t2 & x & -> & ->%exec_call & Hx).
  apply exec_pret in Hx as (rc & [[es Hes] (Hw & Hs & Ht)]%transferred_ok & Hx).
  apply exec_pret in Hx as (received & Hrec%one_ok & Hx).
  apply exec_stop_ok in Hx as [Heq%negb_false_iff%bool_decide_eq_true Hx]. subst received.
  apply exec_pbind_ok in Hx as (t3 & t4 & [] & -> & Hc1%lift_ok%pvc_check_ok & Hx).
  apply exec_bind in Hx as (t5 & t6 & y & -> & ->%exec_call & Hx).
  apply exec_pret in Hx as (rc' & [[es' Hes'] Hsy]%reexported_ok & Hx).
  apply exec_stop_ok in Hx as [Heq%negb_false_iff%bool_decide_eq_true Hx]. subst rc'.
  apply exec_pbind_ok in Hx as (t7 & t8 & [] & -> & Hc2%lift_ok%pvc_check_ok & Hx).
  apply exec_pbind_ok in Hx as (t9 & t10 & m' & -> & Hm%lift_ok%rpc_ok & Hx).
  apply exec_stop_ok in Hx as [Heq%negb_false_iff%bool_decide_eq_true Hx].
  apply exec_pbind_ok in Hx as (t11 & t12 & [] & -> & Hc3%lift_ok%pvc_check_ok & Hx).
  apply exec_ret_ok in Hx as [-> ->]. destruct Hm as (b & -> & Hb).
  destruct (decode_receipt (tf_response x)) as [r|] eqn:Er; [injection Hrec as ->|done].
  exists rc, x, y, b, es, es', t3, t7, t11. rewrite app_nil_r. split_and!; done.
Qed.

(** The events that created a helper and found it ready. *)
Definition acquired (policy : Policy) (p : Plan) (s : HelperSpec) (helpers : list Helper) (h : Helper) t : Prop :=
  created_as s h = true /\ exists t1, passed policy p (helpers ++ [h]) t1
    /\ t = [Event (CreateHelper s) (h, None); Event (WaitReady h) (Ok tt)] ++ t1.

Lemma acquire_step policy p owner entropy hs src l t hs' :
  exec (acquire policy p owner entropy hs (src :: l)) t (hs', None) ->
  exists h t1 t2, t = t1 ++ t2 /\ acquired policy p (spec_of p owner entropy src) hs h t1
    /\ exec (acquire policy p owner entropy (hs ++ [h]) l) t2 (hs', None).
Proof.
  cbn [acquire]. cbv zeta. intros Hx.
  apply exec_bind in Hx as (t1 & t2 & [h [e|]] & -> & ->%exec_call & Hx); [by destruct Hx as [_ [=]]|].
  destruct (created_as _ h) eqn:Ec; [|by destruct Hx as [_ [=]]]. simpl negb in Hx. cbv iota in Hx.
  apply exec_bind in Hx as (t3 & t4 & [[]|e] & -> & ->%exec_call & Hx); [|by destruct Hx as [_ [=]]].
  apply exec_bind in Hx as (t5 & t6 & [[]|e] & -> & Hc & Hx); [|by destruct Hx as [_ [=]]].
  apply pvc_check_ok in Hc. exists h, ([Event (CreateHelper (spec_of p owner entropy src)) (h, None);
    Event (WaitReady h) (Ok tt)] ++ t5), t6. split_and!; [done| |done].
  split; [done|]. by exists t5.
Qed.

Lemma acquire_ok policy p owner entropy t hs :
  exec (acquire policy p owner entropy [] [true; false]) t (hs, None) ->
  exists h0 h1 t1 t2, hs = [h0; h1] /\ t = t1 ++ t2
    /\ acquired policy p (spec_of p owner entropy true) [] h0 t1
    /\ acquired policy p (spec_of p owner entropy false) [h0] h1 t2.
Proof.
  intros (h0 & t1 & t2 & -> & Ha & (h1 & t3 & t4 & -> & Hb & [-> [= ->]])%acquire_step)%acquire_step.
  exists h0, h1, t1, t3. by rewrite app_nil_r.
Qed.

Lemma cleanup_exec l t errs : exec (cleanup l) t errs ->
  exists rs, t = map (fun x => Event (DeleteHelper x.1) x.2) rs /\ map fst rs = l
    /\ (errs = [] -> Forall (fun x => x.2 = Ok tt) rs).
Proof.
  revert t errs. induction l as [|h l IH]; intros t errs Hx; cbn [cleanup] in Hx.
  { destruct Hx as [-> ->]. by exists []. }
  apply exec_bind in Hx as (t1 & t2 & r & -> & ->%exec_call & Hx).
  apply exec_bind in Hx as (t3 & t4 & errs' & -> & (rs & -> & <- & Hrs)%IH & [-> ->]).
  exists ((h, r) :: rs). rewrite app_nil_r. split; [done|]. split; [done|].
  destruct r as [[]|e]; [|done]. intros Herr. constructor; auto.
Qed.

(** The events of a successful [Execute] between the creation of the helpers
    and the cleanup. *)
Definition used (policy : Policy) (p : Plan) (h0 h1 : Helper) (m : Marker) t : Prop :=
  exists t1 t2 t3 b, passed policy p [h0; h1] t1 /\ passed policy p [h0; h1] t2
    /\ t = t1 ++ [Event (Exec h1 (helperArgs "pvc-verify" p)) (Ok b)] ++ t2 ++ t3
    /\ (decode_verify b = Some (Some m) /\ m = markerFor p (Mk_Receipt m) /\ t3 = []
        \/ decode_verify b = Some None /\ copied policy p h0 h1 m t3).

Lemma with_helpers_ok policy p h0 h1 t m : exec (with_helpers policy p h0 h1) t (Ok m) ->
  used policy p h0 h1 m t.
Proof.
  unfold with_helpers. intros Hx.
  apply exec_pbind_ok in Hx as (t1 & t2 & [] & -> & Hc1%lift_ok%pvc_check_ok & Hx).
  apply exec_pbind_ok in Hx as (t3 & t4 & existing & -> & (b & -> & Hb)%lift_ok%rpc_ok & Hx).
  destruct existing as [marker|].
  - apply exec_stop_ok in Hx as [Heq%negb_false_iff%bool_decide_eq_true Hx].
    apply exec_pbind_ok in Hx as (t5 & t6 & [] & -> & Hc2%lift_ok%pvc_check_ok & [-> <-]%exec_ret_ok).
    exists t1, t5, [], b. split_and!; [done|done|done|]. by left.
  - apply exec_pbind_ok in Hx as (t5 & t6 & [] & -> & Hc2%lift_ok%pvc_check_ok & Hx%pvc_copy_ok).
    exists t1, t5, t6, b. split_and!; [done|done|done|]. by right.
Qed.

Lemma Execute_ok wired policy p t m (Hx : exec (Execute wired policy p) t (Ok m)) :
  Validate p = Ok tt /\ policy_check policy p = Ok tt
  /\ exists entropy h0 h1 t0 t1 t2 t3,
    let owner := digest p +:+ "-" +:+ hex_text entropy in
    passed policy p [] t0
    /\ acquired policy p (spec_of p owner (hex_text entropy) true) [] h0 t1
    /\ acquired policy p (spec_of p owner (hex_text entropy) false) [h0] h1 t2
    /\ used policy p h0 h1 m t3
    /\ t = t0 ++ [Event RandRead (Ok entropy)] ++ t1 ++ t2 ++ t3
           ++ [Event (DeleteHelper h1) (Ok tt); Event (DeleteHelper h0) (Ok tt)].
Proof.
  unfold Execute in Hx. apply exec_pret in Hx as ([] & Hv%one_ok & Hx).
  apply exec_stop_ok in Hx as [_ Hx]. apply exec_pret in Hx as ([] & Hp%one_ok & Hx).
  split; [done|]. split; [done|].
  apply exec_pbind_ok in Hx as (t0 & t' & [] & -> & Hc%lift_ok%pvc_check_ok & Hx).
  apply exec_pbind_ok in Hx as (tr & t'' & entropy & -> & Hr%lift_ok%exec_call & Hx). subst tr.
  cbv zeta in Hx. apply exec_bind in Hx as (ta & tb & [hs e] & -> & Ha & Hx).
  apply exec_bind in Hx as (tw & td & r & -> & Hw & Hx).
  apply exec_bind in Hx as (tc & te & errs & -> & Hd & [-> Hm]).
  destruct r as [m'|es]; [|destruct errs; done]. destruct errs as [|e' errs]; [|done].
  injection Hm as <-. destruct e as [e|]; [by destruct hs as [|? [|? [|]]], Hw|].
  apply acquire_ok in Ha as (h0 & h1 & t1 & t2 & -> & -> & Ha0 & Ha1).
  apply with_helpers_ok in Hw.
  apply cleanup_exec in Hd as (rs & -> & Hrs & Hall). specialize (Hall eq_refl).
  destruct rs as [|[x rx] [|[y ry] [|]]]; try done. simpl in Hrs. injection Hrs as -> ->.
  rewrite !Forall_cons in Hall. destruct Hall as (Hrx & Hry & _). simpl in Hrx, Hry. subst rx ry.
  exists entropy, h0, h1, t0, t1, t2, tw. split_and!; try done.
  by rewrite app_nil_r, <- !app_assoc.
Qed.

(** ** Which calls happen when *)

Definition quiet (R : Type) (e : pvc_call R) : Prop :=
  match e with
  | CtxErr | GetPVC _ | ListPods _ | CheckControllers _ | PermissionCall _ _ | RandRead | WaitReady _ => True
  | _ => False
  end.
(** The helper that a call made known, and the one it deleted. *)
Definition created_by (ev : event pvc_call) : option Helper :=
  match ev with
  | @Event _ R e r =>
      match e in pvc_call R return R -> option Helper with
      | CreateHelper s => fun r =>
          match r with
          | (h, None) => if created_as s h then Some h else None
          | (h, Some _) => if known s h then Some h else None
          end
      | _ => fun _ => None
      end r
  end.
Definition deleted_by (ev : event pvc_call) : option Helper :=
  match ev with
  | @Event _ _ (DeleteHelper h) _ => Some h
  | _ => None
  end.

Definition ends_checked (policy : Policy) (p : Plan) (helpers : list Helper) h : Prop :=
  exists h' t, h = h' ++ t /\ passed policy p helpers t.

Definition ordered (policy : Policy) (p : Plan) (R : Type) (h : list (event pvc_call)) (e : pvc_call R) : Prop :=
  match e with
  | CreateHelper s =>
      Hs_Image s = Po_RunnerImage policy
      /\ (Hs_PVC s = Source p /\ Hs_ReadOnly s = true
          \/ Hs_PVC s = Target p /\ Hs_ReadOnly s = false
             /\ exists h0, created_as (spec_of p (Hs_Owner s) "" true) h0 = true
                  /\ ends_checked policy p [h0] h)
  | Transfer h0 h1 _ _ =>
      ends_checked policy p [h0; h1] h
      /\ exists b, decode_verify b = Some None
           /\ In (Event (Exec h1 (helperArgs "pvc-verify" p)) (Ok b)) h
  | Reexport h0 _ => exists h1, ends_checked policy p [h0; h1] h
  | Exec h1 args =>
      exists h0, ends_checked policy p [h0; h1] h
      /\ (args = helperArgs "pvc-verify" p
          \/ exists x y rc, args = helperArgs "pvc-complete" p ++ [receipt_arg rc]
               /\ In (Event (Transfer h0 h1 (helperArgs "pvc-export" p) (helperArgs "pvc-import" p)) x) h
               /\ transferred p x = Ok rc /\ decode_receipt (tf_response x) = Some rc
               /\ In (Event (Reexport h0 (helperArgs "pvc-export" p)) y) h
               /\ reexported p y = Ok rc)
  | DeleteHelper hp => hp ∈ omap created_by h
  | _ => True
  end.

Lemma quiet_ordered {A} policy p h (q : prog pvc_call A) : only quiet q -> guarded (ordered policy p) h q.
Proof.
  intros Hq. apply (guarded_impl (fun R _ e => quiet R e)); [|by apply guarded_only].
  intros R h' e. by destruct e.
Qed.

Lemma check_quiet policy p hs : only quiet (check policy p hs).
Proof.
  assert (Hpods : forall l, only quiet (check_pods p hs l))
    by (induction l as [|ns l IH]; cbn [check_pods]; repeat only_step; done).
  unfold check. repeat only_step. apply Hpods.
Qed.

Lemma lift_guarded {A} P h (q : prog pvc_call (result pvc_error A)) :
  guarded P h q -> guarded P h (lift q).
Proof. intros Hq. apply guarded_bind; [done|]. by intros. Qed.

Lemma pvc_check_guarded policy p hs h : guarded (ordered policy p) h (lift (check policy p hs)).
Proof. apply lift_guarded, quiet_ordered, check_quiet. Qed.

Lemma ends_checked_app policy p hs h t : passed policy p hs t -> ends_checked policy p hs (h ++ t).
Proof. intros Ht. by exists h, t. Qed.

(** What follows a check with these helpers. *)
Lemma guard_checked {B} policy p hs h (f : unit -> prog pvc_call (result (list pvc_error) B)) :
  (forall t, ends_checked policy p hs (h ++ t) -> guarded (ordered policy p) (h ++ t) (f tt)) ->
  guarded (ordered policy p) h (pbind (lift (check policy p hs)) f).
Proof.
  intros Hf. apply guarded_pbind; [apply pvc_check_guarded|]. intros t [] Hc%lift_ok%pvc_check_ok.
  by apply Hf, ends_checked_app.
Qed.

Ltac found := rewrite ?in_app_iff; simpl; auto 25.

Lemma pret_guarded {A B} P h (r : result (list pvc_error) A)
    (f : A -> prog pvc_call (result (list pvc_error) B)) :
  (forall a, r = Ok a -> guarded P h (f a)) -> guarded P h (pbind (Ret r) f).
Proof.
  intros Hf. apply guarded_pbind; [done|]. intros t a [-> <-]. rewrite app_nil_r. by apply Hf.
Qed.

Lemma pvc_copy_ordered policy p h0 h1 h b : ends_checked policy p [h0; h1] h ->
  decode_verify b = Some None -> In (Event (Exec h1 (helperArgs "pvc-verify" p)) (Ok b)) h ->
  guarded (ordered policy p) h (copy policy p h0 h1).
Proof.
  intros Hc Hb Hin. unfold copy. cbn [call bind guarded]. split; [split; [done|by exists b]|]. intros x.
  apply pret_guarded. intros rc Hx. apply pret_guarded. intros received Hr%one_ok.
  apply guarded_stop. intros Heq%negb_false_iff%bool_decide_eq_true. subst received.
  apply guard_checked. intros ? Hc1. cbn [call bind guarded]. split; [by exists h1|]. intros y.
  apply pret_guarded. intros rc' Hy.
  apply guarded_stop. intros Heq%negb_false_iff%bool_decide_eq_true. subst rc'.
  apply guard_checked. intros ? Hc2. apply guarded_pbind.
  - apply lift_guarded. unfold rpc. cbn [call pbind bind guarded]. split; [|by intros []].
    exists h0. split; [done|]. right. exists x, y, rc. split_and!; [done|found|done| |found|done].
    by destruct (decode_receipt (tf_response x)) as [r|]; [injection Hr as ->|].
  - intros ? m _. apply guarded_stop. intros _. apply guard_checked. intros ? Hc3. done.
Qed.

Lemma with_helpers_ordered policy p h0 h1 h : guarded (ordered policy p) h (with_helpers policy p h0 h1).
Proof.
  unfold with_helpers. apply guard_checked. intros ? Hc1. apply guarded_pbind.
  - apply lift_guarded. unfold rpc. cbn [call pbind bind guarded]. split; [|by intros []].
    exists h0. split; [done|]. by left.
  - intros t1 existing (b & -> & Hb)%lift_ok%rpc_ok. destruct existing as [m|].
    + apply guarded_stop. intros _. apply guard_checked. intros ? Hc2. done.
    + apply guard_checked. intros ? Hc2. eapply pvc_copy_ordered; [done|exact Hb|]. found.
Qed.

Lemma spec_known p owner entropy h0 : created_as (spec_of p owner entropy true) h0 = true ->
  created_as (spec_of p owner "" true) h0 = true.
Proof. done. Qed.

Lemma acquire_ordered policy p owner entropy h : policy_check policy p = Ok tt ->
  guarded (ordered policy p) h (acquire policy p owner entropy [] [true; false]).
Proof.
  intros Hp.
  assert (Himg : Image p = Po_RunnerImage policy).
  { unfold policy_check in Hp. rewrite !refuse_ok in Hp. destruct Hp as [Hp _].
    rewrite !orb_false_iff in Hp. destruct Hp as [[_ Hp] _]. by apply str_ne_false in Hp. }
  cbn [acquire]. cbv zeta. cbn [call bind guarded]. split; [split; [done|by left]|].
  intros [s0 [e|]]; [done|]. destruct (created_as _ s0) eqn:E0; [|done]. simpl negb. cbv iota.
  cbn [call bind guarded]. split; [done|]. intros [[]|e]; [|done].
  apply guarded_bind; [apply quiet_ordered, check_quiet|]. intros t [[]|e] Hc; [|done].
  apply pvc_check_ok in Hc. eapply (ends_checked_app _ _ _ _) in Hc.
  cbn [call bind guarded]. split.
  { split; [done|]. right. split; [done|]. split; [done|]. exists s0. by split. }
  intros [s1 [e|]]; [done|]. destruct (created_as _ s1); [|done]. simpl negb. cbv iota.
  cbn [call bind guarded]. split; [done|]. intros [[]|e]; [|done].
  apply guarded_bind; [apply quiet_ordered, check_quiet|]. by intros ? [[]|].
Qed.

(** ** What is cleaned up *)

Definition untouched t : Prop := omap created_by t = [] /\ omap deleted_by t = [].

Definition inner (R : Type) (e : pvc_call R) : Prop :=
  match e with CreateHelper _ | DeleteHelper _ => False | _ => True end.

Lemma inner_untouched {A} (q : prog pvc_call A) t a : only inner q -> exec q t a -> untouched t.
Proof.
  intros Hq Hx. pose proof (exec_only _ _ _ _ Hq Hx) as Ht. clear Hx. unfold untouched.
  induction Ht as [|[R e r] t He _ [IH1 IH2]]; [done|].
  destruct e; solve [done | split; [exact IH1|exact IH2]].
Qed.

Lemma check_inner policy p hs : only inner (check policy p hs).
Proof. eapply only_impl; [|apply check_quiet]. intros R e. by destruct e. Qed.

Lemma with_helpers_inner policy p h0 h1 : only inner (with_helpers policy p h0 h1).
Proof.
  unfold with_helpers, copy, lift, rpc. repeat (apply check_inner || only_step).
Qed.

Lemma untouched_app t1 t2 : untouched t1 -> untouched t2 -> untouched (t1 ++ t2).
Proof. intros [Ha Hb] [Hc Hd]. split; rewrite omap_app; [by rewrite Ha|by rewrite Hb]. Qed.

Lemma acquire_created policy p owner entropy l : forall hs t r,
  exec (acquire policy p owner entropy hs l) t r ->
  r.1 = hs ++ omap created_by t /\ omap deleted_by t = [].
Proof.
  induction l as [|src l IH]; intros hs t r Hx; cbn [acquire] in Hx.
  { destruct Hx as [-> ->]. simpl. by rewrite app_nil_r. }
  cbv zeta in Hx. apply exec_bind in Hx as (t1 & t2 & [h [e|]] & -> & ->%exec_call & Hx).
  { destruct Hx as [-> ->]. simpl. destruct (known _ h); by rewrite ?app_nil_r. }
  destruct (created_as _ h) eqn:Ec; simpl negb in Hx; cbv iota in Hx.
  2: { destruct Hx as [-> ->]. simpl. rewrite Ec. by rewrite app_nil_r. }
  apply exec_bind in Hx as (t3 & t4 & w & -> & ->%exec_call & Hx). simpl. rewrite Ec.
  destruct w as [[]|e]; [|by destruct Hx as [-> ->]].
  apply exec_bind in Hx as (t5 & t6 & k & -> & Hc & Hx).
  apply inner_untouched in Hc as [Hc1 Hc2]; [|apply check_inner].
  rewrite !omap_app, Hc1, Hc2. simpl.
  destruct k as [[]|e]; [|by destruct Hx as [-> ->]].
  apply IH in Hx as [-> Hd]. by rewrite <- app_assoc.
Qed.

(** Nothing was created, or the execution ends with the deletion of what
    was. *)
Definition cleaned_up t : Prop :=
  exists t0 rs, t = t0 ++ map (fun x => Event (DeleteHelper x.1) x.2) rs
    /\ map fst rs = rev (omap created_by t0) /\ omap deleted_by t0 = [].

Lemma untouched_cleaned t : untouched t -> cleaned_up t.
Proof. intros [Hc Hd]. exists t, []. by rewrite Hc, app_nil_r. Qed.
End ExecutorLemmas.

(** ** Properties *)

Section ExecutorProperties.
Context `{Sha256} `{PvcPlanJson} `{AnswerJson}.

(** C9: A copy that succeeds had a valid plan that the local policy permits;
    the source helper was created read-only on the source and the target
    helper on the target, each by this execution; the identities, the offline
    declaration and the absence of other consumers were checked before and
    between all steps; and the marker is one that the target holds for
    exactly this plan, or it was published only after the relayed stream, the
    target's own receipt and a second export of the source all had the
    receipt it carries.  Both helpers were deleted. *)
Theorem Execute_success wired policy p t m (Hx : exec (Execute wired policy p) t (Ok m)) :
  Validate p = Ok tt /\ policy_check policy p = Ok tt
  /\ exists entropy h0 h1 t0 t1 t2 t3,
    let owner := digest p +:+ "-" +:+ hex_text entropy in
    passed policy p [] t0
    /\ acquired policy p (spec_of p owner (hex_text entropy) true) [] h0 t1
    /\ acquired policy p (spec_of p owner (hex_text entropy) false) [h0] h1 t2
    /\ used policy p h0 h1 m t3
    /\ t = t0 ++ [Event RandRead (Ok entropy)] ++ t1 ++ t2 ++ t3
           ++ [Event (DeleteHelper h1) (Ok tt); Event (DeleteHelper h0) (Ok tt)].
Proof. exact (Execute_ok _ _ _ _ _ Hx). Qed.

(** C10: In every execution, also one that fails later, the source volume is
    only ever mounted read-only and only the image of the local policy runs;
    the target helper is created, data is transferred, the source is read
    again and completion is requested only directly after a check that
    passed with exactly the helpers of this execution; nothing is
    transferred unless the target was found empty, completion carries the
    receipt of the relayed stream that the target and a second export of the
    source confirmed, and only helpers of this execution are deleted. *)
Theorem Execute_ordered wired policy p t a t1 R (e : pvc_call R) x t2
    (Hx : exec (Execute wired policy p) t a) (Ht : t = t1 ++ Event e x :: t2) :
  ordered policy p R t1 e.
Proof.
  apply (guarded_exec (ordered policy p) [] _ _ _ _ _ _ _ _) with (2 := Hx) (3 := Ht).
  unfold Execute. apply pret_guarded. intros [] _. apply guarded_stop. intros _.
  apply pret_guarded. intros [] Hp%one_ok. apply guard_checked. intros tc _.
  apply guarded_pbind; [by apply lift_guarded|]. intros tr entropy _. cbv zeta.
  apply guarded_bind; [by apply acquire_ordered|]. intros ta [hs err] Ha.
  apply acquire_created in Ha as [Hhs _]. simpl in Hhs. subst hs.
  apply guarded_bind.
  { destruct (omap created_by ta) as [|h0 [|h1 [|]]], err; try done. apply with_helpers_ordered. }
  intros tw r _. apply guarded_bind; [|by intros].
  assert (Hl : forall l h, (forall hp, hp ∈ l -> hp ∈ omap created_by h) ->
            guarded (ordered policy p) h (cleanup l)).
  { induction l as [|hp l IH]; intros h Hin; cbn [cleanup]; [done|]. cbn [call bind guarded].
    split; [apply Hin; by left|]. intros rd. apply guarded_bind; [|by intros].
    apply IH. intros hp' Hp'. rewrite omap_app, elem_of_app. left. apply Hin. by right. }
  apply Hl. intros hp Hin. simpl in Hin. rewrite <- Permutation_rev in Hin.
  rewrite !omap_app, !elem_of_app. auto.
Qed.

(** Every execution ends with the deletion of exactly the helpers whose
    creation it knows of, each once and the last one first, whatever failed
    before and whichever deletion fails; nothing else is deleted. *)
Theorem Execute_cleans_up wired policy p t a (Hx : exec (Execute wired policy p) t a) :
  cleaned_up t.
Proof.
  unfold Execute, pbind in Hx. rewrite exec_bind in Hx.
  destruct Hx as (t1 & t2 & r & -> & [-> _] & Hx). simpl app.
  destruct r as [[]|e]; [|destruct Hx as [-> _]; by apply untouched_cleaned].
  destruct wired; simpl negb in Hx; cbv iota in Hx; [|destruct Hx as [-> _]; by apply untouched_cleaned].
  apply exec_bind in Hx as (t1 & t3 & r & -> & [-> _] & Hx). simpl app.
  destruct r as [[]|e]; [|destruct Hx as [-> _]; by apply untouched_cleaned].
  apply exec_bind in Hx as (tc & t4 & r & -> & Hc & Hx).
  apply inner_untouched in Hc; [|unfold lift; apply only_bind; [apply check_inner|by intros]].
  destruct r as [[]|e]; [|destruct Hx as [-> _]; rewrite app_nil_r; by apply untouched_cleaned].
  apply exec_bind in Hx as (tr & t5 & r & -> & Hr & Hx).
  apply inner_untouched in Hr; [|unfold lift; repeat only_step].
  destruct r as [entropy|e]; [|destruct Hx as [-> _]; rewrite app_nil_r;
    by apply untouched_cleaned, untouched_app].
  cbv zeta in Hx. apply exec_bind in Hx as (ta & t6 & [hs err] & -> & Ha & Hx).
  apply acquire_created in Ha as [Hhs Hd]. simpl in Hhs. subst hs.
  apply exec_bind in Hx as (tw & t7 & r & -> & Hw & Hx).
  assert (Hu : untouched tw).
  { eapply inner_untouched; [|exact Hw].
    destruct (omap created_by ta) as [|h0 [|h1 [|]]], err; try done. apply with_helpers_inner. }
  apply exec_bind in Hx as (td & t8 & errs & -> & (rs & -> & Hrs & _)%cleanup_exec & [-> _]).
  exists (tc ++ tr ++ ta ++ tw), rs. rewrite app_nil_r, <- !app_assoc. split; [done|].
  simpl in Hrs. destruct Hc as [Hc1 Hc2], Hr as [Hr1 Hr2], Hu as [Hu1 Hu2].
  rewrite !omap_app, Hc1, Hc2, Hr1, Hr2, Hu1, Hu2, Hd. simpl. by rewrite app_nil_r.
Qed.
End ExecutorProperties.

(** ** Witnesses *)

Definition sample_answers : AnswerJson := {|
  decode_verify := fun _ => Some None;
  decode_receipt := fun _ => Some sample_receipt;
  decode_marker := fun _ => Some (sample_marker sample_receipt);
  receipt_arg := fun _ => "receipt" |}.
Definition sample_policy : Policy :=
  {| Po_RunnerImage := Image sample_plan; Po_SourceNamespaces := ["prod"];
     Po_Target := binding_of sample_plan |}.
Definition sample_pvc (ref : PVCRef) (volume : string) : PVC :=
  {| Pv_Ref := ref; Pv_VolumeName := volume; Pv_Filesystem := true; Pv_Bound := true;
     Pv_Deleting := false; Pv_OfflineDeclared := true; Pv_Pending := false |}.
Definition sample_helper (s : HelperSpec) : Helper :=
  {| He_Namespace := Hs_Namespace s; He_Name := Hs_Name s; He_UID := "uid"; He_Owner := Hs_Owner s;
     He_PVC := Hs_PVC s; He_ReadOnly := Hs_ReadOnly s; He_Image := Hs_Image s |}.

(** A cluster in which nothing fails, except the calls of [Exec] when [ok] is
    false. *)
Definition sample_oracle (ok : bool) (R : Type) (h : list (event pvc_call)) (e : pvc_call R) : R :=
  match e in pvc_call R return R with
  | CtxErr => Ok tt
  | GetPVC ref => Ok (sample_pvc ref (Pvc_UID ref))
  | ListPods _ => Ok []
  | CheckControllers _ => Ok tt
  | PermissionCall _ _ => Ok tt
  | RandRead => Ok (repeat (byte_of 7) 12)
  | CreateHelper s => (sample_helper s, None)
  | WaitReady _ => Ok tt
  | Exec _ args => if ok then Ok (if (3 <? List.length args)%nat then [byte_of 50] else []) else Err ErrOther
  | Transfer _ _ _ _ =>
      {| tf_stream := tar_of sample_entries; tf_source := None; tf_write := None; tf_response := [byte_of 51];
         tf_target := None |}
  | Reexport _ _ => {| rx_stream := tar_of sample_entries; rx_source := None |}
  | DeleteHelper _ => Ok tt
  end.
Definition sample_execution : prog pvc_call (result (list pvc_error) Marker) :=
  Execute (H := text) (H0 := sample_plan_json) (H1 := sample_answers) true sample_policy sample_plan.
Definition sample_run (ok : bool) := run (sample_oracle ok) [] sample_execution.

Lemma sample_run_exec ok : exec sample_execution (sample_run ok).1 (sample_run ok).2.
Proof. exact (run_exec (sample_oracle ok) sample_execution []). Qed.

Lemma Execute_success_witness :
  exists m, (sample_run true).2 = Ok m /\ Validate sample_plan = Ok tt.
Proof.
  pose proof (sample_run_exec true) as Hx.
  destruct (sample_run true).2 as [m|e] eqn:E; [|vm_compute in E; discriminate E].
  exists m. split; [reflexivity|].
  exact (proj1 (Execute_success (H := text) (H0 := sample_plan_json) (H1 := sample_answers)
    true sample_policy sample_plan _ _ Hx)).
Defined.

(** The event of the transfer. *)
Lemma Execute_ordered_witness :
  exists h0 h1 t1, ends_checked sample_policy sample_plan [h0; h1] t1.
Proof.
  destruct (skipn 41 (sample_run true).1) as [|[R e x] t2] eqn:Et; [vm_compute in Et; discriminate Et|].
  assert (Ht : (sample_run true).1 = firstn 41 (sample_run true).1 ++ Event e x :: t2)
    by (rewrite <- Et; symmetry; apply firstn_skipn).
  pose proof (Execute_ordered (H := text) (H0 := sample_plan_json) (H1 := sample_answers)
    true sample_policy sample_plan _ _ _ R e x t2 (sample_run_exec true) Ht) as Ho.
  destruct e as [| | | | | | | | |h0 h1 l1 l2| |]; try (vm_compute in Et; discriminate Et).
  exists h0, h1, (firstn 41 (sample_run true).1). exact (proj1 Ho).
Defined.

(** The target cannot be verified: both helpers are deleted. *)
Lemma Execute_cleans_up_witness : cleaned_up (sample_run false).1.
Proof.
  exact (Execute_cleans_up (H := text) (H0 := sample_plan_json) (H1 := sample_answers)
    true sample_policy sample_plan _ _ (sample_run_exec false)).
Defined.
