(* ===== verification/PvcHelper.v ===== *)
(** * The helper of a PVC copy, and a copy from end to end

    [internal/pvccopy/cli.go]: [HelperCLI], the command that a helper pod runs
    on its volume; and what an execution of [Executor.Execute] does to the
    target volume when its helpers run that command. *)

From stdpp Require Import base list gmap strings sorting.
From Stdlib Require Import ZArith Lia Ascii String.
From S2P Require Import Prelude GoStrings Regex GoPath PvcPlan PvcArchive PvcLocal PvcExecutor.

Local Open Scope string_scope.
Local Open Scope Z_scope.
Local Open Scope list_scope.

(** [decodeJSON] of the arguments, and the text of [Inspect]'s answer (a
    pointer: [null] for none). *)
Class HelperJson := {
  decode_plan : bytes -> option Plan;
  decode_receipt_arg : bytes -> option Receipt;
  verify_text : option Marker -> bytes }.

(** What a command leaves, writes to its output and returns: an archive from
    the export, a text from the others. *)
Record helper_result := {
  hr_volume : volume; hr_archive : stream; hr_text : bytes; hr_error : option pvc_error }.

Definition no_stream : stream := {| st_entries := []; st_broken := false; st_tail := [] |}.

Section Helper.
Context `{Sha256} `{PvcPlanJson} `{MarkerJson} `{HelperJson}.

Definition failed (v : volume) (e : pvc_error) : helper_result :=
  {| hr_volume := v; hr_archive := no_stream; hr_text := []; hr_error := Some e |}.
(** [json.NewEncoder(output).Encode(value)] after [err] was checked. *)
Definition answered {A} (text : A -> bytes) (r : volume * result pvc_error A) : helper_result :=
  match r with
  | (v, Ok a) => {| hr_volume := v; hr_archive := no_stream; hr_text := text a; hr_error := None |}
  | (v, Err e) => failed v e
  end.

(** The switch of [HelperCLI] over the command. *)
Definition helper_command (command : string) (rest : list string) (p : Plan) (v : volume)
    (io : list bool) (input : stream) : helper_result :=
  if str_eq command "pvc-export" then
    match rest with
    | [] => let '(s, e) := exported p v in
            {| hr_volume := v; hr_archive := s; hr_text := []; hr_error := e |}
    | _ => failed v ErrOther
    end
  else if str_eq command "pvc-import" then
    match rest with
    | [] => answered receipt_text (Receive p v io input)
    | _ => failed v ErrOther
    end
  else if str_eq command "pvc-verify" then
    match rest with
    | [] => answered verify_text (v, Inspect p v)
    | _ => failed v ErrOther
    end
  else if str_eq command "pvc-complete" then
    match rest with
    | [arg] =>
        if 1024 <? str_len arg then failed v ErrOther
        else match decode_receipt_arg (chars arg) with
             | Some r => answered marker_text (Complete p v io r)
             | None => failed v ErrOther
             end
    | _ => failed v ErrOther
    end
  else failed v ErrOther.

(** [HelperCLI] *)
Definition HelperCLI (args : list string) (v : volume) (io : list bool) (input : stream) : helper_result :=
  match args with
  | command :: plan :: rest =>
      if (1 <? List.length rest)%nat || (16384 <? str_len plan) then failed v ErrOther
      else match decode_plan (chars plan) with
           | None => failed v ErrOther
           | Some p =>
               match Validate p with
               | Err e => failed v e
               | Ok _ => helper_command command rest p v io input
               end
           end
  | _ => failed v ErrOther
  end.
End Helper.

(** ** Helpers that run on the two volumes *)

Section World.
Context `{Sha256} `{PvcPlanJson} `{MarkerJson} `{HelperJson}.

(** What one call does to the target volume.  An answer arrives only if the
    command gave it; a failed call may have done anything the command does.
    The target helper is sent what the relay accepted. *)
Definition happens (p : Plan) (source : volume) (ev : event pvc_call) (v v' : volume) : Prop :=
  match ev with
  | @Event _ R e r =>
      match e in pvc_call R return R -> Prop with
      | Exec h args => fun r => exists io,
          let o := HelperCLI (tl args) v io no_stream in
          v' = hr_volume o /\ forall b, r = Ok b -> hr_error o = None /\ hr_text o = b
      | Transfer h0 h1 args0 args1 => fun x => exists io input,
          let o := HelperCLI (tl args1) v io input in
          v' = hr_volume o
          /\ (tf_source x = None -> tf_stream x = hr_archive (HelperCLI (tl args0) source [] no_stream))
          /\ (tf_write x = None -> forall es rc, Relay p (tf_stream x) = Ok (es, rc) -> input = tar_of es)
          /\ (tf_target x = None -> hr_error o = None /\ hr_text o = tf_response x)
      | _ => fun _ => v' = v
      end r
  end.

Inductive world (p : Plan) (source : volume) : list (event pvc_call) -> volume -> volume -> Prop :=
| world_nil v : world p source [] v v
| world_cons ev t v v1 v' : happens p source ev v v1 -> world p source t v1 v' ->
    world p source (ev :: t) v v'.
End World.

(** ** Lemmas *)

Section HelperLemmas.
Context `{Sha256} `{PvcPlanJson} `{MarkerJson} `{HelperJson} `{AnswerJson}.

Lemma world_app p source t1 t2 v v' : world p source (t1 ++ t2) v v' <->
  exists v1, world p source t1 v v1 /\ world p source t2 v1 v'.
Proof.
  revert v. induction t1 as [|ev t1 IH]; intros v; simpl.
  - split; [intros Hw; exists v; by repeat constructor|]. intros (v1 & Hw & Hw2). by inversion Hw; subst.
  - split.
    + intros Hw. inversion Hw as [|? ? ? v1 ? Hh Ht]; subst. apply IH in Ht as (v2 & Ha & Hb).
      exists v2. split; [by econstructor|done].
    + intros (v1 & Hw & Hb). inversion Hw as [|? ? ? v2 ? Hh Ha]; subst.
      econstructor; [exact Hh|]. apply IH. eauto.
Qed.

Lemma world_cons_inv p source ev t v v' : world p source (ev :: t) v v' ->
  exists v1, happens p source ev v v1 /\ world p source t v1 v'.
Proof. intros Hw. inversion Hw; subst. eauto. Qed.

(** Calls that do not reach the volume. *)
Definition elsewhere (ev : event pvc_call) : Prop :=
  match ev with @Event _ _ e _ => match e with Exec _ _ | Transfer _ _ _ _ => False | _ => True end end.

Lemma happens_elsewhere_same p source ev v v' : elsewhere ev -> happens p source ev v v' -> v' = v.
Proof. destruct ev as [R e r]. by destruct e. Qed.

Lemma world_elsewhere p source t v v' : Forall elsewhere t -> world p source t v v' -> v' = v.
Proof.
  intros Ht Hw. induction Hw as [|ev t v v1 v' Hh Hw IH]; [done|].
  apply Forall_cons in Ht as [He Ht]. apply happens_elsewhere_same in Hh as ->; [|done]. by apply IH.
Qed.

Lemma world_skip p source t1 t2 v v' : Forall elsewhere t1 -> world p source (t1 ++ t2) v v' ->
  world p source t2 v v'.
Proof. intros Ht (v1 & ->%(world_elsewhere _ _ _ _ _ Ht) & Hw)%world_app. done. Qed.

Lemma passed_elsewhere policy p helpers t : passed policy p helpers t -> Forall elsewhere t.
Proof.
  intros (source & target & pods & _ & ->). repeat constructor.
  apply Forall_app. split; [|by repeat constructor]. unfold listed.
  apply Forall_forall. intros ev (x & -> & _)%list_elem_of_fmap. done.
Qed.

Lemma acquired_elsewhere policy p s helpers h t : acquired policy p s helpers h t -> Forall elsewhere t.
Proof. intros [_ (t1 & Hp%passed_elsewhere & ->)]. by repeat constructor. Qed.
End HelperLemmas.

(** ** What the outcomes of file operations leave out

    A command that succeeds did what it does when nothing can fail. *)

Section Outcomes.
Context `{Sha256} `{PvcPlanJson} `{MarkerJson}.

Definition unfailing (r : receiver) : receiver :=
  {| rv_tree := rv_tree r; rv_dirs := rv_dirs r; rv_io := [] |}.

Lemma receive_entry_unfailing r h c r' : receive_entry r h c = (r', None) ->
  receive_entry (unfailing r) h c = (unfailing r', None).
Proof.
  unfold receive_entry. cbn [unfailing rv_tree rv_dirs works rv_io].
  destruct (char_eq _ _).
  - destruct (str_eq _ _); [by intros [= <-]|]. destruct (works r); [|done].
    destruct (can_create _ _); [|done]. by intros [= <-].
  - destruct (can_create _ _); [|done]. destruct (works r); [|done]. by intros [= <-].
Qed.

Lemma opened_unfailing l : forall r r', opened receive_entry r l = Some r' ->
  opened receive_entry (unfailing r) l = Some (unfailing r').
Proof.
  induction l as [|e l IH]; intros r r' Ho; cbn [opened] in *; [by injection Ho as ->|].
  destruct (receive_entry r _ _) as [r1 [err|]] eqn:E; [done|].
  rewrite (receive_entry_unfailing _ _ _ _ E). by apply IH.
Qed.

Lemma finish_unfailing l : forall r r', finish_dirs r l = (r', None) ->
  finish_dirs (unfailing r) l = (unfailing r', None).
Proof.
  induction l as [|h l IH]; intros r r' Hf; cbn [finish_dirs] in *; [by injection Hf as ->|].
  cbn [unfailing rv_tree]. destruct (rv_tree r !! h_name h) as [nd|]; [|done].
  destruct (ownership _); [|done]. simpl negb in *. cbv iota in *.
  destruct (works r); [|done]. simpl negb in *. cbv iota zeta in *. apply (IH _ _ Hf).
Qed.

Lemma writeJSON_written v name b io v' io' : writeJSON v name b io = (v', io', None) ->
  exists files, v_state v = Some (StateDir files) /\ files !! name = None
    /\ v' = {| v_tree := v_tree v; v_state := Some (StateDir (<[name := Some b]> files)) |}.
Proof.
  unfold writeJSON. destruct (v_state v) as [[|files]|]; [done| |done].
  destruct (files !! name) eqn:E; [done|]. destruct (succeeds io); [|done].
  simpl negb. cbv iota zeta. destruct (succeeds (tl io)); [|done]. intros [= <- <-]. by exists files.
Qed.

Lemma writeJSON_unfailing v name b io v' io' : writeJSON v name b io = (v', io', None) ->
  writeJSON v name b [] = (v', [], None).
Proof. intros (files & Hs & Hf & ->)%writeJSON_written. unfold writeJSON. by rewrite Hs, Hf. Qed.

Lemma consume_unfailing p relay r r' input res : consume receive_entry p relay r input = (r', Ok res) ->
  consume receive_entry p relay (unfailing r) input = (unfailing r', Ok res).
Proof.
  unfold consume. destruct (Validate p); [|done].
  destruct (consume_entries _ _ _ _ r _) as [r1 [es|]] eqn:E; [|done].
  apply consume_entries_ok in E as (Ha & Ho & Hes).
  assert (consume_entries receive_entry p relay scan0 (unfailing r) (st_entries input)
    = (unfailing r1, Ok es)) as ->
    by (apply consume_entries_ok; split_and!; [done|by apply opened_unfailing|done]).
  destruct (tar_end input); [|done]. destruct (_ || _ || _); [done|]. by intros [= <- <-].
Qed.

Lemma verify_received_unfailing p v io r v' rc : verify_received p v io r = (v', Ok rc) ->
  verify_received p v [] r = (v', Ok rc).
Proof.
  unfold verify_received. destruct (export _ _ _ _) as [[es actual]|]; [|done].
  destruct (bool_decide _); [|done]. simpl negb. cbv iota.
  destruct (writeJSON v _ _ io) as [[v1 io1] [e|]] eqn:E; [done|].
  rewrite (writeJSON_unfailing _ _ _ _ _ _ E). by destruct (succeeds io1).
Qed.

Lemma Receive_unfailing p v io input v' rc : Receive p v io input = (v', Ok rc) ->
  Receive p v [] input = (v', Ok rc).
Proof.
  unfold Receive. destruct (Validate p); [|done]. destruct (Inspect p v) as [[m|]|]; [done| |done].
  destruct (succeeds io); [|done]. simpl negb. simpl orb. destruct (negb _); [done|].
  unfold receive_claimed. cbn [tl].
  destruct (writeJSON _ claim_json _ (tl io)) as [[v1 io1] [e|]] eqn:E1; [done|].
  rewrite (writeJSON_unfailing _ _ _ _ _ _ E1). destruct (_ && _); [|done]. simpl negb. cbv iota. cbn [tl].
  destruct (consume receive_entry p false _ input) as [rv [[es r]|e]] eqn:Ec; [|done].
  apply consume_unfailing in Ec. unfold unfailing at 1 in Ec. cbn [rv_tree rv_dirs] in Ec.
  rewrite Ec. unfold finish.
  destruct (finish_dirs rv _) as [rv' [e|]] eqn:Ef; [done|].
  change (rv_dirs (unfailing rv)) with (rv_dirs rv). rewrite (finish_unfailing _ _ _ Ef). apply verify_received_unfailing.
Qed.

Lemma Complete_completes p v io rc v' m : Complete p v io rc = (v', Ok m) ->
  m = markerFor p rc /\ exists files, v_state v = Some (StateDir files)
    /\ v' = {| v_tree := v_tree v;
               v_state := Some (StateDir (<[complete_json := Some (marker_text m)]> files)) |}.
Proof.
  unfold Complete. destruct (v_tree v !! ".") as [[rm| |]|]; try done. destruct (Validate p); [|done].
  destruct (reads parse_marker _ _ _); [|done]. destruct (reads parse_receipt _ _ _); [|done].
  simpl negb. cbv iota. destruct (export _ _ _ _) as [[es actual]|]; [|done].
  case_bool_decide as Ea; [|done]. subst actual. simpl negb. cbv iota.
  destruct (syncTree v io) as [io1 [e|]]; [done|]. cbv zeta.
  destruct (writeJSON _ _ _ _) as [[v1 io2] [e|]] eqn:E; [done|].
  apply writeJSON_written in E as (files & Hs & _ & ->).
  destruct (_ && _); [|done]. simpl negb. cbv iota. intros [= <- <-]. eauto.
Qed.

(** A volume that [Inspect] finds empty is the empty target over its root. *)
Lemma empty_volume p v : Inspect p v = Ok None ->
  exists m0, v = empty_target m0 /\ m_xattrs m0 = false.
Proof.
  intros (_ & (m0 & Hm & Hx) & Hd & Hs)%Inspect_empty. exists m0. split; [|done].
  destruct v as [t st]. simpl in *. subst st. unfold empty_target. f_equal.
  rewrite <- (insert_delete_id t "." _ Hm), Hd. done.
Qed.
End Outcomes.

(** ** A successful execution *)

(** What is written is read back: the plan by the helpers, their answers and
    the receipt by the executor and the helper, the files by the helper. *)
Record texts_agree `{Sha256, PvcPlanJson, MarkerJson, HelperJson, AnswerJson}
    (p : Plan) (source v : volume) : Prop := {
  ta_plan : decode_plan (pvc_plan_json p) = Some p;
  ta_plan_size : str_len (text (pvc_plan_json p)) <= 16384;
  ta_verify : forall om, Inspect p v = Ok om -> decode_verify (verify_text om) = Some om;
  ta_receipt : forall es rc,
    Export p (v_tree source) (bool_decide (v_state source <> None)) = Ok (es, rc) ->
    decode_receipt (receipt_text rc) = Some rc
    /\ decode_marker (marker_text (markerFor p rc)) = Some (markerFor p rc)
    /\ decode_receipt_arg (chars (receipt_arg rc)) = Some rc /\ str_len (receipt_arg rc) <= 1024
    /\ texts_readable p rc }.

Section EndToEnd.
Context `{Sha256} `{PvcPlanJson} `{MarkerJson} `{HelperJson} `{AnswerJson}.

Lemma HelperCLI_planned p source v0 command extra v io input : texts_agree p source v0 ->
  Validate p = Ok tt -> (List.length extra <= 1)%nat ->
  HelperCLI (tl (helperArgs command p ++ extra)) v io input = helper_command command extra p v io input.
Proof.
  intros Hta Hv Hl. unfold helperArgs. cbn [tl app HelperCLI].
  rewrite (proj2 (Z.ltb_ge _ _) (ta_plan_size _ _ _ Hta)), (proj2 (Nat.ltb_ge _ _) Hl).
  cbn [orb]. by rewrite chars_text, (ta_plan _ _ _ Hta), Hv.
Qed.

(** The relay accepts only what a source exported as a whole. *)
Lemma relayed_export p source es rc : rooted (v_tree source) ->
  Relay p (exported p source).1 = Ok (es, rc) ->
  Export p (v_tree source) (bool_decide (v_state source <> None)) = Ok (es, rc).
Proof.
  intros Hr. unfold exported, Relay.
  destruct (Export p _ _) as [[es' rc']|e] eqn:He; cbn [fst];
    destruct (consume _ p true tt _) as [u res] eqn:Ec; cbn [snd]; intros ->;
    apply consume_ok in Ec as (Hv & _ & -> & _ & _ & -> & Hb & _); [|done].
  unfold Export in He. rewrite Hv in He. cbn [rbind] in He.
  destruct (exported_accepted _ _ _ _ _ _ Hr Hv He) as [_ Hc]. cbn [st_entries tar_of]. rewrite Hc.
  by apply export_ok in He as (m & _ & _ & _ & _ & _ & _ & ->).
Qed.

(** The target between [Receive] and [Complete]. *)
Definition received (p : Plan) (rc : Receipt) (t : tree) : volume :=
  {| v_tree := keep <$> t; v_state := Some (StateDir
       {[ received_json := Some (receipt_text rc);
          claim_json := Some (marker_text (markerFor p zero_receipt)) ]}) |}.

Lemma archive_exported p v io input :
  hr_archive (helper_command "pvc-export" [] p v io input) = (exported p v).1.
Proof. unfold helper_command. cbn -[exported]. by destruct (exported p v). Qed.

Lemma happens_verify p source v0 h b v v1 : texts_agree p source v0 -> Validate p = Ok tt ->
  happens p source (Event (Exec h (helperArgs "pvc-verify" p)) (Ok b)) v v1 ->
  v1 = v /\ exists om, Inspect p v = Ok om /\ b = verify_text om.
Proof.
  intros Hta Hv (io & -> & Hb). specialize (Hb _ eq_refl). revert Hb.
  change (helperArgs "pvc-verify" p) with (helperArgs "pvc-verify" p ++ []).
  rewrite (HelperCLI_planned _ _ _ _ [] _ _ _ Hta Hv) by (simpl; lia).
  unfold helper_command. cbn -[Inspect].
  destruct (Inspect p v) as [om|e]; cbn; intros [He <-]; [|done]. eauto.
Qed.

Lemma happens_transfer p source v0 h0 h1 x v v1 es rc m0 :
  texts_agree p source v0 -> Validate p = Ok tt -> rooted (v_tree source) ->
  tf_source x = None -> tf_write x = None -> tf_target x = None ->
  Relay p (tf_stream x) = Ok (es, rc) -> v = empty_target m0 -> m_xattrs m0 = false -> ownership m0 = true ->
  happens p source (Event (Transfer h0 h1 (helperArgs "pvc-export" p) (helperArgs "pvc-import" p)) x) v v1 ->
  Export p (v_tree source) (bool_decide (v_state source <> None)) = Ok (es, rc)
  /\ v1 = received p rc (v_tree source).
Proof.
  intros Hta Hv Hroot Hs Hw Ht Hr Hm0 Hx Ho (io & input & Hv1 & Hsrc & Hin & Htgt).
  specialize (Hsrc Hs). specialize (Hin Hw _ _ Hr). specialize (Htgt Ht). subst v1 input.
  change (helperArgs "pvc-export" p) with (helperArgs "pvc-export" p ++ []) in Hsrc.
  change (helperArgs "pvc-import" p) with (helperArgs "pvc-import" p ++ []) in *.
  rewrite (HelperCLI_planned _ _ _ _ [] _ _ _ Hta Hv), archive_exported in Hsrc by (simpl; lia).
  rewrite (HelperCLI_planned _ _ _ _ [] _ _ _ Hta Hv) in Htgt |- * by (simpl; lia).
  assert (He : Export p (v_tree source) (bool_decide (v_state source <> None)) = Ok (es, rc)).
  { apply relayed_export; [done|]. by rewrite <- Hr, Hsrc. }
  split; [done|]. revert Htgt. unfold helper_command. cbn -[Receive].
  destruct (Receive p v io (tar_of es)) as [v2 [rc'|e]] eqn:Er; cbn; intros [Herr _]; [|done].
  apply Receive_unfailing in Er. subst v.
  rewrite (Receive_exported _ _ _ _ (v_tree source) Hv Hx (exported_received _ _ _ _ _ _ Hroot He Ho)) in Er.
  by injection Er as <- _.
Qed.

Lemma happens_complete p source v0 h b es rc v1 :
  texts_agree p source v0 -> Validate p = Ok tt ->
  Export p (v_tree source) (bool_decide (v_state source <> None)) = Ok (es, rc) ->
  happens p source (Event (Exec h (helperArgs "pvc-complete" p ++ [receipt_arg rc])) (Ok b))
    (received p rc (v_tree source)) v1 ->
  v1 = completed p rc (v_tree source).
Proof.
  intros Hta Hv He (io & -> & Hb). specialize (Hb _ eq_refl). revert Hb.
  destruct (ta_receipt _ _ _ Hta _ _ He) as (_ & _ & Harg & Hsize & _).
  rewrite (HelperCLI_planned _ _ _ _ [receipt_arg rc] _ _ _ Hta Hv) by (simpl; lia).
  unfold helper_command. cbn -[Complete str_len]. rewrite (proj2 (Z.ltb_ge _ _) Hsize), Harg.
  destruct (Complete p _ io rc) as [v2 [m|e]] eqn:Ec; cbn; intros [Herr _]; [|done].
  apply Complete_completes in Ec as (-> & files & [= <-] & ->). done.
Qed.

Lemma copied_helpers policy p source v v' h0 h1 t m : texts_agree p source v -> Validate p = Ok tt ->
  rooted (v_tree source) -> (forall m0, v_tree v !! "." = Some (NDir m0) -> ownership m0 = true) ->
  Inspect p v = Ok None -> copied policy p h0 h1 m t -> world p source t v v' ->
  exists es rc, Export p (v_tree source) (bool_decide (v_state source <> None)) = Ok (es, rc)
    /\ m = markerFor p rc /\ v' = completed p rc (v_tree source).
Proof.
  intros Hta Hv Hroot Hown Hi (rc & x & y & b & es & es' & t1 & t2 & t3 & Hr & Hwr & Hs & Ht & _ & _ & _
    & _ & -> & Hp1 & Hp2 & Hp3 & ->) Hw.
  apply passed_elsewhere in Hp1, Hp2, Hp3.
  apply world_cons_inv in Hw as (v1 & Hh & Hw%world_skip); [|done].
  apply world_cons_inv in Hw as (v2 & ->%happens_elsewhere_same & Hw%world_skip); [|done..].
  apply world_cons_inv in Hw as (v3 & Hc & ->%world_elsewhere); [|done].
  destruct (empty_volume _ _ Hi) as (m0 & Hm0 & Hx).
  assert (Ho : ownership m0 = true) by (apply Hown; subst v; apply lookup_singleton_eq).
  destruct (happens_transfer _ _ _ _ _ _ _ _ _ _ m0 Hta Hv Hroot Hs Hwr Ht Hr Hm0 Hx Ho Hh) as [He Hv1].
  subst v1. exists es, rc. split; [done|]. split; [done|]. by eapply happens_complete.
Qed.

Lemma completed_inspected p source v es rc : texts_agree p source v -> Validate p = Ok tt ->
  rooted (v_tree source) ->
  Export p (v_tree source) (bool_decide (v_state source <> None)) = Ok (es, rc) ->
  Inspect p (completed p rc (v_tree source)) = Ok (Some (markerFor p rc)).
Proof.
  intros Hta Hv Hroot He. destruct (ta_receipt _ _ _ Hta _ _ He) as (_ & _ & _ & _ & Htexts).
  pose proof He as Hk. unfold Export in Hk. rewrite Hv in Hk. apply export_keep in Hk.
  apply (Inspect_completed p rc es); [done|done| |done].
  apply export_ok in Hk as (m & Hm & Hx & _). by exists m.
Qed.

(** What is complete stays complete, whatever a helper is asked to do. *)
Lemma Receive_marked p v io input files : v_state v = Some (StateDir files) ->
  (Receive p v io input).1 = v.
Proof.
  intros Hs. unfold Receive. destruct (Validate p); [|done].
  destruct (Inspect p v) as [[m|]|]; [done| |done].
  rewrite (bool_decide_false (v_state v = None)) by (by rewrite Hs). by rewrite orb_true_r.
Qed.

Lemma Complete_marked p v io rc files c : v_state v = Some (StateDir files) ->
  files !! complete_json = Some c -> (Complete p v io rc).1 = v.
Proof.
  intros Hs Hc. unfold Complete. destruct (v_tree v !! ".") as [[rm| |]|]; try done.
  destruct (Validate p); [|done]. destruct (negb (reads parse_marker _ _ _)); [done|].
  destruct (negb (reads parse_receipt _ _ _)); [done|].
  destruct (export _ _ _ _) as [[es actual]|]; [|done]. destruct (negb _); [done|].
  destruct (syncTree v io) as [io1 [e|]]; [done|]. unfold writeJSON. by rewrite Hs, Hc.
Qed.
End EndToEnd.

(** ** Properties *)

Section HelperProperties.
Context `{Sha256} `{PvcPlanJson} `{MarkerJson} `{HelperJson} `{AnswerJson}.

(** C1: An execution that succeeds, with helpers that run the helper
    command on the two volumes, leaves a target that [Inspect] accepts with
    the marker it answered: either the target was complete before and is left
    as it is, or it was empty and now holds every directory and file of the
    source with its owner, permissions and content, under the marker of
    exactly this plan and the receipt of the source's export. *)
Theorem Execute_copies wired policy p source v v' t m
    (Hx : exec (Execute wired policy p) t (Ok m)) (Hw : world p source t v v')
    (Htree : rooted (v_tree source))
    (Hown : forall m0, v_tree v !! "." = Some (NDir m0) -> ownership m0 = true)
    (Htexts : texts_agree p source v) :
  Inspect p v' = Ok (Some m)
  /\ (v' = v
      \/ Inspect p v = Ok None
         /\ exists es rc, Export p (v_tree source) (bool_decide (v_state source <> None)) = Ok (es, rc)
              /\ m = markerFor p rc /\ v' = completed p rc (v_tree source)).
Proof.
  apply Execute_ok in Hx as (Hv & _ & entropy & h0 & h1 & t0 & t1 & t2 & t3 & Hp & Ha0 & Ha1
    & (c1 & c2 & t4 & b & Hc1 & Hc2 & -> & Hused) & ->).
  apply passed_elsewhere in Hp, Hc1, Hc2. apply acquired_elsewhere in Ha0, Ha1.
  do 4 (apply world_skip in Hw; [|done || by repeat constructor]).
  apply world_app in Hw as (vd & Hw & Hd).
  apply world_elsewhere in Hd as ->; [|by repeat constructor].
  apply world_skip, world_cons_inv in Hw as (v1 & Hh & Hw%world_skip); [|done..].
  eapply happens_verify in Hh as [-> (om & Hom & ->)]; [|done..].
  rewrite (ta_verify _ _ _ Htexts _ Hom) in Hused.
  destruct Hused as [([= ->] & _ & ->)|([= ->] & Hcp)].
  - apply world_elsewhere in Hw as ->; [auto|done].
  - eapply copied_helpers in Hw as (es & rc & He & -> & ->); [|done..].
    split; [by eapply completed_inspected|]. right. eauto 6.
Qed.

(** No helper command, whatever its plan, its arguments, the stream it
    is sent and the file operations that fail, changes a volume that
    [Inspect] has accepted as complete for some plan. *)
Theorem complete_is_final p v m args io input (Hc : Inspect p v = Ok (Some m)) :
  hr_volume (HelperCLI args v io input) = v.
Proof.
  apply Inspect_some in Hc as (_ & _ & files & es & Hs & _ & _ & _ & Hm & _ & _).
  assert (exists c, files !! complete_json = Some c) as [c Hf].
  { revert Hm. unfold readJSON. rewrite Hs. destruct (files !! complete_json); [eauto|done]. }
  unfold HelperCLI. destruct args as [|command [|plan rest]]; [done|done|].
  destruct (_ || _); [done|]. destruct (decode_plan _) as [p'|]; [|done].
  destruct (Validate p'); [|done]. unfold helper_command.
  destruct (str_eq command "pvc-export"); [destruct rest; [by destruct (exported p' v)|done]|].
  destruct (str_eq command "pvc-import").
  { destruct rest; [|done]. pose proof (Receive_marked p' v io input _ Hs) as Hr.
    by destruct (Receive p' v io input) as [v' [r|e]]. }
  destruct (str_eq command "pvc-verify"); [destruct rest; [by destruct (Inspect p' v)|done]|].
  destruct (str_eq command "pvc-complete"); [|done]. destruct rest as [|arg [|]]; [done| |done].
  destruct (1024 <? _); [done|]. destruct (decode_receipt_arg _) as [r|]; [|done].
  pose proof (Complete_marked p' v io r _ _ Hs Hf) as Hr. by destruct (Complete p' v io r) as [v' [mk|e]].
Qed.
End HelperProperties.

(** ** Witnesses *)

Definition sample_helper_json : HelperJson := {|
  decode_plan := fun _ => Some sample_plan;
  decode_receipt_arg := fun _ => Some sample_receipt;
  verify_text := fun _ => [] |}.
Notation sample_world := (world (H := text) (H0 := sample_plan_json) (H1 := sample_texts)
  (H2 := sample_helper_json) sample_plan sample_source).
Notation sample_cli := (HelperCLI (H := text) (H0 := sample_plan_json) (H1 := sample_texts)
  (H2 := sample_helper_json)).
Definition sample_target : volume := empty_target (created 493).
Definition sample_args (command : string) : list string :=
  [command; text (sample_plan_json sample_plan)].
Definition sample_imported : volume :=
  hr_volume (sample_cli (sample_args "pvc-import") sample_target [] (tar_of sample_entries)).
Definition sample_completed : volume :=
  hr_volume (sample_cli (sample_args "pvc-complete" ++ ["receipt"]) sample_imported [] no_stream).

Definition elsewhereb (ev : event pvc_call) : bool :=
  match ev with @Event _ _ e _ => match e with Exec _ _ | Transfer _ _ _ _ => false | _ => true end end.
Lemma elsewhereb_true l : forallb elsewhereb l = true -> Forall elsewhere l.
Proof.
  induction l as [|[R e r] l IH]; [by constructor|]. cbn [forallb].
  rewrite andb_true_iff. intros [He Hl]. constructor; [by destruct e|auto].
Qed.

(** The next call that reaches the target. *)
Lemma sample_world_at t k ev v v1 v' : forallb elsewhereb (firstn k t) = true ->
  skipn k t = ev :: skipn (S k) t ->
  happens (H := text) (H0 := sample_plan_json) (H1 := sample_texts) (H2 := sample_helper_json)
    sample_plan sample_source ev v v1 ->
  sample_world (skipn (S k) t) v1 v' -> sample_world t v v'.
Proof.
  intros Hq Hk Hh Hw. rewrite <- (take_drop k t), Hk. apply world_app. exists v.
  split; [|by econstructor].
  apply elsewhereb_true in Hq. clear -Hq. induction Hq as [|[R e r] l He _ IH]; [constructor|].
  econstructor; [|exact IH]. by destruct e.
Qed.

Definition sample_pod (is_source : bool) : Helper :=
  let entropy := hex_text (repeat (byte_of 7) 12) in
  sample_helper (spec_of (H := text) sample_plan
    (digest (H := text) (H0 := sample_plan_json) sample_plan +:+ "-" +:+ entropy) entropy is_source).
Notation sample_command c := (helperArgs (H0 := sample_plan_json) c sample_plan).

Lemma sample_world_run : sample_world (sample_run true).1 sample_target sample_completed.
Proof.
  set (t := (sample_run true).1).
  apply (sample_world_at t 33 (Event (Exec (sample_pod false) (sample_command "pvc-verify")) (Ok []))
    _ sample_target); [vm_compute; reflexivity|vm_compute; reflexivity| |].
  { exists []. split; [vm_compute; reflexivity|]. intros b [= <-]. vm_compute. done. }
  apply (sample_world_at (skipn 34 t) 7
    (Event (Transfer (sample_pod true) (sample_pod false) (sample_command "pvc-export") (sample_command "pvc-import"))
       {| tf_stream := tar_of sample_entries; tf_source := None; tf_write := None;
          tf_response := [byte_of 51]; tf_target := None |})
    _ sample_imported); [vm_compute; reflexivity|vm_compute; reflexivity| |].
  { exists [], (tar_of sample_entries). split; [reflexivity|]. split; [intros _; vm_compute; reflexivity|].
    split; [|intros _; vm_compute; done]. intros _ es rc Hr. vm_compute in Hr. by injection Hr as <- _. }
  apply (sample_world_at (skipn 8 (skipn 34 t)) 15
    (Event (Exec (sample_pod false) (sample_command "pvc-complete" ++ ["receipt"])) (Ok [byte_of 50]))
    _ sample_completed); [vm_compute; reflexivity|vm_compute; reflexivity| |].
  { exists []. split; [reflexivity|]. intros b [= <-]. vm_compute. done. }
  rewrite !drop_drop. generalize sample_completed. intros v.
  assert (Hl : forallb elsewhereb (skipn (34 + (8 + 16)) t) = true) by (vm_compute; reflexivity).
  apply elsewhereb_true in Hl. induction Hl as [|[R e r] l He _ IH]; [constructor|].
  econstructor; [|exact IH]. by destruct e.
Qed.

Lemma sample_texts_agree : texts_agree (H := text) (H0 := sample_plan_json) (H1 := sample_texts)
  (H2 := sample_helper_json) (H3 := sample_answers) sample_plan sample_source sample_target.
Proof.
  split.
  - reflexivity.
  - vm_compute. discriminate.
  - intros om Hi. vm_compute in Hi. injection Hi as <-. reflexivity.
  - intros es rc He. change (Ok (E := pvc_error) (sample_entries, sample_receipt) = Ok (es, rc)) in He
      || (rewrite sample_export in He). injection He as _ <-.
    split; [reflexivity|]. split; [reflexivity|]. split; [reflexivity|].
    split; [vm_compute; discriminate|exact sample_readable].
Qed.

Lemma Execute_copies_witness :
  Inspect (H := text) (H0 := sample_plan_json) (H1 := sample_texts) sample_plan sample_completed
  = Ok (Some (sample_marker sample_receipt)).
Proof.
  pose proof (sample_run_exec true) as Hx.
  replace ((sample_run true).2) with (@Ok (list pvc_error) _ (sample_marker sample_receipt)) in Hx
    by (vm_compute; reflexivity).
  exact (proj1 (Execute_copies (H := text) (H0 := sample_plan_json) (H1 := sample_texts)
    (H2 := sample_helper_json) (H3 := sample_answers) true sample_policy sample_plan sample_source
    sample_target sample_completed _ _ Hx sample_world_run sample_rooted
    ltac:(intros m0 [= <-]; reflexivity) sample_texts_agree)).
Defined.

Lemma complete_is_final_witness :
  hr_volume (sample_cli (sample_args "pvc-import") sample_completed [] (tar_of sample_entries))
  = sample_completed.
Proof.
  exact (complete_is_final (H := text) (H0 := sample_plan_json) (H1 := sample_texts)
    (H2 := sample_helper_json) sample_plan sample_completed (sample_marker sample_receipt)
    (sample_args "pvc-import") [] (tar_of sample_entries) ltac:(vm_compute; reflexivity)).
Defined.
