(* ===== verification/HelmName.v ===== *)
(** * Names of Helm releases

    [internal/orchestrator/orchestrator.go]: [normalizeHelmReleaseName], which
    makes a release name of whatever a project's pattern renders. *)

From stdpp Require Import base list strings.
From Stdlib Require Import ZArith Lia Ascii String.
From S2P Require Import Prelude GoStrings Regex.

Local Open Scope string_scope.
Local Open Scope Z_scope.
Local Open Scope list_scope.

Definition dash : ascii := byte_of 45.
Definition is_dash (c : ascii) : bool := char_eq c dash.

Inductive name_error : Type := EmptyName | InvalidName.

(** The loop over the runes: [started] says that something was written,
    [lastDash] that it ended in a dash. *)
Fixpoint squeeze (started lastDash : bool) (l : bytes) : bytes :=
  match l with
  | [] => []
  | c :: l' =>
      if alnum_lower c then c :: squeeze true false l'
      else if started && negb lastDash then dash :: squeeze true true l'
      else squeeze started lastDash l'
  end.

Definition helmReleaseNameMaxLength : nat := 53.

Section Normalize.
Context `{Sha256}.

(** [normalizeHelmReleaseName] *)
Definition normalizeHelmReleaseName (value : string) : result name_error string :=
  let raw := trim_space value in
  let name := trim_bytes_of is_dash (squeeze false false (chars (to_lower raw))) in
  match name with
  | [] => Err EmptyName
  | _ =>
      if (List.length name <=? helmReleaseNameMaxLength)%nat then Ok (text name)
      else
        let digest := firstn 10 (chars (sha256_hex name)) in
        let prefixLength := (helmReleaseNameMaxLength - List.length digest - 1)%nat in
        match trim_right_bytes_of is_dash (firstn prefixLength name) with
        | [] => Err InvalidName
        | prefix => Ok (text (prefix ++ dash :: digest))
        end
  end.
End Normalize.

(** ** Lemmas *)

(** What the loop writes: letters and digits with single dashes between. *)
Fixpoint squeezed (started lastDash : bool) (l : bytes) : bool :=
  match l with
  | [] => true
  | c :: l' =>
      if alnum_lower c then squeezed true false l'
      else is_dash c && started && negb lastDash && squeezed true true l'
  end.

Lemma alnum_dash c : alnum_lower c = true -> is_dash c = false.
Proof. destruct c as [[] [] [] [] [] [] [] []]; vm_compute; congruence. Qed.
Lemma dash_alnum : alnum_lower dash = false.
Proof. reflexivity. Qed.

Lemma squeeze_squeezed l : forall s d, squeezed s d (squeeze s d l) = true.
Proof.
  induction l as [|c l IH]; intros s d; [done|]. cbn [squeeze].
  destruct (alnum_lower c) eqn:Ec; [cbn [squeezed]; by rewrite Ec|].
  destruct (s && negb d) eqn:E; [|by apply IH].
  cbn [squeezed]. apply andb_true_iff in E as [-> ->]. rewrite dash_alnum. apply IH.
Qed.

Lemma squeeze_id l : forall s d, squeezed s d l = true -> squeeze s d l = l.
Proof.
  induction l as [|c l IH]; intros s d; [done|]. cbn [squeezed squeeze].
  destruct (alnum_lower c); [intros Hl; f_equal; by apply IH|].
  rewrite !andb_true_iff. intros [[[Hc Hs] Hd] Hl]. rewrite Hs, Hd. cbn [andb].
  apply Ascii.eqb_eq in Hc as ->. f_equal. by apply IH.
Qed.

Lemma squeezed_app a b : forall s d, squeezed s d (a ++ b) = true -> squeezed s d a = true.
Proof.
  induction a as [|c a IH]; intros s d; [done|]. cbn [app squeezed].
  destruct (alnum_lower c); [apply IH|]. rewrite !andb_true_iff. intros [? ?%IH]. done.
Qed.

(** A name: letters, digits and single dashes, with none at either end. *)
Definition helm_name (l : bytes) : Prop :=
  squeezed false false l = true /\ l <> [] /\ is_dash (List.last l dash) = false.

Lemma drop_while_spec f l : exists p, l = p ++ drop_while f l
  /\ (drop_while f l = [] \/ exists c l', drop_while f l = c :: l' /\ f c = false).
Proof.
  induction l as [|c l (p & Hp & Hd)]; [by exists []; auto|]. cbn [drop_while]. destruct (f c) eqn:E.
  - exists (c :: p). by rewrite <- app_comm_cons, <- Hp.
  - exists []. eauto 6.
Qed.

Lemma trim_right_spec f d l : exists s, l = trim_right_bytes_of f l ++ s
  /\ (trim_right_bytes_of f l = [] \/ f (List.last (trim_right_bytes_of f l) d) = false).
Proof.
  unfold trim_right_bytes_of. destruct (drop_while_spec f (rev l)) as (p & Hp & Hd).
  exists (rev p). split; [by rewrite <- rev_app_distr, <- Hp, rev_involutive|].
  destruct Hd as [->|(c & l' & -> & Hc)]; [by left|right]. simpl. by rewrite last_last.
Qed.

Lemma squeezed_dash a b : forall s d, a <> [] -> squeezed s d a = true -> is_dash (List.last a dash) = false ->
  Forall (fun c => alnum_lower c = true) b -> squeezed s d (a ++ dash :: b) = true.
Proof.
  assert (Hb : forall d, Forall (fun c => alnum_lower c = true) b -> squeezed true d b = true).
  { induction b as [|c b' IHb]; intros d; [done|]. intros [Hc Hb']%Forall_cons. cbn [squeezed].
    rewrite Hc. by apply IHb. }
  induction a as [|c a IH]; intros s d Hne Hs Hl Hall; [done|]. cbn [app squeezed] in *.
  destruct a as [|c' a].
  - destruct (alnum_lower c) eqn:Ec.
    + cbn [app squeezed]. rewrite dash_alnum. change (is_dash dash) with true. by apply Hb.
    + simpl in Hl. rewrite Hl in Hs. done.
  - assert (Hl' : is_dash (List.last (c' :: a) dash) = false) by exact Hl.
    destruct (alnum_lower c).
    + by apply IH.
    + rewrite !andb_true_iff in *. destruct Hs as [Hg Hs]. split; [done|]. by apply IH.
Qed.

Lemma helm_name_digest a b : helm_name a -> b <> [] -> Forall (fun c => alnum_lower c = true) b ->
  helm_name (a ++ dash :: b).
Proof.
  intros (Ha & Hne & Hl) Hb Hall. split; [by apply squeezed_dash|]. split; [by destruct a|].
  destruct (exists_last Hb) as (b' & c & ->). apply Forall_app in Hall as [_ [Hc _]%Forall_cons].
  rewrite app_comm_cons, app_assoc, last_last. by apply alnum_dash.
Qed.

Lemma helm_name_prefix f l : squeezed false false l = true ->
  trim_right_bytes_of is_dash (firstn f l) <> [] -> helm_name (trim_right_bytes_of is_dash (firstn f l)).
Proof.
  intros Hs Hne. destruct (trim_right_spec is_dash dash (firstn f l)) as (s & Hl & [Hd|Hd]); [done|].
  split; [|done]. rewrite <- (take_drop f l), Hl in Hs. by do 2 apply squeezed_app in Hs.
Qed.

Lemma squeezed_no_dash l : squeezed false false l = true -> drop_while is_dash l = l.
Proof.
  destruct l as [|c l]; [done|]. cbn [squeezed drop_while]. destruct (alnum_lower c) eqn:Ec.
  - intros _. by rewrite (alnum_dash _ Ec).
  - by rewrite andb_false_r.
Qed.

Lemma helm_name_chars l : forall s d, squeezed s d l = true ->
  Forall (fun c => alnum_lower c = true \/ c = dash) l.
Proof.
  induction l as [|c l IH]; intros s d; [done|]. cbn [squeezed]. destruct (alnum_lower c) eqn:Ec.
  - intros Hl. constructor; [by left|]. by eapply IH.
  - rewrite !andb_true_iff. intros [[[Hc _] _] Hl]. apply Ascii.eqb_eq in Hc as ->.
    constructor; [by right|]. by eapply IH.
Qed.

Lemma alnum_code c : alnum_lower c = true -> (48 <= code c <= 122)%N.
Proof. unfold alnum_lower, is_lower, is_digit, between. rewrite orb_true_iff, !andb_true_iff, !N.leb_le. lia. Qed.

Lemma alnum_no_space r c l : alnum_lower c = true -> leading_space r (c :: l) = 0%nat.
Proof.
  intros Hc%alnum_code.
  assert (Hne : forall k, (k < 48 \/ 122 < k)%N -> (code c =? k)%N = false)
    by (intros k Hk; apply N.eqb_neq; lia).
  assert (Hb : forall lo hi, (hi < 48 \/ 122 < lo)%N -> between lo hi c = false).
  { intros lo hi Hk. unfold between. destruct (lo <=? code c)%N eqn:E; [|done].
    apply N.leb_le in E. apply N.leb_gt. lia. }
  assert (H1 : space1 c = false) by (unfold space1; rewrite Hne, Hb by lia; done).
  assert (H2 : forall d, space2 c d = false /\ space2 d c = false).
  { intros d. unfold space2. rewrite !Hne by lia. by rewrite andb_false_r. }
  assert (H3 : forall d e, space3 c d e = false /\ space3 e d c = false).
  { intros d e. unfold space3. rewrite !Hne, !Hb by lia. by rewrite !andb_false_r. }
  unfold leading_space. rewrite H1. destruct l as [|d l]; [done|].
  destruct (H2 d) as [-> ->]. destruct l as [|e l]; [by destruct r|].
  destruct (H3 d e) as [-> ->]. by destruct r.
Qed.

Lemma helm_name_trimmed l : helm_name l -> trimmed l.
Proof.
  intros (Hs & Hne & Hl). destruct (exists_last Hne) as (l' & c & ->). rewrite last_last in Hl. split.
  - destruct (l' ++ [c]) as [|a l2]; [done|]. cbn [squeezed] in Hs. destruct (alnum_lower a) eqn:Ea.
    + by apply alnum_no_space.
    + by rewrite andb_false_r in Hs.
  - rewrite rev_app_distr. change (rev [c] ++ rev l') with (c :: rev l'). apply alnum_no_space.
    apply helm_name_chars in Hs.
    apply Forall_app in Hs as [_ [[Hc| ->] _]%Forall_cons]; [done|]. by vm_compute in Hl.
Qed.

Lemma lower_name l s d : squeezed s d l = true -> map lower_char l = l.
Proof.
  intros Hs%helm_name_chars. induction Hs as [|c l Hc _ IH]; [done|]. cbn [map]. f_equal; [|exact IH].
  destruct Hc as [Hc| ->]; [|done]. revert Hc. destruct c as [[] [] [] [] [] [] [] []]; vm_compute; congruence.
Qed.

Lemma trim_right_name l : is_dash (List.last l dash) = false -> trim_right_bytes_of is_dash l = l.
Proof.
  intros Hl. destruct (decide (l = [])) as [->|Hne]; [done|].
  destruct (exists_last Hne) as (l' & c & ->). rewrite last_last in Hl.
  unfold trim_right_bytes_of. rewrite rev_app_distr. simpl. rewrite Hl. simpl. by rewrite rev_involutive.
Qed.

(** Every accepted value becomes a name of at most 53 bytes. *)
Lemma normalize_helm_name `{Sha256} value n
    (Hhex : forall b, (10 <= String.length (sha256_hex b))%nat /\ Forall (fun c => alnum_lower c = true) (chars (sha256_hex b)))
    (Hn : normalizeHelmReleaseName value = Ok n) :
  helm_name (chars n) /\ (String.length n <= helmReleaseNameMaxLength)%nat.
Proof.
  unfold normalizeHelmReleaseName in Hn. cbv zeta in Hn.
  set (l := squeeze _ _ _) in Hn. pose proof (squeeze_squeezed (chars (to_lower (trim_space value))) false false) as Hs.
  fold l in Hs. unfold trim_bytes_of in Hn. rewrite (squeezed_no_dash _ Hs) in Hn.
  destruct (trim_right_spec is_dash dash l) as (s & Hl & Hd).
  set (name := trim_right_bytes_of is_dash l) in *.
  assert (Hname : name <> [] -> helm_name name).
  { intros Hne. destruct Hd as [Hd|Hd]; [done|]. split; [|done]. rewrite Hl in Hs. by eapply squeezed_app. }
  destruct name as [|c name'] eqn:En; [done|]. rewrite <- En in *.
  assert (Hne : name <> []) by (by rewrite En). clear En. specialize (Hname Hne).
  destruct (Nat.leb_spec (List.length name) helmReleaseNameMaxLength) as [Hle|Hgt].
  { injection Hn as <-. rewrite chars_text. split; [done|]. by rewrite <- length_chars, chars_text. }
  destruct (Hhex name) as [Hlen Hall].
  destruct (trim_right_bytes_of is_dash (firstn _ name)) as [|c2 prefix] eqn:Ep; [done|].
  rewrite <- Ep in Hn. injection Hn as <-.
  assert (Hdig : List.length (firstn 10 (chars (sha256_hex name))) = 10%nat)
    by (rewrite length_firstn, length_chars; lia).
  pose proof (helm_name_prefix (helmReleaseNameMaxLength - List.length (firstn 10 (chars (sha256_hex name))) - 1)
    name (proj1 Hname)) as Hpre. rewrite Ep in Hpre at 1. specialize (Hpre ltac:(done)).
  rewrite <- length_chars, chars_text. split.
  - apply helm_name_digest; [done| |by apply Forall_take]. intros E. by rewrite E in Hdig.
  - rewrite length_app. cbn [List.length]. rewrite Hdig in *.
    destruct (trim_right_spec is_dash dash (firstn (helmReleaseNameMaxLength - 10 - 1) name)) as (s2 & Hs2 & _).
    apply (f_equal (@List.length ascii)) in Hs2. rewrite length_app, length_firstn in Hs2.
    unfold helmReleaseNameMaxLength in *. lia.
Qed.

(** A name is left as it is. *)
Lemma normalize_name `{Sha256} n : helm_name (chars n) ->
  (String.length n <= helmReleaseNameMaxLength)%nat -> normalizeHelmReleaseName n = Ok n.
Proof.
  intros Hn Hlen. unfold normalizeHelmReleaseName. cbv zeta.
  assert (trim_space n = n) as -> by (unfold trim_space; by rewrite trim_bytes_id, text_chars by by apply helm_name_trimmed).
  destruct Hn as (Hs & Hne & Hl). unfold to_lower, map_string. rewrite chars_text.
  rewrite (lower_name _ _ _ Hs), (squeeze_id _ _ _ Hs). unfold trim_bytes_of.
  rewrite (squeezed_no_dash _ Hs), (trim_right_name _ Hl), text_chars.
  destruct (chars n) as [|c l] eqn:E; [done|]. rewrite <- E, length_chars.
  by rewrite (proj2 (Nat.leb_le _ _) Hlen).
Qed.

(** ** Properties *)

(** A release name that [normalizeHelmReleaseName] returns has 1 to 53
    bytes, all of them lower-case letters, digits and single dashes, with a
    letter or digit at both ends, and it is left as it is when normalised
    again; the hash of a name that is too long is hexadecimal. *)
Theorem helm_release_name `{Sha256} value n
    (Hhex : forall b, (10 <= String.length (sha256_hex b))%nat
                      /\ Forall (fun c => alnum_lower c = true) (chars (sha256_hex b)))
    (Hn : normalizeHelmReleaseName value = Ok n) :
  helm_name (chars n) /\ (1 <= String.length n <= helmReleaseNameMaxLength)%nat
  /\ normalizeHelmReleaseName n = Ok n.
Proof.
  destruct (normalize_helm_name _ _ Hhex Hn) as [Hname Hlen]. split; [done|]. split.
  - split; [|done]. destruct Hname as (_ & Hne & _). destruct n; [done|]. simpl. lia.
  - by apply normalize_name.
Qed.

(** ** Witnesses *)

Definition sample_hash : Sha256 := fun _ => text (repeat (byte_of 97) 12).
Lemma helm_release_name_witness :
  let n := match normalizeHelmReleaseName (H := sample_hash) (text (repeat (byte_of 66) 60)) with
           | Ok n => n | Err _ => "" end in
  normalizeHelmReleaseName (H := sample_hash) n = Ok n.
Proof.
  cbv zeta. apply (helm_release_name (H := sample_hash) (text (repeat (byte_of 66) 60))).
  - intros b. split; [apply Nat.leb_le; reflexivity|repeat constructor].
  - vm_compute. reflexivity.
Defined.
