(* ===== verification/OrchTypes.v ===== *)
(** * Environments, errors and configurations of the orchestrator

    The part of [domain.Environment] that the orchestrator, the Helm backend
    and the runner look at, the errors of commands, and the values of a decoded
    project configuration.  What is not looked at is the type [Y]. *)

From stdpp Require Import base list gmap strings.
From Stdlib Require Import ZArith Lia Ascii String.
From S2P Require Import Prelude GoStrings EnvStore.

Local Open Scope string_scope.
Local Open Scope Z_scope.
Local Open Scope list_scope.

(** ** Errors *)

(** What the code asks of an error: its text, [errors.Is] of
    [exec.ErrNotFound] and [context.DeadlineExceeded], and the [Stderr] of an
    [exec.ExitError]. *)
Record go_error := {
  ge_text : string; ge_not_found : bool; ge_deadline : bool; ge_stderr : option bytes }.
(** [fmt.Errorf] without [%w], [errors.New] *)
Definition errorf (s : string) : go_error :=
  {| ge_text := s; ge_not_found := false; ge_deadline := false; ge_stderr := None |}.
(** [fmt.Errorf(prefix + ": %w", err)] *)
Definition wrapf (prefix : string) (e : go_error) : go_error :=
  {| ge_text := prefix +:+ ": " +:+ ge_text e; ge_not_found := ge_not_found e;
     ge_deadline := ge_deadline e; ge_stderr := ge_stderr e |}.

(** [strconv.Quote], the verb [%q]. *)
Class Quote := quote : string -> string.

(** ** Values of a decoded configuration *)

(** [VFloat] carries what [int(v)] makes of the number. *)
Inductive any : Type :=
| VStr (s : string) | VBool (b : bool) | VInt (z : Z) | VFloat (truncated : Z)
| VMap (l : list (string * any)) | VOther.
Notation any_map := (list (string * any)).

Fixpoint map_get {A} (k : string) (l : list (string * A)) : option A :=
  match l with
  | [] => None
  | (k', a) :: l' => if str_eq k k' then Some a else map_get k l'
  end.
(** [asString] *)
Definition asString (v : option any) : string := match v with Some (VStr s) => s | _ => "" end.
Definition as_map (v : option any) : option any_map := match v with Some (VMap l) => Some l | _ => None end.

(** [strconv.Atoi]: an optional sign and digits, within 64 bits. *)
Fixpoint digits (acc : Z) (l : bytes) : option Z :=
  match l with
  | [] => Some acc
  | c :: l' => if is_digit c then digits (10 * acc + (Z.of_N (code c) - 48)) l' else None
  end.
Definition atoi (s : string) : option Z :=
  let '(neg, l) := match chars s with
                   | c :: l' => if char_eq c (byte_of 45) then (true, l')
                                else if char_eq c (byte_of 43) then (false, l') else (false, c :: l')
                   | [] => (false, [])
                   end in
  match l with
  | [] => None
  | _ => match digits 0 l with
         | Some n => let z := if neg : bool then - n else n in
                     if (- 2 ^ 63 <=? z) && (z <? 2 ^ 63) then Some z else None
         | None => None
         end
  end.

(** [asInt] *)
Definition asInt (v : any) : option Z :=
  match v with
  | VInt z | VFloat z => Some z
  | VStr s => if str_eq s "" then None else atoi (trim_space s)
  | _ => None
  end.
(** [asBool] *)
Definition asBool (v : any) : bool :=
  match v with
  | VBool b => b
  | VStr s => existsb (str_eq (trim_space (to_lower s))) ["true"; "1"; "on"; "yes"]
  | _ => false
  end.

(** ** Environments *)

Record component := { Co_Service : string; Co_Image : string; Co_ImageDigest : string }.
Record flux_resource := { Fx_Failed : bool; Fx_Ready : bool }.
Record flux_status := {
  Fs_Status : string; Fs_HelmReleases : list flux_resource; Fs_Kustomizations : list flux_resource }.

Record env_more (Y : Type) := {
  M_Namespace : string; M_Product : string; M_Domain : string; M_URL : string;
  M_ValuesPath : string; M_GitOpsPath : string; M_ChartsApp : string;
  M_Services : list (string * string); M_BaseServices : list string;
  M_Components : list component; M_Overrides : list (string * string);
  M_ReleasePlanID : string; M_ReleasePlanDigest : string;
  M_FluxStatus : option flux_status;
  M_LastError : string; M_CleanupPhase : string; M_CleanupAttempts : Z; M_CleanupVerified : bool;
  M_ManifestPath : string; M_NamespaceManifestPath : string; M_KustomizationManifestPath : string;
  M_PullRequestURL : string;
  M_rest : Y }.
Arguments M_Namespace {Y}. Arguments M_Product {Y}. Arguments M_Domain {Y}. Arguments M_URL {Y}.
Arguments M_ValuesPath {Y}. Arguments M_GitOpsPath {Y}. Arguments M_ChartsApp {Y}.
Arguments M_Services {Y}. Arguments M_BaseServices {Y}. Arguments M_Components {Y}.
Arguments M_Overrides {Y}. Arguments M_ReleasePlanID {Y}. Arguments M_ReleasePlanDigest {Y}.
Arguments M_FluxStatus {Y}. Arguments M_LastError {Y}. Arguments M_CleanupPhase {Y}.
Arguments M_CleanupAttempts {Y}. Arguments M_CleanupVerified {Y}. Arguments M_ManifestPath {Y}.
Arguments M_NamespaceManifestPath {Y}. Arguments M_KustomizationManifestPath {Y}.
Arguments M_PullRequestURL {Y}. Arguments M_rest {Y}.
Notation Env Y := (Environment (env_more Y)).

(** The constants of [domain.EnvironmentStatus] and [domain.CleanupPhase]. *)
Class Statuses := {
  StatusCreating : string; StatusReady : string; StatusFailed : string;
  StatusDeleteRequested : string; StatusGitOpsDeletePending : string;
  StatusDeleteFailed : string; StatusTerminating : string; StatusTerminated : string;
  CleanupRequested : string; CleanupBackendDeleting : string; CleanupTerminated : string }.

(** ** Lemmas *)

Lemma digits_nonneg l : forall acc n, 0 <= acc -> digits acc l = Some n -> 0 <= n.
Proof.
  induction l as [|c l IH]; intros acc n Ha; cbn [digits]; [by intros [= <-]|].
  destruct (is_digit c) eqn:Ec; [|done]. apply IH.
  unfold is_digit, between in Ec. apply andb_true_iff in Ec as [Ec _]. apply N.leb_le in Ec. lia.
Qed.

(** What [Atoi] returns fits a 64-bit integer. *)
Lemma atoi_bounds s z : atoi s = Some z -> - 2 ^ 63 <= z < 2 ^ 63.
Proof.
  unfold atoi. set (p := match chars s with [] => _ | _ => _ end). destruct p as [neg l].
  destruct l as [|c l]; [done|]. destruct (digits 0 (c :: l)); [|done]. cbv zeta.
  destruct (_ && _) eqn:E; [|done]. intros [= <-]. apply andb_true_iff in E.
  rewrite Z.leb_le, Z.ltb_lt in E. exact E.
Qed.

(** ** A sample environment *)

Definition sample_more : env_more unit := {|
  M_Namespace := "envplane-pr-7"; M_Product := "generic"; M_Domain := "pr7.example.org"; M_URL := "";
  M_ValuesPath := ""; M_GitOpsPath := ""; M_ChartsApp := "charts/app";
  M_Services := [("web-api", "v2")]; M_BaseServices := []; M_Components := [];
  M_Overrides := [("projectId", "other"); (" replicas", "2 ")];
  M_ReleasePlanID := ""; M_ReleasePlanDigest := ""; M_FluxStatus := None; M_LastError := "";
  M_CleanupPhase := ""; M_CleanupAttempts := 0; M_CleanupVerified := false; M_ManifestPath := "";
  M_NamespaceManifestPath := ""; M_KustomizationManifestPath := ""; M_PullRequestURL := ""; M_rest := tt |}.
Definition sample_env : Env unit := {|
  E_TenantID := "t"; E_ID := "7"; E_Project := "shop"; E_PullRequestID := "7"; E_Branch := "main";
  E_Commit := "c0ffee"; E_Status := "ready"; E_Mode := "pr"; E_TTLHours := 24; E_CreatedAt := 1;
  E_UpdatedAt := 1; E_rest := sample_more |}.
