(* ===== verification/HelmValues.v ===== *)
(** * The configuration and the values of a Helm release

    [internal/orchestrator/orchestrator.go]: [resolveHelmDirectConfig], the
    chart reference, the target namespace and the release name; the values that
    a release is given ([renderHelmImageValues], [renderIdentityValues]). *)

From stdpp Require Import base list gmap strings sorting.
From Stdlib Require Import ZArith Lia Ascii String.
From S2P Require Import Prelude GoStrings Regex GoPath EnvStore HelmName OrchTypes.

Local Open Scope string_scope.
Local Open Scope Z_scope.
Local Open Scope list_scope.

(** ** Configuration *)

Record helmDirectConfig := {
  namespaceMode : string; namespacePattern : string; releaseNamePattern : string;
  chartRef : string; chartVersion : string; timeout : Z; wait : bool; createNamespace : bool }.

Definition default_config : helmDirectConfig :=
  {| namespaceMode := "dedicated"; namespacePattern := "";
     releaseNamePattern := "{{ .project.id }}-{{ .environment.name }}"; chartRef := "";
     chartVersion := ""; timeout := 300; wait := true; createNamespace := false |}.

Definition or_default (s d : string) : string := if str_eq s "" then d else s.

(** [resolveHelmDirectConfig] of [projectConfig.Config]. *)
Definition resolveHelmDirectConfig (config : any_map) : helmDirectConfig :=
  match as_map (map_get "deployment" config) with
  | None => default_config
  | Some deployment =>
      match as_map (map_get "helmDirect" deployment) with
      | None => default_config
      | Some c =>
          let text_of k := trim_space (asString (map_get k c)) in
          {| namespaceMode := or_default (text_of "namespaceMode") (namespaceMode default_config);
             namespacePattern := text_of "namespacePattern";
             releaseNamePattern := or_default (text_of "releaseNamePattern") (releaseNamePattern default_config);
             chartRef := text_of "chartRef";
             chartVersion := text_of "chartVersion";
             timeout := match map_get "timeout" c with
                        | Some v => match asInt v with
                                    | Some t => if 0 <? t then t else timeout default_config
                                    | None => timeout default_config
                                    end
                        | None => timeout default_config
                        end;
             wait := match map_get "wait" c with Some v => asBool v | None => wait default_config end;
             createNamespace := false |}
      end
  end.

(** [url.Parse]: the fields of [url.URL] that the code reads, [Hostname()] and
    whether there is a [User] among them. *)
Record url := {
  U_Scheme : string; U_Host : string; U_Hostname : string; U_User : bool; U_Path : string; U_RawQuery : string;
  U_Fragment : string; U_Opaque : string }.
Class GoNet := url_parse : string -> option url.
(** [helmDirectTemplateData] *)
Record template_data := {
  Td_ProjectID : string; Td_EnvironmentID : string; Td_PRNumber : string;
  Td_Branch : string; Td_CommitSHA : string }.
(** [template.Parse] and [Execute]; the error of either. *)
Class Templates := execute : string -> template_data -> result go_error string.

Section Config.
Context {Y : Type} `{Sha256} `{GoNet} `{Templates}.
Implicit Types e : Env Y.

(** [isDirectHelmChartArchive] *)
Definition isDirectHelmChartArchive (ref : string) : bool :=
  match url_parse (trim_space ref) with
  | Some u =>
      (str_eq (U_Scheme u) "http" || str_eq (U_Scheme u) "https") && has_suffix (to_lower (U_Path u)) ".tgz"
  | None => false
  end.
(** [helmDirectChartVersion] *)
Definition helmDirectChartVersion (ref version : string) : string :=
  let version := trim_space version in
  if str_eq version "" || isDirectHelmChartArchive ref then "" else version.

(** [helmDirectChartReference] *)
Definition helmDirectChartReference e (config : helmDirectConfig) : string :=
  let ref := trim_space (chartRef config) in
  if str_ne ref "" then ref
  else
    let ref := trim_space (M_ChartsApp (E_rest e)) in
    if str_ne ref "" then ref
    else if str_ne (trim_space (M_GitOpsPath (E_rest e))) "" then trim_space (M_GitOpsPath (E_rest e))
    else "latest".

Definition helmDirectTemplateData e : template_data :=
  {| Td_ProjectID := trim_space (E_Project e); Td_EnvironmentID := trim_space (E_ID e);
     Td_PRNumber := trim_space (E_PullRequestID e); Td_Branch := trim_space (E_Branch e);
     Td_CommitSHA := trim_space (E_Commit e) |}.

(** [renderTemplatePattern] *)
Definition renderTemplatePattern (pattern : string) e : string :=
  let pattern := trim_space pattern in
  if str_eq pattern "" then ""
  else match execute pattern (helmDirectTemplateData e) with
       | Ok s => trim_space s
       | Err _ => ""
       end.

(** [targetNamespace] *)
Definition targetNamespace e (config : helmDirectConfig) : string :=
  let namespace := trim_space (M_Namespace (E_rest e)) in
  let rendered := trim_space (renderTemplatePattern (namespacePattern config) e) in
  if str_eq (to_lower (trim_space (namespaceMode config))) "shared" then
    if str_ne rendered "" then rendered
    else if str_ne namespace "" then namespace
    else trim_space (E_Project e)
  else
    if str_ne namespace "" then namespace
    else if str_ne rendered "" then rendered
    else trim_space (E_ID e).

(** [shouldDeleteNamespace] *)
Definition shouldDeleteNamespace e (config : helmDirectConfig) (namespace : string) : bool :=
  if equal_fold (trim_space (namespaceMode config)) "shared" then false
  else
    let namespace := trim_space namespace in
    if str_eq namespace "" then false
    else
      let target := trim_space (M_Namespace (E_rest e)) in
      negb (str_ne target "" && str_ne namespace target).

Definition name_error_text (e : name_error) : string :=
  match e with
  | EmptyName => "helm release name pattern rendered an empty name"
  | InvalidName => "helm release name pattern rendered an invalid name"
  end.

(** [renderReleaseName] *)
Definition renderReleaseName e (config : any_map) : result go_error string :=
  match execute (trim_space (releaseNamePattern (resolveHelmDirectConfig config)))
          (helmDirectTemplateData e) with
  | Err err => Err err
  | Ok s => match normalizeHelmReleaseName s with
            | Ok n => Ok n
            | Err err => Err (errorf (name_error_text err))
            end
  end.
End Config.

(** ** Values *)

(** [genericHelmServiceValuePrefix]: words of letters and digits, camel case. *)
Definition fields_of (is_sep : ascii -> bool) (s : string) : list bytes := fields_bytes is_sep [] (chars s).
Definition capital (w : bytes) : bytes :=
  match w with c :: w' => upper_char c :: w' | [] => [] end.
Definition camel (words : list bytes) : bytes :=
  match words with w :: ws => w ++ List.concat (map capital ws) | [] => [] end.
Definition genericHelmServiceValuePrefix (name : string) : string :=
  text (camel (fields_of (fun c => negb (alnum_lower c)) (to_lower (trim_space name)))).

(** [serviceTagKeyLike] *)
Definition serviceTagKeyLike (name : string) : string :=
  match fields_of (one_of "-_.") (to_lower (trim_space name)) with
  | [] => "serviceTag"
  | words => text (camel words) +:+ "Tag"
  end.

Definition known_tags : list (list string * string) :=
  [ ([""], ""); (["nginx"], "nginxTag"); (["php"; "php-fpm"], "phpTag"); (["nuxt"], "nuxtTag");
    (["api"; "cms-api"], "cmsApiTag"); (["backend"; "cms-backend"], "cmsBackendTag");
    (["frontend"; "cms-frontend"], "cmsFrontendTag"); (["migration"; "cms-migration"], "cmsMigrationTag");
    (["rest"; "cms-rest"], "cmsRestTag"); (["notifications"; "api-notifications"], "apiNotificationTag");
    (["heimdall"], "apiHeimdallTag"); (["cursus"], "apiCursusTag"); (["iris"], "apiIrisTag");
    (["betting"], "bettingTag"); (["websockets"], "websocketsTag") ].
Fixpoint tag_of (name : string) (l : list (list string * string)) : option string :=
  match l with
  | [] => None
  | (names, tag) :: l' => if existsb (str_eq name) names then Some tag else tag_of name l'
  end.

(** [normalizeHelmServiceTag] *)
Definition generic (product : string) : bool := equal_fold (trim_space product) "generic".
Definition normalizeHelmServiceTag (name product : string) : string :=
  let prefix := genericHelmServiceValuePrefix name in
  if generic product && str_ne prefix "" then prefix +:+ "Tag"
  else match tag_of (to_lower (trim_space name)) known_tags with
       | Some tag => tag
       | None => serviceTagKeyLike name
       end.

Notation values := (gmap string string).
Definition value_name (a b : string * string) : bool := str_ltb a.1 b.1.

Section Values.
Context {Y : Type}.
Implicit Types e : Env Y.

Definition domain_values e (m : values) : values :=
  let domainName := trim_space (M_Domain (E_rest e)) in
  if str_eq domainName "" then m
  else
    let previewURL := trim_space (M_URL (E_rest e)) in
    <["main_domain" := domainName]> (<["private_domain" := domainName]>
      (<["previewUrl" := if str_ne previewURL "" then previewURL else "https://" +:+ domainName]>
        (<["previewHost" := domainName]> (<["ingressHost" := domainName]> m)))).
Definition service_value e (m : values) (service : string * string) : values :=
  let key := normalizeHelmServiceTag (trim_space service.1) (M_Product (E_rest e)) in
  if str_eq key "" then m else <[key := or_default (trim_space service.2) "latest"]> m.
Definition base_value e (m : values) (service : string) : values :=
  let key := normalizeHelmServiceTag (trim_space service) (M_Product (E_rest e)) in
  if str_eq key "" then m else <[key := "latest"]> m.
Definition component_value (m : values) (c : component) : values :=
  let prefix := genericHelmServiceValuePrefix (Co_Service c) in
  if str_eq prefix "" then m
  else
    let put suffix v m := if str_ne v "" then <[prefix +:+ suffix := v]> m else m in
    put "Digest" (trim_space (Co_ImageDigest c)) (put "Image" (trim_space (Co_Image c)) m).
Definition override_value (m : values) (kv : string * string) : values :=
  let key := trim_space kv.1 in
  if str_eq key "" then m else <[key := trim_space kv.2]> m.

(** The map that [renderHelmImageValues] fills, the overrides in the order the
    map is iterated; and the sorted result. *)
Definition image_values e : values :=
  let m := fold_left (service_value e) (M_Services (E_rest e)) (domain_values e ∅) in
  let m := fold_left (base_value e) (M_BaseServices (E_rest e)) m in
  let m := if generic (M_Product (E_rest e))
           then fold_left component_value (M_Components (E_rest e)) m else m in
  fold_left override_value (M_Overrides (E_rest e)) m.
Definition renderHelmImageValues e : list (string * string) :=
  sort_slice value_name (map_to_list (image_values e)).

(** [renderIdentityValues] *)
Definition renderIdentityValues e : list (string * string) :=
  sort_slice value_name
    [("projectId", trim_space (E_Project e)); ("environmentId", trim_space (E_ID e));
     ("prNumber", trim_space (E_PullRequestID e)); ("branch", trim_space (E_Branch e));
     ("commitSHA", trim_space (E_Commit e))].

(** The map that [helmValuesFile] writes when the environment names no file. *)
Definition values_object e : values :=
  fold_left (fun m kv => <[kv.1 := kv.2]> m) (renderHelmImageValues e ++ renderIdentityValues e) ∅.
End Values.

(** ** Lemmas *)

Lemma value_name_sorted (m : values) :
  StronglySorted (fun a b => str_ltb a.1 b.1 = true) (sort_slice value_name (map_to_list m))
  /\ list_to_map (sort_slice value_name (map_to_list m)) = m.
Proof.
  assert (Hp : sort_slice value_name (map_to_list m) ≡ₚ map_to_list m) by apply sort_slice_perm.
  assert (Hnd : NoDup (sort_slice value_name (map_to_list m)).*1)
    by (rewrite Hp; apply NoDup_fst_map_to_list).
  split.
  - assert (Hs : StronglySorted (in_order value_name) (sort_slice value_name (map_to_list m))).
    { apply sort_slice_sorted; unfold value_name; intros *;
        eauto using str_ltb_irrefl, str_ltb_trans, str_ltb_negtrans. }
    revert Hs Hnd. generalize (sort_slice value_name (map_to_list m)). clear.
    induction 1 as [|[k v] l Hs IH Hk]; [constructor|]. cbn [fmap list_fmap fst].
    intros [Hnotin Hnd]%NoDup_cons. constructor; [by apply IH|].
    rewrite Forall_forall in Hk |- *. intros [k' v'] Hin. specialize (Hk _ Hin).
    unfold in_order, value_name in Hk. simpl in *.
    destruct (str_ltb_total _ _ Hk) as [->|]; [|done].
    destruct Hnotin. apply list_elem_of_fmap. by exists (k, v').
  - rewrite <- (list_to_map_to_list m) at 2. by apply list_to_map_proper.
Qed.

Lemma fold_put (l : list (string * string)) : forall (m : values) k,
  fold_left (fun m kv => <[kv.1 := kv.2]> m) l m !! k
  = match map_get k (rev l) with Some v => Some v | None => m !! k end.
Proof.
  induction l as [|[k1 v1] l IH] using rev_ind; intros m k; [done|].
  rewrite fold_left_app, rev_app_distr. cbn [fold_left rev app map_get fst snd].
  destruct (str_eq k k1) eqn:E; go_bool; [subst; by rewrite lookup_insert_eq|].
  rewrite lookup_insert_ne by done. apply IH.
Qed.

Lemma map_get_app {A} k (a b : list (string * A)) :
  map_get k (a ++ b) = match map_get k a with Some v => Some v | None => map_get k b end.
Proof. induction a as [|[k' v] a IH]; [done|]. cbn [app map_get]. by destruct (str_eq k k'). Qed.

Lemma map_get_list_to_map k (l : list (string * string)) : map_get k l = (list_to_map l : values) !! k.
Proof.
  induction l as [|[k' v] l IH]; [done|]. cbn [map_get]. rewrite list_to_map_cons. cbn [fst snd].
  destruct (str_eq k k') eqn:E; go_bool; [subst; by rewrite lookup_insert_eq|].
  by rewrite lookup_insert_ne.
Qed.

Lemma map_get_perm k (l l' : list (string * string)) : NoDup l.*1 -> l ≡ₚ l' -> map_get k l = map_get k l'.
Proof. intros Hnd Hp. rewrite !map_get_list_to_map. by rewrite (list_to_map_proper l l'). Qed.

Section ValueLemmas.
Context {Y : Type}.
Implicit Types e : Env Y.

(** The five identity values. *)
Definition identity_values e : list (string * string) :=
  [("projectId", trim_space (E_Project e)); ("environmentId", trim_space (E_ID e));
   ("prNumber", trim_space (E_PullRequestID e)); ("branch", trim_space (E_Branch e));
   ("commitSHA", trim_space (E_Commit e))].

Lemma identity_nodup e : NoDup (identity_values e).*1.
Proof. cbn [identity_values fmap list_fmap fst]. apply (bool_decide_unpack _). vm_compute. exact I. Qed.

Lemma values_object_lookup e k : values_object e !! k
  = match map_get k (identity_values e) with Some v => Some v | None => image_values e !! k end.
Proof.
  unfold values_object. rewrite fold_put, rev_app_distr, map_get_app.
  assert (map_get k (rev (renderIdentityValues e)) = map_get k (identity_values e)) as ->.
  { symmetry. apply map_get_perm; [apply identity_nodup|].
    rewrite <- Permutation_rev. unfold renderIdentityValues. by rewrite sort_slice_perm. }
  destruct (map_get k (identity_values e)); [done|]. rewrite lookup_empty.
  unfold renderHelmImageValues. destruct (value_name_sorted (image_values e)) as [_ Hm].
  rewrite map_get_list_to_map.
  assert ((list_to_map (rev (sort_slice value_name (map_to_list (image_values e)))) : values) = image_values e) as ->.
  { rewrite <- Hm at 2. apply list_to_map_proper; [|by rewrite <- Permutation_rev].
    rewrite <- Permutation_rev, sort_slice_perm. apply NoDup_fst_map_to_list. }
  by destruct (image_values e !! k).
Qed.

Lemma override_lookup (l : list (string * string)) : forall (m : values) k,
  fold_left override_value l m !! k
  = match map_get k (rev (map (fun kv => (trim_space kv.1, trim_space kv.2))
                              (List.filter (fun kv => str_ne (trim_space kv.1) "") l))) with
    | Some v => Some v | None => m !! k end.
Proof.
  induction l as [|[k1 v1] l IH] using rev_ind; intros m k; [done|].
  rewrite fold_left_app, List.filter_app, map_app, rev_app_distr, map_get_app.
  cbn [fold_left List.filter fst]. unfold override_value at 1. cbn [fst snd].
  change (str_ne (trim_space k1) "") with (negb (str_eq (trim_space k1) "")).
  destruct (str_eq (trim_space k1) "") eqn:E1; cbn [negb map rev app map_get fst snd]; [apply IH|].
  destruct (str_eq k (trim_space k1)) eqn:E; go_bool; [subst; by rewrite lookup_insert_eq|].
  rewrite lookup_insert_ne by done. apply IH.
Qed.
End ValueLemmas.

(** ** Properties *)

Section ValueProperties.
Context {Y : Type}.

(** The values written for a release without a values file: the
    identity of the environment is what the environment says, whatever its
    services, components and overrides are called; every other override takes
    precedence, if no other override has the same trimmed name; and the
    rendered list has each name once, in increasing order, with exactly the
    values of the map. *)
Theorem values_precedence (e : Env Y) :
  (forall k v, In (k, v) (identity_values e) -> values_object e !! k = Some v)
  /\ (forall k v, In (k, v) (M_Overrides (E_rest e)) -> trim_space k <> "" ->
        ~ In (trim_space k) (identity_values e).*1 ->
        NoDup (map (fun kv => trim_space kv.1) (M_Overrides (E_rest e))) ->
        values_object e !! trim_space k = Some (trim_space v))
  /\ StronglySorted (fun a b => str_ltb a.1 b.1 = true) (renderHelmImageValues e)
  /\ list_to_map (renderHelmImageValues e) = image_values e.
Proof.
  split; [|split; [|apply value_name_sorted]].
  - intros k v Hin. rewrite values_object_lookup, map_get_list_to_map.
    erewrite elem_of_list_to_map_1; [done|apply identity_nodup|by apply list_elem_of_In].
  - intros k v Hin Hk Hid Hnd. rewrite values_object_lookup.
    rewrite (map_get_list_to_map _ (identity_values e)), not_elem_of_list_to_map_1
      by (by rewrite list_elem_of_In).
    unfold image_values. rewrite override_lookup, map_get_list_to_map.
    erewrite elem_of_list_to_map_1; [done| |].
    + rewrite <- Permutation_rev. rewrite <- list_fmap_compose. simpl.
      revert Hnd. generalize (M_Overrides (E_rest e)). clear. intros l.
      induction l as [|[a b] l IH]; [done|]. cbn [map List.filter fst]. intros [Hn Hl]%NoDup_cons.
      destruct (str_ne (trim_space a) ""); [|by apply IH].
      cbn [fmap list_fmap compose fst]. constructor; [|by apply IH].
      intros Hc. apply Hn. apply list_elem_of_fmap in Hc as ([a' b'] & Ha & Hc).
      apply list_elem_of_In, filter_In in Hc as [Hc _]. apply list_elem_of_In, in_map_iff.
      exists (a', b'). split; [exact (eq_sym Ha)|done].
    + rewrite <- Permutation_rev. apply list_elem_of_In, in_map_iff. exists (k, v). split; [done|].
      apply filter_In. split; [done|]. by apply str_ne_true.
Qed.
End ValueProperties.

(** ** Witnesses *)

Lemma values_precedence_witness :
  values_object sample_env !! "replicas" = Some "2" /\ values_object sample_env !! "projectId" = Some "shop".
Proof.
  destruct (values_precedence sample_env) as (Hi & Ho & _). split.
  - apply (Ho " replicas" "2 ").
    + right. by left.
    + done.
    + apply (bool_decide_unpack _). vm_compute. exact I.
    + apply (bool_decide_unpack _). vm_compute. exact I.
  - apply Hi. by left.
Defined.
