(* ===== verification/HelmCli.v ===== *)
(** * The Helm executor

    [internal/orchestrator/orchestrator.go]: [CLIHelmExecutor], which carries
    out each operation of the interface [HelmExecutor] by commands of helm and
    kubectl, as programs over the command runner; the classification of command
    errors; and who owns a namespace. *)

From stdpp Require Import base list gmap strings pretty.
From Stdlib Require Import ZArith Lia Ascii String.
From S2P Require Import Prelude GoStrings Regex EnvStore OrchTypes HelmValues.

Local Open Scope string_scope.
Local Open Scope Z_scope.
Local Open Scope list_scope.

(** ** The interface *)

Record HelmUpgradeOptions := {
  Up_ReleaseName : string; Up_ChartRef : string; Up_ChartVersion : string; Up_Namespace : string;
  Up_ValuesFile : string; Up_CreateNamespace : bool; Up_Wait : bool; Up_Timeout : Z }.
Record HelmStatus := {
  St_Found : bool; St_Status : string; St_Chart : string; St_AppVersion : string; St_Namespace : string }.
Definition no_status : HelmStatus :=
  {| St_Found := false; St_Status := ""; St_Chart := ""; St_AppVersion := ""; St_Namespace := "" |}.

(** The methods of [HelmExecutor], and [NamespaceExists] of
    [fluxNamespaceCleanupExecutor]. *)
Inductive helm_op : Type -> Type :=
| UpgradeInstall (o : HelmUpgradeOptions) : helm_op (option go_error)
| Uninstall (release namespace : string) : helm_op (option go_error)
| Rollback (release namespace : string) : helm_op (option go_error)
| DeleteNamespace (namespace : string) : helm_op (option go_error)
| HelmStatusOp (release namespace : string) : helm_op (result go_error HelmStatus)
| IsNamespaceManaged (namespace projectID environmentID : string) : helm_op (result go_error bool)
| Readiness (release namespace : string) : helm_op (result go_error bool)
| NamespaceExists (namespace : string) : helm_op (result go_error bool).

(** ** Commands *)

(** [runCommand] (combined output) and [runReadCommand] of kubectl. *)
Inductive cmd : Type -> Type :=
| RunCommand (name : string) (args : list string) : cmd (bytes * option go_error)
| RunReadCommand (args : list string) : cmd (bytes * option go_error).

Record pod_status := { Ps_Phase : string; Ps_Conditions : list (string * string) }.
Record chart_item := { Ci_Kind : string; Ci_Name : string; Ci_Namespace : string }.

(** encoding/json and yaml.v3: the fields that the code decodes; a document
    that cannot be decoded ends the stream of a chart. *)
Class KubeJson := {
  parse_namespace : bytes -> result go_error (string * option (list (string * string)));
  parse_helm_status : bytes -> result go_error HelmStatus;
  parse_pods : bytes -> result go_error (list pod_status);
  parse_secret : bytes -> option (list (string * string) * list (string * string));
  decode_chart : bytes -> list chart_item * bool }.

(** [domain.IsSafeHelmChartRef] of github.com/envplane/contracts. *)
Class ChartRefs := IsSafeHelmChartRef : string -> bool.

Definition label (k : string) (l : list (string * string)) : string :=
  match map_get k l with Some v => v | None => "" end.

(** [namespaceOwnedByEnvironment] *)
Definition namespaceOwnedByEnvironment (labels : option (list (string * string)))
    (namespace projectID environmentID : string) : bool :=
  match labels with
  | None => false
  | Some l =>
      let projectID := trim_space projectID in
      let environmentID := trim_space environmentID in
      let projectMatches :=
        str_eq projectID "" || str_eq (trim_space (label "envplane.io/project-id" l)) projectID in
      let environmentMatches :=
        str_eq environmentID "" || str_eq (trim_space (label "envplane.io/environment-id" l)) environmentID in
      if str_eq (trim_space (label "envplane.io/managed" l)) "true"
      then projectMatches && environmentMatches
      else if str_ne (trim_space (label "envplane.io/managed-by" l)) "same-cluster-project-reconciler"
              || negb projectMatches || str_eq environmentID "" then false
      else str_eq (trim_space namespace) ("envplane-pr-" +:+ environmentID)
  end.

(** [helmOutputMessage] *)
Definition helmOutputMessage (output : bytes) (err : go_error) : string :=
  let t := trim_space (text output) in
  if str_eq t "" then ge_text err
  else if ge_deadline err then "timed out: " +:+ t else t.

Definition lower_text (output : bytes) : string := to_lower (trim_space (text output)).
Definition mentions (s sub : string) : bool := contains (to_lower s) sub.

(** [isHelmReleaseMissing] of an error. *)
Definition isHelmReleaseMissing (err : go_error) (output : bytes) : bool :=
  let t := lower_text output in
  if str_eq t "" && ge_not_found err then false
  else existsb (contains t)
         ["release: not found"; "uninstall: release not found"; "has no deployed releases"; "not found";
          "release name not provided"]
       || mentions (ge_text err) "not found".
(** [isKubectlNoResources], [isKubectlNotFound] *)
Definition isKubectlNoResources (output : bytes) (err : go_error) : bool :=
  contains (lower_text output) "no resources found" || mentions (ge_text err) "no resources found".
Definition isKubectlNotFound (err : go_error) (output : bytes) : bool :=
  contains (lower_text output) "not found" || contains (lower_text output) "error: unavailable"
  || mentions (ge_text err) "not found".

Definition secretMetadataNamePattern : re :=
  let name := RSeq (RChr alnum_lower)
    (opt (RSeq (RStar (RChr (fun c => alnum_lower c || one_of "-" c))) (RChr alnum_lower))) in
  RSeq name (RStar (RSeq (chr (byte_of 46)) name)).

Section Cli.
Context `{Quote} `{GoNet} `{KubeJson} `{ChartRefs}.
(** Is [runReadCommand] set?  [NewCLIHelmExecutor] sets it. *)
Variable reads : bool.

Definition failed_for (what release namespace : string) (output : bytes) (err : go_error) : go_error :=
  errorf (what +:+ " failed for release " +:+ quote release +:+ " in namespace " +:+ quote namespace
          +:+ ": " +:+ helmOutputMessage output err).

(** [namespaceRead] *)
Definition namespaceRead (args : list string) : prog cmd (bytes * option go_error) :=
  if reads then
    r <-- call (RunReadCommand args);;
    Ret (match r with
         | (output, Some err) =>
             match ge_stderr err with
             | Some stderr => (output ++ stderr, Some err)
             | None => (output, Some err)
             end
         | _ => r
         end)
  else call (RunCommand "kubectl" args).

(** The loop of [preflightSecretOwnership] over the documents of the chart. *)
Fixpoint secrets_owned (release namespace : string) (l : list chart_item) (whole : bool)
    : prog cmd (result go_error unit) :=
  match l with
  | [] => Ret (if whole then Ok tt
               else Err (errorf "helm Secret ownership preflight could not decode chart"))
  | item :: l' =>
      if str_ne (Ci_Kind item) "Secret" then secrets_owned release namespace l' whole
      else
        let ns := if str_eq (Ci_Namespace item) "" then namespace else Ci_Namespace item in
        stop str_ne ns namespace || (253 <? str_len (Ci_Name item))
          || negb (match_string secretMetadataNamePattern (Ci_Name item))
          with errorf "helm Secret ownership preflight rejected cross-namespace or invalid Secret identity";;
        r <-- call (RunCommand "kubectl" ["get"; "secret"; Ci_Name item; "--namespace"; ns;
                                          "--ignore-not-found"; "-o=jsonpath={.metadata}"]);;
        match r with
        | (_, Some _) => Ret (Err (errorf "helm Secret ownership preflight could not inspect Secret metadata"))
        | (metadata, None) =>
            if blank (text metadata) then secrets_owned release namespace l' whole
            else match parse_secret metadata with
                 | None => Ret (Err (errorf "helm Secret ownership preflight received invalid metadata"))
                 | Some (labels, annotations) =>
                     stop str_ne (label "app.kubernetes.io/managed-by" labels) "Helm"
                       || str_ne (label "meta.helm.sh/release-name" annotations) release
                       || str_ne (label "meta.helm.sh/release-namespace" annotations) ns
                       with errorf ("secret " +:+ ns +:+ "/" +:+ Ci_Name item +:+
                                    " ownership conflict: recompile a compatible chart and create a new environment; existing Secret was not modified");;
                     secrets_owned release namespace l' whole
                 end
        end
  end.

Definition template_args (o : HelmUpgradeOptions) : list string :=
  ["template"; Up_ReleaseName o; Up_ChartRef o; "--namespace"; Up_Namespace o]
  ++ (if str_ne (Up_ValuesFile o) "" then ["-f"; Up_ValuesFile o] else [])
  ++ (if str_ne (Up_ChartVersion o) "" && negb (isDirectHelmChartArchive (Up_ChartRef o))
      then ["--version"; Up_ChartVersion o] else []).

(** [preflightSecretOwnership] *)
Definition preflightSecretOwnership (o : HelmUpgradeOptions) : prog cmd (result go_error unit) :=
  r <-- call (RunCommand "helm" (template_args o));;
  match r with
  | (_, Some _) => Ret (Err (errorf "helm Secret ownership preflight could not render chart"))
  | (rendered, None) =>
      let '(items, whole) := decode_chart rendered in
      secrets_owned (Up_ReleaseName o) (Up_Namespace o) items whole
  end.

(** The arguments of [helm upgrade]. *)
Definition upgrade_args (o : HelmUpgradeOptions) : list string :=
  ["upgrade"; "--install"; Up_ReleaseName o; Up_ChartRef o; "--namespace"; Up_Namespace o]
  ++ (if Up_CreateNamespace o then ["--create-namespace"] else [])
  ++ (if negb (blank (Up_ValuesFile o)) then ["-f"; Up_ValuesFile o] else [])
  ++ (if negb (blank (Up_ChartVersion o)) && negb (isDirectHelmChartArchive (Up_ChartRef o))
      then ["--version"; trim_space (Up_ChartVersion o)] else [])
  ++ (if Up_Wait o then ["--wait"] else [])
  ++ (if 0 <? Up_Timeout o then ["--timeout"; pretty (Up_Timeout o) +:+ "s"] else []).

Definition cli_UpgradeInstall (o : HelmUpgradeOptions) : prog cmd (option go_error) :=
  if negb (blank (Up_ChartRef o)) && negb (IsSafeHelmChartRef (Up_ChartRef o))
  then Ret (Some (errorf "invalid helm chart reference"))
  else
    p <-- preflightSecretOwnership o;;
    match p with
    | Err e => Ret (Some e)
    | Ok _ =>
        r <-- call (RunCommand "helm" (upgrade_args o));;
        Ret (match r with
             | (_, None) => None
             | (output, Some err) => Some (failed_for "helm apply" (Up_ReleaseName o) (Up_Namespace o) output err)
             end)
    end.

Definition cli_Uninstall (release namespace : string) : prog cmd (option go_error) :=
  r <-- call (RunCommand "helm" ["uninstall"; release; "--namespace"; namespace]);;
  Ret (match r with
       | (_, None) => None
       | (output, Some err) =>
           if isHelmReleaseMissing err output then None
           else Some (failed_for "helm delete" release namespace output err)
       end).

Definition cli_Rollback (release namespace : string) : prog cmd (option go_error) :=
  r <-- call (RunCommand "helm" ["rollback"; release; "--namespace"; namespace]);;
  Ret (match r with
       | (_, None) => None
       | (output, Some err) => Some (failed_for "helm rollback" release namespace output err)
       end).

Definition delete_namespace_args (namespace : string) : list string :=
  ["delete"; "namespace"; namespace; "--ignore-not-found=true"; "--wait=false"].
Definition cli_DeleteNamespace (namespace : string) : prog cmd (option go_error) :=
  let namespace := trim_space namespace in
  if str_eq namespace "" then Ret None
  else
    r <-- call (RunCommand "kubectl" (delete_namespace_args namespace));;
    Ret (match r with
         | (_, None) => None
         | (output, Some err) =>
             Some (errorf ("helm namespace delete failed for namespace " +:+ quote namespace +:+ ": "
                           +:+ helmOutputMessage output err))
         end).

Definition cli_Status (release namespace : string) : prog cmd (result go_error HelmStatus) :=
  r <-- call (RunCommand "helm" ["status"; release; "--namespace"; namespace; "-o"; "json"]);;
  Ret (match r with
       | (output, Some err) =>
           if isHelmReleaseMissing err output then Ok no_status
           else Err (failed_for "helm status" release namespace output err)
       | (output, None) =>
           match parse_helm_status output with
           | Err e => Err (wrapf ("helm status output parse failed for release " +:+ quote release
                                  +:+ " in namespace " +:+ quote namespace) e)
           | Ok s =>
               Ok {| St_Found := true; St_Status := trim_space (St_Status s);
                     St_Chart := trim_space (St_Chart s); St_AppVersion := trim_space (St_AppVersion s);
                     St_Namespace := trim_space (St_Namespace s) |}
           end
       end).

Definition get_namespace_args (namespace : string) : list string :=
  ["get"; "namespace"; namespace; "-o"; "json"].
Definition cli_IsNamespaceManaged (namespace projectID environmentID : string)
    : prog cmd (result go_error bool) :=
  let namespace := trim_space namespace in
  if str_eq namespace "" then Ret (Ok false)
  else
    r <-- namespaceRead (get_namespace_args namespace);;
    Ret (match r with
         | (output, Some err) =>
             if isKubectlNoResources output err || isKubectlNotFound err output then Ok false
             else Err (errorf ("helm namespace ownership check failed for namespace " +:+ quote namespace
                               +:+ ": " +:+ helmOutputMessage output err))
         | (output, None) =>
             match parse_namespace output with
             | Err e => Err (wrapf ("helm namespace ownership parse failed for namespace " +:+ quote namespace) e)
             | Ok (_, labels) =>
                 Ok (namespaceOwnedByEnvironment labels namespace (trim_space projectID)
                       (trim_space environmentID))
             end
         end).

Definition cli_NamespaceExists (namespace : string) : prog cmd (result go_error bool) :=
  let namespace := trim_space namespace in
  if str_eq namespace "" then Ret (Err (errorf "namespace existence check requires an exact namespace"))
  else
    r <-- namespaceRead (get_namespace_args namespace ++ ["--ignore-not-found"]);;
    Ret (match r with
         | (output, Some err) =>
             Err (errorf ("namespace existence check failed: " +:+ helmOutputMessage output err))
         | (output, None) =>
             if blank (text output) then Ok false
             else match parse_namespace output with
                  | Err e => Err (wrapf "namespace existence parse failed" e)
                  | Ok (name, _) =>
                      if str_ne name namespace
                      then Err (errorf "namespace existence response identity mismatch")
                      else Ok true
                  end
         end).

(** The loop of [Readiness] over the selectors: [None] for a namespace that is
    not there. *)
Fixpoint read_pods (release namespace : string) (selectors : list string) (pods : list pod_status)
    : prog cmd (result go_error (option (list pod_status))) :=
  match selectors with
  | [] => Ret (Ok (Some pods))
  | selector :: rest =>
      r <-- call (RunCommand "kubectl" ["get"; "pods"; "--namespace"; namespace; "-l"; selector; "-o"; "json"]);;
      match r with
      | (output, Some err) =>
          if isKubectlNoResources output err then read_pods release namespace rest pods
          else if isKubectlNotFound err output then Ret (Ok None)
          else Ret (Err (errorf ("helm workload readiness check failed for namespace " +:+ quote namespace
                  +:+ " release " +:+ quote release +:+ ": " +:+ helmOutputMessage output err)))
      | (output, None) =>
          match parse_pods output with
          | Err e => Ret (Err (wrapf ("helm workload readiness parse failed for namespace "
                      +:+ quote namespace +:+ " release " +:+ quote release) e))
          | Ok [] => read_pods release namespace rest []
          | Ok l => Ret (Ok (Some l))
          end
      end
  end.
Definition pod_ready (p : pod_status) : bool :=
  let phase := to_lower (trim_space (Ps_Phase p)) in
  existsb (str_eq phase) ["running"; "succeeded"]
  && forallb (fun c => negb (str_eq c.1 "Ready" && str_ne (to_lower (trim_space c.2)) "true")) (Ps_Conditions p).
Definition cli_Readiness (release namespace : string) : prog cmd (result go_error bool) :=
  let namespace := trim_space namespace in
  if str_eq namespace "" then Ret (Ok true)
  else
    pods <-! read_pods release namespace
      ["app.kubernetes.io/instance=" +:+ trim_space release; "release=" +:+ trim_space release] [];;
    Ret (Ok (match pods with
             | None => true
             | Some [] => false
             | Some l => forallb pod_ready l
             end)).

(** [CLIHelmExecutor] implements the interface. *)
Definition cli (R : Type) (op : helm_op R) : prog cmd R :=
  match op with
  | UpgradeInstall o => cli_UpgradeInstall o
  | Uninstall r n => cli_Uninstall r n
  | Rollback r n => cli_Rollback r n
  | DeleteNamespace n => cli_DeleteNamespace n
  | HelmStatusOp r n => cli_Status r n
  | IsNamespaceManaged n p e => cli_IsNamespaceManaged n p e
  | Readiness r n => cli_Readiness r n
  | NamespaceExists n => cli_NamespaceExists n
  end.
End Cli.

(** ** Lemmas *)

Lemma contains_bytes_app p a b : contains_bytes p b = true -> contains_bytes p (a ++ b) = true.
Proof.
  intros Hb. induction a as [|c a IH]; [done|]. cbn [app contains_bytes]. rewrite IH. apply orb_true_r.
Qed.
Lemma mentions_app a b sub : mentions b sub = true -> mentions (a +:+ b) sub = true.
Proof.
  unfold mentions, contains, to_lower, map_string. rewrite !chars_text, chars_app, map_app.
  apply contains_bytes_app.
Qed.

Section CliLemmas.
Context `{Quote} `{GoNet} `{KubeJson} `{ChartRefs}.

(** What the preflight accepts of a Secret: nothing is there, or it belongs to
    this release. *)
Definition secret_owned (release namespace : string) (metadata : bytes) : Prop :=
  blank (text metadata) = true
  \/ exists labels annotations, parse_secret metadata = Some (labels, annotations)
      /\ label "app.kubernetes.io/managed-by" labels = "Helm"
      /\ label "meta.helm.sh/release-name" annotations = release
      /\ label "meta.helm.sh/release-namespace" annotations = namespace.
Definition secret_checked (release namespace : string) (t : list (event cmd)) (item : chart_item) : Prop :=
  Ci_Kind item = "Secret" ->
  (Ci_Namespace item = "" \/ Ci_Namespace item = namespace)
  /\ match_string secretMetadataNamePattern (Ci_Name item) = true
  /\ exists metadata, secret_owned release namespace metadata
      /\ In (Event (RunCommand "kubectl" ["get"; "secret"; Ci_Name item; "--namespace"; namespace;
                       "--ignore-not-found"; "-o=jsonpath={.metadata}"]) (metadata, None)) t.

Lemma secrets_owned_ok release namespace l whole : forall t,
  exec (secrets_owned release namespace l whole) t (Ok tt) ->
  whole = true /\ Forall (secret_checked release namespace t) l.
Proof.
  induction l as [|item l IH]; intros t Hx; cbn [secrets_owned] in Hx.
  { destruct whole; [done|]. by destruct Hx. }
  destruct (str_ne (Ci_Kind item) "Secret") eqn:Ek.
  { apply IH in Hx as [-> Hl]. split; [done|]. constructor; [|done]. intros Hk. by apply str_ne_true in Ek. }
  cbv zeta in Hx. set (ns := if str_eq (Ci_Namespace item) "" then namespace else Ci_Namespace item) in *.
  apply exec_stop_ok in Hx as [Hg Hx]. rewrite !orb_false_iff in Hg. destruct Hg as [[Hns _] Hname].
  apply str_ne_false in Hns. apply negb_false_iff in Hname. rewrite Hns in Hx.
  assert (Hn : Ci_Namespace item = "" \/ Ci_Namespace item = namespace).
  { subst ns. destruct (str_eq (Ci_Namespace item) "") eqn:E; go_bool; auto. }
  apply exec_bind in Hx as (t1 & t2 & [metadata e] & -> & ->%exec_call & Hx).
  destruct e as [e|]; [by destruct Hx|].
  assert (Hrest : forall t2, secret_owned release namespace metadata ->
    exec (secrets_owned release namespace l whole) t2 (Ok tt) ->
    whole = true /\ Forall (secret_checked release namespace
      ([Event (RunCommand "kubectl" ["get"; "secret"; Ci_Name item; "--namespace"; namespace;
                       "--ignore-not-found"; "-o=jsonpath={.metadata}"]) (metadata, None)] ++ t2)) (item :: l)).
  { intros t3 Ho Hx3. apply IH in Hx3 as [-> Hl]. split; [done|]. constructor.
    - intros _. split; [done|]. split; [done|]. exists metadata. split; [done|]. by left.
    - eapply Forall_impl; [exact Hl|]. intros i Hi Hk. destruct (Hi Hk) as (H1' & H2' & m & Hm & Hin).
      split; [done|]. split; [done|]. exists m. split; [done|]. by right. }
  destruct (blank (text metadata)) eqn:Eb; [apply Hrest; [by left|done]|].
  destruct (parse_secret metadata) as [[labels annotations]|] eqn:Ep; [|by destruct Hx].
  apply exec_stop_ok in Hx as [Hg Hx]. rewrite !orb_false_iff in Hg. destruct Hg as [[Hg1 Hg2] Hg3].
  apply str_ne_false in Hg1, Hg2, Hg3. apply Hrest; [|done]. right. eauto 6.
Qed.

Lemma preflight_ok o t : exec (preflightSecretOwnership o) t (Ok tt) ->
  exists rendered items, decode_chart rendered = (items, true)
    /\ In (Event (RunCommand "helm" (template_args o)) (rendered, None)) t
    /\ Forall (secret_checked (Up_ReleaseName o) (Up_Namespace o) t) items.
Proof.
  unfold preflightSecretOwnership. intros Hx.
  apply exec_bind in Hx as (t1 & t2 & [rendered [e|]] & -> & ->%exec_call & Hx); [by destruct Hx|].
  destruct (decode_chart rendered) as [items whole] eqn:Ed. apply secrets_owned_ok in Hx as [-> Hl].
  exists rendered, items. split; [done|]. split; [by left|].
  eapply Forall_impl; [exact Hl|]. intros i Hi Hk. destruct (Hi Hk) as (Hn & Hp & m & Hm & Hin).
  split; [done|]. split; [done|]. exists m. split; [done|]. by right.
Qed.

(** The preflight runs no [helm upgrade]. *)
Definition not_upgrade (R : Type) (e : cmd R) : Prop :=
  match e with RunCommand "helm" ("upgrade" :: _) => False | _ => True end.

Lemma preflight_quiet o : only not_upgrade (preflightSecretOwnership o).
Proof.
  assert (Hl : forall l whole, only not_upgrade (secrets_owned (Up_ReleaseName o) (Up_Namespace o) l whole)).
  { induction l as [|item l IH]; intros whole; cbn [secrets_owned]; [done|].
    destruct (str_ne _ _); [apply IH|]. cbv zeta. apply only_stop. split; [done|].
    intros [metadata [e|]]; [done|]. cbn [bind]. destruct (blank _); [apply IH|].
    destruct (parse_secret metadata) as [[labels annotations]|]; [|done]. apply only_stop, IH. }
  unfold preflightSecretOwnership. split; [done|]. intros [rendered [e|]]; [done|]. cbn [bind].
  destruct (decode_chart rendered). apply Hl.
Qed.
End CliLemmas.

(** ** Properties *)

Section CliProperties.
Context `{Quote} `{GoNet} `{KubeJson} `{ChartRefs}.

(** [helm upgrade] is only ever run for a chart reference that is empty
    or safe, after the chart was rendered as a whole and every Secret in it was
    looked up: each is in the release's own namespace under a valid name, and
    either does not exist or belongs to this release; one whose owner cannot be
    established stops the upgrade. *)
Theorem upgrade_owns_secrets (o : HelmUpgradeOptions) t r t1 x t2
    (Hx : exec (cli_UpgradeInstall o) t r)
    (Ht : t = t1 ++ Event (RunCommand "helm" (upgrade_args o)) x :: t2) :
  (blank (Up_ChartRef o) = true \/ IsSafeHelmChartRef (Up_ChartRef o) = true)
  /\ exists rendered items, decode_chart rendered = (items, true)
       /\ In (Event (RunCommand "helm" (template_args o)) (rendered, None)) t1
       /\ Forall (secret_checked (Up_ReleaseName o) (Up_Namespace o) t1) items.
Proof.
  assert (Hin : In (Event (RunCommand "helm" (upgrade_args o)) x) t)
    by (rewrite Ht, in_app_iff; right; by left).
  unfold cli_UpgradeInstall in Hx. destruct (_ && _) eqn:Es; [destruct Hx as [-> _]; done|].
  split. { rewrite andb_false_iff, !negb_false_iff in Es. exact Es. }
  apply exec_bind in Hx as (tp & tu & p & -> & Hp & Hx).
  pose proof (exec_only _ _ _ _ (preflight_quiet o) Hp) as Hq. rewrite Forall_forall in Hq.
  assert (Hnot : forall x, ~ In (Event (RunCommand "helm" (upgrade_args o)) x) tp)
    by (intros y Hy; by apply list_elem_of_In, Hq in Hy).
  destruct p as [[]|e]; [|destruct Hx as [-> _]; rewrite app_nil_r in Hin; by apply Hnot in Hin].
  apply exec_bind in Hx as (tc & tn & y & -> & ->%exec_call & [-> _]).
  assert (tp = t1) as <-; [|by apply preflight_ok].
  rewrite app_nil_r in Ht. apply app_eq_inv in Ht as [(l & -> & Hl)|(l & -> & Hl)].
  - destruct l as [|ev l]; [by rewrite app_nil_r|]. simpl in Hl. injection Hl as <- Hl.
    destruct (Hnot x). apply in_app_iff. right. by left.
  - destruct l as [|ev l]; [by rewrite app_nil_r|]. by destruct l.
Qed.

(** The labels of a namespace authorise its deletion for an environment,
    whose identifiers are not blank, exactly if it is marked as managed for
    this project and this environment, or carries the mark of the earlier
    reconciler for this project and is the dedicated namespace of this
    environment: a project label alone never does. *)
Theorem namespace_ownership labels namespace projectID environmentID
    (Hp : trim_space projectID <> "") (He : trim_space environmentID <> "") :
  namespaceOwnedByEnvironment labels namespace projectID environmentID = true
  <-> exists l, labels = Some l
      /\ trim_space (label "envplane.io/project-id" l) = trim_space projectID
      /\ (trim_space (label "envplane.io/managed" l) = "true"
            /\ trim_space (label "envplane.io/environment-id" l) = trim_space environmentID
          \/ trim_space (label "envplane.io/managed" l) <> "true"
            /\ trim_space (label "envplane.io/managed-by" l) = "same-cluster-project-reconciler"
            /\ trim_space namespace = "envplane-pr-" +:+ trim_space environmentID).
Proof.
  unfold namespaceOwnedByEnvironment. destruct labels as [l|]; [|split; [done|by intros (l & ? & _)]].
  cbv zeta. rewrite (proj2 (str_eq_false (trim_space projectID) "") Hp).
  rewrite (proj2 (str_eq_false (trim_space environmentID) "") He). simpl orb.
  set (m := trim_space (label "envplane.io/managed" l)). set (b := trim_space (label "envplane.io/managed-by" l)).
  set (lp := trim_space (label "envplane.io/project-id" l)).
  set (le := trim_space (label "envplane.io/environment-id" l)).
  rewrite orb_false_r. split.
  - intros Hown. exists l. split; [done|]. fold m b lp le.
    destruct (str_eq m "true") eqn:Em; go_bool; [naive_solver|].
    destruct (str_ne b _ || _) eqn:Eb; [done|]. rewrite orb_false_iff, negb_false_iff in Eb.
    destruct Eb as [Eb1%str_ne_false Eb2]. go_bool. naive_solver.
  - intros (l' & [= <-] & Hlp & Hcase). fold m b lp le in Hlp, Hcase.
    rewrite (proj2 (str_eq_true lp _) Hlp). destruct Hcase as [[Hm Hle]|(Hm & Hb & Hn)].
    + by rewrite (proj2 (str_eq_true m _) Hm), (proj2 (str_eq_true le _) Hle).
    + rewrite (proj2 (str_eq_false m _) Hm), (proj2 (str_ne_false b _) Hb). by apply str_eq_true.
Qed.
End CliProperties.

(** ** Witnesses *)

(** Responses without content, and a namespace that the sample environment owns. *)
Definition sample_labels : list (string * string) :=
  [("envplane.io/managed", "true"); ("envplane.io/project-id", "shop"); ("envplane.io/environment-id", "7")].
Definition sample_kube : KubeJson := {|
  parse_namespace := fun _ => Ok ("envplane-pr-7", Some sample_labels);
  parse_helm_status := fun _ => Ok {| St_Found := true; St_Status := "deployed"; St_Chart := "app";
                                      St_AppVersion := "1"; St_Namespace := "envplane-pr-7" |};
  parse_pods := fun _ => Ok [{| Ps_Phase := "Running"; Ps_Conditions := [("Ready", "True")] |}];
  parse_secret := fun _ => Some ([("app.kubernetes.io/managed-by", "Helm")],
    [("meta.helm.sh/release-name", "shop-7"); ("meta.helm.sh/release-namespace", "envplane-pr-7")]);
  decode_chart := fun _ => ([{| Ci_Kind := "Secret"; Ci_Name := "db"; Ci_Namespace := "" |}], true) |}.
Definition sample_quote : Quote := fun s => s.
Definition sample_net : GoNet := fun _ => None.
Definition sample_refs : ChartRefs := fun _ => true.
Definition sample_cmds (R : Type) (h : list (event cmd)) (c : cmd R) : R :=
  match c with RunCommand _ _ => (chars "x", None) | RunReadCommand _ => (chars "x", None) end.
Definition sample_upgrade : HelmUpgradeOptions :=
  {| Up_ReleaseName := "shop-7"; Up_ChartRef := "charts/app"; Up_ChartVersion := ""; Up_Namespace := "envplane-pr-7";
     Up_ValuesFile := ""; Up_CreateNamespace := false; Up_Wait := true; Up_Timeout := 300 |}.

Lemma upgrade_owns_secrets_witness :
  exists t1, Forall (secret_checked (H1 := sample_kube) "shop-7" "envplane-pr-7" t1)
    [{| Ci_Kind := "Secret"; Ci_Name := "db"; Ci_Namespace := "" |}].
Proof.
  set (p := cli_UpgradeInstall (H := sample_quote) (H0 := sample_net) (H1 := sample_kube) (H2 := sample_refs)
    sample_upgrade).
  destruct (upgrade_owns_secrets (H := sample_quote) (H0 := sample_net) (H1 := sample_kube) (H2 := sample_refs)
    sample_upgrade _ _ (firstn 2 (run sample_cmds [] p).1) (chars "x", None) []
    (run_exec sample_cmds p []) ltac:(vm_compute; reflexivity)) as (_ & rendered & items & Hi & _ & Hl).
  exists (firstn 2 (run sample_cmds [] p).1). injection Hi as <-. exact Hl.
Defined.

Lemma namespace_ownership_witness :
  namespaceOwnedByEnvironment (Some sample_labels) "envplane-pr-7" "shop" "7" = true.
Proof.
  apply namespace_ownership; [done|done|]. exists sample_labels.
  split; [reflexivity|]. split; [vm_compute; reflexivity|]. left. split; vm_compute; reflexivity.
Defined.
