(* ===== verification/HelmDirect.v ===== *)
(** * The Helm backend

    [internal/orchestrator/orchestrator.go]: [HelmDirectBackend], the
    deployment backend that applies, deletes and observes a release through a
    [HelmExecutor]; and what its operations do when the executor is
    [CLIHelmExecutor]. *)

From stdpp Require Import base list gmap strings.
From Stdlib Require Import ZArith Lia Ascii String.
From S2P Require Import Prelude GoStrings GoPath EnvStore HelmName OrchTypes HelmValues HelmCli.

Local Open Scope string_scope.
Local Open Scope Z_scope.
Local Open Scope list_scope.

(** The executor and the temporary file of the values: [os.CreateTemp],
    [WriteString] and [Close], which remove the file again when they fail. *)
Inductive direct_op : Type -> Type :=
| Helm {R} (op : helm_op R) : direct_op R
| CreateValues (payload : values) : direct_op (result go_error string)
| RemoveValues (name : string) : direct_op unit.

(** [helmDirectManifest], without the two constants. *)
Record helmDirectManifest := {
  Hm_Labels : list (string * string);
  Hm_ReleaseName : string; Hm_ReleaseNamespace : string; Hm_ChartPath : string; Hm_ChartRef : string;
  Hm_ChartVersion : string; Hm_Timeout : Z; Hm_Wait : bool;
  Hm_Identity : list (string * string); Hm_ImageTags : list (string * string);
  Hm_ValuesFile : string; Hm_ValuesObject : list (string * string) }.
Record Manifest := { Ma_Path : string; Ma_Kind : string; Ma_Content : bytes }.

(** [yamlMarshalCanonical] and [ManifestFilename] of the environment. *)
Class ManifestYaml := manifest_yaml : helmDirectManifest -> result go_error bytes.
Class EnvFiles (Y : Type) := {
  ManifestFilename : Env Y -> string; NamespaceManifestFilename : Env Y -> string;
  PathKustomizationFilename : Env Y -> string; GitOpsDirectory : Env Y -> string }.

Section Direct.
Context {Y : Type} `{Sha256} `{GoNet} `{Templates} `{Statuses}.
Implicit Types e : Env Y.

(** The end of [HelmDirectBackend.Delete], once the release is gone. *)
Definition delete_owned_namespace e (config : helmDirectConfig) (namespace : string)
    : prog helm_op (option go_error) :=
  if negb (shouldDeleteNamespace e config namespace) then Ret None
  else
    m <-- call (IsNamespaceManaged namespace (trim_space (E_Project e)) (trim_space (E_ID e)));;
    match m with
    | Err err => Ret (Some err)
    | Ok managed => if negb managed then Ret None else call (DeleteNamespace namespace)
    end.

(** [HelmDirectBackend.Delete] *)
Definition hd_Delete e (projectConfig : any_map) : prog helm_op (option go_error) :=
  let config := resolveHelmDirectConfig projectConfig in
  match renderReleaseName e projectConfig with
  | Err err => Ret (Some err)
  | Ok releaseName =>
      let namespace := targetNamespace e config in
      u <-- call (Uninstall releaseName namespace);;
      match u with
      | Some err => if negb (isHelmReleaseMissing err []) then Ret (Some err)
                    else delete_owned_namespace e config namespace
      | None => delete_owned_namespace e config namespace
      end
  end.

(** [checkReleaseReady] *)
Definition checkReleaseReady (namespace releaseName : string) (config : helmDirectConfig)
    : prog helm_op (result go_error string) :=
  if negb (wait config) then Ret (Ok StatusReady)
  else
    ready <-! call (Readiness releaseName namespace);;
    Ret (Ok (if negb ready then StatusCreating else StatusReady)).

(** [HelmDirectBackend.Status]; the status beside an error is not used. *)
Definition hd_Status e (projectConfig : any_map) : prog helm_op (result go_error string) :=
  let config := resolveHelmDirectConfig projectConfig in
  match renderReleaseName e projectConfig with
  | Err err => Ret (Err err)
  | Ok releaseName =>
      let namespace := targetNamespace e config in
      s <-! call (HelmStatusOp releaseName namespace);;
      if negb (St_Found s) then
        Ret (Ok (if existsb (str_eq (E_Status e))
                     [StatusTerminated; StatusDeleteFailed; StatusTerminating;
                      StatusGitOpsDeletePending; StatusDeleteRequested]
                 then StatusTerminated else "not_found"))
      else
        let st := to_lower (trim_space (St_Status s)) in
        if str_eq st "deployed" then checkReleaseReady namespace releaseName config
        else if existsb (str_eq st) ["pending-install"; "pending-upgrade"; "pending"] then
          r <-- call (Rollback releaseName namespace);;
          Ret (match r with
               | Some err => Err (wrapf "pending Helm release recovery failed" err)
               | None => Ok StatusCreating
               end)
        else Ret (Ok (if existsb (str_eq st) ["failed"; "superseded"; "uninstalled"; "uninstalling";
                                              "unknown"; "degraded"]
                      then StatusFailed else StatusCreating))
  end.

(** [DeploymentTarget] *)
Definition DeploymentTarget e (projectConfig : any_map) : result go_error (string * string) :=
  releaseName <-? renderReleaseName e projectConfig;;
  Ok (releaseName, targetNamespace e (resolveHelmDirectConfig projectConfig)).

Definition upgrade_options e (config : helmDirectConfig) (releaseName valuesFile : string) : HelmUpgradeOptions :=
  {| Up_ReleaseName := releaseName; Up_ChartRef := helmDirectChartReference e config;
     Up_ChartVersion := helmDirectChartVersion (chartRef config) (chartVersion config);
     Up_Namespace := targetNamespace e config; Up_ValuesFile := valuesFile;
     Up_CreateNamespace := createNamespace config; Up_Wait := wait config; Up_Timeout := timeout config |}.

(** [HelmDirectBackend.Apply]: [helmValuesFile], the upgrade, the deferred
    removal of the file. *)
Definition hd_Apply e (projectConfig : any_map) : prog direct_op (option go_error) :=
  let config := resolveHelmDirectConfig projectConfig in
  match renderReleaseName e projectConfig with
  | Err err => Ret (Some err)
  | Ok releaseName =>
      let valuesFile := trim_space (M_ValuesPath (E_rest e)) in
      if str_ne valuesFile ""
      then call (Helm (UpgradeInstall (upgrade_options e config releaseName valuesFile)))
      else
        f <-- call (CreateValues (values_object e));;
        match f with
        | Err err => Ret (Some err)
        | Ok name =>
            r <-- call (Helm (UpgradeInstall (upgrade_options e config releaseName name)));;
            _ <-- call (RemoveValues name);;
            Ret r
        end
  end.

Definition renderManagedLabels (projectID environmentID : string) : list (string * string) :=
  [("envplane.io/project-id", projectID); ("envplane.io/environment-id", environmentID);
   ("envplane.io/managed", "true")].

(** [renderHelmDirectManifest] before it is encoded; the labels are also the
    annotations, of the release and of the namespace. *)
Definition direct_manifest e (projectConfig : any_map) : result go_error helmDirectManifest :=
  let environmentID := trim_space (E_ID e) in
  refuse str_eq environmentID "" with errorf "environment id is required";;
  let projectID := trim_space (E_Project e) in
  refuse str_eq projectID "" with errorf "project is required";;
  releaseName <-? renderReleaseName e projectConfig;;
  let config := resolveHelmDirectConfig projectConfig in
  let valuesFile := trim_space (M_ValuesPath (E_rest e)) in
  let tags := renderHelmImageValues e in
  Ok {| Hm_Labels := renderManagedLabels projectID environmentID;
        Hm_ReleaseName := releaseName; Hm_ReleaseNamespace := targetNamespace e config;
        Hm_ChartPath := trim_space (M_GitOpsPath (E_rest e));
        Hm_ChartRef := helmDirectChartReference e config; Hm_ChartVersion := chartVersion config;
        Hm_Timeout := timeout config; Hm_Wait := wait config; Hm_Identity := renderIdentityValues e;
        Hm_ImageTags := if str_eq valuesFile "" then [] else tags;
        Hm_ValuesFile := valuesFile;
        Hm_ValuesObject := if str_eq valuesFile "" then tags else [] |}.

(** [HelmDirectBackend.Render] *)
Definition hd_Render `{EnvFiles Y} `{ManifestYaml} e (projectConfig : any_map) : result go_error (list Manifest) :=
  m <-? direct_manifest e projectConfig;;
  data <-? manifest_yaml m;;
  Ok [{| Ma_Path := ManifestFilename e; Ma_Kind := "HelmDirect";
         Ma_Content := if has_suffix (text data) (String (byte_of 10) "")
                       then firstn (List.length data - 1) data else data |}].
End Direct.

(** ** Lemmas *)

Section DirectLemmas.
Context {Y : Type} `{Sha256} `{GoNet} `{Templates} `{Statuses} `{Quote} `{KubeJson} `{ChartRefs}.
Implicit Types e : Env Y.

Definition deletes_namespace (ev : event cmd) : bool :=
  match ev with
  | @Event _ _ (RunCommand "kubectl" ("delete" :: "namespace" :: _)) _ => true
  | _ => false
  end.

(** The commands of the operations on a release delete no namespace. *)
Lemma uninstall_keeps r n t res : exec (cli_Uninstall r n) t res -> forallb (negb ∘ deletes_namespace) t = true.
Proof. intros (x & t' & -> & -> & _)%exec_bind_call. done. Qed.

(** What a deletion of the namespace has seen directly before. *)
Definition owned_read e (namespace : string) (t : list (event cmd)) : Prop :=
  exists t0 output name labels,
    t = t0 ++ [Event (RunReadCommand (get_namespace_args namespace)) (output, None)]
    /\ parse_namespace output = Ok (name, labels)
    /\ namespaceOwnedByEnvironment labels namespace (E_Project e) (E_ID e) = true.

Lemma owned_trimmed l ns p i :
  namespaceOwnedByEnvironment l ns (trim_space p) (trim_space i) = namespaceOwnedByEnvironment l ns p i.
Proof. unfold namespaceOwnedByEnvironment. by rewrite !trim_space_idem. Qed.

(** One read of the namespace, which owns it or not. *)
Lemma managed_exec e ns t res : trim_space ns <> "" ->
  exec (cli_IsNamespaceManaged true ns (trim_space (E_Project e)) (trim_space (E_ID e))) t res ->
  forallb (negb ∘ deletes_namespace) t = true
  /\ (res = Ok true -> owned_read e (trim_space ns) t).
Proof.
  intros Hns. unfold cli_IsNamespaceManaged, namespaceRead. cbv zeta.
  rewrite (proj2 (str_eq_false (trim_space ns) "") Hns).
  intros (t1 & t2 & r & -> & ([output err] & t3 & -> & [-> ->]) & [-> ->])%exec_bind. split; [done|].
  destruct err as [err|]; [destruct (ge_stderr err); by destruct (_ || _)|].
  destruct (parse_namespace output) as [[name labels]|] eqn:Ep; [|done].
  rewrite !trim_space_idem, owned_trimmed. intros [= Hown]. by exists [], output, name, labels.
Qed.

(** No namespace is deleted, or the target namespace at the end. *)
Definition deletes_owned e (c : helmDirectConfig) (ns : string) (t : list (event cmd)) : Prop :=
  forallb (negb ∘ deletes_namespace) t = true
  \/ shouldDeleteNamespace e c ns = true /\ exists t0 x,
       t = t0 ++ [Event (RunCommand "kubectl" (delete_namespace_args (trim_space ns))) x]
       /\ forallb (negb ∘ deletes_namespace) t0 = true /\ owned_read e (trim_space ns) t0.

Lemma deletes_owned_app e c ns t1 t2 : forallb (negb ∘ deletes_namespace) t1 = true ->
  deletes_owned e c ns t2 -> deletes_owned e c ns (t1 ++ t2).
Proof.
  intros Hq [Hq2|(Hs & t0 & x & -> & Hq2 & (t3 & o & n & l & -> & Hp & Hown))].
  - left. by rewrite forallb_app, Hq.
  - right. split; [done|]. exists (t1 ++ t3 ++ [Event (RunReadCommand (get_namespace_args (trim_space ns))) (o, None)]), x.
    rewrite <- !app_assoc. split; [done|]. split; [by rewrite forallb_app, Hq|].
    exists (t1 ++ t3), o, n, l. by rewrite <- app_assoc.
Qed.

Lemma should_delete_named e c ns : shouldDeleteNamespace e c ns = true ->
  equal_fold (trim_space (namespaceMode c)) "shared" = false /\ trim_space ns <> ""
  /\ (trim_space (M_Namespace (E_rest e)) = "" \/ trim_space ns = trim_space (M_Namespace (E_rest e))).
Proof.
  unfold shouldDeleteNamespace. destruct (equal_fold _ _); [done|]. cbv zeta.
  destruct (str_eq (trim_space ns) "") eqn:E; [done|]. apply str_eq_false in E.
  rewrite negb_true_iff, andb_false_iff. intros [Hs|Hs]; apply str_ne_false in Hs; auto.
Qed.

Lemma delete_owned_exec e c ns t res :
  exec (handle (cli true) (delete_owned_namespace e c ns)) t res -> deletes_owned e c ns t.
Proof.
  unfold delete_owned_namespace. destruct (shouldDeleteNamespace e c ns) eqn:Es; [|by intros [-> _]; left].
  pose proof (should_delete_named _ _ _ Es) as (_ & Hns & _).
  cbn [negb handle bind call cli]. intros (t1 & t2 & m & -> & [Hq Hown]%managed_exec & Hx)%exec_bind; [|done].
  destruct m as [[]|err]; [|by destruct Hx as [-> _]; left; rewrite app_nil_r
                           |by destruct Hx as [-> _]; left; rewrite app_nil_r].
  cbn [negb handle bind call cli] in Hx. unfold cli_DeleteNamespace in Hx. cbv zeta in Hx.
  rewrite (proj2 (str_eq_false (trim_space ns) "") Hns) in Hx. right. split; [done|].
  apply exec_bind in Hx as (t3 & t4 & r & -> & (x & t5 & -> & [-> _])%exec_bind_call & [-> _]).
  exists t1, x. split; [done|]. split; [done|]. by apply Hown.
Qed.

Lemma hd_Delete_exec e cfg t res : exec (handle (cli true) (hd_Delete e cfg)) t res ->
  deletes_owned e (resolveHelmDirectConfig cfg) (targetNamespace e (resolveHelmDirectConfig cfg)) t.
Proof.
  unfold hd_Delete. destruct (renderReleaseName e cfg) as [rel|err]; [|by intros [-> _]; left].
  cbv zeta. set (c := resolveHelmDirectConfig cfg). set (ns := targetNamespace e c).
  cbn [handle bind call cli]. intros (t1 & t2 & u & -> & Hu%uninstall_keeps & Hx)%exec_bind.
  destruct u as [err|]; [|apply deletes_owned_app; [done|by eapply delete_owned_exec]].
  destruct (negb _); [|apply deletes_owned_app; [done|by eapply delete_owned_exec]].
  destruct Hx as [-> _]. left. by rewrite app_nil_r.
Qed.

Lemma last_deletes t0 d t1 ev t2 : forallb (negb ∘ deletes_namespace) t0 = true ->
  deletes_namespace ev = true -> t0 ++ [d] = t1 ++ ev :: t2 -> t0 = t1 /\ d = ev /\ t2 = [].
Proof.
  intros Hq Hd [(l & -> & Hl)|(l & -> & Hl)]%app_eq_inv.
  - destruct l as [|ev' l]; [injection Hl as -> ->; by rewrite ?app_nil_r|].
    injection Hl as <- _. rewrite forallb_app in Hq. simpl in Hq. rewrite Hd in Hq. simpl in Hq.
    by rewrite andb_false_r in Hq.
  - destruct l as [|ev' l]; [injection Hl as <- <-; by rewrite app_nil_r|by destruct l].
Qed.

(** The temporary file that an event created, or removed. *)
Definition created_file (ev : event direct_op) : option string :=
  match ev with
  | @Event _ R op r =>
      match op in direct_op R return R -> option string with
      | CreateValues _ => fun r => match r with Ok name => Some name | Err _ => None end
      | _ => fun _ => None
      end r
  end.
Definition removed_file (ev : event direct_op) : option string :=
  match ev with @Event _ _ (RemoveValues name) _ => Some name | _ => None end.

Lemma hd_Apply_files e cfg t res : exec (hd_Apply e cfg) t res ->
  omap removed_file t = omap created_file t
  /\ forall name, In name (omap created_file t) -> exists t0 o u,
       t = t0 ++ [Event (Helm (UpgradeInstall o)) res; Event (RemoveValues name) u] /\ Up_ValuesFile o = name.
Proof.
  unfold hd_Apply. destruct (renderReleaseName e cfg) as [rel|err]; [|by intros [-> _]].
  cbv zeta. destruct (str_ne _ _); [by intros (r & t' & -> & [-> _])|].
  intros ([n|err] & t' & -> & Hx)%exec_bind_call; [|by destruct Hx as [-> _]].
  apply exec_bind_call in Hx as (r & t2 & -> & (u & t3 & -> & [-> ->])%exec_bind_call).
  split; [done|]. intros name [<-|[]]. exists [Event (CreateValues (values_object e)) (Ok n)]. by eexists _, _.
Qed.
End DirectLemmas.

(** ** Properties *)

Section DirectProperties.
Context {Y : Type} `{Sha256} `{GoNet} `{Templates} `{Statuses} `{Quote} `{KubeJson} `{ChartRefs}.
Implicit Types e : Env Y.

(** C35: Deleting an environment with helm and kubectl runs at most one
    [kubectl delete namespace], as its last command: for the target namespace,
    which is dedicated and the one that the environment names, directly after
    the namespace was read and its labels showed that this environment of this
    project owns it. *)
Theorem Delete_owned_namespace e cfg t res t1 ns args x t2
    (Hx : exec (handle (cli true) (hd_Delete e cfg)) t res)
    (Ht : t = t1 ++ Event (RunCommand "kubectl" ("delete" :: "namespace" :: ns :: args)) x :: t2) :
  let c := resolveHelmDirectConfig cfg in
  t2 = [] /\ ns = trim_space (targetNamespace e c)
  /\ equal_fold (trim_space (namespaceMode c)) "shared" = false
  /\ (trim_space (M_Namespace (E_rest e)) = "" \/ ns = trim_space (M_Namespace (E_rest e)))
  /\ owned_read e ns t1.
Proof.
  cbv zeta. apply hd_Delete_exec in Hx as [Hq|(Hs & t0 & y & -> & Hq & Hown)].
  { rewrite Ht, forallb_app in Hq. by apply andb_true_iff in Hq as [_ Hq]. }
  apply last_deletes in Ht as (-> & Hev & ->); [|done|done].
  injection Hev as <- _ _. apply should_delete_named in Hs as (Hm & _ & Hn). auto.
Qed.

(** Every execution of [Apply] that creates a values file ends with the
    upgrade that was given this file and the removal of exactly this file,
    whatever the upgrade returned; nothing else is created or removed. *)
Theorem Apply_removes_values e cfg t res (Hx : exec (hd_Apply e cfg) t res) :
  omap removed_file t = omap created_file t
  /\ forall name, In name (omap created_file t) -> exists t0 o u,
       t = t0 ++ [Event (Helm (UpgradeInstall o)) res; Event (RemoveValues name) u] /\ Up_ValuesFile o = name.
Proof. by apply (hd_Apply_files e cfg). Qed.

(** [Status] reports an environment as ready only when helm reports the
    release of this environment in its target namespace as deployed and, unless
    the configuration says not to wait, its pods were found ready. *)
Theorem Status_ready e cfg t
    (Hdistinct : ~ In StatusReady ["not_found"; StatusCreating; StatusFailed; StatusTerminated])
    (Hx : exec (hd_Status e cfg) t (Ok StatusReady)) :
  let c := resolveHelmDirectConfig cfg in
  exists rel s, renderReleaseName e cfg = Ok rel /\ St_Found s = true
    /\ to_lower (trim_space (St_Status s)) = "deployed"
    /\ t = Event (HelmStatusOp rel (targetNamespace e c)) (Ok s)
           :: (if wait c then [Event (Readiness rel (targetNamespace e c)) (Ok true)] else []).
Proof.
  cbv zeta. unfold hd_Status in Hx. destruct (renderReleaseName e cfg) as [rel|err]; [|by destruct Hx].
  cbv zeta in Hx. apply exec_pbind_ok in Hx as (t1 & t2 & s & -> & ->%exec_call & Hx).
  exists rel, s. split; [done|]. simpl in Hdistinct.
  destruct (St_Found s) eqn:Ef; simpl negb in Hx; cbv iota in Hx.
  2: { destruct Hx as [_ [= Hx]]. case_match; intuition congruence. }
  split; [done|]. destruct (str_eq _ "deployed") eqn:Ed.
  2: { destruct (existsb _ ["pending-install"; _; _]).
       - apply exec_bind_call in Hx as ([err|] & t3 & -> & [_ Hx]); [done|injection Hx as Hx; intuition congruence].
       - destruct Hx as [_ [= Hx]]. case_match; intuition congruence. }
  apply str_eq_true in Ed. split; [done|]. unfold checkReleaseReady in Hx.
  destruct (wait _); simpl negb in Hx; cbv iota in Hx; [|by destruct Hx as [-> _]].
  apply exec_pbind_ok in Hx as (t3 & t4 & [] & -> & ->%exec_call & [-> Hx]); [done|].
  injection Hx as Hx. intuition congruence.
Qed.

(** The labels that [Render] puts on a release and its namespace are the
    ones by which the namespace is found to be owned when the environment is
    deleted. *)
Theorem rendered_labels_own e cfg m namespace (Hm : direct_manifest e cfg = Ok m) :
  namespaceOwnedByEnvironment (Some (Hm_Labels m)) namespace (E_Project e) (E_ID e) = true.
Proof.
  unfold direct_manifest in Hm. cbv zeta in Hm. rewrite !refuse_ok in Hm.
  destruct Hm as (_ & _ & Hm). apply rbind_ok in Hm as (rel & _ & [= <-]). cbn [Hm_Labels].
  unfold namespaceOwnedByEnvironment. cbv zeta.
  set (p := trim_space (E_Project e)). set (i := trim_space (E_ID e)).
  change (label "envplane.io/project-id" (renderManagedLabels p i)) with p.
  change (label "envplane.io/environment-id" (renderManagedLabels p i)) with i.
  change (str_eq (trim_space (label "envplane.io/managed" (renderManagedLabels p i))) "true") with true.
  subst p i. rewrite !trim_space_idem, !(proj2 (str_eq_true _ _) eq_refl). by rewrite !orb_true_r.
Qed.

(** When the helm executable cannot be found, deleting an environment of a
    shared namespace reports success after that one failed attempt: the text of the
    error contains "not found", and the backend takes it for a missing release. *)
Lemma Delete_without_helm e cfg rel err
    (Hrel : renderReleaseName e cfg = Ok rel)
    (Hshared : equal_fold (trim_space (namespaceMode (resolveHelmDirectConfig cfg))) "shared" = true)
    (Hnf : ge_not_found err = true) (Htext : mentions (ge_text err) "not found" = true) :
  exec (handle (cli true) (hd_Delete e cfg))
    [Event (RunCommand "helm" ["uninstall"; rel; "--namespace";
       targetNamespace e (resolveHelmDirectConfig cfg)]) ([], Some err)] None.
Proof.
  unfold hd_Delete. rewrite Hrel. cbv zeta. set (ns := targetNamespace _ _).
  assert (Hm1 : isHelmReleaseMissing err [] = false).
  { unfold isHelmReleaseMissing. change (lower_text []) with "". cbv zeta. by rewrite Hnf. }
  assert (Hm2 : isHelmReleaseMissing (failed_for "helm delete" rel ns [] err) [] = true).
  { unfold isHelmReleaseMissing. change (lower_text []) with "". cbn [failed_for errorf ge_not_found].
    rewrite andb_false_r. apply orb_true_iff. right. unfold failed_for, errorf. cbn [ge_text].
    change (helmOutputMessage [] err) with (ge_text err). by do 6 apply mentions_app. }
  cbn [handle bind call cli]. unfold cli_Uninstall. exists ([], Some err), []. split; [done|]. cbn [bind call].
  rewrite Hm1. cbn [bind call handle]. rewrite Hm2. simpl negb. cbv iota.
  unfold delete_owned_namespace, shouldDeleteNamespace. by rewrite Hshared.
Qed.
End DirectProperties.

(** ** Witnesses *)

Definition sample_templates : Templates :=
  fun _ d => Ok (Td_ProjectID d +:+ "-" +:+ Td_EnvironmentID d).
Definition sample_statuses : Statuses := {|
  StatusCreating := "creating"; StatusReady := "ready"; StatusFailed := "failed";
  StatusDeleteRequested := "delete_requested"; StatusGitOpsDeletePending := "gitops_delete_pending";
  StatusDeleteFailed := "delete_failed"; StatusTerminating := "terminating"; StatusTerminated := "terminated";
  CleanupRequested := "requested"; CleanupBackendDeleting := "backend_deleting";
  CleanupTerminated := "terminated" |}.

Section Witnesses.
#[local] Existing Instances sample_hash sample_net sample_quote sample_kube sample_refs sample_templates sample_statuses.

Definition sample_delete (cfg : any_map) : prog cmd (option go_error) :=
  handle (cli true) (hd_Delete sample_env cfg).
Definition shared_config : any_map :=
  [("deployment", VMap [("helmDirect", VMap [("namespaceMode", VStr "shared")])])].
(** An executor whose operations succeed. *)
Definition sample_helm (R : Type) (h : list (event helm_op)) (op : helm_op R) : R :=
  match op with
  | UpgradeInstall _ => None
  | Uninstall _ _ => None
  | Rollback _ _ => None
  | DeleteNamespace _ => None
  | HelmStatusOp _ _ => Ok {| St_Found := true; St_Status := "deployed"; St_Chart := ""; St_AppVersion := "";
                             St_Namespace := "" |}
  | IsNamespaceManaged _ _ _ => Ok true
  | Readiness _ _ => Ok true
  | NamespaceExists _ => Ok false
  end.
Definition sample_direct (R : Type) (h : list (event direct_op)) (op : direct_op R) : R :=
  match op with
  | Helm op => sample_helm _ [] op
  | CreateValues _ => Ok "/tmp/values.yaml"
  | RemoveValues _ => tt
  end.
Definition no_helm : go_error :=
  {| ge_text := "exec: helm: executable file not found in $PATH"; ge_not_found := true; ge_deadline := false;
     ge_stderr := None |}.

Lemma Delete_owned_namespace_witness :
  owned_read sample_env "envplane-pr-7" (firstn 2 (run sample_cmds [] (sample_delete [])).1).
Proof.
  destruct (Delete_owned_namespace sample_env [] _ _
    (firstn 2 (run sample_cmds [] (sample_delete [])).1) "envplane-pr-7" ["--ignore-not-found=true"; "--wait=false"]
    (chars "x", None) [] (run_exec sample_cmds (sample_delete []) []) ltac:(vm_compute; reflexivity))
    as (_ & _ & _ & _ & Ho). exact Ho.
Defined.

Lemma Apply_removes_values_witness :
  omap removed_file (run sample_direct [] (hd_Apply sample_env [])).1 = ["/tmp/values.yaml"].
Proof.
  rewrite (proj1 (Apply_removes_values sample_env [] _ _ (run_exec sample_direct (hd_Apply sample_env []) []))).
  vm_compute. reflexivity.
Defined.

Lemma Status_ready_witness :
  exists rel, (run sample_helm [] (hd_Status sample_env [])).1
    = [Event (HelmStatusOp rel "envplane-pr-7") (sample_helm _ [] (HelmStatusOp rel "envplane-pr-7"));
       Event (Readiness rel "envplane-pr-7") (Ok true)].
Proof.
  destruct (Status_ready sample_env [] (run sample_helm [] (hd_Status sample_env [])).1) as (rel & s & Hrel & _).
  - vm_compute. intuition discriminate.
  - pose proof (run_exec sample_helm (hd_Status sample_env []) []) as Hx.
    replace (Ok StatusReady : result go_error string) with (run sample_helm [] (hd_Status sample_env [])).2
      by (vm_compute; reflexivity). exact Hx.
  - exists rel. vm_compute in Hrel. injection Hrel as <-. vm_compute. reflexivity.
Defined.

Lemma rendered_labels_own_witness : exists m,
  namespaceOwnedByEnvironment (Some (Hm_Labels m)) "envplane-pr-7" "shop" "7" = true.
Proof.
  destruct (direct_manifest sample_env []) as [m|err] eqn:E; [|vm_compute in E; discriminate E].
  exists m. exact (rendered_labels_own sample_env [] m "envplane-pr-7" E).
Defined.

End Witnesses.
