(* ===== verification/Orchestrator.v ===== *)
(** * The environment orchestrator

    [internal/orchestrator/orchestrator.go]: [EnvironmentOrchestrator], which
    creates, deletes and observes environments over a store, a deployment
    backend and a GitOps writer, as programs over their calls; and the Flux and
    manifest backends. *)

From stdpp Require Import base list gmap strings sorting.
From Stdlib Require Import ZArith Lia Ascii String.
From S2P Require Import Prelude GoStrings GoPath EnvStore OrchTypes HelmDirect.

Local Open Scope string_scope.
Local Open Scope Z_scope.
Local Open Scope list_scope.

(** ** Backends *)

Definition FluxCD : string := "fluxcd".
Definition HelmDirectType : string := "helm_direct".
Definition GitOpsManifestType : string := "gitops_manifest".

(** [NormalizeDeploymentBackendType] *)
Definition NormalizeDeploymentBackendType (raw : string) : string :=
  let t := to_lower (trim_space raw) in
  if existsb (str_eq t) [HelmDirectType; FluxCD; GitOpsManifestType] then t
  else if str_eq t "helm-direct" then HelmDirectType
  else if str_eq t "flux" || str_eq t "flux_cd" then FluxCD
  else t.

Inductive backend : Type := BackendHelmDirect | BackendFlux | BackendGitOpsManifest.
(** [ResolveDeploymentBackend] *)
Definition ResolveDeploymentBackend `{Quote} (backendType : string) : result go_error backend :=
  let t := NormalizeDeploymentBackendType backendType in
  if str_eq t "" || str_eq t HelmDirectType then Ok BackendHelmDirect
  else if str_eq t FluxCD then Ok BackendFlux
  else if str_eq t GitOpsManifestType then Ok BackendGitOpsManifest
  else Err (errorf ("unsupported deployment backend " +:+ quote t +:+ ", supported: fluxcd, helm_direct")).
(** Does it implement [deploymentBackendWithWriter]? *)
Definition with_writer (b : backend) : bool := match b with BackendFlux => true | _ => false end.

Record CommitResult := { Cr_PullRequestURL : string }.

Section Calls.
Context {Y : Type}.

(** The calls of an operation: the store, the clock, the resolved backend and
    the writer. *)
Inductive orch_call : Type -> Type :=
| StoreGet (id : string) : orch_call (result store_error (Env Y))
| StoreSave (e : Env Y) : orch_call (option store_error)
| Now : orch_call Z
| ResolveBackend (config : any_map) : orch_call (result go_error backend)
| Render (b : backend) (e : Env Y) (config : any_map) : orch_call (result go_error (list Manifest))
| Apply (b : backend) (e : Env Y) (config : any_map) : orch_call (option go_error)
| DeleteBackend (b : backend) (e : Env Y) (config : any_map) : orch_call (option go_error)
| BackendStatus (b : backend) (e : Env Y) (config : any_map) : orch_call (result go_error string)
| WriteManifest (path : string) (content : bytes) (message : string) : orch_call (result go_error string)
| RemovePath (path message : string) : orch_call (option go_error)
| Commit (message : string) : orch_call (result go_error CommitResult).

(** What an operation returns: the environment; the environment and an error;
    or the zero environment and an error of the store. *)
Inductive outcome : Type :=
| Done (e : Env Y)
| Failed (e : Env Y) (err : go_error)
| NoEnvironment (err : store_error + go_error).

(** ** The fields that the orchestrator changes *)

Definition set_more (m : env_more Y) (lastError phase : string) (attempts : Z) (verified : bool)
    (mp np kp pr : string) : env_more Y :=
  {| M_Namespace := M_Namespace m; M_Product := M_Product m; M_Domain := M_Domain m; M_URL := M_URL m;
     M_ValuesPath := M_ValuesPath m; M_GitOpsPath := M_GitOpsPath m; M_ChartsApp := M_ChartsApp m;
     M_Services := M_Services m; M_BaseServices := M_BaseServices m; M_Components := M_Components m;
     M_Overrides := M_Overrides m; M_ReleasePlanID := M_ReleasePlanID m;
     M_ReleasePlanDigest := M_ReleasePlanDigest m; M_FluxStatus := M_FluxStatus m;
     M_LastError := lastError; M_CleanupPhase := phase; M_CleanupAttempts := attempts;
     M_CleanupVerified := verified; M_ManifestPath := mp; M_NamespaceManifestPath := np;
     M_KustomizationManifestPath := kp; M_PullRequestURL := pr; M_rest := M_rest m |}.
Definition set_env (e : Env Y) (status : string) (updated : Z) (m : env_more Y) : Env Y :=
  {| E_TenantID := E_TenantID e; E_ID := E_ID e; E_Project := E_Project e;
     E_PullRequestID := E_PullRequestID e; E_Branch := E_Branch e; E_Commit := E_Commit e;
     E_Status := status; E_Mode := E_Mode e; E_TTLHours := E_TTLHours e;
     E_CreatedAt := E_CreatedAt e; E_UpdatedAt := updated; E_rest := m |}.
Definition set_error (m : env_more Y) (s : string) : env_more Y :=
  set_more m s (M_CleanupPhase m) (M_CleanupAttempts m) (M_CleanupVerified m) (M_ManifestPath m)
    (M_NamespaceManifestPath m) (M_KustomizationManifestPath m) (M_PullRequestURL m).
Definition set_cleanup (m : env_more Y) (s phase : string) (attempts : Z) (verified : bool) : env_more Y :=
  set_more m s phase attempts verified (M_ManifestPath m)
    (M_NamespaceManifestPath m) (M_KustomizationManifestPath m) (M_PullRequestURL m).
Definition set_paths (m : env_more Y) (mp np kp : string) : env_more Y :=
  set_more m (M_LastError m) (M_CleanupPhase m) (M_CleanupAttempts m) (M_CleanupVerified m) mp np kp
    (M_PullRequestURL m).
Definition set_pr (e : Env Y) (url : string) : Env Y :=
  let m := E_rest e in
  set_env e (E_Status e) (E_UpdatedAt e)
    (set_more m (M_LastError m) (M_CleanupPhase m) (M_CleanupAttempts m) (M_CleanupVerified m)
       (M_ManifestPath m) (M_NamespaceManifestPath m) (M_KustomizationManifestPath m) url).

Section Operations.
Context `{Statuses} `{EnvFiles Y}.

(** [environment.Status = status; LastError = err.Error(); UpdatedAt = now();
    _ = store.Save(environment); return environment, err] *)
Definition fail_with (status : string) (e : Env Y) (err : go_error) : prog orch_call outcome :=
  now <-- call Now;;
  let e := set_env e status now (set_error (E_rest e) (ge_text err)) in
  _ <-- call (StoreSave e);;
  Ret (Failed e err).
(** [if err := store.Save(environment); err != nil { return {}, err }] *)
Definition save_or_fail (e : Env Y) : prog orch_call outcome :=
  s <-- call (StoreSave e);;
  Ret (match s with None => Done e | Some err => NoEnvironment (inl err) end).
Definition merge_pr (e : Env Y) (c : CommitResult) : Env Y :=
  if str_ne (Cr_PullRequestURL c) "" then set_pr e (Cr_PullRequestURL c) else e.

(** The loop of [Create] over the manifests. *)
Definition record_path (e : Env Y) (manifest path : string) : Env Y :=
  let m := E_rest e in
  let keep mp np kp := set_env e (E_Status e) (E_UpdatedAt e) (set_paths m mp np kp) in
  if str_eq manifest (ManifestFilename e)
  then keep path (M_NamespaceManifestPath m) (M_KustomizationManifestPath m)
  else if str_eq manifest (NamespaceManifestFilename e)
  then keep (M_ManifestPath m) path (M_KustomizationManifestPath m)
  else if str_eq manifest (PathKustomizationFilename e)
  then keep (M_ManifestPath m) (M_NamespaceManifestPath m) path
  else e.
Fixpoint write_manifests (e : Env Y) (l : list Manifest) : prog orch_call (Env Y * option go_error) :=
  match l with
  | [] => Ret (e, None)
  | m :: l' =>
      w <-- call (WriteManifest (Ma_Path m) (Ma_Content m)
                    ("envplane: create " +:+ E_ID e +:+ " " +:+ Ma_Kind m));;
      match w with
      | Err err => Ret (e, Some err)
      | Ok path => write_manifests (record_path e (Ma_Path m) path) l'
      end
  end.

(** [ApplyWithWriter] of Flux, or [Apply] and a commit. *)
Definition apply_commit (b : backend) (e : Env Y) (config : any_map) : prog orch_call (result go_error CommitResult) :=
  if with_writer b then call (Commit ("envplane: create " +:+ E_ID e))
  else
    a <-- call (Apply b e config);;
    match a with
    | Some err => Ret (Err err)
    | None => call (Commit ("envplane: create " +:+ E_ID e))
    end.
(** [DeleteWithWriter] of Flux, or [Delete], the removal of the manifests and a
    commit. *)
Definition delete_commit (b : backend) (e : Env Y) (config : any_map) : prog orch_call (result go_error CommitResult) :=
  let remove :=
    r <-- call (RemovePath (GitOpsDirectory e) ("envplane: delete manifests " +:+ E_ID e));;
    match r with
    | Some err => Ret (Err err)
    | None => call (Commit ("envplane: delete " +:+ E_ID e))
    end in
  if with_writer b then remove
  else
    d <-- call (DeleteBackend b e config);;
    match d with Some err => Ret (Err err) | None => remove end.

(** [CreateWithWriterAndProjectConfig] with a writer. *)
Definition Create (e : Env Y) (config : any_map) : prog orch_call outcome :=
  b <-- call (ResolveBackend config);;
  match b with
  | Err err => fail_with StatusFailed e err
  | Ok b =>
      r <-- call (Render b e config);;
      match r with
      | Err err => fail_with StatusFailed e err
      | Ok manifests =>
          now <-- call Now;;
          w <-- write_manifests (set_env e StatusCreating now (set_error (E_rest e) "")) manifests;;
          match w with
          | (e, Some err) => fail_with StatusFailed e err
          | (e, None) =>
              c <-- apply_commit b e config;;
              match c with
              | Err err => fail_with StatusFailed e err
              | Ok commit => save_or_fail (merge_pr e commit)
              end
          end
      end
  end.

(** [DeleteWithWriterAndProjectConfig] with a writer. *)
Definition OrchDelete (id : string) (config : any_map) : prog orch_call outcome :=
  g <-- call (StoreGet id);;
  match g with
  | Err err => Ret (NoEnvironment (inl err))
  | Ok e =>
      if str_eq (E_Status e) StatusTerminated then Ret (Done e)
      else
        now <-- call Now;;
        let e := set_env e StatusDeleteRequested now
                   (set_cleanup (E_rest e) "" CleanupRequested (M_CleanupAttempts (E_rest e) + 1) false) in
        _ <-- call (StoreSave e);;
        now <-- call Now;;
        let e := set_env e StatusGitOpsDeletePending now
                   (set_cleanup (E_rest e) "" CleanupBackendDeleting (M_CleanupAttempts (E_rest e)) false) in
        _ <-- call (StoreSave e);;
        b <-- call (ResolveBackend config);;
        match b with
        | Err err => fail_with StatusDeleteFailed e err
        | Ok b =>
            c <-- delete_commit b e config;;
            match c with
            | Err err => fail_with StatusDeleteFailed e err
            | Ok commit =>
                let e := merge_pr e commit in
                now <-- call Now;;
                save_or_fail (set_env e StatusTerminated now
                  (set_paths (set_cleanup (E_rest e) "" CleanupTerminated (M_CleanupAttempts (E_rest e)) true)
                     "" "" ""))
            end
        end
  end.

(** [EnvironmentOrchestrator.Status] *)
Definition Status (id : string) (config : any_map) : prog orch_call outcome :=
  g <-- call (StoreGet id);;
  match g with
  | Err err => Ret (NoEnvironment (inl err))
  | Ok e =>
      b <-- call (ResolveBackend config);;
      match b with
      | Err err => Ret (NoEnvironment (inr err))
      | Ok b =>
          s <-- call (BackendStatus b e config);;
          match s with
          | Err err => Ret (NoEnvironment (inr err))
          | Ok status =>
              now <-- call Now;;
              save_or_fail (set_env e status now (set_error (E_rest e) ""))
          end
      end
  end.

(** [UpdateStatus] *)
Definition UpdateStatus (id status message : string) : prog orch_call outcome :=
  g <-- call (StoreGet id);;
  match g with
  | Err err => Ret (NoEnvironment (inl err))
  | Ok e =>
      now <-- call Now;;
      save_or_fail (set_env e status now
        (set_error (E_rest e) (if str_eq status StatusFailed then message else "")))
  end.

(** [FluxBackend.Status] *)
Fixpoint first_unready (l : list flux_resource) : option string :=
  match l with
  | [] => None
  | r :: l' => if Fx_Failed r then Some StatusFailed
               else if negb (Fx_Ready r) then Some StatusCreating else first_unready l'
  end.
Definition flux_Status (e : Env Y) : string :=
  match M_FluxStatus (E_rest e) with
  | None => E_Status e
  | Some s =>
      if str_ne (Fs_Status s) "" then Fs_Status s
      else match Fs_HelmReleases s, Fs_Kustomizations s with
           | [], [] => E_Status e
           | hs, ks => match first_unready (hs ++ ks) with Some st => st | None => StatusReady end
           end
  end.
End Operations.
End Calls.
Arguments orch_call Y : clear implicits.
Arguments outcome Y : clear implicits.

(** ** Lemmas *)

(** The calls in order, as an intro pattern can follow them. *)
Lemma exec_ret {E A} (a b : A) t : exec (E := E) (Ret a) t b <-> t = [] /\ b = a.
Proof. simpl. naive_solver. Qed.

Section OrchLemmas.
Context {Y : Type} `{Statuses} `{EnvFiles Y}.
Implicit Types (e : Env Y) (t : list (event (orch_call Y))).

(** The environments that an execution saves, whether or not the store takes
    them. *)
Definition saved (ev : event (orch_call Y)) : option (Env Y) :=
  match ev with @Event _ _ (StoreSave e) _ => Some e | _ => None end.

Lemma fail_with_exec status e err t o : exec (fail_with status e err) t o ->
  exists now r, let e' := set_env e status now (set_error (E_rest e) (ge_text err)) in
    t = [Event Now now; Event (StoreSave e') r] /\ o = Failed e' err.
Proof.
  unfold fail_with. intros (now & t1 & -> & (r & t2 & -> & [-> ->]%exec_ret)%exec_bind_call)%exec_bind_call. by exists now, r.
Qed.

Lemma save_or_fail_exec e t o : exec (save_or_fail e) t o ->
  exists r, t = [Event (StoreSave e) r]
    /\ o = match r with None => Done e | Some err => NoEnvironment (inl err) end.
Proof. unfold save_or_fail. intros (r & t1 & -> & [-> ->]%exec_ret)%exec_bind_call. by exists r. Qed.

(** What a deletion that the backend and the writer carried out has done. *)
Definition removed (b : backend) e (config : any_map) commit t : Prop :=
  t = (if with_writer b then [] else [Event (DeleteBackend b e config) None])
      ++ [Event (RemovePath (GitOpsDirectory e) ("envplane: delete manifests " +:+ E_ID e)) None;
          Event (Commit ("envplane: delete " +:+ E_ID e)) (Ok commit)].

Lemma delete_commit_exec b e config t r : exec (delete_commit b e config) t r ->
  omap saved t = [] /\ (forall commit, r = Ok commit -> removed b e config commit t).
Proof.
  assert (Hrem : forall t, exec (r <-- call (RemovePath (GitOpsDirectory e) ("envplane: delete manifests " +:+ E_ID e));;
      match r with
      | Some err => Ret (Err err)
      | None => call (Commit ("envplane: delete " +:+ E_ID e))
      end) t r -> omap saved t = [] /\ forall commit, r = Ok commit ->
        t = [Event (RemovePath (GitOpsDirectory e) ("envplane: delete manifests " +:+ E_ID e)) None;
             Event (Commit ("envplane: delete " +:+ E_ID e)) (Ok commit)]).
  { intros t0 ([err|] & t1 & -> & Hx)%exec_bind_call.
    - apply exec_ret in Hx as [-> ->]. done.
    - apply exec_call in Hx as ->. split; [done|]. by intros commit ->. }
  unfold delete_commit, removed. cbv zeta. destruct (with_writer b); [apply Hrem|].
  intros ([err|] & t1 & -> & Hx)%exec_bind_call; [by apply exec_ret in Hx as [-> ->]|].
  apply Hrem in Hx as [Hs Hc]. split; [done|]. intros commit Hr. by rewrite (Hc _ Hr).
Qed.

(** The two environments that a deletion saves before it starts. *)
Definition requested e n : Env Y :=
  set_env e StatusDeleteRequested n
    (set_cleanup (E_rest e) "" CleanupRequested (M_CleanupAttempts (E_rest e) + 1) false).
Definition deleting e n : Env Y :=
  set_env e StatusGitOpsDeletePending n
    (set_cleanup (E_rest e) "" CleanupBackendDeleting (M_CleanupAttempts (E_rest e)) false).
Definition terminated e n : Env Y :=
  set_env e StatusTerminated n
    (set_paths (set_cleanup (E_rest e) "" CleanupTerminated (M_CleanupAttempts (E_rest e)) true) "" "" "").
Definition delete_failed e n (err : go_error) : Env Y :=
  set_env e StatusDeleteFailed n (set_error (E_rest e) (ge_text err)).

(** Every execution of [Delete]. *)
Lemma OrchDelete_exec id config t o : exec (OrchDelete id config) t o ->
  (exists err, t = [Event (StoreGet id) (Err err)] /\ o = NoEnvironment (inl err))
  \/ (exists e, t = [Event (StoreGet id) (Ok e)] /\ o = Done e /\ E_Status e = StatusTerminated)
  \/ exists e n1 r1 n2 r2 rb tb,
       let e2 := deleting (requested e n1) n2 in
       E_Status e <> StatusTerminated
       /\ t = [Event (StoreGet id) (Ok e); Event Now n1; Event (StoreSave (requested e n1)) r1;
               Event Now n2; Event (StoreSave e2) r2; Event (ResolveBackend config) rb] ++ tb
       /\ ((exists err n r, o = Failed (delete_failed e2 n err) err
              /\ exists tc, omap saved tc = [] /\ tb = tc ++ [Event Now n; Event (StoreSave (delete_failed e2 n err)) r])
           \/ exists b commit tc n r, rb = Ok b /\ removed b e2 config commit tc /\ omap saved tc = []
              /\ let e3 := terminated (merge_pr e2 commit) n in
                 tb = tc ++ [Event Now n; Event (StoreSave e3) r]
                 /\ o = match r with None => Done e3 | Some err => NoEnvironment (inl err) end).
Proof.
  unfold OrchDelete. intros ([e|err] & t1 & -> & Hx)%exec_bind_call; [|left; apply exec_ret in Hx as [-> ->]; eauto].
  destruct (str_eq (E_Status e) StatusTerminated) eqn:Es.
  { right; left. apply exec_ret in Hx as [-> ->]. apply str_eq_true in Es. eauto. }
  apply str_eq_false in Es. right; right. cbv zeta in Hx.
  apply exec_bind_call in Hx as (n1 & t2 & -> & (r1 & t3 & -> & (n2 & t4 & -> & (r2 & t5 & -> & Hx)
    %exec_bind_call)%exec_bind_call)%exec_bind_call).
  apply exec_bind_call in Hx as (rb & t6 & -> & Hx). exists e, n1, r1, n2, r2, rb, t6. cbv zeta.
  split; [done|]. split; [done|]. destruct rb as [b|err].
  - apply exec_bind in Hx as (tc & td & [commit|err] & -> & [Hs Hc]%delete_commit_exec & Hx).
    + right. apply exec_bind_call in Hx as (n & te & -> & (r & -> & ->)%save_or_fail_exec).
      exists b, commit, tc, n, r. split; [done|]. split; [by apply Hc|]. done.
    + left. apply fail_with_exec in Hx as (n & r & -> & ->). exists err, n, r. split; [done|]. by exists tc.
  - left. apply fail_with_exec in Hx as (n & r & -> & ->). exists err, n, r. split; [done|]. by exists [].
Qed.

(** What a deletion read from the store. *)
Definition read (ev : event (orch_call Y)) : option (Env Y) :=
  match ev with @Event _ R c r => match c in orch_call _ R return R -> option (Env Y) with
    | StoreGet _ => fun r => match r with Ok e => Some e | Err _ => None end
    | _ => fun _ => None end r end.

(** The writes of [write_manifests], and what it makes of the environment. *)
Fixpoint written e (l : list Manifest) t (e' : Env Y) : Prop :=
  match l with
  | [] => t = [] /\ e' = e
  | m :: l' => exists path t',
      t = Event (WriteManifest (Ma_Path m) (Ma_Content m) ("envplane: create " +:+ E_ID e +:+ " " +:+ Ma_Kind m))
            (Ok path) :: t'
      /\ written (record_path e (Ma_Path m) path) l' t' e'
  end.

Lemma record_path_env e f p :
  exists mp np kp, record_path e f p = set_env e (E_Status e) (E_UpdatedAt e) (set_paths (E_rest e) mp np kp).
Proof.
  unfold record_path. cbv zeta. repeat destruct (str_eq f _); eauto.
  exists (M_ManifestPath (E_rest e)), (M_NamespaceManifestPath (E_rest e)), (M_KustomizationManifestPath (E_rest e)).
  by destruct e as [??????????? []].
Qed.
Lemma written_env l e t e' : written e l t e' ->
  exists mp np kp, e' = set_env e (E_Status e) (E_UpdatedAt e) (set_paths (E_rest e) mp np kp).
Proof.
  revert e t. induction l as [|m l IH]; intros e t; cbn [written].
  - intros [_ ->]. exists (M_ManifestPath (E_rest e)), (M_NamespaceManifestPath (E_rest e)), (M_KustomizationManifestPath (E_rest e)).
    by destruct e as [??????????? []].
  - intros (path & t' & _ & Hw). apply IH in Hw as (mp & np & kp & ->).
    destruct (record_path_env e (Ma_Path m) path) as (? & ? & ? & ->). by exists mp, np, kp.
Qed.

Lemma write_manifests_exec l e t r : exec (write_manifests e l) t r ->
  omap saved t = [] /\ (r.2 = None -> written e l t r.1).
Proof.
  revert e t. induction l as [|m l IH]; intros e t; cbn [write_manifests].
  - by intros [-> ->]%exec_ret.
  - intros ([path|err] & t' & -> & Hx)%exec_bind_call.
    + apply IH in Hx as [Hs Hw]. split; [done|]. intros Hr. exists path, t'. auto.
    + by apply exec_ret in Hx as [-> ->].
Qed.

(** What an apply that the backend and the writer carried out has done. *)
Definition applied (b : backend) e (config : any_map) commit t : Prop :=
  t = (if with_writer b then [] else [Event (Apply b e config) None])
      ++ [Event (Commit ("envplane: create " +:+ E_ID e)) (Ok commit)].
Lemma apply_commit_exec b e config t r : exec (apply_commit b e config) t r ->
  omap saved t = [] /\ (forall commit, r = Ok commit -> applied b e config commit t).
Proof.
  unfold apply_commit, applied. destruct (with_writer b).
  - intros Hx. apply exec_call in Hx as ->. split; [done|]. by intros commit ->.
  - intros ([err|] & t1 & -> & Hx)%exec_bind_call; [by apply exec_ret in Hx as [-> ->]|].
    apply exec_call in Hx as ->. split; [done|]. by intros commit ->.
Qed.

(** Every execution of [Create]. *)
Lemma Create_exec e config t o : exec (Create e config) t o ->
  (exists e1 err tc n r, omap saved tc = [] /\ o = Failed (set_env e1 StatusFailed n (set_error (E_rest e1) (ge_text err))) err
      /\ t = tc ++ [Event Now n; Event (StoreSave (set_env e1 StatusFailed n (set_error (E_rest e1) (ge_text err)))) r])
  \/ exists b l n tw e1 ta commit r,
       written (set_env e StatusCreating n (set_error (E_rest e) "")) l tw e1
       /\ applied b e1 config commit ta /\ omap saved tw = [] /\ omap saved ta = []
       /\ t = [Event (ResolveBackend config) (Ok b); Event (Render b e config) (Ok l); Event Now n] ++ tw ++ ta
               ++ [Event (StoreSave (merge_pr e1 commit)) r]
       /\ o = match r with None => Done (merge_pr e1 commit) | Some err => NoEnvironment (inl err) end.
Proof.
  unfold Create. intros ([b|err] & t1 & -> & Hx)%exec_bind_call.
  2:{ left. apply fail_with_exec in Hx as (n & r & -> & ->). by exists e, err, [Event (ResolveBackend config) (Err err)], n, r. }
  apply exec_bind_call in Hx as ([l|err] & t2 & -> & Hx).
  2:{ left. apply fail_with_exec in Hx as (n & r & -> & ->).
      by exists e, err, [Event (ResolveBackend config) (Ok b); Event (Render b e config) (Err err)], n, r. }
  apply exec_bind_call in Hx as (n & t3 & -> & Hx).
  apply exec_bind in Hx as (tw & t4 & [e1 [err|]] & -> & [Hsw Hw]%write_manifests_exec & Hx).
  { left. apply fail_with_exec in Hx as (n' & r & -> & ->).
    by exists e1, err, ([Event (ResolveBackend config) (Ok b); Event (Render b e config) (Ok l); Event Now n] ++ tw), n', r. }
  specialize (Hw eq_refl). cbn [fst] in Hw.
  apply exec_bind in Hx as (ta & t5 & [commit|err] & -> & [Hsa Ha]%apply_commit_exec & Hx).
  - right. apply save_or_fail_exec in Hx as (r & -> & ->). exists b, l, n, tw, e1, ta, commit, r. eauto 10.
  - left. apply fail_with_exec in Hx as (n' & r & -> & ->).
    exists e1, err, ([Event (ResolveBackend config) (Ok b); Event (Render b e config) (Ok l); Event Now n] ++ tw ++ ta), n', r.
    split; [by rewrite !omap_app, Hsw, Hsa|]. split; [done|]. by rewrite <- !app_assoc.
Qed.
End OrchLemmas.

(** ** The life of an environment that is deleted

    The contract of [Delete]: how the status, the number of attempts and the
    verification of the cleanup evolve. *)

Inductive phase : Type := Alive | DeleteAsked | Deleting | CleanupFailed | Gone.
Record cleanup := { cl_phase : phase; cl_attempts : Z; cl_verified : bool }.

Inductive cleanup_step : cleanup -> cleanup -> Prop :=
| Ask c : cl_phase c <> Gone ->
    cleanup_step c {| cl_phase := DeleteAsked; cl_attempts := cl_attempts c + 1; cl_verified := false |}
| Start n : cleanup_step {| cl_phase := DeleteAsked; cl_attempts := n; cl_verified := false |}
                         {| cl_phase := Deleting; cl_attempts := n; cl_verified := false |}
| GiveUp n : cleanup_step {| cl_phase := Deleting; cl_attempts := n; cl_verified := false |}
                          {| cl_phase := CleanupFailed; cl_attempts := n; cl_verified := false |}
| Finish n : cleanup_step {| cl_phase := Deleting; cl_attempts := n; cl_verified := false |}
                          {| cl_phase := Gone; cl_attempts := n; cl_verified := true |}.
(** The states that are visited, one step after the other. *)
Fixpoint cleanup_run (c : cleanup) (l : list cleanup) : Prop :=
  match l with
  | [] => True
  | c' :: l' => cleanup_step c c' /\ cleanup_run c' l'
  end.
(** A cleanup is verified only when it is over. *)
Definition cleanup_ok (c : cleanup) : Prop := cl_verified c = true -> cl_phase c = Gone.

Definition phase_of `{Statuses} (status : string) : phase :=
  if str_eq status StatusTerminated then Gone
  else if str_eq status StatusDeleteRequested then DeleteAsked
  else if str_eq status StatusGitOpsDeletePending then Deleting
  else if str_eq status StatusDeleteFailed then CleanupFailed else Alive.
Definition cleanup_of `{Statuses} {Y} (e : Env Y) : cleanup :=
  {| cl_phase := phase_of (E_Status e); cl_attempts := M_CleanupAttempts (E_rest e);
     cl_verified := M_CleanupVerified (E_rest e) |}.

(** The constants are different. *)
Class DistinctStatuses `{Statuses} := {
  terminated_not_requested : StatusDeleteRequested <> StatusTerminated;
  terminated_not_deleting : StatusGitOpsDeletePending <> StatusTerminated;
  terminated_not_failed : StatusDeleteFailed <> StatusTerminated;
  requested_not_deleting : StatusGitOpsDeletePending <> StatusDeleteRequested;
  requested_not_failed : StatusDeleteFailed <> StatusDeleteRequested;
  deleting_not_failed : StatusDeleteFailed <> StatusGitOpsDeletePending }.

Lemma cleanup_step_ok c c' : cleanup_step c c' -> cleanup_ok c'.
Proof. by destruct 1. Qed.
Lemma cleanup_run_ok c l : cleanup_ok c -> cleanup_run c l -> Forall cleanup_ok l.
Proof.
  revert c. induction l as [|c' l IH]; intros c Hc; cbn [cleanup_run]; [constructor|].
  intros [Hs Hr]. apply cleanup_step_ok in Hs. constructor; eauto.
Qed.

Section Phases.
Context {Y : Type} `{DistinctStatuses} `{EnvFiles Y}.
Implicit Types (e : Env Y) (t : list (event (orch_call Y))).

Lemma phase_requested : phase_of StatusDeleteRequested = DeleteAsked.
Proof.
  unfold phase_of. by rewrite (proj2 (str_eq_false _ _) terminated_not_requested), (proj2 (str_eq_true _ _) eq_refl).
Qed.
Lemma phase_deleting : phase_of StatusGitOpsDeletePending = Deleting.
Proof.
  unfold phase_of. by rewrite (proj2 (str_eq_false _ _) terminated_not_deleting),
    (proj2 (str_eq_false _ _) requested_not_deleting), (proj2 (str_eq_true _ _) eq_refl).
Qed.
Lemma phase_failed : phase_of StatusDeleteFailed = CleanupFailed.
Proof.
  unfold phase_of. by rewrite (proj2 (str_eq_false _ _) terminated_not_failed),
    (proj2 (str_eq_false _ _) requested_not_failed), (proj2 (str_eq_false _ _) deleting_not_failed), (proj2 (str_eq_true _ _) eq_refl).
Qed.
Lemma phase_terminated : phase_of StatusTerminated = Gone.
Proof. unfold phase_of. by rewrite (proj2 (str_eq_true _ _) eq_refl). Qed.
Lemma phase_alive e : E_Status e <> StatusTerminated -> phase_of (E_Status e) <> Gone.
Proof.
  intros Hs. unfold phase_of. rewrite (proj2 (str_eq_false _ _) Hs). by repeat destruct (str_eq _ _).
Qed.

Lemma cleanup_requested e n : cleanup_of (requested e n) =
  {| cl_phase := DeleteAsked; cl_attempts := M_CleanupAttempts (E_rest e) + 1; cl_verified := false |}.
Proof. unfold cleanup_of. cbn. by rewrite phase_requested. Qed.
Lemma cleanup_deleting e n : cleanup_of (deleting e n) =
  {| cl_phase := Deleting; cl_attempts := M_CleanupAttempts (E_rest e); cl_verified := false |}.
Proof. unfold cleanup_of. cbn. by rewrite phase_deleting. Qed.
Lemma cleanup_failed e n err : cleanup_of (delete_failed e n err) =
  {| cl_phase := CleanupFailed; cl_attempts := M_CleanupAttempts (E_rest e);
     cl_verified := M_CleanupVerified (E_rest e) |}.
Proof. unfold cleanup_of. cbn. by rewrite phase_failed. Qed.
Lemma cleanup_terminated e n : cleanup_of (terminated e n) =
  {| cl_phase := Gone; cl_attempts := M_CleanupAttempts (E_rest e); cl_verified := true |}.
Proof. unfold cleanup_of. cbn. by rewrite phase_terminated. Qed.
Lemma merge_pr_more e c : let e' := merge_pr e c in
  M_CleanupAttempts (E_rest e') = M_CleanupAttempts (E_rest e) /\ E_ID e' = E_ID e
  /\ E_Status e' = E_Status e /\ E_UpdatedAt e' = E_UpdatedAt e
  /\ M_LastError (E_rest e') = M_LastError (E_rest e)
  /\ M_CleanupVerified (E_rest e') = M_CleanupVerified (E_rest e).
Proof. unfold merge_pr. destruct (str_ne _ _); by repeat split. Qed.
End Phases.

(** What a trace does to a store, whose operations are given conditions of
    their own each time. *)
Section OnStore.
Context {Y S IO : Type} `{EnvironmentStore (env_more Y) S IO}.

Fixpoint stored (t : list (event (orch_call Y))) (s s' : S) : Prop :=
  match t with
  | [] => s = s'
  | @Event _ R c r :: t' =>
      match c in orch_call _ R return R -> Prop with
      | StoreGet id => fun r => (exists io, es_healthy io /\ r = es_get s io id) /\ stored t' s s'
      | StoreSave e => fun r => exists io, es_healthy io /\ r = (es_save s io e).2 /\ stored t' (es_save s io e).1 s'
      | _ => fun _ => stored t' s s'
      end r
  end.

Lemma stored_app t1 t2 s s' : stored (t1 ++ t2) s s' <-> exists s1, stored t1 s s1 /\ stored t2 s1 s'.
Proof.
  revert s. induction t1 as [|[R c r] t1 IH]; intros s; cbn [app stored]; [naive_solver|].
  destruct c; setoid_rewrite IH; naive_solver.
Qed.
End OnStore.

(** ** Properties *)

Section OrchProperties.
Context {Y : Type} `{EnvFiles Y} `{St : Statuses} `{!DistinctStatuses}.
Implicit Types (e : Env Y) (t : list (event (orch_call Y))).

(** When [DeleteWithWriterAndProjectConfig] returns no error, either the
    environment was terminated already and was only read, or the backend has
    deleted it (unless the backend works through the writer), its manifests were
    removed and the removal committed, in this order and between the save of
    [StatusGitOpsDeletePending] and that of [StatusTerminated], which the store
    took: the environment that is returned is terminated, its cleanup is verified,
    counted once more, without an error and without manifest paths. *)
Theorem Delete_terminates id config t e' (Hx : exec (OrchDelete id config) t (Done e')) :
  E_Status e' = StatusTerminated
  /\ (t = [Event (StoreGet id) (Ok e')]
      \/ exists e n1 r1 n2 r2 n b commit tc,
           let e2 := deleting (requested e n1) n2 in
           t = [Event (StoreGet id) (Ok e); Event Now n1; Event (StoreSave (requested e n1)) r1; Event Now n2;
                Event (StoreSave e2) r2; Event (ResolveBackend config) (Ok b)] ++ tc
               ++ [Event Now n; Event (StoreSave e') None]
           /\ removed b e2 config commit tc
           /\ E_Status e <> StatusTerminated
           /\ M_CleanupVerified (E_rest e') = true /\ M_LastError (E_rest e') = ""
           /\ M_CleanupAttempts (E_rest e') = M_CleanupAttempts (E_rest e) + 1
           /\ [M_ManifestPath (E_rest e'); M_NamespaceManifestPath (E_rest e'); M_KustomizationManifestPath (E_rest e')]
              = [""; ""; ""]).
Proof.
  apply OrchDelete_exec in Hx as [(? & _ & [=])|[(e & -> & [= <-] & Hs)|Hx]]; [by auto|].
  destruct Hx as (e & n1 & r1 & n2 & r2 & rb & tb & Hs & -> & [(? & ? & ? & [=] & _)|Hx]).
  destruct Hx as (b & commit & tc & n & r & -> & Hr & _ & -> & Ho). destruct r as [err|]; [discriminate Ho|].
  injection Ho as ->. split; [done|]. right. exists e, n1, r1, n2, r2, n, b, commit, tc. cbv zeta.
  destruct (merge_pr_more (deleting (requested e n1) n2) commit) as (Ha & _).
  split; [done|]. split; [exact Hr|]. split; [done|]. do 2 (split; [done|]). split; [exact Ha|done].
Qed.

(** C33: [DeleteWithWriterAndProjectConfig] refines the life of a cleanup: the
    environments that an execution saves, whatever the backend, the writer and the
    store answer, are steps of [cleanup_step] from the environment that was read;
    an environment is read as gone only without a further step. *)
Theorem Delete_refines_cleanup id config t o e (Hx : exec (OrchDelete id config) t o) (Hr : head (omap read t) = Some e) :
  cleanup_run (cleanup_of e) (map cleanup_of (omap saved t))
  /\ (cl_phase (cleanup_of e) = Gone <-> omap saved t = []).
Proof.
  apply OrchDelete_exec in Hx as [(? & -> & _)|[(e0 & -> & -> & Hs)|Hx]]; [done| |].
  - injection Hr as <-. split; [done|]. split; [done|]. intros _. cbn. rewrite Hs. apply phase_terminated.
  - destruct Hx as (e0 & n1 & r1 & n2 & r2 & rb & tb & Hs & -> & Hx). cbn in Hr. injection Hr as <-.
    assert (Hrun : exists e3, omap saved ([Event (StoreGet id) (Ok e0); Event Now n1; Event (StoreSave (requested e0 n1)) r1;
        Event Now n2; Event (StoreSave (deleting (requested e0 n1) n2)) r2; Event (ResolveBackend config) rb] ++ tb)
        = [requested e0 n1; deleting (requested e0 n1) n2; e3]
        /\ cleanup_step (cleanup_of (deleting (requested e0 n1) n2)) (cleanup_of e3)).
    { rewrite omap_app, cleanup_deleting.
      destruct Hx as [(err & n & r & _ & tc & Hc & ->)|(b & commit & tc & n & r & _ & _ & Hc & -> & _)];
        rewrite omap_app, Hc; cbn; eexists; (split; [reflexivity|]).
      - rewrite cleanup_failed. constructor.
      - rewrite cleanup_terminated, (proj1 (merge_pr_more _ _)). constructor. }
    destruct Hrun as (e3 & -> & H3). cbn [map cleanup_run]. split.
    + split; [rewrite cleanup_requested; constructor; by apply phase_alive|].
      split; [|by split]. rewrite cleanup_deleting, cleanup_requested. constructor.
    + split; [|done]. intros Hg. by apply phase_alive in Hs.
Qed.

(** An operation that fails says so: when [CreateWithWriterAndProjectConfig]
    or [DeleteWithWriterAndProjectConfig] returns an environment with an error, the
    last thing it did was to save this environment, with the text of the error, at
    the time it carries, as [StatusFailed] or [StatusDeleteFailed], the cleanup
    unverified. *)
Theorem failures_recorded e0 id config t e' err :
  (exec (Create e0 config) t (Failed e' err) ->
     (exists t0 r, t = t0 ++ [Event Now (E_UpdatedAt e'); Event (StoreSave e') r] /\ omap saved t0 = [])
     /\ E_Status e' = StatusFailed /\ M_LastError (E_rest e') = ge_text err)
  /\ (exec (OrchDelete id config) t (Failed e' err) ->
     (exists t0 r, t = t0 ++ [Event Now (E_UpdatedAt e'); Event (StoreSave e') r] /\ length (omap saved t0) = 2%nat)
     /\ E_Status e' = StatusDeleteFailed /\ M_LastError (E_rest e') = ge_text err
     /\ M_CleanupVerified (E_rest e') = false).
Proof.
  split.
  - intros [(e1 & err' & tc & n & r & Hs & [= -> ->] & ->)|Hx]%Create_exec.
    + split; [|done]. by exists tc, r.
    + destruct Hx as (b & l & n & tw & e1 & ta & commit & [|] & _ & _ & _ & _ & _ & [=]).
  - intros [(? & _ & [=])|[(? & _ & [=] & _)|Hx]]%OrchDelete_exec.
    destruct Hx as (e & n1 & r1 & n2 & r2 & rb & tb & Hs & -> & [Hx|Hx]).
    + destruct Hx as (err' & n & r & [= -> ->] & tc & Hc & ->). split; [|done].
      eexists (_ ++ tc), r. rewrite <- app_assoc. split; [reflexivity|]. by rewrite omap_app, Hc.
    + destruct Hx as (b & commit & tc & n & [|] & _ & _ & _ & _ & [=]).
Qed.

(** [CreateWithWriterAndProjectConfig] returns without an error only after
    it rendered the manifests, wrote each of them in order, then let the backend
    apply the environment (unless it works through the writer) and committed, and
    the store took the environment, which is saved once, as [StatusCreating] without
    an error. *)
Theorem Create_success e config t e' (Hx : exec (Create e config) t (Done e')) :
  exists b l n tw e1 ta commit,
    t = [Event (ResolveBackend config) (Ok b); Event (Render b e config) (Ok l); Event Now n] ++ tw ++ ta
        ++ [Event (StoreSave e') None]
    /\ written (set_env e StatusCreating n (set_error (E_rest e) "")) l tw e1
    /\ applied b e1 config commit ta
    /\ omap saved (tw ++ ta) = []
    /\ E_Status e' = StatusCreating /\ M_LastError (E_rest e') = "" /\ E_UpdatedAt e' = n /\ E_ID e' = E_ID e.
Proof.
  apply Create_exec in Hx as [(? & ? & ? & ? & ? & _ & [=] & _)|Hx].
  destruct Hx as (b & l & n & tw & e1 & ta & commit & r & Hw & Ha & Hsw & Hsa & -> & Ho).
  destruct r as [err|]; [discriminate Ho|]. injection Ho as ->.
  exists b, l, n, tw, e1, ta, commit. split; [done|]. split; [exact Hw|]. split; [exact Ha|].
  split; [by rewrite omap_app, Hsw, Hsa|]. apply written_env in Hw as (mp & np & kp & ->).
  destruct (merge_pr_more (set_env (set_env e StatusCreating n (set_error (E_rest e) "")) StatusCreating n
    (set_paths (set_error (E_rest e) "") mp np kp)) commit) as (_ & Hid & Hs & Hu & He & _).
  by repeat split.
Qed.

(** [NormalizeDeploymentBackendType] maps every spelling to one name, so that
    normalizing again changes nothing, and [ResolveDeploymentBackend] depends on
    that name only: it fails exactly on the names other than the three backends and
    the empty name, which is Helm. *)
Theorem backend_types `{Quote} raw :
  NormalizeDeploymentBackendType (NormalizeDeploymentBackendType raw) = NormalizeDeploymentBackendType raw
  /\ ResolveDeploymentBackend (NormalizeDeploymentBackendType raw) = ResolveDeploymentBackend raw
  /\ ((exists err, ResolveDeploymentBackend raw = Err err)
      <-> NormalizeDeploymentBackendType raw ∉ [""; HelmDirectType; FluxCD; GitOpsManifestType]).
Proof.
  assert (Hlt : forall x, trim_space x = x -> to_lower x = x -> to_lower (trim_space x) = x) by (intros x -> ?; done).
  assert (Hidem : NormalizeDeploymentBackendType (NormalizeDeploymentBackendType raw) = NormalizeDeploymentBackendType raw).
  { unfold NormalizeDeploymentBackendType at 2 3. cbv zeta. set (x := to_lower (trim_space raw)).
    assert (Hx : to_lower (trim_space x) = x).
    { apply Hlt; [apply trim_lower_trimmed|apply to_lower_idem]. }
    destruct (existsb (str_eq x) [HelmDirectType; FluxCD; GitOpsManifestType]) eqn:E1.
    { unfold NormalizeDeploymentBackendType. by rewrite Hx, E1. }
    destruct (str_eq x "helm-direct") eqn:E2; [reflexivity|].
    destruct (str_eq x "flux" || str_eq x "flux_cd") eqn:E3; [reflexivity|].
    unfold NormalizeDeploymentBackendType. by rewrite Hx, E1, E2, E3. }
  split; [exact Hidem|]. unfold ResolveDeploymentBackend. rewrite Hidem. split; [done|].
  set (x := NormalizeDeploymentBackendType raw). cbv zeta.
  rewrite !elem_of_cons, elem_of_nil.
  destruct (str_eq x "") eqn:E1; [apply str_eq_true in E1; naive_solver|].
  destruct (str_eq x HelmDirectType) eqn:E2; [apply str_eq_true in E2; naive_solver|].
  destruct (str_eq x FluxCD) eqn:E3; [apply str_eq_true in E3; naive_solver|].
  destruct (str_eq x GitOpsManifestType) eqn:E4; [apply str_eq_true in E4; naive_solver|].
  apply str_eq_false in E1, E2, E3, E4. cbn [orb]. naive_solver.
Qed.

(** The status of a Flux environment that reports no status of its own and
    has a resource: it is ready exactly if every release and every kustomization is
    ready and none has failed; otherwise the first one that is not decides, and it
    is failed exactly if that one has failed. *)
Theorem flux_ready e s (Hf : M_FluxStatus (E_rest e) = Some s) (Hs : Fs_Status s = "")
    (Hn : Fs_HelmReleases s ++ Fs_Kustomizations s <> []) :
  let good r := Fx_Ready r && negb (Fx_Failed r) in
  (forallb good (Fs_HelmReleases s ++ Fs_Kustomizations s) = true -> flux_Status e = StatusReady)
  /\ forall l1 r l2, Fs_HelmReleases s ++ Fs_Kustomizations s = l1 ++ r :: l2 ->
     forallb good l1 = true -> good r = false ->
     flux_Status e = if Fx_Failed r then StatusFailed else StatusCreating.
Proof.
  assert (He : flux_Status e = match first_unready (Fs_HelmReleases s ++ Fs_Kustomizations s) with
                               | Some st => st | None => StatusReady end).
  { unfold flux_Status. rewrite Hf, (proj2 (str_ne_false _ _) Hs).
    by destruct (Fs_HelmReleases s), (Fs_Kustomizations s). }
  cbv zeta. rewrite He. clear He Hn. generalize (Fs_HelmReleases s ++ Fs_Kustomizations s) as l. intros l. split.
  - induction l as [|r l IH]; [done|]. cbn [forallb first_unready].
    intros [[Hr Hfl]%andb_true_iff Hl]%andb_true_iff. apply negb_true_iff in Hfl. rewrite Hfl, Hr. by apply IH.
  - intros l1. revert l. induction l1 as [|r1 l1 IH]; intros l r l2 ->; cbn [app forallb first_unready].
    + intros _ Hr. destruct (Fx_Failed r); [done|]. rewrite andb_true_r in Hr. by rewrite Hr.
    + intros [[Hr Hfl]%andb_true_iff Hl]%andb_true_iff Hg. apply negb_true_iff in Hfl. rewrite Hfl, Hr.
      by apply (IH _ r l2 eq_refl).
Qed.

(** Deleting is idempotent on every store that keeps the contract of
    [EnvironmentStore]: after a deletion that returned no error, a second one,
    with whatever configuration, returns the same environment, and neither calls
    the backend or the writer nor changes the store. *)
Theorem Delete_idempotent {S IO : Type} `{EnvironmentStoreLaws (env_more Y) S IO} id config t e' (s s' : S)
    (Hx : exec (OrchDelete id config) t (Done e')) (Hst : stored t s s')
    (Hg : es_good e') (Hid : E_ID e' = id) config2 t2 o2 s2
    (Hx2 : exec (OrchDelete id config2) t2 o2) (Hst2 : stored t2 s' s2) :
  t2 = [Event (StoreGet id) (Ok e')] /\ o2 = Done e' /\ s2 = s'.
Proof.
  assert (Hget : exists io, es_healthy io /\ es_get s' io id = Ok e').
  { apply OrchDelete_exec in Hx as [(? & _ & [=])|[(e & -> & [= <-] & _)|Hx]].
    - cbn [stored] in Hst. destruct Hst as [(io & Hio & Hr) <-]. by exists io.
    - destruct Hx as (e & n1 & r1 & n2 & r2 & rb & tb & _ & -> & [(? & ? & ? & [=] & _)|Hx]).
      destruct Hx as (b & commit & tc & n & r & -> & _ & _ & -> & Ho). destruct r as [err|]; [discriminate Ho|].
      injection Ho as He. rewrite <- He in Hst. apply stored_app in Hst as (s1 & _ & Hst).
      apply stored_app in Hst as (s3 & _ & io & Hio & Hr & Hs). cbn [stored] in Hs. subst s'.
      exists io. split; [done|]. rewrite <- Hid. by apply es_get_save. }
  assert (Hst' : E_Status e' = StatusTerminated).
  { apply OrchDelete_exec in Hx as [(? & _ & [=])|[(e & _ & [= <-] & Hs)|Hx]]; [done|].
    destruct Hx as (e & n1 & r1 & n2 & r2 & rb & tb & _ & -> & [(? & ? & ? & [=] & _)|Hx]).
    destruct Hx as (b & commit & tc & n & r & -> & _ & _ & -> & Ho). destruct r as [err|]; [discriminate Ho|].
    by injection Ho as ->. }
  destruct Hget as (io & Hio & Hget). unfold OrchDelete in Hx2.
  apply exec_bind_call in Hx2 as (r & t3 & -> & Hx2). cbn [stored] in Hst2.
  destruct Hst2 as [(io2 & Hio2 & ->) Hst2]. rewrite (es_get_io s' io2 io) in * by done.
  rewrite Hget in *. rewrite (proj2 (str_eq_true _ _) Hst') in Hx2. apply exec_ret in Hx2 as [-> ->].
  by cbn [stored] in Hst2.
Qed.
End OrchProperties.

(** ** Witnesses *)

#[local] Existing Instance sample_statuses.
Definition sample_files : EnvFiles unit := {|
  ManifestFilename e := E_ID e +:+ ".yaml"; NamespaceManifestFilename e := E_ID e +:+ "-namespace.yaml";
  PathKustomizationFilename _ := "kustomization.yaml"; GitOpsDirectory e := "environments/" +:+ E_ID e |}.
#[local] Existing Instance sample_files.
Lemma sample_distinct : DistinctStatuses.
Proof. by split. Qed.
#[local] Existing Instance sample_distinct.

(** A Helm backend, a writer and a store of one environment that all succeed. *)
Definition sample_answers (b : backend) (R : Type) (h : list (event (orch_call unit))) (c : orch_call unit R) : R :=
  match c with
  | StoreGet _ => Ok sample_env
  | StoreSave _ => None
  | Now => Z.of_nat (length h) + 10
  | ResolveBackend _ => Ok b
  | Render _ e _ => Ok [{| Ma_Path := ManifestFilename e; Ma_Kind := "Release"; Ma_Content := [] |}]
  | Apply _ _ _ => None
  | DeleteBackend _ _ _ => None
  | BackendStatus _ _ _ => Ok "ready"
  | WriteManifest path _ _ => Ok ("/repo/" +:+ path)
  | RemovePath _ _ => None
  | Commit _ => Ok {| Cr_PullRequestURL := "" |}
  end.
Definition sample_deletion (b : backend) := run (sample_answers b) [] (OrchDelete "7" []).
(** The same with a backend that cannot be deleted. *)
Definition stuck_answers (R : Type) (h : list (event (orch_call unit))) (c : orch_call unit R) : R :=
  match c in orch_call _ R return R with
  | DeleteBackend _ _ _ => Some (errorf "timeout")
  | Apply _ _ _ => Some (errorf "timeout")
  | c => sample_answers BackendHelmDirect _ h c
  end.
Definition stuck_deletion := run stuck_answers [] (OrchDelete "7" []).

Definition outcome_env {Y} (o : outcome Y) : option (Env Y) :=
  match o with Done e | Failed e _ => Some e | NoEnvironment _ => None end.

Lemma Delete_terminates_witness : exists e',
  (sample_deletion BackendHelmDirect).2 = Done e' /\ E_Status e' = "terminated".
Proof.
  destruct (sample_deletion BackendHelmDirect).2 as [e'|e' err|err] eqn:E; [|vm_compute in E; discriminate E..].
  exists e'. split; [done|].
  pose proof (run_exec (sample_answers BackendHelmDirect) (OrchDelete "7" []) []) as Hx.
  change (run (sample_answers BackendHelmDirect) [] (OrchDelete "7" [])) with (sample_deletion BackendHelmDirect) in Hx.
  rewrite E in Hx. exact (proj1 (Delete_terminates "7" [] _ e' Hx)).
Defined.

Lemma Delete_refines_cleanup_witness :
  cleanup_run (cleanup_of sample_env) (map cleanup_of (omap saved stuck_deletion.1)).
Proof.
  exact (proj1 (Delete_refines_cleanup "7" [] stuck_deletion.1 stuck_deletion.2 sample_env
    (run_exec stuck_answers (OrchDelete "7" []) []) ltac:(vm_compute; reflexivity))).
Defined.

Lemma failures_recorded_witness : exists e' err,
  stuck_deletion.2 = Failed e' err /\ M_LastError (E_rest e') = "timeout".
Proof.
  destruct stuck_deletion.2 as [e'|e' err|err] eqn:E; [vm_compute in E; discriminate E| |vm_compute in E; discriminate E].
  exists e', err. split; [done|].
  pose proof (run_exec stuck_answers (OrchDelete "7" []) []) as Hx.
  change (run stuck_answers [] (OrchDelete "7" [])) with stuck_deletion in Hx. rewrite E in Hx.
  destruct (proj2 (failures_recorded sample_env "7" [] _ e' err) Hx) as (_ & _ & Hl & _).
  rewrite Hl. vm_compute in E. by injection E as _ <-.
Defined.

Lemma Create_success_witness : exists e' b l n tw e1 ta commit,
  (run (sample_answers BackendHelmDirect) [] (Create sample_env [])).1
  = [Event (ResolveBackend []) (Ok b); Event (Render b sample_env []) (Ok l); Event Now n] ++ tw ++ ta
    ++ [Event (StoreSave e') None] /\ applied b e1 [] commit ta.
Proof.
  pose proof (run_exec (sample_answers BackendHelmDirect) (Create sample_env []) []) as Hx.
  destruct (run (sample_answers BackendHelmDirect) [] (Create sample_env [])).2 as [e'|e' err|err] eqn:E;
    [|vm_compute in E; discriminate E..].
  destruct (Create_success sample_env [] _ e' Hx) as (b & l & n & tw & e1 & ta & commit & Ht & _ & Ha & _).
  by exists e', b, l, n, tw, e1, ta, commit.
Defined.

Definition flux_env (hs ks : list flux_resource) : Env unit :=
  set_env sample_env "creating" 1
    {| M_Namespace := ""; M_Product := ""; M_Domain := ""; M_URL := ""; M_ValuesPath := ""; M_GitOpsPath := "";
       M_ChartsApp := ""; M_Services := []; M_BaseServices := []; M_Components := []; M_Overrides := [];
       M_ReleasePlanID := ""; M_ReleasePlanDigest := "";
       M_FluxStatus := Some {| Fs_Status := ""; Fs_HelmReleases := hs; Fs_Kustomizations := ks |};
       M_LastError := ""; M_CleanupPhase := ""; M_CleanupAttempts := 0; M_CleanupVerified := false;
       M_ManifestPath := ""; M_NamespaceManifestPath := ""; M_KustomizationManifestPath := "";
       M_PullRequestURL := ""; M_rest := tt |}.
Lemma flux_ready_witness :
  flux_Status (flux_env [{| Fx_Failed := false; Fx_Ready := true |}] [{| Fx_Failed := false; Fx_Ready := true |}]) = "ready".
Proof.
  exact (proj1 (flux_ready (flux_env [{| Fx_Failed := false; Fx_Ready := true |}] [{| Fx_Failed := false; Fx_Ready := true |}])
    {| Fs_Status := ""; Fs_HelmReleases := [{| Fx_Failed := false; Fx_Ready := true |}];
       Fs_Kustomizations := [{| Fx_Failed := false; Fx_Ready := true |}] |} eq_refl eq_refl ltac:(done)) eq_refl).
Defined.

(** Two deletions on a JSON store. *)
Definition shop_store : JSONStore (env_more unit) :=
  (Save {| js_data := ∅; js_file := Absent |} DiskWrites sample_env).1.
Fixpoint run_store {A} (s : JSONStore (env_more unit)) (n : nat) (p : prog (orch_call unit) A)
    : list (event (orch_call unit)) * A * JSONStore (env_more unit) :=
  match p with
  | Ret a => ([], a, s)
  | @Vis _ _ R c k =>
      let '(r, s') := match c in orch_call _ R return R * JSONStore (env_more unit) with
                      | StoreGet id => (Get s id, s)
                      | StoreSave e => let '(s', r) := Save s DiskWrites e in (r, s')
                      | Now => (Z.of_nat n + 10, s)
                      | c => (sample_answers BackendFlux _ [] c, s)
                      end in
      let '(t, a, s2) := run_store s' (n + 1) (k r) in
      (Event c r :: t, a, s2)
  end.
Definition first_deletion := run_store shop_store 0 (OrchDelete "7" []).
Definition second_deletion := run_store first_deletion.2 50 (OrchDelete "7" []).

Lemma run_store_exec {A} (p : prog (orch_call unit) A) s n :
  exec p (run_store s n p).1.1 (run_store s n p).1.2 /\ stored (run_store s n p).1.1 s (run_store s n p).2.
Proof.
  revert s n. induction p as [a|R c k IH]; intros s n; cbn [run_store]; [done|].
  destruct c; cbn [stored exec];
    try (match goal with |- context [Save ?s ?d ?e] => destruct (Save s d e) as [s1 r1] eqn:Es end);
    match goal with |- context [run_store ?s ?n (k ?r)] =>
      specialize (IH r s n); destruct (run_store s n (k r)) as [[t a] s2]; destruct IH as [Hx Hs] end;
    cbn [fst snd exec stored] in *; (split; [by eexists _, _|]); try done.
  - split; [|done]. by exists DiskWrites.
  - exists DiskWrites. split; [done|]. cbn. by rewrite Es.
Qed.

Lemma Delete_idempotent_witness : exists e',
  second_deletion.1 = ([Event (StoreGet "7") (Ok e')], Done e') /\ E_Status e' = "terminated".
Proof.
  destruct first_deletion.1.2 as [e'|e' err|err] eqn:E; [|vm_compute in E; discriminate E..].
  exists e'.
  pose proof (run_store_exec (OrchDelete "7" []) shop_store 0) as [Hx Hs].
  change (run_store shop_store 0 (OrchDelete "7" [])) with first_deletion in Hx, Hs. rewrite E in Hx.
  pose proof (run_store_exec (OrchDelete "7" []) first_deletion.2 50) as [Hx2 Hs2].
  change (run_store first_deletion.2 50 (OrchDelete "7" [])) with second_deletion in Hx2, Hs2.
  assert (Hg : es_good e' /\ E_ID e' = "7" /\ E_Status e' = "terminated").
  { vm_compute in E. injection E as <-. split; [|done]. split; vm_compute; done. }
  destruct Hg as (Hg & Hid & Hst). split; [|done].
  destruct (Delete_idempotent "7" [] _ e' shop_store first_deletion.2 Hx Hs Hg Hid [] _ _ _ Hx2 Hs2) as (Ht & Ho & _).
  apply (f_equal2 pair Ht) in Ho as Hp. by destruct second_deletion.1.
Defined.
