(* ===== verification/Backends.v ===== *)
(** * The deployment backends of the orchestrator

    [internal/orchestrator/orchestrator.go]: the backend of a project's
    configuration, the manifests that are compiled from the templates of a
    project ([renderCompiledManifestTemplates]), the Flux and the manifest
    backend, and the orchestrator with these backends: what remains of its
    calls are the store, the clock, the writer and the commands of helm.

    The templates of text/template are executed by a parameter; so are the
    decoding of the inventory of templates, the inference of a backend from a
    configuration, a function of the contracts, and the generic renderer, an
    external package. *)

From stdpp Require Import base list gmap strings pretty sorting.
From Stdlib Require Import ZArith Lia Ascii String.
From S2P Require Import Prelude GoStrings GoPath EnvStore OrchTypes HelmName HelmValues HelmCli HelmDirect Orchestrator.

Local Open Scope string_scope.
Local Open Scope Z_scope.
Local Open Scope list_scope.

(** ** Compiled templates *)

Record compiledManifestTemplate := {
  Tm_Path : string; Tm_Kind : string; Tm_Namespace : string; Tm_Name : string; Tm_YAML : string }.
(** The map of [compiledManifestTemplateData]; [MRNumber] is [PRNumber], and the
    names of the project and the environment are their ids. *)
Record compiled_data := { Cd_PRNumber : string; Cd_CommitSHA : string; Cd_Branch : string; Cd_Project : string; Cd_Environment : string }.
(** [executeCompiledManifestTemplate]; a missing key is an error.  And
    [json.Marshal] followed by [json.Unmarshal] of the inventory. *)
Class CompiledTemplates := {
  executeCompiledManifestTemplate : string -> compiled_data -> result go_error string;
  decode_templates : any -> result go_error (list compiledManifestTemplate) }.
(** [domain.InferDeploymentBackend] *)
Class Inference := InferDeploymentBackend : option any -> any_map -> any_map -> string.
(** [gitops.Renderer] *)
Class Renderer (Y : Type) := RenderManifestSet : Env Y -> result go_error (list Manifest).

Definition by_path (m m' : Manifest) : bool := str_ltb (Ma_Path m) (Ma_Path m').

Section Backends.
Context {Y : Type} `{Quote} `{CompiledTemplates} `{Renderer Y}.
(** The order in which [sort.Slice] leaves manifests of one path. *)
Variable shuffle : list Manifest -> list Manifest.
Implicit Types e : Env Y.

(** [compiledManifestTemplateData] *)
Definition compiledManifestTemplateData e : compiled_data :=
  {| Cd_PRNumber := trim_space (E_PullRequestID e); Cd_CommitSHA := trim_space (E_Commit e);
     Cd_Branch := trim_space (E_Branch e); Cd_Project := trim_space (E_Project e); Cd_Environment := trim_space (E_ID e) |}.
(** The body of the loop of [renderCompiledManifestTemplates]. *)
Definition render_template e (index : nat) (item : compiledManifestTemplate) : result go_error Manifest :=
  let data := compiledManifestTemplateData e in
  refuse str_eq (trim_space (Tm_YAML item)) "" with errorf ("compiled manifest template " +:+ pretty index +:+ " is empty");;
  match executeCompiledManifestTemplate (Tm_YAML item) data with
  | Err err => Err (wrapf ("render compiled manifest template " +:+ quote (Tm_Path item)) err)
  | Ok content =>
      match executeCompiledManifestTemplate (Tm_Path item) data with
      | Err err => Err (wrapf ("render compiled manifest path " +:+ quote (Tm_Path item)) err)
      | Ok path =>
          let path := if str_eq (trim_space path) ""
                      then "templates/" +:+ M_Namespace (E_rest e) +:+ "/" +:+ to_lower (Tm_Kind item) +:+ "-" +:+ Tm_Name item +:+ ".yaml"
                      else path in
          Ok {| Ma_Path := path; Ma_Kind := Tm_Kind item; Ma_Content := chars content |}
      end
  end.
Fixpoint render_templates e (index : nat) (l : list compiledManifestTemplate) : result go_error (list Manifest) :=
  match l with
  | [] => Ok []
  | item :: l' =>
      m <-? render_template e index item;;
      ms <-? render_templates e (S index) l';;
      Ok (m :: ms)
  end.
(** The inventory of a configuration, if it has one. *)
Definition template_inventory (config : any_map) : option any :=
  match as_map (map_get "bootstrapSessionData" config) with
  | Some session => map_get "manifestTemplates" session
  | None => None
  end.
(** [renderCompiledManifestTemplates]; [None]: the project has no inventory. *)
Definition renderCompiledManifestTemplates e (config : any_map) : result go_error (option (list Manifest)) :=
  match template_inventory config with
  | None => Ok None
  | Some raw =>
      templates <-? decode_templates raw;;
      refuse (length templates =? 0)%nat with errorf "compiled manifest template inventory is empty";;
      ms <-? render_templates e 0 templates;;
      Ok (Some (sort_slice by_path (shuffle ms)))
  end.

(** ** Backends *)

(** [manifestBackend.Render]; that of Flux is the same. *)
Definition manifest_Render e (config : any_map) : result go_error (list Manifest) :=
  compiled <-? renderCompiledManifestTemplates e config;;
  match compiled with
  | Some manifests => Ok manifests
  | None => RenderManifestSet e
  end.
(** [manifestBackend.Status] *)
Definition manifest_Status e : string := E_Status e.

(** [ResolveDeploymentBackendFromProjectConfig] *)
Definition ResolveDeploymentBackendFromProjectConfig `{Inference} (config : any_map) : result go_error backend :=
  match map_get "deployment" config with
  | Some (VMap deployment) =>
      ResolveDeploymentBackend (InferDeploymentBackend (map_get "backend" deployment) deployment config)
  | _ => ResolveDeploymentBackend (InferDeploymentBackend (Some (VStr "")) [] config)
  end.
(** [NewDeploymentBackend] *)
Definition NewDeploymentBackend (backendType : string) : backend :=
  match ResolveDeploymentBackend backendType with Ok b => b | Err _ => BackendGitOpsManifest end.

(** ** The orchestrator with its backends *)

Inductive backed_call : Type -> Type :=
| Kept {R} (c : orch_call Y R) : backed_call R
| OnHelm {R} (op : direct_op R) : backed_call R.

Context `{Sha256} `{GoNet} `{Templates} `{Statuses} `{EnvFiles Y} `{ManifestYaml} `{Inference}.
Definition backend_Render (b : backend) e (config : any_map) : result go_error (list Manifest) :=
  match b with BackendHelmDirect => hd_Render e config | _ => manifest_Render e config end.
Definition on_helm {A} (p : prog direct_op A) : prog backed_call A := handle (fun R op => call (OnHelm op)) p.
Definition on_helm_op {A} (p : prog helm_op A) : prog backed_call A := handle (fun R op => call (OnHelm (Helm op))) p.
(** A call of the orchestrator, carried out by the backend that it is for. *)
Definition backed R (c : orch_call Y R) : prog backed_call R :=
  match c in orch_call _ R return prog backed_call R with
  | ResolveBackend config => Ret (ResolveDeploymentBackendFromProjectConfig config)
  | Render b e config => Ret (backend_Render b e config)
  | Apply b e config => match b with BackendHelmDirect => on_helm (hd_Apply e config) | _ => Ret None end
  | DeleteBackend b e config => match b with BackendHelmDirect => on_helm_op (hd_Delete e config) | _ => Ret None end
  | BackendStatus b e config =>
      match b with
      | BackendHelmDirect => on_helm_op (hd_Status e config)
      | BackendFlux => Ret (Ok (flux_Status e))
      | BackendGitOpsManifest => Ret (Ok (manifest_Status e))
      end
  | StoreGet id => call (Kept (StoreGet id))
  | StoreSave e => call (Kept (StoreSave e))
  | Now => call (Kept Now)
  | WriteManifest path content message => call (Kept (WriteManifest path content message))
  | RemovePath path message => call (Kept (RemovePath path message))
  | Commit message => call (Kept (Commit message))
  end.
(** The orchestrator that [New] makes. *)
Definition CreateBacked e (config : any_map) : prog backed_call (outcome Y) := handle backed (Create e config).
Definition DeleteBacked (id : string) (config : any_map) : prog backed_call (outcome Y) := handle backed (OrchDelete id config).
Definition StatusBacked (id : string) (config : any_map) : prog backed_call (outcome Y) := handle backed (Status id config).
End Backends.
Arguments backed_call Y : clear implicits.

(** ** Lemmas *)

Section BackendLemmas.
Context {Y : Type} `{Quote} `{CompiledTemplates} `{Renderer Y}.
Context `{Sha256} `{GoNet} `{Templates} `{Statuses} `{EnvFiles Y} `{ManifestYaml} `{Inference}.
Variable shuffle : list Manifest -> list Manifest.
Implicit Types e : Env Y.

(** A template that renders, and what it renders to. *)
Definition rendered e (item : compiledManifestTemplate) (m : Manifest) : Prop :=
  let data := compiledManifestTemplateData e in
  trim_space (Tm_YAML item) <> "" /\ Ma_Kind m = Tm_Kind item
  /\ executeCompiledManifestTemplate (Tm_YAML item) data = Ok (text (Ma_Content m))
  /\ exists path, executeCompiledManifestTemplate (Tm_Path item) data = Ok path
    /\ if str_eq (trim_space path) ""
       then Ma_Path m = "templates/" +:+ M_Namespace (E_rest e) +:+ "/" +:+ to_lower (Tm_Kind item) +:+ "-" +:+ Tm_Name item +:+ ".yaml"
       else Ma_Path m = path.
Lemma render_template_ok e i item m : render_template e i item = Ok m <-> rendered e item m.
Proof.
  unfold render_template, rendered. rewrite refuse_ok, str_eq_false. split.
  - intros [Hy Hx]. split; [done|]. destruct (executeCompiledManifestTemplate (Tm_YAML item) _) as [content|]; [|done].
    destruct (executeCompiledManifestTemplate (Tm_Path item) _) as [path|]; [|done]. injection Hx as <-. cbn [Ma_Kind Ma_Path Ma_Content].
    rewrite text_chars. split; [done|]. split; [done|]. exists path. split; [done|]. by destruct (str_eq _ _).
  - intros (Hy & Hk & Hc & path & Hp & Hm). split; [done|]. rewrite Hc, Hp. destruct m as [mp mk mc]. cbn [Ma_Kind Ma_Path Ma_Content] in *.
    subst mk. rewrite chars_text. destruct (str_eq (trim_space path) ""); by rewrite Hm.
Qed.
Lemma render_templates_ok e l : forall i ms, render_templates e i l = Ok ms <-> Forall2 (rendered e) l ms.
Proof.
  induction l as [|item l IH]; intros i ms; cbn [render_templates].
  - split; [intros [= <-]; constructor|]. by inversion 1.
  - split.
    + destruct (render_template e i item) as [m|] eqn:Em; [|done]. destruct (render_templates e (S i) l) as [ms'|] eqn:El; [|done].
      intros [= <-]. apply render_template_ok in Em. apply IH in El. by constructor.
    + inversion 1 as [|? m ? ms' Hm Hl]; subst. apply (render_template_ok e i) in Hm as ->. by apply (IH (S i)) in Hl as ->.
Qed.
Lemma by_path_sorted l : StronglySorted (in_order by_path) (sort_slice by_path l).
Proof.
  apply sort_slice_sorted; unfold by_path; intros *; eauto using str_ltb_irrefl, str_ltb_trans, str_ltb_negtrans.
Qed.

(** *** Backends that only write *)

(** The calls on one backend. *)
Definition for_backend (b : backend) R (c : orch_call Y R) : Prop :=
  match c with Render b' _ _ | Apply b' _ _ | DeleteBackend b' _ _ | BackendStatus b' _ _ => b' = b | _ => True end.
Definition kept R (c : backed_call Y R) : Prop := match c with Kept _ => True | OnHelm _ => False end.
Lemma backed_kept b R (c : orch_call Y R) : b <> BackendHelmDirect -> for_backend b R c -> only kept (backed shuffle R c).
Proof. intros Hb. destruct c; cbn [backed for_backend]; intros Hc; subst; try done; by destruct b. Qed.
Ltac only_backend :=
  repeat first [ done | progress cbn | apply only_bind; [|intros ?] | match goal with |- only _ (match ?x with _ => _ end) => destruct x end
               | split; [done|intros ?] ].
Lemma fail_with_only b status e err : only (for_backend b) (fail_with status e err).
Proof. unfold fail_with. only_backend. Qed.
Lemma save_only b e : only (for_backend b) (save_or_fail e).
Proof. unfold save_or_fail. only_backend. Qed.
Lemma write_only b l : forall e, only (for_backend b) (write_manifests e l).
Proof.
  induction l as [|m l IH]; intros e; cbn [write_manifests]; [done|]. split; [done|]. intros r. cbn. destruct r; [apply IH|done].
Qed.
Lemma apply_only b e config : only (for_backend b) (apply_commit b e config).
Proof. unfold apply_commit. only_backend. Qed.
Lemma delete_only b e config : only (for_backend b) (delete_commit b e config).
Proof. unfold delete_commit. only_backend. Qed.
(** The writes of a creation are passed on as they are. *)
Lemma written_kept l : forall e tw e1 t, written e l tw e1 -> carried (backed shuffle) tw t -> t = map (rename_event (@Kept Y)) tw.
Proof.
  induction l as [|m l IH]; intros e tw e1 t; cbn [written].
  - intros [-> _] Hc. by inversion Hc.
  - intros (path & t' & -> & Hw) Hc. apply (carried_app _ [_]) in Hc as (u1 & u2 & -> & C1%carried_one & C2).
    apply exec_call in C1 as ->. cbn [app map rename_event]. f_equal. by eapply IH.
Qed.
Lemma applied_backed b e config commit ta t : applied b e config commit ta -> carried (backed shuffle) ta t ->
  exists th, t = th ++ [Event (Kept (Commit ("envplane: create " +:+ E_ID e))) (Ok commit)]
    /\ match b with BackendHelmDirect => exec (on_helm (hd_Apply e config)) th None | _ => th = [] end.
Proof.
  intros -> Hc. apply carried_app in Hc as (u1 & u2 & -> & C1 & ->%carried_one%exec_call). exists u1. split; [done|].
  destruct b; cbn [with_writer] in C1; [by apply carried_one in C1|by inversion C1|by apply carried_one in C1 as [-> _]].
Qed.
Lemma handled_kept {A} b (p : prog (orch_call Y) A) : b <> BackendHelmDirect -> only (for_backend b) p -> only kept (handle (backed shuffle) p).
Proof. intros Hb. apply only_handle. intros R c. by apply backed_kept. Qed.
Lemma resolved_gitops config b : ResolveDeploymentBackendFromProjectConfig config <> Ok BackendHelmDirect ->
  ResolveDeploymentBackendFromProjectConfig config = Ok b -> b <> BackendHelmDirect.
Proof. by intros Hr Hb ->. Qed.
End BackendLemmas.

(** ** Properties *)

Section BackendProperties.
Context {Y : Type} `{Quote} `{CompiledTemplates} `{Renderer Y}.
Context `{Sha256} `{GoNet} `{Templates} `{Statuses} `{EnvFiles Y} `{ManifestYaml} `{Inference}.
Variable shuffle : list Manifest -> list Manifest.
Hypothesis shuffle_perm : forall l, shuffle l ≡ₚ l.

(** C34: A project with an inventory of templates has its manifests from these
    templates alone: they render exactly if there is a template, none is blank, and
    each one and its path execute on the data of the environment; then every
    template gives one manifest, with its kind, its text as it was executed and its
    path, and the manifests are in the order of their paths. *)
Theorem compiled_manifests (e : Env Y) config raw templates (Hi : template_inventory config = Some raw)
    (Hd : decode_templates raw = Ok templates) :
  ((exists ms, manifest_Render shuffle e config = Ok ms) <->
   templates <> [] /\ Forall (fun item => exists m, rendered e item m) templates)
  /\ forall ms, manifest_Render shuffle e config = Ok ms ->
       StronglySorted (in_order by_path) ms /\ exists ms0, ms ≡ₚ ms0 /\ Forall2 (rendered e) templates ms0.
Proof.
  unfold manifest_Render, renderCompiledManifestTemplates. rewrite Hi, Hd. split.
  - destruct templates as [|item l]; cbn [rbind length Nat.eqb]; [split; [by intros [ms [=]]|by intros [[] _]]|].
    transitivity (exists ms, Forall2 (rendered e) (item :: l) ms); [|split].
    + setoid_rewrite <- (render_templates_ok e _ 0). split; intros [ms Hx]; [|by exists (sort_slice by_path (shuffle ms)); cbn [rbind length Nat.eqb]; rewrite Hx].
      destruct (render_templates e 0 (item :: l)) as [ms'|]; [by exists ms'|done].
    + intros [ms Hms]. split; [done|]. clear -Hms. induction Hms; constructor; eauto.
    + intros [_ Hf]. clear -Hf. induction Hf as [|t l' [m Hm] _ [ms Hms]]; [by exists []|]. exists (m :: ms). by constructor.
  - intros ms. cbn [rbind]. destruct (_ =? _)%nat; [done|]. destruct (render_templates e 0 templates) as [ms'|] eqn:Er; [|done].
    intros [= <-]. split; [apply by_path_sorted|]. exists ms'. rewrite sort_slice_perm. split; [by apply shuffle_perm|].
    by apply render_templates_ok in Er.
Qed.

(** A project whose configuration resolves to Flux or to manifests never
    has a command of helm run for it: creating, deleting and observing one of its
    environments calls the store, the clock and the writer only, whatever fails. *)
Theorem gitops_only_writes config (Hr : ResolveDeploymentBackendFromProjectConfig config <> Ok BackendHelmDirect) (e : Env Y) id :
  only kept (CreateBacked shuffle e config) /\ only kept (DeleteBacked shuffle id config) /\ only kept (StatusBacked shuffle id config).
Proof.
  split_and!.
  - unfold CreateBacked, Create. cbn [handle bind call backed].
    destruct (ResolveDeploymentBackendFromProjectConfig config) as [b|err] eqn:Eb.
    + assert (Hb : b <> BackendHelmDirect) by (by intros ->). apply (handled_kept shuffle b); [done|]. split; [done|].
      intros [l|err]; [|apply fail_with_only]. split; [done|]. intros n. apply only_bind; [apply write_only|]. intros [e1 [err|]]; [apply fail_with_only|].
      apply only_bind; [apply apply_only|]. intros [c|err]; [apply save_only|apply fail_with_only].
    + apply (handled_kept shuffle BackendFlux); [done|]. apply fail_with_only.
  - unfold DeleteBacked, OrchDelete. cbn [handle bind call backed only]. split; [done|].
    intros [e'|err]; [|done]. cbn [handle bind]. destruct (str_eq _ _); [done|]. cbn [handle bind call backed only].
    split; [done|]. intros n1. split; [done|]. intros _. split; [done|]. intros n2. split; [done|]. intros _.
    destruct (ResolveDeploymentBackendFromProjectConfig config) as [b|err] eqn:Eb.
    + assert (Hb : b <> BackendHelmDirect) by (by intros ->). apply (handled_kept shuffle b); [done|].
      apply only_bind; [apply delete_only|]. intros [c|err]; [|apply fail_with_only]. split; [done|]. intros n3. apply save_only.
    + apply (handled_kept shuffle BackendFlux); [done|]. apply fail_with_only.
  - unfold StatusBacked, Status. cbn [handle bind call backed only]. split; [done|].
    intros [e'|err]; [|done]. cbn [handle bind call backed only].
    destruct (ResolveDeploymentBackendFromProjectConfig config) as [b|err] eqn:Eb; [|done].
    assert (Hb : b <> BackendHelmDirect) by (by intros ->). apply (handled_kept shuffle b); [done|]. split; [done|].
    intros [s|err]; [|done]. split; [done|]. intros n. apply save_only.
Qed.

(** A creation that succeeds with the backends of the configuration has
    resolved one of them, written the manifests that this backend renders, in
    order, then, with Helm only, carried out a whole [Apply] of this environment
    without an error, then committed, and saved the environment that it returns. *)
Theorem creation_applies (e : Env Y) config t e' (Hx : exec (CreateBacked shuffle e config) t (Done e')) :
  exists b ms n tw e1 th commit,
    ResolveDeploymentBackendFromProjectConfig config = Ok b /\ backend_Render shuffle b e config = Ok ms
    /\ written (set_env e StatusCreating n (set_error (E_rest e) "")) ms tw e1
    /\ t = map (rename_event (@Kept Y)) (Event Now n :: tw) ++ th
           ++ [Event (Kept (Commit ("envplane: create " +:+ E_ID e1))) (Ok commit); Event (Kept (StoreSave e')) None]
    /\ match b with BackendHelmDirect => exec (on_helm (hd_Apply e1 config)) th None | _ => th = [] end.
Proof.
  apply exec_handle in Hx as (t0 & Hx & Hc). apply Create_exec in Hx as [(? & ? & ? & ? & ? & _ & [=] & _)|Hx].
  destruct Hx as (b & ms & n & tw & e1 & ta & commit & r & Hw & Ha & _ & _ & -> & Ho). destruct r as [err|]; [done|]. injection Ho as ->.
  apply (carried_app _ [_; _; _]) in Hc as (u1 & u2 & -> & C1 & C2). apply carried_app in C2 as (u3 & u4 & -> & C3 & C4).
  apply carried_app in C4 as (u5 & u6 & -> & C5 & ->%carried_one%exec_call).
  apply (carried_app _ [_]) in C1 as (v1 & v2 & -> & [-> Hr]%carried_one & C1). apply (carried_app _ [_]) in C1 as (v3 & v4 & -> & [-> Hm]%carried_one & ->%carried_one%exec_call).
  apply (written_kept _ _ _ _ _ _ Hw) in C3 as ->. apply (applied_backed _ _ _ _ _ _ _ Ha) in C5 as (th & -> & Hh).
  exists b, ms, n, tw, e1, th, commit. split_and!; try done. cbn [app map rename_event]. f_equal. f_equal. by rewrite <- app_assoc.
Qed.
End BackendProperties.

(** ** Witnesses *)

Definition service_template : compiledManifestTemplate :=
  {| Tm_Path := ""; Tm_Kind := "Service"; Tm_Namespace := ""; Tm_Name := "web"; Tm_YAML := "kind: Service" |}.
Definition deployment_template : compiledManifestTemplate :=
  {| Tm_Path := "apps/deployment.yaml"; Tm_Kind := "Deployment"; Tm_Namespace := ""; Tm_Name := "web"; Tm_YAML := "kind: Deployment" |}.
Definition verbatim_templates : CompiledTemplates :=
  {| executeCompiledManifestTemplate := fun s _ => Ok s; decode_templates := fun _ => Ok [service_template; deployment_template] |}.
Definition named_backend : Inference := fun v _ _ => asString v.
Definition no_renderer : Renderer unit := fun _ => Err (errorf "no renderer").
Definition constant_yaml : ManifestYaml := fun _ => Ok (chars "kind: HelmDirect").
#[local] Existing Instances sample_hash sample_net sample_quote sample_kube sample_refs sample_templates sample_statuses sample_files
  verbatim_templates named_backend no_renderer constant_yaml.
Definition compiled_config (type : string) : any_map :=
  [("deployment", VMap [("backend", VStr type)]); ("bootstrapSessionData", VMap [("manifestTemplates", VOther)])].

(** The paths are in order, although the templates are not. *)
Lemma compiled_manifests_witness : exists ms, manifest_Render (fun l => l) sample_env (compiled_config "flux") = Ok ms
  /\ map Ma_Kind ms = ["Deployment"; "Service"].
Proof.
  destruct (compiled_manifests (fun l => l) (fun l => reflexivity l) sample_env (compiled_config "flux") VOther
              [service_template; deployment_template] eq_refl
              (eq_refl : @decode_templates verbatim_templates VOther = _)) as [[_ Hr] _].
  destruct Hr as [ms Hms].
  - split; [discriminate|]. repeat constructor.
    + exists {| Ma_Path := "templates/" +:+ M_Namespace (E_rest sample_env) +:+ "/service-web.yaml"; Ma_Kind := "Service";
                Ma_Content := chars "kind: Service" |}.
      split; [discriminate|]. split; [reflexivity|]. split; [reflexivity|]. exists "". by split.
    + exists {| Ma_Path := "apps/deployment.yaml"; Ma_Kind := "Deployment"; Ma_Content := chars "kind: Deployment" |}.
      split; [discriminate|]. split; [reflexivity|]. split; [reflexivity|]. exists "apps/deployment.yaml". by split.
  - exists ms. split; [exact Hms|]. vm_compute in Hms. injection Hms as <-. reflexivity.
Defined.
Lemma gitops_only_writes_witness : only kept (CreateBacked (Y := unit) (fun l => l) sample_env (compiled_config "flux_cd")).
Proof.
  assert (Hr : ResolveDeploymentBackendFromProjectConfig (compiled_config "flux_cd") <> Ok BackendHelmDirect) by (vm_compute; discriminate).
  exact (proj1 (gitops_only_writes (fun l => l) (compiled_config "flux_cd") Hr sample_env "7")).
Defined.

Definition backed_answers (R : Type) (h : list (event (backed_call unit))) (c : backed_call unit R) : R :=
  match c in backed_call _ R return R with
  | Kept c => sample_answers BackendHelmDirect _ [] c
  | OnHelm op => sample_direct _ [] op
  end.
Definition backed_creation := run backed_answers [] (CreateBacked (fun l => l) sample_env (compiled_config "helm-direct")).
Lemma creation_applies_witness : exists (e' e1 : Env unit) th, backed_creation.2 = Done e'
  /\ exec (on_helm (Y := unit) (hd_Apply e1 (compiled_config "helm-direct"))) th None.
Proof.
  assert (Hx : exec (CreateBacked (fun l => l) sample_env (compiled_config "helm-direct")) backed_creation.1 backed_creation.2)
    by exact (run_exec backed_answers (CreateBacked (fun l => l) sample_env (compiled_config "helm-direct")) []).
  destruct backed_creation.2 as [e'|e' err|err] eqn:E; [|vm_compute in E; discriminate E..].
  destruct (creation_applies (fun l => l) sample_env (compiled_config "helm-direct") _ e' Hx)
    as (b & ms & n & tw & e1 & th & commit & Hb & _ & _ & _ & Hh).
  assert (b = BackendHelmDirect) as -> by (vm_compute in Hb; by injection Hb as <-).
  exists e', e1, th. split; [reflexivity|exact Hh].
Defined.
