(* ===== verification/RunnerConfig.v ===== *)
(** * The configuration of the runner

    [internal/runner/runtime.go]: [runnerConfig] and how it is read from the
    environment, the namespaces a runner may write to, the validation of the
    control plane's endpoint, the files of the runtime's tokens, and the
    preflight that waits for the control plane. *)

From stdpp Require Import base list gmap strings pretty.
From Stdlib Require Import ZArith Lia Ascii String.
From S2P Require Import Prelude GoStrings SqlFence GoPath EnvStore OrchTypes HelmValues.

Local Open Scope string_scope.
Local Open Scope Z_scope.
Local Open Scope list_scope.

(** ** The host *)

(** [os.LookupEnv] is a function: the environment does not change. *)
Inductive host : Type -> Type :=
| Hostname : host (option string)
| ReadFile (path : string) : host (result go_error bytes)
| MkdirAll (dir : string) (mode : Z) : host (option go_error)
| WriteFile (path : string) (content : bytes) (mode : Z) : host (option go_error).

(** A JSON decoder that disallows unknown fields: the first value, if it
    decodes, and whether nothing follows it.  [P] is
    [domain.PVCCopySourceRef]. *)
Class ConfigJson (P : Type) := {
  decode_sources : string -> option (list P) * bool;
  decode_fences : string -> option (list AdmissionFenceRef) * bool }.
(** [AppendCertsFromPEM] *)
Class Certificates := certificates_in : bytes -> bool.

Record runnerConfig (P : Type) := {
  ControlPlaneURL : string; ControlPlaneEndpointMode : string; ControlPlaneCAFile : string;
  ControlPlaneTLSServerName : string; ConnectivityMaxAttempts : Z; ConnectivityInitialDelay : Z;
  ConnectivityMaxDelay : Z; ConnectivityDeadline : Z; RemoteGeneration : Z;
  ProjectID : string; ClusterID : string; RunnerID : string; RunnerNamespace : string;
  DeploymentMode : string; RegistrationToken : string; RunnerAuthToken : string;
  RunnerAuthTokenFile : string; ProjectConfigURL : string; ProjectConfigToken : string;
  HeartbeatInterval : Z; ReportTimeout : Z; CommandResultTimeout : Z; HealthAddr : string;
  RunnerVersion : string; FeatureEnvWriterMode : string; FeatureEnvWriterNamespaces : list string;
  HelmAllowedChartHosts : list string; ReleasePlanAllowedKinds : list string;
  PVCCopyHelperImage : string; PVCCopySourceNamespaces : list string;
  PVCCopyRunnerServiceAccount : string; PVCCopyAllowRootHelpers : bool;
  PVCCopyApprovedProductionSources : list P;
  MySQLRestoreHelperImage : string; MySQLRestoreSourceNamespaces : list string;
  MySQLRestoreTargetImages : list string; MySQLRestoreAllowRootInit : bool;
  MySQLRestoreSourceFences : list AdmissionFenceRef }.
Arguments ControlPlaneURL {P}. Arguments ControlPlaneEndpointMode {P}. Arguments ControlPlaneCAFile {P}.
Arguments ControlPlaneTLSServerName {P}. Arguments ConnectivityMaxAttempts {P}.
Arguments ConnectivityInitialDelay {P}. Arguments ConnectivityMaxDelay {P}. Arguments ConnectivityDeadline {P}.
Arguments RemoteGeneration {P}. Arguments ProjectID {P}. Arguments ClusterID {P}. Arguments RunnerID {P}.
Arguments RunnerNamespace {P}. Arguments DeploymentMode {P}. Arguments RegistrationToken {P}.
Arguments RunnerAuthToken {P}. Arguments RunnerAuthTokenFile {P}. Arguments ProjectConfigURL {P}.
Arguments ProjectConfigToken {P}. Arguments HeartbeatInterval {P}. Arguments ReportTimeout {P}.
Arguments CommandResultTimeout {P}. Arguments HealthAddr {P}. Arguments RunnerVersion {P}.
Arguments FeatureEnvWriterMode {P}. Arguments FeatureEnvWriterNamespaces {P}. Arguments HelmAllowedChartHosts {P}.
Arguments ReleasePlanAllowedKinds {P}. Arguments PVCCopyHelperImage {P}. Arguments PVCCopySourceNamespaces {P}.
Arguments PVCCopyRunnerServiceAccount {P}. Arguments PVCCopyAllowRootHelpers {P}.
Arguments PVCCopyApprovedProductionSources {P}. Arguments MySQLRestoreHelperImage {P}.
Arguments MySQLRestoreSourceNamespaces {P}. Arguments MySQLRestoreTargetImages {P}.
Arguments MySQLRestoreAllowRootInit {P}. Arguments MySQLRestoreSourceFences {P}.

(** ** Environment variables *)

(** [getenv] *)
Definition getenv (env : string -> option string) (key fallback : string) : string :=
  let direct :=
    let value := match env key with Some v => trim_space v | None => "" end in
    if str_ne value "" then value else fallback in
  if has_prefix key "ENVPLANE_" then
    match env ("ENVPLANE_" +:+ trim_prefix key "ENVPLANE_") with
    | Some value => trim_space value
    | None => direct
    end
  else direct.
(** [getenvInt] *)
Definition getenvInt (env : string -> option string) (key : string) (fallback : Z) : Z :=
  let value := getenv env key "" in
  if str_eq value "" then fallback
  else match atoi value with Some n => n | None => fallback end.
Definition maxInt (left right : Z) : Z := if right <? left then left else right.

(** Arithmetic on [time.Duration], an [int64]. *)
Definition Second : Z := 1000000000.
Definition Minute : Z := 60 * Second.
Definition mul_second (n : Z) : Z := wrap64 (n * Second).

(** [hostnameFallback] *)
Definition hostnameFallback (fallback : string) : prog host string :=
  h <-- call Hostname;;
  Ret (match h with
       | None => fallback
       | Some v => if str_eq (trim_space v) "" then fallback else trim_space v
       end).

(** ** Lists of the configuration *)

(** The loop that the three [normalizeRunner...List] share. *)
Fixpoint collect_unique (f : string -> string) (seen : list string) (l : list string) : list string :=
  match l with
  | [] => []
  | value :: l' =>
      let item := f value in
      if str_eq item "" then collect_unique f seen l'
      else if existsb (str_eq item) seen then collect_unique f seen l'
      else item :: collect_unique f (item :: seen) l'
  end.
Definition split_commas (s : string) : list string := split_on (byte_of 44) s.
Definition normalizeRunnerNamespaceList (raw : string) : list string :=
  collect_unique trim_space [] (split_commas raw).
Definition normalizeRunnerKindList (raw : string) : list string :=
  collect_unique trim_space [] (split_commas raw).
Definition normalizeRunnerHostList (raw : string) : list string :=
  collect_unique (fun value => to_lower (trim_space value)) [] (split_commas raw).

(** A list given as JSON: at most 65536 bytes and 32 entries. *)
Definition bounded_list {A} (decode : string -> option (list A) * bool) (raw : string) : list A :=
  if (0 <? str_len raw) && (str_len raw <=? 65536) then
    match decode raw with
    | (Some l, true) => if (32 <? List.length l)%nat then [] else l
    | _ => []
    end
  else [].

(** ** Files of the tokens *)

Section TokenFiles.
Context `{Sha256}.

(** [readRuntimeTokenFile] *)
Definition readRuntimeTokenFile (path : string) : prog host string :=
  let path := trim_space path in
  if str_eq path "" then Ret ""
  else
    c <-- call (ReadFile path);;
    Ret (match c with Ok content => trim_space (text content) | Err _ => "" end).
(** [os.MkdirAll] of the directory, then [os.WriteFile]. *)
Definition write_private (path : string) (content : bytes) : prog host (option go_error) :=
  d <-- call (MkdirAll (path_dir path) 448);;
  match d with
  | Some err => Ret (Some err)
  | None => call (WriteFile path content 384)
  end.
Definition line (s : string) : bytes := chars s ++ [byte_of 10].
(** [persistRuntimeToken] *)
Definition persistRuntimeToken (path token : string) : prog host (option go_error) :=
  let path := trim_space path in
  let token := trim_space token in
  if str_eq path "" || str_eq token "" then Ret None else write_private path (line token).
(** [clearRuntimeToken] *)
Definition clearRuntimeToken (path : string) : prog host (option go_error) :=
  let path := trim_space path in
  if str_eq path "" then Ret None else write_private path [].
(** [registrationTokenFingerprintPath] *)
Definition registrationTokenFingerprintPath (authTokenPath : string) : string :=
  let authTokenPath := trim_space authTokenPath in
  if str_eq authTokenPath "" then "" else authTokenPath +:+ ".registration-token-sha256".
(** [registrationTokenFingerprint] *)
Definition registrationTokenFingerprint (token : string) : string :=
  let token := trim_space token in
  if str_eq token "" then "" else sha256_hex (chars token).
(** [persistRegistrationTokenFingerprint] *)
Definition persistRegistrationTokenFingerprint (authTokenPath registrationToken : string)
    : prog host (option go_error) :=
  let path := registrationTokenFingerprintPath authTokenPath in
  let fingerprint := registrationTokenFingerprint registrationToken in
  if str_eq path "" || str_eq fingerprint "" then Ret None else write_private path (line fingerprint).
(** [registrationTokenChanged] *)
Definition registrationTokenChanged (authTokenPath registrationToken : string) : prog host bool :=
  let want := registrationTokenFingerprint registrationToken in
  let path := registrationTokenFingerprintPath authTokenPath in
  if str_eq want "" || str_eq path "" then Ret false
  else
    have <-- readRuntimeTokenFile path;;
    let have := trim_space have in
    if str_eq have "" then
      _ <-- persistRegistrationTokenFingerprint authTokenPath registrationToken;; Ret false
    else Ret (str_ne have want).
End TokenFiles.

(** ** Reading the configuration *)

(** [strings.TrimRight(s, "/")] *)
Definition trim_right_slashes (s : string) : string :=
  text (trim_right_bytes_of (char_eq slash) (chars s)).

Section FromEnv.
Context {P : Type} `{Sha256} `{ConfigJson P}.

(** The first lines of [runnerConfigFromEnv]: which auth token is used. *)
Definition auth_token (env : string -> option string) : prog host string :=
  let authTokenFile := getenv env "ENVPLANE_RUNNER_AUTH_TOKEN_FILE" "" in
  let registrationToken := getenv env "ENVPLANE_RUNNER_REGISTRATION_TOKEN" "" in
  let authToken := getenv env "ENVPLANE_RUNNER_AUTH_TOKEN" "" in
  authToken <-- (if str_eq (trim_space authToken) "" then readRuntimeTokenFile authTokenFile else Ret authToken);;
  changed <-- registrationTokenChanged authTokenFile registrationToken;;
  Ret (if changed : bool then "" else authToken).

(** [runnerConfigFromEnv] *)
Definition runnerConfigFromEnv (env : string -> option string) : prog host (runnerConfig P) :=
  let get := getenv env in
  let get_int := getenvInt env in
  authToken <-- auth_token env;;
  hostname <-- hostnameFallback "envplane-runner";;
  Ret {|
    MySQLRestoreHelperImage := trim_space (get "ENVPLANE_MYSQL_RESTORE_HELPER_IMAGE" "");
    MySQLRestoreSourceNamespaces := split_commas (get "ENVPLANE_MYSQL_RESTORE_SOURCE_NAMESPACES" "");
    MySQLRestoreTargetImages := split_commas (get "ENVPLANE_MYSQL_RESTORE_TARGET_IMAGES" "");
    MySQLRestoreAllowRootInit := equal_fold (get "ENVPLANE_MYSQL_RESTORE_ALLOW_ROOT_INIT" "false") "true";
    PVCCopyHelperImage := trim_space (get "ENVPLANE_PVC_COPY_HELPER_IMAGE" "");
    PVCCopySourceNamespaces := split_commas (get "ENVPLANE_PVC_COPY_SOURCE_NAMESPACES" "");
    PVCCopyRunnerServiceAccount := trim_space (get "ENVPLANE_PVC_COPY_RUNNER_SERVICE_ACCOUNT" "");
    PVCCopyAllowRootHelpers := equal_fold (get "ENVPLANE_PVC_COPY_ALLOW_ROOT_HELPERS" "false") "true";
    ControlPlaneURL := trim_right_slashes (get "ENVPLANE_CONTROL_PLANE_URL" "");
    ControlPlaneEndpointMode := trim_space (get "ENVPLANE_CONTROL_PLANE_ENDPOINT_MODE" "sameCluster");
    ControlPlaneCAFile := get "ENVPLANE_CONTROL_PLANE_CA_FILE" "";
    ControlPlaneTLSServerName := get "ENVPLANE_CONTROL_PLANE_TLS_SERVER_NAME" "";
    ConnectivityMaxAttempts := get_int "ENVPLANE_CONTROL_PLANE_CONNECTIVITY_MAX_ATTEMPTS" 12;
    ConnectivityInitialDelay :=
      mul_second (get_int "ENVPLANE_CONTROL_PLANE_CONNECTIVITY_INITIAL_BACKOFF_SECONDS" 1);
    ConnectivityMaxDelay :=
      mul_second (get_int "ENVPLANE_CONTROL_PLANE_CONNECTIVITY_MAX_BACKOFF_SECONDS" 5);
    ConnectivityDeadline :=
      mul_second (maxInt 5 (get_int "ENVPLANE_CONTROL_PLANE_CONNECTIVITY_DEADLINE_SECONDS" 120));
    RemoteGeneration := get_int "ENVPLANE_REMOTE_GENERATION" 0;
    ProjectID := get "ENVPLANE_PROJECT_ID" "";
    ClusterID := get "ENVPLANE_CLUSTER_ID" "default";
    RunnerID := get "ENVPLANE_RUNNER_ID" hostname;
    RunnerNamespace := get "ENVPLANE_RUNNER_NAMESPACE" "envplane-system";
    DeploymentMode := to_lower (get "ENVPLANE_RUNNER_DEPLOYMENT_MODE" "helm");
    RegistrationToken := get "ENVPLANE_RUNNER_REGISTRATION_TOKEN" "";
    RunnerAuthToken := authToken;
    RunnerAuthTokenFile := get "ENVPLANE_RUNNER_AUTH_TOKEN_FILE" "";
    ProjectConfigURL := get "ENVPLANE_PROJECT_CONFIG_URL" "";
    ProjectConfigToken := get "ENVPLANE_PROJECT_CONFIG_TOKEN" "";
    HeartbeatInterval := mul_second (get_int "ENVPLANE_RUNNER_HEARTBEAT_INTERVAL_SECONDS" 30);
    ReportTimeout := mul_second (get_int "ENVPLANE_RUNNER_REPORT_TIMEOUT_SECONDS" 10);
    CommandResultTimeout := mul_second (get_int "ENVPLANE_RUNNER_COMMAND_RESULT_TIMEOUT_SECONDS" 180);
    HealthAddr := get "ENVPLANE_RUNNER_HEALTH_ADDR" ":8080";
    RunnerVersion := get "ENVPLANE_RUNNER_VERSION" "dev";
    FeatureEnvWriterMode := trim_space (get "ENVPLANE_FEATURE_ENV_WRITER_MODE" "releaseNamespace");
    FeatureEnvWriterNamespaces := normalizeRunnerNamespaceList (get "ENVPLANE_FEATURE_ENV_WRITER_NAMESPACES" "");
    HelmAllowedChartHosts := normalizeRunnerHostList (get "ENVPLANE_HELM_ALLOWED_CHART_HOSTS" "");
    ReleasePlanAllowedKinds := normalizeRunnerKindList (get "ENVPLANE_RELEASE_PLAN_ALLOWED_KINDS" "");
    PVCCopyApprovedProductionSources :=
      bounded_list decode_sources (get "ENVPLANE_PVC_COPY_APPROVED_PRODUCTION_SOURCES" "");
    MySQLRestoreSourceFences :=
      bounded_list decode_fences (get "ENVPLANE_MYSQL_RESTORE_SOURCE_FENCES" "") |}.
End FromEnv.

(** ** What a configuration allows *)

Section Allowed.
Context {P : Type} `{GoNet} `{Certificates}.
Implicit Types c : runnerConfig P.

(** [releasePlanAllowedKinds] *)
Definition releasePlanAllowedKinds c : list string :=
  if (0 <? List.length (ReleasePlanAllowedKinds c))%nat then ReleasePlanAllowedKinds c
  else ["ConfigMap"; "CronJob"; "CustomResourceDefinition"; "DaemonSet"; "Deployment";
        "HelmDirect"; "HelmDirectDeployment"; "Ingress"; "Job"; "Kustomization"; "Namespace"; "NetworkPolicy";
        "PersistentVolumeClaim"; "Role"; "RoleBinding"; "Secret"; "Service"; "ServiceAccount";
        "StatefulSet"; "GitRepository"].
(** [helmTargetNamespaces] *)
Definition helmTargetNamespaces c : list string :=
  if (0 <? List.length (FeatureEnvWriterNamespaces c))%nat then FeatureEnvWriterNamespaces c
  else if equal_fold (trim_space (FeatureEnvWriterMode c)) "releaseNamespace"
  then normalizeRunnerNamespaceList (RunnerNamespace c)
  else [].
(** [canRunHelmInNamespace] *)
Definition canRunHelmInNamespace c (namespace : string) : bool :=
  let namespace := trim_space namespace in
  if str_eq namespace "" then false else existsb (str_eq namespace) (helmTargetNamespaces c).
(** [runnerHelmChartHostAllowed] *)
Definition runnerHelmChartHostAllowed (chartRef : string) (allowedHosts : list string) : bool :=
  match url_parse (trim_space chartRef) with
  | None => true
  | Some u =>
      if negb (existsb (str_eq (U_Scheme u)) ["oci"; "http"; "https"]) then true
      else
        let host := to_lower (trim_space (U_Hostname u)) in
        if str_eq host "" || (List.length allowedHosts =? 0)%nat then false
        else existsb (fun allowed => str_eq host (to_lower (trim_space allowed))) allowedHosts
  end.

(** [validateRunnerControlPlaneEndpoint] *)
Definition local_host (host : string) : bool :=
  existsb (str_eq host) ["localhost"; "127.0.0.1"; "::1"; "envplane.local"; "host.minikube.internal"]
  || has_suffix host ".svc" || contains host ".svc.".
Definition validateRunnerControlPlaneEndpoint (rawURL endpointMode : string) : result go_error unit :=
  let mode := to_lower (trim_space endpointMode) in
  let mode := if str_eq mode "" then "samecluster" else mode in
  refuse str_ne mode "samecluster" && str_ne mode "remote"
    with errorf "ENVPLANE_CONTROL_PLANE_ENDPOINT_MODE must be sameCluster or remote";;
  match url_parse (trim_space rawURL) with
  | None => Err (errorf "ENVPLANE_CONTROL_PLANE_URL must be an HTTP(S) URL")
  | Some u =>
      refuse (str_ne (U_Scheme u) "http" && str_ne (U_Scheme u) "https") || str_eq (U_Hostname u) ""
        with errorf "ENVPLANE_CONTROL_PLANE_URL must be an HTTP(S) URL";;
      if str_ne mode "remote" then Ok tt
      else
        refuse str_ne (U_Scheme u) "https" || U_User u || str_ne (U_RawQuery u) "" || str_ne (U_Fragment u) ""
          with errorf "remote ENVPLANE_CONTROL_PLANE_URL must be an explicit stable HTTPS URL without credentials, query parameters, or fragments";;
        refuse local_host (to_lower (trim_space (U_Hostname u)))
          with errorf "remote ENVPLANE_CONTROL_PLANE_URL must be target-pod-reachable, not host-local or Kubernetes Service DNS";;
        Ok tt
  end.

(** What [newRunnerControlPlaneHTTPClientWithTLS] builds: the timeout; the
    extra certificates and the server name of its TLS configuration.  A client
    follows redirects unless its [CheckRedirect] answers with the last response. *)
Record http_client := { Hc_Timeout : Z; Hc_TLS : option (option bytes * string); Hc_Redirects : bool }.
Definition newRunnerControlPlaneHTTPClientWithTLS (timeout : Z) (caFile serverName : string)
    : prog host (result go_error http_client) :=
  let timeout := if timeout <=? 0 then 10 * Second else timeout in
  if str_ne (trim_space caFile) "" then
    r <-- call (ReadFile caFile);;
    Ret (match r with
         | Err err => Err (wrapf "read control-plane CA file" err)
         | Ok pem =>
             refuse negb (certificates_in pem) with errorf "control-plane CA file contains no certificates";;
             Ok {| Hc_Timeout := timeout; Hc_TLS := Some (Some pem, trim_space serverName); Hc_Redirects := true |}
         end)
  else
    Ret (Ok {| Hc_Timeout := timeout;
               Hc_TLS := if str_ne (trim_space serverName) "" then Some (None, trim_space serverName) else None;
               Hc_Redirects := true |}).

(** [runnerConfig.validate] *)
Definition validate c : prog host (result go_error unit) :=
  stop str_eq (trim_space (ControlPlaneURL c)) "" with errorf "ENVPLANE_CONTROL_PLANE_URL is required";;
  _ <-! Ret (validateRunnerControlPlaneEndpoint (ControlPlaneURL c) (ControlPlaneEndpointMode c));;
  tls <-- newRunnerControlPlaneHTTPClientWithTLS (ReportTimeout c) (ControlPlaneCAFile c)
            (ControlPlaneTLSServerName c);;
  match tls with
  | Err err => Ret (Err (wrapf "invalid control-plane TLS configuration" err))
  | Ok _ =>
  stop str_eq (trim_space (ProjectID c)) "" with errorf "ENVPLANE_PROJECT_ID is required";;
  stop str_eq (trim_space (ClusterID c)) "" with errorf "ENVPLANE_CLUSTER_ID is required";;
  stop str_eq (trim_space (RunnerID c)) "" with errorf "ENVPLANE_RUNNER_ID is required";;
  stop str_eq (trim_space (RunnerNamespace c)) "" with errorf "ENVPLANE_RUNNER_NAMESPACE is required";;
  stop str_eq (trim_space (DeploymentMode c)) "" with errorf "ENVPLANE_RUNNER_DEPLOYMENT_MODE is required";;
  let mode := trim_space (FeatureEnvWriterMode c) in
  stop negb (existsb (str_eq mode) ["disabled"; "releaseNamespace"; "preconfiguredNamespaces";
                                    "generatedFeatureNamespaces"])
    with errorf "ENVPLANE_FEATURE_ENV_WRITER_MODE must be disabled, releaseNamespace, preconfiguredNamespaces, or generatedFeatureNamespaces";;
  stop (str_eq mode "preconfiguredNamespaces" || str_eq mode "generatedFeatureNamespaces")
       && (List.length (FeatureEnvWriterNamespaces c) =? 0)%nat
    with errorf ("ENVPLANE_FEATURE_ENV_WRITER_NAMESPACES is required for " +:+ mode);;
  stop str_eq (trim_space (RegistrationToken c)) "" && str_eq (trim_space (RunnerAuthToken c)) ""
    with errorf "set ENVPLANE_RUNNER_REGISTRATION_TOKEN or ENVPLANE_RUNNER_AUTH_TOKEN";;
  stop HeartbeatInterval c <=? 0 with errorf "heartbeat interval must be positive";;
  stop ReportTimeout c <=? 0 with errorf "report timeout must be positive";;
  stop (0 <? CommandResultTimeout c) && (CommandResultTimeout c <? ReportTimeout c)
    with errorf "command result timeout must not be shorter than report timeout";;
  Ret (Ok tt)
  end.

(** [commandResultTimeout] *)
Definition commandResultTimeout c : Z :=
  if 0 <? CommandResultTimeout c then CommandResultTimeout c
  else if 3 * Minute <? ReportTimeout c then ReportTimeout c else 3 * Minute.

(** ** The connectivity preflight *)

(** A request to [/api/v1/health]: building it, the status of the answer; a
    pause, after which the context may be done. *)
Inductive preflight : Type -> Type :=
| CtxErr : preflight (option go_error)
| OnHost {R} (h : host R) : preflight R
| NewHealthRequest : preflight (option go_error)
| GetHealth (client : http_client) : preflight (result go_error Z)
| Pause (delay : Z) : preflight (option go_error).

Fixpoint on_host {A} (p : prog host A) : prog preflight A :=
  match p with
  | Ret a => Ret a
  | Vis e k => Vis (OnHost e) (fun r => on_host (k r))
  end.

(** The delay after an attempt: a shift of an [int64] that may overflow. *)
Definition retry_delay (initial maxDelay attempt : Z) : Z :=
  let delay := wrap64 (Z.shiftl initial (attempt - 1)) in
  if (maxDelay <? delay) || (delay <=? 0) then maxDelay else delay.
Definition limit_exceeded (err : go_error) : go_error :=
  wrapf "control-plane preflight retry limit exceeded" err.

(** The loop of [runnerConnectivityCheckWithRetry]; [remaining] attempts are
    left, the last one does not wait. *)
Fixpoint attempts c (initial maxDelay : Z) (remaining : nat) (attempt : Z)
    : prog preflight (option go_error) :=
  match remaining with
  | O => Ret None
  | S remaining' =>
      done <-- call CtxErr;;
      match done with
      | Some err => Ret (Some err)
      | None =>
          client <-- on_host (newRunnerControlPlaneHTTPClientWithTLS (ReportTimeout c) (ControlPlaneCAFile c)
                                (ControlPlaneTLSServerName c));;
          match client with
          | Err err => Ret (Some err)
          | Ok client =>
              q <-- call NewHealthRequest;;
              match q with
              | Some err => Ret (Some err)
              | None =>
                  answer <-- call (GetHealth client);;
                  let failed lastErr :=
                    match remaining' with
                    | O => Ret (Some (limit_exceeded lastErr))
                    | _ =>
                        stopped <-- call (Pause (retry_delay initial maxDelay attempt));;
                        match stopped with
                        | Some err => Ret (Some err)
                        | None => attempts c initial maxDelay remaining' (attempt + 1)
                        end
                    end in
                  match answer with
                  | Ok status => if (200 <=? status) && (status <? 300) then Ret None
                                 else failed (errorf ("endpoint_unhealthy: HTTP " +:+ pretty status))
                  | Err err => failed (wrapf "endpoint_unreachable" err)
                  end
              end
          end
      end
  end.
Definition max_attempts c : Z :=
  if ConnectivityMaxAttempts c <=? 0 then 12 else ConnectivityMaxAttempts c.
Definition initial_delay c : Z :=
  if ConnectivityInitialDelay c <? Second then Second else ConnectivityInitialDelay c.
Definition max_delay c : Z :=
  if ConnectivityMaxDelay c <? initial_delay c then initial_delay c else ConnectivityMaxDelay c.
(** [runnerConnectivityCheckWithRetry] *)
Definition runnerConnectivityCheckWithRetry c : prog preflight (option go_error) :=
  attempts c (initial_delay c) (max_delay c) (Z.to_nat (max_attempts c)) 1.
(** The deadline of [ConnectivityCheck]. *)
Definition preflight_deadline c : Z :=
  let deadline := ConnectivityDeadline c in
  let deadline := if deadline <? 5 * Second then 5 * Second else deadline in
  if 10 * Minute <? deadline then 10 * Minute else deadline.
End Allowed.

(** ** Lemmas *)

Lemma collect_unique_spec f seen l x :
  x ∈ collect_unique f seen l <-> x <> "" /\ x ∈ map f l /\ x ∉ seen.
Proof.
  revert seen. induction l as [|v l IH]; intros seen; cbn [collect_unique map].
  - rewrite !elem_of_nil. naive_solver.
  - cbv zeta. rewrite elem_of_cons. destruct (str_eq (f v) "") eqn:E1.
    { apply str_eq_true in E1. rewrite IH, E1. naive_solver. }
    apply str_eq_false in E1. destruct (existsb (str_eq (f v)) seen) eqn:E2.
    + apply existsb_str, list_elem_of_In in E2. rewrite IH. naive_solver.
    + assert (Hn : f v ∉ seen).
      { intros Hin. apply list_elem_of_In, existsb_str in Hin. congruence. }
      rewrite elem_of_cons, IH, not_elem_of_cons. destruct (decide (x = f v)) as [->|]; naive_solver.
Qed.

Lemma collect_unique_nodup f seen l : NoDup (collect_unique f seen l).
Proof.
  revert seen. induction l as [|v l IH]; intros seen; cbn [collect_unique]; [constructor|].
  cbv zeta. destruct (str_eq (f v) ""); [done|]. destruct (existsb _ seen); [done|].
  constructor; [|done]. rewrite collect_unique_spec, not_elem_of_cons. naive_solver.
Qed.

Lemma collect_unique_nil f l : collect_unique f [] l = [] <-> Forall (fun v => f v = "") l.
Proof.
  rewrite Forall_forall. split.
  - intros E v Hv. destruct (decide (f v = "")) as [|Hn]; [done|].
    assert (Hin : f v ∈ collect_unique f [] l).
    { apply collect_unique_spec. split; [done|]. split; [|apply not_elem_of_nil].
      apply list_elem_of_In, in_map, list_elem_of_In, Hv. }
    rewrite E in Hin. by apply elem_of_nil in Hin.
  - intros Hf. destruct (collect_unique f [] l) as [|x r] eqn:E; [done|].
    assert (Hin : x ∈ collect_unique f [] l) by (rewrite E; left).
    apply collect_unique_spec in Hin as (Hx & Hm & _).
    apply list_elem_of_In, in_map_iff in Hm as (v & <- & Hv). destruct Hx.
    apply Hf, list_elem_of_In, Hv.
Qed.

Lemma mem_str s l : existsb (str_eq s) l = true <-> s ∈ l.
Proof. by rewrite existsb_str, list_elem_of_In. Qed.

Lemma trim_idem_in l : Forall (fun s => trim_space s = s) (map trim_space l).
Proof. induction l; constructor; [apply trim_space_idem|done]. Qed.

(** The namespaces that a configuration allows. *)
Lemma canRun_spec {P} (c : runnerConfig P) ns :
  canRunHelmInNamespace c ns = true <-> trim_space ns <> "" /\ trim_space ns ∈ helmTargetNamespaces c.
Proof.
  unfold canRunHelmInNamespace. destruct (str_eq (trim_space ns) "") eqn:E.
  - apply str_eq_true in E. naive_solver.
  - apply str_eq_false in E. rewrite mem_str. naive_solver.
Qed.

(** The connectivity loop, for each of its executions. *)
Section Attempts.
Context {P : Type} `{Certificates} (c : runnerConfig P) (initial maxDelay : Z).
Hypothesis initial_pos : 0 < initial.
Hypothesis max_pos : 0 < maxDelay.

Definition probed (ev : event preflight) : option (result go_error Z) :=
  match ev with @Event _ R q r => match q in preflight R return R -> _ with
    | GetHealth _ => fun r => Some r | _ => fun _ => None end r end.
Definition paused (ev : event preflight) : option Z :=
  match ev with @Event _ _ (Pause d) _ => Some d | _ => None end.
(** An answer that is no success. *)
Definition unhealthy (r : result go_error Z) : Prop := forall status, r = Ok status -> ~ (200 <= status < 300).
Lemma outage_unhealthy err : unhealthy (Err err).
Proof. by intros status. Qed.
Lemma refusal_unhealthy status : (200 <=? status) && (status <? 300) = false -> unhealthy (Ok status).
Proof. intros Hs status' [= ->] [H1 H2]. rewrite (proj2 (Z.leb_le _ _) H1), (proj2 (Z.ltb_lt _ _) H2) in Hs. done. Qed.

Lemma retry_delay_bounds attempt : 0 < retry_delay initial maxDelay attempt <= maxDelay.
Proof.
  unfold retry_delay. cbv zeta. set (d := wrap64 _). clearbody d.
  destruct (maxDelay <? d) eqn:E1; [simpl; lia|]. destruct (d <=? 0) eqn:E2; simpl; lia.
Qed.

Lemma on_host_quiet {A} (p : prog host A) t a : exec (on_host p) t a ->
  omap probed t = [] /\ omap paused t = [].
Proof.
  revert t. induction p as [a'|R e k IH]; intros t; cbn [on_host exec]; [by intros [-> _]|].
  intros (r & t' & -> & Hx). by apply IH in Hx.
Qed.

(** What one pass of the loop has seen: at most [n] probes, one pause less, only
    the last probe may be healthy, and the result is no error exactly then. *)
Definition bounded (n : nat) (t : list (event preflight)) (r : option go_error) : Prop :=
  (length (omap probed t) <= n)%nat
  /\ (length (omap paused t) <= n - 1)%nat
  /\ Forall (fun d => 0 < d <= maxDelay) (omap paused t)
  /\ match r with
     | None => exists l status, omap probed t = l ++ [Ok status] /\ 200 <= status < 300 /\ Forall unhealthy l
     | Some _ => Forall unhealthy (omap probed t)
     end.

Lemma bounded_prefix n t1 t r : omap probed t1 = [] -> omap paused t1 = [] ->
  bounded n t r -> bounded n (t1 ++ t) r.
Proof. intros H1 H2. unfold bounded. by rewrite !omap_app, H1, H2. Qed.

Lemma bounded_stop n t r : omap probed t = [] -> omap paused t = [] -> r <> None -> bounded n t r.
Proof. unfold bounded. intros -> -> Hr. simpl. split; [lia|]. split; [lia|]. split; [constructor|]. by destruct r. Qed.

Lemma bounded_retry n t1 a d s t r : omap probed t1 = [] -> omap paused t1 = [] ->
  0 < d <= maxDelay -> (0 < n)%nat -> unhealthy s -> bounded n t r ->
  bounded (S n) (t1 ++ Event (GetHealth a) s :: Event (Pause d) None :: t) r.
Proof.
  intros Hp1 Hp2 Hd Hn Hs (Ha & Hb & Hc & Hdone). apply bounded_prefix; [done..|].
  unfold bounded. cbn [omap list_omap probed paused length]. split; [lia|]. split; [lia|].
  split; [by constructor|]. destruct r as [err|]; [by constructor|].
  destruct Hdone as (l & status & -> & Hx & Hl). exists (s :: l), status. split; [done|]. split; [done|by constructor].
Qed.

Lemma attempts_bounded n attempt t r : (0 < n)%nat ->
  exec (attempts c initial maxDelay n attempt) t r -> bounded n t r.
Proof.
  revert attempt t. induction n as [|n IH]; intros attempt t Hn; [lia|].
  cbn [attempts]. intros ([err|] & t1 & -> & Hx)%exec_bind_call.
  { destruct Hx as [-> ->]. by apply bounded_stop. }
  apply exec_bind in Hx as (th & t2 & [client|err] & -> & Hh%on_host_quiet & Hx); destruct Hh as [Hh1 Hh2].
  2:{ destruct Hx as [-> ->]. rewrite app_nil_r. by apply bounded_stop. }
  apply exec_bind_call in Hx as ([err|] & t3 & -> & Hx).
  { destruct Hx as [-> ->]. apply bounded_stop; [..|done]; cbn; by rewrite omap_app, ?Hh1, ?Hh2. }
  apply exec_bind_call in Hx as (s & t4 & -> & Hx). cbv zeta in Hx.
  assert (Hfail : forall lastErr, unhealthy s ->
    exec (match n with
          | O => Ret (Some (limit_exceeded lastErr))
          | _ => stopped <-- call (Pause (retry_delay initial maxDelay attempt));;
                 match stopped with
                 | Some err => Ret (Some err)
                 | None => attempts c initial maxDelay n (attempt + 1)
                 end
          end) t4 r -> bounded (S n) (Event CtxErr None :: th ++ Event NewHealthRequest None :: Event (GetHealth client) s :: t4) r).
  { intros lastErr Hs Hy. set (t0 := Event CtxErr None :: th ++ [Event NewHealthRequest None]).
    replace (Event CtxErr None :: _) with (t0 ++ Event (GetHealth client) s :: t4)
      by (unfold t0; by rewrite <- app_comm_cons, <- app_assoc).
    assert (Hq1 : omap probed t0 = []) by (unfold t0; cbn; by rewrite omap_app, Hh1).
    assert (Hq2 : omap paused t0 = []) by (unfold t0; cbn; by rewrite omap_app, Hh2).
    destruct n as [|n].
    - destruct Hy as [-> ->]. apply bounded_prefix; [done..|]. unfold bounded. cbn.
      split; [lia|]. split; [lia|]. split; [constructor|by constructor].
    - apply exec_bind_call in Hy as ([err|] & t5 & -> & Hy).
      + destruct Hy as [-> ->]. apply bounded_prefix; [done..|]. unfold bounded. cbn.
        split; [lia|]. split; [lia|]. split; [constructor; [apply retry_delay_bounds|constructor]|by constructor].
      + apply IH in Hy; [|lia]. apply bounded_retry; [done..|apply retry_delay_bounds|lia|done|done]. }
  destruct s as [status|err]; [|by eapply (Hfail _ (outage_unhealthy err))].
  destruct ((200 <=? status) && (status <? 300)) eqn:Es; [|by eapply (Hfail _ (refusal_unhealthy _ Es))].
  destruct Hx as [-> ->]. set (t0 := Event CtxErr None :: th ++ [Event NewHealthRequest None]).
  replace (Event CtxErr None :: _) with (t0 ++ [Event (GetHealth client) (Ok status)])
    by (unfold t0; by rewrite <- app_comm_cons, <- app_assoc).
  apply bounded_prefix; [unfold t0; cbn; by rewrite omap_app, ?Hh1, ?Hh2..|].
  unfold bounded. cbn. split; [lia|]. split; [lia|]. split; [constructor|]. exists [], status.
  split; [done|]. split; [|constructor]. apply andb_true_iff in Es as [?%Z.leb_le ?%Z.ltb_lt]. lia.
Qed.
End Attempts.

(** What a trace of the host does to the files; a failed write touches its own
    path only. *)
Notation files := (gmap string bytes).
Fixpoint on_files (t : list (event host)) (fs fs' : files) : Prop :=
  match t with
  | [] => fs = fs'
  | @Event _ R h r :: t' =>
      match h in host R return R -> Prop with
      | ReadFile path => fun r =>
          match r with Ok content => fs !! path = Some content | Err _ => True end
          /\ (match fs !! path with Some _ => is_ok r = true | None => is_ok r = false end)
          /\ on_files t' fs fs'
      | WriteFile path content _ => fun r =>
          exists fs1, (match r with None => fs1 = <[path := content]> fs
                       | Some _ => delete path fs1 = delete path fs end) /\ on_files t' fs1 fs'
      | _ => fun _ => on_files t' fs fs'
      end r
  end.

Section TokenLemmas.
Context `{Sha256}.
(** A digest is a nonempty text without space around it: 64 hexadecimal digits. *)
Hypothesis digest_trimmed : forall l, trim_space (sha256_hex l) = sha256_hex l.
Hypothesis digest_nonempty : forall l, sha256_hex l <> "".

Lemma fingerprint_trimmed tok : trim_space (registrationTokenFingerprint tok) = registrationTokenFingerprint tok.
Proof. unfold registrationTokenFingerprint. cbv zeta. by destruct (str_eq (trim_space tok) ""). Qed.
Lemma fingerprint_empty tok : registrationTokenFingerprint tok = "" <-> trim_space tok = "".
Proof.
  unfold registrationTokenFingerprint. cbv zeta. destruct (str_eq (trim_space tok) "") eqn:E.
  - by apply str_eq_true in E.
  - apply str_eq_false in E. split; [intros Hd; by apply digest_nonempty in Hd|done].
Qed.
Lemma fingerprint_line tok :
  trim_space (text (line (registrationTokenFingerprint tok))) = registrationTokenFingerprint tok.
Proof.
  unfold line. rewrite text_app, text_chars. change (text [byte_of 10]) with (String (byte_of 10) "").
  rewrite <- (fingerprint_trimmed tok) at 1. rewrite trim_space_newline. apply fingerprint_trimmed.
Qed.

(** What a write that succeeded leaves. *)
Lemma write_private_stored path content t fs fs' : exec (write_private path content) t None ->
  on_files t fs fs' -> fs' = <[path := content]> fs.
Proof.
  unfold write_private. intros ([err|] & t1 & -> & Hx)%exec_bind_call; [by destruct Hx|].
  apply exec_call in Hx as ->. cbn [on_files]. intros (fs1 & -> & Hf). by cbn [on_files] in Hf.
Qed.

Lemma leading_suffix l r : l <> [] -> leading_space false l = 0%nat ->
  leading_space false (l ++ byte_of 46 :: byte_of 114 :: r) = 0%nat.
Proof.
  destruct l as [|a [|b [|c l]]]; [done| | |done]; intros _; cbn [leading_space app].
  - destruct (space1 a); [done|]. intros _.
    assert (E2 : space2 a (byte_of 46) = false) by (unfold space2; simpl; by rewrite andb_false_r).
    assert (E3 : space3 a (byte_of 46) (byte_of 114) = false)
      by (unfold space3, between; simpl; by rewrite !andb_false_r).
    by rewrite E2, E3.
  - destruct (space1 a); [done|]. destruct (space2 a b); [done|]. intros _.
    assert (E3 : space3 a b (byte_of 46) = false)
      by (unfold space3, between; simpl; by rewrite !andb_false_r).
    by rewrite E3.
Qed.

Lemma path_trimmed p : trim_space p <> "" ->
  trim_space (trim_space p +:+ ".registration-token-sha256") = trim_space p +:+ ".registration-token-sha256".
Proof.
  intros Hp. unfold trim_space at 1. rewrite trim_bytes_id; [by rewrite text_chars|].
  rewrite chars_app. unfold trim_space in *. rewrite chars_text. set (l := trim_bytes (chars p)) in *.
  destruct (trim_bytes_trimmed (chars p)) as [H1 _]. split.
  - change (chars ".registration-token-sha256") with
      (byte_of 46 :: byte_of 114 :: chars "egistration-token-sha256").
    apply leading_suffix; [|done]. intros E. apply Hp. by rewrite E.
  - rewrite rev_app_distr. reflexivity.
Qed.
End TokenLemmas.

(** What the validation of an endpoint guarantees. *)
Lemma endpoint_safe `{GoNet} rawURL endpointMode x :
  validateRunnerControlPlaneEndpoint rawURL endpointMode = Ok x ->
  exists u, url_parse (trim_space rawURL) = Some u
    /\ (U_Scheme u = "http" \/ U_Scheme u = "https") /\ U_Hostname u <> ""
    /\ (to_lower (trim_space endpointMode) = "remote" ->
        U_Scheme u = "https" /\ U_User u = false /\ U_RawQuery u = "" /\ U_Fragment u = ""
        /\ local_host (to_lower (trim_space (U_Hostname u))) = false).
Proof.
  unfold validateRunnerControlPlaneEndpoint. cbv zeta. intros [_ E]%refuse_ok.
  destruct (url_parse (trim_space rawURL)) as [u|]; [|done]. exists u. split; [done|].
  apply refuse_ok in E as [[Hs Hh%str_eq_false]%orb_false_iff E].
  assert (Hscheme : U_Scheme u = "http" \/ U_Scheme u = "https").
  { apply andb_false_iff in Hs as [Hs%str_ne_false|Hs%str_ne_false]; auto. }
  split; [done|]. split; [done|]. intros Hm. rewrite Hm in E. change (str_eq "remote" "") with false in E.
  cbv iota in E. change (str_ne "remote" "remote") with false in E. cbv iota in E.
  apply refuse_ok in E as [[[[Hss%str_ne_false Hu]%orb_false_iff Hq%str_ne_false]%orb_false_iff Hf%str_ne_false]%orb_false_iff E].
  by apply refuse_ok in E as [Hl _].
Qed.

(** ** Properties *)

Section ConfigProperties.
Context {P : Type} `{Sha256} `{ConfigJson P} `{GoNet} `{Certificates}.

(** The entries of a comma-separated variable. *)
Definition entries (env : string -> option string) (key fallback : string) : list string :=
  map trim_space (split_commas (getenv env key fallback)).

(** A runner may run Helm in a namespace exactly if it was named: by
    [ENVPLANE_FEATURE_ENV_WRITER_NAMESPACES], or, when that names none and the mode
    is [releaseNamespace], by [ENVPLANE_RUNNER_NAMESPACE].  No wildcard and no
    empty name is ever allowed. *)
Theorem namespace_guard env t (c : runnerConfig P) ns (Hx : exec (runnerConfigFromEnv env) t c) :
  let writer := entries env "ENVPLANE_FEATURE_ENV_WRITER_NAMESPACES" "" in
  canRunHelmInNamespace c ns = true <->
  trim_space ns <> ""
  /\ (trim_space ns ∈ writer
      \/ (forall v, v ∈ writer -> v = "")
         /\ equal_fold (trim_space (getenv env "ENVPLANE_FEATURE_ENV_WRITER_MODE" "releaseNamespace"))
              "releaseNamespace" = true
         /\ trim_space ns ∈ entries env "ENVPLANE_RUNNER_NAMESPACE" "envplane-system").
Proof.
  unfold runnerConfigFromEnv in Hx. apply exec_bind in Hx as (t1 & t2 & tok & -> & _ & Hx).
  apply exec_bind in Hx as (t3 & t4 & h & -> & _ & [-> ->]). cbv zeta. rewrite canRun_spec.
  unfold helmTargetNamespaces. cbn [FeatureEnvWriterNamespaces FeatureEnvWriterMode RunnerNamespace].
  unfold entries, normalizeRunnerNamespaceList.
  set (w := split_commas (getenv env "ENVPLANE_FEATURE_ENV_WRITER_NAMESPACES" "")).
  assert (Hnil : collect_unique trim_space [] w = [] <-> forall v, v ∈ map trim_space w -> v = "").
  { rewrite collect_unique_nil, Forall_forall. setoid_rewrite list_elem_of_In. setoid_rewrite in_map_iff.
    split; [intros Hf v (u & <- & Hu); by apply Hf|intros Hf u Hu; apply Hf; by exists u]. }
  destruct (0 <? length (collect_unique trim_space [] w))%nat eqn:E.
  - assert (Hne : collect_unique trim_space [] w <> []) by (intros E'; by rewrite E' in E).
    rewrite collect_unique_spec. pose proof (not_elem_of_nil (A := string)) as Hno. naive_solver.
  - assert (Hn : collect_unique trim_space [] w = []) by (by destruct (collect_unique trim_space [] w)).
    pose proof (proj1 Hnil Hn) as Hall. rewrite trim_space_idem.
    destruct (equal_fold _ _).
    + rewrite collect_unique_spec. pose proof (not_elem_of_nil (A := string)) as Hno. naive_solver.
    + rewrite elem_of_nil. naive_solver.
Qed.

(** The feature writer mode [disabled] does not take the configured
    namespaces away: a runner in that mode with a namespace in
    [ENVPLANE_FEATURE_ENV_WRITER_NAMESPACES] still runs Helm there. *)
Theorem disabled_mode_still_writes (c : runnerConfig P) ns
    (Hmode : FeatureEnvWriterMode c = "disabled") (Hin : ns ∈ FeatureEnvWriterNamespaces c)
    (Htrim : trim_space ns = ns) (Hne : ns <> "") :
  canRunHelmInNamespace c ns = true.
Proof.
  apply canRun_spec. rewrite Htrim. split; [done|]. unfold helmTargetNamespaces.
  by destruct (FeatureEnvWriterNamespaces c); [apply not_elem_of_nil in Hin|].
Qed.

(** C37: The connectivity preflight ends: it asks at most the configured number
    of times (12 by default), pauses fewer times than that, each pause is
    positive and at most the configured maximum whatever the shift overflows to;
    it reports success exactly if an answer was 200 to 299, and it asks no more
    after such an answer. *)
Theorem preflight_bounded (c : runnerConfig P) t r (Hx : exec (runnerConnectivityCheckWithRetry c) t r) :
  Z.of_nat (length (omap probed t)) <= max_attempts c
  /\ Z.of_nat (length (omap paused t)) < max_attempts c
  /\ Forall (fun d => 0 < d <= max_delay c) (omap paused t)
  /\ (r = None <-> exists status, In (Ok status) (omap probed t) /\ 200 <= status < 300)
  /\ (r = None -> exists l status, omap probed t = l ++ [Ok status] /\ 200 <= status < 300 /\ Forall unhealthy l).
Proof.
  assert (Hi : Second <= initial_delay c).
  { unfold initial_delay. destruct (_ <? Second) eqn:E; [done|]. by apply Z.ltb_ge in E. }
  assert (Hm : initial_delay c <= max_delay c).
  { unfold max_delay. destruct (_ <? initial_delay c) eqn:E; [done|]. by apply Z.ltb_ge in E. }
  assert (Hs : 0 < Second) by done.
  assert (Ha : 0 < max_attempts c).
  { unfold max_attempts. destruct (_ <=? 0) eqn:E; [done|]. by apply Z.leb_gt in E. }
  apply attempts_bounded in Hx as (H1' & H2' & H3' & H4'); [|lia..].
  split; [lia|]. split; [lia|]. split; [done|]. destruct r as [err|].
  - split; [split; [done|]|done]. intros (status & Hin & Hst).
    rewrite Forall_forall in H4'. apply list_elem_of_In in Hin. by destruct (H4' _ Hin status eq_refl).
  - split; [split; [intros _|done]|by intros _]. destruct H4' as (l & status & -> & Hst & _). exists status.
    split; [apply in_or_app; right; by left|done].
Qed.

(** As long as the doubling of the initial delay fits 64 bits, the pause
    after the [k]th attempt is the doubled delay, capped; a shift that overflows to
    a value that is not positive is capped too. *)
Theorem retry_delay_doubles initial maxDelay k (Hi : 0 < initial) (Hm : initial <= maxDelay)
    (Hk : 1 <= k) :
  0 < retry_delay initial maxDelay k <= maxDelay
  /\ (initial * 2 ^ (k - 1) < 2 ^ 63 -> retry_delay initial maxDelay k = Z.min (initial * 2 ^ (k - 1)) maxDelay)
  /\ (64 <= k - 1 -> retry_delay initial maxDelay k = maxDelay).
Proof.
  split; [apply retry_delay_bounds; lia|]. unfold retry_delay. rewrite Z.shiftl_mul_pow2 by lia.
  assert (0 < 2 ^ (k - 1)) by (apply Z.pow_pos_nonneg; lia).
  split.
  - intros Hb. assert (Hw : wrap64 (initial * 2 ^ (k - 1)) = initial * 2 ^ (k - 1)).
    { unfold wrap64. rewrite Z.mod_small; nia. }
    cbv zeta. rewrite Hw. destruct (maxDelay <? _) eqn:E1; simpl; [lia|].
    destruct (_ <=? 0) eqn:E2; nia.
  - intros Hb. assert (Hw : wrap64 (initial * 2 ^ (k - 1)) = 0).
    { unfold wrap64. replace (k - 1) with (64 + (k - 1 - 64)) by lia. rewrite Z.pow_add_r by lia.
      replace (initial * (2 ^ 64 * 2 ^ (k - 1 - 64)) + 2 ^ 63)
        with (2 ^ 63 + (initial * 2 ^ (k - 1 - 64)) * 2 ^ 64) by lia.
      by rewrite Z.mod_add. }
    cbv zeta. rewrite Hw. simpl. by rewrite orb_true_r.
Qed.

(** A configuration that [validate] accepts: the control plane is an HTTP(S)
    URL with a host, and in remote mode an HTTPS URL without credentials, query and
    fragment on a host that is neither local nor a Service; the runner is
    identified; it has a token; its intervals are positive, and the result of a
    command is given at least as long as a report. *)
Theorem validate_sound (c : runnerConfig P) t (Hx : exec (validate c) t (Ok tt)) :
  (exists u, url_parse (trim_space (ControlPlaneURL c)) = Some u
     /\ (U_Scheme u = "http" \/ U_Scheme u = "https") /\ U_Hostname u <> ""
     /\ (to_lower (trim_space (ControlPlaneEndpointMode c)) = "remote" ->
         U_Scheme u = "https" /\ U_User u = false /\ U_RawQuery u = "" /\ U_Fragment u = ""
         /\ local_host (to_lower (trim_space (U_Hostname u))) = false))
  /\ Forall (fun s => trim_space s <> "")
       [ControlPlaneURL c; ProjectID c; ClusterID c; RunnerID c; RunnerNamespace c; DeploymentMode c]
  /\ (trim_space (RegistrationToken c) <> "" \/ trim_space (RunnerAuthToken c) <> "")
  /\ 0 < HeartbeatInterval c /\ 0 < ReportTimeout c <= commandResultTimeout c.
Proof.
  unfold validate in Hx. repeat exec_step.
  match goal with H : exec (match ?r with Ok _ => _ | Err _ => _ end) _ _ |- _ => destruct r; [|by destruct H as [_ [=]]] end.
  repeat exec_step.
  match goal with H : Ok _ = validateRunnerControlPlaneEndpoint _ _ |- _ => symmetry in H; rename H into Hep end.
  split; [by eapply endpoint_safe|].
  repeat match goal with H : str_eq (trim_space _) "" = false |- _ => apply str_eq_false in H end.
  rewrite !Forall_cons, Forall_nil. split; [by repeat split|].
  unfold commandResultTimeout. split.
  - destruct (decide (trim_space (RegistrationToken c) = "")) as [E|]; [right|by left].
    match goal with H : str_eq (trim_space (RegistrationToken c)) "" && _ = false |- _ =>
      rewrite E in H; by apply str_eq_false in H end.
  - repeat match goal with H : (_ <=? 0) = false |- _ => apply Z.leb_gt in H end. split; [done|]. split; [done|].
    destruct (0 <? CommandResultTimeout c); [match goal with H : true && _ = false |- _ => by apply Z.ltb_ge in H end|].
    destruct (3 * Minute <? ReportTimeout c) eqn:E2; [done|by apply Z.ltb_ge in E2].
Qed.
End ConfigProperties.

Section TokenProperties.
Context `{Sha256}.

(** The rotation of a registration token is noticed: once the fingerprint of
    a token has been written, [registrationTokenChanged] answers true exactly for a
    token with another digest, and it neither changes nor adds a file.  A blank
    token never counts as a rotation.  Only the auth token's directory is written,
    with the permissions 0700 and 0600. *)
Theorem rotation_noticed
    (digest_trimmed : forall l, trim_space (sha256_hex l) = sha256_hex l)
    (digest_nonempty : forall l, sha256_hex l <> "")
    path tok tok' t1 t2 b (fs fs1 fs2 : files) (Hp : trim_space path <> "") (Ht : trim_space tok <> "")
    (Hx1 : exec (persistRegistrationTokenFingerprint path tok) t1 None) (Hf1 : on_files t1 fs fs1)
    (Hx2 : exec (registrationTokenChanged path tok') t2 b) (Hf2 : on_files t2 fs1 fs2) :
  (b = true <-> trim_space tok' <> "" /\ sha256_hex (chars (trim_space tok')) <> sha256_hex (chars (trim_space tok)))
  /\ fs2 = fs1
  /\ t1 = [Event (MkdirAll (path_dir (registrationTokenFingerprintPath path)) 448) None;
           Event (WriteFile (registrationTokenFingerprintPath path)
                    (line (sha256_hex (chars (trim_space tok)))) 384) None].
Proof.
  set (q := registrationTokenFingerprintPath path) in *.
  assert (Hq : q = trim_space path +:+ ".registration-token-sha256").
  { unfold q, registrationTokenFingerprintPath. cbv zeta. by rewrite (proj2 (str_eq_false _ _) Hp). }
  assert (Hqt : trim_space q = q) by (rewrite Hq; by apply path_trimmed).
  assert (Hqn : q <> "").
  { rewrite Hq. destruct (trim_space path); [done|discriminate]. }
  assert (Hfp : registrationTokenFingerprint tok = sha256_hex (chars (trim_space tok))).
  { unfold registrationTokenFingerprint. cbv zeta. by rewrite (proj2 (str_eq_false _ _) Ht). }
  assert (Hfn : registrationTokenFingerprint tok <> "") by (rewrite Hfp; apply digest_nonempty).
  unfold persistRegistrationTokenFingerprint in Hx1. fold q in Hx1. cbv zeta in Hx1.
  rewrite (proj2 (str_eq_false _ _) Hqn), (proj2 (str_eq_false _ _) Hfn) in Hx1. cbn [orb] in Hx1.
  pose proof (write_private_stored _ _ _ _ _ Hx1 Hf1) as ->.
  assert (Ht1 : t1 = [Event (MkdirAll (path_dir q) 448) None;
      Event (WriteFile q (line (registrationTokenFingerprint tok)) 384) None]).
  { unfold write_private in Hx1. apply exec_bind_call in Hx1 as ([err|] & t & -> & Hx1); [by destruct Hx1|].
    by apply exec_call in Hx1 as ->. }
  rewrite Hfp in Ht1.
  unfold registrationTokenChanged in Hx2. fold q in Hx2. cbv zeta in Hx2.
  destruct (str_eq (registrationTokenFingerprint tok') "") eqn:Ew.
  { apply str_eq_true, fingerprint_empty in Ew; [|done]. destruct Hx2 as [-> ->]. split; [|done]. split; [done|]. by intros [Hne _]. }
  apply str_eq_false in Ew. rewrite (proj2 (str_eq_false _ _) Hqn) in Hx2. cbn [orb] in Hx2.
  assert (Hw : registrationTokenFingerprint tok' = sha256_hex (chars (trim_space tok')) /\ trim_space tok' <> "").
  { revert Ew. clear. unfold registrationTokenFingerprint. cbv zeta.
    destruct (str_eq (trim_space tok') "") eqn:E; [done|]. by apply str_eq_false in E. }
  destruct Hw as [Hw Hw'].
  apply exec_bind in Hx2 as (t3 & t4 & have & -> & Hr & Hx2). unfold readRuntimeTokenFile in Hr. cbv zeta in Hr.
  rewrite Hqt, (proj2 (str_eq_false _ _) Hqn) in Hr. apply exec_bind_call in Hr as (r & t5 & -> & [-> ->]).
  cbn [on_files app] in Hf2. rewrite lookup_insert_eq in Hf2. destruct Hf2 as (Hc & Hok & Hf2).
  destruct r as [content|]; [|discriminate Hok]. injection Hc as <-.
  rewrite (fingerprint_line digest_trimmed), (fingerprint_trimmed digest_trimmed), (proj2 (str_eq_false _ _) Hfn) in Hx2.
  destruct Hx2 as [-> ->]. cbn [on_files] in Hf2. subst fs2. split; [|done].
  rewrite str_ne_true, Hfp, Hw.
  split; [intros Hne; split; [done|congruence]|intros [_ Hne]; congruence].
Qed.
End TokenProperties.

(** ** Witnesses *)

Definition two_digests : Sha256 := fun l => if bool_decide (l = chars "old") then "d1" else "d2".
Definition no_json : ConfigJson unit :=
  {| decode_sources := fun _ => (None, true); decode_fences := fun _ => (None, true) |}.
(** [https://] and a host. *)
Definition simple_url : GoNet := fun s =>
  match split2 "://" s with
  | Some (scheme, host) =>
      Some {| U_Scheme := scheme; U_Host := host; U_Hostname := host; U_User := false; U_Path := ""; U_RawQuery := "";
              U_Fragment := ""; U_Opaque := "" |}
  | None => None
  end.
Definition any_certificates : Certificates := fun _ => true.
#[local] Existing Instances two_digests no_json simple_url any_certificates.

Definition sample_vars (key : string) : option string :=
  map_get key
    [("ENVPLANE_FEATURE_ENV_WRITER_NAMESPACES", " envplane-pr-7,, envplane-pr-8 ");
     ("ENVPLANE_FEATURE_ENV_WRITER_MODE", "disabled");
     ("ENVPLANE_CONTROL_PLANE_URL", "https://control.example.org/");
     ("ENVPLANE_CONTROL_PLANE_ENDPOINT_MODE", "remote");
     ("ENVPLANE_PROJECT_ID", "shop"); ("ENVPLANE_RUNNER_AUTH_TOKEN", "token")].
Definition sample_host (R : Type) (h : list (event host)) (q : host R) : R :=
  match q with
  | Hostname => Some "runner-0"
  | ReadFile _ => Err (errorf "no such file")
  | MkdirAll _ _ => None
  | WriteFile _ _ _ => None
  end.
Definition sample_config : runnerConfig unit := (run sample_host [] (runnerConfigFromEnv sample_vars)).2.

Lemma namespace_guard_witness : canRunHelmInNamespace sample_config " envplane-pr-8" = true.
Proof.
  apply (namespace_guard sample_vars _ sample_config " envplane-pr-8" (run_exec sample_host (runnerConfigFromEnv sample_vars) [])).
  split; [vm_compute; discriminate|left]. apply list_elem_of_In, existsb_str. vm_compute. reflexivity.
Defined.

Lemma disabled_mode_still_writes_witness :
  (run sample_host [] (validate sample_config)).2 = Ok tt /\ canRunHelmInNamespace sample_config "envplane-pr-7" = true.
Proof.
  split; [vm_compute; reflexivity|]. apply (disabled_mode_still_writes sample_config "envplane-pr-7").
  - vm_compute. reflexivity.
  - apply list_elem_of_In, existsb_str. vm_compute. reflexivity.
  - vm_compute. reflexivity.
  - discriminate.
Defined.

(** The second request is answered. *)
Definition sample_network (R : Type) (h : list (event preflight)) (q : preflight R) : R :=
  match q with
  | CtxErr => None
  | OnHost h => sample_host _ [] h
  | NewHealthRequest => None
  | GetHealth _ => if (5 <? List.length h)%nat then Ok 204 else Ok 503
  | Pause _ => None
  end.
Definition sample_preflight := run sample_network [] (runnerConnectivityCheckWithRetry sample_config).
Lemma preflight_bounded_witness : exists l status,
  omap probed sample_preflight.1 = l ++ [Ok status] /\ 200 <= status < 300 /\ omap paused sample_preflight.1 = [Second].
Proof.
  assert (E : sample_preflight.2 = None) by (vm_compute; reflexivity).
  destruct (preflight_bounded sample_config sample_preflight.1 sample_preflight.2
    (run_exec sample_network (runnerConnectivityCheckWithRetry sample_config) [])) as (_ & _ & _ & _ & Hd).
  destruct (Hd E) as (l & status & Hl & Hst & _). exists l, status. split; [exact Hl|]. split; [exact Hst|]. vm_compute. reflexivity.
Defined.

Lemma retry_delay_doubles_witness : retry_delay Second (5 * Second) 3 = 4 * Second.
Proof. apply (retry_delay_doubles Second (5 * Second) 3); [done|done|done|reflexivity]. Defined.

Lemma validate_sound_witness : exists u, url_parse "https://control.example.org" = Some u /\ U_Scheme u = "https".
Proof.
  assert (E : (run sample_host [] (validate sample_config)).2 = Ok tt) by (vm_compute; reflexivity).
  pose proof (run_exec sample_host (validate sample_config) []) as Hx. rewrite E in Hx.
  destruct (validate_sound sample_config _ Hx) as ((u & Hu & _ & _ & Hr) & _).
  exists u. split; [exact Hu|]. apply Hr. vm_compute. reflexivity.
Defined.

Definition rotated_host (R : Type) (h : list (event host)) (q : host R) : R :=
  match q with
  | Hostname => None
  | ReadFile _ => Ok (line "d1")
  | MkdirAll _ _ => None
  | WriteFile _ _ _ => None
  end.
Lemma rotation_noticed_witness : (run rotated_host [] (registrationTokenChanged "/auth/token" "new")).2 = true.
Proof.
  set (p := "/auth/token.registration-token-sha256"). set (fs := <[p := line "d1"]> (∅ : files)).
  assert (E1 : (run rotated_host [] (persistRegistrationTokenFingerprint "/auth/token" "old")).1
    = [Event (MkdirAll "/auth" 448) None; Event (WriteFile p (line "d1") 384) None]) by (vm_compute; reflexivity).
  assert (E2 : (run rotated_host [] (registrationTokenChanged "/auth/token" "new")).1 = [Event (ReadFile p) (Ok (line "d1"))])
    by (vm_compute; reflexivity).
  apply (rotation_noticed
    (fun l => match bool_decide (l = chars "old") as b return trim_space (if b then "d1" else "d2") = (if b then "d1" else "d2")
              with true => eq_refl | false => eq_refl end)
    (fun l => ltac:(unfold sha256_hex, two_digests; by destruct (bool_decide _)))
    "/auth/token" "old" "new" (run rotated_host [] (persistRegistrationTokenFingerprint "/auth/token" "old")).1
    (run rotated_host [] (registrationTokenChanged "/auth/token" "new")).1 _ ∅ fs fs).
  - vm_compute. discriminate.
  - vm_compute. discriminate.
  - exact (run_exec rotated_host (persistRegistrationTokenFingerprint "/auth/token" "old") []).
  - rewrite E1. cbn [on_files]. by exists fs.
  - apply run_exec.
  - rewrite E2. cbn [on_files]. unfold fs. by rewrite lookup_insert_eq.
  - split; vm_compute; discriminate.
Defined.
