(* ===== verification/RunnerCommand.v ===== *)
(** * The commands of the runner

    [internal/runner/runtime.go]: a command of the control plane and what the
    runner checks of it before it acts: the signed release plan, the project
    configuration, the chart; and the resources of a rendered release plan. *)

From stdpp Require Import base list gmap strings pretty.
From Stdlib Require Import ZArith Lia Ascii String.
From S2P Require Import Prelude GoStrings GoPath EnvStore OrchTypes HelmValues HelmCli HelmDirect.
From S2P Require Import RunnerConfig.

Local Open Scope string_scope.
Local Open Scope Z_scope.
Local Open Scope list_scope.

(** ** Types of github.com/envplane/contracts

    The fields that the runner reads; what it only passes on is a parameter:
    [X] the rest of a release plan, [I] an item of a cleanup inventory, [M] and
    [V] the copy plans of MySQL and of volumes, [C] the rest of a project
    configuration. *)
Record ReleasePlan (X : Type) := {
  Rp_TemplateDigest : string; Rp_InputDigest : string; Rp_ExecutionInputDigest : string; Rp_rest : X }.
Arguments Rp_TemplateDigest {X}. Arguments Rp_InputDigest {X}.
Arguments Rp_ExecutionInputDigest {X}. Arguments Rp_rest {X}.
(** [Pc_Sensitive] says whether the map of sensitive values has an entry. *)
Record ProjectConfig (C : Type) := {
  Pc_Config : any_map; Pc_Sensitive : bool; Pc_TenantID : string; Pc_Version : Z;
  Pc_TemplateRevisionID : string; Pc_TemplateDigest : string; Pc_rest : C }.
Arguments Pc_Config {C}. Arguments Pc_Sensitive {C}. Arguments Pc_TenantID {C}. Arguments Pc_Version {C}.
Arguments Pc_TemplateRevisionID {C}. Arguments Pc_TemplateDigest {C}. Arguments Pc_rest {C}.

Record RunnerCommand (Y X I M V C : Type) := {
  Rc_ID : string; Rc_AttemptID : string; Rc_ProjectID : string; Rc_ClusterID : string; Rc_RunnerID : string;
  Rc_Operation : string; Rc_Environment : Env Y; Rc_ProjectConfig : ProjectConfig C;
  Rc_ProjectConfigVersion : Z; Rc_CleanupInventory : list I; Rc_ChartRef : string; Rc_ChartVersion : string;
  Rc_ReleasePlanID : string; Rc_ReleasePlanDigest : string; Rc_ReleasePlanSignature : string;
  Rc_ReleasePlanKeyID : string; Rc_ReleasePlanPublicKey : string; Rc_ReleasePlanTransportVersion : string;
  Rc_ReleasePlan : option (ReleasePlan X); Rc_MySQLRestorePlan : option M; Rc_PVCCopyPlan : option V;
  Rc_RemoteClusterGeneration : Z; Rc_RunnerIdentityIssuedAt : option Z }.
Arguments Rc_ID {Y X I M V C}. Arguments Rc_AttemptID {Y X I M V C}. Arguments Rc_ProjectID {Y X I M V C}.
Arguments Rc_ClusterID {Y X I M V C}. Arguments Rc_RunnerID {Y X I M V C}. Arguments Rc_Operation {Y X I M V C}.
Arguments Rc_Environment {Y X I M V C}. Arguments Rc_ProjectConfig {Y X I M V C}.
Arguments Rc_ProjectConfigVersion {Y X I M V C}. Arguments Rc_CleanupInventory {Y X I M V C}.
Arguments Rc_ChartRef {Y X I M V C}. Arguments Rc_ChartVersion {Y X I M V C}.
Arguments Rc_ReleasePlanID {Y X I M V C}. Arguments Rc_ReleasePlanDigest {Y X I M V C}.
Arguments Rc_ReleasePlanSignature {Y X I M V C}. Arguments Rc_ReleasePlanKeyID {Y X I M V C}.
Arguments Rc_ReleasePlanPublicKey {Y X I M V C}. Arguments Rc_ReleasePlanTransportVersion {Y X I M V C}.
Arguments Rc_ReleasePlan {Y X I M V C}. Arguments Rc_MySQLRestorePlan {Y X I M V C}.
Arguments Rc_PVCCopyPlan {Y X I M V C}. Arguments Rc_RemoteClusterGeneration {Y X I M V C}.
Arguments Rc_RunnerIdentityIssuedAt {Y X I M V C}.

(** [domain.ReleasePlanTransportReference], [domain.ReleasePlanRunnerIdentity] *)
Record PlanReference := {
  Pr_PlanID : string; Pr_PlanDigest : string; Pr_TemplateDigest : string; Pr_InputDigest : string;
  Pr_Signature : string; Pr_KeyID : string }.
Record RunnerIdentity := {
  Ri_TenantID : string; Ri_ProjectID : string; Ri_ClusterID : string; Ri_RunnerID : string }.

(** The functions and constants of the contracts, and of the text encodings
    they come in. *)
Class Contracts (Y X I M V C : Type) := {
  DefaultTenantID : string;
  ReleasePlanTransportVersion : string;
  RunnerOperationRestoreMySQL : string;
  RunnerOperationMaterializePVC : string;
  base64_decode : string -> option bytes;
  VerifyReleasePlanReference :
    ReleasePlan X -> PlanReference -> bytes -> RunnerIdentity -> list string -> list string -> option go_error;
  ReleasePlanExecutionInputDigest :
    Env Y -> ProjectConfig C -> string -> string -> Z -> result go_error string;
  ValidateCleanupInventory : list I -> string -> string -> string -> option go_error;
  mysql_plan_digest : M -> string;
  pvc_plan_digest : V -> string }.

Section Commands.
Context {P Y X I M V C : Type} `{Contracts Y X I M V C} `{Quote}.
Implicit Types (command : RunnerCommand Y X I M V C) (cfg : runnerConfig P).

Definition tenant_of command : string :=
  let tenantID := E_TenantID (Rc_Environment command) in
  if str_eq tenantID "" then DefaultTenantID else tenantID.

(** The arguments of the verification in [validateReleasePlanCommand]. *)
Definition plan_reference command (plan : ReleasePlan X) : PlanReference :=
  {| Pr_PlanID := Rc_ReleasePlanID command; Pr_PlanDigest := Rc_ReleasePlanDigest command;
     Pr_TemplateDigest := Rp_TemplateDigest plan; Pr_InputDigest := Rp_InputDigest plan;
     Pr_Signature := Rc_ReleasePlanSignature command; Pr_KeyID := Rc_ReleasePlanKeyID command |}.
Definition runner_identity cfg command : RunnerIdentity :=
  {| Ri_TenantID := tenant_of command; Ri_ProjectID := ProjectID cfg; Ri_ClusterID := ClusterID cfg;
     Ri_RunnerID := RunnerID cfg |}.

(** The operations that need a release plan. *)
Definition planned_operations : list string := ["create"; "recreate"; "delete"; "force_cleanup"; "status"].

(** [validateReleasePlanCommand] *)
Definition validateReleasePlanCommand command cfg : result go_error unit :=
  let e := Rc_Environment command in
  if negb (existsb (str_eq (Rc_Operation command)) planned_operations) then Ok tt
  else
    refuse str_eq (trim_space (Rc_ReleasePlanID command)) "" || str_eq (trim_space (Rc_ReleasePlanDigest command)) ""
           || str_eq (trim_space (Rc_ReleasePlanSignature command)) ""
           || str_eq (trim_space (Rc_ReleasePlanKeyID command)) ""
      with errorf "immutable signed EnvironmentReleasePlan reference is required";;
    refuse str_ne (M_ReleasePlanID (E_rest e)) "" && str_ne (M_ReleasePlanID (E_rest e)) (Rc_ReleasePlanID command)
      with errorf "release plan identity does not match environment";;
    refuse str_ne (M_ReleasePlanDigest (E_rest e)) ""
           && str_ne (M_ReleasePlanDigest (E_rest e)) (Rc_ReleasePlanDigest command)
      with errorf "release plan digest does not match environment";;
    refuse str_ne (Rc_ChartRef command) "" || str_ne (Rc_ChartVersion command) ""
      with errorf "chart references are not a runtime source; use the signed release plan";;
    refuse str_ne (Rc_ReleasePlanTransportVersion command) ReleasePlanTransportVersion
      with errorf "versioned EnvironmentReleasePlan payload is required";;
    match Rc_ReleasePlan command with
    | None => Err (errorf "versioned EnvironmentReleasePlan payload is required")
    | Some plan =>
        match base64_decode (Rc_ReleasePlanPublicKey command) with
        | None => Err (errorf "release plan public key is invalid")
        | Some publicKey =>
            let namespace := trim_space (M_Namespace (E_rest e)) in
            refuse str_eq namespace "" with errorf "release plan target namespace is required";;
            match VerifyReleasePlanReference plan (plan_reference command plan) publicKey
                    (runner_identity cfg command) [namespace] (releasePlanAllowedKinds cfg) with
            | Some err => Err (wrapf "release plan verification failed" err)
            | None =>
                refuse str_eq (trim_space (Rp_ExecutionInputDigest plan)) ""
                  with errorf "release plan execution input binding is missing";;
                match ReleasePlanExecutionInputDigest e (Rc_ProjectConfig command) (Rc_ChartRef command)
                        (Rc_ChartVersion command) (Rc_ProjectConfigVersion command) with
                | Err err => Err (wrapf "release plan execution input binding could not be calculated" err)
                | Ok digest =>
                    refuse str_ne digest (Rp_ExecutionInputDigest plan)
                      with errorf "release plan execution input binding mismatch";;
                    Ok tt
                end
            end
        end
    end.

(** ** Project configurations *)

(** [runnerProjectConfigAllowedKeys] *)
Definition runnerProjectConfigAllowedKeys : list (string * list string) :=
  [("root", ["deployment"; "bootstrapSessionData"; "secretMaterializationPlan"]);
   ("deployment", ["backend"; "helmDirect"; "fluxcd"; "argocd"]);
   ("helmDirect", ["namespaceMode"; "namespacePattern"; "releaseNamePattern"; "chartRef"; "chartVersion"; "timeout";
                   "wait"; "createNamespace"; "valuesOverrideStrategy"; "imageTagValuePath"]);
   ("fluxcd", ["gitopsRepo"; "gitopsPath"; "fluxNamespace"; "sourceRefName"; "sourceRefNamespace";
               "kustomizationName"; "kustomizationPath"; "commitMode"]);
   ("argocd", ["serverUrl"; "credentialsSecretRef"]);
   ("secretMaterializationPlan", ["planId"; "planDigest"]);
   ("bootstrapSessionData", ["mysqlRestoreSources"; "manifestTemplates"; "manifestTemplatesSourceFingerprint";
                             "pvcCopySources"])].
Definition object_keys : list string :=
  ["deployment"; "helmDirect"; "fluxcd"; "argocd"; "secretMaterializationPlan"; "bootstrapSessionData"].

(** [validateRunnerConfigMap]: the value of [key], and the entries of a map, in
    any order. *)
Fixpoint validate_object (schema : string) (value : any) : result go_error unit :=
  match value with
  | VMap values =>
      match map_get schema runnerProjectConfigAllowedKeys with
      | None => Err (errorf ("unsupported configuration schema " +:+ quote schema))
      | Some allowed =>
          (fix entries_ok (l : any_map) : result go_error unit :=
             match l with
             | [] => Ok tt
             | (key, v) :: l' =>
                 refuse negb (existsb (str_eq key) allowed)
                   with errorf ("field " +:+ quote key +:+ " is not part of the runner project configuration contract");;
                 if existsb (str_eq key) object_keys
                 then _ <-? validate_object key v;; entries_ok l'
                 else entries_ok l'
             end) values
      end
  | _ => Err (errorf ("field " +:+ quote schema +:+ " must be an object"))
  end.
Definition validateRunnerConfigMap (schema : string) (values : any_map) : result go_error unit :=
  validate_object schema (VMap values).
Definition validateRunnerProjectConfig (config : any_map) : result go_error unit :=
  validateRunnerConfigMap "root" config.

(** Assignment to a key of a map. *)
Fixpoint map_set {A} (k : string) (a : A) (l : list (string * A)) : list (string * A) :=
  match l with
  | [] => [(k, a)]
  | (k', a') :: l' => if str_eq k k' then (k, a) :: l' else (k', a') :: map_set k a l'
  end.
Definition or_empty (m : option any_map) : any_map := match m with Some l => l | None => [] end.

(** [projectConfigForRunnerCommand]: the new [Config]. *)
Definition projectConfigForRunnerCommand command : any_map :=
  let config := Pc_Config (Rc_ProjectConfig command) in
  let ref := trim_space (Rc_ChartRef command) in
  let version := trim_space (Rc_ChartVersion command) in
  if str_eq ref "" && str_eq version "" then config
  else
    let deployment := or_empty (as_map (map_get "deployment" config)) in
    let deployment := map_set "backend" (VStr "helm_direct") deployment in
    let helmDirect := or_empty (as_map (map_get "helmDirect" deployment)) in
    let helmDirect := if str_ne ref "" then map_set "chartRef" (VStr ref) helmDirect else helmDirect in
    let helmDirect := if str_ne version "" then map_set "chartVersion" (VStr version) helmDirect else helmDirect in
    map_set "deployment" (VMap (map_set "helmDirect" (VMap helmDirect) deployment)) config.
End Commands.

(** ** The resources of a rendered release plan *)

Record RenderedResource := {
  Rr_ResourceID : string; Rr_Kind : string; Rr_Namespace : string; Rr_Name : string;
  Rr_Manifest : any_map; Rr_Digest : string }.

(** yaml.v3 into a [map[string]any], which stays nil for an empty document;
    encoding/json; [fmt.Sprint], nothing for nil. *)
Class ManifestCodec := {
  yaml_map : bytes -> result go_error (option any_map);
  json_map : any_map -> result go_error bytes;
  sprint : any -> option string }.

(** An error, or an assignment to an entry of a nil map. *)
Inductive failure : Type := Error (err : go_error) | Panicked.

Section Resources.
Context `{ManifestCodec} `{Sha256}.

(** [manifestString] *)
Definition manifestString (values : any_map) (key : string) : string :=
  match map_get key values with
  | Some v => match sprint v with Some s => trim_space s | None => "" end
  | None => ""
  end.

(** The body of the loop of [releasePlanResources]. *)
Definition rendered_resource (namespace releaseName : string) (index : nat) (item : Manifest)
    : result failure RenderedResource :=
  match yaml_map (Ma_Content item) with
  | Err err => Err (Error (wrapf ("decode rendered manifest " +:+ pretty index) err))
  | Ok None => Err Panicked
  | Ok (Some manifest) =>
      let kind := manifestString manifest "kind" in
      let metadata := or_empty (as_map (map_get "metadata" manifest)) in
      let name := manifestString metadata "name" in
      let resourceNamespace := manifestString metadata "namespace" in
      let manifest := if str_eq kind "" then map_set "kind" (VStr (trim_space (Ma_Kind item))) manifest
                      else manifest in
      let kind := if str_eq kind "" then trim_space (Ma_Kind item) else kind in
      let name := if str_eq name "" then releaseName else name in
      let resourceNamespace :=
        if str_eq resourceNamespace "" && str_ne kind "Namespace" then namespace else resourceNamespace in
      let metadata := map_set "name" (VStr name) metadata in
      let metadata := if str_ne kind "Namespace"
                      then map_set "namespace" (VStr resourceNamespace) metadata else metadata in
      let manifest := map_set "metadata" (VMap metadata) manifest in
      match json_map manifest with
      | Err err => Err (Error (wrapf ("encode rendered manifest " +:+ pretty index) err))
      | Ok payload =>
          Ok {| Rr_ResourceID := kind +:+ "/" +:+ resourceNamespace +:+ "/" +:+ name; Rr_Kind := kind;
                Rr_Namespace := resourceNamespace; Rr_Name := name; Rr_Manifest := manifest;
                Rr_Digest := "sha256:" +:+ sha256_hex payload |}
      end
  end.
Fixpoint rendered_resources (namespace releaseName : string) (index : nat) (l : list Manifest)
    : result failure (list RenderedResource) :=
  match l with
  | [] => Ok []
  | item :: l' =>
      r <-? rendered_resource namespace releaseName index item;;
      rs <-? rendered_resources namespace releaseName (S index) l';;
      Ok (r :: rs)
  end.
(** [releasePlanResources] *)
Definition releasePlanResources (manifests : list Manifest) (namespace releaseName : string)
    : result failure (list RenderedResource) :=
  rs <-? rendered_resources namespace releaseName 0 manifests;;
  refuse (List.length rs =? 0)%nat with Error (errorf "release plan render returned no resources");;
  Ok rs.
End Resources.

(** ** The preflight of a chart *)

Section Charts.
Context {P : Type} `{GoNet} `{ChartRefs}.

(** [isDirectRunnerHelmChartArchive] *)
Definition isDirectRunnerHelmChartArchive (ref : string) : bool :=
  match url_parse (trim_space ref) with
  | None => false
  | Some u => (str_eq (U_Scheme u) "http" || str_eq (U_Scheme u) "https") && has_suffix (to_lower (U_Path u)) ".tgz"
  end.

(** [validateRunnerHelmChartWithConfig]: the only command is [helm show chart]. *)
Definition validateRunnerHelmChart (cfg : runnerConfig P) (ref version : string) : prog cmd (option go_error) :=
  if negb (runnerHelmChartHostAllowed ref (HelmAllowedChartHosts cfg))
  then Ret (Some (errorf "invalid chart reference: chart host is not allowlisted"))
  else
    let ref := trim_space ref in
    if negb (IsSafeHelmChartRef ref) then Ret (Some (errorf "invalid chart reference"))
    else
      let args := ["show"; "chart"; ref]
                  ++ (if str_ne (trim_space version) "" && negb (isDirectRunnerHelmChartArchive ref)
                      then ["--version"; trim_space version] else []) in
      r <-- call (RunCommand "helm" args);;
      Ret (match r with
           | (_, None) => None
           | (output, Some _) => Some (errorf (trim_space (text output)))
           end).

(** [classifyHelmChartPreflightError] *)
Definition classifyHelmChartPreflightError (err : go_error) : string * string :=
  let message := to_lower (ge_text err) in
  let has := contains message in
  if has "invalid chart reference" then
    ("helm_chart_reference_invalid", "Helm chart reference must be OCI, HTTP(S), or a configured repo/chart reference.")
  else if has "repo" && has "not found" then
    ("helm_repo_missing", "Helm repository is not configured in the target runner.")
  else if has "unauthorized" || has "authentication" || has "forbidden" || has "denied" || has "401" then
    ("helm_chart_auth_failed", "Target runner could not authenticate to the Helm chart repository.")
  else if has "version" && has "not found" then
    ("helm_chart_version_missing", "Requested Helm chart version was not found in the configured repository.")
  else if (has "chart" && has "not found") || has "not found" then
    ("helm_chart_missing", "Helm chart was not found in the configured repository.")
  else ("helm_chart_preflight_failed", "Target runner could not resolve the Helm chart.").
End Charts.

(** ** Lemmas *)

(** What the contract of a project configuration allows, at any depth. *)
Inductive conforms : string -> any_map -> Prop :=
| Conforms schema allowed l :
    map_get schema runnerProjectConfigAllowedKeys = Some allowed ->
    (forall key v, (key, v) ∈ l -> key ∈ allowed
       /\ (key ∈ object_keys -> exists l', v = VMap l' /\ conforms key l')) ->
    conforms schema l.

(** Induction on values with the entries of the maps. *)
Section AnyInduction.
Variable Q : any -> Prop.
Hypothesis Q_map : forall l, Forall (fun kv => Q kv.2) l -> Q (VMap l).
Hypothesis Q_leaf : forall v, as_map (Some v) = None -> Q v.
Fixpoint any_nested_ind (v : any) : Q v :=
  match v with
  | VMap l => Q_map l ((fix go (l : any_map) : Forall (fun kv => Q kv.2) l :=
                          match l with
                          | [] => @List.Forall_nil _ (fun kv => Q kv.2)
                          | kv :: l' => @List.Forall_cons _ (fun kv => Q kv.2) kv l' (any_nested_ind kv.2) (go l')
                          end) l)
  | v => Q_leaf v eq_refl
  end.
End AnyInduction.

Section CommandLemmas.
Context `{Quote}.

Definition entries_ok (allowed : list string) : any_map -> result go_error unit :=
  fix entries_ok (l : any_map) : result go_error unit :=
    match l with
    | [] => Ok tt
    | (key, v) :: l' =>
        refuse negb (existsb (str_eq key) allowed)
          with errorf ("field " +:+ quote key +:+ " is not part of the runner project configuration contract");;
        if existsb (str_eq key) object_keys
        then _ <-? validate_object key v;; entries_ok l'
        else entries_ok l'
    end.
Lemma validate_object_map schema l : validate_object schema (VMap l) =
  match map_get schema runnerProjectConfigAllowedKeys with
  | None => Err (errorf ("unsupported configuration schema " +:+ quote schema))
  | Some allowed => entries_ok allowed l
  end.
Proof. reflexivity. Qed.

Lemma entries_ok_spec allowed l :
  Forall (fun kv => forall schema, validate_object schema kv.2 = Ok tt
                    <-> exists l', kv.2 = VMap l' /\ conforms schema l') l ->
  entries_ok allowed l = Ok tt <->
  forall key v, (key, v) ∈ l -> key ∈ allowed
    /\ (key ∈ object_keys -> exists l', v = VMap l' /\ conforms key l').
Proof.
  induction 1 as [|[k v] l Hv Hl IH]; cbn [entries_ok].
  { split; [intros _ key v Hin; by apply elem_of_nil in Hin|done]. }
  cbn [snd] in Hv. rewrite refuse_ok, negb_false_iff, mem_str.
  destruct (existsb (str_eq k) object_keys) eqn:Eo.
  - apply mem_str in Eo. rewrite rbind_ok. setoid_rewrite IH. split.
    + intros (Ha & [] & Ho & Hr) key v' [E|Hin]%elem_of_cons; [|by apply Hr].
      injection E as -> ->. split; [done|]. intros _. by apply Hv.
    + intros Hall. split; [by apply (Hall k v); left|]. exists tt. split.
      * apply Hv. apply (Hall k v); [left|done].
      * intros key v' Hin. apply Hall. by right.
  - assert (Hno : k ∉ object_keys) by (intros Hin%mem_str; congruence). rewrite IH. split.
    + intros (Ha & Hr) key v' [E|Hin]%elem_of_cons; [|by apply Hr]. injection E as -> ->. done.
    + intros Hall. split; [by apply (Hall k v); left|]. intros key v' Hin. apply Hall. by right.
Qed.

Lemma validate_object_spec v schema :
  validate_object schema v = Ok tt <-> exists l, v = VMap l /\ conforms schema l.
Proof.
  revert schema. induction v as [l IH|v Hv] using any_nested_ind; intros schema.
  - rewrite validate_object_map. destruct (map_get schema _) as [allowed|] eqn:E.
    + rewrite (entries_ok_spec allowed l IH). split.
      * intros Hall. exists l. split; [done|]. by apply (Conforms schema allowed).
      * intros (l' & [= <-] & Hc). inversion Hc as [? a ? Ea Hall]; subst.
        rewrite E in Ea. by injection Ea as <-.
    + split; [done|]. intros (l' & _ & Hc). inversion Hc; subst. congruence.
  - split; [by destruct v|]. intros (l & -> & _). done.
Qed.
End CommandLemmas.

Lemma map_get_set {A} k k' (a : A) l :
  map_get k (map_set k' a l) = if str_eq k k' then Some a else map_get k l.
Proof.
  induction l as [|[k0 a0] l IH]; cbn [map_set map_get]; [done|].
  destruct (str_eq k' k0) eqn:E; cbn [map_get].
  - apply str_eq_true in E as ->. by destruct (str_eq k k0).
  - rewrite IH. destruct (str_eq k k0) eqn:E2; [|done].
    apply str_eq_true in E2 as ->. destruct (str_eq k0 k') eqn:E3; [|done].
    apply str_eq_true in E3 as ->. apply str_eq_false in E. done.
Qed.

(** ** Properties *)

Section CommandProperties.
Context {P Y X I M V C : Type} `{Contracts Y X I M V C} `{Quote}.
Implicit Types (command : RunnerCommand Y X I M V C) (cfg : runnerConfig P).

(** C38: [validateRunnerProjectConfig] accepts a configuration exactly if, at every
    depth, each key belongs to the contract of its object and each object of the
    contract is an object. *)
Theorem project_config_contract (config : any_map) :
  validateRunnerProjectConfig config = Ok tt <-> conforms "root" config.
Proof.
  unfold validateRunnerProjectConfig, validateRunnerConfigMap. rewrite validate_object_spec.
  split; [by intros (l & [= <-] & Hc)|eauto].
Qed.

(** C36: A command that creates, deletes or observes an environment passes
    [validateReleasePlanCommand] only with a release plan that the contracts verify
    against the command's signed reference, for this tenant, project, cluster and
    runner, for the one namespace of the environment and the allowed kinds, whose
    input binding is the digest of exactly the environment, the configuration and
    the version of the command, which names no chart itself; and the plan is the one
    the environment was created with, if it says. *)
Theorem release_plan_verified command cfg (Hop : Rc_Operation command ∈ planned_operations)
    (Hok : validateReleasePlanCommand command cfg = Ok tt) :
  let e := Rc_Environment command in
  exists plan publicKey,
    Rc_ReleasePlan command = Some plan
    /\ base64_decode (Rc_ReleasePlanPublicKey command) = Some publicKey
    /\ VerifyReleasePlanReference plan (plan_reference command plan) publicKey (runner_identity cfg command)
         [trim_space (M_Namespace (E_rest e))] (releasePlanAllowedKinds cfg) = None
    /\ trim_space (M_Namespace (E_rest e)) <> ""
    /\ ReleasePlanExecutionInputDigest e (Rc_ProjectConfig command) "" "" (Rc_ProjectConfigVersion command)
       = Ok (Rp_ExecutionInputDigest plan)
    /\ trim_space (Rp_ExecutionInputDigest plan) <> ""
    /\ Rc_ReleasePlanTransportVersion command = ReleasePlanTransportVersion
    /\ (M_ReleasePlanID (E_rest e) = "" \/ M_ReleasePlanID (E_rest e) = Rc_ReleasePlanID command)
    /\ (M_ReleasePlanDigest (E_rest e) = "" \/ M_ReleasePlanDigest (E_rest e) = Rc_ReleasePlanDigest command).
Proof.
  cbv zeta. apply mem_str in Hop. unfold validateReleasePlanCommand in Hok. cbv zeta in Hok. rewrite Hop in Hok.
  cbn [negb] in Hok. apply refuse_ok in Hok as [_ Hok]. apply refuse_ok in Hok as [Hid Hok].
  apply refuse_ok in Hok as [Hdg Hok].
  apply refuse_ok in Hok as [[Hr%str_ne_false Hv%str_ne_false]%orb_false_iff Hok].
  apply refuse_ok in Hok as [Htv%str_ne_false Hok]. rewrite Hr, Hv in Hok.
  destruct (Rc_ReleasePlan command) as [plan|]; [|done].
  destruct (base64_decode _) as [publicKey|] eqn:Ek; [|done]. apply refuse_ok in Hok as [Hns%str_eq_false Hok].
  destruct (VerifyReleasePlanReference _ _ _ _ _ _) eqn:Ever; [done|]. apply refuse_ok in Hok as [Hin%str_eq_false Hok].
  destruct (ReleasePlanExecutionInputDigest _ _ _ _ _) as [digest|] eqn:Ed; [|done].
  apply refuse_ok in Hok as [->%str_ne_false _].
  assert (Hopt : forall a b : string, str_ne a "" && str_ne a b = false -> a = "" \/ a = b).
  { intros a b [E%str_ne_false|E%str_ne_false]%andb_false_iff; auto. }
  exists plan, publicKey. repeat (split; [done|]). split; [by apply Hopt|by apply Hopt].
Qed.
End CommandProperties.

Section ResourceProperties.
Context `{ManifestCodec} `{Sha256}.

(** What a resource of a release plan says of its manifest. *)
Definition described (r : RenderedResource) : Prop :=
  Rr_ResourceID r = Rr_Kind r +:+ "/" +:+ Rr_Namespace r +:+ "/" +:+ Rr_Name r
  /\ (exists metadata, map_get "metadata" (Rr_Manifest r) = Some (VMap metadata)
        /\ map_get "name" metadata = Some (VStr (Rr_Name r))
        /\ (Rr_Kind r <> "Namespace" -> map_get "namespace" metadata = Some (VStr (Rr_Namespace r))))
  /\ manifestString (Rr_Manifest r) "kind" = Rr_Kind r
  /\ exists payload, json_map (Rr_Manifest r) = Ok payload /\ Rr_Digest r = "sha256:" +:+ sha256_hex payload.

Lemma rendered_resource_described (sprint_text : forall s, sprint (VStr s) = Some s)
    namespace releaseName index item r :
  rendered_resource namespace releaseName index item = Ok r ->
  described r /\ (releaseName <> "" -> Rr_Name r <> "")
  /\ (Rr_Kind r <> "Namespace" -> namespace <> "" -> Rr_Namespace r <> "").
Proof.
  unfold rendered_resource. destruct (yaml_map _) as [[manifest|]|]; [|done..]. cbv zeta.
  set (kind0 := manifestString manifest "kind").
  set (kind := if str_eq kind0 "" then trim_space (Ma_Kind item) else kind0).
  set (name := if str_eq (manifestString _ "name") "" then _ else _).
  set (ns := if _ && str_ne kind "Namespace" then _ else _).
  set (metadata := if str_ne kind "Namespace" then _ else _).
  destruct (json_map _) as [payload|] eqn:Ej; [|done]. intros [= <-].
  assert (Hkind : manifestString (if str_eq kind0 "" then map_set "kind" (VStr (trim_space (Ma_Kind item))) manifest
                                  else manifest) "kind" = kind).
  { unfold kind, kind0. destruct (str_eq (manifestString manifest "kind") "") eqn:E; [|done].
    unfold manifestString. rewrite map_get_set. cbn [str_eq]. change (str_eq "kind" "kind") with true. cbv iota.
    rewrite sprint_text. apply trim_space_idem. }
  split; [|split].
  - unfold described. cbn [Rr_ResourceID Rr_Kind Rr_Namespace Rr_Name Rr_Manifest Rr_Digest]. split; [done|].
    split; [|split; [|by exists payload]].
    + exists metadata. rewrite map_get_set. split; [done|]. unfold metadata. destruct (str_ne kind "Namespace") eqn:E.
      * rewrite !map_get_set. done.
      * rewrite map_get_set. apply str_ne_false in E. done.
    + unfold manifestString. rewrite map_get_set. change (str_eq "kind" "metadata") with false. exact Hkind.
  - cbn [Rr_Name]. intros Hn. unfold name. destruct (str_eq (manifestString _ "name") "") eqn:E; [done|].
    by apply str_eq_false in E.
  - cbn [Rr_Kind Rr_Namespace]. intros Hk Hn. unfold ns. apply str_ne_true in Hk. rewrite Hk, andb_true_r.
    destruct (str_eq (manifestString _ "namespace") "") eqn:E; [done|]. by apply str_eq_false in E.
Qed.

(** The resources that a release plan is rendered to are one for each
    manifest, at least one, and each describes its manifest: its name and, unless it
    is a namespace, its namespace are what the manifest says after defaults were
    filled in, both not empty, and its digest is that of the manifest it carries. *)
Theorem resources_described (sprint_text : forall s, sprint (VStr s) = Some s)
    manifests namespace releaseName rs (Hn : namespace <> "") (Hr : releaseName <> "")
    (Hok : releasePlanResources manifests namespace releaseName = Ok rs) :
  rs <> [] /\ length rs = length manifests
  /\ Forall (fun r => described r /\ Rr_Name r <> "" /\ (Rr_Kind r <> "Namespace" -> Rr_Namespace r <> "")) rs.
Proof.
  unfold releasePlanResources in Hok. apply rbind_ok in Hok as (rs' & Hl & Hok).
  apply refuse_ok in Hok as [Hne [= <-]]. apply Nat.eqb_neq in Hne.
  split; [by destruct rs'|]. clear Hne. revert Hl. generalize 0%nat as index. revert rs'.
  induction manifests as [|m l IH]; intros rs' index; cbn [rendered_resources]; [by intros [= <-]|].
  rewrite rbind_ok. intros (r & Hm & (rs1 & Hrs & [= <-])%rbind_ok).
  apply IH in Hrs as [Hlen Hall]. apply rendered_resource_described in Hm as (Hd & Hnm & Hns); [|done].
  split; [cbn; by rewrite Hlen|]. constructor; [|done]. auto.
Qed.

(** A rendered manifest that is an empty document stops the whole runner: the
    code assigns to an entry of a nil map. *)
Theorem empty_manifest_panics m l namespace releaseName (Hm : yaml_map (Ma_Content m) = Ok None) :
  releasePlanResources (m :: l) namespace releaseName = Err Panicked.
Proof. unfold releasePlanResources. cbn [rendered_resources]. unfold rendered_resource. by rewrite Hm. Qed.
End ResourceProperties.

(** ** Witnesses *)

#[local] Existing Instances sample_quote two_digests.
Definition sample_contracts : Contracts unit unit unit unit unit unit := {|
  DefaultTenantID := "default"; ReleasePlanTransportVersion := "2";
  RunnerOperationRestoreMySQL := "restore_mysql"; RunnerOperationMaterializePVC := "materialize_pvc";
  base64_decode := fun s => Some (chars s);
  VerifyReleasePlanReference := fun _ ref _ who namespaces _ =>
    if str_eq (Pr_PlanID ref) "plan" && str_eq (Ri_RunnerID who) "runner-0" then None else Some (errorf "rejected");
  ReleasePlanExecutionInputDigest := fun _ _ _ _ _ => Ok "sha256:input";
  ValidateCleanupInventory := fun _ _ _ _ => None;
  mysql_plan_digest := fun _ => "sha256:mysql"; pvc_plan_digest := fun _ => "sha256:pvc" |}.
#[local] Existing Instance sample_contracts.
Definition sample_command (op : string) (config : any_map) : RunnerCommand unit unit unit unit unit unit := {|
  Rc_ID := "c1"; Rc_AttemptID := "a1"; Rc_ProjectID := "shop"; Rc_ClusterID := "default"; Rc_RunnerID := "runner-0";
  Rc_Operation := op; Rc_Environment := sample_env;
  Rc_ProjectConfig := {| Pc_Config := config; Pc_Sensitive := false; Pc_TenantID := ""; Pc_Version := 1;
                         Pc_TemplateRevisionID := ""; Pc_TemplateDigest := ""; Pc_rest := tt |};
  Rc_ProjectConfigVersion := 1; Rc_CleanupInventory := []; Rc_ChartRef := ""; Rc_ChartVersion := "";
  Rc_ReleasePlanID := "plan"; Rc_ReleasePlanDigest := "sha256:plan"; Rc_ReleasePlanSignature := "sig";
  Rc_ReleasePlanKeyID := "key"; Rc_ReleasePlanPublicKey := "a2V5"; Rc_ReleasePlanTransportVersion := "2";
  Rc_ReleasePlan := Some {| Rp_TemplateDigest := "t"; Rp_InputDigest := "i";
                            Rp_ExecutionInputDigest := "sha256:input"; Rp_rest := tt |};
  Rc_MySQLRestorePlan := Some tt; Rc_PVCCopyPlan := Some tt; Rc_RemoteClusterGeneration := 0;
  Rc_RunnerIdentityIssuedAt := None |}.

Lemma release_plan_verified_witness : exists plan publicKey,
  Rc_ReleasePlan (sample_command "delete" []) = Some plan
  /\ base64_decode (Rc_ReleasePlanPublicKey (sample_command "delete" [])) = Some publicKey.
Proof.
  destruct (release_plan_verified (sample_command "delete" []) sample_config) as (plan & key & Hp & Hk & _).
  - apply mem_str. vm_compute. reflexivity.
  - vm_compute. reflexivity.
  - by exists plan, key.
Defined.

(** Manifests of one line: a kind, and an empty document. *)
Definition sample_codec : ManifestCodec := {|
  yaml_map := fun l => Ok (if (List.length l =? 0)%nat then None else Some [("kind", VStr (text l))]);
  json_map := fun m => Ok [];
  sprint := fun v => match v with VStr s => Some s | _ => None end |}.
#[local] Existing Instance sample_codec.
Definition sample_manifest (content : string) : Manifest :=
  {| Ma_Path := "7.yaml"; Ma_Kind := "HelmDirect"; Ma_Content := chars content |}.

Lemma resources_described_witness : exists r,
  releasePlanResources [sample_manifest "Deployment"] "envplane-pr-7" "shop-7" = Ok [r] /\ described r.
Proof.
  destruct (releasePlanResources [sample_manifest "Deployment"] "envplane-pr-7" "shop-7") as [rs|] eqn:E;
    [|vm_compute in E; discriminate E].
  assert (Hs : forall s, sprint (VStr s) = Some s) by done.
  destruct (resources_described Hs [sample_manifest "Deployment"] "envplane-pr-7" "shop-7" rs)
    as (_ & Hl & Hd); [done|done|exact E|].
  destruct rs as [|r [|r' l]]; [discriminate Hl| |discriminate Hl]. exists r. split; [done|].
  apply Forall_cons in Hd. apply Hd.
Defined.

Lemma empty_manifest_panics_witness :
  releasePlanResources [sample_manifest ""] "envplane-pr-7" "shop-7" = Err Panicked.
Proof. exact (empty_manifest_panics (sample_manifest "") [] "envplane-pr-7" "shop-7" eq_refl). Defined.
