(* ===== verification/RunnerDispatch.v ===== *)
(** * The dispatch of a runner command

    [internal/runner/runtime.go]: [executeRunnerCommandWithNamespaceGuard], the
    one function that acts on a command, as a program over the backend, the
    executor of namespaces, the copies and the capture of storage; and the same
    with the Helm backend, down to the commands of helm and kubectl
    ([executeRunnerCommandForConfig]). *)

From stdpp Require Import base list gmap strings pretty.
From Stdlib Require Import ZArith Lia Ascii String.
From S2P Require SqlFailure.
From S2P Require Import Prelude GoStrings GoPath EnvStore OrchTypes HelmName HelmValues HelmCli.
From S2P Require Import HelmDirect RunnerConfig RunnerCommand.

Local Open Scope string_scope.
Local Open Scope Z_scope.
Local Open Scope list_scope.

(** ** Results and calls *)

Record RunnerCommandResult := {
  Re_CommandID : string; Re_Status : string; Re_Namespace : string; Re_ReleaseName : string;
  Re_ErrorCode : string; Re_Error : string; Re_EnvironmentStatus : string; Re_CleanupVerified : bool;
  Re_MySQLRestoreVerified : bool; Re_MySQLRestorePlanDigest : string;
  Re_PVCCopyVerified : bool; Re_PVCCopyPlanDigest : string;
  Re_ReleasePlanTransportVersion : string; Re_RenderedResources : list RenderedResource }.
Definition set_result (r : RunnerCommandResult) (st ns rel code err : string) (envStatus : string) (verified : bool)
    : RunnerCommandResult :=
  {| Re_CommandID := Re_CommandID r; Re_Status := st; Re_Namespace := ns; Re_ReleaseName := rel;
     Re_ErrorCode := code; Re_Error := err; Re_EnvironmentStatus := envStatus; Re_CleanupVerified := verified;
     Re_MySQLRestoreVerified := Re_MySQLRestoreVerified r; Re_MySQLRestorePlanDigest := Re_MySQLRestorePlanDigest r;
     Re_PVCCopyVerified := Re_PVCCopyVerified r; Re_PVCCopyPlanDigest := Re_PVCCopyPlanDigest r;
     Re_ReleasePlanTransportVersion := Re_ReleasePlanTransportVersion r;
     Re_RenderedResources := Re_RenderedResources r |}.
Definition set_copies (r : RunnerCommandResult) (sql : bool) (sqlDigest : string) (pvc : bool) (pvcDigest : string)
    (transport : string) (resources : list RenderedResource) : RunnerCommandResult :=
  {| Re_CommandID := Re_CommandID r; Re_Status := Re_Status r; Re_Namespace := Re_Namespace r;
     Re_ReleaseName := Re_ReleaseName r; Re_ErrorCode := Re_ErrorCode r; Re_Error := Re_Error r;
     Re_EnvironmentStatus := Re_EnvironmentStatus r; Re_CleanupVerified := Re_CleanupVerified r;
     Re_MySQLRestoreVerified := sql; Re_MySQLRestorePlanDigest := sqlDigest;
     Re_PVCCopyVerified := pvc; Re_PVCCopyPlanDigest := pvcDigest;
     Re_ReleasePlanTransportVersion := transport; Re_RenderedResources := resources |}.
Definition with_error (r : RunnerCommandResult) (code err : string) : RunnerCommandResult :=
  set_result r (Re_Status r) (Re_Namespace r) (Re_ReleaseName r) code err (Re_EnvironmentStatus r) (Re_CleanupVerified r).
(** [result.Error = err.Error()] alone. *)
Definition with_text (r : RunnerCommandResult) (err : go_error) : RunnerCommandResult :=
  with_error r (Re_ErrorCode r) (ge_text err).
Definition succeeded (r : RunnerCommandResult) : RunnerCommandResult :=
  set_result r "succeeded" (Re_Namespace r) (Re_ReleaseName r) (Re_ErrorCode r) (Re_Error r)
    (Re_EnvironmentStatus r) (Re_CleanupVerified r).
Definition with_target (r : RunnerCommandResult) (release namespace : string) : RunnerCommandResult :=
  set_result r (Re_Status r) namespace release (Re_ErrorCode r) (Re_Error r) (Re_EnvironmentStatus r) (Re_CleanupVerified r).
Definition with_cleanup (r : RunnerCommandResult) (envStatus : string) (verified : bool) : RunnerCommandResult :=
  set_result r (Re_Status r) (Re_Namespace r) (Re_ReleaseName r) (Re_ErrorCode r) (Re_Error r) envStatus verified.

Section Dispatch.
Context {P Y X I M V C : Type} `{Contracts Y X I M V C}.
Context `{Quote} `{GoNet} `{ChartRefs} `{ManifestCodec} `{Sha256} `{Statuses}.
Implicit Types (command : RunnerCommand Y X I M V C) (cfg : runnerConfig P).

(** The calls: [executeRunnerMySQLRestore], [executeRunnerPVCCopy], the
    executor of namespaces, [attemptRunnerStorageCleanupCapture], [helm show
    chart], the backend, and the end of the process. *)
Inductive run_call : Type -> Type :=
| Restore : run_call (option SqlFailure.error)
| CopyPVC : run_call (option go_error)
| OnNamespace {R} (op : helm_op R) : run_call R
| Capture : run_call unit
| OnCommand {R} (c : cmd R) : run_call R
| BackendTarget (e : Env Y) (config : any_map) : run_call (result go_error (string * string))
| BackendRender (e : Env Y) (config : any_map) : run_call (result go_error (list Manifest))
| BackendApply (e : Env Y) (config : any_map) : run_call (option go_error)
| BackendDelete (e : Env Y) (config : any_map) : run_call (option go_error)
| BackendStatus (e : Env Y) (config : any_map) : run_call (result go_error string)
| Crash : run_call Empty_set.

Fixpoint on_commands {A} (p : prog cmd A) : prog run_call A :=
  match p with
  | Ret a => Ret a
  | Vis c k => Vis (OnCommand c) (fun r => on_commands (k r))
  end.

(** [mysqlRestoreFailureMessage] *)
Definition mysqlRestoreFailureMessage (err : SqlFailure.error) : string :=
  let '(stage, code) := SqlFailure.FailureInfo err in
  let stages := SqlFailure.FailureStages err in
  let labels := if (List.length stages =? 0)%nat then [stage] else stages in
  "MySQL restore was not verified; source preserved. Stages: " +:+ join "," labels +:+ "; code: " +:+ code
  +:+ ". Review protected backup, TLS, source identity, helper permissions and generated target credentials.".

Definition first_result command : RunnerCommandResult :=
  {| Re_CommandID := Rc_ID command; Re_Status := "failed";
     Re_Namespace := M_Namespace (E_rest (Rc_Environment command)); Re_ReleaseName := E_ID (Rc_Environment command);
     Re_ErrorCode := ""; Re_Error := ""; Re_EnvironmentStatus := ""; Re_CleanupVerified := false;
     Re_MySQLRestoreVerified := false; Re_MySQLRestorePlanDigest := "";
     Re_PVCCopyVerified := false; Re_PVCCopyPlanDigest := "";
     Re_ReleasePlanTransportVersion := ""; Re_RenderedResources := [] |}.

(** [namespaceAllowed != nil && !namespaceAllowed(namespace)] *)
Definition denied (namespaceAllowed : option (string -> bool)) (namespace : string) : bool :=
  match namespaceAllowed with Some allowed => negb (allowed namespace) | None => false end.
Definition secrets_denied (r : RunnerCommandResult) : RunnerCommandResult :=
  with_error r "runner_namespace_access_denied"
    ("target Runner is not authorized for Helm release Secrets in namespace " +:+ Re_Namespace r).

(** [ReleaseName, Namespace, err = backend.DeploymentTarget(...)] and the guard
    of the namespace, before [k]. *)
Definition with_backend_target (namespaceAllowed : option (string -> bool)) command (r : RunnerCommandResult)
    (k : RunnerCommandResult -> prog run_call RunnerCommandResult) : prog run_call RunnerCommandResult :=
  t <-- call (BackendTarget (Rc_Environment command) (projectConfigForRunnerCommand command));;
  match t with
  | Err err => Ret (with_text (with_target r "" "") err)
  | Ok (release, namespace) =>
      let r := with_target r release namespace in
      if denied namespaceAllowed namespace then Ret (secrets_denied r) else k r
  end.
(** The end of the function: [if err != nil] and the success. *)
Definition finish (r : RunnerCommandResult) (err : option go_error) : prog run_call RunnerCommandResult :=
  Ret (match err with Some err => with_text r err | None => succeeded r end).

(** The operation [cleanup_flux_namespace]. *)
Definition cleanup_flux_namespace command (namespaceAllowed : option (string -> bool)) (r : RunnerCommandResult)
    : prog run_call RunnerCommandResult :=
  let e := Rc_Environment command in
  let namespace := M_Namespace (E_rest e) in
  if str_eq (trim_space (E_ID e)) "" || str_ne (trim_space namespace) ("envplane-pr-" +:+ trim_space (E_ID e))
  then Ret (with_error r "cleanup_ownership_violation"
              "remote Flux cleanup requires the environment's dedicated preview namespace")
  else if denied namespaceAllowed namespace
  then Ret (with_error r "runner_namespace_access_denied"
              ("target Runner is not authorized for preview namespace " +:+ namespace))
  else
    m <-- call (OnNamespace (IsNamespaceManaged namespace (E_Project e) (E_ID e)));;
    match m with
    | Err err => Ret (with_text r err)
    | Ok false =>
        x <-- call (OnNamespace (NamespaceExists namespace));;
        match x with
        | Err err => Ret (with_text r err)
        | Ok false => finish (with_cleanup r StatusTerminated true) None
        | Ok true => Ret (with_error r "cleanup_ownership_violation"
                            "preview namespace is not owned by the environment")
        end
    | Ok true =>
        _ <-- call Capture;;
        d <-- call (OnNamespace (DeleteNamespace namespace));;
        match d with
        | Some err => Ret (with_text r err)
        | None =>
            x <-- call (OnNamespace (NamespaceExists namespace));;
            match x with
            | Err err => Ret (with_text r err)
            | Ok exists_ => finish (with_cleanup r (if exists_ : bool then StatusTerminating else StatusTerminated)
                                      (negb exists_)) None
            end
        end
    end.

(** The operation [render_release_plan]. *)
Definition render_release_plan command (r : RunnerCommandResult) : prog run_call RunnerCommandResult :=
  let e := Rc_Environment command in
  let config := projectConfigForRunnerCommand command in
  let r := set_copies r (Re_MySQLRestoreVerified r) (Re_MySQLRestorePlanDigest r) (Re_PVCCopyVerified r)
             (Re_PVCCopyPlanDigest r) ReleasePlanTransportVersion (Re_RenderedResources r) in
  t <-- call (BackendTarget e config);;
  match t with
  | Err err => Ret (with_text (with_target r "" "") err)
  | Ok (release, namespace) =>
      let r := with_target r release namespace in
      l <-- call (BackendRender e config);;
      match l with
      | Err err => Ret (with_error r "release_plan_render_failed" (ge_text err))
      | Ok manifests =>
          match releasePlanResources manifests namespace release with
          | Err Panicked => Vis Crash (fun never : Empty_set => match never return prog run_call RunnerCommandResult with end)
          | Err (Error err) => Ret (with_error r "release_plan_render_invalid" (ge_text err))
          | Ok resources =>
              Ret (succeeded (set_copies r (Re_MySQLRestoreVerified r) (Re_MySQLRestorePlanDigest r)
                     (Re_PVCCopyVerified r) (Re_PVCCopyPlanDigest r) (Re_ReleasePlanTransportVersion r) resources))
          end
      end
  end.

Definition plan_digest {A} (digest : A -> string) (plan : option A) : string :=
  match plan with Some p => digest p | None => "" end.

(** The switch over the operation. *)
Definition execute_operation cfg command (namespaceAllowed : option (string -> bool)) (r : RunnerCommandResult)
    : prog run_call RunnerCommandResult :=
  let e := Rc_Environment command in
  let config := projectConfigForRunnerCommand command in
  let op := Rc_Operation command in
  if str_eq op RunnerOperationRestoreMySQL then
    x <-- call Restore;;
    match x with
    | Some err => Ret (with_error r "mysql_restore_not_verified" (mysqlRestoreFailureMessage err))
    | None =>
        finish (set_copies (with_target r "" (M_Namespace (E_rest e))) true
                  (plan_digest mysql_plan_digest (Rc_MySQLRestorePlan command)) (Re_PVCCopyVerified r)
                  (Re_PVCCopyPlanDigest r) (Re_ReleasePlanTransportVersion r) (Re_RenderedResources r)) None
    end
  else if str_eq op RunnerOperationMaterializePVC then
    x <-- call CopyPVC;;
    match x with
    | Some err => Ret (with_error r "pvc_copy_not_verified"
        "PVC copy was not verified; source preserved. Review offline fencing, source identity, helper permissions and target ownership.")
    | None =>
        finish (set_copies (with_target r "" (M_Namespace (E_rest e))) (Re_MySQLRestoreVerified r)
                  (Re_MySQLRestorePlanDigest r) true (plan_digest pvc_plan_digest (Rc_PVCCopyPlan command))
                  (Re_ReleasePlanTransportVersion r) (Re_RenderedResources r)) None
    end
  else if str_eq op "cleanup_flux_namespace" then cleanup_flux_namespace command namespaceAllowed r
  else if str_eq op "validate_helm_chart" then
    let r := with_target r "" "" in
    x <-- on_commands (validateRunnerHelmChart cfg (Rc_ChartRef command) (Rc_ChartVersion command));;
    Ret (match x with
         | Some err => let '(code, text) := classifyHelmChartPreflightError err in with_error r code text
         | None => succeeded r
         end)
  else if str_eq op "render_release_plan" then render_release_plan command r
  else if str_eq op "create" || str_eq op "recreate" then
    if negb (runnerHelmChartHostAllowed (helmDirectChartReference e (resolveHelmDirectConfig config))
               (HelmAllowedChartHosts cfg))
    then Ret (with_error r "helm_chart_host_not_allowlisted" "invalid chart reference: chart host is not allowlisted")
    else
      with_backend_target namespaceAllowed command r (fun r =>
        x <-- call (BackendApply e config);; finish r x)
  else if str_eq op "delete" || str_eq op "force_cleanup" then
    with_backend_target namespaceAllowed command r (fun r =>
      _ <-- call Capture;;
      x <-- call (BackendDelete e config);;
      match x with
      | None => finish (with_cleanup r StatusTerminated true) None
      | Some err => finish r (Some err)
      end)
  else if str_eq op "status" then
    with_backend_target namespaceAllowed command r (fun r =>
      x <-- call (BackendStatus e config);;
      match x with
      | Ok status => finish (with_cleanup r status (Re_CleanupVerified r)) None
      | Err err => finish r (Some err)
      end)
  else Ret (with_error r (Re_ErrorCode r) "unsupported runner command operation").

(** [executeRunnerCommandWithNamespaceGuard] *)
Definition executeRunnerCommandWithNamespaceGuard cfg command (namespaceAllowed : option (string -> bool))
    : prog run_call RunnerCommandResult :=
  let e := Rc_Environment command in
  let r := first_result command in
  let op := Rc_Operation command in
  match validateReleasePlanCommand command cfg with
  | Err err => Ret (with_error r "release_plan_required" (ge_text err))
  | Ok _ =>
      if Pc_Sensitive (Rc_ProjectConfig command)
      then Ret (with_error r "secret_materialization_boundary_violation" "RunnerCommand contains secret material")
      else
        match validateRunnerProjectConfig (Pc_Config (Rc_ProjectConfig command)) with
        | Err err => Ret (with_error r "secret_materialization_boundary_violation"
                            ("RunnerCommand contains unsupported project configuration: " +:+ ge_text err))
        | Ok _ =>
            if (str_eq op "delete" || str_eq op "force_cleanup")
               && (0 <? List.length (Rc_CleanupInventory command))%nat
            then
              match ValidateCleanupInventory (Rc_CleanupInventory command) (tenant_of command) (ProjectID cfg)
                      (M_Namespace (E_rest e)) with
              | Some err => Ret (with_error r "cleanup_ownership_violation" (ge_text err))
              | None => execute_operation cfg command namespaceAllowed r
              end
            else execute_operation cfg command namespaceAllowed r
        end
  end.
End Dispatch.
Arguments run_call Y : clear implicits.

(** ** With the Helm backend *)

(** The calls that reach the outside: commands, the temporary values file, the
    copies, the capture, the end of the process. *)
Inductive sys : Type -> Type :=
| SysCommand {R} (c : cmd R) : sys R
| TempValues (payload : values) : sys (result go_error string)
| RemoveTemp (name : string) : sys unit
| SysRestore : sys (option SqlFailure.error)
| SysCopyPVC : sys (option go_error)
| SysCapture : sys unit
| SysCrash : sys Empty_set.

Section ForConfig.
Context {P Y X I M V C : Type} `{Contracts Y X I M V C}.
Context `{Quote} `{GoNet} `{ChartRefs} `{ManifestCodec} `{Sha256} `{Statuses}.
Context `{KubeJson} `{Templates} `{EnvFiles Y} `{ManifestYaml}.

Definition on_sys {A} (p : prog cmd A) : prog sys A := handle (fun _ c => call (SysCommand c)) p.
Definition direct_sys {R} (op : direct_op R) : prog sys R :=
  match op with
  | Helm op => on_sys (cli true _ op)
  | CreateValues payload => call (TempValues payload)
  | RemoveValues name => call (RemoveTemp name)
  end.
Definition helm_sys {R} (op : helm_op R) : prog sys R := on_sys (cli true _ op).
Definition runner_sys {R} (c : run_call Y R) : prog sys R :=
  match c with
  | Restore => call SysRestore
  | CopyPVC => call SysCopyPVC
  | OnNamespace op => helm_sys op
  | Capture => call SysCapture
  | OnCommand c => call (SysCommand c)
  | BackendTarget e config => Ret (DeploymentTarget e config)
  | BackendRender e config => Ret (hd_Render e config)
  | BackendApply e config => handle (fun _ op => direct_sys op) (hd_Apply e config)
  | BackendDelete e config => handle (fun _ op => helm_sys op) (hd_Delete e config)
  | BackendStatus e config => handle (fun _ op => helm_sys op) (hd_Status e config)
  | Crash => call SysCrash
  end.
(** [executeRunnerCommandForConfig] *)
Definition executeRunnerCommandForConfig (cfg : runnerConfig P) (command : RunnerCommand Y X I M V C)
    : prog sys RunnerCommandResult :=
  handle (fun _ c => runner_sys c) (executeRunnerCommandWithNamespaceGuard cfg command (Some (canRunHelmInNamespace cfg))).
End ForConfig.

(** ** What a command changes *)

Inductive effect : Type := ReadsOnly | Changes (namespace : string) | Unknown.
Definition effect_of (name : string) (args : list string) : effect :=
  if str_eq name "helm" then
    match args with
    | verb :: args' =>
        if existsb (str_eq verb) ["template"; "status"; "show"] then ReadsOnly
        else if str_eq verb "upgrade" then
          match args' with
          | _ :: _ :: _ :: flag :: ns :: _ => if str_eq flag "--namespace" then Changes ns else Unknown
          | _ => Unknown
          end
        else if str_eq verb "uninstall" || str_eq verb "rollback" then
          match args' with
          | [_; flag; ns] => if str_eq flag "--namespace" then Changes ns else Unknown
          | _ => Unknown
          end
        else Unknown
    | [] => Unknown
    end
  else if str_eq name "kubectl" then
    match args with
    | verb :: args' =>
        if str_eq verb "get" then ReadsOnly
        else match args' with
             | kind :: ns :: _ => if str_eq verb "delete" && str_eq kind "namespace" then Changes ns else Unknown
             | _ => Unknown
             end
    | [] => Unknown
    end
  else Unknown.
(** The command reads, or changes a namespace of [ok]. *)
Definition confined (ok : string -> Prop) (R : Type) (c : cmd R) : Prop :=
  match c with
  | RunCommand name args =>
      match effect_of name args with ReadsOnly => True | Changes ns => ok ns | Unknown => False end
  | RunReadCommand args => effect_of "kubectl" args = ReadsOnly
  end.
Definition sys_confined (ok : string -> Prop) (R : Type) (c : sys R) : Prop :=
  match c with SysCommand c => confined ok _ c | _ => True end.

Section Confined.
Context `{Quote} `{GoNet} `{ChartRefs} `{KubeJson}.
Variable ok : string -> Prop.

(** The namespaces that an operation of the executor may change. *)
Definition op_confined (R : Type) (op : helm_op R) : Prop :=
  match op with
  | UpgradeInstall o => ok (Up_Namespace o)
  | Uninstall _ ns | Rollback _ ns => ok ns
  | DeleteNamespace ns => ok (trim_space ns)
  | _ => True
  end.

Lemma secrets_owned_confined release namespace l whole : only (confined ok) (secrets_owned release namespace l whole).
Proof.
  induction l as [|item l IH]; cbn [secrets_owned]; [by destruct whole|].
  destruct (str_ne (Ci_Kind item) "Secret"); [done|]. cbv zeta. apply only_stop. split; [exact I|].
  intros [metadata [err|]]; cbn [bind]; [exact I|]. destruct (blank (text metadata)); [done|].
  destruct (parse_secret metadata) as [[labels annotations]|]; [|exact I]. by apply only_stop.
Qed.
Lemma read_pods_confined release namespace selectors : forall pods,
  only (confined ok) (read_pods release namespace selectors pods).
Proof.
  induction selectors as [|s l IH]; intros pods; cbn [read_pods]; [exact I|]. split; [exact I|].
  intros [output [err|]]; cbn [bind]; repeat only_step; done.
Qed.

Lemma cli_confined R (op : helm_op R) : op_confined R op -> only (confined ok) (cli true R op).
Proof.
  destruct op as [o|r ns|r ns|ns|r ns|ns p e|r ns|ns]; cbn [op_confined cli].
  - intros Hns. unfold cli_UpgradeInstall. destruct (_ && _); [exact I|].
    apply only_bind.
    + split; [exact I|]. intros [rendered [err|]]; cbn [bind]; [exact I|]. destruct (decode_chart rendered).
      apply secrets_owned_confined.
    + intros [u|err]; [|exact I]. split; [exact Hns|done].
  - intros Hns. by split.
  - intros Hns. by split.
  - intros Hns. unfold cli_DeleteNamespace. cbv zeta. destruct (str_eq _ _); [exact I|]. by split.
  - intros _. by split.
  - intros _. unfold cli_IsNamespaceManaged. cbv zeta. destruct (str_eq _ _); [exact I|]. repeat split.
  - intros _. unfold cli_Readiness. cbv zeta. destruct (str_eq _ _); [exact I|]. apply only_bind.
    + apply read_pods_confined.
    + by intros [[l|]|].
  - intros _. unfold cli_NamespaceExists. cbv zeta. destruct (str_eq _ _); [exact I|]. repeat split.
Qed.

Lemma on_sys_confined {A} (p : prog cmd A) : only (confined ok) p -> only (sys_confined ok) (on_sys p).
Proof. intros Hp. by apply (only_handle (confined ok)). Qed.
End Confined.

Lemma only_handle_bind {E F : Type -> Type} {A B} (Q : forall R, F R -> Prop) (f : forall R, E R -> prog F R)
    (p : prog E A) (q : A -> prog E B) :
  only Q (handle f p) -> (forall a, only Q (handle f (q a))) -> only Q (handle f (bind p q)).
Proof.
  intros Hp Hq. induction p as [a|R e k IH]; cbn [bind handle] in *; [apply Hq|].
  revert Hp. generalize (f R e) as g. intros g. induction g as [r|R' e' k' IHg]; cbn [bind only].
  - intros Hp. by apply IH.
  - intros [HP Hk]. split; [done|]. intros r. by apply IHg.
Qed.

Section DispatchLemmas.
Context {P Y X I M V C : Type} `{Contracts Y X I M V C}.
Context `{Quote} `{GoNet} `{ChartRefs} `{ManifestCodec} `{Sha256} `{Statuses}.
Context `{KubeJson} `{Templates} `{EnvFiles Y} `{ManifestYaml}.
Variable cfg : runnerConfig P.
Implicit Types command : RunnerCommand Y X I M V C.

Definition permitted (ns : string) : Prop := canRunHelmInNamespace cfg ns = true.
Lemma permitted_trim ns : permitted ns -> permitted (trim_space ns).
Proof. unfold permitted. by rewrite !canRun_spec, trim_space_idem. Qed.

Lemma helm_sys_confined R (op : helm_op R) : op_confined permitted R op -> only (sys_confined permitted) (helm_sys op).
Proof. intros Hop. by apply on_sys_confined, cli_confined. Qed.

(** The operations of the backend change the target namespace only. *)
Section Target.
Context (e : Env Y) (config : any_map) (release namespace : string).
Hypothesis target : DeploymentTarget e config = Ok (release, namespace).
Hypothesis allowed : permitted namespace.

Lemma target_parts : renderReleaseName e config = Ok release /\ targetNamespace e (resolveHelmDirectConfig config) = namespace.
Proof using target.
  unfold DeploymentTarget in target. apply rbind_ok in target as (rel & Hr & E). injection E as -> ->. by split.
Qed.

Lemma apply_confined : only (sys_confined permitted) (handle (fun _ op => direct_sys op) (hd_Apply e config)).
Proof.
  destruct target_parts as [Hr Hn]. unfold hd_Apply. cbv zeta. rewrite Hr.
  destruct (str_ne _ ""); [|].
  - cbn [call handle direct_sys]. apply only_bind; [|done]. apply helm_sys_confined. cbn. by rewrite Hn.
  - apply only_handle_bind; [by split|]. intros [name|err]; [|exact Logic.I].
    apply only_handle_bind.
    + cbn [call handle direct_sys]. apply only_bind; [|done]. apply helm_sys_confined. cbn. by rewrite Hn.
    + intros r. by apply only_handle_bind.
Qed.

Lemma delete_confined : only (sys_confined permitted) (handle (fun _ op => helm_sys op) (hd_Delete e config)).
Proof.
  destruct target_parts as [Hr Hn]. apply (only_handle (op_confined permitted)); [apply helm_sys_confined|].
  unfold hd_Delete. cbv zeta. rewrite Hr, Hn. split; [exact allowed|].
  assert (Hd : only (op_confined permitted) (delete_owned_namespace e (resolveHelmDirectConfig config) namespace)).
  { unfold delete_owned_namespace. destruct (negb _); [exact Logic.I|]. split; [exact Logic.I|].
    intros [[]|err]; [|exact Logic.I..]. split; [by apply permitted_trim|done]. }
  intros [err|]; cbn [bind]; [destruct (negb _); [exact Logic.I|]|]; exact Hd.
Qed.

Lemma status_confined : only (sys_confined permitted) (handle (fun _ op => helm_sys op) (hd_Status e config)).
Proof.
  destruct target_parts as [Hr Hn]. apply (only_handle (op_confined permitted)); [apply helm_sys_confined|].
  unfold hd_Status. cbv zeta. rewrite Hr, Hn. split; [exact Logic.I|].
  intros [s|err]; cbn [bind]; [|exact Logic.I]. destruct (negb _); [exact Logic.I|].
  destruct (str_eq _ "deployed").
  - unfold checkReleaseReady. destruct (negb _); [exact Logic.I|]. split; [exact Logic.I|]. by intros [[]|].
  - destruct (existsb _ _); [|exact Logic.I]. split; [exact allowed|]. by intros [err|].
Qed.
End Target.

Definition on_runner {A} (p : prog (run_call Y) A) : prog sys A := handle (fun _ c => runner_sys c) p.

Lemma with_target_confined command r k :
  (forall r release namespace,
     DeploymentTarget (Rc_Environment command) (projectConfigForRunnerCommand command) = Ok (release, namespace) ->
     permitted namespace -> only (sys_confined permitted) (on_runner (k r))) ->
  only (sys_confined permitted)
    (on_runner (with_backend_target (Some (canRunHelmInNamespace cfg)) command r k)).
Proof.
  intros Hk. unfold with_backend_target, on_runner. cbn [call bind handle runner_sys].
  destruct (DeploymentTarget _ _) as [[release namespace]|err] eqn:Et; [|exact Logic.I].
  cbn [denied]. destruct (canRunHelmInNamespace cfg namespace) eqn:Ep; [|exact Logic.I]. by eapply Hk.
Qed.

Lemma on_commands_confined {A} (p : prog cmd A) :
  only (confined permitted) p -> only (sys_confined permitted) (on_runner (on_commands p)).
Proof.
  induction p as [a|R c k IH]; cbn [on_commands only on_runner handle]; [done|]. intros [Hc Hk].
  split; [exact Hc|]. intros r. cbn [bind]. by apply IH.
Qed.

Lemma cleanup_confined command r :
  only (sys_confined permitted) (on_runner (cleanup_flux_namespace command (Some (canRunHelmInNamespace cfg)) r)).
Proof.
  unfold cleanup_flux_namespace. cbv zeta. destruct (_ || _); [exact Logic.I|]. cbn [denied].
  destruct (canRunHelmInNamespace cfg _) eqn:Ep; [|exact Logic.I]. cbn [negb].
  assert (Hop : forall R (op : helm_op R), op_confined permitted R op ->
            only (sys_confined permitted) (on_runner (call (OnNamespace op)))).
  { intros R op Ho. cbn [on_runner call handle runner_sys]. apply only_bind; [by apply helm_sys_confined|done]. }
  apply only_handle_bind; [by apply Hop|]. intros [[]|err]; [| |exact Logic.I].
  - apply only_handle_bind; [by split|]. intros _. apply only_handle_bind; [apply Hop; by apply permitted_trim|].
    intros [err|]; [exact Logic.I|]. apply only_handle_bind; [by apply Hop|]. by intros [x|err].
  - apply only_handle_bind; [by apply Hop|]. by intros [[]|err].
Qed.

Lemma render_confined command r : only (sys_confined permitted) (on_runner (render_release_plan command r)).
Proof.
  unfold render_release_plan. cbv zeta. apply only_handle_bind; [exact Logic.I|].
  intros [[release namespace]|err]; [|exact Logic.I]. apply only_handle_bind; [exact Logic.I|].
  intros [l|err]; [|exact Logic.I]. destruct (releasePlanResources _ _ _) as [|[|]]; [exact Logic.I..|].
  split; [exact Logic.I|]. intros [].
Qed.
End DispatchLemmas.

(** ** Properties *)

Section DispatchProperties.
Context {P Y X I M V C : Type} `{Contracts Y X I M V C}.
Context `{Quote} `{GoNet} `{ChartRefs} `{ManifestCodec} `{Sha256} `{Statuses}.
Context `{KubeJson} `{Templates} `{EnvFiles Y} `{ManifestYaml}.
Implicit Types (command : RunnerCommand Y X I M V C) (cfg : runnerConfig P).

(** The cases of the switch are different: Go refuses equal constant cases. *)
Definition case_names : list string :=
  [RunnerOperationRestoreMySQL; RunnerOperationMaterializePVC; "cleanup_flux_namespace"; "validate_helm_chart";
   "render_release_plan"; "create"; "recreate"; "delete"; "force_cleanup"; "status"].

(** What was checked before anything is done. *)
Definition accepted cfg command : Prop :=
  let e := Rc_Environment command in
  validateReleasePlanCommand command cfg = Ok tt
  /\ Pc_Sensitive (Rc_ProjectConfig command) = false
  /\ validateRunnerProjectConfig (Pc_Config (Rc_ProjectConfig command)) = Ok tt
  /\ (Rc_Operation command ∈ ["delete"; "force_cleanup"] -> Rc_CleanupInventory command <> [] ->
      ValidateCleanupInventory (Rc_CleanupInventory command) (tenant_of command) (ProjectID cfg)
        (M_Namespace (E_rest e)) = None).

(** A command is refused before anything is done, or it was accepted. *)
Lemma execute_shape cfg command na :
  (exists code text, executeRunnerCommandWithNamespaceGuard cfg command na
     = Ret (with_error (first_result command) code text))
  \/ (accepted cfg command /\ executeRunnerCommandWithNamespaceGuard cfg command na
                              = execute_operation cfg command na (first_result command)).
Proof.
  unfold executeRunnerCommandWithNamespaceGuard, accepted. cbv zeta.
  destruct (validateReleasePlanCommand command cfg) as [[]|]; [|left; by eexists _, _].
  destruct (Pc_Sensitive _); [left; by eexists _, _|].
  destruct (validateRunnerProjectConfig _) as [[]|]; [|left; by eexists _, _].
  destruct ((str_eq (Rc_Operation command) "delete" || str_eq (Rc_Operation command) "force_cleanup")
            && (0 <? length (Rc_CleanupInventory command))%nat) eqn:E.
  - destruct (ValidateCleanupInventory _ _ _ _) eqn:Ev; [left; by eexists _, _|]. right. by repeat split.
  - right. split; [|done]. repeat (split; [done|]). intros Hop Hne.
    apply andb_false_iff in E as [E|E].
    + apply orb_false_iff in E as [E1%str_eq_false E2%str_eq_false].
      rewrite !elem_of_cons, elem_of_nil in Hop. naive_solver.
    + by destruct (Rc_CleanupInventory command).
Qed.

(** What an execution issues. *)
Lemma commands_confined cfg command : only (sys_confined (permitted cfg)) (executeRunnerCommandForConfig cfg command).
Proof.
  assert (Hop : only (sys_confined (permitted cfg))
    (on_runner (execute_operation cfg command (Some (canRunHelmInNamespace cfg)) (first_result command)))).
  { unfold execute_operation. cbv zeta. repeat match goal with |- context [if ?b then _ else _] =>
      match b with str_eq _ _ => destruct b | (str_eq _ _ || str_eq _ _) => destruct b end end.
    - split; [exact Logic.I|]. by intros [err|].
    - split; [exact Logic.I|]. by intros [err|].
    - apply cleanup_confined.
    - apply only_handle_bind; [|intros [err|]; [by destruct (classifyHelmChartPreflightError err)|exact Logic.I]].
      apply on_commands_confined. unfold validateRunnerHelmChart. cbv zeta. repeat only_step.
    - apply render_confined.
    - destruct (negb _); [exact Logic.I|]. apply with_target_confined. intros r0 release namespace Ht Hn.
      apply only_handle_bind; [|by intros [err|]]. cbn [call handle runner_sys]. apply only_bind; [|done].
      by eapply apply_confined.
    - apply with_target_confined. intros r0 release namespace Ht Hn. split; [exact Logic.I|]. intros u. cbn [bind].
      apply only_handle_bind; [|by intros [err|]]. cbn [call handle runner_sys]. apply only_bind; [|done].
      by eapply delete_confined.
    - apply with_target_confined. intros r0 release namespace Ht Hn.
      apply only_handle_bind; [|by intros [status|err]]. cbn [call handle runner_sys]. apply only_bind; [|done].
      by eapply status_confined.
    - exact Logic.I. }
  unfold executeRunnerCommandForConfig.
  destruct (execute_shape cfg command (Some (canRunHelmInNamespace cfg))) as [(code & text & ->)|[_ ->]]; [exact Logic.I|exact Hop].
Qed.

(** Whatever the command and the answers: the commands of helm and kubectl
    that the runner issues only read, or change a namespace that the runner may
    write to; and if anything is issued at all, the command carried a verified
    release plan (where its operation needs one), no sensitive value, a
    configuration of the contract, and a cleanup inventory that the contracts
    accept. *)
Theorem runner_confined cfg command t r (Hx : exec (executeRunnerCommandForConfig cfg command) t r) :
  Forall (fun ev => match ev with @Event _ R c _ => sys_confined (permitted cfg) R c end) t
  /\ (t = [] \/ accepted cfg command).
Proof.
  split; [eapply exec_only; [apply commands_confined|exact Hx]|]. unfold executeRunnerCommandForConfig in Hx.
  destruct (execute_shape cfg command (Some (canRunHelmInNamespace cfg))) as [(code & text & E)|[Hacc E]]; [|by right].
  rewrite E in Hx. destruct Hx as [-> _]. by left.
Qed.

(** What the calls before a call must have shown. *)
Definition targeted cfg command (na : option (string -> bool)) (h : list (event (run_call Y))) : Prop :=
  exists release namespace,
    h = [Event (BackendTarget (Rc_Environment command) (projectConfigForRunnerCommand command))
           (Ok (release, namespace))]
    /\ denied na namespace = false.
Definition justified cfg command (na : option (string -> bool)) (R : Type) (h : list (event (run_call Y)))
    (c : run_call Y R) : Prop :=
  let e := Rc_Environment command in
  let config := projectConfigForRunnerCommand command in
  let namespace := M_Namespace (E_rest e) in
  match c with
  | BackendApply e' config' =>
      e' = e /\ config' = config /\ Rc_Operation command ∈ ["create"; "recreate"]
      /\ targeted cfg command na h
      /\ runnerHelmChartHostAllowed (helmDirectChartReference e (resolveHelmDirectConfig config))
           (HelmAllowedChartHosts cfg) = true
  | BackendDelete e' config' =>
      e' = e /\ config' = config /\ Rc_Operation command ∈ ["delete"; "force_cleanup"]
      /\ exists h0, h = h0 ++ [Event Capture tt] /\ targeted cfg command na h0
  | BackendStatus e' config' =>
      e' = e /\ config' = config /\ Rc_Operation command = "status" /\ targeted cfg command na h
  | OnNamespace (DeleteNamespace ns) =>
      ns = namespace /\ trim_space ns = "envplane-pr-" +:+ trim_space (E_ID e) /\ trim_space (E_ID e) <> ""
      /\ Rc_Operation command = "cleanup_flux_namespace" /\ denied na ns = false
      /\ h = [Event (OnNamespace (IsNamespaceManaged ns (E_Project e) (E_ID e))) (Ok true); Event Capture tt]
  | OnNamespace (UpgradeInstall _ | Uninstall _ _ | Rollback _ _) => False
  | Restore => h = [] /\ Rc_Operation command = RunnerOperationRestoreMySQL
  | CopyPVC => h = [] /\ Rc_Operation command = RunnerOperationMaterializePVC
  | _ => True
  end.

Lemma with_target_guarded cfg command na r k :
  (forall r h, targeted cfg command na h -> guarded (justified cfg command na) h (k r)) ->
  guarded (justified cfg command na) [] (with_backend_target na command r k).
Proof.
  intros Hk. unfold with_backend_target. split; [exact Logic.I|].
  intros [[release namespace]|err]; cbn [bind]; [|exact Logic.I].
  destruct (denied na namespace) eqn:E; [exact Logic.I|]. apply Hk. by exists release, namespace.
Qed.

Lemma on_commands_guarded {A} (Q : forall R, list (event (run_call Y)) -> run_call Y R -> Prop) (p : prog cmd A) :
  (forall R h (c : cmd R), Q R h (OnCommand c)) -> forall h, guarded Q h (on_commands p).
Proof.
  intros HQ. induction p as [a|R c k IH]; intros h; cbn [on_commands guarded]; [done|].
  split; [apply HQ|]. intros r. apply IH.
Qed.

Lemma cleanup_guarded cfg command na r : Rc_Operation command = "cleanup_flux_namespace" ->
  guarded (justified cfg command na) [] (cleanup_flux_namespace command na r).
Proof.
  intros Hop. unfold cleanup_flux_namespace. cbv zeta. destruct (_ || _) eqn:E; [exact Logic.I|].
  apply orb_false_iff in E as [Hid%str_eq_false Hns%str_ne_false].
  destruct (denied na _) eqn:Ed; [exact Logic.I|]. split; [exact Logic.I|].
  intros [[]|err]; cbn [bind]; [| |exact Logic.I].
  - split; [exact Logic.I|]. intros []. cbn [bind app]. split; [by repeat split|].
    intros [err|]; cbn [bind]; [exact Logic.I|]. split; [exact Logic.I|]. by intros [x|err].
  - split; [exact Logic.I|]. by intros [[]|err].
Qed.

Lemma justified_before cfg command na t r t1 R (c : run_call Y R) x t2
    (Hx : exec (executeRunnerCommandWithNamespaceGuard cfg command na) t r)
    (Ht : t = t1 ++ Event c x :: t2) :
  justified cfg command na R t1 c /\ accepted cfg command.
Proof.
  destruct (execute_shape cfg command na) as [(code & text & E)|[Hacc E]]; rewrite E in Hx.
  { destruct Hx as [-> _]. by destruct t1. }
  split; [|done]. change t1 with ([] ++ t1). eapply guarded_exec; [|exact Hx|exact Ht].
  clear Hx Ht E. unfold execute_operation. cbv zeta.
  destruct (str_eq _ RunnerOperationRestoreMySQL) eqn:E1;
    [apply str_eq_true in E1; split; [done|]; by intros [err|]|].
  destruct (str_eq _ RunnerOperationMaterializePVC) eqn:E2;
    [apply str_eq_true in E2; split; [done|]; by intros [err|]|].
  destruct (str_eq _ "cleanup_flux_namespace") eqn:E3; [apply str_eq_true in E3; by apply cleanup_guarded|].
  destruct (str_eq _ "validate_helm_chart") eqn:E4.
  { apply guarded_bind; [by apply on_commands_guarded|]. intros t0 a _.
    destruct a as [err|]; [by destruct (classifyHelmChartPreflightError err)|done]. }
  destruct (str_eq _ "render_release_plan") eqn:E5.
  { split; [exact Logic.I|]. intros [[release namespace]|err]; cbn [bind]; [|exact Logic.I].
    split; [exact Logic.I|]. intros [l|err]; cbn [bind]; [|exact Logic.I].
    destruct (releasePlanResources _ _ _) as [|[|]]; [exact Logic.I..|]. split; [exact Logic.I|]. intros []. }
  assert (Hor : forall a b : string, str_eq (Rc_Operation command) a || str_eq (Rc_Operation command) b = true ->
                Rc_Operation command ∈ [a; b]).
  { intros a b Hab. rewrite !elem_of_cons. apply orb_true_iff in Hab as [->%str_eq_true| ->%str_eq_true]; auto. }
  destruct (str_eq _ "create" || _) eqn:E6.
  { destruct (negb _) eqn:Eh; [exact Logic.I|]. apply negb_false_iff in Eh. apply with_target_guarded.
    intros r0 h Hh. split; [|by intros [err|]]. apply Hor in E6. by repeat split. }
  destruct (str_eq _ "delete" || _) eqn:E7.
  { apply with_target_guarded. intros r0 h Hh. split; [exact Logic.I|]. intros []. cbn [bind].
    split; [|by intros [err|]]. apply Hor in E7. repeat (split; [done|]). by exists h. }
  destruct (str_eq _ "status") eqn:E8; [|exact Logic.I]. apply str_eq_true in E8.
  apply with_target_guarded. intros r0 h Hh. split; [by repeat split|]. by intros [status|err].
Qed.

(** C29: Every call that changes something is justified by the calls before it:
    the backend applies, deletes or observes exactly the command's environment, for
    an operation that asks for it, directly after its target was resolved and is
    allowed (and, before a deletion, the storage was captured); an apply needs a
    chart host of the allowlist too; and a namespace is deleted directly only for
    the Flux cleanup of the environment's dedicated preview namespace, after it was
    seen to be owned. *)
Theorem calls_justified cfg command na t r t1 R (c : run_call Y R) x t2
    (Hx : exec (executeRunnerCommandWithNamespaceGuard cfg command na) t r)
    (Ht : t = t1 ++ Event c x :: t2) :
  justified cfg command na R t1 c /\ accepted cfg command.
Proof.
  exact (justified_before cfg command na t r t1 R c x t2 Hx Ht).
Qed.

(** What a result may say. *)
Definition consistent (r : RunnerCommandResult) : Prop :=
  (Re_Status r = "failed" /\ Re_CleanupVerified r = false /\ Re_MySQLRestoreVerified r = false
   /\ Re_PVCCopyVerified r = false /\ Re_EnvironmentStatus r = "" /\ Re_RenderedResources r = [])
  \/ (Re_Status r = "succeeded" /\ Re_Error r = "" /\ Re_ErrorCode r = "").

(** A result of the command that is still the first one but for its target and
    its texts. *)
Definition unfinished command (r : RunnerCommandResult) : Prop :=
  Re_Status r = "failed" /\ Re_CleanupVerified r = false /\ Re_MySQLRestoreVerified r = false
  /\ Re_PVCCopyVerified r = false /\ Re_EnvironmentStatus r = "" /\ Re_RenderedResources r = []
  /\ Re_CommandID r = Rc_ID command /\ Re_Error r = "" /\ Re_ErrorCode r = "".
Definition reported command (r : RunnerCommandResult) : Prop :=
  consistent r /\ Re_CommandID r = Rc_ID command
  /\ (Re_MySQLRestoreVerified r = true -> Rc_Operation command = RunnerOperationRestoreMySQL
      /\ Re_MySQLRestorePlanDigest r = plan_digest mysql_plan_digest (Rc_MySQLRestorePlan command))
  /\ (Re_PVCCopyVerified r = true -> Rc_Operation command = RunnerOperationMaterializePVC
      /\ Re_PVCCopyPlanDigest r = plan_digest pvc_plan_digest (Rc_PVCCopyPlan command)).

Lemma unfinished_error command r code text : unfinished command r -> reported command (with_error r code text).
Proof.
  intros (H1' & H2' & H3' & H4' & H5' & H6' & H7' & H8' & H9'). unfold reported, consistent. cbn.
  rewrite H3', H4'. by repeat split; try left.
Qed.
Lemma unfinished_target command r release namespace : unfinished command r -> unfinished command (with_target r release namespace).
Proof. done. Qed.
Lemma unfinished_cleanup command r status verified : unfinished command r ->
  reported command (succeeded (with_cleanup r status verified)).
Proof.
  intros (H1' & H2' & H3' & H4' & H5' & H6' & H7' & H8' & H9'). unfold reported, consistent. cbn.
  rewrite H3', H4'. by repeat split; try right.
Qed.
Lemma unfinished_succeeded command r : unfinished command r -> reported command (succeeded r).
Proof.
  intros (H1' & H2' & H3' & H4' & H5' & H6' & H7' & H8' & H9'). unfold reported, consistent. cbn.
  rewrite H3', H4'. by repeat split; try right.
Qed.
Lemma finish_reported command r err : unfinished command r -> returns (reported command) (finish (Y := Y) r err).
Proof. intros Hr. destruct err; [by apply unfinished_error|by apply unfinished_succeeded]. Qed.
Lemma finish_cleanup command r status verified : unfinished command r ->
  returns (reported command) (finish (Y := Y) (with_cleanup r status verified) None).
Proof. apply unfinished_cleanup. Qed.

Lemma with_target_reported command na r k :
  (forall r, unfinished command r -> returns (reported command) (k r)) -> unfinished command r ->
  returns (reported command) (with_backend_target na command r k).
Proof.
  intros Hk Hr. unfold with_backend_target. apply returns_bind. intros [[release namespace]|err].
  - destruct (denied na namespace); [by apply unfinished_error|by apply Hk].
  - by apply unfinished_error.
Qed.

Lemma cleanup_reported command na r : unfinished command r -> returns (reported command) (cleanup_flux_namespace command na r).
Proof.
  intros Hr. unfold cleanup_flux_namespace. cbv zeta. destruct (_ || _); [by apply unfinished_error|].
  destruct (denied na _); [by apply unfinished_error|].
  apply returns_bind. intros [[]|err]; [| |by apply unfinished_error].
  - apply returns_bind. intros _. apply returns_bind. intros [err|]; [by apply unfinished_error|].
    apply returns_bind. intros [x|err]; [by apply finish_cleanup|by apply unfinished_error].
  - apply returns_bind. intros [[]|err]; [by apply unfinished_error|by apply finish_cleanup|by apply unfinished_error].
Qed.

Lemma render_reported command r : unfinished command r -> returns (reported command) (render_release_plan command r).
Proof.
  intros Hr. unfold render_release_plan. cbv zeta. set (r' := set_copies r _ _ _ _ _ _).
  assert (Hr' : unfinished command r') by done. clearbody r'.
  apply returns_bind. intros [[release namespace]|err]; [|by apply unfinished_error].
  apply returns_bind. intros [l|err]; [|by apply unfinished_error].
  destruct (releasePlanResources _ _ _) as [resources|[err|]]; [|by apply unfinished_error|by intros []].
  destruct Hr' as (H1' & H2' & H3' & H4' & H5' & H6' & H7' & H8' & H9'). unfold reported, consistent. cbn.
  rewrite H3', H4'. by repeat split; try right.
Qed.

Lemma operation_reported cfg command na r : unfinished command r ->
  returns (reported command) (execute_operation cfg command na r).
Proof.
  intros Hr. unfold execute_operation. cbv zeta.
  destruct (str_eq _ RunnerOperationRestoreMySQL) eqn:E1.
  { apply str_eq_true in E1. apply returns_bind. intros [err|]; [by apply unfinished_error|].
    destruct Hr as (H1' & H2' & H3' & H4' & H5' & H6' & H7' & H8' & H9'). unfold finish, reported, consistent. cbn.
    rewrite H4'. by repeat split; try right. }
  destruct (str_eq _ RunnerOperationMaterializePVC) eqn:E2.
  { apply str_eq_true in E2. apply returns_bind. intros [err|]; [by apply unfinished_error|].
    destruct Hr as (H1' & H2' & H3' & H4' & H5' & H6' & H7' & H8' & H9'). unfold finish, reported, consistent. cbn.
    rewrite H3'. by repeat split; try right. }
  destruct (str_eq _ "cleanup_flux_namespace"); [by apply cleanup_reported|].
  destruct (str_eq _ "validate_helm_chart").
  { apply returns_bind. intros [err|]; [|by apply unfinished_succeeded].
    destruct (classifyHelmChartPreflightError err). by apply unfinished_error. }
  destruct (str_eq _ "render_release_plan"); [by apply render_reported|].
  destruct (str_eq _ "create" || _).
  { destruct (negb _); [by apply unfinished_error|]. apply with_target_reported; [|done]. intros r0 H0'.
    apply returns_bind. intros x. by apply finish_reported. }
  destruct (str_eq _ "delete" || _).
  { apply with_target_reported; [|done]. intros r0 H0'. apply returns_bind. intros _. apply returns_bind.
    intros [err|]; [by apply finish_reported|by apply finish_cleanup]. }
  destruct (str_eq _ "status"); [|by apply unfinished_error].
  apply with_target_reported; [|done]. intros r0 H0'. apply returns_bind.
  intros [status|err]; [by apply finish_cleanup|by apply finish_reported].
Qed.

(** A result is a failure that verifies nothing, reports no status of the
    environment and carries no resource, or a success without an error; it answers
    the command it is for; and it says that a copy was verified only for that copy's
    operation, after the copy succeeded, with the digest of the command's plan. *)
Theorem result_consistent cfg command na t r
    (Hx : exec (executeRunnerCommandWithNamespaceGuard cfg command na) t r) :
  reported command r
  /\ (Re_MySQLRestoreVerified r = true -> t = [Event Restore None])
  /\ (NoDup case_names -> Re_PVCCopyVerified r = true -> t = [Event CopyPVC None]).
Proof.
  destruct (execute_shape cfg command na) as [(code & text & E)|[Hacc E]]; rewrite E in Hx.
  { destruct Hx as [-> ->]. split; [by apply unfinished_error|]. by split. }
  pose proof (returns_exec _ _ _ _ (operation_reported cfg command na (first_result command) ltac:(done)) Hx) as Hrep.
  split; [done|]. destruct Hrep as (_ & _ & Hsql & Hpvc). split.
  - intros Hv. destruct (Hsql Hv) as [Hop _]. unfold execute_operation in Hx. cbv zeta in Hx.
    rewrite (proj2 (str_eq_true _ _) Hop) in Hx. apply exec_bind_call in Hx as ([err|] & t' & -> & [-> ->]); done.
  - intros Hnd Hv. destruct (Hpvc Hv) as [Hop _]. unfold execute_operation in Hx. cbv zeta in Hx.
    assert (Hne : str_eq (Rc_Operation command) RunnerOperationRestoreMySQL = false).
    { apply str_eq_false. rewrite Hop. inversion Hnd as [|? ? Hni _]; subst. intros Heq. apply Hni. rewrite <- Heq. left. }
    rewrite Hne, (proj2 (str_eq_true _ _) Hop) in Hx. apply exec_bind_call in Hx as ([err|] & t' & -> & [-> ->]); done.
Qed.

(** The branch of the switch for the operations that clean up. *)
Lemma case_other op : NoDup case_names -> op ∈ ["cleanup_flux_namespace"; "delete"; "force_cleanup"] ->
  str_eq op RunnerOperationRestoreMySQL = false /\ str_eq op RunnerOperationMaterializePVC = false.
Proof.
  intros Hnd Hin. apply NoDup_cons in Hnd as [H1' Hnd]. apply NoDup_cons in Hnd as [H2' _].
  rewrite !elem_of_cons, elem_of_nil in Hin.
  split; apply str_eq_false; intros E; [apply H1'|apply H2']; rewrite <- E;
    rewrite !elem_of_cons; naive_solver.
Qed.

Lemma cleanup_operation cfg command na r : NoDup case_names -> Rc_Operation command = "cleanup_flux_namespace" ->
  execute_operation cfg command na r = cleanup_flux_namespace command na r.
Proof.
  intros Hnd Hop. unfold execute_operation. cbv zeta.
  destruct (case_other (Rc_Operation command) Hnd) as [-> ->]; [rewrite Hop; left|]. by rewrite Hop.
Qed.
Definition delete_operation command na r : prog (run_call Y) RunnerCommandResult :=
  with_backend_target na command r (fun r =>
    _ <-- call Capture;;
    x <-- call (BackendDelete (Rc_Environment command) (projectConfigForRunnerCommand command));;
    match x with
    | None => finish (with_cleanup r StatusTerminated true) None
    | Some err => finish r (Some err)
    end).
Lemma delete_operation_eq cfg command na r : NoDup case_names -> Rc_Operation command ∈ ["delete"; "force_cleanup"] ->
  execute_operation cfg command na r = delete_operation command na r.
Proof.
  intros Hnd Hop. unfold execute_operation. cbv zeta.
  destruct (case_other (Rc_Operation command) Hnd) as [-> ->]; [by right|].
  rewrite !elem_of_cons, elem_of_nil in Hop. by destruct Hop as [-> |[-> |[]]].
Qed.

(** The observation that a namespace is absent. *)
Definition absent (ev : event (run_call Y)) : option unit :=
  match ev with @Event _ R c x => match c in run_call _ R return R -> option unit with
    | OnNamespace op => match op in helm_op R return R -> option unit with
                        | NamespaceExists _ => fun x => match x with Ok false => Some tt | _ => None end
                        | _ => fun _ => None end
    | _ => fun _ => None end x end.

(** The Flux cleanup certifies what it observed: it reports the cleanup as
    verified, and the environment as terminated, exactly if the last thing it did
    was to see that the namespace is absent. *)
Theorem flux_cleanup_observed cfg command na t r (Hnd : NoDup case_names)
    (Hop : Rc_Operation command = "cleanup_flux_namespace")
    (Hx : exec (executeRunnerCommandWithNamespaceGuard cfg command na) t r) :
  Re_CleanupVerified r = true <->
  exists t0, t = t0 ++ [Event (OnNamespace (NamespaceExists (M_Namespace (E_rest (Rc_Environment command))))) (Ok false)].
Proof.
  set (ns := M_Namespace (E_rest (Rc_Environment command))).
  destruct (execute_shape cfg command na) as [(code & text & E)|[_ E]]; rewrite E in Hx.
  { destruct Hx as [-> ->]. split; [done|]. intros (t0 & Ht). by destruct t0. }
  rewrite (cleanup_operation _ _ _ _ Hnd Hop) in Hx. unfold cleanup_flux_namespace in Hx. cbv zeta in Hx. fold ns in Hx.
  assert (Hno : forall t0 (r0 : RunnerCommandResult), Re_CleanupVerified r0 = false -> omap absent t0 = [] ->
    Re_CleanupVerified r0 = true <-> exists t1, t0 = t1 ++ [Event (OnNamespace (NamespaceExists ns)) (Ok false)]).
  { intros t0 r0 Hf Ht. rewrite Hf. split; [done|]. intros (t1 & ->). rewrite omap_app in Ht.
    by apply app_nil in Ht as [_ [=]]. }
  destruct (_ || _); [destruct Hx as [-> ->]; by apply Hno|].
  destruct (denied na ns); [destruct Hx as [-> ->]; by apply Hno|].
  apply exec_bind_call in Hx as ([[]|err] & t1 & -> & Hx); [| |destruct Hx as [-> ->]; by apply Hno].
  - apply exec_bind_call in Hx as ([] & t2 & -> & Hx). apply exec_bind_call in Hx as ([err|] & t3 & -> & Hx);
      [destruct Hx as [-> ->]; by apply Hno|].
    apply exec_bind_call in Hx as ([[]|err] & t4 & -> & [-> ->]); [by apply Hno| |by apply Hno].
    split; [|done]. intros _. by eexists [_; _; _].
  - apply exec_bind_call in Hx as ([[]|err] & t2 & -> & [-> ->]); [by apply Hno| |by apply Hno].
    split; [|done]. intros _. by eexists [_].
Qed.

(** The outcome of a deletion by the backend. *)
Definition deleted (ev : event (run_call Y)) : option (option go_error) :=
  match ev with @Event _ R c x => match c in run_call _ R return R -> option (option go_error) with
    | BackendDelete _ _ => fun x => Some x
    | _ => fun _ => None end x end.

(** The deletion of an environment certifies what it did not observe: a
    successful deletion by the backend, which asks for the removal of the namespace
    without waiting, is reported as a verified cleanup of a terminated environment,
    and nothing is read after it. *)
Theorem delete_certifies_unobserved cfg command na t r (Hnd : NoDup case_names)
    (Hop : Rc_Operation command ∈ ["delete"; "force_cleanup"])
    (Hx : exec (executeRunnerCommandWithNamespaceGuard cfg command na) t r) :
  Re_CleanupVerified r = true <->
  exists target, t =
    [Event (BackendTarget (Rc_Environment command) (projectConfigForRunnerCommand command)) (Ok target);
     Event Capture tt;
     Event (BackendDelete (Rc_Environment command) (projectConfigForRunnerCommand command)) None].
Proof.
  destruct (execute_shape cfg command na) as [(code & text & E)|[_ E]]; rewrite E in Hx.
  { destruct Hx as [-> ->]. split; [done|]. intros (target & Ht). by apply (f_equal length) in Ht. }
  rewrite (delete_operation_eq _ _ _ _ Hnd Hop) in Hx. unfold delete_operation, with_backend_target in Hx.
  apply exec_bind_call in Hx as ([[release namespace]|err] & t1 & -> & Hx).
  2:{ destruct Hx as [-> ->]. split; [done|]. intros (target & Ht). by apply (f_equal length) in Ht. }
  destruct (denied na namespace).
  { destruct Hx as [-> ->]. split; [done|]. intros (target & Ht). by apply (f_equal length) in Ht. }
  apply exec_bind_call in Hx as ([] & t2 & -> & Hx). apply exec_bind_call in Hx as ([err|] & t3 & -> & [-> ->]).
  - split; [done|]. intros (target & Ht). exfalso.
    apply (f_equal (omap deleted)) in Ht. discriminate Ht.
  - split; [|done]. intros _. by exists (release, namespace).
Qed.

Lemma accepted_executes cfg command na : accepted cfg command ->
  executeRunnerCommandWithNamespaceGuard cfg command na = execute_operation cfg command na (first_result command).
Proof.
  intros (Hp & Hs & Hc & Hi). unfold executeRunnerCommandWithNamespaceGuard. cbv zeta. rewrite Hp, Hs, Hc.
  destruct (_ && _) eqn:E; [|done]. apply andb_true_iff in E as [Eo El].
  rewrite Hi; [done| |by destruct (Rc_CleanupInventory command)].
  rewrite !elem_of_cons. apply orb_true_iff in Eo as [->%str_eq_true| ->%str_eq_true]; auto.
Qed.

(** A runner without the helm executable certifies deletions: for an accepted
    command that deletes an environment of a shared namespace, the only command is
    the one that fails because helm cannot be found, and the result is a success
    with a verified cleanup of a terminated environment. *)
Theorem delete_certified_without_helm cfg command release namespace err
    (Hnd : NoDup case_names) (Hacc : accepted cfg command)
    (Hop : Rc_Operation command ∈ ["delete"; "force_cleanup"])
    (Htarget : DeploymentTarget (Rc_Environment command) (projectConfigForRunnerCommand command) = Ok (release, namespace))
    (Hns : canRunHelmInNamespace cfg namespace = true)
    (Hshared : equal_fold (trim_space (namespaceMode (resolveHelmDirectConfig (projectConfigForRunnerCommand command))))
                 "shared" = true)
    (Hnf : ge_not_found err = true) (Htext : mentions (ge_text err) "not found" = true) :
  let r := succeeded (with_cleanup (with_target (first_result command) release namespace) StatusTerminated true) in
  exec (executeRunnerCommandForConfig cfg command)
    [Event SysCapture tt;
     Event (SysCommand (RunCommand "helm" ["uninstall"; release; "--namespace"; namespace])) ([], Some err)] r
  /\ Re_Status r = "succeeded" /\ Re_CleanupVerified r = true /\ Re_EnvironmentStatus r = StatusTerminated.
Proof.
  cbv zeta. split; [|done]. unfold executeRunnerCommandForConfig.
  rewrite accepted_executes, delete_operation_eq by done. unfold delete_operation, with_backend_target.
  cbn [call bind handle runner_sys]. rewrite Htarget. cbn [denied]. rewrite Hns. cbn [negb].
  cbn [call bind handle runner_sys]. exists tt, [Event (SysCommand (RunCommand "helm" ["uninstall"; release; "--namespace"; namespace])) ([], Some err)].
  split; [done|]. cbn [bind handle runner_sys].
  pose proof (target_parts _ _ _ _ Htarget) as [Hr Hn]. rewrite exec_bind.
  exists [Event (SysCommand (RunCommand "helm" ["uninstall"; release; "--namespace"; namespace])) ([], Some err)], [], None.
  split; [done|]. split; [|done]. apply handle_handle.
  pose proof (Delete_without_helm (Rc_Environment command) (projectConfigForRunnerCommand command) release err
    Hr Hshared Hnf Htext) as Hd.
  rewrite Hn in Hd. exact (exec_rename (fun R (c : cmd R) => SysCommand c) _ _ _ Hd).
Qed.
End DispatchProperties.

(** ** Witnesses *)

#[local] Existing Instances sample_hash simple_url sample_quote sample_kube sample_refs sample_templates sample_statuses
  sample_contracts sample_codec.
Definition sample_env_files : EnvFiles unit := {|
  ManifestFilename e := E_ID e +:+ ".yaml"; NamespaceManifestFilename e := E_ID e +:+ "-namespace.yaml";
  PathKustomizationFilename _ := "kustomization.yaml"; GitOpsDirectory e := "environments/" +:+ E_ID e |}.
Definition sample_yaml : ManifestYaml := fun _ => Ok (chars "HelmDirect").
#[local] Existing Instances sample_env_files sample_yaml.

Lemma sample_names : NoDup case_names.
Proof. apply (bool_decide_unpack _). vm_compute. exact I. Qed.
Lemma sample_accepted op : op ∈ planned_operations -> accepted sample_config (sample_command op shared_config).
Proof.
  intros Hop. unfold planned_operations in Hop. rewrite !elem_of_cons, elem_of_nil in Hop. unfold accepted.
  destruct Hop as [-> |[-> |[-> |[-> |[-> |[]]]]]]; (split; [vm_compute; reflexivity|]; split; [reflexivity|];
    split; [vm_compute; reflexivity|]; by intros _ []).
Qed.

(** Commands that succeed; nothing answers a crash. *)
Definition sample_sys (R : Type) (h : list (event sys)) (c : sys R) : option R :=
  match c in sys R return option R with
  | SysCommand c => Some (sample_cmds _ [] c)
  | TempValues _ => Some (Ok "/tmp/values.yaml")
  | RemoveTemp _ => Some tt
  | SysRestore => Some None
  | SysCopyPVC => Some None
  | SysCapture => Some tt
  | SysCrash => None
  end.
Definition sample_execution (op : string) :=
  try_run sample_sys [] (executeRunnerCommandForConfig sample_config (sample_command op [])).

Lemma runner_confined_witness : exists t r,
  sample_execution "delete" = Some (t, r) /\ (4 <= length t)%nat
  /\ Forall (fun ev => match ev with @Event _ R c _ => sys_confined (permitted sample_config) R c end) t.
Proof.
  destruct (sample_execution "delete") as [[t r]|] eqn:E; [|vm_compute in E; discriminate E].
  exists t, r. split; [done|]. split; [vm_compute in E; injection E as <- _; vm_compute; lia|].
  exact (proj1 (runner_confined sample_config (sample_command "delete" []) t r (try_run_exec _ _ _ _ _ E))).
Defined.

(** The calls of an operation, all successful; the namespace is gone. *)
Definition sample_calls (R : Type) (h : list (event (run_call unit))) (c : run_call unit R) : option R :=
  match c in run_call _ R return option R with
  | Restore => Some None
  | CopyPVC => Some None
  | OnNamespace op => Some (sample_helm _ [] op)
  | Capture => Some tt
  | OnCommand c => Some (sample_cmds _ [] c)
  | BackendTarget _ _ => Some (Ok ("shop-7", "envplane-pr-7"))
  | BackendRender _ _ => Some (Ok [sample_manifest "HelmDirect"])
  | BackendApply _ _ => Some None
  | BackendDelete _ _ => Some None
  | BackendStatus _ _ => Some (Ok "ready")
  | Crash => None
  end.
Definition sample_dispatch (op : string) :=
  try_run sample_calls [] (executeRunnerCommandWithNamespaceGuard sample_config (sample_command op [])
                             (Some (canRunHelmInNamespace sample_config))).

Lemma calls_justified_witness :
  justified sample_config (sample_command "create" []) (Some (canRunHelmInNamespace sample_config)) _
    [Event (BackendTarget sample_env []) (Ok ("shop-7", "envplane-pr-7"))] (BackendApply sample_env []).
Proof.
  assert (E : exists r, sample_dispatch "create" = Some
    ([Event (BackendTarget sample_env []) (Ok ("shop-7", "envplane-pr-7")); Event (BackendApply sample_env []) None], r))
    by (eexists; vm_compute; reflexivity).
  destruct E as [r E].
  exact (proj1 (calls_justified sample_config (sample_command "create" []) _ _ r
    [Event (BackendTarget sample_env []) (Ok ("shop-7", "envplane-pr-7"))] _ (BackendApply sample_env []) None []
    (try_run_exec _ _ _ _ _ E) eq_refl)).
Defined.

Lemma result_consistent_witness : exists t r, sample_dispatch "restore_mysql" = Some (t, r)
  /\ Re_MySQLRestoreVerified r = true /\ t = [Event Restore None].
Proof.
  destruct (sample_dispatch "restore_mysql") as [[t r]|] eqn:E; [|vm_compute in E; discriminate E].
  exists t, r. split; [done|]. assert (Hv : Re_MySQLRestoreVerified r = true).
  { vm_compute in E. by injection E as _ <-. }
  split; [exact Hv|].
  exact (proj1 (proj2 (result_consistent sample_config (sample_command "restore_mysql" []) _ t r (try_run_exec _ _ _ _ _ E))) Hv).
Defined.

Lemma flux_cleanup_observed_witness : exists t r, sample_dispatch "cleanup_flux_namespace" = Some (t, r)
  /\ Re_CleanupVerified r = true
  /\ exists t0, t = t0 ++ [Event (OnNamespace (NamespaceExists "envplane-pr-7")) (Ok false)].
Proof.
  destruct (sample_dispatch "cleanup_flux_namespace") as [[t r]|] eqn:E; [|vm_compute in E; discriminate E].
  exists t, r. split; [done|]. assert (Hv : Re_CleanupVerified r = true).
  { vm_compute in E. by injection E as _ <-. }
  split; [exact Hv|].
  exact (proj1 (flux_cleanup_observed sample_config (sample_command "cleanup_flux_namespace" []) _ t r sample_names
    eq_refl (try_run_exec _ _ _ _ _ E)) Hv).
Defined.

Lemma delete_certifies_unobserved_witness : exists t r, sample_dispatch "delete" = Some (t, r)
  /\ Re_CleanupVerified r = true /\ length t = 3%nat.
Proof.
  destruct (sample_dispatch "delete") as [[t r]|] eqn:E; [|vm_compute in E; discriminate E].
  exists t, r. split; [done|]. assert (Hv : Re_CleanupVerified r = true).
  { vm_compute in E. by injection E as _ <-. }
  split; [exact Hv|].
  destruct (proj1 (delete_certifies_unobserved sample_config (sample_command "delete" []) _ t r sample_names
    ltac:(left) (try_run_exec _ _ _ _ _ E)) Hv) as (target & ->). done.
Defined.

Lemma delete_certified_without_helm_witness : exists r,
  exec (executeRunnerCommandForConfig sample_config (sample_command "delete" shared_config))
    [Event SysCapture tt;
     Event (SysCommand (RunCommand "helm" ["uninstall"; "shop-7"; "--namespace"; "envplane-pr-7"])) ([], Some no_helm)] r
  /\ Re_CleanupVerified r = true.
Proof.
  assert (H1 : DeploymentTarget sample_env shared_config = Ok ("shop-7", "envplane-pr-7")) by (vm_compute; reflexivity).
  assert (H2 : canRunHelmInNamespace sample_config "envplane-pr-7" = true) by (vm_compute; reflexivity).
  assert (H3 : equal_fold (trim_space (namespaceMode (resolveHelmDirectConfig shared_config))) "shared" = true)
    by (vm_compute; reflexivity).
  assert (H4 : mentions (ge_text no_helm) "not found" = true) by (vm_compute; reflexivity).
  destruct (delete_certified_without_helm sample_config (sample_command "delete" shared_config) "shop-7" "envplane-pr-7"
    no_helm sample_names (sample_accepted "delete" ltac:(apply mem_str; reflexivity)) ltac:(left) H1 H2 H3 eq_refl H4)
    as (Hx & _ & Hv & _).
  eexists. split; [exact Hx|exact Hv].
Defined.
