(* ===== verification/RunnerProtocol.v ===== *)
(** * The runner and its control plane

    [internal/runner/runtime.go]: the answers of the control plane and the
    errors they become, the polling for commands, the registration, the
    heartbeat, and the two loops that share the runtime's state. *)

From stdpp Require Import base list gmap strings pretty.
From Stdlib Require Import ZArith Lia Ascii String.
From S2P Require Import Prelude GoStrings GoPath EnvStore OrchTypes HelmValues HelmCli HelmDirect.
From S2P Require Import RunnerConfig RunnerCommand RunnerDispatch.

Local Open Scope string_scope.
Local Open Scope Z_scope.
Local Open Scope list_scope.

(** ** Errors *)

(** [runnerAPIError] *)
Record runnerAPIError := { Ae_Status : Z; Ae_Code : string; Ae_Detail : string; Ae_Recovery : string }.
(** The error types of the runtime, and any other error. *)
Inductive run_error : Type :=
| EndpointMissing (detail : string)
| Compatibility (detail : string)
| VersionProbe (detail : string)
| Authentication (detail : string)
| Transport (cause : go_error)
| Api (e : runnerAPIError)
| OtherError (e : go_error).

(** The methods [Error]. *)
Definition api_text (e : runnerAPIError) : string :=
  if str_ne (Ae_Code e) ""
  then "runner API request failed: status=" +:+ pretty (Ae_Status e) +:+ " code=" +:+ Ae_Code e
       +:+ " detail=" +:+ Ae_Detail e
  else "runner API request failed: status=" +:+ pretty (Ae_Status e) +:+ " detail=" +:+ Ae_Detail e.
Definition error_text (e : run_error) : string :=
  match e with
  | EndpointMissing detail => "command polling endpoint is missing: " +:+ detail
  | Compatibility detail => "command polling API compatibility failure: " +:+ detail
  | VersionProbe detail => "command polling API version probe failed: " +:+ detail
  | Authentication detail => "command polling authentication failure: " +:+ detail
  | Transport cause => "command polling transport failure: " +:+ ge_text cause
  | Api e => api_text e
  | OtherError e => ge_text e
  end.

Definition isRunnerCommandAPIIncompatible (e : run_error) : bool :=
  match e with EndpointMissing _ | Compatibility _ => true | _ => false end.
Definition isRunnerCommandAuthenticationError (e : run_error) : bool :=
  match e with Authentication _ => true | _ => false end.
Definition isRunnerCommandTransportError (e : run_error) : bool :=
  match e with Transport _ => true | _ => false end.

Definition stale_codes : list string :=
  ["bootstrap_session_not_found"; "stale_runner_bootstrap_identity"; "runner_bootstrap_credential_expired"].
Definition stale_text (s : string) : bool :=
  contains (to_lower s) "bootstrap session not found"
  || contains (to_lower s) "runner bootstrap credentials have expired".
(** [isRunnerStaleBootstrapIdentityError] *)
Definition isRunnerStaleBootstrapIdentityError (e : run_error) : bool :=
  match e with
  | Api a => existsb (str_eq (Ae_Code a)) stale_codes
  | e => stale_text (error_text e)
  end.
Definition reissued_codes : list string := ["fixture_identity_reissued"; "same_cluster_identity_reissued"].
(** [isRunnerRuntimeIdentityReissuedError] *)
Definition isRunnerRuntimeIdentityReissuedError (e : run_error) : bool :=
  match e with
  | Api a => existsb (str_eq (Ae_Code a)) reissued_codes
  | e => existsb (contains (to_lower (error_text e))) reissued_codes
  end.
(** [isRunnerRuntimeAuthRecoveryDetail] *)
Definition isRunnerRuntimeAuthRecoveryDetail (detail : string) : bool :=
  let detail := to_lower detail in
  contains detail "token is not issued" || contains detail "invalid runner auth token"
  || contains detail "missing runtime auth credential".
(** [isRunnerAuthTokenNotIssuedError] *)
Definition isRunnerAuthTokenNotIssuedError (e : run_error) : bool :=
  match e with
  | Api a => if negb (Ae_Status a =? 401) then false else isRunnerRuntimeAuthRecoveryDetail (Ae_Detail a)
  | Authentication _ => false
  | e =>
      let message := to_lower (error_text e) in
      contains message "401" && isRunnerRuntimeAuthRecoveryDetail message
  end.

(** ** Answers *)

Record response := { Rs_Status : Z; Rs_Version : string; Rs_Body : bytes }.
Definition runnerCommandAPIVersion : string := "1".
(** What an [io.LimitReader] lets through. *)
Definition limit (n : Z) (l : bytes) : bytes :=
  if Z.of_nat (List.length l) <=? n then l else firstn (Z.to_nat n) l.

(** encoding/json: the code and recovery of an error body, if it is JSON; the
    code, error and recovery of whatever of it decodes; the token of a
    registration; what keeps a body from being an object, its end before any value
    apart; and the escapes of [net/url]. *)
Class RunnerJson (K : Type) := {
  parse_identity_error : bytes -> option (string * string);
  parse_error_body : bytes -> string * string * string;
  parse_command : bytes -> result go_error K;
  parse_registration : bytes -> result go_error string;
  parse_object : bytes -> option go_error;
  query_escape : string -> string;
  path_escape : string -> string }.

Section Answers.
Context {K : Type} `{RunnerJson K} `{Quote}.

(** [validateRunnerCommandAPIResponse] *)
Definition validateRunnerCommandAPIResponse (r : response) : option run_error :=
  let version := trim_space (Rs_Version r) in
  if str_ne version runnerCommandAPIVersion
  then Some (Compatibility ("expected response header X-EnvPlane-Runner-Command-API-Version="
         +:+ quote runnerCommandAPIVersion +:+ ", got " +:+ quote version))
  else None.
(** [runnerBootstrapIdentityErrorBody] *)
Definition runnerBootstrapIdentityErrorBody (body : bytes) : option (string * string) :=
  let by_text := if contains (to_lower (text body)) "bootstrap session not found"
                 then Some ("bootstrap_session_not_found", "") else None in
  match parse_identity_error body with
  | Some (code, recovery) =>
      if existsb (str_eq (trim_space code)) stale_codes then Some (trim_space code, trim_space recovery) else by_text
  | None => by_text
  end.
(** [nextRunnerCommand], from the response on; the body of an error is read up
    to 4096 bytes, that of a command up to 2 MiB. *)
Definition next_answer (r : response) : result run_error (option K) :=
  if Rs_Status r =? 204 then
    match validateRunnerCommandAPIResponse r with
    | Some err => Err (VersionProbe (error_text err))
    | None => Ok None
    end
  else if negb (Rs_Status r =? 200) then
    let body := limit 4096 (Rs_Body r) in
    let detail := "status=" +:+ pretty (Rs_Status r) +:+ " body=" +:+ trim_space (text body) in
    match runnerBootstrapIdentityErrorBody body with
    | Some (code, recovery) =>
        Err (Api {| Ae_Status := Rs_Status r; Ae_Code := code; Ae_Detail := detail; Ae_Recovery := recovery |})
    | None =>
        if Rs_Status r =? 404 then Err (EndpointMissing detail)
        else if (Rs_Status r =? 401) || (Rs_Status r =? 403) then
          if (Rs_Status r =? 401) && isRunnerRuntimeAuthRecoveryDetail (text body)
          then Err (Api {| Ae_Status := Rs_Status r; Ae_Code := "runner_auth_token_not_issued";
                           Ae_Detail := detail; Ae_Recovery := "" |})
          else Err (Authentication detail)
        else if Rs_Status r =? 426 then Err (Compatibility detail)
        else Err (OtherError (errorf ("runner command poll response status=" +:+ pretty (Rs_Status r)
                                      +:+ " body=" +:+ trim_space (text body))))
    end
  else
    match validateRunnerCommandAPIResponse r with
    | Some err => Err err
    | None =>
        match parse_command (limit 2097152 (Rs_Body r)) with
        | Err err => Err (OtherError err)
        | Ok command => Ok (Some command)
        end
    end.

(** [runnerPostJSONWithHeaders], from the response on: the body of a success, up to 1 MiB. *)
Definition post_answer (r : response) : result run_error bytes :=
  if (Rs_Status r <? 200) || (300 <=? Rs_Status r) then
    let body := limit 4096 (Rs_Body r) in
    let '(code, error, recovery) := parse_error_body body in
    let detail := if str_eq (trim_space error) "" then trim_space (text body) else trim_space error in
    if existsb (str_eq code) stale_codes || stale_text detail then
      let c := if str_eq (trim_space code) "" then "bootstrap_session_not_found" else trim_space code in
      Err (Api {| Ae_Status := Rs_Status r; Ae_Code := c; Ae_Detail := detail; Ae_Recovery := recovery |})
    else Err (Api {| Ae_Status := Rs_Status r; Ae_Code := trim_space code; Ae_Detail := detail;
                     Ae_Recovery := trim_space recovery |})
  else Ok (limit 1048576 (Rs_Body r)).
End Answers.

(** ** Requests *)

(** What the runner posts; the result of a command with the identities it is
    sent with. *)
Inductive payload : Type :=
| RegistrationRequest (projectID clusterID runnerID deploymentMode namespace token version : string)
| HeartbeatRequest (status error preflight : string)
| LeaseRequest
| ProjectConfigRequest (clusterID runnerID namespace deploymentMode : string)
| ResultRequest (result : RunnerCommandResult) (projectID clusterID runnerID token attemptID : string)
    (generation : Z) (identityIssuedAt : option Z).

(** A request: building it fails, sending it fails, or there is an answer. *)
Inductive sent : Type :=
| NotBuilt (err : go_error)
| NotSent (err : go_error)
| Answered (r : response).

Section Protocol.
Context {P Y X I M V C : Type} `{Contracts Y X I M V C} `{Sha256} `{Quote}.
Notation command := (RunnerCommand Y X I M V C).
Context `{RunnerJson command}.
Implicit Types cfg : runnerConfig P.

(** The calls of both loops: the atomic fields of [runnerRuntimeState] and
    [runnerHealth], the network, the files of the tokens, the execution of a
    command, and the pause before a poll, after which the context may be done. *)
Inductive shared : Type -> Type :=
| LoadStatus : shared string
| LoadError : shared string
| LoadStale : shared bool
| SwapRecovery : shared bool
| StoreStatus (s : string) : shared unit
| StoreError (s : string) : shared unit
| StoreStale : shared unit
| StoreRecovery : shared unit
| StoreOnline (b : bool) : shared unit
| StoreDegraded (b : bool) : shared unit
| StoreHealthStale : shared unit
| Get (endpoint token : string) : shared sent
| Post (endpoint token : string) (body : payload) : shared sent
| Preflight : shared string
| OnFiles {R} (h : host R) : shared R
| Execute (c : command) : shared RunnerCommandResult
| Sleep (delay : Z) : shared bool.

Definition Online : string := "online".
Definition Degraded : string := "degraded".

(** *** [runnerRuntimeState], [runnerHealth] *)

Definition state_heartbeat : prog shared (string * string) :=
  s <-- call LoadStatus;; e <-- call LoadError;; Ret (s, e).
Definition state_setDegraded (reason : string) : prog shared unit :=
  _ <-- call (StoreStatus Degraded);; call (StoreError (trim_space reason)).
Definition state_setStale (reason : string) : prog shared unit :=
  _ <-- state_setDegraded reason;; call StoreStale.
Definition health_set (online : bool) : prog shared unit :=
  _ <-- call (StoreOnline online);;
  if online then call (StoreDegraded false) else Ret tt.
Definition health_setDegraded : prog shared unit :=
  _ <-- call (StoreDegraded true);; call (StoreOnline false).
Definition health_setStale : prog shared unit :=
  _ <-- call StoreHealthStale;; _ <-- call (StoreDegraded true);; call (StoreOnline false).
(** [markRunnerStaleBootstrapIdentity] *)
Definition markRunnerStaleBootstrapIdentity : prog shared unit :=
  _ <-- state_setStale "Runner bootstrap identity is stale: rotate bootstrap credentials, apply the regenerated Secret, then restart or helm upgrade this release.";;
  health_setStale.

Fixpoint on_files_of {A} (p : prog host A) : prog shared A :=
  match p with
  | Ret a => Ret a
  | Vis h k => Vis (OnFiles h) (fun r => on_files_of (k r))
  end.

(** *** Requests to the control plane *)

(** [runnerPostJSON], [runnerPostJSONWithHeaders] *)
Definition runnerPostJSON (endpoint token : string) (body : payload) : prog shared (result run_error bytes) :=
  s <-- call (Post endpoint (trim_space token) body);;
  Ret (match s with
       | NotBuilt err | NotSent err => Err (OtherError err)
       | Answered r => post_answer r
       end).
(** [nextRunnerCommand] *)
Definition nextRunnerCommand cfg : prog shared (result run_error (option command)) :=
  let endpoint := ControlPlaneURL cfg +:+ "/api/v1/runners/commands/next?projectId=" +:+ query_escape (ProjectID cfg)
    +:+ "&clusterId=" +:+ query_escape (ClusterID cfg) +:+ "&runnerId=" +:+ query_escape (RunnerID cfg) in
  s <-- call (Get endpoint (RunnerAuthToken cfg));;
  Ret (match s with
       | NotBuilt err => Err (OtherError err)
       | NotSent err => Err (Transport err)
       | Answered r => next_answer r
       end).
Definition set_tokens cfg (registration auth : string) : runnerConfig P :=
  {| ControlPlaneURL := ControlPlaneURL cfg; ControlPlaneEndpointMode := ControlPlaneEndpointMode cfg;
     ControlPlaneCAFile := ControlPlaneCAFile cfg; ControlPlaneTLSServerName := ControlPlaneTLSServerName cfg;
     ConnectivityMaxAttempts := ConnectivityMaxAttempts cfg; ConnectivityInitialDelay := ConnectivityInitialDelay cfg;
     ConnectivityMaxDelay := ConnectivityMaxDelay cfg; ConnectivityDeadline := ConnectivityDeadline cfg;
     RemoteGeneration := RemoteGeneration cfg; ProjectID := ProjectID cfg; ClusterID := ClusterID cfg;
     RunnerID := RunnerID cfg; RunnerNamespace := RunnerNamespace cfg; DeploymentMode := DeploymentMode cfg;
     RegistrationToken := registration; RunnerAuthToken := auth; RunnerAuthTokenFile := RunnerAuthTokenFile cfg;
     ProjectConfigURL := ProjectConfigURL cfg; ProjectConfigToken := ProjectConfigToken cfg;
     HeartbeatInterval := HeartbeatInterval cfg; ReportTimeout := ReportTimeout cfg;
     CommandResultTimeout := CommandResultTimeout cfg; HealthAddr := HealthAddr cfg;
     RunnerVersion := RunnerVersion cfg; FeatureEnvWriterMode := FeatureEnvWriterMode cfg;
     FeatureEnvWriterNamespaces := FeatureEnvWriterNamespaces cfg; HelmAllowedChartHosts := HelmAllowedChartHosts cfg;
     ReleasePlanAllowedKinds := ReleasePlanAllowedKinds cfg; PVCCopyHelperImage := PVCCopyHelperImage cfg;
     PVCCopySourceNamespaces := PVCCopySourceNamespaces cfg;
     PVCCopyRunnerServiceAccount := PVCCopyRunnerServiceAccount cfg;
     PVCCopyAllowRootHelpers := PVCCopyAllowRootHelpers cfg;
     PVCCopyApprovedProductionSources := PVCCopyApprovedProductionSources cfg;
     MySQLRestoreHelperImage := MySQLRestoreHelperImage cfg;
     MySQLRestoreSourceNamespaces := MySQLRestoreSourceNamespaces cfg;
     MySQLRestoreTargetImages := MySQLRestoreTargetImages cfg;
     MySQLRestoreAllowRootInit := MySQLRestoreAllowRootInit cfg;
     MySQLRestoreSourceFences := MySQLRestoreSourceFences cfg |}.
(** [ensureRunnerRuntimeAuth] *)
Definition ensureRunnerRuntimeAuth cfg : prog shared (result run_error (runnerConfig P)) :=
  if str_ne (trim_space (RunnerAuthToken cfg)) "" then Ret (Ok (set_tokens cfg "" (RunnerAuthToken cfg)))
  else
    body <-! runnerPostJSON (ControlPlaneURL cfg +:+ "/api/v1/runners/register") ""
               (RegistrationRequest (ProjectID cfg) (ClusterID cfg) (RunnerID cfg) (DeploymentMode cfg)
                  (RunnerNamespace cfg) (RegistrationToken cfg) (RunnerVersion cfg));;
    match parse_registration body with
    | Err err => Ret (Err (OtherError err))
    | Ok token =>
        let token := trim_space token in
        stop str_eq token ""
          with OtherError (errorf "runner registration response did not include runnerAuthToken");;
        p <-- on_files_of (persistRuntimeToken (RunnerAuthTokenFile cfg) token);;
        match p with
        | Some err => Ret (Err (OtherError (wrapf "persist runner auth token" err)))
        | None =>
            f <-- on_files_of (persistRegistrationTokenFingerprint (RunnerAuthTokenFile cfg) (RegistrationToken cfg));;
            match f with
            | Some err => Ret (Err (OtherError (wrapf "persist runner registration token fingerprint" err)))
            | None => Ret (Ok (set_tokens cfg "" token))
            end
        end
    end.
(** [reportRunnerHeartbeatWithEndpointPreflight], [reportRunnerHeartbeat] *)
Definition reportRunnerHeartbeat cfg (status error preflight : string) : prog shared (result run_error bytes) :=
  runnerPostJSON (ControlPlaneURL cfg +:+ "/api/v1/runners/heartbeat") "" (HeartbeatRequest status error preflight).
(** [reportRunnerCommandResult] *)
Definition reportRunnerCommandResult cfg (c : command) (r : RunnerCommandResult) : prog shared (result run_error bytes) :=
  runnerPostJSON (trim_right_slashes (ControlPlaneURL cfg) +:+ "/api/v1/runners/commands/" +:+ path_escape (Rc_ID c)
                  +:+ "/result") (RunnerAuthToken cfg)
    (ResultRequest r (ProjectID cfg) (ClusterID cfg) (RunnerID cfg) (RunnerAuthToken cfg) (Rc_AttemptID c)
       (Rc_RemoteClusterGeneration c) (Rc_RunnerIdentityIssuedAt c)).
(** [renewRunnerCommandLease] *)
Definition renewRunnerCommandLease cfg (c : command) : prog shared (result run_error bytes) :=
  runnerPostJSON (ControlPlaneURL cfg +:+ "/api/v1/runners/commands/" +:+ path_escape (Rc_ID c)
                  +:+ "/lease?projectId=" +:+ query_escape (ProjectID cfg) +:+ "&clusterId=" +:+ query_escape (ClusterID cfg)
                  +:+ "&runnerId=" +:+ query_escape (RunnerID cfg) +:+ "&attemptId=" +:+ query_escape (Rc_AttemptID c))
    (RunnerAuthToken cfg) LeaseRequest.
(** [fetchRunnerProjectConfig]; nothing in the runner calls it. *)
Definition fetchRunnerProjectConfig cfg : prog shared (option run_error) :=
  if str_eq (trim_space (ProjectConfigURL cfg)) "" || str_eq (trim_space (ProjectConfigToken cfg)) "" then Ret None
  else
    r <-- runnerPostJSON (ProjectConfigURL cfg) (ProjectConfigToken cfg)
            (ProjectConfigRequest (ClusterID cfg) (RunnerID cfg) (RunnerNamespace cfg) (DeploymentMode cfg));;
    Ret (match r with
         | Err err => Some err
         | Ok body => option_map OtherError (parse_object body)
         end).

(** *** The command loop *)

(** [pollRunnerCommandsOnceWithFound]: keep polling, and a command was found;
    when the poll failed, and when it found [c].  The renewal of the lease runs
    beside the execution and changes nothing here. *)
Definition poll_failed cfg (err : run_error) : prog shared (bool * bool) :=
  if isRunnerStaleBootstrapIdentityError err then
    _ <-- markRunnerStaleBootstrapIdentity;; Ret (false, false)
  else if isRunnerCommandAPIIncompatible err then
    let reason := "Runner command API is unavailable or incompatible: " +:+ error_text err in
    _ <-- state_setDegraded reason;;
    _ <-- health_setDegraded;;
    _ <-- reportRunnerHeartbeat cfg Degraded reason "";;
    Ret (false, false)
  else if isRunnerAuthTokenNotIssuedError err then
    _ <-- call StoreRecovery;; Ret (false, false)
  else Ret (true, false).
Definition poll_found cfg (c : command) : prog shared (bool * bool) :=
  r <-- call (Execute c);;
  s <-- reportRunnerCommandResult cfg c r;;
  match s with
  | Err err =>
      if isRunnerStaleBootstrapIdentityError err then
        _ <-- markRunnerStaleBootstrapIdentity;; Ret (false, true)
      else Ret (true, true)
  | Ok _ => Ret (true, true)
  end.
Definition pollRunnerCommandsOnceWithFound cfg : prog shared (bool * bool) :=
  n <-- nextRunnerCommand cfg;;
  match n with
  | Err err => poll_failed cfg err
  | Ok None => Ret (true, false)
  | Ok (Some c) => poll_found cfg c
  end.

Definition next_backoff (found : bool) (backoff : Z) : Z :=
  if found then Second
  else if backoff <? 15 * Second
  then if 15 * Second <? backoff * 2 then 15 * Second else backoff * 2
  else backoff.

(** One round of the loop of [runRunnerCommands]: it returns, or goes on with a
    configuration and a pause. *)
Definition command_round (bootstrapRegistrationToken : string) cfg (backoff : Z)
    : prog shared (option (runnerConfig P * Z)) :=
  over <-- call (Sleep backoff);;
  if over : bool then Ret None
  else
    stale <-- call LoadStale;;
    if stale : bool then Ret None
    else
      k <-- pollRunnerCommandsOnceWithFound cfg;;
      let '(keepPolling, found) := k in
      if negb keepPolling then
        recover <-- call SwapRecovery;;
        if (recover : bool) && str_ne (trim_space bootstrapRegistrationToken) "" then
          c <-- on_files_of (clearRuntimeToken (RunnerAuthTokenFile cfg));;
          match c with
          | Some _ => Ret None
          | None =>
              a <-- ensureRunnerRuntimeAuth (set_tokens cfg bootstrapRegistrationToken "");;
              match a with
              | Err _ => Ret None
              | Ok cfg => _ <-- health_set true;; Ret (Some (cfg, Second))
              end
          end
        else Ret None
      else Ret (Some (cfg, next_backoff found backoff)).
(** [runRunnerCommands], for at most [rounds] rounds. *)
Fixpoint command_rounds (rounds : nat) (bootstrapRegistrationToken : string) cfg (backoff : Z)
    : prog shared (option (runnerConfig P * Z)) :=
  match rounds with
  | O => Ret (Some (cfg, backoff))
  | S rounds' =>
      r <-- command_round bootstrapRegistrationToken cfg backoff;;
      match r with
      | None => Ret None
      | Some (cfg, backoff) => command_rounds rounds' bootstrapRegistrationToken cfg backoff
      end
  end.
Definition runRunnerCommands (rounds : nat) cfg : prog shared (option (runnerConfig P * Z)) :=
  command_rounds rounds (RegistrationToken cfg) cfg Second.

(** *** The heartbeat loop *)

(** One tick of [runRunnerHeartbeat]: whether the loop goes on; from the loaded
    status and error on. *)
Definition heartbeat_report cfg (status statusError : string) : prog shared bool :=
  code <-- call Preflight;;
  let ok := str_eq code "passed" in
  let status := if ok then status else Degraded in
  let statusError := if ok then statusError else "management endpoint preflight failed: " +:+ code in
  r <-- reportRunnerHeartbeat cfg status statusError code;;
  match r with
  | Err err =>
      if isRunnerRuntimeIdentityReissuedError err then
        _ <-- on_files_of (clearRuntimeToken (RunnerAuthTokenFile cfg));; Ret false
      else if isRunnerStaleBootstrapIdentityError err then
        _ <-- markRunnerStaleBootstrapIdentity;; Ret false
      else _ <-- health_set false;; Ret true
  | Ok _ =>
      _ <-- (if str_eq status Degraded then health_setDegraded else health_set true);; Ret true
  end.
Definition heartbeat_tick cfg : prog shared bool :=
  stale <-- call LoadStale;;
  if stale : bool then Ret false
  else h <-- state_heartbeat;; heartbeat_report cfg h.1 h.2.

(** *** The start of the runner *)

(** How [Run] ends before its loops start: the process exits with 1, it
    returns, or it waits for the end of its context; or the loops start. *)
Inductive run_outcome : Type :=
| Exits | Returns | Waits
| Starts (cfg : runnerConfig P).

Definition initial_heartbeat cfg : prog shared (string * option run_error) :=
  code <-- call Preflight;;
  let ok := str_eq code "passed" in
  r <-- reportRunnerHeartbeat cfg (if ok then Online else Degraded)
          (if ok then "" else "management endpoint preflight failed: " +:+ code) code;;
  Ret (code, match r with Ok _ => None | Err err => Some err end).
(** [Run], after the configuration was validated and its client built. *)
Definition Run cfg : prog shared run_outcome :=
  let bootstrapRegistrationToken := RegistrationToken cfg in
  a <-- ensureRunnerRuntimeAuth cfg;;
  match a with
  | Err err =>
      if isRunnerStaleBootstrapIdentityError err
      then _ <-- markRunnerStaleBootstrapIdentity;; Ret Waits
      else _ <-- health_set false;; Ret Exits
  | Ok cfg =>
      let finish cfg (code : string) (err : option run_error) :=
        match err with
        | None => _ <-- health_set (str_eq code "passed");; Ret (Starts cfg)
        | Some err =>
            if isRunnerRuntimeIdentityReissuedError err
            then _ <-- on_files_of (clearRuntimeToken (RunnerAuthTokenFile cfg));; Ret Returns
            else if isRunnerStaleBootstrapIdentityError err
            then _ <-- markRunnerStaleBootstrapIdentity;; Ret Waits
            else _ <-- health_set false;; Ret Exits
        end in
      h <-- initial_heartbeat cfg;;
      let '(code, err) := h in
      match err with
      | Some e =>
          if isRunnerAuthTokenNotIssuedError e && str_ne (trim_space bootstrapRegistrationToken) "" then
            c <-- on_files_of (clearRuntimeToken (RunnerAuthTokenFile cfg));;
            match c with
            | Some _ => Ret Returns
            | None =>
                a <-- ensureRunnerRuntimeAuth (set_tokens cfg bootstrapRegistrationToken "");;
                match a with
                | Err e => finish (set_tokens cfg bootstrapRegistrationToken "") code (Some e)
                | Ok cfg => h <-- initial_heartbeat cfg;; finish cfg h.1 h.2
                end
            end
          else finish cfg code err
      | None => finish cfg code None
      end
  end.
End Protocol.
Arguments shared Y X I M V C : clear implicits.

(** ** The two loops on one memory *)

Record memory := {
  m_status : string; m_error : string; m_stale : bool; m_recovery : bool;
  h_online : bool; h_degraded : bool; h_stale : bool }.
(** [newRunnerRuntimeState], and a health that was set online. *)
Definition fresh : memory :=
  {| m_status := Online; m_error := ""; m_stale := false; m_recovery := false;
     h_online := true; h_degraded := false; h_stale := false |}.
(** [/health]: the status text; only "online" comes with 200. *)
Definition health_answer (m : memory) : string :=
  if h_stale m then "stale_bootstrap_identity" else if h_degraded m then "degraded"
  else if negb (h_online m) then "starting" else "online".
(** [serveRunnerHealth]: the status and the body of each endpoint; the fields
    of a JSON object, or the text of the metrics. *)
Inductive served : Type :=
| ServedJSON (fields : list (string * string))
| ServedText (body : string).
Definition newline : string := text [byte_of 10].
Definition serveRunnerHealth (path : string) (m : memory) : option (Z * served) :=
  if str_eq path "/livez" then Some (200, ServedJSON [("status", "alive")])
  else if str_eq path "/health" then
    Some (if h_stale m then
            (503, ServedJSON [("status", "stale_bootstrap_identity");
               ("reason", "The bootstrap session or runner credentials are no longer valid.");
               ("recovery", "Rotate runner bootstrap credentials, apply the regenerated Secret, then restart or helm upgrade the existing runner release.")])
          else if h_degraded m then (503, ServedJSON [("status", "degraded")])
          else if negb (h_online m) then (503, ServedJSON [("status", "starting")])
          else (200, ServedJSON [("status", "online")]))
  else if str_eq path "/metrics" then
    Some (200, ServedText ("# HELP envplane_runner_up Whether the runner is online." +:+ newline +:+
                           "# TYPE envplane_runner_up gauge" +:+ newline +:+
                           "envplane_runner_up " +:+ (if h_online m then "1" else "0") +:+ newline))
  else None.

Definition set_state (m : memory) (status error : string) (stale recovery : bool) : memory :=
  {| m_status := status; m_error := error; m_stale := stale; m_recovery := recovery;
     h_online := h_online m; h_degraded := h_degraded m; h_stale := h_stale m |}.
Definition set_health (m : memory) (online degraded stale : bool) : memory :=
  {| m_status := m_status m; m_error := m_error m; m_stale := m_stale m; m_recovery := m_recovery m;
     h_online := online; h_degraded := degraded; h_stale := stale |}.

Section Interleaving.
Context {P Y X I M V C : Type} `{Contracts Y X I M V C} `{Sha256} `{Quote}.
Context `{RunnerJson (RunnerCommand Y X I M V C)}.
Notation sh := (shared Y X I M V C).
Implicit Types cfg : runnerConfig P.

(** What a call does to the memory and what it must return; a call to the
    outside may return anything. *)
Definition on_memory {R} (c : sh R) (m : memory) : memory * option R :=
  match c with
  | LoadStatus => (m, Some (m_status m))
  | LoadError => (m, Some (m_error m))
  | LoadStale => (m, Some (m_stale m))
  | SwapRecovery => (set_state m (m_status m) (m_error m) (m_stale m) false, Some (m_recovery m))
  | StoreStatus s => (set_state m s (m_error m) (m_stale m) (m_recovery m), Some tt)
  | StoreError s => (set_state m (m_status m) s (m_stale m) (m_recovery m), Some tt)
  | StoreStale => (set_state m (m_status m) (m_error m) true (m_recovery m), Some tt)
  | StoreRecovery => (set_state m (m_status m) (m_error m) (m_stale m) true, Some tt)
  | StoreOnline b => (set_health m b (h_degraded m) (h_stale m), Some tt)
  | StoreDegraded b => (set_health m (h_online m) b (h_stale m), Some tt)
  | StoreHealthStale => (set_health m (h_online m) (h_degraded m) true, Some tt)
  | _ => (m, None)
  end.

(** Both goroutines: the heartbeat loop starts its next tick when it goes on. *)
Record system := {
  s_memory : memory;
  s_commands : prog sh (option (runnerConfig P * Z));
  s_heartbeat : prog sh bool }.
Inductive sys_step cfg : system -> system -> Prop :=
| CommandStep m R (c : sh R) k h r :
    (forall r', (on_memory c m).2 = Some r' -> r = r') ->
    sys_step cfg {| s_memory := m; s_commands := Vis c k; s_heartbeat := h |}
             {| s_memory := (on_memory c m).1; s_commands := k r; s_heartbeat := h |}
| HeartbeatStep m R (c : sh R) k p r :
    (forall r', (on_memory c m).2 = Some r' -> r = r') ->
    sys_step cfg {| s_memory := m; s_commands := p; s_heartbeat := Vis c k |}
             {| s_memory := (on_memory c m).1; s_commands := p; s_heartbeat := k r |}
| NextTick m p :
    sys_step cfg {| s_memory := m; s_commands := p; s_heartbeat := Ret true |}
             {| s_memory := m; s_commands := p; s_heartbeat := heartbeat_tick cfg |}.
Definition started (rounds : nat) cfg (m : memory) : system :=
  {| s_memory := m; s_commands := runRunnerCommands rounds cfg; s_heartbeat := heartbeat_tick cfg |}.
Definition reachable (rounds : nat) cfg (m : memory) : system -> Prop := rtc (sys_step cfg) (started rounds cfg m).
End Interleaving.

(** ** Lemmas *)

Section ProtocolLemmas.
Context {P Y X I M V C : Type} `{Contracts Y X I M V C} `{Sha256} `{Quote}.
Context `{RunnerJson (RunnerCommand Y X I M V C)}.
Notation sh := (shared Y X I M V C).
Implicit Types cfg : runnerConfig P.

(** Properties of calls that files and posts of a kind satisfy. *)
Lemma only_files {A} (Q : forall R, sh R -> Prop) (p : prog host A) :
  (forall R (h : host R), Q R (OnFiles h)) -> only Q (on_files_of p).
Proof. intros HQ. induction p as [a|R h k IH]; cbn [on_files_of only]; [done|]. by split. Qed.
Lemma only_call {R} (Q : forall R, sh R -> Prop) (c : sh R) : Q R c -> only Q (call c).
Proof. by split. Qed.
Lemma only_post (Q : forall R, sh R -> Prop) endpoint token body :
  Q _ (Post endpoint (trim_space token) body) -> only Q (runnerPostJSON endpoint token body).
Proof. by split. Qed.

(** Registering again is the only use of the files. *)
Definition not_registering (R : Type) (c : sh R) : Prop :=
  match c with
  | Post _ _ (RegistrationRequest _ _ _ _ _ _ _) => False
  | OnFiles _ => False
  | _ => True
  end.
(** Polls are at least a second and at most 15 seconds apart. *)
Definition paced (R : Type) (c : sh R) : Prop :=
  match c with Sleep d => Second <= d <= 15 * Second | _ => True end.
(** Only the degraded status is ever stored. *)
Definition degrading (R : Type) (c : sh R) : Prop :=
  match c with StoreStatus s => s = Degraded | _ => True end.

(** A predicate that every call of a poll satisfies, the execution of a command
    apart; and the further calls of a heartbeat and of a recovery. *)
Definition polling (Q : forall R, sh R -> Prop) : Prop :=
  Q _ LoadStatus /\ Q _ LoadError /\ Q _ LoadStale /\ Q _ SwapRecovery /\ Q _ (StoreStatus Degraded)
  /\ (forall s, Q _ (StoreError s)) /\ Q _ StoreStale /\ Q _ StoreRecovery
  /\ Q _ (StoreOnline false) /\ Q _ (StoreDegraded true) /\ Q _ StoreHealthStale
  /\ (forall e t, Q _ (Get e t)) /\ Q _ Preflight
  /\ (forall e t s2 s3, Q _ (Post e t (HeartbeatRequest Degraded s2 s3)))
  /\ (forall e t r s1 s2 s3 s4 s5 n o, Q _ (Post e t (ResultRequest r s1 s2 s3 s4 s5 n o))).
Definition recovering (Q : forall R, sh R -> Prop) : Prop :=
  Q _ (StoreOnline true) /\ Q _ (StoreDegraded false) /\ (forall R (h : host R), Q _ (OnFiles h)).

Section Unconditional.
Variable Q : forall R, sh R -> Prop.
Hypothesis HQ : polling Q.

Lemma degraded_only reason : only Q (state_setDegraded reason).
Proof. destruct HQ as (? & ? & ? & ? & ? & ? & _). cbn. auto. Qed.
Lemma health_stale_only : only Q health_setStale.
Proof. destruct HQ as (? & ? & ? & ? & ? & ? & ? & ? & ? & ? & ? & _). cbn. auto 12. Qed.
Lemma stale_only : only Q markRunnerStaleBootstrapIdentity.
Proof.
  apply only_bind; [|intros _; apply health_stale_only]. apply only_bind; [apply degraded_only|].
  intros _. apply only_call. apply HQ.
Qed.
Lemma health_degraded_only : only Q health_setDegraded.
Proof. destruct HQ as (? & ? & ? & ? & ? & ? & ? & ? & ? & ? & _). cbn. auto. Qed.
Lemma health_unset_only : only Q (health_set false).
Proof. destruct HQ as (? & ? & ? & ? & ? & ? & ? & ? & ? & _). cbn. auto. Qed.
Lemma health_set_only : recovering Q -> only Q (health_set true).
Proof. intros (? & ? & _). cbn. auto. Qed.

Lemma poll_failed_only cfg err : only Q (poll_failed cfg err).
Proof.
  unfold poll_failed.
  destruct (isRunnerStaleBootstrapIdentityError err); [apply only_bind; [apply stale_only|done]|].
  destruct (isRunnerCommandAPIIncompatible err).
  - cbv zeta. apply only_bind; [apply degraded_only|]. intros _. apply only_bind; [apply health_degraded_only|].
    intros _. apply only_bind; [apply only_post; apply HQ|done].
  - destruct (isRunnerAuthTokenNotIssuedError err); [|done]. apply only_bind; [|done]. apply only_call. apply HQ.
Qed.
Lemma poll_only cfg : (forall c, Q _ (Execute c)) -> only Q (pollRunnerCommandsOnceWithFound cfg).
Proof.
  intros He. unfold pollRunnerCommandsOnceWithFound.
  apply only_bind; [apply only_bind; [apply only_call; apply HQ|done]|].
  intros [[c|]|err]; [|done|apply poll_failed_only]. unfold poll_found.
  apply only_bind; [by apply only_call|]. intros r. apply only_bind; [apply only_post; apply HQ|].
  intros [body|err]; [done|]. destruct (isRunnerStaleBootstrapIdentityError err); [|done].
  apply only_bind; [apply stale_only|done].
Qed.

(** A report of a status that stays degraded, and any report. *)
Lemma report_only cfg status error : (forall R (h : host R), Q _ (OnFiles h)) ->
  status = Degraded \/ recovering Q /\ (forall e t s1 s2 s3, Q _ (Post e t (HeartbeatRequest s1 s2 s3))) ->
  only Q (heartbeat_report cfg status error).
Proof.
  intros Hf Hs. unfold heartbeat_report. apply only_bind; [apply only_call; apply HQ|]. intros code. cbv zeta.
  set (st := if str_eq code "passed" then status else Degraded).
  assert (Hst : st = Degraded \/ recovering Q /\ (forall e t s1 s2 s3, Q _ (Post e t (HeartbeatRequest s1 s2 s3)))).
  { unfold st. destruct (str_eq code "passed"); [done|by left]. }
  clearbody st. apply only_bind; [apply only_post; destruct Hst as [->|[_ Hp]]; [apply HQ|apply Hp]|].
  intros [body|err].
  - apply only_bind; [|done]. destruct (str_eq st Degraded) eqn:E; [apply health_degraded_only|].
    destruct Hst as [->|[Hr _]]; [by apply str_eq_false in E|by apply health_set_only].
  - destruct (isRunnerRuntimeIdentityReissuedError err); [apply only_bind; [by apply only_files|done]|].
    destruct (isRunnerStaleBootstrapIdentityError err).
    + apply only_bind; [apply stale_only|done].
    + apply only_bind; [apply health_unset_only|done].
Qed.
Lemma tick_only cfg : recovering Q -> (forall e t s1 s2 s3, Q _ (Post e t (HeartbeatRequest s1 s2 s3))) ->
  only Q (heartbeat_tick cfg).
Proof.
  intros Hr Hp. unfold heartbeat_tick, state_heartbeat. apply only_bind; [apply only_call; apply HQ|].
  intros [|]; [done|]. apply only_bind.
  - apply only_bind; [apply only_call; apply HQ|]. intros s. apply only_bind; [apply only_call; apply HQ|done].
  - intros [status error]. apply report_only; [apply Hr|by right].
Qed.

(** The loop without a registration token, or with the calls of a registration. *)
Lemma round_only b cfg backoff : (forall c, Q _ (Execute c)) -> Q _ (Sleep backoff) ->
  (trim_space b = "" \/ recovering Q /\ (forall e t s1 s2 s3 s4 s5 s6 s7,
      Q _ (Post e t (RegistrationRequest s1 s2 s3 s4 s5 s6 s7)))) ->
  only Q (command_round b cfg backoff).
Proof.
  intros He Hs Hb. unfold command_round.
  apply only_bind; [by apply only_call|]. intros [|]; [done|]. apply only_bind; [apply only_call; apply HQ|].
  intros [|]; [done|]. apply only_bind; [by apply poll_only|]. intros [keep found]. destruct (negb keep); [|done].
  apply only_bind; [apply only_call; apply HQ|]. intros recover.
  destruct (recover && _) eqn:E; [|done]. apply andb_true_iff in E as [_ E%str_ne_true].
  destruct Hb as [Hb|[Hf Hr]]; [done|]. apply only_bind; [apply only_files; apply Hf|]. intros [err|]; [done|].
  apply only_bind; [|intros [cfg'|err]; [apply only_bind; [by apply health_set_only|done]|done]].
  unfold ensureRunnerRuntimeAuth. destruct (str_ne _ ""); [done|]. apply only_pbind; [by apply only_post|].
  intros body. destruct (parse_registration body) as [token|]; [|done]. cbv zeta. apply only_stop.
  apply only_bind; [apply only_files; apply Hf|]. intros [err|]; [done|].
  apply only_bind; [apply only_files; apply Hf|]. by intros [err|].
Qed.
End Unconditional.

Lemma next_backoff_bounds found backoff :
  Second <= backoff <= 15 * Second -> Second <= next_backoff found backoff <= 15 * Second.
Proof.
  unfold next_backoff, Second. destruct found; [lia|]. destruct (backoff <? _) eqn:E; [|lia].
  apply Z.ltb_lt in E. destruct (_ <? backoff * 2) eqn:E2; lia.
Qed.

(** Every round starts with a pause within the bounds. *)
Lemma round_backoff b cfg backoff : Second <= backoff <= 15 * Second ->
  returns (fun r => match r with Some (_, d) => Second <= d <= 15 * Second | None => True end) (command_round b cfg backoff).
Proof.
  intros Hb. unfold command_round. apply returns_bind. intros [|]; [done|]. apply returns_bind. intros [|]; [done|].
  apply returns_bind. intros [keep found]. destruct (negb keep); [|by apply next_backoff_bounds].
  apply returns_bind. intros recover. destruct (_ && _); [|done]. apply returns_bind. intros [err|]; [done|].
  apply returns_bind. intros [cfg'|err]; [|done]. apply returns_bind. by intros _.
Qed.

(** A run of the command loop, round by round. *)
Lemma only_rounds (Q : forall R, sh R -> Prop) (ok : Z -> Prop) b :
  (forall cfg backoff, ok backoff -> only Q (command_round b cfg backoff)
     /\ returns (fun r => match r with Some (_, d) => ok d | None => True end) (command_round b cfg backoff)) ->
  forall n cfg backoff, ok backoff -> only Q (command_rounds n b cfg backoff).
Proof.
  intros Hr n. induction n as [|n IH]; intros cfg backoff Hb; cbn [command_rounds]; [done|].
  destruct (Hr cfg backoff Hb) as [Ho Hret]. revert Ho Hret.
  generalize (command_round b cfg backoff) as p. intros p. induction p as [[[cfg' d]|]|R c k IHp]; cbn [bind only returns].
  - intros _ Hd. by apply IH.
  - done.
  - intros [Hc Hk] Hret. split; [done|]. intros r. by apply IHp.
Qed.

Lemma auth_clears cfg : returns (fun r => match r with Ok cfg' => RegistrationToken cfg' = "" | Err _ => True end)
  (ensureRunnerRuntimeAuth cfg).
Proof.
  unfold ensureRunnerRuntimeAuth. destruct (str_ne _ ""); [done|]. unfold pbind. apply returns_bind.
  intros [body|err]; [|done]. destruct (parse_registration body) as [token|]; [|done]. cbv zeta.
  destruct (str_eq _ ""); [done|]. apply returns_bind. intros [err|]; [done|]. apply returns_bind. by intros [err|].
Qed.
End ProtocolLemmas.

(** ** Properties *)

Section ProtocolProperties.
Context {P Y X I M V C : Type} `{Contracts Y X I M V C} `{Sha256} `{Quote}.
Context `{RunnerJson (RunnerCommand Y X I M V C)}.
Notation sh := (shared Y X I M V C).
Notation command := (RunnerCommand Y X I M V C).
Implicit Types cfg : runnerConfig P.

(** The token is gone when the loops start. *)
Definition cleared (o : run_outcome (P := P)) : Prop :=
  match o with Starts c => RegistrationToken c = "" | _ => True end.
Definition run_finish (c : runnerConfig P) (code : string) (err : option run_error) : prog sh (run_outcome (P := P)) :=
  match err with
  | None => _ <-- health_set (str_eq code "passed");; Ret (Starts c)
  | Some err =>
      if isRunnerRuntimeIdentityReissuedError err
      then _ <-- on_files_of (clearRuntimeToken (RunnerAuthTokenFile c));; Ret Returns
      else if isRunnerStaleBootstrapIdentityError err
      then _ <-- markRunnerStaleBootstrapIdentity;; Ret Waits
      else _ <-- health_set false;; Ret Exits
  end.
Lemma finish_cleared c code err : RegistrationToken c = "" \/ err <> None -> returns cleared (run_finish c code err).
Proof.
  unfold run_finish. destruct err as [err|]; intros Hc.
  - destruct (isRunnerRuntimeIdentityReissuedError err); [by apply returns_bind|].
    destruct (isRunnerStaleBootstrapIdentityError err); by apply returns_bind.
  - destruct Hc as [Hc|]; [|done]. by apply returns_bind.
Qed.
Lemma auth_then c (k : result run_error (runnerConfig P) -> prog sh (run_outcome (P := P))) :
  (forall c', RegistrationToken c' = "" -> returns cleared (k (Ok c'))) ->
  (forall err, returns cleared (k (Err err))) -> returns cleared (bind (ensureRunnerRuntimeAuth c) k).
Proof.
  intros Hok Herr. pose proof (auth_clears (Y := Y) (X := X) (I := I) (M := M) (V := V) (C := C) c) as Ha.
  revert Ha. generalize (ensureRunnerRuntimeAuth (Y := Y) (X := X) (I := I) (M := M) (V := V) (C := C) c) as p.
  intros p. induction p as [[c'|err]|R e k' IHp]; cbn [bind returns]; [apply Hok|intros _; apply Herr|].
  intros Hk r. by apply IHp.
Qed.
Lemma run_starts cfg : returns cleared (Run cfg).
Proof.
  unfold Run. cbv zeta. apply auth_then.
  - intros c' Hc'. apply returns_bind. intros [code [err|]].
    + destruct (isRunnerAuthTokenNotIssuedError err && _); [|apply (finish_cleared c' code (Some err)); by right].
      apply returns_bind. intros [e|]; [done|]. apply auth_then.
      * intros c2 Hc2. apply returns_bind. intros [code2 err2]. apply (finish_cleared c2 code2 err2). by left.
      * intros e. apply (finish_cleared _ code (Some e)). by right.
    + apply (finish_cleared c' code None). by left.
  - intros err. destruct (isRunnerStaleBootstrapIdentityError err); by apply returns_bind.
Qed.

(** The recovery of the command loop is dead code: once the runner has
    started, its configuration holds no registration token any more, so that the
    loop, however long it runs and whatever the control plane answers, never
    registers again and never clears the token it was told is invalid. *)
Theorem recovery_unreachable cfg t cfg' n (Hx : exec (Run cfg) t (Starts cfg')) :
  RegistrationToken cfg' = "" /\ only not_registering (runRunnerCommands n cfg').
Proof.
  pose proof (returns_exec _ _ _ _ (run_starts cfg) Hx) as Ht. split; [done|]. unfold runRunnerCommands. rewrite Ht.
  apply (only_rounds _ (fun _ => True)); [|done]. intros c backoff _. split.
  - apply round_only; [by repeat split|done|done|by left].
  - apply (returns_bind). intros a. destruct a; [done|]. apply returns_bind. intros [|]; [done|].
    apply returns_bind. intros [keep found]. destruct (negb keep); [|done]. apply returns_bind. intros recover.
    destruct (_ && _); [|done]. apply returns_bind. intros [err|]; [done|]. apply returns_bind.
    intros [c'|err]; [|done]. by apply returns_bind.
Qed.

(** The command loop never polls faster than once a second nor slower than
    every 15 seconds, whatever it finds and for as long as it runs. *)
Theorem polls_paced cfg n : only paced (runRunnerCommands n cfg).
Proof.
  unfold runRunnerCommands. apply (only_rounds _ (fun d => Second <= d <= 15 * Second)); [|unfold Second; lia].
  intros c backoff Hb. split; [|by apply round_backoff].
  apply round_only; [by repeat split|done|done|]. right. by split.
Qed.

(** The answer carries a command: status 200 with this version of the API. *)
Definition carries (r : response) (c : command) : Prop :=
  Rs_Status r = 200 /\ trim_space (Rs_Version r) = runnerCommandAPIVersion
  /\ parse_command (limit 2097152 (Rs_Body r)) = Ok c.
Lemma next_answer_command (r : response) (c : command) : next_answer r = Ok (Some c) -> carries r c.
Proof.
  unfold next_answer, validateRunnerCommandAPIResponse, carries. cbv zeta.
  destruct (Rs_Status r =? 204); [by destruct (str_ne _ _)|]. destruct (Rs_Status r =? 200) eqn:Es; cbn [negb].
  - destruct (str_ne _ _) eqn:Ev; [done|]. destruct (parse_command _) as [c'|]; [|done]. intros [= <-].
    apply Z.eqb_eq in Es. apply str_ne_false in Ev. done.
  - destruct (runnerBootstrapIdentityErrorBody _) as [[code recovery]|]; [done|].
    destruct (Rs_Status r =? 404); [done|]. destruct (_ || _); [by destruct (_ && _)|]. by destruct (_ =? 426).
Qed.

Definition executed (ev : event sh) : option command :=
  match ev with @Event _ _ (Execute c) _ => Some c | _ => None end.
Definition no_execution (R : Type) (c : sh R) : Prop := match c with Execute _ => False | _ => True end.
Lemma not_executed {A} (p : prog sh A) t a : only no_execution p -> exec p t a -> omap executed t = [].
Proof.
  intros Ho Hx. pose proof (exec_only _ _ _ _ Ho Hx) as Hf. clear Ho Hx. induction t as [|[R c r] t IH]; [done|].
  apply Forall_cons in Hf as [Hc Hf]. specialize (IH Hf). cbn in *. by destruct c.
Qed.

Lemma poll_failed_quiet cfg err t keep found : exec (poll_failed cfg err) t (keep, found) ->
  found = false /\ omap executed t = [].
Proof.
  intros Hx. split.
  - refine (returns_exec (fun k => k.2 = false) _ _ _ _ Hx). unfold poll_failed.
    destruct (isRunnerStaleBootstrapIdentityError err); [apply returns_bind; by intros _|].
    destruct (isRunnerCommandAPIIncompatible err).
    + cbv zeta. apply returns_bind. intros _. apply returns_bind. intros _. apply returns_bind; by intros ?.
    + destruct (isRunnerAuthTokenNotIssuedError err); [apply returns_bind; by intros _|done].
  - refine (not_executed _ _ _ _ Hx). apply poll_failed_only. by repeat split.
Qed.

(** C31: A poll asks for a command of the runner's own project, cluster and
    identity; it executes at most one, only one that the control plane answered
    with status 200 and this version of the command API, and directly afterwards
    posts its result to the address of the command's identifier, with the
    command's attempt and target generation and the runner's own identity and
    token; it reports a command as found exactly then. *)
Theorem poll_executes cfg t keep found (Hx : exec (pollRunnerCommandsOnceWithFound cfg) t (keep, found)) :
  exists answer t0,
    t = Event (Get (ControlPlaneURL cfg +:+ "/api/v1/runners/commands/next?projectId=" +:+ query_escape (ProjectID cfg)
          +:+ "&clusterId=" +:+ query_escape (ClusterID cfg) +:+ "&runnerId=" +:+ query_escape (RunnerID cfg))
          (RunnerAuthToken cfg)) answer :: t0
    /\ (found = false /\ omap executed t0 = []
        \/ found = true /\ exists resp c r s t1, answer = Answered resp /\ carries resp c
             /\ t0 = [Event (Execute c) r;
                  Event (Post (trim_right_slashes (ControlPlaneURL cfg) +:+ "/api/v1/runners/commands/" +:+ path_escape (Rc_ID c)
                    +:+ "/result") (trim_space (RunnerAuthToken cfg))
                    (ResultRequest r (ProjectID cfg) (ClusterID cfg) (RunnerID cfg) (RunnerAuthToken cfg) (Rc_AttemptID c)
                       (Rc_RemoteClusterGeneration c) (Rc_RunnerIdentityIssuedAt c))) s] ++ t1
             /\ omap executed t1 = []).
Proof.
  unfold pollRunnerCommandsOnceWithFound, nextRunnerCommand in Hx. cbv zeta in Hx.
  apply exec_bind in Hx as (t0 & t1 & n & -> & Hn & Hx).
  apply exec_bind_call in Hn as (s & t2 & -> & [-> ->]).
  assert (Hstale : only no_execution markRunnerStaleBootstrapIdentity) by (apply stale_only; by repeat split).
  exists s, t1. split; [done|]. destruct s as [err|err|r].
  1, 2: left; apply poll_failed_quiet in Hx as [Hf Hq]; (split; [done|exact Hq]).
  destruct (next_answer r) as [[c|]|err] eqn:En.
  - right. unfold poll_found, reportRunnerCommandResult, runnerPostJSON in Hx.
    apply exec_bind_call in Hx as (res & t3 & -> & Hx).
    apply exec_bind in Hx as (t4 & t5 & a & -> & Hp & Hx). apply exec_bind_call in Hp as (s & t6 & -> & [-> ->]).
    apply next_answer_command in En.
    assert (Ht5 : found = true /\ omap executed t5 = []).
    { destruct (match s with Answered r0 => post_answer r0 | NotBuilt e | NotSent e => Err (OtherError e) end) as [body|err].
      - by destruct Hx as [-> [= _ ->]].
      - destruct (isRunnerStaleBootstrapIdentityError err); [|by destruct Hx as [-> [= _ ->]]].
        apply exec_bind in Hx as (t7 & t8 & [] & -> & Hm & [-> [= _ ->]]). rewrite app_nil_r.
        split; [done|]. by eapply not_executed. }
    destruct Ht5 as [-> Ht5]. split; [done|]. by eexists r, c, res, s, t5.
  - left. destruct Hx as [-> [= _ ->]]. done.
  - left. apply poll_failed_quiet in Hx as [Hf Hq]. (split; [done|exact Hq]).
Qed.

(** The code that a failed post is judged by, and its text. *)
Definition post_code (r : response) : string := trim_space (parse_error_body (limit 4096 (Rs_Body r))).1.1.
Definition post_detail (r : response) : string :=
  let body := limit 4096 (Rs_Body r) in
  if str_eq (trim_space (parse_error_body body).1.2) "" then trim_space (text body)
  else trim_space (parse_error_body body).1.2.

(** An answer outside 200 to 299 is always an error of the API with its
    status, and it counts as a stale identity exactly when its code is one of the
    three known codes or, without a code, when its text says so: with another code
    the text "bootstrap session not found" is ignored. *)
Theorem stale_classified (r : response) (Hs : (Rs_Status r <? 200) || (300 <=? Rs_Status r) = true) :
  exists e, post_answer r = Err (Api e) /\ Ae_Status e = Rs_Status r /\ Ae_Detail e = post_detail r
    /\ (isRunnerStaleBootstrapIdentityError (Api e) = true <->
        post_code r ∈ stale_codes \/ post_code r = "" /\ stale_text (post_detail r) = true).
Proof.
  unfold post_answer, post_code, post_detail. rewrite Hs. cbv zeta.
  destruct (parse_error_body _) as [[code error] recovery]. cbn [fst snd].
  set (detail := if str_eq (trim_space error) "" then _ else _). clearbody detail.
  assert (Hin : forall c, existsb (str_eq c) stale_codes = true <-> c ∈ stale_codes) by (intros c; apply mem_str).
  assert (Hblank : ~ "" ∈ stale_codes) by (intros Hb%mem_str; vm_compute in Hb; discriminate Hb).
  assert (Htrim : existsb (str_eq code) stale_codes = true -> trim_space code = code).
  { intros Hm%Hin. unfold stale_codes in Hm. rewrite !elem_of_cons, elem_of_nil in Hm.
    destruct Hm as [->|[->|[->|[]]]]; vm_compute; reflexivity. }
  destruct (existsb (str_eq code) stale_codes || stale_text detail) eqn:E.
  - eexists. split; [reflexivity|]. split; [done|]. split; [done|]. cbn [isRunnerStaleBootstrapIdentityError Ae_Code].
    rewrite Hin. destruct (str_eq (trim_space code) "") eqn:Eb.
    + apply str_eq_true in Eb. rewrite Eb. split; [|intros _; by left]. intros _. right. split; [done|].
      apply orb_true_iff in E as [E|]; [|done]. rewrite (Htrim E) in Eb. subst. by apply Hin in E.
    + apply str_eq_false in Eb. split; [by left|]. by intros [|[]].
  - apply orb_false_iff in E as [E1 E2]. eexists. split; [reflexivity|]. split; [done|]. split; [done|].
    cbn [isRunnerStaleBootstrapIdentityError Ae_Code]. rewrite Hin, E2. split; [by left|]. by intros [|[]].
Qed.

(** The configuration of a project is asked for once at most: where it is
    configured, with its own token and never with one of the runtime. *)
Theorem config_fetched cfg t r (Hx : exec (fetchRunnerProjectConfig cfg) t r) :
  (t = [] /\ r = None /\ (trim_space (ProjectConfigURL cfg) = "" \/ trim_space (ProjectConfigToken cfg) = ""))
  \/ exists s, t = [Event (Post (ProjectConfigURL cfg) (trim_space (ProjectConfigToken cfg))
                   (ProjectConfigRequest (ClusterID cfg) (RunnerID cfg) (RunnerNamespace cfg) (DeploymentMode cfg))) s]
       /\ (r = None -> exists a, s = Answered a /\ 200 <= Rs_Status a < 300 /\ parse_object (limit 1048576 (Rs_Body a)) = None).
Proof.
  unfold fetchRunnerProjectConfig in Hx. destruct (_ || _) eqn:Eb.
  - destruct Hx as [-> ->]. left. split; [done|]. split; [done|]. by apply orb_true_iff in Eb as [?%str_eq_true|?%str_eq_true]; [left|right].
  - right. destruct Hx as (s & t1 & -> & [-> ->]). exists s. split; [done|]. destruct s as [e|e|a]; [done..|].
    clear Eb. unfold post_answer. destruct ((Rs_Status a <? 200) || _) eqn:Es.
    + destruct (parse_error_body _) as [[code error] recovery]. cbv zeta. by destruct (existsb _ _ || _).
    + apply orb_false_iff in Es as [?%Z.ltb_ge ?%Z.leb_gt]. intros Hp. exists a. split; [done|]. split; [done|].
      by destruct (parse_object _).
Qed.
End ProtocolProperties.

(** ** The loops side by side *)

Section InterleavingLemmas.
Context {P Y X I M V C : Type} `{Contracts Y X I M V C} `{Sha256} `{Quote}.
Context `{RunnerJson (RunnerCommand Y X I M V C)}.
Notation sh := (shared Y X I M V C).
Implicit Types cfg : runnerConfig P.

(** The calls of a program as long as the loaded status is degraded. *)
Definition loads_degraded {R} (c : sh R) : R -> Prop :=
  match c in shared _ _ _ _ _ _ R return R -> Prop with LoadStatus => fun r => r = Degraded | _ => fun _ => True end.
Fixpoint while_degraded {A} (Q : forall R, sh R -> Prop) (p : prog sh A) : Prop :=
  match p with
  | Ret _ => True
  | Vis c k => Q _ c /\ forall r, loads_degraded c r -> while_degraded Q (k r)
  end.
Lemma only_while {A} Q (p : prog sh A) : only Q p -> while_degraded Q p.
Proof. induction p as [a|R c k IH]; [done|]. intros [Hc Hk]. split; [done|]. intros r _. by apply IH. Qed.
(** Nothing reports or becomes online. *)
Definition offline (R : Type) (c : sh R) : Prop :=
  match c with
  | Post _ _ (HeartbeatRequest s _ _) => s = Degraded
  | StoreOnline b => b = false
  | StoreDegraded b => b = true
  | StoreStatus s => s = Degraded
  | _ => True
  end.
Lemma tick_while_degraded cfg : while_degraded offline (heartbeat_tick cfg).
Proof.
  split; [done|]. intros [|] _; [done|]. split; [done|]. intros status ->. split; [done|]. intros error _.
  apply only_while, report_only; [by repeat split|done|by left].
Qed.

Lemma commands_only (Q : forall R, sh R -> Prop) rounds cfg : polling Q -> (forall c, Q _ (Execute c)) ->
  (forall d, Q _ (Sleep d)) ->
  (trim_space (RegistrationToken cfg) = "" \/ recovering Q /\ (forall e t s1 s2 s3 s4 s5 s6 s7,
      Q _ (Post e t (RegistrationRequest s1 s2 s3 s4 s5 s6 s7)))) ->
  only Q (runRunnerCommands rounds cfg).
Proof.
  intros HQ He Hs Hb. unfold runRunnerCommands. apply (only_rounds _ (fun _ => True)); [|done]. intros c backoff _. split.
  - by apply round_only.
  - apply returns_bind. intros [|]; [done|]. apply returns_bind. intros [|]; [done|]. apply returns_bind.
    intros [keep found]. destruct (negb keep); [|done]. apply returns_bind. intros recover.
    destruct (_ && _); [|done]. apply returns_bind. intros [err|]; [done|]. apply returns_bind.
    intros [c'|err]; [|done]. apply returns_bind. by intros _.
Qed.

(** What holds of the memory and of both programs and is preserved by every call. *)
Lemma system_invariant cfg (K : memory -> Prop) (Q1 Q2 : forall A, prog sh A -> Prop) :
  (forall m A R (c : sh R) (k : R -> prog sh A) r, K m -> (Q1 A (Vis c k) \/ Q2 A (Vis c k)) ->
     (forall r', (on_memory c m).2 = Some r' -> r = r') ->
     K (on_memory c m).1 /\ (Q1 A (Vis c k) -> Q1 A (k r)) /\ (Q2 A (Vis c k) -> Q2 A (k r))) ->
  Q2 _ (heartbeat_tick cfg) ->
  forall s s', rtc (sys_step cfg) s s' ->
  K (s_memory s) /\ Q1 _ (s_commands s) /\ Q2 _ (s_heartbeat s) ->
  K (s_memory s') /\ Q1 _ (s_commands s') /\ Q2 _ (s_heartbeat s').
Proof.
  intros Hcall Htick s s' Hs. induction Hs as [|s s1 s2 Hstep _ IH]; [done|]. intros HJ. apply IH. clear IH.
  destruct Hstep as [m R c k h r Hr|m R c k p r Hr|m p]; cbn [s_memory s_commands s_heartbeat] in *.
  - destruct HJ as (HK & H1' & H2'). destruct (Hcall m _ _ c k r HK (or_introl H1') Hr) as (? & ? & _). auto.
  - destruct HJ as (HK & H1' & H2'). destruct (Hcall m _ _ c k r HK (or_intror H2') Hr) as (? & _ & ?). auto.
  - by destruct HJ as (HK & H1' & _).
Qed.
End InterleavingLemmas.

Ltac command_loop v := eapply rtc_l; [refine (CommandStep _ _ _ _ _ _ v _); by try intros ? [= <-]|].
Ltac heartbeat v := eapply rtc_l; [refine (HeartbeatStep _ _ _ _ _ _ v _); by try intros ? [= <-]|].

Section InterleavingProperties.
Context {P Y X I M V C : Type} `{Contracts Y X I M V C} `{Sha256} `{Quote}.
Context `{RunnerJson (RunnerCommand Y X I M V C)}.
Notation sh := (shared Y X I M V C).
Implicit Types cfg : runnerConfig P.

(** The health endpoint says what [health_answer] says and is ready exactly if
    that is online, in which case the metrics count the runner as up; the runner is
    alive whatever its state. *)
Theorem health_served m : exists status fields up,
  serveRunnerHealth "/health" m = Some (status, ServedJSON (("status", health_answer m) :: fields))
  /\ (status = 200 <-> health_answer m = "online") /\ (status = 200 -> up = "1")
  /\ serveRunnerHealth "/metrics" m = Some (200, ServedText ("# HELP envplane_runner_up Whether the runner is online." +:+ newline +:+
       "# TYPE envplane_runner_up gauge" +:+ newline +:+ "envplane_runner_up " +:+ up +:+ newline))
  /\ serveRunnerHealth "/livez" m = Some (200, ServedJSON [("status", "alive")]).
Proof.
  unfold health_answer. destruct m as [? ? ? ? online degraded stale].
  destruct stale; [|destruct degraded; [|destruct online]]; cbn [h_online h_degraded h_stale negb];
    (do 3 eexists; split; [reflexivity|]; split; [by split|]; split; [|by split]; done).
Qed.
Lemma degrading_call {R} (c : sh R) m : degrading R c ->
  (m_status m = Degraded -> m_status (on_memory c m).1 = Degraded)
  /\ (m_stale m = true -> m_stale (on_memory c m).1 = true)
  /\ (h_stale m = true -> h_stale (on_memory c m).1 = true).
Proof. destruct c; cbn; auto. Qed.

(** However the two loops interleave and whatever the control plane
    answers, what they detected stays: a degraded status stays degraded, a stale
    identity stays stale, and the health endpoint, once it reports a stale
    bootstrap identity, reports it for good. *)
Theorem detection_sticks rounds cfg m s s' (Hr : reachable rounds cfg m s) (Hs : rtc (sys_step cfg) s s') :
  (m_status (s_memory s) = Degraded -> m_status (s_memory s') = Degraded)
  /\ (m_stale (s_memory s) = true -> m_stale (s_memory s') = true)
  /\ (health_answer (s_memory s) = "stale_bootstrap_identity" ->
      health_answer (s_memory s') = "stale_bootstrap_identity").
Proof.
  assert (Hcommands : only degrading (runRunnerCommands rounds cfg))
    by (apply commands_only; [by repeat split|done|done|right; by repeat split]).
  assert (Htick : only degrading (heartbeat_tick cfg)) by (apply tick_only; by repeat split).
  assert (Hstep : forall K : memory -> Prop, (forall m R (c : sh R), degrading R c -> K m -> K (on_memory c m).1) ->
    forall s s', rtc (sys_step cfg) s s' ->
    K (s_memory s) /\ only degrading (s_commands s) /\ only degrading (s_heartbeat s) ->
    K (s_memory s') /\ only degrading (s_commands s') /\ only degrading (s_heartbeat s')).
  { intros K HK. apply (system_invariant cfg K (fun A => only degrading) (fun A => only degrading)); [|done].
    intros m0 A R c k r Hm Hc _. assert (degrading R c) by (by destruct Hc as [[]|[]]).
    split; [by apply HK|]. split; by intros []. }
  destruct (Hstep (fun _ => True) (fun _ _ _ _ _ => Logic.I) _ _ Hr) as (_ & Hc & Hh); [done|].
  assert (Hkeep : forall K : memory -> Prop, (forall m R (c : sh R), degrading R c -> K m -> K (on_memory c m).1) ->
    K (s_memory s) -> K (s_memory s')) by (intros K HK Hk; by apply (Hstep K HK s s' Hs)).
  assert (Hhealth : forall m0, health_answer m0 = "stale_bootstrap_identity" <-> h_stale m0 = true).
  { intros m0. unfold health_answer. by destruct (h_stale m0), (h_degraded m0), (h_online m0). }
  rewrite !Hhealth.
  split; [|split]; intros Hd; revert Hd.
  - apply (Hkeep (fun m => m_status m = Degraded)). intros m0 R c Hc' Hm. by apply degrading_call.
  - apply (Hkeep (fun m => m_stale m = true)). intros m0 R c Hc' Hm. by apply degrading_call.
  - apply (Hkeep (fun m => h_stale m = true)). intros m0 R c Hc' Hm. by apply degrading_call.
Qed.

Lemma offline_status {R} (c : sh R) m : offline R c -> m_status m = Degraded -> m_status (on_memory c m).1 = Degraded.
Proof. destruct c; cbn; by intros. Qed.
Lemma offline_call {R} (c : sh R) m : offline R c ->
  health_answer m <> "online" -> health_answer (on_memory c m).1 <> "online".
Proof.
  intros Hc Hm. destruct c; cbn in *; try done; subst; unfold health_answer in *; cbn.
  - by destruct (h_stale m), (h_degraded m).
  - by destruct (h_stale m).
Qed.

(** C32: When the status is degraded and no heartbeat is under way, it is the
    end of being online for a runner without a registration token: from then on
    the status stays degraded, no heartbeat of either loop says anything but
    degraded, and the health endpoint says online only as long as it has said so
    since that moment: once it does not, it never says so again. *)
Theorem degradation_reported rounds cfg m s s1 s2 (Ht : trim_space (RegistrationToken cfg) = "")
    (Hr : reachable rounds cfg m s) (Hd : m_status (s_memory s) = Degraded)
    (Hb : s_heartbeat s = heartbeat_tick cfg)
    (Hs1 : rtc (sys_step cfg) s s1) (Hs2 : rtc (sys_step cfg) s1 s2) :
  m_status (s_memory s2) = Degraded
  /\ (forall e t st er pf k, s_heartbeat s2 = Vis (Post e t (HeartbeatRequest st er pf)) k -> st = Degraded)
  /\ (forall e t st er pf k, s_commands s2 = Vis (Post e t (HeartbeatRequest st er pf)) k -> st = Degraded)
  /\ (health_answer (s_memory s1) <> "online" -> health_answer (s_memory s2) <> "online").
Proof.
  assert (Hcommands : only offline (s_commands s)).
  { destruct (system_invariant cfg (fun _ => True) (fun A => only offline) (fun A p => True)) with (s := started rounds cfg m) (s' := s)
      as (_ & Hc & _); [|done|done| |done].
    - intros m0 A R c k r _ _ _. split; [done|]. split; [by intros []|done].
    - split; [done|]. split; [|done]. apply commands_only; [by repeat split|done|done|by left]. }
  assert (Hkeep : forall (K : memory -> Prop) s' s'',
    (forall m R (c : sh R), offline R c -> m_status m = Degraded -> K m -> K (on_memory c m).1) ->
    rtc (sys_step cfg) s' s'' ->
    (m_status (s_memory s') = Degraded /\ K (s_memory s')) /\ only offline (s_commands s')
      /\ while_degraded offline (s_heartbeat s') ->
    (m_status (s_memory s'') = Degraded /\ K (s_memory s'')) /\ only offline (s_commands s'')
      /\ while_degraded offline (s_heartbeat s'')).
  { intros K s' s'' HK. apply (system_invariant cfg (fun m => m_status m = Degraded /\ K m)
      (fun A => only offline) (fun A => while_degraded offline)); [|apply tick_while_degraded].
    intros m0 A R c k r [Hm1 Hm2] Hc Hres. assert (offline R c) by (by destruct Hc as [[]|[]]).
    split; [split; [by apply offline_status|by apply HK]|]. split; [by intros []|]. intros [_ Hk]. apply Hk.
    destruct c; try exact Logic.I. cbn. rewrite <- Hm1. by apply Hres. }
  destruct (Hkeep (fun _ => True) s s1) as ([Hd1 _] & Hc1 & Hh1); [done|done| |].
  { split; [done|]. split; [done|]. rewrite Hb. apply tick_while_degraded. }
  destruct (Hkeep (fun m => health_answer (s_memory s1) <> "online" -> health_answer m <> "online") s1 s2)
    as ([Hd2 Ho2] & Hc2 & Hh2); [|done|done|].
  { intros m0 R c Hc Hm HK Ho. by apply offline_call; [..|apply HK]. }
  split; [done|]. split; [|split; [|done]]; intros e t st er pf k E; [rewrite E in Hh2; apply Hh2|rewrite E in Hc2; apply Hc2].
Qed.

(** But a heartbeat that is under way when the command loop finds the
    command API missing overwrites the finding: the status is degraded and the
    command loop has ended, and still the heartbeat that goes out says online and
    the health endpoint answers online. *)
Theorem online_after_degraded cfg n (Hj : parse_identity_error [] = None) :
  exists s s' t k,
    reachable (S n) cfg fresh s /\ rtc (sys_step cfg) s s'
    /\ m_status (s_memory s) = Degraded /\ s_commands s = Ret None
    /\ s_heartbeat s = Vis (Post (ControlPlaneURL cfg +:+ "/api/v1/runners/heartbeat") t (HeartbeatRequest Online "" "passed")) k
    /\ m_status (s_memory s') = Degraded /\ health_answer (s_memory s') = "online".
Proof.
  set (missing := {| Rs_Status := 404; Rs_Version := ""; Rs_Body := [] |}).
  set (accepted := {| Rs_Status := 200; Rs_Version := ""; Rs_Body := [] |}).
  assert (Hn : next_answer missing = Err (EndpointMissing "status=404 body=")).
  { unfold next_answer, runnerBootstrapIdentityErrorBody. cbn [Rs_Status Rs_Body missing].
    change (limit 4096 []) with (@nil ascii). rewrite Hj. vm_compute. reflexivity. }
  assert (Hs : isRunnerStaleBootstrapIdentityError (EndpointMissing "status=404 body=") = false) by (vm_compute; reflexivity).
  eexists _, _, _, _. split; [|split].
  - unfold reachable, started.
    (* the heartbeat has loaded the status and found its endpoint in order *)
    heartbeat false. heartbeat Online. heartbeat "". heartbeat "passed".
    (* the command loop finds the API missing, and ends *)
    command_loop false. command_loop false. command_loop (Answered missing). cbn [bind]. rewrite Hn.
    unfold poll_failed. rewrite Hs. cbn [isRunnerCommandAPIIncompatible].
    do 4 command_loop tt. command_loop (Answered accepted). command_loop false. apply rtc_refl.
  - (* the heartbeat that was under way goes out *)
    heartbeat (Answered accepted). do 2 heartbeat tt. apply rtc_refl.
  - by repeat split.
Qed.
End InterleavingProperties.

(** ** Witnesses *)

#[local] Existing Instances sample_quote two_digests sample_contracts.
Definition sample_json : RunnerJson (RunnerCommand unit unit unit unit unit unit) := {|
  parse_identity_error := fun _ => None;
  parse_error_body := fun body => ("unknown_session", text body, "");
  parse_command := fun _ => Ok (sample_command "delete" []);
  parse_registration := fun _ => Ok "token"; parse_object := fun _ => None; query_escape := fun s => s; path_escape := fun s => s |}.
#[local] Existing Instance sample_json.
Notation sample_shared := (shared unit unit unit unit unit unit).
Definition sample_answer (status : Z) (body : string) : response :=
  {| Rs_Status := status; Rs_Version := "1"; Rs_Body := chars body |}.
(** A control plane that answers everything with 200. *)
Definition sample_plane (R : Type) (h : list (event sample_shared)) (c : sample_shared R) : R :=
  match c in shared _ _ _ _ _ _ R return R with
  | LoadStatus => Online
  | LoadError => ""
  | LoadStale | SwapRecovery => false
  | StoreStatus _ | StoreError _ => tt
  | StoreStale | StoreRecovery | StoreHealthStale => tt
  | StoreOnline _ | StoreDegraded _ => tt
  | Get _ _ | Post _ _ _ => Answered (sample_answer 200 "{}")
  | Preflight => "passed"
  | OnFiles q => sample_host _ [] q
  | Execute c => first_result c
  | Sleep _ => false
  end.

Lemma recovery_unreachable_witness : exists cfg',
  (run sample_plane [] (Run sample_config)).2 = Starts cfg' /\ RegistrationToken cfg' = "".
Proof.
  destruct (run sample_plane [] (Run sample_config)).2 as [| | |cfg'] eqn:E; [vm_compute in E; discriminate E..|].
  exists cfg'. split; [done|].
  pose proof (run_exec sample_plane (Run sample_config) []) as Hx. rewrite E in Hx.
  exact (proj1 (recovery_unreachable sample_config _ cfg' 3 Hx)).
Defined.

Definition sample_poll := run sample_plane [] (pollRunnerCommandsOnceWithFound sample_config).
Lemma poll_executes_witness : exists t, sample_poll.1 = t /\ length t = 3%nat /\ omap executed t = [sample_command "delete" []].
Proof.
  pose proof (run_exec sample_plane (pollRunnerCommandsOnceWithFound sample_config) []) as Hx.
  change (run sample_plane [] (pollRunnerCommandsOnceWithFound sample_config)) with sample_poll in Hx.
  assert (E : sample_poll.2 = (true, true)) by (vm_compute; reflexivity). rewrite E in Hx.
  exists sample_poll.1. split; [done|]. split; [vm_compute; reflexivity|].
  destruct (poll_executes sample_config _ true true Hx) as (answer & t0 & Ht & [[Hf _]|(_ & resp & c & r & s & t' & _)]);
    [discriminate Hf|].
  vm_compute. reflexivity.
Defined.

Lemma stale_classified_witness : exists e,
  post_answer (sample_answer 404 "bootstrap session not found") = Err (Api e) /\ Ae_Code e = "unknown_session".
Proof.
  destruct (stale_classified (sample_answer 404 "bootstrap session not found") eq_refl) as (e & He & _).
  exists e. split; [exact He|]. vm_compute in He. by injection He as <-.
Defined.

(** A runner whose status is degraded, and whose identity is stale. *)
Definition degraded_memory (stale : bool) : memory :=
  {| m_status := Degraded; m_error := ""; m_stale := false; m_recovery := false;
     h_online := false; h_degraded := true; h_stale := stale |}.
Lemma detection_sticks_witness : exists s',
  rtc (sys_step sample_config) (started 2 sample_config (degraded_memory true)) s'
  /\ health_answer (s_memory s') = "stale_bootstrap_identity".
Proof.
  eexists. split.
  - unfold started. heartbeat false. heartbeat Degraded. command_loop false. apply rtc_refl.
  - eapply (detection_sticks 2 sample_config (degraded_memory true) _ _ (rtc_refl _ _)); [|reflexivity].
    unfold started. heartbeat false. heartbeat Degraded. command_loop false. apply rtc_refl.
Defined.

Lemma tick_under_way : exists s' t st er pf k,
  rtc (sys_step sample_config) (started 2 sample_config (degraded_memory false)) s'
  /\ s_heartbeat s' = Vis (Post "https://control.example.org/api/v1/runners/heartbeat" t (HeartbeatRequest st er pf)) k.
Proof.
  eexists _, _, _, _, _, _. split.
  - unfold started. heartbeat false. heartbeat Degraded. heartbeat "". heartbeat "passed". apply rtc_refl.
  - reflexivity.
Qed.
Lemma degradation_reported_witness : exists s' t st er pf k,
  rtc (sys_step sample_config) (started 2 sample_config (degraded_memory false)) s'
  /\ s_heartbeat s' = Vis (Post "https://control.example.org/api/v1/runners/heartbeat" t (HeartbeatRequest st er pf)) k
  /\ st = Degraded /\ health_answer (s_memory s') <> "online".
Proof.
  destruct tick_under_way as (s' & t & st & er & pf & k & Hs & Hh). exists s', t, st, er, pf, k.
  split; [exact Hs|]. split; [exact Hh|].
  assert (Ho : health_answer (degraded_memory false) <> "online") by (vm_compute; discriminate).
  destruct (degradation_reported 2 sample_config (degraded_memory false) _ _ s' eq_refl (rtc_refl _ _) eq_refl eq_refl (rtc_refl _ _) Hs)
    as (_ & Hp & _ & Hk).
  split; [exact (Hp _ _ _ _ _ _ Hh)|exact (Hk Ho)].
Defined.

Lemma online_after_degraded_witness : exists s : system (P := unit) (Y := unit) (X := unit) (I := unit) (M := unit) (V := unit) (C := unit),
  reachable 1 sample_config fresh s /\ m_status (s_memory s) = Degraded /\ health_answer (s_memory s) = "online".
Proof.
  assert (Hj : parse_identity_error (K := RunnerCommand unit unit unit unit unit unit) [] = None) by reflexivity.
  destruct (online_after_degraded sample_config 0 Hj) as (s & s' & t & k & Hr & Hs & _ & _ & _ & Hd & Ho).
  exists s'. split; [unfold reachable in *; by etransitivity|]. split; [exact Hd|exact Ho].
Defined.
