(* ===== verification/RunnerCapture.v ===== *)
(** * Requests beside the protocol

    The capture of the storage of an environment before it is removed
    ([internal/runner/storage_cleanup_capture.go]), which is advisory, and the
    probe of the management endpoint of [internal/runner/runtime.go], whose
    code the heartbeat carries. *)

From stdpp Require Import base list strings.
From Stdlib Require Import ZArith Lia Ascii String.
From S2P Require Import Prelude GoStrings GoPath EnvStore OrchTypes HelmValues RunnerConfig RunnerCommand RunnerDispatch RunnerProtocol.

Local Open Scope string_scope.
Local Open Scope Z_scope.
Local Open Scope list_scope.

(** ** The capture *)

Definition runnerStorageCaptureTimeout : Z := 5 * Second.
Definition runnerStorageCaptureResponseLimit : Z := 4096.
Record runnerStorageCaptureRequest := {
  Sr_ProjectID : string; Sr_ClusterID : string; Sr_RunnerID : string; Sr_CommandID : string; Sr_EnvironmentID : string }.
(** A POST by a client; the version of the API and the types of the bodies are
    constants. *)
Record capture_post := {
  Po_Client : http_client; Po_URL : url; Po_Authorization : string; Po_Tenant : string; Po_Body : runnerStorageCaptureRequest }.
(** The answer: its status, the length of its body, and whether reading it
    fails before its end. *)
Inductive capture_answer : Type :=
| PostNotBuilt
| PostFailed
| Posted (status : Z) (length : Z) (broken : bool).
Inductive capture_call : Type -> Type :=
| CaDone : capture_call bool
| CaHost {R} (h : host R) : capture_call R
| CaPost (q : capture_post) : capture_call capture_answer.

Definition with_path (u : url) (path : string) : url :=
  {| U_Scheme := U_Scheme u; U_Host := U_Host u; U_Hostname := U_Hostname u; U_User := U_User u; U_Path := path;
     U_RawQuery := U_RawQuery u; U_Fragment := U_Fragment u; U_Opaque := U_Opaque u |}.
Definition capture_path : string := "/api/v1/runner/storage-cleanup/capture".
(** [if b { return reason }] *)
#[local] Notation "'reason' b 'is' r ;; k" := (if b then Ret r else k) (at level 100, b at next level, r at next level, right associativity).

Section Capture.
Context {P Y X I M V C : Type} `{Contracts Y X I M V C} `{GoNet} `{Certificates}.
Implicit Types (cfg : runnerConfig P) (command : RunnerCommand Y X I M V C).

Definition capture_mismatch cfg command : bool :=
  (str_ne (Rc_ProjectID command) "" && str_ne (Rc_ProjectID command) (ProjectID cfg))
  || (str_ne (Rc_ClusterID command) "" && str_ne (Rc_ClusterID command) (ClusterID cfg))
  || (str_ne (Rc_RunnerID command) "" && str_ne (Rc_RunnerID command) (RunnerID cfg))
  || (str_ne (E_Project (Rc_Environment command)) "" && str_ne (E_Project (Rc_Environment command)) (ProjectID cfg)).
Definition capture_request cfg command (client : http_client) (base : url) : capture_post :=
  let tenant := E_TenantID (Rc_Environment command) in
  {| Po_Client := {| Hc_Timeout := runnerStorageCaptureTimeout; Hc_TLS := Hc_TLS client; Hc_Redirects := false |};
     Po_URL := with_path base (trim_right_slashes (U_Path base) +:+ capture_path);
     Po_Authorization := "Bearer " +:+ RunnerAuthToken cfg; Po_Tenant := if str_eq tenant "" then DefaultTenantID else tenant;
     Po_Body := {| Sr_ProjectID := ProjectID cfg; Sr_ClusterID := ClusterID cfg; Sr_RunnerID := RunnerID cfg;
                   Sr_CommandID := Rc_ID command; Sr_EnvironmentID := E_ID (Rc_Environment command) |} |}.
(** What is made of the answer; of its body at most one byte more than the
    limit is read. *)
Definition capture_outcome (a : capture_answer) : string :=
  match a with
  | PostNotBuilt => "capture_request_invalid"
  | PostFailed => "capture_request_failed"
  | Posted status length broken =>
      if runnerStorageCaptureResponseLimit <? length then "capture_response_too_large"
      else if broken then "capture_response_unavailable"
      else if (status =? 404) || (status =? 501) then "capture_endpoint_unavailable"
      else if (status <? 200) || (300 <=? status) then "capture_not_acknowledged"
      else ""
  end.
(** [captureRunnerStorageCleanupWithClient], which bounds the client that it is
    given; the body of the request can always be encoded. *)
Definition captureRunnerStorageCleanupWithClient cfg command (client : option http_client) : prog capture_call string :=
  reason negb (existsb (str_eq (Rc_Operation command)) ["delete"; "force_cleanup"; "cleanup_flux_namespace"])
    is "capture_operation_not_supported";;
  reason existsb (fun value => str_eq (trim_space value) "")
           [ProjectID cfg; ClusterID cfg; RunnerID cfg; Rc_ID command; E_ID (Rc_Environment command); RunnerAuthToken cfg;
            ControlPlaneURL cfg] is "capture_missing_identity";;
  reason capture_mismatch cfg command is "capture_identity_mismatch";;
  ended <-- call CaDone;;
  reason ended : bool is "capture_context_canceled";;
  reason negb (is_ok (validateRunnerControlPlaneEndpoint (ControlPlaneURL cfg) (ControlPlaneEndpointMode cfg)))
    is "capture_endpoint_not_allowed";;
  match url_parse (trim_space (ControlPlaneURL cfg)) with
  | None => Ret "capture_endpoint_not_allowed"
  | Some base =>
      reason U_User base || str_ne (U_RawQuery base) "" || str_ne (U_Fragment base) "" || str_ne (U_Opaque base) ""
        is "capture_endpoint_not_allowed";;
      match client with
      | None => Ret "capture_client_unavailable"
      | Some client => a <-- call (CaPost (capture_request cfg command client base));; Ret (capture_outcome a)
      end
  end.
Fixpoint on_capture_host {A} (p : prog host A) : prog capture_call A :=
  match p with
  | Ret a => Ret a
  | Vis h k => Vis (CaHost h) (fun r => on_capture_host (k r))
  end.
(** [captureRunnerStorageCleanup]; [attemptRunnerStorageCleanupCapture] logs a
    reason and returns nothing. *)
Definition captureRunnerStorageCleanup cfg command : prog capture_call string :=
  reason str_eq (trim_space (ControlPlaneURL cfg)) "" || str_eq (trim_space (RunnerAuthToken cfg)) ""
    is "capture_missing_runtime_configuration";;
  ended <-- call CaDone;;
  reason ended : bool is "capture_context_canceled";;
  client <-- on_capture_host (newRunnerControlPlaneHTTPClientWithTLS runnerStorageCaptureTimeout (ControlPlaneCAFile cfg)
               (ControlPlaneTLSServerName cfg));;
  match client with
  | Err _ => Ret "capture_tls_configuration_unavailable"
  | Ok client => captureRunnerStorageCleanupWithClient cfg command (Some client)
  end.
Definition attemptRunnerStorageCleanupCapture cfg command : prog capture_call unit :=
  _ <-- captureRunnerStorageCleanup cfg command;; Ret tt.
End Capture.

(** ** The probe of the management endpoint *)

(** What the code asks of the error of a request. *)
Record probe_error := { Pe_DNS : bool; Pe_UnknownAuthority : bool; Pe_Text : string }.
Inductive probe_answer : Type := ProbeNotBuilt | ProbeFailed (e : probe_error) | Probed (status : Z).
(** A GET with an optional [Authorization]. *)
Inductive probe_call : Type -> Type :=
| ProbeGet (url : string) (authorization : option string) : probe_call probe_answer.
(** [domain.ManagementEndpointPreflight] without its time. *)
Record endpoint_report := {
  Er_Generation : Z; Er_Code : string; Er_DNSResolved : bool; Er_TCPConnected : bool; Er_TLSVerified : bool;
  Er_HealthReachable : bool; Er_RuntimeAccess : bool }.

(** [classifyRunnerEndpointProbeError] *)
Definition classifyRunnerEndpointProbeError (e : probe_error) : string :=
  let message := to_lower (Pe_Text e) in
  if Pe_DNS e then "dns_failed"
  else if Pe_UnknownAuthority e then "tls_ca_failed"
  else if contains message "certificate" && (contains message "not valid for" || contains message "server name")
  then "tls_server_name_mismatch"
  else if contains message "certificate" || contains message "tls" then "tls_ca_failed"
  else "tcp_failed".

Section Probe.
Context {P : Type}.
Implicit Types cfg : runnerConfig P.
(** [url.QueryEscape] *)
Variable escape : string -> string.

Definition health_url cfg : string := trim_right_slashes (ControlPlaneURL cfg) +:+ "/api/v1/health".
(** [query.Encode] sorts the keys. *)
Definition access_url cfg : string :=
  trim_right_slashes (ControlPlaneURL cfg) +:+ "/api/v1/runners/runtime-access?clusterId=" +:+ escape (ClusterID cfg)
  +:+ "&projectId=" +:+ escape (ProjectID cfg) +:+ "&runnerId=" +:+ escape (RunnerID cfg).
(** The report, by what was reached. *)
Definition report_of cfg (code : string) (answered healthy access : bool) : endpoint_report :=
  {| Er_Generation := RemoteGeneration cfg; Er_Code := code; Er_DNSResolved := answered; Er_TCPConnected := answered;
     Er_TLSVerified := answered && has_prefix (to_lower (ControlPlaneURL cfg)) "https://"; Er_HealthReachable := healthy;
     Er_RuntimeAccess := access |}.
(** [probeRunnerManagementEndpoint] *)
Definition probeRunnerManagementEndpoint cfg : prog probe_call endpoint_report :=
  a <-- call (ProbeGet (health_url cfg) None);;
  match a with
  | ProbeNotBuilt => Ret (report_of cfg "dns_failed" false false false)
  | ProbeFailed e => Ret (report_of cfg (classifyRunnerEndpointProbeError e) false false false)
  | Probed status =>
      if (status <? 200) || (300 <=? status) then Ret (report_of cfg "endpoint_unhealthy" true false false)
      else
        b <-- call (ProbeGet (access_url cfg) (Some ("Bearer " +:+ RunnerAuthToken cfg)));;
        Ret (match b with
             | ProbeNotBuilt => report_of cfg "dns_failed" true true false
             | ProbeFailed _ => report_of cfg "runtime_auth_failed" true true false
             | Probed status =>
                 if negb (status =? 204) then report_of cfg "runtime_auth_failed" true true false
                 else report_of cfg "passed" true true true
             end)
  end.
End Probe.

(** ** Lemmas *)

(** Every reason; none carries a text from outside. *)
Definition capture_reasons : list string :=
  ["capture_missing_runtime_configuration"; "capture_context_canceled"; "capture_tls_configuration_unavailable";
   "capture_operation_not_supported"; "capture_missing_identity"; "capture_identity_mismatch"; "capture_endpoint_not_allowed";
   "capture_request_invalid"; "capture_request_failed"; "capture_response_too_large"; "capture_response_unavailable";
   "capture_endpoint_unavailable"; "capture_not_acknowledged"].
Definition posted (ev : event capture_call) : option (capture_post * capture_answer) :=
  match ev with
  | @Event _ R c r => match c in capture_call R return R -> option (capture_post * capture_answer) with
                      | CaPost q => fun a => Some (q, a) | _ => fun _ => None end r
  end.
Lemma host_posts {A} (p : prog host A) t a : exec (on_capture_host p) t a -> omap posted t = [].
Proof. revert t. induction p as [x|R h k IH]; intros t; cbn; [by intros [-> _]|]. intros (r & t' & -> & Hx). exact (IH _ _ Hx). Qed.
Lemma outcome_reason a : capture_outcome a = "" \/ In (capture_outcome a) capture_reasons.
Proof.
  destruct a as [| |status length broken]; cbn [capture_outcome];
    repeat (match goal with |- context [if ?b then _ else _] => destruct b end); first [by left|right; by apply existsb_str].
Qed.
Definition acknowledged (a : capture_answer) : Prop :=
  exists status length, a = Posted status length false /\ 200 <= status < 300 /\ length <= runnerStorageCaptureResponseLimit.
Lemma outcome_acknowledged a : capture_outcome a = "" <-> acknowledged a.
Proof.
  split.
  - destruct a as [| |status length broken]; cbn [capture_outcome]; [done..|]. destruct (_ <? length) eqn:El; [done|].
    destruct broken; [done|]. destruct (_ || _); [done|]. destruct (_ || _) eqn:Es; [done|]. intros _.
    apply orb_false_iff in Es as [?%Z.ltb_ge ?%Z.leb_gt]. apply Z.ltb_ge in El. by exists status, length.
  - intros (status & length & -> & Hs & Hl). cbn [capture_outcome]. rewrite (proj2 (Z.ltb_ge _ _) Hl).
    assert (E1 : (status =? 404) || (status =? 501) = false) by (go_bool; lia).
    assert (E2 : (status <? 200) || (300 <=? status) = false) by (go_bool; lia). by rewrite E1, E2.
Qed.

(** ** Properties *)

Section CaptureProperties.
Context {P Y X I M V C : Type} `{Contracts Y X I M V C} `{GoNet} `{Certificates}.

(** An endpoint that is allowed: an HTTP(S) URL with a host and nothing but a
    path; in remote mode an HTTPS URL whose host is neither local nor a Service. *)
Definition allowed_endpoint (mode : string) (base : url) : Prop :=
  In (to_lower (trim_space mode)) [""; "samecluster"; "remote"]
  /\ (U_Scheme base = "http" \/ U_Scheme base = "https") /\ U_Hostname base <> ""
  /\ U_User base = false /\ U_RawQuery base = "" /\ U_Fragment base = "" /\ U_Opaque base = ""
  /\ (to_lower (trim_space mode) = "remote" ->
        U_Scheme base = "https" /\ local_host (to_lower (trim_space (U_Hostname base))) = false).
(** What is sent, and when. *)
Definition sendable (cfg : runnerConfig P) (command : RunnerCommand Y X I M V C) (q : capture_post) : Prop :=
  In (Rc_Operation command) ["delete"; "force_cleanup"; "cleanup_flux_namespace"]
  /\ (Rc_ProjectID command = "" \/ Rc_ProjectID command = ProjectID cfg)
  /\ (Rc_ClusterID command = "" \/ Rc_ClusterID command = ClusterID cfg)
  /\ (Rc_RunnerID command = "" \/ Rc_RunnerID command = RunnerID cfg)
  /\ (E_Project (Rc_Environment command) = "" \/ E_Project (Rc_Environment command) = ProjectID cfg)
  /\ Forall (fun value => trim_space value <> "")
       [ProjectID cfg; ClusterID cfg; RunnerID cfg; Rc_ID command; E_ID (Rc_Environment command); RunnerAuthToken cfg]
  /\ Po_Body q = {| Sr_ProjectID := ProjectID cfg; Sr_ClusterID := ClusterID cfg; Sr_RunnerID := RunnerID cfg;
                     Sr_CommandID := Rc_ID command; Sr_EnvironmentID := E_ID (Rc_Environment command) |}
  /\ Po_Authorization q = "Bearer " +:+ RunnerAuthToken cfg
  /\ Hc_Redirects (Po_Client q) = false /\ Hc_Timeout (Po_Client q) = 5 * Second
  /\ exists base, url_parse (trim_space (ControlPlaneURL cfg)) = Some base
       /\ allowed_endpoint (ControlPlaneEndpointMode cfg) base
       /\ Po_URL q = with_path base (trim_right_slashes (U_Path base) +:+ "/api/v1/runner/storage-cleanup/capture").

Lemma endpoint_allowed rawURL mode base : validateRunnerControlPlaneEndpoint rawURL mode = Ok tt ->
  url_parse (trim_space rawURL) = Some base ->
  U_User base || str_ne (U_RawQuery base) "" || str_ne (U_Fragment base) "" || str_ne (U_Opaque base) "" = false ->
  allowed_endpoint mode base.
Proof.
  intros Hv Hu Hb. assert (Hm : In (to_lower (trim_space mode)) [""; "samecluster"; "remote"]).
  { unfold validateRunnerControlPlaneEndpoint in Hv. cbv zeta in Hv. apply refuse_ok in Hv as [Hm _].
    destruct (str_eq (to_lower (trim_space mode)) "") eqn:E; [apply str_eq_true in E; by left|].
    apply andb_false_iff in Hm as [Hm%str_ne_false|Hm%str_ne_false]; rewrite Hm; [by right; left|by right; right; left]. }
  apply endpoint_safe in Hv as (base' & Hu' & Hs & Hh & Hr). assert (base' = base) as -> by congruence.
  rewrite !orb_false_iff, !str_ne_false in Hb. destruct Hb as [[[??]?]?].
  unfold allowed_endpoint. split_and!; try done. intros Hrm. by destruct (Hr Hrm) as (? & _ & _ & _ & ?).
Qed.

Lemma with_client (cfg : runnerConfig P) (command : RunnerCommand Y X I M V C) client t r :
  exec (captureRunnerStorageCleanupWithClient cfg command (Some client)) t r ->
  (omap posted t = [] /\ In r capture_reasons)
  \/ exists q a, omap posted t = [(q, a)] /\ sendable cfg command q
       /\ (acknowledged a /\ r = "" \/ ~ acknowledged a /\ In r capture_reasons).
Proof.
  intros Hx. unfold captureRunnerStorageCleanupWithClient in Hx.
  assert (Hfix : forall s t, In s capture_reasons -> exec (Ret s : prog capture_call string) t r -> omap posted t = [] /\ In r capture_reasons)
    by (by intros s t' Hs [-> ->]).
  destruct (negb (existsb (str_eq (Rc_Operation command)) _)) eqn:Eo; [left; by eapply Hfix, Hx; apply existsb_str|].
  destruct (existsb _ _) eqn:Ei in Hx; [left; by eapply Hfix, Hx; apply existsb_str|].
  destruct (capture_mismatch cfg command) eqn:Em; [left; by eapply Hfix, Hx; apply existsb_str|].
  destruct Hx as (ended & t1 & -> & Hx). cbn [omap list_omap posted].
  destruct ended; [left; by eapply Hfix, Hx; apply existsb_str|].
  destruct (negb _) eqn:Ev in Hx; [left; by eapply Hfix, Hx; apply existsb_str|].
  destruct (url_parse _) as [base|] eqn:Eu; [|left; by eapply Hfix, Hx; apply existsb_str].
  destruct (_ || _) eqn:Eb in Hx; [left; by eapply Hfix, Hx; apply existsb_str|].
  right. destruct Hx as (a & t2 & -> & [-> ->]). exists (capture_request cfg command client base), a. split; [done|]. split.
  - apply negb_false_iff, existsb_str in Eo. unfold capture_mismatch in Em.
    rewrite !orb_false_iff, !andb_false_iff, !str_ne_false in Em. destruct Em as [[[??]?]?].
    apply negb_false_iff in Ev. destruct (validateRunnerControlPlaneEndpoint _ _) as [[]|] eqn:Ee; [|done].
    pose proof (endpoint_allowed _ _ _ Ee Eu Eb) as Ha.
    cbn [existsb] in Ei. rewrite !orb_false_iff, !str_eq_false in Ei. destruct Ei as (? & ? & ? & ? & ? & ? & _).
    unfold sendable. split_and!; try done; [by repeat constructor|by exists base].
  - destruct (outcome_reason a) as [Ho|Ho].
    + left. split; [by apply outcome_acknowledged|done].
    + right. split; [|done]. rewrite <- outcome_acknowledged. intros He. rewrite He in Ho. apply existsb_str in Ho. vm_compute in Ho. done.
Qed.

Lemma captured (cfg : runnerConfig P) (command : RunnerCommand Y X I M V C) t r : exec (captureRunnerStorageCleanup cfg command) t r ->
  (omap posted t = [] /\ In r capture_reasons)
  \/ exists q a, omap posted t = [(q, a)] /\ sendable cfg command q
       /\ (acknowledged a /\ r = "" \/ ~ acknowledged a /\ In r capture_reasons).
Proof.
  intros Hx. unfold captureRunnerStorageCleanup in Hx.
  destruct (_ || _); [destruct Hx as [-> ->]; left; split; [done|by left]|].
  destruct Hx as (ended & t1 & -> & Hx). destruct ended; [destruct Hx as [-> ->]; left; split; [done|by right; left]|].
  cbn [bind] in Hx. apply exec_bind in Hx as (t2 & t3 & client & -> & Hc & Hx). pose proof (host_posts _ _ _ Hc) as Hh.
  cbn [omap list_omap posted]. rewrite omap_app, Hh. cbn [app].
  destruct client as [client|err]; [|destruct Hx as [-> ->]; left; split; [done|by right; right; left]].
  by eapply with_client.
Qed.

(** C30: A capture is contained: it asks the control plane at most once, only for
    a command that removes something and names no other project, cluster or runner;
    the request carries the runner's own identity and the token of the runtime,
    follows no redirect, is given five seconds, and goes to the path of the capture
    below an endpoint that is allowed (in remote mode HTTPS to a host that is neither
    local nor a Service); it reports success exactly if that one request was
    acknowledged within the bounds, and every other report is one of fixed words,
    whatever was configured or answered. *)
Theorem capture_contained (cfg : runnerConfig P) (command : RunnerCommand Y X I M V C) t r
    (Hx : exec (captureRunnerStorageCleanup cfg command) t r) :
  (omap posted t = [] /\ In r capture_reasons)
  \/ exists q a, omap posted t = [(q, a)] /\ sendable cfg command q
       /\ (acknowledged a /\ r = "" \/ ~ acknowledged a /\ In r capture_reasons).
Proof.
  exact (captured cfg command t r Hx).
Qed.
End CaptureProperties.

Section ProbeProperties.
Context {P : Type}.
Variable escape : string -> string.

Lemma classified e : classifyRunnerEndpointProbeError e <> "passed".
Proof.
  unfold classifyRunnerEndpointProbeError. cbv zeta. repeat (match goal with |- context [if ?b then _ else _] => destruct b end); discriminate.
Qed.
Definition healthy_answer (a : probe_answer) : Prop := exists status, a = Probed status /\ 200 <= status < 300.
Definition asked (cfg : runnerConfig P) (a : probe_answer) : event probe_call := Event (ProbeGet (health_url cfg) None) a.
Definition accessed (cfg : runnerConfig P) (b : probe_answer) : event probe_call :=
  Event (ProbeGet (access_url escape cfg) (Some ("Bearer " +:+ RunnerAuthToken cfg))) b.
Definition answer_of (ev : event probe_call) : probe_answer :=
  match ev with @Event _ R c r => match c in probe_call R return R -> probe_answer with ProbeGet _ _ => fun a => a end r end.
Lemma probe_exec (cfg : runnerConfig P) t r : exec (probeRunnerManagementEndpoint escape cfg) t r ->
  (exists a code answered, t = [asked cfg a] /\ code <> "passed" /\ r = report_of cfg code answered false false)
  \/ exists a b, healthy_answer a /\ t = [asked cfg a; accessed cfg b]
     /\ (b = Probed 204 /\ r = report_of cfg "passed" true true true
         \/ exists code, b <> Probed 204 /\ code <> "passed" /\ r = report_of cfg code true true false).
Proof.
  unfold probeRunnerManagementEndpoint. intros (a & t1 & -> & Hx). cbn [bind] in Hx.
  destruct a as [|e|status].
  - destruct Hx as [-> ->]. left. by exists ProbeNotBuilt, "dns_failed", false.
  - destruct Hx as [-> ->]. left. exists (ProbeFailed e), (classifyRunnerEndpointProbeError e), false. split; [done|]. split; [apply classified|done].
  - destruct (_ || _) eqn:Es; [destruct Hx as [-> ->]; left; by exists (Probed status), "endpoint_unhealthy", true|].
    apply orb_false_iff in Es as [?%Z.ltb_ge ?%Z.leb_gt]. destruct Hx as (b & t2 & -> & [-> ->]). right. exists (Probed status), b.
    split; [by exists status|]. split; [done|]. destruct b as [|e|status']; [by right; exists "dns_failed"|by right; exists "runtime_auth_failed"|].
    destruct (status' =? 204) eqn:E4; cbn [negb]; [left|right].
    + apply Z.eqb_eq in E4 as ->. done.
    + exists "runtime_auth_failed". split; [|done]. intros [= ->]. by apply Z.eqb_neq in E4.
Qed.

(** The probe passes exactly if the endpoint answered in the range of
    success and then granted the runtime access with 204; the token is sent once at
    most, only after the healthy answer and only to the address of the access; and
    the report claims access only with health, health only with a connection, and
    TLS only for a connection with https. *)
Theorem probe_reported (cfg : runnerConfig P) t r (Hx : exec (probeRunnerManagementEndpoint escape cfg) t r) :
  (Er_Code r = "passed" <-> exists a, healthy_answer a /\ t = [asked cfg a; accessed cfg (Probed 204)])
  /\ (forall t1 u token b t2, t = t1 ++ Event (ProbeGet u (Some token)) b :: t2 ->
        exists a, healthy_answer a /\ t1 = [asked cfg a] /\ t2 = [] /\ u = access_url escape cfg /\ token = "Bearer " +:+ RunnerAuthToken cfg)
  /\ (Er_RuntimeAccess r = true <-> Er_Code r = "passed") /\ (Er_RuntimeAccess r = true -> Er_HealthReachable r = true)
  /\ (Er_HealthReachable r = true -> Er_TCPConnected r = true)
  /\ (Er_TLSVerified r = true -> Er_TCPConnected r = true /\ has_prefix (to_lower (ControlPlaneURL cfg)) "https://" = true).
Proof.
  apply probe_exec in Hx as [(a & code & answered & -> & Hc & ->)|(a & b & Ha & -> & Hb)].
  - split; [split; [by intros ?|by intros (a' & _ & [=])]|]. split; [intros [|ev [|]] u token b t2 [=]|].
    split; [by split; [|intros ?]|]. split; [done|]. split; [done|]. cbn. intros Ht%andb_true_iff. exact Ht.
  - split; [|split].
    + destruct Hb as [[-> ->]|(code & Hb & Hc & ->)]; split; [by exists a|done|intros Hp; destruct (Hc Hp)|]. intros (a' & _ & Heq).
      by apply (f_equal (map answer_of)) in Heq as [= _ ->].
    + intros [|ev [|ev' [|]]] u token b' t2 Heq; try discriminate Heq.
      injection Heq as <- <- <- _ <-. by exists a.
    + destruct Hb as [[_ ->]|(code & _ & Hc & ->)]; (split; [split; [done|by intros Hp; try destruct (Hc Hp)]|]); by split_and!.
Qed.
End ProbeProperties.

(** ** Witnesses *)

#[local] Existing Instances sample_contracts simple_url any_certificates.
Definition capture_answers (R : Type) (h : list (event capture_call)) (c : capture_call R) : R :=
  match c in capture_call R return R with
  | CaDone => false
  | CaHost h => sample_host _ [] h
  | CaPost _ => Posted 202 17 false
  end.
Definition sample_capture := run capture_answers [] (captureRunnerStorageCleanup sample_config (sample_command "delete" [])).
Lemma capture_contained_witness : sample_capture.2 = "" /\ exists q a, omap posted sample_capture.1 = [(q, a)]
  /\ sendable sample_config (sample_command "delete" []) q.
Proof.
  assert (E : sample_capture.2 = "") by (vm_compute; reflexivity). split; [exact E|].
  destruct (capture_contained sample_config (sample_command "delete" []) sample_capture.1 sample_capture.2
              (run_exec capture_answers (captureRunnerStorageCleanup sample_config (sample_command "delete" [])) []))
    as [[_ Hr]|(q & a & Hp & Hs & _)].
  - rewrite E in Hr. apply existsb_str in Hr. discriminate Hr.
  - exists q, a. split; [exact Hp|exact Hs].
Defined.
Definition probe_answers (R : Type) (h : list (event probe_call)) (c : probe_call R) : R :=
  match c in probe_call R return R with ProbeGet _ None => Probed 200 | ProbeGet _ (Some _) => Probed 204 end.
Definition sample_probe := run probe_answers [] (probeRunnerManagementEndpoint (fun s => s) sample_config).
Lemma probe_reported_witness : Er_Code sample_probe.2 = "passed" /\ Er_RuntimeAccess sample_probe.2 = true.
Proof.
  assert (E : Er_Code sample_probe.2 = "passed") by (vm_compute; reflexivity). split; [exact E|].
  destruct (probe_reported (fun s => s) sample_config sample_probe.1 sample_probe.2
              (run_exec probe_answers (probeRunnerManagementEndpoint (fun s => s) sample_config) [])) as (_ & _ & [_ Hr] & _).
  exact (Hr E).
Defined.
