(* ===== verification/RunnerMain.v ===== *)
(** * The command line

    [cmd/envplane-runner/main.go], which starts one of the helpers, the
    connectivity check or the runner; the connectivity check of
    [internal/runner/runtime.go] down to its exit code; and the validator of
    [internal/sandbox/validator.go], which is compiled in and not called. *)

From stdpp Require Import base list strings.
From Stdlib Require Import ZArith Lia Ascii String.
From S2P Require Import Prelude GoStrings OrchTypes HelmValues RunnerConfig.

Local Open Scope string_scope.
Local Open Scope Z_scope.
Local Open Scope list_scope.

(** ** The program *)

(** What the program starts: a helper, which fails or not, the check, the
    runner; the last two end the process with a code of their own. *)
Inductive main_call : Type -> Type :=
| MySQLHelper (args : list string) : main_call bool
| PVCHelper (args : list string) (root : string) : main_call bool
| RunCheck : main_call Z
| RunRunner : main_call Z.
(** The code of a helper's end. *)
Definition helper_exit (ok : bool) : Z := if ok then 0 else 1.
(** [main]; the arguments without the name of the program. *)
Definition main (args : list string) : prog main_call Z :=
  match args with
  | [] => call RunRunner
  | name :: rest =>
      if str_eq name "mysql-client-config" then ok <-- call (MySQLHelper rest);; Ret (helper_exit ok)
      else if existsb (str_eq name) ["pvc-export"; "pvc-import"; "pvc-verify"; "pvc-complete"]
      then ok <-- call (PVCHelper args "/data");; Ret (helper_exit ok)
      else if str_eq name "runner-connectivity-check" then call RunCheck
      else if str_eq name "runner" then call RunRunner
      else Ret 2
  end.

(** ** The connectivity check *)

Section Check.
Context {P : Type} `{Sha256} `{ConfigJson P} `{GoNet} `{Certificates}.
(** [ConnectivityCheck], its exit code; the context of its requests ends after
    [preflight_deadline]. *)
Definition ConnectivityCheck (env : string -> option string) : prog preflight Z :=
  cfg <-- on_host (runnerConfigFromEnv env);;
  if str_eq (trim_space (ControlPlaneURL cfg)) "" then Ret 1
  else if negb (is_ok (validateRunnerControlPlaneEndpoint (ControlPlaneURL cfg) (ControlPlaneEndpointMode cfg))) then Ret 1
  else
    r <-- runnerConnectivityCheckWithRetry cfg;;
    Ret (match r with Some _ => 1 | None => 0 end).
End Check.

(** ** The sandbox *)

(** [domain.AISandboxSpec]: its validation and the limits that are compared. *)
Class SandboxSpecs (T : Type) := {
  spec_Validate : T -> bool;
  spec_PIDs : T -> Z;
  spec_TimeoutSeconds : T -> Z }.
Record RuntimePolicy := {
  Rp_RunAsNonRoot : bool; Rp_ReadOnlyRootFilesystem : bool; Rp_AllowPrivilegeEscalation : bool; Rp_SeccompProfile : string;
  Rp_MaxPIDs : Z; Rp_MaxTimeoutSeconds : Z }.
(** [ValidateLaunch]; the only error is [ErrUnsafeSandbox]. *)
Definition ValidateLaunch {T} `{SandboxSpecs T} (spec : T) (policy : RuntimePolicy) : bool :=
  if negb (spec_Validate spec) then false
  else negb (negb (Rp_RunAsNonRoot policy) || negb (Rp_ReadOnlyRootFilesystem policy) || Rp_AllowPrivilegeEscalation policy
             || negb (equal_fold (Rp_SeccompProfile policy) "RuntimeDefault") || (Rp_MaxPIDs policy <=? 0)
             || (Rp_MaxPIDs policy <? spec_PIDs spec) || (Rp_MaxTimeoutSeconds policy <=? 0)
             || (Rp_MaxTimeoutSeconds policy <? spec_TimeoutSeconds spec)).

(** A launch is allowed exactly for a valid specification within the limits of a
    policy that confines it. *)
Theorem ValidateLaunch_spec {T} `{SandboxSpecs T} (spec : T) (policy : RuntimePolicy) :
  ValidateLaunch spec policy = true <->
  spec_Validate spec = true /\ Rp_RunAsNonRoot policy = true /\ Rp_ReadOnlyRootFilesystem policy = true
  /\ Rp_AllowPrivilegeEscalation policy = false /\ equal_fold (Rp_SeccompProfile policy) "RuntimeDefault" = true
  /\ 0 < Rp_MaxPIDs policy /\ spec_PIDs spec <= Rp_MaxPIDs policy
  /\ 0 < Rp_MaxTimeoutSeconds policy /\ spec_TimeoutSeconds spec <= Rp_MaxTimeoutSeconds policy.
Proof.
  unfold ValidateLaunch. destruct (spec_Validate spec); cbn [negb]; [|by split; [|intros [? _]]].
  rewrite negb_true_iff, !orb_false_iff, !negb_false_iff, !Z.leb_gt, !Z.ltb_ge. tauto.
Qed.

(** The check ends with 0 only for an endpoint that is allowed and a preflight
    that succeeded. *)
Theorem ConnectivityCheck_passes {P} `{Sha256} `{ConfigJson P} `{GoNet} `{Certificates} env t
    (Hx : exec (ConnectivityCheck (P := P) env) t 0) :
  exists cfg t1 t2, t = t1 ++ t2 /\ exec (on_host (runnerConfigFromEnv (P := P) env)) t1 cfg
    /\ is_ok (validateRunnerControlPlaneEndpoint (ControlPlaneURL cfg) (ControlPlaneEndpointMode cfg)) = true
    /\ exec (runnerConnectivityCheckWithRetry cfg) t2 None.
Proof.
  unfold ConnectivityCheck in Hx. apply exec_bind in Hx as (t1 & t2 & cfg & -> & Hc & Hx).
  destruct (str_eq _ _); [destruct Hx as [_ [=]]|]. destruct (negb _) eqn:Ev; [destruct Hx as [_ [=]]|]. apply negb_false_iff in Ev.
  apply exec_bind in Hx as (t3 & t4 & r & -> & Hr & [-> Hz]). destruct r as [err|]; [discriminate Hz|]. rewrite app_nil_r.
  exists cfg, t1, t3. split; [reflexivity|]. split; [exact Hc|]. split; [exact Ev|exact Hr].
Qed.
