(* ===== verification/GitPaths.v ===== *)
(** * Paths of a writer

    [path/filepath] on Unix ([Join], [Rel]), and the function of
    [internal/gitops/writer.go] that keeps a path inside the root of a writer:
    [resolveInsideRoot]. *)

From stdpp Require Import base list strings.
From Stdlib Require Import ZArith Lia Ascii String.
From S2P Require Import Prelude GoStrings GoPath OrchTypes.

Local Open Scope string_scope.
Local Open Scope list_scope.

(** ** [path/filepath] *)

Definition filepath_join (a b : string) : string := path_join [a; b].

(** The elements of a clean path: of "/" one empty element, of "." none. *)
Definition segments (clean : string) : list string :=
  if str_eq clean "." then [] else if str_eq clean slash_s then [""] else elements clean.

(** [filepath.Rel]: what is left of both paths after their common elements. *)
Fixpoint strip_common (base target : list string) : list string * list string :=
  match base, target with
  | b :: base', t :: target' => if str_eq b t then strip_common base' target' else (base, target)
  | _, _ => (base, target)
  end.
Definition filepath_rel (base target : string) : option string :=
  let base := path_clean base in
  let target := path_clean target in
  if str_eq base target then Some "."
  else if negb (Bool.eqb (is_abs base) (is_abs target)) then None
  else
    let '(b, t) := strip_common (segments base) (if str_eq target "." then ["."] else segments target) in
    match b, t with
    | e :: _, _ :: _ => if str_eq e ".." then None else Some (join slash_s (map (fun _ => "..") b ++ t))
    | _, _ => Some (join slash_s (map (fun _ => "..") b ++ t))
    end.

(** Does the relative path leave where it starts? *)
Definition escapes (rel : string) : bool := str_eq rel ".." || has_prefix rel "../".
Definition has_traversal (path : string) : bool := existsb (fun part => str_eq part "..") (elements path).

(** [resolveInsideRoot] *)
Definition resolveInsideRoot (root relative : string) : result go_error string :=
  let root := path_clean root in
  let relative := trim_space relative in
  refuse str_eq root "" || str_eq root "." || str_eq relative "" || is_abs relative
    with errorf "path must be relative to a writer root";;
  refuse has_traversal relative with errorf "path traversal is not allowed";;
  let path := path_clean (filepath_join root relative) in
  match filepath_rel root path with
  | None => Err (errorf "path escapes writer root")
  | Some rel => refuse escapes rel with errorf "path escapes writer root";; Ok path
  end.

(** ** Clean paths *)

Definition slash_free (e : string) : Prop := Forall (fun c => c <> slash) (chars e).
Definition named (e : string) : bool := good_element e.
(** The elements of a clean path: named, after steps up if it is not rooted. *)
Definition canonical (rooted : bool) (l : list string) : Prop :=
  exists k names, l = repeat ".." k ++ names /\ (rooted = true -> k = O)
    /\ forallb good_element names = true /\ Forall slash_free names.
(** The path of such elements. *)
Definition render (rooted : bool) (l : list string) : string :=
  if rooted then slash_s +:+ join slash_s l else match l with [] => "." | _ => join slash_s l end.
(** The path of [names] under [root]. *)
Definition under (root : string) (names : list string) : string :=
  match names with
  | [] => root
  | _ => (if str_eq root slash_s then slash_s else root +:+ slash_s) +:+ join slash_s names
  end.
Definition names_of (relative : string) : list string := List.filter good_element (elements relative).

Lemma canonical_nil r : canonical r [].
Proof. exists 0, []. by repeat split. Qed.
Lemma canonical_snoc r l e : canonical r l -> good_element e = true -> slash_free e -> canonical r (l ++ [e]).
Proof.
  intros (k & names & -> & Hk & Hn & Hs) He Hf. exists k, (names ++ [e]). rewrite <- app_assoc.
  split; [done|]. split; [done|]. split; [by apply good_app|]. apply Forall_app. by repeat split; [|constructor].
Qed.
Lemma canonical_app r l m : canonical r l -> forallb good_element m = true -> Forall slash_free m -> canonical r (l ++ m).
Proof.
  intros (k & names & -> & Hk & Hn & Hs) Hm Hf. exists k, (names ++ m). rewrite <- app_assoc.
  split; [done|]. split; [done|]. split; [by rewrite forallb_app, Hn|]. by apply Forall_app.
Qed.
Lemma good_not_up e : good_element e = true -> str_eq e ".." = false.
Proof. unfold good_element. rewrite !andb_true_iff. intros [_ H]. by apply negb_true_iff in H. Qed.
(** The last element is a name, or there are only steps up. *)
Lemma canonical_last r l e : canonical r (l ++ [e]) ->
  canonical r l /\ (e = ".." -> r = false /\ exists k, l = repeat ".." k).
Proof.
  intros (k & names & E & Hk & Hn & Hs). destruct names as [|x names _] using rev_ind.
  - rewrite app_nil_r in E. destruct k as [|k]; [by destruct l|].
    replace (repeat ".." (S k)) with (repeat ".." k ++ [".."]) in E
      by (rewrite <- repeat_cons; done).
    apply app_inj_tail in E as [-> ->]. split.
    + exists k, []. rewrite app_nil_r. split; [done|]. split; [|done]. intros Hr. by specialize (Hk Hr).
    + intros _. split; [|by exists k]. destruct r; [by specialize (Hk eq_refl)|done].
  - rewrite app_assoc in E. apply app_inj_tail in E as [-> ->]. apply good_app in Hn as [Hn Hx].
    apply Forall_app in Hs as [Hs _]. split; [by exists k, names|].
    intros ->. by apply good_not_up in Hx.
Qed.

Lemma clean_canonical r out l : canonical r (rev out) -> Forall slash_free l -> canonical r (clean_elements r out l).
Proof.
  intros Ho Hl. revert out Ho. induction Hl as [|e l He Hl IH]; intros out Ho; cbn [clean_elements]; [done|].
  destruct (str_eq e "" || str_eq e ".") eqn:E1; [by apply IH|]. apply orb_false_iff in E1 as [E1 E2].
  destruct (str_eq e "..") eqn:E3.
  - apply str_eq_true in E3 as ->. destruct out as [|o out].
    + apply IH. destruct r; [apply canonical_nil|]. exists 1, []. by repeat split.
    + cbn [rev] in Ho. apply canonical_last in Ho as Hl'. destruct Hl' as [Ho' Hup].
      destruct (str_eq o "..") eqn:Eo; [|by apply IH]. apply str_eq_true in Eo as ->.
      destruct (Hup eq_refl) as [-> [k Hk]]. apply IH. cbn [rev]. rewrite Hk.
      exists (S (S k)), []. rewrite app_nil_r. split; [|by repeat split].
      change [".."] with (repeat ".." 1). rewrite <- !repeat_app. f_equal. lia.
  - apply IH. cbn [rev]. apply canonical_snoc; [done| |done]. unfold good_element, str_ne. by rewrite E1, E2, E3.
Qed.

Lemma clean_canonical_id r l m : canonical r l -> clean_elements r [] (l ++ m) = clean_elements r (rev l) m.
Proof.
  intros (k & names & -> & Hk & Hn & _).
  assert (Hups : forall j out, Forall (eq "..") out -> (r = true -> j = 0) ->
    clean_elements r out ((repeat ".." j ++ names) ++ m) = clean_elements r (repeat ".." j ++ out) (names ++ m)).
  { intros j. induction j as [|j IH]; intros out Ho Hj; [done|]. cbn [repeat app clean_elements].
    change (str_eq ".." "" || str_eq ".." ".") with false. change (str_eq ".." "..") with true. cbn iota.
    assert (r = false) as -> by (destruct r; [by specialize (Hj eq_refl)|done]).
    replace (".." :: repeat ".." j ++ out) with (repeat ".." j ++ ".." :: out)
      by (rewrite app_comm_cons, repeat_cons, <- app_assoc; done).
    destruct out as [|o out]; [by apply IH; [repeat constructor|]|].
    apply Forall_cons in Ho as [<- Ho]. change (str_eq ".." "..") with true. cbn iota.
    apply IH; [by repeat constructor|done]. }
  rewrite Hups by done. rewrite app_nil_r, rev_app_distr.
  assert (Hrep : rev (repeat ".." k) = repeat ".." k).
  { induction k as [|j IHj]; [done|]. cbn [repeat rev]. rewrite IHj.
    - by rewrite <- repeat_cons.
    - intros Hr. by specialize (Hk Hr). }
  rewrite Hrep. clear Hups Hrep. generalize (repeat ".." k) as out. revert Hn.
  induction names as [|e names IH]; intros Hn out; [done|]. cbn [app clean_elements].
  cbn [forallb] in Hn. apply andb_true_iff in Hn as [He Hn]. pose proof He as Hg. unfold good_element, str_ne in Hg.
  rewrite !andb_true_iff, !negb_true_iff in Hg. destruct Hg as [[-> ->] ->]. cbn [orb].
  rewrite IH by done. cbn [rev]. by rewrite <- app_assoc.
Qed.

(** *** What a clean path looks like *)

Lemma canonical_free r l : canonical r l -> Forall slash_free l.
Proof.
  intros (k & names & -> & _ & _ & Hs). apply Forall_app. split; [|done].
  induction k; repeat constructor; done.
Qed.
Lemma canonical_not r l e : canonical r l -> e ∈ l -> e <> "" /\ e <> ".".
Proof.
  intros (k & names & -> & _ & Hn & _) [He|He]%elem_of_app.
  - apply list_elem_of_In, repeat_spec in He as ->. done.
  - rewrite forallb_forall in Hn. apply list_elem_of_In, Hn in He. unfold good_element in He.
    rewrite !andb_true_iff, !str_ne_true in He. tauto.
Qed.
Lemma canonical_elements r l : canonical r l -> l <> [] -> elements (join slash_s l) = l.
Proof. intros Hc Hl. apply elements_join; [done|]. by eapply canonical_free. Qed.
Lemma join_not_empty r l : canonical r l -> l <> [] -> join slash_s l <> "".
Proof.
  intros Hc Hl E. pose proof (canonical_elements _ _ Hc Hl) as He. rewrite E in He.
  change (elements "") with [""] in He. subst. by destruct (canonical_not _ _ "" Hc (list_elem_of_here _ _)).
Qed.

Lemma render_elements l : canonical true l -> l <> [] -> elements (slash_s +:+ join slash_s l) = "" :: l.
Proof.
  intros Hc Hl. change (slash_s +:+ join slash_s l) with ("" +:+ slash_s +:+ join slash_s l).
  destruct l as [|x l]; [done|]. change ("" +:+ slash_s +:+ join slash_s (x :: l)) with (join slash_s ("" :: x :: l)).
  apply elements_join; [done|]. constructor; [constructor|]. by eapply canonical_free.
Qed.
Lemma clean_render s : path_clean s = render (is_abs s) (clean_elements (is_abs s) [] (elements s)).
Proof.
  unfold path_clean, render. destruct (is_abs s) eqn:Ea; [done|].
  pose proof (clean_canonical false [] (elements s) (canonical_nil _) (elements_no_slash s)) as Hc.
  destruct (clean_elements false [] (elements s)) as [|x l]; [done|].
  destruct (str_eq (join slash_s (x :: l)) "") eqn:E; [|done]. apply str_eq_true in E.
  by apply (join_not_empty _ _ Hc) in E.
Qed.
Lemma render_abs r l : canonical r l -> is_abs (render r l) = r.
Proof.
  intros Hc. destruct r; cbn [render]; [done|]. destruct l as [|x l]; [done|].
  destruct (is_abs (join slash_s (x :: l))) eqn:E; [|done]. exfalso.
  pose proof (canonical_elements _ _ Hc ltac:(done)) as He. unfold is_abs, has_prefix in E.
  unfold elements, split_on in He. change (chars slash_s) with [slash] in E.
  destruct (chars (join slash_s (x :: l))) as [|c w]; [done|]. cbn [prefix_of] in E. rewrite andb_true_r in E.
  apply char_eq_true in E as <-. cbn [split_bytes] in He. rewrite (proj2 (char_eq_true slash slash) eq_refl) in He.
  cbn [map] in He. injection He as <- _. by destruct (canonical_not _ _ "" Hc (list_elem_of_here _ _)).
Qed.
Lemma segments_render r l : canonical r l -> segments (render r l) = (if r then [""] else []) ++ l.
Proof.
  intros Hc. unfold segments, render. destruct r, l as [|x l]; [done| |done|].
  - destruct (str_eq _ ".") eqn:E1; [by apply str_eq_true in E1|].
    destruct (str_eq _ slash_s) eqn:E2; [|by apply render_elements].
    apply str_eq_true in E2. apply (f_equal elements) in E2. rewrite render_elements in E2 by done.
    change (elements slash_s) with [""; ""] in E2. injection E2 as -> _.
    by destruct (canonical_not _ _ "" Hc (list_elem_of_here _ _)).
  - pose proof (canonical_elements _ _ Hc ltac:(done)) as He.
    destruct (str_eq (join slash_s (x :: l)) ".") eqn:E1.
    { apply str_eq_true in E1. rewrite E1 in He. change (elements ".") with ["."] in He. injection He as <- _.
      by destruct (canonical_not _ _ "." Hc (list_elem_of_here _ _)). }
    destruct (str_eq (join slash_s (x :: l)) slash_s) eqn:E2; [|done].
    apply str_eq_true in E2. rewrite E2 in He. change (elements slash_s) with [""; ""] in He. injection He as <- _.
    by destruct (canonical_not _ _ "" Hc (list_elem_of_here _ _)).
Qed.
Lemma render_clean r l : canonical r l -> path_clean (render r l) = render r l.
Proof.
  intros Hc. rewrite clean_render, render_abs by done. f_equal.
  assert (Hid : clean_elements r [] l = l).
  { pose proof (clean_canonical_id r l [] Hc) as H. rewrite app_nil_r in H. rewrite H. cbn [clean_elements].
    apply rev_involutive. }
  unfold render. destruct r, l as [|x l]; [done| |done|].
  - rewrite render_elements by done. exact Hid.
  - by rewrite (canonical_elements _ _ Hc).
Qed.

(** Joining two paths joins their elements. *)
Lemma elements_slash a b : elements (a +:+ slash_s +:+ b) = elements a ++ elements b.
Proof.
  unfold elements, split_on. rewrite !chars_app, <- map_app. f_equal.
  change (chars slash_s ++ chars b) with (slash :: chars b).
  induction (chars a) as [|c w IH]; cbn [app split_bytes].
  - by rewrite (proj2 (char_eq_true slash slash) eq_refl).
  - destruct (char_eq c slash); cbn [app]; rewrite IH; [done|].
    pose proof (split_bytes_nonempty slash w). by destruct (split_bytes slash w).
Qed.
Lemma clean_names r out l : forallb (fun e => negb (str_eq e "..")) l = true ->
  clean_elements r out l = rev out ++ List.filter good_element l.
Proof.
  revert out. induction l as [|e l IH]; intros out; cbn [clean_elements forallb List.filter]; [by rewrite app_nil_r|].
  intros [He Hl]%andb_true_iff. apply negb_true_iff in He. unfold good_element at 1, str_ne. rewrite He.
  destruct (str_eq e "") eqn:E1; cbn [orb negb andb]; [by apply IH|].
  destruct (str_eq e ".") eqn:E2; cbn [orb negb andb]; [by apply IH|].
  rewrite IH by done. cbn [rev]. by rewrite <- app_assoc.
Qed.

Lemma names_good relative : forallb good_element (names_of relative) = true /\ Forall slash_free (names_of relative).
Proof.
  unfold names_of. split.
  - apply forallb_forall. intros e [_ He]%filter_In. exact He.
  - apply Forall_forall. intros e He%list_elem_of_In. apply filter_In in He as [He%list_elem_of_In _].
    pose proof (elements_no_slash relative) as Hf. rewrite Forall_forall in Hf. by apply Hf.
Qed.
Lemma traversal_free relative : has_traversal relative = false ->
  forallb (fun e => negb (str_eq e "..")) (elements relative) = true.
Proof.
  unfold has_traversal. intros H. induction (elements relative) as [|e l IH]; [done|]. cbn in *.
  apply orb_false_iff in H as [-> H]. by apply IH.
Qed.

(** Joining a clean root and a relative path without steps up. *)
Lemma join_under r l relative : canonical r l -> render r l <> "." -> relative <> "" -> has_traversal relative = false ->
  filepath_join (render r l) relative = render r (l ++ names_of relative).
Proof.
  intros Hc Hdot Hrel Ht. unfold filepath_join, path_join.
  assert (Hroot : render r l <> "").
  { unfold render. destruct r; [done|]. destruct l as [|x l]; [done|]. by eapply join_not_empty. }
  cbn [List.filter]. rewrite (proj2 (str_ne_true _ _) Hroot), (proj2 (str_ne_true _ _) Hrel).
  change (join slash_s [render r l; relative]) with (render r l +:+ slash_s +:+ relative).
  rewrite clean_render, elements_slash.
  assert (Habs : is_abs (render r l +:+ slash_s +:+ relative) = r).
  { etransitivity; [|apply (render_abs r l Hc)]. unfold is_abs, has_prefix. rewrite !chars_app.
    change (chars slash_s) with [slash]. destruct (chars (render r l)) eqn:E; [|cbn; by rewrite !andb_true_r].
    exfalso. apply Hroot. by apply chars_inj. }
  rewrite Habs. f_equal.
  assert (Helem : forall m, clean_elements r [] (elements (render r l) ++ m) = clean_elements r (rev l) m).
  { intros m. unfold render. destruct r, l as [|x l]; [done| |done|].
    - rewrite render_elements by done. by apply (clean_canonical_id true (x :: l) m).
    - rewrite (canonical_elements _ _ Hc) by done. by apply clean_canonical_id. }
  rewrite Helem, clean_names by (by apply traversal_free). by rewrite rev_involutive.
Qed.
Lemma render_under r l names : canonical r l -> render r l <> "." -> render r (l ++ names) = under (render r l) names.
Proof.
  intros Hc Hdot. unfold under. destruct names as [|x names]; [by rewrite app_nil_r|].
  assert (Hj : forall a, a <> [] -> join slash_s (a ++ x :: names) = join slash_s a +:+ slash_s +:+ join slash_s (x :: names)).
  { intros a Ha. induction a as [|y a IH]; [done|]. destruct a as [|z a]; [done|].
    change (join slash_s ((y :: z :: a) ++ x :: names)) with (y +:+ slash_s +:+ join slash_s ((z :: a) ++ x :: names)).
    rewrite IH by done. apply chars_inj.
    change (join slash_s (y :: z :: a)) with (y +:+ slash_s +:+ join slash_s (z :: a)).
    rewrite !chars_app. by rewrite <- !app_assoc. }
  unfold render in *. destruct r.
  - destruct l as [|y l]; [done|]. rewrite Hj by done.
    destruct (str_eq _ slash_s) eqn:E; [|apply chars_inj; rewrite !chars_app; by rewrite <- !app_assoc].
    apply str_eq_true in E. apply (f_equal elements) in E. rewrite render_elements in E by done. injection E as -> _.
    by destruct (canonical_not _ _ "" Hc (list_elem_of_here _ _)).
  - destruct l as [|y l]; [done|].
    change (match (y :: l) ++ x :: names with [] => "." | _ => join slash_s ((y :: l) ++ x :: names) end)
      with (join slash_s ((y :: l) ++ x :: names)).
    rewrite Hj by done. destruct (str_eq _ slash_s) eqn:E.
    + apply str_eq_true in E. apply (f_equal elements) in E. rewrite (canonical_elements _ _ Hc) in E by done.
      injection E as -> _. by destruct (canonical_not _ _ "" Hc (list_elem_of_here _ _)).
    + apply chars_inj. rewrite !chars_app. by rewrite <- !app_assoc.
Qed.

Lemma strip_prefix l m : strip_common l (l ++ m) = ([], m).
Proof.
  induction l as [|x l IH]; [by destruct m|]. cbn [app strip_common].
  by rewrite (proj2 (str_eq_true x x) eq_refl).
Qed.
(** The path from a clean root to a path under it. *)
Lemma rel_under r l names : canonical r l -> render r l <> "." ->
  forallb good_element names = true -> Forall slash_free names ->
  filepath_rel (render r l) (render r (l ++ names)) = Some (match names with [] => "." | _ => join slash_s names end).
Proof.
  intros Hc Hdot Hn Hf. assert (Hc' : canonical r (l ++ names)) by by apply canonical_app.
  unfold filepath_rel. rewrite !render_clean by done.
  destruct (str_eq _ _) eqn:E.
  { apply str_eq_true, (f_equal segments) in E. rewrite !segments_render in E by done.
    apply app_inv_head in E. rewrite <- (app_nil_r l) in E at 1. apply app_inv_head in E. by subst. }
  rewrite !render_abs by done. rewrite eqb_reflx. cbn [negb].
  assert (Hne : names <> []) by (intros ->; rewrite app_nil_r in E; by apply str_eq_false in E).
  destruct (str_eq (render r (l ++ names)) ".") eqn:E2.
  { apply str_eq_true, (f_equal segments) in E2. rewrite segments_render in E2 by done.
    change (segments ".") with (@nil string) in E2. by destruct r, l, names. }
  rewrite !segments_render, app_assoc, strip_prefix by done. by destruct names.
Qed.
Lemma names_stay names : forallb good_element names = true -> Forall slash_free names ->
  escapes (match names with [] => "." | _ => join slash_s names end) = false.
Proof.
  intros Hn Hf. destruct names as [|x l]; [done|]. assert (Hj : elements (join slash_s (x :: l)) = x :: l) by by apply elements_join.
  assert (Hx : x <> "..").
  { intros ->. cbn [forallb] in Hn. change (good_element "..") with false in Hn. done. }
  unfold escapes. apply orb_false_iff. split.
  - apply str_eq_false. intros E. rewrite E in Hj. change (elements "..") with [".."] in Hj. congruence.
  - destruct (has_prefix _ "../") eqn:E; [|done]. exfalso. apply Hx.
    unfold has_prefix in E. apply prefix_of_skipn in E. revert E.
    generalize (skipn (length (chars "../")) (chars (join slash_s (x :: l)))) as rest. intros rest E.
    assert (Hs : join slash_s (x :: l) = ".." +:+ slash_s +:+ text rest).
    { apply chars_inj. rewrite E, !chars_app, chars_text. done. }
    rewrite Hs, elements_slash in Hj. change (elements "..") with [".."] in Hj. by injection Hj as <- _.
Qed.

Lemma resolve_inside_root root relative path :
  resolveInsideRoot root relative = Ok path <->
  path_clean root <> "." /\ trim_space relative <> "" /\ is_abs (trim_space relative) = false
  /\ has_traversal (trim_space relative) = false
  /\ path = under (path_clean root) (names_of (trim_space relative)).
Proof.
  unfold resolveInsideRoot. rewrite (clean_render root).
  pose proof (clean_canonical (is_abs root) [] (elements root) (canonical_nil _) (elements_no_slash root)) as Hc.
  revert Hc. generalize (clean_elements (is_abs root) [] (elements root)) as l. generalize (is_abs root) as r.
  intros r l Hc. generalize (trim_space relative) as rel. intros rel. cbv zeta.
  assert (Hempty : str_eq (render r l) "" = false).
  { apply str_eq_false. unfold render. destruct r; [done|]. destruct l as [|x l]; [done|]. by eapply join_not_empty. }
  rewrite Hempty. cbn [orb].
  destruct (str_eq (render r l) ".") eqn:E1; cbn [orb]; [apply str_eq_true in E1; naive_solver|]. apply str_eq_false in E1.
  destruct (str_eq rel "") eqn:E2; cbn [orb]; [apply str_eq_true in E2; naive_solver|]. apply str_eq_false in E2.
  destruct (is_abs rel) eqn:E3; [naive_solver|]. destruct (has_traversal rel) eqn:E4; [naive_solver|].
  rewrite join_under by done. pose proof (names_good rel) as [Hn Hf].
  assert (Hc' : canonical r (l ++ names_of rel)) by by apply canonical_app.
  rewrite render_clean, rel_under, names_stay, render_under by done. naive_solver.
Qed.

(** ** Properties *)

(** [resolveInsideRoot] accepts exactly a relative path that is not blank,
    names no parent directory and is resolved against a root other than the current
    directory, and the path it returns is the clean root itself or lies under it,
    at the named elements of the relative path. *)
Theorem resolve_inside root relative path :
  resolveInsideRoot root relative = Ok path <->
  path_clean root <> "." /\ trim_space relative <> "" /\ is_abs (trim_space relative) = false
  /\ has_traversal (trim_space relative) = false
  /\ path = under (path_clean root) (names_of (trim_space relative)).
Proof. apply resolve_inside_root. Qed.

Lemma resolve_inside_witness :
  resolveInsideRoot "/work/repo/" " envs//7/./app.yaml" = Ok "/work/repo/envs/7/app.yaml".
Proof. apply resolve_inside. repeat split; vm_compute; congruence. Defined.
