(* ===== verification/GitWriter.v ===== *)
(** * The writer of manifests

    [internal/gitops/writer.go] and [internal/gitops/commit.go]: [FileWriter],
    which writes and removes files under its root, and [CommitService], which
    commits and pushes them with git. *)

From stdpp Require Import base list gmap strings.
From Stdlib Require Import ZArith Lia Ascii String.
From S2P Require Import Prelude GoStrings GoPath OrchTypes GitPaths.

Local Open Scope string_scope.
Local Open Scope Z_scope.
Local Open Scope list_scope.

(** ** Calls *)

(** What [cmd.Run] gives: the two outputs, and an error. *)
Record git_output := { Go_Stdout : bytes; Go_Stderr : bytes; Go_Failure : option go_error }.
(** [os.Remove] and [os.RemoveAll]: gone, an error that [os.IsNotExist]
    accepts, or another one. *)
Inductive removal : Type := Removed | NotThere (err : go_error) | NotRemoved (err : go_error).
(** [os.Stat] *)
Inductive existence : Type := Present | Absent | Unknown (err : go_error).
(** The answer to a proposal; sending it may fail. *)
Inductive posted : Type := NotPosted (err : go_error) | PostAnswer (status : Z) (body : bytes).

(** [Git] is git in a directory, with variables added to the environment. *)
Inductive git_call : Type -> Type :=
| Mkdir (path : string) : git_call (option go_error)
| Write (path : string) (content : bytes) (mode : Z) : git_call (option go_error)
| Remove (path : string) : git_call removal
| RemoveAll (path : string) : git_call removal
| Stat (path : string) : git_call existence
| TempDir : git_call (option string)
| Git (dir : string) (env : list (string * string)) (args : list string) : git_call git_output
| Propose (endpoint header value : string) (payload : list (string * string)) : git_call posted
| NilCommitter : git_call Empty_set.

(** [ConflictError], and any other error. *)
Inductive git_error : Type := Conflict (operation message : string) | GitError (e : go_error).
(** [ConflictError.Error] *)
Definition git_error_text (e : git_error) : string :=
  match e with
  | Conflict operation message =>
      if str_eq operation "" then message else operation +:+ " conflict: " +:+ message
  | GitError e => ge_text e
  end.

(** ** Running git *)

Definition conflict_markers : list string :=
  ["non-fast-forward"; "fetch first"; "not possible to fast-forward"; "would be overwritten by checkout";
   "would be overwritten by merge"; "merge conflict"; "needs merge"].
(** [isGitConflictOutput] *)
Definition isGitConflictOutput (output : string) : bool := existsb (contains (to_lower output)) conflict_markers.
(** [allowedGitProtocols]: the loop over the arguments decides nothing. *)
Definition allowedGitProtocols (args : list string) : string :=
  if existsb (fun arg => is_abs arg || has_prefix (to_lower arg) "file:") args
  then "https:ssh:file" else "https:ssh:file".

Definition plain_env (args : list string) : list (string * string) :=
  [("GIT_TERMINAL_PROMPT", "0"); ("GIT_ALLOW_PROTOCOL", allowedGitProtocols args)].
Definition askpass_env (script secret : string) (args : list string) : list (string * string) :=
  [("GIT_ASKPASS", script); ("GIT_USERNAME", "oauth2"); ("GIT_PASSWORD", secret); ("GIT_TERMINAL_PROMPT", "0");
   ("GIT_ALLOW_PROTOCOL", allowedGitProtocols args)].
(** The script prints the variables, by the prompt that git gives it. *)
Definition newline : string := String (byte_of 10) "".
Definition askpass_script : string :=
  "#!/bin/sh" +:+ newline +:+ "case " +:+ String (byte_of 34) "$1" +:+ String (byte_of 34) " in *Username*) printf '%s\n' "
  +:+ String (byte_of 34) "$GIT_USERNAME" +:+ String (byte_of 34) " ;; *) printf '%s\n' "
  +:+ String (byte_of 34) "$GIT_PASSWORD" +:+ String (byte_of 34) " ;; esac" +:+ newline.

(** [installGitAskPass], the command, and the deferred removal. *)
Definition run_git (dir secret : string) (args : list string) : prog git_call git_output :=
  if str_eq (trim_space secret) "" then call (Git dir (plain_env args) args)
  else
    tmp <-- call TempDir;;
    match tmp with
    | None => call (Git dir (plain_env args) args)
    | Some tmp =>
        let script := filepath_join tmp "askpass.sh" in
        _ <-- call (Write script (chars askpass_script) 448);;
        r <-- call (Git dir (askpass_env script secret args) args);;
        _ <-- call (RemoveAll tmp);;
        Ret r
    end.
(** The error of a command. *)
Definition git_failure (r : git_output) : option git_error :=
  match Go_Failure r with
  | None => None
  | Some err =>
      let message := trim_space (text (Go_Stderr r)) in
      Some (if isGitConflictOutput message then Conflict "git operation" message
            else GitError {| ge_text := "git operation failed: " +:+ ge_text err +:+ ": " +:+ message;
                             ge_not_found := ge_not_found err; ge_deadline := ge_deadline err;
                             ge_stderr := ge_stderr err |})
  end.
(** [runGitWithSecret]; [runGit] has no secret. *)
Definition runGitWithSecret (dir secret : string) (args : list string) : prog git_call (option git_error) :=
  r <-- run_git dir secret args;; Ret (git_failure r).
Definition runGit (dir : string) (args : list string) : prog git_call (option git_error) :=
  runGitWithSecret dir "" args.
(** [gitOutputWithSecret], [gitOutput] *)
Definition gitOutputWithSecret (dir secret : string) (args : list string) : prog git_call (result git_error string) :=
  r <-- run_git dir secret args;;
  Ret (match git_failure r with Some err => Err err | None => Ok (text (Go_Stdout r)) end).
Definition gitOutput (dir : string) (args : list string) : prog git_call (result git_error string) :=
  gitOutputWithSecret dir "" args.
(** [hasRepoChanges] *)
Definition hasRepoChanges (dir : string) : prog git_call (result git_error bool) :=
  output <-! gitOutput dir ["status"; "--porcelain"];; Ret (Ok (str_ne (trim_space output) "")).

(** ** Commits *)

Record CommitResult := {
  Gr_Committed : bool; Gr_Pushed : bool; Gr_CommitSHA : string; Gr_Branch : string; Gr_PullRequestURL : string }.
Definition no_commit : CommitResult :=
  {| Gr_Committed := false; Gr_Pushed := false; Gr_CommitSHA := ""; Gr_Branch := ""; Gr_PullRequestURL := "" |}.

Record CommitService := {
  Cs_dir : string; Cs_push : bool; Cs_pushRemote : string; Cs_pushBranch : string;
  Cs_authorName : string; Cs_authorEmail : string; Cs_secret : string }.
(** [NewCommitServiceWithSecret] *)
Definition NewCommitServiceWithSecret (dir : string) (push : bool) (remote branch authorName authorEmail secret : string)
    : CommitService :=
  {| Cs_dir := dir; Cs_push := push; Cs_pushRemote := if str_eq remote "" then "origin" else remote;
     Cs_pushBranch := if str_eq branch "" then "main" else branch; Cs_authorName := authorName;
     Cs_authorEmail := authorEmail; Cs_secret := trim_space secret |}.

(** [validateGitRef] *)
Definition validateGitRef (label value : string) : option go_error :=
  if has_prefix (trim_space value) "-" then Some (errorf ("gitops " +:+ label +:+ " uses a forbidden option-like value"))
  else None.

Definition commit_args (s : CommitService) (message : string) : list string :=
  ["-c"; "user.name=" +:+ Cs_authorName s; "-c"; "user.email=" +:+ Cs_authorEmail s; "commit"; "-m"; message].
Definition push_args (s : CommitService) : list string := ["push"; Cs_pushRemote s; "HEAD:" +:+ Cs_pushBranch s].
Definition committed (s : CommitService) (sha : string) (pushed : bool) : CommitResult :=
  {| Gr_Committed := true; Gr_Pushed := pushed; Gr_CommitSHA := trim_space sha; Gr_Branch := Cs_pushBranch s;
     Gr_PullRequestURL := "" |}.
Definition unchanged (s : CommitService) : CommitResult :=
  {| Gr_Committed := false; Gr_Pushed := false; Gr_CommitSHA := ""; Gr_Branch := Cs_pushBranch s;
     Gr_PullRequestURL := "" |}.

(** [CommitService.Commit]: the result, and an error beside it. *)
Definition cs_Commit (s : CommitService) (message : string) : prog git_call (CommitResult * option git_error) :=
  let failed e := Ret (no_commit, Some e) in
  match validateGitRef "push remote" (Cs_pushRemote s), validateGitRef "push branch" (Cs_pushBranch s) with
  | Some err, _ | None, Some err => failed (GitError err)
  | None, None =>
      let message := if str_eq message "" then "envplane: update gitops manifests" else message in
      e <-- runGit (Cs_dir s) ["rev-parse"; "--is-inside-work-tree"];;
      match e with
      | Some err => failed err
      | None =>
          e <-- runGit (Cs_dir s) ["add"; "-A"; "."];;
          match e with
          | Some err => failed err
          | None =>
              changed <-- hasRepoChanges (Cs_dir s);;
              match changed with
              | Err err => failed err
              | Ok false => Ret (unchanged s, None)
              | Ok true =>
                  e <-- runGit (Cs_dir s) (commit_args s message);;
                  match e with
                  | Some err => failed err
                  | None =>
                      sha <-- gitOutput (Cs_dir s) ["rev-parse"; "HEAD"];;
                      match sha with
                      | Err err => failed err
                      | Ok sha =>
                          if Cs_push s then
                            e <-- runGitWithSecret (Cs_dir s) (Cs_secret s) (push_args s);;
                            match e with
                            | Some err => Ret (committed s sha false, Some err)
                            | None => Ret (committed s sha true, None)
                            end
                          else Ret (committed s sha false, None)
                      end
                  end
              end
          end
      end
  end.

(** ** Files *)

Record FileWriter := { Fw_dir : string; Fw_commit : bool; Fw_committer : option CommitService }.
(** [NewFileWriter], [NewGitSubdirWriterWithSecret] *)
Definition NewFileWriter (dir : string) (commit : bool) : FileWriter :=
  {| Fw_dir := dir; Fw_commit := commit; Fw_committer := None |}.
Definition NewGitSubdirWriterWithSecret (dir commitDir : string) (commit push : bool)
    (remote branch authorName authorEmail secret : string) : FileWriter :=
  {| Fw_dir := dir; Fw_commit := commit;
     Fw_committer := Some (NewCommitServiceWithSecret commitDir push remote branch authorName authorEmail secret) |}.

(** [FileWriter.WriteManifest], [RemoveManifest], [RemovePath] *)
Definition fw_WriteManifest (w : FileWriter) (filename : string) (content : bytes)
    : prog git_call (result git_error string) :=
  match resolveInsideRoot (Fw_dir w) filename with
  | Err err => Ret (Err (GitError err))
  | Ok path =>
      d <-- call (Mkdir (path_dir path));;
      match d with
      | Some err => Ret (Err (GitError err))
      | None =>
          f <-- call (Write path content 420);;
          Ret (match f with Some err => Err (GitError err) | None => Ok path end)
      end
  end.
Definition removal_error (r : removal) : option git_error :=
  match r with NotRemoved err => Some (GitError err) | _ => None end.
Definition fw_RemoveManifest (w : FileWriter) (filename : string) : prog git_call (option git_error) :=
  match resolveInsideRoot (Fw_dir w) filename with
  | Err err => Ret (Some (GitError err))
  | Ok path => r <-- call (Remove path);; Ret (removal_error r)
  end.
Definition fw_RemovePath (w : FileWriter) (path : string) : prog git_call (option git_error) :=
  match resolveInsideRoot (Fw_dir w) path with
  | Err err => Ret (Some (GitError err))
  | Ok path => r <-- call (RemoveAll path);; Ret (removal_error r)
  end.
(** [FileWriter.Commit]; a writer without a committer dereferences nil. *)
Definition fw_Commit (w : FileWriter) (message : string) : prog git_call (CommitResult * option git_error) :=
  if negb (Fw_commit w) then Ret (no_commit, None)
  else match Fw_committer w with
       | Some s => cs_Commit s message
       | None => Vis NilCommitter (fun never : Empty_set => match never return prog git_call _ with end)
       end.

(** ** The commands of a program *)

(** The git commands of a trace, with what they gave. *)
Definition ran (ev : event git_call) : option (list string * git_output) :=
  match ev with
  | @Event _ R c r => match c in git_call R return R -> option (list string * git_output) with
                      | Git _ _ args => fun r => Some (args, r)
                      | _ => fun _ => None
                      end r
  end.
Definition commands (t : list (event git_call)) : list (list string * git_output) := omap ran t.
Definition succeeded (run : list string * git_output) : bool :=
  match Go_Failure run.2 with None => true | Some _ => false end.

Lemma commands_app t1 t2 : commands (t1 ++ t2) = commands t1 ++ commands t2.
Proof. apply omap_app. Qed.
Lemma failure_none r : git_failure r = None <-> Go_Failure r = None.
Proof. unfold git_failure. by destruct (Go_Failure r). Qed.

(** Whatever the secret, a command runs git once. *)
Lemma run_git_commands dir secret args t r : exec (run_git dir secret args) t r -> commands t = [(args, r)].
Proof.
  unfold run_git. destruct (str_eq _ ""); [by intros ->%exec_call|]. intros Hx. exec_steps.
  match goal with tmp : option string |- _ => destruct tmp as [tmp|] end; by exec_steps.
Qed.
Lemma runGit_commands dir secret args t e : exec (runGitWithSecret dir secret args) t e ->
  exists r, commands t = [(args, r)] /\ e = git_failure r.
Proof.
  unfold runGitWithSecret. intros Hx. apply exec_bind in Hx as (t1 & t2 & r & -> & Hr & [-> ->]).
  exists r. split; [|done]. rewrite app_nil_r. by eapply run_git_commands.
Qed.
Lemma gitOutput_commands dir secret args t o : exec (gitOutputWithSecret dir secret args) t o ->
  exists r, commands t = [(args, r)]
    /\ o = match git_failure r with Some err => Err err | None => Ok (text (Go_Stdout r)) end.
Proof.
  unfold gitOutputWithSecret. intros Hx. apply exec_bind in Hx as (t1 & t2 & r & -> & Hr & [-> ->]).
  exists r. split; [|done]. rewrite app_nil_r. by eapply run_git_commands.
Qed.
Lemma changes_commands dir t o : exec (hasRepoChanges dir) t o ->
  exists r, commands t = [(["status"; "--porcelain"], r)]
    /\ o = match git_failure r with Some err => Err err | None => Ok (str_ne (trim_space (text (Go_Stdout r))) "") end.
Proof.
  unfold hasRepoChanges, gitOutput, pbind. intros Hx. apply exec_bind in Hx as (t1 & t2 & o' & -> & Hr & Hx).
  apply gitOutput_commands in Hr as (r & Hr & ->). exists r. rewrite commands_app, Hr.
  destruct (git_failure r); destruct Hx as [-> ->]; by split.
Qed.

(** ** Commits in order *)

(** The commands of a commit. *)
Definition commit_plan (s : CommitService) (message : string) : list (list string) :=
  [["rev-parse"; "--is-inside-work-tree"]; ["add"; "-A"; "."]; ["status"; "--porcelain"];
   commit_args s (if str_eq message "" then "envplane: update gitops manifests" else message);
   ["rev-parse"; "HEAD"]] ++ (if Cs_push s then [push_args s] else []).

Lemma failed_run r e : git_failure r = Some e -> exists err, Go_Failure r = Some err.
Proof. unfold git_failure. destruct (Go_Failure r); [by eexists|done]. Qed.

(** One more command of a commit: it failed, or the commit goes on. *)
Ltac next_command lemma :=
  let r := fresh "r" in let E := fresh "E" in let Hr := fresh "Hr" in let H' := fresh "H" in
  match goal with
  | H : exec (bind _ _) _ _ |- _ =>
      apply exec_bind in H as (? & ? & ? & -> & H' & H);
      apply lemma in H' as (r & Hr & ->); rewrite commands_app, Hr; clear Hr;
      destruct (git_failure r) eqn:E;
      [apply failed_run in E as [? E]|apply failure_none in E]; cbn beta iota in H
  end.
(** All that is said of a finished commit, from its list of commands. *)
Ltac commit_ends :=
  match goal with H : exec (Ret _) _ _ |- _ => destruct H as [-> [= -> ->]] end;
  cbn [commands omap list_omap app]; unfold commit_plan, succeeded;
  cbn [app length firstn fmap list_fmap fst snd removelast forallb List.filter];
  repeat match goal with
         | E : Go_Failure ?r = _ |- _ => rewrite E in *; clear E
         | E : Cs_push ?s = _ |- _ => rewrite E in *; clear E
         end;
  cbn [app length firstn forallb List.filter andb Gr_Committed Gr_Pushed no_commit unchanged committed];
  split_and!; try done; naive_solver lia.

(** A commit that is reported was made. *)
Lemma commit_made s message t r e : exec (cs_Commit s message) t (r, e) -> Gr_Committed r = true ->
  exists m out, In (commit_args s m, out) (commands t) /\ Go_Failure out = None.
Proof.
  intros Hx Hc. unfold cs_Commit in Hx. destruct (validateGitRef "push remote" _); [by destruct Hx as [_ [= -> _]]|].
  destruct (validateGitRef "push branch" _); [by destruct Hx as [_ [= -> _]]|]. cbv zeta in Hx.
  do 2 (next_command runGit_commands; [by destruct Hx as [_ [= -> _]]|]).
  next_command changes_commands; [by destruct Hx as [_ [= -> _]]|].
  destruct (str_ne _ ""); [|by destruct Hx as [_ [= -> _]]].
  next_command runGit_commands; [by destruct Hx as [_ [= -> _]]|].
  eexists _, _. split; [do 3 right; left; reflexivity|done].
Qed.

(** ** Properties *)

(** A commit runs its commands in order, each only when every one before it
    succeeded: inside a work tree, add, status, commit, the new head, and the push
    where one is asked for.  It reports a commit exactly when five of them
    succeeded, a push exactly when the push did, and no error exactly when all that
    ran succeeded; then it stopped after a blank status, without a commit, or
    ran them all. *)
Theorem commit_ordered s message t r e (Hx : exec (cs_Commit s message) t (r, e)) :
  let runs := commands t in
  let ok := length (List.filter succeeded runs) in
  runs.*1 = firstn (length runs) (commit_plan s message)
  /\ forallb succeeded (removelast runs) = true
  /\ (Gr_Committed r = true <-> (5 <= ok)%nat)
  /\ (Gr_Pushed r = true <-> Cs_push s = true /\ (6 <= ok)%nat)
  /\ (e = None <-> runs <> [] /\ forallb succeeded runs = true)
  /\ (e = None -> (length runs = 3%nat /\ r = unchanged s)
                  \/ (length runs = length (commit_plan s message)
                      /\ exists sha, runs.*2 !! 4%nat = Some sha /\ r = committed s (text (Go_Stdout sha)) (Cs_push s))).
Proof.
  cbv zeta. unfold cs_Commit in Hx. destruct (validateGitRef "push remote" _); [commit_ends|].
  destruct (validateGitRef "push branch" _); [commit_ends|]. cbv zeta in Hx.
  do 2 (next_command runGit_commands; [commit_ends|]). next_command changes_commands; [commit_ends|].
  destruct (str_ne _ ""); [|commit_ends].
  next_command runGit_commands; [commit_ends|]. next_command gitOutput_commands; [commit_ends|].
  destruct (Cs_push s) eqn:Ep; [|commit_ends]. next_command runGit_commands; commit_ends.
Qed.

(** A commit that pushes, with a secret, where every command succeeds. *)
Definition sample_service : CommitService := NewCommitServiceWithSecret "/work" true "" "preview" "EnvPlane" "bot@x" " s3cret ".
Definition sample_git R (h : list (event git_call)) (c : git_call R) : option R :=
  match c in git_call R return option R with
  | Write _ _ _ => Some None
  | RemoveAll _ => Some Removed
  | TempDir => Some (Some "/tmp/askpass")
  | Git _ _ args => Some {| Go_Stdout := chars "1f3a"; Go_Stderr := []; Go_Failure := None |}
  | _ => None
  end.
Definition sample_commit : option (list (event git_call) * (CommitResult * option git_error)) :=
  try_run sample_git [] (cs_Commit sample_service "preview 7").
Definition sample_trace : list (event git_call) := match sample_commit with Some (t, _) => t | None => [] end.
Lemma sample_commit_exec :
  exec (cs_Commit sample_service "preview 7") sample_trace (committed sample_service "1f3a" true, None).
Proof. apply (try_run_exec sample_git _ []). vm_compute. reflexivity. Qed.

Lemma commit_ordered_witness :
  (commands sample_trace).*1 = firstn 6 (commit_plan sample_service "preview 7")
  /\ Gr_Pushed (committed sample_service "1f3a" true) = true.
Proof.
  pose proof (commit_ordered _ _ _ _ _ sample_commit_exec) as (H1 & _ & _ & H4 & _).
  split; [exact H1|]. apply H4. split; [reflexivity|]. vm_compute. repeat constructor.
Defined.
