(* ===== verification/GitRepository.v ===== *)
(** * The writer of a repository

    [internal/gitops/repository_writer.go] and [internal/gitops/proposal.go]:
    [RepositoryWriter], which clones or updates its workspace once, writes under
    it and proposes what it committed. *)

From stdpp Require Import base list gmap strings pretty.
From Stdlib Require Import ZArith Lia Ascii String.
From S2P Require Import Prelude GoStrings GoPath OrchTypes HelmValues GitPaths GitWriter.

Local Open Scope string_scope.
Local Open Scope Z_scope.
Local Open Scope list_scope.

(** ** Proposals *)

(** encoding/json of the answers of GitHub and GitLab (address and number), and
    [url.PathEscape]. *)
Class ProposalJson := {
  decode_github : bytes -> result go_error (string * Z);
  decode_gitlab : bytes -> result go_error (string * Z);
  escape_path : string -> string }.

Record PullRequestRequest := {
  Pq_Provider : string; Pq_APIBase : string; Pq_Token : string; Pq_RepoURL : string;
  Pq_Title : string; Pq_Body : string; Pq_Head : string; Pq_Base : string }.
Record PullRequestResult := { Pq_URL : string; Pq_Number : string }.

(** [defaultString] *)
Definition defaultString (value fallback : string) : string :=
  if str_eq (trim_space value) "" then fallback else trim_space value.
Definition trim_suffix (s p : string) : string :=
  if has_suffix s p then text (firstn (String.length s - String.length p) (chars s)) else s.
Definition trim_slashes (s : string) : string := text (trim_bytes_of (char_eq slash) (chars s)).
Definition right_slashes (s : string) : string := text (trim_right_bytes_of (char_eq slash) (chars s)).
(** [strings.Replace(s, ":", "/", 1)] *)
Definition colon_to_slash (s : string) : string :=
  match split2 ":" s with Some (a, b) => a +:+ slash_s +:+ b | None => s end.

Section Proposals.
Context `{GoNet} `{Quote} `{ProposalJson}.

(** [RepositoryPath]: the last two elements. *)
Fixpoint last_two (l : list string) : option (string * string) :=
  match l with
  | [] => None
  | [_] => None
  | [a; b] => Some (a, b)
  | _ :: l' => last_two l'
  end.
Definition RepositoryPath (rawURL : string) : result go_error string :=
  let value := trim_suffix (trim_space rawURL) ".git" in
  let value := if has_prefix value "git@" then colon_to_slash (trim_prefix value "git@") else value in
  let value := match url_parse value with
               | Some u => if str_ne (U_Host u) "" then trim_slashes (U_Path u) else value
               | None => value
               end in
  match last_two (elements (trim_slashes value)) with
  | Some (a, b) => Ok (a +:+ slash_s +:+ b)
  | None => Err (errorf ("cannot derive repository path from " +:+ quote rawURL))
  end.

(** [PullRequestService.post] *)
Definition post {A} (endpoint header value : string) (payload : list (string * string))
    (decode : bytes -> result go_error A) : prog git_call (result go_error A) :=
  r <-- call (Propose endpoint header (if str_ne header "" && str_ne value "" then value else "") payload);;
  Ret (match r with
       | NotPosted err => Err err
       | PostAnswer status body =>
           if (status <? 200) || (300 <=? status)
           then Err (errorf ("gitops pull request failed: status=" +:+ pretty status +:+ " body="
                             +:+ trim_space (text (firstn 1024 body))))
           else decode body
       end).
(** [createGitHub], [createGitLab] *)
Definition createGitHub (q : PullRequestRequest) : prog git_call (result go_error PullRequestResult) :=
  repo <-! Ret (RepositoryPath (Pq_RepoURL q));;
  let api := right_slashes (defaultString (Pq_APIBase q) "https://api.github.com") in
  answer <-! post (api +:+ "/repos/" +:+ repo +:+ "/pulls") "Authorization" ("Bearer " +:+ Pq_Token q)
               [("title", Pq_Title q); ("head", Pq_Head q); ("base", Pq_Base q); ("body", Pq_Body q)] decode_github;;
  Ret (Ok {| Pq_URL := answer.1; Pq_Number := pretty answer.2 |}).
Definition createGitLab (q : PullRequestRequest) : prog git_call (result go_error PullRequestResult) :=
  repo <-! Ret (RepositoryPath (Pq_RepoURL q));;
  let api := right_slashes (defaultString (Pq_APIBase q) "https://gitlab.com/api/v4") in
  answer <-! post (api +:+ "/projects/" +:+ escape_path repo +:+ "/merge_requests") "PRIVATE-TOKEN" (Pq_Token q)
               [("title", Pq_Title q); ("source_branch", Pq_Head q); ("target_branch", Pq_Base q);
                ("description", Pq_Body q)] decode_gitlab;;
  Ret (Ok {| Pq_URL := answer.1; Pq_Number := pretty answer.2 |}).
(** [PullRequestService.Create] *)
Definition CreateProposal (q : PullRequestRequest) : prog git_call (result go_error PullRequestResult) :=
  let provider := to_lower (trim_space (Pq_Provider q)) in
  if str_eq provider "github" then createGitHub q
  else if str_eq provider "gitlab" then createGitLab q
  else Ret (Err (errorf ("gitops pull request provider " +:+ quote (Pq_Provider q) +:+ " is not supported"))).
End Proposals.

(** ** Targets *)

Record RepositoryTarget := {
  Rt_URL : string; Rt_Provider : string; Rt_Branch : string; Rt_BranchStrategy : string; Rt_Path : string;
  Rt_SecretValue : string; Rt_Workspace : string; Rt_Commit : bool; Rt_Push : bool; Rt_PushRemote : string;
  Rt_PushBranch : string; Rt_AuthorName : string; Rt_AuthorEmail : string; Rt_CreatePullRequest : bool;
  Rt_PullRequestTitle : string; Rt_PullRequestBody : string; Rt_PullRequestAPI : string }.

(** [normalizeBranchStrategy] *)
Definition normalizeBranchStrategy (value : string) : string :=
  let v := to_lower (trim_space value) in
  if existsb (str_eq v) [""; "direct"; "main"] then "direct"
  else if existsb (str_eq v) ["branch"; "environment-branch"; "env-branch"] then "branch"
  else if existsb (str_eq v) ["pull-request"; "pr"; "merge-request"; "mr"] then "pull-request"
  else "direct".

(** [RepositoryWriter]: [once] holds the error that the preparation ended with. *)
Record RepositoryWriter := {
  Rw_target : RepositoryTarget; Rw_once : option (option git_error); Rw_writer : FileWriter }.

Section Repository.
Context `{GoNet} `{Quote} `{ProposalJson}.

(** [validateRepositoryTarget] *)
Definition validateRepositoryTarget (rawURL path : string) : option go_error :=
  if has_prefix (trim_space rawURL) "-" || has_prefix (to_lower (trim_space rawURL)) "ext::"
  then Some (errorf "gitops repository url uses a forbidden transport")
  else
    let accepted := match url_parse (trim_space rawURL) with
                    | None => false
                    | Some u => str_eq (U_Scheme u) "https" || str_eq (U_Scheme u) "ssh"
                                || has_prefix rawURL "git@" || is_abs rawURL
                    end in
    if negb accepted then Some (errorf "gitops repository url must use https, ssh, or scp syntax")
    else if is_abs path then Some (errorf "gitops repository path must be relative")
    else if has_traversal path then Some (errorf "gitops repository path traversal is not allowed")
    else None.

(** The normalized target of [NewRepositoryWriter]. *)
Definition normalize_target (t : RepositoryTarget) : RepositoryTarget :=
  let branch := if str_eq (trim_space (Rt_Branch t)) "" then "main" else trim_space (Rt_Branch t) in
  let strategy := normalizeBranchStrategy (Rt_BranchStrategy t) in
  {| Rt_URL := trim_space (Rt_URL t); Rt_Provider := to_lower (trim_space (Rt_Provider t)); Rt_Branch := branch;
     Rt_BranchStrategy := strategy; Rt_Path := trim_slashes (trim_space (Rt_Path t));
     Rt_SecretValue := Rt_SecretValue t; Rt_Workspace := trim_space (Rt_Workspace t); Rt_Commit := Rt_Commit t;
     Rt_Push := Rt_Push t; Rt_PushRemote := trim_space (Rt_PushRemote t);
     Rt_PushBranch := trim_space (if str_eq (Rt_PushBranch t) "" then branch else Rt_PushBranch t);
     Rt_AuthorName := Rt_AuthorName t; Rt_AuthorEmail := Rt_AuthorEmail t;
     Rt_CreatePullRequest := if str_eq strategy "pull-request" then true else Rt_CreatePullRequest t;
     Rt_PullRequestTitle := Rt_PullRequestTitle t; Rt_PullRequestBody := Rt_PullRequestBody t;
     Rt_PullRequestAPI := Rt_PullRequestAPI t |}.
(** [NewRepositoryWriter] *)
Definition NewRepositoryWriter (target : RepositoryTarget) : result go_error RepositoryWriter :=
  let t := normalize_target target in
  match validateRepositoryTarget (Rt_URL t) (Rt_Path t) with
  | Some err => Err err
  | None =>
      refuse str_eq (Rt_URL t) "" with errorf "gitops repository url is required";;
      refuse str_eq (Rt_Workspace t) "" with errorf "gitops repository workspace is required";;
      match validateGitRef "branch" (Rt_Branch t) with
      | Some err => Err err
      | None =>
          match validateGitRef "push remote" (Rt_PushRemote t) with
          | Some err => Err err
          | None =>
              match validateGitRef "push branch" (Rt_PushBranch t) with
              | Some err => Err err
              | None => Ok {| Rw_target := t; Rw_once := None; Rw_writer := NewFileWriter "" false |}
              end
          end
      end
  end.

(** [usesWorkBranch] *)
Definition usesWorkBranch (t : RepositoryTarget) : bool :=
  str_eq (Rt_BranchStrategy t) "branch" || str_eq (Rt_BranchStrategy t) "pull-request"
  || str_ne (Rt_PushBranch t) (Rt_Branch t).

(** The steps of [prepare]: clone or fetch, and check out. *)
Definition clone_args (t : RepositoryTarget) : list string :=
  ["clone"] ++ (if str_ne (Rt_Branch t) "" then ["--branch"; Rt_Branch t] else []) ++ ["--"; Rt_URL t; Rt_Workspace t].
Definition obtain (t : RepositoryTarget) : prog git_call (option git_error) :=
  s <-- call (Stat (filepath_join (Rt_Workspace t) ".git"));;
  match s with
  | Unknown err => Ret (Some (GitError err))
  | Absent =>
      r <-- call (RemoveAll (Rt_Workspace t));;
      match r with
      | NotThere err | NotRemoved err => Ret (Some (GitError err))
      | Removed => runGitWithSecret "" (Rt_SecretValue t) (clone_args t)
      end
  | Present => runGitWithSecret (Rt_Workspace t) (Rt_SecretValue t) ["fetch"; "origin"]
  end.
Definition check_out (t : RepositoryTarget) : prog git_call (option git_error) :=
  if usesWorkBranch t
  then runGit (Rt_Workspace t) ["checkout"; "-B"; Rt_PushBranch t; "origin/" +:+ Rt_Branch t]
  else
    e <-- runGit (Rt_Workspace t) ["checkout"; "-f"; Rt_Branch t];;
    match e with
    | Some err => Ret (Some err)
    | None => runGit (Rt_Workspace t) ["reset"; "--hard"; "origin/" +:+ Rt_Branch t]
    end.
Definition prepared_writer (t : RepositoryTarget) : FileWriter :=
  let writeDir := if str_ne (Rt_Path t) "" then filepath_join (Rt_Workspace t) (Rt_Path t) else Rt_Workspace t in
  NewGitSubdirWriterWithSecret writeDir (Rt_Workspace t) (Rt_Commit t) (Rt_Push t) (Rt_PushRemote t)
    (Rt_PushBranch t) (Rt_AuthorName t) (Rt_AuthorEmail t) (Rt_SecretValue t).
(** [prepare] *)
Definition prepare (t : RepositoryTarget) : prog git_call (result git_error FileWriter) :=
  d <-- call (Mkdir (path_dir (Rt_Workspace t)));;
  match d with
  | Some err => Ret (Err (GitError err))
  | None =>
      e <-- obtain t;;
      match e with
      | Some err => Ret (Err err)
      | None =>
          e <-- check_out t;;
          Ret (match e with Some err => Err err | None => Ok (prepared_writer t) end)
      end
  end.
(** [ensure]: the first call prepares, every later one gets its error. *)
Definition ensure (w : RepositoryWriter) : prog git_call (RepositoryWriter * option git_error) :=
  match Rw_once w with
  | Some e => Ret (w, e)
  | None =>
      r <-- prepare (Rw_target w);;
      Ret (match r with
           | Err err => ({| Rw_target := Rw_target w; Rw_once := Some (Some err); Rw_writer := Rw_writer w |}, Some err)
           | Ok fw => ({| Rw_target := Rw_target w; Rw_once := Some None; Rw_writer := fw |}, None)
           end)
  end.

(** ** Operations *)

(** [RemovePath] of a prepared writer. *)
Definition remove_path (w : RepositoryWriter) (path : string) : prog git_call (option git_error) :=
  let failed message := Ret (Some (GitError (errorf message))) in
  let baseDir := path_clean (Fw_dir (Rw_writer w)) in
  let repoRoot := path_clean (Rt_Workspace (Rw_target w)) in
  let baseDir := if str_eq baseDir "." then repoRoot else baseDir in
  if str_eq repoRoot "" || str_eq repoRoot "." then failed "gitops repository workspace is required"
  else
    match filepath_rel repoRoot baseDir with
    | None => failed ("Rel: can't make " +:+ baseDir +:+ " relative to " +:+ repoRoot)
    | Some baseRel =>
        if escapes baseRel then failed "writer base path escapes gitops repository root"
        else
          let requestedPath := trim_space path in
          if str_eq requestedPath "" then failed "path is required"
          else if is_abs requestedPath then failed "absolute paths are not allowed"
          else if has_traversal requestedPath then failed "path traversal is not allowed"
          else
            let targetPath := path_clean (filepath_join baseDir requestedPath) in
            match filepath_rel repoRoot targetPath with
            | None => failed ("Rel: can't make " +:+ targetPath +:+ " relative to " +:+ repoRoot)
            | Some targetRel =>
                if str_eq targetRel "." then failed "refusing to remove gitops repository root"
                else if escapes targetRel then failed "path escapes gitops repository root"
                else r <-- call (RemoveAll targetPath);; Ret (removal_error r)
            end
    end.
(** [Commit] of a prepared writer, with the proposal. *)
Definition proposal_request (t : RepositoryTarget) (message : string) : PullRequestRequest :=
  {| Pq_Provider := Rt_Provider t; Pq_APIBase := Rt_PullRequestAPI t; Pq_Token := Rt_SecretValue t;
     Pq_RepoURL := Rt_URL t; Pq_Title := defaultString (Rt_PullRequestTitle t) message;
     Pq_Body := Rt_PullRequestBody t; Pq_Head := Rt_PushBranch t; Pq_Base := Rt_Branch t |}.
Definition with_proposal (r : CommitResult) (url : string) : CommitResult :=
  {| Gr_Committed := Gr_Committed r; Gr_Pushed := Gr_Pushed r; Gr_CommitSHA := Gr_CommitSHA r;
     Gr_Branch := Gr_Branch r; Gr_PullRequestURL := url |}.
Definition commit_proposed (w : RepositoryWriter) (message : string) : prog git_call (CommitResult * option git_error) :=
  let t := Rw_target w in
  c <-- fw_Commit (Rw_writer w) message;;
  let '(result, err) := c in
  match err with
  | Some err => Ret (result, Some err)
  | None =>
      if negb (Gr_Committed result) || negb (Rt_CreatePullRequest t) then Ret (result, None)
      else if str_eq (trim_space (Rt_SecretValue t)) ""
      then Ret (result, Some (GitError (errorf "gitops pull request token is required")))
      else
        p <-- CreateProposal (proposal_request t message);;
        Ret (match p with
             | Err err => (result, Some (GitError err))
             | Ok proposal => (with_proposal result (Pq_URL proposal), None)
             end)
  end.

(** The methods of [Writer], on a [RepositoryWriter]. *)
Inductive writer_op : Type -> Type :=
| WriteManifest (filename : string) (content : bytes) : writer_op (result git_error string)
| RemoveManifest (filename : string) : writer_op (option git_error)
| RemovePath (path : string) : writer_op (option git_error)
| CommitAll (message : string) : writer_op (CommitResult * option git_error).
Definition prepared_op {R} (w : RepositoryWriter) (op : writer_op R) : prog git_call R :=
  match op with
  | WriteManifest filename content => fw_WriteManifest (Rw_writer w) filename content
  | RemoveManifest filename => fw_RemoveManifest (Rw_writer w) filename
  | RemovePath path => remove_path w path
  | CommitAll message => commit_proposed w message
  end.
(** What an operation returns when the preparation failed. *)
Definition not_prepared {R} (op : writer_op R) (err : git_error) : R :=
  match op in writer_op R return R with
  | WriteManifest _ _ => Err err
  | RemoveManifest _ => Some err
  | RemovePath _ => Some err
  | CommitAll _ => (no_commit, Some err)
  end.
Definition repository_op {R} (w : RepositoryWriter) (op : writer_op R) : prog git_call (RepositoryWriter * R) :=
  e <-- ensure w;;
  let '(w, err) := e in
  match err with
  | Some err => Ret (w, not_prepared op err)
  | None => r <-- prepared_op w op;; Ret (w, r)
  end.
End Repository.

(** [RepositoryWorkspace] *)
Definition RepositoryWorkspace `{Sha256} (root repositoryURL branch : string) : string :=
  let identity := chars (trim_space repositoryURL) ++ byte_of 0 :: chars (trim_space branch) in
  filepath_join root (text (firstn 16 (chars (sha256_hex identity)))).

(** ** Lemmas *)

(** *** Under the workspace *)

Lemma clean_app r out a b : clean_elements r out (a ++ b) = clean_elements r (rev (clean_elements r out a)) b.
Proof.
  revert out. induction a as [|e a IH]; intros out; cbn [app clean_elements]; [by rewrite rev_involutive|].
  destruct (str_eq e "" || str_eq e "."); [apply IH|]. destruct (str_eq e ".."); [|apply IH].
  destruct out as [|o out]; [apply IH|]. destruct (str_eq o ".."); apply IH.
Qed.
(** A clean path has a canonical form. *)
Lemma clean_form s : exists r l, canonical r l /\ path_clean s = render r l /\ is_abs s = r
  /\ clean_elements r [] (elements s) = l.
Proof.
  exists (is_abs s), (clean_elements (is_abs s) [] (elements s)). split; [|by rewrite clean_render].
  apply clean_canonical; [apply canonical_nil|apply elements_no_slash].
Qed.
Lemma join_clean a b : a <> "" -> b <> "" -> has_traversal b = false -> path_clean a <> "." ->
  filepath_join a b = under (path_clean a) (names_of b).
Proof.
  intros Ha Hb Ht Hdot. destruct (clean_form a) as (r & l & Hc & Hr & Habs & Hl). rewrite Hr in *.
  rewrite <- render_under by done. unfold filepath_join, path_join. cbn [List.filter].
  rewrite (proj2 (str_ne_true _ _) Ha), (proj2 (str_ne_true _ _) Hb).
  change (join slash_s [a; b]) with (a +:+ slash_s +:+ b). rewrite clean_render, elements_slash, clean_app.
  assert (is_abs (a +:+ slash_s +:+ b) = r) as ->.
  { rewrite <- Habs. unfold is_abs, has_prefix. rewrite !chars_app. change (chars slash_s) with [slash].
    destruct (chars a) eqn:E; [|cbn; by rewrite !andb_true_r]. exfalso. apply Ha. by apply chars_inj. }
  rewrite Hl, clean_names by (by apply traversal_free). by rewrite rev_involutive.
Qed.
(** Names under a clean root: clean again, and reached from the root by them. *)
Definition good_names (names : list string) : Prop := forallb good_element names = true /\ Forall slash_free names.
Lemma under_form s names : path_clean s <> "." -> good_names names ->
  exists r l, canonical r l /\ path_clean s = render r l /\ canonical r (l ++ names)
  /\ under (path_clean s) names = render r (l ++ names).
Proof.
  intros Hdot [Hn Hf]. destruct (clean_form s) as (r & l & Hc & Hr & _ & _). exists r, l. rewrite Hr in *.
  split; [done|]. split; [done|]. split; [by apply canonical_app|]. by rewrite render_under.
Qed.
Lemma under_clean s names : path_clean s <> "." -> good_names names -> path_clean (under (path_clean s) names) = under (path_clean s) names.
Proof. intros Hdot Hn. destruct (under_form s names Hdot Hn) as (r & l & _ & _ & Hc & ->). by apply render_clean. Qed.
Lemma under_rel s names : path_clean s <> "." -> good_names names ->
  filepath_rel (path_clean s) (under (path_clean s) names) = Some (match names with [] => "." | _ => join slash_s names end).
Proof. intros Hdot Hn. destruct (under_form s names Hdot Hn) as (r & l & Hc & Hr & _ & ->). rewrite Hr in *. destruct Hn. by apply rel_under. Qed.
Lemma under_under s a b : path_clean s <> "." -> good_names a -> under (under (path_clean s) a) b = under (path_clean s) (a ++ b).
Proof.
  intros Hdot Ha. destruct (under_form s a Hdot Ha) as (r & l & Hc & Hr & Hca & Hu).
  assert (Hd : render r (l ++ a) <> ".").
  { intros E. apply Hdot. rewrite Hr. destruct r; [done|]. destruct l as [|x l]; [done|].
    pose proof (canonical_elements _ _ Hca ltac:(done)) as He. change (render false ((x :: l) ++ a)) with (join slash_s ((x :: l) ++ a)) in E.
    rewrite E in He. change (elements ".") with ["."] in He. injection He as <- _.
    by destruct (canonical_not _ _ "." Hc (list_elem_of_here _ _)). }
  rewrite Hu, <- render_under, <- app_assoc by done. rewrite Hr in *. by rewrite <- render_under.
Qed.
Lemma under_not_dot s names : path_clean s <> "." -> good_names names -> under (path_clean s) names <> ".".
Proof.
  intros Hdot Hn E. pose proof (under_rel s names Hdot Hn) as Hr. rewrite E in Hr.
  destruct (under_form s names Hdot Hn) as (r & l & Hc & Hr' & Hca & Hu). rewrite E in Hu.
  destruct r; [done|]. destruct l as [|x l]; [by rewrite Hr' in Hdot|].
  change (render false ((x :: l) ++ names)) with (join slash_s ((x :: l) ++ names)) in Hu.
  pose proof (canonical_elements _ _ Hca ltac:(done)) as He. rewrite <- Hu in He.
  change (elements ".") with ["."] in He. injection He as <- _.
  by destruct (canonical_not _ _ "." Hc (list_elem_of_here _ _)).
Qed.
Lemma good_names_of s : good_names (names_of s).
Proof. apply names_good. Qed.
Lemma good_names_app a b : good_names a -> good_names b -> good_names (a ++ b).
Proof. intros [Ha Hfa] [Hb Hfb]. split; [by rewrite forallb_app, Ha|by apply Forall_app]. Qed.

Section RepositoryLemmas.
Context `{GoNet} `{Quote} `{ProposalJson}.

Lemma new_target target w : NewRepositoryWriter target = Ok w ->
  w = {| Rw_target := normalize_target target; Rw_once := None; Rw_writer := NewFileWriter "" false |}
  /\ Rt_Workspace (Rw_target w) <> "" /\ has_traversal (Rt_Path (Rw_target w)) = false
  /\ validateRepositoryTarget (Rt_URL (Rw_target w)) (Rt_Path (Rw_target w)) = None
  /\ validateGitRef "branch" (Rt_Branch (Rw_target w)) = None
  /\ validateGitRef "push remote" (Rt_PushRemote (Rw_target w)) = None
  /\ validateGitRef "push branch" (Rt_PushBranch (Rw_target w)) = None.
Proof.
  unfold NewRepositoryWriter. cbv zeta. destruct (validateRepositoryTarget _ _) eqn:Ev; [done|].
  destruct (str_eq _ "") eqn:E1; [done|]. destruct (str_eq (Rt_Workspace _) "") eqn:E2; [done|].
  destruct (validateGitRef "branch" _) eqn:Eb; [done|]. destruct (validateGitRef "push remote" _) eqn:Er; [done|].
  destruct (validateGitRef "push branch" _) eqn:Ep; [done|]. intros [= <-]. cbn [Rw_target].
  apply str_eq_false in E2. split; [done|]. split; [done|]. split; [|done].
  unfold validateRepositoryTarget in Ev. destruct (_ || _); [done|]. destruct (negb _); [done|].
  destruct (is_abs _); [done|]. by destruct (has_traversal _).
Qed.

(** The directory that a prepared writer writes to. *)
Definition path_names (t : RepositoryTarget) : list string := if str_eq (Rt_Path t) "" then [] else names_of (Rt_Path t).
Lemma write_dir t : Rt_Workspace t <> "" -> has_traversal (Rt_Path t) = false -> path_clean (Rt_Workspace t) <> "." ->
  path_clean (Fw_dir (prepared_writer t)) = under (path_clean (Rt_Workspace t)) (path_names t).
Proof.
  intros Hw Ht Hdot. unfold prepared_writer, path_names. cbv zeta. cbn [Fw_dir NewGitSubdirWriterWithSecret].
  unfold str_ne. destruct (str_eq (Rt_Path t) "") eqn:E; cbn [negb]; [done|]. apply str_eq_false in E.
  rewrite join_clean by done. by apply under_clean, good_names_of.
Qed.

(** What a writer may touch under a root. *)
Definition below (root path : string) : Prop := exists names, good_names names /\ path = under root names.
Definition strictly_below (root path : string) : Prop :=
  exists names, names <> [] /\ good_names names /\ path = under root names.
Definition removes (P : string -> Prop) (R : Type) (c : git_call R) : Prop :=
  match c with RemoveAll path => P path | _ => False end.

Lemma resolve_below t relative path : Rt_Workspace t <> "" -> has_traversal (Rt_Path t) = false ->
  path_clean (Rt_Workspace t) <> "." -> resolveInsideRoot (Fw_dir (prepared_writer t)) relative = Ok path ->
  below (path_clean (Rt_Workspace t)) path.
Proof.
  intros Hw Ht Hdot Hr. apply resolve_inside_root in Hr as (_ & _ & _ & _ & ->). rewrite write_dir by done.
  assert (Hp : good_names (path_names t)).
  { unfold path_names. destruct (str_eq _ ""); [by split|apply good_names_of]. }
  exists (path_names t ++ names_of (trim_space relative)). split; [by apply good_names_app, good_names_of|].
  by rewrite under_under.
Qed.
Lemma remove_inside w path : Rt_Workspace (Rw_target w) <> "" -> has_traversal (Rt_Path (Rw_target w)) = false ->
  path_clean (Rt_Workspace (Rw_target w)) <> "." -> Rw_writer w = prepared_writer (Rw_target w) ->
  only (removes (strictly_below (path_clean (Rt_Workspace (Rw_target w))))) (remove_path w path).
Proof.
  intros Hw Ht Hdot Hp. unfold remove_path. cbv zeta. rewrite Hp, write_dir by done.
  clear Hp. generalize dependent (Rw_target w). clear w. intros t Hw Ht Hdot.
  assert (Hpn : good_names (path_names t)).
  { unfold path_names. destruct (str_eq _ ""); [by split|apply good_names_of]. }
  generalize dependent (path_names t). generalize dependent (Rt_Workspace t). intros s Hw Hdot names Hpn.
  pose proof (under_not_dot s names Hdot Hpn) as E1. apply str_eq_false in E1. rewrite E1.
  rewrite (proj2 (str_eq_false (path_clean s) ".") Hdot), orb_false_r. destruct (str_eq (path_clean s) ""); [done|].
  rewrite under_rel by done. destruct Hpn as [Hpg Hpf]. rewrite names_stay by done.
  destruct (str_eq (trim_space path) "") eqn:E2; [done|]. apply str_eq_false in E2.
  destruct (is_abs (trim_space path)); [done|]. destruct (has_traversal (trim_space path)) eqn:E3; [done|].
  assert (Hpn : good_names names) by by split.
  assert (Hb : path_clean (under (path_clean s) names) = under (path_clean s) names) by (by apply under_clean).
  assert (Hne : under (path_clean s) names <> "").
  { intros E. rewrite E in Hb. change (path_clean "") with "." in Hb. done. }
  apply str_eq_false in E1. rewrite join_clean; [|done..|by rewrite Hb].
  rewrite Hb, under_under by done.
  assert (Hg : good_names (names ++ names_of (trim_space path))) by (by apply good_names_app, good_names_of).
  rewrite under_clean, under_rel by done.
  destruct (str_eq _ ".") eqn:E4; [done|]. destruct Hg as [Hg Hf]. rewrite names_stay by done. split; [|done].
  exists (names ++ names_of (trim_space path)). split; [|by split].
  intros E. by rewrite E in E4.
Qed.
End RepositoryLemmas.


(** ** Sessions *)

(** A writer used for a sequence of operations. *)
Inductive writer_request : Type :=
| Request {R : Type} (op : writer_op R).

Section Sessions.
Context `{GoNet} `{Quote} `{ProposalJson}.

Fixpoint session (w : RepositoryWriter) (ops : list writer_request) : prog git_call RepositoryWriter :=
  match ops with
  | [] => Ret w
  | Request op :: ops => r <-- repository_op w op;; session r.1 ops
  end.
End Sessions.

(** The options that the code itself gives to git. *)
Definition fixed_options : list string :=
  ["--branch"; "-B"; "-f"; "--hard"; "--is-inside-work-tree"; "-A"; "--porcelain"; "-c"].
(** No other argument is an option, up to "--"; the message after "-m" is none. *)
Fixpoint plain_args (args : list string) : bool :=
  match args with
  | [] => true
  | a :: args' =>
      if str_eq a "--" then true
      else if str_eq a "-m" then match args' with [] => true | _ :: args'' => plain_args args'' end
      else (negb (has_prefix a "-") || existsb (str_eq a) fixed_options) && plain_args args'
  end.

Section Allowed.
Variable t : RepositoryTarget.

(** The commit service of the prepared writer. *)
Definition service : CommitService :=
  NewCommitServiceWithSecret (Rt_Workspace t) (Rt_Push t) (Rt_PushRemote t) (Rt_PushBranch t) (Rt_AuthorName t)
    (Rt_AuthorEmail t) (Rt_SecretValue t).
Definition made (h : list (event git_call)) (tmp : string) : Prop := In (Event TempDir (Some tmp)) h.
Definition reaches_remote (args : list string) : Prop :=
  In args [clone_args t; ["fetch"; "origin"]; push_args service].
Definition repository_command (dir : string) (args : list string) : Prop :=
  (dir = "" /\ args = clone_args t)
  \/ (dir = Rt_Workspace t
      /\ (In args [["fetch"; "origin"]; ["checkout"; "-B"; Rt_PushBranch t; "origin/" +:+ Rt_Branch t];
                   ["checkout"; "-f"; Rt_Branch t]; ["reset"; "--hard"; "origin/" +:+ Rt_Branch t]]
          \/ exists message, In args (commit_plan service message))).

(** What a writer of the target may call after the calls and answers [h]. *)
Definition allowed_call (R : Type) (h : list (event git_call)) (c : git_call R) : Prop :=
  let root := path_clean (Rt_Workspace t) in
  match c with
  | Mkdir dir => dir = path_dir (Rt_Workspace t) \/ exists path, below root path /\ dir = path_dir path
  | Write path content mode =>
      below root path
      \/ (exists tmp, made h tmp /\ path = filepath_join tmp "askpass.sh") /\ content = chars askpass_script /\ mode = 448
  | Remove path => below root path
  | RemoveAll path =>
      strictly_below root path \/ made h path
      \/ path = Rt_Workspace t /\ exists h', h = h' ++ [Event (Stat (filepath_join (Rt_Workspace t) ".git")) Absent]
  | Stat path => path = filepath_join (Rt_Workspace t) ".git"
  | TempDir => trim_space (Rt_SecretValue t) <> ""
  | Git dir env args =>
      repository_command dir args /\ plain_args args = true
      /\ (env = plain_env args
          \/ reaches_remote args /\ exists tmp secret, made h tmp /\ trim_space secret = trim_space (Rt_SecretValue t)
                /\ env = askpass_env (filepath_join tmp "askpass.sh") secret args)
  | Propose _ _ _ _ =>
      Rt_CreatePullRequest t = true /\ trim_space (Rt_SecretValue t) <> ""
      /\ exists message r, In (commit_args service message, r) (commands h) /\ Go_Failure r = None
  | NilCommitter => False
  end.
End Allowed.

Section Justified.
Context `{GoNet} `{Quote} `{ProposalJson}.
Variables (target : RepositoryTarget) (w0 : RepositoryWriter).
Hypothesis Hnew : NewRepositoryWriter target = Ok w0.
Let t := Rw_target w0.
Hypothesis Hdot : path_clean (Rt_Workspace t) <> ".".

Lemma run_git_allowed h dir secret args : repository_command t dir args -> plain_args args = true ->
  (trim_space secret <> "" -> trim_space secret = trim_space (Rt_SecretValue t) /\ reaches_remote t args) ->
  guarded (allowed_call t) h (run_git dir secret args).
Proof.
  intros Hc Hp Hs. unfold run_git. destruct (str_eq _ "") eqn:E.
  { split; [|done]. split; [done|]. split; [done|]. by left. }
  apply str_eq_false in E. destruct (Hs E) as [Hs' Hr]. split; [cbn; by rewrite <- Hs'|].
  intros [tmp|]; cbn [bind call]; [|split; [|done]; split; [done|]; split; [done|]; by left].
  split; [right; split; [|done]; exists tmp; split; [|done]; apply in_or_app; right; by left|]. intros f. cbn [bind call].
  split.
  - split; [done|]. split; [done|]. right. split; [done|]. exists tmp, secret. split; [|done].
    apply in_or_app; left. apply in_or_app; right. by left.
  - intros r. split; [|done]. right. left. do 2 (apply in_or_app; left). apply in_or_app; right. by left.
Qed.

(** *** What the commands are *)

Lemma new_refs : t = normalize_target target /\ Rt_Workspace t <> "" /\ has_traversal (Rt_Path t) = false
  /\ has_prefix (Rt_Branch t) "-" = false /\ has_prefix (Rt_PushRemote t) "-" = false
  /\ has_prefix (Rt_PushBranch t) "-" = false.
Proof.
  subst t. pose proof (new_target _ _ Hnew) as (E & H1' & H2' & _ & H3 & H4 & H5).
  assert (Et : Rw_target w0 = normalize_target target) by (by rewrite E). split; [done|]. split; [done|]. split; [done|].
  unfold validateGitRef in *. rewrite Et in H3, H4, H5. rewrite Et. cbn [normalize_target Rt_Branch Rt_PushRemote Rt_PushBranch] in *.
  rewrite !trim_space_idem in *.
  repeat match goal with E' : (if ?b then _ else _) = None |- _ => destruct b eqn:?; [done|clear E'] end.
  split; [|by split]. destruct (str_eq _ ""); [done|]. by rewrite trim_space_idem in *.
Qed.
Lemma plain_word a args : has_prefix a "-" = false -> plain_args (a :: args) = plain_args args.
Proof.
  intros Hp. cbn [plain_args]. destruct (str_eq a "--") eqn:E1; [by apply str_eq_true in E1 as ->|].
  destruct (str_eq a "-m") eqn:E2; [by apply str_eq_true in E2 as ->|]. by rewrite Hp.
Qed.
Lemma plain_option a args : In a fixed_options -> plain_args (a :: args) = plain_args args.
Proof. intros Ha. cbn in Ha. by destruct_or? Ha; subst. Qed.
Lemma service_refs : has_prefix (Cs_pushRemote (service t)) "-" = false /\ Cs_pushRemote (service t) <> "".
Proof.
  destruct new_refs as (_ & _ & _ & _ & Hr & _). cbn [service NewCommitServiceWithSecret Cs_pushRemote].
  destruct (str_eq _ "") eqn:E; [by split|]. by apply str_eq_false in E.
Qed.
Lemma plain_commands args message : In args (clone_args t :: ["fetch"; "origin"]
    :: ["checkout"; "-B"; Rt_PushBranch t; "origin/" +:+ Rt_Branch t] :: ["checkout"; "-f"; Rt_Branch t]
    :: ["reset"; "--hard"; "origin/" +:+ Rt_Branch t] :: commit_plan (service t) message) -> plain_args args = true.
Proof.
  destruct new_refs as (_ & _ & _ & Hb & _ & Hp). destruct service_refs as [Hs _].
  intros Ha. unfold clone_args, commit_plan, push_args, commit_args in Ha. cbn [In app] in Ha.
  destruct_or? Ha; subst; try done.
  - rewrite plain_word by done. destruct (str_ne _ ""); [|done]. cbn [app]. rewrite plain_option by (by left).
    by rewrite plain_word.
  - rewrite plain_word, plain_option, plain_word by (done || cbn; tauto). done.
  - rewrite plain_word, plain_option, plain_word by (done || cbn; tauto). done.
  - destruct (Cs_push (service t)); [|done]. destruct Ha as [<-|[]]. by rewrite !plain_word.
Qed.

(** *** The preparation *)

Lemma silent_allowed h dir args : repository_command t dir args -> plain_args args = true ->
  guarded (allowed_call t) h (runGit dir args).
Proof. intros Hc Hp. apply guarded_bind; [|done]. by apply run_git_allowed. Qed.
Lemma secret_allowed h dir args : repository_command t dir args -> plain_args args = true -> reaches_remote t args ->
  guarded (allowed_call t) h (runGitWithSecret dir (Rt_SecretValue t) args).
Proof. intros Hc Hp Hr. apply guarded_bind; [|done]. by apply run_git_allowed. Qed.

Lemma obtain_allowed h : guarded (allowed_call t) h (obtain t).
Proof.
  split; [done|]. intros [| |err]; cbn [bind]; [| |done].
  - apply secret_allowed; [|done|by right; left]. right. split; [done|]. left. by left.
  - split; [right; right; split; [done|]; by exists h|]. intros [|err|err]; cbn [bind]; [|done..].
    apply secret_allowed; [by left| |by left]. apply (plain_commands _ ""). by left.
Qed.
Lemma check_out_allowed h : guarded (allowed_call t) h (check_out t).
Proof.
  unfold check_out. destruct (usesWorkBranch t).
  - apply silent_allowed; [|apply (plain_commands _ ""); cbn; tauto]. right. split; [done|]. left. cbn. tauto.
  - apply guarded_bind.
    + apply silent_allowed; [|apply (plain_commands _ ""); cbn; tauto]. right. split; [done|]. left. cbn. tauto.
    + intros t1 [err|] _; [done|]. apply silent_allowed; [|done]. right. split; [done|]. left. cbn. tauto.
Qed.
Lemma prepare_allowed h : guarded (allowed_call t) h (prepare t).
Proof.
  split; [by left|]. intros [err|]; cbn [bind]; [done|]. apply guarded_bind; [apply obtain_allowed|].
  intros t1 [err|] _; [done|]. apply guarded_bind; [apply check_out_allowed|done].
Qed.
Lemma prepare_writer : returns (fun r => match r with Ok fw => fw = prepared_writer t | Err _ => True end) (prepare t).
Proof.
  unfold prepare. intros [err|]; [done|]. cbn [bind]. by do 2 (apply returns_bind; intros [?|]; [done|]).
Qed.

(** *** The operations *)

Lemma planned h args message : In args (commit_plan (service t) message) -> guarded (allowed_call t) h (runGit (Rt_Workspace t) args).
Proof.
  intros Ha. apply silent_allowed; [|by apply (plain_commands _ message); do 5 right].
  right. split; [done|]. right. by exists message.
Qed.
Lemma planned_output h args message : In args (commit_plan (service t) message) ->
  guarded (allowed_call t) h (gitOutput (Rt_Workspace t) args).
Proof.
  intros Ha. apply guarded_bind; [|done]. apply run_git_allowed; [|by apply (plain_commands _ message); do 5 right|done].
  right. split; [done|]. right. by exists message.
Qed.
Lemma commit_allowed h message : guarded (allowed_call t) h (cs_Commit (service t) message).
Proof.
  unfold cs_Commit. destruct (validateGitRef _ _); [done|]. destruct (validateGitRef _ _); [done|]. cbv zeta.
  apply guarded_bind; [apply (planned _ _ message); cbn; tauto|]. intros t1 [err|] _; [done|].
  apply guarded_bind; [apply (planned _ _ message); cbn; tauto|]. intros t2 [err|] _; [done|].
  apply guarded_bind; [apply guarded_bind; [apply (planned_output _ _ message); cbn; tauto|by intros t3 [|]]|].
  intros t3 [[]|err] _; [|done..].
  apply guarded_bind; [apply (planned _ _ message); cbn; tauto|]. intros t4 [err|] _; [done|].
  apply guarded_bind; [apply (planned_output _ _ message); cbn; tauto|]. intros t5 [sha|err] _; [|done].
  destruct (Cs_push (service t)) eqn:Ep; [|done]. apply guarded_bind; [|by intros t6 [err|]].
  apply guarded_bind; [|done]. assert (Hin : In (push_args (service t)) (commit_plan (service t) message)).
  { unfold commit_plan. rewrite Ep. cbn. tauto. }
  apply run_git_allowed; [|by apply (plain_commands _ message); do 5 right|].
  - right. split; [done|]. right. by exists message.
  - intros _. split; [apply trim_space_idem|]. right. right. by left.
Qed.
Lemma propose_allowed h q message r : Rt_CreatePullRequest t = true -> trim_space (Rt_SecretValue t) <> "" ->
  In (commit_args (service t) message, r) (commands h) -> Go_Failure r = None ->
  guarded (allowed_call t) h (CreateProposal q).
Proof.
  intros Hp Hs Hin Hr.
  assert (Hpost : forall A endpoint header value payload (decode : bytes -> result go_error A),
    guarded (allowed_call t) h (post endpoint header value payload decode)).
  { intros. split; [|done]. split; [done|]. split; [done|]. by exists message, r. }
  unfold CreateProposal. cbv zeta.
  destruct (str_eq _ "github"); [|destruct (str_eq _ "gitlab"); [|done]];
    unfold createGitHub, createGitLab, pbind; cbn [bind]; destruct (RepositoryPath _); cbn [bind]; try done;
    (apply guarded_bind; [apply Hpost|by intros t1 [|]]).
Qed.

Lemma op_allowed h w R (op : writer_op R) : Rw_target w = t -> Rw_writer w = prepared_writer t ->
  guarded (allowed_call t) h (prepared_op w op).
Proof.
  intros Ht Hw. destruct new_refs as (_ & Hws & Hpath & _).
  assert (Hb : forall relative path, resolveInsideRoot (Fw_dir (Rw_writer w)) relative = Ok path ->
    below (path_clean (Rt_Workspace t)) path).
  { intros relative path Hr. rewrite Hw in Hr. by eapply resolve_below. }
  destruct op as [filename content|filename|path|message]; cbn [prepared_op].
  - unfold fw_WriteManifest. destruct (resolveInsideRoot _ _) as [path|err] eqn:E; [|done]. apply Hb in E.
    split; [right; by exists path|]. intros [err|]; [done|]. split; [by left|done].
  - unfold fw_RemoveManifest. destruct (resolveInsideRoot _ _) as [path|err] eqn:E; [|done]. apply Hb in E. by split.
  - pose proof (remove_inside w path) as Hr. rewrite Ht in Hr. specialize (Hr Hws Hpath Hdot Hw).
    eapply guarded_impl; [|apply guarded_only, Hr]. intros R h' []; try exact (False_ind _). intros Hp. by left.
  - unfold commit_proposed. rewrite Hw, Ht. apply guarded_bind.
    + unfold fw_Commit. destruct (negb _); [done|]. apply commit_allowed.
    + intros t1 [result [err|]] Hx; [done|]. destruct (negb (Gr_Committed result)) eqn:E1; [done|].
      destruct (negb (Rt_CreatePullRequest t)) eqn:E2; [done|]. apply negb_false_iff in E1, E2. cbn [orb].
      destruct (str_eq _ "") eqn:E3; [done|]. apply str_eq_false in E3.
      unfold fw_Commit in Hx. destruct (negb _); [destruct Hx as [_ [= ->]]; done|].
      apply commit_made in Hx as (m & r & Hin & Hr); [|done]. apply guarded_bind; [|by intros t2 [|]].
      eapply propose_allowed; [done..| |done]. rewrite commands_app. apply in_or_app. by right.
Qed.

(** The writer is prepared when its preparation ended well. *)
Definition kept (w : RepositoryWriter) : Prop :=
  Rw_target w = t /\ (Rw_once w = Some None -> Rw_writer w = prepared_writer t).
Lemma ensure_allowed h w : kept w -> guarded (allowed_call t) h (ensure w).
Proof.
  intros [Ht _]. unfold ensure. destruct (Rw_once w); [done|]. apply guarded_bind; [|done]. rewrite Ht. apply prepare_allowed.
Qed.
Lemma ensure_kept w tr w' e : kept w -> exec (ensure w) tr (w', e) ->
  kept w' /\ Rw_once w' = Some e /\ (e = None -> Rw_writer w' = prepared_writer t)
  /\ match Rw_once w with
     | Some _ => w' = w /\ tr = []
     | None => exec (prepare t) tr (match e with Some err => Err err | None => Ok (prepared_writer t) end)
     end.
Proof.
  intros [Ht Hk]. unfold ensure, kept. destruct (Rw_once w) as [o|] eqn:E.
  - intros [-> [= -> ->]]. split; [by split; [done|intros Ho; rewrite E in Ho; apply Hk]|].
    split; [done|]. split; [|done]. intros ->. by apply Hk.
  - intros Hx. rewrite Ht in Hx. apply exec_bind in Hx as (t1 & t2 & r & -> & Hp & [-> Hr]). rewrite app_nil_r.
    pose proof (returns_exec _ _ _ _ prepare_writer Hp) as Hw. cbn in Hw.
    destruct r as [fw|err]; injection Hr as -> ->; cbn; [subst fw|]; by repeat split.
Qed.
Lemma new_kept : kept w0 /\ Rw_once w0 = None.
Proof. pose proof (new_target _ _ Hnew) as (E & _). unfold kept, t. by rewrite E. Qed.
Lemma op_kept w R (op : writer_op R) tr r : kept w -> exec (repository_op w op) tr r -> kept r.1.
Proof.
  intros Hk Hx. unfold repository_op in Hx. apply exec_bind in Hx as (t1 & t2 & [w' e] & -> & He & Hx).
  apply ensure_kept in He as [Hk' _]; [|done]. destruct e; [by destruct Hx as [_ ->]|].
  by apply exec_bind in Hx as (t3 & t4 & r' & -> & _ & [_ ->]).
Qed.
Lemma session_allowed ops w h : kept w -> guarded (allowed_call t) h (session w ops).
Proof.
  revert w h. induction ops as [|[R op] ops IH]; intros w h Hk; [done|]. cbn [session]. apply guarded_bind.
  - unfold repository_op. apply guarded_bind; [by apply ensure_allowed|]. intros t1 [w' [err|]] He; [done|].
    apply guarded_bind; [|done]. apply ensure_kept in He as ((Ht & _) & _ & Hw & _); [|done]. apply op_allowed; [done|].
    by apply Hw.
  - intros t1 r Hx. apply IH. by eapply op_kept.
Qed.
End Justified.

(** *** After the preparation *)

(** The calls that only the preparation makes. *)
Definition preparing (R : Type) (c : git_call R) : Prop :=
  match c with
  | Stat _ => True
  | Git _ _ args => In (hd "" args) ["clone"; "fetch"; "checkout"; "reset"]
  | _ => False
  end.
Definition unprepared {A} (p : prog git_call A) : Prop := only (fun R c => ~ preparing R c) p.

Lemma run_git_unprepared dir secret args : ~ In (hd "" args) ["clone"; "fetch"; "checkout"; "reset"] ->
  unprepared (run_git dir secret args).
Proof.
  intros Ha. unfold run_git. destruct (str_eq _ ""); [by split|]. split; [by intros []|].
  intros [tmp|]; cbn [bind call]; [|by split]. split; [by intros []|]. intros f. split; [done|]. intros r.
  split; [by intros []|done].
Qed.
Lemma runGit_unprepared dir secret args : ~ In (hd "" args) ["clone"; "fetch"; "checkout"; "reset"] ->
  unprepared (runGitWithSecret dir secret args).
Proof. intros Ha. apply only_bind; [by apply run_git_unprepared|done]. Qed.
Lemma commit_unprepared s message : unprepared (cs_Commit s message).
Proof.
  unfold cs_Commit, hasRepoChanges, runGit, gitOutput, gitOutputWithSecret, unprepared.
  repeat first [apply runGit_unprepared; cbn; intuition discriminate
               |apply run_git_unprepared; cbn; intuition discriminate|only_step].
Qed.

Section Unprepared.
Context `{GoNet} `{Quote} `{ProposalJson}.

Lemma op_unprepared w R (op : writer_op R) : unprepared (prepared_op w op).
Proof.
  assert (Hr : forall p, unprepared (remove_path w p)).
  { intros p. unfold remove_path, unprepared. repeat only_step. split; [by intros []|done]. }
  unfold unprepared. destruct op as [filename content|filename|path|message]; cbn [prepared_op]; [| |apply Hr|].
  - unfold fw_WriteManifest. destruct (resolveInsideRoot _ _); [|done]. split; [by intros []|].
    intros [err|]; [done|]. split; [by intros []|done].
  - unfold fw_RemoveManifest. destruct (resolveInsideRoot _ _); [|done]. split; [by intros []|done].
  - unfold commit_proposed. apply only_bind.
    + unfold fw_Commit. destruct (negb _); [done|]. destruct (Fw_committer _); [apply commit_unprepared|].
      split; [by intros []|by intros []].
    + intros [result [err|]]; [done|]. destruct (_ || _); [done|]. destruct (str_eq _ ""); [done|].
      apply only_bind; [|by intros [|]]. unfold CreateProposal, createGitHub, createGitLab, post.
      repeat only_step; (split; [by intros []|done]).
Qed.

Lemma op_once w e R (op : writer_op R) : Rw_once w = Some e ->
  repository_op w op = match e with
                       | Some err => Ret (w, not_prepared op err)
                       | None => r <-- prepared_op w op;; Ret (w, r)
                       end.
Proof. intros E. unfold repository_op, ensure. rewrite E. cbn [bind]. by destruct e. Qed.
Lemma session_once ops w e tr w' : Rw_once w = Some e -> exec (session w ops) tr w' ->
  w' = w /\ (e <> None -> tr = []) /\ Forall (fun ev => match ev with @Event _ R c _ => ~ preparing R c end) tr.
Proof.
  intros E. revert tr. induction ops as [|[R op] ops IH]; intros tr Hx; [by destruct Hx as [-> ->]|].
  cbn [session] in Hx. rewrite (op_once _ _ _ _ E) in Hx. destruct e as [err|]; [by apply IH|].
  apply exec_bind in Hx as (t1 & t2 & r & -> & Hr & Hx). apply exec_bind in Hr as (t3 & t4 & r' & -> & Hr & [-> ->]).
  apply IH in Hx as (-> & _ & Ht). rewrite app_nil_r. split; [done|]. split; [done|]. apply Forall_app. split; [|done].
  eapply exec_only; [apply op_unprepared|exact Hr].
Qed.
End Unprepared.

(** ** Properties *)

Section RepositoryProperties.
Context `{GoNet} `{Quote} `{ProposalJson}.
Variables (target : RepositoryTarget) (w0 : RepositoryWriter).
Hypothesis Hnew : NewRepositoryWriter target = Ok w0.
Let t := Rw_target w0.
Hypothesis Hdot : path_clean (Rt_Workspace t) <> ".".

(** C39: Whatever is asked of a repository writer, and in whatever order, every
    call it makes is allowed by the calls and answers before it: files are written
    and removed under the clean workspace only, the workspace itself is removed
    only right after it was found to hold no repository, git runs the
    commands of the code with no argument taken for an option, the token is
    given only to the commands that reach the remote, and a proposal is sent
    only after a commit that succeeded. *)
Theorem session_justified ops tr w R (c : git_call R) r t1 t2
    (Hx : exec (session w0 ops) tr w) (Htr : tr = t1 ++ Event c r :: t2) : allowed_call t R t1 c.
Proof.
  change t1 with ([] ++ t1). eapply guarded_exec; [|exact Hx|exact Htr].
  eapply session_allowed; [exact Hnew|exact Hdot|]. by eapply new_kept.
Qed.

(** A repository writer is prepared once: a session that does anything starts
    with the whole preparation; when that fails, nothing else is called, and
    every operation returns its error, now and later; when it succeeds, the writer is
    the one of the target, and no later call clones, fetches or checks out. *)
Theorem prepared_once ops tr w (Hx : exec (session w0 ops) tr w) (Hne : ops <> []) :
  Rw_target w = t
  /\ ((exists err, Rw_once w = Some (Some err) /\ exec (prepare t) tr (Err err)
         /\ forall R (op : writer_op R), repository_op w op = Ret (w, not_prepared op err))
      \/ (Rw_once w = Some None /\ Rw_writer w = prepared_writer t
         /\ exists t1 t2, tr = t1 ++ t2 /\ exec (prepare t) t1 (Ok (prepared_writer t))
              /\ Forall (fun ev => match ev with @Event _ R c _ => ~ preparing R c end) t2)).
Proof.
  destruct ops as [|[R op] ops]; [done|]. cbn [session] in Hx. apply exec_bind in Hx as (t1 & t2 & r & -> & Hr & Hx).
  unfold repository_op in Hr. apply exec_bind in Hr as (t3 & t4 & [w' e] & -> & He & Hr).
  pose proof (new_kept _ _ Hnew) as [Hk Hn]. pose proof He as Hx'.
  eapply ensure_kept in Hx' as ((Ht & _) & Hw & Hp & Hx'); [|done..].
  rewrite Hn in Hx'. destruct e as [err|].
  - destruct Hr as [-> ->]. apply (session_once _ _ (Some err)) in Hx as (-> & Hnil & _); [|done].
    rewrite Hnil, !app_nil_r by done. split; [done|]. left. exists err. split; [done|]. split; [done|].
    intros R' op'. by apply (op_once _ (Some err)).
  - apply exec_bind in Hr as (t5 & t6 & r' & -> & Hr & [-> ->]). rewrite app_nil_r.
    apply (session_once _ _ None) in Hx as (-> & _ & Hf); [|done]. split; [done|]. right. split; [done|].
    split; [by apply Hp|]. exists t3, (t5 ++ t2). rewrite <- app_assoc. split; [done|]. split; [done|].
    apply Forall_app. split; [|done]. eapply exec_only; [apply op_unprepared|exact Hr].
Qed.
End RepositoryProperties.

(** ** Witnesses *)

Definition host_url : GoNet := fun s =>
  match split2 "://" s with
  | Some (scheme, rest) =>
      match split2 "/" rest with
      | Some (host, path) =>
          Some {| U_Scheme := scheme; U_Host := host; U_Hostname := host; U_User := false; U_Path := slash_s +:+ path;
                  U_RawQuery := ""; U_Fragment := ""; U_Opaque := "" |}
      | None => None
      end
  | None => None
  end.
Definition plain_quote : Quote := fun s => "'" +:+ s +:+ "'".
Definition seventh_proposal : ProposalJson :=
  {| decode_github := fun _ => Ok ("https://git.example.org/pulls/7", 7);
     decode_gitlab := fun _ => Err (errorf "unexpected end of JSON input"); escape_path := fun s => s |}.
#[local] Existing Instances host_url plain_quote seventh_proposal.

Definition sample_target : RepositoryTarget :=
  {| Rt_URL := " https://git.example.org/acme/app.git"; Rt_Provider := "GitHub"; Rt_Branch := ""; Rt_BranchStrategy := "pr";
     Rt_Path := "/clusters/dev/"; Rt_SecretValue := "s3cret"; Rt_Workspace := "/work/app"; Rt_Commit := true;
     Rt_Push := true; Rt_PushRemote := ""; Rt_PushBranch := "envplane/7"; Rt_AuthorName := "EnvPlane";
     Rt_AuthorEmail := "bot@example.org"; Rt_CreatePullRequest := false; Rt_PullRequestTitle := "";
     Rt_PullRequestBody := ""; Rt_PullRequestAPI := "" |}.
Definition sample_writer : RepositoryWriter :=
  {| Rw_target := normalize_target sample_target; Rw_once := None; Rw_writer := NewFileWriter "" false |}.
Lemma sample_new : NewRepositoryWriter sample_target = Ok sample_writer.
Proof. vm_compute. reflexivity. Qed.

(** A new workspace, and a host that takes proposals. *)
Definition sample_answers R (h : list (event git_call)) (c : git_call R) : option R :=
  match c in git_call R return option R with
  | Mkdir _ | Write _ _ _ => Some None
  | Remove _ | RemoveAll _ => Some Removed
  | Stat _ => Some Absent
  | TempDir => Some (Some "/tmp/askpass")
  | Git _ _ _ => Some {| Go_Stdout := chars "1f3a"; Go_Stderr := []; Go_Failure := None |}
  | Propose _ _ _ _ => Some (PostAnswer 201 [])
  | NilCommitter => None
  end.
Definition sample_ops : list writer_request :=
  [Request (WriteManifest "7/app.yaml" (chars "kind: Service")); Request (CommitAll "preview 7")].
Definition sample_session : list (event git_call) * RepositoryWriter :=
  match try_run sample_answers [] (session sample_writer sample_ops) with Some r => r | None => ([], sample_writer) end.
Lemma sample_session_exec : exec (session sample_writer sample_ops) sample_session.1 sample_session.2.
Proof. apply (try_run_exec sample_answers _ []). vm_compute. reflexivity. Qed.

(** The workspace is removed after a look at it, and the proposal comes last,
    after the commit. *)
Lemma session_justified_witness :
  allowed_call (Rw_target sample_writer) _ (firstn 2 sample_session.1) (RemoveAll "/work/app")
  /\ exists payload,
       allowed_call (Rw_target sample_writer) _ (removelast sample_session.1)
         (Propose "https://api.github.com/repos/acme/app/pulls" "Authorization" "Bearer s3cret" payload).
Proof.
  split.
  - eapply (session_justified sample_target sample_writer sample_new ltac:(vm_compute; congruence) _ _ _ _ _ Removed _
              (skipn 3 sample_session.1) sample_session_exec). vm_compute. reflexivity.
  - eexists. eapply (session_justified sample_target sample_writer sample_new ltac:(vm_compute; congruence) _ _ _ _ _
              (PostAnswer 201 []) _ [] sample_session_exec). vm_compute. reflexivity.
Defined.

Lemma prepared_once_witness :
  Rw_writer sample_session.2 = prepared_writer (Rw_target sample_writer) /\ Rw_once sample_session.2 = Some None.
Proof.
  destruct (prepared_once sample_target sample_writer sample_new _ _ _ sample_session_exec) as [_ [(err & H & _)|(H & Hw & _)]];
    [done|vm_compute in H; congruence|by split].
Defined.
