(* ===== verification/Json.v ===== *)
(** * JSON values

    A decoded JSON text as [encoding/json] gives it to [any], and the decoding
    of such a value into the fields of a struct.  An object lists each of its
    keys once, as the API server writes it and [json.Marshal] does. *)

From stdpp Require Import base list strings.
From Stdlib Require Import ZArith Lia Ascii String.
From S2P Require Import Prelude GoStrings GoPath.

Local Open Scope string_scope.
Local Open Scope Z_scope.
Local Open Scope list_scope.

(** [JFraction] is a number that is not written as an integer, by its text. *)
Inductive json : Type :=
| JNull | JBool (b : bool) | JNum (z : Z) | JFraction (digits : string) | JStr (s : string)
| JArr (l : list json) | JObj (l : list (string * json)).
Notation json_fields := (list (string * json)).

(** The text of an answer as a value; the text itself is not looked at. *)
Class JsonText := parse_json : bytes -> option json.
(** [json.Marshal] of a value. *)
Class JsonMarshal := json_marshal : json -> bytes.

(** ** Induction and equality *)

Section JsonInduction.
Variable P : json -> Prop.
Hypothesis Hnull : P JNull.
Hypothesis Hbool : forall b, P (JBool b).
Hypothesis Hnum : forall z, P (JNum z).
Hypothesis Hfraction : forall s, P (JFraction s).
Hypothesis Hstr : forall s, P (JStr s).
Hypothesis Harr : forall l, Forall P l -> P (JArr l).
Hypothesis Hobj : forall l, Forall (fun x => P x.2) l -> P (JObj l).

Fixpoint json_ind' (v : json) : P v :=
  match v with
  | JNull => Hnull
  | JBool b => Hbool b
  | JNum z => Hnum z
  | JFraction s => Hfraction s
  | JStr s => Hstr s
  | JArr l =>
      Harr l ((fix all l := match l return Forall P l with
                            | [] => Forall_nil_2 P
                            | x :: l' => Forall_cons_2 P x l' (json_ind' x) (all l')
                            end) l)
  | JObj l =>
      Hobj l ((fix all l := match l return Forall (fun x => P x.2) l with
                            | [] => Forall_nil_2 _
                            | x :: l' => Forall_cons_2 (fun x => P x.2) x l' (json_ind' x.2) (all l')
                            end) l)
  end.
End JsonInduction.

Fixpoint json_eqb (a b : json) : bool :=
  match a, b with
  | JNull, JNull => true
  | JBool x, JBool y => Bool.eqb x y
  | JNum x, JNum y => x =? y
  | JFraction x, JFraction y => str_eq x y
  | JStr x, JStr y => str_eq x y
  | JArr l, JArr l' =>
      (fix all l l' := match l, l' with
                       | [], [] => true
                       | x :: l, y :: l' => json_eqb x y && all l l'
                       | _, _ => false
                       end) l l'
  | JObj l, JObj l' =>
      (fix all l l' := match l, l' with
                       | [], [] => true
                       | x :: l, y :: l' => str_eq x.1 y.1 && json_eqb x.2 y.2 && all l l'
                       | _, _ => false
                       end) l l'
  | _, _ => false
  end.
Lemma json_eqb_true a b : json_eqb a b = true <-> a = b.
Proof.
  revert b. induction a as [|x|x|x|x|l IH|l IH] using json_ind'; intros [|y|y|y|y|l'|l']; cbn [json_eqb];
    try (split; [discriminate|discriminate]); try done.
  - rewrite eqb_true_iff. naive_solver.
  - rewrite Z.eqb_eq. naive_solver.
  - rewrite str_eq_true. naive_solver.
  - rewrite str_eq_true. naive_solver.
  - trans (l = l'); [|naive_solver]. revert l'. induction IH as [|x l Hx _ IH]; intros [|y l']; [done..|].
    rewrite andb_true_iff, Hx, IH. naive_solver.
  - trans (l = l'); [|naive_solver]. revert l'. induction IH as [|[k x] l Hx _ IH]; intros [|[k' y] l']; [done..|].
    cbn [fst snd] in *. rewrite !andb_true_iff, Hx, IH, str_eq_true. naive_solver.
Qed.
#[export] Instance json_eq_dec : EqDecision json.
Proof. intros a b. refine (cast_if (decide (json_eqb a b = true))); by rewrite <- json_eqb_true. Defined.

(** ** The order of keys *)

(** What [json.Marshal] and [json.Unmarshal] make of a value: the keys of every
    object in order.  Two such values are [reflect.DeepEqual] when they are equal. *)
Definition before_key (a b : string * json) : bool := str_ltb a.1 b.1.
Fixpoint ordered_keys (v : json) : json :=
  match v with
  | JArr l => JArr (map ordered_keys l)
  | JObj l => JObj (sort_slice before_key (map (fun x => (x.1, ordered_keys x.2)) l))
  | _ => v
  end.
Definition deep_equal (a b : json) : bool := json_eqb (ordered_keys a) (ordered_keys b).

(** ** Values of a [map[string]any] *)

Fixpoint json_get (k : string) (l : json_fields) : option json :=
  match l with
  | [] => None
  | (k', v) :: l' => if str_eq k k' then Some v else json_get k l'
  end.
(** The type assertions [v.(map[string]any)] and so on; a failed one gives the
    zero value, and a nil map has no keys. *)
Definition as_object (v : option json) : json_fields := match v with Some (JObj l) => l | _ => [] end.
Definition as_array (v : option json) : list json := match v with Some (JArr l) => l | _ => [] end.
Definition as_text (v : option json) : string := match v with Some (JStr s) => s | _ => "" end.
(** [v == s] for a string: only a string is equal to it. *)
Definition is_text (v : option json) (s : string) : bool := match v with Some (JStr t) => str_eq t s | _ => false end.
Definition texts (l : list string) : json := JArr (map JStr l).

(** ** Fields of a struct *)

Section Fields.
Variable l : json_fields.

(** A missing or null value leaves the zero value; one of another type is an error. *)
Definition text_field (k : string) : option string :=
  match json_get k l with
  | None | Some JNull => Some ""
  | Some (JStr s) => Some s
  | Some _ => None
  end.
Definition bool_field (k : string) : option bool :=
  match json_get k l with
  | None | Some JNull => Some false
  | Some (JBool b) => Some b
  | Some _ => None
  end.
Definition fits64 (z : Z) : bool := (- 2 ^ 63 <=? z) && (z <? 2 ^ 63).
Definition int_field (k : string) : option Z :=
  match json_get k l with
  | None | Some JNull => Some 0
  | Some (JNum z) => if fits64 z then Some z else None
  | Some _ => None
  end.
(** A pointer is nil exactly where the value is missing or null. *)
Definition pointer_field {A} (field : string -> option A) (k : string) : option (option A) :=
  match json_get k l with
  | None | Some JNull => Some None
  | Some _ => match field k with Some a => Some (Some a) | None => None end
  end.
(** A field of type [any], and one of type [json.RawMessage]. *)
Definition any_field (k : string) : json := match json_get k l with Some v => v | None => JNull end.
(** A nested struct, and a slice of them. *)
Definition struct_field (k : string) : option json_fields :=
  match json_get k l with
  | None | Some JNull => Some []
  | Some (JObj l') => Some l'
  | Some _ => None
  end.
Definition slice_field {A} (element : json -> option A) (k : string) : option (list A) :=
  match json_get k l with
  | None | Some JNull => Some []
  | Some (JArr l') => mapM element l'
  | Some _ => None
  end.
Definition text_element (v : json) : option string :=
  match v with JStr s => Some s | JNull => Some "" | _ => None end.
Definition map_field (k : string) : option (list (string * string)) :=
  match json_get k l with
  | None | Some JNull => Some []
  | Some (JObj l') => mapM (fun x => match text_element x.2 with Some s => Some (x.1, s) | None => None end) l'
  | Some _ => None
  end.
End Fields.
(** The value of a [map[string]string]. *)
Fixpoint text_of (k : string) (l : list (string * string)) : string :=
  match l with
  | [] => ""
  | (k', s) :: l' => if str_eq k k' then s else text_of k l'
  end.

(** ** Lemmas *)

Lemma json_get_in k l v : json_get k l = Some v -> In (k, v) l.
Proof.
  induction l as [|[k' v'] l IH]; cbn [json_get]; [done|].
  destruct (str_eq k k') eqn:E; [|intros H; right; by apply IH]. intros [= ->]. apply str_eq_true in E as ->. by left.
Qed.
Lemma mapM_texts l : mapM text_element (map JStr l) = Some l.
Proof. induction l as [|s l IH]; [done|]. cbn. cbn in IH. by rewrite IH. Qed.
Lemma deep_equal_refl v : deep_equal v v = true.
Proof. by apply json_eqb_true. Qed.
