(* ===== verification/PvcKube.v ===== *)
(** * The Kubernetes transport of a PVC copy

    [internal/pvccopy/kubectl.go] and [controllers.go]: [Kubectl], which reads
    volumes, pods and controllers, creates, checks and deletes the helpers and
    runs their commands, as programs over the runs of kubectl.  [transport]
    carries out the calls of [PvcExecutor] by it. *)

From stdpp Require Import base list gmap strings pretty.
From Stdlib Require Import ZArith Lia Ascii String.
From S2P Require Import Prelude GoStrings Regex GoPath OrchTypes Json PvcPlan PvcArchive PvcExecutor PvcHelper.

Local Open Scope string_scope.
Local Open Scope Z_scope.
Local Open Scope list_scope.

(** ** Plans of the contracts *)

(** [domain.PVCCopyItem], [domain.PVCCopyPlan] and [domain.PVCCopySource]: the
    fields that the code looks at, and the others as a value. *)
Record CopyItem := {
  It_ID : string; It_SourceTenantID : string; It_SourceNamespace : string; It_SourceName : string;
  It_SourceUID : string; It_SourceIdentity : string; It_TargetName : string; It_StorageClass : string;
  It_AccessModes : list string; It_RequestedBytes : Z; It_MaxBytes : Z; It_TimeoutSeconds : Z; It_rest : json }.
Record CopyPlan := {
  Cp_PlanID : string; Cp_Digest : string; Cp_TenantID : string; Cp_ProjectID : string; Cp_EnvironmentID : string;
  Cp_TargetNamespace : string; Cp_AllowedSourceNamespaces : list string; Cp_Image : string; Cp_MaxBytes : Z;
  Cp_TimeoutSeconds : Z; Cp_StorageQuotaBytes : Z; Cp_Items : list CopyItem; Cp_rest : json }.
Record CopySource := {
  Sr_Namespace : string; Sr_Name : string; Sr_UID : string; Sr_EnvironmentClass : string;
  Sr_StorageClass : string; Sr_AccessModes : list string; Sr_RequestedBytes : Z; Sr_VolumeMode : string; Sr_rest : json }.

(** ** Calls *)

(** A run of kubectl with a value on its standard input, and its output; the
    commands of the two helpers during a transfer, where one that was refused
    is not run; the source's during the second export; the end of a pause, or
    of the context; the calls of the executor that are not kubectl's; and a
    run of kubectl whose error output is kept, without what it created. *)
Record probe_result := { Pr_Failed : bool; Pr_Canceled : bool; Pr_Errors : bytes }.
Inductive kube_call : Type -> Type :=
| KRun (args : list string) (input : option json) : kube_call (result pvc_error bytes)
| KStreams (source target : option (list string)) : kube_call transfer
| KStream (source : list string) : kube_call reexport
| KTimer : kube_call (option pvc_error)
| KCtxErr : kube_call (result pvc_error unit)
| KRand : kube_call (result pvc_error bytes)
| KAuthorize (p : CopyPlan) (fresh : list CopySource) : kube_call (result pvc_error unit)
| KProbe (args : list string) (input : json) : kube_call probe_result.

Record Kubectl := { Ku_RunnerImage : string; Ku_ServiceAccount : string; Ku_AllowRootHelpers : bool }.

(** A [boundedBuffer] refuses what exceeds its limit, and kubectl fails. *)
Definition run_bounded (args : list string) (input : option json) (limit : Z) : prog kube_call (result pvc_error bytes) :=
  output <-! call (KRun args input);;
  stop limit <? Z.of_nat (length output) with ErrOther;;
  Ret (Ok output).

(** ** Objects *)

Record objectMeta := {
  Om_Namespace : string; Om_Name : string; Om_UID : string; Om_DeletionTimestamp : option string;
  Om_Labels : list (string * string); Om_Annotations : list (string * string) }.
Record pvcObject := {
  Vo_Metadata : objectMeta; Vo_VolumeName : string; Vo_VolumeMode : string; Vo_Phase : string }.
Record pod_security := {
  Ps_RunAsUser : option Z; Ps_RunAsGroup : option Z; Ps_RunAsNonRoot : option bool; Ps_FSGroup : option Z;
  Ps_SupplementalGroups : list Z; Ps_SELinux : json; Ps_Seccomp : string }.
Record container_security := {
  Cs_Privileged : bool; Cs_AllowEscalation : option bool; Cs_ReadOnlyRoot : option bool; Cs_RunAsUser : option Z;
  Cs_RunAsGroup : option Z; Cs_RunAsNonRoot : option bool; Cs_SELinux : json; Cs_Drop : list string; Cs_Add : list string }.
Record volume_mount := { Vm_Name : string; Vm_Path : string; Vm_ReadOnly : bool; Vm_RecursiveReadOnly : string }.
Record container := {
  Ct_Name : string; Ct_Image : string; Ct_Command : list string; Ct_Args : list string; Ct_Env : list json;
  Ct_EnvFrom : list json; Ct_Security : container_security; Ct_VolumeMounts : list volume_mount }.
(** The volume of a claim: its name and whether it is read-only. *)
Record pod_volume := { Pl_Name : string; Pl_PVC : option (string * bool) }.
Record podObject := {
  Po_Metadata : objectMeta; Po_HostNetwork : bool; Po_HostPID : bool; Po_HostIPC : bool; Po_RestartPolicy : string;
  Po_Deadline : Z; Po_Security : pod_security; Po_ServiceAccount : string; Po_Automount : option bool;
  Po_InitContainers : list json; Po_EphemeralContainers : list json; Po_Containers : list container;
  Po_Volumes : list pod_volume; Po_Phase : string; Po_Conditions : list (string * string) }.

Notation "'let*' x := a 'in' k" := (match a with Some x => k | None => None end) (at level 10, x pattern, a at level 200, k at level 200).

(** Decoding a value into these structs. *)
Definition fields_of (v : json) : option json_fields :=
  match v with JObj l => Some l | JNull => Some [] | _ => None end.
Definition decode_meta (l : json_fields) : option objectMeta :=
  let* ns := text_field l "namespace" in let* name := text_field l "name" in let* uid := text_field l "uid" in
  let* deleted := pointer_field l (text_field l) "deletionTimestamp" in
  let* labels := map_field l "labels" in let* annotations := map_field l "annotations" in
  Some {| Om_Namespace := ns; Om_Name := name; Om_UID := uid; Om_DeletionTimestamp := deleted;
          Om_Labels := labels; Om_Annotations := annotations |}.
Definition decode_pvc (v : json) : option pvcObject :=
  let* l := fields_of v in
  let* meta := struct_field l "metadata" in let* meta := decode_meta meta in
  let* spec := struct_field l "spec" in let* name := text_field spec "volumeName" in
  let* mode := text_field spec "volumeMode" in
  let* status := struct_field l "status" in let* phase := text_field status "phase" in
  Some {| Vo_Metadata := meta; Vo_VolumeName := name; Vo_VolumeMode := mode; Vo_Phase := phase |}.
Definition raw_element (v : json) : option json := Some v.
Definition int_element (v : json) : option Z :=
  match v with JNum z => if fits64 z then Some z else None | JNull => Some 0 | _ => None end.
Definition decode_pod_security (l : json_fields) : option pod_security :=
  let* user := pointer_field l (int_field l) "runAsUser" in let* group := pointer_field l (int_field l) "runAsGroup" in
  let* nonroot := pointer_field l (bool_field l) "runAsNonRoot" in let* fs := pointer_field l (int_field l) "fsGroup" in
  let* groups := slice_field l int_element "supplementalGroups" in
  let* seccomp := struct_field l "seccompProfile" in let* seccomp := text_field seccomp "type" in
  Some {| Ps_RunAsUser := user; Ps_RunAsGroup := group; Ps_RunAsNonRoot := nonroot; Ps_FSGroup := fs;
          Ps_SupplementalGroups := groups; Ps_SELinux := any_field l "seLinuxOptions"; Ps_Seccomp := seccomp |}.
Definition decode_container_security (l : json_fields) : option container_security :=
  let* privileged := bool_field l "privileged" in
  let* escalation := pointer_field l (bool_field l) "allowPrivilegeEscalation" in
  let* root := pointer_field l (bool_field l) "readOnlyRootFilesystem" in
  let* user := pointer_field l (int_field l) "runAsUser" in let* group := pointer_field l (int_field l) "runAsGroup" in
  let* nonroot := pointer_field l (bool_field l) "runAsNonRoot" in
  let* caps := struct_field l "capabilities" in let* drop := slice_field caps text_element "drop" in
  let* add := slice_field caps text_element "add" in
  Some {| Cs_Privileged := privileged; Cs_AllowEscalation := escalation; Cs_ReadOnlyRoot := root; Cs_RunAsUser := user;
          Cs_RunAsGroup := group; Cs_RunAsNonRoot := nonroot; Cs_SELinux := any_field l "seLinuxOptions";
          Cs_Drop := drop; Cs_Add := add |}.
Definition decode_mount (v : json) : option volume_mount :=
  let* l := fields_of v in
  let* name := text_field l "name" in let* path := text_field l "mountPath" in
  let* ro := bool_field l "readOnly" in let* recursive := text_field l "recursiveReadOnly" in
  Some {| Vm_Name := name; Vm_Path := path; Vm_ReadOnly := ro; Vm_RecursiveReadOnly := recursive |}.
Definition decode_container (v : json) : option container :=
  let* l := fields_of v in
  let* name := text_field l "name" in let* image := text_field l "image" in
  let* command := slice_field l text_element "command" in let* args := slice_field l text_element "args" in
  let* env := slice_field l raw_element "env" in let* from := slice_field l raw_element "envFrom" in
  let* security := struct_field l "securityContext" in let* security := decode_container_security security in
  let* mounts := slice_field l decode_mount "volumeMounts" in
  Some {| Ct_Name := name; Ct_Image := image; Ct_Command := command; Ct_Args := args; Ct_Env := env; Ct_EnvFrom := from;
          Ct_Security := security; Ct_VolumeMounts := mounts |}.
Definition decode_volume (v : json) : option pod_volume :=
  let* l := fields_of v in
  let* name := text_field l "name" in
  let* claim := match json_get "persistentVolumeClaim" l with
                | None | Some JNull => Some None
                | Some (JObj c) => let* name := text_field c "claimName" in let* ro := bool_field c "readOnly" in
                                   Some (Some (name, ro))
                | Some _ => None
                end in
  Some {| Pl_Name := name; Pl_PVC := claim |}.
Definition decode_condition (v : json) : option (string * string) :=
  let* l := fields_of v in let* type := text_field l "type" in let* status := text_field l "status" in
  Some (type, status).
Definition decode_pod (v : json) : option podObject :=
  let* l := fields_of v in
  let* meta := struct_field l "metadata" in let* meta := decode_meta meta in
  let* spec := struct_field l "spec" in
  let* network := bool_field spec "hostNetwork" in let* pid := bool_field spec "hostPID" in
  let* ipc := bool_field spec "hostIPC" in let* restart := text_field spec "restartPolicy" in
  let* deadline := int_field spec "activeDeadlineSeconds" in
  let* security := struct_field spec "securityContext" in let* security := decode_pod_security security in
  let* account := text_field spec "serviceAccountName" in
  let* automount := pointer_field spec (bool_field spec) "automountServiceAccountToken" in
  let* init := slice_field spec raw_element "initContainers" in
  let* ephemeral := slice_field spec raw_element "ephemeralContainers" in
  let* containers := slice_field spec decode_container "containers" in
  let* volumes := slice_field spec decode_volume "volumes" in
  let* status := struct_field l "status" in let* phase := text_field status "phase" in
  let* conditions := slice_field status decode_condition "conditions" in
  Some {| Po_Metadata := meta; Po_HostNetwork := network; Po_HostPID := pid; Po_HostIPC := ipc; Po_RestartPolicy := restart;
          Po_Deadline := deadline; Po_Security := security; Po_ServiceAccount := account; Po_Automount := automount;
          Po_InitContainers := init; Po_EphemeralContainers := ephemeral; Po_Containers := containers;
          Po_Volumes := volumes; Po_Phase := phase; Po_Conditions := conditions |}.
(** A list: its items and the mark of an incomplete one. *)
Definition decode_list {A} (element : json -> option A) (v : json) : option (list A * string) :=
  let* l := fields_of v in
  let* items := slice_field l element "items" in
  let* meta := struct_field l "metadata" in let* continue := text_field meta "continue" in
  Some (items, continue).

(** ** Operations *)

Definition ownerAnnotation : string := "envplane.io/pvccopy-owner".
Definition zero_helper : Helper :=
  {| He_Namespace := ""; He_Name := ""; He_UID := ""; He_Owner := "";
     He_PVC := {| Pvc_Namespace := ""; Pvc_Name := ""; Pvc_UID := "" |}; He_ReadOnly := false; He_Image := "" |}.
(** [int64(math.Ceil(t.Seconds()))] *)
Definition ceil_seconds (t : Z) : Z := (t + 999999999) / 1000000000.
Definition helper_seconds (t : Z) : Z := ceil_seconds t + 30.

Section Operations.
Context `{Sha256} `{JsonText}.

(** [Kubectl.json] *)
Definition kube_json {A} (decode : json -> option A) (args : list string) (input : option json)
    : prog kube_call (result pvc_error A) :=
  b <-! run_bounded args input (Z.shiftl 8 20);;
  Ret (match parse_json b with
       | Some v => match decode v with Some a => Ok a | None => Err ErrOther end
       | None => Err ErrOther
       end).

(** [Kubectl.GetPVC] *)
Definition pvc_of (o : pvcObject) : PVC :=
  let m := Vo_Metadata o in
  {| Pv_Ref := {| Pvc_Namespace := Om_Namespace m; Pvc_Name := Om_Name m; Pvc_UID := Om_UID m |};
     Pv_VolumeName := Vo_VolumeName o;
     Pv_Filesystem := str_eq (Vo_VolumeMode o) "" || str_eq (Vo_VolumeMode o) "Filesystem";
     Pv_Bound := str_eq (Vo_Phase o) "Bound";
     Pv_Deleting := match Om_DeletionTimestamp m with Some _ => true | None => false end;
     Pv_OfflineDeclared := str_eq (text_of "envplane.io/pvc-copy-offline" (Om_Annotations m)) "true";
     Pv_Pending := str_eq (Vo_Phase o) "Pending" |}.
Definition get_pvc_args (ref : PVCRef) : list string :=
  ["get"; "pvc"; Pvc_Name ref; "-n"; Pvc_Namespace ref; "-o"; "json"; "--request-timeout=30s"].
Definition kube_GetPVC (ref : PVCRef) : prog kube_call (result pvc_error PVC) :=
  o <-! kube_json decode_pvc (get_pvc_args ref) None;; Ret (Ok (pvc_of o)).

(** [Kubectl.ListPods] *)
Definition claims_of (o : podObject) : list string :=
  omap (fun v => match Pl_PVC v with Some (claim, _) => Some claim | None => None end) (Po_Volumes o).
Definition listed_pod (o : podObject) : Pod :=
  let m := Po_Metadata o in
  {| Pod_Namespace := Om_Namespace m; Pod_Name := Om_Name m; Pod_UID := Om_UID m; Pod_Phase := Po_Phase o;
     Pod_Claims := claims_of o |}.
Definition kube_ListPods (ns : string) : prog kube_call (result pvc_error (list Pod)) :=
  l <-! kube_json (decode_list decode_pod)
          ["get"; "pods"; "-n"; ns; "-o"; "json"; "--chunk-size=0"; "--request-timeout=30s"] None;;
  stop str_ne l.2 "" with ErrUnsafe;;
  Ret (Ok (map listed_pod l.1)).

Section Helpers.
Variable k : Kubectl.

(** The specification that a helper is created with. *)
Definition helper_labels : json := JObj [("app.kubernetes.io/component", JStr "pvccopy-helper")].
Definition helper_capabilities (read_only : bool) : list string :=
  if Ku_AllowRootHelpers k then "DAC_OVERRIDE" :: (if read_only then [] else ["CHOWN"; "FOWNER"]) else [].
Definition helper_mount (read_only : bool) : json :=
  JObj ([("name", JStr "data"); ("mountPath", JStr "/data"); ("readOnly", JBool read_only)]
        ++ (if read_only then [("recursiveReadOnly", JStr "Enabled")] else [])).
Definition helper_container (s : HelperSpec) (seconds : Z) : json :=
  JObj
    [("name", JStr "copy"); ("image", JStr (Hs_Image s)); ("imagePullPolicy", JStr "IfNotPresent");
     ("command", texts ["sleep"]); ("args", texts [pretty seconds]);
     ("volumeMounts", JArr [helper_mount (Hs_ReadOnly s)]);
     ("securityContext",
       JObj [("allowPrivilegeEscalation", JBool false); ("readOnlyRootFilesystem", JBool true);
             ("capabilities",
               JObj (("drop", texts ["ALL"])
                     :: (if Ku_AllowRootHelpers k then [("add", texts (helper_capabilities (Hs_ReadOnly s)))] else [])))]);
     ("resources",
       JObj [("requests", JObj [("cpu", JStr "10m"); ("memory", JStr "32Mi")]);
             ("limits", JObj [("cpu", JStr "1"); ("memory", JStr "256Mi")])])].
Definition helper_security : json :=
  let id := if Ku_AllowRootHelpers k then 0 else 10001 in
  JObj [("runAsNonRoot", JBool (negb (Ku_AllowRootHelpers k))); ("runAsUser", JNum id); ("runAsGroup", JNum id);
        ("seccompProfile", JObj [("type", JStr "RuntimeDefault")])].
Definition helper_spec (s : HelperSpec) : json :=
  let seconds := helper_seconds (Hs_Timeout s) in
  JObj
    [("serviceAccountName", JStr (Ku_ServiceAccount k)); ("automountServiceAccountToken", JBool false);
     ("restartPolicy", JStr "Never"); ("activeDeadlineSeconds", JNum seconds);
     ("terminationGracePeriodSeconds", JNum 5); ("securityContext", helper_security);
     ("containers", JArr [helper_container s seconds]);
     ("volumes",
       JArr [JObj [("name", JStr "data");
                   ("persistentVolumeClaim",
                     JObj [("claimName", JStr (Pvc_Name (Hs_PVC s))); ("readOnly", JBool (Hs_ReadOnly s))])]])].
Definition helper_metadata (s : HelperSpec) : json_fields :=
  [("name", JStr (Hs_Name s)); ("namespace", JStr (Hs_Namespace s)); ("labels", helper_labels);
   ("annotations", JObj [(ownerAnnotation, JStr (Hs_Owner s))])].
Definition helper_manifest (s : HelperSpec) : json :=
  JObj [("apiVersion", JStr "v1"); ("kind", JStr "Pod"); ("metadata", JObj (helper_metadata s)); ("spec", helper_spec s)].

(** [Kubectl.validateHelperPod] *)
Definition is_some {A} (o : option A) : bool := match o with Some _ => true | None => false end.
Definition points_to {A} `{EqDecision A} (o : option A) (a : A) : bool := bool_decide (o = Some a).
Definition validateHelperPod (obj : podObject) (h : Helper) : result pvc_error unit :=
  refuse He_ReadOnly h && str_ne (He_Name h) (SourceHelperName (He_PVC h)) with ErrUnsafe;;
  match Po_Containers obj, Po_Volumes obj with
  | [c], [v] =>
      refuse str_ne (He_Image h) (Ku_RunnerImage k) || str_ne (Pvc_Namespace (He_PVC h)) (He_Namespace h)
        || str_ne (Po_ServiceAccount obj) (Ku_ServiceAccount k) || negb (points_to (Po_Automount obj) false)
        || negb (bool_decide (Po_InitContainers obj = [])) || negb (bool_decide (Po_EphemeralContainers obj = []))
        with ErrUnsafe;;
      let uid := if Ku_AllowRootHelpers k then 0 else 10001 in
      let nonRoot := negb (Ku_AllowRootHelpers k) in
      let security := Po_Security obj in
      refuse negb (points_to (Ps_RunAsUser security) uid) || negb (points_to (Ps_RunAsGroup security) uid)
        || negb (points_to (Ps_RunAsNonRoot security) nonRoot) || is_some (Ps_FSGroup security)
        || negb (bool_decide (Ps_SupplementalGroups security = [])) || negb (bool_decide (Ps_SELinux security = JNull))
        || str_ne (Ps_Seccomp security) "RuntimeDefault" || Po_HostNetwork obj || Po_HostPID obj || Po_HostIPC obj
        || str_ne (Po_RestartPolicy obj) "Never" with ErrUnsafe;;
      let cs := Ct_Security c in
      refuse Cs_Privileged cs || negb (points_to (Cs_AllowEscalation cs) false)
        || negb (points_to (Cs_ReadOnlyRoot cs) true) || is_some (Cs_RunAsUser cs) || is_some (Cs_RunAsGroup cs)
        || is_some (Cs_RunAsNonRoot cs) || negb (bool_decide (Cs_SELinux cs = JNull))
        || negb (bool_decide (Cs_Drop cs = ["ALL"])) || negb (bool_decide (Cs_Add cs = helper_capabilities (He_ReadOnly h)))
        || negb (bool_decide (Ct_Env c = [])) || negb (bool_decide (Ct_EnvFrom c = [])) with ErrUnsafe;;
      match Ct_Args c, Ct_VolumeMounts c with
      | [arg], [m] =>
          refuse (Po_Deadline obj <=? 0) || (MaxCopyTimeout / seconds 1 + 30 <? Po_Deadline obj) with ErrUnsafe;;
          refuse negb (points_to (atoi arg) (Po_Deadline obj)) with ErrUnsafe;;
          refuse str_ne (Ct_Name c) "copy" || str_ne (Ct_Image c) (He_Image h)
            || negb (bool_decide (Ct_Command c = ["sleep"])) || str_ne (Pl_Name v) "data"
            || negb (points_to (Pl_PVC v) (Pvc_Name (He_PVC h), He_ReadOnly h)) with ErrUnsafe;;
          refuse str_ne (Vm_Name m) "data" || str_ne (Vm_Path m) "/data" || negb (eqb (Vm_ReadOnly m) (He_ReadOnly h))
            || (He_ReadOnly h && str_ne (Vm_RecursiveReadOnly m) "Enabled") with ErrUnsafe;;
          Ok tt
      | _, _ => Err ErrUnsafe
      end
  | _, _ => Err ErrUnsafe
  end.

(** [Kubectl.createHelper], [CreateHelper] and [PreflightHelper] *)
Definition create_args (ns : string) (dryRun : bool) : list string :=
  ["create"; "-f"; "-"; "-n"; ns; "-o"; "json"; "--request-timeout=30s"]
  ++ (if dryRun then ["--dry-run=server"] else []).
Definition helper_of (s : HelperSpec) (response : podObject) : Helper :=
  let m := Po_Metadata response in
  {| He_Namespace := Om_Namespace m; He_Name := Om_Name m; He_UID := Om_UID m;
     He_Owner := text_of ownerAnnotation (Om_Annotations m); He_PVC := Hs_PVC s; He_ReadOnly := Hs_ReadOnly s;
     He_Image := Hs_Image s |}.
Definition creatable (s : HelperSpec) : bool :=
  match_string imageRef (Ku_RunnerImage k) && str_eq (Hs_Image s) (Ku_RunnerImage k)
  && match_string dnsName (Ku_ServiceAccount k) && (str_len (Ku_ServiceAccount k) <=? 253)
  && str_eq (Hs_Namespace s) (Pvc_Namespace (Hs_PVC s)) && match_string dnsName (Hs_Name s) && str_ne (Hs_Owner s) ""
  && (0 <? Hs_Timeout s) && (Hs_Timeout s <=? MaxCopyTimeout)
  && (negb (Hs_ReadOnly s) || str_eq (Hs_Name s) (SourceHelperName (Hs_PVC s))).
Definition createHelper (s : HelperSpec) (dryRun : bool) : prog kube_call (Helper * option pvc_error) :=
  if negb (creatable s) then Ret (zero_helper, Some ErrUnsafe)
  else
    r <-- kube_json decode_pod (create_args (Hs_Namespace s) dryRun) (Some (helper_manifest s));;
    Ret (match r with
         | Err e => (zero_helper, Some e)
         | Ok response =>
             let h := helper_of s response in
             let named := str_eq (He_Namespace h) (Hs_Namespace s) && str_eq (He_Name h) (Hs_Name s)
                          && str_eq (He_Owner h) (Hs_Owner s) in
             let verdict := match validateHelperPod response h with Ok _ => None | Err e => Some e end in
             if dryRun then (zero_helper, if named then verdict else Some ErrUnsafe)
             else if negb named || str_eq (He_UID h) "" then (zero_helper, Some ErrUnsafe)
             else (h, verdict)
         end).
Definition PreflightHelper (s : HelperSpec) : prog kube_call (result pvc_error unit) :=
  r <-- createHelper s true;; Ret (match r.2 with Some e => Err e | None => Ok tt end).

(** [Kubectl.getOwnedHelper], [getHelper] *)
Definition get_pod_args (h : Helper) : list string :=
  ["get"; "pod"; He_Name h; "-n"; He_Namespace h; "-o"; "json"; "--request-timeout=30s"].
Definition owned_by (h : Helper) (obj : podObject) : bool :=
  let m := Po_Metadata obj in
  str_eq (Om_UID m) (He_UID h) && str_eq (Om_Name m) (He_Name h) && str_eq (Om_Namespace m) (He_Namespace h)
  && str_eq (text_of ownerAnnotation (Om_Annotations m)) (He_Owner h)
  && str_eq (text_of "app.kubernetes.io/component" (Om_Labels m)) "pvccopy-helper".
Definition getOwnedHelper (h : Helper) : prog kube_call (result pvc_error podObject) :=
  stop str_eq (He_UID h) "" || str_eq (He_Owner h) "" || negb (match_string dnsName (He_Name h))
       || negb (match_string dnsName (He_Namespace h)) with ErrUnsafe;;
  obj <-! kube_json decode_pod (get_pod_args h) None;;
  stop negb (owned_by h obj) with ErrUnsafe;;
  Ret (Ok obj).
Definition getHelper (h : Helper) : prog kube_call (result pvc_error podObject) :=
  obj <-! getOwnedHelper h;;
  _ <-! Ret (validateHelperPod obj h);;
  Ret (Ok obj).

(** [Kubectl.WaitReady]: the loop, with the pauses that the deadline of its
    context leaves. *)
Definition pod_deleting (obj : podObject) : bool := is_some (Om_DeletionTimestamp (Po_Metadata obj)).
Definition pod_ready (obj : podObject) : bool :=
  existsb (fun c => str_eq (Po_Phase obj) "Running" && str_eq c.1 "Ready" && str_eq c.2 "True") (Po_Conditions obj).
Fixpoint WaitReady_loop (pauses : nat) (h : Helper) : prog kube_call (result pvc_error unit) :=
  obj <-! getHelper h;;
  stop pod_deleting obj || str_eq (Po_Phase obj) "Failed" || str_eq (Po_Phase obj) "Succeeded" with ErrOther;;
  if pod_ready obj then Ret (Ok tt)
  else
    match pauses with
    | O => Ret (Err ErrOther)
    | S pauses =>
        t <-- call KTimer;;
        match t with Some e => Ret (Err e) | None => WaitReady_loop pauses h end
    end.
(** The context ends with the timeout of the plan, a pause takes 250 ms. *)
Definition pauses_within (timeout : Z) : nat := Z.to_nat (timeout / 250000000).

(** [Kubectl.Exec] up to the run of the command. *)
Definition exec_args (h : Helper) (input : bool) (args : list string) : list string :=
  ["exec"; "-n"; He_Namespace h; He_Name h; "-c"; "copy"] ++ (if input then ["-i"] else []) ++ ["--"] ++ args.
Definition exec_argv (h : Helper) (args : list string) (input : bool) : prog kube_call (result pvc_error (list string)) :=
  obj <-! getHelper h;;
  stop pod_deleting obj || str_ne (Po_Phase obj) "Running" with ErrUnsafe;;
  match args with
  | binary :: command :: _ :: _ =>
      stop str_ne binary HelperBinary || negb (has_prefix command "pvc-") with ErrUnsafe;;
      Ret (Ok (exec_args h input args))
  | _ => Ret (Err ErrUnsafe)
  end.
Definition kube_Exec (h : Helper) (args : list string) : prog kube_call (result pvc_error bytes) :=
  argv <-! exec_argv h args false;; run_bounded argv None 16384.
(** The two [Exec]s of a transfer: one that is refused ends at once, with its
    error, and its pipe ends with it. *)
Definition ok_of {A} (r : result pvc_error A) : option A := match r with Ok a => Some a | Err _ => None end.
Definition err_of {A} (r : result pvc_error A) : option pvc_error := match r with Ok _ => None | Err e => Some e end.
Definition kube_Transfer (source target : Helper) (export import : list string) : prog kube_call transfer :=
  s <-- exec_argv source export false;;
  t <-- exec_argv target import true;;
  x <-- call (KStreams (ok_of s) (ok_of t));;
  let response := if 16384 <? Z.of_nat (length (tf_response x)) then Err ErrOther else Ok (tf_response x) in
  Ret {| tf_stream := match s with Ok _ => tf_stream x | Err _ => no_stream end;
         tf_source := match s with Ok _ => tf_source x | Err e => Some e end;
         tf_write := tf_write x;
         tf_response := match t, response with Ok _, Ok b => b | _, _ => [] end;
         tf_target := match t, tf_target x with Ok _, None => err_of response | Ok _, Some e => Some e | Err e, _ => Some e end |}.
Definition kube_Reexport (source : Helper) (export : list string) : prog kube_call reexport :=
  s <-- exec_argv source export false;;
  match s with
  | Err e => Ret {| rx_stream := no_stream; rx_source := Some e |}
  | Ok argv => call (KStream argv)
  end.

(** [Kubectl.DeleteHelper]: the delete holds for the helper's UID only. *)
Definition delete_body (h : Helper) : json :=
  JObj [("apiVersion", JStr "v1"); ("kind", JStr "DeleteOptions"); ("preconditions", JObj [("uid", JStr (He_UID h))]);
        ("gracePeriodSeconds", JNum 5); ("propagationPolicy", JStr "Background")].
Definition delete_args (h : Helper) : list string :=
  ["delete"; "--raw"; "/api/v1/namespaces/" +:+ He_Namespace h +:+ "/pods/" +:+ He_Name h; "-f"; "-"; "--request-timeout=5s"].
Definition kube_DeleteHelper (h : Helper) : prog kube_call (result pvc_error unit) :=
  _ <-! getOwnedHelper h;;
  _ <-! call (KRun (delete_args h) (Some (delete_body h)));;
  Ret (Ok tt).
End Helpers.
End Operations.

(** ** Controllers *)

(** [consumes]: a claim of this name anywhere in the value. *)
Definition refers (l : json_fields) (claim : string) : bool :=
  match json_get "persistentVolumeClaim" l with Some (JObj pvc) => is_text (json_get "claimName" pvc) claim | _ => false end.
Fixpoint consumes (claim : string) (v : json) : bool :=
  match v with
  | JObj l => refers l claim || existsb (fun x => consumes claim x.2) l
  | JArr l => existsb (consumes claim) l
  | _ => false
  end.

(** [strconv.ParseUint(s, 10, 32)], at most [1<<31]. *)
Definition is_ordinal (s : string) : bool :=
  match chars s with
  | [] => false
  | l => match digits 0 l with Some n => (n <? 2 ^ 32) && (n <=? Z.shiftl 1 31) | None => false end
  end.
(** A claim that a template of a StatefulSet generates. *)
Definition generates (meta : json_fields) (claim : string) (template : json) : bool :=
  let name := as_text (json_get "name" (as_object (json_get "metadata" (as_object (Some template))))) in
  let controller := as_text (json_get "name" meta) in
  let prefix := name +:+ "-" +:+ controller +:+ "-" in
  str_ne name "" && str_ne controller "" && has_prefix claim prefix && is_ordinal (trim_prefix claim prefix).
(** [zero] *)
Definition zero_digits (s : string) : bool :=
  match split2 "e" (to_lower s) with
  | Some (mantissa, _) => forallb (one_of "-0.") (chars mantissa)
  | None => forallb (one_of "-0.") (chars s)
  end.
Definition zero_count (l : json_fields) (key : string) (default : Z) : bool :=
  match json_get key l with
  | None => default =? 0
  | Some (JNum z) => z =? 0
  | Some (JFraction s) => zero_digits s
  | Some _ => false
  end.
(** The kinds that the fence knows: is the controller at rest? *)
Definition at_rest (kind : option json) (spec status : json_fields) : result pvc_error bool :=
  if existsb (is_text kind) ["Deployment"; "StatefulSet"; "ReplicaSet"]
  then Ok (zero_count spec "replicas" 1 && zero_count status "replicas" 0 && zero_count status "readyReplicas" 0)
  else if is_text kind "Job"
  then Ok (bool_decide (json_get "suspend" spec = Some (JBool true)) && zero_count status "active" 0)
  else if is_text kind "CronJob"
  then match json_get "active" status with
       | Some (JArr _) | None =>
           Ok (bool_decide (json_get "suspend" spec = Some (JBool true))
               && bool_decide (as_array (json_get "active" status) = []))
       | Some _ => Err ErrUnsafe
       end
  else if is_text kind "DaemonSet" then Ok false
  else Err ErrUnsafe.
(** [controllerSafe] *)
Definition uses_claim (obj : json_fields) (claim : string) : bool :=
  let meta := as_object (json_get "metadata" obj) in
  let spec := as_object (json_get "spec" obj) in
  consumes claim (JObj spec)
  || (is_text (json_get "kind" obj) "StatefulSet"
      && existsb (generates meta claim) (as_array (json_get "volumeClaimTemplates" spec))).
Definition controllerSafe (obj : json_fields) (ref : PVCRef) : result pvc_error unit :=
  let meta := as_object (json_get "metadata" obj) in
  refuse negb (is_text (json_get "namespace" meta) (Pvc_Namespace ref)) with ErrUnsafe;;
  if negb (uses_claim obj (Pvc_Name ref)) then Ok tt
  else
    safe <-? at_rest (json_get "kind" obj) (as_object (json_get "spec" obj)) (as_object (json_get "status" obj));;
    refuse negb safe with ErrUnsafe;;
    Ok tt.
Fixpoint controllers_safe (l : list json_fields) (ref : PVCRef) : result pvc_error unit :=
  match l with
  | [] => Ok tt
  | obj :: l' => _ <-? controllerSafe obj ref;; controllers_safe l' ref
  end.
Definition controller_args (ns : string) : list string :=
  ["get"; "deployments,statefulsets,replicasets,daemonsets,jobs,cronjobs"; "-n"; ns; "-o"; "json"; "--chunk-size=0";
   "--request-timeout=30s"].

Section Transport.
Context `{Sha256} `{JsonText}.

(** [Kubectl.CheckControllers] *)
Definition kube_CheckControllers (ref : PVCRef) : prog kube_call (result pvc_error unit) :=
  l <-! kube_json (decode_list fields_of) (controller_args (Pvc_Namespace ref)) None;;
  stop str_ne l.2 "" with ErrUnsafe;;
  Ret (controllers_safe l.1 ref).

(** [Kubectl] as the [Transport] of an execution, within the timeout of its
    plan; [permission] is the executor's. *)
Definition transport (k : Kubectl) (timeout : Z) (permission : prog kube_call (result pvc_error unit))
    R (c : pvc_call R) : prog kube_call R :=
  match c in pvc_call R return prog kube_call R with
  | CtxErr => call KCtxErr
  | GetPVC ref => kube_GetPVC ref
  | ListPods ns => kube_ListPods ns
  | CheckControllers ref => kube_CheckControllers ref
  | PermissionCall _ _ => permission
  | RandRead => call KRand
  | CreateHelper s => createHelper k s false
  | WaitReady h => WaitReady_loop k (pauses_within timeout) h
  | Exec h args => kube_Exec k h args
  | Transfer source target export import => kube_Transfer k source target export import
  | Reexport source export => kube_Reexport k source export
  | DeleteHelper h => kube_DeleteHelper h
  end.
End Transport.

(** ** Lemmas *)

(** *** Numbers *)

Lemma pretty_char_digit x : (x < 10)%N -> is_digit (pretty_N_char x) = true /\ Z.of_N (code (pretty_N_char x)) - 48 = Z.of_N x.
Proof.
  intros Hx. assert (x = 0 ∨ x = 1 ∨ x = 2 ∨ x = 3 ∨ x = 4 ∨ x = 5 ∨ x = 6 ∨ x = 7 ∨ x = 8 ∨ x = 9)%N as Hc by lia.
  by destruct_or? Hc; subst.
Qed.
Lemma pretty_go_digits x : forall s, digits 0 (chars (pretty_N_go x s)) = digits (Z.of_N x) (chars s).
Proof.
  induction (N.lt_wf_0 x) as [x _ IH]. intros s. destruct (decide (x = 0)%N) as [->|Hx]; [by rewrite pretty_N_go_0|].
  rewrite pretty_N_go_step, IH by (apply N.div_lt || idtac; lia). change (chars (String ?c s)) with (c :: chars s).
  cbn [digits]. destruct (pretty_char_digit (x mod 10)) as [-> Hv]; [by apply N.mod_lt|].
  f_equal. rewrite Hv. rewrite (N.div_mod x 10) at 3 by done. rewrite N2Z.inj_add, N2Z.inj_mul. lia.
Qed.
Lemma pretty_digits z : 0 < z -> digits 0 (chars (pretty z)) = Some z.
Proof.
  intros Hz. destruct z as [|p|p]; [lia| |lia]. change (pretty (Zpos p)) with (pretty (Npos p)).
  unfold pretty, pretty_N. destruct (decide _); [done|]. by rewrite pretty_go_digits.
Qed.
Lemma digits_head c l z acc : digits acc (c :: l) = Some z -> is_digit c = true.
Proof. cbn [digits]. by destruct (is_digit c). Qed.
Lemma atoi_pretty z : 0 < z < 2 ^ 63 -> atoi (pretty z) = Some z.
Proof.
  intros Hz. pose proof (pretty_digits z ltac:(lia)) as Hd. unfold atoi.
  destruct (chars (pretty z)) as [|c l] eqn:E; [cbn in Hd; injection Hd as <-; lia|].
  pose proof (digits_head _ _ _ _ Hd) as Hc.
  assert (char_eq c (byte_of 45) = false /\ char_eq c (byte_of 43) = false) as [-> ->].
  { split; apply not_true_is_false; intros ->%char_eq_true; by vm_compute in Hc. }
  cbv zeta iota. rewrite Hd. assert ((- 2 ^ 63 <=? z) && (z <? 2 ^ 63) = true) as ->; [|done].
  rewrite andb_true_iff, Z.leb_le, Z.ltb_lt. lia.
Qed.

(** *** Controllers *)

(** A claim of this name is mentioned somewhere in the value. *)
Inductive mentions (claim : string) : json -> Prop :=
| mentions_here l pvc : json_get "persistentVolumeClaim" l = Some (JObj pvc) ->
    json_get "claimName" pvc = Some (JStr claim) -> mentions claim (JObj l)
| mentions_field l k v : In (k, v) l -> mentions claim v -> mentions claim (JObj l)
| mentions_item l v : In v l -> mentions claim v -> mentions claim (JArr l).

Lemma is_text_true v s : is_text v s = true <-> v = Some (JStr s).
Proof. unfold is_text. destruct v as [[]|]; try (split; [done|intros [=]]). rewrite str_eq_true. naive_solver. Qed.
Lemma consumes_mentions claim v : consumes claim v = true <-> mentions claim v.
Proof.
  split.
  - induction v as [|b|z|s|s|l IH|l IH] using json_ind'; cbn [consumes]; try done.
    + rewrite existsb_exists. intros (v & Hin & Hv). rewrite Forall_forall in IH.
      apply (mentions_item _ _ v); [done|]. apply IH; [by apply list_elem_of_In|done].
    + rewrite orb_true_iff, existsb_exists. intros [Hr|([k v] & Hin & Hv)].
      * unfold refers in Hr. destruct (json_get _ l) as [[| | | | | |pvc]|] eqn:E; try done.
        apply is_text_true in Hr. by apply (mentions_here _ _ pvc).
      * rewrite Forall_forall in IH. apply (mentions_field _ _ k v); [done|].
        apply (IH (k, v)); [by apply list_elem_of_In|done].
  - induction 1 as [l pvc E Hc|l k v Hin _ IH|l v Hin _ IH]; cbn [consumes].
    + unfold refers. rewrite E, (proj2 (is_text_true _ _) Hc). done.
    + apply orb_true_iff. right. apply existsb_exists. by exists (k, v).
    + apply existsb_exists. by exists v.
Qed.

Lemma prefix_split s p : has_prefix s p = true <-> exists rest, s = p +:+ rest.
Proof.
  unfold has_prefix. split.
  - intros Hp%prefix_of_skipn. eexists (text _). apply chars_inj. rewrite chars_app, chars_text. exact Hp.
  - intros [rest ->]. rewrite chars_app. induction (chars p) as [|c l IH]; [done|].
    cbn [prefix_of app]. by rewrite IH, (proj2 (char_eq_true c c) eq_refl).
Qed.
Lemma trim_prefix_app p rest : trim_prefix (p +:+ rest) p = rest.
Proof.
  unfold trim_prefix. rewrite (proj2 (prefix_split _ _)) by (by exists rest). rewrite chars_app.
  rewrite <- length_chars, drop_app_length. apply chars_inj. by rewrite chars_text.
Qed.

(** A claim name that a StatefulSet's template makes: the template's name, the
    controller's, and an ordinal. *)
Definition generated (meta : json_fields) (claim : string) (template : json) : Prop :=
  let name := as_text (json_get "name" (as_object (json_get "metadata" (as_object (Some template))))) in
  let controller := as_text (json_get "name" meta) in
  name <> "" /\ controller <> ""
  /\ exists ordinal n, claim = (name +:+ "-" +:+ controller +:+ "-") +:+ ordinal
       /\ ordinal <> "" /\ digits 0 (chars ordinal) = Some n /\ n <= 2 ^ 31.
Lemma is_ordinal_spec s : is_ordinal s = true <-> s <> "" /\ exists n, digits 0 (chars s) = Some n /\ n <= 2 ^ 31.
Proof.
  unfold is_ordinal. change (Z.shiftl 1 31) with (2 ^ 31).
  destruct (chars s) as [|c l] eqn:E.
  { split; [done|]. intros [Hs _]. exfalso. apply Hs. by apply chars_inj. }
  assert (s <> "") by (intros ->; done). destruct (digits 0 (c :: l)) as [n|]; [|split; [done|intros (_ & n & [=] & _)]].
  rewrite andb_true_iff, Z.ltb_lt, Z.leb_le. split; [intros [_ Hn]; split; [done|by exists n]|].
  intros (_ & n' & [= <-] & Hn). split; [lia|done].
Qed.
Lemma generates_spec meta claim template : generates meta claim template = true <-> generated meta claim template.
Proof.
  unfold generates, generated. cbv zeta. rewrite !andb_true_iff, !str_ne_true.
  set (p := _ +:+ "-" +:+ _ +:+ "-"). split.
  - intros [[[Hn Hc] [rest Hr]%prefix_split] Ho]. split; [done|]. split; [done|]. rewrite Hr, trim_prefix_app in Ho.
    apply is_ordinal_spec in Ho as (Ho & n & Hd & Hle). by exists rest, n.
  - intros (Hn & Hc & ordinal & n & -> & Ho & Hd & Hle). split; [split; [by split|apply prefix_split; by exists ordinal]|].
    rewrite trim_prefix_app. apply is_ordinal_spec. split; [done|]. by exists n.
Qed.

(** A controller that may open the claim. *)
Definition may_use (obj : json_fields) (claim : string) : Prop :=
  let spec := as_object (json_get "spec" obj) in
  mentions claim (JObj spec)
  \/ (json_get "kind" obj = Some (JStr "StatefulSet")
      /\ exists template, In template (as_array (json_get "volumeClaimTemplates" spec))
           /\ generated (as_object (json_get "metadata" obj)) claim template).
Lemma uses_claim_spec obj claim : uses_claim obj claim = true <-> may_use obj claim.
Proof.
  unfold uses_claim, may_use. cbv zeta. rewrite orb_true_iff, consumes_mentions, andb_true_iff, is_text_true, existsb_exists.
  by setoid_rewrite generates_spec.
Qed.
(** No pods run for it: scaled to zero, or suspended without active pods. *)
Definition none_of (l : json_fields) (key : string) (missing : Prop) : Prop :=
  match json_get key l with
  | None => missing
  | Some (JNum z) => z = 0
  | Some (JFraction s) => zero_digits s = true
  | Some _ => False
  end.
Inductive resting (spec status : json_fields) : option json -> Prop :=
| scaled_down kind : In kind ["Deployment"; "StatefulSet"; "ReplicaSet"] -> none_of spec "replicas" False ->
    none_of status "replicas" True -> none_of status "readyReplicas" True -> resting spec status (Some (JStr kind))
| suspended_job : json_get "suspend" spec = Some (JBool true) -> none_of status "active" True ->
    resting spec status (Some (JStr "Job"))
| suspended_cron : json_get "suspend" spec = Some (JBool true) ->
    json_get "active" status = None \/ json_get "active" status = Some (JArr []) -> resting spec status (Some (JStr "CronJob")).
Lemma zero_count_spec l key n : zero_count l key n = true <-> none_of l key (n = 0).
Proof. unfold zero_count, none_of. destruct (json_get key l) as [[]|]; rewrite ?Z.eqb_eq; done. Qed.
Lemma none_of_impl l key (P Q : Prop) : (P -> Q) -> none_of l key P -> none_of l key Q.
Proof. unfold none_of. intros HPQ. by destruct (json_get key l) as [[]|]. Qed.
Lemma at_rest_spec kind spec status : at_rest kind spec status = Ok true <-> resting spec status kind.
Proof.
  assert (ok_true : forall b : bool, Ok (E := pvc_error) b = Ok true <-> b = true) by (intros b; split; [by intros [= ->]|by intros ->]).
  unfold at_rest. destruct (existsb (is_text kind) _) eqn:Ek.
  - apply existsb_exists in Ek as (k & Hk & ->%is_text_true). rewrite ok_true, !andb_true_iff, !zero_count_spec. split.
    + intros [[H1 H2] H3]. by apply scaled_down; [done|eapply none_of_impl; [|eassumption]..].
    + intros Hr. inversion Hr as [k' Hin H1 H2 H3| |]; subst; [|cbn in Hk; naive_solver..].
      split_and!; by (eapply none_of_impl; [|eassumption]).
  - assert (Hno : forall k, In k ["Deployment"; "StatefulSet"; "ReplicaSet"] -> kind <> Some (JStr k)).
    { intros k Hk ->. rewrite <- not_true_iff_false, existsb_exists in Ek. apply Ek. exists k. by rewrite is_text_true. }
    destruct (is_text kind "Job") eqn:Ej; [|destruct (is_text kind "CronJob") eqn:Ec].
    + apply is_text_true in Ej as ->. rewrite ok_true, andb_true_iff, bool_decide_eq_true, zero_count_spec. split.
      * intros [H1 H2]. apply suspended_job; [done|]. by eapply none_of_impl; [|exact H2].
      * intros Hr. inversion Hr as [k' Hin| |]; subst; [by destruct (Hno _ Hin)|]. split; [done|].
        by eapply none_of_impl; [|eassumption].
    + apply is_text_true in Ec as ->. split.
      * intros Hc. destruct (json_get "active" status) as [[]|] eqn:Ea; try done; apply ok_true in Hc;
          rewrite andb_true_iff, !bool_decide_eq_true in Hc; destruct Hc as [H1 H2]; apply suspended_cron; auto.
        cbn [as_array] in H2. subst. by right.
      * intros Hr. inversion Hr as [k' Hin| |H1 H2]; subst; [by destruct (Hno _ Hin)|]. rewrite H1.
        by destruct H2 as [-> | ->].
    + split; [by destruct (is_text kind "DaemonSet")|]. intros Hr. exfalso.
      inversion Hr as [k' Hin| |]; subst; [by destruct (Hno _ Hin)|done|done].
Qed.
(** It is in the claim's namespace, and at rest if it may open the claim. *)
Definition fenced_controller (ref : PVCRef) (obj : json_fields) : Prop :=
  json_get "namespace" (as_object (json_get "metadata" obj)) = Some (JStr (Pvc_Namespace ref))
  /\ (may_use obj (Pvc_Name ref) ->
      resting (as_object (json_get "spec" obj)) (as_object (json_get "status" obj)) (json_get "kind" obj)).
Lemma controllerSafe_spec obj ref u : controllerSafe obj ref = Ok u <-> fenced_controller ref obj.
Proof.
  destruct u. unfold controllerSafe, fenced_controller. cbv zeta. rewrite <- uses_claim_spec, <- is_text_true, <- at_rest_spec.
  destruct (is_text _ _); cbn [negb]; [|naive_solver]. destruct (uses_claim _ _); cbn [negb]; [|naive_solver].
  destruct (at_rest _ _ _) as [[]|]; cbn [rbind negb]; naive_solver.
Qed.
Lemma controllers_safe_spec l ref u : controllers_safe l ref = Ok u <-> Forall (fenced_controller ref) l.
Proof.
  destruct u. induction l as [|obj l IH]; cbn [controllers_safe]; [split; [constructor|done]|].
  rewrite Forall_cons, <- IH, <- (controllerSafe_spec _ _ tt). destruct (controllerSafe obj ref) as [[]|]; cbn [rbind]; naive_solver.
Qed.

Section KubeLemmas.
Context `{Sha256} `{JsonText}.

(** The answer of a command as a decoded value. *)
Definition answers {A} (decode : json -> option A) (b : bytes) (a : A) : Prop :=
  Z.of_nat (length b) <= Z.shiftl 8 20 /\ exists v, parse_json b = Some v /\ decode v = Some a.
Lemma kube_json_ok {A} (decode : json -> option A) args input t a :
  exec (kube_json decode args input) t (Ok a) <-> exists b, t = [Event (KRun args input) (Ok b)] /\ answers decode b a.
Proof.
  unfold kube_json, run_bounded, answers. rewrite exec_pbind_ok. split.
  - intros (t1 & t2 & b & -> & Hr & [-> Hd]). apply exec_pbind_ok in Hr as (t3 & t4 & b' & -> & ->%exec_call & Hr).
    apply exec_stop_ok in Hr as [Hl%Z.ltb_ge Hr]. apply exec_ret_ok in Hr as [-> ->]. rewrite !app_nil_r.
    exists b. split; [done|]. split; [done|]. destruct (parse_json b) as [v|]; [|done]. exists v. split; [done|].
    destruct (decode v) as [a'|]; [|done]. by injection Hd as ->.
  - intros (b & -> & Hl & v & Hv & Hd). exists [Event (KRun args input) (Ok b)], [], b. split; [done|]. split.
    + apply exec_pbind_ok. exists [Event (KRun args input) (Ok b)], [], b. split; [done|]. split; [by apply exec_call|].
      apply exec_stop_ok. split; [by apply Z.ltb_ge|done].
    + cbn [exec]. by rewrite Hv, Hd.
Qed.
Lemma controllers_exec ref t u : exec (kube_CheckControllers ref) t (Ok u) <->
  exists b controllers, t = [Event (KRun (controller_args (Pvc_Namespace ref)) None) (Ok b)]
    /\ answers (decode_list fields_of) b (controllers, "") /\ Forall (fenced_controller ref) controllers.
Proof.
  unfold kube_CheckControllers. rewrite exec_pbind_ok. split.
  - intros (t1 & t2 & [l c] & -> & (b & -> & Hb)%kube_json_ok & Hx). apply exec_stop_ok in Hx as [Hc%str_ne_false Hx].
    destruct Hx as [-> Hx]. cbn [fst snd] in *. subst c. exists b, l. rewrite app_nil_r. split; [done|]. split; [done|].
    by apply (controllers_safe_spec _ _ u).
  - intros (b & l & -> & Hb & Hf). eexists _, [], (l, ""). rewrite app_nil_r. split; [done|].
    split; [apply kube_json_ok; by exists b|]. split; [done|]. symmetry. by apply controllers_safe_spec.
Qed.

(** *** Helpers *)

(** What the API server makes of a manifest: a new UID, and a phase. *)
Definition admitted (k : Kubectl) (s : HelperSpec) (uid phase : string) : json :=
  JObj [("apiVersion", JStr "v1"); ("kind", JStr "Pod");
        ("metadata", JObj (helper_metadata s ++ [("uid", JStr uid)])); ("spec", helper_spec k s);
        ("status", JObj [("phase", JStr phase)])].
Definition created_helper (s : HelperSpec) (uid : string) : Helper :=
  {| He_Namespace := Hs_Namespace s; He_Name := Hs_Name s; He_UID := uid; He_Owner := Hs_Owner s;
     He_PVC := Hs_PVC s; He_ReadOnly := Hs_ReadOnly s; He_Image := Hs_Image s |}.
Lemma seconds_bounds t : 0 < t <= MaxCopyTimeout -> 31 <= helper_seconds t <= MaxCopyTimeout / seconds 1 + 30.
Proof.
  unfold helper_seconds, ceil_seconds. change MaxCopyTimeout with 21600000000000. change (seconds 1) with 1000000000.
  intros Ht. split.
  - assert (1 <= (t + 999999999) / 1000000000); [|lia]. apply Z.div_le_lower_bound; lia.
  - assert ((t + 999999999) / 1000000000 < 21601); [|change (21600000000000 / 1000000000) with 21600; lia].
    apply Z.div_lt_upper_bound; lia.
Qed.
Lemma creatable_spec k s : creatable k s = true ->
  Hs_Image s = Ku_RunnerImage k /\ Hs_Namespace s = Pvc_Namespace (Hs_PVC s) /\ Hs_Owner s <> ""
  /\ match_string dnsName (Hs_Name s) = true /\ 0 < Hs_Timeout s <= MaxCopyTimeout
  /\ (Hs_ReadOnly s = true -> Hs_Name s = SourceHelperName (Hs_PVC s)).
Proof.
  unfold creatable. rewrite !andb_true_iff, orb_true_iff, negb_true_iff, !str_eq_true, str_ne_true, Z.ltb_lt, !Z.leb_le.
  intros (((((((((_ & ->) & _) & _) & ->) & Hn) & Ho) & Ht) & Ht') & Hr). split_and!; try done.
  intros E. destruct Hr as [Hr|Hr]; [congruence|done].
Qed.
Definition described (k : Kubectl) (s : HelperSpec) (uid phase : string) : podObject :=
  let id := if Ku_AllowRootHelpers k then 0 else 10001 in
  {| Po_Metadata :=
       {| Om_Namespace := Hs_Namespace s; Om_Name := Hs_Name s; Om_UID := uid; Om_DeletionTimestamp := None;
          Om_Labels := [("app.kubernetes.io/component", "pvccopy-helper")];
          Om_Annotations := [(ownerAnnotation, Hs_Owner s)] |};
     Po_HostNetwork := false; Po_HostPID := false; Po_HostIPC := false; Po_RestartPolicy := "Never";
     Po_Deadline := helper_seconds (Hs_Timeout s);
     Po_Security :=
       {| Ps_RunAsUser := Some id; Ps_RunAsGroup := Some id; Ps_RunAsNonRoot := Some (negb (Ku_AllowRootHelpers k));
          Ps_FSGroup := None; Ps_SupplementalGroups := []; Ps_SELinux := JNull; Ps_Seccomp := "RuntimeDefault" |};
     Po_ServiceAccount := Ku_ServiceAccount k; Po_Automount := Some false; Po_InitContainers := [];
     Po_EphemeralContainers := [];
     Po_Containers :=
       [{| Ct_Name := "copy"; Ct_Image := Hs_Image s; Ct_Command := ["sleep"];
           Ct_Args := [pretty (helper_seconds (Hs_Timeout s))]; Ct_Env := []; Ct_EnvFrom := [];
           Ct_Security :=
             {| Cs_Privileged := false; Cs_AllowEscalation := Some false; Cs_ReadOnlyRoot := Some true;
                Cs_RunAsUser := None; Cs_RunAsGroup := None; Cs_RunAsNonRoot := None; Cs_SELinux := JNull;
                Cs_Drop := ["ALL"]; Cs_Add := helper_capabilities k (Hs_ReadOnly s) |};
           Ct_VolumeMounts := [{| Vm_Name := "data"; Vm_Path := "/data"; Vm_ReadOnly := Hs_ReadOnly s;
                                  Vm_RecursiveReadOnly := if Hs_ReadOnly s then "Enabled" else "" |}] |}];
     Po_Volumes := [{| Pl_Name := "data"; Pl_PVC := Some (Pvc_Name (Hs_PVC s), Hs_ReadOnly s) |}];
     Po_Phase := phase; Po_Conditions := [] |}.
Lemma decode_admitted k s uid phase : creatable k s = true -> decode_pod (admitted k s uid phase) = Some (described k s uid phase).
Proof.
  intros (_ & _ & _ & _ & Ht & _)%creatable_spec. apply seconds_bounds in Ht.
  assert (Hf : fits64 (helper_seconds (Hs_Timeout s)) = true).
  { unfold fits64. rewrite andb_true_iff, Z.leb_le, Z.ltb_lt. change (MaxCopyTimeout / seconds 1 + 30) with 21630 in Ht. lia. }
  unfold admitted, described, helper_spec, helper_metadata, helper_security, helper_container, helper_mount, helper_capabilities.
  revert Hf. generalize (helper_seconds (Hs_Timeout s)) as n. intros n Hf.
  unfold decode_pod. cbv zeta. destruct (Ku_AllowRootHelpers k), (Hs_ReadOnly s); lazy -[fits64 pretty]; rewrite Hf; reflexivity.
Qed.
Lemma points_to_same {A} `{EqDecision A} (o : option A) a : o = Some a -> points_to o a = true.
Proof. intros ->. by apply bool_decide_eq_true. Qed.
Lemma validate_described k s uid phase : creatable k s = true ->
  validateHelperPod k (described k s uid phase) (created_helper s uid) = Ok tt.
Proof.
  intros (Hi & Hn & _ & _ & Ht & Hr)%creatable_spec. apply seconds_bounds in Ht. unfold validateHelperPod, described.
  set (n := helper_seconds (Hs_Timeout s)) in *.
  cbn -[str_ne str_eq bool_decide pretty MaxCopyTimeout seconds helper_capabilities SourceHelperName points_to].
  apply refuse_ok. split.
  { destruct (Hs_ReadOnly s) eqn:E; [|done]. cbn [andb]. apply str_ne_false. auto. }
  rewrite Hi, Hn, !(proj2 (str_ne_false _ _) eq_refl), !points_to_same by done. cbn [orb negb].
  repeat (rewrite bool_decide_eq_true_2 by done). cbn [orb negb].
  assert ((n <=? 0) || (MaxCopyTimeout / seconds 1 + 30 <? n) = false) as ->.
  { apply orb_false_iff. rewrite Z.leb_gt, Z.ltb_ge. lia. }
  rewrite points_to_same by (apply atoi_pretty; change (MaxCopyTimeout / seconds 1 + 30) with 21630 in Ht; lia).
  cbn [negb]. rewrite points_to_same by done. by destruct (Hs_ReadOnly s).
Qed.
Lemma create_exec k s dryRun t r : creatable k s = true ->
  exec (createHelper k s dryRun) t r <->
  exists x, exec (kube_json decode_pod (create_args (Hs_Namespace s) dryRun) (Some (helper_manifest k s))) t x
    /\ r = match x with
           | Err e => (zero_helper, Some e)
           | Ok response =>
               let h := helper_of s response in
               let named := str_eq (He_Namespace h) (Hs_Namespace s) && str_eq (He_Name h) (Hs_Name s)
                            && str_eq (He_Owner h) (Hs_Owner s) in
               let verdict := match validateHelperPod k response h with Ok _ => None | Err e => Some e end in
               if dryRun then (zero_helper, if named then verdict else Some ErrUnsafe)
               else if negb named || str_eq (He_UID h) "" then (zero_helper, Some ErrUnsafe)
               else (h, verdict)
           end.
Proof.
  intros Hc. unfold createHelper. rewrite Hc. cbn [negb]. rewrite exec_bind. split.
  - intros (t1 & t2 & x & -> & Hx & [-> ->]). exists x. by rewrite app_nil_r.
  - intros (x & Hx & ->). exists t, [], x. by rewrite app_nil_r.
Qed.
Lemma helper_of_described k s uid phase : helper_of s (described k s uid phase) = created_helper s uid.
Proof. reflexivity. Qed.
Lemma created_exec k s uid phase dryRun b : creatable k s = true -> uid <> "" -> answers decode_pod b (described k s uid phase) ->
  exec (createHelper k s dryRun) [Event (KRun (create_args (Hs_Namespace s) dryRun) (Some (helper_manifest k s))) (Ok b)]
    (if dryRun then zero_helper else created_helper s uid, None).
Proof.
  intros Hc Hu Hb. apply create_exec; [done|]. exists (Ok (described k s uid phase)). split; [apply kube_json_ok; by exists b|].
  cbv zeta. rewrite helper_of_described, validate_described by done.
  cbn [created_helper He_Namespace He_Name He_Owner He_UID].
  rewrite !(proj2 (str_eq_true _ _) eq_refl), (proj2 (str_eq_false _ _) Hu). by destruct dryRun.
Qed.
Lemma owned_described k s uid phase : owned_by (created_helper s uid) (described k s uid phase) = true.
Proof. unfold owned_by. cbn -[str_eq]. by rewrite !(proj2 (str_eq_true _ _) eq_refl). Qed.
Lemma get_helper_exec k s uid phase b : creatable k s = true -> uid <> "" -> match_string dnsName (Hs_Namespace s) = true ->
  answers decode_pod b (described k s uid phase) ->
  exec (getHelper k (created_helper s uid)) [Event (KRun (get_pod_args (created_helper s uid)) None) (Ok b)]
    (Ok (described k s uid phase)).
Proof.
  intros Hc Hu Hn Hb. pose proof (creatable_spec _ _ Hc) as (_ & _ & Ho & Hd & _). unfold getHelper.
  apply exec_pbind_ok. eexists _, [], (described k s uid phase). rewrite app_nil_r. split; [done|]. split.
  - unfold getOwnedHelper. apply exec_stop_ok. cbn [created_helper He_UID He_Owner He_Name He_Namespace].
    rewrite (proj2 (str_eq_false _ _) Hu), (proj2 (str_eq_false _ _) Ho), Hd, Hn. split; [done|].
    apply exec_pbind_ok. eexists _, [], (described k s uid phase). rewrite app_nil_r. split; [done|].
    split; [apply kube_json_ok; by exists b|]. apply exec_stop_ok. by rewrite owned_described.
  - by rewrite validate_described.
Qed.

(** *** What kubectl is run for *)

(** The helper was looked at, in one of the last two calls: it is the one that
    the runner made, and if [running], as it was made and running. *)
Definition seen (k : Kubectl) (h : list (event kube_call)) (helper : Helper) (running : bool) : Prop :=
  exists h1 h2 b obj, h = h1 ++ Event (KRun (get_pod_args helper) None) (Ok b) :: h2 /\ (length h2 <= 1)%nat
    /\ answers decode_pod b obj /\ owned_by helper obj = true
    /\ (running = true -> validateHelperPod k obj helper = Ok tt /\ Po_Phase obj = "Running" /\ pod_deleting obj = false).
(** The runner's own command in such a helper. *)
Definition helper_run (k : Kubectl) (h : list (event kube_call)) (input : bool) (argv : list string) : Prop :=
  exists helper command args, argv = exec_args helper input (HelperBinary :: command :: args)
    /\ has_prefix command "pvc-" = true /\ seen k h helper true.
Definition kube_allowed (k : Kubectl) (made : HelperSpec -> Prop) (R : Type) (h : list (event kube_call)) (c : kube_call R) : Prop :=
  match c with
  | KRun args input =>
      (hd "" args = "get" /\ input = None)
      \/ (exists s dryRun, made s /\ creatable k s = true /\ args = create_args (Hs_Namespace s) dryRun
            /\ input = Some (helper_manifest k s))
      \/ (input = None /\ helper_run k h false args)
      \/ (exists helper, seen k h helper false /\ args = delete_args helper /\ input = Some (delete_body helper))
  | KStreams source target =>
      (forall argv, source = Some argv -> helper_run k h false argv)
      /\ (forall argv, target = Some argv -> helper_run k h true argv)
  | KStream argv => helper_run k h false argv
  | KTimer | KCtxErr | KRand => True
  | KAuthorize _ _ | KProbe _ _ => False
  end.

Section Allowed.
Variables (k : Kubectl) (made : HelperSpec -> Prop).

Lemma json_allowed {A} (decode : json -> option A) args input h : kube_allowed k made _ h (KRun args input) ->
  guarded (kube_allowed k made) h (kube_json decode args input).
Proof.
  intros Ha. apply guarded_pbind; [|done]. apply guarded_pbind; [by split|]. intros t b _. by apply guarded_stop.
Qed.
Lemma get_allowed {A} (decode : json -> option A) args h : hd "" args = "get" ->
  guarded (kube_allowed k made) h (kube_json decode args None).
Proof. intros Ha. apply json_allowed. by left. Qed.
Lemma getOwned_ok helper t obj : exec (getOwnedHelper helper) t (Ok obj) ->
  exists b, t = [Event (KRun (get_pod_args helper) None) (Ok b)] /\ answers decode_pod b obj /\ owned_by helper obj = true.
Proof.
  unfold getOwnedHelper. intros Hx. apply exec_stop_ok in Hx as [_ Hx].
  apply exec_pbind_ok in Hx as (t1 & t2 & o & -> & (b & -> & Hb)%kube_json_ok & Hx).
  apply exec_stop_ok in Hx as [Ho%negb_false_iff Hx]. apply exec_ret_ok in Hx as [-> ->]. by exists b.
Qed.
Lemma getHelper_ok helper t obj : exec (getHelper k helper) t (Ok obj) ->
  exec (getOwnedHelper helper) t (Ok obj) /\ validateHelperPod k obj helper = Ok tt.
Proof.
  unfold getHelper. intros Hx. apply exec_pbind_ok in Hx as (t1 & t2 & o & -> & Ho & Hx).
  apply exec_pret in Hx as ([] & Hv & Hx). apply exec_ret_ok in Hx as [-> ->]. by rewrite app_nil_r.
Qed.
Lemma getOwned_allowed helper h : guarded (kube_allowed k made) h (getOwnedHelper helper).
Proof.
  apply guarded_stop. intros _. apply guarded_pbind; [by apply get_allowed|]. intros t obj _. by apply guarded_stop.
Qed.
Lemma getHelper_allowed helper h : guarded (kube_allowed k made) h (getHelper k helper).
Proof. apply guarded_pbind; [apply getOwned_allowed|]. intros t obj _. by destruct (validateHelperPod _ _ _). Qed.
Lemma exec_argv_allowed helper args input h : guarded (kube_allowed k made) h (exec_argv k helper args input).
Proof.
  apply guarded_pbind; [apply getHelper_allowed|]. intros t obj _. apply guarded_stop. intros _.
  destruct args as [|x [|y [|z l]]]; try done. by apply guarded_stop.
Qed.
Lemma exec_argv_ok helper args input t argv : exec (exec_argv k helper args input) t (Ok argv) ->
  (length t = 1)%nat /\ forall h1 h2, (length h2 <= 1)%nat -> helper_run k (h1 ++ t ++ h2) input argv.
Proof.
  unfold exec_argv. intros Hx. apply exec_pbind_ok in Hx as (t1 & t2 & obj & -> & [Ho Hv]%getHelper_ok & Hx).
  apply getOwned_ok in Ho as (b & -> & Hb & Ho). apply exec_stop_ok in Hx as [[Hd Hp]%orb_false_iff Hx].
  destruct args as [|x [|y [|z l]]]; try (by destruct Hx as [_ [=]]). apply exec_stop_ok in Hx as [[Hx1 Hx2]%orb_false_iff Hx].
  apply exec_ret_ok in Hx as [-> <-]. apply str_ne_false in Hx1 as ->. apply negb_false_iff in Hx2. apply str_ne_false in Hp.
  split; [done|]. intros h1 h2 Hl. exists helper, y, (z :: l). split; [done|]. split; [done|].
  exists h1, h2, b, obj. split_and!; done.
Qed.

Lemma create_allowed s dryRun h : made s -> guarded (kube_allowed k made) h (createHelper k s dryRun).
Proof.
  intros Hs. unfold createHelper. destruct (creatable k s) eqn:E; [|done]. cbn [negb]. apply guarded_bind; [|done].
  apply json_allowed. right. left. by exists s, dryRun.
Qed.
Lemma wait_allowed helper pauses : forall h, guarded (kube_allowed k made) h (WaitReady_loop k pauses helper).
Proof.
  induction pauses as [|pauses IH]; intros h; cbn [WaitReady_loop]; (apply guarded_pbind; [apply getHelper_allowed|]);
    intros t obj _; apply guarded_stop; intros _; (destruct (pod_ready obj); [done|]); [done|].
  split; [done|]. intros [e|]; [done|]. apply IH.
Qed.
Lemma Exec_allowed helper args h : guarded (kube_allowed k made) h (kube_Exec k helper args).
Proof.
  apply guarded_pbind; [apply exec_argv_allowed|]. intros t argv [_ Hr]%exec_argv_ok. apply guarded_pbind.
  - split; [|done]. right. right. left. split; [done|]. specialize (Hr h [] ltac:(cbn; lia)). by rewrite app_nil_r in Hr.
  - intros t' b _. by apply guarded_stop.
Qed.
(** A look at a helper is one call at most. *)
Lemma silent_tail {A B} (p : prog kube_call (result pvc_error A)) (f : A -> prog kube_call (result pvc_error B)) t r :
  (forall a, only (fun _ _ => False) (f a)) -> exec (pbind p f) t r -> exists a, exec p t a.
Proof.
  intros Hf Hx. unfold pbind in Hx. apply exec_bind in Hx as (t1 & t2 & a & -> & Hp & Hx). exists a.
  assert (t2 = []) as ->; [|by rewrite app_nil_r]. destruct a as [a|e]; [|by destruct Hx].
  specialize (Hf a). destruct (f a) as [c|R c q]; [by destruct Hx|by destruct Hf].
Qed.
Lemma json_one {A} (decode : json -> option A) args input t r : exec (kube_json decode args input) t r -> (length t <= 1)%nat.
Proof.
  intros [a Hx]%silent_tail; [|done]. apply silent_tail in Hx as [b Hx]; [by apply exec_call in Hx as ->|].
  intros c. by destruct (_ <? _).
Qed.
Lemma exec_argv_one helper args input t r : exec (exec_argv k helper args input) t r -> (length t <= 1)%nat.
Proof.
  unfold exec_argv, getHelper. intros [a Hx]%silent_tail.
  2: { intros o. destruct (_ || _); [done|]. destruct args as [|x [|y [|z l]]]; try done. by destruct (_ || _). }
  apply silent_tail in Hx as [b Hx]; [|intros o; by destruct (validateHelperPod _ _ _)].
  unfold getOwnedHelper in Hx. destruct (_ || _); [by destruct Hx as [-> _]; cbn; lia|].
  apply silent_tail in Hx as [c Hx]; [by eapply json_one|]. intros o. by destruct (negb _).
Qed.
Lemma Transfer_allowed source target export import h :
  guarded (kube_allowed k made) h (kube_Transfer k source target export import).
Proof.
  apply guarded_bind; [apply exec_argv_allowed|]. intros t1 s Hs. apply guarded_bind; [apply exec_argv_allowed|].
  intros t2 t Ht. split; [|done]. rewrite <- app_assoc. split; intros argv E.
  - destruct s as [argv'|]; [|done]. injection E as ->. apply exec_argv_ok in Hs as [_ Hs]. apply Hs. by eapply exec_argv_one.
  - destruct t as [argv'|]; [|done]. injection E as ->. apply exec_argv_ok in Ht as [_ Ht].
    specialize (Ht (h ++ t1) [] ltac:(cbn; lia)). by rewrite app_nil_r, <- app_assoc in Ht.
Qed.
Lemma Reexport_allowed source export h : guarded (kube_allowed k made) h (kube_Reexport k source export).
Proof.
  apply guarded_bind; [apply exec_argv_allowed|]. intros t [argv|e] Hs; [|done]. split; [|done].
  apply exec_argv_ok in Hs as [_ Hs]. specialize (Hs h [] ltac:(cbn; lia)). by rewrite app_nil_r in Hs.
Qed.
Lemma Delete_allowed helper h : guarded (kube_allowed k made) h (kube_DeleteHelper helper).
Proof.
  apply guarded_pbind; [apply getOwned_allowed|]. intros t obj (b & -> & Hb & Ho)%getOwned_ok.
  apply guarded_pbind; [|done]. split; [|done]. do 3 right. exists helper. split; [|done].
  exists h, [], b, obj. split_and!; try done. cbn. lia.
Qed.
Definition creates (R : Type) (c : pvc_call R) : Prop := match c with CreateHelper s => made s | _ => True end.
Lemma transport_allowed P timeout permission :
  (forall R h (c : kube_call R), kube_allowed k made R h c -> P R h c) -> (forall h, guarded P h permission) ->
  forall R h (c : pvc_call R), creates R c -> guarded P h (transport k timeout permission R c).
Proof.
  intros HP Hperm R h c Hc. destruct c; cbn [transport]; try apply Hperm; eapply guarded_impl; try exact HP.
  - by split.
  - apply guarded_pbind; [by apply get_allowed|done].
  - apply guarded_pbind; [by apply get_allowed|]. intros t a _. by apply guarded_stop.
  - apply guarded_pbind; [by apply get_allowed|]. intros t a _. by apply guarded_stop.
  - by split.
  - by apply create_allowed.
  - apply wait_allowed.
  - apply Exec_allowed.
  - apply Transfer_allowed.
  - apply Reexport_allowed.
  - apply Delete_allowed.
Qed.
End Allowed.
End KubeLemmas.

(** ** Properties *)

Section KubeProperties.
Context `{Sha256} `{JsonText}.

(** The helper that the runner describes is the helper it accepts: if the API
    server admits the manifest unchanged, but for a UID and a phase, the dry run
    passes, the creation returns the helper that [Execute] expects, and every later look at
    it accepts it, whatever the pod's phase. *)
Theorem helper_accepted k s uid phase b (Hc : creatable k s = true) (Hu : uid <> "")
    (Hn : match_string dnsName (Hs_Namespace s) = true) (Hlen : Z.of_nat (length b) <= Z.shiftl 8 20)
    (Hb : parse_json b = Some (admitted k s uid phase)) :
  let h := created_helper s uid in
  exec (PreflightHelper k s) [Event (KRun (create_args (Hs_Namespace s) true) (Some (helper_manifest k s))) (Ok b)] (Ok tt)
  /\ exec (createHelper k s false) [Event (KRun (create_args (Hs_Namespace s) false) (Some (helper_manifest k s))) (Ok b)]
       (h, None)
  /\ created_as s h = true
  /\ exec (getHelper k h) [Event (KRun (get_pod_args h) None) (Ok b)] (Ok (described k s uid phase)).
Proof.
  assert (Ha : answers decode_pod b (described k s uid phase)).
  { split; [done|]. eexists. split; [exact Hb|]. by apply decode_admitted. }
  cbv zeta. split; [|split; [by eapply (created_exec k s uid phase false)|split; [|by apply get_helper_exec]]].
  - apply exec_bind. eexists _, [], (zero_helper, None). rewrite app_nil_r. split; [done|].
    split; [by eapply (created_exec k s uid phase true)|done].
  - unfold created_as, known. cbn [created_helper He_UID He_Namespace He_Name He_Owner He_PVC He_ReadOnly He_Image].
    rewrite (proj2 (str_ne_true _ _) Hu), !(proj2 (str_eq_true _ _) eq_refl), eqb_reflx.
    by rewrite bool_decide_eq_true_2.
Qed.

(** [CheckControllers] succeeds exactly on a complete list in which every
    controller is in the claim's namespace and, if it mentions the claim anywhere in its
    specification or makes it from a template, is at rest: a Deployment, a StatefulSet or a
    ReplicaSet that is scaled to zero and has no replicas, or a suspended Job or CronJob
    without active pods. *)
Theorem controllers_checked ref t u :
  exec (kube_CheckControllers ref) t (Ok u) <->
  exists b controllers, t = [Event (KRun (controller_args (Pvc_Namespace ref)) None) (Ok b)]
    /\ answers (decode_list fields_of) b (controllers, "") /\ Forall (fenced_controller ref) controllers.
Proof. apply controllers_exec. Qed.
End KubeProperties.

(** ** Witness *)

Definition accepted_spec (hash : Sha256) : HelperSpec :=
  {| Hs_Namespace := "prod"; Hs_Name := SourceHelperName (Source sample_plan); Hs_Owner := "owner"; Hs_PVC := Source sample_plan;
     Hs_ReadOnly := true; Hs_Image := Image sample_plan; Hs_Timeout := seconds 60 |}.
Lemma helper_accepted_witness :
  let hash : Sha256 := fun _ => zeros64 in
  let k := {| Ku_RunnerImage := Image sample_plan; Ku_ServiceAccount := "default"; Ku_AllowRootHelpers := true |} in
  let s := accepted_spec hash in
  let texts : JsonText := fun _ => Some (admitted k s "uid" "Pending") in
  exec (createHelper k s false) [Event (KRun (create_args "prod" false) (Some (helper_manifest k s))) (Ok [])]
    (created_helper s "uid", None).
Proof.
  cbv zeta. set (hash := fun _ : bytes => zeros64).
  set (k := {| Ku_RunnerImage := _; Ku_ServiceAccount := _; Ku_AllowRootHelpers := _ |}).
  set (texts := fun _ : bytes => Some (admitted k (accepted_spec hash) "uid" "Pending")).
  refine (proj1 (proj2 (helper_accepted (H := hash) (H0 := texts) k (accepted_spec hash) "uid" "Pending" [] _ _ _ _ _)));
    [vm_compute; reflexivity|done|vm_compute; reflexivity|vm_compute; discriminate|reflexivity].
Defined.
