(* ===== verification/PvcDomain.v ===== *)
(** * Copies of the volumes of a plan

    [internal/pvccopy/domain.go]: [DomainExecutor], which checks every source,
    makes the targets of a plan of the control plane and copies each item by
    [PvcExecutor.Execute] over kubectl. *)

From stdpp Require Import base list gmap strings pretty.
From Stdlib Require Import ZArith Lia Ascii String.
From S2P Require Import Prelude GoStrings Regex GoPath OrchTypes Json PvcPlan PvcArchive PvcLocal PvcExecutor PvcHelper PvcKube.

Local Open Scope string_scope.
Local Open Scope Z_scope.
Local Open Scope list_scope.

(** ** Quantities *)

(** [^([0-9]+(?:\.[0-9]+)?)([KMGTPE]i|[kMGTPE])?$] *)
Definition quantityPattern : re :=
  RSeq (RSeq (plus (RChr is_digit)) (opt (RSeq (chr (byte_of 46)) (plus (RChr is_digit)))))
    (opt (RAlt (RSeq (RChr (one_of "KMGTPE")) (lit (chars "i"))) (RChr (one_of "kMGTPE")))).
Definition multipliers : list (string * Z) :=
  [("", 1); ("Ki", 2 ^ 10); ("Mi", 2 ^ 20); ("Gi", 2 ^ 30); ("Ti", 2 ^ 40); ("Pi", 2 ^ 50); ("Ei", 2 ^ 60);
   ("k", 10 ^ 3); ("M", 10 ^ 6); ("G", 10 ^ 9); ("T", 10 ^ 12); ("P", 10 ^ 15); ("E", 10 ^ 18)].

(** The submatches: the digits before and after the point, and the suffix. *)
Fixpoint digits_of (l : bytes) : bytes * bytes :=
  match l with
  | c :: l' => if is_digit c then let '(d, rest) := digits_of l' in (c :: d, rest) else ([], l)
  | [] => ([], [])
  end.
Definition submatches (s : string) : bytes * bytes * string :=
  let '(whole, rest) := digits_of (chars s) in
  match rest with
  | c :: rest' => if char_eq c (byte_of 46) then let '(fraction, suffix) := digits_of rest' in (whole, fraction, text suffix)
                  else (whole, [], text rest)
  | [] => (whole, [], "")
  end.
Definition value_of (l : bytes) : Z := match digits 0 l with Some n => n | None => 0 end.
(** [quantityBytes]: the number, times the multiplier, rounded up. *)
Definition quantityBytes (s : string) : result pvc_error Z :=
  refuse negb (match_string quantityPattern s) with ErrUnsafe;;
  let '(whole, fraction, suffix) := submatches s in
  let num := value_of (whole ++ fraction) * match map_get suffix multipliers with Some m => m | None => 0 end in
  let denom := 10 ^ Z.of_nat (length fraction) in
  let q := num / denom + (if num mod denom =? 0 then 0 else 1) in
  refuse negb (q <? 2 ^ 63) || (q <=? 0) with ErrUnsafe;;
  Ok q.

(** [sameSet] *)
Definition sameSet (a b : list string) : bool := bool_decide (sort_strings a = sort_strings b).

(** ** Claims *)

Record domainPVC := {
  Dv_Metadata : objectMeta; Dv_VolumeName : string; Dv_VolumeMode : string; Dv_StorageClass : string;
  Dv_AccessModes : list string; Dv_DataSource : json; Dv_DataSourceRef : json; Dv_Requests : list (string * string);
  Dv_Phase : string }.
Definition decode_domain_pvc (v : json) : option domainPVC :=
  let* l := fields_of v in
  let* meta := struct_field l "metadata" in let* meta := decode_meta meta in
  let* spec := struct_field l "spec" in let* name := text_field spec "volumeName" in
  let* mode := text_field spec "volumeMode" in let* class := text_field spec "storageClassName" in
  let* modes := slice_field spec text_element "accessModes" in
  let* resources := struct_field spec "resources" in let* requests := map_field resources "requests" in
  let* status := struct_field l "status" in let* phase := text_field status "phase" in
  Some {| Dv_Metadata := meta; Dv_VolumeName := name; Dv_VolumeMode := mode; Dv_StorageClass := class;
          Dv_AccessModes := modes; Dv_DataSource := any_field spec "dataSource";
          Dv_DataSourceRef := any_field spec "dataSourceRef"; Dv_Requests := requests; Dv_Phase := phase |}.

(** [domain.PVCCopyPermission], and what the contracts do with plans and
    sources. *)
Record CopyPermission := {
  Pm_PlanID : string; Pm_TenantID : string; Pm_ProjectID : string; Pm_EnvironmentID : string;
  Pm_TemplateRevisionID : string; Pm_TemplateDigest : string; Pm_TargetNamespace : string;
  Pm_AllowedSourceNamespaces : list string; Pm_AllowedImages : list string; Pm_MaxBytes : Z;
  Pm_StorageQuotaBytes : Z; Pm_TimeoutSeconds : Z; Pm_ApprovedProductionSources : list json }.
Class CopyContracts := {
  plan_Validate : CopyPlan -> result pvc_error unit;
  CanonicalIdentity : CopySource -> result pvc_error string;
  ValidatePVCCopyPlan : CopyPlan -> list CopySource -> CopyPermission -> result pvc_error unit }.

(** [Authorize] is the call [KAuthorize]. *)
Record DomainExecutor := { De_Kubectl : Kubectl; De_Permission : CopyPermission; De_Sources : list CopySource }.

Definition source_ref (item : CopyItem) : PVCRef :=
  {| Pvc_Namespace := It_SourceNamespace item; Pvc_Name := It_SourceName item; Pvc_UID := It_SourceUID item |}.
Definition target_ref (p : CopyPlan) (item : CopyItem) (uid : string) : PVCRef :=
  {| Pvc_Namespace := Cp_TargetNamespace p; Pvc_Name := It_TargetName item; Pvc_UID := uid |}.

Section Claims.
Context `{Sha256}.

(** [labelIdentity], [targetLabels], [targetAnnotations] *)
Definition labelIdentity (value : string) : string := String.substring 0 40 (sha256_hex (chars value)).
Definition targetLabels (p : CopyPlan) : list (string * string) :=
  [("envplane.io/pvc-copy-plan", labelIdentity (Cp_Digest p)); ("envplane.io/pvc-copy-tenant", labelIdentity (Cp_TenantID p));
   ("envplane.io/pvc-copy-project", labelIdentity (Cp_ProjectID p));
   ("envplane.io/pvc-copy-environment", labelIdentity (Cp_EnvironmentID p))].
Definition targetAnnotations (p : CopyPlan) (item : CopyItem) : list (string * string) :=
  [("envplane.io/pvc-copy-plan", Cp_Digest p); ("envplane.io/pvc-copy-item", It_ID item);
   ("envplane.io/pvc-copy-source-uid", It_SourceUID item); ("envplane.io/tenant", Cp_TenantID p);
   ("envplane.io/project", Cp_ProjectID p); ("envplane.io/environment", Cp_EnvironmentID p)].
Definition all_of (want have : list (string * string)) : bool :=
  forallb (fun x => str_eq (text_of x.1 have) x.2) want.

(** [ownedTarget] *)
Definition ownedTarget (obj : domainPVC) (p : CopyPlan) (item : CopyItem) : result pvc_error unit :=
  let m := Dv_Metadata obj in
  refuse str_eq (Om_UID m) "" || str_ne (Om_Namespace m) (Cp_TargetNamespace p) || str_ne (Om_Name m) (It_TargetName item)
    || is_some (Om_DeletionTimestamp m) with ErrUnsafe;;
  refuse negb (all_of (targetLabels p) (Om_Labels m)) with ErrUnsafe;;
  refuse negb (all_of (targetAnnotations p item) (Om_Annotations m)) with ErrUnsafe;;
  n <-? quantityBytes (text_of "storage" (Dv_Requests obj));;
  refuse str_ne (Dv_StorageClass obj) (It_StorageClass item) || negb (sameSet (Dv_AccessModes obj) (It_AccessModes item))
    || negb (n =? It_RequestedBytes item) || str_ne (Dv_VolumeMode obj) "Filesystem"
    || negb (bool_decide (Dv_DataSource obj = JNull)) || negb (bool_decide (Dv_DataSourceRef obj = JNull)) with ErrUnsafe;;
  Ok tt.

(** The claim that is made for an item. *)
Definition text_fields (l : list (string * string)) : json_fields := map (fun x => (x.1, JStr x.2)) l.
Definition claim_labels (p : CopyPlan) : list (string * string) :=
  targetLabels p
  ++ [("envplane.io/managed", "true"); ("envplane.io/project", Cp_ProjectID p);
      ("envplane.io/environment", Cp_EnvironmentID p); ("envplane.io/project-id", Cp_ProjectID p);
      ("envplane.io/environment-id", Cp_EnvironmentID p)].
Definition claim_metadata (p : CopyPlan) (item : CopyItem) : json_fields :=
  [("namespace", JStr (Cp_TargetNamespace p)); ("name", JStr (It_TargetName item));
   ("labels", JObj (text_fields (claim_labels p))); ("annotations", JObj (text_fields (targetAnnotations p item)))].
Definition claim_spec (item : CopyItem) : json :=
  JObj [("storageClassName", JStr (It_StorageClass item)); ("volumeMode", JStr "Filesystem");
        ("accessModes", texts (It_AccessModes item));
        ("resources", JObj [("requests", JObj [("storage", JStr (pretty (It_RequestedBytes item)))])])].
Definition claim_manifest (p : CopyPlan) (item : CopyItem) : json :=
  JObj [("apiVersion", JStr "v1"); ("kind", JStr "PersistentVolumeClaim"); ("metadata", JObj (claim_metadata p item));
        ("spec", claim_spec item)].
Definition claim_args (ns : string) : list string :=
  ["create"; "-n"; ns; "-f"; "-"; "-o"; "json"; "--request-timeout=30s"].
End Claims.

(** ** Sources *)

Section Domain.
Context `{Sha256} `{JsonText} `{PvcPlanJson} `{AnswerJson} `{CopyContracts}.
Variable d : DomainExecutor.

(** [DomainExecutor.readPVC] *)
Definition readPVC (ref : PVCRef) (optional : bool) : prog kube_call (result pvc_error (option domainPVC)) :=
  b <-! run_bounded (get_pvc_args ref ++ (if optional then ["--ignore-not-found=true"] else [])) None (Z.shiftl 1 20);;
  if optional && str_eq (trim_space (text b)) "" then Ret (Ok None)
  else
    Ret (match parse_json b with
         | None => Err ErrOther
         | Some v =>
             match decode_domain_pvc v with
             | None => Err ErrOther
             | Some obj =>
                 let m := Dv_Metadata obj in
                 refuse str_ne (Om_Namespace m) (Pvc_Namespace ref) || str_ne (Om_Name m) (Pvc_Name ref)
                   || str_eq (Om_UID m) "" || is_some (Om_DeletionTimestamp m) with ErrUnsafe;;
                 Ok (Some obj)
             end
         end).

(** The one trusted source of a reference. *)
Definition trusted_source (ref : PVCRef) : result pvc_error (option CopySource) :=
  match List.filter (fun s => str_eq (Sr_Namespace s) (Pvc_Namespace ref) && str_eq (Sr_Name s) (Pvc_Name ref)) (De_Sources d) with
  | [] => Ok None
  | [s] => Ok (Some s)
  | _ => Err ErrUnsafe
  end.
Definition live_class (labels : list (string * string)) : string :=
  let c := text_of "envplane.io/environment-class" labels in
  if existsb (str_eq c) ["development"; "staging"; "test"; "preview"; "production"] then c else "production".
(** The trusted source with what the claim says now. *)
Definition refreshed (s : CopySource) (obj : domainPVC) (requested : Z) : CopySource :=
  {| Sr_Namespace := Sr_Namespace s; Sr_Name := Sr_Name s; Sr_UID := Sr_UID s; Sr_EnvironmentClass := Sr_EnvironmentClass s;
     Sr_StorageClass := Dv_StorageClass obj; Sr_AccessModes := Dv_AccessModes obj; Sr_RequestedBytes := requested;
     Sr_VolumeMode := "Filesystem"; Sr_rest := Sr_rest s |}.
Definition fresh_source (item : CopyItem) (obj : domainPVC) : result pvc_error CopySource :=
  let ref := source_ref item in
  let m := Dv_Metadata obj in
  refuse str_ne (Om_UID m) (Pvc_UID ref) || str_ne (text_of "envplane.io/pvc-copy-offline" (Om_Annotations m)) "true"
    || str_ne (Dv_Phase obj) "Bound" || str_eq (Dv_VolumeName obj) ""
    || (str_ne (Dv_VolumeMode obj) "" && str_ne (Dv_VolumeMode obj) "Filesystem") with ErrUnsafe;;
  trusted <-? trusted_source ref;;
  match trusted with
  | None => Err ErrUnsafe
  | Some s =>
      refuse str_ne (Sr_UID s) (Pvc_UID ref) with ErrUnsafe;;
      refuse str_ne (live_class (Om_Labels m)) (Sr_EnvironmentClass s) with ErrUnsafe;;
      requested <-? quantityBytes (text_of "storage" (Dv_Requests obj));;
      let fresh := refreshed s obj requested in
      identity <-? CanonicalIdentity fresh;;
      match CanonicalIdentity s with
      | Ok old => refuse str_ne identity old with ErrUnsafe;; Ok fresh
      | Err _ => Err ErrUnsafe
      end
  end.
Definition read_source (item : CopyItem) : prog kube_call (result pvc_error CopySource) :=
  obj <-! readPVC (source_ref item) false;;
  match obj with
  | None => Ret (Err ErrOther)
  | Some obj =>
      s <-! Ret (fresh_source item obj);;
      _ <-! kube_CheckControllers (source_ref item);;
      Ret (Ok s)
  end.
Fixpoint read_sources (items : list CopyItem) : prog kube_call (result pvc_error (list CopySource)) :=
  match items with
  | [] => Ret (Ok [])
  | item :: items' => s <-! read_source item;; fresh <-! read_sources items';; Ret (Ok (s :: fresh))
  end.
(** [DomainExecutor.validateSources] *)
Definition validateSources (p : CopyPlan) : prog kube_call (result pvc_error (list CopySource)) :=
  fresh <-! read_sources (Cp_Items p);;
  _ <-! Ret (ValidatePVCCopyPlan p fresh (De_Permission d));;
  _ <-! call (KAuthorize p fresh);;
  Ret (Ok fresh).

(** No pod of the namespace uses the claim. *)
Definition claim_idle (ns claim : string) (pods : list Pod) : bool :=
  forallb (fun pod => str_eq (Pod_Namespace pod) ns && str_ne (Pod_UID pod) ""
                      && (str_eq (Pod_Phase pod) "Succeeded" || str_eq (Pod_Phase pod) "Failed"
                          || negb (existsb (str_eq claim) (Pod_Claims pod)))) pods.
Definition check_idle (ns claim : string) : prog kube_call (result pvc_error unit) :=
  pods <-! kube_ListPods ns;;
  stop negb (claim_idle ns claim pods) with ErrUnsafe;;
  Ret (Ok tt).
Fixpoint sources_idle (items : list CopyItem) : prog kube_call (result pvc_error unit) :=
  match items with
  | [] => Ret (Ok tt)
  | item :: items' => _ <-! check_idle (It_SourceNamespace item) (It_SourceName item);; sources_idle items'
  end.
(** [DomainExecutor.preflight] *)
Definition preflight (p : CopyPlan) : prog kube_call (result pvc_error unit) :=
  _ <-! validateSources p;;
  _ <-! sources_idle (Cp_Items p);;
  call KCtxErr.

(** ** Copies *)

(** The dry runs of both helpers of every item. *)
Definition dry_spec (p : CopyPlan) (item : CopyItem) (is_source : bool) : HelperSpec :=
  let ref := if is_source then source_ref item else target_ref p item "" in
  {| Hs_Namespace := Pvc_Namespace ref;
     Hs_Name := if is_source then SourceHelperName ref else "pvccopy-target-preflight"; Hs_Owner := Cp_Digest p;
     Hs_PVC := ref; Hs_ReadOnly := is_source; Hs_Image := Cp_Image p;
     Hs_Timeout := wrap64 (seconds (It_TimeoutSeconds item)) |}.
Fixpoint dry_runs (p : CopyPlan) (items : list CopyItem) : prog kube_call (result pvc_error unit) :=
  match items with
  | [] => Ret (Ok tt)
  | item :: items' =>
      _ <-! PreflightHelper (De_Kubectl d) (dry_spec p item true);;
      _ <-! PreflightHelper (De_Kubectl d) (dry_spec p item false);;
      dry_runs p items'
  end.

(** The plan, the policy and the permission of one item's execution. *)
Definition leaf_plan (p : CopyPlan) (item : CopyItem) (uid : string) : Plan :=
  {| ImmutablePlanDigest := Cp_Digest p; ItemID := It_ID item; Tenant := Cp_TenantID p; Project := Cp_ProjectID p;
     Environment := Cp_EnvironmentID p; Source := source_ref item; Target := target_ref p item uid;
     MaxBytes := It_MaxBytes item; MaxEntries := MaxCopyEntries; Timeout := wrap64 (seconds (It_TimeoutSeconds item));
     Image := Cp_Image p; AllowedSourceNamespaces := Cp_AllowedSourceNamespaces p;
     AllowedTarget := {| Tb_Tenant := Cp_TenantID p; Tb_Project := Cp_ProjectID p; Tb_Environment := Cp_EnvironmentID p;
                         Tb_PVC := target_ref p item uid |};
     SourceQuiescedOffline := true |}.
Definition leaf_policy (p : CopyPlan) (item : CopyItem) (uid : string) (namespaces : list string) (image : string) : Policy :=
  {| Po_RunnerImage := image; Po_SourceNamespaces := namespaces; Po_Target := AllowedTarget (leaf_plan p item uid) |}.
Definition leaf_permission (p : CopyPlan) (item : CopyItem) (uid : string) : prog kube_call (result pvc_error unit) :=
  let ref := target_ref p item uid in
  _ <-! validateSources p;;
  target <-! readPVC ref false;;
  match target with
  | None => Ret (Err ErrOther)
  | Some target =>
      stop str_ne (Om_UID (Dv_Metadata target)) (Pvc_UID ref) with ErrUnsafe;;
      Ret (ownedTarget target p item)
  end.
Definition leaf_execution (p : CopyPlan) (item : CopyItem) (uid : string) (namespaces : list string) (image : string)
    : prog kube_call (result (list pvc_error) Marker) :=
  let leaf := leaf_plan p item uid in
  handle (transport (De_Kubectl d) (Timeout leaf) (leaf_permission p item uid))
    (Execute true (leaf_policy p item uid namespaces image) leaf).

(** The target of an item: found or made, and owned. *)
Definition obtain_target (p : CopyPlan) (item : CopyItem) : prog kube_call (result pvc_error string) :=
  let ref := target_ref p item "" in
  _ <-! check_idle (Cp_TargetNamespace p) (It_TargetName item);;
  found <-! readPVC ref true;;
  obj <-! match found with
          | Some obj => Ret (Ok obj)
          | None => kube_json decode_domain_pvc (claim_args (Cp_TargetNamespace p)) (Some (claim_manifest p item))
          end;;
  _ <-! Ret (ownedTarget obj p item);;
  Ret (Ok (Om_UID (Dv_Metadata obj))).
Definition copy_item (p : CopyPlan) (item : CopyItem) (namespaces : list string) (image : string)
    : prog kube_call (result (list pvc_error) Marker) :=
  uid <-! bind (_ <-! preflight p;; obtain_target p item) (fun r => Ret (one r));;
  leaf_execution p item uid namespaces image.
Fixpoint copy_items (p : CopyPlan) (namespaces : list string) (image : string) (items : list CopyItem) (results : list Marker)
    : prog kube_call (list Marker * option (list pvc_error)) :=
  match items with
  | [] => Ret (results, None)
  | item :: items' =>
      r <-- copy_item p item namespaces image;;
      match r with
      | Err e => Ret (results, Some e)
      | Ok marker => copy_items p namespaces image items' (results ++ [marker])
      end
  end.

(** What is refused before anything is read. *)
Definition domain_bounds (p : CopyPlan) (trustedSourceNamespaces : list string) (trustedImage : string) : result pvc_error unit :=
  _ <-? plan_Validate p;;
  refuse str_ne (Cp_Image p) trustedImage || negb (match_string imageRef trustedImage)
    || str_ne (Ku_RunnerImage (De_Kubectl d)) trustedImage with ErrUnsafe;;
  refuse existsb (fun ns => negb (existsb (str_eq ns) trustedSourceNamespaces)) (Cp_AllowedSourceNamespaces p) with ErrUnsafe;;
  refuse (MaxCopyTimeout / seconds 1 <? Cp_TimeoutSeconds p) || (MaxCopyBytes <? Cp_MaxBytes p)
    || (1000 <? Z.of_nat (length (Cp_Items p))) with ErrUnsafe;;
  Ok tt.
(** [DomainExecutor.ExecuteDomain]; [wired]: kubectl and the authority are there. *)
Definition ExecuteDomain (wired : bool) (p : CopyPlan) (trustedSourceNamespaces : list string) (trustedImage : string)
    : prog kube_call (list Marker * option (list pvc_error)) :=
  if negb wired then Ret ([], Some [ErrOther])
  else
    checked <-- (_ <-! Ret (domain_bounds p trustedSourceNamespaces trustedImage);;
                 _ <-! preflight p;;
                 dry_runs p (Cp_Items p));;
    match checked with
    | Err e => Ret ([], Some [e])
    | Ok _ => copy_items p trustedSourceNamespaces trustedImage (Cp_Items p) []
    end.
End Domain.

(** ** Lemmas *)

(** *** Quantities *)

Definition all_digits (l : bytes) : Prop := Forall (fun c => is_digit c = true) l.
Lemma digits_all l : forall acc n, digits acc l = Some n -> all_digits l.
Proof.
  induction l as [|c l IH]; intros acc n; cbn [digits]; [constructor|]. destruct (is_digit c) eqn:E; [|done].
  intros Hd. constructor; [done|by eapply IH].
Qed.
Lemma digits_of_app l rest : all_digits l -> match rest with c :: _ => is_digit c = false | [] => True end ->
  digits_of (l ++ rest) = (l, rest).
Proof.
  intros Hl Hr. induction Hl as [|c l Hc _ IH]; cbn [app digits_of]; [|by rewrite Hc, IH].
  destruct rest as [|c rest]; [done|]. cbn [digits_of]. by rewrite Hr.
Qed.

(** The parts of a quantity. *)
Definition with_point (fraction : bytes) : bytes := match fraction with [] => [] | _ => byte_of 46 :: fraction end.
Definition quantity_parts (s : string) (whole fraction : bytes) (suffix : string) (m : Z) : Prop :=
  chars s = whole ++ with_point fraction ++ chars suffix /\ whole <> [] /\ all_digits whole /\ all_digits fraction
  /\ In (suffix, m) multipliers.
Lemma plus_digits l : lang (plus (RChr is_digit)) l <-> l <> [] /\ all_digits l.
Proof.
  split.
  - intros (a & b & -> & (c & -> & Hc)%lang_chr_inv & Hb%lang_star_chr)%lang_seq_inv. split; [done|]. by constructor.
  - intros [Hl Hd]. destruct Hd as [|c l Hc Hd]; [done|]. change (c :: l) with ([c] ++ l). constructor; [by constructor|].
    by apply star_chr_lang.
Qed.
Lemma suffix_lang l : lang (opt (RAlt (RSeq (RChr (one_of "KMGTPE")) (lit (chars "i"))) (RChr (one_of "kMGTPE")))) l <->
  exists suffix m, l = chars suffix /\ In (suffix, m) multipliers.
Proof.
  split.
  - intros [[(a & b & -> & (c & -> & Hc)%lang_chr_inv & Hb)%lang_seq_inv|(c & -> & Hc)%lang_chr_inv]%lang_alt_inv|Hl]%lang_alt_inv.
    + apply lang_seq_inv in Hb as (x & y & -> & (i & -> & Hi)%lang_chr_inv & Hy). inversion Hy; subst.
      apply char_eq_true in Hi as <-. unfold one_of in Hc. apply existsb_exists in Hc as (x & Hx & ->%char_eq_true).
      cbn in Hx. destruct_or? Hx; try done; subst; (eexists (String _ "i"), _; split; [reflexivity|cbn; tauto]).
    + unfold one_of in Hc. apply existsb_exists in Hc as (x & Hx & ->%char_eq_true).
      cbn in Hx. destruct_or? Hx; try done; subst; (eexists (String _ ""), _; split; [reflexivity|cbn; tauto]).
    + inversion Hl; subst. exists "", 1. by split; [|left].
  - intros (suffix & m & -> & Hin). apply match_lang. cbn in Hin. destruct_or? Hin; try done; by injection Hin as <- _.
Qed.
Lemma quantity_pattern s : match_string quantityPattern s = true <->
  exists whole fraction suffix m, quantity_parts s whole fraction suffix m.
Proof.
  rewrite match_string_lang. unfold quantity_parts. split.
  - intros (ab & suffix & -> & (a & b & -> & [Ha Hd]%plus_digits & Hb)%lang_seq_inv & (sf & m & -> & Hin)%suffix_lang)%lang_seq_inv.
    exists a. apply lang_alt_inv in Hb as [(x & y & -> & (c & -> & <-%char_eq_true)%lang_chr_inv & [Hy Hf]%plus_digits)%lang_seq_inv|Hb].
    + exists y, sf, m. destruct y as [|c y]; [done|]. by rewrite <- app_assoc.
    + inversion Hb; subst. exists [], sf, m. rewrite app_nil_r. split_and!; [done..|constructor|done].
  - intros (whole & fraction & suffix & m & -> & Hw & Hd & Hf & Hin). rewrite app_assoc. constructor.
    + constructor; [by apply plus_digits|]. destruct fraction as [|c f]; [by apply lang_alt_r; constructor|].
      apply lang_alt_l. change (with_point (c :: f)) with ([byte_of 46] ++ c :: f). constructor; [by constructor|].
      by apply plus_digits.
    + apply suffix_lang. by exists suffix, m.
Qed.
Lemma suffix_head suffix m : In (suffix, m) multipliers ->
  match chars suffix with c :: _ => is_digit c = false /\ char_eq c (byte_of 46) = false | [] => True end
  /\ map_get suffix multipliers = Some m /\ 0 < m.
Proof. intros Hin. cbn in Hin. destruct_or? Hin; try done; injection Hin as <- <-; vm_compute; repeat split. Qed.
Lemma submatches_parts s whole fraction suffix m : quantity_parts s whole fraction suffix m ->
  submatches s = (whole, fraction, suffix).
Proof.
  intros (Hs & Hw & Hd & Hf & Hin). apply suffix_head in Hin as [Hh _]. unfold submatches. rewrite Hs.
  assert (Hsuffix : text (chars suffix) = suffix) by (apply chars_inj; by rewrite chars_text).
  rewrite digits_of_app; [|done|].
  - destruct fraction as [|f fraction]; cbn [with_point app].
    + rewrite <- Hsuffix at 2. destruct (chars suffix) as [|c l]; [done|]. destruct Hh as [_ ->]. done.
    + rewrite (proj2 (char_eq_true _ _) eq_refl). change (f :: fraction ++ chars suffix) with ((f :: fraction) ++ chars suffix).
      rewrite digits_of_app; [by rewrite Hsuffix|done|]. destruct (chars suffix); [done|]. by destruct Hh.
  - destruct fraction; [|done]. destruct (chars suffix); [done|]. by destruct Hh.
Qed.

(** The quantity of the parts, rounded up. *)
Definition quantity_value (whole fraction : bytes) (m : Z) : Z :=
  - ((- (value_of (whole ++ fraction) * m)) / 10 ^ Z.of_nat (length fraction)).
Lemma quantity_ok s n : quantityBytes s = Ok n <->
  exists whole fraction suffix m, quantity_parts s whole fraction suffix m
    /\ n = quantity_value whole fraction m /\ 0 < n < 2 ^ 63.
Proof.
  unfold quantityBytes. rewrite refuse_ok, negb_false_iff, quantity_pattern.
  assert (Hceil : forall a b, 0 < b -> a / b + (if a mod b =? 0 then 0 else 1) = - (- a / b)).
  { intros a b Hb. destruct (a mod b =? 0) eqn:E; [apply Z.eqb_eq in E; rewrite Z.div_opp_l_z by lia; lia|].
    apply Z.eqb_neq in E. rewrite Z.div_opp_l_nz by lia. lia. }
  split.
  - intros [(whole & fraction & suffix & m & Hp) Hq]. exists whole, fraction, suffix, m. split; [done|].
    rewrite (submatches_parts _ _ _ _ _ Hp) in Hq. destruct Hp as (_ & _ & _ & _ & Hin).
    apply suffix_head in Hin as (_ & Hm & _). rewrite Hm, Hceil in Hq by lia.
    apply refuse_ok in Hq as [Hb [= <-]]. unfold quantity_value. split; [done|]. go_bool. lia.
  - intros (whole & fraction & suffix & m & Hp & -> & Hn). split; [by exists whole, fraction, suffix, m|].
    rewrite (submatches_parts _ _ _ _ _ Hp). destruct Hp as (_ & _ & _ & _ & Hin).
    apply suffix_head in Hin as (_ & Hm & _). rewrite Hm, Hceil by lia. unfold quantity_value in *.
    apply refuse_ok. split; [|done]. apply orb_false_iff. rewrite negb_false_iff, Z.ltb_lt, Z.leb_gt. lia.
Qed.
Lemma quantity_pretty n : 0 < n < 2 ^ 63 -> quantityBytes (pretty n) = Ok n.
Proof.
  intros Hn. pose proof (pretty_digits n ltac:(lia)) as Hd. apply quantity_ok.
  exists (chars (pretty n)), [], "", 1. assert (Hv : quantity_value (chars (pretty n)) [] 1 = n).
  { unfold quantity_value, value_of. rewrite app_nil_r, Hd. cbn [length]. change (10 ^ Z.of_nat 0) with 1. rewrite Z.div_1_r. lia. }
  split; [|by rewrite Hv]. split; [by rewrite app_nil_r|]. split; [intros E; rewrite E in Hd; cbn in Hd; injection Hd; lia|].
  split; [by eapply digits_all|]. split; [constructor|by left].
Qed.

(** *** Claims *)

Section ClaimLemmas.
Context `{Sha256}.

(** What the API server makes of a claim's manifest: a UID, and a phase. *)
Definition admitted_claim (p : CopyPlan) (item : CopyItem) (uid phase : string) : json :=
  JObj [("apiVersion", JStr "v1"); ("kind", JStr "PersistentVolumeClaim");
        ("metadata", JObj (claim_metadata p item ++ [("uid", JStr uid)])); ("spec", claim_spec item);
        ("status", JObj [("phase", JStr phase)])].
Definition described_claim (p : CopyPlan) (item : CopyItem) (uid phase : string) : domainPVC :=
  {| Dv_Metadata :=
       {| Om_Namespace := Cp_TargetNamespace p; Om_Name := It_TargetName item; Om_UID := uid; Om_DeletionTimestamp := None;
          Om_Labels := claim_labels p; Om_Annotations := targetAnnotations p item |};
     Dv_VolumeName := ""; Dv_VolumeMode := "Filesystem"; Dv_StorageClass := It_StorageClass item;
     Dv_AccessModes := It_AccessModes item; Dv_DataSource := JNull; Dv_DataSourceRef := JNull;
     Dv_Requests := [("storage", pretty (It_RequestedBytes item))]; Dv_Phase := phase |}.
Lemma decode_claim p item uid phase : decode_domain_pvc (admitted_claim p item uid phase) = Some (described_claim p item uid phase).
Proof.
  unfold admitted_claim, described_claim, claim_spec, claim_metadata, claim_labels, targetLabels, targetAnnotations, texts.
  pose proof (mapM_texts (It_AccessModes item)) as Hm. revert Hm. generalize (map JStr (It_AccessModes item)) as modes.
  intros modes Hm. generalize (labelIdentity (Cp_Digest p)) (labelIdentity (Cp_TenantID p)) (labelIdentity (Cp_ProjectID p))
    (labelIdentity (Cp_EnvironmentID p)) (pretty (It_RequestedBytes item)). intros.
  unfold decode_domain_pvc. lazy in Hm. lazy. rewrite Hm. reflexivity.
Qed.
Lemma all_of_same l l' : NoDup l.*1 -> all_of l (l ++ l') = true.
Proof.
  intros Hn. unfold all_of. apply forallb_forall. intros [k v] Hin. cbn [fst snd]. apply str_eq_true.
  induction l as [|[k' v'] l IH]; [done|]. cbn [app text_of]. cbn in Hn. apply NoDup_cons in Hn as [Hk Hn].
  destruct Hin as [[= -> ->]|Hin]; [by rewrite (proj2 (str_eq_true _ _) eq_refl)|].
  destruct (str_eq k k') eqn:E; [|by apply IH]. apply str_eq_true in E as ->. exfalso. apply Hk.
  apply list_elem_of_fmap. exists (k', v). split; [done|]. by apply list_elem_of_In.
Qed.
Lemma owned_described_claim p item uid phase : uid <> "" -> 0 < It_RequestedBytes item < 2 ^ 63 ->
  ownedTarget (described_claim p item uid phase) p item = Ok tt.
Proof.
  intros Hu Hb. unfold ownedTarget, described_claim.
  cbn [Dv_Metadata Om_UID Om_Namespace Om_Name Om_DeletionTimestamp Om_Labels Om_Annotations Dv_Requests Dv_StorageClass
       Dv_AccessModes Dv_VolumeMode Dv_DataSource Dv_DataSourceRef].
  unfold claim_labels. rewrite all_of_same by (repeat constructor; set_solver).
  rewrite <- (app_nil_r (targetAnnotations p item)) at 2. rewrite all_of_same by (repeat constructor; set_solver).
  rewrite (proj2 (str_eq_false _ _) Hu), !(proj2 (str_ne_false _ _) eq_refl).
  cbn [text_of]. rewrite (proj2 (str_eq_true "storage" _) eq_refl), quantity_pretty by done. cbn [is_some orb negb rbind].
  unfold sameSet. rewrite !bool_decide_eq_true_2, Z.eqb_refl by done. reflexivity.
Qed.
End ClaimLemmas.

(** *** What an execution calls *)

Section DomainLemmas.
Context `{Sha256} `{JsonText} `{PvcPlanJson} `{AnswerJson} `{CopyContracts}.
Variables (d : DomainExecutor) (p : CopyPlan).
Let k := De_Kubectl d.

(** The helpers that are made: of the plan's image, read-only on a source of the
    plan, in the target namespace otherwise. *)
Definition plan_helper (s : HelperSpec) : Prop :=
  Hs_Image s = Cp_Image p
  /\ exists item, In item (Cp_Items p)
       /\ (Hs_PVC s = source_ref item /\ Hs_ReadOnly s = true
           \/ exists uid, Hs_PVC s = target_ref p item uid /\ Hs_ReadOnly s = false).
(** The calls: reads, the helpers, and a claim for an item, right after the read
    that did not find one. *)
Definition missing (h : list (event kube_call)) (item : CopyItem) : Prop :=
  exists h' b, h = h' ++ [Event (KRun (get_pvc_args (target_ref p item "") ++ ["--ignore-not-found=true"]) None) (Ok b)]
    /\ trim_space (text b) = "".
Definition domain_call (R : Type) (h : list (event kube_call)) (c : kube_call R) : Prop :=
  kube_allowed k plan_helper R h c
  \/ match c with
     | KRun args input => exists item, In item (Cp_Items p) /\ missing h item /\ args = claim_args (Cp_TargetNamespace p)
                            /\ input = Some (claim_manifest p item)
     | KAuthorize q _ => q = p
     | _ => False
     end.
(** Everything but a read and a dry run. *)
Definition writes (R : Type) (c : kube_call R) : Prop :=
  match c with
  | KRun args _ => hd "" args <> "get" /\ ~ In "--dry-run=server" args
  | KStreams _ _ | KStream _ => True
  | _ => False
  end.
(** The authority agreed, and the helpers of every item passed a dry run. *)
Definition dry_ran (h : list (event kube_call)) (item : CopyItem) (is_source : bool) : Prop :=
  let s := dry_spec p item is_source in
  exists b, In (Event (KRun (create_args (Hs_Namespace s) true) (Some (helper_manifest k s))) (Ok b)) h.
Definition prepared (h : list (event kube_call)) : Prop :=
  (exists fresh, In (Event (KAuthorize p fresh) (Ok tt)) h)
  /\ forall item is_source, In item (Cp_Items p) -> dry_ran h item is_source.
Definition domain_allowed (R : Type) (h : list (event kube_call)) (c : kube_call R) : Prop :=
  domain_call R h c /\ (writes R c -> prepared h).

Lemma get_domain {A} (decode : json -> option A) args h : hd "" args = "get" ->
  guarded domain_call h (kube_json decode args None).
Proof. intros Ha. eapply guarded_impl; [|by apply (get_allowed k plan_helper)]. intros R h' c Hc. by left. Qed.
Lemma readPVC_domain ref optional h : guarded domain_call h (readPVC ref optional).
Proof.
  apply guarded_pbind.
  - apply guarded_pbind; [split; [|done]; left; left; by destruct optional|]. intros t b _. by apply guarded_stop.
  - intros t b _. by destruct (_ && _).
Qed.
Lemma controllers_domain ref h : guarded domain_call h (kube_CheckControllers ref).
Proof. apply guarded_pbind; [by apply get_domain|]. intros t l _. by apply guarded_stop. Qed.
Lemma read_sources_domain items : forall h, guarded domain_call h (read_sources d items).
Proof.
  induction items as [|item items IH]; intros h; cbn [read_sources]; [done|]. apply guarded_pbind.
  - apply guarded_pbind; [apply readPVC_domain|]. intros t [obj|] _; [|done]. apply guarded_pbind; [done|].
    intros t' s _. apply guarded_pbind; [apply controllers_domain|done].
  - intros t s _. apply guarded_pbind; [apply IH|done].
Qed.
Lemma validate_domain h : guarded domain_call h (validateSources d p).
Proof.
  apply guarded_pbind; [apply read_sources_domain|]. intros t fresh _. apply guarded_pbind; [done|]. intros t' u _.
  apply guarded_pbind; [|done]. split; [by right|done].
Qed.
Lemma check_idle_domain ns claim h : guarded domain_call h (check_idle ns claim).
Proof.
  apply guarded_pbind; [|intros t pods _; by apply guarded_stop].
  apply guarded_pbind; [by apply get_domain|]. intros t l _. by apply guarded_stop.
Qed.
Lemma idle_domain items : forall h, guarded domain_call h (sources_idle items).
Proof.
  induction items as [|item items IH]; intros h; cbn [sources_idle]; [done|].
  apply guarded_pbind; [apply check_idle_domain|]. intros t u _. apply IH.
Qed.
Lemma preflight_domain h : guarded domain_call h (preflight d p).
Proof.
  apply guarded_pbind; [apply validate_domain|]. intros t fresh _. apply guarded_pbind; [apply idle_domain|].
  intros t' u _. split; [by left|done].
Qed.
Lemma dry_domain items : incl items (Cp_Items p) -> forall h, guarded domain_call h (dry_runs d p items).
Proof.
  assert (Hone : forall item is_source h, In item (Cp_Items p) ->
    guarded domain_call h (PreflightHelper (De_Kubectl d) (dry_spec p item is_source))).
  { intros item is_source h Hin. apply guarded_bind; [|done]. eapply guarded_impl; [intros R h' c Hc; left; exact Hc|].
    apply create_allowed. split; [done|]. exists item. split; [done|].
    destruct is_source; [by left|right; by exists ""]. }
  induction items as [|item items IH]; intros Hin h; cbn [dry_runs]; [done|].
  apply guarded_pbind; [apply Hone, Hin; by left|]. intros t u _. apply guarded_pbind; [apply Hone, Hin; by left|].
  intros t' u' _. apply IH. intros x Hx. apply Hin. by right.
Qed.

Lemma Execute_creates wired policy leaf : (forall owner entropy src, plan_helper (spec_of leaf owner entropy src)) ->
  only (creates plan_helper) (Execute wired policy leaf).
Proof.
  intros Hs. assert (Hinner : forall A (q : prog pvc_call A), only inner q -> only (creates plan_helper) q).
  { intros A q. apply only_impl. intros R c. by destruct c. }
  assert (Hcheck : forall A (q : prog pvc_call (result pvc_error A)), only inner q -> only (creates plan_helper) (lift q)).
  { intros A q Hq. apply only_bind; [by apply Hinner|done]. }
  assert (Hacquire : forall l owner entropy hs, only (creates plan_helper) (acquire policy leaf owner entropy hs l)).
  { induction l as [|src l IH]; intros owner entropy hs; cbn [acquire]; [done|]. split; [apply Hs|]. intros [h [e|]]; [done|].
    cbn [bind]. destruct (negb _); [done|]. split; [done|]. intros [[]|e]; [|done]. cbn [bind].
    apply only_bind; [apply Hinner, check_inner|]. intros [[]|e]; [apply IH|done]. }
  assert (Hclean : forall l, only (creates plan_helper) (cleanup l)).
  { induction l as [|h l IH]; cbn [cleanup]; [done|]. split; [done|]. intros r. cbn [bind]. by apply only_bind. }
  unfold Execute. apply only_pbind; [done|]. intros []. apply only_stop. apply only_pbind; [done|]. intros [].
  apply only_pbind; [apply Hcheck, check_inner|]. intros []. apply only_pbind; [apply Hcheck; by split|]. intros entropy. cbv zeta.
  apply only_bind; [apply Hacquire|]. intros [hs e]. apply only_bind.
  - destruct e as [e|]; [by destruct hs as [|? [|? [|]]]|]. destruct hs as [|h0 [|h1 [|]]]; try done.
    apply Hinner, with_helpers_inner.
  - intros r. apply only_bind; [apply Hclean|done].
Qed.
Lemma leaf_domain item uid namespaces image h : In item (Cp_Items p) ->
  guarded domain_call h (leaf_execution d p item uid namespaces image).
Proof.
  intros Hin. unfold leaf_execution. cbv zeta. apply (guarded_handle_only (creates plan_helper)).
  - apply Execute_creates. intros owner entropy src. split; [done|]. exists item. split; [done|].
    destruct src; [by left|right; by exists uid].
  - intros R h' c Hc. apply (transport_allowed k plan_helper); [intros R' h'' c' Hc'; by left| |done].
    intros h''. apply guarded_pbind; [apply validate_domain|]. intros t fresh _.
    apply guarded_pbind; [apply readPVC_domain|]. intros t' [obj|] _; [|done]. by apply guarded_stop.
Qed.
Lemma obtain_domain item h : In item (Cp_Items p) -> guarded domain_call h (obtain_target p item).
Proof.
  intros Hin. apply guarded_pbind; [apply check_idle_domain|]. intros t u _. apply guarded_pbind; [apply readPVC_domain|].
  intros t' found Hf. apply guarded_pbind; [|intros t2 obj _; by apply guarded_pbind].
  destruct found as [obj|]; [done|]. apply guarded_pbind; [|done]. apply guarded_pbind; [|intros t2 b _; by apply guarded_stop].
  split; [|done]. right. exists item. split; [done|]. split; [|done].
  unfold readPVC in Hf. apply exec_pbind_ok in Hf as (t3 & t4 & b & -> & Hb & Hx).
  unfold run_bounded in Hb. apply exec_pbind_ok in Hb as (t5 & t6 & b' & -> & ->%exec_call & Hb).
  apply exec_stop_ok in Hb as [_ [-> ->]%exec_ret_ok]. exists (h ++ t), b.
  destruct (true && _) eqn:E; [|].
  - destruct Hx as [-> _]. split; [by rewrite !app_nil_r|]. by apply andb_true_iff in E as [_ E%str_eq_true].
  - exfalso. destruct Hx as [_ Hx]. destruct (parse_json b) as [v|]; [|done]. destruct (decode_domain_pvc v); [|done].
    by destruct (_ || _).
Qed.
Lemma copy_domain namespaces image items : incl items (Cp_Items p) -> forall results h,
  guarded domain_call h (copy_items d p namespaces image items results).
Proof.
  induction items as [|item items IH]; intros Hin results h; cbn [copy_items]; [done|]. apply guarded_bind.
  - apply guarded_pbind; [|intros t uid _; apply leaf_domain, Hin; by left]. apply guarded_bind; [|done].
    apply guarded_pbind; [apply preflight_domain|]. intros t u _. apply obtain_domain, Hin. by left.
  - intros t [m|e] _; [|done]. apply IH. intros x Hx. apply Hin. by right.
Qed.

(** *** Nothing is written before the checks *)

Definition unwritten {A} (q : prog kube_call A) : Prop := only (fun R c => ~ writes R c) q.
Lemma json_unwritten {A} (decode : json -> option A) args input : ~ writes _ (KRun args input) -> unwritten (kube_json decode args input).
Proof. intros Ha. apply only_pbind; [|done]. apply only_pbind; [by split|]. intros b. by apply only_stop. Qed.
Lemma get_unwritten {A} (decode : json -> option A) args : hd "" args = "get" -> unwritten (kube_json decode args None).
Proof. intros Ha. apply json_unwritten. by intros [Hn _]. Qed.
Lemma readPVC_unwritten ref optional : unwritten (readPVC ref optional).
Proof.
  apply only_pbind; [|intros b; by destruct (_ && _)]. apply only_pbind; [|intros b; by apply only_stop].
  split; [|done]. intros [Hn _]. by destruct optional.
Qed.
Lemma preflight_unwritten : unwritten (preflight d p).
Proof.
  apply only_pbind; [|intros fresh; apply only_pbind].
  - apply only_pbind; [|intros fresh; apply only_pbind; [done|intros []; apply only_pbind; [by split; [intros []|]|done]]].
    induction (Cp_Items p) as [|item items IH]; cbn [read_sources]; [done|]. apply only_pbind; [|intros s; by apply only_pbind].
    apply only_pbind; [apply readPVC_unwritten|]. intros [obj|]; [|done]. apply only_pbind; [done|]. intros s.
    apply only_pbind; [|done]. apply only_pbind; [by apply get_unwritten|]. intros l. by apply only_stop.
  - induction (Cp_Items p) as [|item items IH]; cbn [sources_idle]; [done|]. apply only_pbind; [|done].
    apply only_pbind; [|intros pods; by apply only_stop]. apply only_pbind; [by apply get_unwritten|]. intros l. by apply only_stop.
  - intros []. split; [by intros []|done].
Qed.
Lemma dry_unwritten items : unwritten (dry_runs d p items).
Proof.
  assert (Hone : forall s, unwritten (PreflightHelper (De_Kubectl d) s)).
  { intros s. apply only_bind; [|done]. unfold createHelper. destruct (negb _); [done|]. apply only_bind; [|done].
    apply json_unwritten. intros [_ Hn]. apply Hn. apply in_or_app. right. by left. }
  induction items as [|item items IH]; cbn [dry_runs]; [done|]. apply only_pbind; [apply Hone|]. intros [].
  apply only_pbind; [apply Hone|]. by intros [].
Qed.
Definition nothing_written (t : list (event kube_call)) : Prop :=
  Forall (fun ev => match ev with @Event _ R c _ => ~ writes R c end) t.
Lemma dry_ran_app h t item is_source : dry_ran t item is_source -> dry_ran (h ++ t) item is_source.
Proof. intros [b Hb]. exists b. apply in_or_app. by right. Qed.
Lemma dry_runs_ok items : forall t u, exec (dry_runs d p items) t (Ok u) ->
  forall item is_source, In item items -> dry_ran t item is_source.
Proof.
  assert (Hone : forall item is_source t u, exec (PreflightHelper (De_Kubectl d) (dry_spec p item is_source)) t (Ok u) ->
    dry_ran t item is_source).
  { intros item is_source t u Hx. unfold PreflightHelper in Hx. apply exec_bind in Hx as (t1 & t2 & r & -> & Hc & [-> Hr]).
    rewrite app_nil_r. destruct (creatable (De_Kubectl d) (dry_spec p item is_source)) eqn:E.
    - apply create_exec in Hc as ([obj|e] & Hj & ->); [| |done]; [|done].
      apply kube_json_ok in Hj as (b & -> & _). exists b. by left.
    - unfold createHelper in Hc. rewrite E in Hc. by destruct Hc as [_ ->]. }
  induction items as [|item items IH]; intros t u Hx it src Hin; cbn [dry_runs] in Hx; [done|].
  apply exec_pbind_ok in Hx as (t1 & t2 & u1 & -> & H1' & Hx). apply exec_pbind_ok in Hx as (t3 & t4 & u2 & -> & H2' & Hx).
  destruct Hin as [<-|Hin]; [|by eapply dry_ran_app, dry_ran_app, IH].
  destruct src; [apply Hone in H1' as [b Hb]; exists b; by apply in_or_app; left|].
  apply Hone in H2' as [b Hb]. exists b. apply in_or_app. right. by apply in_or_app; left.
Qed.
Lemma preflight_agreed t u : exec (preflight d p) t (Ok u) -> exists fresh, In (Event (KAuthorize p fresh) (Ok tt)) t.
Proof.
  intros Hx. apply exec_pbind_ok in Hx as (t1 & t2 & fresh & -> & Hv & _). unfold validateSources in Hv.
  apply exec_pbind_ok in Hv as (t3 & t4 & fresh' & -> & _ & Hv). apply exec_pret in Hv as (v & _ & Hv).
  apply exec_pbind_ok in Hv as (t5 & t6 & [] & -> & ->%exec_call & _). exists fresh'.
  apply in_or_app; left. apply in_or_app; right. by left.
Qed.
Lemma prepared_more h ev : prepared h -> prepared (h ++ [ev]).
Proof.
  intros [[fresh Hf] Hd]. split; [exists fresh; apply in_or_app; by left|]. intros item src Hin.
  destruct (Hd item src Hin) as [b Hb]. exists b. apply in_or_app. by left.
Qed.
Lemma unwritten_allowed {A} h (q : prog kube_call A) : guarded domain_call h q -> unwritten q -> guarded domain_allowed h q.
Proof.
  intros Hq Hu. eapply guarded_impl; [|apply (guarded_and _ _ _ _ Hq (guarded_only _ h _ Hu))].
  intros R h' c [Hc Hn]. by split.
Qed.
Lemma prepared_allowed {A} h (q : prog kube_call A) : prepared h -> guarded domain_call h q -> guarded domain_allowed h q.
Proof.
  intros Hh Hq. eapply guarded_impl; [|apply (guarded_and _ _ _ _ Hq (guarded_keeps prepared h q prepared_more Hh))].
  intros R h' c [Hc Hn]. by split.
Qed.
Lemma domain_guarded wired namespaces image : guarded domain_allowed [] (ExecuteDomain d wired p namespaces image).
Proof.
  unfold ExecuteDomain. destruct (negb wired); [done|]. apply guarded_bind.
  - apply unwritten_allowed.
    + apply guarded_pbind; [done|]. intros t u _. apply guarded_pbind; [apply preflight_domain|].
      intros t' u' _. apply dry_domain, incl_refl.
    + apply only_pbind; [done|]. intros []. apply only_pbind; [apply preflight_unwritten|]. intros []. apply dry_unwritten.
  - intros t [u|e] Hx; [|done]. apply exec_pret in Hx as (v & _ & Hx).
    apply exec_pbind_ok in Hx as (t1 & t2 & u' & -> & [fresh Hf]%preflight_agreed & Hd).
    apply prepared_allowed; [|apply copy_domain, incl_refl]. split.
    + exists fresh. apply in_or_app. right. apply in_or_app. by left.
    + intros item src Hin. apply dry_ran_app, dry_ran_app. by eapply dry_runs_ok.
Qed.

(** *** What an execution leaves *)

(** The target of an item was found or made, and is the item's own. *)
Definition target_seen (item : CopyItem) (uid : string) (t : list (event kube_call)) : Prop :=
  exists args input raw v obj, In (Event (KRun args input) (Ok raw)) t
    /\ (args = get_pvc_args (target_ref p item "") ++ ["--ignore-not-found=true"] /\ input = None
        \/ args = claim_args (Cp_TargetNamespace p) /\ input = Some (claim_manifest p item))
    /\ parse_json raw = Some v /\ decode_domain_pvc v = Some obj /\ ownedTarget obj p item = Ok tt /\ uid = Om_UID (Dv_Metadata obj).
(** The calls [t] are one item's copy: the authority agreed once more, the target was seen,
    and then a whole execution of [PvcExecutor.Execute] returned the marker [m],
    each of whose calls kubectl carried out. *)
Definition copied_item (namespaces : list string) (image : string) (item : CopyItem) (t : list (event kube_call)) (m : Marker) : Prop :=
  exists uid t1 t2 h, t = t1 ++ t2 /\ (exists fresh, In (Event (KAuthorize p fresh) (Ok tt)) t1) /\ target_seen item uid t1
    /\ exec (Execute true (leaf_policy p item uid namespaces image) (leaf_plan p item uid)) h (Ok m)
    /\ carried (transport (De_Kubectl d) (Timeout (leaf_plan p item uid)) (leaf_permission d p item uid)) h t2.
Lemma readPVC_seen ref optional t obj : exec (readPVC ref optional) t (Ok (Some obj)) ->
  exists raw v, In (Event (KRun (get_pvc_args ref ++ (if optional then ["--ignore-not-found=true"] else [])) None) (Ok raw)) t
    /\ parse_json raw = Some v /\ decode_domain_pvc v = Some obj.
Proof.
  intros (t1 & t2 & b & -> & Hb & Hx)%exec_pbind_ok.
  apply exec_pbind_ok in Hb as (t3 & t4 & b' & -> & ->%exec_call & [_ [-> <-]%exec_ret_ok]%exec_stop_ok).
  destruct (optional && _) in Hx; [by destruct Hx|]. destruct Hx as [-> Hx]. rewrite app_nil_r. symmetry in Hx.
  destruct (parse_json b') as [v|] eqn:Ev; [|done]. destruct (decode_domain_pvc v) as [o|] eqn:Eo; [|done].
  apply refuse_ok in Hx as [_ Hx]. injection Hx as ->. exists b', v. split; [by left|done].
Qed.
Lemma obtained_seen item t uid : exec (obtain_target p item) t (Ok uid) -> target_seen item uid t.
Proof.
  intros (t1 & t2 & [] & -> & _ & Hx)%exec_pbind_ok. apply exec_pbind_ok in Hx as (t3 & t4 & found & -> & Hf & Hx).
  apply exec_pbind_ok in Hx as (t5 & t6 & obj & -> & Ho & Hx). apply exec_pret in Hx as ([] & Hown & [-> Hu]).
  injection Hu as ->.
  assert (Hend : exists args input raw v, In (Event (KRun args input) (Ok raw)) (t3 ++ t5)
    /\ (args = get_pvc_args (target_ref p item "") ++ ["--ignore-not-found=true"] /\ input = None
        \/ args = claim_args (Cp_TargetNamespace p) /\ input = Some (claim_manifest p item))
    /\ parse_json raw = Some v /\ decode_domain_pvc v = Some obj).
  { destruct found as [o|].
    - destruct Ho as [_ [= ->]]. apply readPVC_seen in Hf as (raw & v & Hi & Hv).
      eexists _, _, raw, v. split; [apply in_or_app; by left|]. by split; [left|].
    - apply kube_json_ok in Ho as (raw & -> & _ & v & Hv & Hd). eexists _, _, raw, v. split; [apply in_or_app; right; by left|].
      by split; [right|]. }
  destruct Hend as (args & input & raw & v & Hi & Ha & Hv & Hd). exists args, input, raw, v, obj. split; [|done].
  rewrite !in_app_iff in *. tauto.
Qed.
Lemma copy_item_ok namespaces image item t m : exec (copy_item d p item namespaces image) t (Ok m) ->
  copied_item namespaces image item t m.
Proof.
  intros (t1 & t2 & uid & -> & Hp & Hx)%exec_pbind_ok. unfold leaf_execution in Hx. cbv zeta in Hx.
  apply exec_handle in Hx as (h & Hx & Hc). exists uid, t1, t2, h. split; [done|].
  apply exec_bind in Hp as (t3 & t4 & [u|err] & -> & Hp & [-> [= ->]]). rewrite app_nil_r.
  apply exec_pbind_ok in Hp as (t5 & t6 & u' & -> & [fresh Hf]%preflight_agreed & Ht%obtained_seen).
  split; [exists fresh; apply in_or_app; by left|]. split; [|done].
  destruct Ht as (args & input & raw & v & obj & Hi & Ht). exists args, input, raw, v, obj. split; [apply in_or_app; by right|done].
Qed.
(** The copies of items, each with its calls and its marker; [rest]: the calls
    of a copy that failed. *)
Notation copy := (list (event kube_call) * Marker)%type.
Definition copied (namespaces : list string) (image : string) : list CopyItem -> list copy -> Prop :=
  Forall2 (fun item c => copied_item namespaces image item c.1 c.2).
Lemma copy_items_ok namespaces image items : forall results t markers e,
  exec (copy_items d p namespaces image items results) t (markers, e) ->
  exists copies rest, t = concat (map fst copies) ++ rest /\ markers = results ++ map snd copies
    /\ copied namespaces image (firstn (length copies) items) copies
    /\ (e = None -> rest = [] /\ length copies = length items).
Proof.
  induction items as [|item items IH]; intros results t markers e Hx; cbn [copy_items] in Hx.
  - destruct Hx as [-> [= -> ->]]. exists [], []. split_and!; [done|by rewrite app_nil_r|constructor|done].
  - apply exec_bind in Hx as (t1 & t2 & [m|err] & -> & Hm & Hx).
    + apply IH in Hx as (copies & rest & -> & -> & Hn & He). exists ((t1, m) :: copies), rest. cbn [map concat fst snd length firstn].
      rewrite <- !app_assoc. split_and!; [done|done|constructor; [by apply copy_item_ok|done]|].
      intros [-> Hl]%He. by rewrite Hl.
    + destruct Hx as [-> [= -> ->]]. exists [], t1. split_and!; [by rewrite app_nil_r|by rewrite app_nil_r|constructor|by intros].
Qed.
Lemma checks_ok namespaces image t u :
  exec (_ <-! Ret (domain_bounds d p namespaces image);; _ <-! preflight d p;; dry_runs d p (Cp_Items p)) t u ->
  nothing_written t /\ forall u', u = Ok u' -> plan_Validate p = Ok tt /\ prepared t.
Proof.
  intros Hx. split.
  - eapply exec_only; [|exact Hx]. apply only_pbind; [done|]. intros []. apply only_pbind; [apply preflight_unwritten|].
    intros []. apply dry_unwritten.
  - intros u' ->. apply exec_pret in Hx as (v & Hb & (t3 & t4 & u1 & -> & [fresh Hf]%preflight_agreed & Hd)%exec_pbind_ok).
    split; [unfold domain_bounds in Hb; by destruct (plan_Validate p) as [[]|]|].
    split; [exists fresh; apply in_or_app; by left|]. intros item src Hin. apply dry_ran_app. by eapply dry_runs_ok.
Qed.
Lemma markers_ok wired namespaces image t markers e : exec (ExecuteDomain d wired p namespaces image) t (markers, e) ->
  exists before copies rest, t = before ++ concat (map fst copies) ++ rest /\ markers = map snd copies
    /\ copied namespaces image (firstn (length copies) (Cp_Items p)) copies /\ nothing_written before
    /\ (e = None -> rest = [] /\ length copies = length (Cp_Items p) /\ plan_Validate p = Ok tt /\ prepared before).
Proof.
  intros Hx. unfold ExecuteDomain in Hx. destruct (negb wired).
  { destruct Hx as [-> [= -> ->]]. exists [], [], []. split_and!; [done..|constructor|constructor|by intros]. }
  apply exec_bind in Hx as (t1 & t2 & u & -> & [Hn Hc]%checks_ok & Hx).
  destruct u as [u|err]; [|destruct Hx as [-> [= -> ->]]; exists t1, [], []; split_and!; [done..|constructor|done|by intros]].
  destruct (Hc u eq_refl) as [Hv Hp].
  apply copy_items_ok in Hx as (copies & rest & -> & -> & Hf & He). exists t1, copies, rest.
  split_and!; [done|done|done|done|]. by intros [-> Hl]%He.
Qed.
End DomainLemmas.

(** ** Properties *)

Section DomainProperties.
Context `{Sha256} `{JsonText} `{PvcPlanJson} `{AnswerJson} `{CopyContracts}.

(** C4: Every call of [ExecuteDomain] is justified: kubectl only reads, makes
    helpers of the plan's image that are read-only on a source of the plan, runs the
    runner's own command in a helper that was just seen to be as it was made, deletes a
    helper by its UID, or makes the target claim of an item that was just
    missing; and nothing is written before the authority agreed to
    fresh sources and the API server admitted a dry run of both helpers of every item. *)
Theorem domain_justified d wired p namespaces image t r R (c : kube_call R) x t1 t2
    (Hx : exec (ExecuteDomain d wired p namespaces image) t r) (Ht : t = t1 ++ Event c x :: t2) :
  domain_allowed d p R t1 c.
Proof. change t1 with ([] ++ t1). eapply guarded_exec; [apply domain_guarded|exact Hx|exact Ht]. Qed.

(** The markers that [ExecuteDomain] returns, with or without an error, are those
    of whole executions of [Execute] on the first items of the plan, one after the other in
    its calls and in the order of the plan, after checks that wrote nothing; without an
    error there is one for each item, nothing after the last, and before the first the
    authority agreed and every dry run was admitted. *)
Theorem domain_markers d wired p namespaces image t markers e
    (Hx : exec (ExecuteDomain d wired p namespaces image) t (markers, e)) :
  exists before copies rest, t = before ++ concat (map fst copies) ++ rest /\ markers = map snd copies
    /\ copied d p namespaces image (firstn (length copies) (Cp_Items p)) copies /\ nothing_written before
    /\ (e = None -> rest = [] /\ length copies = length (Cp_Items p) /\ plan_Validate p = Ok tt /\ prepared d p before).
Proof. by eapply markers_ok. Qed.

(** The claim that is made for an item is a claim that the runner owns: if the
    API server admits it unchanged, but for a UID and a phase, it passes every check
    of a target, its requested size included, however it is written. *)
Theorem made_claim_owned p item uid phase (Hu : uid <> "") (Hb : 0 < It_RequestedBytes item < 2 ^ 63) :
  decode_domain_pvc (admitted_claim p item uid phase) = Some (described_claim p item uid phase)
  /\ ownedTarget (described_claim p item uid phase) p item = Ok tt.
Proof. split; [apply decode_claim|by apply owned_described_claim]. Qed.

(** C7: [quantityBytes] accepts exactly the quantities of its pattern whose value,
    rounded up to whole bytes, is positive and fits 64 bits, and returns that value;
    what the runner prints for a size is read back as it. *)
Theorem quantity_exact s n :
  (quantityBytes s = Ok n <->
   exists whole fraction suffix m, quantity_parts s whole fraction suffix m
     /\ n = quantity_value whole fraction m /\ 0 < n < 2 ^ 63)
  /\ (0 < n < 2 ^ 63 -> quantityBytes (pretty n) = Ok n).
Proof. split; [apply quantity_ok|apply quantity_pretty]. Qed.
End DomainProperties.

(** ** Witnesses *)

(** A plan of one item, whose target is made and then found to be complete. *)
Definition zero_hash : Sha256 := fun _ => zeros64.
Definition lenient_contracts : CopyContracts :=
  {| plan_Validate := fun _ => Ok tt; CanonicalIdentity := fun _ => Ok ("sha256:" +:+ zeros64); ValidatePVCCopyPlan := fun _ _ _ => Ok tt |}.
Definition sample_item : CopyItem :=
  {| It_ID := "item"; It_SourceTenantID := "t"; It_SourceNamespace := "prod"; It_SourceName := "data"; It_SourceUID := "u1";
     It_SourceIdentity := "sha256:" +:+ zeros64; It_TargetName := "data"; It_StorageClass := "fast"; It_AccessModes := ["ReadWriteOnce"];
     It_RequestedBytes := 1000; It_MaxBytes := 1000; It_TimeoutSeconds := 60; It_rest := JNull |}.
Definition sample_copy_plan : CopyPlan :=
  {| Cp_PlanID := "plan"; Cp_Digest := "digest"; Cp_TenantID := "t"; Cp_ProjectID := "p"; Cp_EnvironmentID := "env";
     Cp_TargetNamespace := "env"; Cp_AllowedSourceNamespaces := ["prod"]; Cp_Image := Image sample_plan; Cp_MaxBytes := 1000;
     Cp_TimeoutSeconds := 60; Cp_StorageQuotaBytes := 1000; Cp_Items := [sample_item]; Cp_rest := JNull |}.
Definition sample_kubectl : Kubectl :=
  {| Ku_RunnerImage := Image sample_plan; Ku_ServiceAccount := "default"; Ku_AllowRootHelpers := false |}.
Definition sample_executor : DomainExecutor :=
  {| De_Kubectl := sample_kubectl;
     De_Permission := {| Pm_PlanID := ""; Pm_TenantID := ""; Pm_ProjectID := ""; Pm_EnvironmentID := "";
       Pm_TemplateRevisionID := ""; Pm_TemplateDigest := ""; Pm_TargetNamespace := ""; Pm_AllowedSourceNamespaces := [];
       Pm_AllowedImages := []; Pm_MaxBytes := 0; Pm_StorageQuotaBytes := 0; Pm_TimeoutSeconds := 0;
       Pm_ApprovedProductionSources := [] |};
     De_Sources := [{| Sr_Namespace := "prod"; Sr_Name := "data"; Sr_UID := "u1"; Sr_EnvironmentClass := "test";
       Sr_StorageClass := "fast"; Sr_AccessModes := ["ReadWriteOnce"]; Sr_RequestedBytes := 1000;
       Sr_VolumeMode := "Filesystem"; Sr_rest := JNull |}] |}.

Definition sample_leaf : Plan := leaf_plan sample_copy_plan sample_item "u2".
Definition sample_entropy : bytes := repeat (byte_of 7) 12.
Definition sample_spec (is_source : bool) : HelperSpec :=
  spec_of sample_leaf (digest (H := zero_hash) (H0 := sample_plan_json) sample_leaf +:+ "-" +:+ hex_text sample_entropy)
    (hex_text sample_entropy) is_source (H := zero_hash).
Definition sample_dry (is_source : bool) : HelperSpec := dry_spec (H := zero_hash) sample_copy_plan sample_item is_source.
Definition claim_object (meta spec : json_fields) (volume : string) : json :=
  JObj [("metadata", JObj meta); ("spec", JObj (("volumeName", JStr volume) :: spec)); ("status", JObj [("phase", JStr "Bound")])].
Definition sample_source_claim : json :=
  claim_object
    [("namespace", JStr "prod"); ("name", JStr "data"); ("uid", JStr "u1");
     ("labels", JObj [("envplane.io/environment-class", JStr "test")]);
     ("annotations", JObj [("envplane.io/pvc-copy-offline", JStr "true")])]
    (as_object (Some (claim_spec sample_item))) "pv1".
Definition sample_target_claim : json :=
  claim_object (claim_metadata (H := zero_hash) sample_copy_plan sample_item ++ [("uid", JStr "u2")])
    (as_object (Some (claim_spec sample_item))) "pv2".
Definition running_helper (s : HelperSpec) : json :=
  JObj [("metadata", JObj (helper_metadata s ++ [("uid", JStr "uid")])); ("spec", helper_spec sample_kubectl s);
        ("status", JObj [("phase", JStr "Running");
                         ("conditions", JArr [JObj [("type", JStr "Ready"); ("status", JStr "True")]])])].
(** The answers, by a name for each. *)
Definition sample_objects : list (string * json) :=
  [("source", sample_source_claim); ("target", sample_target_claim); ("none", JObj [("items", JArr [])]);
   ("dry source", running_helper (sample_dry true)); ("dry target", running_helper (sample_dry false));
   ("source helper", running_helper (sample_spec true)); ("target helper", running_helper (sample_spec false))].
Definition sample_texts : JsonText := fun b => json_get (text b) sample_objects.
Definition complete_answers : AnswerJson :=
  {| decode_verify := fun _ => Some (Some (markerFor (H := zero_hash) (H0 := sample_plan_json) sample_leaf zero_receipt));
     decode_receipt := fun _ => None; decode_marker := fun _ => None; receipt_arg := fun _ => "" |}.
#[local] Existing Instances zero_hash lenient_contracts sample_texts complete_answers sample_plan_json.

Definition named_answer (args : list string) (input : option json) : string :=
  if bool_decide (args = get_pvc_args (source_ref sample_item)) then "source"
  else if bool_decide (args = get_pvc_args (target_ref sample_copy_plan sample_item "")) then "target"
  else if bool_decide (args = claim_args "env") then "target"
  else if existsb (str_eq "--ignore-not-found=true") args then ""
  else if existsb (fun s => bool_decide (input = Some (helper_manifest sample_kubectl s))) [sample_dry true] then "dry source"
  else if existsb (fun s => bool_decide (input = Some (helper_manifest sample_kubectl s))) [sample_dry false] then "dry target"
  else if bool_decide (input = Some (helper_manifest sample_kubectl (sample_spec true))) then "source helper"
  else if bool_decide (input = Some (helper_manifest sample_kubectl (sample_spec false))) then "target helper"
  else if bool_decide (args = get_pod_args (created_helper (sample_spec true) "uid")) then "source helper"
  else if bool_decide (args = get_pod_args (created_helper (sample_spec false) "uid")) then "target helper"
  else "none".
Definition sample_cluster (R : Type) (h : list (event kube_call)) (c : kube_call R) : R :=
  match c in kube_call R return R with
  | KRun args input => Ok (chars (named_answer args input))
  | KStreams _ _ => {| tf_stream := no_stream; tf_source := None; tf_write := None; tf_response := []; tf_target := None |}
  | KStream _ => {| rx_stream := no_stream; rx_source := None |}
  | KTimer => None
  | KCtxErr => Ok tt
  | KRand => Ok sample_entropy
  | KAuthorize _ _ => Ok tt
  | KProbe _ _ => {| Pr_Failed := true; Pr_Canceled := false; Pr_Errors := [] |}
  end.
Definition sample_copy := run sample_cluster [] (ExecuteDomain sample_executor true sample_copy_plan ["prod"] (Image sample_plan)).
Lemma domain_sample_exec :
  exec (ExecuteDomain sample_executor true sample_copy_plan ["prod"] (Image sample_plan)) sample_copy.1 (sample_copy.2.1, sample_copy.2.2).
Proof. rewrite <- surjective_pairing. exact (run_exec sample_cluster (ExecuteDomain _ _ _ _ _) []). Qed.

(** The claim of the item is made once both helpers passed their dry runs. *)
Lemma domain_justified_witness :
  missing sample_copy_plan (firstn 14 sample_copy.1) sample_item /\ prepared sample_executor sample_copy_plan (firstn 14 sample_copy.1).
Proof.
  assert (Ht : sample_copy.1 = firstn 14 sample_copy.1
            ++ Event (KRun (claim_args "env") (Some (claim_manifest sample_copy_plan sample_item))) (Ok (chars "target"))
               :: skipn 15 sample_copy.1) by (vm_compute; reflexivity).
  destruct (domain_justified sample_executor true sample_copy_plan ["prod"] (Image sample_plan) _ _ _ _ _ _ _
              domain_sample_exec Ht) as [Hc Hp].
  clear Ht. revert Hc Hp. generalize (firstn 14 sample_copy.1) as h. intros h Hc Hp.
  split; [|apply Hp; split; [discriminate|]; intros Hin; vm_compute in Hin; destruct_or? Hin; discriminate || done].
  destruct Hc as [[[Hc _]|[(s & dry & _ & _ & Ha & _)|[[Hi _]|(helper & _ & Ha & _)]]]|(item & Hin & Hm & _)].
  - discriminate Hc.
  - destruct dry; vm_compute in Ha; discriminate Ha.
  - discriminate Hi.
  - discriminate Ha.
  - destruct Hin as [<-|[]]. exact Hm.
Defined.
Lemma domain_markers_witness : exists before t, sample_copy.1 = before ++ t
  /\ copied_item sample_executor sample_copy_plan ["prod"] (Image sample_plan) sample_item t (markerFor sample_leaf zero_receipt).
Proof.
  destruct (domain_markers sample_executor true sample_copy_plan ["prod"] (Image sample_plan) _ _ _ domain_sample_exec)
    as (before & copies & rest & Ht & Hm & Hf & _ & He).
  assert (E : sample_copy.2 = ([markerFor sample_leaf zero_receipt], None)) by (vm_compute; reflexivity).
  rewrite E in Hm, He. destruct (He eq_refl) as (-> & Hl & _). destruct copies as [|[t m] [|c l]]; try discriminate Hl.
  injection Hm as <-. exists before, t. cbn in Ht. rewrite !app_nil_r in Ht. split; [exact Ht|]. by inversion Hf.
Defined.
Lemma made_claim_owned_witness :
  ownedTarget (described_claim sample_copy_plan sample_item "u2" "Pending") sample_copy_plan sample_item = Ok tt.
Proof. apply made_claim_owned; [done|vm_compute; by split]. Defined.
