(* ===== verification/PvcFence.v ===== *)
(** * The admission fence of the source volumes

    [internal/pvccopy/fence.go] and [fence_reviewed.go], and
    [internal/runner/source_fence_profile.go]: the policy and the binding that
    an administrator installs, and the checks that they are installed and
    enforced. *)

From stdpp Require Import base list gmap strings pretty sorting.
From Stdlib Require Import ZArith Lia Ascii String.
From S2P Require Import Prelude GoStrings Regex GoPath OrchTypes Json PvcPlan PvcArchive PvcLocal PvcExecutor PvcHelper PvcKube PvcDomain.

Local Open Scope string_scope.
Local Open Scope Z_scope.
Local Open Scope list_scope.

Definition fenceAPIVersion : string := "admissionregistration.k8s.io/v1".
Definition fenceDigestAnnotation : string := "envplane.io/pvc-copy-fence-digest".

(** [^[a-z0-9]([-a-z0-9]*[a-z0-9])?$] *)
Definition fenceNamespace : re :=
  RSeq (RChr alnum_lower) (opt (RSeq (RStar (RChr (fun c => alnum_lower c || one_of "-" c))) (RChr alnum_lower))).
(** A segment [[A-Za-z0-9][A-Za-z0-9._:-]*], and such segments between slashes. *)
Definition scope_segment : re := RSeq (RChr alnum) (RStar (RChr (fun c => alnum c || one_of "._:-" c))).
Definition fenceScopeID : re := RSeq scope_segment (RStar (RSeq (chr (byte_of 47)) scope_segment)).
(** [^[A-Za-z0-9][A-Za-z0-9-]{0,127}$] *)
Definition fenceSourceUID : re := RSeq (RChr alnum) (up_to 127 (RChr (fun c => alnum c || one_of "-" c))).
(** [^sha256:[0-9a-f]{64}$] *)
Definition fenceIdentityDigest : re := RSeq (lit (chars "sha256:")) (times 64 (RChr hex_lower)).

(** A DNS label, and labels between dots. *)
Definition dns_label (s : string) : bool := negb (63 <? str_len s) && match_string fenceNamespace s.
Definition dns_labels (s : string) : bool := forallb dns_label (split_on (byte_of 46) s).
Definition fenceClaimName (name : string) : bool :=
  negb (253 <? str_len name) && str_ne name "" && dns_labels name.

(** ** What a fence is made of *)

(** [fenceSourceAuthority]: the fields of an item that a fence depends on. *)
Record fenceSourceAuthority := { Fa_Namespace : string; Fa_Name : string; Fa_UID : string; Fa_Identity : string }.
Definition authority_of (item : CopyItem) : fenceSourceAuthority :=
  {| Fa_Namespace := It_SourceNamespace item; Fa_Name := It_SourceName item; Fa_UID := It_SourceUID item;
     Fa_Identity := It_SourceIdentity item |}.
Definition authority_key (s : fenceSourceAuthority) : string := Fa_Namespace s +:+ "/" +:+ Fa_Name s.
Definition item_key (item : CopyItem) : string := It_SourceNamespace item +:+ "/" +:+ It_SourceName item.
Definition by_key {A} (key : A -> string) (x y : A) : bool := str_ltb (key x) (key y).

Definition valid_source (tenant : string) (item : CopyItem) : bool :=
  str_eq (It_SourceTenantID item) tenant && dns_label (It_SourceNamespace item) && fenceClaimName (It_SourceName item)
  && match_string fenceSourceUID (It_SourceUID item) && match_string fenceIdentityDigest (It_SourceIdentity item).
Fixpoint fence_sources (tenant : string) (seen : list string) (items : list CopyItem)
    : result pvc_error (list fenceSourceAuthority) :=
  match items with
  | [] => Ok []
  | item :: items' =>
      let ref := item_key item in
      refuse negb (valid_source tenant item) || existsb (str_eq ref) seen with ErrUnsafe;;
      l <-? fence_sources tenant (ref :: seen) items';;
      Ok (authority_of item :: l)
  end.
Definition authority_json (p : CopyPlan) (ns sa : string) (sources : list fenceSourceAuthority) : json :=
  JObj [("version", JStr "v1"); ("tenantId", JStr (Cp_TenantID p)); ("projectId", JStr (Cp_ProjectID p));
        ("runnerNamespace", JStr ns); ("runnerServiceAccount", JStr sa); ("image", JStr (Cp_Image p));
        ("sources",
          JArr (map (fun s => JObj [("namespace", JStr (Fa_Namespace s)); ("name", JStr (Fa_Name s));
                                    ("uid", JStr (Fa_UID s)); ("identity", JStr (Fa_Identity s))]) sources))].

Section Manifests.
Context `{Sha256} `{JsonMarshal} `{Quote}.

(** [fenceAuthority]: the name and the digest. *)
Definition fenceAuthority (p : CopyPlan) (ns sa : string) : result pvc_error (string * string) :=
  refuse (512 <? str_len (Cp_TenantID p)) || negb (match_string fenceScopeID (Cp_TenantID p))
    || (512 <? str_len (Cp_ProjectID p)) || negb (match_string fenceScopeID (Cp_ProjectID p))
    || negb (match_string imageRef (Cp_Image p)) || bool_decide (Cp_Items p = []) with ErrUnsafe;;
  refuse negb (dns_label ns) || (253 <? str_len sa) || negb (match_string dnsName sa) with ErrUnsafe;;
  refuse negb (dns_labels sa) with ErrUnsafe;;
  sources <-? fence_sources (Cp_TenantID p) [] (Cp_Items p);;
  let hash := sha256_hex (json_marshal (authority_json p ns sa (sort_slice (by_key authority_key) sources))) in
  Ok ("envplane-pvc-copy-fence-" +:+ String.substring 0 32 hash, "sha256:" +:+ hash).
(** [FenceNames] *)
Definition FenceNames (p : CopyPlan) (ns sa : string) : result pvc_error (string * string) :=
  a <-? fenceAuthority p ns sa;; Ok (a.1, a.1).

Definition fenceMessage (digest : string) : string := "envplane PVC copy source fence [" +:+ digest +:+ "]".
Definition username_of (ns sa : string) : string := "system:serviceaccount:" +:+ ns +:+ ":" +:+ sa.

(** The conditions on every helper. *)
Definition common_terms (username image : string) : list string :=
  ["request.operation == 'CREATE'";
   "(!has(request.subResource) || request.subResource == '')";
   "request.userInfo.username == " +:+ quote username;
   "has(object.metadata.labels) && 'app.kubernetes.io/component' in object.metadata.labels && object.metadata.labels['app.kubernetes.io/component'] == 'pvccopy-helper'";
   "has(object.metadata.name)";
   "has(object.spec.serviceAccountName) && object.spec.serviceAccountName == 'default'";
   "has(object.spec.automountServiceAccountToken) && object.spec.automountServiceAccountToken == false";
   "has(object.spec.securityContext)";
   "!has(object.spec.securityContext.fsGroup) && !has(object.spec.securityContext.fsGroupChangePolicy)";
   "!has(object.spec.securityContext.supplementalGroups) && !has(object.spec.securityContext.supplementalGroupsPolicy)";
   "!has(object.spec.securityContext.seLinuxOptions) && !has(object.spec.securityContext.seLinuxChangePolicy)";
   "!has(object.spec.securityContext.sysctls) && !has(object.spec.securityContext.windowsOptions)";
   "!has(object.spec.securityContext.appArmorProfile)";
   "has(object.spec.securityContext.seccompProfile) && object.spec.securityContext.seccompProfile.type == 'RuntimeDefault' && !has(object.spec.securityContext.seccompProfile.localhostProfile)";
   "has(object.spec.securityContext.runAsUser) && has(object.spec.securityContext.runAsGroup) && has(object.spec.securityContext.runAsNonRoot)";
   "((object.spec.securityContext.runAsUser == 0 && object.spec.securityContext.runAsGroup == 0 && object.spec.securityContext.runAsNonRoot == false) || (object.spec.securityContext.runAsUser == 10001 && object.spec.securityContext.runAsGroup == 10001 && object.spec.securityContext.runAsNonRoot == true))";
   "(!has(object.metadata.annotations) || object.metadata.annotations.all(k, k != 'seccomp.security.alpha.kubernetes.io/pod' && !k.startsWith('container.seccomp.security.alpha.kubernetes.io/') && !k.startsWith('container.apparmor.security.beta.kubernetes.io/')))";
   "object.spec.restartPolicy == 'Never'";
   "has(object.spec.activeDeadlineSeconds) && object.spec.activeDeadlineSeconds >= 31 && object.spec.activeDeadlineSeconds <= " +:+ pretty (MaxCopyTimeout / seconds 1 + 30);
   "object.spec.terminationGracePeriodSeconds == 5";
   "(!has(object.spec.hostNetwork) || object.spec.hostNetwork == false)";
   "(!has(object.spec.hostPID) || object.spec.hostPID == false)";
   "(!has(object.spec.hostIPC) || object.spec.hostIPC == false)";
   "(!has(object.spec.initContainers) || size(object.spec.initContainers) == 0)";
   "(!has(object.spec.ephemeralContainers) || size(object.spec.ephemeralContainers) == 0)";
   "size(object.spec.containers) == 1";
   "object.spec.containers[0].name == 'copy'";
   "object.spec.containers[0].image == " +:+ quote image;
   "has(object.spec.containers[0].command) && object.spec.containers[0].command == ['sleep']";
   "has(object.spec.containers[0].args) && size(object.spec.containers[0].args) == 1 && object.spec.containers[0].args[0].matches('^[0-9]{1,6}$') && int(object.spec.containers[0].args[0]) == object.spec.activeDeadlineSeconds";
   "!has(object.spec.containers[0].workingDir)";
   "(!has(object.spec.containers[0].terminationMessagePath) || object.spec.containers[0].terminationMessagePath == '/dev/termination-log')";
   "(!has(object.spec.containers[0].env) || size(object.spec.containers[0].env) == 0)";
   "(!has(object.spec.containers[0].envFrom) || size(object.spec.containers[0].envFrom) == 0)";
   "!has(object.spec.containers[0].lifecycle)";
   "!has(object.spec.containers[0].livenessProbe) && !has(object.spec.containers[0].readinessProbe) && !has(object.spec.containers[0].startupProbe)";
   "has(object.spec.containers[0].securityContext)";
   "!has(object.spec.containers[0].securityContext.seLinuxOptions)";
   "!has(object.spec.containers[0].securityContext.runAsUser) && !has(object.spec.containers[0].securityContext.runAsGroup) && !has(object.spec.containers[0].securityContext.runAsNonRoot)";
   "!has(object.spec.containers[0].securityContext.seccompProfile) && !has(object.spec.containers[0].securityContext.appArmorProfile)";
   "!has(object.spec.containers[0].securityContext.procMount) && !has(object.spec.containers[0].securityContext.windowsOptions)";
   "(!has(object.spec.containers[0].securityContext.privileged) || object.spec.containers[0].securityContext.privileged == false)";
   "object.spec.containers[0].securityContext.allowPrivilegeEscalation == false && object.spec.containers[0].securityContext.readOnlyRootFilesystem == true";
   "has(object.spec.containers[0].securityContext.capabilities) && object.spec.containers[0].securityContext.capabilities.drop == ['ALL']";
   "((object.spec.securityContext.runAsUser == 0 && has(object.spec.containers[0].securityContext.capabilities.add) && object.spec.containers[0].securityContext.capabilities.add == ['DAC_OVERRIDE']) || (object.spec.securityContext.runAsUser == 10001 && (!has(object.spec.containers[0].securityContext.capabilities.add) || size(object.spec.containers[0].securityContext.capabilities.add) == 0)))";
   "size(object.spec.volumes) == 1 && object.spec.volumes[0].name == 'data'";
   "has(object.spec.volumes[0].persistentVolumeClaim) && has(object.spec.volumes[0].persistentVolumeClaim.readOnly) && object.spec.volumes[0].persistentVolumeClaim.readOnly == true";
   "has(object.spec.containers[0].volumeMounts) && size(object.spec.containers[0].volumeMounts) == 1";
   "object.spec.containers[0].volumeMounts[0].name == 'data' && object.spec.containers[0].volumeMounts[0].mountPath == '/data'";
   "has(object.spec.containers[0].volumeMounts[0].readOnly) && object.spec.containers[0].volumeMounts[0].readOnly == true";
   "has(object.spec.containers[0].volumeMounts[0].recursiveReadOnly) && object.spec.containers[0].volumeMounts[0].recursiveReadOnly == 'Enabled'";
   "(!has(object.spec.containers[0].volumeDevices) || size(object.spec.containers[0].volumeDevices) == 0)";
   "(!has(object.spec.containers[0].volumeMounts[0].subPath) || object.spec.containers[0].volumeMounts[0].subPath == '')";
   "(!has(object.spec.containers[0].volumeMounts[0].subPathExpr) || object.spec.containers[0].volumeMounts[0].subPathExpr == '')";
   "(!has(object.spec.containers[0].volumeMounts[0].mountPropagation) || object.spec.containers[0].volumeMounts[0].mountPropagation == 'None')"].
Definition common (username image : string) : string := join " && " (common_terms username image).

(** The validation of a source, and that of a namespace. *)
Definition helper_term (item : CopyItem) : string :=
  "object.metadata.name == " +:+ quote (SourceHelperName (source_ref item))
  +:+ " && object.spec.volumes[0].persistentVolumeClaim.claimName == " +:+ quote (It_SourceName item).
Definition consumer_term (item : CopyItem) : string :=
  "request.namespace == " +:+ quote (It_SourceNamespace item)
  +:+ " && has(object.spec.volumes) && object.spec.volumes.exists(v, has(v.persistentVolumeClaim) && v.persistentVolumeClaim.claimName == "
  +:+ quote (It_SourceName item) +:+ ")".
Definition source_expression (username image : string) (item : CopyItem) : string :=
  "!(" +:+ consumer_term item +:+ ") || (" +:+ common username image +:+ " && " +:+ helper_term item +:+ ")".
Definition helper_bindings (items : list CopyItem) (ns : string) : list string :=
  map (fun item => "(" +:+ helper_term item +:+ ")") (List.filter (fun item => str_eq (It_SourceNamespace item) ns) items).
Definition namespace_expression (username image : string) (items : list CopyItem) (ns : string) : string :=
  "request.operation != 'CREATE' || request.userInfo.username != " +:+ quote username +:+ " || request.namespace != "
  +:+ quote ns +:+ " || (" +:+ common username image +:+ " && (" +:+ join " || " (helper_bindings items ns) +:+ "))".
Definition validation (digest expression : string) : json :=
  JObj [("expression", JStr expression); ("message", JStr (fenceMessage digest))].
(** The namespaces of the sources, each once and in order. *)
Definition source_namespaces (items : list CopyItem) : list string :=
  sort_strings (remove_dups (map It_SourceNamespace items)).
Definition validations_of (username image digest : string) (items : list CopyItem) : list json :=
  map (fun item => validation digest (source_expression username image item)) items
  ++ map (fun ns => validation digest (namespace_expression username image items ns)) (source_namespaces items).

Definition fence_metadata (name digest : string) : json :=
  JObj [("name", JStr name); ("annotations", JObj [(fenceDigestAnnotation, JStr digest)])].
Definition policy_spec (validations : list json) : json_fields :=
  [("failurePolicy", JStr "Fail");
   ("matchConstraints",
     JObj [("matchPolicy", JStr "Exact"); ("namespaceSelector", JObj []); ("objectSelector", JObj []);
           ("resourceRules",
             JArr [JObj [("apiGroups", texts [""]); ("apiVersions", texts ["v1"]); ("operations", texts ["CREATE"; "UPDATE"]);
                         ("resources", texts ["pods"; "pods/ephemeralcontainers"]); ("scope", JStr "Namespaced")]])]);
   ("validations", JArr validations)].
Definition binding_spec (name : string) (namespaces : list string) : json_fields :=
  [("policyName", JStr name); ("validationActions", texts ["Deny"]);
   ("matchResources",
     JObj [("matchPolicy", JStr "Exact"); ("objectSelector", JObj []);
           ("namespaceSelector",
             JObj [("matchExpressions",
                     JArr [JObj [("key", JStr "kubernetes.io/metadata.name"); ("operator", JStr "In");
                                 ("values", texts namespaces)]])])])].

(** [FenceManifests]; the kinds, the name, the digest and the specifications. *)
Record fence_manifests := { Fm_Name : string; Fm_Digest : string; Fm_Policy : json_fields; Fm_Binding : json_fields }.
Definition FenceManifests (p : CopyPlan) (ns sa : string) : result pvc_error fence_manifests :=
  a <-? fenceAuthority p ns sa;;
  let items := sort_slice (by_key item_key) (Cp_Items p) in
  Ok {| Fm_Name := a.1; Fm_Digest := a.2;
        Fm_Policy := policy_spec (validations_of (username_of ns sa) (Cp_Image p) a.2 items);
        Fm_Binding := binding_spec a.1 (source_namespaces items) |}.
Definition fence_object_manifest (kind : string) (m : fence_manifests) (spec : json_fields) : json :=
  JObj [("apiVersion", JStr fenceAPIVersion); ("kind", JStr kind); ("metadata", fence_metadata (Fm_Name m) (Fm_Digest m));
        ("spec", JObj spec)].
Definition policy_kind : string := "ValidatingAdmissionPolicy".
Definition binding_kind : string := "ValidatingAdmissionPolicyBinding".
Definition policy_manifest (m : fence_manifests) : json := fence_object_manifest policy_kind m (Fm_Policy m).
Definition binding_manifest (m : fence_manifests) : json := fence_object_manifest binding_kind m (Fm_Binding m).
End Manifests.

(** ** Reading the objects *)

Record fenceObject := {
  Fo_APIVersion : string; Fo_Kind : string; Fo_Name : string; Fo_Namespace : string; Fo_UID : string; Fo_Generation : Z;
  Fo_DeletionTimestamp : option string; Fo_Annotations : list (string * string); Fo_Spec : option json;
  Fo_Observed : Z; Fo_TypeChecking : option (list json); Fo_Conditions : list (string * string * Z) }.
Definition decode_fence_condition (v : json) : option (string * string * Z) :=
  let* l := fields_of v in let* type := text_field l "type" in let* status := text_field l "status" in
  let* observed := int_field l "observedGeneration" in Some (type, status, observed).
Definition decode_fence (v : json) : option fenceObject :=
  let* l := fields_of v in
  let* version := text_field l "apiVersion" in let* kind := text_field l "kind" in
  let* meta := struct_field l "metadata" in
  let* name := text_field meta "name" in let* ns := text_field meta "namespace" in let* uid := text_field meta "uid" in
  let* generation := int_field meta "generation" in
  let* deleted := pointer_field meta (text_field meta) "deletionTimestamp" in
  let* annotations := map_field meta "annotations" in
  let* status := struct_field l "status" in let* observed := int_field status "observedGeneration" in
  let* checking := pointer_field status
                     (fun k => let* c := struct_field status k in slice_field c raw_element "expressionWarnings") "typeChecking" in
  let* conditions := slice_field status decode_fence_condition "conditions" in
  Some {| Fo_APIVersion := version; Fo_Kind := kind; Fo_Name := name; Fo_Namespace := ns; Fo_UID := uid;
          Fo_Generation := generation; Fo_DeletionTimestamp := deleted; Fo_Annotations := annotations;
          Fo_Spec := json_get "spec" l; Fo_Observed := observed; Fo_TypeChecking := checking; Fo_Conditions := conditions |}.

Definition policies : string := "validatingadmissionpolicies.admissionregistration.k8s.io".
Definition bindings : string := "validatingadmissionpolicybindings.admissionregistration.k8s.io".
Definition fence_args (resource name : string) : list string :=
  ["get"; resource; name; "-o"; "json"; "--request-timeout=30s"].
Definition digest_of (o : fenceObject) : string := text_of fenceDigestAnnotation (Fo_Annotations o).

(** The identity of an object, its specification, and that the API server has
    checked its expressions. *)
Definition same_identity (kind : string) (m : fence_manifests) (o : fenceObject) : bool :=
  str_eq (Fo_APIVersion o) fenceAPIVersion && str_eq (Fo_Kind o) kind && str_eq (Fo_Name o) (Fm_Name m)
  && str_eq (Fo_Namespace o) "" && str_ne (Fo_UID o) "" && (0 <? Fo_Generation o)
  && negb (is_some (Fo_DeletionTimestamp o)) && str_eq (digest_of o) (Fm_Digest m).
Definition same_spec (spec : json_fields) (o : fenceObject) : bool :=
  match Fo_Spec o with Some got => deep_equal got (JObj spec) | None => false end.
Definition type_checked (o : fenceObject) : bool :=
  (Fo_Observed o =? Fo_Generation o) && bool_decide (Fo_TypeChecking o = Some []).
Definition accepted_now (o : fenceObject) (c : string * string * Z) : bool :=
  str_eq c.1.1 "Accepted" && str_eq c.1.2 "True" && (c.2 =? Fo_Generation o).

(** ** Probes *)

Inductive probe_kind : Type := Writable | FSGroup | SELinux.
Definition probe_kinds : list probe_kind := [Writable; FSGroup; SELinux].
Definition probe_read_only (kind : probe_kind) : bool := match kind with Writable => false | _ => true end.

Section Checks.
Context `{Sha256} `{JsonMarshal} `{Quote} `{JsonText} `{CopyContracts}.

(** A helper with the fields of the kind, of which one is unsafe. *)
Definition probe_mount (kind : probe_kind) : json :=
  JObj ([("name", JStr "data"); ("mountPath", JStr "/data"); ("readOnly", JBool (probe_read_only kind))]
        ++ (if probe_read_only kind then [("recursiveReadOnly", JStr "Enabled")] else [])).
Definition probe_security (kind : probe_kind) : json :=
  JObj ([("runAsNonRoot", JBool true); ("runAsUser", JNum 10001); ("runAsGroup", JNum 10001);
         ("seccompProfile", JObj [("type", JStr "RuntimeDefault")])]
        ++ match kind with
           | Writable => []
           | FSGroup => [("fsGroup", JNum 10001)]
           | SELinux => [("seLinuxOptions", JObj [("type", JStr "container_t")])]
           end).
Definition probe_container (image : string) (kind : probe_kind) : json :=
  JObj [("name", JStr "copy"); ("image", JStr image); ("command", texts ["sleep"]); ("args", texts ["60"]);
        ("securityContext",
          JObj [("allowPrivilegeEscalation", JBool false); ("readOnlyRootFilesystem", JBool true);
                ("capabilities", JObj [("drop", texts ["ALL"])])]);
        ("resources",
          JObj [("requests", JObj [("cpu", JStr "10m"); ("memory", JStr "32Mi")]);
                ("limits", JObj [("cpu", JStr "1"); ("memory", JStr "256Mi")])]);
        ("volumeMounts", JArr [probe_mount kind])].
Definition probe_pod (image : string) (item : CopyItem) (kind : probe_kind) : json :=
  JObj [("apiVersion", JStr "v1"); ("kind", JStr "Pod");
        ("metadata",
          JObj [("name", JStr (SourceHelperName (source_ref item))); ("namespace", JStr (It_SourceNamespace item));
                ("labels", helper_labels)]);
        ("spec",
          JObj [("serviceAccountName", JStr "default"); ("automountServiceAccountToken", JBool false);
                ("restartPolicy", JStr "Never"); ("activeDeadlineSeconds", JNum 60); ("terminationGracePeriodSeconds", JNum 5);
                ("securityContext", probe_security kind); ("containers", JArr [probe_container image kind]);
                ("volumes",
                  JArr [JObj [("name", JStr "data");
                              ("persistentVolumeClaim",
                                JObj [("claimName", JStr (It_SourceName item)); ("readOnly", JBool (probe_read_only kind))])]])])].
Definition probe_args (ns : string) : list string :=
  ["create"; "--dry-run=server"; "-f"; "-"; "-n"; ns; "-o"; "json"; "--request-timeout=20s"].

(** What the API server writes of a denial, at the end of a line. *)
Definition denial (name digest : string) : string :=
  "ValidatingAdmissionPolicy '" +:+ name +:+ "' with binding '" +:+ name +:+ "' denied request: " +:+ fenceMessage digest.
Definition denied_by (name digest : string) (r : probe_result) : bool :=
  Pr_Failed r && negb (Pr_Canceled r) && negb (16384 <? Z.of_nat (length (Pr_Errors r)))
  && existsb (fun line => has_suffix (trim_space line) (denial name digest)) (split_on (byte_of 10) (text (Pr_Errors r))).

(** [Kubectl.probeAdmissionFence] *)
Fixpoint probe_item (kinds : list probe_kind) (image name digest : string) (item : CopyItem)
    : prog kube_call (result pvc_error unit) :=
  match kinds with
  | [] => Ret (Ok tt)
  | kind :: kinds' =>
      r <-- call (KProbe (probe_args (It_SourceNamespace item)) (probe_pod image item kind));;
      stop negb (denied_by name digest r) with ErrUnsafe;;
      probe_item kinds' image name digest item
  end.
Fixpoint probeAdmissionFence (image name digest : string) (items : list CopyItem) : prog kube_call (result pvc_error unit) :=
  match items with
  | [] => Ret (Ok tt)
  | item :: items' =>
      _ <-! probe_item probe_kinds image name digest item;;
      probeAdmissionFence image name digest items'
  end.

(** ** The fence of the code itself *)

(** [Kubectl.RequireAdmissionFence]; an object that cannot be read is a fence
    that is not there. *)
Definition read_fence (resource name : string) : prog kube_call (result pvc_error fenceObject) :=
  r <-- kube_json decode_fence (fence_args resource name) None;;
  Ret (match r with Ok o => Ok o | Err _ => Err ErrUnsafe end).
Definition RequireAdmissionFence (k : option Kubectl) (p : CopyPlan) (ns sa : string) : prog kube_call (result pvc_error unit) :=
  match plan_Validate p, FenceManifests p ns sa, k with
  | Err _, _, _ => Ret (Err ErrUnsafe)
  | _, Err e, _ => Ret (Err e)
  | _, _, None => Ret (Err ErrUnsafe)
  | Ok _, Ok m, Some _ =>
      policy <-! read_fence policies (Fm_Name m);;
      stop negb (same_identity policy_kind m policy) with ErrUnsafe;;
      stop negb (same_spec (Fm_Policy m) policy) with ErrUnsafe;;
      stop negb (type_checked policy) with ErrUnsafe;;
      stop negb (forallb (accepted_now policy) (Fo_Conditions policy)) with ErrUnsafe;;
      binding <-! read_fence bindings (Fm_Name m);;
      stop negb (same_identity binding_kind m binding) with ErrUnsafe;;
      stop negb (same_spec (Fm_Binding m) binding) with ErrUnsafe;;
      probeAdmissionFence (Cp_Image p) (Fm_Name m) (Fm_Digest m) (Cp_Items p)
  end.

(** ** A fence that was reviewed *)

Record ReviewedAdmissionFenceRef := {
  Rf_Namespace : string; Rf_PolicyName : string; Rf_PolicyUID : string; Rf_PolicySpecSHA256 : string;
  Rf_BindingName : string; Rf_BindingUID : string; Rf_BindingSpecSHA256 : string }.

(** The one receipt of a namespace. *)
Definition receipt_of (refs : list ReviewedAdmissionFenceRef) (ns : string) : result pvc_error ReviewedAdmissionFenceRef :=
  match List.filter (fun r => str_eq (Rf_Namespace r) ns) refs with
  | [r] => Ok r
  | _ => Err ErrUnsafe
  end.
Definition complete_receipt (r : ReviewedAdmissionFenceRef) : bool :=
  str_ne (Rf_PolicyUID r) "" && str_ne (Rf_BindingUID r) "" && str_eq (Rf_PolicyName r) (Rf_BindingName r)
  && has_prefix (Rf_PolicyName r) "envplane-pvc-copy-fence-" && (str_len (Rf_PolicySpecSHA256 r) =? 64)
  && (str_len (Rf_BindingSpecSHA256 r) =? 64).
Definition spec_hash (spec : option json) : string :=
  match spec with Some v => sha256_hex (json_marshal (ordered_keys v)) | None => "" end.
Definition reviewed_identity (r : ReviewedAdmissionFenceRef) (policy binding : fenceObject) : bool :=
  let d := digest_of policy in
  str_eq (Fo_Name policy) (Rf_PolicyName r) && str_eq (Fo_Name binding) (Rf_BindingName r)
  && str_eq (Fo_UID policy) (Rf_PolicyUID r) && str_eq (Fo_UID binding) (Rf_BindingUID r)
  && negb (is_some (Fo_DeletionTimestamp policy)) && negb (is_some (Fo_DeletionTimestamp binding))
  && str_eq (spec_hash (Fo_Spec policy)) (Rf_PolicySpecSHA256 r) && str_eq (spec_hash (Fo_Spec binding)) (Rf_BindingSpecSHA256 r)
  && match_string fenceIdentityDigest d
  && str_eq (Rf_PolicyName r) ("envplane-pvc-copy-fence-" +:+ String.substring 0 32 (trim_prefix d "sha256:"))
  && str_eq (digest_of binding) d.
Definition reviewed_acceptance (policy : fenceObject) : bool := (1 <=? Fo_Generation policy) && type_checked policy.
Definition not_rejected (policy : fenceObject) (c : string * string * Z) : bool :=
  negb (str_eq c.1.1 "Accepted" && (str_ne c.1.2 "True" || negb (c.2 =? Fo_Generation policy))).
Definition absent (v : option json) : bool := match v with None | Some JNull => true | Some _ => false end.
Definition reviewed_enforcing (r : ReviewedAdmissionFenceRef) (ps bs : json_fields) : bool :=
  is_text (json_get "failurePolicy" ps) "Fail" && absent (json_get "paramKind" ps) && absent (json_get "matchConditions" ps)
  && is_text (json_get "policyName" bs) (Rf_PolicyName r)
  && bool_decide (as_array (json_get "validationActions" bs) = [JStr "Deny"]).
Definition consumer_guard (item : CopyItem) : string := "!(" +:+ consumer_term item +:+ ") || (".
Definition binds_source (image username digest : string) (item : CopyItem) (row : json) : bool :=
  let v := as_object (Some row) in
  let expr := as_text (json_get "expression" v) in
  has_prefix expr (consumer_guard item) && contains expr (quote (SourceHelperName (source_ref item)))
  && contains expr (quote image) && contains expr (quote username) && is_text (json_get "message" v) (fenceMessage digest).

(** The check of one item: the policy that fences it, and its digest. *)
Definition reviewed_item (refs : list ReviewedAdmissionFenceRef) (image username : string) (item : CopyItem)
    : prog kube_call (result pvc_error (string * string)) :=
  r <-! Ret (receipt_of refs (It_SourceNamespace item));;
  stop negb (complete_receipt r) with ErrUnsafe;;
  policy <-! read_fence policies (Rf_PolicyName r);;
  binding <-! read_fence bindings (Rf_BindingName r);;
  stop negb (reviewed_identity r policy binding) with ErrUnsafe;;
  stop negb (reviewed_acceptance policy) with ErrUnsafe;;
  stop negb (forallb (not_rejected policy) (Fo_Conditions policy)) with ErrUnsafe;;
  let ps := as_object (Fo_Spec policy) in
  let bs := as_object (Fo_Spec binding) in
  stop negb (reviewed_enforcing r ps bs) with ErrUnsafe;;
  let d := digest_of policy in
  stop negb (existsb (binds_source image username d item) (as_array (json_get "validations" ps))) with ErrUnsafe;;
  Ret (Ok (Rf_PolicyName r, d)).
(** The map [checked]. *)
Fixpoint put (name digest : string) (checked : list (string * string)) : list (string * string) :=
  match checked with
  | [] => [(name, digest)]
  | (n, d) :: l => if str_eq n name then (name, digest) :: l else (n, d) :: put name digest l
  end.
Fixpoint reviewed_items (refs : list ReviewedAdmissionFenceRef) (image username : string) (items : list CopyItem)
    (checked : list (string * string)) : prog kube_call (result pvc_error (list (string * string))) :=
  match items with
  | [] => Ret (Ok checked)
  | item :: items' =>
      x <-! reviewed_item refs image username item;;
      reviewed_items refs image username items' (put x.1 x.2 checked)
  end.
Definition fenced_by (refs : list ReviewedAdmissionFenceRef) (name : string) (items : list CopyItem) : list CopyItem :=
  flat_map (fun item => map (fun _ => item)
    (List.filter (fun r => str_eq (Rf_Namespace r) (It_SourceNamespace item) && str_eq (Rf_PolicyName r) name) refs)) items.
Fixpoint probe_policies (refs : list ReviewedAdmissionFenceRef) (p : CopyPlan) (checked : list (string * string))
    : prog kube_call (result pvc_error unit) :=
  match checked with
  | [] => Ret (Ok tt)
  | (name, d) :: checked' =>
      _ <-! probeAdmissionFence (Cp_Image p) name d (fenced_by refs name (Cp_Items p));;
      probe_policies refs p checked'
  end.
(** [Kubectl.RequireReviewedAdmissionFence]; [order] is the order in which the
    map is walked. *)
Definition RequireReviewedAdmissionFence (order : list (string * string) -> list (string * string))
    (k : option Kubectl) (p : CopyPlan) (ns sa : string) (refs : list ReviewedAdmissionFenceRef)
    : prog kube_call (result pvc_error unit) :=
  match k, plan_Validate p, fenceAuthority p ns sa with
  | Some _, Ok _, Ok _ =>
      checked <-! reviewed_items refs (Cp_Image p) (username_of ns sa) (Cp_Items p) [];;
      probe_policies refs p (order checked)
  | _, _, _ => Ret (Err ErrUnsafe)
  end.

(** ** The fence that is configured *)

(** [configuredPVCSourceFences]: the receipts, and whether there are any; a
    decoder that disallows unknown fields gives the first value, if it decodes,
    and whether nothing follows it. *)
Definition configuredPVCSourceFences (decode : string -> option (list ReviewedAdmissionFenceRef) * bool) (raw : string)
    : result pvc_error (option (list ReviewedAdmissionFenceRef)) :=
  if str_eq raw "" then Ok None
  else
    refuse Z.shiftl 64 10 <? str_len raw with ErrOther;;
    match (decode raw).1 with
    | Some refs =>
        refuse (length refs =? 0)%nat || (32 <? Z.of_nat (length refs)) with ErrOther;;
        refuse negb (decode raw).2 with ErrOther;;
        Ok (Some refs)
    | None => Err ErrOther
    end.
(** [requireConfiguredPVCSourceFence] *)
Definition requireConfiguredPVCSourceFence decode order (raw : string) (k : option Kubectl) (p : CopyPlan) (ns sa : string)
    : prog kube_call (result pvc_error unit) :=
  refs <-! Ret (configuredPVCSourceFences decode raw);;
  match refs with
  | Some refs => RequireReviewedAdmissionFence order k p ns sa refs
  | None => RequireAdmissionFence k p ns sa
  end.
End Checks.

(** ** Lemmas *)

(** *** Sorting by keys *)

Lemma sort_map {A B} (f : A -> B) (less : B -> B -> bool) l :
  sort_slice less (map f l) = map f (sort_slice (fun x y => less (f x) (f y)) l).
Proof.
  assert (Hi : forall x m, insert_sorted less (f x) (map f m) = map f (insert_sorted (fun x y => less (f x) (f y)) x m)).
  { intros x m. induction m as [|y m IH]; [done|]. cbn [map insert_sorted]. destruct (less (f y) (f x)); [|done]. cbn [map]. by rewrite IH. }
  induction l as [|x l IH]; [done|]. cbn [map]. unfold sort_slice in *. cbn [foldr]. by rewrite IH, Hi.
Qed.
Lemma sort_by_key_perm {A} (key : A -> string) l l' :
  NoDup (map key l) -> l ≡ₚ l' -> sort_slice (by_key key) l = sort_slice (by_key key) l'.
Proof.
  intros Hn Hp. assert (Hs : forall m, StronglySorted (in_order (by_key key)) (sort_slice (by_key key) m)).
  { intros m. apply sort_slice_sorted; unfold by_key; intros *; [apply str_ltb_irrefl|apply str_ltb_trans|apply str_ltb_negtrans]. }
  apply (StronglySorted_unique_strong (in_order (by_key key))); [|apply Hs|apply Hs|by rewrite !sort_slice_perm].
  intros x y Hx Hy H1 H2. unfold in_order, by_key in H1, H2.
  assert (Hk : key x = key y) by (destruct (str_ltb_total _ _ H1) as [?|?]; congruence).
  rewrite sort_slice_perm in Hx. rewrite sort_slice_perm, <- Hp in Hy.
  apply list_elem_of_lookup in Hx as [i Hi], Hy as [j Hj].
  assert (i = j) as ->; [|congruence]. eapply NoDup_lookup; [exact Hn| |]; rewrite list_lookup_fmap.
  - by rewrite Hi.
  - rewrite Hj. cbn. by rewrite Hk.
Qed.

(** *** The identity of a fence *)

(** The part of an item that a fence depends on. *)
Definition source_part (item : CopyItem) : string * fenceSourceAuthority := (It_SourceTenantID item, authority_of item).
Definition only_source (s : string * fenceSourceAuthority) : CopyItem :=
  {| It_ID := ""; It_SourceTenantID := s.1; It_SourceNamespace := Fa_Namespace s.2; It_SourceName := Fa_Name s.2;
     It_SourceUID := Fa_UID s.2; It_SourceIdentity := Fa_Identity s.2; It_TargetName := ""; It_StorageClass := "";
     It_AccessModes := []; It_RequestedBytes := 0; It_MaxBytes := 0; It_TimeoutSeconds := 0; It_rest := JNull |}.
Definition sources_only (items : list CopyItem) : list CopyItem := map only_source (map source_part items).

Lemma fence_sources_ok tenant items : forall seen l,
  fence_sources tenant seen items = Ok l <->
  l = map authority_of items /\ Forall (fun item => valid_source tenant item = true) items
  /\ NoDup (map item_key items) /\ Forall (fun item => ~ In (item_key item) seen) items.
Proof.
  induction items as [|item items IH]; intros seen l; cbn [fence_sources map].
  { split; [intros [= <-]|intros (-> & _)]; [split_and!; constructor|done]. }
  rewrite refuse_ok, orb_false_iff, negb_false_iff, rbind_ok, Forall_cons, Forall_cons, NoDup_cons.
  rewrite <- not_true_iff_false, existsb_str. split.
  - intros [[Hv Hs] (l' & (-> & HF & Hn & Hf)%IH & [= <-])]. split_and!; try done.
    + intros (x & Hk & Hx)%list_elem_of_fmap. rewrite Forall_forall in Hf. apply (Hf x); [done|]. rewrite <- Hk. by left.
    + eapply Forall_impl; [exact Hf|]. intros x Hx Hin. apply Hx. by right.
  - intros (-> & [Hv HF] & [Hk Hn] & [Hs Hf]). split; [done|]. exists (map authority_of items). split; [|done].
    apply IH. split_and!; try done. rewrite Forall_forall in Hf |- *. intros x Hx [He|Hin]; [|by eapply Hf].
    apply Hk. rewrite He. apply list_elem_of_fmap. by exists x.
Qed.
Lemma fence_sources_err tenant items : forall seen e, fence_sources tenant seen items = Err e -> e = ErrUnsafe.
Proof.
  induction items as [|item items IH]; intros seen e; cbn [fence_sources]; [done|].
  destruct (_ || _); [by intros [= <-]|]. destruct (fence_sources _ _ items) eqn:E; cbn [rbind]; [done|]. intros [= <-].
  by eapply IH.
Qed.
Lemma fence_sources_perm tenant items items' : items ≡ₚ items' ->
  match fence_sources tenant [] items, fence_sources tenant [] items' with
  | Ok l, Ok l' => l ≡ₚ l' /\ NoDup (map item_key items)
  | Err e, Err e' => e = e'
  | _, _ => False
  end.
Proof.
  intros Hp. assert (Hok : forall a b, a ≡ₚ b -> forall l, fence_sources tenant [] a = Ok l ->
    fence_sources tenant [] b = Ok (map authority_of b)).
  { intros a b Hab l (-> & HF & Hn & _)%fence_sources_ok. apply fence_sources_ok. split_and!; [done|by rewrite <- Hab| |].
    - by rewrite <- Hab.
    - apply Forall_forall. by intros x _ []. }
  destruct (fence_sources tenant [] items) as [l|e] eqn:E.
  - rewrite (Hok _ _ Hp _ E). apply fence_sources_ok in E as (-> & _ & Hn & _). by rewrite Hp at 1.
  - destruct (fence_sources tenant [] items') as [l'|e'] eqn:E'.
    + rewrite (Hok _ _ (symmetry Hp) _ E') in E. done.
    + apply fence_sources_err in E, E'. by subst.
Qed.

Section FenceLemmas.
Context `{Sha256} `{JsonMarshal} `{Quote}.

Lemma fence_sources_only tenant items : forall seen,
  fence_sources tenant seen (sources_only items) = fence_sources tenant seen items.
Proof.
  unfold sources_only. induction items as [|item items IH]; intros seen; [done|]. cbn [map fence_sources]. by rewrite IH.
Qed.
Lemma fence_authority_only (p p' : CopyPlan) ns sa :
  Cp_TenantID p = Cp_TenantID p' -> Cp_ProjectID p = Cp_ProjectID p' -> Cp_Image p = Cp_Image p' ->
  map source_part (Cp_Items p) ≡ₚ map source_part (Cp_Items p') -> fenceAuthority p ns sa = fenceAuthority p' ns sa.
Proof.
  intros Ht Hp Hi Hs. unfold fenceAuthority. rewrite Ht, Hp, Hi.
  assert (He : bool_decide (Cp_Items p = []) = bool_decide (Cp_Items p' = [])).
  { apply bool_decide_ext. apply Permutation_length in Hs. rewrite !length_map in Hs.
    split; intros E; rewrite E in Hs; by apply length_zero_iff_nil. }
  rewrite He. destruct (_ || _); [done|]. destruct (_ || _ || _); [done|]. destruct (negb _); [done|].
  rewrite <- (fence_sources_only _ (Cp_Items p)), <- (fence_sources_only _ (Cp_Items p')).
  pose proof (fence_sources_perm (Cp_TenantID p') _ _ (Permutation_map only_source Hs)) as Hf.
  fold (sources_only (Cp_Items p)) (sources_only (Cp_Items p')) in Hf.
  destruct (fence_sources _ _ (sources_only (Cp_Items p))) as [l|e] eqn:E, (fence_sources _ _ (sources_only (Cp_Items p'))) as [l'|e'];
    [|done|done|by subst]. destruct Hf as [Hl Hn]. cbn [rbind].
  assert (HL : sort_slice (by_key authority_key) l = sort_slice (by_key authority_key) l').
  { apply sort_by_key_perm; [|done]. apply fence_sources_ok in E as (-> & _). rewrite map_map. exact Hn. }
  unfold authority_json. by rewrite HL, Ht, Hp, Hi.
Qed.

(** The validations depend on the same part of the items. *)
Lemma validations_only username image digest items :
  validations_of username image digest (sources_only items) = validations_of username image digest items
  /\ source_namespaces (sources_only items) = source_namespaces items.
Proof.
  assert (Hn : source_namespaces (sources_only items) = source_namespaces items).
  { unfold source_namespaces, sources_only. by rewrite !map_map. }
  split; [|done]. unfold validations_of. rewrite Hn. f_equal; [unfold sources_only; by rewrite !map_map|].
  apply map_ext. intros ns. unfold namespace_expression. do 6 f_equal. unfold helper_bindings, sources_only.
  do 4 f_equal. clear Hn. induction items as [|item items IH]; [done|]. cbn [map List.filter].
  change (It_SourceNamespace (only_source (source_part item))) with (It_SourceNamespace item).
  destruct (str_eq _ _); [|apply IH]. cbn [map]. f_equal. apply IH.
Qed.
Lemma sorted_only items : sources_only (sort_slice (by_key item_key) items) = sort_slice (by_key item_key) (sources_only items).
Proof. unfold sources_only. by rewrite !map_map, sort_map. Qed.

Lemma fenceAuthority_ok p ns sa a : fenceAuthority p ns sa = Ok a ->
  NoDup (map item_key (Cp_Items p))
  /\ exists hash, a = ("envplane-pvc-copy-fence-" +:+ String.substring 0 32 (sha256_hex hash), "sha256:" +:+ sha256_hex hash).
Proof.
  unfold fenceAuthority. rewrite !refuse_ok, rbind_ok. intros (_ & _ & _ & l & (-> & _ & Hn & _)%fence_sources_ok & [= <-]).
  split; [done|]. by eexists.
Qed.
End FenceLemmas.

(** *** Substrings *)

Lemma string_assoc a b c : (a +:+ b) +:+ c = a +:+ b +:+ c.
Proof. apply chars_inj. by rewrite !chars_app, app_assoc. Qed.

Inductive within (a : string) : string -> Prop :=
| within_refl : within a a
| within_before s b : within a b -> within a (s +:+ b)
| within_after b s : within a b -> within a (b +:+ s).
#[local] Hint Constructors within : core.
Lemma within_contains a b : within a b -> contains b a = true.
Proof.
  intros Hw. assert (exists x y, chars b = x ++ chars a ++ y) as (x & y & E).
  { induction Hw as [|s b _ (x & y & E)|b s _ (x & y & E)].
    - exists [], []. by rewrite app_nil_r.
    - exists (chars s ++ x), y. by rewrite chars_app, E, app_assoc.
    - exists x, (y ++ chars s). by rewrite chars_app, E, <- !app_assoc. }
  unfold contains. rewrite E. clear E. induction x as [|c x IH]; [|cbn [app contains_bytes]; by rewrite IH, orb_true_r].
  cbn [app]. destruct (chars a) as [|c l]; [by destruct y|]. cbn [app contains_bytes].
  replace (prefix_of (c :: l) (c :: l ++ y)) with true; [done|]. symmetry. cbn [prefix_of].
  rewrite (proj2 (char_eq_true c c) eq_refl). induction l as [|c' l IH]; [done|]. cbn [prefix_of app].
  by rewrite (proj2 (char_eq_true c' c') eq_refl).
Qed.
Lemma within_join a sep s l : In s l -> within a s -> within a (join sep l).
Proof.
  induction l as [|x l IH]; [done|]. intros [->|Hin] Hw; cbn [join]; destruct l as [|y l]; auto. by destruct Hin.
Qed.

Section ReviewLemmas.
Context `{Sha256} `{JsonMarshal} `{Quote}.

Lemma common_within a username image n s : nth_error (common_terms username image) n = Some s -> within a s ->
  within a (common username image).
Proof. intros Hn%nth_error_In. by apply within_join. Qed.

(** The validation of a source is one that the reviewed check accepts. *)
Lemma source_bound username image digest item :
  binds_source image username digest item (validation digest (source_expression username image item)) = true.
Proof.
  unfold binds_source, validation. cbn [as_object]. change (json_get "expression" _) with (Some (JStr (source_expression username image item))).
  change (json_get "message" _) with (Some (JStr (fenceMessage digest))). cbn [as_text is_text].
  assert (Hc : within (common username image) (source_expression username image item)) by (unfold source_expression; auto 10).
  assert (Htr : forall a b c, within a b -> within b c -> within a c) by (intros a b c Hab Hbc; induction Hbc; auto).
  rewrite !andb_true_iff. split_and!.
  - apply prefix_split. unfold consumer_guard, source_expression. exists (common username image +:+ " && " +:+ helper_term item +:+ ")").
    generalize (consumer_term item) (common username image) (helper_term item). intros a b c. by rewrite !string_assoc.
  - apply within_contains. unfold source_expression, helper_term. auto 12.
  - apply within_contains. eapply Htr; [|exact Hc]. apply (common_within _ _ _ 27 _ eq_refl). auto.
  - apply within_contains. eapply Htr; [|exact Hc]. apply (common_within _ _ _ 2 _ eq_refl). auto.
  - by apply str_eq_true.
Qed.

Hypothesis hash_hex : forall l, match_string (times 64 (RChr hex_lower)) (sha256_hex l) = true.
Lemma hash_length l : str_len (sha256_hex l) = 64.
Proof.
  pose proof (hash_hex l) as Hl%match_string_lang%lang_times_chr. unfold str_len. rewrite <- length_chars. by destruct Hl as [-> _].
Qed.
Lemma digest_matches l : match_string fenceIdentityDigest ("sha256:" +:+ sha256_hex l) = true.
Proof.
  apply match_string_lang. rewrite chars_app. apply lang_seq.
  - apply match_lang. vm_compute. reflexivity.
  - by apply match_string_lang.
Qed.
Lemma substring_length n s : (n <= String.length s)%nat -> String.length (String.substring 0 n s) = n.
Proof.
  revert s. induction n as [|n IH]; intros [|c s] Hl; cbn in *; [done|done|lia|]. f_equal. apply IH. lia.
Qed.
Lemma fence_name_length l : str_len ("envplane-pvc-copy-fence-" +:+ String.substring 0 32 (sha256_hex l)) = 56.
Proof.
  unfold str_len. rewrite <- length_chars, chars_app, length_app, !length_chars. rewrite substring_length; [done|].
  pose proof (hash_length l) as Hl. unfold str_len in Hl. lia.
Qed.
End ReviewLemmas.

(** *** What a check has seen *)

Lemma put_keys name d l n : In n (map fst (put name d l)) <-> n = name \/ In n (map fst l).
Proof.
  induction l as [|[n' d'] l IH]; cbn [put map fst]; [cbn; naive_solver|]. destruct (str_eq n' name) eqn:E; cbn [map fst In].
  - apply str_eq_true in E as ->. naive_solver.
  - rewrite IH. naive_solver.
Qed.
Lemma receipt_in refs ns r : receipt_of refs ns = Ok r -> In r refs /\ Rf_Namespace r = ns.
Proof.
  unfold receipt_of. destruct (List.filter _ refs) as [|r' [|]] eqn:E; [done| |done]. intros [= ->].
  assert (Hr : In r (List.filter (fun r => str_eq (Rf_Namespace r) ns) refs)) by (rewrite E; by left).
  apply filter_In in Hr as [Hr Hn%str_eq_true]. done.
Qed.

Section Checked.
Context `{Sha256} `{JsonMarshal} `{Quote} `{JsonText} `{CopyContracts}.

(** Every probe of an item was denied by the policy of this name and digest. *)
Definition probed (image name digest : string) (item : CopyItem) (t : list (event kube_call)) : Prop :=
  forall kind, exists r, In (Event (KProbe (probe_args (It_SourceNamespace item)) (probe_pod image item kind)) r) t
                         /\ denied_by name digest r = true.
(** The object was read, and the answer is this object. *)
Definition fence_read (resource name : string) (o : fenceObject) (t : list (event kube_call)) : Prop :=
  exists b, In (Event (KRun (fence_args resource name) None) (Ok b)) t /\ answers decode_fence b o.

(** The policy and the binding are those of [FenceManifests], accepted by the
    API server, and enforced on every source. *)
Definition canonical_fence (p : CopyPlan) (ns sa : string) (t : list (event kube_call)) : Prop :=
  exists m policy binding, FenceManifests p ns sa = Ok m
    /\ fence_read policies (Fm_Name m) policy t /\ same_identity policy_kind m policy = true
    /\ same_spec (Fm_Policy m) policy = true /\ type_checked policy = true
    /\ Forall (fun c => accepted_now policy c = true) (Fo_Conditions policy)
    /\ fence_read bindings (Fm_Name m) binding t /\ same_identity binding_kind m binding = true
    /\ same_spec (Fm_Binding m) binding = true
    /\ forall item, In item (Cp_Items p) -> probed (Cp_Image p) (Fm_Name m) (Fm_Digest m) item t.
(** The policy of the one receipt of the source's namespace is as it was
    reviewed, names the source and the runner, and is enforced. *)
Definition reviewed_fence (refs : list ReviewedAdmissionFenceRef) (image username : string) (item : CopyItem)
    (t : list (event kube_call)) (r : ReviewedAdmissionFenceRef) : Prop :=
  receipt_of refs (It_SourceNamespace item) = Ok r
  /\ exists policy binding, fence_read policies (Rf_PolicyName r) policy t /\ fence_read bindings (Rf_BindingName r) binding t
    /\ reviewed_identity r policy binding = true /\ reviewed_acceptance policy = true
    /\ reviewed_enforcing r (as_object (Fo_Spec policy)) (as_object (Fo_Spec binding)) = true
    /\ existsb (binds_source image username (digest_of policy) item)
         (as_array (json_get "validations" (as_object (Fo_Spec policy)))) = true.

Lemma probed_more image name digest item t t' : probed image name digest item t -> incl t t' -> probed image name digest item t'.
Proof. intros Hp Hi kind. destruct (Hp kind) as (r & Hr & Hd). exists r. auto. Qed.
Lemma read_more resource name o t t' : fence_read resource name o t -> incl t t' -> fence_read resource name o t'.
Proof. intros (b & Hb & Ha) Hi. exists b. auto. Qed.
Lemma reviewed_more refs image username item r t t' :
  reviewed_fence refs image username item t r -> incl t t' -> reviewed_fence refs image username item t' r.
Proof. intros (Hr & policy & binding & Hp & Hb & Hx) Hi. split; [done|]. exists policy, binding. eauto using read_more. Qed.

Lemma probe_item_ok image name digest item kinds : forall t u, exec (probe_item kinds image name digest item) t (Ok u) ->
  forall kind, In kind kinds -> exists r, In (Event (KProbe (probe_args (It_SourceNamespace item)) (probe_pod image item kind)) r) t
                                          /\ denied_by name digest r = true.
Proof.
  induction kinds as [|kind' kinds IH]; intros t u Hx kind Hin; cbn [probe_item] in Hx; [done|destruct Hin as [<-|Hin]].
  - apply exec_bind in Hx as (t1 & t2 & r & -> & ->%exec_call & [Hd%negb_false_iff _]%exec_stop_ok). exists r. split; [by left|done].
  - apply exec_bind in Hx as (t1 & t2 & r & -> & _ & [_ Hx]%exec_stop_ok). destruct (IH _ _ Hx _ Hin) as (r' & Hr & Hd).
    exists r'. split; [apply in_or_app; by right|done].
Qed.
Lemma probe_fence_ok image name digest items : forall t u, exec (probeAdmissionFence image name digest items) t (Ok u) ->
  forall item, In item items -> probed image name digest item t.
Proof.
  induction items as [|item' items IH]; intros t u Hx item Hin; cbn [probeAdmissionFence] in Hx; [done|].
  apply exec_pbind_ok in Hx as (t1 & t2 & [] & -> & H1' & Hx). destruct Hin as [<-|Hin].
  - eapply probed_more; [|apply incl_appl, incl_refl]. intros kind. eapply probe_item_ok; [exact H1'|]. destruct kind; cbn; auto.
  - eapply probed_more; [by eapply IH|apply incl_appr, incl_refl].
Qed.
Lemma read_fence_ok resource name t o : exec (read_fence resource name) t (Ok o) -> fence_read resource name o t.
Proof.
  intros (t1 & t2 & [o'|e] & -> & Hx & [-> [= <-]])%exec_bind. apply kube_json_ok in Hx as (b & -> & Ha). exists b. by split; [left|].
Qed.

Lemma canonical_ok k p ns sa t u : exec (RequireAdmissionFence k p ns sa) t (Ok u) -> canonical_fence p ns sa t.
Proof.
  unfold RequireAdmissionFence. destruct (plan_Validate p); [|by intros ?%exec_ret_err].
  destruct (FenceManifests p ns sa) as [m|e] eqn:Em; [|by intros ?%exec_ret_err]. destruct k; [|by intros ?%exec_ret_err]. intros Hx.
  apply exec_pbind_ok in Hx as (t1 & t2 & policy & -> & Hp%read_fence_ok & Hx).
  apply exec_stop_ok in Hx as [I1%negb_false_iff Hx]. apply exec_stop_ok in Hx as [I2%negb_false_iff Hx].
  apply exec_stop_ok in Hx as [I3%negb_false_iff Hx]. apply exec_stop_ok in Hx as [I4%negb_false_iff Hx].
  apply exec_pbind_ok in Hx as (t3 & t4 & binding & -> & Hb%read_fence_ok & Hx).
  apply exec_stop_ok in Hx as [I5%negb_false_iff Hx]. apply exec_stop_ok in Hx as [I6%negb_false_iff Hx].
  exists m, policy, binding. split_and!; try done.
  - eapply read_more; [exact Hp|apply incl_appl, incl_refl].
  - apply Forall_forall. intros c Hc%list_elem_of_In. rewrite forallb_forall in I4. auto.
  - eapply read_more; [exact Hb|apply incl_appr, incl_appl, incl_refl].
  - intros item Hin. eapply probed_more; [by eapply probe_fence_ok|apply incl_appr, incl_appr, incl_refl].
Qed.

(** What a successful check of the configured fence has seen: with no profile
    the fence of the code itself, with one the reviewed fence of every source. *)
Definition fence_seen (decode : string -> option (list ReviewedAdmissionFenceRef) * bool) (raw : string)
    (p : CopyPlan) (ns sa : string) (t : list (event kube_call)) : Prop :=
  (raw = "" /\ canonical_fence p ns sa t)
  \/ exists refs, decode raw = (Some refs, true) /\ (0 < length refs <= 32)%nat
       /\ forall item, In item (Cp_Items p) -> exists r d,
            reviewed_fence refs (Cp_Image p) (username_of ns sa) item t r /\ probed (Cp_Image p) (Rf_PolicyName r) d item t.
Lemma seen_more decode raw p ns sa t t' : fence_seen decode raw p ns sa t -> incl t t' -> fence_seen decode raw p ns sa t'.
Proof.
  intros [[Hr (m & policy & binding & Hm & H1' & H2' & H3' & H4' & H5' & H6' & H7' & H8' & Hall)]|(refs & Hd & Hl & Hall)] Hi; [left|right].
  - split; [done|]. exists m, policy, binding. split_and!; try done; [by eapply read_more..|]. intros item Hin.
    eapply probed_more; [by apply Hall|done].
  - exists refs. split_and!; try done; [lia..|]. intros item Hin. destruct (Hall item Hin) as (r & d & Hr & Hp). exists r, d.
    split; [by eapply reviewed_more|by eapply probed_more].
Qed.

Lemma reviewed_item_ok refs image username item t x : exec (reviewed_item refs image username item) t (Ok x) ->
  exists r, x.1 = Rf_PolicyName r /\ reviewed_fence refs image username item t r.
Proof.
  intros (r & Hr & Hx)%exec_pret. apply exec_stop_ok in Hx as [_ Hx].
  apply exec_pbind_ok in Hx as (t1 & t2 & policy & -> & Hp%read_fence_ok & Hx).
  apply exec_pbind_ok in Hx as (t3 & t4 & binding & -> & Hb%read_fence_ok & Hx).
  apply exec_stop_ok in Hx as [I1%negb_false_iff Hx]. apply exec_stop_ok in Hx as [I2%negb_false_iff Hx].
  apply exec_stop_ok in Hx as [I3 Hx]. cbv zeta in Hx. apply exec_stop_ok in Hx as [I4%negb_false_iff Hx].
  apply exec_stop_ok in Hx as [I5%negb_false_iff [-> Hx]]. injection Hx as ->. exists r. split; [done|].
  split; [done|]. exists policy, binding. rewrite app_nil_r. split_and!; try done.
  - eapply read_more; [exact Hp|apply incl_appl, incl_refl].
  - eapply read_more; [exact Hb|apply incl_appr, incl_refl].
Qed.
Lemma reviewed_items_ok refs image username items : forall checked t checked',
  exec (reviewed_items refs image username items checked) t (Ok checked') ->
  incl (map fst checked) (map fst checked')
  /\ forall item, In item items -> exists r, In (Rf_PolicyName r) (map fst checked') /\ reviewed_fence refs image username item t r.
Proof.
  induction items as [|item' items IH]; intros checked t checked' Hx; cbn [reviewed_items] in Hx.
  - destruct Hx as [_ [= ->]]. by split; [apply incl_refl|].
  - apply exec_pbind_ok in Hx as (t1 & t2 & x & -> & (r & Hn & Hr)%reviewed_item_ok & [Hi Hall]%IH). split.
    + intros n Hin. apply Hi, put_keys. by right.
    + intros item [<-|Hin].
      * exists r. split; [apply Hi, put_keys; by left|]. eapply reviewed_more; [exact Hr|apply incl_appl, incl_refl].
      * destruct (Hall _ Hin) as (r' & Hr' & Hf). exists r'. split; [done|]. eapply reviewed_more; [exact Hf|apply incl_appr, incl_refl].
Qed.
Lemma fenced_in refs r items item : receipt_of refs (It_SourceNamespace item) = Ok r -> In item items ->
  In item (fenced_by refs (Rf_PolicyName r) items).
Proof.
  intros [Hr Hn]%receipt_in Hin. apply in_flat_map. exists item. split; [done|]. apply in_map_iff. exists r. split; [done|].
  apply filter_In. split; [done|]. by rewrite Hn, !(proj2 (str_eq_true _ _) eq_refl).
Qed.
Lemma probe_policies_ok refs p checked : forall t u, exec (probe_policies refs p checked) t (Ok u) ->
  forall name, In name (map fst checked) -> exists d, forall item, In item (fenced_by refs name (Cp_Items p)) ->
    probed (Cp_Image p) name d item t.
Proof.
  induction checked as [|[n d] checked IH]; intros t u Hx name; cbn [probe_policies map fst] in *; [done|].
  apply exec_pbind_ok in Hx as (t1 & t2 & [] & -> & H1' & Hx). intros [<-|Hin].
  - exists d. intros item Hi. eapply probed_more; [by eapply probe_fence_ok|apply incl_appl, incl_refl].
  - destruct (IH _ _ Hx _ Hin) as [d' Hd]. exists d'. intros item Hi. eapply probed_more; [by apply Hd|apply incl_appr, incl_refl].
Qed.
Lemma reviewed_ok order k p ns sa refs t u (Hord : forall l, order l ≡ₚ l) :
  exec (RequireReviewedAdmissionFence order k p ns sa refs) t (Ok u) ->
  forall item, In item (Cp_Items p) -> exists r d, reviewed_fence refs (Cp_Image p) (username_of ns sa) item t r
    /\ probed (Cp_Image p) (Rf_PolicyName r) d item t.
Proof.
  unfold RequireReviewedAdmissionFence. destruct k; [|by intros ?%exec_ret_err]. destruct (plan_Validate p); [|by intros ?%exec_ret_err].
  destruct (fenceAuthority p ns sa); [|by intros ?%exec_ret_err]. intros (t1 & t2 & checked & -> & [_ Hall]%reviewed_items_ok & Hx)%exec_pbind_ok.
  intros item Hin. destruct (Hall _ Hin) as (r & Hn & Hr). rewrite <- (Hord checked) in Hn.
  destruct (probe_policies_ok _ _ _ _ _ Hx _ Hn) as [d Hd]. exists r, d. split.
  - eapply reviewed_more; [exact Hr|apply incl_appl, incl_refl].
  - eapply probed_more; [apply Hd, fenced_in; [by destruct Hr|done]|apply incl_appr, incl_refl].
Qed.
Lemma configured_seen decode order raw k p ns sa t u : (forall l, order l ≡ₚ l) ->
  exec (requireConfiguredPVCSourceFence decode order raw k p ns sa) t (Ok u) -> fence_seen decode raw p ns sa t.
Proof.
  intros Hord Hx.
  unfold requireConfiguredPVCSourceFence in Hx. apply exec_pret in Hx as (refs & Hr & Hx).
  unfold configuredPVCSourceFences in Hr. destruct (str_eq raw "") eqn:E.
  - injection Hr as <-. apply str_eq_true in E. left. split; [done|]. by eapply canonical_ok.
  - right. apply refuse_ok in Hr as [_ Hr]. destruct (decode raw) as [[refs'|] rest]; cbn [fst snd] in Hr; [|done].
    rewrite !refuse_ok in Hr. destruct Hr as (Hl & Ht & [= <-]). exists refs'. apply negb_false_iff in Ht as ->.
    split; [done|]. split; [|by eapply reviewed_ok]. go_bool. lia.
Qed.
End Checked.

(** *** Probes *)

(** The pod of a probe without its unsafe field, and what the field makes of it. *)
Definition safe_probe `{Sha256} (image : string) (item : CopyItem) : podObject :=
  {| Po_Metadata := {| Om_Namespace := It_SourceNamespace item; Om_Name := SourceHelperName (source_ref item); Om_UID := "";
                       Om_DeletionTimestamp := None; Om_Labels := [("app.kubernetes.io/component", "pvccopy-helper")];
                       Om_Annotations := [] |};
     Po_HostNetwork := false; Po_HostPID := false; Po_HostIPC := false; Po_RestartPolicy := "Never"; Po_Deadline := 60;
     Po_Security := {| Ps_RunAsUser := Some 10001; Ps_RunAsGroup := Some 10001; Ps_RunAsNonRoot := Some true; Ps_FSGroup := None;
                       Ps_SupplementalGroups := []; Ps_SELinux := JNull; Ps_Seccomp := "RuntimeDefault" |};
     Po_ServiceAccount := "default"; Po_Automount := Some false; Po_InitContainers := []; Po_EphemeralContainers := [];
     Po_Containers :=
       [{| Ct_Name := "copy"; Ct_Image := image; Ct_Command := ["sleep"]; Ct_Args := ["60"]; Ct_Env := []; Ct_EnvFrom := [];
           Ct_Security :=
             {| Cs_Privileged := false; Cs_AllowEscalation := Some false; Cs_ReadOnlyRoot := Some true; Cs_RunAsUser := None;
                Cs_RunAsGroup := None; Cs_RunAsNonRoot := None; Cs_SELinux := JNull; Cs_Drop := ["ALL"]; Cs_Add := [] |};
           Ct_VolumeMounts :=
             [{| Vm_Name := "data"; Vm_Path := "/data"; Vm_ReadOnly := true; Vm_RecursiveReadOnly := "Enabled" |}] |}];
     Po_Volumes := [{| Pl_Name := "data"; Pl_PVC := Some (It_SourceName item, true) |}]; Po_Phase := ""; Po_Conditions := [] |}.
Definition with_pod (o : podObject) (security : pod_security) (containers : list container) (volumes : list pod_volume) : podObject :=
  {| Po_Metadata := Po_Metadata o; Po_HostNetwork := Po_HostNetwork o; Po_HostPID := Po_HostPID o; Po_HostIPC := Po_HostIPC o;
     Po_RestartPolicy := Po_RestartPolicy o; Po_Deadline := Po_Deadline o; Po_Security := security;
     Po_ServiceAccount := Po_ServiceAccount o; Po_Automount := Po_Automount o; Po_InitContainers := Po_InitContainers o;
     Po_EphemeralContainers := Po_EphemeralContainers o; Po_Containers := containers; Po_Volumes := volumes;
     Po_Phase := Po_Phase o; Po_Conditions := Po_Conditions o |}.
Definition with_ids (s : pod_security) (fs_group : option Z) (selinux : json) : pod_security :=
  {| Ps_RunAsUser := Ps_RunAsUser s; Ps_RunAsGroup := Ps_RunAsGroup s; Ps_RunAsNonRoot := Ps_RunAsNonRoot s;
     Ps_FSGroup := fs_group; Ps_SupplementalGroups := Ps_SupplementalGroups s; Ps_SELinux := selinux; Ps_Seccomp := Ps_Seccomp s |}.
Definition writable_mounts (c : container) : container :=
  {| Ct_Name := Ct_Name c; Ct_Image := Ct_Image c; Ct_Command := Ct_Command c; Ct_Args := Ct_Args c; Ct_Env := Ct_Env c;
     Ct_EnvFrom := Ct_EnvFrom c; Ct_Security := Ct_Security c;
     Ct_VolumeMounts := map (fun m => {| Vm_Name := Vm_Name m; Vm_Path := Vm_Path m; Vm_ReadOnly := false; Vm_RecursiveReadOnly := "" |})
                          (Ct_VolumeMounts c) |}.
Definition writable_claim (v : pod_volume) : pod_volume :=
  {| Pl_Name := Pl_Name v; Pl_PVC := match Pl_PVC v with Some (claim, _) => Some (claim, false) | None => None end |}.
Definition unsafe (kind : probe_kind) (o : podObject) : podObject :=
  match kind with
  | Writable => with_pod o (Po_Security o) (map writable_mounts (Po_Containers o)) (map writable_claim (Po_Volumes o))
  | FSGroup => with_pod o (with_ids (Po_Security o) (Some 10001) JNull) (Po_Containers o) (Po_Volumes o)
  | SELinux => with_pod o (with_ids (Po_Security o) None (JObj [("type", JStr "container_t")])) (Po_Containers o) (Po_Volumes o)
  end.
Lemma probe_decodes `{Sha256} image item kind : decode_pod (probe_pod image item kind) = Some (unsafe kind (safe_probe image item)).
Proof. destruct kind; reflexivity. Qed.

Definition source_helper `{Sha256} (image : string) (item : CopyItem) : Helper :=
  {| He_Namespace := It_SourceNamespace item; He_Name := SourceHelperName (source_ref item); He_UID := ""; He_Owner := "";
     He_PVC := source_ref item; He_ReadOnly := true; He_Image := image |}.

Section Probes.
Context `{Sha256}.
Variables (image : string) (item : CopyItem).
Definition probe_kubectl : Kubectl := {| Ku_RunnerImage := image; Ku_ServiceAccount := "default"; Ku_AllowRootHelpers := false |}.
Lemma safe_accepted : validateHelperPod probe_kubectl (safe_probe image item) (source_helper image item) = Ok tt.
Proof.
  unfold validateHelperPod. cbn -[str_ne str_eq bool_decide MaxCopyTimeout seconds SourceHelperName points_to].
  rewrite !(proj2 (str_ne_false _ _) eq_refl), !points_to_same by done. repeat (rewrite bool_decide_eq_true_2 by done).
  reflexivity.
Qed.
Lemma validate_error k o h e : validateHelperPod k o h = Err e -> e = ErrUnsafe.
Proof.
  unfold validateHelperPod. repeat (case_match; try done); naive_solver.
Qed.
Lemma unsafe_refused kind : validateHelperPod probe_kubectl (unsafe kind (safe_probe image item)) (source_helper image item) = Err ErrUnsafe.
Proof.
  destruct (validateHelperPod _ _ _) as [u|e] eqn:E; [|by apply validate_error in E as ->]. exfalso. revert E.
  unfold validateHelperPod. destruct kind;
    cbn -[str_ne str_eq bool_decide MaxCopyTimeout seconds SourceHelperName points_to]; rewrite !refuse_ok, !orb_false_iff; naive_solver.
Qed.
End Probes.

(** *** What a check calls *)

Section Calls.
Context `{Sha256} `{JsonMarshal} `{Quote} `{JsonText} `{CopyContracts}.
Definition fence_call (p : CopyPlan) (R : Type) (c : kube_call R) : Prop :=
  match c with
  | KRun args input => input = None /\ exists resource name, args = fence_args resource name /\ In resource [policies; bindings]
  | KProbe args pod =>
      exists item kind, In item (Cp_Items p) /\ args = probe_args (It_SourceNamespace item)
        /\ pod = probe_pod (Cp_Image p) item kind
  | _ => False
  end.
Variable p : CopyPlan.

Lemma read_only resource name : In resource [policies; bindings] -> only (fence_call p) (read_fence resource name).
Proof.
  intros Hr. apply only_bind; [|by intros [o|e]]. apply only_pbind; [|done]. apply only_pbind.
  - split; [|done]. split; [done|]. by exists resource, name.
  - intros b. by apply only_stop.
Qed.
Lemma probe_only name digest items : incl items (Cp_Items p) -> only (fence_call p) (probeAdmissionFence (Cp_Image p) name digest items).
Proof.
  induction items as [|item items IH]; intros Hi; cbn [probeAdmissionFence]; [done|]. apply only_pbind.
  - induction probe_kinds as [|kind kinds IHk]; cbn [probe_item]; [done|]. apply only_bind; [|intros r; by apply only_stop].
    split; [|done]. exists item, kind. split_and!; [apply Hi; by left|done|done].
  - intros _. apply IH. intros x Hx. apply Hi. by right.
Qed.
Lemma reviewed_only refs username items checked : only (fence_call p) (reviewed_items refs (Cp_Image p) username items checked).
Proof.
  revert checked. induction items as [|item items IH]; intros checked; cbn [reviewed_items]; [done|]. apply only_pbind; [|done].
  apply only_pbind; [done|]. intros r. apply only_stop. apply only_pbind; [apply read_only; cbn; auto|]. intros policy.
  apply only_pbind; [apply read_only; cbn; auto|]. intros binding. do 3 apply only_stop. cbv zeta. by do 2 apply only_stop.
Qed.
Lemma configured_only decode order raw k ns sa : only (fence_call p) (requireConfiguredPVCSourceFence decode order raw k p ns sa).
Proof.
  apply only_pbind; [done|]. intros [refs|].
  - unfold RequireReviewedAdmissionFence. destruct k; [|done]. destruct (plan_Validate p); [|done].
    destruct (fenceAuthority _ _ _); [|done]. apply only_pbind; [apply reviewed_only|]. intros checked.
    induction (order checked) as [|[name d] l IH]; cbn [probe_policies]; [done|]. apply only_pbind; [|done]. apply probe_only.
    intros item (item' & Hin & (r & -> & _)%in_map_iff)%in_flat_map. exact Hin.
  - unfold RequireAdmissionFence. destruct (plan_Validate p); [|done]. destruct (FenceManifests _ _ _) as [m|]; [|done].
    destruct k; [|done]. apply only_pbind; [apply read_only; cbn; auto|]. intros policy. do 4 apply only_stop.
    apply only_pbind; [apply read_only; cbn; auto|]. intros binding. do 2 apply only_stop. apply probe_only, incl_refl.
Qed.
End Calls.

(** *** A receipt of what is installed *)

Section Receipts.
Context `{Sha256} `{JsonMarshal} `{Quote}.
Definition receipt_for (ns : string) (policy binding : fenceObject) : ReviewedAdmissionFenceRef :=
  {| Rf_Namespace := ns; Rf_PolicyName := Fo_Name policy; Rf_PolicyUID := Fo_UID policy;
     Rf_PolicySpecSHA256 := spec_hash (Fo_Spec policy); Rf_BindingName := Fo_Name binding; Rf_BindingUID := Fo_UID binding;
     Rf_BindingSpecSHA256 := spec_hash (Fo_Spec binding) |}.
Definition installed (kind : string) (m : fence_manifests) (spec : json_fields) (o : fenceObject) : Prop :=
  same_identity kind m o = true /\ Fo_Spec o = Some (JObj spec).

Lemma identity_spec kind m o : same_identity kind m o = true ->
  Fo_Name o = Fm_Name m /\ Fo_UID o <> "" /\ 0 < Fo_Generation o /\ Fo_DeletionTimestamp o = None /\ digest_of o = Fm_Digest m.
Proof.
  unfold same_identity. rewrite !andb_true_iff, !str_eq_true, str_ne_true, Z.ltb_lt, negb_true_iff.
  intros [[[[[[[_ _] Hn] _] Hu] Hg] Hd] Ha]. split_and!; try done. by destruct (Fo_DeletionTimestamp o).
Qed.
Lemma manifests_ok p ns sa m : FenceManifests p ns sa = Ok m ->
  exists hash, Fm_Name m = "envplane-pvc-copy-fence-" +:+ String.substring 0 32 (sha256_hex hash)
    /\ Fm_Digest m = "sha256:" +:+ sha256_hex hash
    /\ (exists namespaces, Fm_Binding m = binding_spec (Fm_Name m) namespaces)
    /\ exists items, items ≡ₚ Cp_Items p
         /\ Fm_Policy m = policy_spec (validations_of (username_of ns sa) (Cp_Image p) (Fm_Digest m) items).
Proof.
  unfold FenceManifests. rewrite rbind_ok. intros (a & (_ & hash & ->)%fenceAuthority_ok & [= <-]). exists hash. cbn.
  split_and!; try done; [by eexists|]. eexists. split; [apply sort_slice_perm|done].
Qed.
Lemma read_fence_exec `{JsonText} resource name b o : answers decode_fence b o ->
  exec (read_fence resource name) [Event (KRun (fence_args resource name) None) (Ok b)] (Ok o).
Proof. intros Hb. apply exec_bind. eexists [_], [], (Ok o). split; [done|]. split; [apply kube_json_ok; by exists b|done]. Qed.
Lemma accepted_not_rejected o l : Forall (fun c => accepted_now o c = true) l -> forallb (not_rejected o) l = true.
Proof.
  intros Hl. apply forallb_forall. intros c Hc. rewrite Forall_forall in Hl. apply list_elem_of_In, Hl in Hc.
  unfold accepted_now, not_rejected in *. rewrite !andb_true_iff in Hc. destruct Hc as [[-> Hs%str_eq_true] ->]. by rewrite Hs.
Qed.
Lemma own_name kind m spec o : installed kind m spec o -> Fo_Name o = Fm_Name m.
Proof. by intros [(Hn & _)%identity_spec _]. Qed.

Section Own.
Hypothesis hash_hex : forall l, match_string (times 64 (RChr hex_lower)) (sha256_hex l) = true.
Variables (p : CopyPlan) (ns sa : string) (m : fence_manifests) (policy binding : fenceObject).
Hypothesis Hm : FenceManifests p ns sa = Ok m.
Hypothesis Hp : installed policy_kind m (Fm_Policy m) policy.
Hypothesis Hb : installed binding_kind m (Fm_Binding m) binding.

Lemma own_receipt n : complete_receipt (receipt_for n policy binding) = true.
Proof.
  destruct Hp as [(Np & Up & _)%identity_spec Sp], Hb as [(Nb & Ub & _)%identity_spec Sb].
  destruct (manifests_ok _ _ _ _ Hm) as (hash & Hn & _). unfold complete_receipt.
  cbn [receipt_for Rf_PolicyUID Rf_BindingUID Rf_PolicyName Rf_BindingName Rf_PolicySpecSHA256 Rf_BindingSpecSHA256].
  rewrite Sp, Sb, Np, Nb. cbn [spec_hash]. rewrite !hash_length by done. rewrite !andb_true_iff, !str_ne_true, str_eq_true.
  split_and!; try done. apply prefix_split. rewrite Hn. by eexists.
Qed.
Lemma own_identity n : reviewed_identity (receipt_for n policy binding) policy binding = true.
Proof.
  destruct Hp as [(Np & Up & _ & Dp & Ap)%identity_spec Sp], Hb as [(Nb & Ub & _ & Db & Ab)%identity_spec Sb].
  destruct (manifests_ok _ _ _ _ Hm) as (hash & Hn & Hd & _). unfold reviewed_identity.
  cbn [receipt_for Rf_PolicyUID Rf_BindingUID Rf_PolicyName Rf_BindingName Rf_PolicySpecSHA256 Rf_BindingSpecSHA256].
  rewrite Dp, Db, Ap, Ab, Np, Nb, Hd, digest_matches, trim_prefix_app, <- Hn by done.
  by rewrite !(proj2 (str_eq_true _ _) eq_refl).
Qed.
Lemma own_acceptance : type_checked policy = true -> reviewed_acceptance policy = true.
Proof.
  intros Ht. destruct Hp as [(_ & _ & Gp & _)%identity_spec _]. unfold reviewed_acceptance. rewrite Ht, andb_true_r.
  apply Z.leb_le. lia.
Qed.
Lemma own_enforcing n : reviewed_enforcing (receipt_for n policy binding) (as_object (Fo_Spec policy)) (as_object (Fo_Spec binding)) = true.
Proof.
  destruct Hp as [(Np & _)%identity_spec ->], Hb as [_ ->].
  destruct (manifests_ok _ _ _ _ Hm) as (hash & _ & _ & (namespaces & Hbind) & items & _ & Hpol). cbn [as_object].
  unfold reviewed_enforcing. cbn [receipt_for Rf_PolicyName]. rewrite Np, Hpol, Hbind. unfold policy_spec, binding_spec.
  change (json_get "policyName" (("policyName", ?v) :: ?l)) with (Some v). cbn [is_text].
  rewrite (proj2 (str_eq_true _ _) eq_refl). reflexivity.
Qed.
Lemma own_found item : In item (Cp_Items p) ->
  existsb (binds_source (Cp_Image p) (username_of ns sa) (Fm_Digest m) item)
    (as_array (json_get "validations" (as_object (Some (JObj (Fm_Policy m)))))) = true.
Proof.
  intros Hin. destruct (manifests_ok _ _ _ _ Hm) as (hash & _ & _ & _ & items & Hperm & Hpol). cbn [as_object]. rewrite Hpol.
  change (as_array (json_get "validations" (policy_spec ?l))) with l. apply existsb_exists.
  exists (validation (Fm_Digest m) (source_expression (username_of ns sa) (Cp_Image p) item)). split; [|apply source_bound].
  apply in_or_app. left. apply in_map_iff. exists item. split; [done|]. apply list_elem_of_In. rewrite Hperm. by apply list_elem_of_In.
Qed.
End Own.
End Receipts.

(** ** Properties *)

Section FenceProperties.
Context `{Sha256} `{JsonMarshal} `{Quote} `{JsonText} `{CopyContracts}.

(** A fence is the same for every plan of the same sources: the policy, the
    binding and their name depend on the tenant, the project, the image, the runner, and the set of the
    sources, and not on the order of the items, their targets, bounds
    and ids, or the environment. *)
Theorem fence_identity (p p' : CopyPlan) ns sa
    (Ht : Cp_TenantID p = Cp_TenantID p') (Hp : Cp_ProjectID p = Cp_ProjectID p') (Hi : Cp_Image p = Cp_Image p')
    (Hs : map source_part (Cp_Items p) ≡ₚ map source_part (Cp_Items p')) :
  FenceManifests p ns sa = FenceManifests p' ns sa.
Proof.
  unfold FenceManifests. pose proof (fence_authority_only p p' ns sa Ht Hp Hi Hs) as Ha.
  destruct (fenceAuthority p ns sa) as [a|] eqn:E; rewrite <- Ha; [|done]. cbn [rbind]. cbv zeta.
  assert (Hsort : sources_only (sort_slice (by_key item_key) (Cp_Items p)) = sources_only (sort_slice (by_key item_key) (Cp_Items p'))).
  { rewrite !sorted_only. apply sort_by_key_perm; [|by apply Permutation_map].
    apply fenceAuthority_ok in E as [Hn _]. unfold sources_only. rewrite !map_map. exact Hn. }
  pose proof (validations_only (username_of ns sa) (Cp_Image p) a.2 (sort_slice (by_key item_key) (Cp_Items p))) as [Hv Hn].
  pose proof (validations_only (username_of ns sa) (Cp_Image p) a.2 (sort_slice (by_key item_key) (Cp_Items p'))) as [Hv' Hn'].
  rewrite Hsort in Hv, Hn. by rewrite <- Hi, <- Hv, <- Hn, Hv', Hn'.
Qed.

(** C5: A successful check of the configured fence has seen it: with no
    profile, the policy and the binding of [FenceManifests], checked by the API server and
    denying every probe of every source; with one, for every source, the reviewed policy
    of its namespace, with a validation that names the source and the runner, denying every probe of it.
    A profile that does not decode is never a reason to check another fence. *)
Theorem fence_enforced decode order raw k p ns sa t (Hord : forall l, order l ≡ₚ l)
    (Hx : exec (requireConfiguredPVCSourceFence decode order raw k p ns sa) t (Ok tt)) :
  fence_seen decode raw p ns sa t.
Proof. by eapply configured_seen. Qed.

(** C6: The reviewed check accepts the fence that the code itself makes: where the
    objects are those of [FenceManifests], accepted by the API server, and the
    receipt holds their names, UIDs and hashes, the check of a source reads both and
    succeeds; and the name is within the length of a DNS label. *)
Theorem canonical_reviewed p ns sa m policy binding b1 b2 refs item
    (Hhash : forall l, match_string (times 64 (RChr hex_lower)) (sha256_hex l) = true)
    (Hm : FenceManifests p ns sa = Ok m)
    (Hp : installed policy_kind m (Fm_Policy m) policy) (Hb : installed binding_kind m (Fm_Binding m) binding)
    (Ht : type_checked policy = true) (Hc : Forall (fun c => accepted_now policy c = true) (Fo_Conditions policy))
    (H1' : answers decode_fence b1 policy) (H2' : answers decode_fence b2 binding) (Hin : In item (Cp_Items p))
    (Hr : receipt_of refs (It_SourceNamespace item) = Ok (receipt_for (It_SourceNamespace item) policy binding)) :
  exec (reviewed_item refs (Cp_Image p) (username_of ns sa) item)
    [Event (KRun (fence_args policies (Fm_Name m)) None) (Ok b1);
     Event (KRun (fence_args bindings (Fm_Name m)) None) (Ok b2)] (Ok (Fm_Name m, Fm_Digest m))
  /\ str_len (Fm_Name m) <= 63.
Proof.
  pose proof (manifests_ok _ _ _ _ Hm) as (hash & Hn & _). split; [|rewrite Hn, fence_name_length by done; lia].
  pose proof (own_name _ _ _ _ Hp) as Np. pose proof (own_name _ _ _ _ Hb) as Nb. unfold reviewed_item.
  apply exec_pret. exists (receipt_for (It_SourceNamespace item) policy binding). split; [done|].
  apply exec_stop_ok. split; [by erewrite own_receipt|]. cbn [receipt_for Rf_PolicyName Rf_BindingName]. rewrite Np, Nb.
  apply exec_pbind_ok. eexists [_], [_], policy. split; [done|]. split; [by apply read_fence_exec|].
  apply exec_pbind_ok. eexists [_], [], binding. split; [done|]. split; [by apply read_fence_exec|].
  apply exec_stop_ok. split; [by erewrite own_identity|].
  apply exec_stop_ok. split; [by erewrite own_acceptance|].
  apply exec_stop_ok. split; [by rewrite accepted_not_rejected|]. cbv zeta.
  apply exec_stop_ok. split; [by erewrite own_enforcing|].
  destruct Hp as [Hp Hps]. apply identity_spec in Hp as (_ & _ & _ & _ & Ap). rewrite Ap.
  apply exec_stop_ok. split; [by erewrite Hps, own_found|done].
Qed.

(** The check changes nothing: its calls read policies and bindings, and submit as
    dry runs the probes of the sources of the plan. *)
Theorem fence_reads decode order raw k p ns sa t r R (c : kube_call R) x
    (Hx : exec (requireConfiguredPVCSourceFence decode order raw k p ns sa) t r) (Hin : In (Event c x) t) :
  fence_call p R c.
Proof.
  pose proof (exec_only _ _ _ _ (configured_only p decode order raw k ns sa) Hx) as Hf. rewrite Forall_forall in Hf.
  exact (Hf _ (proj2 (list_elem_of_In _ _) Hin)).
Qed.

(** Each probe is the pod that the executor itself accepts as the helper of the source,
    with one unsafe field, and with it the executor refuses the pod: the
    fence is asked for what the helper's own validation refuses. *)
Theorem probes_unsafe image item kind :
  let k := {| Ku_RunnerImage := image; Ku_ServiceAccount := "default"; Ku_AllowRootHelpers := false |} in
  let h := source_helper image item in
  decode_pod (probe_pod image item kind) = Some (unsafe kind (safe_probe image item))
  /\ validateHelperPod k (safe_probe image item) h = Ok tt
  /\ validateHelperPod k (unsafe kind (safe_probe image item)) h = Err ErrUnsafe.
Proof. cbv zeta. split; [apply probe_decodes|]. split; [apply safe_accepted|apply unsafe_refused]. Qed.

End FenceProperties.

(** ** Witnesses *)

(** The sample plan for another environment, with another item. *)
Definition other_item : CopyItem :=
  {| It_ID := "other"; It_SourceTenantID := "t"; It_SourceNamespace := "prod"; It_SourceName := "uploads"; It_SourceUID := "u2";
     It_SourceIdentity := "sha256:" +:+ zeros64; It_TargetName := "files"; It_StorageClass := "slow";
     It_AccessModes := ["ReadWriteOnce"]; It_RequestedBytes := 5; It_MaxBytes := 5; It_TimeoutSeconds := 60; It_rest := JNull |}.
Definition fenced_plan (environment : string) (items : list CopyItem) : CopyPlan :=
  {| Cp_PlanID := "plan"; Cp_Digest := "digest"; Cp_TenantID := "t"; Cp_ProjectID := "p"; Cp_EnvironmentID := environment;
     Cp_TargetNamespace := environment; Cp_AllowedSourceNamespaces := ["prod"]; Cp_Image := Image sample_plan;
     Cp_MaxBytes := 1000; Cp_TimeoutSeconds := 60; Cp_StorageQuotaBytes := 1000; Cp_Items := items; Cp_rest := JNull |}.
Definition in_quotes : Quote := fun s => text [byte_of 34] +:+ s +:+ text [byte_of 34].
Definition no_text : JsonMarshal := fun _ => [].
#[local] Existing Instances zero_hash lenient_contracts in_quotes no_text.

Definition sample_fence : fence_manifests :=
  match FenceManifests (fenced_plan "e" [sample_item]) "runner" "envplane" with
  | Ok m => m
  | Err _ => {| Fm_Name := ""; Fm_Digest := ""; Fm_Policy := []; Fm_Binding := [] |}
  end.
(** The objects as the API server has them. *)
Definition in_cluster (kind uid : string) (spec : json_fields) : json :=
  JObj [("apiVersion", JStr fenceAPIVersion); ("kind", JStr kind);
        ("metadata",
          JObj [("name", JStr (Fm_Name sample_fence)); ("uid", JStr uid); ("generation", JNum 1);
                ("annotations", JObj [(fenceDigestAnnotation, JStr (Fm_Digest sample_fence))])]);
        ("spec", JObj spec);
        ("status", JObj [("observedGeneration", JNum 1); ("typeChecking", JObj [])])].
Definition fence_texts : JsonText := fun b =>
  json_get (text b) [("policy", in_cluster policy_kind "u1" (Fm_Policy sample_fence));
                     ("binding", in_cluster binding_kind "u2" (Fm_Binding sample_fence))].
#[local] Existing Instance fence_texts.
Definition sample_object (name : string) : fenceObject :=
  match parse_json (chars name) with
  | Some v => match decode_fence v with Some o => o | None => Build_fenceObject "" "" "" "" "" 0 None [] None 0 None [] end
  | None => Build_fenceObject "" "" "" "" "" 0 None [] None 0 None []
  end.
Definition fence_cluster (R : Type) (h : list (event kube_call)) (c : kube_call R) : R :=
  match c in kube_call R return R with
  | KRun args input => Ok (chars (if existsb (str_eq policies) args then "policy" else "binding"))
  | KStreams _ _ => {| tf_stream := no_stream; tf_source := None; tf_write := None; tf_response := []; tf_target := None |}
  | KStream _ => {| rx_stream := no_stream; rx_source := None |}
  | KTimer => None
  | KCtxErr => Ok tt
  | KRand => Ok []
  | KAuthorize _ _ => Ok tt
  | KProbe _ _ => {| Pr_Failed := true; Pr_Canceled := false;
                     Pr_Errors := chars ("Error from server: " +:+ denial (Fm_Name sample_fence) (Fm_Digest sample_fence)) ++ [byte_of 10] |}
  end.
Definition no_profile : string -> option (list ReviewedAdmissionFenceRef) * bool := fun _ => (None, true).
Definition sample_check : prog kube_call (result pvc_error unit) :=
  requireConfiguredPVCSourceFence no_profile (fun l => l) "" (Some sample_kubectl) (fenced_plan "e" [sample_item]) "runner" "envplane".
Lemma sample_check_exec : exec sample_check (run fence_cluster [] sample_check).1 (Ok tt).
Proof.
  assert (E : (run fence_cluster [] sample_check).2 = Ok tt) by (vm_compute; reflexivity).
  rewrite <- E. apply run_exec.
Qed.

Lemma fence_identity_witness :
  FenceManifests (fenced_plan "e" [sample_item; other_item]) "runner" "envplane"
  = FenceManifests (fenced_plan "e2" [other_item; sample_item]) "runner" "envplane".
Proof. apply fence_identity; [done|done|done|]. apply perm_swap. Defined.
Lemma fence_enforced_witness : canonical_fence (fenced_plan "e" [sample_item]) "runner" "envplane" (run fence_cluster [] sample_check).1.
Proof.
  destruct (fence_enforced no_profile (fun l => l) "" (Some sample_kubectl) (fenced_plan "e" [sample_item]) "runner" "envplane" _
              (fun l => reflexivity l) sample_check_exec) as [[_ Hc]|(refs & [=] & _)].
  exact Hc.
Defined.
Lemma fence_reads_witness : fence_call (fenced_plan "e" [sample_item]) _ (KRun (fence_args policies (Fm_Name sample_fence)) None).
Proof.
  eapply fence_reads; [exact sample_check_exec|].
  assert (E : nth_error (run fence_cluster [] sample_check).1 0
              = Some (Event (KRun (fence_args policies (Fm_Name sample_fence)) None) (Ok (chars "policy")))) by (vm_compute; reflexivity).
  exact (nth_error_In _ _ E).
Defined.
Lemma canonical_reviewed_witness :
  exec (reviewed_item [receipt_for "prod" (sample_object "policy") (sample_object "binding")] (Image sample_plan)
          (username_of "runner" "envplane") sample_item)
    [Event (KRun (fence_args policies (Fm_Name sample_fence)) None) (Ok (chars "policy"));
     Event (KRun (fence_args bindings (Fm_Name sample_fence)) None) (Ok (chars "binding"))]
    (Ok (Fm_Name sample_fence, Fm_Digest sample_fence)).
Proof.
  refine (proj1 (canonical_reviewed (fenced_plan "e" [sample_item]) "runner" "envplane" sample_fence
            (sample_object "policy") (sample_object "binding") (chars "policy") (chars "binding") _ sample_item _ _ _ _ _ _ _ _ _ _)).
  - intros l. vm_compute. reflexivity.
  - vm_compute. reflexivity.
  - split; vm_compute; reflexivity.
  - split; vm_compute; reflexivity.
  - vm_compute. reflexivity.
  - by vm_compute.
  - split; [by vm_compute|]. exists (in_cluster policy_kind "u1" (Fm_Policy sample_fence)). split; [reflexivity|].
    vm_compute. reflexivity.
  - split; [by vm_compute|]. exists (in_cluster binding_kind "u2" (Fm_Binding sample_fence)). split; [reflexivity|].
    vm_compute. reflexivity.
  - by left.
  - vm_compute. reflexivity.
Defined.
