(* ===== verification/PvcRunner.v ===== *)
(** * The command that copies the volumes

    [internal/runner/pvc_copy.go]: what the runner checks of a command before
    it copies the volumes of a plan, the authority it passes to
    [PvcDomain.ExecuteDomain], which reads the target namespace and the source
    fence, and the version of the contract that it offers. *)

From stdpp Require Import base list gmap strings pretty.
From Stdlib Require Import ZArith Lia Ascii String.
From S2P Require Import Prelude GoStrings Regex GoPath EnvStore OrchTypes RunnerConfig RunnerCommand Json.
From S2P Require Import PvcPlan PvcArchive PvcLocal PvcExecutor PvcHelper PvcKube PvcDomain PvcFence.

Local Open Scope string_scope.
Local Open Scope Z_scope.
Local Open Scope list_scope.

(** What the contracts give: the version, the name of a backend, the tenant's
    canonical id, the backend of an environment, and the decoding of the
    sources of a session, which refuses unknown fields. *)
Class CopyCommands (Y : Type) := {
  PVCCopyContractVersion : string;
  DeploymentBackendFluxCD : string;
  NormalizeTenantID : string -> string;
  DeploymentBackend : Env Y -> string;
  compiled_sources : option any -> option (list CopySource) }.

(** ** The version that the runner offers *)

(** [hex.DecodeString] *)
Definition is_hex (c : ascii) : bool := hex_lower c || between 65 70 c.
(** [pvcCopyRunnerContractVersion] *)
Definition helper_digest (image : string) : option string :=
  match split2 "@sha256:" image with
  | Some (name, digest) =>
      if negb (contains digest "@sha256:") && str_eq name "ghcr.io/envplane/runner" && (str_len digest =? 64)
         && forallb is_hex (chars digest)
      then Some digest else None
  | None => None
  end.

(** ** The namespace of an environment *)

Record namespaceObject := {
  Ns_Name : string; Ns_DeletionTimestamp : option string; Ns_Labels : list (string * string) }.
Definition decode_namespace (v : json) : option namespaceObject :=
  let* l := fields_of v in
  let* meta := struct_field l "metadata" in let* name := text_field meta "name" in
  let* deleted := pointer_field meta (text_field meta) "deletionTimestamp" in let* labels := map_field meta "labels" in
  Some {| Ns_Name := name; Ns_DeletionTimestamp := deleted; Ns_Labels := labels |}.
Definition namespace_args (ns : string) : list string :=
  ["get"; "namespace"; ns; "-o"; "json"; "--request-timeout=30s"].
Definition managed (labels : list (string * string)) : bool :=
  str_eq (text_of "envplane.io/managed-by" labels) "same-cluster-project-reconciler"
  || str_eq (text_of "envplane.io/managed-by" labels) "remote-project-reconciler"
  || str_eq (text_of "envplane.io/managed" labels) "true".
Definition exclusively_owned {Y} (e : Env Y) (o : namespaceObject) : bool :=
  str_eq (Ns_Name o) (M_Namespace (E_rest e)) && negb (is_some (Ns_DeletionTimestamp o))
  && str_eq (text_of "envplane.io/project-id" (Ns_Labels o)) (E_Project e)
  && str_eq (text_of "envplane.io/environment-id" (Ns_Labels o)) (E_ID e) && managed (Ns_Labels o).

(** A refusal of the runner's own, or the errors of the copy. *)
Inductive copy_failure : Type := Refused (message : string) | Failed (errors : list pvc_error).

Section Runner.
Context {Y X I M C : Type} `{Contracts Y X I M CopyPlan C} `{CopyCommands Y}.
Context `{Sha256} `{JsonMarshal} `{Quote} `{JsonText} `{PvcPlanJson} `{AnswerJson} `{CopyContracts}.
Implicit Types (cfg : runnerConfig json) (command : RunnerCommand Y X I M CopyPlan C).

Definition pvcCopyRunnerContractVersion cfg : string :=
  match helper_digest (PVCCopyHelperImage cfg) with
  | Some _ =>
      if str_ne (PVCCopyRunnerServiceAccount cfg) "" && existsb (fun ns => str_ne (trim_space ns) "") (PVCCopySourceNamespaces cfg)
      then PVCCopyContractVersion else ""
  | None => ""
  end.

(** [checkPVCCopyNamespaceOwner] *)
Definition checkPVCCopyNamespaceOwner (e : Env Y) : prog kube_call (result pvc_error unit) :=
  raw <-! run_bounded (namespace_args (M_Namespace (E_rest e))) None (Z.shiftl 1 20);;
  match parse_json raw with
  | None => Ret (Err ErrOther)
  | Some v =>
      match decode_namespace v with
      | None => Ret (Err ErrOther)
      | Some o => stop negb (exclusively_owned e o) with ErrOther;; Ret (Ok tt)
      end
  end.

(** What is refused before anything is read: the plan. *)
Definition runtime_identity cfg command (plan : CopyPlan) : bool :=
  let e := Rc_Environment command in
  let tenant := NormalizeTenantID (E_TenantID e) in
  str_eq tenant DefaultTenantID && str_eq (Cp_TenantID plan) tenant
  && str_eq (NormalizeTenantID (Pc_TenantID (Rc_ProjectConfig command))) tenant
  && str_eq (Rc_ProjectID command) (ProjectID cfg) && str_eq (E_Project e) (ProjectID cfg)
  && str_eq (Cp_ProjectID plan) (ProjectID cfg) && str_eq (Cp_EnvironmentID plan) (E_ID e)
  && str_eq (Cp_TargetNamespace plan) (M_Namespace (E_rest e)) && str_eq (DeploymentBackend e) DeploymentBackendFluxCD.
Definition granted cfg (ns : string) : bool := existsb (fun grant => str_eq (trim_space grant) ns) (PVCCopySourceNamespaces cfg).
Definition session_sources command : option (option any) :=
  match map_get "bootstrapSessionData" (Pc_Config (Rc_ProjectConfig command)) with
  | Some (VMap session) => Some (map_get "pvcCopySources" session)
  | _ => None
  end.
Definition copy_permission cfg command (plan : CopyPlan) : CopyPermission :=
  let e := Rc_Environment command in
  {| Pm_PlanID := Cp_PlanID plan; Pm_TenantID := NormalizeTenantID (E_TenantID e); Pm_ProjectID := ProjectID cfg;
     Pm_EnvironmentID := E_ID e; Pm_TemplateRevisionID := Pc_TemplateRevisionID (Rc_ProjectConfig command);
     Pm_TemplateDigest := Pc_TemplateDigest (Rc_ProjectConfig command); Pm_TargetNamespace := M_Namespace (E_rest e);
     Pm_AllowedSourceNamespaces := Cp_AllowedSourceNamespaces plan; Pm_AllowedImages := [PVCCopyHelperImage cfg];
     Pm_MaxBytes := Z.shiftl 1 40; Pm_StorageQuotaBytes := Z.shiftl 1 40; Pm_TimeoutSeconds := 300;
     Pm_ApprovedProductionSources := PVCCopyApprovedProductionSources cfg |}.
Definition copy_request cfg command (namespaceAllowed : option (string -> bool)) : result copy_failure (CopyPlan * list CopySource) :=
  match Rc_PVCCopyPlan command with
  | None => Err (Refused "PVC copy contract/configuration unavailable")
  | Some plan =>
      refuse negb (is_ok (plan_Validate plan)) || str_ne (pvcCopyRunnerContractVersion cfg) PVCCopyContractVersion
        with Refused "PVC copy contract/configuration unavailable";;
      refuse negb (runtime_identity cfg command plan) with Refused "PVC copy runtime identity mismatch";;
      refuse match namespaceAllowed with Some allowed => negb (allowed (Cp_TargetNamespace plan)) | None => true end
        with Refused "PVC copy target namespace denied";;
      refuse negb (forallb (granted cfg) (Cp_AllowedSourceNamespaces plan)) with Refused "PVC copy source namespace denied";;
      refuse str_ne (Cp_Image plan) (PVCCopyHelperImage cfg) || (Z.shiftl 1 40 <? Cp_MaxBytes plan)
        || (300 <? Cp_TimeoutSeconds plan) || (Z.shiftl 1 40 <? Cp_StorageQuotaBytes plan)
        with Refused "PVC copy image/bounds denied";;
      match session_sources command with
      | None => Err (Refused "PVC copy compiled sources unavailable")
      | Some v =>
          match compiled_sources v with
          | None => Err (Failed [ErrOther])
          | Some sources =>
              match ValidatePVCCopyPlan plan sources (copy_permission cfg command plan) with
              | Err e => Err (Failed [e])
              | Ok _ => Ok (plan, sources)
              end
          end
      end
  end.

(** The executor, and what carries out its calls: the authority reads the
    namespace and the fence that the deployment configures. *)
Definition copy_transport cfg : Kubectl :=
  {| Ku_RunnerImage := PVCCopyHelperImage cfg; Ku_ServiceAccount := "default";
     Ku_AllowRootHelpers := PVCCopyAllowRootHelpers cfg |}.
Definition copy_executor cfg command (plan : CopyPlan) (sources : list CopySource) : DomainExecutor :=
  {| De_Kubectl := copy_transport cfg; De_Permission := copy_permission cfg command plan; De_Sources := sources |}.
Section Authority.
Variable decode : string -> option (list ReviewedAdmissionFenceRef) * bool.
Variable order : list (string * string) -> list (string * string).
Variable fences : string.
Definition authorize cfg command (plan : CopyPlan) : prog kube_call (result pvc_error unit) :=
  _ <-! checkPVCCopyNamespaceOwner (Rc_Environment command);;
  requireConfiguredPVCSourceFence decode order fences (Some (copy_transport cfg)) plan (RunnerNamespace cfg)
    (PVCCopyRunnerServiceAccount cfg).
Definition authorized cfg command R (c : kube_call R) : prog kube_call R :=
  match c in kube_call R return prog kube_call R with
  | KAuthorize plan _ => authorize cfg command plan
  | KRun args input => call (KRun args input)
  | KStreams source target => call (KStreams source target)
  | KStream source => call (KStream source)
  | KTimer => call KTimer
  | KCtxErr => call KCtxErr
  | KRand => call KRand
  | KProbe args pod => call (KProbe args pod)
  end.
(** [executeRunnerPVCCopy] *)
Definition executeRunnerPVCCopy cfg command (namespaceAllowed : option (string -> bool)) : prog kube_call (result copy_failure unit) :=
  request <-! Ret (copy_request cfg command namespaceAllowed);;
  let '(plan, sources) := request in
  outcome <-- handle (authorized cfg command)
                (ExecuteDomain (copy_executor cfg command plan sources) true plan (Cp_AllowedSourceNamespaces plan) (PVCCopyHelperImage cfg));;
  match outcome with
  | (_, Some errors) => Ret (Err (Failed errors))
  | (markers, None) =>
      stop negb (length markers =? length (Cp_Items plan))%nat with Refused "PVC copy incomplete";;
      Ret (Ok tt)
  end.
End Authority.
End Runner.

(** ** Lemmas *)

Section RunnerLemmas.
Context {Y X I M C : Type} `{Contracts Y X I M CopyPlan C} `{CopyCommands Y}.
Context `{Sha256} `{JsonMarshal} `{Quote} `{JsonText} `{PvcPlanJson} `{AnswerJson} `{CopyContracts}.
Variables (decode : string -> option (list ReviewedAdmissionFenceRef) * bool) (fences : string).
Variable order : list (string * string) -> list (string * string).
Variables (cfg : runnerConfig json) (command : RunnerCommand Y X I M CopyPlan C).

(** What an authority that agreed has seen. *)
Definition namespace_owned (e : Env Y) (t : list (event kube_call)) : Prop :=
  exists raw v o, In (Event (KRun (namespace_args (M_Namespace (E_rest e))) None) (Ok raw)) t
    /\ parse_json raw = Some v /\ decode_namespace v = Some o /\ exclusively_owned e o = true.
Definition authority_seen (plan : CopyPlan) (t : list (event kube_call)) : Prop :=
  namespace_owned (Rc_Environment command) t /\ fence_seen decode fences plan (RunnerNamespace cfg) (PVCCopyRunnerServiceAccount cfg) t.

Lemma authority_more plan t t' : authority_seen plan t -> incl t t' -> authority_seen plan t'.
Proof.
  intros [(raw & v & o & Hr & Hx) Hf] Hi. split; [exists raw, v, o; split; [by apply Hi|done]|by eapply seen_more].
Qed.
Lemma owner_ok e t u : exec (checkPVCCopyNamespaceOwner e) t (Ok u) -> namespace_owned e t.
Proof.
  unfold checkPVCCopyNamespaceOwner, run_bounded.
  intros (t3 & t4 & raw & -> & (t5 & t6 & b & -> & ->%exec_call & [_ [-> <-]%exec_ret_ok]%exec_stop_ok)%exec_pbind_ok & Hn)%exec_pbind_ok.
  destruct (parse_json b) as [v|] eqn:Ev; [|by apply exec_ret_err in Hn].
  destruct (decode_namespace v) as [o|] eqn:Eo; [|by apply exec_ret_err in Hn].
  apply exec_stop_ok in Hn as [Ho%negb_false_iff _]. exists b, v, o. split; [by left|done].
Qed.
Lemma authorize_ok plan t u : (forall l, order l ≡ₚ l) -> exec (authorize decode order fences cfg command plan) t (Ok u) ->
  authority_seen plan t.
Proof.
  intros Hord (t1 & t2 & [] & -> & (raw & v & o & Hr & Hx)%owner_ok & Hf)%exec_pbind_ok. split.
  - exists raw, v, o. split; [|done]. apply in_or_app. by left.
  - eapply seen_more; [by eapply configured_seen|apply incl_appr, incl_refl].
Qed.
Lemma authorize_reads plan : only (fun R c => ~ writes R c) (authorize decode order fences cfg command plan).
Proof.
  apply only_pbind.
  - apply only_pbind; [apply only_pbind; [split; [|done]; intros [Hg _]; by apply Hg|intros b; by apply only_stop]|].
    intros raw. destruct (parse_json raw) as [v|]; [|done]. destruct (decode_namespace v); [|done]. by apply only_stop.
  - intros _. eapply (only_impl (fence_call plan)); [|apply configured_only].
    intros R c Hc. destruct c; try (by destruct Hc); [|by intros Hw; exact Hw]. destruct Hc as [_ (resource & name & -> & _)]. intros [Hg _]. by apply Hg.
Qed.

(** A call that changes something is a call of the executor. *)
Lemma write_carried t0 t t1 R (c : kube_call R) x t2 :
  carried (authorized decode order fences cfg command) t0 t -> t = t1 ++ Event c x :: t2 -> writes R c ->
  exists ta R' (e : kube_call R') r tb t1', t0 = ta ++ Event e r :: tb
    /\ carried (authorized decode order fences cfg command) ta t1' /\ incl t1' t1 /\ writes R' e.
Proof.
  intros Hc Ht Hw. destruct (carried_before _ _ _ Hc _ _ _ Ht) as (ta & R' & e & r & tb & t1' & t1'' & t2' & -> & Hca & -> & Hx).
  exists ta, R', e, r, tb, t1'. split; [done|]. split; [done|]. split; [apply incl_appl, incl_refl|].
  assert (Hcall : exec (call e) (t1'' ++ Event c x :: t2') r -> writes R' e).
  { intros Hx'%exec_call. destruct t1'' as [|ev l]; [|by destruct l]. cbn [app] in Hx'.
    apply (f_equal (fun l => match l with @Event _ R e _ :: _ => writes R e | [] => False end)) in Hx'.
    cbv beta iota in Hx'. by rewrite <- Hx'. }
  destruct e; try (by apply Hcall). exfalso. pose proof (exec_only _ _ _ _ (authorize_reads _) Hx) as Hf.
  rewrite Forall_forall in Hf. apply (Hf (Event c x)); [|done]. apply elem_of_app. right. by left.
Qed.

(** What is accepted before anything is read. *)
Definition accepted_request (allowed : option (string -> bool)) (plan : CopyPlan) (sources : list CopySource) : Prop :=
  Rc_PVCCopyPlan command = Some plan /\ plan_Validate plan = Ok tt /\ runtime_identity cfg command plan = true
  /\ (exists f, allowed = Some f /\ f (Cp_TargetNamespace plan) = true)
  /\ (forall ns, In ns (Cp_AllowedSourceNamespaces plan) -> granted cfg ns = true)
  /\ Cp_Image plan = PVCCopyHelperImage cfg /\ (PVCCopyContractVersion <> "" -> exists d, helper_digest (Cp_Image plan) = Some d)
  /\ Cp_MaxBytes plan <= 2 ^ 40 /\ Cp_TimeoutSeconds plan <= 300
  /\ ValidatePVCCopyPlan plan sources (copy_permission cfg command plan) = Ok tt.
Lemma request_ok allowed plan sources : copy_request cfg command allowed = Ok (plan, sources) -> accepted_request allowed plan sources.
Proof.
  unfold copy_request. destruct (Rc_PVCCopyPlan command) as [p|] eqn:Ep; [|done]. rewrite !refuse_ok.
  intros ([Hv Hver%str_ne_false]%orb_false_iff & Hi%negb_false_iff & Ha & Hg%negb_false_iff & Hb & Hs).
  destruct (session_sources command) as [v|]; [|done]. destruct (compiled_sources v) as [l|]; [|done].
  destruct (ValidatePVCCopyPlan _ _ _) as [[]|] eqn:Ev; [|done]. injection Hs as -> ->.
  rewrite !orb_false_iff, str_ne_false, !Z.ltb_ge in Hb. destruct Hb as [[[Hb1 Hb2] Hb3] _].
  unfold accepted_request. split_and!; try done.
  - by destruct (plan_Validate plan) as [[]|].
  - destruct allowed as [f|]; [|done]. exists f. by apply negb_false_iff in Ha.
  - by apply forallb_forall.
  - rewrite Hb1. unfold pvcCopyRunnerContractVersion in Hver. intros Hne. destruct (helper_digest _) as [d|]; [by exists d|].
    by destruct Hne.
Qed.
Lemma authorized_before allowed t r R (c : kube_call R) x t1 t2 :
  (forall l, order l ≡ₚ l) -> exec (executeRunnerPVCCopy decode order fences cfg command allowed) t r ->
  t = t1 ++ Event c x :: t2 -> writes R c ->
  exists plan sources, accepted_request allowed plan sources /\ authority_seen plan t1
    /\ forall item is_source, In item (Cp_Items plan) -> dry_ran (copy_executor cfg command plan sources) plan t1 item is_source.
Proof.
  intros Hord Hx Ht Hw.
  unfold executeRunnerPVCCopy in Hx. destruct (copy_request cfg command allowed) as [[plan sources]|e] eqn:Er;
    [|destruct Hx as [-> _]; by destruct t1].
  exists plan, sources. split; [by apply request_ok|]. unfold pbind in Hx. cbn [bind] in Hx.
  apply exec_bind in Hx as (u1 & u2 & out & -> & Hh & Hx). assert (u2 = []) as ->.
  { destruct out as [markers [errors|]]; [by destruct Hx|]. destruct (negb _) in Hx; by destruct Hx. }
  rewrite app_nil_r in Ht. apply exec_handle in Hh as (t0 & He & Hc).
  destruct (write_carried _ _ _ _ _ _ _ Hc Ht Hw) as (ta & R' & e & r' & tb & t1' & -> & Hca & Hi & Hw').
  pose proof (guarded_exec _ [] _ _ _ ta _ e r' tb (domain_guarded _ _ _ _ _) He eq_refl) as [_ Hp].
  destruct (Hp Hw') as [[fresh Hf] Hd]. split.
  - destruct (carried_in _ _ _ _ _ _ Hca Hf) as (t' & Hi' & Ha). eapply authority_more; [by eapply authorize_ok|].
    by eapply incl_tran.
  - intros item is_source Hin. destruct (Hd item is_source Hin) as [b Hb]. exists b.
    destruct (carried_in _ _ _ _ _ _ Hca Hb) as (t' & Hi' & ->%exec_call). apply Hi, Hi'. by left.
Qed.
(** The calls [u] of the command are its checks, before anything is written: the
    authority agreed, and the API server admitted a dry run of both helpers of every item. *)
Definition checked_here (plan : CopyPlan) (sources : list CopySource) (u : list (event kube_call)) : Prop :=
  authority_seen plan u /\ nothing_written u
  /\ forall item is_source, In item (Cp_Items plan) -> dry_ran (copy_executor cfg command plan sources) plan u item is_source.
(** The calls [u] of the command are one item's copy, with the marker [m]: kubectl
    carried out the calls of a whole copy of that item, and the authority saw in them that
    the namespace is owned and the fence installed. *)
Definition copied_here (plan : CopyPlan) (sources : list CopySource) (item : CopyItem) (u : list (event kube_call)) (m : Marker) : Prop :=
  exists h, copied_item (copy_executor cfg command plan sources) plan (Cp_AllowedSourceNamespaces plan) (PVCCopyHelperImage cfg) item h m
    /\ carried (authorized decode order fences cfg command) h u /\ authority_seen plan u.
Lemma authority_carried plan fresh h u : (forall l, order l ≡ₚ l) -> carried (authorized decode order fences cfg command) h u ->
  In (Event (KAuthorize plan fresh) (Ok tt)) h -> authority_seen plan u.
Proof.
  intros Hord Hc Hf. destruct (carried_in _ _ _ _ _ _ Hc Hf) as (t' & Hi & Ha). eapply authority_more; [by eapply authorize_ok|done].
Qed.
Lemma checks_carried plan sources h u : (forall l, order l ≡ₚ l) -> carried (authorized decode order fences cfg command) h u ->
  prepared (copy_executor cfg command plan sources) plan h -> nothing_written h -> checked_here plan sources u.
Proof.
  intros Hord Hc [[fresh Hf] Hd] Hn. split; [by eapply authority_carried|]. split.
  - unfold nothing_written. rewrite Forall_forall. intros [R c x] Hin Hw.
    apply list_elem_of_split in Hin as (u1 & u2 & Hu).
    destruct (write_carried _ _ _ _ _ _ _ Hc Hu Hw) as (ta & R' & e & r & tb & t1' & -> & _ & _ & Hw').
    unfold nothing_written in Hn. rewrite Forall_forall in Hn. apply (Hn (Event e r)); [|done]. apply elem_of_app. right. by left.
  - intros item is_source Hin. destruct (Hd item is_source Hin) as [b Hb]. exists b.
    destruct (carried_in _ _ _ _ _ _ Hc Hb) as (t' & Hi & ->%exec_call). apply Hi. by left.
Qed.
Lemma copies_carried plan sources items copies ts : (forall l, order l ≡ₚ l) ->
  copied (copy_executor cfg command plan sources) plan (Cp_AllowedSourceNamespaces plan) (PVCCopyHelperImage cfg) items copies ->
  Forall2 (carried (authorized decode order fences cfg command)) (map fst copies) ts ->
  Forall2 (fun item c => copied_here plan sources item c.1 c.2) items (zip ts (map snd copies)).
Proof.
  intros Hord Hf. revert ts. induction Hf as [|item [h m] items copies Hc Hf IH]; intros ts Ht; inversion Ht as [|? u ? ts' Hu Hts]; subst;
    [constructor|].
  cbn [map fst snd zip zip_with]. constructor; [|by apply IH]. exists h. split; [done|]. split; [done|]. cbn [fst snd] in *.
  destruct Hc as (uid & h1 & h2 & h3 & -> & (fresh & Hi) & _). eapply authority_carried; [done|exact Hu|]. apply in_or_app. by left.
Qed.
Lemma copy_completed allowed t :
  (forall l, order l ≡ₚ l) -> exec (executeRunnerPVCCopy decode order fences cfg command allowed) t (Ok tt) ->
  exists plan sources before copies, accepted_request allowed plan sources /\ t = before ++ concat (map fst copies)
    /\ checked_here plan sources before /\ Forall2 (fun item c => copied_here plan sources item c.1 c.2) (Cp_Items plan) copies.
Proof.
  intros Hord Hx.
  apply exec_pret in Hx as ([plan sources] & Hr%request_ok & Hx).
  apply exec_bind in Hx as (u1 & u2 & [markers [errors|]] & -> & Hh & Hx); [by apply exec_ret_err in Hx|].
  apply exec_stop_ok in Hx as [_ [-> _]]. rewrite app_nil_r.
  apply exec_handle in Hh as (t0 & He & Hc). apply markers_ok in He as (before & copies & rest & -> & _ & Hf & Hn & He).
  destruct (He eq_refl) as (-> & Hl & _ & Ha). rewrite Hl, firstn_all in Hf. rewrite app_nil_r in Hc.
  apply carried_app in Hc as (v1 & v2 & -> & Hb & (ts & -> & Hts)%carried_concat).
  exists plan, sources, v1, (zip ts (map snd copies)). split; [done|]. split; [|split].
  - f_equal. f_equal. symmetry. apply fst_zip. apply Forall2_length in Hts. rewrite !length_map in *. lia.
  - by eapply checks_carried.
  - by apply copies_carried.
Qed.
End RunnerLemmas.

(** ** Properties *)

Section RunnerProperties.
Context {Y X I M C : Type} `{Contracts Y X I M CopyPlan C} `{CopyCommands Y}.
Context `{Sha256} `{JsonMarshal} `{Quote} `{JsonText} `{PvcPlanJson} `{AnswerJson} `{CopyContracts}.

(** C2: Whatever [executeRunnerPVCCopy] changes in the cluster comes after everything
    that has to be true of it: the request was accepted (the identity, the granted
    namespaces, the image and the bounds), the target namespace was read and belongs
    to this environment alone, the configured fence of the sources was seen to be enforced, and the
    API server admitted a dry run of both helpers of every item. *)
Theorem runner_copy_authorized decode order fences cfg (command : RunnerCommand Y X I M CopyPlan C) allowed t r
    R (c : kube_call R) x t1 t2 (Hord : forall l, order l ≡ₚ l)
    (Hx : exec (executeRunnerPVCCopy decode order fences cfg command allowed) t r)
    (Ht : t = t1 ++ Event c x :: t2) (Hw : writes R c) :
  exists plan sources, accepted_request cfg command allowed plan sources
    /\ authority_seen decode fences cfg command plan t1
    /\ forall item is_source, In item (Cp_Items plan) -> dry_ran (copy_executor cfg command plan sources) plan t1 item is_source.
Proof.
  by eapply (authorized_before decode fences order cfg command allowed).
Qed.

(** C3: A copy that succeeds is complete: it accepted the request, and its calls
    are, after checks that wrote nothing, in which the authority agreed and every dry run was
    admitted, one copy after the other for the
    items of the plan in their order, and nothing else: each one in which the authority agreed once
    more, the target was found or made, and the calls of a whole execution of
    [Execute], which returned the marker of the item, were carried out. *)
Theorem runner_copy_complete decode order fences cfg (command : RunnerCommand Y X I M CopyPlan C) allowed t
    (Hord : forall l, order l ≡ₚ l) (Hx : exec (executeRunnerPVCCopy decode order fences cfg command allowed) t (Ok tt)) :
  exists plan sources before copies, accepted_request cfg command allowed plan sources /\ t = before ++ concat (map fst copies)
    /\ checked_here decode fences cfg command plan sources before
    /\ Forall2 (fun item c => copied_here decode fences order cfg command plan sources item c.1 c.2) (Cp_Items plan) copies.
Proof.
  by apply (copy_completed decode fences order cfg command allowed).
Qed.
End RunnerProperties.

(** ** Witnesses *)

(** The sample copy, as a command to a runner that is configured for it. *)
Definition copy_vars (key : string) : option string :=
  map_get key
    [("ENVPLANE_PVC_COPY_HELPER_IMAGE", Image sample_plan); ("ENVPLANE_PVC_COPY_SOURCE_NAMESPACES", "prod, staging");
     ("ENVPLANE_PVC_COPY_RUNNER_SERVICE_ACCOUNT", "envplane"); ("ENVPLANE_PROJECT_ID", "p"); ("ENVPLANE_RUNNER_NAMESPACE", "runner")].
Definition no_sources : ConfigJson json :=
  {| decode_sources := fun _ => (None, true); decode_fences := fun _ => (None, true) |}.
Definition copy_config : runnerConfig json :=
  (run sample_host [] (runnerConfigFromEnv (H := zero_hash) (H0 := no_sources) copy_vars)).2.
Definition copy_more : env_more unit := {|
  M_Namespace := "env"; M_Product := ""; M_Domain := ""; M_URL := ""; M_ValuesPath := ""; M_GitOpsPath := "";
  M_ChartsApp := ""; M_Services := []; M_BaseServices := []; M_Components := []; M_Overrides := []; M_ReleasePlanID := "";
  M_ReleasePlanDigest := ""; M_FluxStatus := None; M_LastError := ""; M_CleanupPhase := ""; M_CleanupAttempts := 0;
  M_CleanupVerified := false; M_ManifestPath := ""; M_NamespaceManifestPath := ""; M_KustomizationManifestPath := "";
  M_PullRequestURL := ""; M_rest := tt |}.
Definition copy_env : Env unit := {|
  E_TenantID := "t"; E_ID := "env"; E_Project := "p"; E_PullRequestID := "7"; E_Branch := "main"; E_Commit := "c0ffee";
  E_Status := "creating"; E_Mode := "pr"; E_TTLHours := 24; E_CreatedAt := 1; E_UpdatedAt := 1; E_rest := copy_more |}.
Definition copy_command : RunnerCommand unit unit unit unit CopyPlan unit := {|
  Rc_ID := "c1"; Rc_AttemptID := "a1"; Rc_ProjectID := "p"; Rc_ClusterID := "default"; Rc_RunnerID := "runner-0";
  Rc_Operation := "materialize_pvc"; Rc_Environment := copy_env;
  Rc_ProjectConfig := {| Pc_Config := [("bootstrapSessionData", VMap [("pvcCopySources", VOther)])]; Pc_Sensitive := false;
                         Pc_TenantID := "t"; Pc_Version := 1; Pc_TemplateRevisionID := ""; Pc_TemplateDigest := ""; Pc_rest := tt |};
  Rc_ProjectConfigVersion := 1; Rc_CleanupInventory := []; Rc_ChartRef := ""; Rc_ChartVersion := ""; Rc_ReleasePlanID := "";
  Rc_ReleasePlanDigest := ""; Rc_ReleasePlanSignature := ""; Rc_ReleasePlanKeyID := ""; Rc_ReleasePlanPublicKey := "";
  Rc_ReleasePlanTransportVersion := ""; Rc_ReleasePlan := None; Rc_MySQLRestorePlan := None;
  Rc_PVCCopyPlan := Some sample_copy_plan; Rc_RemoteClusterGeneration := 0; Rc_RunnerIdentityIssuedAt := None |}.
Definition copy_contracts : Contracts unit unit unit unit CopyPlan unit := {|
  DefaultTenantID := "t"; ReleasePlanTransportVersion := "2"; RunnerOperationRestoreMySQL := "restore_mysql";
  RunnerOperationMaterializePVC := "materialize_pvc"; base64_decode := fun _ => None;
  VerifyReleasePlanReference := fun _ _ _ _ _ _ => None; ReleasePlanExecutionInputDigest := fun _ _ _ _ _ => Ok "";
  ValidateCleanupInventory := fun _ _ _ _ => None; mysql_plan_digest := fun _ => ""; pvc_plan_digest := Cp_Digest |}.
Definition copy_constants : CopyCommands unit := {|
  PVCCopyContractVersion := "v1"; DeploymentBackendFluxCD := "fluxcd"; NormalizeTenantID := fun s => s;
  DeploymentBackend := fun _ => "fluxcd"; compiled_sources := fun _ => Some (De_Sources sample_executor) |}.
Definition sample_namespace : json :=
  JObj [("metadata",
          JObj [("name", JStr "env");
                ("labels", JObj [("envplane.io/managed", JStr "true"); ("envplane.io/project-id", JStr "p");
                                 ("envplane.io/environment-id", JStr "env")])])].
Definition runner_texts : JsonText := fun b =>
  match json_get (text b) (("namespace", sample_namespace) :: sample_objects) with
  | Some v => Some v
  | None => fence_texts b
  end.
Definition runner_cluster (R : Type) (h : list (event kube_call)) (c : kube_call R) : R :=
  match c in kube_call R return R with
  | KRun args input =>
      if existsb (str_eq "namespace") args then Ok (chars "namespace")
      else if existsb (str_eq policies) args then Ok (chars "policy")
      else if existsb (str_eq bindings) args then Ok (chars "binding")
      else sample_cluster _ h (KRun args input)
  | KProbe args pod => fence_cluster _ h (KProbe args pod)
  | c => sample_cluster _ h c
  end.
#[local] Existing Instances copy_contracts copy_constants zero_hash no_text in_quotes runner_texts sample_plan_json complete_answers
  lenient_contracts.
Definition sample_request : prog kube_call (result copy_failure unit) :=
  executeRunnerPVCCopy no_profile (fun l => l) "" copy_config copy_command (Some (str_eq "env")).
Definition sample_run := run runner_cluster [] sample_request.
Lemma copy_command_exec : exec sample_request sample_run.1 (Ok tt).
Proof.
  assert (E : sample_run.2 = Ok tt) by (vm_compute; reflexivity). rewrite <- E. exact (run_exec runner_cluster sample_request []).
Qed.
(** The first change is the claim of the item, after everything else. *)
Lemma runner_copy_authorized_witness :
  namespace_owned (Rc_Environment copy_command) (firstn 24 sample_run.1)
  /\ fence_seen no_profile "" sample_copy_plan "runner" "envplane" (firstn 24 sample_run.1).
Proof.
  assert (Ht : sample_run.1 = firstn 24 sample_run.1
            ++ Event (KRun (claim_args "env") (Some (claim_manifest sample_copy_plan sample_item))) (Ok (chars "target"))
               :: skipn 25 sample_run.1) by (vm_compute; reflexivity).
  destruct (runner_copy_authorized no_profile (fun l => l) "" copy_config copy_command (Some (str_eq "env")) _ _ _ _ _ _ _
              (fun l => reflexivity l) copy_command_exec Ht) as (plan & sources & (Hp & _) & [Hn Hf] & _).
  { split; [discriminate|]. intros Hin. vm_compute in Hin. destruct_or? Hin; discriminate || done. }
  clear Ht. revert Hn Hf. generalize (firstn 24 sample_run.1) as h. intros h Hn Hf. injection Hp as <-. by split.
Defined.
Lemma runner_copy_complete_witness : exists sources before u m, sample_run.1 = before ++ u
  /\ copied_here no_profile "" (fun l => l) copy_config copy_command sample_copy_plan sources sample_item u m.
Proof.
  destruct (runner_copy_complete no_profile (fun l => l) "" copy_config copy_command (Some (str_eq "env")) _
              (fun l => reflexivity l) copy_command_exec) as (plan & sources & before & copies & (Hp & _) & Ht & _ & Hf).
  injection Hp as <-. inversion Hf as [|i [u m] is_ cs Hc Hn]; subst. inversion Hn; subst.
  cbn [map fst snd concat] in Ht, Hc. rewrite app_nil_r in Ht. exists sources, before, u, m. split; [exact Ht|exact Hc].
Defined.
