(* ===== verification/SqlHelper.v ===== *)
(** * The helper command of a MySQL copy

    [internal/mysqlcopy/helper.go]: [HelperCLI], which the init container of a
    helper runs: it writes the option files of the client, and claims the target
    volume before the server starts on it. *)

From stdpp Require Import base list gmap strings.
From Stdlib Require Import ZArith Lia Ascii String.
From S2P Require Import Prelude GoStrings Regex GoPath SqlPlan.

Local Open Scope string_scope.
Local Open Scope Z_scope.
Local Open Scope list_scope.

(** ** Option files *)

Definition nul : ascii := byte_of 0.
Definition newline : ascii := byte_of 10.
Definition has_byte (c : ascii) (l : bytes) : bool := existsb (char_eq c) l.

(** The replacer of [ClientOptions]. *)
Definition escape_char (c : ascii) : bytes :=
  if char_eq c (byte_of 92) then [byte_of 92; byte_of 92]
  else if char_eq c (byte_of 34) then [byte_of 92; byte_of 34]
  else if char_eq c newline then [byte_of 92; byte_of 110]
  else if char_eq c (byte_of 13) then [byte_of 92; byte_of 114]
  else if char_eq c (byte_of 9) then [byte_of 92; byte_of 116]
  else [c].
Definition escape (l : bytes) : bytes := flat_map escape_char l.
Definition quoted (l : bytes) : bytes := byte_of 34 :: escape l ++ [byte_of 34].
Definition options_text (user password : bytes) : bytes :=
  chars "[client]" ++ newline :: chars "user=" ++ quoted user ++ newline :: chars "password=" ++ quoted password ++ [newline].
(** [ClientOptions] *)
Definition ClientOptions (user : string) (password : bytes) : result sql_error bytes :=
  refuse negb (match_string identifier user) || (length password <? 1)%nat || (4096 <? Z.of_nat (length password))
    || has_byte nul password with ErrUnsafe;;
  Ok (options_text (chars user) password).

(** ** The claim of a target volume *)

(** An entry at the root of the volume, and the volume: its entries by name. *)
Inductive entry : Type := Regular (content : bytes) | Directory (owner : Z) | Special.
#[export] Instance entry_eq_dec : EqDecision entry.
Proof. solve_decision. Defined.
Notation data_volume := (gmap string entry).

(** What each operation on the volume does: [true] where it succeeds
    ([io_list]: opening the directory, [io_scan]: reading it), and how much of
    the record a failing write has written. *)
Record claim_io := {
  io_root : bool; io_list : bool; io_scan : bool; io_read : bool; io_create : bool; io_written : nat; io_write : bool; io_sync : bool;
  io_mkdir : bool; io_chown : bool; io_sync_dir : bool }.
Definition all_well : claim_io :=
  {| io_root := true; io_list := true; io_scan := true; io_read := true; io_create := true; io_written := 0; io_write := true;
     io_sync := true; io_mkdir := true; io_chown := true; io_sync_dir := true |}.

Definition claim_file : string := ".mysqlcopy-claim".
Definition mysql_dir : string := "mysql".
Definition claim_record (digest uid : string) : bytes := chars digest ++ newline :: chars uid ++ [newline].
Definition is_hex_digit (c : ascii) : bool := hex_lower c || between 65 70 c.

(** The claim of an earlier execution, which a restart resumes. *)
Definition resumes (io : claim_io) (v : data_volume) (digest uid : string) : result sql_error unit :=
  match v !! claim_file with
  | Some (Regular content) =>
      refuse (512 <? Z.of_nat (length content)) || negb (io_read io) || negb (bool_decide (content = claim_record digest uid))
        with ErrPartial;;
      match v !! mysql_dir with Some (Directory _) => Ok tt | _ => Err ErrPartial end
  | _ => Err ErrPartial
  end.
(** A fresh claim: the record, then the directory of the server's data. *)
Definition claims (io : claim_io) (v : data_volume) (digest uid : string) : data_volume * result sql_error unit :=
  let record := claim_record digest uid in
  if negb (io_list io) then (v, Err ErrOperation)
  else if negb (io_scan io) || negb (bool_decide (v = ∅)) then (v, Err ErrPartial)
  else if negb (io_create io) then (v, Err ErrPartial)
  else
    let v := <[claim_file := Regular (if io_write io then record else firstn (io_written io) record)]> v in
    if negb (io_write io) || negb (io_sync io) then (v, Err ErrOperation)
    else if negb (io_mkdir io) then (v, Err ErrOperation)
    else
      let v := <[mysql_dir := Directory 0]> v in
      if negb (io_chown io) then (v, Err ErrOperation)
      else
        let v := <[mysql_dir := Directory 999]> v in
        if negb (io_sync_dir io) then (v, Err ErrOperation) else (v, Ok tt).
(** [targetClaim] *)
Definition targetClaim (io : claim_io) (v : data_volume) (digest uid : string) (resume : bool) : data_volume * result sql_error unit :=
  if negb (str_len digest =? 64) || (str_len uid <? 1) || (256 <? str_len uid) then (v, Err ErrUnsafe)
  else if negb (forallb is_hex_digit (chars digest)) then (v, Err ErrUnsafe)
  else if negb (io_root io) then (v, Err ErrOperation)
  else if resume then (v, resumes io v digest uid)
  else claims io v digest uid.

(** ** The command *)

(** The calls: the context's error, the claim, reads below /credentials, and
    what is written. *)
Inductive helper_call : Type -> Type :=
| HelperCtx : helper_call (result sql_error unit)
| ClaimCall (digest uid : string) (resume : bool) : helper_call (result sql_error unit)
| StatSize (path : string) : helper_call (option Z)
| ReadSecret (path : string) : helper_call (option bytes)
| CreateExclusive (path : string) : helper_call bool
| WriteClose (path : string) (content : bytes) : helper_call bool
| ChownPath (path : string) (owner : Z) : helper_call bool.

Definition unclean (path : string) : bool := existsb (fun c => one_of (text [nul; byte_of 13; newline]) c) (chars path).
(** [readCredential] *)
Definition readCredential (path : string) : prog helper_call (result sql_error bytes) :=
  stop negb (has_prefix path "/credentials/") || str_ne (path_clean path) path || unclean path with ErrUnsafe;;
  size <-- call (StatSize path);;
  match size with
  | Some n =>
      stop (n <=? 0) || (4096 <? n) with ErrUnsafe;;
      content <-- call (ReadSecret path);;
      Ret (match content with Some l => Ok l | None => Err ErrOperation end)
  | None => Ret (Err ErrUnsafe)
  end.
(** [if b, err := readCredential(path); err != nil { return ErrUnsafe }] *)
Definition credential (path : string) : prog helper_call (result sql_error bytes) :=
  r <-- readCredential path;; Ret (match r with Ok l => Ok l | Err _ => Err ErrUnsafe end).
Definition user_of (arg : string) : prog helper_call (result sql_error string) :=
  if has_prefix arg "@" then content <-! credential (trim_prefix arg "@");; Ret (Ok (text content)) else Ret (Ok arg).
Definition unless (ok : bool) (e : sql_error) : result sql_error unit := if ok then Ok tt else Err e.

(** One triple of arguments: an option file. *)
Definition write_config (user_arg password_file out : string) : prog helper_call (result sql_error unit) :=
  _ <-! call HelperCtx;;
  user <-! user_of user_arg;;
  password <-! credential password_file;;
  stop str_ne (path_dir out) "/config" || negb (match_string identifier user) || unclean out with ErrUnsafe;;
  config <-! Ret (ClientOptions user password);;
  created <-- call (CreateExclusive out);;
  stop negb created with ErrOperation;;
  written <-- call (WriteClose out config);;
  stop negb written with ErrOperation;;
  owned <-- call (ChownPath out 999);;
  Ret (unless owned ErrOperation).
Fixpoint write_configs (args : list string) : prog helper_call (result sql_error unit) :=
  match args with
  | user :: password :: out :: rest => _ <-! write_config user password out;; write_configs rest
  | _ => Ret (Ok tt)
  end.
Fixpoint own_all (dirs : list string) : prog helper_call (result sql_error unit) :=
  match dirs with
  | [] => Ret (Ok tt)
  | dir :: dirs' => owned <-- call (ChownPath dir 999);; stop negb owned with ErrOperation;; own_all dirs'
  end.
(** The flags of a target, and what is left of the arguments. *)
Definition claim_first (args : list string) : prog helper_call (result sql_error (list string)) :=
  match args with
  | first :: rest =>
      if has_prefix first "--target-claim=" || has_prefix first "--target-resume=" then
        match rest with
        | second :: rest' =>
            stop negb (has_prefix second "--target-uid=") with ErrUnsafe;;
            let digest := match split2 "=" first with Some (_, d) => d | None => "" end in
            _ <-! call (ClaimCall digest (trim_prefix second "--target-uid=") (has_prefix first "--target-resume="));;
            Ret (Ok rest')
        | [] => Ret (Err ErrUnsafe)
        end
      else Ret (Ok args)
  | [] => Ret (Ok args)
  end.
(** [HelperCLI] *)
Definition HelperCLI (args : list string) : prog helper_call (result sql_error unit) :=
  args <-! claim_first args;;
  stop (length args =? 0)%nat || negb (length args mod 3 =? 0)%nat || (6 <? length args)%nat with ErrUnsafe;;
  _ <-! write_configs args;;
  own_all ["/tmp"; "/run/mysqld"].

(** Runs of the init container over the life of a volume, in which nothing else
    changes the entries at its root. *)
Record claim_attempt := { at_io : claim_io; at_digest : string; at_uid : string; at_resume : bool }.
Definition try_claim (v : data_volume) (a : claim_attempt) : data_volume * result sql_error unit :=
  targetClaim (at_io a) v (at_digest a) (at_uid a) (at_resume a).
Fixpoint claim_history (v : data_volume) (l : list claim_attempt) : list (result sql_error unit) :=
  match l with
  | [] => []
  | a :: l' => (try_claim v a).2 :: claim_history (try_claim v a).1 l'
  end.

(** ** Lemmas: the claim *)

Definition claimed (digest uid : string) : data_volume :=
  {[ mysql_dir := Directory 999; claim_file := Regular (claim_record digest uid) ]}.
Definition well_named (digest uid : string) : Prop :=
  str_len digest = 64 /\ 1 <= str_len uid <= 256 /\ forallb is_hex_digit (chars digest) = true.

Lemma claimed_nonempty d u : claimed d u <> ∅.
Proof. apply insert_non_empty. Qed.

Lemma claim_record_inj d u d' u' : str_len d = str_len d' -> claim_record d u = claim_record d' u' -> d = d' /\ u = u'.
Proof.
  unfold claim_record, str_len. intros Hl Hr. rewrite <- !length_chars in Hl. apply app_inj_1 in Hr as [Hd Hr]; [|lia].
  injection Hr as Hr. apply app_inv_tail in Hr. split; by apply chars_inj.
Qed.

(** Whatever happens, only an empty volume is changed. *)
Lemma targetClaim_keeps io v d u r : v <> ∅ -> (targetClaim io v d u r).1 = v.
Proof.
  intros Hv. unfold targetClaim. destruct (_ || _); [done|]. destruct (negb _); [done|]. destruct (negb _); [done|].
  destruct r; [done|]. unfold claims. destruct (negb _); [done|]. rewrite (bool_decide_false _ Hv). by rewrite orb_true_r.
Qed.

Lemma targetClaim_named io v d u r : (targetClaim io v d u r).2 = Ok tt -> well_named d u.
Proof.
  unfold targetClaim, well_named. destruct (_ || _) eqn:El; [done|]. destruct (forallb _ _); [|done]. intros _. go_bool. lia.
Qed.

Lemma targetClaim_fresh io v d u : (targetClaim io v d u false).2 = Ok tt ->
  v = ∅ /\ (targetClaim io v d u false).1 = claimed d u.
Proof.
  unfold targetClaim, claims. destruct (_ || _); [done|]. destruct (negb _); [done|]. destruct (negb _); [done|].
  destruct (negb _); [done|]. destruct (io_scan io); [|done]. destruct (bool_decide_reflect (v = ∅)) as [->|]; [|done].
  cbn [negb orb]. destruct (negb (io_create io)); [done|].
  destruct (io_write io); [|done]. cbn [negb orb]. destruct (negb _); [done|]. destruct (negb _); [done|].
  destruct (negb _); [done|]. destruct (negb _); [done|]. intros _.
  split; [done|]. cbn [fst]. by rewrite insert_insert_eq.
Qed.

(** On a claimed volume: a resumption of the same claim, and nothing else. *)
Lemma targetClaim_claimed io d u d' u' r : well_named d u ->
  (targetClaim io (claimed d u) d' u' r).2 = Ok tt <->
  r = true /\ d' = d /\ u' = u /\ io_root io = true /\ io_read io = true.
Proof.
  intros (Hd & Hu & Hx). split.
  - intros Hok. pose proof (targetClaim_named _ _ _ _ _ Hok) as (Hd' & _ & _). destruct r.
    + unfold targetClaim in Hok. destruct (_ || _); [done|]. destruct (negb _); [done|].
      destruct (io_root io); [|done]. cbn [negb snd] in Hok. unfold resumes in Hok.
      change (claimed d u !! claim_file) with (Some (Regular (claim_record d u))) in Hok. cbv beta iota in Hok.
      apply refuse_ok in Hok as [[[_ Hr]%orb_false_iff Hc]%orb_false_iff _].
      apply negb_false_iff, bool_decide_eq_true, claim_record_inj in Hc as [-> ->]; [|congruence].
      apply negb_false_iff in Hr. done.
    + apply targetClaim_fresh in Hok as [He _]. by apply claimed_nonempty in He.
  - intros (-> & -> & -> & Hroot & Hread). unfold targetClaim. rewrite Hd, Hx, Hroot. cbn [negb].
    rewrite (proj2 (Z.ltb_ge (str_len u) 1)), (proj2 (Z.ltb_ge 256 (str_len u))) by lia. cbn [orb negb snd Z.eqb].
    change (64 =? 64) with true. cbn [negb orb]. unfold resumes.
    change (claimed d u !! claim_file) with (Some (Regular (claim_record d u))). cbv beta iota.
    rewrite Hread, bool_decide_true, (proj2 (Z.ltb_ge 512 _)); [done| |done].
    unfold claim_record. rewrite length_app. cbn [length]. rewrite length_app, !length_chars. unfold str_len in *. cbn [length]. lia.
Qed.

(** Once claimed, a volume stays as it is. *)
Lemma history_nonempty v l j b : v <> ∅ -> l !! j = Some b -> claim_history v l !! j = Some (try_claim v b).2.
Proof.
  intros Hv. revert j. induction l as [|a l IH]; intros j Hj; [done|]. destruct j as [|j]; cbn in *; [by injection Hj as ->|].
  unfold try_claim at 1. rewrite targetClaim_keeps by done. by apply IH.
Qed.
Lemma resumed_nonempty io v d u : (targetClaim io v d u true).2 = Ok tt -> v <> ∅.
Proof.
  intros Hok ->. unfold targetClaim in Hok. destruct (_ || _); [done|]. destruct (negb _); [done|]. by destruct (negb _).
Qed.
Lemma try_leaves_empty v a : (try_claim v a).1 = ∅ -> v = ∅ /\ exists e, (try_claim v a).2 = Err e.
Proof.
  intros He. destruct (decide (v = ∅)) as [->|Hv]; [|unfold try_claim in He; by rewrite targetClaim_keeps in He].
  split; [done|]. unfold try_claim in *. destruct (targetClaim _ _ _ _ _).2 as [[]|e] eqn:Hok; [exfalso|by exists e].
  destruct (at_resume a); [by apply resumed_nonempty in Hok|]. apply targetClaim_fresh in Hok as [_ Hok].
  rewrite Hok in He. by apply claimed_nonempty in He.
Qed.

(** C20: A volume is claimed at most once over all the runs of its init
    container, whatever fails in them: when a fresh claim has succeeded, the
    volume was empty and every run before it had failed, and of the runs after
    it exactly those succeed that resume the same plan on the same volume
    identity and can read it. *)
Theorem targetClaim_once v l i a : l !! i = Some a -> at_resume a = false -> claim_history v l !! i = Some (Ok tt) ->
  v = ∅
  /\ (forall j b, (j < i)%nat -> l !! j = Some b -> exists e, claim_history v l !! j = Some (Err e))
  /\ (forall j b, (i < j)%nat -> l !! j = Some b ->
        claim_history v l !! j = Some (Ok tt) <->
        at_resume b = true /\ at_digest b = at_digest a /\ at_uid b = at_uid a
        /\ io_root (at_io b) = true /\ io_read (at_io b) = true).
Proof.
  revert v i. induction l as [|a0 l IH]; intros v i Ha Hr Hok; [done|]. destruct i as [|i]; cbn in Ha, Hok.
  - injection Ha as ->. injection Hok as Hok. unfold try_claim in Hok. rewrite Hr in Hok.
    pose proof (targetClaim_named _ _ _ _ _ Hok) as Hn. apply targetClaim_fresh in Hok as [-> Hc].
    split; [done|]. split; [lia|]. intros [|j] b Hj Hb; [lia|]. cbn in Hb |- *. unfold try_claim at 1. rewrite Hr, Hc.
    rewrite (history_nonempty _ _ _ _ (claimed_nonempty _ _) Hb).
    rewrite <- (targetClaim_claimed (at_io b) (at_digest a) (at_uid a) (at_digest b) (at_uid b) (at_resume b) Hn).
    unfold try_claim. split; [by intros [= ->]|by intros ->].
  - destruct (IH _ _ Ha Hr Hok) as (Hv & Hb & Hf). apply try_leaves_empty in Hv as [-> Hv]. split; [done|]. split.
    + intros [|j] b Hj Hl; [|apply (Hb j b); [lia|done]]. destruct Hv as [e Hv]. exists e. cbn. by rewrite Hv.
    + intros [|j] b Hj Hl; [lia|]. apply (Hf j b); [lia|done].
Qed.

(** ** Lemmas: the option file *)

(** The character that an escape stands for. *)
Definition unescape1 (l : bytes) : option (ascii * bytes) :=
  match l with
  | c :: l' =>
      if char_eq c (byte_of 34) then None
      else if negb (char_eq c (byte_of 92)) then Some (c, l')
      else match l' with
           | d :: l'' =>
               Some (if char_eq d (byte_of 110) then newline else if char_eq d (byte_of 114) then byte_of 13
                     else if char_eq d (byte_of 116) then byte_of 9 else d, l'')
           | [] => None
           end
  | [] => None
  end.
Lemma unescape1_escape c l : unescape1 (escape_char c ++ l) = Some (c, l).
Proof. destruct c as [[] [] [] [] [] [] [] []]; reflexivity. Qed.
Lemma escape_char_no_newline c : ~ In newline (escape_char c).
Proof. destruct c as [[] [] [] [] [] [] [] []]; vm_compute; intros Hin; destruct_or? Hin; done. Qed.
Lemma escape_no_newline l : ~ In newline (escape l).
Proof. unfold escape. rewrite in_flat_map. intros (c & _ & Hc). by apply escape_char_no_newline in Hc. Qed.

(** What is between the quotes is read back in only one way. *)
Lemma escape_inj l : forall l' x x', escape l ++ byte_of 34 :: x = escape l' ++ byte_of 34 :: x' -> l = l' /\ x = x'.
Proof.
  assert (Hstop : forall c k x x', byte_of 34 :: x <> escape_char c ++ escape k ++ byte_of 34 :: x').
  { intros c k x x' Heq%(f_equal unescape1). by rewrite unescape1_escape in Heq. }
  induction l as [|c l IH]; intros [|c' l'] x x'; cbn [escape flat_map app]; rewrite <- ?app_assoc.
  - by intros [= ->].
  - intros Heq. by apply Hstop in Heq.
  - intros Heq. symmetry in Heq. by apply Hstop in Heq.
  - intros Heq%(f_equal unescape1). rewrite !unescape1_escape in Heq. injection Heq as -> Heq.
    apply IH in Heq as [-> ->]. done.
Qed.

Lemma quoted_one_line name l : Forall (fun c => c <> newline) name -> Forall (fun c => c <> newline) (name ++ quoted l).
Proof.
  intros Hn. apply Forall_app. split; [done|]. constructor; [done|]. apply Forall_app. split; [|by repeat constructor].
  apply Forall_forall. intros c Hc ->. apply list_elem_of_In in Hc. by apply escape_no_newline in Hc.
Qed.
(** The lines of a file. *)
Definition lines (l : bytes) : list bytes := split_bytes newline l.

Lemma ClientOptions_ok user password config : ClientOptions user password = Ok config ->
  config = options_text (chars user) password /\ match_string identifier user = true
  /\ 1 <= Z.of_nat (length password) <= 4096.
Proof.
  unfold ClientOptions. rewrite refuse_ok. intros [Hc [= <-]]. apply orb_false_iff in Hc as [Hc _]. go_bool.
  destruct Hc as [[Hu Hl] Hh]. split_and!; try done; lia.
Qed.

(** The option file of a client has exactly three lines, the section and
    the two options, whatever characters the password has: no password adds an
    option or a section; and it determines the user and the password. *)
Theorem ClientOptions_faithful user password config : ClientOptions user password = Ok config ->
  lines config = [chars "[client]"; chars "user=" ++ quoted (chars user); chars "password=" ++ quoted password; []]
  /\ forall user' password', ClientOptions user' password' = Ok config -> user' = user /\ password' = password.
Proof.
  intros (-> & _ & _)%ClientOptions_ok. split.
  - unfold lines, options_text. rewrite (split_bytes_app newline (chars "[client]")) by (by repeat constructor).
    change (chars "user=" ++ quoted (chars user) ++ newline :: chars "password=" ++ quoted password ++ [newline])
      with ((chars "user=" ++ quoted (chars user)) ++ newline :: (chars "password=" ++ quoted password) ++ [newline]).
    rewrite !split_bytes_app; [done|by apply quoted_one_line; repeat constructor..].
  - intros user' password' (Heq & _ & _)%ClientOptions_ok. unfold options_text, quoted in Heq.
    apply app_inv_head in Heq. injection Heq as Heq. rewrite <- ?app_assoc in Heq. cbn [app] in Heq.
    apply escape_inj in Heq as [Hu Heq]. injection Heq as Heq. rewrite <- ?app_assoc in Heq. cbn [app] in Heq.
    apply escape_inj in Heq as [-> _]. split; [by apply chars_inj|done].
Qed.

(** ** Lemmas: the command *)

Notation trace := (list (event helper_call)).

Definition below_credentials (path : string) : Prop :=
  has_prefix path "/credentials/" = true /\ path_clean path = path /\ unclean path = false.
(** The bytes of a credential, as the calls so far read them, and a user: an
    argument, or what a credential file named by one holds. *)
Definition read_in (h : trace) (path : string) (content : bytes) : Prop := In (Event (ReadSecret path) (Some content)) h.
Definition user_in (h : trace) (arg user : string) : Prop :=
  if has_prefix arg "@" then read_in h (trim_prefix arg "@") (chars user) else user = arg.
(** The option file of one triple of arguments. *)
Definition config_in (h : trace) (user_arg password_file : string) (config : bytes) : Prop :=
  exists user password, user_in h user_arg user /\ read_in h password_file password /\ ClientOptions user password = Ok config
    /\ match_string identifier user = true /\ 0 < Z.of_nat (length password) <= 4096.

Lemma options_bounds user password config : ClientOptions user password = Ok config ->
  ClientOptions user password = Ok config /\ match_string identifier user = true /\ 0 < Z.of_nat (length password) <= 4096.
Proof.
  intros Hc. split; [done|]. apply refuse_ok in Hc as [[[[Hi%negb_false_iff Hl%Nat.ltb_ge]%orb_false_iff Hm%Z.ltb_ge]%orb_false_iff _]%orb_false_iff _].
  split; [done|]. lia.
Qed.
(** A call of the command, after those of [h]. *)
Definition confined (args : list string) (R : Type) (h : trace) (e : helper_call R) : Prop :=
  match e with
  | HelperCtx => True
  | ClaimCall _ _ _ => h = []
  | StatSize path => below_credentials path
  | ReadSecret path => below_credentials path /\ exists h0 n, h = h0 ++ [Event (StatSize path) (Some n)] /\ 0 < n <= 4096
  | CreateExclusive out => path_dir out = "/config" /\ unclean out = false
  | WriteClose out config =>
      In (Event (CreateExclusive out) true) h
      /\ exists user_arg password_file, In user_arg args /\ In password_file args /\ In out args
           /\ config_in h user_arg password_file config
  | ChownPath path owner =>
      owner = 999 /\ (path = "/tmp" \/ path = "/run/mysqld" \/ exists config, In (Event (WriteClose path config) true) h)
  end.

Lemma credential_guarded args h path : guarded (confined args) h (credential path).
Proof.
  unfold credential. apply guarded_bind; [|done]. apply guarded_stop. intros [[Hp Hc]%orb_false_iff Hu]%orb_false_iff.
  apply negb_false_iff in Hp. apply str_ne_false in Hc. split; [done|]. intros [n|]; [|done]. cbn [bind].
  apply guarded_stop. intros Hn. split; [|done]. split; [done|]. exists h, n. split; [done|]. go_bool. lia.
Qed.
Lemma credential_ok path t content : exec (credential path) t (Ok content) -> read_in t path content.
Proof.
  unfold credential. intros (t1 & t2 & [l|] & -> & Hx & Hr)%exec_bind; [|by apply exec_ret_err in Hr].
  apply exec_ret_ok in Hr as [-> ->]. rewrite app_nil_r. unfold readCredential in Hx.
  apply exec_stop_ok in Hx as [_ (size & t2 & -> & Hx)]. destruct size as [n|]; [|by apply exec_ret_err in Hx].
  apply exec_stop_ok in Hx as [_ (content' & t3 & -> & Hx)]. destruct content' as [l'|]; [|by apply exec_ret_err in Hx].
  apply exec_ret_ok in Hx as [-> ->]. right. by left.
Qed.
Lemma user_guarded args h arg : guarded (confined args) h (user_of arg).
Proof. unfold user_of. destruct (has_prefix arg "@"); [|done]. apply guarded_pbind; [apply credential_guarded|done]. Qed.
Lemma user_ok arg t user : exec (user_of arg) t (Ok user) -> user_in t arg user.
Proof.
  unfold user_of, user_in. destruct (has_prefix arg "@"); intros Hx; exec_steps; [|done].
  rewrite chars_text, app_nil_r. by apply credential_ok.
Qed.
Lemma user_more h h' arg user : incl h h' -> user_in h arg user -> user_in h' arg user.
Proof. intros Hi. unfold user_in, read_in. destruct (has_prefix arg "@"); [apply Hi|done]. Qed.
Lemma config_more h h' user_arg password_file config : incl h h' ->
  config_in h user_arg password_file config -> config_in h' user_arg password_file config.
Proof.
  intros Hi (user & password & Hu & Hp & Hc). exists user, password. split; [by eapply user_more|]. split; [by apply Hi|done].
Qed.

(** A triple that has been written: the file, and its owner. *)
Definition written (t : trace) (triple : string * string * string) : Prop :=
  let '(user_arg, password_file, out) := triple in
  path_dir out = "/config"
  /\ (exists config, config_in t user_arg password_file config /\ In (Event (WriteClose out config) true) t)
  /\ In (Event (ChownPath out 999) true) t.
Lemma written_more t t' triple : incl t t' -> written t triple -> written t' triple.
Proof.
  destruct triple as [[user_arg password_file] out]. intros Hi (Hd & (config & Hc & Hw) & Ho). split; [done|].
  split; [exists config; split; [by eapply config_more|]|]; by apply Hi.
Qed.

Lemma write_config_ok user_arg password_file out t : exec (write_config user_arg password_file out) t (Ok tt) ->
  written t (user_arg, password_file, out).
Proof.
  unfold write_config. intros Hx. apply exec_pbind_ok in Hx as (t1 & t2 & [] & -> & _ & Hx).
  apply exec_pbind_ok in Hx as (t3 & t4 & user & -> & Hu%user_ok & Hx).
  apply exec_pbind_ok in Hx as (t5 & t6 & password & -> & Hp%credential_ok & Hx).
  apply exec_stop_ok in Hx as [[[Hd%str_ne_false _]%orb_false_iff _]%orb_false_iff Hx].
  apply exec_pret in Hx as (config & Hc & ([] & t7 & -> & Hx)%exec_bind_call); [|by apply exec_ret_err in Hx].
  apply exec_stop_ok in Hx as [_ ([] & t8 & -> & Hx)%exec_bind_call]; [|by apply exec_ret_err in Hx].
  apply exec_stop_ok in Hx as [_ ([] & t9 & -> & [-> Hr])%exec_bind_call]; [clear Hr|done]. split; [done|].
  assert (Hi : forall x y z : trace, incl y (x ++ y ++ z)) by (intros x y z; apply incl_appr, incl_appl, incl_refl).
  split; [exists config; split|].
  - exists user, password. split; [eapply user_more; [apply Hi|done]|]. split; [|by apply options_bounds].
    unfold read_in. rewrite !in_app_iff. by do 2 right; left.
  - rewrite !in_app_iff. do 4 right. by left.
  - rewrite !in_app_iff. do 5 right. by left.
Qed.

Lemma write_config_guarded args h user_arg password_file out : In user_arg args -> In password_file args -> In out args ->
  guarded (confined args) h (write_config user_arg password_file out).
Proof.
  intros Iu Ip Io. unfold write_config. apply guarded_pbind; [done|]. intros t0 [] _.
  apply guarded_pbind; [apply user_guarded|]. intros t1 user Hu%user_ok.
  apply guarded_pbind; [apply credential_guarded|]. intros t2 password Hp%credential_ok.
  apply guarded_stop. intros [[Hd%str_ne_false _]%orb_false_iff Hout]%orb_false_iff.
  apply guarded_pbind; [done|]. intros t3 config [-> Hc]. rewrite app_nil_r. split; [done|]. intros created.
  cbn [bind]. apply guarded_stop. destruct created; [|done]. intros _. split.
  - split; [apply in_app_iff; right; by left|]. exists user_arg, password_file. split_and!; try done.
    exists user, password. split; [|split; [|by apply options_bounds]]; unfold read_in.
    + eapply user_more; [|done]. intros ev Hin. rewrite !in_app_iff. tauto.
    + rewrite !in_app_iff. tauto.
  - intros wrote. cbn [bind]. apply guarded_stop. destruct wrote; [|done]. intros _. split; [|done]. split; [done|].
    do 2 right. exists config. apply in_app_iff. right. by left.
Qed.

Fixpoint triples (args : list string) : list (string * string * string) :=
  match args with
  | user :: password :: out :: rest => (user, password, out) :: triples rest
  | _ => []
  end.
Lemma write_configs_ok args : forall t, exec (write_configs args) t (Ok tt) -> Forall (written t) (triples args).
Proof.
  enough (Hn : forall n args, (length args <= n)%nat -> forall t, exec (write_configs args) t (Ok tt) -> Forall (written t) (triples args))
    by by apply (Hn (length args)).
  clear args. intros n. induction n as [|n IH]; intros [|user [|password [|out rest]]] Hl t Hx; try constructor; cbn in Hl; try lia.
  - apply exec_pbind_ok in Hx as (t1 & t2 & [] & -> & Hw & _). eapply written_more; [|by apply write_config_ok]. apply incl_appl, incl_refl.
  - apply exec_pbind_ok in Hx as (t1 & t2 & [] & -> & _ & Hx). apply IH in Hx; [|lia].
    eapply Forall_impl; [exact Hx|]. intros w. apply written_more. apply incl_appr, incl_refl.
Qed.
Lemma write_configs_guarded all args : forall h, incl args all -> guarded (confined all) h (write_configs args).
Proof.
  enough (Hn : forall n args, (length args <= n)%nat -> forall h, incl args all -> guarded (confined all) h (write_configs args))
    by by apply (Hn (length args)).
  clear args. intros n. induction n as [|n IH]; intros [|user [|password [|out rest]]] Hl h Hi; try done; cbn in Hl; try lia.
  cbn [write_configs]. apply guarded_pbind.
  - apply write_config_guarded; apply Hi; cbn; tauto.
  - intros t [] _. apply IH; [lia|]. intros x Hx. apply Hi. by do 3 right.
Qed.

(** What the flags say, and the claim they made: the first call. *)
Definition claimed_first (args : list string) (t : trace) (rest : list string) : Prop :=
  let flag first := has_prefix first "--target-claim=" || has_prefix first "--target-resume=" in
  rest = args /\ match args with first :: _ => flag first = false | [] => True end
  \/ exists first second t', args = first :: second :: rest /\ flag first = true /\ has_prefix second "--target-uid=" = true
     /\ t = Event (ClaimCall (match split2 "=" first with Some (_, d) => d | None => "" end)
                     (trim_prefix second "--target-uid=") (has_prefix first "--target-resume=")) (Ok tt) :: t'.
Lemma claim_first_ok args t rest : exec (claim_first args) t (Ok rest) -> forall t', claimed_first args (t ++ t') rest.
Proof.
  intros Hx t'. unfold claim_first in Hx. destruct args as [|first args]; [left; by apply exec_ret_ok in Hx as [_ <-]|].
  destruct (_ || _) eqn:Ef; [|left; by apply exec_ret_ok in Hx as [_ <-]].
  destruct args as [|second args]; [by apply exec_ret_err in Hx|]. apply exec_stop_ok in Hx as [Hs%negb_false_iff Hx].
  cbv zeta in Hx. apply exec_pbind_ok in Hx as (t1 & t2 & [] & -> & Hc & Hx). apply exec_ret_ok in Hx as [-> <-].
  apply exec_call in Hc as ->. right. by eexists first, second, _.
Qed.
Lemma claim_first_guarded all args : guarded (confined all) [] (claim_first args).
Proof.
  destruct args as [|first args]; [done|]. cbn [claim_first]. destruct (_ || _); [|done]. destruct args as [|second args]; [done|].
  apply guarded_stop. intros _. cbv zeta. by apply guarded_pbind.
Qed.
Lemma claim_first_rest args t rest : exec (claim_first args) t (Ok rest) -> incl rest args.
Proof.
  intros Hx. destruct (claim_first_ok _ _ _ Hx []) as [[-> _]|(first & second & t' & -> & _)]; [apply incl_refl|]. do 2 apply incl_tl. apply incl_refl.
Qed.

(** C21: The command reads files below /credentials and nothing else, each
    directly after its size was given as 1 to 4096 bytes (a file that grows in between is read
    whole); it creates files in /config only, never over another, and
    what it writes there is the option file of a user and a password that its
    arguments name, the user an identifier and the password of 1 to 4096
    bytes; it gives away those files, /tmp and /run/mysqld.  When it
    succeeds, the claim its flags ask for came first and succeeded, and every
    triple of the arguments has its option file. *)
Theorem HelperCLI_confined args t r : exec (HelperCLI args) t r ->
  (forall t1 R (e : helper_call R) x t2, t = t1 ++ Event e x :: t2 -> confined args R t1 e)
  /\ (r = Ok tt -> exists rest, claimed_first args t rest /\ (length rest = 3 \/ length rest = 6)%nat
        /\ Forall (written t) (triples rest)
        /\ In (Event (ChownPath "/tmp" 999) true) t /\ In (Event (ChownPath "/run/mysqld" 999) true) t).
Proof.
  intros Hx. split.
  - intros t1 R e x t2 Ht. apply (guarded_exec (confined args) [] _ _ _ t1 R e x t2) in Hx; [done| |done]. unfold HelperCLI.
    apply guarded_pbind; [apply claim_first_guarded|]. intros t0 rest Hr%claim_first_rest. apply guarded_stop. intros _.
    apply guarded_pbind; [by apply write_configs_guarded|]. intros t3 [] _. split; [by split; [|left]|]. intros [|]; [|done].
    split; [split; [done|by right; left]|]. by intros [|].
  - intros ->. unfold HelperCLI in Hx. apply exec_pbind_ok in Hx as (t1 & t2 & rest & -> & Hc & Hx).
    apply exec_stop_ok in Hx as [Hl Hx]. apply exec_pbind_ok in Hx as (t3 & t4 & [] & -> & Hw & Hx).
    cbn [own_all] in Hx. apply exec_bind_call in Hx as ([] & t5 & -> & Hx); [|by apply exec_ret_err in Hx].
    apply exec_stop_ok in Hx as [_ ([] & t6 & -> & Hx)%exec_bind_call]; [|by apply exec_ret_err in Hx].
    exists rest. split; [by apply claim_first_ok|]. split; [|split; [|rewrite !in_app_iff; cbn; tauto]].
    + apply orb_false_iff in Hl as [[H0 Hm]%orb_false_iff H6]. apply Nat.eqb_neq in H0. apply Nat.ltb_ge in H6.
      apply negb_false_iff, Nat.eqb_eq in Hm. clear - H0 H6 Hm. destruct (length rest) as [|[|[|[|[|[|[|n]]]]]]]; cbn in Hm; lia.
    + eapply Forall_impl; [by apply write_configs_ok|]. intros w. apply written_more. apply incl_appr, incl_appl, incl_refl.
Qed.

(** ** Witnesses *)

Definition sample_digest : string := text (repeat (byte_of 97) 64).
Definition try_with (io : claim_io) (uid : string) (resume : bool) : claim_attempt :=
  {| at_io := io; at_digest := sample_digest; at_uid := uid; at_resume := resume |}.
Definition unreadable : claim_io :=
  {| io_root := true; io_list := true; io_scan := true; io_read := false; io_create := true; io_written := 0; io_write := true;
     io_sync := true; io_mkdir := true; io_chown := true; io_sync_dir := true |}.
Definition no_root : claim_io :=
  {| io_root := false; io_list := true; io_scan := true; io_read := true; io_create := true; io_written := 0; io_write := true;
     io_sync := true; io_mkdir := true; io_chown := true; io_sync_dir := true |}.
(** A volume that cannot be opened, then claimed; later runs. *)
Definition sample_attempts : list claim_attempt :=
  [try_with no_root "v1" false; try_with all_well "v1" false; try_with all_well "v1" true; try_with all_well "v2" true;
   try_with unreadable "v1" true; try_with all_well "v1" false].
Lemma sample_history : claim_history ∅ sample_attempts =
  [Err ErrOperation; Ok tt; Ok tt; Err ErrPartial; Err ErrPartial; Err ErrPartial].
Proof. vm_compute. reflexivity. Qed.
Lemma targetClaim_once_witness :
  claim_history ∅ sample_attempts !! 2%nat = Some (Ok tt) /\ claim_history ∅ sample_attempts !! 5%nat <> Some (Ok tt).
Proof.
  destruct (targetClaim_once ∅ sample_attempts 1 (try_with all_well "v1" false)) as (_ & _ & Hf);
    [reflexivity|reflexivity|by rewrite sample_history|]. split.
  - apply (Hf 2%nat (try_with all_well "v1" true)); [lia|reflexivity|done].
  - rewrite (Hf 5%nat (try_with all_well "v1" false)); [|lia|reflexivity]. by intros (? & _).
Defined.

(** A password that tries to end the line. *)
Definition hostile : bytes := byte_of 120 :: byte_of 34 :: newline :: chars "[mysqld]".
Lemma ClientOptions_faithful_witness :
  exists config, ClientOptions "root" hostile = Ok config /\ length (lines config) = 4%nat.
Proof.
  exists (options_text (chars "root") hostile).
  assert (Hc : ClientOptions "root" hostile = Ok (options_text (chars "root") hostile)) by (vm_compute; reflexivity).
  split; [exact Hc|]. destruct (ClientOptions_faithful _ _ _ Hc) as [Hl _]. rewrite Hl. reflexivity.
Defined.

Definition sample_args : list string :=
  ["--target-claim=" +:+ sample_digest; "--target-uid=v1"; "root"; "/credentials/root"; "/config/root.cnf";
   "@/credentials/user"; "/credentials/password"; "/config/app.cnf"].
Definition sample_container (R : Type) (h : trace) (e : helper_call R) : R :=
  match e in helper_call R return R with
  | HelperCtx => Ok tt
  | ClaimCall d u r => (targetClaim all_well ∅ d u r).2
  | StatSize _ => Some 3
  | ReadSecret _ => Some (chars "abc")
  | CreateExclusive _ => true
  | WriteClose _ _ => true
  | ChownPath _ _ => true
  end.
Lemma HelperCLI_confined_witness : Forall (written (run sample_container [] (HelperCLI sample_args)).1)
  [("root", "/credentials/root", "/config/root.cnf"); ("@/credentials/user", "/credentials/password", "/config/app.cnf")].
Proof.
  destruct (HelperCLI_confined sample_args _ _ (run_exec sample_container (HelperCLI sample_args) [])) as [_ Hok].
  destruct Hok as (rest & Hc & Hl & Hw & _); [vm_compute; reflexivity|]. destruct Hc as [[-> Hf]|(a & b & t' & Hargs & _)].
  - vm_compute in Hf. discriminate Hf.
  - injection Hargs as _ _ <-. exact Hw.
Defined.
