(* ===== verification/SqlManifest.v ===== *)
(** * Objects of a MySQL copy in the cluster

    [internal/mysqlcopy/driver.go]: the values behind kubectl's answers, the
    specification of a helper and the claim of a target, and the comparison of a
    Pod with what it was created as.  A [map[string]any] holds its numbers as
    float64, which is written out here. *)

From stdpp Require Import base list strings pretty.
From Stdlib Require Import ZArith Lia Ascii String.
From S2P Require Import Prelude GoStrings Regex GoPath SqlPlan SqlFailure SqlStream SqlExecutor Json SqlHelper.

Local Open Scope string_scope.
Local Open Scope Z_scope.
Local Open Scope list_scope.

(** ** Numbers as float64 *)

(** The float64 nearest to [n / d], ties to even, as a multiple of [2^-1074];
    nothing where it is out of range. *)
Definition float_ulp (q : Z) : Z := if q <? 2 ^ 53 then 1 else 2 ^ (Z.log2 q - 52).
Definition round_even (s e : Z) : Z :=
  let k := s / e in
  let r := s - k * e in
  if 2 * r <? e then k else if e <? 2 * r then k + 1 else if Z.even k then k else k + 1.
Definition float_of_ratio (n d : Z) : option Z :=
  let s := Z.abs n * 2 ^ 1074 in
  let u := float_ulp (s / d) in
  let f := round_even s (d * u) * u in
  if 2 ^ 2098 <=? f then None else Some (Z.sgn n * f).
(** A number with a fraction or an exponent, by its text. *)
Fixpoint digits_value (acc : Z) (l : bytes) : Z :=
  match l with [] => acc | c :: l' => digits_value (10 * acc + (Z.of_N (code c) - 48)) l' end.
Definition signed (l : bytes) : bool * bytes :=
  match l with
  | c :: l' => if char_eq c (byte_of 45) then (true, l') else if char_eq c (byte_of 43) then (false, l') else (false, l)
  | [] => (false, [])
  end.
Definition is_exponent (c : ascii) : bool := one_of "eE" c.
Definition float_of_text (s : string) : option Z :=
  let '(negative, l) := signed (chars s) in
  let mantissa := take_while (fun c => negb (is_exponent c)) l in
  let '(down, power) := signed (drop_while is_exponent (skipn (length mantissa) l)) in
  let whole := take_while is_digit mantissa in
  let fraction := drop_while (char_eq (byte_of 46)) (skipn (length whole) mantissa) in
  let n := digits_value 0 (whole ++ fraction) in
  let n := if negative then - n else n in
  let exponent := (if down then - digits_value 0 power else digits_value 0 power) - Z.of_nat (length fraction) in
  if exponent <? 0 then float_of_ratio n (10 ^ (- exponent)) else float_of_ratio (n * 10 ^ exponent) 1.

(** An integer of 53 bits is exact. *)
Definition float_of_int (z : Z) : option Z := if Z.abs z <=? 2 ^ 53 then Some (z * 2 ^ 1074) else float_of_ratio z 1.
Definition as_float (v : json) : option Z :=
  match v with JNum z => float_of_int z | JFraction s => float_of_text s | _ => None end.
(** Decoding into [any] fails where a number is out of range. *)
Fixpoint in_range (v : json) : bool :=
  match v with
  | JNum _ | JFraction _ => match as_float v with Some _ => true | None => false end
  | JArr l => forallb in_range l
  | JObj l => forallb (fun x => in_range x.2) l
  | _ => true
  end.
(** A value with its numbers as they compare. *)
Fixpoint floats (v : json) : json :=
  match v with
  | JNum _ | JFraction _ => match as_float v with Some f => JNum f | None => v end
  | JArr l => JArr (map floats l)
  | JObj l => JObj (map (fun x => (x.1, floats x.2)) l)
  | _ => v
  end.
Definition same_value (a b : json) : bool := deep_equal (floats a) (floats b).
(** [a == b] of two values of type [any]; of two maps or slices it panics. *)
Definition any_equal (a b : json) : bool :=
  match a with JArr _ | JObj _ => false | _ => json_eqb (floats a) (floats b) end.

(** ** Access *)

(** [nested]: [JNull] is nil. *)
Fixpoint nested (v : json) (keys : list string) : json :=
  match keys with
  | [] => v
  | k :: keys' =>
      match v with
      | JObj l => match json_get k l with Some v' => nested v' keys' | None => nested JNull keys' end
      | _ => JNull
      end
  end.
(** [str], [arr], [num] *)
Definition str (v : json) (keys : list string) : string := as_text (Some (nested v keys)).
Definition arr (v : json) (keys : list string) : list json := as_array (Some (nested v keys)).
Definition num (v : json) (keys : list string) : Z := match as_float (nested v keys) with Some f => f | None => 0 end.
(** A number as [num] gives it. *)
Definition number (n : Z) : Z := n * 2 ^ 1074.
Definition is_nil_value (v : json) : bool := match v with JNull => true | _ => false end.
Definition present (v : json) (keys : list string) : bool := negb (is_nil_value (nested v keys)).
Definition delete_key (k : string) (l : json_fields) : json_fields := List.filter (fun x => negb (str_eq k x.1)) l.

(** What [json.Unmarshal] gives of a text: a map, nil for null. *)
Definition decode_map `{JsonText} (b : bytes) : option json :=
  match parse_json b with
  | Some (JObj l) => if in_range (JObj l) then Some (JObj l) else None
  | Some JNull => Some (JObj [])
  | _ => None
  end.

(** ** Names and labels *)

Definition short_hash `{Sha256} (b : string) : string := text (firstn 24 (chars (sha256_hex (chars b)))).
Section Manifests.
Context `{Sha256} `{PlanJson}.

Definition digest_annotation : string := "envplane.io/mysql-copy-digest".
(** [labels] *)
Definition labels (p : Plan) : json :=
  JObj [("envplane.io/managed", JStr "true"); ("envplane.io/project", JStr (Project p));
        ("envplane.io/environment", JStr (Environment p)); ("envplane.io/mysql-copy-plan", JStr (short_hash (Binding p)))].
(** [SourceClientHelperName], [receiptName] *)
Definition SourceClientHelperName (r : Ref) : string :=
  "mysqlcopy-source-" +:+ short_hash (Ref_Namespace r +:+ "/" +:+ Ref_Name r +:+ "/" +:+ Ref_UID r).
Definition receiptName (p : Plan) : string :=
  "mysqlcopy-receipt-" +:+ short_hash (Binding p +:+ "/" +:+ Tgt_PVCName (PTarget p)).

(** ** The helper *)

Definition memory_volume (volume limit : string) : json :=
  JObj [("name", JStr volume); ("emptyDir", JObj [("medium", JStr "Memory"); ("sizeLimit", JStr limit)])].
Definition mount (volume path : string) (more : json_fields) : json :=
  JObj ([("name", JStr volume); ("mountPath", JStr path)] ++ more).
Definition read_only : json_fields := [("readOnly", JBool true)].
Definition secret_source (secret : string) (items : list json) : json :=
  JObj [("secret", JObj [("name", JStr secret); ("items", JArr items)])].
Definition key_item (key path : string) : json := JObj [("key", JStr key); ("path", JStr path)].
(** Where the helper finds a credential. *)
Definition user_file (prefix : string) : string := "/credentials/" +:+ prefix +:+ ".user".
Definition password_file (prefix : string) : string := "/credentials/" +:+ prefix +:+ ".password".
(** [addCred]: what it projects, and the arguments of the helper command. *)
Definition cred_source (r : CredentialRef) (prefix : string) : json :=
  secret_source (Ref_Name (Cred_Ref r))
    (key_item (Cred_PasswordKey r) (prefix +:+ ".password")
     :: if str_ne (Cred_UsernameKey r) "" then [key_item (Cred_UsernameKey r) (prefix +:+ ".user")] else []).
Definition cred_args (r : CredentialRef) (prefix out : string) : list string :=
  [if str_ne (Cred_UsernameKey r) "" then "@" +:+ user_file prefix else Cred_Username r; password_file prefix; out].

Definition wants_admin (p : Plan) (target : bool) : bool := negb target && str_eq (DDLMode p) "backup_lock".
Definition app_credentials (p : Plan) (target : bool) : CredentialRef :=
  if target then Tgt_Credentials (PTarget p) else Src_Credentials (PSource p).
Definition credential_sources (p : Plan) (target : bool) : list json :=
  [cred_source (app_credentials p target) "app"]
  ++ (if wants_admin p target then [cred_source (Src_BackupAdminSecretRef (PSource p)) "admin"] else [])
  ++ (if target then []
      else [secret_source (Ref_Name (Src_TLSCASecret (PSource p)))
              [JObj [("key", JStr (Src_TLSCAKey (PSource p))); ("path", JStr "ca.pem"); ("mode", JNum 292)]]]).
Definition claim_args (p : Plan) (restart : bool) (pvcUID : string) : list string :=
  [(if restart then "--target-resume=" else "--target-claim=") +:+ digest p; "--target-uid=" +:+ pvcUID].
(** The arguments of [HelperCLI]. *)
Definition helper_args (p : Plan) (target restart : bool) (pvcUID : string) : list string :=
  (if target then claim_args p restart pvcUID else [])
  ++ cred_args (app_credentials p target) "app" "/config/app.cnf"
  ++ (if wants_admin p target then cred_args (Src_BackupAdminSecretRef (PSource p)) "admin" "/config/admin.cnf" else []).
Definition helper_volumes (p : Plan) (target : bool) : list json :=
  [memory_volume "config" "32Mi"; memory_volume "tmp" "64Mi"; memory_volume "run" "16Mi";
   JObj [("name", JStr "credentials");
         ("projected", JObj [("defaultMode", JNum 256); ("sources", JArr (credential_sources p target))])]]
  ++ (if target
      then [JObj [("name", JStr "data"); ("persistentVolumeClaim", JObj [("claimName", JStr (Tgt_PVCName (PTarget p)))])]]
      else []).
Definition TargetDataSubPath : string := "mysql".
Definition helper_mounts (target : bool) : list json :=
  [mount "config" "/config" read_only; mount "tmp" "/tmp" []; mount "run" "/run/mysqld" []]
  ++ (if target then [mount "data" "/var/lib/mysql" [("subPath", JStr TargetDataSubPath)]]
      else [mount "credentials" "/credentials" read_only]).
Definition init_mounts (target : bool) : list json :=
  [mount "credentials" "/credentials" read_only; mount "config" "/config" []; mount "tmp" "/tmp" []; mount "run" "/run/mysqld" []]
  ++ (if target then [mount "data" "/data" []] else []).
Definition security (user : Z) (more_capabilities : json_fields) : json :=
  JObj [("runAsUser", JNum user); ("runAsGroup", JNum user); ("runAsNonRoot", JBool (negb (user =? 0)));
        ("allowPrivilegeEscalation", JBool false); ("readOnlyRootFilesystem", JBool true);
        ("capabilities", JObj ([("drop", texts ["ALL"])] ++ more_capabilities))].
Definition resources (cpu memory cpu_limit memory_limit : string) : json :=
  JObj [("requests", JObj [("cpu", JStr cpu); ("memory", JStr memory)]);
        ("limits", JObj [("cpu", JStr cpu_limit); ("memory", JStr memory_limit)])].
Definition key_ref (secret key : string) : json :=
  JObj [("secretKeyRef", JObj [("name", JStr secret); ("key", JStr key)])].
(** The environment of the target's server. *)
Definition server_env (p : Plan) : list json :=
  let cred := Tgt_Credentials (PTarget p) in
  let secret := Ref_Name (Cred_Ref cred) in
  [JObj [("name", JStr "MYSQL_DATABASE"); ("value", JStr (Tgt_Database (PTarget p)))];
   JObj [("name", JStr "MYSQL_USER");
         if str_ne (Cred_UsernameKey cred) "" then ("valueFrom", key_ref secret (Cred_UsernameKey cred))
         else ("value", JStr (Cred_Username cred))];
   JObj [("name", JStr "MYSQL_PASSWORD"); ("valueFrom", key_ref secret (Cred_PasswordKey cred))];
   JObj [("name", JStr "MYSQL_ROOT_PASSWORD"); ("valueFrom", key_ref secret (Tgt_RootPasswordKey (PTarget p)))]].
Definition timeout_seconds (p : Plan) : Z := Z.quot (Timeout p) 1000000000.
Definition helper_container (p : Plan) (target : bool) : json :=
  JObj ([("name", JStr "mysql"); ("image", JStr (Src_Image (PSource p))); ("securityContext", security 999 []);
         ("volumeMounts", JArr (helper_mounts target));
         ("command", texts [if target then "docker-entrypoint.sh" else "sleep"]);
         ("args", texts (if target then ["mysqld"; "--skip-name-resolve"] else [pretty (timeout_seconds p)]));
         ("resources", resources "100m" "128Mi" "1" "1Gi")]
        ++ (if target then [("env", JArr (server_env p))] else [])).
Definition init_container (p : Plan) (target restart : bool) (pvcUID : string) : json :=
  JObj [("name", JStr "config"); ("image", JStr (ConfigImage p)); ("command", texts ["envplane-runner"]);
        ("args", texts ("mysql-client-config" :: helper_args p target restart pvcUID));
        ("securityContext", security 0 [("add", texts ["CHOWN"; "FOWNER"; "DAC_OVERRIDE"])]);
        ("volumeMounts", JArr (init_mounts target)); ("resources", resources "10m" "16Mi" "100m" "64Mi")].
(** [helperSpec] *)
Definition helper_fields (p : Plan) (sa : string) (target restart : bool) (pvcUID : string) : json_fields :=
  [("restartPolicy", JStr "Never"); ("automountServiceAccountToken", JBool false); ("serviceAccountName", JStr sa);
   ("activeDeadlineSeconds", JNum (timeout_seconds p + 30)); ("terminationGracePeriodSeconds", JNum 30);
   ("enableServiceLinks", JBool false); ("securityContext", JObj []);
   ("containers", JArr [helper_container p target]); ("initContainers", JArr [init_container p target restart pvcUID]);
   ("volumes", JArr (helper_volumes p target))].
Definition helperSpec (p : Plan) (sa : string) (target restart : bool) (pvcUID : string) : json :=
  JObj (helper_fields p sa target restart pvcUID).
(** [SourceClientHelperSpec] *)
Definition SourceClientHelperSpec (p : Plan) (sa : string) : result sql_error json :=
  refuse negb (is_ok (Validate p)) || negb (match_string name sa) with ErrUnsafe;;
  Ok (helperSpec p sa false false "").

(** The Pod of a helper: the name of a source's is fixed. *)
Definition digest_annotations (d : string) : json := JObj [(digest_annotation, JStr d)].
Definition pod_metadata (p : Plan) (d : string) (target : bool) : json :=
  JObj [if target then ("generateName", JStr "mysqlcopy-target-")
        else ("name", JStr (SourceClientHelperName (Src_PVC (PSource p))));
        ("namespace", JStr (if target then Tgt_Namespace (PTarget p) else Ref_Namespace (Src_PVC (PSource p))));
        ("labels", labels p); ("annotations", digest_annotations d)].
Definition pod_manifest (p : Plan) (d : string) (target : bool) (spec : json) : json :=
  JObj [("apiVersion", JStr "v1"); ("kind", JStr "Pod"); ("metadata", pod_metadata p d target); ("spec", spec)].
(** The claim of the target, and the receipt. *)
Definition pvc_manifest (p : Plan) (d : string) : json :=
  let t := PTarget p in
  JObj [("apiVersion", JStr "v1"); ("kind", JStr "PersistentVolumeClaim");
        ("metadata", JObj [("name", JStr (Tgt_PVCName t)); ("namespace", JStr (Tgt_Namespace t)); ("labels", labels p);
                           ("annotations", digest_annotations d)]);
        ("spec", JObj [("accessModes", texts ["ReadWriteOnce"]); ("storageClassName", JStr (Tgt_StorageClass t));
                       ("volumeMode", JStr "Filesystem");
                       ("resources", JObj [("requests", JObj [("storage", JStr (pretty (Tgt_RequestedBytes t)))])])])].
Definition receipt_manifest (p : Plan) (d receipt : string) : json :=
  JObj [("apiVersion", JStr "v1"); ("kind", JStr "ConfigMap"); ("immutable", JBool true);
        ("metadata", JObj [("name", JStr (receiptName p)); ("namespace", JStr (Tgt_Namespace (PTarget p))); ("labels", labels p);
                           ("annotations", digest_annotations d)]);
        ("data", JObj [("receipt.json", JStr receipt)])].

(** ** Comparisons *)

(** [podMatches] *)
Definition defaulted_keys : list string := ["nodeName"; "schedulerName"; "priority"; "preemptionPolicy"; "dnsPolicy"; "tolerations"].
Definition container_defaults : list string := ["terminationMessagePath"; "terminationMessagePolicy"; "imagePullPolicy"].
Definition without (keys : list string) (l : json_fields) : json_fields := foldr delete_key l keys.
Definition clean_container (v : json) : json := match v with JObj l => JObj (without container_defaults l) | _ => v end.
Definition clean_containers (k : string) (v : json) : json :=
  if str_eq k "containers" || str_eq k "initContainers"
  then match v with JArr l => JArr (map clean_container l) | _ => v end
  else v.
Definition clean_pod (alias : string) (l : json_fields) : json_fields :=
  let l := without defaulted_keys l in
  map (fun x => (x.1, clean_containers x.1 x.2)) (if str_ne alias "" then delete_key "serviceAccount" l else l).
Definition podMatches (expected actual : json_fields) : bool :=
  let alias := str (JObj (without defaulted_keys actual)) ["serviceAccount"] in
  if str_ne alias "" && str_ne alias (str (JObj expected) ["serviceAccountName"]) then false
  else same_value (JObj expected) (JObj (clean_pod alias actual)).
(** [targetPVCSpec] *)
Definition targetPVCSpec (p : Plan) (pvc : json) : bool :=
  str_eq (str pvc ["spec"; "storageClassName"]) (Tgt_StorageClass (PTarget p))
  && str_eq (str pvc ["spec"; "volumeMode"]) "Filesystem"
  && same_value (JArr (arr pvc ["spec"; "accessModes"])) (texts ["ReadWriteOnce"])
  && negb (present pvc ["spec"; "dataSource"]) && negb (present pvc ["spec"; "dataSourceRef"]).
(** [resolvedImageMatches] *)
Definition containerd_prefix : string := "containerd://".
Definition resolvedImageMatches (pin actual : string) : bool :=
  match split2 "@" pin with
  | Some (_, pinned) =>
      if has_prefix actual "containerd://sha256:" then str_eq (trim_prefix actual containerd_prefix) pinned
      else match split2 "@" (trim_prefix actual "docker-pullable://") with
           | Some (_, resolved) => str_eq resolved pinned
           | None => false
           end
  | None => false
  end.
End Manifests.

(** ** Lemmas: values *)

Definition norm (v : json) : json := ordered_keys (floats v).
Definition norm_fields (l : json_fields) : json_fields := map (fun x => (x.1, norm x.2)) l.
Lemma norm_obj l : norm (JObj l) = JObj (sort_slice before_key (norm_fields l)).
Proof. unfold norm, norm_fields. cbn [floats ordered_keys]. by rewrite map_map. Qed.
Lemma norm_arr l : norm (JArr l) = JArr (map norm l).
Proof. unfold norm. cbn [floats ordered_keys]. by rewrite map_map. Qed.
Lemma same_value_true a b : same_value a b = true <-> norm a = norm b.
Proof. apply json_eqb_true. Qed.

Lemma json_get_norm k l : json_get k (norm_fields l) = option_map norm (json_get k l).
Proof.
  induction l as [|[k' v] l IH]; [done|]. cbn [norm_fields map json_get fst snd]. destruct (str_eq k k'); [done|]. apply IH.
Qed.
Lemma norm_keys l : map fst (norm_fields l) = map fst l.
Proof. unfold norm_fields. rewrite map_map. done. Qed.
Lemma json_get_none k l : json_get k l = None <-> ~ In k (map fst l).
Proof.
  induction l as [|[k' v] l IH]; cbn [json_get map fst In]; [tauto|]. destruct (str_eq k k') eqn:E.
  - apply str_eq_true in E as ->. split; [done|]. tauto.
  - apply str_eq_false in E. rewrite IH. split; [intros Hn [->|?]; [done|tauto]|tauto].
Qed.
Lemma json_get_unique k v l : NoDup (map fst l) -> In (k, v) l -> json_get k l = Some v.
Proof.
  induction l as [|[k' w] l IH]; [done|]. cbn [map fst]. intros [Hk Hn]%NoDup_cons [Heq|Hin]; cbn [json_get].
  - injection Heq as -> ->. by rewrite (proj2 (str_eq_true k k) eq_refl).
  - destruct (str_eq k k') eqn:E; [|by apply IH]. apply str_eq_true in E as ->.
    exfalso. apply Hk, list_elem_of_In, in_map_iff. by exists (k', v).
Qed.
Lemma json_get_perm k l l' : NoDup (map fst l) -> l ≡ₚ l' -> json_get k l = json_get k l'.
Proof.
  intros Hn Hp. assert (Hn' : NoDup (map fst l')).
  { by rewrite <- (Permutation_map fst Hp). }
  destruct (json_get k l) as [v|] eqn:E.
  - symmetry. apply json_get_unique; [done|]. eapply Permutation_in; [exact Hp|by apply json_get_in].
  - symmetry. apply json_get_none. apply json_get_none in E. intros Hin. apply E.
    eapply Permutation_in; [apply Permutation_map; symmetry; exact Hp|done].
Qed.

(** Two objects with the same value have the same fields. *)
Lemma norm_obj_get l l' k : NoDup (map fst l) -> norm (JObj l) = norm (JObj l') ->
  option_map norm (json_get k l) = option_map norm (json_get k l').
Proof.
  intros Hn. rewrite !norm_obj. intros [= Heq]. rewrite <- !json_get_norm. apply json_get_perm; [by rewrite norm_keys|].
  rewrite <- (sort_slice_perm before_key (norm_fields l)), Heq. apply sort_slice_perm.
Qed.
(** The order of the keys does not matter. *)
Lemma before_key_sorted l : StronglySorted (in_order before_key) (sort_slice before_key l).
Proof.
  apply sort_slice_sorted; unfold before_key; intros; [apply str_ltb_irrefl|by eapply str_ltb_trans|by eapply str_ltb_negtrans].
Qed.
Lemma norm_obj_perm l l' : NoDup (map fst l) -> norm_fields l ≡ₚ norm_fields l' -> norm (JObj l) = norm (JObj l').
Proof.
  intros Hn Hp. rewrite !norm_obj. f_equal.
  apply (StronglySorted_unique_strong (in_order before_key)); [|apply before_key_sorted|apply before_key_sorted|by rewrite !sort_slice_perm].
  intros [k v] [k' v'] Hx Hy H1 H2. unfold in_order, before_key in H1, H2. cbn [fst] in H1, H2.
  assert (k = k') as <- by (destruct (str_ltb_total _ _ H1) as [?|?]; congruence). f_equal.
  rewrite sort_slice_perm in Hx. rewrite sort_slice_perm, <- Hp in Hy. rewrite list_elem_of_In in Hx, Hy.
  assert (Hu : NoDup (map fst (norm_fields l))) by by rewrite norm_keys.
  apply (json_get_unique _ _ _ Hu) in Hx. apply (json_get_unique _ _ _ Hu) in Hy. congruence.
Qed.

(** ** Lemmas: the comparison of Pods *)

Lemma json_get_delete k k' l : json_get k (delete_key k' l) = if str_eq k' k then None else json_get k l.
Proof.
  unfold delete_key. induction l as [|[i v] l IH]; [by destruct (str_eq k' k)|]. cbn [List.filter fst json_get].
  destruct (str_eq k' i) eqn:E; cbn [negb].
  - rewrite IH. apply str_eq_true in E as <-. destruct (str_eq k' k) eqn:E'; [done|].
    apply str_eq_false in E'. by rewrite (proj2 (str_eq_false k k')) by congruence.
  - cbn [json_get]. rewrite IH. destruct (str_eq k i) eqn:E'; [|done].
    apply str_eq_true in E' as <-. by rewrite E.
Qed.
Lemma json_get_without k keys l : ~ In k keys -> json_get k (without keys l) = json_get k l.
Proof.
  intros Hk. induction keys as [|k' keys IH]; [done|]. cbn [without foldr] in *. rewrite json_get_delete.
  destruct (str_eq k' k) eqn:E; [apply str_eq_true in E as ->; exfalso; apply Hk; by left|].
  apply IH. intros Hin. apply Hk. by right.
Qed.
Lemma json_get_clean k alias l : ~ In k ("serviceAccount" :: defaulted_keys) ->
  json_get k (clean_pod alias l) = option_map (clean_containers k) (json_get k l).
Proof.
  intros Hk. unfold clean_pod.
  assert (Hm : forall m, json_get k (map (fun x => (x.1, clean_containers x.1 x.2)) m) = option_map (clean_containers k) (json_get k m)).
  { induction m as [|[i v] m IH]; [done|]. cbn [map json_get fst snd]. destruct (str_eq k i) eqn:E; [|done].
    by apply str_eq_true in E as <-. }
  rewrite Hm. f_equal. trans (json_get k (without defaulted_keys l)).
  - destruct (str_ne alias ""); [|done]. rewrite json_get_delete. destruct (str_eq _ k) eqn:E; [|done].
    apply str_eq_true in E as <-. exfalso. apply Hk. by left.
  - apply json_get_without. intros Hin. apply Hk. by right.
Qed.

(** Two objects that have the same fields, apart from some. *)
Definition same_fields (ignored : list string) (a b : json) : Prop :=
  exists l l', a = JObj l /\ b = JObj l' /\ forall k, ~ In k ignored -> option_map norm (json_get k l) = option_map norm (json_get k l').

Lemma norm_obj_inv v l : norm v = norm (JObj l) -> exists l', v = JObj l'.
Proof. destruct v as [| |z|s| | |l']; rewrite norm_obj; unfold norm; cbn [floats]; try done; [by destruct (as_float _)..|by exists l']. Qed.
Lemma norm_same_fields v l : NoDup (map fst l) -> norm v = norm (JObj l) -> same_fields [] v (JObj l).
Proof.
  intros Hn He. destruct (norm_obj_inv _ _ He) as [l' ->]. exists l', l. split_and!; try done. intros k _.
  symmetry. by apply norm_obj_get.
Qed.
Lemma norm_arr_inv v l : norm v = norm (JArr l) -> exists l', v = JArr l' /\ map norm l' = map norm l.
Proof.
  rewrite (norm_arr l). destruct v as [| |z|s| |l'|l'].
  6: { rewrite norm_arr. intros [= ?]. by exists l'. }
  all: unfold norm; cbn [floats]; try done; by destruct (as_float _).
Qed.
Definition fields_unique (v : json) : Prop := match v with JObj l => NoDup (map fst l) | _ => False end.
Lemma norm_list_same_fields l l' : Forall fields_unique l' -> map norm l = map norm l' -> Forall2 (same_fields []) l l'.
Proof.
  revert l. induction l' as [|v' l' IH]; intros [|v l] Hu He; try done.
  apply Forall_cons in Hu as [Hv Hu]. injection He as Hx He. constructor; [|by apply IH].
  destruct v' as [| | | | | |fs]; try done. by apply norm_same_fields.
Qed.

Lemma clean_same_fields v l : same_fields [] (clean_container v) (JObj l) -> same_fields container_defaults v (JObj l).
Proof.
  intros (l1 & l2 & Hv & Hl & Hk). injection Hl as ->. destruct v as [| | | | | |fs]; try done.
  injection Hv as <-. exists fs, l2. split_and!; try done. intros k Hin. rewrite <- (Hk k) by by intros [].
  f_equal. symmetry. by apply (json_get_without k container_defaults).
Qed.

(** A matching Pod, field by field. *)
Lemma podMatches_get expected actual k : NoDup (map fst expected) -> podMatches expected actual = true ->
  ~ In k ("serviceAccount" :: defaulted_keys) ->
  option_map norm (json_get k expected) = option_map (fun v => norm (clean_containers k v)) (json_get k actual).
Proof.
  intros Hn Hm Hk. unfold podMatches in Hm. cbv zeta in Hm. destruct (_ && _); [done|]. apply same_value_true in Hm.
  rewrite (norm_obj_get _ _ k Hn Hm), json_get_clean by done. by destruct (json_get k actual).
Qed.
Lemma podMatches_list expected actual k l : NoDup (map fst expected) -> podMatches expected actual = true ->
  ~ In k ("serviceAccount" :: defaulted_keys) -> clean_containers k = (fun v => v) -> json_get k expected = Some (JArr l) ->
  map norm (arr (JObj actual) [k]) = map norm l.
Proof.
  intros Hn Hm Hk Hc He. pose proof (podMatches_get _ _ _ Hn Hm Hk) as Hg. rewrite He, Hc in Hg. cbn [option_map] in Hg.
  unfold arr. cbn [nested]. destruct (json_get k actual) as [v|]; [|done]. injection Hg as Hg. symmetry in Hg.
  by apply norm_arr_inv in Hg as (l' & -> & Hl).
Qed.
Lemma podMatches_containers expected actual k c : NoDup (map fst expected) -> podMatches expected actual = true ->
  In k ["containers"; "initContainers"] -> json_get k expected = Some (JArr [JObj c]) -> NoDup (map fst c) ->
  Forall2 (same_fields container_defaults) (arr (JObj actual) [k]) [JObj c].
Proof.
  intros Hn Hm Hin He Hu.
  assert (Hk : ~ In k ("serviceAccount" :: defaulted_keys)) by (destruct Hin as [<-|[<-|[]]]; intros Hb; cbn in Hb; destruct_or? Hb; done).
  assert (Hc : str_eq k "containers" || str_eq k "initContainers" = true) by by destruct Hin as [<-|[<-|[]]].
  pose proof (podMatches_get _ _ _ Hn Hm Hk) as Hg. rewrite He in Hg. cbn [option_map] in Hg.
  unfold arr. cbn [nested]. destruct (json_get k actual) as [v|]; [|done]. cbn [nested option_map] in *. injection Hg as Hg. symmetry in Hg.
  unfold clean_containers in Hg. rewrite Hc in Hg. destruct v as [| | | | |l|]; apply norm_arr_inv in Hg as (l' & Hl & Hg); try done.
  injection Hl as <-. cbn [as_array]. destruct l as [|v [|]]; cbn [map] in Hg; try done. constructor; [|constructor].
  injection Hg as Hg. apply clean_same_fields. by apply norm_same_fields.
Qed.

(** What is read along a path. *)
Fixpoint unique_along (v : json) (keys : list string) : Prop :=
  match keys with
  | [] => True
  | k :: keys' =>
      match v with
      | JObj l => NoDup (map fst l) /\ match json_get k l with Some v' => unique_along v' keys' | None => True end
      | _ => True
      end
  end.
Lemma nested_null keys : nested JNull keys = JNull.
Proof. by destruct keys. Qed.
Lemma norm_nested a b keys : norm a = norm b -> unique_along b keys -> norm (nested a keys) = norm (nested b keys).
Proof.
  revert a b. induction keys as [|k keys IH]; intros a b He Hu; [done|]. destruct b as [|b|z|s|s|l|l].
  7: { destruct (norm_obj_inv _ _ He) as [l' ->]. cbn [nested unique_along] in *. destruct Hu as [Hn Hu].
       pose proof (norm_obj_get _ _ k Hn (eq_sym He)) as Hg.
       destruct (json_get k l) as [v|], (json_get k l') as [v'|]; try done; [injection Hg as Hg; by apply IH]. }
  all: assert (Ha : match a with JObj _ => False | _ => True end);
       [destruct a as [| | | | | |l']; try done; symmetry in He; apply norm_obj_inv in He as [? ?]; done|]; by destruct a.
Qed.
Lemma as_text_norm v : as_text (Some (norm v)) = as_text (Some v).
Proof. destruct v as [| | | | | |l]; rewrite ?norm_obj; unfold norm; cbn [floats]; try done; by destruct (as_float _). Qed.
Lemma norm_str a b keys : norm a = norm b -> unique_along b keys -> str a keys = str b keys.
Proof.
  intros He Hu. unfold str. rewrite <- (as_text_norm (nested a keys)), <- (as_text_norm (nested b keys)).
  by rewrite (norm_nested _ _ _ He Hu).
Qed.

(** The claims that a list of volumes mounts. *)
Definition claim_names (l : list json) : list string :=
  List.filter (fun s => str_ne s "") (map (fun v => str v ["persistentVolumeClaim"; "claimName"]) l).
Lemma norm_claim_names l l' : map norm l = map norm l' -> Forall (fun v => unique_along v ["persistentVolumeClaim"; "claimName"]) l' ->
  claim_names l = claim_names l'.
Proof.
  intros He Hu. unfold claim_names. f_equal. revert l He. induction Hu as [|v' l' Hv _ IH]; intros [|v l] He; try done.
  injection He as Hx He. cbn [map]. f_equal; [by apply norm_str|by apply IH].
Qed.

Section Matched.
Context `{Sha256} `{PlanJson}.

Ltac keys_unique := match goal with |- NoDup ?l => let l' := eval lazy in l in change (NoDup l'); by apply (bool_decide_unpack _) end.
Lemma helper_unique p sa target restart uid : NoDup (map fst (helper_fields p sa target restart uid)).
Proof. keys_unique. Qed.
Definition fields (v : json) : json_fields := match v with JObj l => l | _ => [] end.
Lemma container_unique p target : NoDup (map fst (fields (helper_container p target))).
Proof. destruct target; keys_unique. Qed.
Lemma init_unique p target restart uid : NoDup (map fst (fields (init_container p target restart uid))).
Proof. keys_unique. Qed.
Lemma volumes_unique p target : Forall fields_unique (helper_volumes p target).
Proof. destruct target; repeat (apply Forall_cons; split; [unfold fields_unique, memory_volume; keys_unique|]); by apply Forall_nil. Qed.

Lemma volumes_unique_along p target : Forall (fun v => unique_along v ["persistentVolumeClaim"; "claimName"]) (helper_volumes p target).
Proof.
  destruct target; repeat (apply Forall_cons; split; [split; [keys_unique|]; try done|]); try by apply Forall_nil.
  cbn. split; [keys_unique|done].
Qed.

(** C19: A Pod that the driver accepts as one of its helpers differs from the
    specification it was created with only in the fields that the API server
    defaults: every other field is the one that was asked for and there is no
    further one, the one container and the one init container likewise, and it
    mounts no claim, or the target's alone. *)
Theorem matched_helper p sa target restart uid actual :
  podMatches (helper_fields p sa target restart uid) actual = true ->
  same_fields ("serviceAccount" :: "containers" :: "initContainers" :: defaulted_keys) (JObj actual) (helperSpec p sa target restart uid)
  /\ (str (JObj actual) ["serviceAccount"] = "" \/ str (JObj actual) ["serviceAccount"] = sa)
  /\ Forall2 (same_fields container_defaults) (arr (JObj actual) ["containers"]) [helper_container p target]
  /\ Forall2 (same_fields container_defaults) (arr (JObj actual) ["initContainers"]) [init_container p target restart uid]
  /\ Forall2 (same_fields []) (arr (JObj actual) ["volumes"]) (helper_volumes p target)
  /\ claim_names (arr (JObj actual) ["volumes"]) = if target && str_ne (Tgt_PVCName (PTarget p)) "" then [Tgt_PVCName (PTarget p)] else [].
Proof.
  intros Hm. pose proof (helper_unique p sa target restart uid) as Hn.
  assert (Hv : map norm (arr (JObj actual) ["volumes"]) = map norm (helper_volumes p target)).
  { apply (podMatches_list (helper_fields p sa target restart uid) actual "volumes" _ Hn Hm); [|done|done].
    intros Hin. cbn in Hin. destruct_or? Hin; done. }
  split; [|split; [|split; [|split; [|split]]]].
  - exists actual, (helper_fields p sa target restart uid). split_and!; try done. intros k Hk. symmetry.
    rewrite (podMatches_get _ _ k Hn Hm) by (cbn in *; tauto). destruct (json_get k actual) as [v|]; [|done]. cbn [option_map]. f_equal.
    f_equal. unfold clean_containers. destruct (_ || _) eqn:E; [|done]. exfalso. apply Hk.
    apply orb_true_iff in E as [->%str_eq_true | ->%str_eq_true]; cbn; tauto.
  - assert (Ha : str (JObj actual) ["serviceAccount"] = str (JObj (without defaulted_keys actual)) ["serviceAccount"]).
    { unfold str. cbn [nested]. by rewrite json_get_without by (intros Hin; cbn in Hin; destruct_or? Hin; done). }
    rewrite Ha. unfold podMatches in Hm. cbv zeta in Hm. destruct (_ && _) eqn:E; [done|].
    apply andb_false_iff in E as [E|E]; [left|right]; by apply str_ne_false in E.
  - apply (podMatches_containers _ _ _ _ Hn Hm); [by left|reflexivity|by destruct target; keys_unique].
  - apply (podMatches_containers _ _ _ _ Hn Hm); [by right; left|reflexivity|keys_unique].
  - apply norm_list_same_fields; [apply volumes_unique|done].
  - rewrite (norm_claim_names _ _ Hv); [by destruct target|apply volumes_unique_along].
Qed.

(** *** What the API server may add *)

Lemma without_filter keys l : without keys l = List.filter (fun x => negb (existsb (str_eq x.1) keys)) l.
Proof.
  induction keys as [|k keys IH]; cbn [without foldr existsb].
  - induction l as [|x l IH]; [done|]. cbn [List.filter]. change (negb false) with true. cbv iota. by rewrite <- IH at 1.
  - unfold without in IH. rewrite IH. unfold delete_key. clear IH. induction l as [|x l IH]; [done|]. cbn [List.filter].
    assert (Hs : str_eq k x.1 = str_eq x.1 k) by (unfold str_eq; apply bool_decide_ext; split; congruence).
    destruct (existsb (str_eq x.1) keys) eqn:E; cbn [negb List.filter].
    + by rewrite orb_true_r.
    + rewrite orb_false_r, Hs, IH. done.
Qed.
Lemma filter_perm {A} (f : A -> bool) (l l' : list A) : l ≡ₚ l' -> List.filter f l ≡ₚ List.filter f l'.
Proof.
  induction 1 as [|x l l' _ IH|x y l|l l2 l3 _ IH1 _ IH2]; cbn [List.filter]; [done| | |by etrans].
  - destruct (f x); [by constructor|done].
  - destruct (f x), (f y); try done. constructor.
Qed.
(** The fields of [l], in any order, and further ones of these names. *)
Definition extended (keys : list string) (l actual : json_fields) : Prop :=
  exists extra, actual ≡ₚ extra ++ l /\ Forall (fun x => In x.1 keys) extra.
Lemma without_extended keys l actual : extended keys l actual -> Forall (fun x => ~ In x.1 keys) l ->
  without keys actual ≡ₚ l.
Proof.
  intros (extra & Hp & He) Hl. rewrite without_filter, (filter_perm _ _ _ Hp). clear Hp.
  assert (Hk : forall x : string * json, existsb (str_eq x.1) keys = true <-> In x.1 keys) by (intros x; apply existsb_str).
  induction He as [|x extra Hx _ IH]; cbn [app List.filter].
  - induction Hl as [|x l Hx _ IH]; [done|]. cbn [List.filter]. destruct (existsb _ keys) eqn:E; [by apply Hk in E|]. cbn [negb].
    by constructor.
  - by rewrite (proj2 (Hk x) Hx).
Qed.

Definition with_containers (c i : json) (l : json_fields) : json_fields :=
  map (fun x => (x.1, if str_eq x.1 "containers" then JArr [c] else if str_eq x.1 "initContainers" then JArr [i] else x.2)) l.
(** A Pod specification that is admitted as it was asked for, with defaults. *)
Definition admitted (sa : string) (l actual : json_fields) : Prop :=
  NoDup (map fst actual) /\ (json_get "serviceAccount" actual = None \/ json_get "serviceAccount" actual = Some (JStr sa))
  /\ exists c i cl il, arr (JObj l) ["containers"] = [JObj cl] /\ arr (JObj l) ["initContainers"] = [JObj il]
     /\ extended container_defaults cl c /\ extended container_defaults il i
     /\ extended ("serviceAccount" :: defaulted_keys) (with_containers (JObj c) (JObj i) l) actual.

Lemma clean_pod_filter alias actual : (alias = "" -> json_get "serviceAccount" actual = None) -> NoDup (map fst actual) ->
  clean_pod alias actual
  = map (fun x => (x.1, clean_containers x.1 x.2)) (without ("serviceAccount" :: defaulted_keys) actual).
Proof.
  intros Ha Hn. unfold clean_pod. f_equal. cbn [without foldr]. destruct (str_ne alias "") eqn:E; [done|].
  apply str_ne_false in E. specialize (Ha E). fold (without defaulted_keys actual).
  assert (Hs : json_get "serviceAccount" (without defaulted_keys actual) = None).
  { by rewrite json_get_without by (intros Hin; cbn in Hin; destruct_or? Hin; done). }
  revert Hs. generalize (without defaulted_keys actual). intros m. induction m as [|[k v] m IH]; [done|].
  cbn [json_get delete_key List.filter fst]. destruct (str_eq _ k); [done|]. intros Hm. cbn [negb]. f_equal. by apply IH.
Qed.
Lemma norm_containers cl c : NoDup (map fst cl) -> Forall (fun x => ~ In x.1 container_defaults) cl ->
  extended container_defaults cl c -> norm (clean_container (JObj c)) = norm (JObj cl).
Proof.
  intros Hn Hd He. symmetry. apply norm_obj_perm; [done|]. symmetry. apply Permutation_map. by apply without_extended.
Qed.

Ltac no_defaults := repeat (apply Forall_cons; split; [intros Hin; lazy in Hin; destruct_or? Hin; done|]); by apply Forall_nil.
(** A helper that the API server admits as it was asked for, with its
    defaults and its keys in any order, is accepted as created. *)
Theorem admitted_matches p sa target restart uid actual : sa <> "" ->
  admitted sa (helper_fields p sa target restart uid) actual -> podMatches (helper_fields p sa target restart uid) actual = true.
Proof.
  intros Hsa (Hn & Halias & c & i & cl & il & Hc & Hi & Ec & Ei & He).
  change ([helper_container p target] = [JObj cl]) in Hc. change ([init_container p target restart uid] = [JObj il]) in Hi.
  injection Hc as <-. injection Hi as <-.
  assert (Ha : str (JObj (without defaulted_keys actual)) ["serviceAccount"] = if json_get "serviceAccount" actual then sa else "").
  { unfold str. cbn [nested]. rewrite json_get_without by (intros Hin; cbn in Hin; destruct_or? Hin; done).
    by destruct Halias as [-> | ->]. }
  unfold podMatches. cbv zeta. rewrite Ha. destruct (_ && _) eqn:E.
  { apply andb_true_iff in E as [E1 E2]. destruct (json_get _ actual); [|done]. by apply str_ne_true in E2. }
  apply same_value_true. rewrite clean_pod_filter; [|by destruct Halias as [-> | ->]|done].
  pose proof (helper_unique p sa target restart uid) as Hu. apply norm_obj_perm; [done|].
  symmetry. etrans; [apply Permutation_map, Permutation_map, (without_extended _ _ _ He)|].
  - unfold with_containers, helper_fields. cbn [map fst snd]. no_defaults.
  - unfold with_containers, norm_fields. rewrite !map_map. apply reflexive_eq, map_ext_in. intros x Hx. cbn [fst snd]. f_equal.
    cbn [helper_fields In] in Hx. destruct_or! Hx; try done; subst x; cbn [fst snd]; try reflexivity.
    + change (norm (JArr [clean_container (JObj c)]) = norm (JArr [helper_container p target])). rewrite !norm_arr. cbn [map].
      rewrite (norm_containers _ _ (container_unique p target)); [done| |done]. destruct target; no_defaults.
    + change (norm (JArr [clean_container (JObj i)]) = norm (JArr [init_container p target restart uid])). rewrite !norm_arr. cbn [map].
      rewrite (norm_containers _ _ (init_unique p target restart uid)); [done|no_defaults|done].
Qed.

(** *** The helper's own command *)

(** A pod of the helper in which everything works: its projected secrets and
    the volume that it finds. *)
Definition container (secrets : string -> bytes) (v : data_volume) (R : Type) (h : list (event helper_call)) (e : helper_call R) : R :=
  match e in helper_call R return R with
  | HelperCtx => Ok tt
  | ClaimCall d u r => (targetClaim all_well v d u r).2
  | StatSize path => Some (Z.of_nat (length (secrets path)))
  | ReadSecret path => Some (secrets path)
  | CreateExclusive _ => true
  | WriteClose _ _ => true
  | ChownPath _ _ => true
  end.
(** The user and the password that are projected under a prefix. *)
Definition user_bytes (secrets : string -> bytes) (r : CredentialRef) (prefix : string) : bytes :=
  if str_ne (Cred_UsernameKey r) "" then secrets (user_file prefix) else chars (Cred_Username r).
Definition usable (secrets : string -> bytes) (r : CredentialRef) (prefix : string) : Prop :=
  match_string identifier (text (user_bytes secrets r prefix)) = true
  /\ (str_ne (Cred_UsernameKey r) "" = true -> 1 <= Z.of_nat (length (secrets (user_file prefix))) <= 4096)
  /\ 1 <= Z.of_nat (length (secrets (password_file prefix))) <= 4096 /\ has_byte nul (secrets (password_file prefix)) = false.
Definition option_file (secrets : string -> bytes) (r : CredentialRef) (prefix : string) : bytes :=
  options_text (user_bytes secrets r prefix) (secrets (password_file prefix)).

(** An identifier starts with a letter. *)
Lemma identifier_prefix u c s : match_string identifier u = true -> letter c = false -> has_prefix u (String c s) = false.
Proof.
  rewrite match_string_lang. unfold identifier. intros (w & t & Hu & (c' & -> & Hc)%lang_chr_inv & _)%lang_seq_inv Hl.
  unfold has_prefix. rewrite Hu. change (chars (String c s)) with (c :: chars s). cbn [app prefix_of].
  destruct (char_eq c c') eqn:E; [|done]. apply char_eq_true in E as <-. congruence.
Qed.
Lemma identifier_not_file u : match_string identifier u = true -> has_prefix u "@" = false.
Proof. intros Hu. by apply identifier_prefix. Qed.

Section Container.
Variable secrets : string -> bytes.
Variable v : data_volume.
Notation here := (run (container secrets v)).

Lemma credential_runs h path : has_prefix path "/credentials/" = true -> path_clean path = path -> unclean path = false ->
  1 <= Z.of_nat (length (secrets path)) <= 4096 -> (here h (credential path)).2 = Ok (secrets path).
Proof.
  intros Hp Hc Hu Hl. unfold credential. rewrite run_bind. cbn [snd]. unfold readCredential. rewrite Hp, Hu, (proj2 (str_ne_false _ _) Hc).
  cbn [negb orb call bind run container]. rewrite (proj2 (Z.leb_gt _ _)), (proj2 (Z.ltb_ge _ _)) by lia. done.
Qed.
Lemma pbind_runs {A B} h (q : prog helper_call (result sql_error A)) (f : A -> prog helper_call (result sql_error B)) a :
  (here h q).2 = Ok a -> here h (pbind q f) = ((here h q).1 ++ (here (h ++ (here h q).1) (f a)).1, (here (h ++ (here h q).1) (f a)).2).
Proof. intros Hq. unfold pbind. by rewrite run_bind, Hq. Qed.

Lemma write_config_runs h r prefix out : In prefix ["app"; "admin"] -> path_dir out = "/config" -> unclean out = false ->
  (str_ne (Cred_UsernameKey r) "" = false -> match_string identifier (Cred_Username r) = true) -> usable secrets r prefix ->
  exists t, here h (write_config (if str_ne (Cred_UsernameKey r) "" then "@" +:+ user_file prefix else Cred_Username r)
                      (password_file prefix) out) = (t, Ok tt)
            /\ In (Event (WriteClose out (option_file secrets r prefix)) true) t.
Proof.
  intros Hp Hd Ho Hn (Hi & Hu & Hl & Hz).
  assert (Hpw : forall h, (here h (credential (password_file prefix))).2 = Ok (secrets (password_file prefix))).
  { intros h'. apply credential_runs; [| | |done]; by destruct Hp as [<-|[<-|[]]]. }
  assert (Hus : forall h, (here h (user_of (if str_ne (Cred_UsernameKey r) "" then "@" +:+ user_file prefix else Cred_Username r))).2
            = Ok (text (user_bytes secrets r prefix))).
  { intros h'. unfold user_bytes in *. destruct (str_ne (Cred_UsernameKey r) "").
    - assert (Hpre : has_prefix ("@" +:+ user_file prefix) "@" = true
                /\ trim_prefix ("@" +:+ user_file prefix) "@" = user_file prefix)
        by by destruct Hp as [<-|[<-|[]]].
      unfold user_of. destruct Hpre as [-> ->]. erewrite pbind_runs; [done|].
      apply credential_runs; [| | |by apply Hu]; by destruct Hp as [<-|[<-|[]]].
    - unfold user_of. rewrite identifier_not_file by by apply Hn. by rewrite text_chars. }
  assert (Hc : ClientOptions (text (user_bytes secrets r prefix)) (secrets (password_file prefix)) = Ok (option_file secrets r prefix)).
  { unfold ClientOptions. rewrite Hi, Hz. cbn [negb]. rewrite (proj2 (Nat.ltb_ge _ _)), (proj2 (Z.ltb_ge _ _)) by lia.
    cbn [orb]. by rewrite chars_text. }
  unfold write_config. eexists. erewrite (pbind_runs h (call HelperCtx)) by done. cbn beta iota.
  erewrite pbind_runs by apply Hus. erewrite pbind_runs by apply Hpw. cbn [fst snd].
  rewrite Hi, Ho, (proj2 (str_ne_false _ _) Hd). cbn [negb orb]. rewrite Hc.
  erewrite (pbind_runs _ (Ret _)) by done. cbn [call bind run container fst snd negb unless].
  split; [reflexivity|]. rewrite !in_app_iff. cbn. tauto.
Qed.
End Container.

Lemma Validate_credentials p : Validate p = Ok tt ->
  validCredentials (Src_Credentials (PSource p)) = true /\ validCredentials (Tgt_Credentials (PTarget p)) = true
  /\ (str_eq (DDLMode p) "backup_lock" = true -> validCredentials (Src_BackupAdminSecretRef (PSource p)) = true).
Proof.
  unfold Validate. cbv zeta. rewrite !refuse_ok. intros (_ & _ & _ & _ & _ & _ & _ & Hc & _ & _ & _ & _ & _ & Hd & _ & _).
  apply orb_false_iff in Hc as [H1%negb_false_iff H2%negb_false_iff]. split_and!; try done.
  intros Hm. rewrite Hm in Hd. apply orb_false_iff in Hd as [[[_ H3%negb_false_iff]%orb_false_iff _]%orb_false_iff _]. done.
Qed.
Lemma valid_user r : validCredentials r = true -> str_ne (Cred_UsernameKey r) "" = false -> match_string identifier (Cred_Username r) = true.
Proof.
  unfold validCredentials. intros [_ Hc]%andb_true_iff Hk%str_ne_false. apply orb_true_iff in Hc as [[Hc _]%andb_true_iff|[_ Hc]%andb_true_iff]; [done|].
  rewrite Hk in Hc. vm_compute in Hc. done.
Qed.

(** A digest is 64 lower-case hexadecimal digits. *)
Definition digests_hex : Prop := forall b, str_len (sha256_hex b) = 64 /\ Forall (fun c => hex_lower c = true) (chars (sha256_hex b)).
Lemma digest_named p uid : Validate p = Ok tt -> digests_hex -> 1 <= str_len uid <= 256 -> well_named (digest p) uid.
Proof.
  intros Hv Hx Hu. unfold digest, Digest. rewrite Hv. destruct (Hx (plan_json p)) as [Hl Hf]. split; [done|]. split; [done|].
  apply forallb_forall. intros c Hc. rewrite Forall_forall in Hf. unfold is_hex_digit. by rewrite Hf by by apply list_elem_of_In.
Qed.
Lemma fresh_claim d uid : well_named d uid -> (targetClaim all_well ∅ d uid false).2 = Ok tt.
Proof.
  intros (Hd & Hu & Hx). unfold targetClaim. rewrite Hd, Hx. cbn [negb].
  by rewrite (proj2 (Z.ltb_ge (str_len uid) 1)), (proj2 (Z.ltb_ge 256 (str_len uid))) by lia.
Qed.

Lemma claim_first_runs secrets (v : data_volume) p (restart : bool) uid rest : Validate p = Ok tt -> digests_hex -> 1 <= str_len uid <= 256 ->
  v = (if restart then claimed (digest p) uid else ∅) ->
  (run (container secrets v) [] (claim_first (claim_args p restart uid ++ rest))).2 = Ok rest.
Proof.
  intros Hv Hx Hu ->. pose proof (digest_named p uid Hv Hx Hu) as Hn. cbn [claim_args app claim_first].
  set (first := _ +:+ digest p). set (second := _ +:+ uid).
  assert (Hf : has_prefix first "--target-resume=" = restart /\ has_prefix first "--target-claim=" = negb restart
          /\ match split2 "=" first with Some (_, d) => d | None => "" end = digest p)
    by (subst first; destruct restart; (split; [reflexivity|split; [reflexivity|exact (text_chars (digest p))]])).
  assert (Hs : has_prefix second "--target-uid=" = true /\ trim_prefix second "--target-uid=" = uid)
    by (split; [reflexivity|exact (text_chars uid)]).
  destruct Hf as (-> & -> & ->), Hs as [-> ->]. rewrite orb_negb_l. cbn [negb]. cbv zeta. erewrite pbind_runs; [reflexivity|].
  cbn [call run container snd]. destruct restart; [|by apply fresh_claim]. by apply targetClaim_claimed.
Qed.

(** The helper's arguments suit the helper's command: where its container
    works, with secrets that hold a usable user and password, and for a target
    on an empty volume, or on a restart on one that this plan has claimed, the
    command succeeds and leaves the option files that the client is run with. *)
Theorem helper_prepares secrets (v : data_volume) p (target restart : bool) uid :
  Validate p = Ok tt -> digests_hex -> usable secrets (app_credentials p target) "app" ->
  (wants_admin p target = true -> usable secrets (Src_BackupAdminSecretRef (PSource p)) "admin") ->
  (target = true -> 1 <= str_len uid <= 256 /\ v = if restart then claimed (digest p) uid else ∅) ->
  exists t, run (container secrets v) [] (HelperCLI (helper_args p target restart uid)) = (t, Ok tt)
    /\ In (Event (WriteClose "/config/app.cnf" (option_file secrets (app_credentials p target) "app")) true) t
    /\ (wants_admin p target = true ->
        In (Event (WriteClose "/config/admin.cnf" (option_file secrets (Src_BackupAdminSecretRef (PSource p)) "admin")) true) t).
Proof.
  intros Hv Hx Happ Hadm Ht. destruct (Validate_credentials p Hv) as (H1 & H2 & H3).
  set (rest := cred_args (app_credentials p target) "app" "/config/app.cnf"
               ++ (if wants_admin p target then cred_args (Src_BackupAdminSecretRef (PSource p)) "admin" "/config/admin.cnf" else [])).
  assert (Hc : (run (container secrets v) [] (claim_first (helper_args p target restart uid))).2 = Ok rest).
  { unfold helper_args. fold rest. destruct target; [destruct (Ht eq_refl); by apply claim_first_runs|].
    unfold rest. cbn [app cred_args claim_first].
    assert (Hf : forall x, has_prefix (if str_ne (Cred_UsernameKey (app_credentials p false)) "" then "@" +:+ user_file "app"
                               else Cred_Username (app_credentials p false)) (String "-" x) = false).
    { intros x. destruct (str_ne _ "") eqn:E; [done|]. apply identifier_prefix; [|done]. by apply valid_user. }
    by rewrite !Hf. }
  assert (Hw : forall h, exists t, run (container secrets v) h (write_configs rest) = (t, Ok tt)
    /\ In (Event (WriteClose "/config/app.cnf" (option_file secrets (app_credentials p target) "app")) true) t
    /\ (wants_admin p target = true ->
        In (Event (WriteClose "/config/admin.cnf" (option_file secrets (Src_BackupAdminSecretRef (PSource p)) "admin")) true) t)).
  { intros h. unfold rest. destruct (write_config_runs secrets v h (app_credentials p target) "app" "/config/app.cnf") as (t1 & E1 & I1);
      [by left|done|done|by apply valid_user; destruct target|done|].
    destruct (wants_admin p target) eqn:Ea.
    - destruct (write_config_runs secrets v (h ++ t1) (Src_BackupAdminSecretRef (PSource p)) "admin" "/config/admin.cnf") as (t2 & E2 & I2);
        [by right; left|done|done| |by apply Hadm|].
      { apply valid_user, H3. unfold wants_admin in Ea. by apply andb_true_iff in Ea as [_ Ea]. }
      exists (t1 ++ t2). cbn [cred_args app write_configs]. erewrite pbind_runs by by rewrite E1. rewrite E1. cbn [fst snd].
      erewrite pbind_runs by by rewrite E2. rewrite E2. cbn [fst snd run]. rewrite app_nil_r, !in_app_iff. tauto.
    - exists t1. cbn [cred_args app write_configs]. erewrite pbind_runs by by rewrite E1. rewrite E1. cbn [fst snd run].
      rewrite app_nil_r. done. }
  unfold HelperCLI. erewrite pbind_runs by exact Hc. destruct (run _ [] (claim_first _)) as [t0 r0]. cbn [fst snd app].
  assert (Hl : (length rest =? 0)%nat || negb (length rest mod 3 =? 0)%nat || (6 <? length rest)%nat = false)
    by (unfold rest; by destruct (wants_admin p target)).
  rewrite Hl. destruct (Hw t0) as (t1 & E1 & I1 & I2). erewrite pbind_runs by by rewrite E1. rewrite E1. cbn [fst snd].
  eexists. cbn [own_all call bind run container fst snd negb]. split; [reflexivity|]. rewrite !in_app_iff. tauto.
Qed.
End Matched.

(** ** Witnesses *)

Definition zero_hash : Sha256 := fun _ => zeros64.
Definition scheduled : json_fields :=
  [("nodeName", JStr "node-1"); ("serviceAccount", JStr "copier")]
  ++ helper_fields (H := zero_hash) (H0 := sample_json) sample_plan "copier" true false "claim-1" ++ [("dnsPolicy", JStr "ClusterFirst")].
Lemma matched_helper_witness :
  podMatches (helper_fields (H := zero_hash) (H0 := sample_json) sample_plan "copier" true false "claim-1") scheduled = true
  /\ claim_names (arr (JObj scheduled) ["volumes"]) = ["data"].
Proof.
  assert (Hm : podMatches (helper_fields (H := zero_hash) (H0 := sample_json) sample_plan "copier" true false "claim-1") scheduled = true)
    by (vm_compute; reflexivity).
  split; [exact Hm|].
  exact (proj2 (proj2 (proj2 (proj2 (proj2 (matched_helper (H := zero_hash) (H0 := sample_json) sample_plan "copier" true false "claim-1"
    scheduled Hm)))))).
Defined.

Lemma zero_hash_hex : digests_hex (H := zero_hash).
Proof. intros b. split; [reflexivity|]. lazy [chars sha256_hex zero_hash zeros64 list_ascii_of_string]. repeat (apply Forall_cons; split; [reflexivity|]). by apply Forall_nil. Qed.
Lemma helper_prepares_witness : exists t,
  run (container (fun _ => chars "secret") ∅) []
    (HelperCLI (helper_args (H := zero_hash) (H0 := sample_json) sample_plan true false "claim-1")) = (t, Ok tt)
  /\ In (Event (WriteClose "/config/app.cnf" (option_file (fun _ => chars "secret") (sample_credentials "env-1" "db") "app")) true) t.
Proof.
  destruct (helper_prepares (H := zero_hash) (H0 := sample_json) (fun _ => chars "secret") ∅ sample_plan true false "claim-1") as (t & Ht & Hw & _).
  - exact sample_plan_valid.
  - exact zero_hash_hex.
  - split; [reflexivity|]. split; [intros Hn; vm_compute in Hn; discriminate Hn|]. split; [cbn; lia|reflexivity].
  - intros Hn. vm_compute in Hn. discriminate Hn.
  - intros _. split; [change (1 <= 7 <= 256); lia|reflexivity].
  - exists t. split; [exact Ht|exact Hw].
Defined.
