(* ===== verification/SqlDriver.v ===== *)
(** * The Kubernetes driver of a MySQL copy

    [internal/mysqlcopy/driver.go] and [admission.go]: [NativeDriver], every
    method as a program over the runs of kubectl that keeps the driver's state.

    The locks of the driver make a validation one step; the polls of [Cleanup]
    run concurrently in the code, here one after the other in any order. *)

From stdpp Require Import base list strings pretty.
From Stdlib Require Import ZArith Lia Ascii String.
From S2P Require Import Prelude Stateful GoStrings Regex GoPath SqlFence SqlPlan SqlFailure SqlStream SqlExecutor Json SqlHelper SqlManifest.

Local Open Scope string_scope.
Local Open Scope Z_scope.
Local Open Scope list_scope.

(** ** Calls and state *)

(** The standard input of kubectl: nothing, a manifest, or the words of a client. *)
Inductive drive_input : Type := NoInput | Manifest (v : json) | Words (s : string).
Record probe_answer := { Pa_Failed : bool; Pa_Canceled : bool; Pa_Overflow : bool; Pa_Errors : bytes }.

(** A run of kubectl and its output; one that streams a dump; one that is a
    probe; the authority; the context; a pause in a loop; and for the transport
    the two streams of a copy, the external hold, and the session of a lock. *)
Inductive drive_call : Type -> Type :=
| DRun (args : list string) (input : drive_input) : drive_call (result error bytes)
| DDump (args : list string) : drive_call target_dump
| DProbe (args : list string) (input : json) : drive_call probe_answer
| DAuthorize (s : Stage) : drive_call (result error unit)
| DCtxErr : drive_call (result sql_error unit)
| DPause : drive_call (result sql_error unit)
| DStreams (source : option (list string)) (target : option (list string * string * string)) : drive_call transfer
| DQuiesce : drive_call (result error bool)
| DQuiesceCheck : drive_call (result error unit)
| DQuiesceRelease : drive_call (result error unit)
| DSession (args : list string) : drive_call unit
| DSessionEnded : drive_call bool
| DSessionSend (words : string) : drive_call (result error unit)
| DSessionLine : drive_call (result error bytes)
| DSessionClose : drive_call unit
| DSessionWait : drive_call (result sql_error bool).

Record Endpoint := { Ep_Pod : Ref; Ep_Container : string }.
#[export] Instance Endpoint_eq_dec : EqDecision Endpoint.
Proof. solve_decision. Defined.
#[export] Instance TargetIdentity_eq_dec : EqDecision TargetIdentity.
Proof. solve_decision. Defined.
Record ownedPod := { Ow_endpoint : Endpoint; Ow_spec : json_fields; Ow_target : bool }.
(** [DriverConfig]; of the two callbacks, whether they are set. *)
Record DriverConfig := {
  Dc_RunnerImage : string; Dc_MySQLImage : string; Dc_ServiceAccount : string; Dc_AllowRootInit : bool;
  Dc_Authorize : bool; Dc_QuiescenceHold : bool; Dc_SourceAdmissionFences : list AdmissionFenceRef }.
Record NativeDriver := {
  Nd_planDigest : string; Nd_pods : list (string * ownedPod); Nd_target : TargetIdentity; Nd_restarting : bool;
  Nd_namespaces : list (string * string); Nd_admissionProven : bool; Nd_declaredSourceImage : string;
  Nd_sourceServerUUID : string }.
Definition no_target : TargetIdentity := {| Ti_PVCUID := ""; Ti_PodUID := ""; Ti_SecretUID := "" |}.
(** [NewProofDriver] *)
Definition NewProofDriver : NativeDriver :=
  {| Nd_planDigest := ""; Nd_pods := []; Nd_target := no_target; Nd_restarting := false; Nd_namespaces := [];
     Nd_admissionProven := false; Nd_declaredSourceImage := ""; Nd_sourceServerUUID := "" |}.

Definition with_digest (d : NativeDriver) (x : string) : NativeDriver :=
  {| Nd_planDigest := x; Nd_pods := Nd_pods d; Nd_target := Nd_target d; Nd_restarting := Nd_restarting d;
     Nd_namespaces := Nd_namespaces d; Nd_admissionProven := Nd_admissionProven d;
     Nd_declaredSourceImage := Nd_declaredSourceImage d; Nd_sourceServerUUID := Nd_sourceServerUUID d |}.
Definition with_pods (d : NativeDriver) (x : list (string * ownedPod)) : NativeDriver :=
  {| Nd_planDigest := Nd_planDigest d; Nd_pods := x; Nd_target := Nd_target d; Nd_restarting := Nd_restarting d;
     Nd_namespaces := Nd_namespaces d; Nd_admissionProven := Nd_admissionProven d;
     Nd_declaredSourceImage := Nd_declaredSourceImage d; Nd_sourceServerUUID := Nd_sourceServerUUID d |}.
Definition with_target (d : NativeDriver) (restarting : bool) (x : TargetIdentity) : NativeDriver :=
  {| Nd_planDigest := Nd_planDigest d; Nd_pods := Nd_pods d; Nd_target := x; Nd_restarting := restarting;
     Nd_namespaces := Nd_namespaces d; Nd_admissionProven := Nd_admissionProven d;
     Nd_declaredSourceImage := Nd_declaredSourceImage d; Nd_sourceServerUUID := Nd_sourceServerUUID d |}.
Definition with_namespaces (d : NativeDriver) (x : list (string * string)) : NativeDriver :=
  {| Nd_planDigest := Nd_planDigest d; Nd_pods := Nd_pods d; Nd_target := Nd_target d; Nd_restarting := Nd_restarting d;
     Nd_namespaces := x; Nd_admissionProven := Nd_admissionProven d;
     Nd_declaredSourceImage := Nd_declaredSourceImage d; Nd_sourceServerUUID := Nd_sourceServerUUID d |}.
Definition with_admission (d : NativeDriver) : NativeDriver :=
  {| Nd_planDigest := Nd_planDigest d; Nd_pods := Nd_pods d; Nd_target := Nd_target d; Nd_restarting := Nd_restarting d;
     Nd_namespaces := Nd_namespaces d; Nd_admissionProven := true;
     Nd_declaredSourceImage := Nd_declaredSourceImage d; Nd_sourceServerUUID := Nd_sourceServerUUID d |}.
Definition with_declared (d : NativeDriver) (x : string) : NativeDriver :=
  {| Nd_planDigest := Nd_planDigest d; Nd_pods := Nd_pods d; Nd_target := Nd_target d; Nd_restarting := Nd_restarting d;
     Nd_namespaces := Nd_namespaces d; Nd_admissionProven := Nd_admissionProven d;
     Nd_declaredSourceImage := x; Nd_sourceServerUUID := Nd_sourceServerUUID d |}.
Definition with_server (d : NativeDriver) (x : string) : NativeDriver :=
  {| Nd_planDigest := Nd_planDigest d; Nd_pods := Nd_pods d; Nd_target := Nd_target d; Nd_restarting := Nd_restarting d;
     Nd_namespaces := Nd_namespaces d; Nd_admissionProven := Nd_admissionProven d;
     Nd_declaredSourceImage := Nd_declaredSourceImage d; Nd_sourceServerUUID := x |}.
Definition with_pod_uid (t : TargetIdentity) (uid : string) : TargetIdentity :=
  {| Ti_PVCUID := Ti_PVCUID t; Ti_PodUID := uid; Ti_SecretUID := Ti_SecretUID t |}.

(** A Go map with its keys once each. *)
Fixpoint map_put {A} (k : string) (a : A) (l : list (string * A)) : list (string * A) :=
  match l with
  | [] => [(k, a)]
  | x :: l' => if str_eq k x.1 then (k, a) :: l' else x :: map_put k a l'
  end.
Fixpoint map_at {A} (k : string) (l : list (string * A)) : option A :=
  match l with
  | [] => None
  | x :: l' => if str_eq k x.1 then Some x.2 else map_at k l'
  end.

Notation quiet A := (prog drive_call (result sql_error A)).
Notation method := (stateful drive_call NativeDriver sql_error).

(** ** Runs of kubectl *)

(** [safeError] of what a run returned. *)
Definition safe {A} (r : result error A) : quiet A :=
  match r with
  | Ok a => Ret (Ok a)
  | Err e =>
      c <-- call DCtxErr;;
      Ret (Err (match c with
                | Err c => c
                | Ok _ => if errors_is e ErrUnsafe then ErrUnsafe else if errors_is e ErrPartial then ErrPartial else ErrOperation
                end))
  end.
(** [d.run] into a [limitBuffer], and into [io.Discard]. *)
Definition limited (limit : Z) (r : result error bytes) : result error bytes :=
  match r with
  | Ok b => if limit <? Z.of_nat (length b) then Err (Sentinel ErrUnsafe) else Ok b
  | Err e => Err e
  end.
Definition run_limited (args : list string) (input : drive_input) (limit : Z) : quiet bytes :=
  r <-- call (DRun args input);; safe (limited limit r).
Definition run_discard (args : list string) (input : drive_input) : quiet unit :=
  r <-- call (DRun args input);; _ <-! safe r;; Ret (Ok tt).

(** [url.PathEscape] *)
Definition path_safe (c : ascii) : bool := alnum c || one_of "-_.~$&+=:@" c.
Definition hex_upper (n : N) : ascii := if (n <? 10)%N then ascii_of_N (48 + n) else ascii_of_N (55 + n).
Definition escape_byte (c : ascii) : bytes :=
  if path_safe c then [c] else [byte_of 37; hex_upper (N.shiftr (code c) 4); hex_upper (N.land (code c) 15)].
Definition PathEscape (s : string) : string := text (flat_map escape_byte (chars s)).

Definition namespace_args (ns : string) : list string := ["get"; "namespace"; ns; "-o"; "json"].
Definition get_args (kind : string) (r : Ref) : list string := ["get"; kind; Ref_Name r; "-n"; Ref_Namespace r; "-o"; "json"].
Definition create_args : list string := ["create"; "-f"; "-"; "-o"; "json"].
Definition pods_args (ns : string) : list string := ["get"; "pods"; "-n"; ns; "-o"; "json"].
Definition probe_args (ns : string) : list string :=
  ["create"; "--dry-run=server"; "-f"; "-"; "-n"; ns; "-o"; "json"; "--request-timeout=15s"].
Definition absent_args (kind name ns : string) : list string := ["get"; kind; name; "-n"; ns; "--ignore-not-found"; "-o"; "json"].
Definition exec_args (ep : Endpoint) (args : list string) : list string :=
  ["exec"; "-n"; Ref_Namespace (Ep_Pod ep); Ref_Name (Ep_Pod ep); "-c"; Ep_Container ep; "-i"; "--"] ++ args.
Definition delete_args (r : Ref) : list string :=
  ["delete"; "--raw"; "/api/v1/namespaces/" +:+ PathEscape (Ref_Namespace r) +:+ "/pods/" +:+ PathEscape (Ref_Name r); "-f"; "-"].
Definition delete_body (uid : string) : json :=
  JObj [("apiVersion", JStr "v1"); ("kind", JStr "DeleteOptions"); ("preconditions", JObj [("uid", JStr uid)]);
        ("gracePeriodSeconds", JNum 30)].

(** The text of a receipt. *)
Class ReceiptJson := { receipt_text : Receipt -> string; parse_receipt : string -> option Receipt }.

Section Driver.
Context `{Sha256} `{PlanJson} `{JsonText} `{JsonMarshal} `{ReceiptJson}.
Variable cfg : DriverConfig.

(** [d.json], [d.get] *)
Definition kube_json (args : list string) (input : drive_input) : quiet json :=
  b <-! run_limited args input (Z.shiftl 4 20);;
  Ret (match decode_map b with Some v => Ok v | None => Err ErrUnsafe end).
Definition object_uid (v : json) : string := str v ["metadata"; "uid"].
Definition deleting (v : json) : bool := present v ["metadata"; "deletionTimestamp"].
Definition kube_get (kind : string) (r : Ref) : quiet json :=
  o <-! kube_json (get_args kind r) NoInput;;
  stop str_ne (Ref_UID r) "" && str_ne (object_uid o) (Ref_UID r) with ErrUnsafe;;
  stop deleting o with ErrUnsafe;;
  Ret (Ok o).
Definition unsafe_if_fails {A} (q : quiet A) : quiet A :=
  r <-- q;; Ret (match r with Ok a => Ok a | Err _ => Err ErrUnsafe end).

(** [pinNamespaces] *)
Definition pin_namespace (ns : string) : method unit :=
  o <~ lift (unsafe_if_fails (kube_json (namespace_args ns) NoInput));;
  let uid := object_uid o in
  deny str_eq uid "" || deleting o with ErrUnsafe;;
  d <~ state_of;;
  let old := match map_at ns (Nd_namespaces d) with Some u => u | None => "" end in
  deny str_ne old "" && str_ne old uid with ErrUnsafe;;
  set_state (fun d => with_namespaces d (map_put ns uid (Nd_namespaces d))).
Definition pinNamespaces (p : Plan) : method unit :=
  _ <~ pin_namespace (Ref_Namespace (Src_PVC (PSource p)));; pin_namespace (Tgt_Namespace (PTarget p)).

(** [gate] *)
Definition wired (p : Plan) : bool :=
  is_ok (Validate p) && Dc_Authorize cfg && Dc_AllowRootInit cfg && str_eq (Dc_RunnerImage cfg) (ConfigImage p)
  && str_eq (Dc_MySQLImage cfg) (Src_Image (PSource p)) && match_string name (Dc_ServiceAccount cfg).
Definition drive_gate (p : Plan) (s : Stage) : method unit :=
  deny negb (wired p) with ErrUnsafe;;
  d <~ state_of;;
  deny str_ne (Nd_planDigest d) "" && str_ne (Nd_planDigest d) (digest p) with ErrUnsafe;;
  _ <~ set_state (fun d => with_digest d (digest p));;
  _ <~ lift (r <-- call (DAuthorize s);; Ret (if is_ok r then Ok tt else Err ErrUnsafe));;
  _ <~ lift (call DCtxErr);;
  pinNamespaces p.

(** ** The source *)

Definition source_pod_ref (p : Plan) : Ref :=
  {| Ref_Namespace := Ref_Namespace (Src_PVC (PSource p));
     Ref_Name := Ref_Name (Src_StatefulSet (PSource p)) +:+ "-0"; Ref_UID := "" |}.
Definition bound_filesystem (pvc : json) : bool :=
  let mode := str pvc ["spec"; "volumeMode"] in
  str_eq (str pvc ["status"; "phase"]) "Bound" && (str_eq mode "" || str_eq mode "Filesystem").
Definition owned_by_set (p : Plan) (pod : json) : bool :=
  match arr pod ["metadata"; "ownerReferences"] with
  | [o] => str_eq (str o ["uid"]) (Ref_UID (Src_StatefulSet (PSource p))) && str_eq (str o ["kind"]) "StatefulSet"
  | _ => false
  end.
(** The volume of the claim; a second one after a named one is refused. *)
Fixpoint claim_volume (claim : string) (found : bool) (volume : string) (l : list json) : option (bool * string) :=
  match l with
  | [] => Some (found, volume)
  | v :: l' =>
      if str_eq (str v ["persistentVolumeClaim"; "claimName"]) claim
      then if str_ne volume "" then None else claim_volume claim true (str v ["name"]) l'
      else claim_volume claim found volume l'
  end.
Definition last_named (name : string) (l : list json) : option json :=
  last (List.filter (fun c => str_eq (str c ["name"]) name) l).
Definition server_user (pod container : json) : bool :=
  let own := nested container ["securityContext"; "runAsUser"] in
  let user := if is_nil_value own then nested pod ["spec"; "securityContext"; "runAsUser"] else own in
  is_nil_value user || any_equal user (JNum 0) || any_equal user (JNum 999).
Definition status_ready (image : string) (s : json) : bool :=
  any_equal (nested s ["ready"]) (JBool true) && present s ["state"; "running"]
  && resolvedImageMatches image (str s ["imageID"]).
Definition one_ready (p : Plan) (pod : json) : bool :=
  match List.filter (fun s => str_eq (str s ["name"]) (Src_Container (PSource p))) (arr pod ["status"; "containerStatuses"]) with
  | [s] => status_ready (Src_Image (PSource p)) s
  | _ => false
  end.
(** The Pod up to its image: its volume, its container, and the image declared. *)
Definition source_container (p : Plan) (pod : json) : result sql_error (string * json * string) :=
  refuse negb (owned_by_set p pod) with ErrUnsafe;;
  match claim_volume (Ref_Name (Src_PVC (PSource p))) false "" (arr pod ["spec"; "volumes"]) with
  | Some (true, volume) =>
      match last_named (Src_Container (PSource p)) (arr pod ["spec"; "containers"]) with
      | Some container =>
          let declared := str container ["image"] in
          refuse str_eq declared "" || negb (server_user pod container) with ErrUnsafe;;
          Ok (volume, container, declared)
      | None => Err ErrUnsafe
      end
  | _ => Err ErrUnsafe
  end.

(** The environment of the container, by name; a name twice is refused. *)
Fixpoint env_of (seen : list (string * json)) (l : list json) : option (list (string * json)) :=
  match l with
  | [] => Some seen
  | v :: l' =>
      let name := str v ["name"] in
      match map_at name seen with
      | Some _ => None
      | None => env_of (match v with JObj _ => map_put name v seen | _ => seen end) l'
      end
  end.
Definition env_at (env : list (string * json)) (name : string) : json := match map_at name env with Some v => v | None => JObj [] end.
Definition from_secret (v : json) (secret key : string) : bool :=
  str_eq (str v ["valueFrom"; "secretKeyRef"; "name"]) secret && str_eq (str v ["valueFrom"; "secretKeyRef"; "key"]) key.
Definition env_matches (p : Plan) (env : list (string * json)) : bool :=
  let cred := Src_Credentials (PSource p) in
  let secret := Ref_Name (Cred_Ref cred) in
  str_eq (str (env_at env "MYSQL_DATABASE") ["value"]) (Src_Database (PSource p))
  && (if str_eq (Cred_UsernameKey cred) "" then str_eq (str (env_at env "MYSQL_USER") ["value"]) (Cred_Username cred)
      else from_secret (env_at env "MYSQL_USER") secret (Cred_UsernameKey cred))
  && from_secret (env_at env "MYSQL_PASSWORD") secret (Cred_PasswordKey cred).
Definition in_template (p : Plan) (sts : json) (declared : string) : bool :=
  existsb (fun c => str_eq (str c ["name"]) (Src_Container (PSource p)) && str_eq (str c ["image"]) declared)
    (arr sts ["spec"; "template"; "spec"; "containers"]).
Definition no_items (v : json) (keys : list string) : bool := bool_decide (arr v keys = []).
(** The container, once its image is known. *)
Definition container_matches (p : Plan) (sts container : json) (volume declared : string) : bool :=
  in_template p sts declared && no_items container ["command"] && no_items container ["args"]
  && existsb (fun m => str_eq (str m ["mountPath"]) "/var/lib/mysql" && str_eq (str m ["name"]) volume)
       (arr container ["volumeMounts"])
  && match env_of [] (arr container ["env"]) with Some env => env_matches p env | None => false end.

Definition selects (service pod : json) : bool :=
  match nested service ["spec"; "selector"] with
  | JObj selector =>
      negb (bool_decide (selector = []))
      && forallb (fun x => any_equal x.2 (nested pod ["metadata"; "labels"; x.1])) selector
  | _ => false
  end.
Definition service_matches (p : Plan) (service pod : json) : bool :=
  negb (str_eq (str service ["spec"; "type"]) "ExternalName") && selects service pod
  && existsb (fun v => num v ["port"] =? number (Src_Port (PSource p))) (arr service ["spec"; "ports"]).
(** The addresses behind the service: the one of the Pod. *)
Definition sole_endpoint (endpoints pod : json) : bool :=
  let subsets := arr endpoints ["subsets"] in
  forallb (fun s => no_items s ["notReadyAddresses"]) subsets
  && match flat_map (fun s => arr s ["addresses"]) subsets with
     | [a] => str_eq (str a ["targetRef"; "uid"]) (object_uid pod)
     | _ => false
     end.

(** [sourceReadback]: the UID of the source's Pod. *)
Definition source_objects (p : Plan) : quiet (json * json) :=
  pvc <-! unsafe_if_fails (kube_get "pvc" (Src_PVC (PSource p)));;
  stop negb (bound_filesystem pvc) with ErrUnsafe;;
  sts <-! unsafe_if_fails (kube_get "statefulset" (Src_StatefulSet (PSource p)));;
  stop negb (num sts ["spec"; "replicas"] =? number 1) with ErrUnsafe;;
  pod <-! unsafe_if_fails (kube_get "pod" (source_pod_ref p));;
  stop str_ne (str pod ["status"; "phase"]) "Running" with ErrUnsafe;;
  Ret (Ok (sts, pod)).
Definition service_ref (p : Plan) (uid : string) : Ref :=
  {| Ref_Namespace := Ref_Namespace (Src_PVC (PSource p)); Ref_Name := Src_Service (PSource p); Ref_UID := uid |}.
Definition source_service (p : Plan) (pod : json) : quiet unit :=
  service <-! unsafe_if_fails (kube_get "service" (service_ref p (Src_ServiceUID (PSource p))));;
  stop negb (service_matches p service pod) with ErrUnsafe;;
  endpoints <-! unsafe_if_fails (kube_get "endpoints" (service_ref p ""));;
  stop negb (sole_endpoint endpoints pod) with ErrUnsafe;;
  Ret (Ok tt).
Definition sourceReadback (p : Plan) : method string :=
  _ <~ drive_gate p ReadSource;;
  _ <~ pinNamespaces p;;
  objects <~ lift (source_objects p);;
  let '(sts, pod) := objects in
  found <~ lift (Ret (source_container p pod));;
  let '(volume, container, declared) := found in
  d <~ state_of;;
  deny str_ne (Nd_declaredSourceImage d) "" && str_ne (Nd_declaredSourceImage d) declared with ErrUnsafe;;
  deny negb (one_ready p pod) with ErrUnsafe;;
  _ <~ set_state (fun d => with_declared d declared);;
  deny negb (container_matches p sts container volume declared) with ErrUnsafe;;
  _ <~ lift (source_service p pod);;
  mret (object_uid pod).

(** ** The admission fence *)

Definition approved_fence (p : Plan) : result sql_error AdmissionFenceRef :=
  match List.filter (fun f => str_eq (Af_Namespace f) (Ref_Namespace (Src_PVC (PSource p)))) (Dc_SourceAdmissionFences cfg) with
  | [f] =>
      refuse negb (match_string name (Af_PolicyName f)) || negb (match_string name (Af_BindingName f))
        || str_eq (Af_PolicyUID f) "" || str_eq (Af_BindingUID f) "" || negb (str_len (Af_PolicySpecSHA256 f) =? 64)
        || negb (str_len (Af_BindingSpecSHA256 f) =? 64) with ErrUnsafe;;
      Ok f
  | _ => Err ErrUnsafe
  end.
(** [specDigest] *)
Definition specDigest (o : json) : string := sha256_hex (json_marshal (ordered_keys (nested o ["spec"]))).
Definition fence_args (kind name : string) : list string := ["get"; kind; name; "-o"; "json"].
Definition policy_kind : string := "validatingadmissionpolicy".
Definition binding_kind : string := "validatingadmissionpolicybinding".
Definition policy_approved (f : AdmissionFenceRef) (policy : json) : bool :=
  let observed := nested policy ["status"; "observedGeneration"] in
  str_eq (object_uid policy) (Af_PolicyUID f) && negb (deleting policy)
  && str_eq (specDigest policy) (Af_PolicySpecSHA256 f) && str_eq (str policy ["spec"; "failurePolicy"]) "Fail"
  && negb (present policy ["spec"; "paramKind"])
  && no_items policy ["status"; "typeChecking"; "expressionWarnings"]
  && (is_nil_value observed || any_equal observed (nested policy ["metadata"; "generation"]))
  && present policy ["status"; "typeChecking"] && (number 1 <=? num policy ["metadata"; "generation"])
  && (num policy ["status"; "observedGeneration"] =? num policy ["metadata"; "generation"]).
Definition binding_approved (f : AdmissionFenceRef) (binding : json) : bool :=
  str_eq (object_uid binding) (Af_BindingUID f) && negb (deleting binding)
  && str_eq (specDigest binding) (Af_BindingSpecSHA256 f) && str_eq (str binding ["spec"; "policyName"]) (Af_PolicyName f)
  && existsb (fun v => any_equal v (JStr "Deny")) (arr binding ["spec"; "validationActions"]).

(** [^envplane (?:MySQL|PVC) copy source fence \[sha256:[0-9a-f]{64}\]$] *)
Definition fenceDenialMessage : re :=
  RSeq (lit (chars "envplane "))
    (RSeq (RAlt (lit (chars "MySQL")) (lit (chars "PVC")))
       (RSeq (lit (chars " copy source fence [sha256:")) (RSeq (times 64 (RChr hex_lower)) (lit (chars "]"))))).
(** The one message of this form among the validations. *)
Fixpoint denial_message (message : string) (l : list json) : option string :=
  match l with
  | [] => if str_eq message "" then None else Some message
  | v :: l' =>
      let s := str v ["message"] in
      if match_string fenceDenialMessage s
      then if str_ne message "" && str_ne message s then None else denial_message s l'
      else denial_message message l'
  end.
Definition expected_denial (f : AdmissionFenceRef) (message : string) : string :=
  "ValidatingAdmissionPolicy '" +:+ Af_PolicyName f +:+ "' with binding '" +:+ Af_BindingName f +:+ "' denied request: " +:+ message.

(** A probe: the helper with one more volume, mounted into its container. *)
Definition challenge_name : json := JStr "unsafe-challenge".
Definition challenge_volume (p : Plan) (secret : bool) : json :=
  JObj [("name", challenge_name);
        if secret then ("secret", JObj [("secretName", JStr "unapproved-mysqlcopy-challenge")])
        else ("persistentVolumeClaim", JObj [("claimName", JStr (Ref_Name (Src_PVC (PSource p)))); ("readOnly", JBool true)])].
Definition challenge_mount : json :=
  JObj [("name", challenge_name); ("mountPath", JStr "/unsafe-challenge"); ("readOnly", JBool true)].
Definition appended (k : string) (v : json) (l : json_fields) : json_fields :=
  map_put k (JArr (as_array (json_get k l) ++ [v])) l.
Definition with_challenge (p : Plan) (secret : bool) (spec : json_fields) : json_fields :=
  let mounted := match as_array (json_get "containers" spec) with
                 | JObj c :: rest => JArr (JObj (appended "volumeMounts" challenge_mount c) :: rest)
                 | l => JArr l
                 end in
  map_put "containers" mounted (appended "volumes" (challenge_volume p secret) spec).
Definition source_spec (p : Plan) : json_fields := helper_fields p (Dc_ServiceAccount cfg) false false "".
Definition denied_by (expected : string) (a : probe_answer) : bool :=
  existsb (fun line => has_suffix (trim_space line) expected) (split_on newline (text (Pa_Errors a))).
Fixpoint challenges (p : Plan) (d expected : string) (kinds : list bool) : quiet unit :=
  match kinds with
  | [] => Ret (Ok tt)
  | secret :: kinds' =>
      a <-- call (DProbe (probe_args (Ref_Namespace (Src_PVC (PSource p))))
                    (pod_manifest p d false (JObj (with_challenge p secret (source_spec p)))));;
      stop negb (Pa_Failed a) || Pa_Canceled a || Pa_Overflow a || negb (denied_by expected a) with ErrUnsafe;;
      challenges p d expected kinds'
  end.
(** [probeAdmission] *)
Definition probeAdmission (p : Plan) (d : string) (f : AdmissionFenceRef) (policy : json) : quiet unit :=
  match denial_message "" (arr policy ["spec"; "validations"]) with
  | None => Ret (Err ErrUnsafe)
  | Some message =>
      positive <-! unsafe_if_fails (kube_json (probe_args (Ref_Namespace (Src_PVC (PSource p))))
                                      (Manifest (pod_manifest p d false (JObj (source_spec p)))));;
      stop negb (podMatches (source_spec p) (as_object (Some (nested positive ["spec"])))) with ErrUnsafe;;
      challenges p d (expected_denial f message) [true; false]
  end.
(** [requireAdmission] *)
Definition requireAdmission (p : Plan) : method unit :=
  f <~ lift (Ret (approved_fence p));;
  policy <~ lift (unsafe_if_fails (kube_json (fence_args policy_kind (Af_PolicyName f)) NoInput));;
  deny negb (policy_approved f policy) with ErrUnsafe;;
  binding <~ lift (unsafe_if_fails (kube_json (fence_args binding_kind (Af_BindingName f)) NoInput));;
  deny negb (binding_approved f binding) with ErrUnsafe;;
  d <~ state_of;;
  if Nd_admissionProven d then mret tt
  else
    _ <~ lift (probeAdmission p (Nd_planDigest d) f policy);; set_state with_admission.

(** ** Pods *)

(** [targetConsumers] *)
Definition consumes_target (p : Plan) (exempt : string) (pod : json) : bool :=
  existsb (fun v => str_eq (str v ["persistentVolumeClaim"; "claimName"]) (Tgt_PVCName (PTarget p)))
    (arr pod ["spec"; "volumes"])
  && str_ne (object_uid pod) exempt.
Definition targetConsumers (p : Plan) (exempt : string) : quiet unit :=
  list <-! kube_json (pods_args (Tgt_Namespace (PTarget p))) NoInput;;
  stop existsb (consumes_target p exempt) (arr list ["items"]) with ErrUnsafe;;
  Ret (Ok tt).

(** [Validate] *)
Definition recorded_digest (o : json) : string := str o ["metadata"; "annotations"; digest_annotation].
Definition pod_as_created (d : string) (owned : ownedPod) (pod : json) : bool :=
  podMatches (Ow_spec owned) (as_object (Some (nested pod ["spec"]))) && negb (deleting pod) && str_eq (recorded_digest pod) d.
Definition target_claim_ref (p : Plan) (uid : string) : Ref :=
  {| Ref_Namespace := Tgt_Namespace (PTarget p); Ref_Name := Tgt_PVCName (PTarget p); Ref_UID := uid |}.
Definition target_claim_ok (p : Plan) (d : string) (pvc : json) : bool := str_eq (recorded_digest pvc) d && targetPVCSpec p pvc.
Definition validate_target (p : Plan) (ep : Endpoint) (d : NativeDriver) : quiet unit :=
  _ <-! targetConsumers p (Ref_UID (Ep_Pod ep));;
  pvc <-! unsafe_if_fails (kube_get "pvc" (target_claim_ref p (Ti_PVCUID (Nd_target d))));;
  stop negb (target_claim_ok p (Nd_planDigest d) pvc) with ErrUnsafe;;
  Ret (Ok tt).
Definition owned_as (d : NativeDriver) (ep : Endpoint) (target : bool) : option ownedPod :=
  match map_at (Ref_UID (Ep_Pod ep)) (Nd_pods d) with
  | Some owned => if bool_decide (Ow_endpoint owned = ep) && eqb (Ow_target owned) target then Some owned else None
  | None => None
  end.
Definition drive_Validate (p : Plan) (ep : Endpoint) (target : bool) : method unit :=
  _ <~ drive_gate p (if target then Transfer else ReadSource);;
  _ <~ pinNamespaces p;;
  _ <~ sourceReadback p;;
  _ <~ requireAdmission p;;
  d <~ state_of;;
  match owned_as d ep target with
  | None => merr ErrUnsafe
  | Some owned =>
      pod <~ lift (kube_get "pod" (Ep_Pod ep));;
      deny negb (pod_as_created (Nd_planDigest d) owned pod) with ErrUnsafe;;
      if target then lift (validate_target p ep d) else mret tt
  end.

(** [waitRunning] *)
Definition pod_running (pod : json) : bool :=
  str_eq (str pod ["status"; "phase"]) "Running"
  && existsb (fun s => str_eq (str s ["name"]) "mysql" && present s ["state"; "running"]) (arr pod ["status"; "containerStatuses"]).
Definition pod_over (pod : json) : bool :=
  let phase := str pod ["status"; "phase"] in str_eq phase "Failed" || str_eq phase "Succeeded".
Fixpoint waitRunning (pauses : nat) (p : Plan) (ep : Endpoint) (target : bool) : method unit :=
  _ <~ drive_Validate p ep target;;
  pod <~ lift (kube_get "pod" (Ep_Pod ep));;
  deny pod_over pod with ErrUnsafe;;
  if pod_running pod then mret tt
  else
    match pauses with
    | O => merr ErrDeadline
    | S pauses => _ <~ lift (call DPause);; waitRunning pauses p ep target
    end.
(** The context ends with the timeout of the plan, a pause takes 250 ms. *)
Definition pauses_within (timeout : Z) : nat := Z.to_nat (timeout / 250000000).

(** [createPod] *)
Definition pod_namespace (p : Plan) (target : bool) : string :=
  if target then Tgt_Namespace (PTarget p) else Ref_Namespace (Src_PVC (PSource p)).
Definition created_endpoint (ns : string) (o : json) : Endpoint :=
  {| Ep_Pod := {| Ref_Namespace := ns; Ref_Name := str o ["metadata"; "name"]; Ref_UID := object_uid o |};
     Ep_Container := "mysql" |}.
Definition createPod (p : Plan) (target : bool) (spec : json_fields) : method Endpoint :=
  d <~ state_of;;
  o <~ lift (kube_json create_args (Manifest (pod_manifest p (Nd_planDigest d) target (JObj spec))));;
  let ep := created_endpoint (pod_namespace p target) o in
  deny negb (validRef (Ep_Pod ep)) with ErrUnsafe;;
  _ <~ set_state (fun d => with_pods d (map_put (Ref_UID (Ep_Pod ep))
                                          {| Ow_endpoint := ep; Ow_spec := spec; Ow_target := target |} (Nd_pods d)));;
  _ <~ or_error ErrUnsafe (drive_Validate p ep target);;
  _ <~ waitRunning (pauses_within (Timeout p)) p ep target;;
  mret ep.

(** [Source]: any of the source's Pods, for every order of the map. *)
Variable order : list (string * ownedPod) -> list (string * ownedPod).
Definition drive_Source (p : Plan) : method (Endpoint * string) :=
  uid <~ sourceReadback p;;
  _ <~ requireAdmission p;;
  d <~ state_of;;
  match List.filter (fun x => negb (Ow_target x.2)) (order (Nd_pods d)) with
  | (_, owned) :: _ => _ <~ drive_Validate p (Ow_endpoint owned) false;; mret (Ow_endpoint owned, uid)
  | [] => ep <~ createPod p false (source_spec p);; mret (ep, uid)
  end.

(** ** The client *)

(** [clientArgs], [dumpArgs] of kube.go *)
Definition tcp_args (p : Plan) : list string :=
  ["--protocol=TCP"; "--host=" +:+ Src_TLSServerName (PSource p); "--port=" +:+ pretty (Src_Port (PSource p));
   "--ssl-mode=VERIFY_IDENTITY"; "--ssl-ca=/credentials/ca.pem"; "--database=" +:+ Src_Database (PSource p)].
Definition socket_args (p : Plan) : list string :=
  ["--protocol=SOCKET"; "--socket=/run/mysqld/mysqld.sock"; "--database=" +:+ Tgt_Database (PTarget p)].
Definition clientArgs (p : Plan) (target admin : bool) : list string :=
  ["mysql"; "--defaults-extra-file=" +:+ (if admin then "/config/admin.cnf" else "/config/app.cnf"); "--binary-mode=1";
   "--local-infile=0"; "--skip-reconnect"; "--batch"; "--skip-column-names"; "--unbuffered"; "--connect-timeout=10"]
  ++ (if target then socket_args p else tcp_args p).
Definition client_only (arg : string) : bool :=
  existsb (str_eq arg) ["--batch"; "--binary-mode=1"; "--local-infile=0"; "--skip-reconnect"; "--skip-column-names"; "--unbuffered"]
  || has_prefix arg "--connect-timeout=" || has_prefix arg "--database=".
Definition dump_profile : list string :=
  ["--single-transaction"; "--skip-lock-tables"; "--compact"; "--skip-add-drop-table"; "--skip-add-locks"; "--skip-disable-keys";
   "--skip-extended-insert"; "--complete-insert"; "--order-by-primary"; "--hex-blob"; "--skip-triggers"; "--set-gtid-purged=OFF";
   "--no-tablespaces"; "--column-statistics=0"; "--default-character-set=utf8mb4"].
Definition dumpArgs (p : Plan) (target : bool) : list string :=
  List.filter (fun v => negb (client_only v)) ("mysqldump" :: tl (clientArgs p target false))
  ++ dump_profile ++ [Src_Database (PSource p)].

(** ** The target *)

(** [d.exec] *)
Definition drive_exec {A} (p : Plan) (ep : Endpoint) (q : quiet A) : method A :=
  _ <~ drive_Validate p ep true;; lift q.
(** [waitSQL] *)
Fixpoint waitSQL (pauses : nat) (p : Plan) (ep : Endpoint) : method unit :=
  r <~ attempt (drive_exec p ep (run_limited (exec_args ep (clientArgs p true false)) (Words (text (chars "SELECT 1;" ++ [newline]))) 1024));;
  if match r with Ok b => str_eq (trim_space (text b)) "1" | Err _ => false end then mret tt
  else
    _ <~ lift (call DCtxErr);;
    match pauses with
    | O => merr ErrDeadline
    | S pauses => _ <~ lift (call DPause);; waitSQL pauses p ep
    end.
(** [Shutdown] *)
Definition terminated (s : json) : bool := present s ["state"; "terminated"].
Definition exited_cleanly (s : json) : bool := num s ["state"; "terminated"; "exitCode"] =? number 0.
Definition mysql_exit (pod : json) : option bool :=
  match List.find (fun s => str_eq (str s ["name"]) "mysql" && terminated s) (arr pod ["status"; "containerStatuses"]) with
  | Some s => Some (exited_cleanly s)
  | None => None
  end.
Fixpoint waitExit (pauses : nat) (p : Plan) (ep : Endpoint) : method unit :=
  _ <~ drive_Validate p ep true;;
  pod <~ lift (kube_get "pod" (Ep_Pod ep));;
  match mysql_exit pod with
  | Some clean => deny negb clean with ErrUnsafe;; mret tt
  | None =>
      match pauses with
      | O => merr ErrDeadline
      | S pauses => _ <~ lift (call DPause);; waitExit pauses p ep
      end
  end.
Definition kill_args (ep : Endpoint) : list string := exec_args ep ["sh"; "-c"; "kill -TERM 1"].
Definition drive_Shutdown (p : Plan) (ep : Endpoint) : method unit :=
  _ <~ drive_exec p ep (run_discard (kill_args ep) NoInput);;
  waitExit (pauses_within (Timeout p)) p ep.

(** The target's server on the claim of [d.target], once it answers. *)
Definition serve_target (p : Plan) (restart : bool) : method Endpoint :=
  d <~ state_of;;
  ep <~ createPod p true (helper_fields p (Dc_ServiceAccount cfg) true restart (Ti_PVCUID (Nd_target d)));;
  _ <~ set_state (fun d => with_target d (Nd_restarting d) (with_pod_uid (Nd_target d) (Ref_UID (Ep_Pod ep))));;
  _ <~ waitSQL (pauses_within (Timeout p)) p ep;;
  mret ep.
(** [Inspect]: the receipt that is found, and its proof on the data. *)
Definition receipt_holds (p : Plan) (d : NativeDriver) (pvc : json) (r : Receipt) : bool :=
  str_eq (Rc_PlanDigest r) (Nd_planDigest d) && str_eq (Ti_PVCUID (Rc_Target r)) (object_uid pvc)
  && str_eq (Ti_SecretUID (Rc_Target r)) (Ref_UID (Cred_Ref (Tgt_Credentials (PTarget p)))) && Rc_ShutdownVerified r
  && (Rc_Version r =? 1) && str_eq (Rc_Binding r) (Binding p)
  && str_eq (Rc_SourcePVCUID r) (Ref_UID (Src_PVC (PSource p)))
  && str_eq (Rc_SourceStatefulSetUID r) (Ref_UID (Src_StatefulSet (PSource p)))
  && str_ne (Nd_sourceServerUUID d) "" && str_eq (Rc_SourceServerUUID r) (Nd_sourceServerUUID d)
  && str_ne (Ti_PodUID (Rc_Target r)) "" && targetPVCSpec p pvc.
Definition receipt_ref (p : Plan) : Ref :=
  {| Ref_Namespace := Tgt_Namespace (PTarget p); Ref_Name := receiptName p; Ref_UID := "" |}.
Definition read_receipt (p : Plan) (d : NativeDriver) (pvc : json) : quiet Receipt :=
  m <-- kube_get "configmap" (receipt_ref p);;
  match m with
  | Err _ => Ret (Err ErrPartial)
  | Ok marker =>
      stop negb (any_equal (nested marker ["immutable"]) (JBool true)) with ErrPartial;;
      match parse_receipt (str marker ["data"; "receipt.json"]) with
      | None => Ret (Err ErrPartial)
      | Some r => stop negb (receipt_holds p d pvc r) with ErrPartial;; Ret (Ok r)
      end
  end.
Definition reprove (p : Plan) (ep : Endpoint) (r : Receipt) : method unit :=
  proof <~ drive_exec p ep (dump <-- call (DDump (exec_args ep (dumpArgs p true)));;
                            _ <-! safe (td_error dump);;
                            Ret (match Finish (writes (newTracker p) (td_chunks dump)) with
                                 | Ok proof => Ok proof
                                 | Err _ => Err ErrPartial
                                 end));;
  deny negb (sameProof proof (Rc_Proof r)) with ErrPartial;; mret tt.
Definition drive_Inspect (p : Plan) : method (option Receipt) :=
  _ <~ drive_gate p ProvisionTarget;;
  _ <~ lift (targetConsumers p "");;
  b <~ lift (run_limited (absent_args "pvc" (Tgt_PVCName (PTarget p)) (Tgt_Namespace (PTarget p))) NoInput (Z.shiftl 1 20));;
  match b with
  | [] => mret None
  | _ :: _ =>
      d <~ state_of;;
      match decode_map b with
      | None => merr ErrPartial
      | Some pvc =>
          deny str_ne (recorded_digest pvc) (Nd_planDigest d) with ErrPartial;;
          r <~ lift (read_receipt p d pvc);;
          _ <~ set_state (fun d => with_target d true
                 {| Ti_PVCUID := Ti_PVCUID (Rc_Target r); Ti_PodUID := ""; Ti_SecretUID := Ti_SecretUID (Rc_Target r) |});;
          ep <~ serve_target p true;;
          _ <~ reprove p ep r;;
          _ <~ drive_Shutdown p ep;;
          mret (Some r)
      end
  end.
(** [Target] *)
Definition drive_Target (p : Plan) : method (Endpoint * TargetIdentity) :=
  _ <~ drive_gate p ProvisionTarget;;
  _ <~ lift (targetConsumers p "");;
  d <~ state_of;;
  pvc <~ lift (kube_json create_args (Manifest (pvc_manifest p (Nd_planDigest d))));;
  deny str_eq (object_uid pvc) "" || negb (targetPVCSpec p pvc) with ErrUnsafe;;
  _ <~ set_state (fun d => with_target d (Nd_restarting d)
         {| Ti_PVCUID := object_uid pvc; Ti_PodUID := ""; Ti_SecretUID := Ref_UID (Cred_Ref (Tgt_Credentials (PTarget p))) |});;
  ep <~ serve_target p false;;
  d <~ state_of;;
  mret (ep, Nd_target d).
(** [Commit] *)
Definition all_terminated (pod : json) : bool :=
  match arr pod ["status"; "containerStatuses"] with [s] => terminated s && exited_cleanly s | _ => false end.
Definition drive_Commit (p : Plan) (r : Receipt) : method unit :=
  _ <~ drive_gate p SqlFailure.Complete;;
  d <~ state_of;;
  deny negb (bool_decide (Rc_Target r = Nd_target d)) || negb (Rc_ShutdownVerified r) with ErrUnsafe;;
  match map_at (Ti_PodUID (Rc_Target r)) (Nd_pods d) with
  | None => merr ErrUnsafe
  | Some owned =>
      pod <~ lift (kube_get "pod" (Ep_Pod (Ow_endpoint owned)));;
      deny negb (all_terminated pod) with ErrUnsafe;;
      _ <~ lift (targetConsumers p (Ti_PodUID (Rc_Target r)));;
      _ <~ lift (kube_json create_args (Manifest (receipt_manifest p (Nd_planDigest d) (receipt_text r))));;
      mret tt
  end.

(** ** The end *)

(** [waitDeleted], within the 45 seconds of the cleanup's context. *)
Definition deletion_pauses : nat := 450.
Fixpoint waitDeleted (pauses : nat) (p : Plan) (r : Ref) : method unit :=
  pinned <~ attempt (pinNamespaces p);;
  match pinned with
  | Err e => _ <~ lift (call DCtxErr);; merr e
  | Ok _ =>
      b <~ lift (run_limited (absent_args "pod" (Ref_Name r) (Ref_Namespace r)) NoInput (Z.shiftl 1 20));;
      match b with
      | [] => mret tt
      | _ :: _ =>
          deny negb (match decode_map b with Some o => str_eq (object_uid o) (Ref_UID r) | None => false end) with ErrUnsafe;;
          match pauses with
          | O => merr ErrDeadline
          | S pauses => _ <~ lift (call DPause);; waitDeleted pauses p r
          end
      end
  end.
Definition raised (e : sql_error) : error := Sentinel e.
(** The first loop of [Cleanup]: the failures and what is waited for, or the
    error that ends it. *)
Fixpoint send_deletes (p : Plan) (pods : list (string * ownedPod)) (failures : list error) (waiting : list ownedPod)
    : method (result error (list error * list ownedPod)) :=
  match pods with
  | [] => mret (Ok (failures, waiting))
  | (uid, owned) :: pods' =>
      pinned <~ attempt (pinNamespaces p);;
      match pinned with
      | Err e =>
          c <~ attempt (lift (call DCtxErr));;
          mret (Err (errors_join [errors_join failures;
                                  safeFailure CleanupNamespace (raised (match c with Err c => c | Ok _ => e end))]))
      | Ok _ =>
          r <~ attempt (lift (run_discard (delete_args (Ep_Pod (Ow_endpoint owned))) (Manifest (delete_body uid))));;
          match r with
          | Err e =>
              let stage := if Ow_target owned then DeleteTargetHelper else DeleteSourceHelper in
              send_deletes p pods' (failures ++ [safeFailure stage (raised e)]) waiting
          | Ok _ => send_deletes p pods' failures (waiting ++ [owned])
          end
      end
  end.
Fixpoint await_deletes (p : Plan) (waiting : list ownedPod) (failures : list error) : method (list error) :=
  match waiting with
  | [] => mret failures
  | owned :: waiting' =>
      r <~ attempt (waitDeleted deletion_pauses p (Ep_Pod (Ow_endpoint owned)));;
      let stage := if Ow_target owned then WaitTargetHelperDeleted else WaitSourceHelperDeleted in
      await_deletes p waiting' (failures ++ match r with Ok _ => [] | Err e => [safeFailure stage (raised e)] end)
  end.
Variable arrival : list ownedPod -> list ownedPod.
(** [Cleanup] *)
Definition drive_Cleanup (p : Plan) : method error :=
  d <~ state_of;;
  sent <~ send_deletes p (order (Nd_pods d)) [] [];;
  match sent with
  | Err e => mret e
  | Ok (failures, waiting) => all <~ await_deletes p (arrival waiting) failures;; mret (errors_join all)
  end.
(** [Quiescence], [observeSource] *)
Definition drive_Quiescence (p : Plan) : method (result error bool) :=
  deny negb (Dc_QuiescenceHold cfg) with ErrUnsafe;;
  _ <~ or_error ErrUnsafe (drive_gate p HoldDDL);;
  lift (r <-- call DQuiesce;; Ret (Ok r)).
Definition observeSource (s : SourceIdentity) : method unit :=
  d <~ state_of;;
  deny str_ne (Nd_sourceServerUUID d) "" && str_ne (Nd_sourceServerUUID d) (Si_ServerUUID s) with ErrUnsafe;;
  set_state (fun d => with_server d (Si_ServerUUID s)).
End Driver.

(** ** Lemmas: what the driver does *)

Notation trace := (list (event drive_call)).

Section DriverLemmas.
Context `{Sha256} `{PlanJson} `{JsonText} `{JsonMarshal} `{ReceiptJson}.
Variable cfg : DriverConfig.
Variable p : Plan.

(** A Pod of this execution: the answer to a create of one of its helpers. *)
Definition helper_of (target : bool) (spec : json_fields) : Prop :=
  exists restart uid, spec = helper_fields p (Dc_ServiceAccount cfg) target restart uid /\ (target = false -> restart = false /\ uid = "").
Definition made (h : trace) (x : string * ownedPod) : Prop :=
  let '(uid, owned) := x in
  uid = Ref_UID (Ep_Pod (Ow_endpoint owned)) /\ helper_of (Ow_target owned) (Ow_spec owned)
  /\ exists b o, In (Event (DRun create_args (Manifest (pod_manifest p (digest p) (Ow_target owned) (JObj (Ow_spec owned))))) (Ok b)) h
       /\ decode_map b = Some o /\ Ow_endpoint owned = created_endpoint (pod_namespace p (Ow_target owned)) o.
(** The state of a driver that serves the plan. *)
Definition serves (h : trace) (d : NativeDriver) : Prop :=
  Forall (made h) (Nd_pods d) /\ (Nd_planDigest d = "" \/ Nd_planDigest d = digest p).
(** The Pod is one that this execution made, and it was read in [t] and found to be as it was made. *)
Definition seen_as_made (h t : trace) (ep : Endpoint) (target : bool) : Prop :=
  exists owned b pod, made h (Ref_UID (Ep_Pod ep), owned) /\ Ow_endpoint owned = ep /\ Ow_target owned = target
    /\ In (Event (DRun (get_args "pod" (Ep_Pod ep)) NoInput) (Ok b)) t /\ decode_map b = Some pod
    /\ pod_as_created (digest p) owned pod = true.
(** The history ends with a validation of the Pod that succeeded, by a driver whose Pods
    are those that this execution made. *)
Definition just_validated (h : trace) (ep : Endpoint) (target : bool) : Prop :=
  exists h1 t d d', h = h1 ++ t /\ serves h1 d /\ exec (drive_Validate cfg p ep target d) t (d', Ok tt) /\ seen_as_made h t ep target.
(** The target's server was seen to have ended, and no other Pod mounts its claim. *)
Definition seen_ended (h : trace) (r : Receipt) : Prop :=
  Rc_ShutdownVerified r = true
  /\ exists owned b pod, made h (Ti_PodUID (Rc_Target r), owned)
       /\ In (Event (DRun (get_args "pod" (Ep_Pod (Ow_endpoint owned))) NoInput) (Ok b)) h
       /\ decode_map b = Some pod /\ all_terminated pod = true
  /\ exists b pods, In (Event (DRun (pods_args (Tgt_Namespace (PTarget p))) NoInput) (Ok b)) h
       /\ decode_map b = Some pods /\ existsb (consumes_target p (Ti_PodUID (Rc_Target r))) (arr pods ["items"]) = false.

Definition reads_only (args : list string) : Prop := hd_error args = Some "get".
Definition creates_helper (args : list string) (v : json) : Prop :=
  exists target spec, args = create_args /\ helper_of target spec /\ v = pod_manifest p (digest p) target (JObj spec).
Definition creates_claim (args : list string) (v : json) : Prop := args = create_args /\ v = pvc_manifest p (digest p).
Definition creates_receipt (h : trace) (args : list string) (v : json) : Prop :=
  exists r, args = create_args /\ v = receipt_manifest p (digest p) (receipt_text r) /\ seen_ended h r.
Definition probes (args : list string) (v : json) : Prop :=
  args = probe_args (Ref_Namespace (Src_PVC (PSource p)))
  /\ (v = pod_manifest p (digest p) false (JObj (source_spec cfg p))
      \/ exists secret, v = pod_manifest p (digest p) false (JObj (with_challenge p secret (source_spec cfg p)))).
Definition deletes_helper (h : trace) (args : list string) (v : json) : Prop :=
  exists uid owned, made h (uid, owned) /\ args = delete_args (Ep_Pod (Ow_endpoint owned)) /\ v = delete_body uid.

(** The calls of the driver, each with what came before it. *)
Definition driver_call (R : Type) (h : trace) (e : drive_call R) : Prop :=
  match e with
  | DRun args NoInput => reads_only args \/ exists ep, args = kill_args ep /\ just_validated h ep true
  | DRun args (Manifest v) =>
      creates_helper args v \/ creates_claim args v \/ creates_receipt h args v \/ probes args v \/ deletes_helper h args v
  | DRun args (Words w) =>
      exists ep, args = exec_args ep (clientArgs p true false) /\ w = text (chars "SELECT 1;" ++ [newline]) /\ just_validated h ep true
  | DDump args => exists ep, args = exec_args ep (dumpArgs p true) /\ just_validated h ep true
  | DProbe args v => probes args v
  | DAuthorize _ | DCtxErr | DPause | DQuiesce => True
  | _ => False
  end.

Definition gated (d : NativeDriver) : Prop := Nd_planDigest d = digest p.
Definition keeps {A} (Q : trace -> NativeDriver -> A -> Prop) (d : NativeDriver) (h : trace) (x : NativeDriver * result sql_error A) : Prop :=
  serves h x.1 /\ (gated d -> gated x.1) /\ match x.2 with Ok a => Q h x.1 a | Err _ => True end.
Notation does := (wp driver_call).

Lemma made_more h h' x : incl h h' -> made h x -> made h' x.
Proof. destruct x as [uid owned]. intros Hi (Hu & Hs & b & o & Hin & Ho). split_and!; try done. exists b, o. split; [by apply Hi|done]. Qed.
Lemma serves_more h h' d : incl h h' -> serves h d -> serves h' d.
Proof. intros Hi [Hp Hd]. split; [|done]. eapply Forall_impl; [exact Hp|]. intros x. by apply made_more. Qed.
Lemma incl_prefix (h t : trace) : incl h (h ++ t).
Proof. apply incl_appl, incl_refl. Qed.

(** One step of a method, and its end. *)
Lemma keeps_bind {A B} (m : method A) (f : A -> method B) h d (Q' : trace -> NativeDriver -> A -> Prop) Q :
  does h (m d) (keeps Q' d) ->
  (forall h' d' a, incl h h' -> serves h' d' -> (gated d -> gated d') -> Q' h' d' a -> does h' (f a d') (keeps Q d')) ->
  does h (mbind m f d) (keeps Q d).
Proof.
  intros Hm Hf. apply wp_mbind. eapply wp_mono; [|apply wp_trace, Hm].
  intros h' [d' [a|e]] [(Hs & Hg & HQ) (t & -> & _)]; cbn [fst snd] in *.
  - eapply wp_mono; [|apply Hf; [apply incl_prefix|done|done|exact HQ]]. intros h'' x (Hs' & Hg' & HQ'). split_and!; auto.
  - done.
Qed.
Lemma keeps_ret {A} (Q : trace -> NativeDriver -> A -> Prop) h d a : serves h d -> Q h d a -> does h (mret a d) (keeps Q d).
Proof. by intros Hs HQ. Qed.
Lemma keeps_err {A} (Q : trace -> NativeDriver -> A -> Prop) h d e : serves h d -> does h (merr e d) (keeps Q d).
Proof. by intros Hs. Qed.
Lemma keeps_deny {A} (b : bool) e (m : method A) h d Q : serves h d -> (b = false -> does h (m d) (keeps Q d)) ->
  does h ((deny b with e;; m) d) (keeps Q d).
Proof. intros Hs Hm. apply wp_deny; [|done]. by apply keeps_err. Qed.
Lemma keeps_state {A} (f : NativeDriver -> method A) h d Q : does h (f d d) (keeps Q d) -> does h (mbind state_of f d) (keeps Q d).
Proof. done. Qed.
Lemma keeps_lift {A} (q : quiet A) h d : serves h d -> does h q (fun _ _ => True) ->
  does h (lift q d) (keeps (fun h' d' a => d' = d /\ exists t, h' = h ++ t /\ exec q t (Ok a)) d).
Proof.
  intros Hs Hq. apply wp_lift. eapply wp_mono; [|apply wp_trace, Hq]. intros h' r [_ (t & -> & Hx)].
  split; [by eapply serves_more; [apply incl_prefix|]|]. split; [done|]. destruct r as [a|e]; [|done]. split; [done|]. by exists t.
Qed.
Lemma keeps_set {A} (g : NativeDriver -> NativeDriver) (f : unit -> method A) h d Q : (gated d -> gated (g d)) ->
  does h (f tt (g d)) (keeps Q (g d)) -> does h (mbind (set_state g) f d) (keeps Q d).
Proof. intros Hg Hf. eapply wp_mono; [|exact Hf]. intros h' x (Hs & Hg' & HQ). split_and!; auto. Qed.
Lemma keeps_set_last (g : NativeDriver -> NativeDriver) h d (Q : trace -> NativeDriver -> unit -> Prop) :
  serves h (g d) -> (gated d -> gated (g d)) -> Q h (g d) tt -> does h (set_state g d) (keeps Q d).
Proof. by intros Hs Hg HQ. Qed.
Lemma keeps_attempt {A} (m : method A) Q h d : does h (m d) (keeps Q d) ->
  does h (attempt m d) (keeps (fun h' d' r => match r with Ok a => Q h' d' a | Err _ => True end) d).
Proof. intros Hm. apply wp_attempt. eapply wp_mono; [|exact Hm]. by intros h' [d' r] (Hs & Hg & HQ). Qed.
Lemma keeps_or_error {A} (m : method A) Q e h d : does h (m d) (keeps Q d) -> does h (or_error e m d) (keeps Q d).
Proof. intros Hm. apply wp_or_error. eapply wp_mono; [|exact Hm]. intros h' [d' [a|e']] (Hs & Hg & HQ); by split_and!. Qed.
Lemma keeps_mono {A} (m : method A) (Q Q' : trace -> NativeDriver -> A -> Prop) h d :
  (forall h' d' a, Q h' d' a -> Q' h' d' a) -> does h (m d) (keeps Q d) -> does h (m d) (keeps Q' d).
Proof. intros HQ Hm. eapply wp_mono; [|exact Hm]. intros h' [d' [a|e]] (Hs & Hg & Ha); (split; [done|]; split; [done|]); [by apply HQ|done]. Qed.

(** Reads *)
Definition quiet_read (R : Type) (e : drive_call R) : Prop :=
  match e with
  | DRun args NoInput => reads_only args
  | DAuthorize _ | DCtxErr | DPause => True
  | _ => False
  end.
Lemma quiet_does {A} h (q : prog drive_call A) : only quiet_read q -> does h q (fun _ _ => True).
Proof.
  intros Hq. eapply wp_mono; [|eapply (wp_only driver_call h q quiet_read); [|exact Hq]]; [done|].
  intros R h' e He. destruct e as [args [| |]| | | | | | | | | | | | | | |]; try done. by left.
Qed.
Lemma safe_only {A} (P : forall R, drive_call R -> Prop) (r : result error A) : P _ DCtxErr -> only P (safe r).
Proof. intros HP. destruct r as [a|e]; [exact I|]. split; [exact HP|]. intros c. exact I. Qed.
Lemma run_reads args limit : reads_only args -> only quiet_read (run_limited args NoInput limit).
Proof. intros Hr. split; [exact Hr|]. intros r. by apply safe_only. Qed.
Lemma json_reads args : reads_only args -> only quiet_read (kube_json args NoInput).
Proof. intros Hr. unfold kube_json. apply only_pbind; [by apply run_reads|done]. Qed.
Lemma get_reads kind r : only quiet_read (kube_get kind r).
Proof. unfold kube_get. apply only_pbind; [by apply json_reads|]. intros o. by repeat apply only_stop. Qed.
Lemma unsafe_reads {A} (q : quiet A) : only quiet_read q -> only quiet_read (unsafe_if_fails q).
Proof. intros Hq. apply only_bind; [exact Hq|done]. Qed.
Lemma consumers_reads exempt : only quiet_read (targetConsumers p exempt).
Proof. unfold targetConsumers. apply only_pbind; [by apply json_reads|]. intros list. by apply only_stop. Qed.
Ltac reads_step :=
  match goal with
  | |- only _ (source_objects _) => unfold source_objects
  | |- only _ (source_service _ _) => unfold source_service
  | |- only _ (read_receipt _ _ _) => unfold read_receipt
  | |- only _ (pbind _ _) => apply only_pbind; [|intros ?]
  | |- only _ (bind _ _) => apply only_bind; [|intros ?]
  | |- only _ (unsafe_if_fails _) => apply unsafe_reads
  | |- only _ (kube_get _ _) => apply get_reads
  | |- only _ (kube_json _ NoInput) => apply json_reads
  | |- only _ (run_limited _ NoInput _) => apply run_reads
  | |- only _ (targetConsumers _ _) => apply consumers_reads
  | |- only _ (if _ then Ret _ else _) => apply only_stop
  | |- only _ (match ?x with _ => _ end) => destruct x
  | |- only _ (call _) => split; [exact I|done]
  | |- only _ (Ret _) => exact I
  | |- reads_only _ => reflexivity
  end.
Lemma keeps_read {A} (q : quiet A) h d : serves h d -> only quiet_read q ->
  does h (lift q d) (keeps (fun h' d' a => d' = d /\ exists t, h' = h ++ t /\ exec q t (Ok a)) d).
Proof. intros Hs Hq. apply keeps_lift; [done|by apply quiet_does]. Qed.

(** A step that reads, decides or looks at the state. *)
Ltac keep_step :=
  lazymatch goal with
  | |- wp _ _ ((let _ := _ in _) _) _ => cbv zeta
  | |- wp _ _ ((if _ then merr _ else _) _) _ => apply keeps_deny; [assumption|intros ?]
  | |- wp _ _ (merr _ _) _ => apply keeps_err; assumption
  | |- wp _ _ (mret _ _) _ => apply keeps_ret; [assumption|]
  | |- wp _ _ (mbind state_of _ _) _ => apply keeps_state
  | |- wp _ _ (mbind (lift _) _ _) _ => eapply keeps_bind; [apply keeps_read; [assumption|repeat reads_step]|intros ? ? ? _ ? _ [-> _]]
  | |- wp _ _ ((match ?x with _ => _ end) _) _ => destruct x
  end.
(** A step by a method: what it ends with, in the given names. *)
Tactic Notation "by_method" uconstr(lem) "as" ident(h) ident(d) simple_intropattern(a) ident(Hs) simple_intropattern(HQ) :=
  eapply keeps_bind; [eapply lem; eassumption|intros h d a _ Hs _ HQ].

Definition done_ok {A} : trace -> NativeDriver -> A -> Prop := fun _ _ _ => True.
Definition is_gated {A} : trace -> NativeDriver -> A -> Prop := fun _ d _ => gated d.
Lemma pin_keeps ns h d : serves h d -> does h (pin_namespace ns d) (keeps done_ok d).
Proof. intros Hs. unfold pin_namespace. repeat keep_step. by apply keeps_set_last. Qed.
Lemma pins_keep h d : serves h d -> does h (pinNamespaces p d) (keeps done_ok d).
Proof. intros Hs. unfold pinNamespaces. by_method pin_keeps as h1 d1 [] Hs1 _. by apply pin_keeps. Qed.
(** A method that keeps the driver ends gated when it starts so. *)
Lemma keeps_gated {A} (m : method A) h d (Q : trace -> NativeDriver -> A -> Prop) :
  gated d -> does h (m d) (keeps Q d) -> does h (m d) (keeps (fun h' d' a => gated d' /\ Q h' d' a) d).
Proof. intros Hg Hm. eapply wp_mono; [|exact Hm]. intros h' [d' [a|e]] (Hs & Hk & HQ); (split; [done|]; split; [done|]); [|done]. split; auto. Qed.
Lemma gate_keeps s h d : serves h d -> does h (drive_gate cfg p s d) (keeps is_gated d).
Proof.
  intros Hs. unfold drive_gate. repeat keep_step. apply keeps_set; [done|].
  assert (Hs1 : serves h (with_digest d (digest p))) by (split; [apply Hs|by right]).
  repeat keep_step. eapply keeps_mono; [|apply keeps_gated; [done|by apply pins_keep]]. by intros ? ? ? [Hg _].
Qed.
Lemma readback_keeps h d : serves h d -> does h (sourceReadback cfg p d) (keeps is_gated d).
Proof.
  intros Hs. unfold sourceReadback. by_method gate_keeps as h1 d1 [] Hs1 Hg1.
  eapply keeps_bind; [by apply keeps_gated; [|apply pins_keep]|]. intros h2 d2 [] _ Hs2 _ [Hg2 _].
  repeat keep_step. apply keeps_set; [done|]. repeat keep_step. exact Hg2.
Qed.

(** The admission fence: its probes are of the plan's helper. *)
Definition probe_call (R : Type) (e : drive_call R) : Prop :=
  match e with
  | DRun args (Manifest v) | DProbe args v => probes args v
  | DCtxErr => True
  | _ => False
  end.
Lemma probe_does {A} h (q : prog drive_call A) : only probe_call q -> does h q (fun _ _ => True).
Proof.
  intros Hq. eapply wp_mono; [|eapply (wp_only driver_call h q probe_call); [|exact Hq]]; [done|].
  intros R h' e He. destruct e as [args [| |]| | | | | | | | | | | | | | |]; try done. by right; right; right; left.
Qed.
Lemma challenges_probe expected kinds : only probe_call (challenges cfg p (digest p) expected kinds).
Proof.
  induction kinds as [|secret kinds IH]; cbn [challenges]; [exact I|]. apply only_bind.
  - split; [|done]. split; [done|]. right. by exists secret.
  - intros a. by apply only_stop.
Qed.
Lemma probeAdmission_probes f policy : only probe_call (probeAdmission cfg p (digest p) f policy).
Proof.
  unfold probeAdmission. destruct (denial_message _ _) as [message|]; [|exact I]. apply only_pbind.
  - apply only_bind; [|done]. unfold kube_json. apply only_pbind; [|done]. split; [split; [done|by left]|].
    intros r. by apply safe_only.
  - intros positive. apply only_stop, challenges_probe.
Qed.
Lemma admission_keeps h d : gated d -> serves h d -> does h (requireAdmission cfg p d) (keeps is_gated d).
Proof.
  intros Hg Hs. unfold requireAdmission. do 6 keep_step. destruct (Nd_admissionProven d); [by repeat keep_step|].
  eapply keeps_bind; [apply keeps_lift; [done|]; apply probe_does; rewrite Hg; apply probeAdmission_probes|].
  intros ? ? [] _ ? _ [-> _]. by apply keeps_set_last.
Qed.

(** Validations, and what follows one. *)
Lemma validate_keeps ep target h d : serves h d -> does h (drive_Validate cfg p ep target d) (keeps is_gated d).
Proof.
  intros Hs. unfold drive_Validate. by_method gate_keeps as h1 d1 [] Hs1 Hg1.
  eapply keeps_bind; [by apply keeps_gated; [|apply pins_keep]|]. intros h2 d2 [] _ Hs2 _ [Hg2 _].
  by_method readback_keeps as h3 d3 uid Hs3 Hg3. by_method admission_keeps as h4 d4 [] Hs4 Hg4.
  keep_step. destruct (owned_as d4 ep target) as [owned|]; [|keep_step]. repeat keep_step; [|exact Hg4].
  eapply keeps_mono; [|apply keeps_read; [done|unfold validate_target; repeat reads_step]]. intros ? ? ? [-> _]. exact Hg4.
Qed.
(** The answer of a run that [kube_json] has decoded. *)
Lemma safe_ok {A} (r : result error A) t a : exec (safe r) t (Ok a) -> t = [] /\ r = Ok a.
Proof. destruct r as [a'|e]; cbn; [by intros [-> [= ->]]|]. by intros (c & t' & _ & _ & Hr). Qed.
Lemma json_answer args input t o : exec (kube_json args input) t (Ok o) ->
  exists b, t = [Event (DRun args input) (Ok b)] /\ decode_map b = Some o.
Proof.
  unfold kube_json, run_limited. intros (t1 & t2 & b & -> & Hb & [-> Ho])%exec_pbind_ok.
  apply exec_bind_call in Hb as (r & t' & -> & [-> Hb]%safe_ok). exists b. unfold limited in Hb.
  destruct r as [b'|e]; [|done]. destruct (_ <? _); [done|]. injection Hb as ->. destruct (decode_map b); by simplify_eq.
Qed.
Lemma get_answer kind r t o : exec (kube_get kind r) t (Ok o) ->
  exists b, In (Event (DRun (get_args kind r) NoInput) (Ok b)) t /\ decode_map b = Some o.
Proof.
  unfold kube_get. intros (t1 & t2 & o' & -> & (b & -> & Ho)%json_answer & Hx)%exec_pbind_ok. exec_steps. exists b. split; [by left|done].
Qed.
Lemma map_at_In {A} k (l : list (string * A)) a : map_at k l = Some a -> In (k, a) l.
Proof.
  induction l as [|[k' a'] l IH]; cbn; [done|]. destruct (str_eq k k') eqn:E; [|by right; apply IH].
  apply str_eq_true in E as ->. intros [= ->]. by left.
Qed.
Lemma owned_made h d ep target owned : serves h d -> owned_as d ep target = Some owned ->
  made h (Ref_UID (Ep_Pod ep), owned) /\ Ow_endpoint owned = ep /\ Ow_target owned = target.
Proof.
  intros [Hp _]. unfold owned_as. destruct (map_at _ _) as [o|] eqn:Eo; [|done]. destruct (_ && _) eqn:Eb; [|done]. intros [= ->].
  apply andb_true_iff in Eb as [He%bool_decide_eq_true Ht%eqb_prop]. split; [|done].
  apply (proj1 (List.Forall_forall _ _) Hp), map_at_In, Eo.
Qed.
(** What a validation that succeeds has seen. *)
Lemma validation_seen ep target h d t d' : serves h d -> exec (drive_Validate cfg p ep target d) t (d', Ok tt) ->
  seen_as_made (h ++ t) t ep target.
Proof.
  intros Hs Hx. unfold drive_Validate in Hx. apply exec_mbind_ok in Hx as (t1 & u1 & d1 & [] & -> & Hx1 & Hx).
  pose proof (wp_exec _ _ _ _ _ _ (gate_keeps _ _ _ Hs) Hx1) as (Hs1 & _ & Hg1).
  apply exec_mbind_ok in Hx as (t2 & u2 & d2 & [] & -> & Hx2 & Hx).
  pose proof (wp_exec _ _ _ _ _ _ (pins_keep _ _ Hs1) Hx2) as (Hs2 & _).
  apply exec_mbind_ok in Hx as (t3 & u3 & d3 & uid & -> & Hx3 & Hx).
  pose proof (wp_exec _ _ _ _ _ _ (readback_keeps _ _ Hs2) Hx3) as (Hs3 & _ & Hg3).
  apply exec_mbind_ok in Hx as (t4 & u4 & d4 & [] & -> & Hx4 & Hx).
  pose proof (wp_exec _ _ _ _ _ _ (admission_keeps _ _ Hg3 Hs3) Hx4) as (Hs4 & _ & Hg4). cbn [fst snd] in *.
  apply exec_mbind_ok in Hx as (t5 & u5 & d5 & a & -> & [-> [= -> ->]] & Hx). cbn [app] in *.
  destruct (owned_as d4 ep target) as [owned|] eqn:Eo; [|by destruct Hx].
  apply exec_mbind_ok in Hx as (t6 & u6 & d6 & pod & -> & [-> (b & Hb & Ho)%get_answer]%exec_lift & Hx).
  apply exec_deny_ok in Hx as [Hc%negb_false_iff _]. destruct (owned_made _ _ _ _ _ Hs4 Eo) as (Hm & He & Ht).
  exists owned, b, pod. rewrite Hg4 in Hc. split; [|rewrite !in_app_iff; tauto].
  eapply made_more; [|exact Hm]. intros x Hi. rewrite !in_app_iff in *. tauto.
Qed.
Definition validated (ep : Endpoint) (target : bool) {A} : trace -> NativeDriver -> A -> Prop :=
  fun h d _ => gated d /\ just_validated h ep target.
Lemma validated_keeps ep target h d : serves h d -> does h (drive_Validate cfg p ep target d) (keeps (validated ep target) d).
Proof.
  intros Hs. eapply wp_mono; [|apply wp_trace, validate_keeps, Hs]. intros h' [d' [[]|e]] [(Hs' & Hg & HQ) (t & -> & Hx)]; [|done].
  split; [done|]. split; [done|]. split; [exact HQ|]. exists h, t, d, d'. split_and!; [done..|by eapply validation_seen].
Qed.
Lemma exec_keeps {A} ep (q : quiet A) h d : serves h d -> (forall h', just_validated h' ep true -> does h' q (fun _ _ => True)) ->
  does h (drive_exec cfg p ep q d) (keeps (fun h' d' a => gated d' /\ exists h0 t, h' = h0 ++ t /\ exec q t (Ok a)) d).
Proof.
  intros Hs Hq. unfold drive_exec. by_method validated_keeps as h1 d1 [] Hs1 [Hg1 Hv].
  eapply keeps_mono; [|apply keeps_lift; [done|by apply Hq]]. intros ? ? ? (-> & t & -> & Hx). split; [exact Hg1|]. by exists h1, t.
Qed.
Lemma waitRunning_keeps pauses ep target : forall h d, serves h d -> does h (waitRunning cfg pauses p ep target d) (keeps is_gated d).
Proof.
  induction pauses as [|pauses IH]; intros h d Hs; cbn [waitRunning]; by_method validate_keeps as h1 d1 [] Hs1 Hg1; do 2 keep_step;
    (destruct (pod_running _); [by keep_step|]); keep_step. by apply IH.
Qed.
Lemma run_does h args input limit : driver_call _ h (DRun args input) -> does h (run_limited args input limit) (fun _ _ => True).
Proof. intros Hc. split; [exact Hc|]. intros r. by apply quiet_does, safe_only. Qed.
Lemma discard_does h args input : driver_call _ h (DRun args input) -> does h (run_discard args input) (fun _ _ => True).
Proof. intros Hc. split; [exact Hc|]. intros r. apply quiet_does, only_pbind; [by apply safe_only|done]. Qed.
Lemma waitSQL_keeps pauses ep : forall h d, serves h d -> does h (waitSQL cfg pauses p ep d) (keeps done_ok d).
Proof.
  induction pauses as [|pauses IH]; intros h d Hs; cbn [waitSQL].
  all: eapply keeps_bind; [eapply keeps_attempt, exec_keeps; [exact Hs|]; intros h' Hv; apply run_does; by exists ep|].
  all: intros h1 d1 r _ Hs1 _ _; destruct (match r with Ok b => _ | Err _ => _ end); [by keep_step|]; repeat keep_step. by apply IH.
Qed.
Lemma waitExit_keeps pauses ep : forall h d, serves h d -> does h (waitExit cfg pauses p ep d) (keeps is_gated d).
Proof.
  induction pauses as [|pauses IH]; intros h d Hs; cbn [waitExit]; by_method validate_keeps as h1 d1 [] Hs1 Hg1; keep_step;
    (destruct (mysql_exit _) as [clean|]; [keep_step; by keep_step|]); keep_step. by apply IH.
Qed.
Lemma shutdown_keeps ep h d : serves h d -> does h (drive_Shutdown cfg p ep d) (keeps is_gated d).
Proof.
  intros Hs. unfold drive_Shutdown. eapply keeps_bind; [apply exec_keeps; [exact Hs|]|].
  - intros h' Hv. apply discard_does. right. by exists ep.
  - intros h1 d1 [] _ Hs1 _ _. by apply waitExit_keeps.
Qed.

(** Pods that the driver creates become its own. *)
Lemma Forall_map_put {A} (P : string * A -> Prop) k a (l : list (string * A)) : P (k, a) -> Forall P l -> Forall P (map_put k a l).
Proof. intros Hk. induction 1 as [|x l Hx Hl IH]; cbn [map_put]; [by repeat constructor|]. destruct (str_eq k x.1); by constructor. Qed.
Lemma In_end {A} (l1 l2 : list A) x : In x (l1 ++ x :: l2).
Proof. apply in_or_app. right. by left. Qed.
Lemma json_does h args input : driver_call _ h (DRun args input) -> does h (kube_json args input) (fun _ _ => True).
Proof. intros Hc. apply wp_bind. eapply wp_mono; [|by apply run_does]. by intros h' [b|e] _. Qed.
(** A create of an object, and its answer. *)
Lemma create_keeps args v h d : serves h d -> driver_call _ h (DRun args (Manifest v)) ->
  does h (lift (kube_json args (Manifest v)) d)
    (keeps (fun h' d' o => d' = d /\ exists b, In (Event (DRun args (Manifest v)) (Ok b)) h' /\ decode_map b = Some o) d).
Proof.
  intros Hs Hc. eapply keeps_mono; [|apply keeps_lift; [exact Hs|by apply json_does]]. intros h' d' o (-> & t & -> & Hx).
  split; [done|]. apply json_answer in Hx as (b & -> & Ho). exists b. split; [apply In_end|done].
Qed.
Lemma serves_pod h d uid owned : serves h d -> made h (uid, owned) -> serves h (with_pods d (map_put uid owned (Nd_pods d))).
Proof. intros [Hp Hd] Hm. split; [by apply Forall_map_put|done]. Qed.
Lemma createPod_keeps target spec h d : helper_of target spec -> gated d -> serves h d ->
  does h (createPod cfg p target spec d) (keeps is_gated d).
Proof.
  intros Hh Hg Hs. unfold createPod. keep_step. rewrite Hg.
  eapply keeps_bind; [apply create_keeps; [done|left; by exists target, spec]|]. intros h1 d1 o _ Hs1 _ (-> & b & Hin & Ho).
  repeat keep_step. apply keeps_set; [done|].
  assert (Hs2 := serves_pod h1 d _ {| Ow_endpoint := created_endpoint (pod_namespace p target) o; Ow_spec := spec; Ow_target := target |} Hs1
    (conj eq_refl (conj Hh (ex_intro _ b (ex_intro _ o (conj Hin (conj Ho eq_refl))))))).
  eapply keeps_bind; [by apply keeps_or_error, validate_keeps|]. intros h3 d3 [] _ Hs3 _ _.
  by_method waitRunning_keeps as h4 d4 [] Hs4 Hg4. by keep_step.
Qed.
Lemma source_helper : helper_of false (source_spec cfg p).
Proof. by exists false, "". Qed.
Lemma target_helper restart uid : helper_of true (helper_fields p (Dc_ServiceAccount cfg) true restart uid).
Proof. by exists restart, uid. Qed.

(** What the driver has read. *)
Lemma consumers_answer exempt t : exec (targetConsumers p exempt) t (Ok tt) ->
  exists b pods, In (Event (DRun (pods_args (Tgt_Namespace (PTarget p))) NoInput) (Ok b)) t
    /\ decode_map b = Some pods /\ existsb (consumes_target p exempt) (arr pods ["items"]) = false.
Proof.
  unfold targetConsumers. intros (t1 & t2 & o & -> & (b & -> & Ho)%json_answer & Hx)%exec_pbind_ok.
  apply exec_stop_ok in Hx as [Hx _]. exists b, o. split; [by left|done].
Qed.

(** The methods that the transport calls. *)
Variable order : list (string * ownedPod) -> list (string * ownedPod).
Variable arrival : list ownedPod -> list ownedPod.
Hypothesis order_perm : forall l, Permutation (order l) l.

Lemma Source_keeps h d : serves h d -> does h (drive_Source cfg order p d) (keeps done_ok d).
Proof.
  intros Hs. unfold drive_Source. by_method readback_keeps as h1 d1 uid Hs1 Hg1. by_method admission_keeps as h2 d2 [] Hs2 Hg2.
  keep_step. destruct (List.filter _ _) as [|[u owned] l].
  - eapply keeps_bind; [by apply createPod_keeps; [apply source_helper|..]|]. intros h3 d3 ep _ Hs3 _ _. by keep_step.
  - by_method validate_keeps as h3 d3 [] Hs3 Hg3. by keep_step.
Qed.
Lemma serve_keeps restart h d : gated d -> serves h d -> does h (serve_target cfg p restart d) (keeps done_ok d).
Proof.
  intros Hg Hs. unfold serve_target. keep_step.
  eapply keeps_bind; [by apply createPod_keeps; [apply target_helper|..]|]. intros h1 d1 ep _ Hs1 _ Hg1.
  apply keeps_set; [done|]. by_method waitSQL_keeps as h2 d2 [] Hs2 _. by keep_step.
Qed.
Lemma dump_does {A} h args (f : target_dump -> result sql_error A) : driver_call _ h (DDump args) ->
  does h (dump <-- call (DDump args);; _ <-! safe (td_error dump);; Ret (f dump)) (fun _ _ => True).
Proof. intros Hc. split; [exact Hc|]. intros r. apply quiet_does, only_pbind; [by apply safe_only|done]. Qed.
(** The target's data was dumped, with the proof of the receipt. *)
Definition proven (h : trace) (r : Receipt) : Prop :=
  exists ep dump proof, In (Event (DDump (exec_args ep (dumpArgs p true))) dump) h /\ td_error dump = Ok tt
    /\ Finish (writes (newTracker p) (td_chunks dump)) = Ok proof /\ sameProof proof (Rc_Proof r) = true.
(** The receipt was found in the cluster. *)
Definition found (h : trace) (r : Receipt) : Prop :=
  exists b marker, In (Event (DRun (get_args "configmap" (receipt_ref p)) NoInput) (Ok b)) h /\ decode_map b = Some marker
    /\ any_equal (nested marker ["immutable"]) (JBool true) = true /\ parse_receipt (str marker ["data"; "receipt.json"]) = Some r.
(** The receipt was created in the cluster. *)
Definition recorded (h : trace) (r : Receipt) : Prop :=
  exists b, In (Event (DRun create_args (Manifest (receipt_manifest p (digest p) (receipt_text r)))) (Ok b)) h.
Lemma proven_more h h' r : incl h h' -> proven h r -> proven h' r.
Proof. intros Hi (ep & dump & proof & Hin & Hd). exists ep, dump, proof. split; [by apply Hi|done]. Qed.
Lemma found_more h h' r : incl h h' -> found h r -> found h' r.
Proof. intros Hi (b & m & Hin & Hm). exists b, m. split; [by apply Hi|done]. Qed.
Lemma recorded_more h h' r : incl h h' -> recorded h r -> recorded h' r.
Proof. intros Hi (b & Hin). exists b. by apply Hi. Qed.

Lemma read_receipt_found d pvc t r : exec (read_receipt p d pvc) t (Ok r) -> found t r.
Proof.
  unfold read_receipt. intros (t1 & t2 & [marker|e] & -> & Hg & Hx)%exec_bind; [|by destruct Hx].
  apply get_answer in Hg as (b & Hb & Ho). apply exec_stop_ok in Hx as [Hi%negb_false_iff Hx].
  destruct (parse_receipt _) as [r'|] eqn:Hp; [|by destruct Hx]. apply exec_stop_ok in Hx as [_ [-> [= ->]]].
  exists b, marker. split; [apply in_or_app; by left|done].
Qed.
Lemma reprove_keeps ep r h d : serves h d -> does h (reprove cfg p ep r d) (keeps (fun h' _ _ => proven h' r) d).
Proof.
  intros Hs. unfold reprove. eapply keeps_bind; [apply exec_keeps; [exact Hs|]; intros h' Hv; apply dump_does; by exists ep|].
  intros h1 d1 proof _ Hs1 _ (_ & h0 & t & -> & Hx). keep_step. keep_step. exists ep.
  apply exec_bind_call in Hx as (dump & t' & -> & Hx). apply exec_pbind_ok in Hx as (t1 & t2 & u & -> & [-> Hd]%safe_ok & [-> Hf]).
  exists dump, proof. destruct u, (Finish _); [|done]. injection Hf as ->. split_and!; [apply In_end|done|done|by apply negb_false_iff].
Qed.
Lemma Inspect_keeps h d : serves h d ->
  does h (drive_Inspect cfg p d) (keeps (fun h' _ o => match o with Some r => found h' r /\ proven h' r | None => True end) d).
Proof.
  intros Hs. unfold drive_Inspect. by_method gate_keeps as h1 d1 [] Hs1 Hg1. do 2 keep_step. keep_step; [by keep_step|].
  keep_step. keep_step; [|by keep_step]. keep_step.
  eapply keeps_bind; [apply keeps_read; [done|repeat reads_step]|]. intros h2 d2 r _ Hs2 _ (-> & t & -> & Hf%read_receipt_found).
  apply keeps_set; [done|].
  eapply keeps_bind; [by apply serve_keeps|]. intros h3 d3 ep Hi3 Hs3 _ _.
  eapply keeps_bind; [by apply reprove_keeps|]. intros h4 d4 [] Hi4 Hs4 _ Hp4.
  eapply keeps_bind; [by apply shutdown_keeps|]. intros h5 d5 [] Hi5 Hs5 _ _. keep_step.
  split; [|by eapply proven_more]. eapply found_more; [|exact Hf]. intros x Hx. apply Hi5, Hi4, Hi3, in_or_app. by right.
Qed.
Lemma Target_keeps h d : serves h d -> does h (drive_Target cfg p d) (keeps done_ok d).
Proof.
  intros Hs. unfold drive_Target. by_method gate_keeps as h1 d1 [] Hs1 Hg1. do 2 keep_step.
  eapply keeps_bind; [apply create_keeps; [done|rewrite Hg1; right; by left]|]. intros h2 d2 o _ Hs2 _ [-> _].
  keep_step. apply keeps_set; [done|]. by_method serve_keeps as h3 d3 ep Hs3 _. by repeat keep_step.
Qed.

Lemma Commit_keeps r h d : serves h d -> does h (drive_Commit cfg p r d) (keeps (fun h' _ _ => recorded h' r) d).
Proof.
  intros Hs. unfold drive_Commit. by_method gate_keeps as h1 d1 [] Hs1 Hg1. keep_step. keep_step.
  apply orb_false_elim in H4 as [_ Hv%negb_false_iff].
  destruct (map_at _ _) as [owned|] eqn:Ho; [|keep_step].
  assert (Hm : made h1 (Ti_PodUID (Rc_Target r), owned)) by (by apply (proj1 (List.Forall_forall _ _) (proj1 Hs1)), map_at_In).
  eapply keeps_bind; [apply keeps_read; [done|repeat reads_step]|].
  intros h2 d2 pod Hi2 Hs2 _ (-> & t2 & -> & (b & Hb & Hpod)%get_answer). keep_step.
  eapply keeps_bind; [apply keeps_read; [done|repeat reads_step]|].
  intros h3 d3 [] Hi3 Hs3 _ (-> & t3 & -> & (b' & pods & Hb' & Hpods)%consumers_answer).
  rewrite Hg1. eapply keeps_bind; [apply create_keeps; [done|]|intros h4 d4 o _ Hs4 _ (_ & bo & Hbo & _); keep_step; by exists bo].
  right; right; left. exists r. split; [done|]. split; [done|]. split; [done|]. exists owned, b, pod.
  split; [eapply made_more; [|exact Hm]; by eapply incl_tran|]. split; [apply Hi3, in_or_app; by right|].
  split; [done|]. split; [by apply negb_false_iff|]. exists b', pods. split; [apply in_or_app; by right|done].
Qed.

(** The cleanup. *)
Lemma made_all h h' (l : list (string * ownedPod)) : incl h h' -> Forall (made h) l -> Forall (made h') l.
Proof. intros Hi Hl. eapply Forall_impl; [exact Hl|]. intros x. by apply made_more. Qed.
Lemma send_keeps pods : forall failures waiting h d, serves h d -> Forall (made h) pods ->
  does h (send_deletes p pods failures waiting d) (keeps done_ok d).
Proof.
  induction pods as [|[uid owned] pods IH]; intros failures waiting h d Hs Hp; cbn [send_deletes]; [by keep_step|].
  apply Forall_cons in Hp as [Hm Hp].
  eapply keeps_bind; [by apply keeps_attempt, pins_keep|]. intros h1 d1 r Hi1 Hs1 _ _. destruct r as [[]|e].
  - assert (Hc : driver_call _ h1 (DRun (delete_args (Ep_Pod (Ow_endpoint owned))) (Manifest (delete_body uid)))).
    { do 4 right. exists uid, owned. split; [by eapply made_more|done]. }
    eapply keeps_bind; [by apply keeps_attempt, keeps_lift, discard_does|]. intros h2 d2 r Hi2 Hs2 _ _.
    destruct r; (apply IH; [done|]); (eapply made_all; [|exact Hp]); intros x Hx; by apply Hi2, Hi1.
  - eapply keeps_bind; [by eapply keeps_attempt, keeps_read; [|repeat reads_step]|]. intros h2 d2 c _ Hs2 _ _. by keep_step.
Qed.
Lemma waitDeleted_keeps pauses r : forall h d, serves h d -> does h (waitDeleted pauses p r d) (keeps done_ok d).
Proof.
  induction pauses as [|pauses IH]; intros h d Hs; cbn [waitDeleted].
  all: eapply keeps_bind; [by apply keeps_attempt, pins_keep|]; intros h1 d1 x _ Hs1 _ _; destruct x as [[]|e]; [|by repeat keep_step].
  all: keep_step; keep_step; [by keep_step|]; repeat keep_step. by apply IH.
Qed.
Lemma await_keeps waiting : forall failures h d, serves h d -> does h (await_deletes p waiting failures d) (keeps done_ok d).
Proof.
  induction waiting as [|owned waiting IH]; intros failures h d Hs; cbn [await_deletes]; [by keep_step|].
  eapply keeps_bind; [by apply keeps_attempt, waitDeleted_keeps|]. intros h1 d1 r _ Hs1 _ _. cbv zeta. by apply IH.
Qed.
Lemma Cleanup_keeps h d : serves h d -> does h (drive_Cleanup order arrival p d) (keeps done_ok d).
Proof.
  intros Hs. unfold drive_Cleanup. keep_step. eapply keeps_bind.
  - apply send_keeps; [done|]. rewrite order_perm. apply Hs.
  - intros h1 d1 sent _ Hs1 _ _. destruct sent as [[failures waiting]|e]; [|by keep_step]. by_method await_keeps as h2 d2 all Hs2 _. by keep_step.
Qed.
(** What a cleanup without failures has done. *)
Lemma discard_answer args input t u : exec (run_discard args input) t (Ok u) -> exists b, t = [Event (DRun args input) (Ok b)].
Proof.
  intros (r & t' & -> & Hx)%exec_bind_call. apply exec_pbind_ok in Hx as (t1 & t2 & b & -> & [-> ->]%safe_ok & [-> _]). by exists b.
Qed.
Lemma failure_not_nil s e : safeFailure s (raised e) <> Nil.
Proof. by destruct e. Qed.
Lemma join_not_nil l e : e <> Nil -> errors_join (l ++ [e]) <> Nil.
Proof.
  intros He Hj. destruct (errors_join_cases (l ++ [e])) as [[_ Hf]|[Hg _]]; [|congruence].
  apply Forall_app in Hf as [_ Hf]. by apply Forall_cons in Hf as [? _].
Qed.
Definition deleted (t : trace) (x : string * ownedPod) : Prop :=
  exists b, In (Event (DRun (delete_args (Ep_Pod (Ow_endpoint x.2))) (Manifest (delete_body x.1))) (Ok b)) t.
Definition seen_absent (t : trace) (owned : ownedPod) : Prop :=
  let r := Ep_Pod (Ow_endpoint owned) in In (Event (DRun (absent_args "pod" (Ref_Name r) (Ref_Namespace r)) NoInput) (Ok [])) t.
Lemma send_deletes_ok pods : forall failures waiting d t d' r, exec (send_deletes p pods failures waiting d) t (d', Ok r) ->
  match r with
  | Ok (failures', waiting') =>
      exists more, failures' = failures ++ more /\ Forall (fun e => e <> Nil) more
        /\ (more = [] -> waiting' = waiting ++ map snd pods /\ Forall (deleted t) pods)
  | Err e => e <> Nil
  end.
Proof.
  induction pods as [|[uid owned] pods IH]; intros failures waiting d t d' r; cbn [send_deletes].
  - intros [-> [= -> ->]]. exists []. rewrite !app_nil_r. by split_and!.
  - intros (t1 & t2 & d1 & pin & -> & _ & Hx)%exec_mbind_ok. destruct pin as [[]|e].
    + apply exec_mbind_ok in Hx as (t3 & t4 & d2 & del & -> & Hd & Hx).
      apply (proj1 (exec_attempt (Er := sql_error) _ _ _ _ _)), exec_lift in Hd as [-> Hd].
      destruct del as [u|e]; apply IH in Hx; (destruct r as [[f w]|e']; [|done]); destruct Hx as (more & -> & Hm & Hw).
      * exists more. split_and!; [done|done|]. intros Hn. destruct (Hw Hn) as [-> Hall]. rewrite <- app_assoc. split; [done|].
        apply discard_answer in Hd as (b & ->). constructor; [exists b; apply in_or_app; right; by left|].
        eapply Forall_impl; [exact Hall|]. intros x (b' & Hb). exists b'. apply in_or_app. right. by right.
      * exists (safeFailure (if Ow_target owned then DeleteTargetHelper else DeleteSourceHelper) (raised e) :: more).
        rewrite <- app_assoc. split_and!; [done| |done]. constructor; [apply failure_not_nil|done].
    + apply exec_mbind_ok in Hx as (t3 & t4 & d2 & c & -> & _ & [-> [= -> ->]]).
      apply (join_not_nil [_]). destruct c; apply failure_not_nil.
Qed.
Lemma waitDeleted_ok pauses owned : forall d t d', exec (waitDeleted pauses p (Ep_Pod (Ow_endpoint owned)) d) t (d', Ok tt) -> seen_absent t owned.
Proof.
  induction pauses as [|pauses IH]; intros d t d'; cbn [waitDeleted].
  all: intros (t1 & t2 & d1 & pin & -> & _ & Hx)%exec_mbind_ok; destruct pin as [[]|e];
    [|by apply exec_mbind_ok in Hx as (? & ? & ? & ? & _ & _ & [_ ?])].
  all: apply exec_mbind_ok in Hx as (t3 & t4 & d2 & b & -> & Hb & Hx); apply exec_lift in Hb as [-> Hb];
    apply exec_bind_call in Hb as (r & t' & -> & [-> Hb]%safe_ok); unfold limited in Hb; destruct r as [b'|e]; [|done];
    destruct (_ <? _); [done|]; injection Hb as ->; destruct b as [|c b]; [apply in_or_app; right; by left|];
    apply exec_deny_ok in Hx as [_ Hx].
  1: by destruct Hx.
  apply exec_mbind_ok in Hx as (t5 & t6 & d3 & u & -> & _ & Hx%IH). do 3 (apply in_or_app; right). exact Hx.
Qed.
Lemma await_ok waiting : forall failures d t d' all, exec (await_deletes p waiting failures d) t (d', Ok all) ->
  exists more, all = failures ++ more /\ Forall (fun e => e <> Nil) more /\ (more = [] -> Forall (seen_absent t) waiting).
Proof.
  induction waiting as [|owned waiting IH]; intros failures d t d' all; cbn [await_deletes].
  - intros [-> [= -> ->]]. exists []. rewrite app_nil_r. by split_and!.
  - intros (t1 & t2 & d1 & r & -> & Hr & Hx)%exec_mbind_ok. apply (proj1 (exec_attempt (Er := sql_error) _ _ _ _ _)) in Hr.
    cbv zeta in Hx. apply IH in Hx as (more & -> & Hm & Hw). destruct r as [[]|e].
    + exists more. rewrite app_nil_r. split_and!; [done|done|]. intros Hn. constructor.
      * apply waitDeleted_ok in Hr. apply in_or_app. by left.
      * eapply Forall_impl; [by apply Hw|]. intros x Hi. apply in_or_app. by right.
    + eexists. rewrite <- app_assoc. split_and!; [done| |done]. constructor; [apply failure_not_nil|done].
Qed.
Lemma not_nil_join l : Forall (fun e => e <> Nil) l -> errors_join l = Nil -> l = [].
Proof.
  intros Hl Hj. destruct (errors_join_cases l) as [[_ Hf]|[Hg _]]; [|congruence]. destruct l as [|e l]; [done|].
  apply Forall_cons in Hl as [He _]. by apply Forall_cons in Hf as [? _].
Qed.
Lemma Quiescence_keeps h d : serves h d -> does h (drive_Quiescence cfg p d) (keeps done_ok d).
Proof.
  intros Hs. unfold drive_Quiescence. keep_step. eapply keeps_bind; [by apply keeps_or_error, gate_keeps|].
  intros h1 d1 [] _ Hs1 _ _. eapply keeps_mono; [|apply keeps_lift; [done|by split]]. done.
Qed.
Lemma observe_keeps s h d : serves h d -> does h (observeSource s d) (keeps done_ok d).
Proof. intros Hs. unfold observeSource. repeat keep_step. by apply keeps_set_last. Qed.
End DriverLemmas.
