(* ===== verification/SqlKube.v ===== *)
(** * The Kubernetes transport of a MySQL copy

    [internal/mysqlcopy/kube.go]: [KubeTransport] over [NativeDriver], the
    credentials, the client's sessions and the lock that a session holds, as the
    transport of an execution: every call of [ExecuteDomain] down to the runs of
    kubectl.

    The process of a lock's session runs beside the rest; it takes nothing of
    what is written to it before its own checks are over, which therefore come
    first here. *)

From stdpp Require Import base list strings pretty.
From Stdlib Require Import ZArith Lia Ascii String.
From S2P Require Import Prelude Stateful GoStrings Regex SqlPlan SqlFailure SqlStream SqlExecutor Json SqlHelper SqlManifest SqlDriver.

Local Open Scope string_scope.
Local Open Scope Z_scope.
Local Open Scope list_scope.

(** ** Texts *)

(** [base64.StdEncoding.DecodeString] *)
Definition b64_value (c : ascii) : option N :=
  if is_upper c then Some (code c - 65)%N
  else if is_lower c then Some (code c - 71)%N
  else if is_digit c then Some (code c + 4)%N
  else if char_eq c (byte_of 43) then Some 62%N
  else if char_eq c (byte_of 47) then Some 63%N
  else None.
Definition b64_bytes (a b c d : N) : bytes :=
  let n := (((a * 64 + b) * 64 + c) * 64 + d)%N in
  [ascii_of_N (n / 65536); ascii_of_N (n / 256 mod 256); ascii_of_N (n mod 256)]%N.
Fixpoint b64_groups (l : bytes) : option bytes :=
  match l with
  | [] => Some []
  | a :: b :: c :: d :: l' =>
      match b64_value a, b64_value b with
      | Some va, Some vb =>
          if char_eq c (byte_of 61)
          then if char_eq d (byte_of 61) && bool_decide (l' = []) then Some (firstn 1 (b64_bytes va vb 0 0)) else None
          else match b64_value c with
               | None => None
               | Some vc =>
                   if char_eq d (byte_of 61) then if bool_decide (l' = []) then Some (firstn 2 (b64_bytes va vb vc 0)) else None
                   else match b64_value d, b64_groups l' with
                        | Some vd, Some rest => Some (b64_bytes va vb vc vd ++ rest)
                        | _, _ => None
                        end
               end
      | _, _ => None
      end
  | _ => None
  end.
Definition b64_decode (s : string) : option bytes :=
  b64_groups (List.filter (fun c => negb (char_eq c newline || char_eq c (byte_of 13))) (chars s)).

(** [strconv.ParseUint(s, 10, 64)] *)
Definition ParseUint (s : string) : option Z :=
  if str_eq s "" || negb (forallb is_digit (chars s)) then None
  else let n := digits_value 0 (chars s) in if n <? 2 ^ 64 then Some n else None.

(** [valueHash]: the bytes behind the hexadecimal digest. *)
Definition hex_value (c : ascii) : N := if is_digit c then (code c - 48)%N else (code c - 87)%N.
Fixpoint unhex (l : bytes) : bytes :=
  match l with a :: b :: l' => ascii_of_N (16 * hex_value a + hex_value b) :: unhex l' | _ => [] end.
Definition valueHash `{Sha256} (b : bytes) : string := text (unhex (chars (sha256_hex b))).

(** ** State *)

(** [backupHold], and what [HoldDDL] has returned. *)
Record backupHold := { Bh_uuid : string; Bh_sequence : Z; Bh_closed : bool; Bh_connectionID : Z }.
Inductive hold : Type := NoHold | External | Session (h : backupHold).
Record KubeTransport := { Kt_driver : NativeDriver; Kt_source : Endpoint; Kt_target : Endpoint; Kt_hold : hold }.
Definition no_endpoint : Endpoint := {| Ep_Pod := {| Ref_Namespace := ""; Ref_Name := ""; Ref_UID := "" |}; Ep_Container := "" |}.
Definition new_transport : KubeTransport :=
  {| Kt_driver := NewProofDriver; Kt_source := no_endpoint; Kt_target := no_endpoint; Kt_hold := NoHold |}.
Definition set_driver (d : NativeDriver) (k : KubeTransport) : KubeTransport :=
  {| Kt_driver := d; Kt_source := Kt_source k; Kt_target := Kt_target k; Kt_hold := Kt_hold k |}.
Definition set_source (ep : Endpoint) (k : KubeTransport) : KubeTransport :=
  {| Kt_driver := Kt_driver k; Kt_source := ep; Kt_target := Kt_target k; Kt_hold := Kt_hold k |}.
Definition set_target (ep : Endpoint) (k : KubeTransport) : KubeTransport :=
  {| Kt_driver := Kt_driver k; Kt_source := Kt_source k; Kt_target := ep; Kt_hold := Kt_hold k |}.
Definition set_hold (h : hold) (k : KubeTransport) : KubeTransport :=
  {| Kt_driver := Kt_driver k; Kt_source := Kt_source k; Kt_target := Kt_target k; Kt_hold := h |}.
Definition set_session (f : backupHold -> backupHold) (k : KubeTransport) : KubeTransport :=
  match Kt_hold k with Session h => set_hold (Session (f h)) k | _ => k end.

Notation transport := (stateful drive_call KubeTransport error).
(** A method of the driver, and a run of the transport's own. *)
Definition sentinel {A} (r : result sql_error A) : result error A := match r with Ok a => Ok a | Err e => Err (Sentinel e) end.
Definition by_driver {A} (m : method A) : transport A :=
  fun k => bind (m (Kt_driver k)) (fun x => Ret (set_driver x.1 k, sentinel x.2)).
Definition own {A} (q : quiet A) : transport A := lift (r <-- q;; Ret (sentinel r)).
Definition check_ctx : transport (result sql_error unit) := lift (r <-- call DCtxErr;; Ret (Ok r)).

(** Configuration of the transport. *)
Record KubeConfig := {
  Kc_Driver : DriverConfig; Kc_SourceNamespaces : list string; Kc_RunnerImage : string; Kc_MySQLImage : string }.

Definition line (words : string) : string := text (chars words ++ [newline]).
Definition split_tabs (s : string) : list string := split_on (byte_of 9) s.

Section Transport.
Context `{Sha256} `{PlanJson} `{JsonText} `{JsonMarshal} `{ReceiptJson}.
Variable cfg : KubeConfig.
Variable order : list (string * ownedPod) -> list (string * ownedPod).
Variable arrival : list ownedPod -> list ownedPod.

(** [allowed] *)
Definition allowed (p : Plan) : bool :=
  is_ok (Validate p) && existsb (str_eq (Ref_Namespace (Src_PVC (PSource p)))) (Kc_SourceNamespaces cfg)
  && str_eq (Kc_RunnerImage cfg) (ConfigImage p) && str_eq (Kc_MySQLImage cfg) (Src_Image (PSource p)).

(** ** Credentials *)

Definition secret_args (r : Ref) : list string := ["get"; "secret"; Ref_Name r; "-n"; Ref_Namespace r; "-o"; "json"].
Fixpoint decode_data (l : list (string * string)) : option (list (string * bytes)) :=
  match l with
  | [] => Some []
  | (k, v) :: l' =>
      match b64_decode v, decode_data l' with Some raw, Some rest => Some ((k, raw) :: rest) | _, _ => None end
  end.
Definition decode_secret (r : Ref) (v : json) : option (list (string * bytes)) :=
  match v with
  | JObj l =>
      match struct_field l "metadata" with
      | Some m =>
          match text_field m "uid", pointer_field m (text_field m) "deletionTimestamp", map_field l "data" with
          | Some uid, Some None, Some data => if str_eq uid (Ref_UID r) then decode_data data else None
          | _, _, _ => None
          end
      | None => None
      end
  | _ => None
  end.
(** [secret]; an answer without an object has no UID, which no reference lacks. *)
Definition kube_secret (r : Ref) : transport (list (string * bytes)) :=
  b <~ own (run_limited (secret_args r) NoInput (Z.shiftl 1 20));;
  lift (Ret (match parse_json b with
             | Some v => match decode_secret r v with Some data => Ok data | None => Err unsafe end
             | None => Err unsafe
             end)).
Definition data_at (key : string) (data : list (string * bytes)) : bytes := match map_at key data with Some v => v | None => [] end.
(** [credential]: the hashes of the password and of the user. *)
Definition kube_credential (r : CredentialRef) (app : bool) : transport (string * string) :=
  data <~ kube_secret (Cred_Ref r);;
  let u := if str_ne (Cred_UsernameKey r) "" then text (data_at (Cred_UsernameKey r) data) else Cred_Username r in
  let password := data_at (Cred_PasswordKey r) data in
  deny negb (match_string identifier u) || (app && equal_fold u "root") || (length password =? 0)%nat
    || (4096 <? Z.of_nat (length password)) || has_byte nul password with unsafe;;
  mret (valueHash password, valueHash (chars u)).
Definition root_credential (p : Plan) : CredentialRef :=
  {| Cred_Ref := Cred_Ref (Tgt_Credentials (PTarget p)); Cred_Username := "root"; Cred_UsernameKey := "";
     Cred_PasswordKey := Tgt_RootPasswordKey (PTarget p) |}.
(** [CheckCredentials] *)
Definition kube_CheckCredentials (p : Plan) : transport CredentialCheck :=
  deny negb (allowed p) with unsafe;;
  source <~ kube_credential (Src_Credentials (PSource p)) true;;
  target <~ kube_credential (Tgt_Credentials (PTarget p)) true;;
  root <~ kube_credential (root_credential p) false;;
  backup <~ (if str_eq (DDLMode p) "backup_lock" then kube_credential (Src_BackupAdminSecretRef (PSource p)) false
             else mret (zero32, zero32));;
  ca <~ kube_secret (Src_TLSCASecret (PSource p));;
  let authority := data_at (Src_TLSCAKey (PSource p)) ca in
  deny (length authority =? 0)%nat with unsafe;;
  mret {| Cc_Source := fst source; Cc_Target := fst target; Cc_TargetRoot := fst root; Cc_Backup := fst backup;
          Cc_CA := valueHash authority; Cc_Principals := [snd source; snd target; snd backup] |}.

(** ** Runs in the helpers *)

(** [exec] up to the run. *)
Definition exec_in (p : Plan) (ep : Endpoint) (target : bool) (args : list string) : transport (list string) :=
  deny negb (allowed p) || negb (validRef (Ep_Pod ep)) || negb (match_string name (Ep_Container ep)) with unsafe;;
  deny str_ne (Ref_Namespace (Ep_Pod ep)) (pod_namespace p target) with unsafe;;
  _ <~ or_error unsafe (by_driver (drive_Validate (Kc_Driver cfg) p ep target));;
  mret (exec_args ep args).
Definition exec_limited (p : Plan) (ep : Endpoint) (args : list string) (input : drive_input) (limit : Z) : transport bytes :=
  argv <~ exec_in p ep false args;; own (run_limited argv input limit).
(** [query], [queryCredential] *)
Definition kube_query (p : Plan) (sql : string) (admin : bool) : transport string :=
  k <~ state_of;;
  b <~ exec_limited p (Kt_source k) (clientArgs p false admin) (Words (line sql)) (Z.shiftl 1 20);;
  mret (text b).
(** [if err != nil { return SourceIdentity{}, ErrUnsafe }] *)
Definition checked_query (p : Plan) (sql : string) (admin : bool) : transport string := or_error unsafe (kube_query p sql admin).

Definition in_schema (what column db : string) : string :=
  "(SELECT COUNT(*) FROM information_schema." +:+ what +:+ " WHERE " +:+ column +:+ "='" +:+ db +:+ "'".
Definition unsupported_sql (db : string) : string :=
  "SELECT " +:+ in_schema "tables" "table_schema" db +:+ " AND table_type<>'BASE TABLE')+"
  +:+ in_schema "triggers" "trigger_schema" db +:+ ")+" +:+ in_schema "routines" "routine_schema" db +:+ ")+"
  +:+ in_schema "events" "event_schema" db +:+ ")+" +:+ in_schema "key_column_usage" "table_schema" db
  +:+ " AND referenced_table_schema IS NOT NULL AND referenced_table_schema<>'" +:+ db +:+ "');".
Definition inventory_sql (db : string) : string :=
  "SELECT t.table_name,t.engine,EXISTS(SELECT 1 FROM information_schema.table_constraints c WHERE c.table_schema=t.table_schema AND c.table_name=t.table_name AND c.constraint_type='PRIMARY KEY') FROM information_schema.tables t WHERE t.table_schema='"
  +:+ db +:+ "' ORDER BY t.table_name;".
Definition table_row (row : string) : option Table :=
  match split_tabs row with
  | [n; engine; key] =>
      if str_eq key "0" || str_eq key "1" then Some {| Tbl_Name := n; Tbl_Engine := engine; Tbl_PrimaryKey := str_eq key "1" |}
      else None
  | _ => None
  end.
Fixpoint check_ids (p : Plan) (fields : list string) : transport unit :=
  match fields with
  | [] => mret tt
  | field :: fields' =>
      k <~ state_of;;
      b <~ or_error unsafe (exec_limited p (Kt_source k) ["id"; field; "mysql"] NoInput 1024);;
      deny str_ne (trim_space (text b)) "999" with unsafe;;
      check_ids p fields'
  end.
(** [Source] *)
Definition kube_Source (p : Plan) : transport SourceIdentity :=
  deny negb (allowed p) with unsafe;;
  found <~ or_error unsafe (by_driver (drive_Source (Kc_Driver cfg) order p));;
  let '(ep, uid) := found in
  k <~ state_of;;
  deny str_ne (Ref_UID (Ep_Pod (Kt_source k))) "" && negb (bool_decide (Kt_source k = ep)) with unsafe;;
  _ <~ set_state (set_source ep);;
  _ <~ check_ids p ["-u"; "-g"];;
  identity <~ kube_query p "SELECT @@server_uuid, VERSION();" false;;
  match split_tabs (trim_space identity) with
  | [uuid; version] =>
      let db := Src_Database (PSource p) in
      let admin := str_eq (DDLMode p) "backup_lock" in
      grants <~ checked_query p "SHOW GRANTS FOR CURRENT_USER;" admin;;
      deny negb (catalogAuthority db grants) with unsafe;;
      unsupported <~ checked_query p (unsupported_sql db) admin;;
      deny str_ne (trim_space unsupported) "0" with unsafe;;
      inventory <~ kube_query p (inventory_sql db) false;;
      fullInventory <~ checked_query p (inventory_sql db) admin;;
      deny str_ne inventory fullInventory with unsafe;;
      match mapM table_row (split_on newline (trim_space inventory)) with
      | None => merr unsafe
      | Some tables =>
          let s := {| Si_PodUID := uid; Si_ServerUUID := uuid; Si_Version := version; Si_Tables := tables |} in
          _ <~ lift (Ret (validateSource p s));;
          _ <~ by_driver (observeSource s);;
          mret s
      end
  | _ => merr unsafe
  end.

(** [Dump] and [Restore] of a transfer: a side that is refused ends at once. *)
Definition restore_prefix : string :=
  line "SET SESSION SQL_MODE='NO_AUTO_VALUE_ON_ZERO'; SET SESSION TIME_ZONE='+00:00'; SET SESSION FOREIGN_KEY_CHECKS=0;".
Definition restore_suffix : string := text (newline :: chars (line "SET SESSION FOREIGN_KEY_CHECKS=1;")).
Definition same_pod (k : KubeTransport) (id : TargetIdentity) : bool := str_eq (Ref_UID (Ep_Pod (Kt_target k))) (Ti_PodUID id).
Definition side {A} (r : result error A) : option A := match r with Ok a => Some a | Err _ => None end.
Definition ended {A} (r : result error A) (own : result error unit) : result error unit :=
  match r with Ok _ => own | Err e => Err e end.
Definition kube_Stream (p : Plan) (id : TargetIdentity) : transport transfer :=
  k <~ state_of;;
  dump <~ attempt (exec_in p (Kt_source k) false (dumpArgs p false));;
  restore <~ attempt (deny negb (same_pod k id) with unsafe;;
                      argv <~ exec_in p (Kt_target k) true (clientArgs p true false);;
                      mret (argv, restore_prefix, restore_suffix));;
  lift (x <-- call (DStreams (side dump) (side restore));;
        dumped <-- safe (tr_dump x);;
        restored <-- safe (tr_restore x);;
        Ret (Ok {| tr_input := match dump with Ok _ => tr_input x | Err _ => [] end;
                   tr_end := tr_end x;
                   tr_sizes := match restore with Ok _ => tr_sizes x | Err _ => [] end;
                   tr_restore := ended restore (sentinel restored); tr_dump := ended dump (sentinel dumped) |})).
(** [TargetDump] *)
Definition kube_TargetDump (p : Plan) (id : TargetIdentity) : transport target_dump :=
  k <~ state_of;;
  argv <~ attempt (deny negb (same_pod k id) with unsafe;; exec_in p (Kt_target k) true (dumpArgs p true));;
  match argv with
  | Err e => mret {| td_chunks := []; td_error := Err e |}
  | Ok argv =>
      lift (dump <-- call (DDump argv);; r <-- safe (td_error dump);;
            Ret (Ok {| td_chunks := td_chunks dump; td_error := sentinel r |}))
  end.

(** [Inspect], [Provision], [Shutdown], [Commit], [Cleanup] *)
Definition kube_Inspect (p : Plan) : transport (option Receipt) :=
  deny negb (allowed p) with unsafe;; by_driver (drive_Inspect (Kc_Driver cfg) p).
Definition kube_Provision (p : Plan) : transport TargetIdentity :=
  deny negb (allowed p) with unsafe;;
  made <~ or_error unsafe (by_driver (drive_Target (Kc_Driver cfg) p));;
  let '(ep, id) := made in
  deny str_ne (Ref_UID (Ep_Pod ep)) (Ti_PodUID id) || str_ne (Ref_Namespace (Ep_Pod ep)) (Tgt_Namespace (PTarget p)) with unsafe;;
  _ <~ set_state (set_target ep);;
  _ <~ by_driver (drive_Validate (Kc_Driver cfg) p ep true);;
  mret id.
Definition kube_Shutdown (p : Plan) (id : TargetIdentity) : transport unit :=
  k <~ state_of;;
  deny negb (same_pod k id) with unsafe;;
  _ <~ or_error unsafe (by_driver (drive_Validate (Kc_Driver cfg) p (Kt_target k) true));;
  by_driver (drive_Shutdown (Kc_Driver cfg) p (Kt_target k)).
Definition kube_Commit (p : Plan) (r : Receipt) : transport unit := by_driver (drive_Commit (Kc_Driver cfg) p r).
Definition kube_Cleanup (p : Plan) : transport unit :=
  e <~ by_driver (drive_Cleanup order arrival p);;
  if is_nil e then mret tt else merr e.

(** ** The lock *)

(** [backupClientArgs] *)
Definition backupClientArgs (p : Plan) : list string :=
  List.filter (fun arg => negb (str_eq arg "--binary-mode=1")) (clientArgs p false true) ++ ["--binary-mode=0"].
Definition marker_of (n : Z) : string := "envplane_lock_" +:+ pretty n.
Definition challenge_sql (marker : string) : string := "SELECT '" +:+ marker +:+ "', CONNECTION_ID(), @@server_uuid;".
(** A line of the session, of at most 4096 bytes, in its three columns. *)
Definition columns (b : bytes) : list string := split_tabs (trim_space (text b)).
Definition read_columns : transport (list string) :=
  lift (r <-- call DSessionLine;;
        Ret (match r with
             | Ok b => if 4096 <? Z.of_nat (length b) then Err (Opaque "bufio: buffer full") else Ok (columns b)
             | Err e => Err e
             end)).
Definition next_challenge (h : backupHold) : backupHold :=
  {| Bh_uuid := Bh_uuid h; Bh_sequence := Bh_sequence h + 1; Bh_closed := Bh_closed h; Bh_connectionID := Bh_connectionID h |}.
Definition on_connection (id : Z) (h : backupHold) : backupHold :=
  {| Bh_uuid := Bh_uuid h; Bh_sequence := Bh_sequence h; Bh_closed := Bh_closed h; Bh_connectionID := id |}.
Definition closed_hold (h : backupHold) : backupHold :=
  {| Bh_uuid := Bh_uuid h; Bh_sequence := Bh_sequence h; Bh_closed := true; Bh_connectionID := Bh_connectionID h |}.
(** [backupHold.Check] *)
Definition answered (h : backupHold) (marker : string) (fields : list string) : option Z :=
  match fields with
  | [m; c; u] =>
      match ParseUint c with
      | Some id =>
          if str_eq m marker && str_eq u (Bh_uuid h) && negb (id =? 0)
             && ((Bh_connectionID h =? 0) || (Bh_connectionID h =? id))
          then Some id else None
      | None => None
      end
  | _ => None
  end.
Definition session_Check (h : backupHold) : transport unit :=
  deny Bh_closed h with unsafe;;
  c <~ check_ctx;;
  deny negb (is_ok c) with unsafe;;
  over <~ (lift (r <-- call DSessionEnded;; Ret (Ok r)) : transport bool);;
  deny over with unsafe;;
  _ <~ set_state (set_session next_challenge);;
  let marker := marker_of (Bh_sequence h + 1) in
  _ <~ or_error unsafe (lift (call (DSessionSend (line (challenge_sql marker)))));;
  fields <~ or_error unsafe read_columns;;
  match answered h marker fields with
  | None => merr unsafe
  | Some id => set_state (set_session (on_connection id))
  end.
(** [HoldDDL] *)
Definition kube_HoldDDL (p : Plan) : transport bool :=
  deny negb (allowed p) with unsafe;;
  if str_eq (DDLMode p) "quiescence" then
    r <~ by_driver (drive_Quiescence (Kc_Driver cfg) p);;
    match r with
    | Ok held => _ <~ set_state (set_hold (if held then External else NoHold));; mret held
    | Err e => merr e
    end
  else
    identity <~ kube_query p "SELECT @@server_uuid;" false;;
    k <~ state_of;;
    argv <~ or_error unsafe (exec_in p (Kt_source k) false (backupClientArgs p));;
    _ <~ lift (_ <-- call (DSession argv);; Ret (Ok tt));;
    let h := {| Bh_uuid := trim_space identity; Bh_sequence := 0; Bh_closed := false; Bh_connectionID := 0 |} in
    _ <~ set_state (set_hold (Session h));;
    r <~ attempt (_ <~ lift (call (DSessionSend (line "LOCK INSTANCE FOR BACKUP;")));; session_Check h);;
    match r with
    | Ok _ => mret true
    | Err _ => _ <~ lift (_ <-- call DSessionClose;; Ret (Ok tt));; _ <~ set_state (set_hold NoHold);; merr unsafe
    end.
(** [backupHold.Release]: the session is closed however it ends. *)
Definition unlock_sql : string := text (chars (line "UNLOCK INSTANCE;") ++ chars (line "SELECT 'envplane_unlock', CONNECTION_ID(), @@server_uuid;")).
Definition acknowledged (h : backupHold) (fields : list string) : bool :=
  bool_decide (fields = ["envplane_unlock"; pretty (Bh_connectionID h); Bh_uuid h]).
Definition safe_io {A} (q : transport A) : transport A :=
  r <~ attempt q;; match r with Ok a => mret a | Err e => own (safe (Err e)) end.
Definition release_session (h : backupHold) : transport unit :=
  deny Bh_connectionID h =? 0 with unsafe;;
  c <~ check_ctx;;
  deny negb (is_ok c) with unsafe;;
  _ <~ safe_io (lift (call (DSessionSend unlock_sql)));;
  fields <~ safe_io read_columns;;
  deny negb (acknowledged h fields) with unsafe;;
  _ <~ safe_io (lift (call (DSessionSend (line "quit"))));;
  lift (r <-- call DSessionWait;;
        Ret (match r with
             | Err c => Err (Sentinel c) : result error unit
             | Ok true => Ok tt
             | Ok false => Err (Sentinel ErrOperation)
             end)).
Definition session_Release (h : backupHold) : transport unit :=
  deny Bh_closed h with unsafe;;
  _ <~ set_state (set_session closed_hold);;
  r <~ attempt (release_session h);;
  _ <~ lift (_ <-- call DSessionClose;; Ret (Ok tt));;
  match r with Ok _ => mret tt | Err e => merr e end.
Definition kube_HoldCheck : transport unit :=
  k <~ state_of;;
  match Kt_hold k with
  | NoHold => merr unsafe
  | External => lift (call DQuiesceCheck)
  | Session h => session_Check h
  end.
Definition kube_HoldRelease : transport unit :=
  k <~ state_of;;
  match Kt_hold k with
  | NoHold => merr unsafe
  | External => lift (call DQuiesceRelease)
  | Session h => session_Release h
  end.

(** ** The transport of an execution *)

Definition total {A} (fallback : error -> A) (m : transport A) : KubeTransport -> prog drive_call (KubeTransport * A) :=
  fun k => bind (m k) (fun x => Ret (x.1, match x.2 with Ok a => a | Err e => fallback e end)).
Definition refused_transfer (e : error) : transfer :=
  {| tr_input := []; tr_end := None; tr_sizes := []; tr_restore := Err e; tr_dump := Err e |}.
Definition refused_dump (e : error) : target_dump := {| td_chunks := []; td_error := Err e |}.
Definition serve (p : Plan) (R : Type) (c : copy_call R) : KubeTransport -> prog drive_call (KubeTransport * R) :=
  match c in copy_call R return KubeTransport -> prog drive_call (KubeTransport * R) with
  | CtxErr => fun k => r <-- call DCtxErr;; Ret (k, match r with Ok _ => Nil | Err e => Sentinel e end)
  | Authority s => fun k => r <-- call (DAuthorize s);; Ret (k, r)
  | CheckCredentialsCall => kube_CheckCredentials p
  | SourceCall => kube_Source p
  | HoldCall => kube_HoldDDL p
  | HoldCheck => kube_HoldCheck
  | HoldRelease => kube_HoldRelease
  | Inspect => kube_Inspect p
  | Provision => kube_Provision p
  | Stream id => total refused_transfer (kube_Stream p id)
  | TargetDump id => total refused_dump (kube_TargetDump p id)
  | Shutdown id => kube_Shutdown p id
  | Commit r => kube_Commit p r
  | Cleanup => kube_Cleanup p
  end.
(** [DomainExecutor{transport, authority}.ExecuteDomain] *)
Definition kube_copy (p : Plan) : prog drive_call (KubeTransport * result error Receipt) :=
  threaded (serve p) (ExecuteDomain true p) new_transport.
End Transport.

(** ** Lemmas: what the transport does *)

Section TransportLemmas.
Context `{Sha256} `{PlanJson} `{JsonText} `{JsonMarshal} `{ReceiptJson}.
Variable cfg : KubeConfig.
Variable p : Plan.
Variable order : list (string * ownedPod) -> list (string * ownedPod).
Variable arrival : list ownedPod -> list ownedPod.
Hypothesis order_perm : forall l, Permutation (order l) l.

Notation validated_now := (just_validated (Kc_Driver cfg) p).
(** Both sides of a transfer are validated before either runs: the history ends with a
    validation of the source that succeeded, but for what the validation of the
    target, if it got that far, did in between. *)
Definition validated_both (h : trace) (ep : Endpoint) : Prop :=
  exists h1 t, h = h1 ++ t /\ validated_now h1 ep false
    /\ (t = [] \/ exists target d x, exec (drive_Validate (Kc_Driver cfg) p target true d) t x).
(** What the source's server is asked. *)
Definition source_queries : list string :=
  ["SELECT @@server_uuid, VERSION();"; "SHOW GRANTS FOR CURRENT_USER;"; unsupported_sql (Src_Database (PSource p));
   inventory_sql (Src_Database (PSource p)); "SELECT @@server_uuid;"].
Definition session_words (w : string) : Prop :=
  w = line "LOCK INSTANCE FOR BACKUP;" \/ w = unlock_sql \/ w = line "quit" \/ exists n, w = line (challenge_sql (marker_of n)).
(** The calls of a copy, each with what came before it. *)
Definition transport_call (R : Type) (h : trace) (e : drive_call R) : Prop :=
  driver_call (Kc_Driver cfg) p R h e
  \/ match e with
     | DRun args NoInput => exists ep field, In field ["-u"; "-g"] /\ args = exec_args ep ["id"; field; "mysql"] /\ validated_now h ep false
     | DRun args (Words w) =>
         exists ep admin sql, In sql source_queries /\ args = exec_args ep (clientArgs p false admin) /\ w = line sql /\ validated_now h ep false
     | DStreams source target =>
         match source with
         | Some args => exists ep, args = exec_args ep (dumpArgs p false) /\ validated_both h ep
         | None => True
         end
         /\ match target with
            | Some (args, prefix, suffix) =>
                exists ep, args = exec_args ep (clientArgs p true false) /\ prefix = restore_prefix /\ suffix = restore_suffix /\ validated_now h ep true
            | None => True
            end
     | DSession args => exists ep, args = exec_args ep (backupClientArgs p) /\ validated_now h ep false
     | DSessionSend w => session_words w
     | DQuiesceCheck | DQuiesceRelease | DSessionEnded | DSessionLine | DSessionClose | DSessionWait => True
     | _ => False
     end.

Notation tserves := (fun h k => serves (Kc_Driver cfg) p h (Kt_driver k)).
Definition kept {A} (Q : trace -> KubeTransport -> A -> Prop) (h : trace) (x : KubeTransport * result error A) : Prop :=
  tserves h x.1 /\ match x.2 with Ok a => Q h x.1 a | Err _ => True end.
Definition fine {A} : trace -> KubeTransport -> A -> Prop := fun _ _ _ => True.
Notation does := (wp transport_call).

Lemma kept_bind {A B} (m : transport A) (f : A -> transport B) h k (Q' : trace -> KubeTransport -> A -> Prop) Q :
  does h (m k) (kept Q') ->
  (forall h' k' a, incl h h' -> (exists t, h' = h ++ t /\ exec (m k) t (k', Ok a)) -> tserves h' k' -> Q' h' k' a -> does h' (f a k') (kept Q)) ->
  does h (mbind m f k) (kept Q).
Proof.
  intros Hm Hf. apply wp_mbind. eapply wp_mono; [|apply wp_trace, Hm]. intros h' [k' [a|e]] [[Hs HQ] (t & -> & Hx)]; [|done].
  apply Hf; [apply incl_prefix|by exists t|done..].
Qed.
Lemma kept_deny {A} (b : bool) e (m : transport A) h k Q : tserves h k -> (b = false -> does h (m k) (kept Q)) ->
  does h ((deny b with e;; m) k) (kept Q).
Proof. intros Hs Hm. by apply wp_deny. Qed.
Lemma kept_state {A} (f : KubeTransport -> transport A) h k Q : does h (f k k) (kept Q) -> does h (mbind state_of f k) (kept Q).
Proof. done. Qed.
Lemma kept_set {A} (g : KubeTransport -> KubeTransport) (f : unit -> transport A) h k Q :
  does h (f tt (g k)) (kept Q) -> does h (mbind (set_state g) f k) (kept Q).
Proof. done. Qed.
Lemma kept_mono {A} (m : transport A) (Q Q' : trace -> KubeTransport -> A -> Prop) h k :
  (forall h' k' a, Q h' k' a -> Q' h' k' a) -> does h (m k) (kept Q) -> does h (m k) (kept Q').
Proof. intros HQ Hm. eapply wp_mono; [|exact Hm]. intros h' [k' [a|e]] [Hs Ha]; (split; [exact Hs|]); [by apply HQ|done]. Qed.
Lemma kept_attempt {A} (m : transport A) Q h k : does h (m k) (kept Q) ->
  does h (attempt (Er := error) m k) (kept (fun h' k' r => match r with Ok a => Q h' k' a | Err _ => True end)).
Proof. intros Hm. apply wp_attempt. eapply wp_mono; [|exact Hm]. by intros h' [k' r] [Hs HQ]. Qed.
Lemma kept_or_error {A} (m : transport A) Q e h k : does h (m k) (kept Q) -> does h (or_error e m k) (kept Q).
Proof. intros Hm. apply wp_or_error. eapply wp_mono; [|exact Hm]. intros h' [k' [a|e']] [Hs HQ]; by split. Qed.
Lemma kept_lift {A} (q : prog drive_call (result error A)) h k : tserves h k -> does h q (fun _ _ => True) ->
  does h (lift q k) (kept (fun h' k' a => k' = k /\ exists t, h' = h ++ t /\ exec q t (Ok a))).
Proof.
  intros Hs Hq. apply wp_lift. eapply wp_mono; [|apply wp_trace, Hq]. intros h' r [_ (t & -> & Hx)].
  split; [by eapply serves_more; [apply incl_prefix|]|]. destruct r; [|done]. split; [done|]. by exists t.
Qed.
(** A method of the driver. *)
Lemma kept_driver {A} (m : method A) Q h k : wp (driver_call (Kc_Driver cfg) p) h (m (Kt_driver k)) (keeps (Kc_Driver cfg) p Q (Kt_driver k)) ->
  does h (by_driver m k) (kept (fun h' k' a => Q h' (Kt_driver k') a)).
Proof.
  intros Hm. apply wp_bind. eapply wp_mono; [|eapply wp_weaken; [|exact Hm]; by left].
  intros h' [d [a|e]] (Hs & _ & HQ); by split.
Qed.
Lemma kept_own {A} (q : quiet A) h k : tserves h k -> does h q (fun _ _ => True) -> does h (own q k) (kept fine).
Proof. intros Hs Hq. eapply kept_mono; [|apply kept_lift; [done|]]; [done|]. apply wp_bind. eapply wp_mono; [|exact Hq]. done. Qed.
Lemma does_driver {A} h (q : prog drive_call A) Q : wp (driver_call (Kc_Driver cfg) p) h q Q -> does h q Q.
Proof. apply wp_weaken. by left. Qed.
Lemma does_run h args input limit : transport_call _ h (DRun args input) -> does h (run_limited args input limit) (fun _ _ => True).
Proof. intros Hc. split; [exact Hc|]. intros r. by eapply does_driver, quiet_does, safe_only. Qed.

Ltac kept_step :=
  lazymatch goal with
  | |- wp _ _ ((let _ := _ in _) _) _ => cbv zeta
  | |- wp _ _ ((if _ then merr _ else _) _) _ => apply kept_deny; [assumption|intros ?]
  | |- wp _ _ (merr _ _) _ => split; [assumption|exact I]
  | |- wp _ _ (mret _ _) _ => split; [assumption|try exact I]
  | |- wp _ _ (mbind state_of _ _) _ => apply kept_state
  | |- wp _ _ (mbind (set_state _) _ _) _ => apply kept_set
  | |- wp _ _ (mbind (lift (Ret _)) _ _) _ =>
      eapply kept_bind; [apply kept_lift; [assumption|exact I]|intros ? ? ? _ _ ? [-> _]]
  | |- wp _ _ ((match ?x with _ => _ end) _) _ => destruct x
  end.
Tactic Notation "by_kept" uconstr(lem) "as" ident(h) ident(k) simple_intropattern(a) ident(Hs) simple_intropattern(HQ) :=
  eapply kept_bind; [eapply lem; eassumption|intros h k a _ _ Hs HQ].

(** Credentials *)
Lemma secret_kept r h k : tserves h k -> does h (kube_secret r k) (kept fine).
Proof.
  intros Hs. unfold kube_secret. eapply kept_bind; [apply kept_own; [done|]; apply does_run; left; by left|].
  intros h1 k1 b _ _ Hs1 _. eapply kept_mono; [|by apply kept_lift]. done.
Qed.
Lemma credential_kept r app h k : tserves h k -> does h (kube_credential r app k) (kept fine).
Proof. intros Hs. unfold kube_credential. by_kept secret_kept as h1 k1 data Hs1 _. by repeat kept_step. Qed.
Lemma credentials_kept h k : tserves h k -> does h (kube_CheckCredentials cfg p k) (kept fine).
Proof.
  intros Hs. unfold kube_CheckCredentials. kept_step. by_kept credential_kept as h1 k1 source Hs1 _.
  by_kept credential_kept as h2 k2 target Hs2 _. by_kept credential_kept as h3 k3 root Hs3 _.
  eapply (kept_bind _ _ _ _ fine); [destruct (str_eq _ _); [by apply credential_kept|by kept_step]|]. intros h4 k4 backup _ _ Hs4 _.
  by_kept secret_kept as h5 k5 ca Hs5 _. by repeat kept_step.
Qed.

(** Runs in the helpers *)
Lemma exec_in_kept ep target args h k : tserves h k ->
  does h (exec_in cfg p ep target args k) (kept (fun h' _ argv => argv = exec_args ep args /\ validated_now h' ep target)).
Proof.
  intros Hs. unfold exec_in. do 2 kept_step. eapply kept_bind; [by apply kept_or_error, kept_driver, validated_keeps|].
  intros h1 k1 [] _ _ Hs1 [_ Hv]. by kept_step.
Qed.
Lemma limited_kept ep args input limit h k : tserves h k ->
  (forall h', validated_now h' ep false -> transport_call _ h' (DRun (exec_args ep args) input)) ->
  does h (exec_limited cfg p ep args input limit k) (kept fine).
Proof.
  intros Hs Hc. unfold exec_limited. by_kept exec_in_kept as h1 k1 argv Hs1 [-> Hv].
  eapply kept_mono; [|apply kept_own; [done|by apply does_run, Hc]]. done.
Qed.
Lemma query_kept sql admin h k : In sql source_queries -> tserves h k -> does h (kube_query cfg p sql admin k) (kept fine).
Proof.
  intros Hq Hs. unfold kube_query. kept_step. eapply kept_bind; [apply limited_kept; [done|]|].
  - intros h' Hv. right. by exists (Kt_source k), admin, sql.
  - intros h1 k1 b _ _ Hs1 _. by kept_step.
Qed.
Lemma checked_kept sql admin h k : In sql source_queries -> tserves h k -> does h (checked_query cfg p sql admin k) (kept fine).
Proof. intros Hq Hs. by apply kept_or_error, query_kept. Qed.
Lemma ids_kept fields : incl fields ["-u"; "-g"] -> forall h k, tserves h k -> does h (check_ids cfg p fields k) (kept fine).
Proof.
  induction fields as [|field fields IH]; intros Hi h k Hs; cbn [check_ids]; [by kept_step|]. kept_step.
  eapply kept_bind; [apply kept_or_error, limited_kept; [done|]|].
  - intros h' Hv. right. exists (Kt_source k), field. split; [apply Hi; by left|done].
  - intros h1 k1 b _ _ Hs1 _. kept_step. apply IH; [|done]. intros x Hx. apply Hi. by right.
Qed.
Ltac a_query := unfold source_queries; repeat (first [by left|right]).
Lemma Source_kept h k : tserves h k -> does h (kube_Source cfg order p k) (kept fine).
Proof.
  intros Hs. unfold kube_Source. kept_step.
  eapply kept_bind; [by apply kept_or_error, kept_driver, Source_keeps|]. intros h1 k1 [ep uid] _ _ Hs1 _.
  do 3 kept_step. eapply kept_bind; [by apply ids_kept; [apply incl_refl|]|]. intros h2 k2 [] _ _ Hs2 _.
  eapply kept_bind; [apply query_kept; [a_query|done]|]. intros h3 k3 identity _ _ Hs3 _.
  destruct (split_tabs _) as [|uuid [|version [|]]]; [by kept_step|by kept_step| |by kept_step].
  eapply kept_bind; [apply checked_kept; [a_query|done]|]. intros h4 k4 grants _ _ Hs4 _. kept_step.
  eapply kept_bind; [apply checked_kept; [a_query|done]|]. intros h5 k5 unsupported _ _ Hs5 _. kept_step.
  eapply kept_bind; [apply query_kept; [a_query|done]|]. intros h6 k6 inventory _ _ Hs6 _.
  eapply kept_bind; [apply checked_kept; [a_query|done]|]. intros h7 k7 full _ _ Hs7 _. do 2 kept_step; [|by kept_step].
  repeat kept_step. eapply kept_bind; [by apply kept_driver, observe_keeps|]. intros h8 k8 [] _ _ Hs8 _. by kept_step.
Qed.

(** The streams and the target *)
Lemma restore_kept id args h k0 k : tserves h k ->
  does h ((deny negb (same_pod k0 id) with unsafe;;
           argv <~ exec_in cfg p (Kt_target k0) true args;; mret (argv, restore_prefix, restore_suffix)) k)
    (kept (fun h' _ x => x = (exec_args (Kt_target k0) args, restore_prefix, restore_suffix) /\ validated_now h' (Kt_target k0) true)).
Proof. intros Hs. kept_step. by_kept exec_in_kept as h1 k1 argv Hs1 [-> Hv]. by kept_step. Qed.
(** What the preparation of the target of a transfer did. *)
Lemma restore_calls id k0 k t k' x : exec ((attempt (Er := error) (deny negb (same_pod k0 id) with unsafe;;
    argv <~ exec_in cfg p (Kt_target k0) true (clientArgs p true false);; mret (argv, restore_prefix, restore_suffix))) k) t (k', Ok x) ->
  t = [] \/ exists target d y, exec (drive_Validate (Kc_Driver cfg) p target true d) t y.
Proof.
  intros Hx. apply (proj1 (exec_attempt (Er := error) _ _ _ _ _)) in Hx. destruct (negb _); [by left; destruct Hx|].
  apply exec_bind in Hx as (t1 & t2 & [k1 r] & -> & He & Hx). cbn [fst snd] in Hx.
  assert (t2 = []) as -> by (by destruct r; destruct Hx). rewrite app_nil_r. unfold exec_in in He.
  destruct (_ || _); [by left; destruct He|]. destruct (str_ne _ _); [by left; destruct He|].
  apply exec_bind in He as (t3 & t4 & [k2 r2] & -> & He & Hx'). cbn [fst snd] in Hx'.
  assert (t4 = []) as -> by (by destruct r2; destruct Hx'). rewrite app_nil_r. right. unfold or_error in He.
  apply exec_bind in He as (t5 & t6 & [k3 r3] & -> & He & [-> _]). rewrite app_nil_r.
  apply exec_bind in He as (t7 & t8 & y & -> & He & [-> _]). rewrite app_nil_r. by eexists _, _, y.
Qed.
Lemma safe_does {A} h (r : result error A) : does h (safe r) (fun _ _ => True).
Proof. by apply does_driver, quiet_does, safe_only. Qed.
Lemma Stream_kept id h k : tserves h k -> does h (kube_Stream cfg p id k) (kept fine).
Proof.
  intros Hs. unfold kube_Stream. kept_step.
  eapply kept_bind; [by eapply kept_attempt, exec_in_kept|]. intros h1 k1 dump _ _ Hs1 Hd.
  eapply kept_bind; [eapply kept_attempt; by apply (restore_kept id (clientArgs p true false) h1 k k1)|]. intros h2 k2 restore _ (t & -> & Hx%restore_calls) Hs2 Hr.
  eapply kept_mono; [|apply kept_lift; [exact Hs2|]]; [done|]. split; [right|].
  - split; [destruct dump as [argv|e]; [|done]|destruct restore as [x|e]; [|done]]; cbn [side].
    + destruct Hd as [-> Hv]. eexists. split; [done|]. by exists h1, t.
    + destruct Hr as [-> Hv]. eexists. by split_and!.
  - intros x. apply (wp_bind _ _ (safe (tr_dump x))). eapply wp_mono; [|by apply safe_does]. intros h' dumped _.
    apply (wp_bind _ _ (safe (tr_restore x))).
    eapply wp_mono; [|by apply safe_does]. done.
Qed.
(** The data of the target's dump is that of one that ended well. *)
Definition dumped (h : trace) (d : target_dump) : Prop :=
  td_error d = Ok tt -> exists ep dump, In (Event (DDump (exec_args ep (dumpArgs p true))) dump) h
    /\ td_error dump = Ok tt /\ td_chunks d = td_chunks dump.
Lemma TargetDump_kept id h k : tserves h k -> does h (kube_TargetDump cfg p id k) (kept (fun h' _ d => dumped h' d)).
Proof.
  intros Hs. unfold kube_TargetDump. kept_step.
  eapply kept_bind; [eapply kept_attempt; kept_step; by apply exec_in_kept|]. intros h1 k1 argv _ _ Hs1 Ha.
  destruct argv as [argv|e]; [|by kept_step]. destruct Ha as [-> Hv].
  eapply kept_mono; [|apply kept_lift; [exact Hs1|]].
  - intros h' k' d (_ & t & -> & Hx) Hd. apply exec_bind_call in Hx as (dump & t' & -> & Hx).
    apply exec_bind in Hx as (t1 & t2 & r & -> & Hr & [-> [= ->]]). exists (Kt_target k), dump. split; [apply In_end|].
    destruct r as [u|e]; [|done]. by apply safe_ok in Hr as [_ ->]; destruct u.
  - split; [left; by eexists|]. intros dump. apply (wp_bind _ _ (safe (td_error dump))).
    eapply wp_mono; [|by apply safe_does]. done.
Qed.
Lemma Inspect_kept h k : tserves h k ->
  does h (kube_Inspect cfg p k) (kept (fun h' _ o => match o with Some r => found p h' r /\ proven p h' r | None => True end)).
Proof. intros Hs. unfold kube_Inspect. kept_step. eapply kept_mono; [|by apply kept_driver, Inspect_keeps]. done. Qed.
Lemma Provision_kept h k : tserves h k -> does h (kube_Provision cfg p k) (kept fine).
Proof.
  intros Hs. unfold kube_Provision. kept_step. eapply kept_bind; [by apply kept_or_error, kept_driver, Target_keeps|].
  intros h1 k1 [ep id] _ _ Hs1 _. do 2 kept_step. eapply kept_bind; [by apply kept_driver, validate_keeps|].
  intros h2 k2 [] _ _ Hs2 _. by kept_step.
Qed.
Lemma Shutdown_kept id h k : tserves h k -> does h (kube_Shutdown cfg p id k) (kept fine).
Proof.
  intros Hs. unfold kube_Shutdown. do 2 kept_step. eapply kept_bind; [by apply kept_or_error, kept_driver, validate_keeps|].
  intros h1 k1 [] _ _ Hs1 _. eapply kept_mono; [|by apply kept_driver, shutdown_keeps]. done.
Qed.
Lemma Commit_kept r h k : tserves h k -> does h (kube_Commit cfg p r k) (kept (fun h' _ _ => recorded p h' r)).
Proof. intros Hs. eapply kept_mono; [|by apply kept_driver, Commit_keeps]. done. Qed.
Lemma Cleanup_kept h k : tserves h k -> does h (kube_Cleanup order arrival p k) (kept fine).
Proof.
  intros Hs. unfold kube_Cleanup. eapply kept_bind; [by apply kept_driver, Cleanup_keeps|]. intros h1 k1 e _ _ Hs1 _.
  destruct (is_nil e); by kept_step.
Qed.

(** The lock *)
Lemma call_kept {R} (e : drive_call R) (f : R -> result error R) h k : tserves h k -> transport_call _ h e ->
  does h (lift (r <-- call e;; Ret (f r)) k) (kept fine).
Proof. intros Hs He. eapply kept_mono; [|apply kept_lift; [done|by split]]. done. Qed.
Lemma columns_kept h k : tserves h k -> does h (read_columns k) (kept fine).
Proof. intros Hs. eapply kept_mono; [|apply kept_lift; [done|split; [by right|done]]]. done. Qed.
Lemma send_kept w h k : session_words w -> tserves h k -> does h (lift (call (DSessionSend w)) k) (kept fine).
Proof. intros Hw Hs. eapply kept_mono; [|apply kept_lift; [done|split; [by right|done]]]. done. Qed.
Lemma session_state (f : backupHold -> backupHold) k : Kt_driver (set_session f k) = Kt_driver k.
Proof. unfold set_session. by destruct (Kt_hold k). Qed.
Lemma ctx_kept h k : tserves h k -> does h (check_ctx k) (kept fine).
Proof. intros Hs. eapply kept_mono; [|apply kept_lift; [done|split; [by left|done]]]. done. Qed.
Lemma Check_kept b h k : tserves h k -> does h (session_Check b k) (kept fine).
Proof.
  intros Hs. unfold session_Check. kept_step. by_kept ctx_kept as h1 k1 c Hs1 _. kept_step.
  eapply kept_bind; [apply kept_lift; [done|split; [by right|done]]|]. intros h2 k2 over _ _ Hs2 _. repeat kept_step.
  assert (Hs3 : tserves h2 (set_session next_challenge k2)) by (by rewrite session_state).
  eapply kept_bind; [apply kept_or_error, send_kept; [|done]; right; right; right; by eexists|]. intros h4 k4 [] _ _ Hs4 _.
  eapply kept_bind; [by apply kept_or_error, columns_kept|]. intros h5 k5 fields _ _ Hs5 _.
  destruct (answered _ _ _); [|by kept_step]. split; [cbn [fst]; by rewrite session_state|done].
Qed.
Lemma close_kept h k : tserves h k -> does h ((lift (_ <-- call DSessionClose;; Ret (Ok tt)) : transport unit) k) (kept fine).
Proof. intros Hs. eapply kept_mono; [|apply kept_lift; [done|split; [by right|done]]]. done. Qed.
Lemma HoldDDL_kept h k : tserves h k -> does h (kube_HoldDDL cfg p k) (kept fine).
Proof.
  intros Hs. unfold kube_HoldDDL. kept_step. destruct (str_eq _ _).
  - eapply kept_bind; [by apply kept_driver, Quiescence_keeps|]. intros h1 k1 r _ _ Hs1 _. destruct r; by repeat kept_step.
  - eapply kept_bind; [apply query_kept; [a_query|done]|]. intros h1 k1 identity _ _ Hs1 _. kept_step.
    eapply kept_bind; [by apply kept_or_error, exec_in_kept|]. intros h2 k2 argv _ _ Hs2 [-> Hv].
    eapply kept_bind; [apply kept_lift; [done|split; [right; by eexists|done]]|]. intros h3 k3 [] _ _ Hs3 _. repeat kept_step.
    eapply kept_bind; [eapply kept_attempt, kept_bind; [apply send_kept; [by left|done]|]|].
    + intros h4 k4 [] _ _ Hs4 _. by apply Check_kept.
    + intros h4 k4 r _ _ Hs4 _. destruct r; [by kept_step|]. by_kept close_kept as h5 k5 u Hs5 _. by repeat kept_step.
Qed.
Lemma io_kept {A} (q : transport A) h k : does h (q k) (kept fine) -> does h (safe_io q k) (kept fine).
Proof.
  intros Hq. unfold safe_io. eapply kept_bind; [by apply kept_attempt|]. intros h1 k1 r _ _ Hs1 _.
  destruct r; [by kept_step|]. eapply kept_mono; [|apply kept_own; [done|by apply safe_does]]. done.
Qed.
Lemma release_kept b h k : tserves h k -> does h (release_session b k) (kept fine).
Proof.
  intros Hs. unfold release_session. kept_step. by_kept ctx_kept as h1 k1 c Hs1 _. kept_step.
  eapply kept_bind; [apply io_kept, send_kept; [by right; left|done]|]. intros h2 k2 [] _ _ Hs2 _.
  eapply kept_bind; [by apply io_kept, columns_kept|]. intros h3 k3 fields _ _ Hs3 _. kept_step.
  eapply kept_bind; [apply io_kept, send_kept; [by right; right; left|done]|]. intros h4 k4 [] _ _ Hs4 _.
  eapply kept_mono; [|apply kept_lift; [done|split; [by right|done]]]. done.
Qed.
Lemma Release_kept b h k : tserves h k -> does h (session_Release b k) (kept fine).
Proof.
  intros Hs. unfold session_Release. repeat kept_step.
  assert (Hs0 : tserves h (set_session closed_hold k)) by (by rewrite session_state).
  eapply kept_bind; [by apply kept_attempt, release_kept|]. intros h1 k1 r _ _ Hs1 _.
  by_kept close_kept as h2 k2 [] Hs2 _. destruct r; by kept_step.
Qed.
Lemma HoldCheck_kept h k : tserves h k -> does h (kube_HoldCheck k) (kept fine).
Proof.
  intros Hs. unfold kube_HoldCheck. kept_step. kept_step; [by kept_step| |by apply Check_kept].
  eapply kept_mono; [|apply kept_lift; [done|split; [by right|done]]]. done.
Qed.
Lemma HoldRelease_kept h k : tserves h k -> does h (kube_HoldRelease k) (kept fine).
Proof.
  intros Hs. unfold kube_HoldRelease. kept_step. kept_step; [by kept_step| |by apply Release_kept].
  eapply kept_mono; [|apply kept_lift; [done|split; [by right|done]]]. done.
Qed.

(** Every call of an execution. *)
Lemma kept_state_only {A} (m : transport A) Q h k : does h (m k) (kept Q) -> does h (m k) (fun h x => tserves h x.1).
Proof. apply wp_mono. intros h' x [Hs _]. exact Hs. Qed.
Lemma total_serves {A} f (m : transport A) Q h k : does h (m k) (kept Q) -> does h (total f m k) (fun h x => tserves h x.1).
Proof. intros Hm. apply wp_bind. eapply wp_mono; [|exact Hm]. intros h' x [Hs _]. exact Hs. Qed.
Lemma context_serves {R R'} (e : drive_call R) (f : R -> R') h k : driver_call (Kc_Driver cfg) p _ h e -> tserves h k ->
  does h (r <-- call e;; Ret (k, f r)) (fun h x => tserves h x.1).
Proof. intros He Hs. split; [by left|]. intros r. eapply serves_more; [apply incl_prefix|exact Hs]. Qed.
Lemma serve_serves R (c : copy_call R) h k : tserves h k -> does h (serve cfg order arrival p R c k) (fun h x => tserves h x.1).
Proof.
  intros Hs. destruct c; cbn [serve]; first
    [ by apply context_serves | eapply kept_state_only; by apply credentials_kept | eapply kept_state_only; by apply Source_kept
    | eapply kept_state_only; by apply HoldDDL_kept | eapply kept_state_only; by apply HoldCheck_kept
    | eapply kept_state_only; by apply HoldRelease_kept | eapply kept_state_only; by apply Inspect_kept
    | eapply kept_state_only; by apply Provision_kept | eapply total_serves; by apply Stream_kept
    | eapply total_serves; by apply TargetDump_kept | eapply kept_state_only; by apply Shutdown_kept
    | eapply kept_state_only; by apply Commit_kept | eapply kept_state_only; by apply Cleanup_kept ].
Qed.
Lemma copy_does : does [] (kube_copy cfg order arrival p) (fun h x => tserves h x.1).
Proof.
  unfold kube_copy. apply (wp_threaded transport_call (serve cfg order arrival p) (ExecuteDomain true p) (fun h k => tserves h k)).
  - intros R c h k Hs. by apply serve_serves.
  - split; [constructor|by left].
Qed.
(** What carried out the calls of a copy. *)
Lemma copy_calls t k a : exec (kube_copy cfg order arrival p) t (k, a) ->
  exists t0, exec (ExecuteDomain true p) t0 a /\ forall R (c : copy_call R) r, In (Event c r) t0 ->
    exists h1 k1 t1 k2, tserves h1 k1 /\ exec (serve cfg order arrival p R c k1) t1 (k2, r) /\ incl (h1 ++ t1) t.
Proof.
  intros Hx. eapply (exec_threaded_at transport_call _ _ (fun h k => tserves h k)) with (h := []) in Hx as (t0 & Ht0 & Hc).
  - exists t0. split; [exact Ht0|]. intros R c r Hin. exact (Hc R c r Hin).
  - intros R c h k' Hs. by apply serve_serves.
  - split; [constructor|by left].
Qed.
(** A copy begins with the authority's permission. *)
Definition asks (ev : event drive_call) : Prop := match ev with @Event _ _ e _ => match e with DCtxErr | DAuthorize _ => True | _ => False end end.
Definition permitted (t : trace) : Prop :=
  (exists t', t = Event DCtxErr (Ok tt) :: Event (DAuthorize ReadSource) (Ok tt) :: t') \/ Forall asks t.
Lemma gate_start k t k' r : exec (threaded (serve cfg order arrival p) (gate ReadSource) k) t (k', r) ->
  match r with Ok _ => t = [Event DCtxErr (Ok tt); Event (DAuthorize ReadSource) (Ok tt)] | Err _ => k' = k /\ Forall asks t end.
Proof.
  unfold gate. cbn [bind call threaded serve]. intros (c' & t3 & -> & Hx). cbn [fst snd] in Hx.
  destruct c' as [[]|e]; cbn [is_nil negb threaded] in Hx; [|by destruct Hx as [-> [= -> ->]]; split; [|repeat constructor]].
  cbn [bind call threaded serve] in Hx. destruct Hx as (a' & t6 & -> & [-> [= -> ->]]).
  destruct a' as [[]|e]; [done|]. split; [done|]. repeat constructor.
Qed.
Lemma cleanup_nothing k t k' r : Nd_pods (Kt_driver k) = [] -> exec (kube_Cleanup order arrival p k) t (k', r) -> t = [] \/ arrival [] <> [].
Proof.
  intros Hp. unfold kube_Cleanup, drive_Cleanup. intros (t1 & t2 & [k1 e] & -> & Hx & He)%exec_bind.
  apply exec_bind in Hx as (t3 & t4 & [d x] & -> & Hx & [-> [= -> ->]]). apply exec_bind in Hx as (t5 & t6 & [d1 y] & -> & [-> [= -> ->]] & Hx).
  cbn [fst snd] in *. rewrite Hp in Hx. assert (Ho : order [] = []) by (by apply Permutation_nil; symmetry; apply order_perm).
  rewrite Ho in Hx. cbn in Hx. destruct (arrival []); [left|by right]. destruct Hx as [-> [= -> ->]]. cbn in He. by destruct He as [-> _].
Qed.
Lemma copy_start t x : arrival [] = [] -> exec (kube_copy cfg order arrival p) t x -> permitted t.
Proof.
  intros Ha. unfold kube_copy, ExecuteDomain. destruct (_ || _); [by intros [-> _]; right|].
  intros (t1 & t2 & k1 & o & -> & Hb & Hc)%exec_threaded_bind. unfold body, prepare, pbind in Hb.
  apply exec_threaded_bind in Hb as (t3 & t4 & k2 & pr & -> & Hp & Hb).
  apply exec_threaded_bind in Hp as (t5 & t6 & k3 & g & -> & Hg & Hp). unfold phase in Hg.
  apply exec_threaded_bind in Hg as (t7 & t8 & k4 & r & -> & Hg & [-> [= -> ->]]). apply gate_start in Hg.
  destruct r as [u|e].
  - left. subst t7. by eexists.
  - right. destruct Hg as [-> Hq]. destruct Hp as [-> [= -> ->]]. destruct Hb as [-> [= -> ->]]. rewrite !app_nil_r.
    cbn [threaded serve] in Hc. apply exec_bind in Hc as (t9 & t10 & [k5 c] & -> & Hc & Hx).
    apply cleanup_nothing in Hc as [->|Hn]; [|done|done]. assert (t10 = []) as ->; [|by rewrite !app_nil_r].
    destruct (deferred _ _ _) as [[s q]|[s q]] in Hx; by destruct Hx.
Qed.
Lemma copy_asked t k r : exec (kube_copy cfg order arrival p) t (k, Ok r) -> In (Event (DAuthorize ReadSource) (Ok tt)) t.
Proof.
  intros (t0 & (_ & credentials & source & t1 & t2 & s & (-> & _)%prepare_ok & _ & ->)%execute_ok & Hc)%copy_calls.
  destruct (Hc _ (Authority ReadSource) (Ok tt)) as (h1 & k1 & u & k2 & _ & Hi & Hin); [right; by left|].
  cbn [serve] in Hi. apply exec_bind in Hi as (u1 & u2 & a & -> & ->%exec_call & [-> [= _ <-]]). apply Hin, in_or_app. right. by left.
Qed.
(** What a successful call leaves in the history. *)
Lemma call_left {A} (m : transport A) Q h1 k1 t1 k2 r t : does h1 (m k1) (kept Q) -> exec (m k1) t1 (k2, Ok r) -> incl (h1 ++ t1) t ->
  exists h, incl h t /\ Q h k2 r.
Proof. intros Hm Hx Hi. exists (h1 ++ t1). split; [exact Hi|]. by destruct (wp_exec _ _ _ _ _ _ Hm Hx) as [_ HQ]. Qed.
Lemma proven_dump h d actual r : dumped h d -> td_error d = Ok tt -> Finish (writes (newTracker p) (td_chunks d)) = Ok actual ->
  Pr_Tables actual = Pr_Tables (Rc_Proof r) -> proven p h r.
Proof.
  intros Hd He Hf Hp. destruct (Hd He) as (ep & dump & Hin & Hend & Hc). exists ep, dump, actual. rewrite <- Hc.
  split_and!; try done. by apply bool_decide_eq_true.
Qed.
End TransportLemmas.

(** *** The lock *)

Section LockLemmas.
Context `{Sha256} `{PlanJson} `{JsonText} `{JsonMarshal} `{ReceiptJson}.
Variable cfg : KubeConfig.
Variable p : Plan.

Lemma exec_in_ok ep target args k t k' argv : exec (exec_in cfg p ep target args k) t (k', Ok argv) ->
  argv = exec_args ep args
  /\ exists d, k' = set_driver d k /\ exec (drive_Validate (Kc_Driver cfg) p ep target (Kt_driver k)) t (d, Ok tt).
Proof.
  unfold exec_in. intros [_ [_ (t1 & t2 & k1 & [] & -> & Hv & [-> [= -> ->]])%exec_mbind_ok]%exec_deny_ok]%exec_deny_ok.
  split; [done|]. rewrite app_nil_r. apply exec_or_error_ok in Hv. apply exec_bind in Hv as (t3 & t4 & [d r] & -> & Hv & [-> [= -> Hr]]).
  exists d. split; [done|]. rewrite app_nil_r. by destruct r as [[]|].
Qed.
(** A statement that the source has answered. *)
Lemma query_ok sql admin k t k' s : exec (kube_query cfg p sql admin k) t (k', Ok s) ->
  exists t1 b d, t = t1 ++ [Event (DRun (exec_args (Kt_source k) (clientArgs p false admin)) (Words (line sql))) (Ok b)]
    /\ s = text b /\ k' = set_driver d k.
Proof.
  unfold kube_query. intros (t1 & t2 & k1 & k1' & -> & [-> [= -> ->]] & Hx)%exec_mbind_ok.
  apply exec_mbind_ok in Hx as (t3 & t4 & k2 & b & -> & Hq & [-> [= -> ->]]).
  apply exec_mbind_ok in Hq as (t5 & t6 & k3 & argv & -> & (-> & d & -> & Hv)%exec_in_ok & Hr).
  apply exec_lift in Hr as [-> (t7 & t8 & r & -> & Hr & [-> Hb])%exec_bind]. destruct r as [b0|]; [|done]. injection Hb as ->.
  apply exec_bind_call in Hr as (r & t9 & -> & [-> Hl]%safe_ok). unfold limited in Hl. destruct r as [b1|]; [|done].
  destruct (_ <? _); [done|]. injection Hl as ->. rewrite !app_nil_r. by exists t5, b0, d.
Qed.
Lemma read_columns_ok k t k' fields : exec (read_columns k) t (k', Ok fields) ->
  k' = k /\ exists b, t = [Event DSessionLine (Ok b)] /\ fields = columns b.
Proof.
  intros [-> (r & t' & -> & [-> Hr])%exec_bind_call]%exec_lift. split; [done|].
  destruct r as [b|e]; [|done]. destruct (_ <? _); [done|]. injection Hr as ->. by exists b.
Qed.
Lemma send_ok {R} (e : drive_call (result error R)) (k : KubeTransport) t k' r : exec (lift (call e) k) t (k', r) -> k' = k /\ t = [Event e r].
Proof. by intros [-> ->%exec_call]%exec_lift. Qed.
Lemma ctx_ok k t k' c : exec (check_ctx k) t (k', Ok c) -> k' = k /\ t = [Event DCtxErr c].
Proof. intros [-> (r & t' & -> & [-> [= ->]])%exec_bind_call]%exec_lift. done. Qed.
(** A challenge that was met. *)
Definition challenged (n : Z) (b : bytes) : trace :=
  [Event DCtxErr (Ok tt); Event DSessionEnded false; Event (DSessionSend (line (challenge_sql (marker_of n)))) (Ok tt);
   Event DSessionLine (Ok b)].
Lemma Check_ok h k t k' : exec (session_Check h k) t (k', Ok tt) ->
  Bh_closed h = false /\ exists b id, t = challenged (Bh_sequence h + 1) b /\ answered h (marker_of (Bh_sequence h + 1)) (columns b) = Some id
    /\ k' = set_session (on_connection id) (set_session next_challenge k).
Proof.
  unfold session_Check. intros [Hc Hx]%exec_deny_ok. split; [done|].
  apply exec_mbind_ok in Hx as (t1 & t2 & k1 & c & -> & [-> ->]%ctx_ok & Hx). apply exec_deny_ok in Hx as [Hok%negb_false_iff Hx].
  destruct c as [[]|]; [|done].
  apply exec_mbind_ok in Hx as (t3 & t4 & k2 & over & -> & Ho & Hx).
  apply exec_lift in Ho as [-> (r & t' & -> & [-> [= ->]])%exec_bind_call]. apply exec_deny_ok in Hx as [-> Hx].
  apply exec_mbind_ok in Hx as (t5 & t6 & k3 & [] & -> & [-> [= ->]] & Hx).
  apply exec_mbind_ok in Hx as (t7 & t8 & k4 & [] & -> & [-> ->]%exec_or_error_ok%send_ok & Hx).
  apply exec_mbind_ok in Hx as (t9 & t10 & k5 & fields & -> & [-> (b & -> & ->)]%exec_or_error_ok%read_columns_ok & Hx).
  destruct (answered _ _ _) as [id|] eqn:Ha; [|by destruct Hx]. destruct Hx as [-> [= ->]]. by exists b, id.
Qed.
Lemma answered_ok h marker fields id : answered h marker fields = Some id ->
  exists c, fields = [marker; c; Bh_uuid h] /\ ParseUint c = Some id /\ id <> 0 /\ (Bh_connectionID h = 0 \/ Bh_connectionID h = id).
Proof.
  unfold answered. destruct fields as [|m [|c [|u [|]]]]; try done. destruct (ParseUint c) as [n|] eqn:Hc; [|done].
  destruct (_ && _) eqn:E; [|done]. intros [= ->]. rewrite !andb_true_iff in E. destruct E as [[[Hm Hu] Hn] Hor].
  apply str_eq_true in Hm as ->. apply str_eq_true in Hu as ->. exists c. split_and!; [done|done|lia|].
  apply orb_true_iff in Hor as [?|?]; [left|right]; lia.
Qed.
(** Methods that leave the transport as it is. *)
Definition still {A} (m : transport A) : Prop := forall k t k' r, exec (m k) t (k', r) -> k' = k.
Lemma still_lift {A} (q : prog drive_call (result error A)) : still (lift q).
Proof. by intros k t k' r [-> _]%exec_lift. Qed.
Lemma still_err {A} e : still (merr e : transport A).
Proof. by intros k t k' r [_ [= -> _]]. Qed.
Lemma still_bind {A B} (m : transport A) (f : A -> transport B) : still m -> (forall a, still (f a)) -> still (mbind m f).
Proof.
  intros Hm Hf k t k' r (t1 & t2 & [k1 [a|e]] & -> & Hk%Hm & Hx)%exec_bind; cbn [fst snd] in *; subst; [by eapply Hf|].
  by destruct Hx as [_ [= -> _]].
Qed.
Lemma still_io {A} (m : transport A) : still m -> still (safe_io m).
Proof.
  intros Hm. apply still_bind.
  - intros k t k' r (t1 & t2 & [k1 a] & -> & Hk%Hm & [_ [= -> _]])%exec_bind. exact Hk.
  - intros [a|e]; [by intros k t k' r [_ [= -> _]]|apply still_lift].
Qed.
Lemma still_deny {A} (b : bool) e (m : transport A) : still m -> still (deny b with e;; m).
Proof. intros Hm. by destruct b; [apply still_err|]. Qed.
Lemma release_still h : still (release_session h).
Proof.
  unfold release_session. apply still_deny, still_bind; [apply still_lift|]. intros c. apply still_deny.
  apply still_bind; [apply still_io, still_lift|]. intros []. apply still_bind; [apply still_io, still_lift|]. intros fields.
  apply still_deny, still_bind; [apply still_io, still_lift|]. intros []. apply still_lift.
Qed.
Lemma io_ok {A} (m : transport A) k t k' a : exec (safe_io m k) t (k', Ok a) -> exec (m k) t (k', Ok a).
Proof.
  unfold safe_io. intros (t1 & t2 & k1 & r & -> & Hr & Hx)%exec_mbind_ok.
  apply (proj1 (exec_attempt (Er := error) _ _ _ _ _)) in Hr. destruct r as [a'|e].
  - destruct Hx as [-> [= -> ->]]. by rewrite app_nil_r.
  - apply exec_lift in Hx as [_ (t3 & t4 & r & -> & Hs & [-> Hr'])%exec_bind]. destruct r as [a'|e']; [|done].
    by apply safe_ok in Hs as [_ ?].
Qed.
Lemma release_ok h k t k' : exec (release_session h k) t (k', Ok tt) ->
  Bh_connectionID h <> 0 /\ exists b, t = [Event DCtxErr (Ok tt); Event (DSessionSend unlock_sql) (Ok tt); Event DSessionLine (Ok b);
    Event (DSessionSend (line "quit")) (Ok tt); Event DSessionWait (Ok true)] /\ acknowledged h (columns b) = true.
Proof.
  unfold release_session. intros [Hc Hx]%exec_deny_ok. split; [lia|].
  apply exec_mbind_ok in Hx as (t1 & t2 & k1 & c & -> & [-> ->]%ctx_ok & Hx). apply exec_deny_ok in Hx as [Hok%negb_false_iff Hx].
  destruct c as [[]|]; [|done].
  apply exec_mbind_ok in Hx as (t3 & t4 & k2 & [] & -> & [-> ->]%io_ok%send_ok & Hx).
  apply exec_mbind_ok in Hx as (t5 & t6 & k3 & fields & -> & [-> (b & -> & ->)]%io_ok%read_columns_ok & Hx).
  apply exec_deny_ok in Hx as [Ha%negb_false_iff Hx].
  apply exec_mbind_ok in Hx as (t7 & t8 & k4 & [] & -> & [-> ->]%io_ok%send_ok & Hx).
  apply exec_lift in Hx as [-> (r & t' & -> & [-> Hr])%exec_bind_call]. exists b. destruct r as [[]|]; by split.
Qed.
End LockLemmas.
