(* ===== verification/SqlCopy.v ===== *)
(** * A MySQL copy in the cluster

    [ExecuteDomain] on [KubeTransport] ([internal/mysqlcopy], executor.go,
    kube.go, driver.go, admission.go): what every run of kubectl of a copy is
    justified by, what a copy that succeeds has left, and the lock that it
    holds; with a cluster in which a whole copy runs. *)

From stdpp Require Import base list strings pretty.
From Stdlib Require Import ZArith Lia Ascii String.
From S2P Require Import Prelude Stateful GoStrings SqlFence SqlPlan SqlFailure SqlStream SqlExecutor Json SqlHelper SqlManifest SqlDriver SqlKube.

Local Open Scope string_scope.
Local Open Scope Z_scope.
Local Open Scope list_scope.

(** ** Properties *)

Section TransportProperties.
Context `{Sha256} `{PlanJson} `{JsonText} `{JsonMarshal} `{ReceiptJson}.
Variable cfg : KubeConfig.
Variable order : list (string * ownedPod) -> list (string * ownedPod).
Variable arrival : list ownedPod -> list ownedPod.
Hypothesis order_perm : forall l, Permutation (order l) l.

(** C14: Every run of kubectl of a copy, also of one that fails, is justified by
    what came before it: it reads; it creates a helper with the specification of
    this plan, the target's claim, or the receipt, that only after the target's
    server was seen to have ended well with no other Pod on its claim; it is one
    of the probes of the admission fence; it deletes by UID a helper that this
    execution has created; or it runs in a helper that a validation directly
    before has read and found to be as this execution made it (a transfer: that of its source, and
    then that of its target), on the source a fixed query, the dump or the session of the lock, on
    the target the client, the dump or the shutdown. *)
Theorem copy_justified p t t1 R (e : drive_call R) r t2 x (Hx : exec (kube_copy cfg order arrival p) t x) (Ht : t = t1 ++ Event e r :: t2) :
  transport_call cfg p R t1 e.
Proof.
  apply (guarded_exec (transport_call cfg p) [] _ _ _ _ _ _ _ _) with (2 := Hx) (3 := Ht).
  eapply wp_guarded, copy_does, order_perm.
Qed.

(** An event, in a trace written out. *)
Ltac in_trace := first [by left | right; in_trace | apply in_or_app; left; in_trace | apply in_or_app; right; in_trace].
(** C15: A copy that succeeds returns a receipt for this plan and for a source
    that is sound, has dumped the target with the proof of that receipt, and has
    either created the immutable record of the receipt or found it. *)
Theorem copy_recorded p t k r (Hx : exec (kube_copy cfg order arrival p) t (k, Ok r)) :
  Validate p = Ok tt
  /\ (exists source, is_ok (validateSource p source) = true /\ receipt_matches p source r = true)
  /\ proven p t r /\ (recorded p t r \/ found p t r).
Proof.
  apply copy_calls in Hx as (t0 & (Hv & credentials & source & tp & th & s & Hp & Hh & ->)%execute_ok & Hc); [|exact order_perm].
  apply prepare_ok in Hp as (-> & _ & Hs). apply held_ok in Hh as (f0 & t1 & -> & Hcase); [|done]. split; [done|].
  destruct Hcase as [(f & -> & Hm)|(t2 & -> & target & d & x & actual & f1 & f2 & f3 & f4 & -> & _ & _ & _ & _ & Hd & _ & Hf & Ha & _ & _ & Hm)].
  - split; [by exists source|]. destruct (Hc _ Inspect (Ok (Some r))) as (h1 & k1 & u & k2 & Hk & Hi & Hin).
    { in_trace. }
    destruct (call_left _ _ _ _ _ _ _ _ _ _ (Inspect_kept _ _ _ _ Hk) Hi Hin) as (h & Hih & Hfo & Hpr).
    split; [by eapply proven_more|]. right. by eapply found_more.
  - split; [by exists source|]. split.
    + destruct (Hc _ (TargetDump target) x) as (h1 & k1 & u & k2 & Hk & Hi & Hin); [in_trace|].
      apply exec_bind in Hi as (t3 & t4 & [k3 o] & -> & Hi & [-> [= -> ->]]). cbn [fst snd] in *.
      destruct o as [o|e]; [|done]. rewrite app_nil_r in Hin.
      destruct (call_left _ _ _ _ _ _ _ _ _ _ (TargetDump_kept _ _ _ _ _ Hk) Hi Hin) as (h & Hih & Hdu).
      eapply proven_more; [exact Hih|]. by eapply proven_dump.
    + left. destruct (Hc _ (Commit r) (Ok tt)) as (h1 & k1 & u & k2 & Hk & Hi & Hin); [in_trace|].
      destruct (call_left _ _ _ _ _ _ _ _ _ _ (Commit_kept _ _ _ _ _ Hk) Hi Hin) as (h & Hih & Hre). by eapply recorded_more.
Qed.

(** C16: A cleanup that reports no failure has deleted every helper of the driver,
    by its UID, and has then seen that it is gone. *)
Theorem cleanup_complete p d t d' (Harrival : forall l, Permutation (arrival l) l)
  (Hx : exec (drive_Cleanup order arrival p d) t (d', Ok Nil)) :
  exists t1 t2, t = t1 ++ t2 /\ forall x, In x (Nd_pods d) -> deleted t1 x /\ seen_absent t2 x.2.
Proof.
  unfold drive_Cleanup in Hx. cbn [mbind state_of bind fst snd] in Hx.
  apply exec_mbind_ok in Hx as (t1 & t2 & d1 & sent & -> & Hs%send_deletes_ok & Hx). destruct sent as [[failures waiting]|e].
  - destruct Hs as (more & -> & Hm & Hw). apply exec_mbind_ok in Hx as (t3 & t4 & d2 & all & -> & Ha%await_ok & [-> [= _ Hj]]).
    destruct Ha as (more' & -> & Hm' & Ha). cbn [app] in Hj.
    symmetry in Hj. apply not_nil_join in Hj; [|by apply Forall_app]. apply app_eq_nil in Hj as [-> ->].
    destruct (Hw eq_refl) as [-> Hd]. specialize (Ha eq_refl). rewrite app_nil_r. exists t1, t3. split; [done|]. intros x Hin.
    rewrite order_perm in Hd. rewrite Harrival in Ha. cbn [app] in Ha. rewrite order_perm in Ha.
    split; [exact (proj1 (List.Forall_forall _ _) Hd x Hin)|].
    exact (proj1 (List.Forall_forall _ _) Ha x.2 (in_map snd _ _ Hin)).
  - destruct Hx as [_ [= _ Hn]]. by symmetry in Hn.
Qed.

(** C17: A backup lock counts as held only when the source, asked for the UUID of its server,
    answered; then its helper was validated, which read it and found it to be as this
    execution made it; and directly after that the session of a client in it was
    given the lock statement and answered the first
    challenge, on a connection with an identifier that is not zero and with that
    UUID. *)
Theorem lock_held p h k t k' (Hm : DDLMode p <> "quiescence") (Hs : serves (Kc_Driver cfg) p h (Kt_driver k))
    (Hx : exec (kube_HoldDDL cfg p k) t (k', Ok true)) :
  exists t1 answer t2 b c id,
    let asked := t1 ++ [Event (DRun (exec_args (Kt_source k) (clientArgs p false false)) (Words (line "SELECT @@server_uuid;"))) (Ok answer)] in
    let uuid := trim_space (text answer) in
    t = asked ++ t2 ++ [Event (DSession (exec_args (Kt_source k) (backupClientArgs p))) tt;
                        Event (DSessionSend (line "LOCK INSTANCE FOR BACKUP;")) (Ok tt)] ++ challenged 1 b
    /\ just_validated (Kc_Driver cfg) p (h ++ asked ++ t2) (Kt_source k) false
    /\ (exists d d', exec (drive_Validate (Kc_Driver cfg) p (Kt_source k) false d) t2 (d', Ok tt))
    /\ columns b = [marker_of 1; c; uuid] /\ ParseUint c = Some id /\ id <> 0
    /\ Kt_hold k' = Session {| Bh_uuid := uuid; Bh_sequence := 1; Bh_closed := false; Bh_connectionID := id |}.
Proof.
  unfold kube_HoldDDL in Hx. apply exec_deny_ok in Hx as [_ Hx]. apply str_eq_false in Hm. rewrite Hm in Hx.
  apply exec_mbind_ok in Hx as (t1 & t2 & k1 & identity & -> & Hq & Hx).
  assert (Hs1 : serves (Kc_Driver cfg) p (h ++ t1) (Kt_driver k1)).
  { assert (Hin : In "SELECT @@server_uuid;" (source_queries p)) by (unfold source_queries; repeat (first [by left|right])).
    exact (proj1 (wp_exec (transport_call cfg p) h _ _ _ _ (query_kept cfg p _ false h k Hin Hs) Hq)). }
  apply query_ok in Hq as (t0 & answer & d & -> & -> & ->).
  apply exec_mbind_ok in Hx as (t3 & t4 & k2 & k2' & -> & [-> [= -> ->]] & Hx).
  apply exec_mbind_ok in Hx as (t5 & t6 & k3 & argv & -> & (-> & d' & -> & Hv)%exec_or_error_ok%exec_in_ok & Hx).
  apply exec_mbind_ok in Hx as (t7 & t8 & k4 & u & -> & Hd & Hx).
  apply exec_lift in Hd as [-> ([] & t' & -> & [-> [= ->]])%exec_bind_call].
  apply exec_mbind_ok in Hx as (t9 & t10 & k5 & [] & -> & [-> [= ->]] & Hx).
  apply exec_mbind_ok in Hx as (t11 & t12 & k6 & r & -> & Hr & Hx). apply (proj1 (exec_attempt (Er := error) _ _ _ _ _)) in Hr.
  destruct r as [[]|e]; [|by apply exec_mbind_ok in Hx as (? & ? & ? & ? & _ & _ & (? & ? & ? & ? & _ & _ & [_ ?])%exec_mbind_ok)].
  destruct Hx as [-> [= ->]].
  apply exec_mbind_ok in Hr as (t13 & t14 & k7 & [] & -> & [-> ->]%send_ok & Hr).
  apply Check_ok in Hr as (_ & b & id & -> & (c & Hb & Hid & Hnz & _)%answered_ok & ->).
  exists t0, answer, t5, b, c, id. cbv zeta. rewrite !app_nil_r. split_and!; try done.
  - rewrite <- !app_assoc in *. eexists _, t5, _, d'. rewrite !app_assoc in *. split_and!; [done|exact Hs1|exact Hv|].
    by eapply validation_seen.
  - by eexists _, d'.
Qed.

(** C18: A lock is released once: of a closed session nothing is called, any other
    is closed, whatever fails, and the release succeeds only when the unlock was
    acknowledged by the connection and the server that hold the lock, and the
    client then ended well. *)
Theorem lock_released h k t k' r (Hh : Kt_hold k = Session h) (Hx : exec (kube_HoldRelease k) t (k', r)) :
  if Bh_closed h then t = [] /\ r = Err unsafe
  else (exists t0, t = t0 ++ [Event DSessionClose tt]) /\ Kt_hold k' = Session (closed_hold h)
    /\ (r = Ok tt -> Bh_connectionID h <> 0 /\ exists b,
          t = [Event DCtxErr (Ok tt); Event (DSessionSend unlock_sql) (Ok tt); Event DSessionLine (Ok b);
               Event (DSessionSend (line "quit")) (Ok tt); Event DSessionWait (Ok true); Event DSessionClose tt]
          /\ columns b = ["envplane_unlock"; pretty (Bh_connectionID h); Bh_uuid h]).
Proof.
  unfold kube_HoldRelease in Hx. cbn [mbind state_of bind fst snd] in Hx. rewrite Hh in Hx. unfold session_Release in Hx.
  destruct (Bh_closed h); [by destruct Hx as [-> [= _ ->]]|].
  apply exec_bind in Hx as (t1 & t2 & [k1 o1] & -> & [-> [= -> ->]] & Hx). cbn [fst snd] in Hx.
  apply exec_bind in Hx as (t1 & t3 & [k2 o2] & -> & Hr & Hx).
  apply exec_bind in Hr as (t4 & t5 & [k3 o3] & -> & Hr & [-> [= -> ->]]). cbn [fst snd] in Hx.
  assert (k3 = set_session closed_hold k) as -> by by eapply release_still.
  apply exec_bind in Hx as (t5 & t6 & [k4 o4] & -> & Hc & Hx).
  apply exec_lift in Hc as [-> ([] & t7 & -> & [-> ->])%exec_bind_call]. cbn [fst snd] in Hx.
  rewrite !app_nil_l, !app_nil_r.
  destruct o3 as [[]|e]; destruct Hx as [-> [= -> ->]]; rewrite ?app_nil_r.
  - split; [by eexists|]. split; [by unfold set_session; rewrite Hh|]. intros _.
    apply release_ok in Hr as (Hn & b & -> & Ha%bool_decide_eq_true). split; [done|]. by exists b.
  - split; [by eexists|]. split; [by unfold set_session; rewrite Hh|done].
Qed.
End TransportProperties.

(** ** A cluster in which a copy succeeds *)

Definition sample_marshal : JsonMarshal := fun _ => chars zeros64.
Definition sample_receipts : ReceiptJson := {| receipt_text := fun r => "receipt"; parse_receipt := fun _ => None |}.
Definition sample_fence : AdmissionFenceRef :=
  {| Af_Namespace := "prod"; Af_PolicyName := "fence"; Af_PolicyUID := "policy-1"; Af_PolicySpecSHA256 := zeros64;
     Af_BindingName := "fence-binding"; Af_BindingUID := "binding-1"; Af_BindingSpecSHA256 := zeros64 |}.
Definition sample_config : KubeConfig :=
  {| Kc_Driver := {| Dc_RunnerImage := sample_runner; Dc_MySQLImage := sample_image; Dc_ServiceAccount := "default";
                     Dc_AllowRootInit := true; Dc_Authorize := true; Dc_QuiescenceHold := false;
                     Dc_SourceAdmissionFences := [sample_fence] |};
     Kc_SourceNamespaces := ["prod"]; Kc_RunnerImage := sample_runner; Kc_MySQLImage := sample_image |}.

Definition with_uid (uid : string) (more : json_fields) : json := JObj [("metadata", JObj ([("uid", JStr uid)] ++ more))].
Definition also (v : json) (l : json_fields) : json := match v with JObj l' => JObj (l' ++ l) | _ => v end.
Definition sample_annotations : json_fields := [("annotations", digest_annotations (Binding sample_plan))].
Definition statuses (state : json) : json_fields :=
  [("status", JObj [("phase", JStr "Running");
     ("containerStatuses", JArr [JObj [("name", JStr "mysql"); ("ready", JBool true); ("state", state);
                                       ("imageID", JStr ("containerd://sha256:" +:+ zeros64))]])])].
Definition alive : json := JObj [("running", JObj [])].
Definition over : json := JObj [("terminated", JObj [("exitCode", JNum 0)])].
Definition from_db (key : string) : json := JObj [("secretKeyRef", JObj [("name", JStr "db"); ("key", JStr key)])].
Definition sample_container_spec : json :=
  JObj [("name", JStr "mysql"); ("image", JStr "mysql:8");
        ("volumeMounts", JArr [JObj [("name", JStr "data"); ("mountPath", JStr "/var/lib/mysql")]]);
        ("env", JArr [JObj [("name", JStr "MYSQL_DATABASE"); ("value", JStr "shop")];
                      JObj [("name", JStr "MYSQL_USER"); ("value", JStr "app")];
                      JObj [("name", JStr "MYSQL_PASSWORD"); ("valueFrom", from_db "password")]])].
Definition sample_pod : json :=
  JObj ([("metadata", JObj [("uid", JStr "pod"); ("labels", JObj [("app", JStr "db")]);
           ("ownerReferences", JArr [JObj [("uid", JStr "uid-1"); ("kind", JStr "StatefulSet")]])]);
         ("spec", JObj [("volumes", JArr [JObj [("name", JStr "data"); ("persistentVolumeClaim", JObj [("claimName", JStr "data")])]]);
                        ("containers", JArr [sample_container_spec])])] ++ statuses alive).
Definition sample_helper (target : bool) : json :=
  helperSpec (H := sample_hash) (H0 := sample_json) sample_plan "default" target false (if target then "claim-1" else "").
Definition helper_named (target : bool) : json_fields := [("name", JStr (if target then "target" else "source"))].
Definition sample_helper_pod (target : bool) (state : json) : json :=
  also (with_uid (if target then "target-1" else "source-1") (helper_named target ++ sample_annotations))
    ([("spec", sample_helper target)] ++ statuses state).
Definition sample_claim : json := also (with_uid "claim-1" sample_annotations)
  [("spec", JObj [("storageClassName", JStr "fast"); ("volumeMode", JStr "Filesystem"); ("accessModes", texts ["ReadWriteOnce"])])].
Definition sample_denial : string := "envplane MySQL copy source fence [sha256:" +:+ zeros64 +:+ "]".
Definition generation : json_fields := [("generation", JNum 1)].
Definition sample_objects : list (string * json) :=
  [("namespace", with_uid "namespace-1" []);
   ("pvc", also (with_uid "uid-1" []) [("status", JObj [("phase", JStr "Bound")])]);
   ("statefulset", also (with_uid "uid-1" [])
      [("spec", JObj [("replicas", JNum 1);
                      ("template", JObj [("spec", JObj [("containers", JArr [sample_container_spec])])])])]);
   ("pod", sample_pod);
   ("service", also (with_uid "uid-2" [])
      [("spec", JObj [("selector", JObj [("app", JStr "db")]); ("ports", JArr [JObj [("port", JNum 3306)]])])]);
   ("endpoints", also (with_uid "endpoints-1" [])
      [("subsets", JArr [JObj [("addresses", JArr [JObj [("targetRef", JObj [("uid", JStr "pod")])]])]])]);
   ("validatingadmissionpolicy", also (with_uid "policy-1" generation)
      [("spec", JObj [("failurePolicy", JStr "Fail"); ("validations", JArr [JObj [("message", JStr sample_denial)]])]);
       ("status", JObj [("observedGeneration", JNum 1); ("typeChecking", JObj [])])]);
   ("validatingadmissionpolicybinding", also (with_uid "binding-1" [])
      [("spec", JObj [("policyName", JStr "fence"); ("validationActions", texts ["Deny"])])]);
   ("probe", JObj [("spec", sample_helper false)]);
   ("source", sample_helper_pod false alive);
   ("target", sample_helper_pod true alive);
   ("target ended", sample_helper_pod true over);
   ("claim", sample_claim);
   ("pods", JObj [("items", JArr [])]);
   ("secret", also (with_uid "uid-1" []) [("data", JObj [("password", JStr "cHcx"); ("ca.crt", JStr "Y2Ex"); ("MYSQL_ROOT_PASSWORD", JStr "cm9vdA==")])]);
   ("target secret", also (with_uid "uid-1" []) [("data", JObj [("password", JStr "dHcy"); ("MYSQL_ROOT_PASSWORD", JStr "cm9vdA==")])])].
Definition sample_text : JsonText := fun b => map_at (text b) sample_objects.

(** What has been asked of the cluster so far. *)
Definition was_killed (h : trace) : bool :=
  existsb (fun ev => match ev with @Event _ _ (DRun args NoInput) _ => existsb (str_eq "kill -TERM 1") args | _ => false end) h.
Fixpoint sends (h : trace) : list string :=
  match h with [] => [] | @Event _ _ (DSessionSend w) _ :: h' => w :: sends h' | _ :: h' => sends h' end.
Definition answer (s : string) : result error bytes := Ok (chars s).
Definition columns_of (l : list string) : bytes := chars (join (text [byte_of 9]) l).
Definition sample_get (h : trace) (kind name ns : string) : result error bytes :=
  if str_eq ns "env-1" && str_eq kind "pvc" then answer "claim"
  else if str_eq ns "env-1" && str_eq kind "secret" then answer "target secret"
  else if str_eq kind "pod" && str_eq name "source" then answer "source"
  else if str_eq kind "pod" && str_eq name "target" then answer (if was_killed h then "target ended" else "target")
  else answer kind.
Definition sample_query (w : string) : result error bytes :=
  if str_eq w (line "SELECT 1;") then answer "1"
  else if str_eq w (line "SELECT @@server_uuid, VERSION();") then Ok (columns_of ["uuid"; "8.4.0"])
  else if str_eq w (line "SHOW GRANTS FOR CURRENT_USER;") then answer "GRANT ALL PRIVILEGES ON *.* TO `root`@`%`"
  else if str_eq w (line "SELECT @@server_uuid;") then answer "uuid"
  else if str_eq w (line (unsupported_sql "shop")) then answer "0"
  else Ok (columns_of ["users"; "InnoDB"; "1"]).
Definition sample_session (h : trace) : result error bytes :=
  let words := sends h in
  if existsb (str_eq unlock_sql) words then Ok (columns_of ["envplane_unlock"; "7"; "uuid"])
  else Ok (columns_of [marker_of (Z.of_nat (length words) - 1); "7"; "uuid"]).
Definition created (v : json) : string :=
  if str_eq (str v ["kind"]) "PersistentVolumeClaim" then "claim"
  else if str_ne (str v ["metadata"; "generateName"]) "" then "target" else "source".
Definition sample_cluster (R : Type) (h : trace) (e : drive_call R) : R :=
  match e in drive_call R return R with
  | DRun ["get"; kind; name; "-n"; ns; "-o"; "json"] _ => sample_get h kind name ns
  | DRun ["get"; kind; name; "-n"; ns; "--ignore-not-found"; "-o"; "json"] _ => Ok []
  | DRun ("get" :: kind :: _) _ => answer kind
  | DRun ("create" :: "--dry-run=server" :: _) _ => answer "probe"
  | DRun ("create" :: _) (Manifest v) => answer (created v)
  | DRun ("exec" :: _) (Words w) => sample_query w
  | DRun ("exec" :: _) _ => answer "999"
  | DRun _ _ => Ok []
  | DDump _ => {| td_chunks := [firstn 20 sample_dump; skipn 20 sample_dump]; td_error := Ok tt |}
  | DProbe _ _ => {| Pa_Failed := true; Pa_Canceled := false; Pa_Overflow := false; Pa_Errors := chars (expected_denial sample_fence sample_denial) |}
  | DAuthorize _ => Ok tt
  | DCtxErr => Ok tt
  | DPause => Ok tt
  | DStreams _ _ =>
      {| tr_input := sample_dump; tr_end := None; tr_sizes := [200; 30; 200; 200; 200]%nat; tr_restore := Ok tt; tr_dump := Ok tt |}
  | DQuiesce => Ok true
  | DQuiesceCheck => Ok tt
  | DQuiesceRelease => Ok tt
  | DSession _ => tt
  | DSessionEnded => false
  | DSessionSend _ => Ok tt
  | DSessionLine => sample_session h
  | DSessionClose => tt
  | DSessionWait => Ok true
  end.
Definition sample_kube_copy :=
  kube_copy (H := sample_hash) (H0 := sample_json) (H1 := sample_text) (H2 := sample_marshal) (H3 := sample_receipts)
    sample_config (fun l => l) (fun l => l) sample_plan.
Definition sample_kube_run := run sample_cluster [] sample_kube_copy.

(** ** Witnesses *)

Lemma sample_kube_exec : exec sample_kube_copy sample_kube_run.1 (sample_kube_run.2.1, sample_kube_run.2.2).
Proof. rewrite <- surjective_pairing. exact (run_exec sample_cluster sample_kube_copy []). Qed.
Definition creates_record (ev : event drive_call) : bool :=
  match ev with @Event _ _ (DRun args (Manifest v)) _ => str_eq (str v ["kind"]) "ConfigMap" | _ => false end.
Lemma sample_kube_ok : is_ok sample_kube_run.2.2 && existsb creates_record sample_kube_run.1 = true.
Proof. vm_compute. reflexivity. Qed.
Lemma copy_recorded_witness : exists r, sample_kube_run.2.2 = Ok r
  /\ proven (H := sample_hash) sample_plan sample_kube_run.1 r.
Proof.
  pose proof sample_kube_exec as Hx. pose proof (proj1 (andb_prop _ _ sample_kube_ok)) as Hok.
  destruct sample_kube_run.2.2 as [r|e]; [|discriminate Hok]. exists r. split; [reflexivity|].
  apply (copy_recorded (H := sample_hash) (H0 := sample_json) (H1 := sample_text) (H2 := sample_marshal) (H3 := sample_receipts)
           sample_config (fun l => l) (fun l => l) (fun l => Permutation_refl l) sample_plan _ _ r Hx).
Defined.
Lemma copy_justified_witness : exists t1 args v r t2, sample_kube_run.1 = t1 ++ Event (DRun args (Manifest v)) r :: t2
  /\ str v ["kind"] = "ConfigMap"
  /\ transport_call (H := sample_hash) (H0 := sample_json) (H1 := sample_text) (H2 := sample_marshal) (H3 := sample_receipts)
       sample_config sample_plan _ t1 (DRun args (Manifest v)).
Proof.
  destruct (proj1 (existsb_exists _ _) (proj2 (andb_prop _ _ sample_kube_ok))) as (ev & Hin & Hev).
  apply in_split in Hin as (t1 & t2 & Ht). destruct ev as [R e r]. destruct e as [args [|v|w]| | | | | | | | | | | | | | |]; try discriminate Hev.
  exists t1, args, v, r, t2. split; [exact Ht|]. split; [by apply str_eq_true|].
  exact (copy_justified (H := sample_hash) (H0 := sample_json) (H1 := sample_text) (H2 := sample_marshal) (H3 := sample_receipts)
           sample_config (fun l => l) (fun l => l) (fun l => Permutation_refl l) sample_plan _ t1 _ _ r t2 _ sample_kube_exec Ht).
Defined.

Lemma sample_exec {A B} (q : prog drive_call (A * B)) x : run sample_cluster [] q = x -> exec q x.1 (x.2.1, x.2.2).
Proof. intros <-. rewrite <- surjective_pairing. apply run_exec. Qed.

(** A transport with its helpers, and with a lock. *)
Definition sample_endpoint (target : bool) : Endpoint :=
  {| Ep_Pod := {| Ref_Namespace := if target then "env-1" else "prod"; Ref_Name := if target then "target" else "source";
                  Ref_UID := if target then "target-1" else "source-1" |}; Ep_Container := "mysql" |}.
Definition sample_owned (target : bool) : string * ownedPod :=
  (Ref_UID (Ep_Pod (sample_endpoint target)),
   {| Ow_endpoint := sample_endpoint target; Ow_spec := as_object (Some (sample_helper target)); Ow_target := target |}).
Definition sample_driver : NativeDriver := with_pods NewProofDriver [sample_owned false; sample_owned true].
Definition sample_transport : KubeTransport := set_source (sample_endpoint false) (set_driver sample_driver new_transport).
#[local] Existing Instances sample_hash sample_json sample_text sample_marshal sample_receipts.
(** The creation of those helpers. *)
Definition sample_creation (target : bool) : event drive_call :=
  Event (DRun create_args (Manifest (pod_manifest sample_plan (digest sample_plan) target
           (JObj (Ow_spec (sample_owned target).2)))))
    (Ok (chars (if target then "target" else "source"))).
Lemma sample_made target : made (Kc_Driver sample_config) sample_plan
  [sample_creation false; sample_creation true] (sample_owned target).
Proof.
  split; [by destruct target|]. split.
  - exists false, (if target then "claim-1" else ""). split; [by destruct target; vm_compute|by destruct target].
  - exists (chars (if target then "target" else "source")), (sample_helper_pod target alive).
    split; [destruct target; [right; left|left]; reflexivity|]. destruct target; vm_compute; by split.
Qed.
Lemma sample_serves : serves (Kc_Driver sample_config) sample_plan
  [sample_creation false; sample_creation true] (Kt_driver sample_transport).
Proof. split; [|by left]. constructor; [apply (sample_made false)|]. constructor; [apply (sample_made true)|constructor]. Qed.
Definition sample_hold : backupHold := {| Bh_uuid := "uuid"; Bh_sequence := 1; Bh_closed := false; Bh_connectionID := 7 |}.

Definition sample_cleanup := run sample_cluster []
  (drive_Cleanup (H1 := sample_text) (fun l => l) (fun l => l) sample_plan sample_driver).
Lemma cleanup_complete_witness : (match sample_cleanup.2.2 with Ok Nil => true | _ => false end) = true
  /\ exists t1 t2, sample_cleanup.1 = t1 ++ t2 /\ deleted t1 (sample_owned true).
Proof.
  assert (Hok : (match sample_cleanup.2.2 with Ok Nil => true | _ => false end) = true) by (vm_compute; reflexivity).
  split; [exact Hok|].
  assert (Hx := sample_exec _ sample_cleanup eq_refl). destruct sample_cleanup.2.2 as [[]|]; try discriminate Hok.
  destruct (cleanup_complete (H1 := sample_text) (fun l => l) (fun l => l) (fun l => Permutation_refl l) sample_plan
              sample_driver _ _ (fun l => Permutation_refl l) Hx) as (t1 & t2 & Ht & Hall).
  exists t1, t2. split; [exact Ht|]. apply Hall. right. left. reflexivity.
Defined.

Definition sample_lock := run sample_cluster []
  (kube_HoldDDL (H := sample_hash) (H0 := sample_json) (H1 := sample_text) (H2 := sample_marshal) sample_config sample_plan sample_transport).
Lemma lock_held_witness : (match sample_lock.2.2 with Ok true => true | _ => false end) = true
  /\ exists h t, just_validated (Kc_Driver sample_config) sample_plan (h ++ t) (sample_endpoint false) false /\ incl t sample_lock.1.
Proof.
  assert (Hok : (match sample_lock.2.2 with Ok true => true | _ => false end) = true) by (vm_compute; reflexivity).
  split; [exact Hok|].
  assert (Hx := sample_exec _ sample_lock eq_refl). destruct sample_lock.2.2 as [[]|]; try discriminate Hok.
  assert (Hm : DDLMode sample_plan <> "quiescence") by (intros Hm; vm_compute in Hm; discriminate Hm).
  destruct (lock_held (H := sample_hash) (H0 := sample_json) (H1 := sample_text) (H2 := sample_marshal) (H3 := sample_receipts)
              sample_config sample_plan
              [sample_creation false; sample_creation true] sample_transport _ _ Hm sample_serves Hx)
    as (t1 & a & t2 & b & c & id & Ht & Hv & _).
  eexists _, _. split; [exact Hv|]. rewrite Ht. rewrite app_assoc. apply incl_appl, incl_refl.
Defined.

Definition locked : KubeTransport := set_hold (Session sample_hold) sample_transport.
Definition sample_release := run sample_cluster [] (kube_HoldRelease locked).
Lemma lock_released_witness : sample_release.2.2 = Ok tt /\ Kt_hold sample_release.2.1 = Session (closed_hold sample_hold)
  /\ exists b, columns b = ["envplane_unlock"; "7"; "uuid"].
Proof.
  assert (Hok : sample_release.2.2 = Ok tt) by (vm_compute; reflexivity). split; [exact Hok|].
  assert (Hx := sample_exec _ sample_release eq_refl).
  destruct (lock_released sample_hold locked _ _ _ eq_refl Hx) as (_ & Hc & Hr). split; [exact Hc|].
  destruct (Hr Hok) as (_ & b & _ & Hb). exists b. exact Hb.
Defined.
