(* ===== verification/SqlRunner.v ===== *)
(** * The command that copies the databases

    [internal/runner/mysql_restore.go]: what the runner checks of a command
    before it copies the databases of a plan, the version of the contract that
    it offers, and the copies, one after the other, each by a driver and a
    transport of its own whose authority reads the target namespace.

    The plan is a type of the contracts; its fields are those that the code
    reads.  Its validation and the decoding of the session's sources, which
    refuses unknown fields, are parameters; that the sources, a value that was
    decoded from JSON, can be encoded again is not an error of the model. *)

From stdpp Require Import base list gmap strings pretty.
From Stdlib Require Import ZArith Lia Ascii String.
From S2P Require Import Prelude Stateful GoStrings Regex GoPath EnvStore OrchTypes RunnerConfig RunnerCommand Json.
From S2P Require Import PvcPlan PvcArchive PvcLocal PvcExecutor PvcHelper PvcKube PvcDomain PvcFence PvcRunner.
From S2P Require Import SqlFence SqlPlan SqlFailure SqlStream SqlExecutor SqlHelper SqlManifest SqlDriver SqlKube SqlCopy.

Local Open Scope string_scope.
Local Open Scope Z_scope.
Local Open Scope list_scope.

(** ** The plan *)

Record RestoreCredentialRef := {
  Rr_Namespace : string; Rr_Name : string; Rr_UID : string; Rr_Username : string; Rr_UsernameKey : string;
  Rr_PasswordKey : string }.
Record RestoreTLS := { Rt_CASecretName : string; Rt_CASecretUID : string; Rt_CAKey : string; Rt_ServerName : string }.
Record RestoreSource := {
  Rs_Namespace : string; Rs_PVCName : string; Rs_PVCUID : string; Rs_WorkloadName : string; Rs_WorkloadUID : string;
  Rs_Container : string; Rs_SourceImage : string; Rs_Service : string; Rs_ServiceUID : string; Rs_Database : string;
  Rs_Port : Z; Rs_SecretName : string; Rs_SecretUID : string; Rs_Username : string; Rs_UsernameKey : string;
  Rs_PasswordKey : string; Rs_BackupAdminSecretRef : option RestoreCredentialRef; Rs_TLS : RestoreTLS }.
Record RestoreItem := {
  Ri_ID : string; Ri_Source : RestoreSource; Ri_DDLMode : string; Ri_SecretMaterializationPlanDigest : string;
  Ri_MaxBytes : Z; Ri_MaxStatementBytes : Z; Ri_MaxTables : Z; Ri_MaxRows : Z; Ri_TimeoutSeconds : Z;
  Ri_TargetPVCName : string; Ri_StorageClass : string; Ri_TargetDatabase : string; Ri_RequestedBytes : Z;
  Ri_TargetSecretName : string; Ri_TargetSecretUID : string; Ri_TargetUsername : string; Ri_TargetPasswordKey : string;
  Ri_TargetRootPasswordKey : string }.
Record RestorePlan := {
  Mp_PlanID : string; Mp_TenantID : string; Mp_ProjectID : string; Mp_EnvironmentID : string; Mp_EnvironmentCreatedAt : Z;
  Mp_TargetNamespace : string; Mp_HelperImage : string; Mp_TargetImage : string; Mp_MaxBytes : Z; Mp_StorageQuotaBytes : Z;
  Mp_TimeoutSeconds : Z; Mp_AllowedSourceNamespaces : list string; Mp_Digest : string; Mp_Items : list RestoreItem }.
Record TargetSecret := {
  Ts_Name : string; Ts_UID : string; Ts_PasswordKey : string; Ts_Username : string;
  Ts_SecretMaterializationPlanDigest : string; Ts_RootPasswordKey : string }.
Record RestorePermission (P : Type) := {
  Rm_PlanID : string; Rm_TenantID : string; Rm_ProjectID : string; Rm_EnvironmentID : string; Rm_EnvironmentCreatedAt : Z;
  Rm_TemplateRevisionID : string; Rm_TemplateDigest : string; Rm_TargetNamespace : string;
  Rm_AllowedSourceNamespaces : list string; Rm_AllowedHelperImages : list string; Rm_AllowedTargetImages : list string;
  Rm_MaxBytes : Z; Rm_TimeoutSeconds : Z; Rm_StorageQuotaBytes : Z; Rm_ApprovedProductionSources : list P;
  Rm_ApprovedBackupAdminSecrets : list RestoreCredentialRef; Rm_TargetSecrets : list TargetSecret }.
Arguments Rm_PlanID {P}. Arguments Rm_TenantID {P}. Arguments Rm_TargetSecrets {P}. Arguments Rm_ApprovedBackupAdminSecrets {P}.
(** What the contracts give: the version, the validation of a plan alone and
    against its sources and a permission, and the decoding of the sources. *)
Class RestoreContracts (P S : Type) := {
  MySQLRestoreContractVersion : string;
  restore_Validate : RestorePlan -> bool;
  restore_sources : option any -> option (list S);
  BackupAdminSecretRef : S -> option RestoreCredentialRef;
  ValidateMySQLRestorePlan : RestorePlan -> list S -> RestorePermission P -> result error unit }.

(** ** The version that the runner offers *)

(** A name pinned by a digest: [strings.Split(image, "@sha256:")]. *)
Definition pinned_by (image : string) : option string :=
  match split2 "@sha256:" image with
  | Some (name, digest) =>
      if negb (contains digest "@sha256:") && (str_len digest =? 64) && forallb is_hex (chars digest) then Some name else None
  | None => None
  end.
Definition fence_of (ns : string) (f : AdmissionFenceRef) : bool :=
  str_eq (Af_Namespace f) ns && str_ne (Af_PolicyUID f) "" && str_ne (Af_BindingUID f) ""
  && (str_len (Af_PolicySpecSHA256 f) =? 64) && (str_len (Af_BindingSpecSHA256 f) =? 64).
Definition fences_source (fences : list AdmissionFenceRef) (ns : string) : bool :=
  (length (List.filter (fence_of ns) fences) =? 1)%nat.

(** The calls: those of a copy, and the runs of kubectl of the authority. *)
Inductive restore_call : Type -> Type :=
| OnCopy {R} (c : drive_call R) : restore_call R
| OnAuthority {R} (c : kube_call R) : restore_call R.

Section Restore.
Context {P S Y X I V C : Type} `{Contracts Y X I RestorePlan V C} `{CopyCommands Y} `{RestoreContracts P S}.
Context `{Sha256} `{PlanJson} `{JsonText} `{JsonMarshal} `{ReceiptJson}.
Implicit Types (cfg : runnerConfig P) (command : RunnerCommand Y X I RestorePlan V C) (plan : RestorePlan).

(** [mysqlRestoreRunnerContractVersion] *)
Definition mysqlRestoreRunnerContractVersion cfg : string :=
  match pinned_by (MySQLRestoreHelperImage cfg) with
  | Some name =>
      if str_eq name "ghcr.io/envplane/runner" && str_ne (PVCCopyRunnerServiceAccount cfg) "" && MySQLRestoreAllowRootInit cfg
         && negb (length (MySQLRestoreSourceNamespaces cfg) =? 0)%nat && negb (length (MySQLRestoreTargetImages cfg) =? 0)%nat
         && forallb (fun ns => str_ne (trim_space ns) "" && fences_source (MySQLRestoreSourceFences cfg) ns)
              (MySQLRestoreSourceNamespaces cfg)
         && forallb (fun image => match pinned_by image with Some name => str_ne name "" | None => false end)
              (MySQLRestoreTargetImages cfg)
      then MySQLRestoreContractVersion else ""
  | None => ""
  end.

(** ** What is refused before anything is read *)

(** [containsMySQLRestoreValue] *)
Definition containsMySQLRestoreValue (values : list string) (wanted : string) : bool := existsb (fun value => str_eq value wanted) values.
Definition restore_identity cfg command plan : bool :=
  let e := Rc_Environment command in
  let tenant := NormalizeTenantID (E_TenantID e) in
  str_eq tenant DefaultTenantID && str_eq (Mp_TenantID plan) tenant
  && str_eq (NormalizeTenantID (Pc_TenantID (Rc_ProjectConfig command))) tenant
  && str_eq (Rc_ProjectID command) (ProjectID cfg) && str_eq (E_Project e) (ProjectID cfg)
  && str_eq (Mp_ProjectID plan) (ProjectID cfg) && str_eq (Mp_EnvironmentID plan) (E_ID e)
  && (Mp_EnvironmentCreatedAt plan =? E_CreatedAt e) && str_eq (Mp_TargetNamespace plan) (M_Namespace (E_rest e))
  && str_eq (DeploymentBackend e) DeploymentBackendFluxCD
  && (Rc_ProjectConfigVersion command =? Pc_Version (Rc_ProjectConfig command)).
Definition restore_bounds cfg plan : bool :=
  str_eq (Mp_HelperImage plan) (MySQLRestoreHelperImage cfg)
  && containsMySQLRestoreValue (MySQLRestoreTargetImages cfg) (Mp_TargetImage plan)
  && (Mp_MaxBytes plan <=? Z.shiftl 1 40) && (Mp_StorageQuotaBytes plan <=? Z.shiftl 1 40) && (Mp_TimeoutSeconds plan <=? 300).
Definition restore_session command : option any :=
  match map_get "bootstrapSessionData" (Pc_Config (Rc_ProjectConfig command)) with
  | Some (VMap session) => map_get "mysqlRestoreSources" session
  | _ => None
  end.
Definition target_secret (item : RestoreItem) : TargetSecret :=
  {| Ts_Name := Ri_TargetSecretName item; Ts_UID := Ri_TargetSecretUID item; Ts_PasswordKey := Ri_TargetPasswordKey item;
     Ts_Username := Ri_TargetUsername item; Ts_SecretMaterializationPlanDigest := Ri_SecretMaterializationPlanDigest item;
     Ts_RootPasswordKey := Ri_TargetRootPasswordKey item |}.
Definition restore_permission cfg command plan (sources : list S) : RestorePermission P :=
  let e := Rc_Environment command in
  {| Rm_PlanID := Mp_PlanID plan; Rm_TenantID := NormalizeTenantID (E_TenantID e); Rm_ProjectID := ProjectID cfg;
     Rm_EnvironmentID := E_ID e; Rm_EnvironmentCreatedAt := E_CreatedAt e;
     Rm_TemplateRevisionID := Pc_TemplateRevisionID (Rc_ProjectConfig command);
     Rm_TemplateDigest := Pc_TemplateDigest (Rc_ProjectConfig command); Rm_TargetNamespace := M_Namespace (E_rest e);
     Rm_AllowedSourceNamespaces := Mp_AllowedSourceNamespaces plan; Rm_AllowedHelperImages := [MySQLRestoreHelperImage cfg];
     Rm_AllowedTargetImages := MySQLRestoreTargetImages cfg; Rm_MaxBytes := Z.shiftl 1 40; Rm_TimeoutSeconds := 300;
     Rm_StorageQuotaBytes := Z.shiftl 1 40; Rm_ApprovedProductionSources := PVCCopyApprovedProductionSources cfg;
     Rm_ApprovedBackupAdminSecrets := omap BackupAdminSecretRef sources; Rm_TargetSecrets := map target_secret (Mp_Items plan) |}.
Definition restore_request cfg command (namespaceAllowed : option (string -> bool)) : result error RestorePlan :=
  match Rc_MySQLRestorePlan command with
  | None => Err (Opaque "MySQL restore contract/configuration unavailable")
  | Some plan =>
      refuse negb (restore_Validate plan) || str_ne (mysqlRestoreRunnerContractVersion cfg) MySQLRestoreContractVersion
        with Opaque "MySQL restore contract/configuration unavailable";;
      refuse negb (restore_identity cfg command plan) with Opaque "MySQL restore runtime identity mismatch";;
      refuse match namespaceAllowed with Some allowed => negb (allowed (Mp_TargetNamespace plan)) | None => true end
        with Opaque "MySQL restore target namespace denied";;
      refuse negb (restore_bounds cfg plan) with Opaque "MySQL restore images/bounds denied";;
      refuse negb (forallb (containsMySQLRestoreValue (MySQLRestoreSourceNamespaces cfg)) (Mp_AllowedSourceNamespaces plan))
        with Opaque "MySQL restore source namespace denied";;
      match restore_sources (restore_session command) with
      | None => Err (Opaque "MySQL restore source projection unavailable")
      | Some sources =>
          refuse existsb (fun item => str_ne (Ri_TargetRootPasswordKey item) "MYSQL_ROOT_PASSWORD") (Mp_Items plan)
            with Opaque "MySQL restore requires independently generated administrator credentials";;
          match ValidateMySQLRestorePlan plan sources (restore_permission cfg command plan sources) with
          | Err e => Err e
          | Ok _ => Ok plan
          end
      end
  end.

(** ** The copies *)

Definition credential_of (r : RestoreCredentialRef) : CredentialRef :=
  {| Cred_Ref := {| Ref_Namespace := Rr_Namespace r; Ref_Name := Rr_Name r; Ref_UID := Rr_UID r |};
     Cred_Username := Rr_Username r; Cred_UsernameKey := Rr_UsernameKey r; Cred_PasswordKey := Rr_PasswordKey r |}.
Definition source_of (s : RestoreSource) (admin : RestoreCredentialRef) : Source :=
  let within n uid := {| Ref_Namespace := Rs_Namespace s; Ref_Name := n; Ref_UID := uid |} in
  {| Src_PVC := within (Rs_PVCName s) (Rs_PVCUID s); Src_StatefulSet := within (Rs_WorkloadName s) (Rs_WorkloadUID s);
     Src_Container := Rs_Container s; Src_Image := Rs_SourceImage s; Src_Service := Rs_Service s; Src_ServiceUID := Rs_ServiceUID s;
     Src_Database := Rs_Database s; Src_Port := Rs_Port s;
     Src_Credentials := credential_of {| Rr_Namespace := Rs_Namespace s; Rr_Name := Rs_SecretName s; Rr_UID := Rs_SecretUID s;
                                         Rr_Username := Rs_Username s; Rr_UsernameKey := Rs_UsernameKey s;
                                         Rr_PasswordKey := Rs_PasswordKey s |};
     Src_BackupAdminSecretRef := credential_of admin;
     Src_TLSCASecret := within (Rt_CASecretName (Rs_TLS s)) (Rt_CASecretUID (Rs_TLS s));
     Src_TLSCAKey := Rt_CAKey (Rs_TLS s); Src_TLSServerName := Rt_ServerName (Rs_TLS s) |}.
Definition target_of plan (item : RestoreItem) : Target :=
  {| Tgt_Namespace := Mp_TargetNamespace plan; Tgt_PVCName := Ri_TargetPVCName item; Tgt_StorageClass := Ri_StorageClass item;
     Tgt_Image := Mp_TargetImage plan; Tgt_Database := Ri_TargetDatabase item; Tgt_RootPasswordKey := Ri_TargetRootPasswordKey item;
     Tgt_RequestedBytes := Ri_RequestedBytes item;
     Tgt_Credentials := credential_of {| Rr_Namespace := Mp_TargetNamespace plan; Rr_Name := Ri_TargetSecretName item;
                                         Rr_UID := Ri_TargetSecretUID item; Rr_Username := Ri_TargetUsername item;
                                         Rr_UsernameKey := ""; Rr_PasswordKey := Ri_TargetPasswordKey item |} |}.
Definition plan_of cfg command plan (item : RestoreItem) (admin : RestoreCredentialRef) : Plan :=
  {| Binding := Mp_PlanID plan +:+ "/" +:+ Ri_ID item; Tenant := NormalizeTenantID (E_TenantID (Rc_Environment command));
     Project := ProjectID cfg; Environment := E_ID (Rc_Environment command);
     EnvironmentCreatedAt := Mp_EnvironmentCreatedAt plan; DomainPlanDigest := Mp_Digest plan;
     SecretMaterializationPlanDigest := Ri_SecretMaterializationPlanDigest item; PSource := source_of (Ri_Source item) admin;
     PTarget := target_of plan item; ConfigImage := Mp_HelperImage plan; DDLMode := Ri_DDLMode item; QuiescenceRef := "";
     MaxBytes := Ri_MaxBytes item; MaxStatementBytes := Ri_MaxStatementBytes item; MaxTables := Ri_MaxTables item;
     MaxRows := Ri_MaxRows item; Timeout := mul_second (Ri_TimeoutSeconds item) |}.
Definition restore_config cfg plan : KubeConfig :=
  {| Kc_Driver := {| Dc_RunnerImage := MySQLRestoreHelperImage cfg; Dc_MySQLImage := Mp_TargetImage plan; Dc_ServiceAccount := "default";
                     Dc_AllowRootInit := MySQLRestoreAllowRootInit cfg; Dc_Authorize := true; Dc_QuiescenceHold := false;
                     Dc_SourceAdmissionFences := MySQLRestoreSourceFences cfg |};
     Kc_SourceNamespaces := MySQLRestoreSourceNamespaces cfg; Kc_RunnerImage := MySQLRestoreHelperImage cfg;
     Kc_MySQLImage := Mp_TargetImage plan |}.
(** The authority: the namespace belongs to the environment. *)
Definition restore_authority command : prog restore_call (result error unit) :=
  r <-- handle (fun R c => call (OnAuthority c)) (checkPVCCopyNamespaceOwner (Rc_Environment command));;
  Ret (match r with Ok _ => Ok tt | Err _ => Err (Opaque "PVC copy environment namespace ownership") end).
Definition restored command R (c : drive_call R) : prog restore_call R :=
  match c in drive_call R return prog restore_call R with
  | DAuthorize _ => restore_authority command
  | DRun args input => call (OnCopy (DRun args input))
  | DDump args => call (OnCopy (DDump args))
  | DProbe args pod => call (OnCopy (DProbe args pod))
  | DCtxErr => call (OnCopy DCtxErr)
  | DPause => call (OnCopy DPause)
  | DStreams source target => call (OnCopy (DStreams source target))
  | DQuiesce => call (OnCopy DQuiesce)
  | DQuiesceCheck => call (OnCopy DQuiesceCheck)
  | DQuiesceRelease => call (OnCopy DQuiesceRelease)
  | DSession args => call (OnCopy (DSession args))
  | DSessionEnded => call (OnCopy DSessionEnded)
  | DSessionSend words => call (OnCopy (DSessionSend words))
  | DSessionLine => call (OnCopy DSessionLine)
  | DSessionClose => call (OnCopy DSessionClose)
  | DSessionWait => call (OnCopy DSessionWait)
  end.
Section Copies.
Variable order : list (string * ownedPod) -> list (string * ownedPod).
Variable arrival : list ownedPod -> list ownedPod.
Definition online_backup (item : RestoreItem) : option RestoreCredentialRef :=
  if str_eq (Ri_DDLMode item) "backup_lock" then Rs_BackupAdminSecretRef (Ri_Source item) else None.
Fixpoint restore_items cfg command plan (items : list RestoreItem) : prog restore_call (result error unit) :=
  match items with
  | [] => Ret (Ok tt)
  | item :: items' =>
      match online_backup item with
      | None => Ret (Err (Opaque "MySQL restore requires a protected online backup, not a job-provided quiescence flag"))
      | Some admin =>
          x <-- handle (restored command) (kube_copy (restore_config cfg plan) order arrival (plan_of cfg command plan item admin));;
          match x.2 with
          | Err e => Ret (Err e)
          | Ok _ => restore_items cfg command plan items'
          end
      end
  end.
(** [executeRunnerMySQLRestore] *)
Definition executeRunnerMySQLRestore cfg command (namespaceAllowed : option (string -> bool)) : prog restore_call (result error unit) :=
  match restore_request cfg command namespaceAllowed with
  | Err e => Ret (Err e)
  | Ok plan => restore_items cfg command plan (Mp_Items plan)
  end.
End Copies.
End Restore.

(** ** Lemmas *)

Section RestoreLemmas.
Context {P S Y X I V C : Type} `{Contracts Y X I RestorePlan V C} `{CopyCommands Y} `{RestoreContracts P S}.
Context `{Sha256} `{PlanJson} `{JsonText} `{JsonMarshal} `{ReceiptJson}.
Implicit Types (cfg : runnerConfig P) (command : RunnerCommand Y X I RestorePlan V C) (plan : RestorePlan).

(** A source namespace with one fence of its own. *)
Definition fenced cfg (ns : string) : Prop :=
  exists l1 f l2, MySQLRestoreSourceFences cfg = l1 ++ f :: l2 /\ fence_of ns f = true
    /\ Forall (fun f' => fence_of ns f' = false) (l1 ++ l2).
Lemma filter_one {A} (f : A -> bool) l : length (List.filter f l) = 1%nat ->
  exists l1 x l2, l = l1 ++ x :: l2 /\ f x = true /\ Forall (fun y => f y = false) (l1 ++ l2).
Proof.
  assert (Hnone : forall l, length (List.filter f l) = 0%nat -> Forall (fun y => f y = false) l).
  { clear l. induction l as [|x l IH]; cbn; [done|]. destruct (f x) eqn:E; [done|]. intros Hl. constructor; auto. }
  induction l as [|x l IH]; cbn; [done|]. destruct (f x) eqn:E.
  - intros [= Hl%Hnone]. by exists [], x, l.
  - intros (l1 & y & l2 & -> & Hy & Hf)%IH. exists (x :: l1), y, l2. split; [done|]. split; [done|]. by constructor.
Qed.
Lemma version_ok cfg : mysqlRestoreRunnerContractVersion cfg <> "" ->
  pinned_by (MySQLRestoreHelperImage cfg) = Some "ghcr.io/envplane/runner" /\ MySQLRestoreAllowRootInit cfg = true
  /\ (forall ns, In ns (MySQLRestoreSourceNamespaces cfg) -> fenced cfg ns)
  /\ (forall image, In image (MySQLRestoreTargetImages cfg) -> exists n, pinned_by image = Some n).
Proof.
  unfold mysqlRestoreRunnerContractVersion. destruct (pinned_by _) as [n|]; [|done]. destruct (_ && _) eqn:E; [|done]. intros _.
  rewrite !andb_true_iff in E. destruct E as [[[[[[Hn%str_eq_true _] Hr] _] _] Hs] Hi]. subst n. split_and!; [done|done| |].
  - intros ns Hin. rewrite forallb_forall in Hs. specialize (Hs ns Hin). apply andb_true_iff in Hs as [_ Hf%Nat.eqb_eq].
    by apply filter_one in Hf.
  - intros image Hin. rewrite forallb_forall in Hi. specialize (Hi image Hin). cbn in Hi. destruct (pinned_by image) as [m|]; [|done].
    by exists m.
Qed.

(** What is accepted before anything is read. *)
Definition accepted_restore cfg command (allowed : option (string -> bool)) plan : Prop :=
  Rc_MySQLRestorePlan command = Some plan /\ restore_Validate plan = true /\ restore_identity cfg command plan = true
  /\ (exists f, allowed = Some f /\ f (Mp_TargetNamespace plan) = true)
  /\ Mp_HelperImage plan = MySQLRestoreHelperImage cfg /\ In (Mp_TargetImage plan) (MySQLRestoreTargetImages cfg)
  /\ Mp_MaxBytes plan <= 2 ^ 40 /\ Mp_StorageQuotaBytes plan <= 2 ^ 40 /\ Mp_TimeoutSeconds plan <= 300
  /\ (forall ns, In ns (Mp_AllowedSourceNamespaces plan) -> In ns (MySQLRestoreSourceNamespaces cfg))
  /\ (forall item, In item (Mp_Items plan) -> Ri_TargetRootPasswordKey item = "MYSQL_ROOT_PASSWORD")
  /\ (exists sources, ValidateMySQLRestorePlan plan sources (restore_permission cfg command plan sources) = Ok tt)
  /\ (MySQLRestoreContractVersion <> "" ->
       pinned_by (Mp_HelperImage plan) = Some "ghcr.io/envplane/runner" /\ MySQLRestoreAllowRootInit cfg = true
       /\ (forall ns, In ns (Mp_AllowedSourceNamespaces plan) -> fenced cfg ns)
       /\ exists n, pinned_by (Mp_TargetImage plan) = Some n).
Lemma contains_in values wanted : containsMySQLRestoreValue values wanted = true -> In wanted values.
Proof. by intros (x & Hx & ->%str_eq_true)%existsb_exists. Qed.
Lemma restore_request_ok cfg command allowed plan : restore_request cfg command allowed = Ok plan -> accepted_restore cfg command allowed plan.
Proof.
  unfold restore_request. destruct (Rc_MySQLRestorePlan command) as [p|] eqn:Ep; [|done]. rewrite !refuse_ok.
  intros ([Hv%negb_false_iff Hver%str_ne_false]%orb_false_iff & Hi%negb_false_iff & Ha & Hb%negb_false_iff & Hg%negb_false_iff & Hs).
  destruct (restore_sources _) as [l|]; [|done]. apply refuse_ok in Hs as [Hk Hs].
  destruct (ValidateMySQLRestorePlan _ _ _) as [[]|] eqn:Ev; [|done]. injection Hs as ->.
  unfold restore_bounds in Hb. rewrite !andb_true_iff, !Z.leb_le in Hb. destruct Hb as [[[[Hh%str_eq_true Ht%contains_in] H1'] H2'] H3'].
  assert (Hns : forall ns, In ns (Mp_AllowedSourceNamespaces plan) -> In ns (MySQLRestoreSourceNamespaces cfg)).
  { intros ns Hin. rewrite forallb_forall in Hg. by apply contains_in, Hg. }
  unfold accepted_restore. split_and!; try done.
  - destruct allowed as [f|]; [|done]. exists f. by apply negb_false_iff in Ha.
  - intros item Hin. rewrite <- not_true_iff_false, existsb_exists in Hk. apply str_ne_false, not_true_iff_false.
    intros Hne. apply Hk. by exists item.
  - by exists l.
  - intros Hne. rewrite <- Hver in Hne. apply version_ok in Hne as (Hp & Hr & Hf & Him). rewrite Hh. split_and!; auto.
Qed.

(** *** The authority *)

(** The namespace was read and belongs to this environment alone. *)
Definition owned_seen command (t : list (event restore_call)) : Prop :=
  let e := Rc_Environment command in
  exists raw v o, In (Event (OnAuthority (KRun (PvcRunner.namespace_args (M_Namespace (E_rest e))) None)) (Ok raw)) t
    /\ parse_json raw = Some v /\ decode_namespace v = Some o /\ exclusively_owned e o = true.
Lemma owned_more command t t' : owned_seen command t -> incl t t' -> owned_seen command t'.
Proof. intros (raw & v & o & Hr & Hx) Hi. exists raw, v, o. split; [by apply Hi|done]. Qed.
Lemma restore_authority_ok command t u : exec (restore_authority command) t (Ok u) -> owned_seen command t.
Proof.
  unfold restore_authority. intros (t1 & t2 & r & -> & (t0 & Hx & Hc)%exec_handle & [-> Hr])%exec_bind.
  destruct r as [[]|e]; [|done]. rewrite app_nil_r. apply owner_ok in Hx as (raw & v & o & Hin & Ho). exists raw, v, o. split; [|done].
  destruct (carried_in _ _ _ _ _ _ Hc Hin) as (t' & Hi & ->%exec_call). apply Hi. by left.
Qed.
Definition on_authority R (c : restore_call R) : Prop := match c with OnAuthority _ => True | OnCopy _ => False end.
Lemma restore_authority_only command : only on_authority (restore_authority command).
Proof.
  unfold restore_authority. apply only_bind; [|done].
  eapply (only_handle (fun _ _ => True)); [by intros|].
  unfold checkPVCCopyNamespaceOwner, run_bounded. split; [done|]. intros r. cbn. destruct r as [raw|]; cbn; [|done].
  destruct (_ <? _); [done|]. cbn. destruct (parse_json raw) as [v|]; [|done]. destruct (decode_namespace v); [|done]. by apply only_stop.
Qed.

(** *** A copy *)

Variable order : list (string * ownedPod) -> list (string * ownedPod).
Variable arrival : list ownedPod -> list ownedPod.
Hypothesis order_perm : forall l, Permutation (order l) l.
Hypothesis arrival_perm : forall l, Permutation (arrival l) l.

(** A call of the copy, after the authority has agreed. *)
Definition copies cfg command plan item (t : list (event restore_call)) R (c : drive_call R) : Prop :=
  exists admin h, online_backup item = Some admin /\ carried (restored command) h t /\ owned_seen command t
    /\ transport_call (restore_config cfg plan) (plan_of cfg command plan item admin) R h c.
Lemma permitted_call (h : list (event drive_call)) ta R (e : drive_call R) r tb : permitted h -> h = ta ++ Event e r :: tb -> ~ asks (Event e r) ->
  In (Event (DAuthorize ReadSource) (Ok tt)) ta.
Proof.
  intros [(t' & Heq)|Ha] Ht Hn.
  - rewrite Ht in Heq. destruct ta as [|ev [|ev' ta]]; cbn [app] in Heq.
    + exfalso. apply Hn. apply (f_equal (fun l => match l with ev :: _ => asks ev | [] => False end)) in Heq.
      cbv beta iota in Heq. by rewrite Heq.
    + exfalso. apply Hn. apply (f_equal (fun l => match l with _ :: ev :: _ => asks ev | _ => False end)) in Heq.
      cbv beta iota in Heq. by rewrite Heq.
    + apply (f_equal (fun l => match l with _ :: ev :: _ => ev = Event (DAuthorize ReadSource) (Ok tt) | _ => False end)) in Heq.
      cbv beta iota in Heq. right. left. by rewrite Heq.
  - subst h. apply Forall_app in Ha as [_ Ha]. by inversion_clear Ha.
Qed.
Definition copy_head (Q : event drive_call -> Prop) (t : list (event restore_call)) : Prop :=
  match t with
  | @Event _ R c r :: _ =>
      match c in restore_call R return R -> Prop with OnCopy c => fun r => Q (Event c r) | OnAuthority _ => fun _ => False end r
  | [] => False
  end.
Lemma restored_copy command cfg plan item admin h t x R (c : drive_call R) r t1 t2 :
  online_backup item = Some admin ->
  exec (kube_copy (restore_config cfg plan) order arrival (plan_of cfg command plan item admin)) h x ->
  carried (restored command) h t -> t = t1 ++ Event (OnCopy c) r :: t2 -> ~ asks (Event c r) ->
  copies cfg command plan item t1 R c.
Proof.
  intros Ho Hx Hc Ht Hn.
  destruct (carried_before _ _ _ Hc _ _ _ Ht) as (ta & R' & e & r' & tb & t1' & t1'' & t2' & Hh & Hca & -> & He).
  assert (Hp : transport_call (restore_config cfg plan) (plan_of cfg command plan item admin) R' ta e).
  { apply (guarded_exec (transport_call _ _) [] _ h x ta R' e r' tb) with (2 := Hx) (3 := Hh). eapply wp_guarded, copy_does, order_perm. }
  assert (Hcall : exec (call (OnCopy e)) (t1'' ++ Event (OnCopy c) r :: t2') r' ->
    t1'' = [] /\ transport_call (restore_config cfg plan) (plan_of cfg command plan item admin) R ta c /\ ~ asks (Event e r')).
  { intros Hx'%exec_call. destruct t1'' as [|ev l]; [|by destruct l]. split; [done|]. cbn [app] in Hx'.
    pose proof (f_equal (copy_head (fun ev => match ev with @Event _ R e _ =>
      transport_call (restore_config cfg plan) (plan_of cfg command plan item admin) R ta e end)) Hx') as Htc.
    apply (f_equal (copy_head asks)) in Hx'. cbn [copy_head] in Htc, Hx'. by rewrite Htc, <- Hx'. }
  assert (Hd : t1'' = [] /\ transport_call (restore_config cfg plan) (plan_of cfg command plan item admin) R ta c /\ ~ asks (Event e r')).
  { destruct e; try (by apply Hcall). exfalso. pose proof (exec_only _ _ _ _ (restore_authority_only command) He) as Hf.
    apply Forall_app in Hf as [_ Hf]. by inversion_clear Hf. }
  destruct Hd as (-> & Htc & Hne). rewrite app_nil_r. exists admin, ta. split; [done|]. split; [done|]. split; [|done].
  assert (Hs : permitted h).
  { eapply copy_start; [exact order_perm| |exact Hx]. apply Permutation_nil. symmetry. apply arrival_perm. }
  pose proof (permitted_call _ _ _ _ _ _ Hs Hh Hne) as Hin. destruct (carried_in _ _ _ _ _ _ Hca Hin) as (t' & Hi & Ha).
  eapply owned_more; [by eapply restore_authority_ok|done].
Qed.
Lemma restore_items_call cfg command plan items t x R (c : drive_call R) r : forall t1 t2,
  exec (restore_items order arrival cfg command plan items) t x -> t = t1 ++ Event (OnCopy c) r :: t2 -> ~ asks (Event c r) ->
  exists done_ item rest t0 t1', items = done_ ++ item :: rest /\ t1 = t0 ++ t1' /\ copies cfg command plan item t1' R c.
Proof.
  revert t. induction items as [|item items IH]; intros t t1 t2 Hx Ht Hn; cbn [restore_items] in Hx.
  { destruct Hx as [-> _]. by destruct t1. }
  destruct (online_backup item) as [admin|] eqn:Eo; [|destruct Hx as [-> _]; by destruct t1].
  apply exec_bind in Hx as (u1 & u2 & y & -> & (h & Hk & Hc)%exec_handle & Hx).
  symmetry in Ht. apply app_eq_app in Ht as [l [[-> Hl]|[-> Hl]]].
  - destruct y as [k [rc|e]]; [|by destruct Hx as [-> _]; destruct l].
    destruct (IH _ _ _ Hx Hl Hn) as (d & item' & rest & t0 & t1' & -> & -> & Hcop).
    exists (item :: d), item', rest, (u1 ++ t0), t1'. by rewrite <- app_assoc.
  - destruct l as [|ev l]; cbn [app] in Hl.
    + rewrite app_nil_r in Hc. destruct y as [k [rc|e]]; [|by destruct Hx as [-> _]].
      destruct (IH _ [] _ Hx (eq_sym Hl) Hn) as (d & item' & rest & t0 & t1' & -> & Hz & Hcop).
      symmetry in Hz. apply app_eq_nil in Hz as [-> ->]. exists (item :: d), item', rest, t1, [].
      by rewrite app_nil_r.
    + apply (f_equal (fun t => match t with ev' :: _ => ev' | [] => ev end)) in Hl. cbn in Hl. rewrite <- Hl in Hc.
      exists [], item, items, [], t1. split; [done|]. split; [done|]. by eapply restored_copy.
Qed.
(** What each item of a restore that succeeds has behind it. *)
Definition restored_item cfg command plan item (t : list (event restore_call)) : Prop :=
  exists admin h k rc, online_backup item = Some admin /\ carried (restored command) h t /\ owned_seen command t
    /\ exec (kube_copy (restore_config cfg plan) order arrival (plan_of cfg command plan item admin)) h (k, Ok rc).
Lemma restore_items_ok cfg command plan items t : exec (restore_items order arrival cfg command plan items) t (Ok tt) ->
  exists ts, t = concat ts /\ Forall2 (restored_item cfg command plan) items ts.
Proof.
  revert t. induction items as [|item items IH]; intros t; cbn [restore_items]; [intros [-> _]; by exists []|].
  destruct (online_backup item) as [admin|] eqn:Eo; [|by intros [_ [=]]].
  intros (u1 & u2 & [k [rc|e]] & -> & (h & Hk & Hc)%exec_handle & Hx)%exec_bind; [|by destruct Hx].
  apply IH in Hx as (ts & -> & Hf). exists (u1 :: ts). split; [done|]. constructor; [|done]. exists admin, h, k, rc. split_and!; try done.
  assert (Hin : In (Event (DAuthorize ReadSource) (Ok tt)) h) by (by eapply copy_asked).
  destruct (carried_in _ _ _ _ _ _ Hc Hin) as (t' & Hi & Ha). eapply owned_more; [by eapply restore_authority_ok|done].
Qed.
End RestoreLemmas.

(** ** Properties *)

Section RestoreProperties.
Context {P S Y X I V C : Type} `{Contracts Y X I RestorePlan V C} `{CopyCommands Y} `{RestoreContracts P S}.
Context `{Sha256} `{PlanJson} `{JsonText} `{JsonMarshal} `{ReceiptJson}.
Variable order : list (string * ownedPod) -> list (string * ownedPod).
Variable arrival : list ownedPod -> list ownedPod.
Hypothesis order_perm : forall l, Permutation (order l) l.
Hypothesis arrival_perm : forall l, Permutation (arrival l) l.

(** C13: Whatever [executeRunnerMySQLRestore] calls for a copy, the clock apart,
    comes after everything that has to be true of it: the request was accepted
    (the identity, the granted namespaces, each with one fence of its own, the
    images and the bounds), the item asks for a protected online backup, the
    target namespace was read for this copy and belongs to this environment alone,
    and the call is one that the transport of this item's plan justifies by what
    the copy did before. *)
Theorem restore_authorized cfg (command : RunnerCommand Y X I RestorePlan V C) allowed t r R (c : drive_call R) x t1 t2
    (Hx : exec (executeRunnerMySQLRestore order arrival cfg command allowed) t r)
    (Ht : t = t1 ++ Event (OnCopy c) x :: t2) (Hc : ~ asks (Event c x)) :
  exists plan item t0 t1', accepted_restore cfg command allowed plan /\ In item (Mp_Items plan) /\ t1 = t0 ++ t1'
    /\ copies cfg command plan item t1' R c.
Proof.
  unfold executeRunnerMySQLRestore in Hx. destruct (restore_request cfg command allowed) as [plan|e] eqn:Er;
    [|destruct Hx as [-> _]; by destruct t1].
  destruct (restore_items_call order arrival order_perm arrival_perm _ _ _ _ _ _ _ _ _ _ _ Hx Ht Hc)
    as (d & item & rest & t0 & t1' & Hi & Ht1 & Hcop).
  exists plan, item, t0, t1'. split; [by apply restore_request_ok|]. split; [|done]. rewrite Hi. apply in_or_app. right. by left.
Qed.

(** A command to copy databases that succeeds is complete: it accepted the
    request, and its calls are, item after item in the order of the plan, a copy
    that returned a receipt for the plan of that item, with an authority that
    agreed. *)
Theorem restore_complete cfg (command : RunnerCommand Y X I RestorePlan V C) allowed t
    (Hx : exec (executeRunnerMySQLRestore order arrival cfg command allowed) t (Ok tt)) :
  exists plan ts, accepted_restore cfg command allowed plan /\ t = concat ts
    /\ Forall2 (restored_item order arrival cfg command plan) (Mp_Items plan) ts.
Proof.
  unfold executeRunnerMySQLRestore in Hx. destruct (restore_request cfg command allowed) as [plan|e] eqn:Er; [|by destruct Hx].
  apply (restore_items_ok order arrival order_perm) in Hx as (ts & -> & Hf). exists plan, ts. split; [|done].
  by apply restore_request_ok.
Qed.
End RestoreProperties.

(** ** Witnesses *)

(** The sample copy of the cluster, as a command to a runner that is configured for it. *)
Definition restore_vars (key : string) : option string :=
  map_get key
    [("ENVPLANE_MYSQL_RESTORE_HELPER_IMAGE", sample_runner); ("ENVPLANE_MYSQL_RESTORE_SOURCE_NAMESPACES", "prod");
     ("ENVPLANE_MYSQL_RESTORE_TARGET_IMAGES", sample_image); ("ENVPLANE_MYSQL_RESTORE_ALLOW_ROOT_INIT", "true");
     ("ENVPLANE_MYSQL_RESTORE_SOURCE_FENCES", "fences"); ("ENVPLANE_PVC_COPY_RUNNER_SERVICE_ACCOUNT", "envplane");
     ("ENVPLANE_PROJECT_ID", "p")].
Definition restore_fences : ConfigJson unit :=
  {| decode_sources := fun _ => (None, true); decode_fences := fun _ => (Some [sample_fence], true) |}.
Definition restore_runner : runnerConfig unit :=
  (run sample_host [] (runnerConfigFromEnv (H := zero_hash) (H0 := restore_fences) restore_vars)).2.
Definition restore_admin : RestoreCredentialRef :=
  {| Rr_Namespace := "prod"; Rr_Name := "admin"; Rr_UID := "uid-1"; Rr_Username := "app"; Rr_UsernameKey := "";
     Rr_PasswordKey := "password" |}.
Definition restore_source : RestoreSource :=
  {| Rs_Namespace := "prod"; Rs_PVCName := "data"; Rs_PVCUID := "uid-1"; Rs_WorkloadName := "db"; Rs_WorkloadUID := "uid-1";
     Rs_Container := "mysql"; Rs_SourceImage := sample_image; Rs_Service := "db"; Rs_ServiceUID := "uid-2"; Rs_Database := "shop";
     Rs_Port := 3306; Rs_SecretName := "db"; Rs_SecretUID := "uid-1"; Rs_Username := "app"; Rs_UsernameKey := "";
     Rs_PasswordKey := "password"; Rs_BackupAdminSecretRef := Some restore_admin;
     Rs_TLS := {| Rt_CASecretName := "ca"; Rt_CASecretUID := "uid-1"; Rt_CAKey := "ca.crt"; Rt_ServerName := "db.prod.svc" |} |}.
Definition restore_item : RestoreItem :=
  {| Ri_ID := "b"; Ri_Source := restore_source; Ri_DDLMode := "backup_lock";
     Ri_SecretMaterializationPlanDigest := "sha256:" +:+ zeros64; Ri_MaxBytes := 10000; Ri_MaxStatementBytes := 2000;
     Ri_MaxTables := 10; Ri_MaxRows := 10; Ri_TimeoutSeconds := 60; Ri_TargetPVCName := "data"; Ri_StorageClass := "fast";
     Ri_TargetDatabase := "shop"; Ri_RequestedBytes := 10000; Ri_TargetSecretName := "db"; Ri_TargetSecretUID := "uid-1";
     Ri_TargetUsername := "app"; Ri_TargetPasswordKey := "password"; Ri_TargetRootPasswordKey := "MYSQL_ROOT_PASSWORD" |}.
Definition sample_restore : RestorePlan :=
  {| Mp_PlanID := "r"; Mp_TenantID := "t"; Mp_ProjectID := "p"; Mp_EnvironmentID := "e"; Mp_EnvironmentCreatedAt := 1;
     Mp_TargetNamespace := "env-1"; Mp_HelperImage := sample_runner; Mp_TargetImage := sample_image; Mp_MaxBytes := 10000;
     Mp_StorageQuotaBytes := 10000; Mp_TimeoutSeconds := 300; Mp_AllowedSourceNamespaces := ["prod"];
     Mp_Digest := "sha256:" +:+ zeros64; Mp_Items := [restore_item] |}.
Definition restore_more : env_more unit := {|
  M_Namespace := "env-1"; M_Product := ""; M_Domain := ""; M_URL := ""; M_ValuesPath := ""; M_GitOpsPath := "";
  M_ChartsApp := ""; M_Services := []; M_BaseServices := []; M_Components := []; M_Overrides := []; M_ReleasePlanID := "";
  M_ReleasePlanDigest := ""; M_FluxStatus := None; M_LastError := ""; M_CleanupPhase := ""; M_CleanupAttempts := 0;
  M_CleanupVerified := false; M_ManifestPath := ""; M_NamespaceManifestPath := ""; M_KustomizationManifestPath := "";
  M_PullRequestURL := ""; M_rest := tt |}.
Definition restore_env : Env unit := {|
  E_TenantID := "t"; E_ID := "e"; E_Project := "p"; E_PullRequestID := "7"; E_Branch := "main"; E_Commit := "c0ffee";
  E_Status := "creating"; E_Mode := "pr"; E_TTLHours := 24; E_CreatedAt := 1; E_UpdatedAt := 1; E_rest := restore_more |}.
Definition restore_command : RunnerCommand unit unit unit RestorePlan unit unit := {|
  Rc_ID := "c1"; Rc_AttemptID := "a1"; Rc_ProjectID := "p"; Rc_ClusterID := "default"; Rc_RunnerID := "runner-0";
  Rc_Operation := "restore_mysql"; Rc_Environment := restore_env;
  Rc_ProjectConfig := {| Pc_Config := [("bootstrapSessionData", VMap [("mysqlRestoreSources", VOther)])]; Pc_Sensitive := false;
                         Pc_TenantID := "t"; Pc_Version := 1; Pc_TemplateRevisionID := ""; Pc_TemplateDigest := ""; Pc_rest := tt |};
  Rc_ProjectConfigVersion := 1; Rc_CleanupInventory := []; Rc_ChartRef := ""; Rc_ChartVersion := ""; Rc_ReleasePlanID := "";
  Rc_ReleasePlanDigest := ""; Rc_ReleasePlanSignature := ""; Rc_ReleasePlanKeyID := ""; Rc_ReleasePlanPublicKey := "";
  Rc_ReleasePlanTransportVersion := ""; Rc_ReleasePlan := None; Rc_MySQLRestorePlan := Some sample_restore;
  Rc_PVCCopyPlan := None; Rc_RemoteClusterGeneration := 0; Rc_RunnerIdentityIssuedAt := None |}.
Definition restore_contracts : Contracts unit unit unit RestorePlan unit unit := {|
  DefaultTenantID := "t"; ReleasePlanTransportVersion := "2"; RunnerOperationRestoreMySQL := "restore_mysql";
  RunnerOperationMaterializePVC := "materialize_pvc"; base64_decode := fun _ => None;
  VerifyReleasePlanReference := fun _ _ _ _ _ _ => None; ReleasePlanExecutionInputDigest := fun _ _ _ _ _ => Ok "";
  ValidateCleanupInventory := fun _ _ _ _ => None; mysql_plan_digest := Mp_Digest; pvc_plan_digest := fun _ => "" |}.
Definition restore_checks : RestoreContracts unit unit := {|
  MySQLRestoreContractVersion := "v1"; restore_Validate := fun plan => negb (length (Mp_Items plan) =? 0)%nat;
  restore_sources := fun _ => Some [tt]; BackupAdminSecretRef := fun _ => Some restore_admin;
  ValidateMySQLRestorePlan := fun plan sources permission =>
    if (length sources =? 1)%nat && (length (Rm_TargetSecrets permission) =? length (Mp_Items plan))%nat then Ok tt
    else Err (Opaque "invalid") |}.
Definition restore_namespace : json :=
  JObj [("metadata",
          JObj [("name", JStr "env-1");
                ("labels", JObj [("envplane.io/managed", JStr "true"); ("envplane.io/project-id", JStr "p");
                                 ("envplane.io/environment-id", JStr "e")])])].
Definition restore_texts : JsonText := fun b => if str_eq (text b) "env-1" then Some restore_namespace else sample_text b.
(** The copy is told only of its own calls. *)
Fixpoint copy_history (h : list (event restore_call)) : trace :=
  match h with
  | [] => []
  | @Event _ R c r :: h' =>
      match c in restore_call R return R -> trace -> trace with
      | OnCopy c => fun r t => Event c r :: t
      | OnAuthority _ => fun _ t => t
      end r (copy_history h')
  end.
Definition restore_cluster (R : Type) (h : list (event restore_call)) (c : restore_call R) : R :=
  match c in restore_call R return R with
  | OnCopy c => sample_cluster _ (copy_history h) c
  | OnAuthority c =>
      match c in kube_call R return R with
      | KRun args _ => Ok (chars (nth 2 args ""))
      | c => PvcDomain.sample_cluster _ [] c
      end
  end.
#[local] Existing Instances restore_contracts copy_constants restore_checks sample_hash sample_json restore_texts sample_marshal
  sample_receipts.
Definition sample_restore_request : prog restore_call (result error unit) :=
  executeRunnerMySQLRestore (fun l => l) (fun l => l) restore_runner restore_command (Some (str_eq "env-1")).
Definition restore_run := run restore_cluster [] sample_restore_request.
Lemma restore_run_exec : exec sample_restore_request restore_run.1 restore_run.2.
Proof. exact (run_exec restore_cluster sample_restore_request []). Qed.
(** The copy's record of the receipt, in the calls of the command. *)
Definition records (ev : event restore_call) : bool :=
  match ev with
  | @Event _ _ c _ =>
      match c with
      | OnCopy (DRun args (Manifest v)) => str_eq (str v ["kind"]) "ConfigMap"
      | _ => false
      end
  end.
Lemma restore_run_ok : match restore_run.2 with Ok _ => existsb records restore_run.1 | Err _ => false end = true.
Proof. vm_compute. reflexivity. Qed.
Lemma restore_ran : restore_run.2 = Ok tt /\ exists args v r t1 t2,
  restore_run.1 = t1 ++ Event (OnCopy (DRun args (Manifest v))) r :: t2 /\ str v ["kind"] = "ConfigMap".
Proof.
  pose proof restore_run_ok as Hok. destruct restore_run.2 as [[]|e]; [|discriminate Hok]. split; [reflexivity|].
  apply existsb_exists in Hok as (ev & (t1 & t2 & Ht)%in_split & Hev). destruct ev as [R c r]. destruct c as [R c|R c]; [|discriminate Hev].
  destruct c as [args [|v|w]| | | | | | | | | | | | | | |]; try discriminate Hev.
  exists args, v, r, t1, t2. split; [exact Ht|]. by apply str_eq_true.
Qed.
Lemma restore_authorized_witness : exists args v t1, str v ["kind"] = "ConfigMap"
  /\ copies restore_runner restore_command sample_restore restore_item t1 _ (DRun args (Manifest v)).
Proof.
  destruct restore_ran as (_ & args & v & r & t1 & t2 & Ht & Hv).
  destruct (restore_authorized (fun l => l) (fun l => l) (fun l => Permutation_refl l) (fun l => Permutation_refl l)
              restore_runner restore_command (Some (str_eq "env-1")) _ _ _ _ _ _ _ restore_run_exec Ht (fun H => H))
    as (plan & item & t0 & t1' & (Hp & _) & Hi & _ & Hc).
  injection Hp as <-. destruct Hi as [<-|[]]. exists args, v, t1'. by split.
Defined.
Lemma restore_complete_witness : exists t, restored_item (fun l => l) (fun l => l) restore_runner restore_command sample_restore restore_item t.
Proof.
  pose proof restore_run_exec as Hx. rewrite (proj1 restore_ran) in Hx.
  destruct (restore_complete (fun l => l) (fun l => l) (fun l => Permutation_refl l) restore_runner restore_command
              (Some (str_eq "env-1")) _ Hx) as (plan & ts & (Hp & _) & _ & Hf).
  injection Hp as <-. inversion Hf as [|i t is_ ts' Hr _]; subst. exists t. exact Hr.
Defined.
