(* ===== verification/RunnerWhole.v ===== *)
(** * A command of the runner, as a whole

    [executeRunnerCommandForConfig] ([internal/runner/runtime.go]) with its
    parts in place: the MySQL command, the volume command and the capture of
    storage, each down to the calls that leave the process. *)

From stdpp Require Import base list gmap strings.
From Stdlib Require Import ZArith Lia Ascii String.
From S2P Require Import Prelude Stateful GoStrings GoPath EnvStore OrchTypes HelmName HelmValues HelmCli HelmDirect Json.
From S2P Require Import SqlFence SqlPlan SqlFailure SqlStream SqlExecutor SqlHelper SqlManifest SqlDriver SqlKube SqlCopy.
From S2P Require Import PvcPlan PvcArchive PvcLocal PvcExecutor PvcHelper PvcKube PvcDomain PvcFence.
From S2P Require Import RunnerConfig RunnerCommand RunnerDispatch RunnerCapture PvcRunner SqlRunner.

Local Open Scope string_scope.
Local Open Scope Z_scope.
Local Open Scope list_scope.

(** What leaves the process: commands and the values file of the Helm backend,
    and the calls of the three parts. *)
Inductive whole : Type -> Type :=
| OnSys {R} (c : sys R) : whole R
| OnRestore {R} (c : restore_call R) : whole R
| OnVolume {R} (c : kube_call R) : whole R
| OnCapture {R} (c : capture_call R) : whole R.

Section Whole.
Context {S Y X I C : Type} `{Contracts Y X I RestorePlan CopyPlan C} `{CopyCommands Y} `{RestoreContracts json S}.
Context `{Quote} `{GoNet} `{Certificates} `{ChartRefs} `{ManifestCodec} `{Sha256} `{Statuses}.
Context `{KubeJson} `{Templates} `{EnvFiles Y} `{ManifestYaml}.
Context `{JsonMarshal} `{JsonText} `{PvcPlanJson} `{AnswerJson} `{CopyContracts} `{PlanJson} `{ReceiptJson}.
(** The decoder of the fence profile, its text, and the orders of maps and of
    concurrent answers. *)
Variable decode : string -> option (list ReviewedAdmissionFenceRef) * bool.
Variable fences : string.
Variable fence_order : list (string * string) -> list (string * string).
Variable pod_order : list (string * ownedPod) -> list (string * ownedPod).
Variable arrival : list ownedPod -> list ownedPod.
Implicit Types (cfg : runnerConfig json) (command : RunnerCommand Y X I RestorePlan CopyPlan C).

(** The error of a volume copy; its text is not part of the result. *)
Definition volume_error (e : copy_failure) : go_error :=
  errorf (match e with Refused message => message | Failed _ => "PVC copy" end).
Definition on_restore cfg command : prog restore_call (result error unit) :=
  executeRunnerMySQLRestore pod_order arrival cfg command (Some (canRunHelmInNamespace cfg)).
Definition on_volume cfg command : prog kube_call (result copy_failure unit) :=
  executeRunnerPVCCopy decode fence_order fences cfg command (Some (canRunHelmInNamespace cfg)).
Definition part cfg command R (c : sys R) : prog whole R :=
  match c in sys R return prog whole R with
  | SysRestore =>
      r <-- handle (fun R c => call (@OnRestore R c)) (on_restore cfg command);;
      Ret (match r with Ok _ => None | Err e => Some e end)
  | SysCopyPVC =>
      r <-- handle (fun R c => call (@OnVolume R c)) (on_volume cfg command);;
      Ret (match r with Ok _ => None | Err e => Some (volume_error e) end)
  | SysCapture => handle (fun R c => call (@OnCapture R c)) (attemptRunnerStorageCleanupCapture cfg command)
  | SysCommand c => call (OnSys (SysCommand c))
  | TempValues payload => call (OnSys (TempValues payload))
  | RemoveTemp name => call (OnSys (RemoveTemp name))
  | SysCrash => call (OnSys SysCrash)
  end.
(** [executeRunnerCommandForConfig] *)
Definition executeRunnerCommand cfg command : prog whole RunnerCommandResult :=
  handle (part cfg command) (executeRunnerCommandForConfig cfg command).

(** ** Lemmas *)

(** Which part a call is for. *)
Inductive part_kind : Type := RestorePart | VolumePart | CapturePart.
Definition sys_kind {R} (c : sys R) : option part_kind :=
  match c with SysRestore => Some RestorePart | SysCopyPVC => Some VolumePart | SysCapture => Some CapturePart | _ => None end.
Definition run_kind {R} (c : run_call Y R) : option part_kind :=
  match c with Restore => Some RestorePart | CopyPVC => Some VolumePart | Capture => Some CapturePart | _ => None end.
Definition plain R (c : sys R) : Prop := sys_kind c = None.
Lemma helm_plain R (op : helm_op R) : only plain (helm_sys op).
Proof. unfold helm_sys, on_sys. apply (only_handle (fun _ _ => True)); [done|]. induction (cli true R op); cbn; auto. Qed.
Lemma handled_plain {E : Type -> Type} {A} (f : forall R, E R -> prog sys R) (p : prog E A) :
  (forall R e, only plain (f R e)) -> only plain (handle f p).
Proof. intros Hf. apply (only_handle (fun _ _ => True)); [by intros R e _|]. induction p; cbn; auto. Qed.
Lemma direct_plain R (op : direct_op R) : only plain (direct_sys op).
Proof. destruct op; [apply helm_plain|by split..]. Qed.
Lemma plain_calls R (c : run_call Y R) : run_kind c = None -> only plain (runner_sys c).
Proof.
  destruct c; intros Hk; try discriminate Hk; cbn [runner_sys]; try (by split); try done; try apply helm_plain;
    apply handled_plain; intros; first [apply direct_plain|apply helm_plain].
Qed.
Definition head_kind (t : list (event sys)) : option part_kind := match t with @Event _ _ c _ :: _ => sys_kind c | [] => None end.
Lemma part_source R (c : run_call Y R) r l R' (e : sys R') r' l' :
  exec (runner_sys c) (l ++ Event e r' :: l') r -> sys_kind e <> None -> l = [] /\ run_kind c = sys_kind e.
Proof.
  intros Hx He. destruct (run_kind c) as [k|] eqn:Ek.
  - assert (Hone : forall d : sys R, sys_kind d = Some k -> exec (call d) (l ++ Event e r' :: l') r -> l = [] /\ Some k = sys_kind e).
    { intros d Hd Hd'%exec_call. destruct l as [|ev l1]; [|by destruct l1]. split; [done|].
      apply (f_equal head_kind) in Hd'. cbn in Hd'. congruence. }
    destruct c; try discriminate Ek; cbn [runner_sys] in Hx; by eapply Hone, Hx.
  - pose proof (exec_only _ _ _ _ (plain_calls _ _ Ek) Hx) as Hf. apply Forall_app in Hf as [_ Hf]. by inversion_clear Hf.
Qed.

(** What is true before a call of a part, [u] being what that part did before. *)
Definition restore_before cfg command (u : list (event restore_call)) R (c : restore_call R) : Prop :=
  exists plan, accepted_restore cfg command (Some (canRunHelmInNamespace cfg)) plan
    /\ match c with
       | OnAuthority _ => True
       | OnCopy c => (forall r, ~ asks (Event c r)) -> exists item u0 u1, In item (Mp_Items plan) /\ u = u0 ++ u1 /\ copies cfg command plan item u1 _ c
       end.
Definition volume_before cfg command (u : list (event kube_call)) R (c : kube_call R) : Prop :=
  PvcDomain.writes R c -> exists plan sources, accepted_request cfg command (Some (canRunHelmInNamespace cfg)) plan sources
    /\ authority_seen decode fences cfg command plan u
    /\ forall item is_source, In item (Cp_Items plan) -> dry_ran (copy_executor cfg command plan sources) plan u item is_source.
Definition capture_before cfg command R (c : capture_call R) : Prop :=
  match c with CaPost q => sendable cfg command q | _ => True end.
Definition part_justified cfg command (t : list (event whole)) (ev : event whole) : Prop :=
  match ev with
  | @Event _ R c r =>
      match c with
      | OnSys c => sys_confined (RunnerDispatch.permitted cfg) _ c
      | OnRestore c => Rc_Operation command = RunnerOperationRestoreMySQL
          /\ exists u, t = map (rename_event (@OnRestore)) u /\ restore_before cfg command u _ c
      | OnVolume c => Rc_Operation command = RunnerOperationMaterializePVC
          /\ exists u, t = map (rename_event (@OnVolume)) u /\ volume_before cfg command u _ c
      | OnCapture c => capture_before cfg command _ c
      end
  end.

Hypothesis fence_perm : forall l, Permutation (fence_order l) l.
Hypothesis pod_perm : forall l, Permutation (pod_order l) l.
Hypothesis arrival_perm : forall l, Permutation (arrival l) l.

Lemma restore_part cfg command t a u R (c : restore_call R) r u' :
  exec (on_restore cfg command) t a -> t = u ++ Event c r :: u' -> restore_before cfg command u R c.
Proof.
  unfold on_restore, executeRunnerMySQLRestore. intros Hx Ht.
  destruct (restore_request cfg command _) as [plan|e] eqn:Er; [|destruct Hx as [-> _]; by destruct u].
  exists plan. split; [by apply restore_request_ok|]. destruct c as [R c|]; [|done]. intros Hc.
  destruct (restore_items_call _ _ pod_perm arrival_perm _ _ _ _ _ _ _ _ _ _ _ Hx Ht (Hc r)) as (d & item & rest & u0 & u1 & Hi & Hu & Hcop).
  exists item, u0, u1. split; [|done]. rewrite Hi. apply in_or_app. right. by left.
Qed.
Lemma capture_part cfg command t a u R (c : capture_call R) r u' :
  exec (attemptRunnerStorageCleanupCapture cfg command) t a -> t = u ++ Event c r :: u' -> capture_before cfg command R c.
Proof.
  intros (v1 & v2 & reason & -> & Hx & [-> _])%exec_bind Ht. rewrite app_nil_r in Ht. subst v1.
  destruct c as [|R h|q]; [done|done|]. cbn [capture_before].
  destruct (captured cfg command _ _ Hx) as [[Hp _]|(q' & b & Hp & Hs & _)]; rewrite omap_app in Hp; cbn [omap list_omap posted] in Hp.
  - by destruct (omap posted u).
  - destruct (omap posted u) as [|x l]; [by injection Hp as -> _ _|]. injection Hp as _ Hp. by destruct l.
Qed.
Lemma justified_kind cfg command na R h (c : run_call Y R) : justified cfg command na R h c ->
  match run_kind c with
  | Some RestorePart => h = [] /\ Rc_Operation command = RunnerOperationRestoreMySQL
  | Some VolumePart => h = [] /\ Rc_Operation command = RunnerOperationMaterializePVC
  | _ => True
  end.
Proof. by destruct c. Qed.

Lemma exec_mapped {E : Type -> Type} {A B} (p : prog E A) (g : A -> B) t b : exec (r <-- p;; Ret (g r)) t b -> exists a, exec p t a.
Proof. intros (u1 & u2 & a & -> & Hp & [-> _])%exec_bind. exists a. by rewrite app_nil_r. Qed.
(** A call of a part: what the execution of that part did before is everything
    that left the process before. *)
Lemma part_calls cfg command t r t1 ev t2 : exec (executeRunnerCommand cfg command) t r -> t = t1 ++ ev :: t2 ->
  accepted cfg command /\ exists R (c : sys R) t3 t4 t5 x, t1 = t3 ++ t4 /\ exec (part cfg command R c) (t4 ++ ev :: t5) x
    /\ match sys_kind c with
       | Some RestorePart => t3 = [] /\ Rc_Operation command = RunnerOperationRestoreMySQL
       | Some VolumePart => t3 = [] /\ Rc_Operation command = RunnerOperationMaterializePVC
       | Some CapturePart => True
       | None => sys_confined (RunnerDispatch.permitted cfg) _ c
       end.
Proof.
  intros (t0 & Hx & Hc)%exec_handle Ht.
  destruct (carried_before _ _ _ Hc _ _ _ Ht) as (ta & R & c & x & tb & t3 & t4 & t5 & -> & Hca & -> & Hp).
  pose proof (exec_only _ _ _ _ (commands_confined cfg command) Hx) as Hconf.
  apply Forall_app in Hconf as [_ Hconf%Forall_inv]. apply exec_handle in Hx as (tr & Hx & Hr).
  destruct (carried_before _ _ _ Hr _ _ _ eq_refl) as (tc & R' & c' & x' & td & ta' & ta'' & tb' & -> & Hcc & -> & Hp').
  destruct (justified_before _ _ _ _ _ _ _ _ _ _ Hx eq_refl) as [Hj%justified_kind Hacc]. split; [done|].
  exists R, c, t3, t4, t5, x. split; [done|]. split; [done|].
  destruct (sys_kind c) as [k|] eqn:Ek; [|done].
  destruct (part_source _ _ _ _ _ _ _ _ Hp' ltac:(by rewrite Ek)) as [-> Hk]. rewrite Hk, Ek in Hj.
  assert (Hn : tc = [] -> t3 = []).
  { intros ->. inversion Hcc; subst. by inversion Hca. }
  destruct k; [|..|done]; by destruct Hj as [?%Hn ?].
Qed.

(** The one call of an operation that is a part, in what left the process. *)
Lemma part_alone cfg command t r R (c : run_call Y R) (d : sys R) x :
  exec (executeRunnerCommand cfg command) t r ->
  (forall t', exec (executeRunnerCommandWithNamespaceGuard cfg command (Some (canRunHelmInNamespace cfg))) t' r -> t' = [Event c x]) ->
  runner_sys c = call d -> exec (part cfg command R d) t x.
Proof.
  intros (t0 & (tr & Hx & Hr)%exec_handle & Hc)%exec_handle Hone Hd. apply Hone in Hx as ->.
  apply carried_one in Hr. rewrite Hd in Hr. apply exec_call in Hr as ->. by apply carried_one in Hc.
Qed.
Lemma mapped_ok {E F : Type -> Type} {A Z W} (f : forall R, E R -> F R) (p : prog E (result A Z)) (g : A -> W) t :
  exec (r <-- handle (fun R e => call (f R e)) p;; Ret (match r with Ok _ => None | Err e => Some (g e) end)) t None ->
  exists u z, t = map (rename_event f) u /\ exec p u (Ok z).
Proof.
  intros (u1 & u2 & [z|e] & -> & (u & -> & Hu)%exec_renamed & [-> Hn])%exec_bind; [|discriminate Hn]. exists u, z.
  by rewrite app_nil_r.
Qed.

(** ** Properties *)

(** C27: What leaves a process that runs a command is justified when it leaves:
    the command was accepted (a verified release plan, no sensitive value, a
    configuration of the contract, an inventory for cleanup that the contracts
    accept), and a call of helm or kubectl only reads, or changes a namespace that
    the runner may write to; a call of a copy of databases or volumes is one that
    this operation asks for, and everything that left before is what that copy did
    before, which shows the namespaces and the identity granted, the authority read
    anew, and for a write to a volume the dry runs of all items; and the control
    plane is asked for a capture only by a command that removes something, for the
    identity of this runner. *)
Theorem command_justified cfg command t r t1 ev t2 (Hx : exec (executeRunnerCommand cfg command) t r) (Ht : t = t1 ++ ev :: t2) :
  accepted cfg command /\ part_justified cfg command t1 ev.
Proof.
  destruct (part_calls _ _ _ _ _ _ _ Hx Ht) as (Hacc & R & c & t3 & t4 & t5 & x & -> & Hp & Hk). split; [done|]. clear Hx Ht.
  assert (Hsys : forall R (d : sys R) x', exec (call (OnSys d)) (t4 ++ ev :: t5) x' -> sys_confined (RunnerDispatch.permitted cfg) _ d ->
                 part_justified cfg command (t3 ++ t4) ev).
  { intros R1 d x' Hd%exec_call Hs. destruct t4 as [|ev4 t4]; [|by destruct t4]. by injection Hd as -> _. }
  destruct c; cbn [part sys_kind] in Hp, Hk; try (by eapply Hsys).
  - destruct Hk as [-> Hop]. apply exec_mapped in Hp as (a & Hp).
    destruct (renamed_at _ _ _ _ _ _ _ Hp eq_refl) as (u1 & R' & e & r' & u2 & He & -> & ->). split; [done|].
    exists u1. split; [done|]. by eapply restore_part.
  - destruct Hk as [-> Hop]. apply exec_mapped in Hp as (a & Hp).
    destruct (renamed_at _ _ _ _ _ _ _ Hp eq_refl) as (u1 & R' & e & r' & u2 & He & -> & ->). split; [done|].
    exists u1. split; [done|]. intros Hw. by eapply (authorized_before decode fences fence_order cfg command).
  - destruct (renamed_at _ _ _ _ _ _ _ Hp eq_refl) as (u1 & R' & e & r' & u2 & He & -> & ->). by eapply capture_part.
Qed.

(** C28: A command that reports a verified copy is complete: all that left the
    process is that copy, with the command's request accepted and an authority that
    agreed; of databases, item after item in the order of the plan, each with a
    copy that returned a receipt for the plan of that item; of volumes, after checks that wrote
    nothing and admitted a dry run of every item, item after item in the order of the plan, each with the calls of a whole execution of [Execute], which
    returned its marker, on a target that was found or made there. *)
Theorem verified_complete cfg command t r (Hnd : NoDup case_names) (Hx : exec (executeRunnerCommand cfg command) t r) :
  (Re_MySQLRestoreVerified r = true -> exists plan ts, accepted_restore cfg command (Some (canRunHelmInNamespace cfg)) plan
     /\ t = map (rename_event (@OnRestore)) (concat ts)
     /\ Forall2 (restored_item pod_order arrival cfg command plan) (Mp_Items plan) ts)
  /\ (Re_PVCCopyVerified r = true -> exists plan sources before copies,
        accepted_request cfg command (Some (canRunHelmInNamespace cfg)) plan sources
        /\ t = map (rename_event (@OnVolume)) (before ++ concat (map fst copies))
        /\ checked_here decode fences cfg command plan sources before
        /\ Forall2 (fun item c => copied_here decode fences fence_order cfg command plan sources item c.1 c.2) (Cp_Items plan) copies).
Proof.
  split; intros Hv.
  - pose proof (part_alone _ _ _ _ _ Restore SysRestore None Hx
      ltac:(by intros t' (_ & Hr & _)%result_consistent; apply Hr) eq_refl) as Hp.
    apply (mapped_ok _ _ (fun e => e)) in Hp as (u & [] & -> & Hu).
    destruct (restore_complete _ _ pod_perm _ _ _ _ Hu) as (plan & ts & Hacc & -> & Hf). by exists plan, ts.
  - pose proof (part_alone _ _ _ _ _ CopyPVC SysCopyPVC None Hx
      ltac:(by intros t' (_ & _ & Hr)%result_consistent; apply Hr) eq_refl) as Hp.
    apply mapped_ok in Hp as (u & [] & -> & Hu).
    destruct (copy_completed _ _ _ _ _ _ _ fence_perm Hu) as (plan & sources & before & copies & Hacc & -> & Ha & Hf).
    by exists plan, sources, before, copies.
Qed.
End Whole.

(** ** Witnesses *)

(** The sample copy of a volume, from the command on: a runner that may write to
    the environment's namespace, and an authority and a cluster that agree. *)
Definition whole_vars (key : string) : option string :=
  if str_eq key "ENVPLANE_FEATURE_ENV_WRITER_NAMESPACES" then Some "env" else copy_vars key.
Definition whole_config : runnerConfig json :=
  (run sample_host [] (runnerConfigFromEnv (H := zero_hash) (H0 := no_sources) whole_vars)).2.
Definition whole_command : RunnerCommand unit unit unit RestorePlan CopyPlan unit := {|
  Rc_ID := "c1"; Rc_AttemptID := "a1"; Rc_ProjectID := "p"; Rc_ClusterID := "default"; Rc_RunnerID := "runner-0";
  Rc_Operation := "materialize_pvc"; Rc_Environment := copy_env; Rc_ProjectConfig := Rc_ProjectConfig copy_command;
  Rc_ProjectConfigVersion := 1; Rc_CleanupInventory := []; Rc_ChartRef := ""; Rc_ChartVersion := ""; Rc_ReleasePlanID := "";
  Rc_ReleasePlanDigest := ""; Rc_ReleasePlanSignature := ""; Rc_ReleasePlanKeyID := ""; Rc_ReleasePlanPublicKey := "";
  Rc_ReleasePlanTransportVersion := ""; Rc_ReleasePlan := None; Rc_MySQLRestorePlan := None;
  Rc_PVCCopyPlan := Some sample_copy_plan; Rc_RemoteClusterGeneration := 0; Rc_RunnerIdentityIssuedAt := None |}.
Definition whole_contracts : Contracts unit unit unit RestorePlan CopyPlan unit := {|
  DefaultTenantID := "t"; ReleasePlanTransportVersion := "2"; RunnerOperationRestoreMySQL := "restore_mysql";
  RunnerOperationMaterializePVC := "materialize_pvc"; base64_decode := fun _ => None;
  VerifyReleasePlanReference := fun _ _ _ _ _ _ => None; ReleasePlanExecutionInputDigest := fun _ _ _ _ _ => Ok "";
  ValidateCleanupInventory := fun _ _ _ _ => None; mysql_plan_digest := Mp_Digest; pvc_plan_digest := Cp_Digest |}.
Definition whole_restores : RestoreContracts json unit := {|
  MySQLRestoreContractVersion := "v1"; restore_Validate := fun _ => true; restore_sources := fun _ => None;
  BackupAdminSecretRef := fun _ => None; ValidateMySQLRestorePlan := fun _ _ _ => Ok tt |}.
Fixpoint volume_history (h : list (event whole)) : list (event kube_call) :=
  match h with
  | [] => []
  | @Event _ R c r :: h' =>
      match c in whole R return R -> list (event kube_call) -> list (event kube_call) with
      | OnVolume c => fun r t => Event c r :: t
      | _ => fun _ t => t
      end r (volume_history h')
  end.
(** Nothing answers the other parts. *)
Definition whole_answers (R : Type) (h : list (event whole)) (c : whole R) : option R :=
  match c in whole R return option R with
  | OnVolume c => Some (runner_cluster _ (volume_history h) c)
  | _ => None
  end.
#[local] Existing Instances whole_contracts copy_constants whole_restores zero_hash no_text in_quotes runner_texts sample_plan_json
  complete_answers lenient_contracts simple_url any_certificates sample_kube sample_refs sample_templates sample_statuses sample_codec
  sample_env_files sample_yaml SqlExecutor.sample_json SqlCopy.sample_receipts.
Definition whole_request : prog whole RunnerCommandResult :=
  executeRunnerCommand no_profile "" (fun l => l) (fun l => l) (fun l => l) whole_config whole_command.
Definition whole_run := try_run whole_answers [] whole_request.
Definition trace_of {A} (ran : option (list (event whole) * A)) : list (event whole) := match ran with Some (t, _) => t | None => [] end.
Definition result_of {A} (default : A) (ran : option (list (event whole) * A)) : A := match ran with Some (_, r) => r | None => default end.
Definition whole_trace : list (event whole) := trace_of whole_run.
Definition whole_result : RunnerCommandResult := result_of (first_result whole_command) whole_run.
Lemma whole_succeeds : Re_Status whole_result = "succeeded" /\ Re_PVCCopyVerified whole_result = true /\ length whole_trace = 111%nat.
Proof. vm_compute. done. Qed.
Lemma whole_exec : exec whole_request whole_trace whole_result.
Proof.
  assert (Hs : is_Some whole_run) by (apply (bool_decide_unpack _); vm_compute; exact Logic.I).
  unfold whole_trace, whole_result. revert Hs. unfold whole_run. intros [[t r] E]. rewrite E. exact (try_run_exec _ _ _ _ _ E).
Qed.
(** The claim of the item, the first change, comes after the namespace was read and found to be the environment's. *)
Lemma command_justified_witness : accepted whole_config whole_command /\ exists u,
  firstn 24 whole_trace = map (rename_event (@OnVolume)) u /\ namespace_owned (Rc_Environment whole_command) u.
Proof.
  assert (Ht : whole_trace = firstn 24 whole_trace
            ++ Event (OnVolume (KRun (claim_args "env") (Some (claim_manifest sample_copy_plan sample_item)))) (Ok (chars "target"))
               :: skipn 25 whole_trace) by (vm_compute; reflexivity).
  destruct (command_justified no_profile "" (fun l => l) (fun l => l) (fun l => l) (fun l => Permutation_refl l)
              (fun l => Permutation_refl l) (fun l => Permutation_refl l) whole_config whole_command _ _ _ _ _ whole_exec Ht)
    as (Hacc & _ & u & Hu & Hv). split; [exact Hacc|]. exists u. split; [exact Hu|].
  destruct Hv as (plan & sources & _ & [Hn _] & _); [|exact Hn].
  split; [discriminate|]. intros Hin. vm_compute in Hin. destruct_or? Hin; discriminate || done.
Defined.
Lemma verified_complete_witness : exists sources before u m, whole_trace = map (rename_event (@OnVolume)) (before ++ u)
  /\ copied_here no_profile "" (fun l => l) whole_config whole_command sample_copy_plan sources sample_item u m.
Proof.
  assert (Hnd : NoDup case_names) by (apply (bool_decide_unpack _); vm_compute; exact Logic.I).
  destruct (proj2 (verified_complete no_profile "" (fun l => l) (fun l => l) (fun l => l) (fun l => Permutation_refl l)
              (fun l => Permutation_refl l) whole_config whole_command _ _ Hnd whole_exec) (proj1 (proj2 whole_succeeds)))
    as (plan & sources & before & copies & (Hp & _) & Ht & _ & Hf).
  injection Hp as <-. inversion Hf as [|i [u m] is_ cs Hc Hn]; subst. inversion Hn; subst.
  cbn [map fst snd concat] in Ht, Hc. rewrite app_nil_r in Ht. exists sources, before, u, m. split; [exact Ht|exact Hc].
Defined.
